(* ===== verification/_CoqProject ===== *)
-Q . S2P
Prelude.v
NetBytes.v
Network.v
NetworkSpec.v
NetworkRoundTrip.v
Scheduler.v
SchedulerSpec.v
Init.v
InitSpec.v
BoundedTable.v
BoundedTableSpec.v
Ramfs.v
RamfsNames.v
RamfsSpec.v
RamfsTheorems.v
Surface.v
SurfaceSpec.v
Capability.v
CapabilitySpec.v
Ring.v
Input.v
InputSpec.v
LittleEndian.v
Elf64.v
Elf64Spec.v
Ipc.v
IpcSpec.v
PhysicalMemory.v
UserMemory.v
UserMemorySpec.v
FramePool.v
Paging.v
FrameOwnership.v
AddressSpace.v
AnonymousSpec.v
FrameInvariant.v
SurfaceMapSpec.v
PagingSpec.v
MemoryInvariant.v
SurfaceMapping.v
UserAccess.v
MemoryTheorems.v
BootMemory.v
AnonymousTheorems.v
Kernel.v
Spawn.v
FrameBytes.v
SpawnSpec.v
LargeCodeSpec.v
KernelSpec.v
ProcessExit.v
NewHandles.v
KernelMemory.v
WaitRoles.v
SystemInvariant.v
KernelTheorems.v
Syscalls.v
SpawnCalls.v
SyscallsSpec.v
CallRules.v
SystemSafety.v
SpawnTheorems.v
SpawnSafety.v
SystemRun.v
SystemBoot.v
SpawnBoot.v
SystemLive.v
SurfaceTail.v
