(* ===== verification/Prelude.v ===== *)
(** * A verification of the DemonOS kernel's core

    DemonOS is a small x86-64 kernel with a ring-3 user space. This development
    models the parts of it that hold state and enforce rules, as executable
    definitions translated from the C and C++ sources, and proves the properties
    that make them correct.

    ** Conventions

    A C array is a list and an access is an [option]: [None] stands for what the
    C language leaves undefined (an access outside the array, a null or dangling
    pointer), so a theorem that says a routine returns [Some] says it never
    leaves its buffers. Unsigned integers are [Z] with the wrap-around written
    where the code can wrap ([u8], [u16], [u32], [u64]). A null pointer argument
    is [None]; an out-pointer is a result. Loops are structural on the number of
    rounds the code's own bound gives, or take fuel; every theorem about a loop
    with fuel also proves that the fuel given by the definition is enough.
    State that routines share is threaded explicitly.

    ** The parts and their files

    - [Prelude]: integers, checked arrays, counted loops, the [succeeds] rules,
      tactics.
    - [NetBytes], [Network] (src/src/network.c): Ethernet, ARP, IPv4, UDP, DHCP,
      DNS, TCP and the HTTP state of the network stack. [NetworkSpec]: the
      receive path stays inside any frame; ARP learning; what an HTTP response
      publishes. [NetworkRoundTrip]: frames built by one host are accepted and
      understood by another.
    - [Scheduler] (src/src/scheduler.c): tasks, dispatch, wake-ups, waiting and
      termination, with the FPU registers and the ring-0 stack as state; the
      services it calls on a task's death are the class [TaskServices].
      [SchedulerSpec]: the invariant of every reachable state, FPU isolation,
      round-robin fairness under yields and timer ticks, timer expiry, wake-ups.
    - [Init] (src/src/init.c): the units of the init system. [InitSpec]: starts
      terminate and respect dependencies, booting, stopping.
    - [BoundedTable] (src/include/kernel/bounded_table.h) and [Ramfs]
      (src/src/ramfs.cpp): the name table and the RAM file system.
      [BoundedTableSpec]: the table is a finite map. [RamfsNames],
      [RamfsSpec], [RamfsTheorems]: the name grammar, refinement of a map from
      ids to names and contents, when writes succeed, directory listings.
    - [Surface] (src/src/surface.c) and [SurfaceSpec]: the pixel arena, its
      first-fit allocation, reference counts and damage rectangles.
    - [Capability] (src/src/capability.cpp, src/include/kernel/slot_table.h) and
      [CapabilitySpec]: handles with generations, rights, grants, and the
      reference counts they keep on surfaces.
    - [Ring], [Input] (src/src/input.c) and [InputSpec]: the event queue.
    - [LittleEndian], [Elf64] (src/src/elf64.c) and [Elf64Spec]: layout and
      loading of executables, flat and through a list of pages.
    - [Ipc] (src/src/ipc.c: channel data) and [IpcSpec]; [UserMemory]
      (src/src/arch/x86_64/userspace.c: frames, anonymous memory, range checks,
      copies, surface mappings) and [UserMemorySpec].
    - Physical memory. [PhysicalMemory]: memory by pages, the processor's walk of
      the page tables in it, and the bytes user addresses name; every access of
      the kernel to user memory goes through it. [FramePool]: the frames the allocator can still hand out,
      as a list. [FrameOwnership]: which frames a process owns and in which role,
      read off its tables. [AddressSpace]: the tables and frames of the process
      slots. [AnonymousSpec], [FrameInvariant], [SurfaceMapSpec]:
      what each memory call does to one process's tables and to the pool.
      [MemoryInvariant], [SurfaceMapping], [MemoryTheorems]: the invariant over
      all processes, with the reference counts of mapped surfaces, and that every
      memory call keeps it. [UserAccess]: an address range the checks of a system
      call accept is mapped, to frames that hold data of that process alone.
      [Paging] (src/mako/kernel_probe.mko, src/src/kernel.c):
      the boot page tables and process slots;
      [PagingSpec], [BootMemory]: what those tables map (besides the memory of a
      process, the first gigabyte at its own address, which user code may write),
      that boot establishes the invariant, and that physical memory stays partitioned
      from then on. Theorems about a process's address space are about
      [PhysicalMemory.translate], the walk the processor does, huge pages included.
      [AnonymousTheorems]: when mapping and committing succeed, and how they change
      the translation of every address of the window.
    - [Kernel] (src/src/ipc.c, src/src/input.c, userspace.c): the operations in
      which components meet, over one record [subsystems], and the instance of
      [TaskServices]. [KernelSpec], [ProcessExit], [KernelTheorems]: message
      passing end to end, and what a process's death releases. [KernelMemory]:
      the joint invariant of messages, capabilities, surfaces and memory, which is
      the interface the scheduler's theorems assume.
    - [Syscalls] (userspace.c: syscall_dispatch) and [SyscallsSpec]: the table of
      system calls over all of the above, and that the file system changes only
      through a capability, with the effect of each call on it. What a call reads of
      the machine and does not keep (ticks, clock registers, battery and mode flags, the
      bytes that pad a structure) is the record [environment], an argument.
    - The running system. [NewHandles]: which handles each call opens. [WaitRoles]:
      who waits for what, in the scheduler and in the channels. [SystemInvariant]:
      the invariant of scheduler and subsystems together, kept by every handler of
      the scheduler. [CallRules]: rules for the steps of a system call.
      [SystemSafety]: every system call keeps the invariant. [SystemRun]: traps,
      stores of user code in the memory it was given, timer interrupts and devices, in
      any order; a store elsewhere (the first gigabyte is open to user code) or a call
      into a driver ends the run that is followed. [SystemBoot]: the state after boot.
      [SystemLive]: the theorems about the running system, from its first two
      processes on, in which processes spawn others, exit and are reaped.
    - Programs. [Spawn] (userspace.c: load_process, large_code_load, userspace_init)
      and [SpawnCalls] (userspace_spawn_path and the two calls that spawn): an image is copied into the
      frames of a slot, the slot is mapped and a task made for it. Frames are written
      at their physical addresses through the current address space: the kernel's maps
      all of them to themselves, a process's only from 4 MiB up to the anonymous
      window, and [Spawn.load_process] is undefined for a slot elsewhere;
      [SpawnBoot] proves that boot places every slot there.
      [FrameBytes], [SpawnSpec], [LargeCodeSpec]: frames by bytes, slots, large
      executables. [SpawnTheorems]: what a loaded program finds in memory.
      [SpawnSafety]: a spawned program takes the first free slot or none, and the
      spawning calls keep the system's invariant. [SpawnBoot]: the first two
      processes, and when loading succeeds.
      [SurfaceTail]: addresses of a surface slot that no page backs.

    ** What the theorems show

    Safety of parsers of foreign data (network frames, ELF images, file names);
    state invariants of the scheduler, the surfaces, the capability tables and
    the channels under every operation, lifted to sequences of operations;
    refinement of abstract specifications (the input queue is a bounded list with
    motion coalescing, the file system a map, a channel a bounded FIFO);
    equivalence with reference definitions (path grammar, page-list loading
    against flat loading); round trips; authority (who may receive, read, write);
    and, as theorems about what the code does, the defects found.

    ** Bounds and fuel

    Table sizes are those of the sources (8 processes, 8 handles each, 16
    channels of 32 messages, 56 files in 1 MiB, the surface arena as a list of its
    pixels). [Init.start_fuel] is the depth limit of the code plus one;
    [Surface.find_offset] gets one round per 1024-pixel step of the arena; the
    copy loops get one round per chunk, plus one.

    ** Not modelled

    The six system calls that enter a driver (19 and 35 draw, 32 moves the cursor, 33
    and 36 fetch and read a page over HTTP, 45 plays samples; [SpawnCalls.driver_calls]).
    Drivers and what reaches them (framebuffer, display, audio, AHCI, e1000,
    UHCI, PCI, serial hardware), because they are port and memory-mapped I/O; the
    interrupt entry code in assembly; page tables other than those the modelled
    operations write; the
    text shells and applications built over these services; the Mako tools, the
    Rust and C++ desktop, and the ports of other programs. Assembly is modelled
    only by its effect on the state above (CR3, FXSAVE areas). The translation
    buffers (TLB) and non-canonical addresses are not modelled: every access walks
    the tables.

    This file holds the shared vocabulary: machine-width integers, byte arrays
    with checked accesses, counted loops, and the lemmas and automation about
    them. *)

From stdpp Require Export base list numbers option.
From Stdlib Require Export ZArith Lia.

#[global] Open Scope Z_scope.

(** ** Machine-width integers *)

Definition u8 (z : Z) : Z := z mod 256.
Definition u16 (z : Z) : Z := z mod 65536.
Definition u32 (z : Z) : Z := z mod 4294967296.
Definition u64 (z : Z) : Z := z mod 18446744073709551616.

Definition U32_MAX : Z := 4294967295.
Definition U64_MAX : Z := 18446744073709551615.

(** Conversion to [int32_t] (two's complement). *)
Definition s32 (z : Z) : Z :=
  let m := u32 z in if m <? 2147483648 then m else m - 4294967296.

Definition is_byte (z : Z) : Prop := 0 <= z < 256.
Definition is_u16 (z : Z) : Prop := 0 <= z < 65536.
Definition is_u32 (z : Z) : Prop := 0 <= z < 4294967296.
Definition is_u64 (z : Z) : Prop := 0 <= z < 18446744073709551616.
Definition bytes_ok (l : list Z) : Prop := Forall is_byte l.

(** ** Arrays *)

Section arrays.
Context {A : Type}.

(** [a[i]], undefined outside the array. *)
Definition aget (a : list A) (i : Z) : option A :=
  if 0 <=? i then a !! Z.to_nat i else None.

(** [a[i] = v], undefined outside the array. *)
Definition aset (a : list A) (i : Z) (v : A) : option (list A) :=
  if (0 <=? i) && (i <? Z.of_nat (length a))
  then Some (<[Z.to_nat i := v]> a) else None.

(** [for (j = 0; j < n; ++j) dst[d + j] = src[s + j];] *)
Fixpoint copy_into (dst : list A) (d : Z) (src : list A) (s : Z) (n : nat)
  : option (list A) :=
  match n with
  | O => Some dst
  | S n' =>
      v ← aget src s; dst' ← aset dst d v;
      copy_into dst' (d + 1) src (s + 1) n'
  end.

(** [for (j = 0; j < n; ++j) dst[d + j] = v;] *)
Fixpoint fill (dst : list A) (d : Z) (v : A) (n : nat) : option (list A) :=
  match n with
  | O => Some dst
  | S n' => dst' ← aset dst d v; fill dst' (d + 1) v n'
  end.

End arrays.

(** [n] rounds of [f] with the counter running upwards from [i]. *)
Fixpoint for_up {S : Type} (n : nat) (i : Z) (f : Z -> S -> option S) (s : S)
  : option S :=
  match n with
  | O => Some s
  | Datatypes.S n' => s' ← f i s; for_up n' (i + 1) f s'
  end.

Declare Scope kernel_scope.
Delimit Scope kernel_scope with kernel.
Notation "a .[ i ]" := (aget a i)
  (at level 1, left associativity, format "a .[ i ]") : kernel_scope.
Notation "a .[ i <- v ]" := (aset a i v)
  (at level 1, left associativity, format "a .[ i  <-  v ]") : kernel_scope.
#[global] Open Scope kernel_scope.

(** ** Automation *)

Create HintDb kernel discriminated.
#[export] Hint Unfold is_byte is_u16 is_u32 is_u64 : kernel.

(** [lia] with [/] and [mod] by literals eliminated first. *)
Ltac zlia := Z.to_euclidean_division_equations; lia.

(** Case analysis on the boolean tests of the goal, with the tests turned into
    propositions. *)
Ltac b2p :=
  repeat match goal with
  | H : _ && _ = true |- _ => apply andb_true_iff in H as [? ?]
  | H : _ || _ = false |- _ => apply orb_false_iff in H as [? ?]
  | H : negb _ = true |- _ => apply negb_true_iff in H
  | H : negb _ = false |- _ => apply negb_false_iff in H
  | H : (_ <? _) = true |- _ => apply Z.ltb_lt in H
  | H : (_ <? _) = false |- _ => apply Z.ltb_ge in H
  | H : (_ <=? _) = true |- _ => apply Z.leb_le in H
  | H : (_ <=? _) = false |- _ => apply Z.leb_gt in H
  | H : (_ =? _) = true |- _ => apply Z.eqb_eq in H
  | H : (_ =? _) = false |- _ => apply Z.eqb_neq in H
  end.

(** Split the first [if] or [match] of the goal and clean up. *)
Ltac case_step := case_match; b2p; simplify_eq/=; try done.

(** Peel the binds of a hypothesis [e = Some _]. *)
Ltac peel H :=
  repeat match type of H with
  | mbind _ ?e = Some _ =>
      let x := fresh "v" in let Hx := fresh "Hv" in
      destruct e as [x|] eqn:Hx; cbn [mbind option_bind] in H; [|discriminate H]
  end.

(** ** Integer lemmas *)

Lemma u8_range z : is_byte (u8 z).
Proof. unfold u8, is_byte. apply Z.mod_pos_bound. lia. Qed.
Lemma u16_range z : is_u16 (u16 z).
Proof. unfold u16, is_u16. apply Z.mod_pos_bound. lia. Qed.
Lemma u32_range z : is_u32 (u32 z).
Proof. unfold u32, is_u32. apply Z.mod_pos_bound. lia. Qed.
Lemma u64_range z : is_u64 (u64 z).
Proof. unfold u64, is_u64. apply Z.mod_pos_bound. lia. Qed.
Lemma u8_small z : is_byte z -> u8 z = z.
Proof. unfold u8, is_byte. intros. apply Z.mod_small. lia. Qed.
Lemma u16_small z : is_u16 z -> u16 z = z.
Proof. unfold u16, is_u16. intros. apply Z.mod_small. lia. Qed.
Lemma u32_small z : is_u32 z -> u32 z = z.
Proof. unfold u32, is_u32. intros. apply Z.mod_small. lia. Qed.
Lemma u64_small z : is_u64 z -> u64 z = z.
Proof. unfold u64, is_u64. intros. apply Z.mod_small. lia. Qed.
#[export] Hint Resolve u8_range u16_range u32_range u64_range : kernel.

(** A disjoint [|] is an addition. *)
Lemma lor_shiftl_add a b n :
  0 <= n -> 0 <= b < 2 ^ n -> Z.lor (Z.shiftl a n) b = a * 2 ^ n + b.
Proof.
  intros Hn Hb. rewrite <- Z.shiftl_mul_pow2 by done.
  pose proof (Z.add_lor_land (Z.shiftl a n) b) as Hadd.
  assert (Z.land (Z.shiftl a n) b = 0) as Hland; [|lia].
  apply Z.bits_inj'. intros i Hi. rewrite Z.land_spec, Z.bits_0.
  destruct (decide (i < n)).
  - by rewrite Z.shiftl_spec_low.
  - assert (Z.testbit b i = false) as ->; [|by rewrite andb_false_r].
    destruct (decide (b = 0)) as [->|]; [by rewrite Z.bits_0|].
    apply Z.bits_above_log2; [lia|].
    apply Z.lt_le_trans with n; [|lia]. apply Z.log2_lt_pow2; lia.
Qed.

Lemma lor_shiftl_8 a b : is_byte b -> Z.lor (Z.shiftl a 8) b = a * 256 + b.
Proof. intros Hb. rewrite (lor_shiftl_add a b 8); [lia|lia|exact Hb]. Qed.
Lemma shiftr_8 a : Z.shiftr a 8 = a / 256.
Proof. by rewrite Z.shiftr_div_pow2. Qed.
Lemma shiftr_16 a : Z.shiftr a 16 = a / 65536.
Proof. by rewrite Z.shiftr_div_pow2. Qed.
Lemma shiftr_24 a : Z.shiftr a 24 = a / 16777216.
Proof. by rewrite Z.shiftr_div_pow2. Qed.

(** ** Array lemmas *)

Section array_lemmas.
Context {A : Type}.
Implicit Types a b dst src r : list A.

Lemma aget_Some a i v :
  a.[i] = Some v <-> 0 <= i /\ a !! Z.to_nat i = Some v.
Proof.
  unfold aget. destruct (Z.leb_spec 0 i); split; try done; try lia.
  by intros [_ ?].
Qed.

Lemma aget_in a i : 0 <= i < Z.of_nat (length a) -> is_Some a.[i].
Proof.
  intros [Hi Hl]. unfold aget. rewrite (proj2 (Z.leb_le 0 i)) by lia.
  apply lookup_lt_is_Some. lia.
Qed.

Lemma aget_bound a i v : a.[i] = Some v -> 0 <= i < Z.of_nat (length a).
Proof. intros [? H]%aget_Some. apply lookup_lt_Some in H. lia. Qed.

Lemma aget_nat a (i : nat) : a.[Z.of_nat i] = a !! i.
Proof. unfold aget. rewrite (proj2 (Z.leb_le 0 _)) by lia. by rewrite Nat2Z.id. Qed.

Lemma aset_in a i v :
  0 <= i < Z.of_nat (length a) -> a.[i <- v] = Some (<[Z.to_nat i := v]> a).
Proof.
  intros [Hi Hl]. unfold aset.
  by rewrite (proj2 (Z.leb_le 0 i)), (proj2 (Z.ltb_lt i _)).
Qed.

Lemma aset_Some a i v b :
  a.[i <- v] = Some b ->
  0 <= i < Z.of_nat (length a) /\ b = <[Z.to_nat i := v]> a.
Proof. unfold aset. intros H. case_step. Qed.

Lemma aset_length a i v b : a.[i <- v] = Some b -> length b = length a.
Proof. intros [_ ->]%aset_Some. apply length_insert. Qed.

Lemma aget_aset_eq a i v b : a.[i <- v] = Some b -> b.[i] = Some v.
Proof.
  intros [? ->]%aset_Some. apply aget_Some. split; [lia|].
  apply list_lookup_insert_eq. lia.
Qed.

Lemma aget_aset_ne a i j v b : a.[i <- v] = Some b -> i <> j -> b.[j] = a.[j].
Proof.
  intros [? ->]%aset_Some Hij. unfold aget.
  destruct (Z.leb_spec 0 j); [|done]. apply list_lookup_insert_ne. lia.
Qed.

Lemma aget_insert a p q v :
  0 <= p < Z.of_nat (length a) ->
  (<[Z.to_nat p := v]> a).[q] = if decide (q = p) then Some v else a.[q].
Proof.
  intros Hp. pose proof (aset_in a p v Hp) as Hs. case_decide as E.
  - subst. by eapply aget_aset_eq.
  - by eapply aget_aset_ne.
Qed.

Lemma aget_drop a n i : 0 <= i -> (drop n a).[i] = a.[Z.of_nat n + i].
Proof.
  intros Hi. unfold aget. rewrite !(proj2 (Z.leb_le 0 _)) by lia.
  rewrite lookup_drop. f_equal. lia.
Qed.

Lemma aget_app_l a b i : i < Z.of_nat (length a) -> (a ++ b).[i] = a.[i].
Proof.
  intros Hi. unfold aget. destruct (Z.leb_spec 0 i); [|done].
  apply lookup_app_l. lia.
Qed.

Lemma aget_app_r a b i :
  Z.of_nat (length a) <= i -> (a ++ b).[i] = b.[i - Z.of_nat (length a)].
Proof.
  intros Hi. unfold aget. rewrite !(proj2 (Z.leb_le 0 _)) by lia.
  rewrite lookup_app_r by lia. f_equal. lia.
Qed.

Lemma aget_Forall (P : A -> Prop) a i v : Forall P a -> a.[i] = Some v -> P v.
Proof. intros HP [_ H]%aget_Some. by eapply Forall_lookup_1 in H. Qed.

Lemma aset_Forall (P : A -> Prop) a i v b :
  Forall P a -> P v -> a.[i <- v] = Some b -> Forall P b.
Proof. intros HP Hv [_ ->]%aset_Some. by apply Forall_insert. Qed.

(** The copy loop is a splice of the copied block into the destination. *)
Lemma copy_into_spec n dst d src s :
  0 <= s -> s + Z.of_nat n <= Z.of_nat (length src) ->
  0 <= d -> d + Z.of_nat n <= Z.of_nat (length dst) ->
  copy_into dst d src s n =
    Some (take (Z.to_nat d) dst ++ take n (drop (Z.to_nat s) src)
            ++ drop (Z.to_nat d + n) dst).
Proof.
  revert dst d s. induction n as [|n IH]; intros dst d s Hs Hsl Hd Hdl.
  { rewrite Nat.add_0_r. cbn [copy_into fill take replicate app]. f_equal. symmetry.
    exact (take_drop (Z.to_nat d) dst). }
  cbn [copy_into].
  destruct (aget_in src s) as [v Hv]; [lia|]. rewrite Hv. cbn.
  rewrite aset_in by lia. cbn. rewrite IH by (rewrite ?length_insert; lia).
  apply aget_Some in Hv as [_ Hv]. f_equal.
  rewrite (drop_S src v _ Hv). cbn [take].
  replace (Z.to_nat (d + 1)) with (S (Z.to_nat d)) by lia.
  replace (Z.to_nat (s + 1)) with (S (Z.to_nat s)) by lia.
  rewrite (take_S_r _ _ v) by (apply list_lookup_insert_eq; lia).
  rewrite take_insert_ge by lia. rewrite drop_insert_lt by lia.
  rewrite <- app_assoc. cbn. do 3 f_equal. f_equal. lia.
Qed.

Lemma fill_spec n dst d v :
  0 <= d -> d + Z.of_nat n <= Z.of_nat (length dst) ->
  fill dst d v n =
    Some (take (Z.to_nat d) dst ++ replicate n v ++ drop (Z.to_nat d + n) dst).
Proof.
  revert dst d. induction n as [|n IH]; intros dst d Hd Hdl.
  { rewrite Nat.add_0_r. cbn [copy_into fill take replicate app]. f_equal. symmetry.
    exact (take_drop (Z.to_nat d) dst). }
  cbn [fill]. rewrite aset_in by lia. cbn.
  rewrite IH by (rewrite ?length_insert; lia). f_equal.
  replace (Z.to_nat (d + 1)) with (S (Z.to_nat d)) by lia.
  rewrite (take_S_r _ _ v) by (apply list_lookup_insert_eq; lia).
  rewrite take_insert_ge by lia. rewrite drop_insert_lt by lia.
  rewrite <- app_assoc. cbn. do 3 f_equal. f_equal. lia.
Qed.

(** The same splices, cell by cell. *)
Lemma splice_lookup dst mid (d : nat) p :
  (d + length mid <= length dst)%nat ->
  (take d dst ++ mid ++ drop (d + length mid) dst) !! p =
    if decide (d <= p < d + length mid)%nat then mid !! (p - d)%nat else dst !! p.
Proof.
  intros Hd. assert (length (take d dst) = d) as Ht by (rewrite length_take; lia).
  case_decide as E.
  - rewrite lookup_app_r by lia. rewrite Ht. apply lookup_app_l. lia.
  - destruct (decide (p < d)%nat).
    + rewrite lookup_app_l by lia. by rewrite lookup_take, decide_True by lia.
    + rewrite !lookup_app_r by lia. rewrite Ht, lookup_drop. f_equal. lia.
Qed.

Lemma fill_lookup n dst d v r (p : nat) :
  0 <= d -> d + Z.of_nat n <= Z.of_nat (length dst) -> fill dst d v n = Some r ->
  r !! p = if decide (d <= Z.of_nat p < d + Z.of_nat n) then Some v else dst !! p.
Proof.
  intros Hd Hl. rewrite fill_spec by done. intros [= <-].
  pose proof (splice_lookup dst (replicate n v) (Z.to_nat d) p) as Hs.
  rewrite length_replicate in Hs. rewrite Hs by lia.
  repeat case_decide; try (exfalso; lia); [|done]. apply lookup_replicate_2. lia.
Qed.

Lemma copy_into_lookup n dst d src s r (p : nat) :
  0 <= s -> s + Z.of_nat n <= Z.of_nat (length src) ->
  0 <= d -> d + Z.of_nat n <= Z.of_nat (length dst) ->
  copy_into dst d src s n = Some r ->
  r !! p = if decide (d <= Z.of_nat p < d + Z.of_nat n)
           then src.[s + (Z.of_nat p - d)] else dst !! p.
Proof.
  intros Hs Hsl Hd Hl. rewrite copy_into_spec by done. intros [= <-].
  assert (length (take n (drop (Z.to_nat s) src)) = n) as Hlen
    by (rewrite length_take, length_drop; lia).
  pose proof (splice_lookup dst (take n (drop (Z.to_nat s) src)) (Z.to_nat d) p) as Hsp.
  rewrite Hlen in Hsp. rewrite Hsp by lia.
  repeat case_decide; try (exfalso; lia); [|done].
  rewrite lookup_take, lookup_drop. case_decide; [|lia].
  unfold aget. rewrite (proj2 (Z.leb_le 0 (s + (Z.of_nat p - d)))) by lia. f_equal. lia.
Qed.

Lemma copy_into_length n dst d src s r :
  copy_into dst d src s n = Some r -> length r = length dst.
Proof.
  revert dst d s. induction n as [|n IH]; intros dst d s; cbn; [by intros [= ->]|].
  intros H. peel H. erewrite IH, aset_length; eauto.
Qed.

Lemma fill_length n dst d v r :
  fill dst d v n = Some r -> length r = length dst.
Proof.
  revert dst d. induction n as [|n IH]; intros dst d; cbn; [by intros [= ->]|].
  intros H. peel H. erewrite IH, aset_length; eauto.
Qed.

End array_lemmas.

#[export] Hint Resolve aget_in : kernel.

(** Invariant rule for counted loops: an invariant indexed by the counter that
    every round re-establishes makes the loop total and holds at its end. *)
Lemma for_up_inv {S : Type} (P : Z -> S -> Prop) n i f (s : S) :
  P i s ->
  (forall j t, i <= j < i + Z.of_nat n -> P j t ->
     exists t', f j t = Some t' /\ P (j + 1) t') ->
  exists s', for_up n i f s = Some s' /\ P (i + Z.of_nat n) s'.
Proof.
  revert i s. induction n as [|n IH]; intros i s Hs Hstep; cbn [for_up].
  { exists s. split; [done|]. by replace (i + Z.of_nat 0) with i by lia. }
  destruct (Hstep i s) as (t & -> & Ht); [lia|done|]. cbn.
  destruct (IH (i + 1) t Ht) as (s' & -> & Hs').
  { intros j u Hj. apply Hstep. lia. }
  exists s'. split; [done|]. by replace (i + Z.of_nat (Datatypes.S n)) with (i + 1 + Z.of_nat n) by lia.
Qed.

(** How many elements of a table satisfy [P], and the effect of one update. *)
Definition count {A} (P : A -> Prop) `{!forall x, Decision (P x)} (l : list A) : Z :=
  Z.of_nat (length (filter P l)).

Lemma count_insert {A} (P : A -> Prop) `{!forall x, Decision (P x)} (l : list A) i x y :
  l !! i = Some y ->
  count P (<[i := x]> l) =
    count P l + (if decide (P x) then 1 else 0) - (if decide (P y) then 1 else 0).
Proof.
  unfold count. revert i. induction l as [|z l IH]; intros [|i] Hi; try done.
  - injection Hi as ->. change (<[0%nat := x]> (y :: l)) with (x :: l).
    rewrite !filter_cons. repeat case_decide; cbn [length]; lia.
  - specialize (IH i Hi). change (<[S i := x]> (z :: l)) with (z :: <[i := x]> l).
    rewrite !filter_cons. repeat case_decide; cbn [length]; lia.
Qed.

Lemma count_range {A} (P : A -> Prop) `{!forall x, Decision (P x)} (l : list A) :
  0 <= count P l <= Z.of_nat (length l).
Proof. unfold count. pose proof (length_filter P l). lia. Qed.

(** Membership of a list cell rewritten in place. *)
Lemma Forall_aget {A} (P : A -> Prop) (a : list A) :
  (forall i v, a.[i] = Some v -> P v) -> Forall P a.
Proof.
  intros H. apply Forall_lookup. intros i v Hv. apply (H (Z.of_nat i)).
  by rewrite aget_nat.
Qed.

(** ** Total correctness of fallible computations

    [succeeds m P]: the computation [m] returns, and its result satisfies [P].
    The rules below walk through a chain of binds and tests; they carry every
    "never leaves its buffers" proof of the development. *)

Definition succeeds {A} (m : option A) (P : A -> Prop) : Prop :=
  exists a, m = Some a /\ P a.

Section succeeds_rules.
Context {A B : Type}.
Implicit Types (m : option A) (P : A -> Prop) (Q : B -> Prop).

Lemma succeeds_ret a P : P a -> succeeds (Some a) P.
Proof. intros. by exists a. Qed.

Lemma succeeds_mono m P P' : succeeds m P -> (forall a, P a -> P' a) -> succeeds m P'.
Proof. intros (a & -> & Ha) Himp. exists a. auto. Qed.

Lemma succeeds_bind m (f : A -> option B) P Q :
  succeeds m P -> (forall a, P a -> succeeds (f a) Q) -> succeeds (m ≫= f) Q.
Proof. intros (a & -> & Ha) Hf. cbn. auto. Qed.

Lemma succeeds_is_Some m : is_Some m -> succeeds m (fun a => m = Some a).
Proof. intros [a ->]. by exists a. Qed.

Lemma succeeds_aget (a : list A) i :
  0 <= i < Z.of_nat (length a) -> succeeds a.[i] (fun v => a.[i] = Some v).
Proof. intros. by apply succeeds_is_Some, aget_in. Qed.

Lemma succeeds_aset (a : list A) i v :
  0 <= i < Z.of_nat (length a) ->
  succeeds a.[i <- v] (fun b => b = <[Z.to_nat i := v]> a /\ length b = length a).
Proof.
  intros. exists (<[Z.to_nat i := v]> a). split; [by apply aset_in|].
  split; [done|]. apply length_insert.
Qed.

Lemma succeeds_copy_into (dst src : list A) d s n :
  0 <= s -> s + Z.of_nat n <= Z.of_nat (length src) ->
  0 <= d -> d + Z.of_nat n <= Z.of_nat (length dst) ->
  succeeds (copy_into dst d src s n) (fun r => length r = length dst).
Proof.
  intros. eexists. split; [by apply copy_into_spec|].
  eapply copy_into_length. by apply copy_into_spec.
Qed.

Lemma succeeds_fill (dst : list A) d v n :
  0 <= d -> d + Z.of_nat n <= Z.of_nat (length dst) ->
  succeeds (fill dst d v n) (fun r => length r = length dst).
Proof.
  intros. eexists. split; [by apply fill_spec|]. eapply fill_length. by apply fill_spec.
Qed.

End succeeds_rules.

Lemma succeeds_for_up {S : Type} (P : Z -> S -> Prop) n i f (s : S) (Q : S -> Prop) :
  P i s ->
  (forall j t, i <= j < i + Z.of_nat n -> P j t -> succeeds (f j t) (P (j + 1))) ->
  (forall t, P (i + Z.of_nat n) t -> Q t) ->
  succeeds (for_up n i f s) Q.
Proof. intros Hs Hf HQ. destruct (for_up_inv P n i f s Hs) as (t & -> & ?); [done|]. exists t. auto. Qed.

(** One step of a [succeeds] goal: enter a bind, or split a test. *)
Ltac succ_step :=
  lazymatch goal with
  | |- succeeds (Some _) _ => apply succeeds_ret
  | |- succeeds (mbind _ _) _ => eapply succeeds_bind
  | |- succeeds (if ?b then _ else _) _ => destruct b eqn:?; b2p
  | |- succeeds (match ?x with _ => _ end) _ => destruct x eqn:?; b2p
  | |- forall _, _ => intros ?
  | |- succeeds (let _ := _ in _) _ => cbv zeta
  end.
