(* ===== verification/NetBytes.v ===== *)
(** Wire-format helpers of [src/network.c]: big-endian loads and stores, MAC
    copies, and the two Internet checksums, with the arithmetic of the
    ones'-complement sum that the header and segment theorems rest on.

    A C pointer into a packet is a pair of the buffer and an offset. *)

From S2P Require Import Prelude.

(** ** Loads and stores *)

Definition read_be16 (b : list Z) (i : Z) : option Z :=
  x ← b.[i]; y ← b.[i + 1];
  Some (u16 (Z.lor (Z.shiftl x 8) y)).

Definition read_be32 (b : list Z) (i : Z) : option Z :=
  x ← b.[i]; y ← b.[i + 1]; z ← b.[i + 2]; w ← b.[i + 3];
  Some (Z.lor (Z.lor (Z.lor (u32 (Z.shiftl x 24)) (u32 (Z.shiftl y 16)))
                     (u32 (Z.shiftl z 8))) w).

Definition write_be16 (b : list Z) (i value : Z) : option (list Z) :=
  b ← b.[i <- u8 (Z.shiftr value 8)];
  b.[i + 1 <- u8 value].

Definition write_be32 (b : list Z) (i value : Z) : option (list Z) :=
  b ← b.[i <- u8 (Z.shiftr value 24)];
  b ← b.[i + 1 <- u8 (Z.shiftr value 16)];
  b ← b.[i + 2 <- u8 (Z.shiftr value 8)];
  b.[i + 3 <- u8 value].

Definition copy_mac (destination : list Z) (d : Z) (source : list Z) (s : Z)
  : option (list Z) := copy_into destination d source s 6.

(** [equal_mac(&left[l], &right[r])], reading until the first difference. *)
Fixpoint equal_mac_from (n : nat) (left : list Z) (l : Z) (right : list Z) (r : Z)
  : option bool :=
  match n with
  | O => Some true
  | S n' =>
      x ← left.[l]; y ← right.[r];
      if x =? y then equal_mac_from n' left (l + 1) right (r + 1) else Some false
  end.
Definition equal_mac left l right r := equal_mac_from 6 left l right r.

(** ** Internet checksums *)

(** [while (sum > 0xFFFF) sum = (sum & 0xFFFF) + (sum >> 16)] on a [uint32_t];
    [fold_carries_le] shows that the fuel is never the reason to stop. *)
Fixpoint fold_carries (fuel : nat) (sum : Z) : Z :=
  if 65535 <? sum then
    match fuel with
    | O => sum
    | S fuel' => fold_carries fuel' (u32 (Z.land sum 65535 + Z.shiftr sum 16))
    end
  else sum.

Definition network_ipv4_checksum (b : list Z) (header length : Z) : option Z :=
  if (length <? 20) || (60 <? length) || negb (Z.land length 1 =? 0)
  then Some 65535
  else
    sum ← for_up (Z.to_nat (length / 2)) 0
            (fun j sum =>
               w ← read_be16 b (header + 2 * j);
               Some (fold_carries 4 (u32 (sum + w)))) 0;
    Some (u16 (Z.lnot sum)).

(** Sum of the big-endian words of [bytes], an odd last byte padded with 0. *)
Fixpoint checksum_words (n : nat) (sum : Z) (b : list Z) (i : Z) : option Z :=
  match n with
  | O => Some sum
  | S n' => w ← read_be16 b i; checksum_words n' (u32 (sum + w)) b (i + 2)
  end.

Definition checksum_add (sum : Z) (b : list Z) (i length : Z) : option Z :=
  sum ← checksum_words (Z.to_nat (length / 2)) sum b i;
  sum ← (if length mod 2 =? 0 then Some sum
         else x ← b.[i + (length - 1)]; Some (u32 (sum + Z.shiftl (u16 x) 8)));
  Some (fold_carries 4 sum).

Definition transport_checksum (source destination protocol : Z)
    (b : list Z) (packet length : Z) : option Z :=
  let pseudo := replicate 12 0 in
  pseudo ← write_be32 pseudo 0 source;
  pseudo ← write_be32 pseudo 4 destination;
  pseudo ← pseudo.[8 <- 0];
  pseudo ← pseudo.[9 <- protocol];
  pseudo ← write_be16 pseudo 10 (u16 length);
  sum ← checksum_add 0 pseudo 0 12;
  sum ← checksum_add sum b packet length;
  Some (u16 (Z.lnot sum)).

(** ** Specification side: words and the ones'-complement sum *)

(** The big-endian words of a byte string, an odd tail padded with zero. *)
Fixpoint be_words (l : list Z) : list Z :=
  match l with
  | x :: y :: l' => (x * 256 + y) :: be_words l'
  | [x] => [x * 256]
  | [] => []
  end.

Definition zsum (l : list Z) : Z := foldr Z.add 0 l.

(** The ones'-complement representative of a total: 0 only for 0, and
    otherwise the representative of its class modulo 65535 in 1..65535. *)
Definition oc_canon (t : Z) : Z := if t =? 0 then 0 else (t - 1) mod 65535 + 1.

(** ** Lemmas: loads and stores *)

Lemma read_be16_in b i :
  0 <= i -> i + 2 <= Z.of_nat (length b) -> is_Some (read_be16 b i).
Proof.
  intros. unfold read_be16.
  destruct (aget_in b i) as [x ->]; [lia|]. destruct (aget_in b (i + 1)) as [y ->]; [lia|].
  cbn. eauto.
Qed.

Lemma read_be32_in b i :
  0 <= i -> i + 4 <= Z.of_nat (length b) -> is_Some (read_be32 b i).
Proof.
  intros. unfold read_be32.
  destruct (aget_in b i) as [x ->]; [lia|]. destruct (aget_in b (i + 1)) as [y ->]; [lia|].
  destruct (aget_in b (i + 2)) as [z ->]; [lia|].
  destruct (aget_in b (i + 3)) as [w ->]; [lia|]. cbn. eauto.
Qed.

Lemma read_be16_range b i v : read_be16 b i = Some v -> is_u16 v.
Proof. unfold read_be16. intros H. peel H. simplify_eq. apply u16_range. Qed.

Lemma read_be16_val b i x y :
  b.[i] = Some x -> b.[i + 1] = Some y -> is_byte x -> is_byte y ->
  read_be16 b i = Some (x * 256 + y).
Proof.
  unfold read_be16. intros -> -> Hx Hy. cbn. f_equal.
  rewrite lor_shiftl_8 by done. apply u16_small. unfold is_byte, is_u16 in *. lia.
Qed.

Lemma be32_val x y z w :
  is_byte x -> is_byte y -> is_byte z -> is_byte w ->
  Z.lor (Z.lor (Z.lor (u32 (Z.shiftl x 24)) (u32 (Z.shiftl y 16)))
               (u32 (Z.shiftl z 8))) w
  = x * 16777216 + y * 65536 + z * 256 + w.
Proof.
  unfold is_byte. intros.
  rewrite !u32_small by (unfold is_u32; rewrite Z.shiftl_mul_pow2 by lia; lia).
  rewrite (lor_shiftl_add x (Z.shiftl y 16) 24)
    by (rewrite ?Z.shiftl_mul_pow2 by lia; lia).
  assert (x * 2 ^ 24 + Z.shiftl y 16 = Z.shiftl (x * 256 + y) 16) as ->
    by (rewrite !Z.shiftl_mul_pow2 by lia; lia).
  rewrite (lor_shiftl_add (x * 256 + y) (Z.shiftl z 8) 16)
    by (rewrite ?Z.shiftl_mul_pow2 by lia; lia).
  assert ((x * 256 + y) * 2 ^ 16 + Z.shiftl z 8 = Z.shiftl ((x * 256 + y) * 256 + z) 8)
    as -> by (rewrite !Z.shiftl_mul_pow2 by lia; lia).
  rewrite lor_shiftl_8 by done. lia.
Qed.

Lemma read_be32_val b i x y z w :
  b.[i] = Some x -> b.[i + 1] = Some y -> b.[i + 2] = Some z -> b.[i + 3] = Some w ->
  is_byte x -> is_byte y -> is_byte z -> is_byte w ->
  read_be32 b i = Some (x * 16777216 + y * 65536 + z * 256 + w).
Proof.
  unfold read_be32. intros -> -> -> -> ????. cbn. f_equal. by apply be32_val.
Qed.

(** Splitting a word and reading it back. *)
Lemma be16_split v : is_u16 v -> u8 (Z.shiftr v 8) * 256 + u8 v = v.
Proof. unfold is_u16, u8. rewrite shiftr_8. intros. zlia. Qed.
Lemma be32_split v :
  is_u32 v ->
  u8 (Z.shiftr v 24) * 16777216 + u8 (Z.shiftr v 16) * 65536
    + u8 (Z.shiftr v 8) * 256 + u8 v = v.
Proof. unfold is_u32, u8. rewrite shiftr_8, shiftr_16, shiftr_24. intros. zlia. Qed.

Lemma equal_mac_from_in n l i r j :
  0 <= i -> i + Z.of_nat n <= Z.of_nat (length l) ->
  0 <= j -> j + Z.of_nat n <= Z.of_nat (length r) ->
  is_Some (equal_mac_from n l i r j).
Proof.
  revert i j. induction n as [|n IH]; intros i j ????; cbn; [eauto|].
  destruct (aget_in l i) as [x ->]; [lia|]. destruct (aget_in r j) as [y ->]; [lia|].
  cbn. case_match; [|eauto]. apply IH; lia.
Qed.

(** ** Lemmas: the ones'-complement sum *)

Lemma fold_step s : 65535 < s -> is_u32 s ->
  u32 (Z.land s 65535 + Z.shiftr s 16) = s - 65535 * (s / 65536).
Proof.
  unfold is_u32, u32. intros ??. rewrite shiftr_16.
  change 65535 with (Z.ones 16). rewrite Z.land_ones by lia.
  change (Z.ones 16) with 65535. zlia.
Qed.

Lemma fold_carries_canon s : is_u32 s -> fold_carries 4 s = oc_canon s.
Proof.
  intros Hs.
  assert (Hfix : forall t, 0 <= t <= 65535 -> t = oc_canon t).
  { intros t Ht. unfold oc_canon. case_match; b2p; zlia. }
  assert (Hstep : forall t, 65535 < t -> is_u32 t ->
    oc_canon (t - 65535 * (t / 65536)) = oc_canon t).
  { unfold is_u32, oc_canon. intros t Ht ?.
    rewrite !(proj2 (Z.eqb_neq _ _)) by zlia. f_equal.
    replace (t - 65535 * (t / 65536) - 1) with (t - 1 + - (t / 65536) * 65535) by lia.
    by rewrite Z.mod_add. }
  cbn [fold_carries]. unfold is_u32 in *.
  destruct (Z.ltb_spec 65535 s); [|by apply Hfix; lia].
  rewrite fold_step by (unfold is_u32; lia). rewrite <- (Hstep s) by (unfold is_u32; lia).
  set (t := s - 65535 * (s / 65536)).
  assert (0 <= t <= 131070) by (subst t; zlia).
  destruct (Z.ltb_spec 65535 t); [|by apply Hfix; lia].
  rewrite fold_step by (unfold is_u32; lia). rewrite <- (Hstep t) by (unfold is_u32; lia).
  set (u := t - 65535 * (t / 65536)).
  assert (0 <= u <= 65535) by (subst u; zlia).
  rewrite (proj2 (Z.ltb_ge 65535 u)) by lia. by apply Hfix.
Qed.

Lemma oc_canon_range t : 0 <= t -> 0 <= oc_canon t <= 65535.
Proof. intros. unfold oc_canon. case_match; zlia. Qed.

Lemma fold_carries_le s : is_u32 s -> 0 <= fold_carries 4 s <= 65535.
Proof. intros Hs. rewrite fold_carries_canon by done. apply oc_canon_range. apply Hs. Qed.

Lemma oc_canon_add a b : 0 <= a -> 0 <= b -> oc_canon (oc_canon a + b) = oc_canon (a + b).
Proof.
  intros Ha Hb. unfold oc_canon at 2. destruct (Z.eqb_spec a 0) as [->|]; [done|].
  unfold oc_canon. rewrite !(proj2 (Z.eqb_neq _ _)) by zlia. f_equal.
  replace (a + b - 1) with ((a - 1) + b) by lia.
  replace ((a - 1) mod 65535 + 1 + b - 1) with ((a - 1) mod 65535 + b) by lia.
  by rewrite Z.add_mod_idemp_l.
Qed.

Lemma u16_lnot s : 0 <= s <= 65535 -> u16 (Z.lnot s) = 65535 - s.
Proof. intros. unfold u16, Z.lnot. zlia. Qed.

(** Storing the complement of a sum next to the summed words makes the total
    verify. *)
Lemma oc_canon_complement t : 0 <= t -> oc_canon (t + (65535 - oc_canon t)) = 65535.
Proof.
  intros Ht. unfold oc_canon. destruct (Z.eqb_spec t 0) as [->|]; [done|].
  rewrite (proj2 (Z.eqb_neq _ _)) by zlia.
  replace (t + (65535 - ((t - 1) mod 65535 + 1)) - 1)
    with ((t - 1) - (t - 1) mod 65535 + 65534) by lia.
  pose proof (Z.div_mod (t - 1) 65535).
  replace ((t - 1) - (t - 1) mod 65535 + 65534)
    with (65534 + (t - 1) / 65535 * 65535) by lia.
  by rewrite Z.mod_add.
Qed.

Lemma zsum_app a b : zsum (a ++ b) = zsum a + zsum b.
Proof. induction a; cbn; [done|]. unfold zsum in *. cbn. lia. Qed.

Lemma be_words_range l : bytes_ok l -> Forall is_u16 (be_words l).
Proof.
  revert l. fix IH 1. intros [|x [|y l]] H; cbn; [constructor| |].
  - inversion_clear H as [|?? Hx]. repeat constructor; unfold is_byte in *; lia.
  - inversion_clear H as [|?? Hx H']. inversion_clear H' as [|?? Hy Hl].
    constructor; [unfold is_byte, is_u16 in *; lia|by apply IH].
Qed.

Lemma zsum_range l B : 0 <= B -> Forall (fun x => 0 <= x <= B) l ->
  0 <= zsum l <= B * Z.of_nat (length l).
Proof.
  intros HB. induction 1 as [|x l Hx _ IH]; [unfold zsum; cbn; lia|].
  unfold zsum in *. cbn [foldr length]. rewrite Nat2Z.inj_succ, Z.mul_succ_r. lia.
Qed.

Lemma be_words_length l : Z.of_nat (length (be_words l)) = (Z.of_nat (length l) + 1) / 2.
Proof.
  revert l. fix IH 1. intros [|x [|y l]]; [done..|].
  cbn [be_words length]. rewrite !Nat2Z.inj_succ, IH. zlia.
Qed.

Lemma be_words_app a b :
  Nat.Even (length a) -> be_words (a ++ b) = be_words a ++ be_words b.
Proof.
  revert a. fix IH 1. intros [|x [|y a]] [k Hk]; cbn in *; [done|lia|].
  f_equal. apply IH. exists (k - 1)%nat. lia.
Qed.

Lemma zsum_words_bound l : bytes_ok l ->
  0 <= zsum (be_words l) <= 65535 * ((Z.of_nat (length l) + 1) / 2).
Proof.
  intros Hl. rewrite <- be_words_length. apply zsum_range; [lia|].
  pose proof (be_words_range l Hl) as Hw. unfold is_u16 in Hw.
  induction Hw; constructor; [lia|done].
Qed.

(** [checksum_words] adds up the words of the range it walks. *)
Lemma checksum_words_spec n sum b i :
  bytes_ok b -> 0 <= i -> i + 2 * Z.of_nat n <= Z.of_nat (length b) ->
  0 <= sum -> sum + 65535 * Z.of_nat n < 4294967296 ->
  checksum_words n sum b i =
    Some (sum + zsum (be_words (take (2 * n) (drop (Z.to_nat i) b)))).
Proof.
  intros Hb. revert sum i. induction n as [|n IH]; intros sum i Hi Hl Hs Hm.
  { change (2 * 0)%nat with O. rewrite take_0. unfold zsum. cbn. f_equal. lia. }
  cbn [checksum_words].
  destruct (aget_in b i) as [x Hx]; [lia|].
  destruct (aget_in b (i + 1)) as [y Hy]; [lia|].
  pose proof (aget_Forall _ _ _ _ Hb Hx) as Hbx.
  pose proof (aget_Forall _ _ _ _ Hb Hy) as Hby.
  rewrite (read_be16_val _ _ _ _ Hx Hy) by done. cbn [mbind option_bind].
  unfold is_byte in *.
  rewrite u32_small by (unfold is_u32; lia). rewrite IH by lia. f_equal.
  apply aget_Some in Hx as [_ Hx]. apply aget_Some in Hy as [_ Hy].
  rewrite (drop_S b x (Z.to_nat i)) by done.
  replace (Z.to_nat (i + 1)) with (S (Z.to_nat i)) in Hy by lia.
  rewrite (drop_S b y (S (Z.to_nat i))) by done.
  replace (2 * S n)%nat with (S (S (2 * n))) by lia. cbn [take be_words].
  replace (Z.to_nat (i + 2)) with (S (S (Z.to_nat i))) by lia.
  unfold zsum. cbn [foldr]. lia.
Qed.

Lemma be_words_snoc a x : Nat.Even (length a) ->
  zsum (be_words (a ++ [x])) = zsum (be_words a) + x * 256.
Proof. intros. rewrite be_words_app, zsum_app by done. unfold zsum. cbn. lia. Qed.

(** [checksum_add] is the folded ones'-complement sum of the range. *)
Lemma checksum_add_spec sum b i len :
  bytes_ok b -> 0 <= i -> 0 <= len <= 65535 -> i + len <= Z.of_nat (length b) ->
  0 <= sum <= 65535 ->
  checksum_add sum b i len =
    Some (oc_canon (sum + zsum (be_words (take (Z.to_nat len) (drop (Z.to_nat i) b))))).
Proof.
  intros Hb Hi Hlen Hl Hs. unfold checksum_add.
  rewrite checksum_words_spec by (try done; zlia). cbn [mbind option_bind].
  set (n := Z.to_nat (len / 2)).
  set (p := drop (Z.to_nat i) b).
  assert (Hpl : length p = (length b - Z.to_nat i)%nat) by apply length_drop.
  assert (Hpb : bytes_ok (take (2 * n) p)) by (apply Forall_take, Forall_drop, Hb).
  pose proof (zsum_words_bound _ Hpb) as Hz. rewrite length_take in Hz.
  assert (Hn : 2 * Z.of_nat n <= len < 2 * Z.of_nat n + 2) by (subst n; zlia).
  assert (Hz' : 0 <= zsum (be_words (take (2 * n) p)) < 2147483648).
  { split; [apply Hz|]. eapply Z.le_lt_trans; [apply Hz|]. clearbody n p. zlia. }
  clear Hz. set (z := zsum (be_words (take (2 * n) p))) in *.
  destruct (Z.eqb_spec (len mod 2) 0) as [He|Ho]; cbn [mbind option_bind].
  - rewrite fold_carries_canon by (unfold is_u32; lia). subst z.
    replace (Z.to_nat len) with (2 * n)%nat by (subst n; zlia). done.
  - destruct (aget_in b (i + (len - 1))) as [x Hx]; [zlia|]. rewrite Hx. cbn [mbind option_bind].
    pose proof (aget_Forall _ _ _ _ Hb Hx) as Hbx. unfold is_byte in Hbx.
    rewrite (u16_small x) by (unfold is_u16; lia).
    rewrite Z.shiftl_mul_pow2 by lia. rewrite u32_small by (unfold is_u32; lia).
    rewrite fold_carries_canon by (unfold is_u32; lia). subst z. f_equal. f_equal.
    replace (Z.to_nat len) with (S (2 * n)) by (subst n; zlia).
    apply aget_Some in Hx as [_ Hx].
    rewrite (take_S_r p (2 * n) x).
    2: { subst p. rewrite lookup_drop, <- Hx. f_equal. subst n. zlia. }
    rewrite be_words_snoc; [lia|]. exists n. rewrite length_take. subst n. zlia.
Qed.

(** ** The two checksums in closed form *)

Lemma zsum_words_app a b : Nat.Even (length a) ->
  zsum (be_words (a ++ b)) = zsum (be_words a) + zsum (be_words b).
Proof. intros. by rewrite be_words_app, zsum_app. Qed.

(** The loop of [network_ipv4_checksum] folds after every word; the outcome is
    the same representative. *)
Lemma ipv4_checksum_loop n b h j sum t :
  bytes_ok b -> 0 <= h -> 0 <= j ->
  h + 2 * j + 2 * Z.of_nat n <= Z.of_nat (length b) ->
  0 <= t -> sum = oc_canon t ->
  for_up n j
    (fun j sum =>
       w ← read_be16 b (h + 2 * j); Some (fold_carries 4 (u32 (sum + w)))) sum =
  Some (oc_canon (t + zsum (be_words (take (2 * n) (drop (Z.to_nat (h + 2 * j)) b))))).
Proof.
  intros Hb Hh. revert j sum t. induction n as [|n IH]; intros j sum t Hj Hl Ht ->.
  { change (2 * 0)%nat with O. rewrite take_0. unfold zsum. cbn. do 2 f_equal. lia. }
  cbn [for_up].
  destruct (aget_in b (h + 2 * j)) as [x Hx]; [lia|].
  destruct (aget_in b (h + 2 * j + 1)) as [y Hy]; [lia|].
  pose proof (aget_Forall _ _ _ _ Hb Hx) as Hbx.
  pose proof (aget_Forall _ _ _ _ Hb Hy) as Hby.
  rewrite (read_be16_val _ _ _ _ Hx Hy) by done. cbn [mbind option_bind].
  pose proof (oc_canon_range t Ht). unfold is_byte in *.
  rewrite u32_small by (unfold is_u32; lia).
  rewrite fold_carries_canon, oc_canon_add by (unfold is_u32; lia).
  rewrite (IH (j + 1) _ (t + (x * 256 + y))); [|lia..|done]. do 2 f_equal.
  apply aget_Some in Hx as [_ Hx]. apply aget_Some in Hy as [_ Hy].
  rewrite (drop_S b x (Z.to_nat (h + 2 * j))) by done.
  replace (Z.to_nat (h + 2 * j + 1)) with (S (Z.to_nat (h + 2 * j))) in Hy by lia.
  rewrite (drop_S b y (S (Z.to_nat (h + 2 * j)))) by done.
  replace (2 * S n)%nat with (S (S (2 * n))) by lia. cbn [take be_words].
  replace (Z.to_nat (h + 2 * (j + 1))) with (S (S (Z.to_nat (h + 2 * j)))) by lia.
  unfold zsum. cbn [foldr]. lia.
Qed.

Lemma network_ipv4_checksum_spec b h len :
  bytes_ok b -> 0 <= h -> h + len <= Z.of_nat (length b) ->
  20 <= len <= 60 -> len mod 2 = 0 ->
  network_ipv4_checksum b h len =
    Some (65535 - oc_canon (zsum (be_words (take (Z.to_nat len) (drop (Z.to_nat h) b))))).
Proof.
  intros Hb Hh Hl Hlen Hev. unfold network_ipv4_checksum.
  change 1 with (Z.ones 1) at 1. rewrite Z.land_ones by lia. change (2 ^ 1) with 2.
  rewrite Hev, !(proj2 (Z.ltb_ge _ _)) by lia. cbn [orb negb Z.eqb].
  rewrite (ipv4_checksum_loop _ _ _ _ _ 0); [|done|lia..|zlia|lia|done].
  cbn [mbind option_bind].
  replace (h + 2 * 0) with h by lia.
  replace (2 * Z.to_nat (len / 2))%nat with (Z.to_nat len) by zlia.
  assert (Hp : bytes_ok (take (Z.to_nat len) (drop (Z.to_nat h) b)))
    by (apply Forall_take, Forall_drop, Hb).
  pose proof (zsum_words_bound _ Hp) as Hz.
  rewrite u16_lnot; [done|]. apply oc_canon_range. lia.
Qed.

Lemma network_ipv4_checksum_in b h len :
  bytes_ok b -> 0 <= h -> h + len <= Z.of_nat (length b) ->
  is_Some (network_ipv4_checksum b h len).
Proof.
  intros Hb Hh Hl. destruct (decide (20 <= len <= 60 /\ len mod 2 = 0)) as [[? ?]|Hn].
  - eexists. by apply network_ipv4_checksum_spec.
  - unfold network_ipv4_checksum.
    change 1 with (Z.ones 1). rewrite Z.land_ones by lia. change (2 ^ 1) with 2.
    destruct (_ || _ || _) eqn:Hc; [eauto|]. b2p. lia.
Qed.

Definition pseudo_header (source destination protocol length : Z) : list Z :=
  [u8 (Z.shiftr source 24); u8 (Z.shiftr source 16); u8 (Z.shiftr source 8); u8 source;
   u8 (Z.shiftr destination 24); u8 (Z.shiftr destination 16);
   u8 (Z.shiftr destination 8); u8 destination;
   0; protocol; u8 (Z.shiftr (u16 length) 8); u8 (u16 length)].

Lemma pseudo_header_ok source destination protocol length :
  is_byte protocol -> bytes_ok (pseudo_header source destination protocol length).
Proof.
  intros. unfold pseudo_header, bytes_ok.
  repeat apply List.Forall_cons; try apply List.Forall_nil; try apply u8_range; try done.
Qed.

Lemma transport_checksum_spec src dst proto b packet len :
  bytes_ok b -> is_byte proto -> 0 <= packet -> 0 <= len <= 65535 ->
  packet + len <= Z.of_nat (length b) ->
  transport_checksum src dst proto b packet len =
    Some (65535 - oc_canon (zsum (be_words (pseudo_header src dst proto len))
      + zsum (be_words (take (Z.to_nat len) (drop (Z.to_nat packet) b))))).
Proof.
  intros Hb Hp Hpk Hlen Hl.
  pose proof (pseudo_header_ok src dst proto len Hp) as Hph.
  assert (Heq : transport_checksum src dst proto b packet len =
    (sum ← checksum_add 0 (pseudo_header src dst proto len) 0 12;
     sum ← checksum_add sum b packet len; Some (u16 (Z.lnot sum)))) by reflexivity.
  rewrite Heq.
  rewrite checksum_add_spec; [|done|lia|lia|cbn; lia|lia]. cbn [mbind option_bind].
  change (take (Z.to_nat 12) (drop (Z.to_nat 0) ?x)) with x.
  pose proof (zsum_words_bound _ Hph) as Hz1.
  assert (Hb2 : bytes_ok (take (Z.to_nat len) (drop (Z.to_nat packet) b)))
    by (apply Forall_take, Forall_drop, Hb).
  pose proof (zsum_words_bound _ Hb2) as Hz2.
  rewrite Z.add_0_l.
  pose proof (oc_canon_range (zsum (be_words (pseudo_header src dst proto len)))
    (proj1 Hz1)).
  rewrite checksum_add_spec by (done || lia). cbn [mbind option_bind].
  rewrite oc_canon_add by lia. rewrite u16_lnot; [done|]. apply oc_canon_range. lia.
Qed.
