(* ===== verification/Network.v ===== *)
(** The network stack of [src/network.c]: its file-scope state as one record,
    the receive path (Ethernet, ARP, IPv4, UDP, DHCP, DNS, TCP) and the frame
    builders, each a function from the state to the new state and the result.

    Buffers are byte lists; a result [None] is an access outside a buffer.
    Pointer arguments stand for valid objects, except the frame handed to
    [network_receive_ethernet], whose NULL case counts a dropped frame. *)

From S2P Require Import Prelude NetBytes.

(** ** Constants *)

Definition ETHERNET_HEADER_BYTES : Z := 14.
Definition ETHERNET_MIN_FRAME_BYTES : Z := 60.
Definition ETHER_TYPE_ARP : Z := 2054. (* 0x0806 *)
Definition ETHER_TYPE_IPV4 : Z := 2048. (* 0x0800 *)
Definition ARP_PACKET_BYTES : Z := 28.
Definition ARP_CACHE_LIMIT : Z := 4.
Definition IP_PROTOCOL_UDP : Z := 17.
Definition DHCP_CLIENT_PORT : Z := 68.
Definition DHCP_SERVER_PORT : Z := 67.
Definition DHCP_FIXED_BYTES : Z := 240.
Definition DNS_SERVER_PORT : Z := 53.
Definition DNS_CLIENT_PORT : Z := 49152.
Definition IP_PROTOCOL_TCP : Z := 6.
Definition TCP_FLAG_SYN : Z := 2.
Definition TCP_FLAG_FIN : Z := 1.
Definition TCP_FLAG_PSH : Z := 8.
Definition TCP_FLAG_ACK : Z := 16.
Definition TCP_RECEIVE_LIMIT : Z := 4096.
Definition HTTP_DOCUMENT_LIMIT : Z := 1024.
Definition DHCP_MAGIC : Z := 1669485411. (* 0x63825363 *)

(** ** State *)

Inductive network_link_state := LINK_NO_DEVICE | LINK_DOWN | LINK_UP.
#[export] Instance link_eq_dec : EqDecision network_link_state.
Proof. solve_decision. Defined.

Record network_snapshot := Snapshot {
  link : network_link_state;
  mac : list Z;
  ipv4_address : Z;
  received_frames : Z;
  transmitted_frames : Z;
  dropped_frames : Z;
  arp_entries : Z;
}.

Record arp_entry := ArpEntry { ae_address : Z; ae_mac : list Z; ae_valid : bool }.
#[export] Instance arp_entry_eq_dec : EqDecision arp_entry.
Proof. solve_decision. Defined.

Record network_dhcp_offer := DhcpOffer {
  o_address : Z; o_server : Z; o_gateway : Z; o_dns : Z; o_subnet_mask : Z
}.
Record network_dns_answer := DnsAnswer { d_address : Z; d_ttl_seconds : Z }.
Record network_tcp_syn_ack := SynAck { remote_sequence : Z; receive_window : Z }.
Record network_route := Route { r_gateway : Z; r_dns : Z; r_gateway_mac : list Z }.

(** [pending_offer*] and [pending_ack*]. *)
Record dhcp_slot := DhcpSlot {
  dhcp_lease : network_dhcp_offer; dhcp_transaction : Z; dhcp_valid : bool
}.
(** [pending_dns_*]. *)
Record dns_slot := DnsSlot {
  dns_answer : network_dns_answer; dns_transaction : Z; dns_valid : bool
}.
(** [pending_tcp_*] of the handshake. *)
Record syn_slot := SynSlot {
  syn_ack : network_tcp_syn_ack; syn_address : Z; syn_acknowledgment : Z;
  syn_local_port : Z; syn_remote_port : Z; syn_valid : bool
}.
(** [pending_tcp_data*]. *)
Record data_slot := DataSlot {
  td_data : list Z; td_length : Z; td_next_sequence : Z; td_address : Z;
  td_local_port : Z; td_remote_port : Z
}.
(** [pending_tcp_fin*]. *)
Record fin_slot := FinSlot {
  fin_pending : bool; fin_address : Z; fin_next_sequence : Z;
  fin_local_port : Z; fin_remote_port : Z
}.
(** [http_document*]. *)
Record http_slot := HttpSlot { doc_bytes : list Z; doc_length : Z; doc_reads : Z }.

Record net := Net {
  state : network_snapshot;
  arp_cache : list arp_entry;
  arp_replace : Z;
  pending_offer : dhcp_slot;
  pending_ack : dhcp_slot;
  pending_dns : dns_slot;
  pending_syn : syn_slot;
  pending_data : data_slot;
  pending_fin : fin_slot;
  http_document : http_slot;
  active_route : network_route;
  active_route_valid : bool;
}.

(** Field updates. *)
Definition set_state (v : network_snapshot) (s : net) : net :=
  Net v s.(arp_cache) s.(arp_replace) s.(pending_offer) s.(pending_ack) s.(pending_dns)
    s.(pending_syn) s.(pending_data) s.(pending_fin) s.(http_document)
    s.(active_route) s.(active_route_valid).
Definition set_arp (c : list arp_entry) (r : Z) (s : net) : net :=
  Net s.(state) c r s.(pending_offer) s.(pending_ack) s.(pending_dns)
    s.(pending_syn) s.(pending_data) s.(pending_fin) s.(http_document)
    s.(active_route) s.(active_route_valid).
Definition set_offer (v : dhcp_slot) (s : net) : net :=
  Net s.(state) s.(arp_cache) s.(arp_replace) v s.(pending_ack) s.(pending_dns)
    s.(pending_syn) s.(pending_data) s.(pending_fin) s.(http_document)
    s.(active_route) s.(active_route_valid).
Definition set_ack (v : dhcp_slot) (s : net) : net :=
  Net s.(state) s.(arp_cache) s.(arp_replace) s.(pending_offer) v s.(pending_dns)
    s.(pending_syn) s.(pending_data) s.(pending_fin) s.(http_document)
    s.(active_route) s.(active_route_valid).
Definition set_dns (v : dns_slot) (s : net) : net :=
  Net s.(state) s.(arp_cache) s.(arp_replace) s.(pending_offer) s.(pending_ack) v
    s.(pending_syn) s.(pending_data) s.(pending_fin) s.(http_document)
    s.(active_route) s.(active_route_valid).
Definition set_syn (v : syn_slot) (s : net) : net :=
  Net s.(state) s.(arp_cache) s.(arp_replace) s.(pending_offer) s.(pending_ack)
    s.(pending_dns) v s.(pending_data) s.(pending_fin) s.(http_document)
    s.(active_route) s.(active_route_valid).
Definition set_data (v : data_slot) (s : net) : net :=
  Net s.(state) s.(arp_cache) s.(arp_replace) s.(pending_offer) s.(pending_ack)
    s.(pending_dns) s.(pending_syn) v s.(pending_fin) s.(http_document)
    s.(active_route) s.(active_route_valid).
Definition set_fin (v : fin_slot) (s : net) : net :=
  Net s.(state) s.(arp_cache) s.(arp_replace) s.(pending_offer) s.(pending_ack)
    s.(pending_dns) s.(pending_syn) s.(pending_data) v s.(http_document)
    s.(active_route) s.(active_route_valid).
Definition set_http (v : http_slot) (s : net) : net :=
  Net s.(state) s.(arp_cache) s.(arp_replace) s.(pending_offer) s.(pending_ack)
    s.(pending_dns) s.(pending_syn) s.(pending_data) s.(pending_fin) v
    s.(active_route) s.(active_route_valid).
Definition set_route (v : network_route) (ok : bool) (s : net) : net :=
  Net s.(state) s.(arp_cache) s.(arp_replace) s.(pending_offer) s.(pending_ack)
    s.(pending_dns) s.(pending_syn) s.(pending_data) s.(pending_fin) s.(http_document)
    v ok.

Definition invalidate_dhcp (d : dhcp_slot) : dhcp_slot :=
  DhcpSlot d.(dhcp_lease) d.(dhcp_transaction) false.

(** ** Device state *)

Definition no_offer : network_dhcp_offer := DhcpOffer 0 0 0 0 0.

Definition network_init (s : net) : net :=
  {| state := Snapshot LINK_NO_DEVICE (replicate 6 0) 0 0 0 0 0;
     arp_cache := replicate (Z.to_nat ARP_CACHE_LIMIT) (ArpEntry 0 (replicate 6 0) false);
     arp_replace := 0;
     pending_offer := DhcpSlot no_offer 0 false;
     pending_ack := DhcpSlot no_offer 0 false;
     pending_dns := DnsSlot (DnsAnswer 0 0) 0 false;
     pending_syn := SynSlot (SynAck 0 0) 0 0 0 0 false;
     pending_data := DataSlot s.(pending_data).(td_data) 0 0 0 0 0;
     pending_fin := FinSlot false s.(pending_fin).(fin_address)
       s.(pending_fin).(fin_next_sequence) s.(pending_fin).(fin_local_port)
       s.(pending_fin).(fin_remote_port);
     http_document := HttpSlot s.(http_document).(doc_bytes) 0 0;
     active_route := Route 0 0 (replicate 6 0);
     active_route_valid := false |}.

Definition network_set_device (m : list Z) (s : net) : option net :=
  m' ← copy_mac s.(state).(mac) 0 m 0;
  Some (set_state (Snapshot LINK_DOWN m' s.(state).(ipv4_address)
    s.(state).(received_frames) s.(state).(transmitted_frames)
    s.(state).(dropped_frames) s.(state).(arp_entries)) s).

Definition network_set_link (up : bool) (s : net) : net :=
  if decide (s.(state).(link) = LINK_NO_DEVICE) then s
  else set_state (Snapshot (if up then LINK_UP else LINK_DOWN) s.(state).(mac)
         s.(state).(ipv4_address) s.(state).(received_frames)
         s.(state).(transmitted_frames) s.(state).(dropped_frames)
         s.(state).(arp_entries)) s.

Definition network_set_ipv4 (address : Z) (s : net) : net :=
  set_state (Snapshot s.(state).(link) s.(state).(mac) address
    s.(state).(received_frames) s.(state).(transmitted_frames)
    s.(state).(dropped_frames) s.(state).(arp_entries)) s.

Definition set_arp_entries (n : Z) (st : network_snapshot) : network_snapshot :=
  Snapshot st.(link) st.(mac) st.(ipv4_address) st.(received_frames)
    st.(transmitted_frames) st.(dropped_frames) n.
Definition count_received (st : network_snapshot) : network_snapshot :=
  Snapshot st.(link) st.(mac) st.(ipv4_address) (u64 (st.(received_frames) + 1))
    st.(transmitted_frames) st.(dropped_frames) st.(arp_entries).
Definition count_dropped (st : network_snapshot) : network_snapshot :=
  Snapshot st.(link) st.(mac) st.(ipv4_address) st.(received_frames)
    st.(transmitted_frames) (u64 (st.(dropped_frames) + 1)) st.(arp_entries).

(** ** ARP *)

Definition arp_hit (address : Z) (e : arp_entry) : Prop :=
  e.(ae_valid) /\ e.(ae_address) = address.
#[export] Instance arp_hit_dec address e : Decision (arp_hit address e).
Proof. unfold arp_hit. apply _. Defined.

Definition learn_arp (address : Z) (b : list Z) (m : Z) (s : net) : option net :=
  match list_find (arp_hit address) s.(arp_cache) with
  | Some (index, e) =>
      m' ← copy_mac e.(ae_mac) 0 b m;
      Some (set_arp (<[index := ArpEntry e.(ae_address) m' e.(ae_valid)]> s.(arp_cache))
              s.(arp_replace) s)
  | None =>
      entry ← s.(arp_cache).[s.(arp_replace)];
      m' ← copy_mac entry.(ae_mac) 0 b m;
      cache ← s.(arp_cache).[s.(arp_replace) <- ArpEntry address m' true];
      let s := if entry.(ae_valid) then s
               else set_state (set_arp_entries (u64 (s.(state).(arp_entries) + 1))
                                 s.(state)) s in
      Some (set_arp cache ((s.(arp_replace) + 1) mod ARP_CACHE_LIMIT) s)
  end.

Definition network_arp_lookup (address : Z) (s : net) : option (list Z) :=
  match list_find (arp_hit address) s.(arp_cache) with
  | Some (_, e) => Some e.(ae_mac)
  | None => None
  end.

Definition receive_arp (b : list Z) (packet length : Z) (s : net) : option (net * bool) :=
  if length <? ARP_PACKET_BYTES then Some (s, false) else
  hw ← read_be16 b packet;
  if negb (hw =? 1) then Some (s, false) else
  proto ← read_be16 b (packet + 2);
  if negb (proto =? ETHER_TYPE_IPV4) then Some (s, false) else
  hlen ← b.[packet + 4];
  if negb (hlen =? 6) then Some (s, false) else
  plen ← b.[packet + 5];
  if negb (plen =? 4) then Some (s, false) else
  operation ← read_be16 b (packet + 6);
  if negb (operation =? 1) && negb (operation =? 2) then Some (s, false) else
  address ← read_be32 b (packet + 14);
  s ← learn_arp address b (packet + 8) s;
  Some (s, true).

(** ** DHCP *)

(** What the option loop has gathered so far. *)
Record dhcp_scan := DhcpScan { sc_offer : network_dhcp_offer; sc_message_type : Z }.

(** The effect of one option whose payload starts at [at_]. *)
Definition dhcp_option (b : list Z) (opt option_length at_ : Z) (sc : dhcp_scan)
  : option dhcp_scan :=
  let o := sc.(sc_offer) in
  if (opt =? 53) && (option_length =? 1) then
    t ← b.[at_]; Some (DhcpScan o t)
  else if (opt =? 54) && (option_length =? 4) then
    v ← read_be32 b at_;
    Some (DhcpScan (DhcpOffer o.(o_address) v o.(o_gateway) o.(o_dns) o.(o_subnet_mask))
            sc.(sc_message_type))
  else if (opt =? 3) && (4 <=? option_length) then
    v ← read_be32 b at_;
    Some (DhcpScan (DhcpOffer o.(o_address) o.(o_server) v o.(o_dns) o.(o_subnet_mask))
            sc.(sc_message_type))
  else if (opt =? 6) && (4 <=? option_length) then
    v ← read_be32 b at_;
    Some (DhcpScan (DhcpOffer o.(o_address) o.(o_server) o.(o_gateway) v o.(o_subnet_mask))
            sc.(sc_message_type))
  else if (opt =? 1) && (option_length =? 4) then
    v ← read_be32 b at_;
    Some (DhcpScan (DhcpOffer o.(o_address) o.(o_server) o.(o_gateway) o.(o_dns) v)
            sc.(sc_message_type))
  else Some sc.

(** The option loop: [Some (Some sc)] when it ends, [Some None] when it rejects
    the packet. *)
Fixpoint dhcp_options (fuel : nat) (b : list Z) (packet offset length : Z) (sc : dhcp_scan)
  : option (option dhcp_scan) :=
  if offset <? length then
    match fuel with
    | O => None
    | S fuel' =>
        opt ← b.[packet + offset];
        let offset := offset + 1 in
        if opt =? 0 then dhcp_options fuel' b packet offset length sc else
        if opt =? 255 then Some (Some sc) else
        if length <=? offset then Some None else
        option_length ← b.[packet + offset];
        let offset := offset + 1 in
        if u64 (length - offset) <? option_length then Some None else
        sc ← dhcp_option b opt option_length (packet + offset) sc;
        dhcp_options fuel' b packet (offset + option_length) length sc
    end
  else Some (Some sc).

Definition receive_dhcp (b : list Z) (packet length : Z) (s : net) : option (net * bool) :=
  if length <? DHCP_FIXED_BYTES then Some (s, false) else
  op ← b.[packet]; if negb (op =? 2) then Some (s, false) else
  htype ← b.[packet + 1]; if negb (htype =? 1) then Some (s, false) else
  hlen ← b.[packet + 2]; if negb (hlen =? 6) then Some (s, false) else
  magic ← read_be32 b (packet + 236);
  if negb (magic =? DHCP_MAGIC) then Some (s, false) else
  same ← equal_mac b (packet + 28) s.(state).(mac) 0;
  if negb same then Some (s, false) else
  address ← read_be32 b (packet + 16);
  transaction ← read_be32 b (packet + 4);
  scan ← dhcp_options (Z.to_nat length) b packet DHCP_FIXED_BYTES length
           (DhcpScan (DhcpOffer address 0 0 0 0) 0);
  match scan with
  | None => Some (s, false)
  | Some sc =>
      if (negb (sc.(sc_message_type) =? 2) && negb (sc.(sc_message_type) =? 5))
         || (sc.(sc_offer).(o_address) =? 0) || (sc.(sc_offer).(o_server) =? 0)
      then Some (s, false)
      else if sc.(sc_message_type) =? 2
      then Some (set_offer (DhcpSlot sc.(sc_offer) transaction true) s, true)
      else Some (set_ack (DhcpSlot sc.(sc_offer) transaction true) s, true)
  end.

(** ** DNS *)

(** The offset after an encoded name, 0 when the name is malformed. *)
Fixpoint dns_skip_name (fuel : nat) (b : list Z) (packet length offset : Z) : option Z :=
  if offset <? length then
    match fuel with
    | O => None
    | S fuel' =>
        label ← b.[packet + offset];
        let offset := offset + 1 in
        if label =? 0 then Some offset else
        if Z.land label 192 =? 192
        then Some (if offset <? length then offset + 1 else 0) else
        if (63 <? label) || (u64 (length - offset) <? label) then Some 0 else
        dns_skip_name fuel' b packet length (offset + label)
    end
  else Some 0.

(** The question loop: [Some (Some offset)] when it ends, [Some None] on a
    malformed question. *)
Fixpoint dns_questions (n : nat) (b : list Z) (packet length offset : Z)
  : option (option Z) :=
  match n with
  | O => Some (Some offset)
  | S n' =>
      offset ← dns_skip_name (Z.to_nat length) b packet length offset;
      if (offset =? 0) || (u64 (length - offset) <? 4) then Some None else
      dns_questions n' b packet length (offset + 4)
  end.

(** The answer loop: the first A/IN record, or [Some None]. *)
Fixpoint dns_answers (n : nat) (b : list Z) (packet length offset : Z)
  : option (option network_dns_answer) :=
  match n with
  | O => Some None
  | S n' =>
      offset ← dns_skip_name (Z.to_nat length) b packet length offset;
      if (offset =? 0) || (u64 (length - offset) <? 10) then Some None else
      type ← read_be16 b (packet + offset);
      class_code ← read_be16 b (packet + offset + 2);
      ttl ← read_be32 b (packet + offset + 4);
      data_length ← read_be16 b (packet + offset + 8);
      let offset := offset + 10 in
      if u64 (length - offset) <? data_length then Some None else
      if (type =? 1) && (class_code =? 1) && (data_length =? 4) then
        address ← read_be32 b (packet + offset);
        Some (Some (DnsAnswer address ttl))
      else dns_answers n' b packet length (offset + data_length)
  end.

Definition receive_dns (b : list Z) (packet length : Z) (s : net) : option (net * bool) :=
  if length <? 12 then Some (s, false) else
  flags ← read_be16 b (packet + 2);
  if negb (Z.land flags 32783 =? 32768) then Some (s, false) else
  transaction ← read_be16 b packet;
  questions ← read_be16 b (packet + 4);
  answers ← read_be16 b (packet + 6);
  q ← dns_questions (Z.to_nat questions) b packet length 12;
  match q with
  | None => Some (s, false)
  | Some offset =>
      a ← dns_answers (Z.to_nat answers) b packet length offset;
      match a with
      | None => Some (s, false)
      | Some answer => Some (set_dns (DnsSlot answer transaction true) s, true)
      end
  end.

(** ** UDP and TCP *)

Definition receive_udp (b : list Z) (packet length : Z) (s : net) : option (net * bool) :=
  if length <? 8 then Some (s, false) else
  source_port ← read_be16 b packet;
  destination_port ← read_be16 b (packet + 2);
  udp_length ← read_be16 b (packet + 4);
  if (udp_length <? 8) || (length <? udp_length) then Some (s, false) else
  if (source_port =? DHCP_SERVER_PORT) && (destination_port =? DHCP_CLIENT_PORT)
  then receive_dhcp b (packet + 8) (udp_length - 8) s else
  if (source_port =? DNS_SERVER_PORT) && (destination_port =? DNS_CLIENT_PORT)
  then receive_dns b (packet + 8) (udp_length - 8) s else
  Some (s, true).

Definition has_flag (flags flag : Z) : bool := negb (Z.land flags flag =? 0).

(** The FIN bookkeeping of [receive_tcp]. *)
Definition tcp_note_fin (b : list Z) (packet source data_length : Z) (s : net) : option net :=
  remote_port ← read_be16 b packet;
  local_port ← read_be16 b (packet + 2);
  sequence ← read_be32 b (packet + 4);
  Some (set_fin (FinSlot true source (u32 (sequence + u32 data_length + 1))
                   local_port remote_port) s).

(** The data bookkeeping of [receive_tcp]; the flag says whether the segment
    was in order and fitted the receive buffer. *)
Definition tcp_take_data (b : list Z) (packet header_length data_length source flags : Z)
    (s : net) : option (net * bool) :=
  sequence ← read_be32 b (packet + 4);
  remote_port ← read_be16 b packet;
  local_port ← read_be16 b (packet + 2);
  let d := s.(pending_data) in
  let d := if d.(td_length) =? 0
           then DataSlot d.(td_data) 0 sequence source local_port remote_port else d in
  let s := set_data d s in
  if negb (d.(td_address) =? source) || negb (d.(td_remote_port) =? remote_port)
     || negb (d.(td_local_port) =? local_port) || negb (d.(td_next_sequence) =? sequence)
     || (u64 (TCP_RECEIVE_LIMIT - d.(td_length)) <? data_length)
  then Some (s, false) else
  buffer ← copy_into d.(td_data) d.(td_length) b (packet + header_length)
             (Z.to_nat data_length);
  let next := u32 (d.(td_next_sequence) + u32 data_length) in
  let next := if has_flag flags TCP_FLAG_FIN then u32 (next + 1) else next in
  Some (set_data (DataSlot buffer (d.(td_length) + data_length) next d.(td_address)
                    d.(td_local_port) d.(td_remote_port)) s, true).

(** The SYN/ACK bookkeeping of [receive_tcp]. *)
Definition tcp_note_syn_ack (b : list Z) (packet source : Z) (s : net) : option net :=
  remote_port ← read_be16 b packet;
  local_port ← read_be16 b (packet + 2);
  sequence ← read_be32 b (packet + 4);
  acknowledgment ← read_be32 b (packet + 8);
  window ← read_be16 b (packet + 14);
  Some (set_syn (SynSlot (SynAck sequence window) source acknowledgment
                   local_port remote_port true) s).

Definition receive_tcp (b : list Z) (packet length source destination : Z) (s : net)
  : option (net * bool) :=
  if length <? 20 then Some (s, false) else
  checksum ← transport_checksum source destination IP_PROTOCOL_TCP b packet length;
  if negb (checksum =? 0) then Some (s, false) else
  offset_byte ← b.[packet + 12];
  let header_length := Z.shiftr offset_byte 4 * 4 in
  if (header_length <? 20) || (length <? header_length) then Some (s, false) else
  flags ← b.[packet + 13];
  let data_length := length - header_length in
  s ← (if has_flag flags TCP_FLAG_FIN then tcp_note_fin b packet source data_length s
       else Some s);
  '(s, in_order) ← (if negb (data_length =? 0)
                    then tcp_take_data b packet header_length data_length source flags s
                    else Some (s, true));
  if negb in_order then Some (s, false) else
  if negb (Z.land flags (Z.lor TCP_FLAG_SYN TCP_FLAG_ACK) =? Z.lor TCP_FLAG_SYN TCP_FLAG_ACK)
  then Some (s, true) else
  s ← tcp_note_syn_ack b packet source s;
  Some (s, true).

(** ** IPv4 and Ethernet *)

Definition receive_ipv4 (b : list Z) (packet length : Z) (s : net) : option (net * bool) :=
  if length <? 20 then Some (s, false) else
  version_byte ← b.[packet];
  if negb (Z.shiftr version_byte 4 =? 4) then Some (s, false) else
  let header_length := Z.land version_byte 15 * 4 in
  total_length ← read_be16 b (packet + 2);
  if (header_length <? 20) || (60 <? header_length) || (length <? header_length)
     || (total_length <? header_length) || (length <? total_length)
  then Some (s, false) else
  checksum ← network_ipv4_checksum b packet header_length;
  if negb (checksum =? 0) then Some (s, false) else
  fragment ← read_be16 b (packet + 6);
  if negb (Z.land fragment 16383 =? 0) then Some (s, false) else
  protocol ← b.[packet + 9];
  if protocol =? IP_PROTOCOL_UDP
  then receive_udp b (packet + header_length) (total_length - header_length) s else
  if protocol =? IP_PROTOCOL_TCP then
    source ← read_be32 b (packet + 12);
    destination ← read_be32 b (packet + 16);
    receive_tcp b (packet + header_length) (total_length - header_length)
      source destination s
  else Some (s, true).

Definition network_receive_ethernet (frame : option (list Z)) (length : Z) (s : net)
  : option (net * bool) :=
  match frame with
  | None => Some (set_state (count_dropped s.(state)) s, false)
  | Some frame =>
      if (length <? ETHERNET_MIN_FRAME_BYTES) || negb (bool_decide (s.(state).(link) = LINK_UP))
      then Some (set_state (count_dropped s.(state)) s, false) else
      type ← read_be16 frame 12;
      '(s, accepted) ←
        (if type =? ETHER_TYPE_ARP
         then receive_arp frame ETHERNET_HEADER_BYTES (length - ETHERNET_HEADER_BYTES) s
         else if type =? ETHER_TYPE_IPV4
         then receive_ipv4 frame ETHERNET_HEADER_BYTES (length - ETHERNET_HEADER_BYTES) s
         else Some (s, false));
      if accepted : bool
      then Some (set_state (count_received s.(state)) s, true)
      else Some (set_state (count_dropped s.(state)) s, false)
  end.

(** ** Frame builders

    A builder receives the caller's buffer and returns the state, the buffer
    and the frame length, 0 when it declines. *)

Definition ip_at : Z := 14.
Definition l4_at : Z := ip_at + 20.

(** [frame[i] = 0xFF; frame[6 + i] = state.mac[i]] for the six octets. *)
Definition broadcast_header (m : list Z) (frame : list Z) : option (list Z) :=
  for_up 6 0 (fun i f => f ← f.[i <- 255]; x ← m.[i]; f.[6 + i <- x]) frame.

Definition network_build_arp_request (frame : list Z) (capacity target_address : Z) (s : net)
  : option (net * list Z * Z) :=
  if (capacity <? ETHERNET_MIN_FRAME_BYTES)
     || negb (bool_decide (s.(state).(link) = LINK_UP)) || (s.(state).(ipv4_address) =? 0)
  then Some (s, frame, 0) else
  frame ← fill frame 0 0 (Z.to_nat ETHERNET_MIN_FRAME_BYTES);
  frame ← broadcast_header s.(state).(mac) frame;
  frame ← write_be16 frame 12 ETHER_TYPE_ARP;
  let arp := ETHERNET_HEADER_BYTES in
  frame ← write_be16 frame arp 1;
  frame ← write_be16 frame (arp + 2) ETHER_TYPE_IPV4;
  frame ← frame.[arp + 4 <- 6];
  frame ← frame.[arp + 5 <- 4];
  frame ← write_be16 frame (arp + 6) 1;
  frame ← copy_mac frame (arp + 8) s.(state).(mac) 0;
  frame ← write_be32 frame (arp + 14) s.(state).(ipv4_address);
  frame ← write_be32 frame (arp + 24) target_address;
  Some (s, frame, ETHERNET_MIN_FRAME_BYTES).

(** The DHCP discover and request frames share their Ethernet, IP and UDP
    headers and the fixed BOOTP fields; only the datagram length, the IP
    identification and the options differ. *)
Definition dhcp_headers (frame : list Z) (dhcp_length identification transaction_id : Z)
    (s : net) : option (list Z) :=
  let udp_length := 8 + dhcp_length in
  let ip_length := 20 + udp_length in
  let frame_length := ETHERNET_HEADER_BYTES + ip_length in
  frame ← fill frame 0 0 (Z.to_nat frame_length);
  frame ← broadcast_header s.(state).(mac) frame;
  frame ← write_be16 frame 12 ETHER_TYPE_IPV4;
  let ip := ip_at in
  frame ← frame.[ip <- 69];
  frame ← write_be16 frame (ip + 2) (u16 ip_length);
  frame ← write_be16 frame (ip + 4) identification;
  frame ← frame.[ip + 8 <- 64];
  frame ← frame.[ip + 9 <- IP_PROTOCOL_UDP];
  frame ← write_be32 frame (ip + 16) U32_MAX;
  checksum ← network_ipv4_checksum frame ip 20;
  frame ← write_be16 frame (ip + 10) checksum;
  let udp := ip + 20 in
  frame ← write_be16 frame udp DHCP_CLIENT_PORT;
  frame ← write_be16 frame (udp + 2) DHCP_SERVER_PORT;
  frame ← write_be16 frame (udp + 4) (u16 udp_length);
  let dhcp := udp + 8 in
  frame ← frame.[dhcp <- 1];
  frame ← frame.[dhcp + 1 <- 1];
  frame ← frame.[dhcp + 2 <- 6];
  frame ← write_be32 frame (dhcp + 4) transaction_id;
  frame ← write_be16 frame (dhcp + 10) 32768;
  frame ← copy_mac frame (dhcp + 28) s.(state).(mac) 0;
  write_be32 frame (dhcp + 236) DHCP_MAGIC.

Definition dhcp_at : Z := l4_at + 8.

(** A run of constant bytes stored at consecutive offsets. *)
Fixpoint write_bytes (frame : list Z) (i : Z) (l : list Z) : option (list Z) :=
  match l with
  | [] => Some frame
  | x :: l' => frame ← frame.[i <- x]; write_bytes frame (i + 1) l'
  end.

Definition network_build_dhcp_discover (frame : list Z) (capacity transaction_id : Z) (s : net)
  : option (net * list Z * Z) :=
  let dhcp_length := 250 in
  let frame_length := ETHERNET_HEADER_BYTES + (20 + (8 + dhcp_length)) in
  if (capacity <? frame_length) || negb (bool_decide (s.(state).(link) = LINK_UP))
     || (transaction_id =? 0)
  then Some (s, frame, 0) else
  frame ← dhcp_headers frame dhcp_length 1 transaction_id s;
  frame ← write_bytes frame (dhcp_at + 240) [53; 1; 1; 55; 3; 1; 3; 6; 255];
  Some (set_offer (invalidate_dhcp s.(pending_offer)) s, frame, frame_length).

Definition network_build_dhcp_request (frame : list Z)
    (capacity transaction_id requested_address server_address : Z) (s : net)
  : option (net * list Z * Z) :=
  let dhcp_length := 261 in
  let frame_length := ETHERNET_HEADER_BYTES + (20 + (8 + dhcp_length)) in
  if (capacity <? frame_length) || negb (bool_decide (s.(state).(link) = LINK_UP))
     || (transaction_id =? 0) || (requested_address =? 0) || (server_address =? 0)
  then Some (s, frame, 0) else
  frame ← dhcp_headers frame dhcp_length 2 transaction_id s;
  frame ← write_bytes frame (dhcp_at + 240) [53; 1; 3; 50; 4];
  frame ← write_be32 frame (dhcp_at + 245) requested_address;
  frame ← write_bytes frame (dhcp_at + 249) [54; 4];
  frame ← write_be32 frame (dhcp_at + 251) server_address;
  frame ← write_bytes frame (dhcp_at + 255) [55; 3; 1; 3; 6; 255];
  Some (set_ack (invalidate_dhcp s.(pending_ack)) s, frame, frame_length).

Definition network_dhcp_offer_of (transaction_id : Z) (s : net) : option network_dhcp_offer :=
  let p := s.(pending_offer) in
  if negb p.(dhcp_valid) || negb (p.(dhcp_transaction) =? transaction_id) then None
  else Some p.(dhcp_lease).

Definition network_dhcp_ack (transaction_id : Z) (s : net) : option network_dhcp_offer :=
  let p := s.(pending_ack) in
  if negb p.(dhcp_valid) || negb (p.(dhcp_transaction) =? transaction_id) then None
  else Some p.(dhcp_lease).

(** Length of a NUL-terminated host name, cut at 254. *)
Fixpoint hostname_scan (n : nat) (hostname : list Z) (len : Z) : option Z :=
  c ← hostname.[len];
  if c =? 0 then Some len else
  match n with
  | O => Some len
  | S n' => hostname_scan n' hostname (len + 1)
  end.
Definition hostname_length_of (hostname : list Z) : option Z := hostname_scan 254 hostname 0.

(** End of the label that starts at [source]: the next dot or the end. *)
Fixpoint label_end (n : nat) (hostname : list Z) (hostname_length source : Z) : option Z :=
  if source <? hostname_length then
    match n with
    | O => None
    | S n' =>
        c ← hostname.[source];
        if c =? 46 then Some source else label_end n' hostname hostname_length (source + 1)
    end
  else Some source.

(** The label loop: [Some (Some (dns, destination))], or [Some None] for a label
    that is empty or too long. *)
Fixpoint dns_labels (n : nat) (hostname : list Z) (hostname_length source : Z)
    (frame : list Z) (dns destination : Z) : option (option (list Z * Z)) :=
  if source <? hostname_length then
    match n with
    | O => None
    | S n' =>
        let label_start := source in
        source ← label_end (Z.to_nat hostname_length) hostname hostname_length source;
        let label_length := source - label_start in
        if (label_length =? 0) || (63 <? label_length) then Some None else
        frame ← frame.[dns + destination <- u8 label_length];
        let destination := destination + 1 in
        frame ← copy_into frame (dns + destination) hostname label_start
                  (Z.to_nat label_length);
        let destination := destination + label_length in
        dns_labels n' hostname hostname_length
          (if source <? hostname_length then source + 1 else source)
          frame dns destination
    end
  else Some (Some (frame, destination)).

Definition network_build_dns_query (frame : list Z) (capacity : Z)
    (destination_mac : list Z) (dns_address transaction_id : Z) (hostname : list Z)
    (s : net) : option (net * list Z * Z) :=
  if negb (bool_decide (s.(state).(link) = LINK_UP)) || (s.(state).(ipv4_address) =? 0)
     || (dns_address =? 0) || (transaction_id =? 0)
  then Some (s, frame, 0) else
  hostname_length ← hostname_length_of hostname;
  if (hostname_length =? 0) || (253 <? hostname_length) then Some (s, frame, 0) else
  let dns_length := 12 + hostname_length + 2 + 4 in
  let udp_length := 8 + dns_length in
  let ip_length := 20 + udp_length in
  let frame_length := ETHERNET_HEADER_BYTES + ip_length in
  if capacity <? frame_length then Some (s, frame, 0) else
  frame ← fill frame 0 0 (Z.to_nat frame_length);
  frame ← copy_mac frame 0 destination_mac 0;
  frame ← copy_mac frame 6 s.(state).(mac) 0;
  frame ← write_be16 frame 12 ETHER_TYPE_IPV4;
  let ip := ip_at in
  frame ← frame.[ip <- 69];
  frame ← write_be16 frame (ip + 2) (u16 ip_length);
  frame ← write_be16 frame (ip + 4) 3;
  frame ← frame.[ip + 8 <- 64];
  frame ← frame.[ip + 9 <- IP_PROTOCOL_UDP];
  frame ← write_be32 frame (ip + 12) s.(state).(ipv4_address);
  frame ← write_be32 frame (ip + 16) dns_address;
  checksum ← network_ipv4_checksum frame ip 20;
  frame ← write_be16 frame (ip + 10) checksum;
  let udp := ip + 20 in
  frame ← write_be16 frame udp DNS_CLIENT_PORT;
  frame ← write_be16 frame (udp + 2) DNS_SERVER_PORT;
  frame ← write_be16 frame (udp + 4) (u16 udp_length);
  let dns := udp + 8 in
  frame ← write_be16 frame dns transaction_id;
  frame ← write_be16 frame (dns + 2) 256;
  frame ← write_be16 frame (dns + 4) 1;
  labels ← dns_labels (Z.to_nat hostname_length) hostname hostname_length 0 frame dns 12;
  match labels with
  | None => Some (s, frame, 0)
  | Some (frame, destination) =>
      frame ← frame.[dns + destination <- 0];
      let destination := destination + 1 in
      frame ← write_be16 frame (dns + destination) 1;
      frame ← write_be16 frame (dns + destination + 2) 1;
      Some (set_dns (DnsSlot s.(pending_dns).(dns_answer)
                       s.(pending_dns).(dns_transaction) false) s, frame, frame_length)
  end.

Definition network_dns_answer_of (transaction_id : Z) (s : net) : option network_dns_answer :=
  let p := s.(pending_dns) in
  if negb p.(dns_valid) || negb (p.(dns_transaction) =? transaction_id) then None
  else Some p.(dns_answer).

Definition build_tcp_frame (frame : list Z) (capacity : Z) (destination_mac : list Z)
    (remote_address local_port remote_port sequence acknowledgment flags : Z) (s : net)
  : option (list Z * Z) :=
  let tcp_length := 20 in
  let ip_length := 20 + tcp_length in
  if (capacity <? ETHERNET_MIN_FRAME_BYTES)
     || negb (bool_decide (s.(state).(link) = LINK_UP)) || (s.(state).(ipv4_address) =? 0)
     || (remote_address =? 0) || (local_port =? 0) || (remote_port =? 0)
  then Some (frame, 0) else
  frame ← fill frame 0 0 (Z.to_nat ETHERNET_MIN_FRAME_BYTES);
  frame ← copy_mac frame 0 destination_mac 0;
  frame ← copy_mac frame 6 s.(state).(mac) 0;
  frame ← write_be16 frame 12 ETHER_TYPE_IPV4;
  let ip := ip_at in
  frame ← frame.[ip <- 69];
  frame ← write_be16 frame (ip + 2) (u16 ip_length);
  frame ← write_be16 frame (ip + 4) 4;
  frame ← frame.[ip + 8 <- 64];
  frame ← frame.[ip + 9 <- IP_PROTOCOL_TCP];
  frame ← write_be32 frame (ip + 12) s.(state).(ipv4_address);
  frame ← write_be32 frame (ip + 16) remote_address;
  checksum ← network_ipv4_checksum frame ip 20;
  frame ← write_be16 frame (ip + 10) checksum;
  let tcp := ip + 20 in
  frame ← write_be16 frame tcp local_port;
  frame ← write_be16 frame (tcp + 2) remote_port;
  frame ← write_be32 frame (tcp + 4) sequence;
  frame ← write_be32 frame (tcp + 8) acknowledgment;
  frame ← frame.[tcp + 12 <- 80];
  frame ← frame.[tcp + 13 <- flags];
  frame ← write_be16 frame (tcp + 14) 16384;
  checksum ← transport_checksum s.(state).(ipv4_address) remote_address IP_PROTOCOL_TCP
               frame tcp tcp_length;
  frame ← write_be16 frame (tcp + 16) checksum;
  Some (frame, ETHERNET_MIN_FRAME_BYTES).

Definition network_build_tcp_syn (frame : list Z) (capacity : Z) (destination_mac : list Z)
    (remote_address local_port remote_port initial_sequence : Z) (s : net)
  : option (net * list Z * Z) :=
  let p := s.(pending_syn) in
  let s := set_syn (SynSlot p.(syn_ack) p.(syn_address) p.(syn_acknowledgment)
                      p.(syn_local_port) p.(syn_remote_port) false) s in
  '(frame, n) ← build_tcp_frame frame capacity destination_mac remote_address local_port
                  remote_port initial_sequence 0 TCP_FLAG_SYN s;
  Some (s, frame, n).

Definition network_tcp_syn_ack_of (remote_address local_port remote_port initial_sequence : Z)
    (s : net) : option network_tcp_syn_ack :=
  let p := s.(pending_syn) in
  if negb p.(syn_valid) || negb (p.(syn_address) =? remote_address)
     || negb (p.(syn_local_port) =? local_port) || negb (p.(syn_remote_port) =? remote_port)
     || negb (p.(syn_acknowledgment) =? u32 (initial_sequence + 1))
  then None else Some p.(syn_ack).

Definition network_build_tcp_ack (frame : list Z) (capacity : Z) (destination_mac : list Z)
    (remote_address local_port remote_port local_sequence remote_sequence : Z) (s : net)
  : option (list Z * Z) :=
  build_tcp_frame frame capacity destination_mac remote_address local_port remote_port
    local_sequence remote_sequence TCP_FLAG_ACK s.

Definition network_build_tcp_fin (frame : list Z) (capacity : Z) (destination_mac : list Z)
    (remote_address local_port remote_port local_sequence remote_sequence : Z) (s : net)
  : option (list Z * Z) :=
  build_tcp_frame frame capacity destination_mac remote_address local_port remote_port
    local_sequence remote_sequence (Z.lor TCP_FLAG_FIN TCP_FLAG_ACK) s.

Definition network_build_tcp_data (frame : list Z) (capacity : Z) (destination_mac : list Z)
    (remote_address local_port remote_port local_sequence remote_sequence : Z)
    (data : list Z) (data_length : Z) (s : net) : option (net * list Z * Z) :=
  let tcp_length := 20 + data_length in
  let ip_length := 20 + tcp_length in
  let frame_length := ETHERNET_HEADER_BYTES + ip_length in
  if (data_length =? 0) || (1400 <? data_length) || (capacity <? frame_length)
     || negb (bool_decide (s.(state).(link) = LINK_UP)) || (s.(state).(ipv4_address) =? 0)
     || (remote_address =? 0) || (local_port =? 0) || (remote_port =? 0)
  then Some (s, frame, 0) else
  frame ← fill frame 0 0 (Z.to_nat frame_length);
  frame ← copy_mac frame 0 destination_mac 0;
  frame ← copy_mac frame 6 s.(state).(mac) 0;
  frame ← write_be16 frame 12 ETHER_TYPE_IPV4;
  let ip := ip_at in
  frame ← frame.[ip <- 69];
  frame ← write_be16 frame (ip + 2) (u16 ip_length);
  frame ← write_be16 frame (ip + 4) 5;
  frame ← frame.[ip + 8 <- 64];
  frame ← frame.[ip + 9 <- IP_PROTOCOL_TCP];
  frame ← write_be32 frame (ip + 12) s.(state).(ipv4_address);
  frame ← write_be32 frame (ip + 16) remote_address;
  checksum ← network_ipv4_checksum frame ip 20;
  frame ← write_be16 frame (ip + 10) checksum;
  let tcp := ip + 20 in
  frame ← write_be16 frame tcp local_port;
  frame ← write_be16 frame (tcp + 2) remote_port;
  frame ← write_be32 frame (tcp + 4) local_sequence;
  frame ← write_be32 frame (tcp + 8) remote_sequence;
  frame ← frame.[tcp + 12 <- 80];
  frame ← frame.[tcp + 13 <- Z.lor TCP_FLAG_PSH TCP_FLAG_ACK];
  frame ← write_be16 frame (tcp + 14) 16384;
  frame ← copy_into frame (tcp + 20) data 0 (Z.to_nat data_length);
  checksum ← transport_checksum s.(state).(ipv4_address) remote_address IP_PROTOCOL_TCP
               frame tcp tcp_length;
  frame ← write_be16 frame (tcp + 16) checksum;
  let d := s.(pending_data) in
  let f := s.(pending_fin) in
  let s := set_data (DataSlot d.(td_data) 0 d.(td_next_sequence) d.(td_address)
                       d.(td_local_port) d.(td_remote_port)) s in
  let s := set_fin (FinSlot false f.(fin_address) f.(fin_next_sequence)
                      f.(fin_local_port) f.(fin_remote_port)) s in
  Some (s, frame, frame_length).

(** ** What the HTTP client polls *)

Definition network_tcp_remote_fin (remote_address local_port remote_port : Z) (s : net)
  : option Z :=
  let f := s.(pending_fin) in
  if negb f.(fin_pending) || negb (f.(fin_address) =? remote_address)
     || negb (f.(fin_local_port) =? local_port) || negb (f.(fin_remote_port) =? remote_port)
  then None else Some f.(fin_next_sequence).

(** The result is the state, the caller's buffer, the byte count and, when data
    was taken, the next sequence number. *)
Definition network_tcp_receive (remote_address local_port remote_port : Z)
    (destination : list Z) (capacity : Z) (s : net)
  : option (net * list Z * Z * option Z) :=
  let d := s.(pending_data) in
  if (d.(td_length) =? 0) || negb (d.(td_address) =? remote_address)
     || negb (d.(td_local_port) =? local_port) || negb (d.(td_remote_port) =? remote_port)
  then Some (s, destination, 0, None) else
  let amount := d.(td_length) in
  let amount := if capacity <? amount then capacity else amount in
  destination ← copy_into destination 0 d.(td_data) 0 (Z.to_nat amount);
  Some (set_data (DataSlot d.(td_data) 0 d.(td_next_sequence) d.(td_address)
                    d.(td_local_port) d.(td_remote_port)) s,
        destination, amount, Some d.(td_next_sequence)).

(** [while (body + 3 < length)]: skip to just after the blank line. *)
Fixpoint http_body (fuel : nat) (response : list Z) (length body : Z) : option Z :=
  if body + 3 <? length then
    match fuel with
    | O => None
    | S fuel' =>
        a ← response.[body]; b ← response.[body + 1];
        c ← response.[body + 2]; d ← response.[body + 3];
        if (a =? 13) && (b =? 10) && (c =? 13) && (d =? 10) then Some (body + 4)
        else http_body fuel' response length (body + 1)
    end
  else Some body.

Definition network_publish_http_response (response : list Z) (length : Z) (s : net)
  : option net :=
  let h := s.(http_document) in
  let s := set_http (HttpSlot h.(doc_bytes) 0 h.(doc_reads)) s in
  body ← http_body (Z.to_nat length) response length 0;
  if length <=? body + 3 then Some s else
  let amount := length - body in
  let amount := if HTTP_DOCUMENT_LIMIT <? amount then HTTP_DOCUMENT_LIMIT else amount in
  doc ← copy_into h.(doc_bytes) 0 response body (Z.to_nat amount);
  Some (set_http (HttpSlot doc amount h.(doc_reads)) s).

Definition network_http_response (destination : list Z) (capacity : Z) (s : net)
  : option (net * list Z * Z) :=
  let h := s.(http_document) in
  if (capacity =? 0) || (h.(doc_length) =? 0) then Some (s, destination, 0) else
  let amount := h.(doc_length) in
  let amount := if capacity <? amount then capacity else amount in
  destination ← copy_into destination 0 h.(doc_bytes) 0 (Z.to_nat amount);
  Some (set_http (HttpSlot h.(doc_bytes) h.(doc_length) (u64 (h.(doc_reads) + 1))) s,
        destination, amount).

Definition network_set_route (gateway dns : Z) (gateway_mac : option (list Z)) (s : net)
  : option net :=
  let s := set_route s.(active_route) false s in
  match gateway_mac with
  | None => Some s
  | Some m =>
      if (gateway =? 0) || (dns =? 0) then Some s else
      m' ← copy_mac s.(active_route).(r_gateway_mac) 0 m 0;
      Some (set_route (Route gateway dns m') true s)
  end.

Definition network_route_of (s : net) : option network_route :=
  if s.(active_route_valid) then Some s.(active_route) else None.
