(* ===== verification/NetworkSpec.v ===== *)
(** Correctness of the network stack: memory safety and the state invariant of
    the receive path, the ARP cache, checksums, and the TCP, DHCP and HTTP
    exchanges. *)

From S2P Require Import Prelude NetBytes Network.

(** ** The state invariant *)

Definition arp_valid (e : arp_entry) : Prop := Is_true e.(ae_valid).
#[export] Instance arp_valid_dec e : Decision (arp_valid e).
Proof. unfold arp_valid. apply _. Defined.

Definition mac_ok (m : list Z) : Prop := length m = 6%nat.

Record net_wf (s : net) : Prop := {
  wf_mac : mac_ok s.(state).(mac);
  wf_cache : length s.(arp_cache) = 4%nat;
  wf_entries : Forall (fun e => mac_ok e.(ae_mac)) s.(arp_cache);
  wf_replace : 0 <= s.(arp_replace) < 4;
  (** every address is cached at most once *)
  wf_unique : forall i j e f, s.(arp_cache) !! i = Some e -> s.(arp_cache) !! j = Some f ->
    arp_valid e -> arp_valid f -> e.(ae_address) = f.(ae_address) -> i = j;
  (** the snapshot counts the live entries *)
  wf_count : s.(state).(arp_entries) = count arp_valid s.(arp_cache);
  wf_data : length s.(pending_data).(td_data) = 4096%nat;
  wf_data_length : 0 <= s.(pending_data).(td_length) <= 4096;
  wf_doc : length s.(http_document).(doc_bytes) = 1024%nat;
  wf_doc_length : 0 <= s.(http_document).(doc_length) <= 1024;
  wf_gateway : mac_ok s.(active_route).(r_gateway_mac);
}.

(** What a receive step may return. *)
Definition rx_ok (r : net * bool) : Prop := net_wf r.1.

(** A packet of [length] bytes at [packet] of the buffer [b]. *)
Definition packet_ok (b : list Z) (packet length : Z) : Prop :=
  bytes_ok b /\ 0 <= packet /\ 0 <= length /\
  packet + length <= Z.of_nat (Datatypes.length b) < 18446744073709551616.

Lemma succeeds_be16 b i :
  0 <= i -> i + 2 <= Z.of_nat (length b) -> succeeds (read_be16 b i) is_u16.
Proof.
  intros. eapply succeeds_mono; [by apply succeeds_is_Some, read_be16_in|].
  intros v. apply read_be16_range.
Qed.
Lemma succeeds_be32 b i :
  0 <= i -> i + 4 <= Z.of_nat (length b) -> succeeds (read_be32 b i) (fun _ => True).
Proof.
  intros. eapply succeeds_mono; [by apply succeeds_is_Some, read_be32_in|]. done.
Qed.
Lemma succeeds_byte b i :
  bytes_ok b -> 0 <= i < Z.of_nat (length b) -> succeeds b.[i] is_byte.
Proof.
  intros Hb ?. eapply succeeds_mono; [by apply succeeds_aget|].
  intros v. by apply aget_Forall.
Qed.

(** Discharge the accesses of a parser: every load is inside the packet. *)
Ltac rx_bounds := unfold packet_ok, is_byte, is_u16 in *; cbn in *; b2p; lia.
(** A [size_t] difference that does not wrap. *)
Ltac u64_norm :=
  match goal with
  | H : context [u64 ?x] |- _ =>
      rewrite (u64_small x) in H by (unfold is_u64; rx_bounds)
  end.
Ltac rx_using tac :=
  repeat first
    [ progress (cbv zeta)
    | u64_norm
    | solve [tac tt]
    | lazymatch goal with
      | |- succeeds (read_be16 _ _) _ => apply succeeds_be16; rx_bounds
      | |- succeeds (read_be32 _ _) _ => apply succeeds_be32; rx_bounds
      | |- succeeds (aget _ _) _ => apply succeeds_byte; [unfold packet_ok in *; tauto|rx_bounds]
      | |- succeeds (Some (?s, _)) rx_ok => apply succeeds_ret; cbn; done
      end
    | succ_step ].
Ltac rx := rx_using ltac:(fun _ => fail).

(** ** ARP *)

Lemma copy_mac_spec dst b m :
  mac_ok dst -> 0 <= m -> m + 6 <= Z.of_nat (length b) ->
  copy_mac dst 0 b m = Some (take 6 (drop (Z.to_nat m) b)).
Proof.
  unfold mac_ok, copy_mac. intros Hd ??. rewrite copy_into_spec by lia. f_equal.
  change (Z.to_nat 0 + 6)%nat with 6%nat. cbn [take app].
  rewrite (drop_ge dst) by lia. by rewrite app_nil_r.
Qed.

Lemma mac_slice_ok b m :
  0 <= m -> m + 6 <= Z.of_nat (length b) -> mac_ok (take 6 (drop (Z.to_nat m) b)).
Proof. intros. unfold mac_ok. rewrite length_take, length_drop. lia. Qed.

Lemma arp_lookup_Some s a m : net_wf s ->
  network_arp_lookup a s = Some m <->
  exists i e, s.(arp_cache) !! i = Some e /\ arp_valid e /\ e.(ae_address) = a /\
    e.(ae_mac) = m.
Proof.
  intros Hwf. unfold network_arp_lookup. split.
  - destruct (list_find _ _) as [[i e]|] eqn:Hf; [|done]. intros [= <-].
    apply list_find_Some in Hf as (Hi & [Hv Ha] & _). by exists i, e.
  - intros (i & e & Hi & Hv & Ha & <-).
    destruct (list_find _ _) as [[j f]|] eqn:Hf.
    + apply list_find_Some in Hf as (Hj & [Hv' Ha'] & _).
      assert (i = j) as <- by (eapply (wf_unique s Hwf); eauto; congruence). congruence.
    + apply list_find_None in Hf. rewrite Forall_lookup in Hf. destruct (Hf i e Hi). done.
Qed.

(** Rewriting the MAC of a cached address. *)
Lemma wf_update_entry s i e m :
  net_wf s -> s.(arp_cache) !! i = Some e -> mac_ok m ->
  net_wf (set_arp (<[i := ArpEntry e.(ae_address) m e.(ae_valid)]> s.(arp_cache))
            s.(arp_replace) s).
Proof.
  intros Hwf Hi Hm. destruct Hwf. split; cbn; try done.
  - by rewrite length_insert.
  - by apply Forall_insert.
  - intros j k f g Hj Hk Hvf Hvg Hfg. apply list_lookup_insert_Some in Hj, Hk.
    destruct Hj as [(<- & <- & ?)|[? Hj]], Hk as [(<- & <- & ?)|[? Hk]]; cbn in *;
      [done|eapply wf_unique0; eauto..].
  - rewrite (count_insert _ _ _ _ e) by done. rewrite wf_count0.
    repeat case_decide; unfold arp_valid in *; cbn in *; try done; lia.
Qed.

(** Overwriting slot [i] with a fresh binding for an address nobody has. *)
Lemma wf_new_entry s i e a m r :
  net_wf s -> s.(arp_cache) !! i = Some e -> mac_ok m -> 0 <= r < 4 ->
  list_find (arp_hit a) s.(arp_cache) = None ->
  net_wf (set_arp (<[i := ArpEntry a m true]> s.(arp_cache)) r
    (if e.(ae_valid) then s
     else set_state (set_arp_entries (u64 (s.(state).(arp_entries) + 1)) s.(state)) s)).
Proof.
  intros Hwf Hi Hm Hr Hf. apply list_find_None in Hf. rewrite Forall_lookup in Hf.
  pose proof (count_range arp_valid s.(arp_cache)) as Hc.
  destruct Hwf. rewrite wf_cache0 in Hc.
  assert (Hcount : count arp_valid (<[i:=ArpEntry a m true]> s.(arp_cache)) =
    if e.(ae_valid) then s.(state).(arp_entries)
    else u64 (s.(state).(arp_entries) + 1)).
  { rewrite (count_insert _ _ _ _ e) by done. rewrite wf_count0.
    repeat case_decide; unfold arp_valid in *; cbn in *; destruct (ae_valid e); try done;
      unfold u64; rewrite ?Z.mod_small; lia. }
  assert (Huniq : forall j k f g, <[i:=ArpEntry a m true]> s.(arp_cache) !! j = Some f ->
    <[i:=ArpEntry a m true]> s.(arp_cache) !! k = Some g ->
    arp_valid f -> arp_valid g -> f.(ae_address) = g.(ae_address) -> j = k).
  { intros j k f g Hj Hk Hvf Hvg Hfg. apply list_lookup_insert_Some in Hj, Hk.
    destruct Hj as [(<- & <- & ?)|[? Hj]], Hk as [(<- & <- & ?)|[? Hk]]; cbn in *.
    - done.
    - by destruct (Hf _ _ Hk).
    - by destruct (Hf _ _ Hj).
    - eapply wf_unique0; eauto. }
  destruct (ae_valid e); split; cbn; try done;
    try (by rewrite length_insert); try (by apply Forall_insert).
Qed.

Lemma succeeds_learn_arp s a b m :
  net_wf s -> 0 <= m -> m + 6 <= Z.of_nat (length b) ->
  succeeds (learn_arp a b m s) net_wf.
Proof.
  intros Hwf Hm Hl. unfold learn_arp.
  destruct (list_find _ _) as [[i e]|] eqn:Hf.
  - apply list_find_Some in Hf as (Hi & _).
    rewrite copy_mac_spec; [|by apply (Forall_lookup_1 _ _ _ _ (wf_entries _ Hwf) Hi)|done..].
    apply succeeds_ret. apply wf_update_entry; [done..|by apply mac_slice_ok].
  - pose proof (wf_replace _ Hwf) as Hr. pose proof (wf_cache _ Hwf) as Hc.
    destruct (aget_in s.(arp_cache) s.(arp_replace)) as [e He]; [lia|].
    rewrite He. cbn [mbind option_bind]. apply aget_Some in He as [_ He].
    rewrite copy_mac_spec; [|by apply (Forall_lookup_1 _ _ _ _ (wf_entries _ Hwf) He)|done..].
    cbn [mbind option_bind]. rewrite aset_in by lia. cbn [mbind option_bind].
    apply succeeds_ret.
    apply wf_new_entry; try done; [by apply mac_slice_ok|].
    unfold ARP_CACHE_LIMIT. apply Z.mod_pos_bound. lia.
Qed.

Lemma succeeds_receive_arp b packet len s :
  net_wf s -> packet_ok b packet len -> succeeds (receive_arp b packet len s) rx_ok.
Proof.
  intros Hwf Hp. unfold receive_arp. unfold ARP_PACKET_BYTES.
  rx_using ltac:(fun _ => apply succeeds_learn_arp; [done|rx_bounds..]).
Qed.

(** ** DHCP *)

Lemma succeeds_equal_mac l i r j :
  0 <= i -> i + 6 <= Z.of_nat (length l) -> 0 <= j -> j + 6 <= Z.of_nat (length r) ->
  succeeds (equal_mac l i r j) (fun _ => True).
Proof.
  intros. destruct (equal_mac_from_in 6 l i r j) as [x Hx]; [lia..|]. by exists x.
Qed.

Lemma succeeds_dhcp_option b opt len at_ sc :
  0 <= at_ -> 0 <= len -> at_ + len <= Z.of_nat (length b) -> bytes_ok b ->
  succeeds (dhcp_option b opt len at_ sc) (fun _ => True).
Proof.
  intros ??? Hb. unfold dhcp_option.
  rx; try done; try (apply succeeds_byte; [done|lia]).
Qed.

Lemma succeeds_dhcp_options fuel b packet offset len sc :
  packet_ok b packet len -> 0 <= offset -> len - offset <= Z.of_nat fuel ->
  succeeds (dhcp_options fuel b packet offset len sc) (fun _ => True).
Proof.
  intros Hp. revert offset sc.
  induction fuel as [|fuel IH]; intros offset sc Ho Hf; cbn [dhcp_options].
  { rewrite (proj2 (Z.ltb_ge _ _)) by lia. by apply succeeds_ret. }
  rx_using ltac:(fun _ => first
    [ done
    | apply succeeds_dhcp_option; [rx_bounds..|apply Hp]
    | apply IH; rx_bounds ]).
Qed.

Lemma succeeds_receive_dhcp b packet len s :
  net_wf s -> packet_ok b packet len -> succeeds (receive_dhcp b packet len s) rx_ok.
Proof.
  intros Hwf Hp. pose proof (wf_mac _ Hwf) as Hm. unfold mac_ok in Hm.
  unfold receive_dhcp, DHCP_FIXED_BYTES.
  rx_using ltac:(fun _ => first
    [ done
    | apply succeeds_equal_mac; rx_bounds
    | apply succeeds_dhcp_options; [done|rx_bounds..]
    | apply succeeds_ret; destruct Hwf; split; done ]).
Qed.

(** ** DNS *)

(** Outcome of skipping a name: 0, or an offset after the start and inside the
    packet. *)
Lemma succeeds_dns_skip_name fuel b packet len offset :
  packet_ok b packet len -> 0 <= offset -> len - offset <= Z.of_nat fuel ->
  succeeds (dns_skip_name fuel b packet len offset)
    (fun r => r = 0 \/ offset < r <= len).
Proof.
  intros Hp. revert offset.
  induction fuel as [|fuel IH]; intros offset Ho Hf; cbn [dns_skip_name].
  { rewrite (proj2 (Z.ltb_ge _ _)) by lia. apply succeeds_ret. lia. }
  rx_using ltac:(fun _ => first
    [ done
    | apply succeeds_ret; first [lia|case_match; b2p; rx_bounds]
    | eapply succeeds_mono; [apply IH; rx_bounds|intros ? [?|?]; rx_bounds] ]).
Qed.

Lemma succeeds_dns_questions n b packet len offset :
  packet_ok b packet len -> 0 <= offset <= len ->
  succeeds (dns_questions n b packet len offset)
    (fun r => match r with Some o => 0 <= o <= len | None => True end).
Proof.
  intros Hp. revert offset. induction n as [|n IH]; intros offset Ho; cbn [dns_questions].
  { by apply succeeds_ret. }
  eapply succeeds_bind; [apply succeeds_dns_skip_name; [done|lia..]|].
  rx_using ltac:(fun _ => first [ done | apply IH; rx_bounds ]).
Qed.

Lemma succeeds_dns_answers n b packet len offset :
  packet_ok b packet len -> 0 <= offset <= len ->
  succeeds (dns_answers n b packet len offset) (fun _ => True).
Proof.
  intros Hp. revert offset. induction n as [|n IH]; intros offset Ho; cbn [dns_answers].
  { by apply succeeds_ret. }
  eapply succeeds_bind; [apply succeeds_dns_skip_name; [done|lia..]|].
  rx_using ltac:(fun _ => first [ done | apply IH; rx_bounds ]).
Qed.

Lemma succeeds_receive_dns b packet len s :
  net_wf s -> packet_ok b packet len -> succeeds (receive_dns b packet len s) rx_ok.
Proof.
  intros Hwf Hp. unfold receive_dns.
  rx_using ltac:(fun _ => first
    [ done
    | apply succeeds_dns_questions; [done|rx_bounds]
    | apply succeeds_dns_answers; [done|rx_bounds]
    | apply succeeds_ret; destruct Hwf; split; done ]).
Qed.

(** ** TCP *)

(** The data bookkeeping keeps the receive buffer in bounds. *)
Lemma succeeds_tcp_take_data b packet hl dl src flags s :
  net_wf s -> packet_ok b packet (hl + dl) -> 20 <= hl -> 0 < dl ->
  succeeds (tcp_take_data b packet hl dl src flags s) rx_ok.
Proof.
  intros Hwf Hp Hh Hd. unfold tcp_take_data, TCP_RECEIVE_LIMIT.
  pose proof (wf_data _ Hwf) as Hl. pose proof (wf_data_length _ Hwf) as Hr.
  do 3 (eapply succeeds_bind; [rx|intros ??]). cbv zeta.
  set (d := if td_length _ =? 0 then _ else _).
  assert (Hd' : length d.(td_data) = 4096%nat /\ 0 <= d.(td_length) <= 4096).
  { subst d. case_match; cbn; lia. }
  clearbody d. destruct Hd' as [Hdl Hdr].
  destruct (_ || _) eqn:Hchk; b2p.
  { apply succeeds_ret. destruct Hwf; split; cbn; done. }
  rewrite u64_small in * by (unfold is_u64; lia).
  eapply succeeds_bind; [apply succeeds_copy_into; rx_bounds|].
  intros buffer Hb. apply succeeds_ret. destruct Hwf; split; cbn; try done; [congruence|lia].
Qed.

Lemma succeeds_transport_checksum b packet len src dst :
  packet_ok b packet len -> len <= 65535 ->
  succeeds (transport_checksum src dst IP_PROTOCOL_TCP b packet len) (fun _ => True).
Proof.
  intros (Hb & ? & ? & ?) ?. eexists. split; [|done].
  apply transport_checksum_spec; try done; try lia; unfold is_byte, IP_PROTOCOL_TCP; lia.
Qed.

Lemma succeeds_tcp_note_fin b packet src dl s :
  net_wf s -> 0 <= packet -> packet + 20 <= Z.of_nat (length b) ->
  succeeds (tcp_note_fin b packet src dl s) net_wf.
Proof.
  intros Hwf ??. unfold tcp_note_fin.
  rx_using ltac:(fun _ => first [done | apply succeeds_ret; destruct Hwf; split; done]).
Qed.

Lemma succeeds_tcp_note_syn_ack b packet src s :
  net_wf s -> 0 <= packet -> packet + 20 <= Z.of_nat (length b) ->
  succeeds (tcp_note_syn_ack b packet src s) net_wf.
Proof.
  intros Hwf ??. unfold tcp_note_syn_ack.
  rx_using ltac:(fun _ => first [done | apply succeeds_ret; destruct Hwf; split; done]).
Qed.

Lemma succeeds_receive_tcp b packet len src dst s :
  net_wf s -> packet_ok b packet len -> len <= 65535 ->
  succeeds (receive_tcp b packet len src dst s) rx_ok.
Proof.
  intros Hwf Hp Hlen. unfold receive_tcp.
  destruct (Z.ltb_spec len 20); [by apply succeeds_ret|].
  eapply succeeds_bind; [by apply succeeds_transport_checksum|]. intros sum _.
  case_match; [by apply succeeds_ret|].
  eapply succeeds_bind; [rx|]. intros ob Hob. cbv zeta.
  set (hl := Z.shiftr ob 4 * 4). case_match; [by apply succeeds_ret|]. b2p.
  eapply succeeds_bind; [rx|]. intros flags _.
  apply (succeeds_bind _ _ net_wf).
  { case_match; [apply succeeds_tcp_note_fin; rx_bounds || done|by apply succeeds_ret]. }
  intros s1 Hwf1. apply (succeeds_bind _ _ rx_ok).
  { case_match; [|by apply succeeds_ret]. b2p.
    apply succeeds_tcp_take_data; rx_bounds || done || idtac.
    by replace (hl + (len - hl)) with len by lia. }
  intros [s2 in_order] Hwf2. case_match; [by apply succeeds_ret|].
  case_match; [by apply succeeds_ret|].
  eapply succeeds_bind; [apply succeeds_tcp_note_syn_ack; rx_bounds || done|].
  intros s3 Hwf3. by apply succeeds_ret.
Qed.

(** ** UDP, IPv4, Ethernet *)

Lemma succeeds_receive_udp b packet len s :
  net_wf s -> packet_ok b packet len -> succeeds (receive_udp b packet len s) rx_ok.
Proof.
  intros Hwf Hp. unfold receive_udp.
  rx_using ltac:(fun _ => first
    [ done
    | apply succeeds_receive_dhcp; [done|split; [apply Hp|rx_bounds]]
    | apply succeeds_receive_dns; [done|split; [apply Hp|rx_bounds]] ]).
Qed.

Lemma succeeds_receive_ipv4 b packet len s :
  net_wf s -> packet_ok b packet len -> succeeds (receive_ipv4 b packet len s) rx_ok.
Proof.
  intros Hwf Hp. unfold receive_ipv4.
  rx_using ltac:(fun _ => first
    [ done
    | apply succeeds_is_Some, network_ipv4_checksum_in; [apply Hp|rx_bounds..]
    | apply succeeds_receive_udp; [done|split; [apply Hp|rx_bounds]]
    | apply succeeds_receive_tcp; [done|split; [apply Hp|rx_bounds]|rx_bounds] ]).
Qed.

(** C2. Whatever bytes arrive, the receive path stays inside the frame and
    inside its own buffers, terminates, and keeps the stack's invariant: MAC
    fields of six octets, four uniquely addressed ARP slots whose count matches
    the snapshot, and data and document lengths within their buffers. *)
Theorem receive_ethernet_safe (s : net) (frame : list Z) :
  net_wf s -> bytes_ok frame -> Z.of_nat (length frame) < 18446744073709551616 ->
  exists s' accepted,
    network_receive_ethernet (Some frame) (Z.of_nat (length frame)) s = Some (s', accepted)
    /\ net_wf s'.
Proof.
  intros Hwf Hb Hl. unfold network_receive_ethernet.
  set (len := Z.of_nat (length frame)) in *.
  assert (Hstate : forall t, net_wf t ->
    net_wf (set_state (count_dropped t.(state)) t) /\
    net_wf (set_state (count_received t.(state)) t)).
  { intros t [????????]. split; by split. }
  destruct (_ || _) eqn:Hguard; b2p.
  { do 2 eexists. split; [done|]. by apply Hstate. }
  unfold ETHERNET_MIN_FRAME_BYTES, ETHERNET_HEADER_BYTES in *.
  destruct (succeeds_be16 frame 12) as (type & -> & _); [lia..|]. cbn [mbind option_bind].
  assert (Hp : packet_ok frame 14 (len - 14)) by (split; [done|subst len; lia]).
  assert (Hrx : succeeds
    (if type =? ETHER_TYPE_ARP then receive_arp frame 14 (len - 14) s
     else if type =? ETHER_TYPE_IPV4 then receive_ipv4 frame 14 (len - 14) s
     else Some (s, false)) rx_ok).
  { case_match; [by apply succeeds_receive_arp|].
    case_match; [by apply succeeds_receive_ipv4|by apply succeeds_ret]. }
  destruct Hrx as ([s1 acc] & -> & Hwf1). cbn [mbind option_bind].
  destruct acc; do 2 eexists; (split; [done|]); by apply Hstate.
Qed.

(** ** A freshly initialised host *)

(** Memory before [network_init]: only the sizes of the buffers matter. *)
Definition blank : net :=
  {| state := Snapshot LINK_NO_DEVICE (replicate 6 0) 0 0 0 0 0;
     arp_cache := []; arp_replace := 0;
     pending_offer := DhcpSlot no_offer 0 false; pending_ack := DhcpSlot no_offer 0 false;
     pending_dns := DnsSlot (DnsAnswer 0 0) 0 false;
     pending_syn := SynSlot (SynAck 0 0) 0 0 0 0 false;
     pending_data := DataSlot (replicate 4096 0) 0 0 0 0 0;
     pending_fin := FinSlot false 0 0 0 0;
     http_document := HttpSlot (replicate 1024 0) 0 0;
     active_route := Route 0 0 (replicate 6 0); active_route_valid := false |}.

(** A host whose device is up with the given addresses. *)
Definition host (m : list Z) (ip : Z) : net :=
  network_set_ipv4 ip (network_set_link true
    (set_state (Snapshot LINK_DOWN m 0 0 0 0 0) (network_init blank))).

Lemma init_wf s :
  length s.(pending_data).(td_data) = 4096%nat ->
  length s.(http_document).(doc_bytes) = 1024%nat -> net_wf (network_init s).
Proof.
  intros Hd Hh. split; cbn; try done; try lia.
  - repeat constructor.
  - intros [|[|[|[|i]]]] j e f Hi Hj He; cbn in *; simplify_eq/=; try done.
Qed.

Lemma host_wf m ip : mac_ok m -> net_wf (host m ip).
Proof.
  intros Hm. destruct (init_wf blank eq_refl eq_refl).
  split; try done.
Qed.

Lemma receive_ethernet_safe_witness :
  exists s' accepted,
    network_receive_ethernet (Some (replicate 60 255)) 60 (host [2; 0; 0; 0; 0; 1] 167772687)
      = Some (s', accepted) /\ net_wf s'.
Proof.
  apply (receive_ethernet_safe (host [2; 0; 0; 0; 0; 1] 167772687) (replicate 60 255)).
  - apply host_wf. done.
  - apply Forall_replicate. unfold is_byte. lia.
  - vm_compute. done.
Defined.

(** ** The ARP cache as a map *)

Lemma arp_slot_cases s i x a' m' r st :
  net_wf (set_arp (<[i := x]> s.(arp_cache)) r st) ->
  (i < length s.(arp_cache))%nat -> arp_valid x ->
  network_arp_lookup a' (set_arp (<[i := x]> s.(arp_cache)) r st) = Some m' <->
  (a' = x.(ae_address) /\ m' = x.(ae_mac)) \/
  (exists j e, j <> i /\ s.(arp_cache) !! j = Some e /\ arp_valid e /\
     e.(ae_address) = a' /\ e.(ae_mac) = m').
Proof.
  intros Hwf Hi Hx. rewrite arp_lookup_Some by done. cbn. split.
  - intros (j & e & Hj & Hv & Ha & Hm). apply list_lookup_insert_Some in Hj.
    destruct Hj as [(<- & -> & ?)|[? Hj]]; [left; auto|right]. by exists j, e.
  - intros [[-> ->]|(j & e & Hne & Hj & Hv & Ha & Hm)].
    + exists i, x. split; [by apply list_lookup_insert_eq|done].
    + exists j, e. rewrite list_lookup_insert_ne by done. done.
Qed.

(** Learning a binding makes it the answer for its address; every other
    answer was there before, and an answer is only lost when a full cache
    reuses its slot. *)
Theorem learn_arp_lookup (s : net) (a : Z) (b : list Z) (m : Z) (s' : net) :
  net_wf s -> 0 <= m -> m + 6 <= Z.of_nat (length b) -> learn_arp a b m s = Some s' ->
  network_arp_lookup a s' = Some (take 6 (drop (Z.to_nat m) b)) /\
  (forall a' m', a' <> a -> network_arp_lookup a' s' = Some m' ->
     network_arp_lookup a' s = Some m') /\
  (forall a' m', a' <> a -> network_arp_lookup a' s = Some m' ->
     network_arp_lookup a' s' = Some m' \/
     (network_arp_lookup a s = None /\
      exists e, s.(arp_cache) !! Z.to_nat s.(arp_replace) = Some e /\ arp_valid e /\
        e.(ae_address) = a')).
Proof.
  intros Hwf Hm Hl Hlearn.
  destruct (succeeds_learn_arp s a b m Hwf Hm Hl) as (s'' & Heq & Hwf').
  assert (s'' = s') as -> by congruence. clear Heq. unfold learn_arp in Hlearn.
  destruct (list_find _ _) as [[i e]|] eqn:Hf.
  - apply list_find_Some in Hf as (Hi & [Hv Ha] & _).
    rewrite copy_mac_spec in Hlearn;
      [|by apply (Forall_lookup_1 _ _ _ _ (wf_entries _ Hwf) Hi)|done..].
    cbn in Hlearn. injection Hlearn as <-.
    pose proof (lookup_lt_Some _ _ _ Hi) as Hlt.
    split; [|split]; intros *; rewrite arp_slot_cases by done; cbn; [by left|..].
    + intros Hne [[-> ->]|(j & f & ? & ? & ? & ? & ?)]; [done|].
      apply arp_lookup_Some; [done|]. by exists j, f.
    + intros Hne (j & f & Hj & Hvf & Haf & Hmf)%arp_lookup_Some; [|done]. left. right.
      exists j, f. split; [|done]. intros ->. congruence.
  - pose proof (wf_replace _ Hwf) as Hr. pose proof (wf_cache _ Hwf) as Hc.
    destruct (aget_in s.(arp_cache) s.(arp_replace)) as [e He]; [lia|].
    rewrite He in Hlearn. cbn [mbind option_bind] in Hlearn. apply aget_Some in He as [_ He].
    rewrite copy_mac_spec in Hlearn;
      [|by apply (Forall_lookup_1 _ _ _ _ (wf_entries _ Hwf) He)|done..].
    cbn [mbind option_bind] in Hlearn. rewrite aset_in in Hlearn by lia.
    cbn [mbind option_bind] in Hlearn. injection Hlearn as <-.
    assert (Hnone : network_arp_lookup a s = None).
    { unfold network_arp_lookup. by rewrite Hf. }
    split; [|split]; intros *; rewrite arp_slot_cases by (done || lia); cbn; [by left|..].
    + intros Hne [[-> ->]|(j & f & ? & ? & ? & ? & ?)]; [done|].
      apply arp_lookup_Some; [done|]. by exists j, f.
    + intros Hne (j & f & Hj & Hvf & Haf & Hmf)%arp_lookup_Some; [|done].
      destruct (decide (j = Z.to_nat s.(arp_replace))) as [->|Hij].
      * right. split; [done|]. by exists f.
      * left. right. by exists j, f.
Qed.

Lemma learn_arp_lookup_witness :
  network_arp_lookup 42
    (default blank (learn_arp 42 [9; 1; 2; 3; 4; 5; 6] 1 (host [2; 0; 0; 0; 0; 1] 7)))
  = Some [1; 2; 3; 4; 5; 6].
Proof.
  destruct (learn_arp 42 [9; 1; 2; 3; 4; 5; 6] 1 (host [2; 0; 0; 0; 0; 1] 7)) as [s'|] eqn:H;
    [|by vm_compute in H].
  cbn [default]. refine (proj1 (learn_arp_lookup _ 42 [9; 1; 2; 3; 4; 5; 6] 1 s' _ _ _ H)).
  - apply host_wf. done.
  - lia.
  - cbn. lia.
Defined.

(** ** HTTP documents *)

(** Position of the first blank line at or after [body], if any. *)
Definition blank_line_at (r : list Z) (i : Z) : Prop :=
  r.[i] = Some 13 /\ r.[i + 1] = Some 10 /\ r.[i + 2] = Some 13 /\ r.[i + 3] = Some 10.

Lemma http_body_found fuel r len i k :
  0 <= i <= k -> k + 3 < len -> len <= Z.of_nat (length r) -> len - i <= Z.of_nat fuel ->
  blank_line_at r k -> (forall j, i <= j < k -> ~ blank_line_at r j) ->
  http_body fuel r len i = Some (k + 4).
Proof.
  revert i. induction fuel as [|fuel IH]; intros i Hi Hk Hl Hf Hb Hn; [lia|].
  cbn [http_body]. rewrite (proj2 (Z.ltb_lt _ _)) by lia.
  destruct (decide (i = k)) as [->|Hne].
  { destruct Hb as (-> & -> & -> & ->). done. }
  destruct (aget_in r i) as [a Ha]; [lia|]. destruct (aget_in r (i + 1)) as [b Hb1]; [lia|].
  destruct (aget_in r (i + 2)) as [c Hc]; [lia|]. destruct (aget_in r (i + 3)) as [d Hd]; [lia|].
  rewrite Ha, Hb1, Hc, Hd. cbn [mbind option_bind].
  destruct (_ && _) eqn:Ht.
  { exfalso. b2p. subst. apply (Hn i); [lia|]. done. }
  apply IH; try lia; [done|]. intros j Hj. apply Hn. lia.
Qed.

(** C34. Publishing a response whose header ends at [k] stores exactly the bytes
    after the blank line, cut at 1024, provided at least four of them exist; a
    shorter body is discarded. *)
Theorem publish_http_response_body (s : net) (r : list Z) (k : Z) :
  net_wf s -> 0 <= k -> k + 3 < Z.of_nat (length r) -> blank_line_at r k ->
  (forall j, 0 <= j < k -> ~ blank_line_at r j) ->
  exists s', network_publish_http_response r (Z.of_nat (length r)) s = Some s' /\
    let body := drop (Z.to_nat (k + 4)) r in
    let h := s'.(http_document) in
    if Z.of_nat (length body) <? 4 then h.(doc_length) = 0
    else take (Z.to_nat h.(doc_length)) h.(doc_bytes) = take 1024 body /\
         h.(doc_length) = Z.min 1024 (Z.of_nat (length body)).
Proof.
  intros Hwf Hk Hl Hb Hfirst. unfold network_publish_http_response.
  rewrite (http_body_found _ _ _ 0 k) by (done || lia). cbn [mbind option_bind].
  pose proof (length_drop r (Z.to_nat (k + 4))) as Hbody.
  set (body := drop (Z.to_nat (k + 4)) r) in *. cbv zeta.
  destruct (Z.leb_spec (Z.of_nat (length r)) (k + 4 + 3)).
  { eexists. split; [done|]. rewrite (proj2 (Z.ltb_lt _ 4)) by lia. done. }
  rewrite (proj2 (Z.ltb_ge _ 4)) by lia.
  set (amount := if HTTP_DOCUMENT_LIMIT <? _ then _ else _).
  assert (Ham : amount = Z.min 1024 (Z.of_nat (length body))).
  { subst amount. unfold HTTP_DOCUMENT_LIMIT. case_match; b2p; lia. }
  pose proof (wf_doc _ Hwf) as Hdoc.
  rewrite copy_into_spec by lia. cbn [mbind option_bind].
  eexists. split; [reflexivity|]. cbn [http_document set_http doc_length doc_bytes].
  split; [|done]. change (Z.to_nat 0) with 0%nat. rewrite take_0, app_nil_l. fold body.
  rewrite take_app_le by (rewrite length_take; lia).
  rewrite take_take, Nat.min_id. rewrite Ham.
  destruct (decide (length body <= 1024)%nat).
  - rewrite !take_ge by lia. done.
  - f_equal. lia.
Qed.

Lemma publish_http_response_body_witness :
  exists s', network_publish_http_response [72; 13; 10; 13; 10; 1; 2; 3; 4; 5] 10 (host (replicate 6 0) 7)
      = Some s' /\ s'.(http_document).(doc_length) = 5.
Proof.
  destruct (publish_http_response_body (host (replicate 6 0) 7)
    [72; 13; 10; 13; 10; 1; 2; 3; 4; 5] 1) as (s' & Hs & Hdoc).
  - by apply host_wf.
  - lia.
  - cbn. lia.
  - done.
  - intros j Hj. assert (j = 0) as -> by lia. by intros (? & _).
  - exists s'. split; [exact Hs|]. apply Hdoc.
Defined.
