(* ===== verification/NetworkRoundTrip.v ===== *)
(** Frames built by one host and received by another: the exact bytes of the
    TCP builders, the checksums they carry, and what the receive path makes of
    them. *)

From S2P Require Import Prelude NetBytes Network NetworkSpec.

(** ** Evaluation on buffers with a known prefix *)

Section prefix.
Context {A : Type}.
Implicit Types a b : list A.

Lemma aset_app_l a b i v :
  i < Z.of_nat (length a) -> (a ++ b).[i <- v] = (fun a' => a' ++ b) <$> a.[i <- v].
Proof.
  intros Hi. unfold aset. rewrite length_app.
  destruct (Z.leb_spec 0 i); cbn [andb]; [|done].
  rewrite !(proj2 (Z.ltb_lt _ _)) by lia. cbn. by rewrite insert_app_l by lia.
Qed.

End prefix.

Lemma write_be16_app_l a b i v :
  i + 1 < Z.of_nat (length a) ->
  write_be16 (a ++ b) i v = (fun a' => a' ++ b) <$> write_be16 a i v.
Proof.
  intros Hi. unfold write_be16. rewrite aset_app_l by lia.
  destruct (aset a i _) as [a'|] eqn:Ha; cbn; [|done].
  rewrite aset_app_l by (erewrite aset_length by done; lia). done.
Qed.

Lemma write_be32_app_l a b i v :
  i + 3 < Z.of_nat (length a) ->
  write_be32 (a ++ b) i v = (fun a' => a' ++ b) <$> write_be32 a i v.
Proof.
  intros Hi. unfold write_be32. rewrite aset_app_l by lia.
  destruct (aset a i _) as [a1|] eqn:H1; cbn; [|done]. pose proof (aset_length _ _ _ _ H1).
  rewrite aset_app_l by lia. destruct (aset a1 _ _) as [a2|] eqn:H2; cbn; [|done].
  pose proof (aset_length _ _ _ _ H2).
  rewrite aset_app_l by lia. destruct (aset a2 _ _) as [a3|] eqn:H3; cbn; [|done].
  pose proof (aset_length _ _ _ _ H3). by rewrite aset_app_l by lia.
Qed.

Lemma copy_into_app_l {A} n (a b : list A) d src s :
  d + Z.of_nat n <= Z.of_nat (length a) ->
  copy_into (a ++ b) d src s n = (fun a' => a' ++ b) <$> copy_into a d src s n.
Proof.
  revert a d s. induction n as [|n IH]; intros a d s Hd; cbn [copy_into]; [done|].
  destruct (aget src s); cbn; [|done].
  rewrite aset_app_l by lia. destruct (aset a d _) as [a'|] eqn:Ha; cbn; [|done].
  apply IH. erewrite aset_length by done. lia.
Qed.

Lemma copy_mac_app_l a b d src s :
  d + 6 <= Z.of_nat (length a) ->
  copy_mac (a ++ b) d src s = (fun a' => a' ++ b) <$> copy_mac a d src s.
Proof. apply (copy_into_app_l 6). Qed.

Lemma fmap_bind_Some {A B C} (f : A -> B) (k : B -> option C) x :
  (f <$> Some x) ≫= k = k (f x).
Proof. done. Qed.
Lemma bind_Some_eq {A B} (k : A -> option B) x : Some x ≫= k = k x.
Proof. done. Qed.

(** Evaluate one store into an explicit prefix, leaving the stored values
    folded. *)
Ltac eval_in t :=
  let t' := eval cbv [write_be16 write_be32 copy_mac copy_into aset aget mbind option_bind
    insert list_insert lookup list_lookup ip_at ETHERNET_HEADER_BYTES
    Z.to_nat Pos.to_nat Pos.iter_op Init.Nat.add Nat.add andb Z.leb Z.ltb
    Z.compare Pos.compare Pos.compare_cont Datatypes.length Z.of_nat
    Pos.of_succ_nat Pos.succ Z.add Pos.add Z.mul Pos.mul] in t in
  let H := fresh in assert (H : t = t') by reflexivity; rewrite H; clear H.
Ltac store :=
  first
    [ rewrite write_be16_app_l by (unfold ip_at; cbn; lia) | rewrite write_be32_app_l by (unfold ip_at; cbn; lia)
    | rewrite copy_mac_app_l by (unfold ip_at; cbn; lia)
    | rewrite aset_app_l by (unfold ip_at; cbn; lia) ];
  match goal with
  | |- context [@fmap _ _ _ _ _ (write_be16 ?a ?i ?v)] => eval_in (write_be16 a i v)
  | |- context [@fmap _ _ _ _ _ (write_be32 ?a ?i ?v)] => eval_in (write_be32 a i v)
  | |- context [@fmap _ _ _ _ _ (copy_mac ?a ?d ?src ?s)] => eval_in (copy_mac a d src s)
  | |- context [@fmap _ _ _ _ _ (aset ?a ?i ?v)] => eval_in (aset a i v)
  end;
  rewrite fmap_bind_Some; cbv beta.

(** ** The header bytes *)

(** Ethernet, IPv4 and TCP headers of a segment from [sa]:[sp] to [da]:[dp]. *)
Definition tcp_headers (dmac smac : list Z) (ip_length ident ipck sa da sp dp seq ackn flags tcpck : Z)
  : list Z :=
  dmac ++ smac ++
  [8; 0;
   69; 0; u8 (Z.shiftr (u16 ip_length) 8); u8 (u16 ip_length);
   u8 (Z.shiftr ident 8); u8 ident; 0; 0; 64; 6; u8 (Z.shiftr ipck 8); u8 ipck;
   u8 (Z.shiftr sa 24); u8 (Z.shiftr sa 16); u8 (Z.shiftr sa 8); u8 sa;
   u8 (Z.shiftr da 24); u8 (Z.shiftr da 16); u8 (Z.shiftr da 8); u8 da;
   u8 (Z.shiftr sp 8); u8 sp; u8 (Z.shiftr dp 8); u8 dp;
   u8 (Z.shiftr seq 24); u8 (Z.shiftr seq 16); u8 (Z.shiftr seq 8); u8 seq;
   u8 (Z.shiftr ackn 24); u8 (Z.shiftr ackn 16); u8 (Z.shiftr ackn 8); u8 ackn;
   80; flags; 64; 0; u8 (Z.shiftr tcpck 8); u8 tcpck; 0; 0].

(** The two checksum fields. *)
Definition ip_words (ip_length ident ipck sa da : Z) : list Z :=
  [69; 0; u8 (Z.shiftr (u16 ip_length) 8); u8 (u16 ip_length);
   u8 (Z.shiftr ident 8); u8 ident; 0; 0; 64; 6; u8 (Z.shiftr ipck 8); u8 ipck;
   u8 (Z.shiftr sa 24); u8 (Z.shiftr sa 16); u8 (Z.shiftr sa 8); u8 sa;
   u8 (Z.shiftr da 24); u8 (Z.shiftr da 16); u8 (Z.shiftr da 8); u8 da].
Definition tcp_words (sp dp seq ackn flags tcpck : Z) : list Z :=
  [u8 (Z.shiftr sp 8); u8 sp; u8 (Z.shiftr dp 8); u8 dp;
   u8 (Z.shiftr seq 24); u8 (Z.shiftr seq 16); u8 (Z.shiftr seq 8); u8 seq;
   u8 (Z.shiftr ackn 24); u8 (Z.shiftr ackn 16); u8 (Z.shiftr ackn 8); u8 ackn;
   80; flags; 64; 0; u8 (Z.shiftr tcpck 8); u8 tcpck; 0; 0].
Definition ip_ck (ip_length ident sa da : Z) : Z :=
  65535 - oc_canon (zsum (be_words (ip_words ip_length ident 0 sa da))).
Definition tcp_ck (sa da sp dp seq ackn flags : Z) (payload : list Z) : Z :=
  65535 - oc_canon (zsum (be_words (pseudo_header sa da 6 (20 + Z.of_nat (length payload))))
    + zsum (be_words (tcp_words sp dp seq ackn flags 0 ++ payload))).

Ltac bytes_tac :=
  repeat apply List.Forall_cons; try apply List.Forall_nil; try apply u8_range;
  try (unfold is_byte; lia); try done.

Lemma ip_words_ok l i c sa da : bytes_ok (ip_words l i c sa da).
Proof. unfold ip_words, bytes_ok. bytes_tac. Qed.
Lemma tcp_words_ok sp dp seq ackn flags c :
  is_byte flags -> bytes_ok (tcp_words sp dp seq ackn flags c).
Proof. intros. unfold tcp_words, bytes_ok. bytes_tac. Qed.

Lemma tcp_headers_ok dmac smac l i c sa da sp dp seq ackn flags k :
  bytes_ok dmac -> bytes_ok smac -> is_byte flags ->
  bytes_ok (tcp_headers dmac smac l i c sa da sp dp seq ackn flags k).
Proof.
  intros. unfold tcp_headers, bytes_ok. apply Forall_app. split; [done|].
  apply Forall_app. split; [done|]. bytes_tac.
Qed.

(** A word split into its bytes and summed back. *)
Lemma zsum_ip_words l i c sa da :
  is_u16 c -> zsum (be_words (ip_words l i c sa da)) = zsum (be_words (ip_words l i 0 sa da)) + c.
Proof.
  intros Hc. pose proof (be16_split c Hc) as H. unfold ip_words, zsum.
  cbn [be_words foldr]. change (u8 (Z.shiftr 0 8)) with 0. change (u8 0) with 0. lia.
Qed.
Lemma zsum_tcp_words sp dp seq ackn flags c payload :
  is_u16 c ->
  zsum (be_words (tcp_words sp dp seq ackn flags c ++ payload)) =
  zsum (be_words (tcp_words sp dp seq ackn flags 0 ++ payload)) + c.
Proof.
  intros Hc. pose proof (be16_split c Hc) as H. unfold tcp_words, zsum.
  cbn [be_words foldr app]. change (u8 (Z.shiftr 0 8)) with 0. change (u8 0) with 0. lia.
Qed.

Lemma ip_ck_range l i sa da : is_u16 (ip_ck l i sa da).
Proof.
  unfold ip_ck, is_u16. pose proof (zsum_words_bound _ (ip_words_ok l i 0 sa da)).
  pose proof (oc_canon_range (zsum (be_words (ip_words l i 0 sa da)))). lia.
Qed.

Lemma tcp_sum_bound sa da sp dp seq ackn flags payload :
  is_byte flags -> bytes_ok payload ->
  0 <= zsum (be_words (pseudo_header sa da 6 (20 + Z.of_nat (length payload))))
       + zsum (be_words (tcp_words sp dp seq ackn flags 0 ++ payload)).
Proof.
  intros Hf Hp.
  assert (bytes_ok (tcp_words sp dp seq ackn flags 0 ++ payload)) as Hb
    by (apply Forall_app; split; [by apply tcp_words_ok|done]).
  pose proof (zsum_words_bound _ Hb).
  pose proof (zsum_words_bound _ (pseudo_header_ok sa da 6 (20 + Z.of_nat (length payload))
    ltac:(unfold is_byte; lia))). lia.
Qed.

Lemma tcp_ck_range sa da sp dp seq ackn flags payload :
  is_byte flags -> bytes_ok payload -> is_u16 (tcp_ck sa da sp dp seq ackn flags payload).
Proof.
  intros Hf Hp. unfold tcp_ck, is_u16.
  pose proof (oc_canon_range _ (tcp_sum_bound sa da sp dp seq ackn flags payload Hf Hp)). lia.
Qed.

(** ** What the builders emit *)

Lemma fill_prefix (frame : list Z) n m :
  (n + m <= length frame)%nat ->
  fill frame 0 0 (n + m) = Some (replicate n 0 ++ replicate m 0 ++ drop (n + m) frame).
Proof.
  intros. rewrite fill_spec by lia. cbn [Z.to_nat take app]. f_equal.
  by rewrite replicate_add, <- app_assoc.
Qed.

Lemma mac_explicit m : mac_ok m ->
  exists m0 m1 m2 m3 m4 m5, m = [m0; m1; m2; m3; m4; m5].
Proof.
  unfold mac_ok. intros.
  do 6 (destruct m as [|? m]; [done|]). destruct m; [|done]. by do 6 eexists.
Qed.

(** A host that may transmit. *)
Record can_send (s : net) : Prop := {
  cs_link : s.(state).(link) = LINK_UP;
  cs_mac : mac_ok s.(state).(mac);
  cs_mac_bytes : bytes_ok s.(state).(mac);
  cs_ip : s.(state).(ipv4_address) <> 0;
}.

Lemma checksum_at_prefix hdr tail len :
  bytes_ok (hdr ++ tail) -> (34 <= length hdr)%nat -> len = 20 ->
  network_ipv4_checksum (hdr ++ tail) 14 len =
    Some (65535 - oc_canon (zsum (be_words (take 20 (drop 14 hdr))))).
Proof.
  intros Hb Hl ->. rewrite network_ipv4_checksum_spec; [|done|lia|rewrite length_app; lia|lia|done].
  change (Z.to_nat 14) with 14%nat. change (Z.to_nat 20) with 20%nat.
  rewrite drop_app_le by lia. rewrite take_app_le; [done|]. rewrite length_drop. lia.
Qed.

(** Every byte of a frame under construction is a byte. *)
Ltac build_bytes :=
  unfold bytes_ok in *;
  repeat match goal with H : Forall is_byte (_ :: _) |- _ =>
    apply Forall_cons_1 in H as [? H] end;
  repeat first
    [ done
    | apply u8_range
    | apply List.Forall_cons
    | apply List.Forall_nil
    | apply Forall_app; split
    | apply Forall_drop
    | apply Forall_replicate
    | apply Forall_take
    | (unfold is_byte, IP_PROTOCOL_TCP, TCP_FLAG_PSH, TCP_FLAG_ACK; cbn; lia) ].

(** The payload replaces its zeroed place behind a 54-byte prefix. *)
Lemma copy_payload hdr (data rest : list Z) i :
  length hdr = 54%nat -> i = 54 ->
  copy_into (hdr ++ replicate (length data) 0 ++ rest) i data 0 (length data) =
    Some (hdr ++ data ++ rest).
Proof.
  intros Hh ->. rewrite copy_into_spec by (rewrite ?length_app, ?length_replicate; lia).
  f_equal. change (Z.to_nat 54) with 54%nat. change (Z.to_nat 0) with 0%nat.
  rewrite <- Hh, drop_0. rewrite take_app_length, take_ge by lia. f_equal. f_equal.
  rewrite <- drop_drop, drop_app_length.
  rewrite drop_app_ge, length_replicate by (rewrite length_replicate; lia).
  by rewrite Nat.sub_diag, drop_0.
Qed.

(** The transport checksum of the segment behind a 34-byte prefix. *)
Lemma payload_checksum hdr (data rest : list Z) sa da i n :
  bytes_ok (hdr ++ data ++ rest) -> i = 34 -> n = 20 + Z.of_nat (length data) ->
  length hdr = 54%nat -> is_byte IP_PROTOCOL_TCP -> Z.of_nat (length data) <= 1400 ->
  transport_checksum sa da IP_PROTOCOL_TCP (hdr ++ data ++ rest) i n =
    Some (65535 - oc_canon (zsum (be_words (pseudo_header sa da 6 n))
      + zsum (be_words (drop 34 hdr ++ data)))).
Proof.
  intros Hb -> -> Hh Hp Hn.
  rewrite transport_checksum_spec; [|done|done|lia|lia|rewrite !length_app; lia].
  assert (take (Z.to_nat (20 + Z.of_nat (length data))) (drop (Z.to_nat 34) (hdr ++ data ++ rest))
    = drop 34 hdr ++ data) as ->; [|done].
  change (Z.to_nat 34) with 34%nat. rewrite drop_app_le, app_assoc by lia.
  rewrite take_app_le by (rewrite length_app, length_drop; lia).
  apply take_ge. rewrite length_app, length_drop. lia.
Qed.

Lemma build_tcp_data_bytes s frame dmac da sp dp seq ackn data :
  can_send s -> mac_ok dmac -> bytes_ok dmac -> bytes_ok frame -> bytes_ok data ->
  da <> 0 -> sp <> 0 -> dp <> 0 -> (0 < length data)%nat ->
  Z.of_nat (length data) <= 1400 -> (54 + length data <= length frame)%nat ->
  let sa := s.(state).(ipv4_address) in
  exists s',
  network_build_tcp_data frame (Z.of_nat (length frame)) dmac da sp dp seq ackn data
    (Z.of_nat (length data)) s =
  Some (s',
        tcp_headers dmac s.(state).(mac) (40 + Z.of_nat (length data)) 5
          (ip_ck (40 + Z.of_nat (length data)) 5 sa da) sa da sp dp seq ackn 24
          (tcp_ck sa da sp dp seq ackn 24 data)
          ++ data ++ drop (54 + length data) frame,
        54 + Z.of_nat (length data)).
Proof.
  intros [Hlink Hsm Hsmb Hip] Hdm Hdmb Hfb Hdb Hda Hsp Hdp Hn Hn' Hfl sa.
  remember sa as sa' eqn:Hsa. subst sa. unfold network_build_tcp_data. rewrite <- Hsa.
  eexists. rewrite bool_decide_eq_true_2 by done.
  unfold ETHERNET_HEADER_BYTES at 1 2 3.
  destruct (_ || _) eqn:Hguard; [exfalso|].
  { repeat (apply orb_true_iff in Hguard as [Hguard|Hguard]); b2p; try done; lia. }
  clear Hguard. cbv zeta.
  replace (14 + (20 + (20 + Z.of_nat (length data)))) with (54 + Z.of_nat (length data)) by lia.
  replace (20 + (20 + Z.of_nat (length data))) with (40 + Z.of_nat (length data)) by lia.
  replace (Z.to_nat (54 + Z.of_nat (length data))) with (54 + length data)%nat by lia.
  rewrite fill_prefix by done. rewrite bind_Some_eq; cbv beta.
  destruct (mac_explicit _ Hdm) as (d0 & d1 & d2 & d3 & d4 & d5 & Ed).
  destruct (mac_explicit _ Hsm) as (e0 & e1 & e2 & e3 & e4 & e5 & Es).
  rewrite Es in *. rewrite Ed in Hdmb |- * at 1. rename sa' into sa.
  remember (40 + Z.of_nat (length data)) as L eqn:HL.
  cbn [replicate].
  do 10 store. change ip_at with 14 at 1.
  rewrite checksum_at_prefix; [|build_bytes|cbn; lia|done]. rewrite bind_Some_eq; cbv beta.
  match goal with |- context [be_words (take 20 ?l)] =>
    assert (take 20 l = ip_words L 5 0 sa da) as -> by reflexivity end.
  fold (ip_ck L 5 sa da). remember (ip_ck L 5 sa da) as ick eqn:Hick.
  do 8 store.
  replace (Z.to_nat (Z.of_nat (length data))) with (length data) by lia.
  rewrite copy_payload by (cbn; lia || done). rewrite bind_Some_eq; cbv beta.
  rewrite payload_checksum; [|build_bytes|done|done|by cbn|unfold is_byte, IP_PROTOCOL_TCP; lia|lia].
  rewrite bind_Some_eq; cbv beta.
  match goal with |- context [drop 34 ?l] =>
    assert (drop 34 l = tcp_words sp dp seq ackn 24 0) as -> by reflexivity end.
  fold (tcp_ck sa da sp dp seq ackn 24 data). remember (tcp_ck sa da sp dp seq ackn 24 data) as tck eqn:Htck.
  store. rewrite Ed. reflexivity.
Qed.

Lemma build_tcp_frame_bytes s frame dmac da sp dp seq ackn flags :
  can_send s -> mac_ok dmac -> bytes_ok dmac -> bytes_ok frame -> is_byte flags ->
  da <> 0 -> sp <> 0 -> dp <> 0 -> (60 <= length frame)%nat ->
  let sa := s.(state).(ipv4_address) in
  build_tcp_frame frame (Z.of_nat (length frame)) dmac da sp dp seq ackn flags s =
  Some (tcp_headers dmac s.(state).(mac) 40 4 (ip_ck 40 4 sa da) sa da sp dp seq ackn flags
          (tcp_ck sa da sp dp seq ackn flags [])
          ++ [0; 0; 0; 0; 0; 0] ++ drop 60 frame, 60).
Proof.
  intros [Hlink Hsm Hsmb Hip] Hdm Hdmb Hfb Hflags Hda Hsp Hdp Hfl sa.
  remember sa as sa' eqn:Hsa. subst sa. unfold build_tcp_frame. rewrite <- Hsa.
  rewrite bool_decide_eq_true_2 by done. unfold ETHERNET_MIN_FRAME_BYTES.
  destruct (_ || _) eqn:Hguard; [exfalso|].
  { repeat (apply orb_true_iff in Hguard as [Hguard|Hguard]); b2p; try done; lia. }
  clear Hguard. cbv zeta. change (Z.to_nat 60) with (54 + 6)%nat.
  rewrite fill_prefix by done. rewrite bind_Some_eq; cbv beta.
  destruct (mac_explicit _ Hdm) as (d0 & d1 & d2 & d3 & d4 & d5 & Ed).
  destruct (mac_explicit _ Hsm) as (e0 & e1 & e2 & e3 & e4 & e5 & Es).
  rewrite Es in *. rewrite Ed in Hdmb |- * at 1. rename sa' into sa.
  change (20 + 20) with 40. cbn [replicate].
  do 10 store. change ip_at with 14 at 1.
  rewrite checksum_at_prefix; [|build_bytes|cbn; lia|done]. rewrite bind_Some_eq; cbv beta.
  match goal with |- context [be_words (take 20 ?l)] =>
    assert (take 20 l = ip_words 40 4 0 sa da) as -> by reflexivity end.
  fold (ip_ck 40 4 sa da). remember (ip_ck 40 4 sa da) as ick eqn:Hick.
  do 8 store.
  match goal with |- context [transport_checksum _ _ _ (?h ++ ?r) ?i ?n] =>
    pose proof (payload_checksum h [] r sa da i n) as Hck end.
  rewrite app_nil_l in Hck.
  rewrite Hck by (build_bytes || done); clear Hck.
  rewrite bind_Some_eq; cbv beta.
  match goal with |- context [drop 34 ?l] =>
    assert (drop 34 l = tcp_words sp dp seq ackn flags 0) as -> by reflexivity end.
  change 20 with (20 + Z.of_nat (@length Z [])) at 2.
  fold (tcp_ck sa da sp dp seq ackn flags []).
  remember (tcp_ck sa da sp dp seq ackn flags []) as tck eqn:Htck.
  store. rewrite Ed. reflexivity.
Qed.

(** ** Reading the headers back *)

Section read_back.
Context (dmac smac : list Z) (L ident ick sa da sp dp seq ackn flags tck : Z) (tail : list Z).
Context (Hdm : mac_ok dmac) (Hsm : mac_ok smac).
Context (Hsa : is_u32 sa) (Hda : is_u32 da) (Hsp : is_u16 sp) (Hdp : is_u16 dp).
Context (Hseq : is_u32 seq) (Hackn : is_u32 ackn).

Let F := tcp_headers dmac smac L ident ick sa da sp dp seq ackn flags tck ++ tail.

Ltac load :=
  destruct (mac_explicit _ Hdm) as (? & ? & ? & ? & ? & ? & ->);
  destruct (mac_explicit _ Hsm) as (? & ? & ? & ? & ? & ? & ->);
  first
    [ reflexivity
    | erewrite read_be16_val; [|reflexivity|reflexivity|try apply u8_range; unfold is_byte; lia..];
      try reflexivity; f_equal; by apply be16_split
    | erewrite read_be32_val; [|reflexivity|reflexivity|reflexivity|reflexivity|apply u8_range..];
      f_equal; by apply be32_split ].

Lemma rd_type : read_be16 F 12 = Some 2048. Proof. load. Qed.
Lemma rd_version : F.[14] = Some 69. Proof. load. Qed.
Lemma rd_length : read_be16 F 16 = Some (u16 L).
Proof.
  assert (is_u16 (u16 L)) by apply u16_range. load.
Qed.
Lemma rd_fragment : read_be16 F 20 = Some 0. Proof. load. Qed.
Lemma rd_protocol : F.[23] = Some 6. Proof. load. Qed.
Lemma rd_source : read_be32 F 26 = Some sa. Proof. load. Qed.
Lemma rd_destination : read_be32 F 30 = Some da. Proof. load. Qed.
Lemma rd_sport : read_be16 F 34 = Some sp. Proof. load. Qed.
Lemma rd_dport : read_be16 F 36 = Some dp. Proof. load. Qed.
Lemma rd_seq : read_be32 F 38 = Some seq. Proof. load. Qed.
Lemma rd_ackn : read_be32 F 42 = Some ackn. Proof. load. Qed.
Lemma rd_offset : F.[46] = Some 80. Proof. load. Qed.
Lemma rd_flags : F.[47] = Some flags. Proof. load. Qed.
Lemma rd_window : read_be16 F 48 = Some 16384. Proof. load. Qed.
Lemma rd_ip_words : take 20 (drop 14 F) = ip_words L ident ick sa da.
Proof. load. Qed.
Lemma rd_tcp_words : drop 34 F = tcp_words sp dp seq ackn flags tck ++ tail.
Proof. load. Qed.
Lemma rd_size : length F = (54 + length tail)%nat.
Proof. load. Qed.
Lemma rd_payload : drop 54 F = tail.
Proof. load. Qed.

End read_back.

(** ** The receive path on such a frame *)

(** What [receive_tcp] does once the segment is known to be genuine. *)
Definition tcp_process (b : list Z) (packet header_length data_length source flags : Z)
    (s : net) : option (net * bool) :=
  s ← (if has_flag flags TCP_FLAG_FIN then tcp_note_fin b packet source data_length s
       else Some s);
  '(s, in_order) ← (if negb (data_length =? 0)
                    then tcp_take_data b packet header_length data_length source flags s
                    else Some (s, true));
  if negb in_order then Some (s, false) else
  if negb (Z.land flags 18 =? 18) then Some (s, true) else
  s ← tcp_note_syn_ack b packet source s;
  Some (s, true).

Definition rx_count (r : net * bool) : net * bool :=
  (if r.2 then set_state (count_received r.1.(state)) r.1
   else set_state (count_dropped r.1.(state)) r.1, r.2).

Section receive.
Context (dmac smac : list Z) (ident sa da sp dp seq ackn flags : Z).
Context (payload pad : list Z).
Context (Hdm : mac_ok dmac) (Hsm : mac_ok smac) (Hdmb : bytes_ok dmac) (Hsmb : bytes_ok smac).
Context (Hsa : is_u32 sa) (Hda : is_u32 da) (Hflags : is_byte flags).
Context (Hpb : bytes_ok payload) (Hpadb : bytes_ok pad).
Context (Hsize : Z.of_nat (length payload) <= 1400).

Let L := 40 + Z.of_nat (length payload).
Let ick := ip_ck L ident sa da.
Let tck := tcp_ck sa da sp dp seq ackn flags payload.
Let F := tcp_headers dmac smac L ident ick sa da sp dp seq ackn flags tck ++ payload ++ pad.

Lemma frame_bytes : bytes_ok F.
Proof.
  unfold F. apply Forall_app. split; [by apply tcp_headers_ok|]. by apply Forall_app.
Qed.

Lemma frame_size : Z.of_nat (length F) = 54 + Z.of_nat (length payload) + Z.of_nat (length pad).
Proof.
  unfold F. rewrite rd_size by done. rewrite length_app. lia.
Qed.

Lemma L_eq : u16 L = L.
Proof. apply u16_small. unfold is_u16, L. lia. Qed.

Lemma ip_verifies : network_ipv4_checksum F 14 20 = Some 0.
Proof.
  pose proof frame_size as Hfs.
  rewrite network_ipv4_checksum_spec; [|apply frame_bytes|done|lia|done|done].
  change (Z.to_nat 20) with 20%nat. change (Z.to_nat 14) with 14%nat.
  unfold F. rewrite rd_ip_words by done.
  rewrite zsum_ip_words by apply ip_ck_range. unfold ick at 1. unfold ip_ck.
  rewrite oc_canon_complement; [done|].
  apply zsum_words_bound, ip_words_ok.
Qed.

Lemma tcp_verifies :
  transport_checksum sa da IP_PROTOCOL_TCP F 34 (20 + Z.of_nat (length payload)) = Some 0.
Proof.
  pose proof frame_size as Hfs.
  rewrite transport_checksum_spec;
    [|apply frame_bytes|unfold is_byte, IP_PROTOCOL_TCP; lia|done|lia|lia].
  change (Z.to_nat 34) with 34%nat. unfold F. rewrite rd_tcp_words by done.
  rewrite app_assoc, take_app_le by (unfold tcp_words; rewrite length_app; cbn; lia).
  rewrite take_ge by (unfold tcp_words; rewrite length_app; cbn; lia).
  rewrite zsum_tcp_words by (by apply tcp_ck_range).
  rewrite Z.add_assoc. unfold tck at 1. unfold tcp_ck.
  rewrite oc_canon_complement; [done|]. by apply tcp_sum_bound.
Qed.

Lemma receive_headers s :
  s.(state).(link) = LINK_UP -> (6 <= length payload + length pad)%nat ->
  network_receive_ethernet (Some F) (Z.of_nat (length F)) s =
    rx_count <$> tcp_process F 34 20 (Z.of_nat (length payload)) sa flags s.
Proof.
  intros Hlink Hlen. unfold network_receive_ethernet.
  rewrite bool_decide_eq_true_2 by done. unfold ETHERNET_MIN_FRAME_BYTES, ETHERNET_HEADER_BYTES.
  assert (Htype : read_be16 F 12 = Some 2048) by (by apply rd_type).
  assert (Hver : F.[14] = Some 69) by (by apply rd_version).
  assert (Htl : read_be16 F 16 = Some (u16 L)) by (by apply rd_length).
  assert (Hfrag : read_be16 F 20 = Some 0) by (by apply rd_fragment).
  assert (Hproto : F.[23] = Some 6) by (by apply rd_protocol).
  assert (Hsrc : read_be32 F 26 = Some sa) by (by apply rd_source).
  assert (Hdst : read_be32 F 30 = Some da) by (by apply rd_destination).
  assert (Hoff : F.[46] = Some 80) by (by apply rd_offset).
  assert (Hfl : F.[47] = Some flags) by (by apply rd_flags).
  pose proof ip_verifies as Hipv. pose proof tcp_verifies as Htcpv.
  pose proof frame_size as Hfs. clearbody F. rewrite (proj2 (Z.ltb_ge _ 60)) by lia. cbn [orb negb].
  rewrite Htype, bind_Some_eq.
  change (2048 =? ETHER_TYPE_ARP) with false. change (2048 =? ETHER_TYPE_IPV4) with true. cbv iota.
  unfold receive_ipv4. rewrite (proj2 (Z.ltb_ge _ 20)) by lia.
  rewrite Hver, bind_Some_eq.
  change (Z.shiftr 69 4 =? 4) with true. cbn [negb]. change (Z.land 69 15 * 4) with 20. cbv zeta.
  change (14 + 2) with 16. rewrite Htl, bind_Some_eq.
  rewrite L_eq. unfold L.
  rewrite !(proj2 (Z.ltb_ge _ _)) by lia. cbn [orb].
  rewrite Hipv, bind_Some_eq. change (0 =? 0) with true. cbn [negb].
  change (14 + 6) with 20. rewrite Hfrag, bind_Some_eq. change (Z.land 0 16383 =? 0) with true. cbn [negb].
  change (14 + 9) with 23. rewrite Hproto, bind_Some_eq. change (6 =? IP_PROTOCOL_UDP) with false.
  change (6 =? IP_PROTOCOL_TCP) with true. cbv iota.
  change (14 + 12) with 26. rewrite Hsrc, bind_Some_eq.
  change (14 + 16) with 30. rewrite Hdst, bind_Some_eq. change (14 + 20) with 34.
  replace (40 + Z.of_nat (length payload) - 20) with (20 + Z.of_nat (length payload)) by lia.
  unfold receive_tcp. rewrite (proj2 (Z.ltb_ge _ 20)) by lia.
  rewrite Htcpv, bind_Some_eq. change (0 =? 0) with true. cbn [negb].
  change (34 + 12) with 46. rewrite Hoff, bind_Some_eq. change (Z.shiftr 80 4 * 4) with 20. cbv zeta.
  rewrite (proj2 (Z.ltb_ge _ _)) by lia. rewrite (proj2 (Z.ltb_ge _ _)) by lia. cbn [orb].
  change (34 + 13) with 47. rewrite Hfl, bind_Some_eq.
  replace (20 + Z.of_nat (length payload) - 20) with (Z.of_nat (length payload)) by lia.
  change (Z.lor TCP_FLAG_SYN TCP_FLAG_ACK) with 18.
  match goal with |- (?m ≫= _) = _ => change m with
    (tcp_process F 34 20 (Z.of_nat (length payload)) sa flags s) end.
  destruct (tcp_process _ _ _ _ _ _ _) as [[s' []]|]; done.
Qed.

End receive.

(** ** End to end *)

(** The in-order case of the data bookkeeping: the payload is appended and the
    expected sequence number moves past it. *)
Lemma tcp_take_data_empty (b : list Z) packet hl (payload tail : list Z) src flags s seq sp dp :
  net_wf s -> s.(pending_data).(td_length) = 0 ->
  read_be32 b (packet + 4) = Some seq -> read_be16 b packet = Some sp ->
  read_be16 b (packet + 2) = Some dp ->
  0 <= packet + hl -> drop (Z.to_nat (packet + hl)) b = payload ++ tail ->
  (0 < length payload)%nat -> Z.of_nat (length payload) <= 1400 -> is_u32 seq ->
  has_flag flags TCP_FLAG_FIN = false ->
  tcp_take_data b packet hl (Z.of_nat (length payload)) src flags s =
    Some (set_data (DataSlot (payload ++ drop (length payload) s.(pending_data).(td_data))
                      (Z.of_nat (length payload)) (u32 (seq + Z.of_nat (length payload)))
                      src dp sp) s, true).
Proof.
  intros Hwf Hempty Hseq Hsp Hdp Hpk Hpay Hne Hle Hsr Hfin. unfold tcp_take_data.
  rewrite Hseq, bind_Some_eq, Hsp, bind_Some_eq, Hdp, bind_Some_eq. cbv zeta.
  rewrite Hempty. cbn [Z.eqb td_address td_remote_port td_local_port td_next_sequence td_length td_data].
  rewrite !Z.eqb_refl. unfold TCP_RECEIVE_LIMIT. change (u64 (4096 - 0)) with 4096.
  rewrite (proj2 (Z.ltb_ge _ _)) by lia. cbn [negb orb].
  pose proof (wf_data _ Hwf) as Hd.
  assert (Hlb : (length payload + length tail <= length b - Z.to_nat (packet + hl))%nat).
  { rewrite <- length_app, <- Hpay, length_drop. lia. }
  rewrite copy_into_spec by lia. rewrite bind_Some_eq, Hfin. cbv beta iota.
  rewrite Nat2Z.id, Hpay, take_app_length, (u32_small (Z.of_nat _)) by (unfold is_u32; lia).
  rewrite Z.add_0_l. done.
Qed.

(** A receiver with room: the device is up and nothing is pending. *)
Record can_receive (s : net) : Prop := {
  cr_wf : net_wf s;
  cr_link : s.(state).(link) = LINK_UP;
  cr_empty : s.(pending_data).(td_length) = 0;
}.

(** C13. A TCP data segment of 1 to 1400 bytes built by one host, with any padding a
    link may append, and handed to another host that is up and has no data pending:
    when the frame has at least 60 bytes, both checksums pass, the payload is
    delivered exactly, without the padding, and polling the receiver for the sender's
    address and ports returns the bytes, their number, and the sequence number after
    them (modulo 2^32). A shorter frame, which payloads of 1 to 5 bytes make without
    padding, is counted as dropped and changes nothing else. *)
Theorem tcp_data_roundtrip (a b : net) frame dmac da sp dp seq ackn data pad destination :
  can_send a -> can_receive b -> is_u32 a.(state).(ipv4_address) ->
  mac_ok dmac -> bytes_ok dmac -> bytes_ok frame -> bytes_ok data -> bytes_ok pad ->
  is_u32 da -> da <> 0 -> is_u16 sp -> sp <> 0 -> is_u16 dp -> dp <> 0 ->
  is_u32 seq -> is_u32 ackn ->
  (0 < length data)%nat -> Z.of_nat (length data) <= 1400 ->
  (54 + length data <= length frame)%nat -> (length data <= length destination)%nat ->
  exists a' frame' n,
    network_build_tcp_data frame (Z.of_nat (length frame)) dmac da sp dp seq ackn data
      (Z.of_nat (length data)) a = Some (a', frame', n) /\ n = 54 + Z.of_nat (length data) /\
    let received := take (Z.to_nat n) frame' ++ pad in
    let size := n + Z.of_nat (length pad) in
    if 60 <=? size then exists b' b'',
      network_receive_ethernet (Some received) size b = Some (b', true) /\
      network_tcp_receive a.(state).(ipv4_address) dp sp destination
        (Z.of_nat (length destination)) b' =
        Some (b'', data ++ drop (length data) destination, Z.of_nat (length data),
              Some (u32 (seq + Z.of_nat (length data))))
    else network_receive_ethernet (Some received) size b = Some (set_state (count_dropped b.(state)) b, false).
Proof.
  intros Hs [Hwf Hup Hempty] Hsa Hdm Hdmb Hfb Hdb Hpb Hda Hda0 Hsp Hsp0 Hdp Hdp0 Hseq Hackn
    Hn Hn' Hfl Hdl.
  destruct (build_tcp_data_bytes a frame dmac da sp dp seq ackn data) as [a' Hbuild]; try done.
  cbv zeta in Hbuild. set (sa := a.(state).(ipv4_address)) in *.
  do 3 eexists. split; [exact Hbuild|]. split; [done|]. cbv zeta.
  pose proof (cs_mac _ Hs) as Hsm. pose proof (cs_mac_bytes _ Hs) as Hsmb.
  destruct (Z.leb_spec 60 (54 + Z.of_nat (length data) + Z.of_nat (length pad))) as [H60|H60].
  2: { unfold network_receive_ethernet, ETHERNET_MIN_FRAME_BYTES. by rewrite (proj2 (Z.ltb_lt _ 60)). }
  pose proof (receive_headers dmac a.(state).(mac) 5 sa da sp dp seq ackn 24 data pad
    Hdm Hsm Hdmb Hsmb Hsa Hda ltac:(unfold is_byte; lia) Hdb Hpb Hn' b Hup
    ltac:(lia)) as Hrx.
  set (H54 := tcp_headers _ _ _ _ _ _ _ _ _ _ _ _ _) in Hbuild, Hrx |- *.
  assert (Hlen : length H54 = 54%nat).
  { subst H54. pose proof (rd_size dmac a.(state).(mac) (40 + Z.of_nat (length data)) 5
      (ip_ck (40 + Z.of_nat (length data)) 5 sa da) sa da sp dp seq ackn 24
      (tcp_ck sa da sp dp seq ackn 24 data) [] Hdm Hsm) as Hz.
    by rewrite app_nil_r in Hz. }
  assert (Htake : take (Z.to_nat (54 + Z.of_nat (length data)))
      (H54 ++ data ++ drop (54 + length data) frame) = H54 ++ data).
  { rewrite app_assoc. apply take_app_length'. rewrite length_app. lia. }
  rewrite Htake, <- app_assoc. rewrite !length_app, Hlen in Hrx.
  replace (Z.of_nat (54 + (length data + length pad))) with (54 + Z.of_nat (length data) + Z.of_nat (length pad)) in Hrx by lia.
  do 2 eexists. rewrite Hrx. unfold tcp_process. change (has_flag 24 TCP_FLAG_FIN) with false. cbv iota.
  rewrite bind_Some_eq. rewrite (proj2 (Z.eqb_neq _ 0)) by lia. cbn [negb].
  rewrite (tcp_take_data_empty (H54 ++ data ++ pad) 34 20 data pad sa 24 b seq sp dp);
    try done; try lia.
  2, 3, 4: subst H54; first [by apply rd_seq | by apply rd_sport | by apply rd_dport].
  2: { change (Z.to_nat (34 + 20)) with 54%nat. rewrite <- Hlen. apply drop_app_length. }
  rewrite bind_Some_eq. change (Z.land 24 18 =? 18) with false. cbn [negb fmap option_fmap option_map].
  split; [reflexivity|].
  unfold network_tcp_receive. cbn [rx_count set_state set_data pending_data td_length td_address
    td_local_port td_remote_port td_data td_next_sequence fst snd].
  rewrite !Z.eqb_refl, (proj2 (Z.eqb_neq _ 0)) by lia. cbn [negb orb]. cbv zeta.
  rewrite (proj2 (Z.ltb_ge _ _)) by lia.
  rewrite copy_into_spec by (rewrite ?length_app; lia).
  rewrite bind_Some_eq, Nat2Z.id. change (Z.to_nat 0) with 0%nat.
  rewrite drop_0, take_app_length. reflexivity.
Qed.

(** A FIN segment built by one host and received by another is reported to
    the receiver as the end of the stream at the next sequence number, and
    delivers no data. *)
Theorem tcp_fin_roundtrip (a b : net) frame dmac da sp dp seq ackn :
  can_send a -> b.(state).(link) = LINK_UP -> is_u32 a.(state).(ipv4_address) ->
  mac_ok dmac -> bytes_ok dmac -> bytes_ok frame ->
  is_u32 da -> da <> 0 -> is_u16 sp -> sp <> 0 -> is_u16 dp -> dp <> 0 ->
  is_u32 seq -> is_u32 ackn -> (60 <= length frame)%nat ->
  exists frame' b',
    network_build_tcp_fin frame (Z.of_nat (length frame)) dmac da sp dp seq ackn a
      = Some (frame', 60) /\
    network_receive_ethernet (Some (take 60 frame')) 60 b = Some (b', true) /\
    network_tcp_remote_fin a.(state).(ipv4_address) dp sp b' = Some (u32 (seq + 1)) /\
    b'.(pending_data) = b.(pending_data).
Proof.
  intros Hs Hup Hsa Hdm Hdmb Hfb Hda Hda0 Hsp Hsp0 Hdp Hdp0 Hseq Hackn Hfl.
  unfold network_build_tcp_fin. change (Z.lor TCP_FLAG_FIN TCP_FLAG_ACK) with 17.
  assert (Hf17 : is_byte 17) by (unfold is_byte; lia).
  pose proof (build_tcp_frame_bytes a frame dmac da sp dp seq ackn 17) as Hbuild.
  cbv zeta in Hbuild. rewrite Hbuild by done. clear Hbuild.
  set (sa := a.(state).(ipv4_address)) in *.
  pose proof (cs_mac _ Hs) as Hsm. pose proof (cs_mac_bytes _ Hs) as Hsmb.
  set (pad := [0; 0; 0; 0; 0; 0]).
  assert (Hpad : bytes_ok pad).
  { unfold pad, bytes_ok. bytes_tac. }
  pose proof (receive_headers dmac a.(state).(mac) 4 sa da sp dp seq ackn 17 [] pad
    Hdm Hsm Hdmb Hsmb Hsa Hda Hf17 (List.Forall_nil _) Hpad ltac:(cbn; lia) b Hup
    ltac:(cbn; lia)) as Hrx.
  change (40 + Z.of_nat (@length Z [])) with 40 in Hrx. rewrite app_nil_l in Hrx.
  pose proof (rd_size dmac a.(state).(mac) 40 4 (ip_ck 40 4 sa da) sa da sp dp seq ackn 17
    (tcp_ck sa da sp dp seq ackn 17 []) pad Hdm Hsm) as Hlen.
  rewrite Hlen in Hrx. change (Z.of_nat (54 + length pad)) with 60 in Hrx.
  change (length pad) with 6%nat in Hlen.
  rewrite app_assoc. eexists _, _. split; [reflexivity|].
  rewrite take_app_length' by (by rewrite Hlen). rewrite Hrx.
  unfold tcp_process. change (has_flag 17 TCP_FLAG_FIN) with true. cbv iota.
  unfold tcp_note_fin. change (34 + 2) with 36. change (34 + 4) with 38.
  rewrite rd_sport, bind_Some_eq, rd_dport, bind_Some_eq, rd_seq by done.
  rewrite !bind_Some_eq. change (Z.of_nat (length []) =? 0) with true. cbn [negb].
  change (u32 (Z.of_nat (length []))) with 0.
  rewrite !bind_Some_eq. change (Z.land 17 18 =? 18) with false. cbn [negb].
  split; [reflexivity|]. split; [|reflexivity].
  unfold network_tcp_remote_fin.
  cbn [rx_count set_state set_fin pending_fin fin_pending fin_address fin_local_port
    fin_remote_port fin_next_sequence fst snd].
  rewrite !Z.eqb_refl. cbn [negb orb]. f_equal. f_equal. lia.
Qed.

Definition mac_a : list Z := [82; 84; 0; 18; 52; 86].
Definition mac_b : list Z := [82; 84; 0; 171; 205; 239].

Lemma host_can_send ip : ip <> 0 -> can_send (host mac_a ip).
Proof. intros. split; [done|done| |done].
  cbn. unfold bytes_ok, mac_a. bytes_tac.
Qed.
Lemma host_can_receive m ip : mac_ok m -> can_receive (host m ip).
Proof. intros. split; [by apply host_wf|done|done]. Qed.

Lemma tcp_data_roundtrip_witness :
  let data := [71; 69; 84] in
  exists a' frame' n b' b'',
    network_build_tcp_data (replicate 64 0) 64 mac_b 167772674 49201 80 4294967293 7 data 3
      (host mac_a 167772687) = Some (a', frame', n) /\
    network_receive_ethernet (Some (take (Z.to_nat n) frame' ++ [0; 0; 0])) (n + 3) (host mac_b 167772674)
      = Some (b', true) /\
    network_tcp_receive 167772687 80 49201 (replicate 8 0) 8 b' =
      Some (b'', data ++ [0; 0; 0; 0; 0], 3, Some 0).
Proof.
  intros data.
  assert (Hs : can_send (host mac_a 167772687)) by (apply host_can_send; lia).
  assert (Hb : can_receive (host mac_b 167772674)) by (by apply host_can_receive).
  assert (Hmac : bytes_ok mac_b) by (unfold bytes_ok, mac_b; bytes_tac).
  assert (Hdata : bytes_ok data) by (unfold bytes_ok, data; bytes_tac).
  assert (Hf : bytes_ok (replicate 64 0)) by (unfold bytes_ok; cbn [replicate]; bytes_tac).
  assert (Hz : bytes_ok [0; 0; 0]) by (unfold bytes_ok; bytes_tac).
  pose proof (tcp_data_roundtrip _ _ (replicate 64 0) mac_b 167772674 49201 80 4294967293 7 data [0; 0; 0] (replicate 8 0)
    Hs Hb ltac:(unfold is_u32; cbn; lia) eq_refl Hmac Hf Hdata Hz ltac:(unfold is_u32; lia) ltac:(lia)
    ltac:(unfold is_u16; lia) ltac:(lia) ltac:(unfold is_u16; lia) ltac:(lia) ltac:(unfold is_u32; lia) ltac:(unfold is_u32; lia)
    ltac:(cbn; lia) ltac:(cbn; lia) ltac:(cbn; lia) ltac:(cbn; lia)) as (a' & frame' & n & E & Hn & H).
  change (Z.of_nat (length data)) with 3 in *. subst n. change (60 <=? 57 + Z.of_nat (length [0; 0; 0])) with true in H.
  destruct H as (b' & b'' & E1 & E2). exists a', frame', 57, b', b''. exact (conj E (conj E1 E2)).
Defined.

Lemma tcp_fin_roundtrip_witness :
  exists frame' b',
    network_build_tcp_fin (replicate 64 0) 64 mac_b 167772674 49201 80 4294967295 7
      (host mac_a 167772687) = Some (frame', 60) /\
    network_receive_ethernet (Some (take 60 frame')) 60 (host mac_b 167772674)
      = Some (b', true) /\
    network_tcp_remote_fin 167772687 80 49201 b' = Some 0 /\
    b'.(pending_data) = (host mac_b 167772674).(pending_data).
Proof.
  apply (tcp_fin_roundtrip (host mac_a 167772687) (host mac_b 167772674) (replicate 64 0)
    mac_b 167772674 49201 80 4294967295 7);
    try (unfold is_u32, is_u16; cbn; lia); try (by (unfold bytes_ok, mac_b; bytes_tac)); try done.
  - apply host_can_send. lia.
Defined.
