(* ===== verification/Scheduler.v ===== *)
(** The preemptive scheduler of [src/scheduler.c]: the eight-slot task table,
    round-robin dispatch with per-task FPU areas, timed and untimed blocking,
    wait/exit/reap, and the wake-up path other subsystems use.

    What the scheduler needs from the rest of the kernel is the interface
    [TaskServices]; [Kernel.v] provides it from the IPC, input and capability
    components. Interrupt frames live at addresses: [frames] is that memory, and
    storing through a pointer to no frame is a fault ([None]). *)

From stdpp Require Import gmap.
From S2P Require Import Prelude.

Definition SCHEDULER_PROCESS_LIMIT : Z := 8.
Definition INIT_QUANTUM_TICKS : Z := 4.
Definition SCHEDULER_WAIT_NONE : Z := U32_MAX.
Definition KERNEL_STACK_SIZE : Z := 4096.
Definition FRAME_BYTES : Z := 160. (* sizeof(struct interrupt_frame) *)

(** ** Data *)

Inductive task_state := UNUSED | READY | RUNNING | BLOCKED | EXITED.
#[export] Instance task_state_eq_dec : EqDecision task_state.
Proof. solve_decision. Defined.

(** [struct interrupt_frame]: the registers saved on a kernel stack. *)
Record interrupt_frame := Frame {
  r15 : Z; r14 : Z; r13 : Z; r12 : Z; r11 : Z; r10 : Z; r9 : Z; r8 : Z; rbp : Z;
  rdi : Z; rsi : Z; rdx : Z; rcx : Z; rbx : Z; rax : Z;
  rip : Z; cs : Z; rflags : Z; rsp : Z; ss : Z
}.

(** [frame->rax = a; frame->rdx = d;] *)
Definition set_result (a d : Z) (f : interrupt_frame) : interrupt_frame :=
  Frame f.(r15) f.(r14) f.(r13) f.(r12) f.(r11) f.(r10) f.(r9) f.(r8) f.(rbp)
    f.(rdi) f.(rsi) d f.(rcx) f.(rbx) a f.(rip) f.(cs) f.(rflags) f.(rsp) f.(ss).
Definition set_rax (a : Z) (f : interrupt_frame) : interrupt_frame :=
  set_result a f.(rdx) f.

Record task := Task {
  pid : Z; parent_pid : Z; name : list Z; state : task_state;
  cpu_ticks : Z; yields : Z; quantum_expirations : Z; exit_code : Z; slice_ticks : Z;
  saved_frame : Z; kernel_stack_top : Z; address_space : Z; waiting_for : Z;
  wake_tick : Z; timeout_result : Z; timed_wait : bool
}.

(** [(struct task){.pid = p}] *)
Definition empty_task (p : Z) : task :=
  Task p 0 (replicate 16 0) UNUSED 0 0 0 0 0 0 0 0 0 0 0 false.

(** Updates of the fields the handlers assign. *)
Definition with_state (st : task_state) (t : task) : task :=
  Task t.(pid) t.(parent_pid) t.(name) st t.(cpu_ticks) t.(yields) t.(quantum_expirations)
    t.(exit_code) t.(slice_ticks) t.(saved_frame) t.(kernel_stack_top) t.(address_space)
    t.(waiting_for) t.(wake_tick) t.(timeout_result) t.(timed_wait).
Definition with_counters (ticks ys qs slice : Z) (t : task) : task :=
  Task t.(pid) t.(parent_pid) t.(name) t.(state) ticks ys qs
    t.(exit_code) slice t.(saved_frame) t.(kernel_stack_top) t.(address_space)
    t.(waiting_for) t.(wake_tick) t.(timeout_result) t.(timed_wait).
Definition with_exit (code : Z) (t : task) : task :=
  Task t.(pid) t.(parent_pid) t.(name) EXITED t.(cpu_ticks) t.(yields) t.(quantum_expirations)
    code t.(slice_ticks) t.(saved_frame) t.(kernel_stack_top) t.(address_space)
    t.(waiting_for) t.(wake_tick) t.(timeout_result) t.(timed_wait).
Definition with_frame (f : Z) (t : task) : task :=
  Task t.(pid) t.(parent_pid) t.(name) t.(state) t.(cpu_ticks) t.(yields) t.(quantum_expirations)
    t.(exit_code) t.(slice_ticks) f t.(kernel_stack_top) t.(address_space)
    t.(waiting_for) t.(wake_tick) t.(timeout_result) t.(timed_wait).
Definition with_waiting (w : Z) (t : task) : task :=
  Task t.(pid) t.(parent_pid) t.(name) t.(state) t.(cpu_ticks) t.(yields) t.(quantum_expirations)
    t.(exit_code) t.(slice_ticks) t.(saved_frame) t.(kernel_stack_top) t.(address_space)
    w t.(wake_tick) t.(timeout_result) t.(timed_wait).
Definition with_timer (wake result : Z) (timed : bool) (t : task) : task :=
  Task t.(pid) t.(parent_pid) t.(name) t.(state) t.(cpu_ticks) t.(yields) t.(quantum_expirations)
    t.(exit_code) t.(slice_ticks) t.(saved_frame) t.(kernel_stack_top) t.(address_space)
    t.(waiting_for) wake result timed.
Definition with_untimed (t : task) : task :=
  with_timer t.(wake_tick) t.(timeout_result) false t.

(** The scheduler's file-scope state and the processor state it switches. *)
Record sched := Sched {
  tasks : list task;
  current_pid : Z;
  dispatch_count : Z;
  initialized : bool;
  users_running : bool;
  scheduler_ticks : Z;
  fpu_state : list (list Z);   (* one FXSAVE image per slot *)
  fpu_template : list Z;
  fpu : list Z;                (* the FPU registers *)
  cr3 : Z;
  rsp0 : Z;                    (* ring-0 stack of the next interrupt *)
  frames : gmap Z interrupt_frame;
  kernel_stacks : Z;           (* address of the kernel stack array *)
}.

Definition set_tasks (ts : list task) (s : sched) : sched :=
  Sched ts s.(current_pid) s.(dispatch_count) s.(initialized) s.(users_running)
    s.(scheduler_ticks) s.(fpu_state) s.(fpu_template) s.(fpu) s.(cr3) s.(rsp0)
    s.(frames) s.(kernel_stacks).
Definition set_frames (fs : gmap Z interrupt_frame) (s : sched) : sched :=
  Sched s.(tasks) s.(current_pid) s.(dispatch_count) s.(initialized) s.(users_running)
    s.(scheduler_ticks) s.(fpu_state) s.(fpu_template) s.(fpu) s.(cr3) s.(rsp0)
    fs s.(kernel_stacks).
Definition set_fpu (areas : list (list Z)) (regs : list Z) (s : sched) : sched :=
  Sched s.(tasks) s.(current_pid) s.(dispatch_count) s.(initialized) s.(users_running)
    s.(scheduler_ticks) areas s.(fpu_template) regs s.(cr3) s.(rsp0)
    s.(frames) s.(kernel_stacks).
Definition set_ticks (n : Z) (s : sched) : sched :=
  Sched s.(tasks) s.(current_pid) s.(dispatch_count) s.(initialized) s.(users_running)
    n s.(fpu_state) s.(fpu_template) s.(fpu) s.(cr3) s.(rsp0)
    s.(frames) s.(kernel_stacks).
Definition set_users (b : bool) (s : sched) : sched :=
  Sched s.(tasks) s.(current_pid) s.(dispatch_count) s.(initialized) b
    s.(scheduler_ticks) s.(fpu_state) s.(fpu_template) s.(fpu) s.(cr3) s.(rsp0)
    s.(frames) s.(kernel_stacks).
(** [current_pid = p; ++dispatch_count; activate(root); set_kernel_stack(top);] *)
Definition set_running (p root top : Z) (s : sched) : sched :=
  Sched s.(tasks) p (u64 (s.(dispatch_count) + 1)) s.(initialized) s.(users_running)
    s.(scheduler_ticks) s.(fpu_state) s.(fpu_template) s.(fpu) root top
    s.(frames) s.(kernel_stacks).

(** [tasks[p].f = v;] *)
Definition update_task (p : Z) (f : task -> task) (s : sched) : option sched :=
  t ← s.(tasks).[p]; ts ← s.(tasks).[p <- f t]; Some (set_tasks ts s).

(** A store through an interrupt-frame pointer. *)
Definition write_frame (address : Z) (f : interrupt_frame -> interrupt_frame) (s : sched)
  : option sched :=
  fr ← s.(frames) !! address; Some (set_frames (<[address := f fr]> s.(frames)) s).

(** ** Dispatch *)

Definition switch_fpu (from_pid to_pid : Z) (s : sched) : option sched :=
  if from_pid =? to_pid then Some s else
  areas ← s.(fpu_state).[from_pid <- s.(fpu)];
  regs ← areas.[to_pid];
  Some (set_fpu areas regs s).

Fixpoint copy_name (n : nat) (i : Z) (output nm : list Z) : option (list Z) :=
  match n with
  | O => output.[i <- 0]
  | S n' =>
      c ← nm.[i];
      if c =? 0 then output.[i <- 0] else
      output ← output.[i <- c];
      copy_name n' (i + 1) output nm
  end.

(** [prepare_frame]: the initial user frame at the top of the slot's stack. *)
Definition prepare_frame (p entry stack : Z) (s : sched) : option (Z * sched) :=
  let top := s.(kernel_stacks) + p * KERNEL_STACK_SIZE in
  let address := top - FRAME_BYTES in
  let f := Frame 0 0 0 0 0 0 0 0 0 p 0 0 0 0 0 entry 35 514 stack 27 in
  let s := set_frames (<[address := f]> s.(frames)) s in
  s ← update_task p (fun t =>
        Task t.(pid) t.(parent_pid) t.(name) t.(state) t.(cpu_ticks) t.(yields)
          t.(quantum_expirations) t.(exit_code) t.(slice_ticks) t.(saved_frame) top
          t.(address_space) t.(waiting_for) t.(wake_tick) t.(timeout_result) t.(timed_wait)) s;
  Some (address, s).

Definition dispatch (p : Z) (s : sched) : option (Z * sched) :=
  s ← switch_fpu s.(current_pid) p s;
  s ← update_task p (fun t =>
        with_counters t.(cpu_ticks) t.(yields) t.(quantum_expirations) 0
          (with_state RUNNING t)) s;
  t ← s.(tasks).[p];
  Some (t.(saved_frame), set_running p t.(address_space) t.(kernel_stack_top) s).

(** The pid examined in round [n] of the ready scan. *)
Definition ready_candidate (after n : Z) : Z :=
  1 + u32 (after + n - 1) mod (SCHEDULER_PROCESS_LIMIT - 1).

Fixpoint next_ready_from (rounds : nat) (n after : Z) (ts : list task) : option Z :=
  match rounds with
  | O => Some 0
  | S rounds' =>
      let p := ready_candidate after n in
      t ← ts.[p];
      if decide (t.(state) = READY) then Some p
      else next_ready_from rounds' (n + 1) after ts
  end.

Definition next_ready (after : Z) (s : sched) : option Z :=
  next_ready_from 7 1 after s.(tasks).

Definition return_idle (s : sched) : option (Z * sched) :=
  s ← switch_fpu s.(current_pid) 0 s;
  let s := set_users false s in
  s ← update_task 0 (with_state RUNNING) s;
  t ← s.(tasks).[0];
  Some (0, set_running 0 t.(address_space) s.(rsp0) s).

(** ** Lifecycle *)

Fixpoint pid_list (n : nat) (p : Z) : list Z :=
  match n with O => [] | S n' => p :: pid_list n' (p + 1) end.

Definition scheduler_init (kernel_space : Z) (s : sched) : option sched :=
  nm ← copy_name 15 0 (replicate 16 0) [105; 100; 108; 101; 0];
  let fresh p := with_waiting SCHEDULER_WAIT_NONE (empty_task p) in
  let idle := Task 0 0 nm RUNNING 0 0 0 0 0 0 0 kernel_space SCHEDULER_WAIT_NONE 0 0 false in
  let ts := idle :: map fresh (pid_list 7 1) in
  Some (Sched ts 0 1 true false 0 (replicate 8 s.(fpu)) s.(fpu) s.(fpu)
          s.(cr3) s.(rsp0) s.(frames) s.(kernel_stacks)).

Definition scheduler_create_user (parent : Z) (nm : list Z) (entry stack space : Z) (s : sched)
  : option (Z * sched) :=
  if negb s.(initialized) || (entry =? 0) || (stack =? 0) || (space =? 0)
     || (SCHEDULER_PROCESS_LIMIT <=? parent)
  then Some (0, s) else
  match list_find (fun t => t.(state) = UNUSED) (drop 1 s.(tasks)) with
  | None => Some (0, s)
  | Some (i, _) =>
      let p := 1 + Z.of_nat i in
      nm ← copy_name 15 0 (replicate 16 0) nm;
      s ← update_task p (fun _ =>
            Task p parent nm READY 0 0 0 0 0 0 0 space SCHEDULER_WAIT_NONE 0 0 false) s;
      '(frame, s) ← prepare_frame p entry stack s;
      s ← update_task p (with_frame frame) s;
      areas ← s.(fpu_state).[p <- s.(fpu_template)];
      Some (p, set_fpu areas s.(fpu) s)
  end.

Definition scheduler_start_users (s : sched) : option (Z * sched) :=
  if negb s.(initialized) || s.(users_running) then Some (0, s) else
  first ← next_ready 0 s;
  if first =? 0 then Some (0, s) else
  s ← update_task 0 (with_state READY) s;
  dispatch first (set_users true s).

Definition reschedule (frame : Z) (s : sched) : option (Z * sched) :=
  s ← update_task s.(current_pid) (fun t =>
        let t := with_frame frame t in
        if decide (t.(state) = RUNNING) then with_state READY t else t) s;
  next ← next_ready s.(current_pid) s;
  if next =? 0 then
    t ← s.(tasks).[s.(current_pid)];
    if decide (t.(state) = READY) then
      s ← update_task s.(current_pid) (with_state RUNNING) s; Some (frame, s)
    else return_idle s
  else dispatch next s.

Definition scheduler_on_yield (frame : Z) (s : sched) : option (Z * sched) :=
  if negb s.(initialized) || negb s.(users_running) || (s.(current_pid) =? 0)
  then Some (frame, s) else
  s ← update_task s.(current_pid) (fun t =>
        with_counters t.(cpu_ticks) (u64 (t.(yields) + 1)) t.(quantum_expirations)
          t.(slice_ticks) t) s;
  reschedule frame s.

Definition scheduler_block_current (frame : Z) (s : sched) : option (Z * sched) :=
  if negb s.(initialized) || negb s.(users_running) || (s.(current_pid) =? 0)
  then Some (frame, s) else
  s ← update_task s.(current_pid) (fun t =>
        with_waiting SCHEDULER_WAIT_NONE (with_state BLOCKED (with_frame frame t))) s;
  reschedule frame s.

Definition scheduler_block_current_timeout (frame delay result : Z) (s : sched)
  : option (Z * sched) :=
  if negb s.(initialized) || negb s.(users_running) || (s.(current_pid) =? 0) || (delay =? 0)
  then scheduler_block_current frame s else
  s ← update_task s.(current_pid) (fun t =>
        with_waiting SCHEDULER_WAIT_NONE
          (with_timer (u64 (s.(scheduler_ticks) + delay)) result true
            (with_state BLOCKED (with_frame frame t)))) s;
  reschedule frame s.

(** The wake-up other subsystems call: the result registers go into the sleeper's
    saved frame. *)
Definition scheduler_wake (p result detail : Z) (s : sched) : option (bool * sched) :=
  if (p =? 0) || (SCHEDULER_PROCESS_LIMIT <=? p) then Some (false, s) else
  t ← s.(tasks).[p];
  if decide (t.(state) = BLOCKED) then
    s ← write_frame t.(saved_frame) (set_result result detail) s;
    s ← update_task p (fun t =>
          with_state READY (with_waiting SCHEDULER_WAIT_NONE (with_untimed t))) s;
    Some (true, s)
  else Some (false, s).

(** ** The handlers that involve other subsystems *)

(** What the scheduler calls in the rest of the kernel, over their joint state
    [W]: cancelling the waits of a process that timed out, and releasing the
    resources of a dead process (which may wake others). *)
Class TaskServices (W : Type) := {
  ipc_cancel : Z -> W -> W;
  input_cancel : Z -> W -> W;
  release_process : Z -> sched -> W -> option (sched * W);
}.

Section services.
Context {W : Type} `{!TaskServices W}.

(** One round of the timer's scan: an expired timed wait. *)
Definition expire_wait (p : Z) (sw : sched * W) : option (sched * W) :=
  let (s, w) := sw in
  t ← s.(tasks).[p];
  if negb (bool_decide (t.(state) = BLOCKED)) || negb t.(timed_wait)
     || (s.(scheduler_ticks) <? t.(wake_tick))
  then Some (s, w) else
  let w := input_cancel p (ipc_cancel p w) in
  s ← write_frame t.(saved_frame) (set_result t.(timeout_result) 0) s;
  s ← update_task p (fun t =>
        with_state READY (with_waiting SCHEDULER_WAIT_NONE (with_untimed t))) s;
  Some (s, w).

Definition scheduler_on_timer_tick (frame : Z) (s : sched) (w : W) : option (Z * sched * W) :=
  if negb s.(initialized) then Some (frame, s, w) else
  let s := set_ticks (u64 (s.(scheduler_ticks) + 1)) s in
  '(s, w) ← for_up 7 1 expire_wait (s, w);
  s ← update_task s.(current_pid) (fun t =>
        with_counters (u64 (t.(cpu_ticks) + 1)) t.(yields) t.(quantum_expirations)
          t.(slice_ticks) t) s;
  if negb s.(users_running) || (s.(current_pid) =? 0) then Some (frame, s, w) else
  s ← update_task s.(current_pid) (fun t =>
        with_counters t.(cpu_ticks) t.(yields) t.(quantum_expirations)
          (u64 (t.(slice_ticks) + 1)) t) s;
  t ← s.(tasks).[s.(current_pid)];
  if t.(slice_ticks) <? INIT_QUANTUM_TICKS then Some (frame, s, w) else
  s ← update_task s.(current_pid) (fun t =>
        with_counters t.(cpu_ticks) t.(yields) (u64 (t.(quantum_expirations) + 1))
          t.(slice_ticks) t) s;
  '(f, s) ← reschedule frame s;
  Some (f, s, w).

Definition wake_waiting_parent (child : Z) (s : sched) (w : W) : option (sched * W) :=
  c ← s.(tasks).[child];
  let parent := c.(parent_pid) in
  if (parent =? 0) || (SCHEDULER_PROCESS_LIMIT <=? parent) then Some (s, w) else
  pt ← s.(tasks).[parent];
  if negb (bool_decide (pt.(state) = BLOCKED)) || (pt.(waiting_for) =? SCHEDULER_WAIT_NONE)
     || (negb (pt.(waiting_for) =? 0) && negb (pt.(waiting_for) =? child))
  then Some (s, w) else
  s ← write_frame pt.(saved_frame) (set_result child c.(exit_code)) s;
  s ← update_task parent (fun t =>
        with_state READY (with_waiting SCHEDULER_WAIT_NONE t)) s;
  '(s, w) ← release_process child s w;
  s ← update_task child (fun _ => empty_task child) s;
  Some (s, w).

Definition scheduler_on_exit (code : Z) (s : sched) (w : W) : option (Z * sched * W) :=
  if negb s.(initialized) || negb s.(users_running) || (s.(current_pid) =? 0)
  then Some (0, s, w) else
  s ← update_task s.(current_pid) (with_exit code) s;
  '(s, w) ← wake_waiting_parent s.(current_pid) s w;
  next ← next_ready s.(current_pid) s;
  '(f, s) ← (if negb (next =? 0) then dispatch next s else return_idle s);
  Some (f, s, w).

Definition scheduler_reap (parent child : Z) (s : sched) (w : W)
  : option (option Z * sched * W) :=
  if (child =? 0) || (SCHEDULER_PROCESS_LIMIT <=? child) then Some (None, s, w) else
  t ← s.(tasks).[child];
  if negb (t.(parent_pid) =? parent) || negb (bool_decide (t.(state) = EXITED))
  then Some (None, s, w) else
  '(s, w) ← release_process child s w;
  s ← update_task child (fun _ => empty_task child) s;
  Some (Some t.(exit_code), s, w).

(** The first exited child of [parent], reaped. *)
Fixpoint reap_exited_from (n : nat) (child parent : Z) (s : sched) (w : W)
  : option (Z * Z * sched * W) :=
  match n with
  | O => Some (0, 0, s, w)
  | S n' =>
      t ← s.(tasks).[child];
      if (t.(parent_pid) =? parent) && bool_decide (t.(state) = EXITED) then
        '(r, s, w) ← scheduler_reap parent child s w;
        match r with
        | Some code => Some (child, code, s, w)
        | None => reap_exited_from n' (child + 1) parent s w
        end
      else reap_exited_from n' (child + 1) parent s w
  end.
Definition scheduler_reap_exited (parent : Z) (s : sched) (w : W) :=
  reap_exited_from 7 1 parent s w.

Definition scheduler_on_wait (frame child : Z) (s : sched) (w : W) : option (Z * sched * W) :=
  '(r, s, w) ← scheduler_reap s.(current_pid) child s w;
  match r with
  | Some status =>
      s ← write_frame frame (set_result child status) s; Some (frame, s, w)
  | None =>
      if SCHEDULER_PROCESS_LIMIT <=? child
      then s ← write_frame frame (set_rax U64_MAX) s; Some (frame, s, w) else
      t ← s.(tasks).[child];
      if negb (t.(parent_pid) =? s.(current_pid)) || bool_decide (t.(state) = UNUSED)
      then s ← write_frame frame (set_rax U64_MAX) s; Some (frame, s, w) else
      s ← update_task s.(current_pid) (fun t =>
            with_waiting child (with_state BLOCKED (with_frame frame t))) s;
      '(f, s) ← reschedule frame s;
      Some (f, s, w)
  end.

Definition scheduler_terminate (p code : Z) (s : sched) (w : W) : option (bool * sched * W) :=
  if (p =? 0) || (SCHEDULER_PROCESS_LIMIT <=? p) || (p =? s.(current_pid))
  then Some (false, s, w) else
  t ← s.(tasks).[p];
  if bool_decide (t.(state) = UNUSED) || bool_decide (t.(state) = EXITED)
  then Some (false, s, w) else
  s ← update_task p (with_exit code) s;
  '(s, w) ← wake_waiting_parent p s w;
  Some (true, s, w).

End services.

(** ** Queries *)

Definition is_live (t : task) : bool :=
  bool_decide (t.(state) = READY) || bool_decide (t.(state) = RUNNING)
  || bool_decide (t.(state) = BLOCKED).
Definition scheduler_has_live_users (s : sched) : bool := existsb is_live (drop 1 s.(tasks)).
Definition scheduler_has_ready_users (s : sched) : bool :=
  existsb (fun t => bool_decide (t.(state) = READY)) (drop 1 s.(tasks)).
Definition scheduler_snapshot (i : Z) (s : sched) : option task :=
  if negb s.(initialized) || (SCHEDULER_PROCESS_LIMIT <=? i) then None else s.(tasks).[i].
