(* ===== verification/SchedulerSpec.v ===== *)
(** Correctness of the scheduler: the invariant that every handler preserves,
    round-robin progress, isolation of FPU images across a switch, delivery of
    wake-up results, and expiry of timed waits. *)

From stdpp Require Import gmap.
From S2P Require Import Prelude Scheduler.

(** ** Invariant *)

(** A slot of the table, given the current pid and the frame memory: only the
    current task may be RUNNING, a blocked task has a frame to receive its
    result, a timer is armed only for a blocked task that does not wait for a
    child, and the idle task never blocks. *)
Record task_ok (cur : Z) (fr : gmap Z interrupt_frame) (i : Z) (t : task) : Prop := {
  ok_pid : t.(pid) = i;
  ok_running : t.(state) = RUNNING -> i = cur;
  ok_frame : t.(state) = BLOCKED -> is_Some (fr !! t.(saved_frame));
  ok_timed : t.(timed_wait) = true ->
    t.(state) = EXITED \/ (t.(state) = BLOCKED /\ t.(waiting_for) = SCHEDULER_WAIT_NONE);
  ok_idle : i = 0 -> t.(state) = RUNNING \/ t.(state) = READY;
  ok_parent : 0 <= t.(parent_pid);
}.

(** What holds at every point of a handler. *)
Record sched_core (s : sched) : Prop := {
  core_len : length s.(tasks) = 8%nat;
  core_fpu : length s.(fpu_state) = 8%nat;
  core_cur : 0 <= s.(current_pid) < 8;
  core_tasks : forall i t, s.(tasks).[i] = Some t ->
    task_ok s.(current_pid) s.(frames) i t;
}.

(** What holds between handlers: the current task is the running one, and it is
    the idle task exactly when no user task runs. *)
Record sched_wf (s : sched) : Prop := {
  wf_core : sched_core s;
  wf_running : exists t, s.(tasks).[s.(current_pid)] = Some t /\ t.(state) = RUNNING;
  wf_users : s.(users_running) = negb (s.(current_pid) =? 0);
}.

(** The current task has given up the processor. *)
Definition yielded (s : sched) : Prop :=
  forall t, s.(tasks).[s.(current_pid)] = Some t -> t.(state) <> RUNNING.

(** The scheduler state apart from the task table and the frames. *)
Definition same_core (s s' : sched) : Prop :=
  s'.(current_pid) = s.(current_pid) /\ s'.(users_running) = s.(users_running) /\
  s'.(initialized) = s.(initialized) /\ s'.(scheduler_ticks) = s.(scheduler_ticks) /\
  s'.(fpu_state) = s.(fpu_state) /\ s'.(fpu) = s.(fpu) /\ s'.(cr3) = s.(cr3) /\
  s'.(rsp0) = s.(rsp0).

Lemma update_task_eq p f s t :
  s.(tasks).[p] = Some t ->
  update_task p f s = Some (set_tasks (<[Z.to_nat p := f t]> s.(tasks)) s).
Proof.
  intros Ht. unfold update_task. rewrite Ht. cbn [mbind option_bind].
  rewrite aset_in by (by eapply aget_bound). done.
Qed.

Lemma task_in s p : sched_core s -> 0 <= p < 8 -> exists t, s.(tasks).[p] = Some t.
Proof. intros Hc Hp. apply aget_in. rewrite (core_len _ Hc). lia. Qed.

Lemma task_bound s p t : sched_core s -> s.(tasks).[p] = Some t -> 0 <= p < 8.
Proof. intros Hc H%aget_bound. rewrite (core_len _ Hc) in H. lia. Qed.

(** Rewriting one task keeps the core invariant when the new slot is good. *)
Lemma core_update s p t t' :
  sched_core s -> s.(tasks).[p] = Some t ->
  task_ok s.(current_pid) s.(frames) p t' ->
  sched_core (set_tasks (<[Z.to_nat p := t']> s.(tasks)) s).
Proof.
  intros Hc Ht Hok. pose proof (aget_bound _ _ _ Ht) as Hb.
  destruct Hc as [Hl Hf Hcu Hts]. split; cbn; try done.
  - by rewrite length_insert.
  - intros i u. rewrite aget_insert by done. case_decide; intros; simplify_eq; auto.
Qed.

Lemma task_ok_frames cur fr fr' i t :
  (forall a, is_Some (fr !! a) -> is_Some (fr' !! a)) ->
  task_ok cur fr i t -> task_ok cur fr' i t.
Proof. intros Hsub []. split; auto. Qed.

Lemma core_frames_grow s fr' :
  sched_core s -> (forall a, is_Some (s.(frames) !! a) -> is_Some (fr' !! a)) ->
  sched_core (set_frames fr' s).
Proof. intros [] Hsub. split; cbn; eauto using task_ok_frames. Qed.

Lemma frames_insert_grow (fr : gmap Z interrupt_frame) b g a :
  is_Some (fr !! a) -> is_Some (<[b := g]> fr !! a).
Proof. intros. rewrite lookup_insert. case_decide; eauto. Qed.

(** A store through a valid frame pointer. *)
Lemma write_frame_eq a f s g :
  s.(frames) !! a = Some g -> write_frame a f s = Some (set_frames (<[a := f g]> s.(frames)) s).
Proof. intros H. unfold write_frame. by rewrite H. Qed.

Lemma write_frame_ok a f s :
  sched_core s -> is_Some (s.(frames) !! a) ->
  exists g, s.(frames) !! a = Some g /\
    write_frame a f s = Some (set_frames (<[a := f g]> s.(frames)) s) /\
    sched_core (set_frames (<[a := f g]> s.(frames)) s).
Proof.
  intros Hc [g Hg]. exists g. split; [done|]. split; [by apply write_frame_eq|].
  apply core_frames_grow; [done|]. intros. by apply frames_insert_grow.
Qed.

Lemma switch_fpu_ok s a b :
  sched_core s -> 0 <= a < 8 -> 0 <= b < 8 ->
  exists areas regs, switch_fpu a b s = Some (set_fpu areas regs s) /\
    length areas = 8%nat /\
    (a <> b -> areas.[a] = Some s.(fpu) /\ Some regs = s.(fpu_state).[b] /\
      forall c, c <> a -> areas.[c] = s.(fpu_state).[c]) /\
    (a = b -> areas = s.(fpu_state) /\ regs = s.(fpu)).
Proof.
  intros Hc Ha Hb. pose proof (core_fpu _ Hc) as Hl. unfold switch_fpu.
  destruct (Z.eqb_spec a b) as [->|Hne].
  { exists s.(fpu_state), s.(fpu). by destruct s. }
  assert (Hset := aset_in s.(fpu_state) a s.(fpu) ltac:(lia)). rewrite Hset.
  cbn [mbind option_bind].
  destruct (aget_in (<[Z.to_nat a := s.(fpu)]> s.(fpu_state)) b) as [regs Hregs];
    [rewrite length_insert; lia|].
  rewrite Hregs. cbn [mbind option_bind].
  eexists _, regs. split; [done|]. split; [by rewrite length_insert|].
  split; [intros _|done]. split; [by eapply aget_aset_eq|].
  split; [|intros c Hca; by eapply aget_aset_ne; [exact Hset|]].
  rewrite <- Hregs. eapply aget_aset_ne; [exact Hset|done].
Qed.

(** ** FPU images *)

(** The FPU image of task [q]: the registers if it runs, its area otherwise. *)
Definition fpu_of (s : sched) (q : Z) : option (list Z) :=
  if decide (q = s.(current_pid)) then Some s.(fpu) else s.(fpu_state).[q].

Definition same_fpu (s s' : sched) : Prop :=
  forall q, 0 <= q < 8 -> fpu_of s' q = fpu_of s q.

Lemma same_fpu_refl s s' : same_core s s' -> same_fpu s s'.
Proof.
  intros (Ec & _ & _ & _ & Ef & Eg & _) q _. unfold fpu_of. by rewrite Ec, Ef, Eg.
Qed.

Lemma same_fpu_trans s1 s2 s3 : same_fpu s1 s2 -> same_fpu s2 s3 -> same_fpu s1 s3.
Proof. intros H1 H2 q Hq. by rewrite (H2 q Hq), (H1 q Hq). Qed.

(** Switching from the current task to [b] moves no task's image. *)
Lemma switch_same_fpu s b areas regs s' :
  sched_core s -> 0 <= b < 8 ->
  switch_fpu s.(current_pid) b s = Some (set_fpu areas regs s) ->
  s'.(current_pid) = b -> s'.(fpu_state) = areas -> s'.(fpu) = regs ->
  same_fpu s s'.
Proof.
  intros Hc Hb Hsw Ecu Ear Ere q Hq. pose proof (core_cur _ Hc) as Hcu.
  destruct (switch_fpu_ok s s.(current_pid) b Hc Hcu Hb) as (ar & rg & Hsw' & _ & Hne & Heq).
  rewrite Hsw in Hsw'. injection Hsw' as -> ->.
  unfold fpu_of. rewrite Ecu, Ear, Ere.
  destruct (decide (s.(current_pid) = b)) as [E|E].
  - destruct (Heq E) as [-> ->]. by rewrite E.
  - destruct (Hne E) as (H1 & H2 & H3). repeat case_decide; subst; try done.
    by rewrite H3.
Qed.

(** ** Dispatch *)

(** The outcome of handing the processor over from [s]. *)
Record handed (s s' : sched) : Prop := {
  handed_wf : sched_wf s';
  handed_frames : s'.(frames) = s.(frames);
  handed_init : s'.(initialized) = s.(initialized);
  handed_ticks : s'.(scheduler_ticks) = s.(scheduler_ticks);
  handed_fpu : same_fpu s s';
  handed_tasks : forall i t, s.(tasks).[i] = Some t ->
    exists t', s'.(tasks).[i] = Some t' /\
      (t' = t \/ (t.(state) <> BLOCKED /\ t'.(state) = RUNNING /\ i = s'.(current_pid)));
}.

(** Taking the processor: slot [p], rewritten to be RUNNING, becomes current. *)
Lemma take_over s p t t' areas regs s' :
  sched_core s -> yielded s -> s.(tasks).[p] = Some t ->
  length areas = 8%nat ->
  task_ok p s.(frames) p t' -> t'.(state) = RUNNING ->
  s'.(tasks) = <[Z.to_nat p := t']> s.(tasks) -> s'.(fpu_state) = areas ->
  s'.(fpu) = regs -> s'.(frames) = s.(frames) -> s'.(current_pid) = p ->
  s'.(users_running) = negb (p =? 0) ->
  switch_fpu s.(current_pid) p s = Some (set_fpu areas regs s) ->
  s'.(initialized) = s.(initialized) -> s'.(scheduler_ticks) = s.(scheduler_ticks) ->
  t.(state) <> BLOCKED ->
  handed s s'.
Proof.
  intros Hc Hy Ht Hareas Hok Hrun Ets Ear Ere Efr Ecu Eus Hsw Ein Eti Hnb.
  assert (Hsf : same_fpu s s').
  { eapply (switch_same_fpu s p areas regs); try done. by eapply task_bound. }
  pose proof (aget_bound _ _ _ Ht) as Hb. destruct Hc as [Hl Hf Hcu Hts].
  split; [split| | | | |]; try done.
  - split; rewrite ?Ets, ?Ear, ?Ecu, ?Efr; try done; [by rewrite length_insert|lia|].
    intros i u. rewrite aget_insert by done. case_decide; intros; simplify_eq; [done|].
    destruct (Hts _ _ H0). split; auto. intros Hu. exfalso.
    apply (Hy u); [|done]. by rewrite <- ok_running0.
  - exists t'. rewrite Ecu, Ets, aget_insert by done. by rewrite decide_True.
  - by rewrite Eus, Ecu.
  - intros i u Hu. rewrite Ets, aget_insert by done. case_decide as E; [|by eauto].
    subst i. rewrite Ht in Hu. injection Hu as <-. exists t'. rewrite Ecu. auto.
Qed.

Lemma dispatch_ok s p t :
  sched_core s -> 1 <= p < 8 -> s.(tasks).[p] = Some t -> t.(state) = READY ->
  yielded s -> s.(users_running) = true ->
  exists s', dispatch p s = Some (t.(saved_frame), s') /\ handed s s' /\
    s'.(tasks) = <[Z.to_nat p :=
      with_counters t.(cpu_ticks) t.(yields) t.(quantum_expirations) 0
        (with_state RUNNING t)]> s.(tasks) /\
    s'.(current_pid) = p /\ s'.(cr3) = t.(address_space) /\ s'.(rsp0) = t.(kernel_stack_top).
Proof.
  intros Hc Hp Ht Hst Hy Hu. unfold dispatch.
  destruct (switch_fpu_ok s s.(current_pid) p Hc (core_cur _ Hc) ltac:(lia))
    as (areas & regs & Hsw & Hareas & _). rewrite Hsw. cbn [mbind option_bind].
  rewrite (update_task_eq _ _ _ t) by done. cbn [mbind option_bind].
  set (t' := with_counters _ _ _ 0 _). cbn [tasks set_tasks set_fpu].
  rewrite aget_insert by (rewrite (core_len _ Hc); lia). rewrite decide_True by done.
  cbn [mbind option_bind].
  eexists. split; [reflexivity|]. split; [|done].
  eapply (take_over s p t t' areas regs); try done.
  - pose proof (core_tasks _ Hc _ _ Ht) as [Hpid _ _ Htm _ Hpa].
    split; try done; [|intros ->; lia]. intros Htt. exfalso.
    destruct (Htm Htt) as [?|[? _]]; congruence.
  - cbn. rewrite Hu. by rewrite (proj2 (Z.eqb_neq p 0)) by lia.
  - by rewrite Hst.
Qed.

Lemma return_idle_ok s :
  sched_core s -> yielded s ->
  exists s', return_idle s = Some (0, s') /\ handed s s' /\ s'.(current_pid) = 0.
Proof.
  intros Hc Hy. unfold return_idle.
  destruct (switch_fpu_ok s s.(current_pid) 0 Hc (core_cur _ Hc) ltac:(lia))
    as (areas & regs & Hsw & Hareas & _). rewrite Hsw. cbn [mbind option_bind].
  destruct (task_in s 0 Hc ltac:(lia)) as [t Ht].
  rewrite (update_task_eq _ _ _ t) by done. cbn [mbind option_bind].
  cbn [tasks set_tasks set_users set_fpu].
  rewrite (aget_insert s.(tasks) 0 0) by (rewrite (core_len _ Hc); lia).
  rewrite decide_True by done. cbn [mbind option_bind].
  eexists. split; [reflexivity|]. split; [|done].
  eapply (take_over s 0 t (with_state RUNNING t) areas regs); try done.
  all: pose proof (core_tasks _ Hc _ _ Ht) as [Hpid _ _ Htm Hid Hpa].
  - split; try done; [|by left]. intros Htt. exfalso.
  destruct (Htm Htt) as [?|[? _]], (Hid eq_refl); congruence.
  - by destruct (Hid eq_refl) as [->| ->].
Qed.

(** ** The ready scan *)

(** Rounds before the scan that starts after pid [a] reaches pid [p]. *)
Definition distance (a p : Z) : Z := (p - 1 - a) mod 7.

Definition ready (s : sched) (p : Z) : Prop :=
  1 <= p < 8 /\ exists t, s.(tasks).[p] = Some t /\ t.(state) = READY.

Lemma ready_candidate_distance a n :
  0 <= a < 8 -> 1 <= n < 8 ->
  1 <= ready_candidate a n < 8 /\ distance a (ready_candidate a n) = n - 1.
Proof.
  intros Ha Hn. unfold ready_candidate, distance, SCHEDULER_PROCESS_LIMIT, u32. zlia.
Qed.

Lemma distance_inj a p q :
  1 <= p < 8 -> 1 <= q < 8 -> distance a p = distance a q -> p = q.
Proof. unfold distance. zlia. Qed.

Lemma next_ready_from_ok rounds n a s :
  sched_core s -> 0 <= a < 8 -> 1 <= n -> n + Z.of_nat rounds = 8 ->
  exists p, next_ready_from rounds n a s.(tasks) = Some p /\
    ((p = 0 /\ forall q, ready s q -> distance a q < n - 1) \/
     (ready s p /\ forall q, ready s q -> n - 1 <= distance a q -> distance a p <= distance a q)).
Proof.
  intros Hc Ha. revert n. induction rounds as [|r IH]; intros n Hn Hr; cbn [next_ready_from].
  { exists 0. split; [done|]. left. split; [done|]. intros q [Hq _]. unfold distance. zlia. }
  destruct (ready_candidate_distance a n Ha ltac:(lia)) as [Hb Hd].
  set (p := ready_candidate a n) in *.
  destruct (task_in s p Hc ltac:(lia)) as [t Ht]. rewrite Ht. cbn [mbind option_bind].
  case_decide as Hst.
  { exists p. split; [done|]. right. split; [split; [lia|eauto]|]. intros; lia. }
  destruct (IH (n + 1)) as (p' & -> & Hp'); [lia..|].
  assert (Hnot : forall q, ready s q -> distance a q <> n - 1).
  { intros q (Hq & u & Hu & Hru) E. rewrite <- Hd in E.
    apply distance_inj in E as ->; [congruence|lia..]. }
  exists p'. split; [done|]. destruct Hp' as [[-> H]|[Hrd H]].
  - left. split; [done|]. intros q Hq. specialize (H q Hq). specialize (Hnot q Hq). lia.
  - right. split; [done|]. intros q Hq Hge. specialize (Hnot q Hq). apply H; [done|lia].
Qed.

Lemma next_ready_ok s a :
  sched_core s -> 0 <= a < 8 ->
  exists p, next_ready a s = Some p /\
    ((p = 0 /\ forall q, ~ ready s q) \/
     (ready s p /\ forall q, ready s q -> distance a p <= distance a q)).
Proof.
  intros Hc Ha. destruct (next_ready_from_ok 7 1 a s Hc Ha) as (p & Hp & H); [lia..|].
  assert (Hpos : forall q, 0 <= distance a q) by (intros; unfold distance; zlia).
  exists p. split; [done|]. destruct H as [[-> H]|[Hr H]].
  - left. split; [done|]. intros q Hq. specialize (H q Hq). specialize (Hpos q). lia.
  - right. split; [done|]. intros q Hq. apply H; [done|]. specialize (Hpos q). lia.
Qed.

(** Handing the processor to the next ready task, or to the idle task. *)
Definition hand_over (s : sched) : option (Z * sched) :=
  next ← next_ready s.(current_pid) s;
  if negb (next =? 0) then dispatch next s else return_idle s.

(** A task that is ready keeps waiting only while the scan moves towards it. *)
Definition closer (s s' : sched) (p : Z) : Prop :=
  s'.(current_pid) = p \/
  (ready s' p /\ s'.(current_pid) <> 0 /\
   distance s'.(current_pid) p < distance s.(current_pid) p).

Lemma hand_over_ok s :
  sched_core s -> yielded s -> s.(users_running) = true -> 0 <= s.(current_pid) < 8 ->
  exists f s', hand_over s = Some (f, s') /\ handed s s' /\ forall p, ready s p -> closer s s' p.
Proof.
  intros Hc Hy Hu Hcur. unfold hand_over.
  destruct (next_ready_ok s s.(current_pid) Hc Hcur) as (n & -> & [[-> Hn]|[Hr Hmin]]);
    cbn [mbind option_bind].
  { destruct (return_idle_ok s Hc Hy) as (s' & -> & Hh & _).
    exists 0, s'. split; [done|]. split; [done|]. intros p Hp. by destruct (Hn p). }
  destruct Hr as (Hb & t & Ht & Hst).
  rewrite (proj2 (Z.eqb_neq n 0)) by lia. cbn [negb].
  destruct (dispatch_ok s n t Hc Hb Ht Hst Hy Hu)
    as (s' & -> & Hh & Hts & Hcu & _).
  eexists _, s'. split; [done|]. split; [done|]. intros p Hp.
  unfold closer. rewrite Hcu. destruct (decide (n = p)) as [->|Hne]; [by left|right].
  pose proof (Hmin p Hp) as Hle. destruct Hp as (Hpb & u & Hpu & Hru). split; [|split; [lia|]].
  - split; [done|]. exists u. rewrite Hts, aget_insert by (rewrite (core_len _ Hc); lia).
    by rewrite decide_False.
  - assert (distance s.(current_pid) n <> distance s.(current_pid) p)
      by (intros E; apply Hne; by eapply distance_inj).
    clear -Hle H Hb Hpb Hcur. unfold distance in *. zlia.
Qed.

(** [reschedule] stores the frame, demotes the running task and hands over. *)
Definition parked (frame : Z) (t : task) : task :=
  let t := with_frame frame t in
  if decide (t.(state) = RUNNING) then with_state READY t else t.

Lemma reschedule_ok s frame t :
  sched_core s -> s.(users_running) = true -> 1 <= s.(current_pid) ->
  s.(tasks).[s.(current_pid)] = Some t ->
  t.(state) = RUNNING \/ t.(state) = BLOCKED ->
  is_Some (s.(frames) !! frame) ->
  exists f s', reschedule frame s = Some (f, s') /\
    handed (set_tasks (<[Z.to_nat s.(current_pid) := parked frame t]> s.(tasks)) s) s' /\
    forall p, ready s p \/ (p = s.(current_pid) /\ t.(state) = RUNNING) -> closer s s' p.
Proof.
  intros Hc Hu Hcur Ht Hst Hfr. unfold reschedule.
  rewrite (update_task_eq _ _ _ t) by done. cbn [mbind option_bind].
  fold (parked frame t). set (s1 := set_tasks _ s).
  pose proof (core_cur _ Hc) as Hcb. pose proof (core_tasks _ Hc _ _ Ht) as [Hp Hrn Hfm Htm Hid Hpa].
  assert (Hst1 : (parked frame t).(state) =
            if decide (t.(state) = RUNNING) then READY else BLOCKED).
  { unfold parked. cbn. repeat case_decide; try done. by destruct Hst. }
  assert (Htm1 : (parked frame t).(timed_wait) = t.(timed_wait) /\
                 (parked frame t).(waiting_for) = t.(waiting_for) /\
                 (parked frame t).(pid) = t.(pid) /\ (parked frame t).(saved_frame) = frame /\
                 (parked frame t).(parent_pid) = t.(parent_pid))
    by (unfold parked; cbv zeta; destruct (decide _); done).
  destruct Htm1 as (Et & Ew & Ep & Ef & Epa).
  assert (Hc1 : sched_core s1).
  { apply (core_update _ _ t); [done..|]. split.
    - congruence.
    - rewrite Hst1. by case_decide.
    - intros _. by rewrite Ef.
    - rewrite Et, Ew, Hst1. intros E. destruct (Htm E) as [Hx|[Hx Hw]].
      + destruct Hst; congruence.
      + rewrite decide_False by congruence. auto.
    - lia.
    - by rewrite Epa. }
  assert (Ht1 : s1.(tasks).[s1.(current_pid)] = Some (parked frame t)).
  { cbn. rewrite aget_insert by (rewrite (core_len _ Hc); lia). by rewrite decide_True. }
  assert (Hy : yielded s1).
  { intros u Hu1. rewrite Ht1 in Hu1. injection Hu1 as <-. rewrite Hst1. by case_decide. }
  assert (Hready : forall p, ready s p \/ (p = s.(current_pid) /\ t.(state) = RUNNING) ->
            ready s1 p).
  { intros p [(Hb & u & Hup & Hur)|[-> Hr]].
    - split; [done|]. destruct (decide (p = s.(current_pid))) as [->|Hne].
      + exfalso. destruct Hst; congruence.
      + exists u. cbn. rewrite aget_insert by (rewrite (core_len _ Hc); lia).
        by rewrite decide_False.
    - split; [lia|]. eexists. split; [exact Ht1|]. rewrite Hst1. by rewrite decide_True. }
  destruct (hand_over_ok s1 Hc1 Hy Hu Hcb) as (f & s' & Heq & Hh & Hclose).
  exists f, s'. split; [|split; [done|]; intros p Hp0; by apply (Hclose p), Hready].
  unfold hand_over in Heq.
  destruct (next_ready_ok s1 s1.(current_pid) Hc1 Hcb) as (n & Hn & [[-> Hnone]|[[Hnb _] _]]);
    rewrite Hn in Heq |- *; cbn [mbind option_bind] in *.
  - cbn [Z.eqb negb] in *. rewrite Ht1. cbn [mbind option_bind].
    rewrite decide_False; [done|]. intros E. apply (Hnone s.(current_pid)).
    split; [lia|]. eexists. by split; [exact Ht1|].
  - rewrite (proj2 (Z.eqb_neq n 0)) in * by lia. done.
Qed.

(** ** Waking *)

(** A slot after its wait ended. *)
Definition woke (t : task) : task :=
  with_state READY (with_waiting SCHEDULER_WAIT_NONE (with_untimed t)).

Lemma woke_ok cur fr i t :
  task_ok cur fr i t -> t.(state) = BLOCKED -> task_ok cur fr i (woke t).
Proof. intros [] Hb. split; try done. by right. Qed.

(** Some blocked tasks of [s] were woken, and nothing else happened. *)
Record woken (s s' : sched) : Prop := {
  woken_core : same_core s s';
  woken_len : length s'.(tasks) = length s.(tasks);
  woken_frames : forall a, is_Some (s.(frames) !! a) -> is_Some (s'.(frames) !! a);
  woken_tasks : forall i t, s.(tasks).[i] = Some t ->
    exists t', s'.(tasks).[i] = Some t' /\
      (t' = t \/ (t.(state) = BLOCKED /\ t' = woke t));
}.

Lemma woken_refl s : woken s s.
Proof. split; [done|done|done|eauto]. Qed.

Lemma woken_trans s1 s2 s3 : woken s1 s2 -> woken s2 s3 -> woken s1 s3.
Proof.
  intros [H1 H2 H3 H4] [H1' H2' H3' H4']. split; [unfold same_core in *; intuition congruence| |auto|].
  - congruence.
  - intros i t Ht. destruct (H4 i t Ht) as (t' & Ht' & Hc).
    destruct (H4' i t' Ht') as (t'' & Ht'' & Hc'). exists t''. split; [done|].
    destruct Hc as [->|[Hb ->]]; [done|]. destruct Hc' as [->|[Hb' _]]; [auto|done].
Qed.

Lemma woken_preserves s s' : sched_core s -> woken s s' -> sched_core s'.
Proof.
  intros Hc [(E1 & _ & _ & _ & E5 & _) Hl Hf Ht]. destruct Hc as [Hlen Hfp Hcu Hts].
  split; rewrite ?Hl, ?E1, ?E5; try done. intros i t' Ht'.
  assert (Hb := aget_bound _ _ _ Ht'). rewrite Hl in Hb.
  destruct (aget_in s.(tasks) i Hb) as [t Hi]. pose proof (Hts _ _ Hi) as Hok.
  apply (task_ok_frames _ s.(frames)); [done|].
  destruct (Ht i t Hi) as (t'' & Hi' & Hcase). rewrite Ht' in Hi'. injection Hi' as <-.
  destruct Hcase as [->|[Hb' ->]]; [done|]. by apply woke_ok.
Qed.

Lemma woken_running s s' p t :
  woken s s' -> s.(tasks).[p] = Some t -> t.(state) <> BLOCKED -> s'.(tasks).[p] = Some t.
Proof. intros [_ _ _ H] Ht Hb. destruct (H p t Ht) as (t' & Ht' & [->|[? _]]); done. Qed.

(** Writing a result into a sleeper's frame and making it ready. *)
Lemma wake_step s p t f :
  sched_core s -> s.(tasks).[p] = Some t -> t.(state) = BLOCKED ->
  exists g, s.(frames) !! t.(saved_frame) = Some g /\
    (s1 ← write_frame t.(saved_frame) f s;
     update_task p (fun t => with_state READY (with_waiting SCHEDULER_WAIT_NONE (with_untimed t))) s1) =
    Some (set_tasks (<[Z.to_nat p := woke t]> s.(tasks))
            (set_frames (<[t.(saved_frame) := f g]> s.(frames)) s)) /\
    woken s (set_tasks (<[Z.to_nat p := woke t]> s.(tasks))
            (set_frames (<[t.(saved_frame) := f g]> s.(frames)) s)).
Proof.
  intros Hc Ht Hb. destruct (ok_frame _ _ _ _ (core_tasks _ Hc _ _ Ht) Hb) as [g Hg].
  exists g. split; [done|]. rewrite (write_frame_eq _ _ _ g) by done. cbn [mbind option_bind].
  rewrite (update_task_eq _ _ _ t) by done. split; [done|].
  pose proof (aget_bound _ _ _ Ht) as Hbd. split; cbn.
  - done.
  - by rewrite length_insert.
  - intros. by apply frames_insert_grow.
  - intros i u Hu. rewrite aget_insert by done. case_decide; [|eauto].
    subst. rewrite Ht in Hu. injection Hu as <-. eauto.
Qed.

(** [scheduler_wake] delivers its two results to a blocked task and makes it
    ready; any other pid is refused and nothing changes. *)
Lemma scheduler_wake_woken s p r d :
  sched_core s -> 0 <= p ->
  exists b s', scheduler_wake p r d s = Some (b, s') /\ woken s s'.
Proof.
  intros Hc Hp. unfold scheduler_wake, SCHEDULER_PROCESS_LIMIT.
  destruct ((p =? 0) || (8 <=? p)) eqn:E; [eauto using woken_refl|]. b2p.
  destruct (task_in s p Hc ltac:(lia)) as [t Ht]. rewrite Ht. cbn [mbind option_bind].
  case_decide as Hst; [|eauto using woken_refl].
  destruct (wake_step s p t (set_result r d) Hc Ht Hst) as (g & Hg & Heq & Hw).
  rewrite (write_frame_eq _ _ _ g) in * by done. cbn [mbind option_bind] in *.
  rewrite Heq. cbn [mbind option_bind]. eauto.
Qed.

(** ** What the scheduler requires of the subsystems it calls *)

Class TaskServicesOk (W : Type) `{!TaskServices W} (w_ok : W -> Prop) : Prop := {
  ipc_cancel_ok : forall p w, w_ok w -> w_ok (ipc_cancel p w);
  input_cancel_ok : forall p w, w_ok w -> w_ok (input_cancel p w);
  release_ok : forall p s w, sched_core s -> w_ok w -> 1 <= p < 8 ->
    exists s' w', release_process p s w = Some (s', w') /\ woken s s' /\ w_ok w';
}.

(** ** Steps shared by the handlers *)

Lemma counters_ok cur fr i a b c d t :
  task_ok cur fr i t -> task_ok cur fr i (with_counters a b c d t).
Proof. by intros []; split. Qed.

Lemma exit_ok cur fr i code t :
  task_ok cur fr i t -> i <> 0 -> task_ok cur fr i (with_exit code t).
Proof. intros []; split; try done. auto. Qed.

Lemma empty_ok cur fr p : p <> 0 -> task_ok cur fr p (empty_task p).
Proof. by split. Qed.

(** Rewriting a slot and finding it again. *)
Lemma updated s p t t' :
  sched_core s -> s.(tasks).[p] = Some t ->
  (set_tasks (<[Z.to_nat p := t']> s.(tasks)) s).(tasks).[p] = Some t'.
Proof.
  intros Hc Ht. cbn. rewrite aget_insert by (by eapply aget_bound). by rewrite decide_True.
Qed.

Lemma running_user s t :
  sched_wf s -> s.(tasks).[s.(current_pid)] = Some t -> t.(state) = RUNNING.
Proof. intros [_ (u & Hu & Hr) _] Ht. congruence. Qed.

(** Blocking the current task and rescheduling. *)
Lemma block_then_reschedule s t t' frame :
  sched_wf s -> s.(users_running) = true ->
  s.(tasks).[s.(current_pid)] = Some t ->
  t'.(pid) = t.(pid) -> t'.(parent_pid) = t.(parent_pid) -> t'.(saved_frame) = frame ->
  t'.(state) = BLOCKED ->
  (t'.(timed_wait) = true -> t'.(waiting_for) = SCHEDULER_WAIT_NONE) ->
  is_Some (s.(frames) !! frame) ->
  let s1 := set_tasks (<[Z.to_nat s.(current_pid) := t']> s.(tasks)) s in
  exists f s', reschedule frame s1 = Some (f, s') /\ handed s1 s' /\ 
    (forall p, ready s p -> closer s s' p) /\
    s'.(tasks).[s.(current_pid)] = Some t'.
Proof.
  intros Hwf Hu Ht Hp Hpa Hsf Hst Htm Hfr s1. pose proof (wf_core _ Hwf) as Hc.
  assert (Hcur : 1 <= s.(current_pid) < 8).
  { pose proof (core_cur _ Hc). pose proof (wf_users _ Hwf) as E. rewrite Hu in E.
    symmetry in E. b2p. lia. }
  pose proof (core_tasks _ Hc _ _ Ht) as Hok.
  assert (Hc1 : sched_core s1).
  { apply (core_update _ _ t); [done..|]. split.
    - rewrite Hp. apply Hok.
    - by rewrite Hst.
    - by rewrite Hsf.
    - auto.
    - lia.
    - rewrite Hpa. apply Hok. }
  assert (Ht1 : s1.(tasks).[s1.(current_pid)] = Some t') by (by eapply updated).
  destruct (reschedule_ok s1 frame t' Hc1 Hu ltac:(cbn; lia) Ht1 (or_intror Hst) Hfr)
    as (f & s' & Heq & Hh & Hcl).
  assert (Hpark : parked frame t' = t').
  { unfold parked. cbv zeta. rewrite decide_False by (cbn; congruence).
    unfold with_frame. rewrite <- Hsf. by destruct t'. }
  assert (Hsame : set_tasks (<[Z.to_nat s1.(current_pid) := parked frame t']> s1.(tasks)) s1 = s1).
  { rewrite Hpark. unfold s1, set_tasks. cbn. by rewrite list_insert_insert_eq. }
  rewrite Hsame in Hh. exists f, s'. split; [done|]. split; [done|]. split.
  - intros p (Hb & u & Hu1 & Hru). apply (Hcl p). left. split; [done|]. exists u.
    cbn. rewrite aget_insert by (by eapply aget_bound). rewrite decide_False; [done|].
    intros ->. pose proof (running_user s t Hwf Ht). congruence.
  - destruct (handed_tasks _ _ Hh _ _ Ht1) as (u & Hu1 & [->|(Hn & _)]); [done|congruence].
Qed.

(** ** Children: exit, wait, reap *)

Section services.
Context {W : Type} `{HS : !TaskServices W} {w_ok : W -> Prop} `{!TaskServicesOk W w_ok}.

(** The end of process [child]: its slot is settled (EXITED or recycled), other
    tasks are untouched unless they were blocked and became ready. *)
Record settled (s s' : sched) (child : Z) : Prop := {
  settled_core : sched_core s';
  settled_same : same_core s s';
  settled_frames : forall a, is_Some (s.(frames) !! a) -> is_Some (s'.(frames) !! a);
  settled_child : exists t', s'.(tasks).[child] = Some t' /\
    (t'.(state) = EXITED \/ t'.(state) = UNUSED);
  settled_tasks : forall i t, i <> child -> s.(tasks).[i] = Some t ->
    exists t', s'.(tasks).[i] = Some t' /\
      (t' = t \/ (t.(state) = BLOCKED /\ t'.(state) = READY));
}.

(** Releasing a dead process and recycling its slot. *)
Lemma release_and_recycle s w child :
  sched_core s -> w_ok w -> 1 <= child < 8 ->
  exists s1 s' w', release_process child s w = Some (s1, w') /\ w_ok w' /\
    update_task child (fun _ => empty_task child) s1 = Some s' /\ settled s s' child.
Proof.
  intros Hc Hw Hb. destruct (release_ok child s w Hc Hw Hb) as (s1 & w' & Hr & Hwk & Hw').
  pose proof (woken_preserves _ _ Hc Hwk) as Hc1.
  destruct (task_in s1 child Hc1 ltac:(lia)) as [t Ht].
  eexists s1, _, w'. split; [done|]. split; [done|].
  split; [by apply (update_task_eq _ _ _ t)|].
  pose proof (aget_bound _ _ _ Ht) as Hbd. destruct Hwk as [Hs Hl Hf Hts].
  split; cbn.
  - apply (core_update _ _ t); [done..|]. apply empty_ok. lia.
  - done.
  - done.
  - eexists. rewrite aget_insert by done. rewrite decide_True by done. split; [done|]. by right.
  - intros i u Hi Hu. rewrite aget_insert by done. rewrite decide_False by done.
    destruct (Hts i u Hu) as (u' & Hu' & [->|[? ->]]); eauto.
Qed.

Lemma same_core_trans s1 s2 s3 : same_core s1 s2 -> same_core s2 s3 -> same_core s1 s3.
Proof. unfold same_core. intuition congruence. Qed.

(** [wake_waiting_parent] never faults, and settles the dead child. *)
Lemma wake_waiting_parent_ok s w child c :
  sched_core s -> w_ok w -> 1 <= child < 8 ->
  s.(tasks).[child] = Some c -> c.(state) = EXITED ->
  exists s' w', wake_waiting_parent child s w = Some (s', w') /\ w_ok w' /\ settled s s' child.
Proof.
  intros Hc Hw Hb Hch Hex. unfold wake_waiting_parent. rewrite Hch. cbn [mbind option_bind].
  pose proof (ok_parent _ _ _ _ (core_tasks _ Hc _ _ Hch)) as Hpos.
  assert (Hstay : settled s s child) by (split; eauto; done).
  unfold SCHEDULER_PROCESS_LIMIT.
  destruct ((c.(parent_pid) =? 0) || (8 <=? c.(parent_pid))) eqn:Ep; b2p; [by eauto|].
  destruct (task_in s c.(parent_pid) Hc ltac:(lia)) as [pt Hpt]. rewrite Hpt.
  cbn [mbind option_bind].
  destruct (_ || _ || _) eqn:Eg; b2p; [by eauto|].
  apply bool_decide_eq_true in H1.
  pose proof (core_tasks _ Hc _ _ Hpt) as Hok.
  destruct (write_frame_ok pt.(saved_frame) (set_result child c.(exit_code)) s Hc)
    as (g & Hg & -> & Hc1); [by apply (ok_frame _ _ _ _ Hok)|]. cbn [mbind option_bind].
  set (s1 := set_frames _ s) in *.
  rewrite (update_task_eq _ _ _ pt) by done. cbn [mbind option_bind].
  set (s2 := set_tasks _ s1).
  assert (Hc2 : sched_core s2).
  { apply (core_update _ _ pt); [done..|].
    assert (Hok1 := task_ok_frames _ _ s1.(frames) _ _ (frames_insert_grow _ _ _) Hok).
    destruct Hok1 as [? ? ? Htm ? ?]. split; try done.
    intros Ht. destruct (Htm Ht) as [?|[? Hwn]]; congruence. }
  destruct (release_and_recycle s2 w child Hc2 Hw Hb) as (s3 & s4 & w' & -> & Hw' & Hup & Hset).
  cbn [mbind option_bind]. rewrite Hup. cbn [mbind option_bind].
  exists s4, w'. split; [done|]. split; [done|].
  destruct Hset as [S1 S2 S3 S4 S5]. split; try done.
  - intros a Ha. apply S3. cbn. by apply frames_insert_grow.
  - intros i t Hi Ht. destruct (decide (i = c.(parent_pid))) as [->|Hne].
    + rewrite Hpt in Ht. injection Ht as <-.
      destruct (S5 c.(parent_pid) _ Hi (updated s1 _ pt _ Hc1 Hpt)) as (t' & Ht' & [->|[Hbl ?]]);
        [eauto|done].
    + apply S5; [done|]. cbn. rewrite aget_insert by (by eapply aget_bound).
      by rewrite decide_False.
Qed.

Lemma settled_running s s' child :
  sched_wf s -> settled s s' child -> child <> s.(current_pid) -> sched_wf s'.
Proof.
  intros Hwf [S1 S2 S3 S4 S5] Hne. destruct S2 as (E1 & E2 & _).
  destruct (wf_running _ Hwf) as (t & Ht & Hr). split; [done| |].
  - destruct (S5 _ t ltac:(by intros E; apply Hne) Ht) as (t' & Ht' & Hcase).
    exists t'. rewrite E1. split; [done|]. destruct Hcase as [->|[? _]]; congruence.
  - rewrite E2, E1. apply (wf_users _ Hwf).
Qed.

Lemma scheduler_reap_ok s w parent child :
  sched_wf s -> w_ok w -> 0 <= child ->
  exists r s' w', scheduler_reap parent child s w = Some (r, s', w') /\
    sched_wf s' /\ w_ok w' /\ same_core s s' /\
    (forall a, is_Some (s.(frames) !! a) -> is_Some (s'.(frames) !! a)) /\
    (r = None -> s' = s).
Proof.
  intros Hwf Hw Hch. unfold scheduler_reap, SCHEDULER_PROCESS_LIMIT.
  pose proof (wf_core _ Hwf) as Hc.
  assert (Hstay : sched_wf s /\ w_ok w /\ same_core s s /\
    (forall a, is_Some (s.(frames) !! a) -> is_Some (s.(frames) !! a)) /\
    (@None Z = None -> s = s)) by done.
  destruct ((child =? 0) || (8 <=? child)) eqn:E; b2p; [by eauto|].
  destruct (task_in s child Hc ltac:(lia)) as [t Ht]. rewrite Ht. cbn [mbind option_bind].
  destruct (_ || _) eqn:Eg; b2p; [by eauto|]. apply bool_decide_eq_true in H2.
  destruct (release_and_recycle s w child Hc Hw ltac:(lia)) as (s1 & s2 & w' & -> & Hw' & Hup & Hs).
  cbn [mbind option_bind]. rewrite Hup. cbn [mbind option_bind].
  eexists _, s2, w'. split; [done|]. split; [|by destruct Hs].
  eapply settled_running; [done..|]. intros ->.
  pose proof (running_user _ _ Hwf Ht). congruence.
Qed.

Lemma scheduler_reap_exited_ok s w parent :
  sched_wf s -> w_ok w ->
  exists c code s' w', scheduler_reap_exited parent s w = Some (c, code, s', w') /\
    sched_wf s' /\ w_ok w' /\ same_core s s'.
Proof.
  intros Hwf Hw. unfold scheduler_reap_exited.
  assert (forall n child, 0 <= child -> child + Z.of_nat n <= 8 ->
    exists c code s' w', reap_exited_from n child parent s w = Some (c, code, s', w') /\
      sched_wf s' /\ w_ok w' /\ same_core s s') as Hgen; [|apply (Hgen 7%nat 1); lia].
  induction n as [|n IH]; intros child Hch Hle; cbn [reap_exited_from];
    [by exists 0, 0, s, w|].
  destruct (task_in s child (wf_core _ Hwf) ltac:(lia)) as [t Ht]. rewrite Ht.
  cbn [mbind option_bind].
  destruct (_ && _); [|by apply IH; lia].
  destruct (scheduler_reap_ok s w parent child Hwf Hw Hch) as (r & s' & w' & Hr & Hwf' & Hw' & Hsm & _).
  assert (Hr2 := Hr). rewrite Hr. cbn [mbind option_bind]. destruct r; [by eexists _, _, s', w'|].
  unfold scheduler_reap in Hr2. destruct (_ || _); [injection Hr2 as <- <-; apply IH; lia|].
  rewrite Ht in Hr2. cbn [mbind option_bind] in Hr2.
  destruct (_ || _); [injection Hr2 as <- <-; apply IH; lia|]. by peel Hr2; destruct v; peel Hr2.
Qed.

(** ** Yielding and the timer *)

(** What a reschedule of the running user task leaves of the other tasks. *)
Record rescheduled (s s' : sched) : Prop := {
  re_wf : sched_wf s';
  re_frames : s'.(frames) = s.(frames);
  re_ticks : s'.(scheduler_ticks) = s.(scheduler_ticks);
  re_init : s'.(initialized) = s.(initialized);
  re_fpu : same_fpu s s';
  re_tasks : forall i t, i <> s.(current_pid) -> s.(tasks).[i] = Some t ->
    exists t', s'.(tasks).[i] = Some t' /\
      (t' = t \/ (t.(state) <> BLOCKED /\ t'.(state) = RUNNING));
}.

Lemma user_running s : sched_wf s -> s.(users_running) = true -> 1 <= s.(current_pid) < 8.
Proof.
  intros Hwf Hu. pose proof (core_cur _ (wf_core _ Hwf)). pose proof (wf_users _ Hwf) as E.
  rewrite Hu in E. symmetry in E. b2p. lia.
Qed.

Lemma handed_rescheduled s p t s' :
  sched_core s -> s.(tasks).[s.(current_pid)] = Some p ->
  handed (set_tasks (<[Z.to_nat s.(current_pid) := t]> s.(tasks)) s) s' -> rescheduled s s'.
Proof.
  intros Hc Ht []. split; try done.
  intros i u Hi Hu. destruct (handed_tasks0 i u) as (u' & Hu' & Hcase); [|naive_solver].
  cbn. rewrite aget_insert by (by eapply aget_bound). by rewrite decide_False.
Qed.

Lemma reschedule_wf s frame :
  sched_wf s -> s.(users_running) = true -> is_Some (s.(frames) !! frame) ->
  exists f s', reschedule frame s = Some (f, s') /\ rescheduled s s' /\
    forall p, ready s p \/ p = s.(current_pid) -> closer s s' p.
Proof.
  intros Hwf Hu Hfr. destruct (wf_running _ Hwf) as (t & Ht & Hr).
  pose proof (user_running _ Hwf Hu) as Hb.
  destruct (reschedule_ok s frame t (wf_core _ Hwf) Hu ltac:(lia) Ht (or_introl Hr) Hfr)
    as (f & s' & Heq & Hh & Hcl).
  exists f, s'. split; [done|]. split.
  - eapply handed_rescheduled; [apply Hwf|done..].
  - intros p Hp. apply Hcl. naive_solver.
Qed.

(** Counting ticks, yields and slices of the current task. *)
Lemma bump_wf s t a b c d :
  sched_wf s -> s.(tasks).[s.(current_pid)] = Some t ->
  sched_wf (set_tasks (<[Z.to_nat s.(current_pid) := with_counters a b c d t]> s.(tasks)) s).
Proof.
  intros Hwf Ht. pose proof (running_user _ _ Hwf Ht) as Hr. split.
  - apply (core_update _ _ t); [apply Hwf|done|]. apply counters_ok.
    by apply (core_tasks _ (wf_core _ Hwf)).
  - eexists. split; [by eapply (updated s _ t), Ht; apply Hwf|]. exact Hr.
  - apply (wf_users _ Hwf).
Qed.

Lemma rescheduled_bump s t u s' :
  sched_core s -> s.(tasks).[s.(current_pid)] = Some t ->
  rescheduled (set_tasks (<[Z.to_nat s.(current_pid) := u]> s.(tasks)) s) s' ->
  rescheduled s s'.
Proof.
  intros Hc Ht []. split; try done. intros i v Hi Hv.
  apply (re_tasks0 i v); [done|]. cbn. rewrite aget_insert by (by eapply aget_bound).
  by rewrite decide_False.
Qed.

Lemma scheduler_on_yield_ok s frame :
  sched_wf s -> is_Some (s.(frames) !! frame) ->
  exists f s', scheduler_on_yield frame s = Some (f, s') /\ sched_wf s' /\ same_fpu s s' /\
    s'.(frames) = s.(frames) /\ s'.(initialized) = s.(initialized).
Proof.
  intros Hwf Hfr. unfold scheduler_on_yield.
  destruct (_ || _ || _) eqn:E; [exists frame, s; by split_and!|]. b2p.
  destruct (wf_running _ Hwf) as (t & Ht & Hr).
  rewrite (update_task_eq _ _ _ t) by done. cbn [mbind option_bind].
  match goal with |- context [with_counters ?a ?b ?c ?d t] =>
    pose proof (bump_wf s t a b c d Hwf Ht) as Hwf1 end.
  destruct (reschedule_wf _ frame Hwf1 ltac:(done) Hfr) as (f & s' & Heq & Hre & _).
  exists f, s'. split; [exact Heq|]. apply (rescheduled_bump s t) in Hre; [|apply Hwf|done].
  by destruct Hre.
Qed.

(** A timed wait that has run out. *)
Definition due (now : Z) (t : task) : bool :=
  bool_decide (t.(state) = BLOCKED) && t.(timed_wait) && (t.(wake_tick) <=? now).

Definition frames_distinct (s : sched) : Prop :=
  forall i j t u, s.(tasks).[i] = Some t -> s.(tasks).[j] = Some u ->
    t.(state) = BLOCKED -> u.(state) = BLOCKED -> t.(saved_frame) = u.(saved_frame) -> i = j.

(** The effect of the timer's scan of pids below [j]. *)
Record expired (s0 s : sched) (j : Z) : Prop := {
  expired_woken : woken s0 s;
  expired_tasks : forall i t, s0.(tasks).[i] = Some t ->
    s.(tasks).[i] = Some (if due s0.(scheduler_ticks) t && (1 <=? i) && (i <? j)
                          then woke t else t);
  expired_frames : frames_distinct s0 -> forall i t g, s0.(tasks).[i] = Some t ->
    1 <= i < j -> due s0.(scheduler_ticks) t = true ->
    s0.(frames) !! t.(saved_frame) = Some g ->
    s.(frames) !! t.(saved_frame) = Some (set_result t.(timeout_result) 0 g);
  expired_others : forall a, (forall i t, 1 <= i < j -> s0.(tasks).[i] = Some t ->
      due s0.(scheduler_ticks) t = true -> t.(saved_frame) <> a) ->
    s.(frames) !! a = s0.(frames) !! a;
}.

Lemma expire_wait_ok s0 s w j :
  sched_core s0 -> 1 <= j < 8 -> expired s0 s j -> w_ok w ->
  exists s' w', expire_wait j (s, w) = Some (s', w') /\ expired s0 s' (j + 1) /\ w_ok w'.
Proof.
  intros Hc0 Hj He Hw. pose proof He as [Hwk Hts Hfr Hot].
  pose proof (woken_preserves _ _ Hc0 Hwk) as Hc.
  destruct (task_in s0 j Hc0 ltac:(lia)) as [t Ht0].
  assert (Ht : s.(tasks).[j] = Some t).
  { rewrite (Hts _ _ Ht0). by rewrite Z.ltb_irrefl, andb_false_r. }
  assert (Eticks : s.(scheduler_ticks) = s0.(scheduler_ticks)) by apply Hwk.
  unfold expire_wait. rewrite Ht. cbn [mbind option_bind]. rewrite Eticks.
  assert (Hdue : (negb (bool_decide (t.(state) = BLOCKED)) || negb t.(timed_wait)
     || (s0.(scheduler_ticks) <? t.(wake_tick))) = negb (due s0.(scheduler_ticks) t)).
  { unfold due. rewrite !negb_andb, Z.leb_antisym, negb_involutive. done. }
  rewrite Hdue. destruct (due s0.(scheduler_ticks) t) eqn:Ed; cbn [negb].
  - assert (Hb : t.(state) = BLOCKED).
    { unfold due in Ed. b2p. by apply bool_decide_eq_true in H. }
    destruct (wake_step s j t (set_result t.(timeout_result) 0) Hc Ht Hb)
      as (g & Hg & Heq & Hwk1).
    rewrite (write_frame_eq _ _ _ g) in * by done. cbn [mbind option_bind] in *.
    rewrite Heq. cbn [mbind option_bind].
    eexists _, _. split; [done|]. split; [|by apply input_cancel_ok, ipc_cancel_ok].
    split.
    + by eapply woken_trans.
    + intros i u Hu. cbn. rewrite aget_insert by (by eapply aget_bound).
      destruct (decide (i = j)) as [->|Hne].
      * rewrite Ht0 in Hu. injection Hu as <-. rewrite Ed.
        by rewrite (proj2 (Z.leb_le 1 j)), (proj2 (Z.ltb_lt j _)) by lia.
      * rewrite (Hts _ _ Hu). replace (i <? j + 1) with (i <? j); [done|].
        destruct (Z.ltb_spec i j), (Z.ltb_spec i (j + 1)); try done; lia.
    + intros Hd i u h Hu Hi Hdu Hh. cbn. destruct (decide (i = j)) as [->|Hne].
      * rewrite Ht0 in Hu. injection Hu as <-. rewrite lookup_insert, decide_True by done.
        rewrite (Hot t.(saved_frame)), Hh in Hg; [congruence|].
        intros k v Hk Hv Hdv Hs. assert (k = j); [|lia]. eapply Hd; try done.
        unfold due in Hdv. b2p. by apply bool_decide_eq_true in H.
      * rewrite lookup_insert, decide_False; [apply (Hfr Hd i); [done|lia|done..]|].
        intros Hs. apply Hne. symmetry. eapply Hd; try done.
        unfold due in Hdu. b2p. by apply bool_decide_eq_true in H.
    + intros a Ha. cbn. rewrite lookup_insert, decide_False.
      * apply Hot. intros i u Hi. apply Ha. lia.
      * apply (Ha j t); [lia|done..].
  - exists s, w. split; [done|]. split; [|done]. split; try done.
    + intros i u Hu. rewrite (Hts _ _ Hu). destruct (decide (i = j)) as [->|Hne].
      * rewrite Ht0 in Hu. injection Hu as <-. by rewrite Ed.
      * replace (i <? j + 1) with (i <? j); [done|].
        destruct (Z.ltb_spec i j), (Z.ltb_spec i (j + 1)); try done; lia.
    + intros Hd i u g Hu Hi Hdu. destruct (decide (i = j)) as [->|Hne]; [congruence|].
      apply (Hfr Hd i); [done|lia|done].
    + intros a Ha. apply Hot. intros i u Hi. apply Ha. lia.
Qed.

Lemma expire_all_ok s w :
  sched_core s -> w_ok w ->
  exists s' w', for_up 7 1 expire_wait (s, w) = Some (s', w') /\ expired s s' 8 /\ w_ok w'.
Proof.
  intros Hc Hw.
  destruct (for_up_inv (fun j sw => expired s sw.1 j /\ w_ok sw.2) 7 1 expire_wait (s, w))
    as ([s' w'] & Heq & He & Hw'); [..|by exists s', w'].
  - split; [|done]. split; [apply woken_refl| |intros; lia|done].
    intros i t Ht. cbn [fst]. rewrite Ht. f_equal. destruct (due _ _); [|done].
    cbn [andb]. destruct (Z.leb_spec 1 i), (Z.ltb_spec i 1); try done; lia.
  - intros j [s1 w1] Hj [He Hw1].
    destruct (expire_wait_ok s s1 w1 j Hc ltac:(lia) He Hw1) as (s2 & w2 & -> & ? & ?).
    by exists (s2, w2).
Qed.

Lemma ticks_core n s : sched_core s -> sched_core (set_ticks n s).
Proof. by intros []; split. Qed.

Lemma woken_wf s s' : sched_wf s -> woken s s' -> sched_wf s'.
Proof.
  intros Hwf Hwk. destruct (wf_running _ Hwf) as (t & Ht & Hr).
  pose proof (woken_core _ _ Hwk) as (E1 & E2 & _). split.
  - eapply woken_preserves; [apply Hwf|done].
  - exists t. rewrite E1. split; [|done]. eapply woken_running; [done..|by rewrite Hr].
  - rewrite E1, E2. apply Hwf.
Qed.

(** The timer's handler: the scan, then the accounting of the current task. *)
Lemma timer_tick_ok s w frame :
  sched_wf s -> w_ok w -> s.(initialized) = true ->
  (s.(users_running) = true -> is_Some (s.(frames) !! frame)) ->
  exists f s1 s' w', scheduler_on_timer_tick frame s w = Some (f, s', w') /\
    expired (set_ticks (u64 (s.(scheduler_ticks) + 1)) s) s1 8 /\ sched_wf s1 /\
    rescheduled s1 s' /\ w_ok w'.
Proof.
  intros Hwf Hw Hi Hfr. unfold scheduler_on_timer_tick. rewrite Hi. cbn [negb].
  set (s0 := set_ticks _ s).
  assert (Hwf0 : sched_wf s0).
  { destruct Hwf as [Hc Hr Hu]. split; [by apply ticks_core|done|done]. }
  destruct (expire_all_ok s0 w (wf_core _ Hwf0) Hw) as (s1 & w1 & -> & He & Hw1).
  cbn [mbind option_bind].
  pose proof (woken_wf _ _ Hwf0 (expired_woken _ _ _ He)) as Hwf1.
  destruct (wf_running _ Hwf1) as (t & Ht & Hr).
  rewrite (update_task_eq _ _ _ t) by done. cbn [mbind option_bind].
  set (t2 := with_counters _ _ _ _ t). set (s2 := set_tasks _ s1).
  assert (Hwf2 : sched_wf s2) by by apply bump_wf.
  assert (Ht2 : s2.(tasks).[s2.(current_pid)] = Some t2) by (eapply (updated s1 _ t); [apply Hwf1|done]).
  assert (Hstay : forall v, sched_wf v -> rescheduled v v) by (intros; split; eauto; done).
  assert (Hre2 : forall s', rescheduled s2 s' -> rescheduled s1 s').
  { intros s'. apply (rescheduled_bump s1 t t2); [apply Hwf1|done]. }
  destruct (negb _ || _) eqn:Eu; [by exists frame, s1, s2, w1; eauto 10|]. b2p.
  rewrite (update_task_eq _ _ _ t2) by done. cbn [mbind option_bind].
  set (t3 := with_counters _ _ _ _ t2). set (s3 := set_tasks _ s2).
  assert (Hwf3 : sched_wf s3) by by apply bump_wf.
  assert (Ht3 : s3.(tasks).[s3.(current_pid)] = Some t3) by (eapply (updated s2 _ t2); [apply Hwf2|done]).
  assert (Hre3 : forall s', rescheduled s3 s' -> rescheduled s2 s').
  { intros s'. apply (rescheduled_bump s2 t2 t3); [apply Hwf2|done]. }
  rewrite Ht3. cbn [mbind option_bind].
  destruct (_ <? _); [by exists frame, s1, s3, w1; eauto 10|].
  rewrite (update_task_eq _ _ _ t3) by done. cbn [mbind option_bind].
  set (t4 := with_counters _ _ _ _ t3). set (s4 := set_tasks _ s3).
  assert (Hwf4 : sched_wf s4) by by apply bump_wf.
  assert (Hu : s.(users_running) = true).
  { destruct (woken_core _ _ (expired_woken _ _ _ He)) as (_ & E2 & _). cbn in E2.
    by rewrite <- E2. }
  destruct (reschedule_wf s4 frame Hwf4) as (f & s' & -> & Hre & _); [done| |].
  { apply (woken_frames _ _ (expired_woken _ _ _ He)). by apply Hfr. }
  cbn [mbind option_bind]. exists f, s1, s', w1. do 2 (split; [done|]). split; [done|].
  split; [|done]. apply Hre2, Hre3. by apply (rescheduled_bump s3 t3 t4); [apply Hwf3|..].
Qed.

(** ** Exit, termination, waiting, creation *)

Lemma scheduler_on_exit_ok s w code :
  sched_wf s -> w_ok w ->
  exists f s' w', scheduler_on_exit code s w = Some (f, s', w') /\ sched_wf s' /\ w_ok w' /\
    same_fpu s s'.
Proof.
  intros Hwf Hw. unfold scheduler_on_exit.
  destruct (_ || _ || _) eqn:E; [by exists 0, s, w|]. b2p.
  pose proof (user_running _ Hwf ltac:(done)) as Hb.
  destruct (wf_running _ Hwf) as (t & Ht & Hr).
  rewrite (update_task_eq _ _ _ t) by done. cbn [mbind option_bind].
  set (s1 := set_tasks _ s). pose proof (wf_core _ Hwf) as Hc.
  assert (Hc1 : sched_core s1).
  { apply (core_update _ _ t); [done..|]. apply exit_ok; [|lia]. by apply (core_tasks _ Hc). }
  destruct (wake_waiting_parent_ok s1 w s1.(current_pid) (with_exit code t) Hc1 Hw)
    as (s2 & w2 & -> & Hw2 & Hset); [done|by eapply (updated s _ t)|done|].
  cbn [mbind option_bind].
  destruct Hset as [Hc2 Hsame _ (t' & Ht' & Hst') _].
  pose proof Hsame as (E1 & E2 & _).
  destruct (hand_over_ok s2 Hc2) as (f & s' & Heq & Hh & _).
  { intros u Hu. rewrite E1, Ht' in Hu. injection Hu as <-. by destruct Hst' as [->| ->]. }
  { rewrite E2. done. } { rewrite E1. cbn. lia. }
  unfold hand_over in Heq.
  destruct (next_ready s2.(current_pid) s2) as [n|]; [|done]. cbn [mbind option_bind] in *.
  rewrite Heq. cbn [mbind option_bind]. eexists _, _, _. split; [done|]. destruct Hh.
  do 2 (split; [done|]). eapply same_fpu_trans; [|done]. by apply same_fpu_refl.
Qed.

Lemma scheduler_terminate_ok s w p code :
  sched_wf s -> w_ok w -> 0 <= p ->
  exists b s' w', scheduler_terminate p code s w = Some (b, s', w') /\ sched_wf s' /\ w_ok w' /\
    same_core s s' /\ (forall a, is_Some (s.(frames) !! a) -> is_Some (s'.(frames) !! a)).
Proof.
  intros Hwf Hw Hp. unfold scheduler_terminate, SCHEDULER_PROCESS_LIMIT.
  pose proof (wf_core _ Hwf) as Hc.
  destruct (_ || _ || _) eqn:E; [by exists false, s, w|]. b2p.
  destruct (task_in s p Hc ltac:(lia)) as [t Ht]. rewrite Ht. cbn [mbind option_bind].
  destruct (_ || _); [by exists false, s, w|].
  rewrite (update_task_eq _ _ _ t) by done. cbn [mbind option_bind].
  set (s1 := set_tasks _ s).
  assert (Hc1 : sched_core s1).
  { apply (core_update _ _ t); [done..|]. apply exit_ok; [|lia]. by apply (core_tasks _ Hc). }
  destruct (wake_waiting_parent_ok s1 w p (with_exit code t) Hc1 Hw)
    as (s2 & w2 & -> & Hw2 & Hset); [lia|by eapply (updated s _ t)|done|].
  cbn [mbind option_bind]. exists true, s2, w2. split; [done|].
  split; [|split; [done|split; [apply (settled_same _ _ _ Hset)|apply (settled_frames _ _ _ Hset)]]]. eapply (settled_running s1 s2 p); [|done|by cbn].
  destruct Hwf as [_ (u & Hu & Hr) Hus]. split; [done| |done].
  exists u. split; [|done]. cbn. rewrite aget_insert by (by eapply aget_bound).
  rewrite decide_False; [done|]. naive_solver.
Qed.

Lemma write_frame_wf s a f :
  sched_wf s -> is_Some (s.(frames) !! a) ->
  exists s', write_frame a f s = Some s' /\ sched_wf s' /\ same_fpu s s'.
Proof.
  intros Hwf Ha. destruct (write_frame_ok a f s (wf_core _ Hwf) Ha) as (g & _ & -> & Hc).
  eexists. split; [done|]. destruct Hwf. split; [by split|]. by apply same_fpu_refl.
Qed.

Lemma scheduler_on_wait_ok s w frame child :
  sched_wf s -> w_ok w -> s.(users_running) = true -> 0 <= child ->
  is_Some (s.(frames) !! frame) ->
  exists f s' w', scheduler_on_wait frame child s w = Some (f, s', w') /\ sched_wf s' /\ w_ok w' /\
    same_fpu s s'.
Proof.
  intros Hwf Hw Hu Hch Hfr. unfold scheduler_on_wait.
  destruct (scheduler_reap_ok s w s.(current_pid) child Hwf Hw Hch)
    as (r & s1 & w1 & -> & Hwf1 & Hw1 & Hsame & Hgrow & Hnone). cbn [mbind option_bind].
  destruct r as [status|].
  { destruct (write_frame_wf s1 frame (set_result child status) Hwf1 (Hgrow _ Hfr))
      as (s2 & -> & Hwf2 & Hfp). cbn [mbind option_bind]. eexists _, s2, w1. split; [done|].
    do 2 (split; [done|]). eapply same_fpu_trans; [by apply same_fpu_refl|done]. }
  rewrite (Hnone eq_refl) in *. unfold SCHEDULER_PROCESS_LIMIT.
  assert (Herr : exists f s' w', (s2 ← write_frame frame (set_rax U64_MAX) s;
      Some (frame, s2, w1)) = Some (f, s', w') /\ sched_wf s' /\ w_ok w' /\ same_fpu s s').
  { destruct (write_frame_wf s frame (set_rax U64_MAX) Hwf1 Hfr) as (s2 & -> & Hwf2 & ?).
    cbn [mbind option_bind]. by eexists _, s2, w1. }
  destruct (8 <=? child) eqn:E; [done|]. b2p.
  destruct (task_in s child (wf_core _ Hwf) ltac:(lia)) as [c Hc]. rewrite Hc.
  cbn [mbind option_bind]. destruct (_ || _); [done|].
  destruct (wf_running _ Hwf) as (t & Ht & Hr).
  pose proof (core_tasks _ (wf_core _ Hwf) _ _ Ht) as Hok.
  rewrite (update_task_eq _ _ _ t) by done. cbn [mbind option_bind].
  set (t' := with_waiting _ _).
  destruct (block_then_reschedule s t t' frame Hwf Hu Ht) as (f & s2 & Heq & Hh & _); try done.
  { intros Htm. destruct (ok_timed _ _ _ _ Hok Htm) as [?|[? _]]; congruence. }
  rewrite Heq. cbn [mbind option_bind]. eexists _, s2, w1. split; [done|].
  by destruct Hh.
Qed.

Lemma scheduler_block_current_ok s frame :
  sched_wf s -> is_Some (s.(frames) !! frame) ->
  exists f s', scheduler_block_current frame s = Some (f, s') /\ sched_wf s' /\ same_fpu s s' /\
    s'.(frames) = s.(frames).
Proof.
  intros Hwf Hfr. unfold scheduler_block_current.
  destruct (_ || _ || _) eqn:E; [exists frame, s; by split_and!|]. b2p.
  destruct (wf_running _ Hwf) as (t & Ht & Hr).
  pose proof (core_tasks _ (wf_core _ Hwf) _ _ Ht) as Hok.
  rewrite (update_task_eq _ _ _ t) by done. cbn [mbind option_bind].
  set (t' := with_waiting _ _).
  destruct (block_then_reschedule s t t' frame Hwf ltac:(done) Ht) as (f & s2 & Heq & Hh & _);
    try done.
  exists f, s2. split; [done|]. by destruct Hh.
Qed.

Lemma scheduler_block_current_timeout_ok s frame delay result :
  sched_wf s -> is_Some (s.(frames) !! frame) ->
  exists f s', scheduler_block_current_timeout frame delay result s = Some (f, s') /\
    sched_wf s' /\ same_fpu s s' /\ s'.(frames) = s.(frames).
Proof.
  intros Hwf Hfr. unfold scheduler_block_current_timeout.
  destruct (_ || _ || _ || _) eqn:E; [by apply scheduler_block_current_ok|]. b2p.
  destruct (wf_running _ Hwf) as (t & Ht & Hr).
  rewrite (update_task_eq _ _ _ t) by done. cbn [mbind option_bind].
  set (t' := with_waiting _ _).
  destruct (block_then_reschedule s t t' frame Hwf ltac:(done) Ht) as (f & s2 & Heq & Hh & _);
    try done.
  exists f, s2. split; [done|]. by destruct Hh.
Qed.

(** A C string that can be read up to its terminator, or a buffer long enough
    for the fifteen characters the scheduler keeps. *)
Definition readable_name (nm : list Z) : Prop := 0 ∈ nm \/ (15 <= length nm)%nat.

Lemma copy_name_ok nm : readable_name nm ->
  exists out, copy_name 15 0 (replicate 16 0) nm = Some out /\ length out = 16%nat.
Proof.
  intros Hnm.
  assert (forall n i output, Z.of_nat n + i = 15 -> 0 <= i -> length output = 16%nat ->
    0 ∈ drop (Z.to_nat i) nm \/ (15 <= length nm)%nat ->
    exists out, copy_name n i output nm = Some out /\ length out = 16%nat) as Hgen;
    [|by apply Hgen].
  induction n as [|n IH]; intros i output Hni Hi Hl Hread; cbn [copy_name].
  { rewrite aset_in by lia. eexists. split; [done|]. by rewrite length_insert. }
  destruct (aget_in nm i) as [c Hc].
  { split; [lia|]. destruct Hread as [H|]; [|lia].
    apply list_elem_of_lookup in H as [k Hk]. apply lookup_lt_Some in Hk.
    rewrite length_drop in Hk. lia. }
  rewrite Hc. cbn [mbind option_bind]. rewrite !aset_in by lia. cbn [mbind option_bind].
  destruct (Z.eqb_spec c 0); [eexists; split; [done|]; by rewrite length_insert|].
  apply IH; [lia..|by rewrite length_insert|]. destruct Hread as [H|]; [left|by right].
  apply aget_Some in Hc as [_ Hc]. rewrite (drop_S nm c _ Hc) in H.
  apply elem_of_cons in H as [<-|H]; [done|]. by replace (Z.to_nat (i + 1)) with (S (Z.to_nat i)) by lia.
Qed.

Lemma scheduler_create_user_ok s parent nm entry stack space :
  sched_wf s -> 0 <= parent -> readable_name nm ->
  exists p s', scheduler_create_user parent nm entry stack space s = Some (p, s') /\ sched_wf s' /\
    0 <= p < 8 /\ (forall q, 0 <= q < 8 -> q <> p -> fpu_of s' q = fpu_of s q) /\
    (p = 0 /\ s' = s \/ p <> 0 /\ fpu_of s' p = Some s.(fpu_template)).
Proof.
  intros Hwf Hpar Hnm. unfold scheduler_create_user.
  assert (Hno : exists p s', Some (0, s) = Some (p, s') /\ sched_wf s' /\ 0 <= p < 8 /\
    (forall q, 0 <= q < 8 -> q <> p -> fpu_of s' q = fpu_of s q) /\
    (p = 0 /\ s' = s \/ p <> 0 /\ fpu_of s' p = Some s.(fpu_template)))
    by (exists 0, s; split_and!; try done; try lia; by left).
  destruct (_ || _) eqn:E; [done|]. clear E.
  destruct (list_find _ _) as [[i t]|] eqn:Ef; [|done].
  apply list_find_Some in Ef as (Hi & Hst & _). rewrite lookup_drop in Hi.
  destruct (copy_name_ok nm Hnm) as (out & -> & _). cbn [mbind option_bind].
  set (p := 1 + Z.of_nat i).
  assert (Ht : s.(tasks).[p] = Some t).
  { apply aget_Some. split; [lia|]. by replace (Z.to_nat p) with (1 + i)%nat by lia. }
  pose proof (wf_core _ Hwf) as Hc. pose proof (task_bound _ _ _ Hc Ht) as Hb.
  assert (Hne : p <> s.(current_pid)).
  { intros E. rewrite E in Ht. pose proof (running_user _ _ Hwf Ht). congruence. }
  rewrite (update_task_eq p _ s t) by done. cbn [mbind option_bind].
  set (t1 := Task p _ _ _ _ _ _ _ _ _ _ _ _ _ _ _).
  set (s1 := set_tasks _ s). assert (Ht1 : s1.(tasks).[p] = Some t1) by by eapply (updated s p t).
  assert (Hok1 : forall fr, task_ok s.(current_pid) fr p t1) by (intros; split; done || lia).
  assert (Hc1 : sched_core s1) by by apply (core_update _ _ t).
  unfold prepare_frame. set (top := s1.(kernel_stacks) + _). set (fr := Frame _ _ _ _ _ _ _ _ _ _ _ _ _ _ _ _ _ _ _ _).
  set (s2 := set_frames _ s1).
  assert (Hc2 : sched_core s2) by (apply core_frames_grow; [done|]; intros; by apply frames_insert_grow).
  rewrite (update_task_eq p _ s2 t1) by done. cbn [mbind option_bind].
  set (t3 := Task _ _ _ _ _ _ _ _ _ _ _ _ _ _ _ _). set (s3 := set_tasks _ s2).
  assert (Hok3 : forall fr, task_ok s.(current_pid) fr p t3) by (intros; split; done || lia).
  assert (Hc3 : sched_core s3) by by apply (core_update _ _ t1).
  assert (Ht3 : s3.(tasks).[p] = Some t3) by by eapply (updated s2 p t1).
  rewrite (update_task_eq p _ s3 t3) by done. cbn [mbind option_bind].
  set (s4 := set_tasks _ s3).
  assert (Hc4 : sched_core s4).
  { apply (core_update _ _ t3); [done..|]. split; done || lia. }
  assert (Hset := aset_in s4.(fpu_state) p s4.(fpu_template) ltac:(rewrite (core_fpu _ Hc4); lia)).
  rewrite Hset. cbn [mbind option_bind].
  eexists p, _. split; [done|]. split; [|split; [done|]].
  - destruct Hwf as [_ (u & Hu & Hr) Hus]. split; [|exists u; split; [|done]|done].
    + destruct Hc4. split; cbn; try done. by rewrite length_insert.
    + cbn. rewrite !aget_insert by (rewrite ?length_insert, ?(core_len _ Hc); lia).
      by rewrite !decide_False by done.
  - split; [intros q Hq Hqp|right; split; [lia|]]; unfold fpu_of; cbn [current_pid fpu fpu_state set_fpu].
    + change s4.(current_pid) with s.(current_pid). case_decide; [done|].
      by rewrite (aget_aset_ne _ _ _ _ _ Hset) by done.
    + change s4.(current_pid) with s.(current_pid). rewrite decide_False by done.
      by apply (aget_aset_eq _ _ _ _ Hset).
Qed.

Lemma scheduler_start_users_ok s :
  sched_wf s ->
  exists f s', scheduler_start_users s = Some (f, s') /\ sched_wf s' /\ same_fpu s s'.
Proof.
  intros Hwf. unfold scheduler_start_users.
  destruct (_ || _) eqn:E; [by exists 0, s|]. b2p.
  pose proof (wf_core _ Hwf) as Hc.
  assert (Hcur : s.(current_pid) = 0).
  { pose proof (wf_users _ Hwf) as Eu. rewrite H0 in Eu. symmetry in Eu. by b2p. }
  destruct (next_ready_ok s 0 Hc ltac:(lia)) as (n & -> & Hn). cbn [mbind option_bind].
  destruct (Z.eqb_spec n 0) as [->|Hnz]; [by exists 0, s|].
  destruct Hn as [[? _]|[(Hb & t & Ht & Hst) _]]; [done|].
  destruct (task_in s 0 Hc ltac:(lia)) as [t0 Ht0].
  rewrite (update_task_eq 0 _ s t0) by done. cbn [mbind option_bind].
  set (s1 := set_users _ _).
  assert (Hok0 := core_tasks _ Hc _ _ Ht0).
  assert (Hr0 : t0.(state) = RUNNING) by (eapply running_user; [done|by rewrite Hcur]).
  assert (Hc1 : sched_core s1).
  { destruct (core_update s 0 t0 (with_state READY t0)) as [? ? ? ?]; [done..| |by split].
    destruct Hok0 as [? ? ? Htm ? ?]. split; try done; [|by right].
    intros Ht1. destruct (Htm Ht1) as [?|[? _]]; congruence. }
  assert (Hlen : 0 <= 0 < Z.of_nat (length s.(tasks))) by (rewrite (core_len _ Hc); lia).
  destruct (dispatch_ok s1 n t) as (s' & -> & Hh & _); try done.
  { cbn. rewrite (aget_insert s.(tasks) 0) by done. by rewrite decide_False by lia. }
  { intros u. cbn. rewrite Hcur, (aget_insert s.(tasks) 0) by done. rewrite decide_True by done.
    by intros [= <-]. }
  eexists _, s'. split; [done|]. by destruct Hh.
Qed.

(** ** Events *)

(** Everything that makes the kernel enter the scheduler. *)
Inductive event :=
| EvTick (frame : Z)
| EvYield (frame : Z)
| EvExit (code : Z)
| EvWait (frame child : Z)
| EvBlock (frame : Z)
| EvBlockTimeout (frame delay result : Z)
| EvWake (p result detail : Z)
| EvTerminate (p code : Z)
| EvReap (parent child : Z)
| EvReapExited (parent : Z)
| EvCreate (parent : Z) (nm : list Z) (entry stack space : Z)
| EvStart.

Definition handle (e : event) (s : sched) (w : W) : option (sched * W) :=
  match e with
  | EvTick f => '(_, s, w) ← scheduler_on_timer_tick f s w; Some (s, w)
  | EvYield f => '(_, s) ← scheduler_on_yield f s; Some (s, w)
  | EvExit code => '(_, s, w) ← scheduler_on_exit code s w; Some (s, w)
  | EvWait f child => '(_, s, w) ← scheduler_on_wait f child s w; Some (s, w)
  | EvBlock f => '(_, s) ← scheduler_block_current f s; Some (s, w)
  | EvBlockTimeout f d r => '(_, s) ← scheduler_block_current_timeout f d r s; Some (s, w)
  | EvWake p r d => '(_, s) ← scheduler_wake p r d s; Some (s, w)
  | EvTerminate p code => '(_, s, w) ← scheduler_terminate p code s w; Some (s, w)
  | EvReap parent child => '(_, s, w) ← scheduler_reap parent child s w; Some (s, w)
  | EvReapExited parent => '(_, _, s, w) ← scheduler_reap_exited parent s w; Some (s, w)
  | EvCreate parent nm en st sp => '(_, s) ← scheduler_create_user parent nm en st sp s; Some (s, w)
  | EvStart => '(_, s) ← scheduler_start_users s; Some (s, w)
  end.

(** What the hardware and the C types guarantee of an event: the interrupted
    code's frame is on its stack, pids are unsigned, a wait comes from user
    code, and a name is a string. *)
Definition event_ok (s : sched) (e : event) : Prop :=
  match e with
  | EvTick f => s.(users_running) = true -> is_Some (s.(frames) !! f)
  | EvYield f | EvBlock f | EvBlockTimeout f _ _ => is_Some (s.(frames) !! f)
  | EvExit _ | EvReapExited _ | EvStart => True
  | EvWait f child => s.(users_running) = true /\ 0 <= child /\ is_Some (s.(frames) !! f)
  | EvWake p _ _ | EvTerminate p _ => 0 <= p
  | EvReap _ child => 0 <= child
  | EvCreate parent nm _ _ _ => 0 <= parent /\ readable_name nm
  end.

(** One event: the handler returns, the invariant holds again, and no task's FPU
    image moved, except that a created task starts from the template. *)
Definition event_done (e : event) (s s' : sched) (w' : W) : Prop :=
  sched_wf s' /\ w_ok w' /\
  match e with
  | EvCreate parent nm en st sp => exists p,
      scheduler_create_user parent nm en st sp s = Some (p, s') /\ 0 <= p < 8 /\
      (forall q, 0 <= q < 8 -> q <> p -> fpu_of s' q = fpu_of s q) /\
      (p = 0 /\ s' = s \/ p <> 0 /\ fpu_of s' p = Some s.(fpu_template))
  | _ => same_fpu s s'
  end.

Lemma timer_event s w f :
  sched_wf s -> w_ok w -> event_ok s (EvTick f) ->
  exists s' w', handle (EvTick f) s w = Some (s', w') /\ event_done (EvTick f) s s' w'.
Proof.
  intros Hwf Hw Hok. cbn. destruct (s.(initialized)) eqn:Ei.
  - destruct (timer_tick_ok s w f Hwf Hw Ei Hok) as (g & s1 & s' & w' & -> & He & Hwf1 & Hre & Hw').
    cbn [mbind option_bind]. exists s', w'. split; [done|]. split; [apply Hre|]. split; [done|].
    eapply same_fpu_trans; [|apply Hre].
    intros q Hq. apply (same_fpu_refl _ _ (woken_core _ _ (expired_woken _ _ _ He)) q Hq).
  - unfold scheduler_on_timer_tick. rewrite Ei. cbn. by exists s, w.
Qed.

Lemma handle_ok e s w :
  sched_wf s -> w_ok w -> event_ok s e ->
  exists s' w', handle e s w = Some (s', w') /\ event_done e s s' w'.
Proof.
  intros Hwf Hw Hok. destruct e; [by apply timer_event|..]; cbn [handle event_ok] in *.
  - destruct (scheduler_on_yield_ok s frame Hwf Hok) as (? & s' & -> & ? & ? & _).
    cbn. by exists s', w.
  - destruct (scheduler_on_exit_ok s w code Hwf Hw) as (? & s' & w' & -> & ? & ? & ?).
    cbn. by exists s', w'.
  - destruct Hok as (Hu & Hch & Hfr).
    destruct (scheduler_on_wait_ok s w frame child Hwf Hw Hu Hch Hfr) as (? & s' & w' & -> & ? & ? & ?).
    cbn. by exists s', w'.
  - destruct (scheduler_block_current_ok s frame Hwf Hok) as (? & s' & -> & ? & ? & _).
    cbn. by exists s', w.
  - destruct (scheduler_block_current_timeout_ok s frame delay result Hwf Hok)
      as (? & s' & -> & ? & ? & _). cbn. by exists s', w.
  - destruct (scheduler_wake_woken s p result detail (wf_core _ Hwf) Hok) as (b & s' & -> & Hwk).
    cbn. exists s', w. split; [done|]. split; [by eapply woken_wf|]. split; [done|].
    apply same_fpu_refl, Hwk.
  - destruct (scheduler_terminate_ok s w p code Hwf Hw Hok) as (b & s' & w' & -> & ? & ? & ? & _).
    cbn. exists s', w'. split; [done|]. split; [done|]. split; [done|]. by apply same_fpu_refl.
  - destruct (scheduler_reap_ok s w parent child Hwf Hw Hok) as (b & s' & w' & -> & ? & ? & ? & _).
    cbn. exists s', w'. split; [done|]. split; [done|]. split; [done|]. by apply same_fpu_refl.
  - destruct (scheduler_reap_exited_ok s w parent Hwf Hw) as (c & code & s' & w' & -> & ? & ? & ?).
    cbn. exists s', w'. split; [done|]. split; [done|]. split; [done|]. by apply same_fpu_refl.
  - destruct Hok as [Hp Hn].
    destruct (scheduler_create_user_ok s parent nm entry stack space Hwf Hp Hn)
      as (p & s' & Heq & ? & ? & ?). rewrite Heq. cbn [mbind option_bind]. exists s', w.
    split; [done|]. split; [done|]. split; [done|]. by exists p.
  - destruct (scheduler_start_users_ok s Hwf) as (? & s' & -> & ? & ?). cbn. by exists s', w.
Qed.

(** The states the kernel can reach. *)
Inductive reachable : sched -> W -> Prop :=
| reach_init space s0 s w :
    scheduler_init space s0 = Some s -> w_ok w -> reachable s w
| reach_event e s w s' w' :
    reachable s w -> event_ok s e -> handle e s w = Some (s', w') -> reachable s' w'.

Lemma scheduler_init_wf space s0 :
  exists s, scheduler_init space s0 = Some s /\ sched_wf s.
Proof.
  unfold scheduler_init. set (nm := copy_name _ _ _ _). vm_compute in nm. subst nm.
  cbn [mbind option_bind]. eexists. split; [done|]. split; [|by eexists|done].
  split; [done|done|cbn; lia|]. intros i t Hi. pose proof (aget_bound _ _ _ Hi) as Hb.
  cbn [length tasks map pid_list] in Hb.
  assert (i = 0 \/ i = 1 \/ i = 2 \/ i = 3 \/ i = 4 \/ i = 5 \/ i = 6 \/ i = 7) as Hcase by lia.
  repeat destruct Hcase as [->|Hcase]; try subst i; cbn in Hi; injection Hi as <-;
    split; cbn; try done; auto; lia.
Qed.

Lemma reachable_wf s w : reachable s w -> sched_wf s /\ w_ok w.
Proof.
  induction 1 as [space s0 s w Hi Hw|e s w s' w' Hr [IHs IHw] Hok Hh].
  - destruct (scheduler_init_wf space s0) as (s1 & Hi1 & Hwf). split; [congruence|done].
  - destruct (handle_ok e s w IHs IHw Hok) as (s1 & w1 & Hh1 & Hwf & Hw1 & _).
    rewrite Hh in Hh1. by injection Hh1 as -> ->.
Qed.

(** C4. The scheduler's invariant: in every state reached from [scheduler_init]
    by timer ticks, system calls and wake-ups, exactly one task is RUNNING and it
    is the current one, the idle task never blocks, every blocked task has a
    frame to receive its result and timers are armed only for tasks blocked on
    something other than a child; and from there no event faults. *)
Theorem scheduler_safety s w :
  reachable s w ->
  sched_wf s /\ w_ok w /\ forall e, event_ok s e -> is_Some (handle e s w).
Proof.
  intros Hr. destruct (reachable_wf s w Hr) as [Hwf Hw].
  split; [done|]. split; [done|]. intros e Hok.
  destruct (handle_ok e s w Hwf Hw Hok) as (s1 & w1 & -> & _). done.
Qed.

(** C14. FPU isolation: whatever event the scheduler handles, the FPU image of
    every task (its registers while it runs, its save area otherwise) is the one
    it had, so no task ever computes with another's registers; a created task
    starts from the clean template even in a recycled slot, and its creation
    moves no other task's image. *)
Theorem fpu_isolation e s w s' w' :
  sched_wf s -> w_ok w -> event_ok s e -> handle e s w = Some (s', w') ->
  match e with
  | EvCreate parent nm en st sp => exists p,
      scheduler_create_user parent nm en st sp s = Some (p, s') /\
      forall q, 0 <= q < 8 ->
        fpu_of s' q = if decide (q = p /\ p <> 0) then Some s.(fpu_template) else fpu_of s q
  | _ => forall q, 0 <= q < 8 -> fpu_of s' q = fpu_of s q
  end.
Proof.
  intros Hwf Hw Hok Hh. destruct (handle_ok e s w Hwf Hw Hok) as (s1 & w1 & Hh1 & _ & _ & Hd).
  rewrite Hh in Hh1. injection Hh1 as <- <-.
  destruct e; auto. destruct Hd as (p & Heq & Hp & Hoth & Hnew). exists p. split; [done|].
  intros q Hq. destruct Hnew as [[-> ->]|[Hnz Hnew]]; case_decide as E.
  - by destruct E.
  - done.
  - by destruct E as [-> _].
  - apply Hoth; [done|]. intros ->. by apply E.
Qed.

(** The timer ends exactly the timed waits that have run out: such a task is
    runnable after the tick and finds its timeout result in its saved frame;
    every other blocked task, timed or not, stays blocked with its slot and its
    frame untouched. *)
Theorem timer_expiry s w frame :
  sched_wf s -> w_ok w -> s.(initialized) = true -> frames_distinct s ->
  event_ok s (EvTick frame) ->
  exists f s' w', scheduler_on_timer_tick frame s w = Some (f, s', w') /\
    forall p t g, 1 <= p -> s.(tasks).[p] = Some t -> t.(state) = BLOCKED ->
      s.(frames) !! t.(saved_frame) = Some g ->
      if t.(timed_wait) && (t.(wake_tick) <=? u64 (s.(scheduler_ticks) + 1))
      then (exists t', s'.(tasks).[p] = Some t' /\ (t'.(state) = READY \/ t'.(state) = RUNNING)) /\
           s'.(frames) !! t.(saved_frame) = Some (set_result t.(timeout_result) 0 g)
      else s'.(tasks).[p] = Some t /\ s'.(frames) !! t.(saved_frame) = Some g.
Proof.
  intros Hwf Hw Hi Hd Hok.
  destruct (timer_tick_ok s w frame Hwf Hw Hi Hok) as (f & s1 & s' & w' & Heq & He & Hwf1 & Hre & _).
  exists f, s', w'. split; [done|]. intros p t g Hp Ht Hb Hg.
  pose proof (task_bound _ _ _ (wf_core _ Hwf) Ht) as Hpb.
  destruct He as [Hwk Hts Hfr Hot]. cbn [tasks frames scheduler_ticks set_ticks] in *.
  assert (Hne : p <> s1.(current_pid)).
  { destruct (woken_core _ _ Hwk) as (-> & _). cbn. intros E. rewrite E in Ht.
    pose proof (running_user _ _ Hwf Ht). congruence. }
  assert (Ed : t.(timed_wait) && (t.(wake_tick) <=? u64 (s.(scheduler_ticks) + 1)) =
               due (u64 (s.(scheduler_ticks) + 1)) t)
    by (unfold due; by rewrite bool_decide_true).
  rewrite Ed. pose proof (Hts p t Ht) as Ht1.
  rewrite (proj2 (Z.leb_le 1 p)), (proj2 (Z.ltb_lt p 8)), !andb_true_r in Ht1 by lia.
  destruct Hre as [_ Efr _ _ _ Hret]. destruct (Hret p _ Hne Ht1) as (t' & Ht' & Hcase).
  rewrite Efr. destruct (due _ t) eqn:Edue.
  - split; [|by apply (Hfr Hd p t g Ht); [lia|..]]. exists t'. split; [done|].
    destruct Hcase as [->|[_ ?]]; [by left|by right].
  - split; [by destruct Hcase as [->|[? _]]|]. rewrite Hot; [done|].
    intros i u Hiu Hu Hdu Hs. assert (i = p); [|congruence].
    eapply Hd; try done. unfold due in Hdu. b2p. by apply bool_decide_eq_true in H.
Qed.

End services.

(** ** Fairness *)

(** The slice the current task has used. *)
Definition slice_used (s : sched) : Z := match s.(tasks).[s.(current_pid)] with Some t => t.(slice_ticks) | None => 0 end.
(** The ticks after which the turn of a task that has used [n] is over: a task that ran
    alone past its quantum is at its last tick, unless the counter wraps. *)
Definition budget (n : Z) : Z :=
  if n <? INIT_QUANTUM_TICKS then INIT_QUANTUM_TICKS - n else if u64 (n + 1) =? 0 then INIT_QUANTUM_TICKS + 1 else 1.
Definition turns_left (s : sched) (p : Z) : Z := distance s.(current_pid) p * INIT_QUANTUM_TICKS + budget (slice_used s).

Lemma budget_range n : is_u64 n -> 1 <= budget n <= 5.
Proof. intros H. unfold budget, INIT_QUANTUM_TICKS, is_u64 in *. repeat case_match; b2p; lia. Qed.

(** A task that is dispatched in another's place starts a new slice. *)
Lemma reschedule_slice frame s f s' : reschedule frame s = Some (f, s') -> s'.(current_pid) <> s.(current_pid) ->
  s'.(current_pid) <> 0 -> slice_used s' = 0.
Proof.
  unfold reschedule, dispatch, return_idle. intros H Hne Hnz.
  peel H. destruct (v0 =? 0).
  - peel H. destruct (decide _); peel H; injection H as _ <-; [|done]. exfalso. apply Hne.
    unfold update_task in Hv, Hv2. peel Hv. peel Hv2. injection Hv as <-. by injection Hv2 as <-.
  - peel H. injection H as _ <-. unfold slice_used. cbn [current_pid tasks set_running].
    unfold update_task in Hv2. peel Hv2. injection Hv2 as <-. cbn [tasks set_tasks].
    match goal with H : aset _ _ _ = Some _ |- _ => by rewrite (aget_aset_eq _ _ _ _ H) end.
Qed.

(** A task other than the one that runs stays ready when the accounting of the running
    task changes. *)
Lemma ready_bump s t t' p : ready s p -> s.(tasks).[s.(current_pid)] = Some t -> t.(state) <> READY ->
  ready (set_tasks (<[Z.to_nat s.(current_pid) := t']> s.(tasks)) s) p.
Proof.
  intros (Hb & u & Hu & Hr) Ht Hn. split; [done|]. exists u. split; [|done]. cbn. rewrite aget_insert by (by eapply aget_bound).
  rewrite decide_False; [done|]. intros ->. congruence.
Qed.
Lemma ready_woken s s' p : woken s s' -> ready s p -> ready s' p.
Proof. intros Hw (Hb & u & Hu & Hr). split; [done|]. exists u. split; [|done]. eapply woken_running; [done..|congruence]. Qed.

(** The end of a turn: the running task gives way to one nearer to [p]. *)
Lemma turn_ends s s1 p frame :
  sched_wf s1 -> s1.(users_running) = true -> s1.(current_pid) = s.(current_pid) -> is_Some (s1.(frames) !! frame) -> ready s1 p ->
  exists g s', reschedule frame s1 = Some (g, s') /\ rescheduled s1 s' /\
    (s'.(current_pid) = p \/ (ready s' p /\ s'.(users_running) = true /\ slice_used s' = 0 /\
       distance s'.(current_pid) p < distance s.(current_pid) p)).
Proof.
  intros Hwf Hu Hcur Hf Hp. destruct (reschedule_wf s1 frame Hwf Hu Hf) as (g & s' & Heq & Hre & Hcl).
  exists g, s'. split; [done|]. split; [done|]. destruct (Hcl p (or_introl Hp)) as [Hc|(Hp1 & Hnz & Hlt)]; [by left|right].
  rewrite Hcur in Hlt. split; [done|]. split; [|split; [|done]].
  - rewrite (wf_users _ (re_wf _ _ Hre)). by rewrite (proj2 (Z.eqb_neq _ _)).
  - apply (reschedule_slice _ _ _ _ Heq); [|done]. intros E. rewrite E, Hcur in Hlt. lia.
Qed.

Section fairness.
Context {W : Type} `{HS : !TaskServices W} {w_ok : W -> Prop} `{!TaskServicesOk W w_ok}.

(** What the running task can do to the schedule while it neither sleeps nor exits: it
    yields, or the timer ticks. *)
Inductive turn :=
  | Yield (frame : Z)
  | Tick (frame : Z).
Definition turn_frame (e : turn) : Z := match e with Yield f | Tick f => f end.
Definition yields_only (e : turn) : Prop := match e with Yield _ => True | Tick _ => False end.
Definition take_turn (e : turn) (s : sched) (w : W) : option (sched * W) :=
  match e with
  | Yield f => '(_, s) ← scheduler_on_yield f s; Some (s, w)
  | Tick f => '(_, s, w) ← scheduler_on_timer_tick f s w; Some (s, w)
  end.
(** The pids that run after each of a series of turns. *)
Fixpoint turns (es : list turn) (s : sched) (w : W) : option (list Z * sched * W) :=
  match es with
  | [] => Some ([], s, w)
  | e :: es => '(s, w) ← take_turn e s w; '(ps, s', w') ← turns es s w; Some (s.(current_pid) :: ps, s', w')
  end.

Definition framed (es : list turn) (s : sched) : Prop := Forall (fun e => is_Some (s.(frames) !! turn_frame e)) es.
Lemma framed_mono es s s' : (forall a, is_Some (s.(frames) !! a) -> is_Some (s'.(frames) !! a)) -> framed es s -> framed es s'.
Proof. intros H Hf. unfold framed in *. rewrite list.Forall_forall in *. auto. Qed.

(** Every turn returns. *)
Record turned (s s' : sched) (w' : W) : Prop := {
  td_wf : sched_wf s';
  td_services : w_ok w';
  td_init : s'.(initialized) = true;
  td_frames : forall a, is_Some (s.(frames) !! a) -> is_Some (s'.(frames) !! a)
}.

Lemma rescheduled_turned s s1 s' w' : s1.(initialized) = true -> (forall a, is_Some (s.(frames) !! a) -> is_Some (s1.(frames) !! a)) ->
  rescheduled s1 s' -> w_ok w' -> turned s s' w'.
Proof. intros Hi Hf [R1 R2 R3 R4 _ _] Hw. split; [done|done|congruence|]. intros a Ha. rewrite R2. auto. Qed.

Lemma take_turn_total e s w :
  sched_wf s -> w_ok w -> s.(initialized) = true -> is_Some (s.(frames) !! turn_frame e) ->
  exists s' w', take_turn e s w = Some (s', w') /\ turned s s' w'.
Proof.
  intros Hwf Hw Hi Hf. destruct e as [f|f]; cbn [take_turn turn_frame] in *.
  - destruct (scheduler_on_yield_ok s f Hwf Hf) as (g & s' & -> & Hwf' & _ & Efr & Ei). cbn [mbind option_bind].
    exists s', w. split; [done|]. split; [done|done|congruence|by intros a; rewrite Efr].
  - destruct (timer_tick_ok s w f Hwf Hw Hi ltac:(done)) as (g & s1 & s' & w' & -> & He & Hwf1 & Hre & Hw').
    cbn [mbind option_bind]. exists s', w'. split; [done|]. pose proof (expired_woken _ _ _ He) as Hwk.
    apply (rescheduled_turned s s1); [|apply (woken_frames _ _ Hwk)|done|done].
    destruct (woken_core _ _ Hwk) as (_ & _ & Hin & _). rewrite Hin. done.
Qed.

Lemma turns_total es : forall s w, sched_wf s -> w_ok w -> s.(initialized) = true -> framed es s -> is_Some (turns es s w).
Proof.
  induction es as [|e es IH]; intros s w Hwf Hw Hi Hf; [done|]. inversion_clear Hf as [|? ? Hfe Hfs]. cbn [turns].
  destruct (take_turn_total e s w Hwf Hw Hi Hfe) as (s1 & w1 & -> & [H1 H2 H3 H4]). cbn [mbind option_bind].
  destruct (IH s1 w1 H1 H2 H3 (framed_mono _ _ _ H4 Hfs)) as [[[ps s2] w2] ->]. done.
Qed.

(** A turn brings [p] nearer: the turn of another ends, or its slice shortens. *)
Definition nearer (e : turn) (s s' : sched) (p : Z) : Prop :=
  s'.(current_pid) = p \/
  (ready s' p /\ s'.(users_running) = true /\ is_u64 (slice_used s') /\ turns_left s' p < turns_left s p /\
   (yields_only e -> distance s'.(current_pid) p < distance s.(current_pid) p)).

Lemma ended_nearer e s s' p : is_u64 (slice_used s) ->
  (s'.(current_pid) = p \/ (ready s' p /\ s'.(users_running) = true /\ slice_used s' = 0 /\ distance s'.(current_pid) p < distance s.(current_pid) p)) ->
  nearer e s s' p.
Proof.
  intros Hs [Hc|(H1 & H2 & H3 & H4)]; [by left|right]. pose proof (budget_range _ Hs) as Hb.
  split; [done|]. split; [done|]. rewrite H3. split; [unfold is_u64; lia|]. split; [|done].
  unfold turns_left. rewrite H3. change (budget 0) with 4. unfold INIT_QUANTUM_TICKS. lia.
Qed.

Lemma yield_nearer s w f p :
  sched_wf s -> w_ok w -> s.(initialized) = true -> s.(users_running) = true -> is_Some (s.(frames) !! f) ->
  is_u64 (slice_used s) -> ready s p ->
  exists s' w', take_turn (Yield f) s w = Some (s', w') /\ nearer (Yield f) s s' p.
Proof.
  intros Hwf Hw Hi Hu Hf Hs Hp. pose proof (user_running _ Hwf Hu) as Hb. cbn [take_turn].
  unfold scheduler_on_yield. rewrite Hi, Hu, (proj2 (Z.eqb_neq s.(current_pid) 0)) by lia. cbn [negb orb].
  destruct (wf_running _ Hwf) as (t & Ht & Hr). rewrite (update_task_eq _ _ _ t) by done. cbn [mbind option_bind].
  match goal with |- context [with_counters ?a ?b ?c ?d t] => pose proof (bump_wf s t a b c d Hwf Ht) as Hwf1;
    pose proof (ready_bump s t (with_counters a b c d t) p Hp Ht ltac:(congruence)) as Hp1 end.
  destruct (turn_ends s _ p f Hwf1 Hu eq_refl Hf Hp1) as (g & s' & -> & _ & Hn). cbn [mbind option_bind].
  exists s', w. split; [done|]. by apply ended_nearer.
Qed.

Lemma tick_nearer s w f p :
  sched_wf s -> w_ok w -> s.(initialized) = true -> s.(users_running) = true -> is_Some (s.(frames) !! f) ->
  is_u64 (slice_used s) -> ready s p ->
  exists s' w', take_turn (Tick f) s w = Some (s', w') /\ nearer (Tick f) s s' p.
Proof.
  intros Hwf Hw Hi Hu Hf Hs Hp. pose proof (user_running _ Hwf Hu) as Hb. cbn [take_turn].
  unfold scheduler_on_timer_tick. rewrite Hi. cbn [negb]. set (s0 := set_ticks _ s).
  assert (Hwf0 : sched_wf s0) by (destruct Hwf as [Hc Hr Hus]; split; [by apply ticks_core|done|done]).
  destruct (expire_all_ok s0 w (wf_core _ Hwf0) Hw) as (s1 & w1 & -> & He & Hw1). cbn [mbind option_bind].
  pose proof (expired_woken _ _ _ He) as Hwk. pose proof (woken_wf _ _ Hwf0 Hwk) as Hwf1.
  destruct (woken_core _ _ Hwk) as (Ecur & Eus & _). cbn in Ecur, Eus.
  pose proof (ready_woken s0 s1 p Hwk Hp) as Hp1.
  destruct (wf_running _ Hwf) as (t & Ht & Hr).
  assert (Ht1 : s1.(tasks).[s1.(current_pid)] = Some t) by (rewrite Ecur; eapply woken_running; [done|exact Ht|congruence]).
  rewrite (update_task_eq _ _ _ t) by done. cbn [mbind option_bind].
  set (t2 := with_counters _ _ _ _ t). set (s2 := set_tasks _ s1).
  assert (Hwf2 : sched_wf s2) by by apply bump_wf.
  assert (Hp2 : ready s2 p) by (apply (ready_bump s1 t); [done|done|congruence]).
  assert (Ht2 : s2.(tasks).[s2.(current_pid)] = Some t2) by (eapply (updated s1 _ t); [apply Hwf1|done]).
  destruct (negb _ || _) eqn:Eg.
  { exfalso. apply orb_true_iff in Eg as [Eg|Eg].
    - change (users_running s2) with (users_running s1) in Eg. by rewrite Eus, Hu in Eg.
    - apply Z.eqb_eq in Eg. change (current_pid s1 = 0) in Eg. lia. }
  rewrite (update_task_eq _ _ _ t2) by done. cbn [mbind option_bind].
  set (t3 := with_counters _ _ _ _ t2). set (s3 := set_tasks _ s2).
  assert (Hwf3 : sched_wf s3) by by apply bump_wf.
  assert (Hp3 : ready s3 p) by (apply (ready_bump s2 t2); [done|done|unfold t2; cbn; congruence]).
  assert (Ht3 : s3.(tasks).[s3.(current_pid)] = Some t3) by (eapply (updated s2 _ t2); [apply Hwf2|done]).
  rewrite Ht3. cbn [mbind option_bind]. change (t3.(slice_ticks)) with (u64 (t.(slice_ticks) + 1)).
  assert (Es : slice_used s = t.(slice_ticks)) by (unfold slice_used; by rewrite Ht).
  assert (Ec3 : s3.(current_pid) = s.(current_pid)) by exact Ecur.
  destruct (Z.ltb_spec (u64 (t.(slice_ticks) + 1)) INIT_QUANTUM_TICKS) as [Hlt|Hge].
  + exists s3, w1. split; [done|]. right. assert (Es3 : slice_used s3 = u64 (t.(slice_ticks) + 1)) by (unfold slice_used; by rewrite Ht3).
    split; [done|]. split; [unfold s3, s2; cbn; congruence|]. rewrite Es3. split; [apply u64_range|]. split; [|by intros []].
    unfold turns_left. rewrite Ec3, Es3, Es. rewrite Es in Hs. unfold budget. rewrite (proj2 (Z.ltb_lt _ _) Hlt).
    destruct (Z.ltb_spec t.(slice_ticks) INIT_QUANTUM_TICKS) as [Hq|Hq].
    * rewrite u64_small by (unfold is_u64, INIT_QUANTUM_TICKS in *; lia). lia.
    * destruct (decide (t.(slice_ticks) = 18446744073709551615)) as [Emax|Hmax].
      { rewrite Emax. change (u64 (18446744073709551615 + 1)) with 0. cbn [Z.eqb]. unfold INIT_QUANTUM_TICKS. lia. }
      rewrite u64_small in Hlt by (unfold is_u64 in *; lia). unfold INIT_QUANTUM_TICKS in *. lia.
  + rewrite (update_task_eq _ _ _ t3) by done. cbn [mbind option_bind].
    set (t4 := with_counters _ _ _ _ t3). set (s4 := set_tasks _ s3).
    assert (Hwf4 : sched_wf s4) by by apply bump_wf.
    assert (Hp4 : ready s4 p) by (apply (ready_bump s3 t3); [done|done|unfold t3, t2; cbn; congruence]).
    destruct (turn_ends s s4 p f Hwf4) as (g & s' & -> & _ & Hn); [cbn; congruence|exact Ecur| |done|].
    { apply (woken_frames _ _ Hwk). done. }
    cbn [mbind option_bind]. exists s', w1. split; [done|]. by apply ended_nearer.
Qed.

Lemma turn_nearer e s w p :
  sched_wf s -> w_ok w -> s.(initialized) = true -> s.(users_running) = true -> is_Some (s.(frames) !! turn_frame e) ->
  is_u64 (slice_used s) -> ready s p ->
  exists s' w', take_turn e s w = Some (s', w') /\ nearer e s s' p.
Proof. destruct e; [apply yield_nearer|apply tick_nearer]. Qed.

(** Enough turns: 29, of which at most 28 can be other tasks' ticks and one a counter
    that wraps; or seven, if all are yields. *)
Definition enough (es : list turn) : Prop := (29 <= length es)%nat \/ (7 <= length es)%nat /\ Forall yields_only es.

End fairness.

(** ** Wake-ups *)

(** A wake-up reaches exactly the blocked task it names: its frame receives
    the result pair, it becomes READY with its timer disarmed, and every other
    task and frame is untouched; on a pid that is not a blocked user task the
    call fails and changes nothing. *)
Theorem scheduler_wake_delivers s p r d :
  sched_core s -> 0 <= p ->
  match s.(tasks).[p] with
  | Some t =>
      if bool_decide (p <> 0 /\ t.(state) = BLOCKED) then
        exists g s', s.(frames) !! t.(saved_frame) = Some g /\
          scheduler_wake p r d s = Some (true, s') /\
          s'.(tasks).[p] = Some (woke t) /\
          s'.(frames) !! t.(saved_frame) = Some (set_result r d g) /\
          (forall q, q <> p -> s'.(tasks).[q] = s.(tasks).[q]) /\
          (forall a, a <> t.(saved_frame) -> s'.(frames) !! a = s.(frames) !! a)
      else scheduler_wake p r d s = Some (false, s)
  | None => scheduler_wake p r d s = Some (false, s)
  end.
Proof.
  intros Hc Hp. unfold scheduler_wake, SCHEDULER_PROCESS_LIMIT.
  destruct s.(tasks).[p] as [t|] eqn:Ht.
  - pose proof (task_bound _ _ _ Hc Ht) as Hb. cbn [mbind option_bind].
    rewrite (proj2 (Z.leb_gt 8 p)), orb_false_r by lia.
    case_bool_decide as E.
    + destruct E as [Hnz Hst]. rewrite (proj2 (Z.eqb_neq p 0)) by lia.
      rewrite decide_True by done.
      destruct (wake_step s p t (set_result r d) Hc Ht Hst) as (g & Hg & Heq & _).
      exists g. rewrite (write_frame_eq _ _ _ g) in * by done. cbn [mbind option_bind] in *.
      rewrite Heq. cbn [mbind option_bind]. eexists. split; [done|]. split; [done|].
      cbn. pose proof (aget_bound _ _ _ Ht) as Hbd. split_and!.
      * rewrite aget_insert by done. by rewrite decide_True.
      * by rewrite lookup_insert, decide_True.
      * intros q Hq. rewrite aget_insert by done. by rewrite decide_False.
      * intros a Ha. by rewrite lookup_insert, decide_False.
    + destruct (Z.eqb_spec p 0); [done|]. rewrite decide_False; [done|]. naive_solver.
  - destruct ((p =? 0) || (8 <=? p)) eqn:E; [done|]. b2p.
    destruct (task_in s p Hc ltac:(lia)). congruence.
Qed.

(** ** Concrete runs *)

(** Two users created and started, over subsystems with nothing to release. *)
Definition no_services : TaskServices unit :=
  {| ipc_cancel _ w := w; input_cancel _ w := w; release_process _ s w := Some (s, w) |}.
Definition any_state : unit -> Prop := fun _ => True.

Lemma no_services_ok : @TaskServicesOk unit no_services any_state.
Proof. split; [done..|]. intros p s [] _ _ _. exists s, tt. split; [done|]. split; [apply woken_refl|done]. Qed.

Definition boot : sched :=
  Sched [] 0 0 false false 0 [] [] (replicate 4 7) 0 0 ∅ 1048576.
Definition after_events (s : sched) (es : list event) : sched :=
  fold_left (fun s e => default s (fst <$> @handle unit no_services e s tt)) es s.
Definition booted : sched := default boot (scheduler_init 4096 boot).
Definition user_frame (p : Z) : Z := 1048576 + p * 4096 - 160.
Definition two_users : sched :=
  after_events booted
    [EvCreate 0 [97; 0] 4194304 8192 4096; EvCreate 0 [98; 0] 4194304 8192 8192; EvStart].
(** The first of them asleep for two ticks. *)
Definition one_asleep : sched :=
  after_events two_users [EvBlockTimeout (user_frame 1) 1 77].

Lemma reach_events (s : sched) es :
  @reachable unit no_services any_state s tt ->
  (forall k e, es !! k = Some e -> event_ok (after_events s (take k es)) e) ->
  @reachable unit no_services any_state (after_events s es) tt.
Proof.
  revert s. induction es as [|e es IH]; intros s Hr Hok; [done|].
  pose proof (Hok 0%nat e eq_refl) as He. cbn in He.
  destruct (@reachable_wf unit no_services any_state no_services_ok s tt Hr) as [Hwf Hw].
  destruct (@handle_ok unit no_services any_state no_services_ok e s tt Hwf Hw He)
    as (s1 & [] & Hh & _).
  unfold after_events. cbn [fold_left]. rewrite Hh. cbn [fmap option_fmap option_map fst default from_option].
  apply IH; [by eapply reach_event|]. intros k e' Hk. specialize (Hok (S k) e' Hk).
  unfold after_events in Hok. cbn [take fold_left] in Hok. by rewrite Hh in Hok.
Qed.

Lemma reach_booted : @reachable unit no_services any_state booted tt.
Proof. by apply (reach_init 4096 boot). Qed.

Lemma reach_two_users : @reachable unit no_services any_state two_users tt.
Proof.
  apply reach_events; [apply reach_booted|].
  intros [|[|[|k]]] e He; try discriminate; injection He as <-; cbn; try done;
    (split; [lia|]; left; apply (bool_decide_unpack _); vm_compute; exact I).
Qed.

Lemma reach_one_asleep : @reachable unit no_services any_state one_asleep tt.
Proof.
  apply reach_events; [apply reach_two_users|].
  intros [|k] e He; try discriminate; injection He as <-. by eexists; vm_compute.
Qed.

Lemma two_users_wf : sched_wf two_users.
Proof. apply (@reachable_wf unit no_services any_state no_services_ok _ _ reach_two_users). Qed.
Lemma one_asleep_wf : sched_wf one_asleep.
Proof. apply (@reachable_wf unit no_services any_state no_services_ok _ _ reach_one_asleep). Qed.

Lemma scheduler_safety_witness :
  @reachable unit no_services any_state two_users tt /\ two_users.(current_pid) = 1 /\
  is_Some (@handle unit no_services (EvYield (user_frame 1)) two_users tt).
Proof.
  split; [exact reach_two_users|]. split; [by vm_compute|].
  apply (@scheduler_safety unit no_services any_state no_services_ok _ _ reach_two_users).
  by eexists; vm_compute.
Defined.

Lemma fpu_isolation_witness :
  exists s', @handle unit no_services (EvYield (user_frame 1)) two_users tt = Some (s', tt) /\
    s'.(current_pid) = 2 /\ fpu_of s' 1 = fpu_of two_users 1.
Proof.
  eexists. split; [vm_compute; reflexivity|]. split; [reflexivity|].
  apply (@fpu_isolation unit no_services any_state no_services_ok
    (EvYield (user_frame 1)) two_users tt _ tt two_users_wf I).
  - by eexists; vm_compute.
  - vm_compute; reflexivity.
  - lia.
Defined.

Lemma one_asleep_states :
  state <$> one_asleep.(tasks) =
    [READY; BLOCKED; RUNNING; UNUSED; UNUSED; UNUSED; UNUSED; UNUSED].
Proof. vm_compute. reflexivity. Qed.

Lemma one_asleep_distinct : frames_distinct one_asleep.
Proof.
  assert (Hone : forall k v, one_asleep.(tasks).[k] = Some v -> v.(state) = BLOCKED -> k = 1).
  { intros k v [Hk Hv]%aget_Some Hb.
    assert (Hs : (state <$> one_asleep.(tasks)) !! Z.to_nat k = Some BLOCKED)
      by (by rewrite list_lookup_fmap, Hv, <- Hb).
    rewrite one_asleep_states in Hs. assert (Z.to_nat k = 1%nat); [|lia].
    revert Hs. generalize (Z.to_nat k). by intros [|[|[|[|[|[|[|[|n]]]]]]]]. }
  intros i j t u Hi Hj Ht Hu _. by rewrite (Hone i t Hi Ht), (Hone j u Hj Hu).
Qed.

Lemma one_asleep_slot :
  exists t g, one_asleep.(tasks).[1] = Some t /\ t.(state) = BLOCKED /\
    t.(timed_wait) = true /\ t.(wake_tick) = 1 /\ t.(saved_frame) = user_frame 1 /\
    one_asleep.(frames) !! user_frame 1 = Some g.
Proof.
  eexists _, _. split; [vm_compute; reflexivity|]. repeat (split; [vm_compute; reflexivity|]).
  vm_compute. reflexivity.
Qed.

Lemma timer_expiry_witness :
  exists f s' w', @scheduler_on_timer_tick unit no_services (user_frame 2) one_asleep tt = Some (f, s', w') /\
    exists t', s'.(tasks).[1] = Some t' /\ (t'.(state) = READY \/ t'.(state) = RUNNING).
Proof.
  destruct (@timer_expiry unit no_services any_state no_services_ok one_asleep tt (user_frame 2)
    one_asleep_wf I eq_refl) as (f & s' & w' & Heq & H).
  - exact one_asleep_distinct.
  - intros _. by eexists; vm_compute.
  - exists f, s', w'. split; [exact Heq|].
    destruct one_asleep_slot as (t & g & Ht & Hb & Htm & Hwt & Hsf & Hg).
    assert (Hnow : u64 (one_asleep.(scheduler_ticks) + 1) = 1) by reflexivity.
    specialize (H 1 t g).
    rewrite Hsf, Htm, Hwt, Hnow in H. exact (proj1 (H ltac:(lia) Ht Hb Hg)).
Defined.


Lemma scheduler_wake_delivers_witness :
  exists t g s', one_asleep.(tasks).[1] = Some t /\ t.(state) = BLOCKED /\
    scheduler_wake 1 5 6 one_asleep = Some (true, s') /\
    s'.(frames) !! t.(saved_frame) = Some (set_result 5 6 g).
Proof.
  pose proof (scheduler_wake_delivers one_asleep 1 5 6 (wf_core _ one_asleep_wf) ltac:(lia)) as H.
  destruct one_asleep_slot as (t & g0 & Ht & Hb & _). rewrite Ht in H.
  rewrite bool_decide_true in H by (split; [lia|exact Hb]).
  destruct H as (g & s' & _ & Hw & _ & Hf & _). exists t, g, s'.
  split; [exact Ht|]. split; [exact Hb|]. split; [exact Hw|exact Hf].
Defined.
