(* ===== verification/Init.v ===== *)
(** The init system of [src/init.c]: ten units with one dependency each, started
    recursively, with the compositor's health checked against the scheduler. *)

From Stdlib Require Import Ascii String.
From S2P Require Import Prelude Scheduler.

Definition NO_DEPENDENCY : Z := 255.

(** A C string with its terminator. *)
Definition cstr (s : string) : list Z := map (fun c => Z.of_nat (nat_of_ascii c)) (list_ascii_of_string s) ++ [0].

Inductive init_unit_state := INACTIVE | WAITING | ACTIVE | FAILED.
#[export] Instance init_unit_state_eq_dec : EqDecision init_unit_state.
Proof. solve_decision. Defined.

Record init_unit := Unit {
  u_name : list Z; description : list Z; dependency : Z; u_state : init_unit_state; mutable : bool;
  starts : Z; stops : Z; process_id : Z
}.

Definition with_unit_state (s : init_unit_state) (u : init_unit) : init_unit :=
  Unit u.(u_name) u.(description) u.(dependency) s u.(mutable) u.(starts) u.(stops) u.(process_id).
Definition with_counts (a o : Z) (u : init_unit) : init_unit :=
  Unit u.(u_name) u.(description) u.(dependency) u.(u_state) u.(mutable) (u64 a) (u64 o) u.(process_id).
Definition with_process (p : Z) (u : init_unit) : init_unit :=
  Unit u.(u_name) u.(description) u.(dependency) u.(u_state) u.(mutable) u.(starts) u.(stops) p.

Definition units : list init_unit :=
  let u name desc dep mut := Unit (cstr name) (cstr desc) dep INACTIVE mut 0 0 0 in [
  u "kernel.target" "Core kernel facilities" NO_DEPENDENCY false;
  u "hardware.target" "Interrupt, timer, and keyboard drivers" 0 false;
  u "project-store.service" "RAM project filesystem" 0 false;
  u "userspace.target" "ELF loader and isolated process runtime" 2 false;
  u "project-host.service" "Portable MKO project host" 3 true;
  u "app-manager.service" "Installed application catalog" 4 false;
  u "console.service" "MakoBox interactive console" 1 false;
  u "default.target" "Multi-user MAKO system" 5 false;
  u "desktop-compositor.service" "Persistent ring-3 MKO display server" 7 false;
  u "desktop.target" "Native MAKO graphical session" 8 false
  ]%string.

Record init_system := InitSystem { table : list init_unit; transactions : Z; graphical_boot : bool }.
Definition set_table (t : list init_unit) (s : init_system) : init_system :=
  InitSystem t s.(transactions) s.(graphical_boot).
Definition transact (s : init_system) : init_system :=
  InitSystem s.(table) (u64 (s.(transactions) + 1)) s.(graphical_boot).
Definition update_unit (i : Z) (f : init_unit -> init_unit) (s : init_system) : option init_system :=
  u ← s.(table).[i]; t ← s.(table).[i <- f u]; Some (set_table t s).

(** [text_equal] on two C strings, reading up to the first difference. *)
Fixpoint text_equal_from (n : nat) (i : Z) (l r : list Z) : option bool :=
  match n with
  | O => None
  | S n' =>
      x ← l.[i]; y ← r.[i];
      if negb (x =? 0) && negb (y =? 0) && (x =? y) then text_equal_from n' (i + 1) l r else Some (x =? y)
  end.
Definition text_equal (l r : list Z) : option bool := text_equal_from (S (length l)) 0 l r.

Fixpoint find_unit_from (l : list init_unit) (i : Z) (name : list Z) : option (option Z) :=
  match l with
  | [] => Some None
  | u :: l =>
      same ← text_equal u.(u_name) name;
      if negb same then find_unit_from l (i + 1) name else Some (Some i)
  end.
(** The index of the unit with this name. *)
Definition find_unit (name : list Z) (s : init_system) : option (option Z) := find_unit_from s.(table) 0 name.

(** The health check of the compositor: alive, and called "compositor". *)
Definition compositor_ok (p : Z) (sc : sched) : option bool :=
  if p =? 0 then Some false else
  match scheduler_snapshot p sc with
  | None => Some false
  | Some t =>
      if negb (bool_decide (t.(state) = BLOCKED)) && negb (bool_decide (t.(state) = READY)) then Some false
      else text_equal t.(name) (cstr "compositor")
  end.

Definition unit_count (s : init_system) : Z := Z.of_nat (length s.(table)).

(** The recursion is bounded by [depth]; [fuel] counts the levels left. *)
Fixpoint start_index (fuel : nat) (index depth : Z) (sc : sched) (s : init_system)
  : option (bool * init_system) :=
  match fuel with
  | O => None
  | S fuel =>
      if (unit_count s <=? index) || (unit_count s <? depth) then Some (false, s) else
      u ← s.(table).[index];
      if decide (u.(u_state) = ACTIVE) then Some (true, s) else
      s ← update_unit index (with_unit_state WAITING) s;
      '(ok, s) ← (if negb (u.(dependency) =? NO_DEPENDENCY)
                  then start_index fuel u.(dependency) (depth + 1) sc s else Some (true, s));
      if negb ok then s ← update_unit index (with_unit_state FAILED) s; Some (false, s) else
      ok ← (if index =? 8 then u ← s.(table).[index]; compositor_ok u.(process_id) sc else Some true);
      if negb ok then s ← update_unit index (with_unit_state FAILED) s; Some (false, s) else
      s ← update_unit index (fun u => with_counts (u.(starts) + 1) u.(stops) (with_unit_state ACTIVE u)) s;
      Some (true, transact s)
  end.
(** Depths 0 to 11. *)
Definition start_fuel : nat := 12.
Definition start (index : Z) (sc : sched) (s : init_system) : option (bool * init_system) :=
  start_index start_fuel index 0 sc s.

Definition init_system_init (s : init_system) : init_system :=
  InitSystem (map (fun u => with_process 0 (with_counts 0 0 (with_unit_state INACTIVE u))) s.(table)) 0 false.

Definition init_system_reach_boot_target (compositor_pid : Z) (sc : sched) (s : init_system)
  : option (bool * init_system) :=
  '(ok, s) ← start 7 sc s;
  if negb ok then Some (false, s) else
  '(ok, s) ← start 6 sc s;
  if negb ok then Some (false, s) else
  if compositor_pid =? 0 then Some (true, s) else
  s ← update_unit 8 (with_process compositor_pid) s;
  start 9 sc (InitSystem s.(table) s.(transactions) true).

Definition init_system_start (name : list Z) (sc : sched) (s : init_system) : option (bool * init_system) :=
  f ← find_unit name s;
  match f with
  | None => Some (false, s)
  | Some i => u ← s.(table).[i]; if negb u.(mutable) then Some (false, s) else start i sc s
  end.

Definition init_system_stop (name : list Z) (s : init_system) : option (bool * init_system) :=
  f ← find_unit name s;
  match f with
  | None => Some (false, s)
  | Some i =>
      u ← s.(table).[i];
      if negb u.(mutable) || negb (bool_decide (u.(u_state) = ACTIVE)) then Some (false, s) else
      s ← update_unit i (fun u => with_counts u.(starts) (u.(stops) + 1) (with_unit_state INACTIVE u)) s;
      Some (true, transact s)
  end.

Definition init_system_restart (name : list Z) (sc : sched) (s : init_system) : option (bool * init_system) :=
  f ← find_unit name s;
  match f with
  | None => Some (false, s)
  | Some i =>
      u ← s.(table).[i];
      if negb u.(mutable) then Some (false, s) else
      '(ok, s) ← (if decide (u.(u_state) = ACTIVE) then init_system_stop name s else Some (true, s));
      if negb ok then Some (false, s) else init_system_start name sc s
  end.

Definition init_system_snapshot (index : Z) (s : init_system) : option (option init_unit) :=
  if unit_count s <=? index then Some None else u ← s.(table).[index]; Some (Some u).

Definition init_system_active_count (s : init_system) : Z :=
  Z.of_nat (length (List.filter (fun u => bool_decide (u.(u_state) = ACTIVE)) s.(table))).

Definition init_system_desktop_pid (s : init_system) : option Z :=
  u ← s.(table).[8]; Some u.(process_id).

Definition init_system_desktop_active (sc : sched) (s : init_system) : option bool :=
  u8 ← s.(table).[8]; u9 ← s.(table).[9];
  if negb s.(graphical_boot) || negb (bool_decide (u8.(u_state) = ACTIVE))
     || negb (bool_decide (u9.(u_state) = ACTIVE)) then Some false else
  Some (match scheduler_snapshot u8.(process_id) sc with
        | Some t => bool_decide (t.(state) = BLOCKED) || bool_decide (t.(state) = READY)
        | None => false
        end).

Definition init_system_self_test (sc : sched) (s : init_system) : option (bool * init_system) :=
  let expected_active := if s.(graphical_boot) then 10 else 8 in
  desktop ← init_system_desktop_active sc s;
  if negb (init_system_active_count s =? expected_active) || negb (s.(transactions) =? expected_active)
     || (s.(graphical_boot) && negb desktop) then Some (false, s) else
  '(ok, s) ← init_system_restart (cstr "project-host.service") sc s;
  if negb ok then Some (false, s) else
  u4 ← s.(table).[4];
  Some ((init_system_active_count s =? expected_active) && (u4.(starts) =? 2) && (u4.(stops) =? 1)
        && (s.(transactions) =? expected_active + 2), s).
