(* ===== verification/InitSpec.v ===== *)
(** Correctness of the init system: starts terminate and respect dependencies, the
    boot target is reached exactly when the compositor is healthy, and what a
    stop breaks. *)

From Stdlib Require Import Ascii String.
From S2P Require Import Prelude Scheduler Init.

(** ** C strings *)

Definition is_cstr (l : list Z) : Prop := exists e, l.[e] = Some 0.

Lemma text_equal_from_total n : forall i l r e1 e2,
  l.[e1] = Some 0 -> r.[e2] = Some 0 -> 0 <= i <= e1 -> i <= e2 -> e1 - i < Z.of_nat n ->
  exists b, text_equal_from n i l r = Some b.
Proof.
  induction n as [|n IH]; intros i l r e1 e2 H1 H2 Hi1 Hi2 Hn; [lia|]. cbn [text_equal_from].
  pose proof (aget_bound _ _ _ H1). pose proof (aget_bound _ _ _ H2).
  destruct (aget_in l i) as [x Hx]; [lia|]. destruct (aget_in r i) as [y Hy]; [lia|].
  rewrite Hx, Hy. cbn [mbind option_bind]. destruct (_ && _ && _) eqn:E; [|eauto]. b2p.
  apply (IH (i + 1) l r e1 e2); try done; try lia.
  - assert (i <> e1) by (intros ->; congruence). lia.
  - assert (i <> e2) by (intros ->; congruence). lia.
Qed.

Lemma text_equal_total l r : is_cstr l -> is_cstr r -> exists b, text_equal l r = Some b.
Proof.
  intros [e1 H1] [e2 H2]. pose proof (aget_bound _ _ _ H1). pose proof (aget_bound _ _ _ H2).
  apply (text_equal_from_total _ 0 l r e1 e2); try done; lia.
Qed.

Lemma cstr_ok s : is_cstr (cstr s).
Proof.
  unfold cstr, is_cstr. set (l := map _ _). exists (Z.of_nat (length l)). rewrite aget_nat.
  by rewrite lookup_app_r, Nat.sub_diag.
Qed.

(** ** The table *)

Definition static (u : init_unit) : list Z * list Z * Z * bool :=
  (u.(u_name), u.(description), u.(dependency), u.(mutable)).
(** The names, descriptions, dependencies and mutability never change. *)
Definition table_ok (s : init_system) : Prop := map static s.(table) = map static units.
(** Every active unit's dependency is active. *)
Definition dep_closed (s : init_system) : Prop :=
  forall i u d, s.(table).[i] = Some u -> u.(u_state) = ACTIVE -> s.(table).[u.(dependency)] = Some d ->
    d.(u_state) = ACTIVE.
Definition is_active (s : init_system) (i : Z) : Prop :=
  exists u, s.(table).[i] = Some u /\ u.(u_state) = ACTIVE.
(** The scheduler's names are C strings. *)
Definition names_ok (sc : sched) : Prop := forall i t, sc.(tasks).[i] = Some t -> is_cstr t.(name).

Lemma table_length s : table_ok s -> length s.(table) = 10%nat.
Proof. intros H. apply (f_equal length) in H. by rewrite !length_map in H. Qed.

(** Dependencies point to earlier units. *)
Lemma earlier_dependencies (i : nat) u : units !! i = Some u ->
  u.(dependency) = NO_DEPENDENCY \/ 0 <= u.(dependency) < Z.of_nat i.
Proof.
  do 10 (destruct i as [|i]; [intros [= <-]; cbn [dependency]; unfold NO_DEPENDENCY; lia|]). done.
Qed.

Lemma table_static s i u : table_ok s -> s.(table).[i] = Some u ->
  0 <= i < 10 /\ (u.(dependency) = NO_DEPENDENCY \/ 0 <= u.(dependency) < i).
Proof.
  intros Hok Hu. pose proof (table_length _ Hok) as Hl. pose proof (aget_bound _ _ _ Hu) as Hb.
  split; [lia|]. apply aget_Some in Hu as [Hi Hu].
  assert (map static s.(table) !! Z.to_nat i = Some (static u)) as Hs
    by (rewrite list_lookup_fmap, Hu; done).
  rewrite Hok, list_lookup_fmap in Hs. destruct (units !! Z.to_nat i) as [v|] eqn:Ev; [|done].
  injection Hs as _ _ Hd _. pose proof (earlier_dependencies _ _ Ev) as H. rewrite Hd in H.
  destruct H; [by left|right; lia].
Qed.

Lemma update_unit_ok s i f u :
  table_ok s -> s.(table).[i] = Some u -> static (f u) = static u ->
  update_unit i f s = Some (set_table (<[Z.to_nat i := f u]> s.(table)) s) /\
  table_ok (set_table (<[Z.to_nat i := f u]> s.(table)) s).
Proof.
  intros Hok Hu Hf. unfold update_unit. rewrite Hu. cbn [mbind option_bind].
  rewrite aset_in by (by eapply aget_bound). split; [done|]. unfold table_ok. cbn [table set_table].
  rewrite <- Hok. apply aget_Some in Hu as [Hi Hu].
  change (map static (<[Z.to_nat i := f u]> s.(table))) with (static <$> <[Z.to_nat i := f u]> s.(table)).
  rewrite list_fmap_insert, Hf. apply list_insert_id. rewrite list_lookup_fmap, Hu. done.
Qed.

Lemma compositor_total p sc : names_ok sc -> 0 <= p -> length sc.(tasks) = 8%nat ->
  exists b, compositor_ok p sc = Some b.
Proof.
  intros Hn Hp Hl. unfold compositor_ok. destruct (p =? 0); [eauto|].
  unfold scheduler_snapshot, SCHEDULER_PROCESS_LIMIT.
  destruct (negb _ || _) eqn:E; [eauto|]. b2p. destruct (aget_in sc.(tasks) p) as [t Ht]; [lia|]. rewrite Ht.
  destruct (_ && _); [eauto|]. apply text_equal_total; [by eapply Hn|apply cstr_ok].
Qed.

(** What a start changed. *)
Record started (index : Z) (b : bool) (s s' : init_system) : Prop := {
  st_table : table_ok s';
  st_closed : dep_closed s -> dep_closed s';
  st_active : b = true -> is_active s' index;
  st_above : forall j, index < j -> s'.(table).[j] = s.(table).[j];
  st_kept : forall j u, s.(table).[j] = Some u -> u.(u_state) = ACTIVE -> s'.(table).[j] = Some u;
  st_process : forall j u, s.(table).[j] = Some u -> exists u', s'.(table).[j] = Some u' /\ u'.(process_id) = u.(process_id);
}.

(** Rewriting a unit that is not active, on which therefore no active unit
    depends, by one that is active only if its own dependency is. *)
Lemma dep_closed_update s i u u' :
  dep_closed s -> s.(table).[i] = Some u -> u.(u_state) <> ACTIVE -> u'.(dependency) = u.(dependency) ->
  u.(dependency) <> i ->
  (u'.(u_state) = ACTIVE -> forall d, s.(table).[u.(dependency)] = Some d -> d.(u_state) = ACTIVE) ->
  dep_closed (set_table (<[Z.to_nat i := u']> s.(table)) s).
Proof.
  intros Hc Hu Hna Hdep Hne Ha j v d. cbn [table set_table]. pose proof (aget_bound _ _ _ Hu) as Hb.
  rewrite !aget_insert by done. destruct (decide (j = i)) as [->|Hj].
  - intros [= <-] Hact. rewrite Hdep, decide_False by done. by apply Ha.
  - intros Hv Hact. destruct (decide (dependency v = i)) as [E|].
    + rewrite <- E in Hu. by specialize (Hc j v u Hv Hact Hu).
    + by apply (Hc j v d).
Qed.

Lemma transact_table s : table (transact s) = table s.
Proof. done. Qed.

Section start.
Context (sc : sched) (Hnames : names_ok sc) (Hlen : length sc.(tasks) = 8%nat).

Lemma start_index_ok fuel : forall index depth s,
  table_ok s -> (forall u, s.(table).[8] = Some u -> 0 <= u.(process_id)) ->
  0 <= index < 10 -> index < Z.of_nat fuel -> depth + index <= 10 ->
  exists b s', start_index fuel index depth sc s = Some (b, s') /\ started index b s s'.
Proof.
  induction fuel as [|fuel IH]; intros index depth s Hok Hpid Hi Hf Hd; [lia|]. cbn [start_index].
  pose proof (table_length _ Hok) as Hl. unfold unit_count. rewrite Hl.
  rewrite (proj2 (Z.leb_gt _ index)), (proj2 (Z.ltb_ge _ depth)) by lia. cbn [orb].
  destruct (aget_in s.(table) index) as [u Hu]; [lia|]. rewrite Hu. cbn [mbind option_bind].
  destruct (decide (u_state u = ACTIVE)) as [Ha|Hna].
  { exists true, s. split; [done|]. split; try done; [by exists u|eauto]. }
  destruct (table_static s index u Hok Hu) as [_ Hdep].
  destruct (update_unit_ok s index (with_unit_state WAITING) u Hok Hu eq_refl) as [-> Hok1].
  cbn [mbind option_bind]. set (s1 := set_table _ s) in *.
  assert (H1 : forall j, s1.(table).[j] = if decide (j = index) then Some (with_unit_state WAITING u) else s.(table).[j]).
  { intros j. unfold s1. cbn. apply aget_insert. by eapply aget_bound. }
  assert (Hne : dependency u <> index) by (unfold NO_DEPENDENCY in Hdep; lia).
  assert (Hc1 : dep_closed s -> dep_closed s1) by (intros Hc; by apply (dep_closed_update s index u)).
  (* the dependency *)
  assert (exists b s2, (if negb (dependency u =? NO_DEPENDENCY)
    then start_index fuel (dependency u) (depth + 1) sc s1 else Some (true, s1)) = Some (b, s2) /\
    table_ok s2 /\ (dep_closed s -> dep_closed s2) /\
    (b = true -> forall d, s2.(table).[dependency u] = Some d -> u_state d = ACTIVE) /\
    (forall j, index <= j -> s2.(table).[j] = s1.(table).[j]) /\
    (forall j v, s1.(table).[j] = Some v -> u_state v = ACTIVE -> s2.(table).[j] = Some v) /\
    (forall j v, s1.(table).[j] = Some v -> exists v', s2.(table).[j] = Some v' /\ process_id v' = process_id v))
    as (b & s2 & -> & Hok2 & Hc2 & Hd2 & Hab2 & Hk2 & Hp2).
  { destruct (Z.eqb_spec (dependency u) NO_DEPENDENCY) as [E|E]; cbn [negb].
    - exists true, s1. split; [done|]. split_and!; try done; [|eauto].
      intros _ d Hd'. rewrite E in Hd'. apply aget_bound in Hd'. rewrite (table_length _ Hok1) in Hd'.
      unfold NO_DEPENDENCY in Hd'. lia.
    - destruct Hdep as [Hdep|Hdep]; [done|].
      destruct (IH (dependency u) (depth + 1) s1 Hok1) as (b & s2 & -> & [G1 G2 G3 G4 G5 G6]); [|lia..|].
      + intros v Hv. rewrite H1 in Hv. destruct (decide (8 = index)) as [E8|]; [|by apply Hpid].
        injection Hv as <-. apply (Hpid u). by rewrite E8.
      + exists b, s2. split; [done|]. split; [done|]. split; [auto|]. split; [|split; [|done]].
        * intros Hb d Hdd. destruct (G3 Hb) as (d' & Hd' & Ha'). congruence.
        * intros j Hj. apply G4. lia. }
  cbn [mbind option_bind].
  assert (H2 : s2.(table).[index] = Some (with_unit_state WAITING u)) by (rewrite Hab2, H1, decide_True by lia; done).
  (* storing the final state of the unit *)
  assert (Hstore : forall f b', (f = with_unit_state FAILED /\ b' = false) \/
      (f = (fun u => with_counts (starts u + 1) (stops u) (with_unit_state ACTIVE u)) /\ b' = true /\ b = true) ->
      exists s', update_unit index f s2 = Some s' /\ started index b' s s').
  { intros f b' Hf'. set (w := with_unit_state WAITING u) in *.
    assert (static (f w) = static w /\ process_id (f w) = process_id u /\ dependency (f w) = dependency u) as (Es & Ep & Ed)
      by (destruct Hf' as [[-> _]|(-> & _)]; done).
    destruct (update_unit_ok s2 index f w Hok2 H2 Es) as [-> Hok3]. eexists. split; [done|].
    assert (H3 : forall j, (<[Z.to_nat index := f w]> s2.(table)).[j] = if decide (j = index) then Some (f w) else s2.(table).[j])
      by (intros j; apply aget_insert; by eapply aget_bound).
    split; cbn [table set_table].
    - exact Hok3.
    - intros Hc. apply (dep_closed_update s2 index w); try done; [by apply Hc2|].
      intros Hact d Hdd. destruct Hf' as [[-> _]|(-> & _ & ->)]; [done|]. by apply Hd2.
    - intros ->. destruct Hf' as [[_ [=]]|(-> & _ & _)]. eexists. split; [by rewrite H3, decide_True|done].
    - intros j Hj. rewrite H3, decide_False by lia. rewrite Hab2 by lia. rewrite H1, decide_False by lia. done.
    - intros j v Hv Hact. rewrite H3, decide_False; [|intros ->; congruence].
      apply Hk2; [|done]. rewrite H1, decide_False; [done|]. intros ->. congruence.
    - intros j v Hv. rewrite H3. destruct (decide (j = index)) as [->|Hj].
      + exists (f w). split; [done|]. congruence.
      + apply Hp2. by rewrite H1, decide_False. }
  destruct b; cbn [negb].
  2: { destruct (Hstore (with_unit_state FAILED) false) as (s' & -> & Hst); [by left|].
       cbn [mbind option_bind]. eauto. }
  assert (exists h, (if index =? 8 then u0 ← s2.(table).[index]; compositor_ok (process_id u0) sc else Some true) = Some h)
    as [h ->].
  { destruct (Z.eqb_spec index 8) as [->|]; [|eauto]. rewrite H2. cbn [mbind option_bind].
    apply compositor_total; [done| |done]. by apply (Hpid u). }
  cbn [mbind option_bind]. destruct h; cbn [negb].
  - edestruct Hstore as (s' & Es & Hst); [by right; split_and!|]. rewrite Es. cbn [mbind option_bind].
    eexists true, _. split; [done|]. destruct Hst. by split.
  - destruct (Hstore (with_unit_state FAILED) false) as (s' & -> & Hst); [by left|].
    cbn [mbind option_bind]. eauto.
Qed.
End start.

(** ** Names *)

Lemma find_unit_static l1 : forall l2 i nm,
  map static l1 = map static l2 -> find_unit_from l1 i nm = find_unit_from l2 i nm.
Proof.
  induction l1 as [|u1 l1 IH]; intros [|u2 l2] i nm H; try done. cbn [map] in H.
  injection H as Hn _ Hd Hm Hl. cbn [find_unit_from]. rewrite Hn.
  destruct (text_equal _ _) as [b|]; cbn [mbind option_bind]; [|done]. destruct b; cbn [negb]; [done|]. by apply IH.
Qed.

Definition project_host : list Z := cstr "project-host.service".

Lemma find_project_host s : table_ok s -> find_unit project_host s = Some (Some 4).
Proof. intros H. unfold find_unit. rewrite (find_unit_static _ units) by exact H. vm_compute. reflexivity. Qed.

Lemma mutable_static s i u v : table_ok s -> s.(table).[i] = Some u -> units.[i] = Some v ->
  u.(mutable) = v.(mutable) /\ u.(dependency) = v.(dependency).
Proof.
  intros Hok [Hi Hu]%aget_Some [_ Hv]%aget_Some.
  assert (map static s.(table) !! Z.to_nat i = Some (static u)) as E by (rewrite list_lookup_fmap, Hu; done).
  rewrite Hok, list_lookup_fmap, Hv in E. by injection E.
Qed.

Lemma stop_ok s u :
  table_ok s -> s.(table).[4] = Some u -> u.(u_state) = ACTIVE ->
  let u' := with_counts u.(starts) (u.(stops) + 1) (with_unit_state INACTIVE u) in
  init_system_stop project_host s = Some (true, transact (set_table (<[4%nat := u']> s.(table)) s)) /\
  table_ok (set_table (<[4%nat := u']> s.(table)) s).
Proof.
  intros Hok Hu Ha u'. unfold init_system_stop. rewrite find_project_host by done. cbn [mbind option_bind].
  rewrite Hu. cbn [mbind option_bind]. destruct (mutable_static s 4 u _ Hok Hu eq_refl) as [-> _].
  rewrite bool_decide_eq_true_2 by done. cbn [negb orb mutable].
  destruct (update_unit_ok s 4 (fun u => with_counts u.(starts) (u.(stops) + 1) (with_unit_state INACTIVE u)) u Hok Hu eq_refl)
    as [-> Hok']. done.
Qed.

(** ** Booting *)

Definition fresh_system : init_system := InitSystem units 0 false.

Lemma init_fresh s : table_ok s -> init_system_init s = fresh_system.
Proof.
  unfold table_ok, init_system_init, fresh_system. generalize s.(table). intros l H. f_equal.
  assert (forall l1 l2, map static l1 = map static l2 ->
    map (fun u => with_process 0 (with_counts 0 0 (with_unit_state INACTIVE u))) l1 =
    map (fun u => with_process 0 (with_counts 0 0 (with_unit_state INACTIVE u))) l2) as Hm.
  { induction l1 as [|u1 l1 IH]; intros [|u2 l2] E; try done. cbn [map] in E. injection E as E1 E2 E3 E4 E5.
    cbn [map]. f_equal; [|by apply IH]. unfold with_process, with_counts, with_unit_state. cbn. by rewrite E1, E2, E3, E4. }
  by rewrite (Hm _ _ H).
Qed.

(** The unit of [units] at [i] in the given state, started [a] times and stopped [o]
    times by process [p]. *)
Definition unit_at (i : nat) (st : init_unit_state) (a o p : Z) : list init_unit :=
  match units !! i with Some u => [with_process p (with_counts a o (with_unit_state st u))] | None => [] end.
Definition ups (l : list nat) : list init_unit := l ≫= (fun i => unit_at i ACTIVE 1 0 0).
(** After the text-mode target. *)
Definition text_system : init_system :=
  InitSystem (ups [0;1;2;3;4;5;6;7]%nat ++ unit_at 8 INACTIVE 0 0 0 ++ unit_at 9 INACTIVE 0 0 0) 8 false.
(** After the graphical target, reached or not. *)
Definition desktop_system (p : Z) (ok : bool) : init_system :=
  InitSystem (ups [0;1;2;3;4;5;6;7]%nat ++
    (if ok then unit_at 8 ACTIVE 1 0 p ++ unit_at 9 ACTIVE 1 0 0 else unit_at 8 FAILED 0 0 p ++ unit_at 9 FAILED 0 0 0))
    (if ok then 10 else 8) true.

Lemma start_text sc : start 7 sc fresh_system ≫= (fun r => start 6 sc (snd r)) = Some (true, text_system) /\
  fst <$> start 7 sc fresh_system = Some true.
Proof. split; vm_compute; reflexivity. Qed.

(** One level of the recursion, once the dependency has answered. *)
Lemma start_level fuel index depth sc s u s1 b s2 u2 :
  (unit_count s <=? index) || (unit_count s <? depth) = false ->
  s.(table).[index] = Some u -> u.(u_state) <> ACTIVE ->
  update_unit index (with_unit_state WAITING) s = Some s1 -> u.(dependency) <> NO_DEPENDENCY ->
  start_index fuel u.(dependency) (depth + 1) sc s1 = Some (b, s2) -> s2.(table).[index] = Some u2 ->
  start_index (S fuel) index depth sc s =
  (if b then if index =? 8 then compositor_ok u2.(process_id) sc else Some true else Some false) ≫= (fun h : bool =>
    if h then
      s ← update_unit index (fun u => with_counts (u.(starts) + 1) u.(stops) (with_unit_state ACTIVE u)) s2;
      Some (true, transact s)
    else s ← update_unit index (with_unit_state FAILED) s2; Some (false, s)).
Proof.
  intros Hb Hu Ha E1 Hd E2 Hu2. cbn [start_index]. rewrite Hb, Hu. cbn [mbind option_bind].
  rewrite decide_False by done. rewrite E1. cbn [mbind option_bind].
  rewrite (proj2 (Z.eqb_neq _ _) Hd). cbn [negb]. rewrite E2. cbn [mbind option_bind]. rewrite Hu2.
  destruct b; [|done]. cbn [negb mbind option_bind].
  destruct (if index =? 8 then compositor_ok (process_id u2) sc else Some true) as [[]|]; done.
Qed.

(** Before the desktop target is started. *)
Definition waiting_desktop (p : Z) (w8 w9 : init_unit_state) : init_system :=
  InitSystem (ups [0;1;2;3;4;5;6;7]%nat ++ unit_at 8 w8 0 0 p ++ unit_at 9 w9 0 0 0) 8 true.
Definition started_compositor (p : Z) (ok : bool) : init_system :=
  InitSystem (ups [0;1;2;3;4;5;6;7]%nat ++
    (if ok then unit_at 8 ACTIVE 1 0 p else unit_at 8 FAILED 0 0 p) ++ unit_at 9 WAITING 0 0 0)
    (if ok then 9 else 8) true.

Lemma start_compositor sc p : start_index 11 8 1 sc (waiting_desktop p INACTIVE WAITING) =
  compositor_ok p sc ≫= (fun ok => Some (ok, started_compositor p ok)).
Proof.
  erewrite start_level with (s1 := waiting_desktop p WAITING WAITING) (b := true) (s2 := waiting_desktop p WAITING WAITING);
    [|vm_compute; reflexivity|vm_compute; reflexivity|by cbn|reflexivity|done|vm_compute; reflexivity|vm_compute; reflexivity].
  cbn [process_id Z.eqb Pos.eqb]. destruct (compositor_ok p sc) as [[]|]; reflexivity.
Qed.

Lemma start_desktop sc p s8 ok :
  compositor_ok p sc = Some ok -> update_unit 8 (with_process p) text_system = Some s8 ->
  start 9 sc (InitSystem s8.(table) s8.(transactions) true) = Some (ok, desktop_system p ok).
Proof.
  intros Hok E. assert (InitSystem s8.(table) s8.(transactions) true = waiting_desktop p INACTIVE INACTIVE) as ->
    by (cbv in E; injection E as <-; reflexivity).
  pose proof (start_compositor sc p) as Hc. rewrite Hok in Hc. cbn [mbind option_bind] in Hc.
  unfold start, start_fuel.
  erewrite start_level with (s1 := waiting_desktop p INACTIVE WAITING) (b := ok) (s2 := started_compositor p ok);
    [|vm_compute; reflexivity|vm_compute; reflexivity|by cbn|reflexivity|done|exact Hc|destruct ok; vm_compute; reflexivity].
  destruct ok; reflexivity.
Qed.

Lemma reach_target_eq sc p ok : compositor_ok p sc = Some ok ->
  init_system_reach_boot_target p sc fresh_system =
  Some (if p =? 0 then (true, text_system) else (ok, desktop_system p ok)).
Proof.
  intros Hok.
  unfold init_system_reach_boot_target. destruct (start_text sc) as [E1 E2].
  destruct (start 7 sc fresh_system) as [[b s7]|]; [|discriminate]. change (start 6 sc s7 = Some (true, text_system)) in E1. injection E2 as ->.
  cbn [mbind option_bind negb]. rewrite E1. cbn [mbind option_bind negb]. destruct (p =? 0); [done|].
  assert (is_Some (update_unit 8 (with_process p) text_system)) as [s8 E8] by (vm_compute; eauto).
  rewrite E8. cbn [mbind option_bind]. by apply start_desktop.
Qed.

(** The last step of the self test: restarting the project host. *)
Lemma compositor_alive p sc : compositor_ok p sc = Some true ->
  exists t, scheduler_snapshot p sc = Some t /\ (t.(state) = BLOCKED \/ t.(state) = READY).
Proof.
  unfold compositor_ok. destruct (p =? 0); [done|]. destruct (scheduler_snapshot p sc) as [t|]; [|done].
  destruct (negb _ && _) eqn:E; [done|]. intros _. exists t. split; [done|].
  apply andb_false_iff in E as [E|E]; apply negb_false_iff, bool_decide_eq_true in E; eauto.
Qed.

Lemma self_test_text sc : exists s', init_system_self_test sc text_system = Some (true, s').
Proof. eexists. vm_compute. reflexivity. Qed.

Lemma desktop_active_eq sc p ok : init_system_desktop_active sc (desktop_system p ok) =
  Some (ok && match scheduler_snapshot p sc with
        | Some t => bool_decide (t.(state) = BLOCKED) || bool_decide (t.(state) = READY)
        | None => false
        end).
Proof. by destruct ok. Qed.

Lemma self_test_desktop sc p ok : compositor_ok p sc = Some ok ->
  exists s', init_system_self_test sc (desktop_system p ok) = Some (ok, s').
Proof.
  intros Hp. unfold init_system_self_test. rewrite desktop_active_eq.
  destruct ok; [|eexists; vm_compute; reflexivity].
  destruct (compositor_alive p sc Hp) as (t & -> & Ht). cbn [mbind option_bind].
  assert (bool_decide (state t = BLOCKED) || bool_decide (state t = READY) = true) as ->.
  { apply orb_true_iff. destruct Ht; [left|right]; by apply bool_decide_eq_true_2. }
  clear Hp Ht. eexists. vm_compute. reflexivity.
Qed.

(** ** Properties *)

(** C19. Starting a unit respects dependencies: it returns within the depth bound,
    on success the unit is active, an active unit is never touched, nothing
    above the unit changes, and if every active unit's dependency was active
    this is so again. *)
Theorem start_respects_dependencies sc index s :
  names_ok sc -> length sc.(tasks) = 8%nat -> table_ok s ->
  (forall u, s.(table).[8] = Some u -> 0 <= u.(process_id)) -> 0 <= index < 10 ->
  exists b s', start index sc s = Some (b, s') /\ table_ok s' /\ (dep_closed s -> dep_closed s') /\
    (b = true -> is_active s' index) /\
    (forall j u, s.(table).[j] = Some u -> u.(u_state) = ACTIVE -> s'.(table).[j] = Some u) /\
    (forall j, index < j -> s'.(table).[j] = s.(table).[j]).
Proof.
  intros Hn Hl Hok Hp Hi.
  destruct (start_index_ok sc Hn Hl start_fuel index 0 s Hok Hp Hi) as (b & s' & E & [H1 H2 H3 H4 H5 H6]);
    [unfold start_fuel; lia|lia|]. by exists b, s'.
Qed.

Definition no_tasks : sched := Sched (replicate 8 (empty_task 0)) 0 0 true false 0 [] [] [] 0 0 ∅ 0.
Lemma no_tasks_names : names_ok no_tasks.
Proof.
  intros i t [_ Ht]%aget_Some. unfold no_tasks in Ht. cbn [tasks] in Ht.
  apply lookup_replicate_1 in Ht as [-> _]. exists 0. reflexivity.
Qed.

Lemma start_respects_dependencies_witness : exists s', start 5 no_tasks fresh_system = Some (true, s') /\ is_active s' 5.
Proof.
  destruct (start_respects_dependencies no_tasks 5 fresh_system no_tasks_names eq_refl eq_refl) as (b & s' & E & _ & _ & Ha & _).
  - intros u Hu. injection Hu as <-. discriminate.
  - lia.
  - assert (fst <$> start 5 no_tasks fresh_system = Some true) as Eb by (vm_compute; reflexivity).
    rewrite E in Eb. injection Eb as ->. exists s'. split; [exact E|apply Ha; reflexivity].
Defined.

(** C33. Booting the init system terminates and succeeds exactly when no compositor
    was started or the compositor is healthy; it activates the eight text-mode
    units, and with a healthy compositor all ten, one transaction each; and the
    self test, which also restarts the project host, gives the same verdict. *)
Theorem boot_target_reached p sc s :
  table_ok s -> names_ok sc -> length sc.(tasks) = 8%nat -> 0 <= p ->
  exists ok s' s'',
    init_system_reach_boot_target p sc (init_system_init s) = Some (ok, s') /\
    (ok = true <-> p = 0 \/ compositor_ok p sc = Some true) /\
    init_system_active_count s' = (if ok && negb (p =? 0) then 10 else 8) /\
    s'.(transactions) = init_system_active_count s' /\
    init_system_self_test sc s' = Some (ok, s'').
Proof.
  intros Hs Hn Hl Hp. destruct (compositor_total p sc Hn Hp Hl) as [ok Hok].
  rewrite init_fresh, (reach_target_eq sc p ok) by done. destruct (Z.eqb_spec p 0) as [->|Hp0]; cbn [negb].
  - destruct (self_test_text sc) as [s'' E]. exists true, text_system, s''.
    split; [done|]. split; [split; [intros _; by left|done]|]. split_and!; [done|done|exact E].
  - rewrite Hok. destruct (self_test_desktop sc p ok Hok) as [s'' E]. exists ok, (desktop_system p ok), s''.
    split; [done|]. split; [split; [intros ->; by right|intros [|[= ->]]; done]|].
    split_and!; [by destruct ok|by destruct ok|exact E].
Qed.

(** C39. Stopping the project host is reported as success, makes that unit inactive and
    leaves every other unit as it was, so the application manager that depends on it stays active: the
    closure of the active units under dependencies is lost. *)
Theorem stop_strands_dependents s u v :
  table_ok s -> s.(table).[4] = Some u -> u.(u_state) = ACTIVE -> s.(table).[5] = Some v -> v.(u_state) = ACTIVE ->
  exists s' u', init_system_stop project_host s = Some (true, s') /\
    s'.(table).[4] = Some u' /\ u'.(u_state) = INACTIVE /\ (forall j, j <> 4 -> s'.(table).[j] = s.(table).[j]) /\
    s'.(table).[5] = Some v /\ v.(dependency) = 4 /\ ~ dep_closed s'.
Proof.
  intros Hok Hu Ha Hv Hva. destruct (stop_ok s u Hok Hu Ha) as [-> _]. eexists _, _. split; [done|].
  rewrite transact_table. cbn [table set_table]. pose proof (aget_bound _ _ _ Hu) as Hb.
  change 4%nat with (Z.to_nat 4). rewrite !aget_insert by done. cbn [decide].
  destruct (mutable_static s 5 v _ Hok Hv eq_refl) as [_ Hd]. rewrite decide_True, decide_False by done.
  split_and!; try done.
  { intros j Hj. change (Z.to_nat 4) with 4%nat. unfold aget. destruct (Z.leb_spec 0 j); [|done]. by rewrite list_lookup_insert_ne by lia. }
  intros Hc. specialize (Hc 5 v (with_counts u.(starts) (u.(stops) + 1) (with_unit_state INACTIVE u))).
  rewrite transact_table, Hd in Hc. cbn [table set_table dependency] in Hc. change 4%nat with (Z.to_nat 4) in Hc.
  rewrite !aget_insert, decide_False, decide_True in Hc by done. by specialize (Hc Hv Hva eq_refl).
Qed.

Definition compositor_task : task :=
  Task 1 0 (cstr "compositor" ++ replicate 5 0) BLOCKED 0 0 0 0 0 0 0 0 0 0 0 false.
Definition desktop_sched : sched :=
  Sched (<[1%nat := compositor_task]> (replicate 8 (empty_task 0))) 0 0 true false 0 [] [] [] 0 0 ∅ 0.
Lemma desktop_names : names_ok desktop_sched.
Proof.
  intros i t [_ Ht]%aget_Some. unfold desktop_sched in Ht. cbn [tasks] in Ht.
  destruct (decide (Z.to_nat i = 1%nat)) as [E|E].
  - rewrite E in Ht. injection Ht as <-. exists 10. reflexivity.
  - rewrite list_lookup_insert_ne in Ht by done. apply lookup_replicate_1 in Ht as [-> _]. exists 0. reflexivity.
Qed.

Lemma boot_target_reached_witness :
  exists s' s'', init_system_reach_boot_target 1 desktop_sched (init_system_init fresh_system) = Some (true, s') /\
    init_system_active_count s' = 10 /\ init_system_self_test desktop_sched s' = Some (true, s'').
Proof.
  destruct (boot_target_reached 1 desktop_sched fresh_system) as (ok & s' & s'' & E & Hok & Ha & _ & Ht).
  - reflexivity.
  - exact desktop_names.
  - reflexivity.
  - lia.
  - assert (ok = true) as -> by (apply Hok; right; vm_compute; reflexivity). exists s', s''. by split_and!.
Defined.

Lemma stop_strands_dependents_witness :
  exists s', init_system_stop project_host text_system = Some (true, s') /\ ~ dep_closed s'.
Proof.
  destruct (stop_strands_dependents text_system (Unit (cstr "project-host.service") (cstr "Portable MKO project host") 3 ACTIVE true 1 0 0)
    (Unit (cstr "app-manager.service") (cstr "Installed application catalog") 4 ACTIVE false 1 0 0)) as (s' & u' & E & _ & _ & _ & _ & _ & H).
  - reflexivity.
  - reflexivity.
  - reflexivity.
  - reflexivity.
  - reflexivity.
  - exists s'. by split.
Defined.
