(* ===== verification/BoundedTable.v ===== *)
(** The fixed-capacity name table [kernel::bounded_table] of
    [src/include/kernel/bounded_table.h]: slots found by exact name, identified
    from 1, reused after a release. *)

From S2P Require Import Prelude.

(** A slot: [name] is the array of [NameMax + 1] bytes. *)
Record entry (T : Type) := Entry { used : bool; e_name : list Z; name_length : Z; payload : T }.
Arguments Entry {T}. Arguments used {T}. Arguments e_name {T}. Arguments name_length {T}. Arguments payload {T}.

Section bounded_table.
Context {T : Type} (Capacity NameMax : Z) (new : T).

(** Every slot default constructed. *)
Definition bounded_table : list (entry T) :=
  replicate (Z.to_nat Capacity) (Entry false (replicate (Z.to_nat (NameMax + 1)) 0) 0 new).

(** The index of the slot of an id. *)
Definition slot (id : Z) : option Z := if (id =? 0) || (Capacity <? id) then None else Some (id - 1).

(** [a[i + k] == b[j + k]] for [k] below [n]. *)
Fixpoint region_equal (n : nat) (i : Z) (a : list Z) (j : Z) (b : list Z) : option bool :=
  match n with
  | O => Some true
  | S n => x ← a.[i]; y ← b.[j]; if negb (x =? y) then Some false else region_equal n (i + 1) a (j + 1) b
  end.

Definition names_equal (e : entry T) (name : list Z) (len : Z) : option bool :=
  if negb (e.(name_length) =? len) then Some false else region_equal (Z.to_nat len) 0 e.(e_name) 0 name.

Fixpoint find_from (t : list (entry T)) (i : Z) (name : list Z) (len : Z) : option (option Z) :=
  match t with
  | [] => Some None
  | e :: t =>
      if negb e.(used) then find_from t (i + 1) name len else
      same ← names_equal e name len;
      if negb same then find_from t (i + 1) name len else Some (Some (i + 1))
  end.

Definition find (t : list (entry T)) (name : option (list Z)) (len : Z) : option (option Z) :=
  match name with
  | None => Some None
  | Some name => if (len =? 0) || (NameMax <? len) then Some None else find_from t 0 name len
  end.

(** Storing a name with its terminator. *)
Definition store_name (a name : list Z) (len : Z) : option (list Z) :=
  a ← copy_into a 0 name 0 (Z.to_nat len); a.[len <- 0].

Fixpoint claim_from (t : list (entry T)) (i : Z) (name : list Z) (len : Z) : option (option (Z * list (entry T))) :=
  match t with
  | [] => Some None
  | e :: t =>
      if e.(used) then
        r ← claim_from t (i + 1) name len;
        Some (match r with Some (id, t) => Some (id, e :: t) | None => None end)
      else
        a ← store_name e.(e_name) name len;
        Some (Some (i + 1, Entry true a len new :: t))
  end.

(** Open or create: the id, or [None] for failure. *)
Definition open (t : list (entry T)) (name : option (list Z)) (len : Z) (create : bool) : option (option Z * list (entry T)) :=
  f ← find t name len;
  match f with
  | Some id => Some (Some id, t)
  | None =>
      match name with
      | None => Some (None, t)
      | Some name =>
          if negb create || (len =? 0) || (NameMax <? len) then Some (None, t) else
          r ← claim_from t 0 name len;
          Some (match r with Some (id, t) => (Some id, t) | None => (None, t) end)
      end
  end.

Definition payload_for (t : list (entry T)) (id : Z) : option (option T) :=
  match slot id with
  | None => Some None
  | Some i => e ← t.[i]; Some (if e.(used) then Some e.(payload) else None)
  end.
(** Assignment through the pointer [payload_for] returned. *)
Definition set_payload (t : list (entry T)) (id : Z) (p : T) : option (list (entry T)) :=
  i ← slot id; e ← t.[i]; t.[i <- Entry e.(used) e.(e_name) e.(name_length) p].

Definition release (t : list (entry T)) (id : Z) : option (bool * list (entry T)) :=
  p ← payload_for t id;
  match p, slot id with
  | Some _, Some i => e ← t.[i]; t ← t.[i <- Entry false e.(e_name) 0 new]; Some (true, t)
  | _, _ => Some (false, t)
  end.

Definition rename (t : list (entry T)) (id : Z) (new_name : option (list Z)) (len : Z) : option (bool * list (entry T)) :=
  match slot id, new_name with
  | Some i, Some name =>
      e ← t.[i];
      if negb e.(used) || (len =? 0) || (NameMax <? len) then Some (false, t) else
      a ← store_name e.(e_name) name len;
      t ← t.[i <- Entry e.(used) a len e.(payload)]; Some (true, t)
  | _, _ => Some (false, t)
  end.

Definition name_length_for (t : list (entry T)) (id : Z) : option Z :=
  match slot id with
  | None => Some 0
  | Some i => e ← t.[i]; Some (if e.(used) then e.(name_length) else 0)
  end.
(** The name array, or a null pointer. *)
Definition name_for (t : list (entry T)) (id : Z) : option (option (list Z)) :=
  match slot id with
  | None => Some None
  | Some i => e ← t.[i]; Some (if e.(used) then Some e.(e_name) else None)
  end.

(** ** What the table contains *)

Definition key (e : entry T) : list Z := take (Z.to_nat e.(name_length)) e.(e_name).
End bounded_table.
