(* ===== verification/BoundedTableSpec.v ===== *)
(** The bounded table as a finite map from ids to names and payloads: every
    operation is total and acts on the map as its comments say. *)

From stdpp Require Import gmap.
From S2P Require Import Prelude BoundedTable.

Section spec.
Context {T : Type} (Capacity NameMax : Z) (new : T) (Hcap : 0 <= Capacity) (Hmax : 0 <= NameMax).
Implicit Types (t : list (entry T)) (e : entry T) (name n : list Z).

Definition entry_view e : option (list Z * T) := if e.(used) then Some (key e, e.(payload)) else None.
Definition content t : gmap Z (list Z * T) := omap entry_view (map_seqZ 1 t).
Definition named (m : gmap Z (list Z * T)) (id : Z) n : Prop := exists p, m !! id = Some (n, p).
Definition absent (m : gmap Z (list Z * T)) n : Prop := forall id, ~ named m id n.

Definition entry_ok e : Prop :=
  Z.of_nat (length e.(e_name)) = NameMax + 1 /\ 0 <= e.(name_length) <= NameMax /\
  (e.(used) = true -> 1 <= e.(name_length)).
Record table_wf t : Prop := {
  tw_length : Z.of_nat (length t) = Capacity;
  tw_entries : Forall entry_ok t;
  tw_unique : forall i j n, named (content t) i n -> named (content t) j n -> i = j;
}.

Lemma content_lookup t id : content t !! id = t.[id - 1] ≫= entry_view.
Proof.
  unfold content. rewrite lookup_omap, lookup_map_seqZ. unfold aget.
  destruct (decide (1 <= id)); [rewrite option_guard_True by done|rewrite option_guard_False by done].
  - by rewrite (proj2 (Z.leb_le 0 (id - 1))) by lia.
  - by rewrite (proj2 (Z.leb_gt 0 (id - 1))) by lia.
Qed.

Lemma content_bound t id v : table_wf t -> content t !! id = Some v -> 1 <= id <= Capacity.
Proof.
  intros Hwf. rewrite content_lookup. destruct (t.[id - 1]) as [e|] eqn:E; [|done]. intros _.
  apply aget_bound in E. rewrite <- (tw_length _ Hwf). lia.
Qed.

(** Storing an entry in a slot changes one id. *)
Definition updated (m : gmap Z (list Z * T)) (id : Z) (v : option (list Z * T)) : gmap Z (list Z * T) :=
  match v with Some v => <[id := v]> m | None => delete id m end.

Lemma content_insert t i e : 0 <= i < Z.of_nat (length t) ->
  content (<[Z.to_nat i := e]> t) = updated (content t) (i + 1) (entry_view e).
Proof.
  intros Hi. apply map_eq. intros id. rewrite content_lookup, (aget_insert t) by done. unfold updated.
  destruct (decide (id - 1 = i)) as [E|E].
  - replace id with (i + 1) by lia. cbn [mbind option_bind]. destruct (entry_view e); by simplify_map_eq.
  - destruct (entry_view e); [rewrite lookup_insert_ne by lia|rewrite lookup_delete_ne by lia]; by rewrite content_lookup.
Qed.

(** ** Names *)

Lemma region_equal_ok k : forall i a j b,
  0 <= i -> i + Z.of_nat k <= Z.of_nat (length a) -> 0 <= j -> j + Z.of_nat k <= Z.of_nat (length b) ->
  region_equal k i a j b = Some (bool_decide (take k (drop (Z.to_nat i) a) = take k (drop (Z.to_nat j) b))).
Proof.
  induction k as [|k IH]; intros i a j b Hi Ha Hj Hb; cbn [region_equal]; [done|].
  destruct (aget_in a i) as [x Hx]; [lia|]. destruct (aget_in b j) as [y Hy]; [lia|].
  rewrite Hx, Hy. cbn [mbind option_bind]. apply aget_Some in Hx as [_ Hx], Hy as [_ Hy].
  rewrite (drop_S a x), (drop_S b y) by done. cbn [take].
  destruct (Z.eqb_spec x y) as [->|Hne]; cbn [negb].
  - rewrite IH by lia. replace (Z.to_nat (i + 1)) with (S (Z.to_nat i)) by lia.
    replace (Z.to_nat (j + 1)) with (S (Z.to_nat j)) by lia.
    f_equal. apply bool_decide_ext. split; [by intros ->|by intros [= ->]].
  - rewrite bool_decide_eq_false_2; [done|]. by intros [= ? ?].
Qed.

Lemma key_length e : entry_ok e -> Z.of_nat (length (key e)) = e.(name_length).
Proof. intros (Hl & Hn & _). unfold key. rewrite length_take. lia. Qed.

Lemma names_equal_ok e name len : entry_ok e -> 0 <= len <= Z.of_nat (length name) ->
  names_equal e name len = Some (bool_decide (key e = take (Z.to_nat len) name)).
Proof.
  intros He Hlen. unfold names_equal. pose proof (key_length e He) as Hk. destruct He as (Hl & Hn & _).
  destruct (Z.eqb_spec (name_length e) len) as [E|E]; cbn [negb].
  - rewrite region_equal_ok by lia. change (Z.to_nat 0) with 0%nat. rewrite !drop_0. unfold key. by rewrite E.
  - rewrite bool_decide_eq_false_2; [done|]. intros Heq. rewrite Heq, length_take in Hk. lia.
Qed.

(** ** Searching *)

Definition is_named n e : Prop := e.(used) = true /\ key e = n.
#[local] Instance is_named_dec n e : Decision (is_named n e) := _.
Definition is_free e : Prop := e.(used) = false.
#[local] Instance is_free_dec e : Decision (is_free e) := _.

Lemma find_from_ok t : forall i name len, Forall entry_ok t -> 0 <= len <= Z.of_nat (length name) ->
  find_from t i name len =
    Some ((fun r => Z.of_nat r.1 + i + 1) <$> list_find (is_named (take (Z.to_nat len) name)) t).
Proof.
  induction t as [|e t IH]; intros i name len Ht Hlen; cbn [find_from list_find]; [done|].
  apply Forall_cons_1 in Ht as [He Ht].
  assert (Hrec : find_from t (i + 1) name len =
    Some ((fun r => Z.of_nat r.1 + i + 1) <$> (prod_map S id <$> list_find (is_named (take (Z.to_nat len) name)) t))).
  { rewrite IH by done. f_equal. destruct (list_find _ t) as [[j x]|]; cbn; [f_equal; lia|done]. }
  destruct (decide (is_named _ e)) as [[Hu Hk]|Hn].
  - rewrite Hu, names_equal_ok by done. cbn [mbind option_bind negb]. by rewrite Hk, bool_decide_eq_true_2.
  - destruct (used e) eqn:Hu; cbn [negb]; [|done]. rewrite names_equal_ok by done. cbn [mbind option_bind].
    rewrite bool_decide_eq_false_2; [done|]. intros ?. by apply Hn.
Qed.

Lemma store_name_ok a name len : Z.of_nat (length a) = NameMax + 1 -> 0 <= len <= NameMax -> len <= Z.of_nat (length name) ->
  exists b, store_name a name len = Some b /\ Z.of_nat (length b) = NameMax + 1 /\
    take (Z.to_nat len) b = take (Z.to_nat len) name.
Proof.
  intros Ha Hl Hn. unfold store_name. rewrite copy_into_spec by lia. cbn [mbind option_bind].
  change (Z.to_nat 0) with 0%nat. rewrite drop_0, take_0, app_nil_l. cbn [Nat.add].
  assert (length (take (Z.to_nat len) name) = Z.to_nat len) as Ht by (rewrite length_take; lia).
  rewrite aset_in by (rewrite length_app, length_drop, Ht; lia). eexists. split; [done|].
  rewrite length_insert, length_app, length_drop, Ht. split; [lia|].
  rewrite take_insert_ge by lia. rewrite take_app_length'; done.
Qed.

Definition claimed t (i : nat) a len : list (entry T) := <[i := Entry true a len new]> t.

Lemma claim_from_ok t : forall i name len, Forall entry_ok t -> 1 <= len <= NameMax -> len <= Z.of_nat (length name) ->
  exists r, claim_from new t i name len = Some r /\
    match r with
    | Some (id, t') => exists j e a, list_find is_free t = Some (j, e) /\ id = Z.of_nat j + i + 1 /\
        t' = claimed t j a len /\ Z.of_nat (length a) = NameMax + 1 /\ take (Z.to_nat len) a = take (Z.to_nat len) name
    | None => Forall (fun e => e.(used) = true) t
    end.
Proof.
  induction t as [|e t IH]; intros i name len Ht Hlen Hn; cbn [claim_from list_find]; [by exists None|].
  apply Forall_cons_1 in Ht as [He Ht]. destruct (used e) eqn:Hu.
  - destruct (IH (i + 1) name len Ht Hlen Hn) as (r & -> & Hr). cbn [mbind option_bind].
    destruct (decide (is_free e)) as [Hf|_]; [by rewrite Hf in Hu|]. destruct r as [[id t']|]; eexists; (split; [done|]); [|by constructor].
    destruct Hr as (j & x & a & -> & -> & -> & Ha). exists (S j), x, a. split; [done|]. split; [lia|]. done.
  - destruct He as (Hl & _). destruct (store_name_ok (e_name e) name len) as (a & -> & Ha); [lia..|].
    cbn [mbind option_bind]. eexists. split; [done|]. rewrite decide_True by done. exists 0%nat, e, a.
    split; [done|]. split; [lia|]. done.
Qed.

(** ** The operations on the map *)

Lemma named_slot t id n : named (content t) id n <-> exists e, t.[id - 1] = Some e /\ is_named n e.
Proof.
  unfold named. rewrite content_lookup. unfold is_named, entry_view. split.
  - intros [p Hp]. destruct (t.[id - 1]) as [e|]; [|done]. cbn in Hp. destruct (used e) eqn:Hu; [|done].
    injection Hp as <- <-. by exists e.
  - intros (e & -> & Hu & <-). cbn. rewrite Hu. eauto.
Qed.

Lemma find_ok t name len : table_wf t -> 0 <= len <= Z.of_nat (length name) ->
  exists r, find NameMax t (Some name) len = Some r /\
    match r with
    | Some id => 1 <= id <= Capacity /\ 1 <= len <= NameMax /\ named (content t) id (take (Z.to_nat len) name)
    | None => absent (content t) (take (Z.to_nat len) name)
    end.
Proof.
  intros Hwf Hlen. unfold find.
  assert (forall id, named (content t) id (take (Z.to_nat len) name) -> 1 <= len <= NameMax) as Hb.
  { intros id (e & He & Hu & Hk)%named_slot. pose proof (aget_Forall _ _ _ _ (tw_entries t Hwf) He) as Hok.
    pose proof (key_length e Hok) as Hkl. rewrite Hk, length_take in Hkl. destruct Hok as (_ & Hr & Hu1). specialize (Hu1 Hu). lia. }
  destruct ((len =? 0) || (NameMax <? len)) eqn:E.
  { exists None. split; [done|]. intros id Hid. specialize (Hb id Hid). apply orb_true_iff in E as [E|E]; lia. }
  rewrite find_from_ok by (done || apply Hwf). eexists. split; [done|].
  destruct (list_find _ t) as [[j e]|] eqn:El; cbn [fmap option_fmap option_map].
  - apply list_find_Some in El as (Hj & Hne & _). cbn [fst].
    assert (named (content t) (Z.of_nat j + 0 + 1) (take (Z.to_nat len) name)) as Hid.
    { apply named_slot. exists e. split; [|done]. replace (Z.of_nat j + 0 + 1 - 1) with (Z.of_nat j) by lia. by rewrite aget_nat. }
    split; [|by eauto]. destruct Hid as [p Hp]. by apply (content_bound t _ _ Hwf) in Hp.
  - apply list_find_None in El. intros id (e & He & Hn)%named_slot. by apply (aget_Forall _ _ _ _ El He).
Qed.

Lemma entry_stored a len p name : 1 <= len <= NameMax -> Z.of_nat (length a) = NameMax + 1 ->
  take (Z.to_nat len) a = take (Z.to_nat len) name ->
  entry_ok (Entry true a len p) /\ entry_view (Entry true a len p) = Some (take (Z.to_nat len) name, p).
Proof.
  intros Hl Ha Ht. split; [split; [done|]; cbn; lia|]. unfold entry_view, key. cbn. by rewrite Ht.
Qed.

(** Storing an entry whose name is not that of another slot. *)
Lemma insert_wf t i e : table_wf t -> 0 <= i < Capacity -> entry_ok e ->
  (forall n p, entry_view e = Some (n, p) -> forall j, named (content t) j n -> j = i + 1) ->
  table_wf (<[Z.to_nat i := e]> t) /\
  content (<[Z.to_nat i := e]> t) = updated (content t) (i + 1) (entry_view e).
Proof.
  intros Hwf Hi He Hn. pose proof (tw_length _ Hwf) as Hl. assert (Hc := content_insert t i e ltac:(lia)).
  split; [|done]. split.
  - by rewrite length_insert.
  - apply Forall_insert; [apply Hwf|done].
  - intros j k n [p Hj] [q Hk]. rewrite Hc in Hj, Hk. unfold updated in Hj, Hk.
    assert (forall j p, j <> i + 1 -> updated (content t) (i + 1) (entry_view e) !! j = Some (n, p) -> named (content t) j n) as Ho.
    { intros j' p' Hne. unfold updated. destruct (entry_view e);
        [rewrite lookup_insert_ne by lia|rewrite lookup_delete_ne by lia]; intros ?; by exists p'. }
    unfold updated in Ho. destruct (entry_view e) as [[n' p']|] eqn:Ev.
    + destruct (decide (j = i + 1)) as [->|Hji], (decide (k = i + 1)) as [->|Hki]; [done| | |].
      * rewrite lookup_insert_eq in Hj. injection Hj as <- <-. symmetry. by apply (Hn n' p' eq_refl), (Ho k q).
      * rewrite lookup_insert_eq in Hk. injection Hk as <- <-. by apply (Hn n' p' eq_refl), (Ho j p).
      * by apply (tw_unique _ Hwf j k n); [apply (Ho j p)|apply (Ho k q)].
    + destruct (decide (j = i + 1)) as [->|Hji]; [by rewrite lookup_delete_eq in Hj|].
      destruct (decide (k = i + 1)) as [->|Hki]; [by rewrite lookup_delete_eq in Hk|].
      by apply (tw_unique _ Hwf j k n); [apply (Ho j p)|apply (Ho k q)].
Qed.

(** What [open] does to the map: the file with this name, or the first free id. *)
Definition opened (create : bool) (m : gmap Z (list Z * T)) n (r : option Z) (m' : gmap Z (list Z * T)) : Prop :=
  match r with
  | Some id =>
      (named m id n /\ m' = m) \/
      (create = true /\ absent m n /\ 1 <= id <= Capacity /\ m !! id = None /\
       (forall j, 1 <= j < id -> is_Some (m !! j)) /\ m' = <[id := (n, new)]> m)
  | None => m' = m /\ absent m n /\ (create = false \/ forall id, 1 <= id <= Capacity -> is_Some (m !! id))
  end.

Lemma content_free t i e : t !! i = Some e -> (content t !! (Z.of_nat i + 1) = None <-> e.(used) = false).
Proof.
  intros Hi. rewrite content_lookup. replace (Z.of_nat i + 1 - 1) with (Z.of_nat i) by lia.
  rewrite aget_nat, Hi. cbn. unfold entry_view. by destruct (used e).
Qed.

Lemma open_ok t name len create : table_wf t -> 1 <= len <= NameMax -> len <= Z.of_nat (length name) ->
  exists r t', open NameMax new t (Some name) len create = Some (r, t') /\ table_wf t' /\
    opened create (content t) (take (Z.to_nat len) name) r (content t').
Proof.
  intros Hwf Hl Hn. unfold open. destruct (find_ok t name len Hwf) as (f & -> & Hf); [lia|]. cbn [mbind option_bind].
  destruct f as [id|]; [exists (Some id), t; split; [done|]; split; [done|]; left; split; [apply Hf|done]|].
  rewrite (proj2 (Z.eqb_neq len 0)), (proj2 (Z.ltb_ge NameMax len)) by lia. rewrite !orb_false_r.
  destruct create; cbn [negb]; [|exists None, t; do 2 (split; [done|]); split; [done|]; by split; [|left]].
  destruct (claim_from_ok t 0 name len (tw_entries t Hwf) Hl Hn) as (r & -> & Hr). cbn [mbind option_bind].
  destruct r as [[id t']|].
  - destruct Hr as (j & e & a & Ef & -> & -> & Ha & Hta). apply list_find_Some in Ef as (Hj & Hfree & Hmin).
    pose proof (lookup_lt_Some _ _ _ Hj) as Hjl. pose proof (tw_length _ Hwf) as HL.
    destruct (entry_stored a len new name Hl Ha Hta) as [Hok Hv].
    destruct (insert_wf t (Z.of_nat j) (Entry true a len new) Hwf ltac:(lia) Hok) as [Hwf' Hc].
    { intros n p Hnp k Hk. rewrite Hv in Hnp. injection Hnp as <- <-. by apply Hf in Hk. }
    rewrite Nat2Z.id in Hwf', Hc. rewrite Hv in Hc. eexists _, _. split; [done|]. split; [done|]. right.
    replace (Z.of_nat j + 0 + 1) with (Z.of_nat j + 1) by lia. split; [done|]. split; [done|]. split; [lia|].
    split; [by apply (content_free t j e)|]. split; [|done].
    intros k Hk. destruct (lookup_lt_is_Some_2 t (Z.to_nat (k - 1))) as [x Hx]; [lia|].
    destruct (content t !! k) eqn:Ek; [by eexists|]. replace k with (Z.of_nat (Z.to_nat (k - 1)) + 1) in Ek by lia.
    apply (content_free t _ x Hx) in Ek. exfalso. apply (Hmin _ x Hx ltac:(lia)). exact Ek.
  - eexists _, _. split; [done|]. split; [done|]. split; [done|]. split; [done|]. right.
    intros id Hid. pose proof (tw_length _ Hwf) as HL. destruct (lookup_lt_is_Some_2 t (Z.to_nat (id - 1))) as [x Hx]; [lia|].
    destruct (content t !! id) eqn:Ek; [by eexists|]. replace id with (Z.of_nat (Z.to_nat (id - 1)) + 1) in Ek by lia.
    apply (content_free t _ x Hx) in Ek. eapply Forall_lookup_1 in Hr; [|exact Hx]. cbn in Hr. congruence.
Qed.

(** ** Payloads *)

Lemma slot_content t id : table_wf t -> 0 <= id ->
  (slot Capacity id = None /\ content t !! id = None) \/
  (1 <= id <= Capacity /\ slot Capacity id = Some (id - 1) /\
   exists e, t.[id - 1] = Some e /\ content t !! id = entry_view e /\ entry_ok e).
Proof.
  intros Hwf Hid. unfold slot. destruct (content t !! id) as [v|] eqn:E.
  - right. pose proof (content_bound t id v Hwf E) as Hb. split; [done|].
    rewrite (proj2 (Z.eqb_neq id 0)), (proj2 (Z.ltb_ge Capacity id)) by lia. split; [done|].
    rewrite content_lookup in E. destruct (t.[id - 1]) as [e|] eqn:He; [|done]. cbn in E.
    exists e. split; [done|]. split; [done|]. by eapply aget_Forall; [apply Hwf|].
  - destruct ((id =? 0) || (Capacity <? id)) eqn:Eb; [by left|]. right. b2p. split; [lia|]. split; [done|].
    destruct (aget_in t (id - 1)) as [e He]; [rewrite (tw_length _ Hwf); lia|]. exists e. split; [done|].
    rewrite content_lookup, He in E. split; [done|]. by eapply aget_Forall; [apply Hwf|].
Qed.

Lemma payload_for_ok t id : table_wf t -> 0 <= id -> payload_for Capacity t id = Some (snd <$> content t !! id).
Proof.
  intros Hwf Hid. unfold payload_for. destruct (slot_content t id Hwf Hid) as [[-> ->]|(_ & -> & e & -> & -> & _)]; [done|].
  cbn [mbind option_bind]. unfold entry_view. by destruct (used e).
Qed.

Lemma set_payload_ok t id n p q : table_wf t -> content t !! id = Some (n, p) ->
  exists t', set_payload Capacity t id q = Some t' /\ table_wf t' /\ content t' = <[id := (n, q)]> (content t).
Proof.
  intros Hwf Hc. pose proof (content_bound t id _ Hwf Hc) as Hb.
  destruct (slot_content t id Hwf) as [[_ E]|(_ & Hs & e & He & Ev & Hok)]; [lia|congruence|].
  unfold set_payload. rewrite Hs. cbn [mbind option_bind]. rewrite He. cbn [mbind option_bind].
  rewrite Hc in Ev. unfold entry_view in Ev. destruct (used e) eqn:Hu; [|done]. injection Ev as -> ->.
  rewrite aset_in by (by eapply aget_bound). eexists. split; [done|].
  destruct (insert_wf t (id - 1) (Entry true (e_name e) (name_length e) q) Hwf) as [Hwf' Hc']; [lia| | |].
  - destruct Hok as (? & ? & Hu'). split; [done|]. split; [done|]. cbn. intros _. by apply Hu'.
  - intros n' p' [= <- <-] j Hj. apply (tw_unique _ Hwf j (id - 1 + 1) (key e) Hj).
    replace (id - 1 + 1) with id by lia. by eexists.
  - split; [done|]. rewrite Hc'. cbn. by replace (id - 1 + 1) with id by lia.
Qed.

Lemma release_ok t id : table_wf t -> 0 <= id -> exists t',
  release Capacity new t id = Some (bool_decide (is_Some (content t !! id)), t') /\ table_wf t' /\ content t' = delete id (content t).
Proof.
  intros Hwf Hid. unfold release. rewrite payload_for_ok by done. cbn [mbind option_bind].
  destruct (content t !! id) as [[n p]|] eqn:Ec; cbn [fmap option_fmap option_map snd].
  2: { exists t. rewrite bool_decide_eq_false_2 by (by intros [? ?]). rewrite delete_id; [|done].
       by destruct (slot Capacity id). }
  destruct (slot_content t id Hwf Hid) as [[_ E]|(Hb & Hs & e & He & Ev & Hok)]; [congruence|].
  rewrite Hs. cbn [mbind option_bind]. rewrite He. cbn [mbind option_bind]. rewrite aset_in by (by eapply aget_bound).
  rewrite bool_decide_eq_true_2 by (by eexists). cbn [mbind option_bind]. eexists. split; [done|].
  destruct (insert_wf t (id - 1) (Entry false (e_name e) 0 new) Hwf) as [Hwf' Hc']; [lia| |done|].
  - destruct Hok as (? & ? & _). split; [done|]. split; [cbn; lia|done].
  - split; [done|]. rewrite Hc'. cbn. by replace (id - 1 + 1) with id by lia.
Qed.

Lemma rename_ok t id name len n p : table_wf t -> content t !! id = Some (n, p) ->
  1 <= len <= NameMax -> len <= Z.of_nat (length name) -> absent (content t) (take (Z.to_nat len) name) ->
  exists t', rename Capacity NameMax t id (Some name) len = Some (true, t') /\ table_wf t' /\
    content t' = <[id := (take (Z.to_nat len) name, p)]> (content t).
Proof.
  intros Hwf Hc Hl Hn Hab. pose proof (content_bound t id _ Hwf Hc) as Hb.
  destruct (slot_content t id Hwf) as [[_ E]|(_ & Hs & e & He & Ev & Hok)]; [lia|congruence|].
  unfold rename. rewrite Hs, He. cbn [mbind option_bind]. rewrite Hc in Ev. unfold entry_view in Ev.
  destruct (used e) eqn:Hu; [|done]. injection Ev as -> ->.
  rewrite (proj2 (Z.eqb_neq len 0)), (proj2 (Z.ltb_ge NameMax len)) by lia. cbn [negb orb].
  destruct (store_name_ok (e_name e) name len) as (a & -> & Ha & Hta); [apply Hok|lia..|]. cbn [mbind option_bind].
  rewrite aset_in by (by eapply aget_bound). cbn [mbind option_bind]. eexists. split; [done|].
  destruct (entry_stored a len (payload e) name Hl Ha Hta) as [Hok' Hv].
  destruct (insert_wf t (id - 1) (Entry true a len (payload e)) Hwf ltac:(lia) Hok') as [Hwf' Hc'].
  - intros n' p' Hv' j Hj. rewrite Hv in Hv'. injection Hv' as <- <-. by apply Hab in Hj.
  - split; [done|]. rewrite Hc', Hv. cbn. by replace (id - 1 + 1) with id by lia.
Qed.

Lemma names_ok t id n p : table_wf t -> content t !! id = Some (n, p) ->
  exists a, name_for Capacity t id = Some (Some a) /\ name_length_for Capacity t id = Some (Z.of_nat (length n)) /\
    take (length n) a = n /\ (1 <= length n)%nat /\ Z.of_nat (length n) <= NameMax /\ Z.of_nat (length a) = NameMax + 1.
Proof.
  intros Hwf Hc. pose proof (content_bound t id _ Hwf Hc) as Hb.
  destruct (slot_content t id Hwf) as [[_ E]|(_ & Hs & e & He & Ev & Hok)]; [lia|congruence|].
  unfold name_for, name_length_for. rewrite Hs, He. cbn [mbind option_bind]. rewrite Hc in Ev. unfold entry_view in Ev.
  destruct (used e) eqn:Hu; [|done]. injection Ev as -> ->. exists (e_name e). pose proof (key_length e Hok) as Hk.
  destruct Hok as (Ha & Hr & H1). specialize (H1 Hu). split; [done|]. rewrite Hk. split; [done|].
  split; [|lia]. unfold key at 2. f_equal. lia.
Qed.

Lemma bounded_table_wf : table_wf (bounded_table Capacity NameMax new) /\ content (bounded_table Capacity NameMax new) = ∅.
Proof.
  assert (content (bounded_table Capacity NameMax new) = ∅) as Hc.
  { apply map_eq. intros id. rewrite content_lookup, lookup_empty. destruct (_.[id - 1]) as [e|] eqn:E; [|done].
    apply aget_Some in E as [_ E]. apply lookup_replicate_1 in E as [-> _]. done. }
  split; [|done]. split.
  - unfold bounded_table. rewrite length_replicate. lia.
  - apply Forall_replicate. split; [|cbn; lia]. cbn [e_name]. rewrite length_replicate. lia.
  - intros i j n [p Hp]. by rewrite Hc in Hp.
Qed.
End spec.
