(* ===== verification/Ramfs.v ===== *)
(** The RAM file system of [src/ramfs.cpp]: named files in a bounded table, bytes in
    an arena allocated upwards and never reclaimed, read-only files that refer to
    boot modules, and directory listings computed from the names. *)

From Stdlib Require Import Ascii String.
From S2P Require Import Prelude BoundedTable.

Definition kRamfsFiles : Z := 56.
Definition kRamfsNameMax : Z := 63.
Definition kRamfsDataMax : Z := 196608.
Definition kRamfsStorageMax : Z := 1048576.

(** [external_data] points to the bytes of a boot module. *)
Record ramfs_payload := Payload { offset : Z; capacity : Z; f_length : Z; external_data : option (list Z) }.
Definition new_payload : ramfs_payload := Payload 0 0 0 None.

Record ramfs := Ramfs {
  files : list (entry ramfs_payload); storage : list Z; storage_used : Z;
  read_count : Z; write_count : Z; seeded_count : Z
}.
Definition set_files (t : list (entry ramfs_payload)) (s : ramfs) : ramfs :=
  Ramfs t s.(storage) s.(storage_used) s.(read_count) s.(write_count) s.(seeded_count).
Definition set_storage (a : list Z) (n : Z) (s : ramfs) : ramfs :=
  Ramfs s.(files) a n s.(read_count) s.(write_count) s.(seeded_count).
Definition count_read (s : ramfs) : ramfs :=
  Ramfs s.(files) s.(storage) s.(storage_used) (u64 (s.(read_count) + 1)) s.(write_count) s.(seeded_count).
Definition count_write (s : ramfs) : ramfs :=
  Ramfs s.(files) s.(storage) s.(storage_used) s.(read_count) (u64 (s.(write_count) + 1)) s.(seeded_count).
Definition count_seeded (s : ramfs) : ramfs :=
  Ramfs s.(files) s.(storage) s.(storage_used) s.(read_count) s.(write_count) (u64 (s.(seeded_count) + 1)).

(** ** Names *)

Definition char_allowed (v : Z) : bool :=
  ((97 <=? v) && (v <=? 122)) || ((65 <=? v) && (v <=? 90)) || ((48 <=? v) && (v <=? 57))
  || (v =? 46) || (v =? 95) || (v =? 45).

Fixpoint chars_allowed (n : nat) (i : Z) (a : list Z) : option bool :=
  match n with
  | O => Some true
  | S n => v ← a.[i]; if negb (char_allowed v) then Some false else chars_allowed n (i + 1) a
  end.

(** The segment of [len] bytes at [start]. *)
Definition valid_segment (a : list Z) (start len : Z) : option bool :=
  if len =? 0 then Some false else
  dot ← (if len =? 1 then v ← a.[start]; Some (v =? 46) else Some false);
  if (dot : bool) then Some false else
  dots ← (if len =? 2 then v ← a.[start]; if v =? 46 then w ← a.[start + 1]; Some (w =? 46) else Some false
          else Some false);
  if (dots : bool) then Some false else chars_allowed (Z.to_nat len) start a.

Fixpoint valid_from (n : nat) (a : list Z) (len cursor segment_start : Z) : option bool :=
  match n with
  | O => Some true
  | S n =>
      stop ← (if cursor =? len then Some true else v ← a.[cursor]; Some (v =? 47));
      if (stop : bool) then
        ok ← valid_segment a segment_start (cursor - segment_start);
        if negb ok then Some false else valid_from n a len (cursor + 1) (cursor + 1)
      else valid_from n a len (cursor + 1) segment_start
  end.

(** [while (cursor <= length)] runs [length + 1 - segment_start] times. *)
Definition valid_name (name : option (list Z)) (len : Z) : option bool :=
  match name with
  | None => Some false
  | Some a =>
      if (len =? 0) || (kRamfsNameMax <? len) then Some false else
      v ← a.[0];
      let segment_start := if v =? 47 then 1 else 0 in
      if segment_start =? len then Some false else
      valid_from (Z.to_nat (len + 1 - segment_start)) a len segment_start segment_start
  end.

(** ** Contents *)

Definition payload_of (s : ramfs) (id : Z) : option (option ramfs_payload) := payload_for kRamfsFiles s.(files) id.

(** [store(table.payload_for(id), data, length)] *)
Definition store (id : Z) (data : option (list Z)) (len : Z) (s : ramfs) : option (bool * ramfs) :=
  file ← payload_of s id;
  match file, data with
  | Some f, Some data =>
      if match f.(external_data) with Some _ => true | None => false end || (kRamfsDataMax <? len)
      then Some (false, s) else
      let grow := f.(capacity) <? len in
      if grow && (u64 (kRamfsStorageMax - s.(storage_used)) <? len) then Some (false, s) else
      let f := if grow then Payload s.(storage_used) len f.(f_length) f.(external_data) else f in
      let used := if grow then u64 (s.(storage_used) + len) else s.(storage_used) in
      a ← copy_into s.(storage) f.(offset) data 0 (Z.to_nat len);
      t ← set_payload kRamfsFiles s.(files) id (Payload f.(offset) f.(capacity) len f.(external_data));
      Some (true, set_files t (set_storage a used s))
  | _, _ => Some (false, s)
  end.

Definition ramfs_init (s : ramfs) : ramfs :=
  Ramfs (bounded_table kRamfsFiles kRamfsNameMax new_payload) s.(storage) 0 0 0 0.

(** The id, or [None] for failure. *)
Definition ramfs_open (name : option (list Z)) (len : Z) (create : bool) (s : ramfs) : option (option Z * ramfs) :=
  ok ← valid_name name len;
  if negb ok then Some (None, s) else
  '(r, t) ← open kRamfsNameMax new_payload s.(files) name len create;
  Some (r, set_files t s).

Definition ramfs_seed_reference (name : option (list Z)) (nlen : Z) (data : option (list Z)) (len : Z) (s : ramfs)
  : option (bool * ramfs) :=
  match data with
  | None => Some (false, s)
  | Some _ =>
      '(r, s) ← ramfs_open name nlen true s;
      match r with
      | None => Some (false, s)
      | Some id =>
          file ← payload_of s id;
          match file with
          | None => Some (false, s)
          | Some f =>
              if negb (f.(f_length) =? 0) || negb (f.(capacity) =? 0)
                 || match f.(external_data) with Some _ => true | None => false end
              then Some (false, s) else
              t ← set_payload kRamfsFiles s.(files) id (Payload f.(offset) f.(capacity) len data);
              Some (true, count_seeded (set_files t s))
          end
      end
  end.

Definition ramfs_seed (name : option (list Z)) (nlen : Z) (data : option (list Z)) (len : Z) (s : ramfs)
  : option (bool * ramfs) :=
  if match data with None => true | Some _ => false end || (kRamfsDataMax <? len) then Some (false, s) else
  '(r, s) ← ramfs_open name nlen true s;
  match r with
  | None => Some (false, s)
  | Some id =>
      '(ok, s) ← store id data len s;
      if negb ok then Some (false, s) else Some (true, count_seeded s)
  end.

Definition ramfs_delete (name : option (list Z)) (len : Z) (s : ramfs) : option (bool * ramfs) :=
  ok ← valid_name name len;
  if negb ok then Some (false, s) else
  r ← find kRamfsNameMax s.(files) name len;
  match r with
  | None => Some (false, s)
  | Some id => '(ok, t) ← release kRamfsFiles new_payload s.(files) id; Some (ok, set_files t s)
  end.

Definition ramfs_rename (old : option (list Z)) (old_len : Z) (new : option (list Z)) (new_len : Z) (s : ramfs)
  : option (bool * ramfs) :=
  ok ← valid_name old old_len;
  if negb ok then Some (false, s) else
  ok ← valid_name new new_len;
  if negb ok then Some (false, s) else
  existing ← find kRamfsNameMax s.(files) new new_len;
  match existing with
  | Some _ => Some (false, s)
  | None =>
      source ← find kRamfsNameMax s.(files) old old_len;
      match source with
      | None => Some (false, s)
      | Some id => '(ok, t) ← rename kRamfsFiles kRamfsNameMax s.(files) id new new_len; Some (ok, set_files t s)
      end
  end.

Definition ramfs_write (id : Z) (data : option (list Z)) (len : Z) (s : ramfs) : option (bool * ramfs) :=
  '(ok, s) ← store id data len s;
  if negb ok then Some (false, s) else Some (true, count_write s).

(** The bytes a file is read from: the module, or the arena from its offset. *)
Definition source_of (s : ramfs) (f : ramfs_payload) : list Z * Z :=
  match f.(external_data) with Some d => (d, 0) | None => (s.(storage), f.(offset)) end.

(** The buffer after the copy and the number of bytes, or [None] for failure. *)
Definition ramfs_read_range (id off : Z) (data : option (list Z)) (cap : Z) (s : ramfs)
  : option (option (list Z * Z) * ramfs) :=
  file ← payload_of s id;
  match file, data with
  | Some f, Some data =>
      if f.(f_length) <? off then Some (None, s) else
      let amount := u64 (f.(f_length) - off) in
      let amount := if cap <? amount then cap else amount in
      let '(source, base) := source_of s f in
      data ← copy_into data 0 source (base + off) (Z.to_nat amount);
      Some (Some (data, amount), count_read s)
  | _, _ => Some (None, s)
  end.

Definition ramfs_read (id : Z) (data : option (list Z)) (cap : Z) (s : ramfs)
  : option (option (list Z * Z) * ramfs) := ramfs_read_range id 0 data cap s.

Definition ramfs_size (id : Z) (s : ramfs) : option (option Z) :=
  file ← payload_of s id; Some (match file with Some f => Some f.(f_length) | None => None end).

(** The memory the view points into, where, and how long it is. *)
Definition ramfs_view (id : Z) (s : ramfs) : option (option (list Z * Z * Z)) :=
  file ← payload_of s id; Some (match file with Some f => Some (source_of s f, f.(f_length)) | None => None end).

(** ** Counting and listing *)

Fixpoint count_from (n : nat) (id count : Z) (s : ramfs) : option Z :=
  match n with
  | O => Some count
  | S n => file ← payload_of s id;
           count_from n (id + 1) (match file with Some _ => u64 (count + 1) | None => count end) s
  end.
Definition ramfs_file_count (s : ramfs) : option Z := count_from (Z.to_nat kRamfsFiles) 1 0 s.

Fixpoint bytes_from (n : nat) (id total : Z) (s : ramfs) : option Z :=
  match n with
  | O => Some total
  | S n => file ← payload_of s id;
           bytes_from n (id + 1) (match file with Some f => u64 (total + f.(f_length)) | None => total end) s
  end.
Definition ramfs_bytes_used (s : ramfs) : option Z := bytes_from (Z.to_nat kRamfsFiles) 1 0 s.

Fixpoint entry_from (n : nat) (id current index : Z) (s : ramfs) : option (option (list Z * Z * Z)) :=
  match n with
  | O => Some None
  | S n =>
      file ← payload_of s id;
      match file with
      | None => entry_from n (id + 1) current index s
      | Some f =>
          if negb (current =? index) then entry_from n (id + 1) (current + 1) index s else
          name ← name_for kRamfsFiles s.(files) id; a ← name;
          nlen ← name_length_for kRamfsFiles s.(files) id;
          Some (Some (a, nlen, f.(f_length)))
      end
  end.
(** Name, its length and the file's length of the [index]th file. *)
Definition ramfs_entry (index : Z) (s : ramfs) : option (option (list Z * Z * Z)) :=
  entry_from (Z.to_nat kRamfsFiles) 1 0 index s.

(** A pointer into a byte array, and a length. *)
Definition normalize_prefix (prefix : list Z) (len : Z) : option (list Z * Z) :=
  if len =? 0 then Some (prefix, 0) else
  v ← prefix.[0];
  Some (if v =? 47 then (drop 1 prefix, len - 1) else (prefix, len)).

(** [while (end < name_length && name[end] != '/') ++end;] *)
Fixpoint segment_end (n : nat) (a : list Z) (len e : Z) : option Z :=
  match n with
  | O => Some e
  | S n => if negb (e <? len) then Some e else
           v ← a.[e]; if v =? 47 then Some e else segment_end n a len (e + 1)
  end.

(** Start, length and leafness of the child of [dir] that leads to [name]. *)
Definition child_of (name : list Z) (name_length : Z) (dir : list Z) (dir_length : Z) : option (option (Z * Z * bool)) :=
  name_start ← (if 0 <? name_length then v ← name.[0]; Some (if v =? 47 then 1 else 0) else Some 0);
  rel ← (if dir_length =? 0 then Some (Some name_start) else
         if u64 (name_length - name_start) <=? dir_length then Some None else
         same ← region_equal (Z.to_nat dir_length) name_start name 0 dir;
         if negb same then Some None else
         v ← name.[name_start + dir_length];
         Some (if negb (v =? 47) then None else Some (name_start + dir_length + 1)));
  match rel with
  | None => Some None
  | Some rel_start =>
      if name_length <=? rel_start then Some None else
      e ← segment_end (Z.to_nat name_length) name name_length rel_start;
      Some (Some (rel_start, e - rel_start, e =? name_length))
  end.

(** The child that the file [id], with its payload, contributes to [dir]. *)
Definition child_at (s : ramfs) (id : Z) (dir : list Z) (dir_length : Z)
  : option (option (list Z * Z * Z * bool * Z)) :=
  file ← payload_of s id;
  match file with
  | None => Some None
  | Some f =>
      name ← name_for kRamfsFiles s.(files) id; a ← name;
      nlen ← name_length_for kRamfsFiles s.(files) id;
      c ← child_of a nlen dir dir_length;
      Some (match c with Some (cs, cl, leaf) => Some (a, cs, cl, leaf, f.(f_length)) | None => None end)
  end.

(** Whether an earlier file leads to the same child name. *)
Fixpoint seen_before (n : nat) (earlier : Z) (s : ramfs) (dir : list Z) (dir_length : Z) (name : list Z) (cs cl : Z)
  : option bool :=
  match n with
  | O => Some false
  | S n =>
      c ← child_at s earlier dir dir_length;
      match c with
      | None => seen_before n (earlier + 1) s dir dir_length name cs cl
      | Some (a, es, el, _, _) =>
          same ← (if el =? cl then region_equal (Z.to_nat cl) cs name es a else Some false);
          if (same : bool) then Some true else seen_before n (earlier + 1) s dir dir_length name cs cl
      end
  end.

Record listed := Listed { l_name : list Z; l_start : Z; l_length : Z; l_size : Z; l_directory : bool }.

Fixpoint list_from (n : nat) (id current index : Z) (dir : list Z) (dir_length : Z) (s : ramfs) : option (option listed) :=
  match n with
  | O => Some None
  | S n =>
      c ← child_at s id dir dir_length;
      match c with
      | None => list_from n (id + 1) current index dir dir_length s
      | Some (a, cs, cl, leaf, len) =>
          dup ← (if negb leaf then seen_before (Z.to_nat (id - 1)) 1 s dir dir_length a cs cl else Some false);
          if (dup : bool) then list_from n (id + 1) current index dir dir_length s else
          if negb (current =? index) then list_from n (id + 1) (current + 1) index dir dir_length s else
          Some (Some (Listed a cs cl (if (leaf : bool) then len else 0) (negb leaf)))
      end
  end.

Definition ramfs_list (prefix : list Z) (prefix_length index : Z) (s : ramfs) : option (option listed) :=
  '(dir, dir_length) ← normalize_prefix prefix prefix_length;
  list_from (Z.to_nat kRamfsFiles) 1 0 index dir dir_length s.

(** ** The boot self test *)

Definition chars (t : string) : list Z := map (fun c => Z.of_nat (nat_of_ascii c)) (list_ascii_of_string t).

Definition ramfs_self_test (s : ramfs) : option (bool * ramfs) :=
  n ← ramfs_file_count s; bytes ← ramfs_bytes_used s;
  if negb (n =? u64 (s.(seeded_count) + 1)) || (s.(seeded_count) <? 7) || (bytes <=? 16)
     || negb (s.(read_count) =? 1) || negb (s.(write_count) =? 1) then Some (false, s) else
  '(r, s) ← ramfs_open (Some (chars "project.mko")) 11 false s;
  match r with
  | None => Some (false, s)
  | Some id =>
      file ← payload_of s id;
      match file with
      | None => Some (false, s)
      | Some f =>
          if negb (f.(f_length) =? 16) then Some (false, s) else
          let '(source, base) := source_of s f in
          same ← region_equal 16 base source 0 (chars "PORTABLE-PROJECT"); Some ((same : bool), s)
      end
  end.
