(* ===== verification/RamfsNames.v ===== *)
(** File names: the scanner of [valid_name] accepts exactly the paths whose
    segments are non-empty, not dots, and spelled with the allowed characters. *)

From S2P Require Import Prelude BoundedTable Ramfs.

(** ** Reference definition *)

Fixpoint split_slash (l : list Z) : list (list Z) :=
  match l with
  | [] => [[]]
  | v :: l =>
      if v =? 47 then [] :: split_slash l
      else match split_slash l with s :: r => (v :: s) :: r | [] => [[v]] end
  end.
Definition good_segment (s : list Z) : bool :=
  negb (bool_decide (s = [])) && negb (bool_decide (s = [46])) && negb (bool_decide (s = [46; 46]))
  && forallb char_allowed s.
(** A leading slash is dropped. *)
Definition relative (n : list Z) : list Z := match n with v :: r => if v =? 47 then r else n | [] => [] end.
Definition good_name (n : list Z) : bool :=
  (1 <=? Z.of_nat (length n)) && (Z.of_nat (length n) <=? kRamfsNameMax) && forallb good_segment (split_slash (relative n)).

(** ** The scanner *)

Lemma split_slash_nil l : split_slash l <> [].
Proof. destruct l as [|v l]; [done|]. cbn. destruct (v =? 47); [done|]. by destruct (split_slash l). Qed.

Lemma split_slash_none pre : Forall (fun v => v <> 47) pre -> split_slash pre = [pre].
Proof.
  induction 1 as [|v pre Hv _ IH]; [done|]. cbn. rewrite (proj2 (Z.eqb_neq v 47)) by done. by rewrite IH.
Qed.
Lemma split_slash_at pre r : Forall (fun v => v <> 47) pre -> split_slash (pre ++ 47 :: r) = pre :: split_slash r.
Proof.
  induction 1 as [|v pre Hv _ IH]; [done|]. cbn [app]. cbn [split_slash].
  rewrite (proj2 (Z.eqb_neq v 47)) by done. by rewrite IH.
Qed.

Lemma aget_mid (A B : list Z) i x : i = Z.of_nat (length A) -> (A ++ x :: B).[i] = Some x.
Proof. intros ->. rewrite aget_nat, lookup_app_r by done. by rewrite Nat.sub_diag. Qed.

Lemma chars_allowed_ok seg : forall A tail i, i = Z.of_nat (length A) ->
  chars_allowed (length seg) i (A ++ seg ++ tail) = Some (forallb char_allowed seg).
Proof.
  induction seg as [|v seg IH]; intros A tail i Hi; [done|]. cbn [length chars_allowed app forallb].
  rewrite (aget_mid A (seg ++ tail)) by done. cbn [mbind option_bind]. destruct (char_allowed v); [|done]. cbn [negb andb].
  rewrite (cons_middle v A (seg ++ tail)), app_assoc. apply IH. rewrite length_app. cbn [length]. lia.
Qed.

Lemma valid_segment_ok A seg tail start len : start = Z.of_nat (length A) -> len = Z.of_nat (length seg) ->
  valid_segment (A ++ seg ++ tail) start len = Some (good_segment seg).
Proof.
  intros -> ->. unfold valid_segment, good_segment. rewrite Nat2Z.id.
  destruct seg as [|x [|y [|z seg]]].
  - done.
  - change (Z.of_nat (length [x])) with 1. cbn [app Z.eqb Pos.eqb]. rewrite (aget_mid A tail) by done. cbn [mbind option_bind].
    change (x :: tail) with ([x] ++ tail). rewrite (chars_allowed_ok [x]) by done.
    destruct (Z.eqb_spec x 46) as [->|Hx]; [done|]. rewrite !bool_decide_eq_false_2 by congruence. done.
  - change (Z.of_nat (length [x; y])) with 2. cbn [app Z.eqb Pos.eqb mbind option_bind].
    rewrite (aget_mid A (y :: tail) (Z.of_nat (length A)) x) by done. cbn [mbind option_bind].
    change (A ++ x :: y :: tail) with (A ++ [x; y] ++ tail).
    replace ((A ++ [x; y] ++ tail).[Z.of_nat (length A) + 1]) with (Some y).
    2: { symmetry. change ([x; y] ++ tail) with ([x] ++ y :: tail). rewrite app_assoc. apply aget_mid. rewrite length_app. cbn [length]. lia. }
    cbn [mbind option_bind]. change 2%nat with (length [x; y]). rewrite (chars_allowed_ok [x; y]) by done.
    destruct (Z.eqb_spec x 46) as [->|Hx]; cbn [mbind option_bind].
    + destruct (Z.eqb_spec y 46) as [->|Hy]; [done|]. rewrite !bool_decide_eq_false_2 by congruence. done.
    + rewrite !bool_decide_eq_false_2 by congruence. done.
  - assert (Hl : 3 <= Z.of_nat (length (x :: y :: z :: seg))) by (cbn [length]; lia).
    set (l := x :: y :: z :: seg) in *.
    rewrite !(proj2 (Z.eqb_neq (Z.of_nat (length l)) _)) by lia. cbn [mbind option_bind].
    rewrite chars_allowed_ok by done. rewrite !bool_decide_eq_false_2 by done. done.
Qed.

Lemma valid_from_S n a len cursor start : valid_from (S n) a len cursor start =
  (if cursor =? len then Some true else a.[cursor] ≫= (fun v => Some (v =? 47))) ≫= (fun stop : bool =>
    if stop then
      valid_segment a start (cursor - start) ≫= (fun ok : bool =>
        if negb ok then Some false else valid_from n a len (cursor + 1) (cursor + 1))
    else valid_from n a len (cursor + 1) start).
Proof. done. Qed.

Lemma valid_from_ok rest : forall A pre tail len cursor start,
  start = Z.of_nat (length A) -> cursor = start + Z.of_nat (length pre) -> len = cursor + Z.of_nat (length rest) ->
  Forall (fun v => v <> 47) pre ->
  valid_from (S (length rest)) (A ++ pre ++ rest ++ tail) len cursor start =
    Some (forallb good_segment (split_slash (pre ++ rest))).
Proof.
  induction rest as [|v rest IH]; intros A pre tail len cursor start Hs Hc Hl Hpre.
  - cbn [length] in Hl. cbn [length valid_from]. rewrite (proj2 (Z.eqb_eq cursor len)) by lia. cbn [mbind option_bind].
    cbn [app]. rewrite (valid_segment_ok A pre tail) by lia. cbn [mbind option_bind].
    rewrite app_nil_r, split_slash_none by done. cbn. by destruct (good_segment pre).
  - cbn [length] in Hl. change (length (v :: rest)) with (S (length rest)). rewrite valid_from_S.
    rewrite (proj2 (Z.eqb_neq cursor len)) by lia.
    replace ((A ++ pre ++ (v :: rest) ++ tail).[cursor]) with (Some v).
    2: { symmetry. rewrite app_assoc. cbn [app]. apply aget_mid. rewrite length_app. lia. }
    cbn [mbind option_bind]. destruct (Z.eqb_spec v 47) as [->|Hv].
    + rewrite (valid_segment_ok A pre ((47 :: rest) ++ tail)) by lia. cbn [mbind option_bind].
      rewrite split_slash_at by done. cbn [forallb]. destruct (good_segment pre); [|done]. cbn [negb andb].
      replace (A ++ pre ++ (47 :: rest) ++ tail) with ((A ++ pre ++ [47]) ++ [] ++ rest ++ tail)
        by (cbn; rewrite <- !app_assoc; done).
      apply (IH (A ++ pre ++ [47]) [] tail); [rewrite !length_app; cbn [length]; lia|cbn [length]; lia|lia|done].
    + replace (A ++ pre ++ (v :: rest) ++ tail) with (A ++ (pre ++ [v]) ++ rest ++ tail)
        by (rewrite <- !app_assoc; done).
      rewrite (IH A (pre ++ [v]) tail).
      * by rewrite <- app_assoc.
      * lia.
      * rewrite length_app. cbn [length]. lia.
      * lia.
      * apply Forall_app. split; [done|]. by constructor.
Qed.

(** A buffer whose first [len] bytes are the name [n]. *)
Definition spells (buffer : list Z) (len : Z) (n : list Z) : Prop :=
  exists tail, buffer = n ++ tail /\ len = Z.of_nat (length n).

Lemma spells_take buffer len : 0 <= len <= Z.of_nat (length buffer) -> spells buffer len (take (Z.to_nat len) buffer).
Proof. intros H. exists (drop (Z.to_nat len) buffer). split; [by rewrite take_drop|]. rewrite length_take. lia. Qed.

Lemma good_name_length n : good_name n = true -> 1 <= Z.of_nat (length n) <= kRamfsNameMax.
Proof. unfold good_name. intros H. b2p. lia. Qed.

Lemma valid_name_ok buffer len n : spells buffer len n -> valid_name (Some buffer) len = Some (good_name n).
Proof.
  intros (tail & -> & ->). unfold valid_name, good_name. destruct n as [|v n]; [done|].
  assert (1 <= Z.of_nat (length (v :: n))) by (cbn [length]; lia).
  set (len := Z.of_nat (length (v :: n))) in *. rewrite (proj2 (Z.eqb_neq len 0)) by lia.
  rewrite (proj2 (Z.leb_le 1 len)) by lia. cbn [orb andb].
  destruct (Z.ltb_spec kRamfsNameMax len) as [Hgt|Hle].
  { by rewrite (proj2 (Z.leb_gt len kRamfsNameMax)) by lia. }
  rewrite (proj2 (Z.leb_le len kRamfsNameMax)) by lia. cbn [app andb relative].
  change ((v :: n ++ tail).[0]) with (Some v). cbn [mbind option_bind].
  destruct (Z.eqb_spec v 47) as [->|Hv].
  - destruct (Z.eqb_spec 1 len) as [E|E].
    { destruct n; [done|]. unfold len in E. cbn [length] in E. lia. }
    replace (Z.to_nat (len + 1 - 1)) with (S (length n)) by (unfold len; cbn [length]; lia).
    apply (valid_from_ok n [47] [] tail); [done|done|unfold len; cbn [length]; lia|constructor].
  - rewrite (proj2 (Z.eqb_neq 0 len)) by lia.
    replace (Z.to_nat (len + 1 - 0)) with (S (length (v :: n))) by (unfold len; lia).
    apply (valid_from_ok (v :: n) [] [] tail); [done|done|unfold len; lia|constructor].
Qed.
