(* ===== verification/RamfsSpec.v ===== *)
(** The RAM file system refines a finite map from ids to names and contents:
    every call is total, keeps the arena's regions apart, and changes at most the
    file it names. *)

From stdpp Require Import gmap.
From S2P Require Import Prelude BoundedTable BoundedTableSpec Ramfs RamfsNames.

(** ** The abstract file system *)

Notation filesystem := (gmap Z (list Z * list Z)).

(** The path given by a buffer and a length, when it is one. *)
Definition path (name : option (list Z)) (len : Z) : option (list Z) :=
  match name with
  | Some b => let n := take (Z.to_nat len) b in if good_name n then Some n else None
  | None => None
  end.
Definition contents (data : list Z) (len : Z) : list Z := take (Z.to_nat len) data.

Inductive fs_op :=
  | Open (name : option (list Z)) (len : Z) (create : bool)
  | Delete (name : option (list Z)) (len : Z)
  | Rename (old : option (list Z)) (old_len : Z) (new : option (list Z)) (new_len : Z)
  | Write (id : Z) (data : option (list Z)) (len : Z)
  | ReadRange (id off : Z) (data : option (list Z)) (cap : Z)
  | Size (id : Z)
  | Seed (name : option (list Z)) (nlen : Z) (data : option (list Z)) (len : Z)
  | SeedReference (name : option (list Z)) (nlen : Z) (data : option (list Z)) (len : Z).
Inductive fs_result := RId (r : option Z) | RBool (b : bool) | RData (r : option (list Z * Z)) | RSize (r : option Z).

Definition run (op : fs_op) (s : ramfs) : option (fs_result * ramfs) :=
  match op with
  | Open name len create => '(r, s) ← ramfs_open name len create s; Some (RId r, s)
  | Delete name len => '(b, s) ← ramfs_delete name len s; Some (RBool b, s)
  | Rename old ol new nl => '(b, s) ← ramfs_rename old ol new nl s; Some (RBool b, s)
  | Write id data len => '(b, s) ← ramfs_write id data len s; Some (RBool b, s)
  | ReadRange id off data cap => '(r, s) ← ramfs_read_range id off data cap s; Some (RData r, s)
  | Size id => r ← ramfs_size id s; Some (RSize r, s)
  | Seed name nl data len => '(b, s) ← ramfs_seed name nl data len s; Some (RBool b, s)
  | SeedReference name nl data len => '(b, s) ← ramfs_seed_reference name nl data len s; Some (RBool b, s)
  end.

(** The pointers of a call cover the lengths passed with them. *)
Definition buffer_ok (b : option (list Z)) (len : Z) : Prop :=
  0 <= len /\ match b with Some b => len <= Z.of_nat (length b) | None => True end.
Definition op_ok (op : fs_op) : Prop :=
  match op with
  | Open name len _ | Delete name len => buffer_ok name len
  | Rename old ol new nl => buffer_ok old ol /\ buffer_ok new nl
  | Write id data len => 0 <= id /\ buffer_ok data len
  | ReadRange id off data cap => 0 <= id /\ 0 <= off /\ buffer_ok data cap
  | Size id => 0 <= id
  | Seed name nl data len | SeedReference name nl data len => buffer_ok name nl /\ buffer_ok data len
  end.

(** Open or create, on the map. *)
Definition open_spec (m : filesystem) (n : option (list Z)) (create : bool) (r : option Z) (m' : filesystem) : Prop :=
  match n with Some n => opened kRamfsFiles [] create m n r m' | None => r = None /\ m' = m end.

Definition write_spec (m : filesystem) (id : Z) (data : option (list Z)) (len : Z) (b : bool) (m' : filesystem) : Prop :=
  if b then exists d n c, data = Some d /\ m !! id = Some (n, c) /\ len <= kRamfsDataMax /\ m' = <[id := (n, contents d len)]> m
  else m' = m.

(** Creating a file with contents: at worst the empty file stays. *)
Definition seed_spec (m : filesystem) (n : option (list Z)) (data : option (list Z)) (len : Z) (b : bool) (m' : filesystem) : Prop :=
  (b = false /\ m' = m) \/
  exists r m1, open_spec m n true r m1 /\
    if b then exists d n c id, r = Some id /\ data = Some d /\ m1 !! id = Some (n, c) /\ m' = <[id := (n, contents d len)]> m1
    else m' = m1.

Definition spec_step (m : filesystem) (op : fs_op) (r : fs_result) (m' : filesystem) : Prop :=
  match op, r with
  | Open name len create, RId r => open_spec m (path name len) create r m'
  | Delete name len, RBool b =>
      match path name len with
      | Some n => if b then exists id, named m id n /\ m' = delete id m else absent m n /\ m' = m
      | None => b = false /\ m' = m
      end
  | Rename old ol new nl, RBool b =>
      match path old ol, path new nl with
      | Some o, Some n =>
          if b then exists id c, m !! id = Some (o, c) /\ absent m n /\ m' = <[id := (n, c)]> m
          else (absent m o \/ exists id, named m id n) /\ m' = m
      | _, _ => b = false /\ m' = m
      end
  | Write id data len, RBool b => write_spec m id data len b m'
  | ReadRange id off data cap, RData r =>
      m' = m /\
      match m !! id, data with
      | Some (n, c), Some d =>
          if Z.of_nat (length c) <? off then r = None else
          let k := Z.min cap (Z.of_nat (length c) - off) in
          r = Some (contents (drop (Z.to_nat off) c) k ++ drop (Z.to_nat k) d, k)
      | _, _ => r = None
      end
  | Size id, RSize r => m' = m /\ r = ((fun f => Z.of_nat (length f.2)) <$> m !! id)
  | Seed name nl data len, RBool b | SeedReference name nl data len, RBool b => seed_spec m (path name nl) data len b m'
  | _, _ => False
  end.

(** ** The arena *)

Definition file_bytes (s : ramfs) (p : ramfs_payload) : list Z :=
  let '(source, base) := source_of s p in contents (drop (Z.to_nat base) source) p.(f_length).
Definition files_of (s : ramfs) : gmap Z (list Z * ramfs_payload) := content s.(files).
Definition abs (s : ramfs) : filesystem := (fun v => (v.1, file_bytes s v.2)) <$> files_of s.

Definition payload_ok (s : ramfs) (p : ramfs_payload) : Prop :=
  0 <= p.(f_length) /\
  match p.(external_data) with
  | Some d => p.(f_length) <= Z.of_nat (length d) /\ p.(f_length) < 18446744073709551616
  | None => 0 <= p.(offset) /\ p.(f_length) <= p.(capacity) /\ p.(offset) + p.(capacity) <= s.(storage_used)
  end.
Definition apart (p q : ramfs_payload) : Prop :=
  p.(external_data) = None -> q.(external_data) = None ->
  p.(offset) + p.(capacity) <= q.(offset) \/ q.(offset) + q.(capacity) <= p.(offset).

Record ramfs_wf (s : ramfs) : Prop := {
  rw_table : table_wf kRamfsFiles kRamfsNameMax s.(files);
  rw_storage : Z.of_nat (length s.(storage)) = kRamfsStorageMax;
  rw_used : 0 <= s.(storage_used) <= kRamfsStorageMax;
  rw_payloads : map_Forall (fun _ v => payload_ok s v.2) (files_of s);
  rw_apart : forall i j v w, files_of s !! i = Some v -> files_of s !! j = Some w -> i <> j -> apart v.2 w.2;
  rw_names : map_Forall (fun _ v => good_name v.1 = true) (files_of s);
}.

Lemma copy_region (dst src r : list Z) d k o n :
  0 <= d -> d + Z.of_nat k <= Z.of_nat (length dst) -> (k <= length src)%nat ->
  copy_into dst d src 0 k = Some r ->
  (Z.of_nat o + Z.of_nat n <= d \/ d + Z.of_nat k <= Z.of_nat o -> take n (drop o r) = take n (drop o dst)) /\
  (Z.of_nat o = d -> take k (drop o r) = take k src).
Proof.
  intros Hd Hl Hk Hr. pose proof (fun p => copy_into_lookup k dst d src 0 r p ltac:(lia) ltac:(lia) Hd Hl Hr) as Hp.
  split.
  - intros Ho. apply list_eq. intros i. rewrite !lookup_take. destruct (decide (i < n)%nat); [|done].
    rewrite !lookup_drop, Hp, decide_False by lia. done.
  - intros Ho. apply list_eq. intros i. rewrite !lookup_take. destruct (decide (i < k)%nat); [|done].
    rewrite lookup_drop, Hp, decide_True by lia. replace (0 + (Z.of_nat (o + i) - d)) with (Z.of_nat i) by lia.
    by rewrite aget_nat.
Qed.

Lemma payload_of_ok s id : ramfs_wf s -> 0 <= id -> payload_of s id = Some (snd <$> files_of s !! id).
Proof. intros Hwf Hid. unfold payload_of. apply payload_for_ok with (NameMax := kRamfsNameMax); [apply Hwf|done]. Qed.

Lemma abs_lookup s id : abs s !! id = (fun v => (v.1, file_bytes s v.2)) <$> files_of s !! id.
Proof. apply lookup_fmap. Qed.

Lemma abs_named s id n : named (abs s) id n <-> named (files_of s) id n.
Proof.
  unfold named. rewrite abs_lookup. split.
  - intros [p Hp]. destruct (files_of s !! id) as [[m q]|]; [|done]. cbn in Hp. injection Hp as <- _. by exists q.
  - intros [q ->]. by eexists.
Qed.
Lemma abs_absent s n : absent (abs s) n <-> absent (files_of s) n.
Proof. unfold absent. by setoid_rewrite abs_named. Qed.

Lemma file_bytes_length s p : ramfs_wf s -> payload_ok s p -> Z.of_nat (length (file_bytes s p)) = p.(f_length).
Proof.
  intros Hwf [H0 Hp]. unfold file_bytes, source_of, contents. pose proof (rw_storage _ Hwf). pose proof (rw_used _ Hwf).
  destruct (external_data p); rewrite length_take, length_drop; lia.
Qed.

(** States that share the arena describe the same bytes. *)
Lemma file_bytes_same s s' p : s'.(storage) = s.(storage) -> file_bytes s' p = file_bytes s p.
Proof. unfold file_bytes, source_of. by intros ->. Qed.
Lemma abs_same s s' : files s' = files s -> storage s' = storage s -> abs s' = abs s.
Proof.
  intros Hf Hs. unfold abs, files_of. rewrite Hf. apply map_fmap_ext. intros id v _. by rewrite (file_bytes_same s s').
Qed.
Lemma counted_wf s s' : files s' = files s -> storage s' = storage s -> storage_used s' = storage_used s ->
  ramfs_wf s -> ramfs_wf s'.
Proof.
  intros Hf Hs Hu [H1 H2 H3 H4 H5 H6]. unfold files_of in *. split; unfold files_of; rewrite ?Hf, ?Hs, ?Hu; try done.
  intros id v Hv. specialize (H4 id v Hv). unfold payload_ok in *. by rewrite Hu.
Qed.

(** Replacing the file table by one that differs in one id. *)
Lemma set_files_wf s t' (m' : gmap Z (list Z * ramfs_payload)) :
  ramfs_wf s -> table_wf kRamfsFiles kRamfsNameMax t' -> content t' = m' ->
  map_Forall (fun _ v => payload_ok s v.2 /\ good_name v.1 = true) m' ->
  (forall i j v w, m' !! i = Some v -> m' !! j = Some w -> i <> j -> apart v.2 w.2) ->
  ramfs_wf (set_files t' s).
Proof.
  intros Hwf Ht <- Hm Ha. destruct Hwf. split; try done.
  - intros id v Hv. by apply (Hm id v Hv).
  - intros id v Hv. by apply (Hm id v Hv).
Qed.

Lemma good_payloads s : ramfs_wf s -> map_Forall (fun _ v => payload_ok s v.2 /\ good_name v.1 = true) (files_of s).
Proof. intros Hwf id v Hv. split; [by apply (rw_payloads _ Hwf id)|by apply (rw_names _ Hwf id)]. Qed.

Lemma apart_insert (m : gmap Z (list Z * ramfs_payload)) id v :
  (forall i j a b, m !! i = Some a -> m !! j = Some b -> i <> j -> apart a.2 b.2) ->
  (forall j w, m !! j = Some w -> id <> j -> apart v.2 w.2) ->
  forall i j a b, <[id := v]> m !! i = Some a -> <[id := v]> m !! j = Some b -> i <> j -> apart a.2 b.2.
Proof.
  intros Hm Hv i j a b. destruct (decide (i = id)) as [->|Hi], (decide (j = id)) as [->|Hj]; try done.
  - rewrite lookup_insert_eq, lookup_insert_ne by done. intros [= <-] Hb Hne. by eapply Hv.
  - rewrite lookup_insert_eq, lookup_insert_ne by done. intros Ha [= <-] Hne H1 H2.
    destruct (Hv i a Ha) as [H|H]; [done..|by right|by left].
  - rewrite !lookup_insert_ne by done. apply Hm.
Qed.

(** ** Storing bytes *)

Lemma contents_length d len : 0 <= len <= Z.of_nat (length d) -> Z.of_nat (length (contents d len)) = len.
Proof. intros H. unfold contents. rewrite length_take. lia. Qed.

(** The region a store writes to. *)
Definition region (s : ramfs) (p : ramfs_payload) (len : Z) : ramfs_payload * Z :=
  if p.(capacity) <? len then (Payload s.(storage_used) len len None, s.(storage_used) + len)
  else (Payload p.(offset) p.(capacity) len None, s.(storage_used)).

Definition storable (s : ramfs) (p : ramfs_payload) (len : Z) : Prop :=
  p.(external_data) = None /\ len <= kRamfsDataMax /\
  (len <= p.(capacity) \/ len <= kRamfsStorageMax - s.(storage_used)).

#[export] Instance storable_dec s p len : Decision (storable s p len).
Proof. unfold storable. apply _. Defined.

(** The file exists, is not a boot module, and the bytes fit. *)
Definition can_store (s : ramfs) (id : Z) (data : option (list Z)) (len : Z) : Prop :=
  match files_of s !! id, data with Some (_, p), Some _ => storable s p len | _, _ => False end.
#[export] Instance can_store_dec s id data len : Decision (can_store s id data len).
Proof. unfold can_store. repeat case_match; apply _. Defined.

Lemma store_eq s id n p d len : ramfs_wf s -> 0 <= len <= Z.of_nat (length d) -> files_of s !! id = Some (n, p) ->
  storable s p len ->
  exists a t', copy_into s.(storage) (region s p len).1.(offset) d 0 (Z.to_nat len) = Some a /\
    store id (Some d) len s = Some (true, set_files t' (set_storage a (region s p len).2 s)) /\
    table_wf kRamfsFiles kRamfsNameMax t' /\ content t' = <[id := (n, (region s p len).1)]> (files_of s) /\
    0 <= (region s p len).1.(offset) /\
    (region s p len).1.(offset) + (region s p len).1.(capacity) <= (region s p len).2 <= kRamfsStorageMax /\
    len <= (region s p len).1.(capacity) /\ s.(storage_used) <= (region s p len).2.
Proof.
  intros Hwf Hlen Hf (Hx & Hmax & Hroom). pose proof (rw_used _ Hwf) as Hu. pose proof (rw_storage _ Hwf) as Hst.
  pose proof (content_bound kRamfsFiles kRamfsNameMax _ _ _ (rw_table _ Hwf) Hf) as Hid.
  destruct (rw_payloads _ Hwf id _ Hf) as [Hp0 Hp]. cbn [snd] in Hp0, Hp. rewrite Hx in Hp.
  assert (0 <= (region s p len).1.(offset) /\
    (region s p len).1.(offset) + (region s p len).1.(capacity) <= (region s p len).2 <= kRamfsStorageMax /\
    len <= (region s p len).1.(capacity) /\ s.(storage_used) <= (region s p len).2) as Hr.
  { unfold region. destruct (Z.ltb_spec (capacity p) len); cbn; lia. }
  destruct (set_payload_ok kRamfsFiles kRamfsNameMax s.(files) id n p (region s p len).1 (rw_table _ Hwf) Hf)
    as (t' & Et & Ht' & Hc).
  assert (exists a, copy_into s.(storage) (region s p len).1.(offset) d 0 (Z.to_nat len) = Some a) as [a Ea]
    by (rewrite copy_into_spec by lia; eauto).
  exists a, t'. split; [done|]. split; [|done]. unfold store. rewrite payload_of_ok by (done || lia). cbn [mbind option_bind].
  rewrite Hf. cbn [fmap option_fmap option_map snd]. rewrite Hx. rewrite (proj2 (Z.ltb_ge kRamfsDataMax len)) by lia. cbn [orb].
  rewrite u64_small by (unfold kRamfsStorageMax in *; unfold is_u64; lia). unfold region in *.
  destruct (Z.ltb_spec (capacity p) len); cbn [andb] in *.
  - rewrite (proj2 (Z.ltb_ge (kRamfsStorageMax - storage_used s) len)) by lia. cbn [fst offset capacity f_length external_data] in *.
    rewrite Ea. cbn [mbind option_bind]. rewrite Et. cbn [mbind option_bind snd].
    by rewrite u64_small by (unfold kRamfsStorageMax in *; unfold is_u64; lia).
  - cbn [fst offset capacity f_length external_data] in *. rewrite Ea. cbn [mbind option_bind].
    rewrite Hx, Et. done.
Qed.

Lemma store_refused s id data len : ramfs_wf s -> 0 <= id -> 0 <= len ->
  ~ can_store s id data len ->
  store id data len s = Some (false, s).
Proof.
  intros Hwf Hid Hlen Hno. pose proof (rw_used _ Hwf) as Hu. unfold store. rewrite payload_of_ok by done. cbn [mbind option_bind].
  unfold can_store in Hno. destruct (files_of s !! id) as [[n p]|] eqn:Hf; [|done]. cbn [fmap option_fmap option_map snd].
  destruct data as [d|]; [|done]. unfold storable in Hno.
  destruct (external_data p); [done|]. cbn [orb]. destruct (Z.ltb_spec kRamfsDataMax len); [done|].
  rewrite u64_small by (unfold kRamfsStorageMax in *; unfold is_u64; lia).
  destruct (Z.ltb_spec (capacity p) len); cbn [andb]; [|exfalso; apply Hno; split_and!; [done|lia|lia]].
  destruct (Z.ltb_spec (kRamfsStorageMax - storage_used s) len); [done|].
  exfalso. apply Hno. split_and!; [done|lia|lia].
Qed.

Lemma region_external s p len : (region s p len).1.(external_data) = None.
Proof. unfold region. by destruct (_ <? _). Qed.
Lemma region_length s p len : (region s p len).1.(f_length) = len.
Proof. unfold region. by destruct (_ <? _). Qed.

(** The region written is apart from every other file. *)
Lemma region_apart s id n p len j w : ramfs_wf s -> 0 <= len -> files_of s !! id = Some (n, p) -> p.(external_data) = None ->
  files_of s !! j = Some w -> id <> j -> apart (region s p len).1 w.2.
Proof.
  intros Hwf Hlen Hf Hx Hw Hne _ Hwx. destruct (rw_payloads _ Hwf j _ Hw) as [_ Hq]. rewrite Hwx in Hq.
  unfold region. destruct (Z.ltb_spec (capacity p) len); cbn; [right; lia|].
  by apply (rw_apart _ Hwf id j (n, p) w).
Qed.

(** What a store takes from the arena. *)
Definition extent (s : ramfs) (id len : Z) : Z :=
  match files_of s !! id with Some (_, p) => if p.(capacity) <? len then len else 0 | None => 0 end.

Lemma store_ok s id data len : ramfs_wf s -> 0 <= id -> buffer_ok data len ->
  exists b s', store id data len s = Some (b, s') /\ ramfs_wf s' /\ write_spec (abs s) id data len b (abs s') /\
    (b = true <-> can_store s id data len) /\
    s'.(storage_used) = s.(storage_used) + (if b then extent s id len else 0).
Proof.
  intros Hwf Hid [Hlen Hbuf]. destruct (decide (can_store s id data len)) as [Hyes|Hno].
  2: { exists false, s. rewrite store_refused by done. split_and!; try done. lia. }
  assert (exists n p d, files_of s !! id = Some (n, p) /\ data = Some d /\ storable s p len) as (n & p & d & Hf & -> & Hst).
  { unfold can_store in Hyes. destruct (files_of s !! id) as [[n p]|], data as [d|]; try done. by exists n, p, d. }
  destruct (store_eq s id n p d len Hwf ltac:(lia) Hf Hst) as (a & t' & Ea & -> & Ht' & Hc & Ho & Hcap & Hfit & Hgrow).
  exists true. eexists. split; [done|]. pose proof (rw_storage _ Hwf) as HS.
  set (r := region s p len) in *. set (s' := set_files t' _).
  assert (Hrx : r.1.(external_data) = None) by apply region_external.
  assert (Hrn : r.1.(f_length) = len) by apply region_length.
  assert (Hfs : files_of s' = <[id := (n, r.1)]> (files_of s)) by exact Hc.
  assert (Hwf' : ramfs_wf s').
  { split; rewrite ?Hfs; cbn [s' files storage storage_used set_files set_storage].
    - done.
    - by rewrite (copy_into_length _ _ _ _ _ _ Ea).
    - pose proof (rw_used _ Hwf). lia.
    - apply map_Forall_insert_2.
      + split; [cbn; lia|]. cbn [snd]. rewrite Hrx, Hrn. unfold s'. cbn. lia.
      + intros j w Hw. destruct (rw_payloads _ Hwf j w Hw) as [H1 H2]. split; [done|].
        destruct (external_data w.2); [done|]. cbn. lia.
    - apply apart_insert; [apply Hwf|].
      intros j w Hw Hne. by apply (region_apart s id n p len j w Hwf Hlen Hf); [apply Hst| |].
    - apply map_Forall_insert_2; [|apply Hwf].
      by apply (rw_names _ Hwf id (n, p)). }
  split; [exact Hwf'|]. split.
  2: { split; [done|]. unfold extent. rewrite Hf. unfold s', r, region. cbn. destruct (_ <? _); cbn; lia. }
  exists d, n, (file_bytes s p). split; [done|]. rewrite abs_lookup, Hf. split; [done|]. split; [apply Hst|].
  apply map_eq. intros j. rewrite abs_lookup. rewrite Hfs.
  assert (Hrl : Z.of_nat (Z.to_nat len) <= Z.of_nat (length d)) by lia.
  destruct (decide (j = id)) as [->|Hj].
  - rewrite !lookup_insert_eq. cbn. f_equal. f_equal. unfold file_bytes, source_of. rewrite Hrx, Hrn. unfold contents. cbn.
    destruct (copy_region s.(storage) d a r.1.(offset) (Z.to_nat len) (Z.to_nat r.1.(offset)) 0) as [_ Heq]; [done|lia|lia|done|].
    apply Heq. lia.
  - rewrite !lookup_insert_ne, abs_lookup by done. destruct (files_of s !! j) as [[m q]|] eqn:Hq; [|done]. cbn. f_equal. f_equal.
    unfold file_bytes, source_of. destruct (external_data q) eqn:Hqx; [done|]. unfold contents. cbn.
    destruct (rw_payloads _ Hwf j _ Hq) as [Hq0 Hq1]. cbn [snd] in Hq0, Hq1. rewrite Hqx in Hq1.
    destruct (copy_region s.(storage) d a r.1.(offset) (Z.to_nat len) (Z.to_nat q.(offset)) (Z.to_nat q.(f_length))) as [Heq _]; [done|lia|lia|done|].
    apply Heq. pose proof (region_apart s id n p len j (m, q) Hwf Hlen Hf (proj1 Hst) Hq (not_eq_sym Hj)) as Hap.
    destruct Hap as [Hap|Hap]; [done|done| |]; fold r in Hap; cbn [snd] in Hap; lia.
Qed.

(** ** Names *)

Lemma names_max : 0 <= kRamfsNameMax.
Proof. done. Qed.

Lemma valid_name_path name len : buffer_ok name len ->
  valid_name name len = Some (match path name len with Some _ => true | None => false end).
Proof.
  intros [H0 H]. destruct name as [b|]; [|done].
  rewrite (valid_name_ok b len (take (Z.to_nat len) b)) by (apply spells_take; lia). cbn [path].
  by destruct (good_name (take (Z.to_nat len) b)).
Qed.

Lemma path_Some name len n : buffer_ok name len -> path name len = Some n -> exists b, name = Some b /\
  n = take (Z.to_nat len) b /\ good_name n = true /\ 1 <= len <= kRamfsNameMax /\ len <= Z.of_nat (length b).
Proof.
  intros [H0 H] Hp. destruct name as [b|]; [|done]. cbn [path] in Hp.
  destruct (good_name _) eqn:Hg; [|done]. injection Hp as <-. exists b. split_and!; try done.
  all: apply good_name_length in Hg; rewrite length_take in Hg; lia.
Qed.

Lemma new_payload_ok s : ramfs_wf s -> payload_ok s new_payload.
Proof. intros Hwf. pose proof (rw_used _ Hwf). split; cbn; lia. Qed.
Lemma new_payload_apart s j w : ramfs_wf s -> files_of s !! j = Some w -> apart new_payload w.2.
Proof. intros Hwf Hw _ Hx. destruct (rw_payloads _ Hwf j w Hw) as [_ H]. rewrite Hx in H. left. cbn. lia. Qed.

Lemma abs_insert s t' id n p : content t' = <[id := (n, p)]> (files_of s) ->
  abs (set_files t' s) = <[id := (n, file_bytes s p)]> (abs s).
Proof. intros Hc. unfold abs at 1. unfold files_of. cbn [files set_files]. rewrite Hc. by rewrite fmap_insert. Qed.
Lemma abs_delete s t' id : content t' = delete id (files_of s) -> abs (set_files t' s) = delete id (abs s).
Proof. intros Hc. unfold abs at 1. unfold files_of. cbn [files set_files]. rewrite Hc. by rewrite fmap_delete. Qed.

Lemma abs_files_same s t' : content t' = files_of s -> abs (set_files t' s) = abs s.
Proof. intros Hc. unfold abs at 1. unfold files_of. cbn [files set_files]. by rewrite Hc. Qed.

Lemma abs_is_Some s id : is_Some (abs s !! id) <-> is_Some (files_of s !! id).
Proof. rewrite abs_lookup. apply fmap_is_Some. Qed.

(** Adding the new file [n] in slot [id]. *)
Lemma create_wf s t' id n : ramfs_wf s -> table_wf kRamfsFiles kRamfsNameMax t' -> good_name n = true ->
  content t' = <[id := (n, new_payload)]> (files_of s) -> ramfs_wf (set_files t' s).
Proof.
  intros Hwf Ht Hn Hc. apply (set_files_wf s t' _ Hwf Ht Hc).
  - apply map_Forall_insert_2; [|by apply good_payloads]. split; [by apply new_payload_ok|done].
  - apply apart_insert; [apply Hwf|]. intros j w Hw _. by apply (new_payload_apart s j).
Qed.

Lemma ramfs_open_ok s name len create : ramfs_wf s -> buffer_ok name len ->
  exists r s', ramfs_open name len create s = Some (r, s') /\ ramfs_wf s' /\
    open_spec (abs s) (path name len) create r (abs s').
Proof.
  intros Hwf Hb. unfold ramfs_open. rewrite valid_name_path by done. cbn [mbind option_bind].
  destruct (path name len) as [n|] eqn:Hp; cbn [negb]; [|by exists None, s].
  destruct (path_Some _ _ _ Hb Hp) as (b & -> & Hn & Hg & Hl & Hbl).
  destruct (open_ok kRamfsFiles kRamfsNameMax new_payload names_max s.(files) b len create (rw_table _ Hwf) Hl Hbl) as (r & t' & -> & Ht & Ho).
  cbn [mbind option_bind]. exists r, (set_files t' s). split; [done|]. rewrite <- Hn in Ho. unfold opened in Ho. cbn [open_spec]. unfold opened.
  destruct r as [id|].
  - destruct Ho as [[Hnm Hc]|(-> & Ha & Hid & Hfree & Hmin & Hc)].
    + split; [by apply (set_files_wf s t' _ Hwf Ht Hc); [apply good_payloads|apply Hwf]|]. left.
      split; [by apply abs_named|]. by apply abs_files_same.
    + split; [by apply (create_wf s t' id n)|]. right. split; [done|]. split; [by apply abs_absent|]. split; [done|].
      split; [by rewrite abs_lookup, (Hfree : files_of s !! id = None)|]. split; [intros j Hj; by apply abs_is_Some, Hmin|].
      rewrite (abs_insert s t' id n new_payload) by done. done.
  - destruct Ho as (Hc & Ha & Hor). split; [by apply (set_files_wf s t' _ Hwf Ht Hc); [apply good_payloads|apply Hwf]|].
    split; [by apply abs_files_same|]. split; [by apply abs_absent|].
    destruct Hor as [|Hfull]; [by left|right]. intros id Hid. by apply abs_is_Some, Hfull.
Qed.

Lemma find_path s b len : ramfs_wf s -> 0 <= len <= Z.of_nat (length b) ->
  exists r, find kRamfsNameMax s.(files) (Some b) len = Some r /\
    match r with
    | Some id => named (abs s) id (take (Z.to_nat len) b) /\ exists p, files_of s !! id = Some (take (Z.to_nat len) b, p)
    | None => absent (abs s) (take (Z.to_nat len) b)
    end.
Proof.
  intros Hwf Hl. destruct (find_ok kRamfsFiles kRamfsNameMax names_max s.(files) b len (rw_table _ Hwf) Hl) as (r & -> & Hr).
  exists r. split; [done|]. destruct r as [id|]; [|by apply abs_absent]. split; [apply abs_named, Hr|apply Hr].
Qed.

Lemma ramfs_delete_ok s name len : ramfs_wf s -> buffer_ok name len ->
  exists b s', ramfs_delete name len s = Some (b, s') /\ ramfs_wf s' /\ spec_step (abs s) (Delete name len) (RBool b) (abs s').
Proof.
  intros Hwf Hb. unfold ramfs_delete. rewrite valid_name_path by done. cbn [mbind option_bind spec_step].
  destruct (path name len) as [n|] eqn:Hp; cbn [negb]; [|by exists false, s].
  destruct (path_Some _ _ _ Hb Hp) as (b & -> & Hn & Hg & Hl & Hbl).
  destruct (find_path s b len Hwf) as (r & -> & Hr); [lia|]. cbn [mbind option_bind]. rewrite <- Hn in Hr.
  destruct r as [id|]; [|by exists false, s]. destruct Hr as [Hnm [p Hf]].
  pose proof (content_bound _ _ _ _ _ (rw_table _ Hwf) Hf) as Hid.
  destruct (release_ok kRamfsFiles kRamfsNameMax new_payload names_max s.(files) id (rw_table _ Hwf)) as (t' & -> & Ht & Hc); [lia|].
  cbn [mbind option_bind]. eexists _, _. split; [done|]. rewrite bool_decide_eq_true_2 by (by eexists). split.
  - apply (set_files_wf s t' _ Hwf Ht Hc).
    + intros j v Hv. apply (good_payloads s Hwf j). by apply lookup_delete_Some in Hv as [_ ?].
    + intros i j v w [_ Hv]%lookup_delete_Some [_ Hw]%lookup_delete_Some. by apply (rw_apart _ Hwf i j).
  - exists id. split; [done|]. by apply abs_delete.
Qed.

Lemma ramfs_rename_ok s old ol new nl : ramfs_wf s -> buffer_ok old ol -> buffer_ok new nl ->
  exists b s', ramfs_rename old ol new nl s = Some (b, s') /\ ramfs_wf s' /\
    spec_step (abs s) (Rename old ol new nl) (RBool b) (abs s').
Proof.
  intros Hwf Hb1 Hb2. unfold ramfs_rename. rewrite !valid_name_path by done. cbn [mbind option_bind spec_step].
  destruct (path old ol) as [o|] eqn:Hp1; cbn [negb]; [|by exists false, s].
  destruct (path new nl) as [n|] eqn:Hp2; cbn [negb]; [|by exists false, s].
  destruct (path_Some _ _ _ Hb1 Hp1) as (b1 & -> & Hn1 & Hg1 & Hl1 & Hbl1).
  destruct (path_Some _ _ _ Hb2 Hp2) as (b2 & -> & Hn2 & Hg2 & Hl2 & Hbl2).
  destruct (find_path s b2 nl Hwf) as (r & -> & Hr); [lia|]. cbn [mbind option_bind]. rewrite <- Hn2 in Hr.
  destruct r as [id|]; [exists false, s; split_and!; [done|done|right; exists id; apply Hr|done]|].
  destruct (find_path s b1 ol Hwf) as (r & -> & Hr1); [lia|]. cbn [mbind option_bind]. rewrite <- Hn1 in Hr1.
  destruct r as [id|]; [|by exists false, s; split_and!; [| |left|]]. destruct Hr1 as [Hnm [p Hf]].
  destruct (rename_ok kRamfsFiles kRamfsNameMax names_max s.(files) id b2 nl o p (rw_table _ Hwf) Hf Hl2 Hbl2) as (t' & -> & Ht & Hc).
  { rewrite <- Hn2. by apply abs_absent. }
  cbn [mbind option_bind]. eexists _, _. split; [done|]. rewrite <- Hn2 in Hc.
  assert (Hgp := good_payloads s Hwf id (o, p) Hf). cbn [fst snd] in Hgp. split.
  - apply (set_files_wf s t' _ Hwf Ht Hc).
    + apply map_Forall_insert_2; [by split; [apply Hgp|]|by apply good_payloads].
    + apply apart_insert; [apply Hwf|]. intros j w Hw Hne. by apply (rw_apart _ Hwf id j (o, p) w).
  - exists id, (file_bytes s p). split; [by rewrite abs_lookup, Hf|]. split; [done|]. by apply abs_insert.
Qed.

(** ** Contents *)

Lemma ramfs_write_ok s id data len : ramfs_wf s -> 0 <= id -> buffer_ok data len ->
  exists b s', ramfs_write id data len s = Some (b, s') /\ ramfs_wf s' /\ write_spec (abs s) id data len b (abs s') /\
    (b = true <-> can_store s id data len) /\
    s'.(storage_used) = s.(storage_used) + (if b then extent s id len else 0).
Proof.
  intros Hwf Hid Hb. unfold ramfs_write. destruct (store_ok s id data len Hwf Hid Hb) as (b & s' & -> & Hwf' & Hw & Hiff).
  cbn [mbind option_bind]. destruct b; cbn [negb].
  - exists true, (count_write s'). split; [done|]. split; [by apply (counted_wf s')|]. split; [|done].
    by rewrite (abs_same s' (count_write s')).
  - exists false, s'. by repeat (split; [done|]).
Qed.

Lemma ramfs_seed_ok s name nl data len : ramfs_wf s -> buffer_ok name nl -> buffer_ok data len ->
  exists b s', ramfs_seed name nl data len s = Some (b, s') /\ ramfs_wf s' /\ seed_spec (abs s) (path name nl) data len b (abs s').
Proof.
  intros Hwf Hb Hd. unfold ramfs_seed. destruct (_ || _); [exists false, s; split_and!; [done..|by left]|].
  destruct (ramfs_open_ok s name nl true Hwf Hb) as (r & s1 & -> & Hwf1 & Ho). cbn [mbind option_bind].
  destruct r as [id|]; [|exists false, s1; split_and!; [done..|right; by exists None, (abs s1)]].
  assert (0 <= id) as Hid.
  { destruct (path name nl); [|by destruct Ho]. destruct Ho as [[[p Hp] _]|(_ & _ & ? & _)]; [|lia].
    rewrite abs_lookup in Hp. destruct (files_of s !! id) eqn:E; [|done].
    pose proof (content_bound _ _ _ _ _ (rw_table _ Hwf) E). lia. }
  destruct (store_ok s1 id data len Hwf1 Hid Hd) as (b & s2 & -> & Hwf2 & Hw & _). cbn [mbind option_bind].
  destruct b; cbn [negb].
  - exists true, (count_seeded s2). split; [done|]. split; [by apply (counted_wf s2)|]. right. exists (Some id), (abs s1).
    split; [done|]. destruct Hw as (d & n & c & -> & Hc & _ & Heq). exists d, n, c, id.
    rewrite (abs_same s2 (count_seeded s2)) by done. by split_and!.
  - exists false, s2. split; [done|]. split; [done|]. right. by exists (Some id), (abs s1).
Qed.

Lemma ramfs_seed_reference_ok s name nl data len : ramfs_wf s -> buffer_ok name nl -> buffer_ok data len ->
  len < 18446744073709551616 ->
  exists b s', ramfs_seed_reference name nl data len s = Some (b, s') /\ ramfs_wf s' /\
    seed_spec (abs s) (path name nl) data len b (abs s').
Proof.
  intros Hwf Hb [Hd0 Hd] Hmax. unfold ramfs_seed_reference. destruct data as [d|]; [|exists false, s; split_and!; [done..|by left]].
  destruct (ramfs_open_ok s name nl true Hwf Hb) as (r & s1 & -> & Hwf1 & Ho). cbn [mbind option_bind].
  destruct r as [id|]; [|exists false, s1; split_and!; [done..|right; by exists None, (abs s1)]].
  assert (exists n c, abs s1 !! id = Some (n, c)) as (n & c & Hc).
  { destruct (path name nl) as [m|]; [|by destruct Ho]. destruct Ho as [[[p Hp] ->]|(_ & _ & _ & _ & _ & ->)]; [by eauto|].
    rewrite lookup_insert_eq. by eauto. }
  rewrite abs_lookup in Hc. destruct (files_of s1 !! id) as [[m p]|] eqn:Hf; [|done]. cbn in Hc. injection Hc as -> <-.
  pose proof (content_bound _ _ _ _ _ (rw_table _ Hwf1) Hf) as Hid. rewrite payload_of_ok by (done || lia).
  rewrite Hf. cbn [mbind option_bind fmap option_fmap option_map snd].
  destruct (_ || _ || _) eqn:E; [exists false, s1; split; [done|]; split; [done|]; right; by exists (Some id), (abs s1)|].
  destruct (set_payload_ok kRamfsFiles kRamfsNameMax s1.(files) id n p (Payload (offset p) (capacity p) len (Some d)) (rw_table _ Hwf1) Hf)
    as (t' & -> & Ht & Hct). cbn [mbind option_bind].
  exists true, (count_seeded (set_files t' s1)). split; [done|]. split.
  - apply (counted_wf (set_files t' s1)); [done..|]. apply (set_files_wf s1 t' _ Hwf1 Ht Hct).
    + apply map_Forall_insert_2; [|by apply good_payloads]. split; [split; [done|cbn; lia]|]. by apply (rw_names _ Hwf1 id (n, p)).
    + apply apart_insert; [apply Hwf1|]. intros j w Hw Hne [=].
  - right. exists (Some id), (abs s1). split; [done|]. exists d, n, (file_bytes s1 p), id. split; [done|]. split; [done|].
    split; [by rewrite abs_lookup, Hf|]. rewrite (abs_same (set_files t' s1) (count_seeded (set_files t' s1))) by done.
    rewrite (abs_insert s1 t' id n _ Hct). done.
Qed.

Lemma source_bytes s p off k : ramfs_wf s -> payload_ok s p -> 0 <= off -> 0 <= k -> off + k <= p.(f_length) ->
  let '(source, base) := source_of s p in
  0 <= base /\ base + off + k <= Z.of_nat (length source) /\
  take (Z.to_nat k) (drop (Z.to_nat (base + off)) source) = contents (drop (Z.to_nat off) (file_bytes s p)) k.
Proof.
  intros Hwf [H0 Hp] Hoff Hk Hle. unfold file_bytes, source_of, contents in *. pose proof (rw_storage _ Hwf). pose proof (rw_used _ Hwf).
  assert (forall (source : list Z) base, 0 <= base -> base + f_length p <= Z.of_nat (length source) ->
    take (Z.to_nat k) (drop (Z.to_nat (base + off)) source) =
    take (Z.to_nat k) (drop (Z.to_nat off) (take (Z.to_nat (f_length p)) (drop (Z.to_nat base) source)))) as Hg.
  { intros source base Hb Hbl.
    apply list_eq. intros i. rewrite !lookup_take. destruct (decide (i < Z.to_nat k)%nat); [|done].
    rewrite !lookup_drop, lookup_take, decide_True, lookup_drop by lia. f_equal. lia. }
  destruct (external_data p) as [d|]; (split; [lia|]; split; [lia|]; apply Hg; lia).
Qed.

Lemma ramfs_read_range_ok s id off data cap : ramfs_wf s -> 0 <= id -> 0 <= off -> buffer_ok data cap ->
  exists r s', ramfs_read_range id off data cap s = Some (r, s') /\ ramfs_wf s' /\
    spec_step (abs s) (ReadRange id off data cap) (RData r) (abs s').
Proof.
  intros Hwf Hid Hoff [Hc0 Hcap]. unfold ramfs_read_range. rewrite payload_of_ok by done. cbn [mbind option_bind spec_step].
  rewrite abs_lookup. destruct (files_of s !! id) as [[n p]|] eqn:Hf; cbn [fmap option_fmap option_map fst snd]; [|by exists None, s].
  destruct data as [d|]; [|by exists None, s]. pose proof (rw_payloads _ Hwf id _ Hf) as Hp. cbn [snd] in Hp.
  rewrite file_bytes_length by done. destruct (Z.ltb_spec (f_length p) off); [by exists None, s|].
  assert (is_u64 (f_length p - off)) as Hu.
  { destruct Hp as [H0 Hp]. pose proof (rw_used _ Hwf) as Hus. unfold kRamfsStorageMax in Hus.
    unfold is_u64. destruct (external_data p); lia. }
  rewrite u64_small by done.
  assert ((if cap <? f_length p - off then cap else f_length p - off) = Z.min cap (f_length p - off)) as -> by (destruct (Z.ltb_spec cap (f_length p - off)); lia).
  set (k := Z.min cap (f_length p - off)). pose proof (source_bytes s p off k Hwf Hp Hoff ltac:(lia) ltac:(lia)) as Hs.
  destruct (source_of s p) as [source base]. destruct Hs as (Hb & Hsl & Hs).
  rewrite copy_into_spec by lia. cbn [mbind option_bind]. eexists _, _. split; [done|]. split; [by apply (counted_wf s)|].
  split; [by apply abs_same|]. rewrite Hs. change (Z.to_nat 0) with 0%nat. rewrite take_0, app_nil_l. done.
Qed.

(** ** Every call *)

Definition op_bounded (op : fs_op) : Prop :=
  op_ok op /\ match op with SeedReference _ _ _ len => len < 18446744073709551616 | _ => True end.

Lemma run_ok s op : ramfs_wf s -> op_bounded op ->
  exists r s', run op s = Some (r, s') /\ ramfs_wf s' /\ spec_step (abs s) op r (abs s').
Proof.
  intros Hwf [Hop Hmax]. destruct op; cbn [run op_ok] in *.
  - destruct (ramfs_open_ok s name len create Hwf Hop) as (r & s' & -> & H1 & H2). by exists (RId r), s'.
  - destruct (ramfs_delete_ok s name len Hwf Hop) as (r & s' & -> & H1 & H2). by exists (RBool r), s'.
  - destruct (ramfs_rename_ok s old old_len new new_len Hwf) as (r & s' & -> & H1 & H2); [apply Hop..|]. by exists (RBool r), s'.
  - destruct (ramfs_write_ok s id data len Hwf) as (r & s' & -> & H1 & H2 & _); [apply Hop..|]. by exists (RBool r), s'.
  - destruct (ramfs_read_range_ok s id off data cap Hwf) as (r & s' & -> & H1 & H2); [apply Hop..|]. by exists (RData r), s'.
  - unfold ramfs_size. rewrite payload_of_ok by done. cbn [mbind option_bind]. eexists _, s. split; [done|]. split; [done|].
    split; [done|]. rewrite abs_lookup. destruct (files_of s !! id) as [[n p]|] eqn:Hf; [|done]. cbn.
    rewrite file_bytes_length; [done|done|]. by apply (rw_payloads _ Hwf id (n, p)).
  - destruct (ramfs_seed_ok s name nlen data len Hwf) as (r & s' & -> & H1 & H2); [apply Hop..|]. by exists (RBool r), s'.
  - destruct (ramfs_seed_reference_ok s name nlen data len Hwf) as (r & s' & -> & H1 & H2); [apply Hop..|done|]. by exists (RBool r), s'.
Qed.
