(* ===== verification/RamfsTheorems.v ===== *)
(** The properties of the RAM file system: refinement of a map by any session of
    calls, when writes succeed and what they cost, which names are accepted, and
    what a directory listing shows. *)

From stdpp Require Import gmap.
From S2P Require Import Prelude BoundedTable BoundedTableSpec Ramfs RamfsNames RamfsSpec.

(** ** Sessions *)

Fixpoint run_all (ops : list fs_op) (s : ramfs) : option (list fs_result * ramfs) :=
  match ops with
  | [] => Some ([], s)
  | op :: ops => '(r, s) ← run op s; '(rs, s) ← run_all ops s; Some (r :: rs, s)
  end.
Inductive spec_run : filesystem -> list fs_op -> list fs_result -> filesystem -> Prop :=
  | spec_done m : spec_run m [] [] m
  | spec_next m op r m' ops rs m'' : spec_step m op r m' -> spec_run m' ops rs m'' -> spec_run m (op :: ops) (r :: rs) m''.

Lemma ramfs_init_wf s : Z.of_nat (length s.(storage)) = kRamfsStorageMax -> ramfs_wf (ramfs_init s) /\ abs (ramfs_init s) = ∅.
Proof.
  intros Hl. destruct (bounded_table_wf kRamfsFiles kRamfsNameMax new_payload ltac:(done) names_max) as [Hwf Hc].
  assert (files_of (ramfs_init s) = ∅) as Hf by exact Hc. split; [|unfold abs; by rewrite Hf, fmap_empty].
  split; rewrite ?Hf; try done.
Qed.

Lemma run_all_ok ops : forall s, ramfs_wf s -> Forall op_bounded ops ->
  exists rs s', run_all ops s = Some (rs, s') /\ ramfs_wf s' /\ spec_run (abs s) ops rs (abs s').
Proof.
  induction ops as [|op ops IH]; intros s Hwf Hops; cbn [run_all].
  { exists [], s. split_and!; [done|done|constructor]. }
  apply Forall_cons_1 in Hops as [Hop Hops]. destruct (run_ok s op Hwf Hop) as (r & s1 & -> & Hwf1 & Hs).
  cbn [mbind option_bind]. destruct (IH s1 Hwf1 Hops) as (rs & s' & -> & Hwf' & Hr). cbn [mbind option_bind].
  exists (r :: rs), s'. split_and!; [done|done|]. by econstructor.
Qed.

(** ** Directory listings *)

Fixpoint first_segment (l : list Z) : list Z :=
  match l with v :: l => if v =? 47 then [] else v :: first_segment l | [] => [] end.
Fixpoint strip_prefix (p l : list Z) : option (list Z) :=
  match p, l with
  | [], _ => Some l
  | x :: p, y :: l => if x =? y then strip_prefix p l else None
  | _, [] => None
  end.
(** The name under which the path [n] shows in [dir], and whether it is the file. *)
Definition child (dir n : list Z) : option (list Z * bool) :=
  rest ← (match dir with [] => Some (relative n) | _ => strip_prefix (dir ++ [47]) (relative n) end);
  match rest with [] => None | _ => Some (first_segment rest, bool_decide (first_segment rest = rest)) end.

(** The children of the files, by id, with the file lengths. *)
Definition child_entry (m : filesystem) (dir : list Z) (id : Z) : option (list Z * bool * Z) :=
  '(n, c) ← m !! id; '(ch, leaf) ← child dir n; Some (ch, leaf, Z.of_nat (length c)).
Definition children (m : filesystem) (dir : list Z) : list (list Z * bool * Z) := omap (child_entry m dir) (seqZ 1 kRamfsFiles).
(** A directory is dropped when its name was seen before. *)
Fixpoint once (seen : list (list Z)) (l : list (list Z * bool * Z)) : list (list Z * bool * Z) :=
  match l with
  | [] => []
  | (ch, leaf, z) :: l =>
      if negb leaf && bool_decide (ch ∈ seen) then once (ch :: seen) l
      else (ch, leaf, if leaf then z else 0) :: once (ch :: seen) l
  end.
Definition listing (m : filesystem) (dir : list Z) : list (list Z * bool * Z) := once [] (children m dir).

Lemma first_segment_app l : exists r, l = first_segment l ++ r /\ (r = [] \/ exists r', r = 47 :: r').
Proof.
  induction l as [|v l (r & Hr & Hs)]; cbn; [by exists []; split; [|left]|].
  destruct (Z.eqb_spec v 47) as [->|_]; [exists (47 :: l); split; [done|right; eauto]|].
  exists r. split; [cbn; by rewrite <- Hr|done].
Qed.

Lemma segment_end_ok l : forall A tail k, (length l <= k)%nat ->
  segment_end k (A ++ l ++ tail) (Z.of_nat (length A + length l)) (Z.of_nat (length A)) =
    Some (Z.of_nat (length A + length (first_segment l))).
Proof.
  induction l as [|v l IH]; intros A tail k Hk.
  - destruct k; cbn [segment_end first_segment length]; [by rewrite Nat.add_0_r|].
    rewrite (proj2 (Z.ltb_ge _ _)) by lia. cbn. by rewrite Nat.add_0_r.
  - destruct k as [|k]; [cbn in Hk; lia|]. cbn [segment_end first_segment length] in *.
    rewrite (proj2 (Z.ltb_lt _ _)) by lia. cbn [negb app]. rewrite (aget_mid A (l ++ tail)) by done. cbn [mbind option_bind].
    destruct (v =? 47); [cbn; by rewrite Nat.add_0_r|]. cbn [length].
    specialize (IH (A ++ [v]) tail k ltac:(lia)). rewrite length_app in IH. cbn [length] in IH. rewrite <- app_assoc in IH. cbn [app] in IH.
    replace (length A + S (length l))%nat with (length A + 1 + length l)%nat by lia.
    replace (Z.of_nat (length A) + 1) with (Z.of_nat (length A + 1)) by lia. rewrite IH. f_equal. lia.
Qed.

Lemma strip_prefix_app p l : strip_prefix p l = if decide (take (length p) l = p) then Some (drop (length p) l) else None.
Proof.
  revert l. induction p as [|x p IH]; intros l; cbn [strip_prefix length]; [by rewrite take_0, drop_0|].
  destruct l as [|y l]; [done|]. cbn [take drop]. destruct (Z.eqb_spec x y) as [->|Hne].
  - rewrite IH. destruct (decide (take (length p) l = p)) as [E|E]; [by rewrite decide_True by congruence|].
    rewrite decide_False by congruence. done.
  - rewrite decide_False by congruence. done.
Qed.

(** Where in the buffer a child is. *)
Definition child_place (n : list Z) (c : option (list Z * bool)) (r : option (Z * Z * bool)) : Prop :=
  match c, r with
  | Some (ch, leaf), Some (cs, cl, leaf') =>
      leaf' = leaf /\ cl = Z.of_nat (length ch) /\ 0 <= cs /\ cs + cl <= Z.of_nat (length n) /\
      take (length ch) (drop (Z.to_nat cs) n) = ch
  | None, None => True
  | _, _ => False
  end.

(** From the offset of the part of the path below the directory. *)
Lemma child_tail n tail i rest : n = take (Z.to_nat i) n ++ rest -> 0 <= i <= Z.of_nat (length n) ->
  exists r, (if Z.of_nat (length n) <=? i then Some None else
    e ← segment_end (length n) (n ++ tail) (Z.of_nat (length n)) i;
    Some (Some (i, e - i, e =? Z.of_nat (length n)))) = Some r /\
  child_place n (match rest with [] => None | _ => Some (first_segment rest, bool_decide (first_segment rest = rest)) end) r.
Proof.
  intros Hn Hi. set (A := take (Z.to_nat i) n) in *. assert (HA : length A = Z.to_nat i) by (unfold A; rewrite length_take; lia).
  assert (Hln : length n = (length A + length rest)%nat) by (by rewrite Hn at 1; rewrite length_app).
  destruct rest as [|v rest].
  - rewrite (proj2 (Z.leb_le _ _)); [by exists None|]. rewrite Hln. cbn. lia.
  - rewrite (proj2 (Z.leb_gt _ _)) by (rewrite Hln; cbn [length]; lia).
    set (l := v :: rest) in *. assert (Hle := segment_end_ok l A tail (length n) ltac:(lia)).
    rewrite app_assoc, <- Hn, <- Hln in Hle. replace (Z.of_nat (length A)) with i in Hle by lia. rewrite Hle.
    cbn [mbind option_bind]. eexists. split; [done|]. destruct (first_segment_app l) as (r & Hr & Hrs).
    assert (Hll : (length l = length (first_segment l) + length r)%nat) by (rewrite Hr at 1; by rewrite length_app).
    cbn [child_place]. fold l. change (match l with [] => _ | _ :: _ => Some (first_segment l, bool_decide (first_segment l = l)) end) with (Some (first_segment l, bool_decide (first_segment l = l))).
    cbn [child_place]. split_and!; [|lia|lia|lia|].
    + rewrite Hln. destruct r as [|x r].
      * rewrite app_nil_r in Hr. rewrite bool_decide_eq_true_2 by done. apply Z.eqb_eq. by rewrite <- Hr.
      * change (length (x :: r)) with (S (length r)) in Hll.
        rewrite bool_decide_eq_false_2; [apply Z.eqb_neq; lia|]. intros E. rewrite E in Hll. lia.
    + replace (drop (Z.to_nat i) n) with l.
      * rewrite Hr at 2. rewrite take_app_length'; done.
      * rewrite Hn at 1. rewrite <- HA. by rewrite drop_app_length.
Qed.

Lemma relative_split n : n <> [] -> exists i, n = take i n ++ relative n /\ (i <= 1)%nat /\ (i <= length n)%nat /\
  (forall tail, (v ← (n ++ tail).[0]; Some (if v =? 47 then 1 else 0)) = Some (Z.of_nat i)).
Proof.
  destruct n as [|v n]; [done|]. intros _. cbn [relative app].
  destruct (Z.eqb_spec v 47) as [->|Hv].
  - exists 1%nat. split; [done|]. split; [lia|]. split; [cbn; lia|]. done.
  - exists 0%nat. split; [done|]. split; [lia|]. split; [cbn; lia|]. intros tail. change ((v :: n ++ tail).[0]) with (Some v).
    cbn [mbind option_bind]. by rewrite (proj2 (Z.eqb_neq v 47)).
Qed.

Lemma child_of_ok n tail dir dtail : n <> [] -> Z.of_nat (length n) < 18446744073709551616 ->
  exists r, child_of (n ++ tail) (Z.of_nat (length n)) (dir ++ dtail) (Z.of_nat (length dir)) = Some r /\
    child_place n (child dir n) r.
Proof.
  intros Hne Hmax. destruct (relative_split n Hne) as (i & Hn & Hi1 & Hil & Hst). unfold child_of.
  rewrite (proj2 (Z.ltb_lt 0 _)) by (destruct n; [done|cbn; lia]). rewrite Hst. cbn [mbind option_bind].
  assert (Hrel : length (relative n) = (length n - i)%nat).
  { apply (f_equal length) in Hn. rewrite length_app, length_take in Hn. lia. }
  destruct dir as [|d0 dir0].
  { cbn [length]. change (Z.of_nat 0 =? 0) with true. cbn [mbind option_bind child].
    rewrite Nat2Z.id. apply child_tail; [by rewrite Nat2Z.id|lia]. }
  set (dir := d0 :: dir0) in *. assert (1 <= length dir)%nat by (cbn; lia).
  rewrite (proj2 (Z.eqb_neq (Z.of_nat (length dir)) 0)) by lia. rewrite u64_small by (unfold is_u64; lia).
  assert (child dir n = (rest ← (if decide (take (length dir + 1) (relative n) = dir ++ [47]) then Some (drop (length dir + 1) (relative n)) else None);
    match rest with [] => None | _ => Some (first_segment rest, bool_decide (first_segment rest = rest)) end)) as ->.
  { unfold child, dir. fold dir. rewrite strip_prefix_app, length_app. done. }
  destruct (Z.leb_spec (Z.of_nat (length n) - Z.of_nat i) (Z.of_nat (length dir))) as [Hle|Hgt].
  { cbn [mbind option_bind]. exists None. split; [done|]. rewrite decide_False; [done|].
    intros E. apply (f_equal length) in E. rewrite length_take, length_app in E. cbn [length] in E. lia. }
  rewrite region_equal_ok by (rewrite ?length_app; lia). cbn [mbind option_bind]. rewrite !Nat2Z.id.
  change (Z.to_nat 0) with 0%nat. rewrite drop_0, (take_app_length dir dtail).
  assert (Hd : drop i (n ++ tail) = relative n ++ tail).
  { rewrite Hn at 1. rewrite <- app_assoc. apply drop_app_length'. rewrite length_take. lia. }
  rewrite Hd, take_app_le by lia.
  destruct (lookup_lt_is_Some_2 (relative n) (length dir)) as [v Hv]; [lia|].
  assert (Hget : (n ++ tail).[Z.of_nat i + Z.of_nat (length dir)] = Some v).
  { rewrite <- Nat2Z.inj_add, aget_nat. rewrite <- lookup_drop, Hd. by rewrite lookup_app_l by lia. }
  case_bool_decide as Hpre; cbn [negb mbind option_bind].
  2: { exists None. split; [done|]. rewrite decide_False; [done|]. intros E. apply Hpre.
       apply (f_equal (take (length dir))) in E. rewrite take_take in E. rewrite take_app_length in E.
       by replace (length dir `min` (length dir + 1))%nat with (length dir) in E by lia. }
  rewrite Hget. cbn [mbind option_bind]. destruct (Z.eqb_spec v 47) as [->|Hv47]; cbn [negb].
  - rewrite decide_True.
    2: { rewrite Nat.add_1_r. erewrite take_S_r by exact Hv. by rewrite Hpre. }
    cbn [mbind option_bind]. apply child_tail; [|lia].
    rewrite Hn at 1. replace (Z.to_nat (Z.of_nat i + Z.of_nat (length dir) + 1)) with (i + (length dir + 1))%nat by lia.
    rewrite <- (take_take_drop n i (length dir + 1)). rewrite <- app_assoc. f_equal.
    replace (drop i n) with (relative n); [by rewrite take_drop|].
    rewrite Hn at 2. symmetry. apply drop_app_length'. rewrite length_take. lia.
  - exists None. split; [done|]. rewrite decide_False; [done|]. intros E. apply Hv47.
    apply (f_equal (lookup (length dir))) in E. rewrite lookup_take, decide_True, Hv in E by lia.
    rewrite lookup_app_r, Nat.sub_diag in E by lia. by injection E.
Qed.

Section listing_loop.
Context (s : ramfs) (Hwf : ramfs_wf s) (dir dtail : list Z).
Let buffer := dir ++ dtail.
Let dlen := Z.of_nat (length dir).

Definition placed (c : option (list Z * bool * Z)) (r : option (list Z * Z * Z * bool * Z)) : Prop :=
  match c, r with
  | Some (ch, leaf, z), Some (a, cs, cl, leaf', z') =>
      leaf' = leaf /\ z' = z /\ cl = Z.of_nat (length ch) /\ 0 <= cs /\ cs + cl <= Z.of_nat (length a) /\
      take (length ch) (drop (Z.to_nat cs) a) = ch
  | None, None => True
  | _, _ => False
  end.

Lemma child_at_ok id : 0 <= id -> exists r, child_at s id buffer dlen = Some r /\ placed (child_entry (abs s) dir id) r.
Proof.
  intros Hid. unfold child_at. rewrite payload_of_ok by done. cbn [mbind option_bind]. unfold child_entry. rewrite abs_lookup.
  destruct (files_of s !! id) as [[n p]|] eqn:Hf; cbn [fmap option_fmap option_map mbind option_bind snd fst]; [|by exists None].
  destruct (names_ok kRamfsFiles kRamfsNameMax names_max _ _ _ _ (rw_table _ Hwf) Hf) as (a & Ha & -> & Hk & H1 & Hmax & Hal).
  rewrite Ha. cbn [mbind option_bind].
  assert (Hsplit : a = n ++ drop (length n) a) by (rewrite <- Hk at 1; by rewrite take_drop).
  destruct (child_of_ok n (drop (length n) a) dir dtail) as (r & Er & Hp); [by destruct n; [cbn in H1; lia|]|unfold kRamfsNameMax in Hmax; lia|].
  rewrite <- Hsplit in Er. unfold buffer, dlen. rewrite Er. cbn [mbind option_bind]. eexists. split; [done|].
  unfold child_place in Hp. destruct (child dir n) as [[ch leaf]|], r as [[[cs cl] leaf']|]; try done.
  cbn [mbind option_bind placed]. destruct Hp as (-> & -> & H0 & Hb & Ht). split; [done|].
  split; [symmetry; apply file_bytes_length; [done|apply (rw_payloads _ Hwf id (n, p) Hf)]|].
  split; [done|]. split; [done|]. split; [rewrite Hsplit, length_app; lia|].
  rewrite Hsplit, drop_app_le by lia. rewrite take_app_le by (rewrite length_drop; lia). done.
Qed.

Definition names_of (l : list (list Z * bool * Z)) : list (list Z) := map (fun e => e.1.1) l.

Lemma seqZ_first id k : seqZ id (Z.of_nat (S k)) = id :: seqZ (id + 1) (Z.of_nat k).
Proof. rewrite seqZ_cons by lia. f_equal. f_equal; lia. Qed.

Lemma seen_before_ok k : forall e a cs ch, 0 <= e -> 0 <= cs -> cs + Z.of_nat (length ch) <= Z.of_nat (length a) ->
  take (length ch) (drop (Z.to_nat cs) a) = ch ->
  seen_before k e s buffer dlen a cs (Z.of_nat (length ch)) =
    Some (bool_decide (ch ∈ names_of (omap (child_entry (abs s) dir) (seqZ e (Z.of_nat k))))).
Proof.
  induction k as [|k IH]; intros e a cs ch He Hcs Hb Ht; [done|]. cbn [seen_before]. rewrite seqZ_first.
  destruct (child_at_ok e He) as (r & -> & Hp). cbn [mbind option_bind omap list_omap].
  destruct (child_entry (abs s) dir e) as [[[c leaf] z]|], r as [[[[[a' es] el] leaf'] z']|]; try done.
  2: { rewrite IH by (done || lia). done. }
  destruct Hp as (-> & -> & -> & H0 & Hb' & Ht'). cbn [names_of map fst].
  assert ((if Z.of_nat (length c) =? Z.of_nat (length ch) then region_equal (Z.to_nat (Z.of_nat (length ch))) cs a es a' else Some false)
    = Some (bool_decide (ch = c))) as ->.
  { destruct (Z.eqb_spec (Z.of_nat (length c)) (Z.of_nat (length ch))) as [E|E].
    - rewrite region_equal_ok by lia. rewrite Nat2Z.id, Ht. f_equal. apply Nat2Z.inj in E. rewrite <- E, Ht'. done.
    - rewrite bool_decide_eq_false_2; [done|]. by intros ->. }
  cbn [mbind option_bind]. case_bool_decide as E.
  - rewrite bool_decide_eq_true_2; [done|]. rewrite E. by left.
  - rewrite IH by (done || lia). f_equal. apply bool_decide_ext. rewrite elem_of_cons. fold names_of. tauto.
Qed.

(** An entry as [ramfs_list] reports it. *)
Definition shows (e : option (list Z * bool * Z)) (l : option listed) : Prop :=
  match e, l with
  | Some (ch, leaf, z), Some l =>
      (0 <= l.(l_start) /\ 0 <= l.(l_length) /\ l.(l_start) + l.(l_length) <= Z.of_nat (length l.(l_name))) /\
      take (Z.to_nat l.(l_length)) (drop (Z.to_nat l.(l_start)) l.(l_name)) = ch /\
      l.(l_size) = z /\ l.(l_directory) = negb leaf
  | None, None => True
  | _, _ => False
  end.

Lemma list_from_ok k : forall id cur index seen, 1 <= id -> cur <= index ->
  (forall c, c ∈ seen <-> c ∈ names_of (omap (child_entry (abs s) dir) (seqZ 1 (id - 1)))) ->
  exists r, list_from k id cur index buffer dlen s = Some r /\
    shows (once seen (omap (child_entry (abs s) dir) (seqZ id (Z.of_nat k))) !! Z.to_nat (index - cur)) r.
Proof.
  induction k as [|k IH]; intros id cur index seen Hid Hcur Hseen; [by exists None|]. cbn [list_from]. rewrite seqZ_first.
  assert (Hnext : seqZ 1 (id + 1 - 1) = seqZ 1 (id - 1) ++ [id]).
  { replace (id + 1 - 1) with (id - 1 + 1) by lia. rewrite seqZ_app by lia. f_equal. replace (1 + (id - 1)) with id by lia. done. }
  destruct (child_at_ok id ltac:(lia)) as (r & -> & Hp). cbn [mbind option_bind omap list_omap].
  destruct (child_entry (abs s) dir id) as [[[ch leaf] z]|] eqn:Hce, r as [[[[[a cs] cl] leaf'] z']|]; try done.
  2: { apply IH; [lia|done|]. intros c. rewrite Hnext, omap_app. cbn. rewrite Hce, app_nil_r. apply Hseen. }
  destruct Hp as (-> & -> & -> & H0 & Hb & Ht). cbn [once].
  assert (Hseen' : forall c, c ∈ ch :: seen <-> c ∈ names_of (omap (child_entry (abs s) dir) (seqZ 1 (id + 1 - 1)))).
  { intros c. rewrite Hnext, omap_app. cbn. rewrite Hce. unfold names_of. rewrite map_app, elem_of_app, elem_of_cons. cbn.
    rewrite list_elem_of_singleton. fold names_of. rewrite Hseen. tauto. }
  assert ((if negb leaf then seen_before (Z.to_nat (id - 1)) 1 s buffer dlen a cs (Z.of_nat (length ch)) else Some false)
    = Some (negb leaf && bool_decide (ch ∈ seen))) as ->.
  { destruct leaf; [done|]. cbn [negb andb]. rewrite seen_before_ok by (done || lia). f_equal. apply bool_decide_ext.
    rewrite Z2Nat.id by lia. symmetry. apply Hseen. }
  cbn [mbind option_bind]. destruct (negb leaf && bool_decide (ch ∈ seen)); [apply IH; [lia|done|done]|].
  destruct (Z.eqb_spec cur index) as [->|Hne]; cbn [negb].
  - eexists. split; [done|]. rewrite Z.sub_diag. change (Z.to_nat 0) with 0%nat.
    cbn [shows lookup list_lookup l_length l_start l_name l_size l_directory]. rewrite Nat2Z.id. split; [lia|done].
  - replace (Z.to_nat (index - cur)) with (S (Z.to_nat (index - (cur + 1)))) by lia. apply IH; [lia|lia|done].
Qed.
End listing_loop.

Lemma normalize_ok prefix len : 0 <= len <= Z.of_nat (length prefix) -> exists dtail,
  normalize_prefix prefix len = Some (relative (take (Z.to_nat len) prefix) ++ dtail, Z.of_nat (length (relative (take (Z.to_nat len) prefix)))).
Proof.
  intros Hl. unfold normalize_prefix. destruct (Z.eqb_spec len 0) as [->|]; [by exists prefix|].
  destruct prefix as [|v p]; [cbn in Hl; lia|]. replace (Z.to_nat len) with (S (Z.to_nat (len - 1))) by lia.
  cbn [length] in Hl. change ((v :: p).[0]) with (Some v). cbn [take relative mbind option_bind].
  exists (drop (Z.to_nat (len - 1)) p). destruct (v =? 47).
  - rewrite take_drop, length_take. cbn [drop]. f_equal. f_equal. lia.
  - cbn [app]. rewrite take_drop. cbn [length]. rewrite length_take. f_equal. f_equal. lia.
Qed.

(** A directory's name is kept the first time only. *)
Lemma once_directories l : forall seen,
  NoDup (names_of (List.filter (fun e => negb e.1.2) (once seen l))) /\
  (forall c, c ∈ names_of (List.filter (fun e => negb e.1.2) (once seen l)) -> c ∉ seen).
Proof.
  induction l as [|[[ch leaf] z] l IH]; intros seen; cbn [once]; [split; [constructor|intros c Hc; by apply not_elem_of_nil in Hc]|].
  destruct (IH (ch :: seen)) as [Hn Hs]. destruct leaf; cbn [negb andb].
  - cbn [List.filter fst snd negb]. split; [done|]. intros c Hc Hin. apply (Hs c Hc). by right.
  - case_bool_decide as Hin; cbn [List.filter fst snd negb names_of map].
    + split; [done|]. intros c Hc Hin'. apply (Hs c Hc). by right.
    + split; [constructor; [|done]; intros Hc; apply (Hs ch Hc); by left|].
      intros c [->|Hc]%elem_of_cons; [done|]. intros Hin'. apply (Hs c Hc). by right.
Qed.

Lemma list_ok s prefix len index :
  ramfs_wf s -> 0 <= len <= Z.of_nat (length prefix) -> 0 <= index ->
  exists r, ramfs_list prefix len index s = Some r /\
    shows (listing (abs s) (relative (take (Z.to_nat len) prefix)) !! Z.to_nat index) r.
Proof.
  intros Hwf Hl Hi. unfold ramfs_list. destruct (normalize_ok prefix len Hl) as [dtail ->]. cbn [mbind option_bind].
  destruct (list_from_ok s Hwf (relative (take (Z.to_nat len) prefix)) dtail (Z.to_nat kRamfsFiles) 1 0 index []) as (r & Er & Hr); [lia|lia|done|].
  exists r. split; [exact Er|]. rewrite Z.sub_0_r in Hr. exact Hr.
Qed.

(** A directory is listed when the first child with its name is not the file itself. *)
Lemma once_listed (f : Z -> option (list Z * bool * Z)) k : forall a seen ch,
  (exists z, (ch, false, z) ∈ once seen (omap f (seqZ a (Z.of_nat k)))) <->
  ch ∉ seen /\ exists id z, a <= id < a + Z.of_nat k /\ f id = Some (ch, false, z) /\
    forall j e, a <= j < id -> f j = Some e -> e.1.1 <> ch.
Proof.
  induction k as [|k IH]; intros a seen ch.
  { split; [intros (z & Hz); by apply not_elem_of_nil in Hz|intros (_ & id & z & Hb & _); lia]. }
  rewrite (seqZ_first []) by constructor. cbn [omap list_omap].
  assert (Hskip : (forall e, f a = Some e -> e.1.1 <> ch) ->
    (exists id z, a + 1 <= id < a + 1 + Z.of_nat k /\ f id = Some (ch, false, z) /\ forall j e, a + 1 <= j < id -> f j = Some e -> e.1.1 <> ch) <->
    (exists id z, a <= id < a + Z.of_nat (S k) /\ f id = Some (ch, false, z) /\ forall j e, a <= j < id -> f j = Some e -> e.1.1 <> ch)).
  { intros Ha. split; intros (id & z & Hb & Hf & Hj); exists id, z.
    - split; [lia|]. split; [done|]. intros j e Hje. destruct (decide (j = a)) as [->|]; [apply Ha|apply Hj; lia].
    - assert (id <> a) by (intros ->; by apply (Ha _ Hf)). split; [lia|]. split; [done|]. intros j e Hje. apply Hj. lia. }
  destruct (f a) as [[[c0 leaf] z0]|] eqn:Ef.
  2: { rewrite (IH (a + 1) seen ch), Hskip by done. done. }
  cbn [once]. destruct (decide (c0 = ch)) as [->|Hne].
  - assert (Hno : ~ exists z, (ch, false, z) ∈ once (ch :: seen) (omap f (seqZ (a + 1) (Z.of_nat k)))).
    { intros Hz. apply IH in Hz as [Hs _]. apply Hs. by left. }
    destruct leaf; cbn [negb andb].
    + split.
      * intros (z & [?|Hz]%elem_of_cons); [done|]. destruct Hno. by exists z.
      * intros (_ & id & z & Hb & Hf & Hj). destruct (decide (id = a)) as [->|]; [congruence|]. by destruct (Hj a _ ltac:(lia) Ef).
    + case_bool_decide as Hin.
      * split; [intros Hz; by destruct Hno|]. intros [? _]. done.
      * split; [|intros _; exists 0; by left]. intros _. split; [done|]. exists a, z0. split; [lia|]. split; [done|]. intros j e Hj. lia.
  - assert (Hrest : (exists z, (ch, false, z) ∈ once (c0 :: seen) (omap f (seqZ (a + 1) (Z.of_nat k)))) <->
      ch ∉ seen /\ exists id z, a <= id < a + Z.of_nat (S k) /\ f id = Some (ch, false, z) /\ forall j e, a <= j < id -> f j = Some e -> e.1.1 <> ch).
    { rewrite (IH (a + 1) (c0 :: seen) ch), Hskip by (by intros e [= <-]). rewrite not_elem_of_cons. split; [tauto|]. intros [? ?]; split; [|done]. split; [congruence|done]. }
    rewrite <- Hrest. destruct (negb leaf && bool_decide (c0 ∈ seen)); [done|]. split.
    + intros (z & [Hz|Hz]%elem_of_cons); [by injection Hz|by exists z].
    + intros (z & Hz). exists z. by right.
Qed.

(** ** Properties *)

(** C3. Any session of calls, from initialization, behaves as operations on a finite
    map from ids to names and contents: no call leaves its buffers, and each
    call's result and effect are those of the map. *)
Theorem ramfs_refines_map s ops :
  Z.of_nat (length s.(storage)) = kRamfsStorageMax -> Forall op_bounded ops ->
  exists rs s', run_all ops (ramfs_init s) = Some (rs, s') /\ spec_run ∅ ops rs (abs s').
Proof.
  intros Hl Hops. destruct (ramfs_init_wf s Hl) as [Hwf <-]. destruct (run_all_ok ops _ Hwf Hops) as (rs & s' & E & _ & H). eauto.
Qed.

(** C28. A write succeeds exactly when the file exists, is not a boot module, is
    within the size limit, and fits either its region or the rest of the
    arena; it then holds exactly the bytes, and takes from the arena only when
    it outgrows its region. *)
Theorem ramfs_write_exact s id data len : ramfs_wf s -> 0 <= id -> buffer_ok data len ->
  exists b s', ramfs_write id data len s = Some (b, s') /\ (b = true <-> can_store s id data len) /\
    write_spec (abs s) id data len b (abs s') /\
    s'.(storage_used) = s.(storage_used) + (if b then extent s id len else 0) /\ s'.(storage_used) <= kRamfsStorageMax.
Proof.
  intros Hwf Hid Hb. destruct (ramfs_write_ok s id data len Hwf Hid Hb) as (b & s' & E & Hwf' & Hw & Hiff & Hu).
  exists b, s'. split_and!; try done. apply (rw_used _ Hwf').
Qed.

(** C26. The name scanner agrees with the definition of a path by its segments, on
    the first [length n] bytes of any buffer. *)
Theorem valid_name_exact n tail : valid_name (Some (n ++ tail)) (Z.of_nat (length n)) = Some (good_name n).
Proof. apply valid_name_ok. by exists tail. Qed.

(** C27. A directory listing enumerates the children of the directory in the order
    of the file ids: a file with its length, a subdirectory with length 0 and
    at most once. *)
Theorem ramfs_list_exact s prefix len index :
  ramfs_wf s -> 0 <= len <= Z.of_nat (length prefix) -> 0 <= index ->
  let dir := relative (take (Z.to_nat len) prefix) in
  (exists r, ramfs_list prefix len index s = Some r /\ shows (listing (abs s) dir !! Z.to_nat index) r) /\
  NoDup (names_of (List.filter (fun e => negb e.1.2) (listing (abs s) dir))).
Proof.
  intros Hwf Hl Hi dir. split; [by apply list_ok|apply (once_directories _ [])].
Qed.

(** [open(name, create)] of a C string literal. *)
Definition create_file (name : list Z) : fs_op := Open (Some name) (Z.of_nat (length name)) true.
Definition name_a : list Z := [97].
Definition name_a_b : list Z := [97; 47; 98].

(** C40. A file hides the subdirectory of the same name, depending on the ids alone: the
    name of a subdirectory is listed exactly when, of all the files that show under
    that name, the one with the lowest id lies inside the subdirectory. A plain file of
    that name with a lower id, which an earlier creation or the reuse of a deleted
    file's slot gives it, suppresses the subdirectory. *)
Theorem file_hides_directory s prefix len ch :
  ramfs_wf s -> 0 <= len <= Z.of_nat (length prefix) ->
  let dir := relative (take (Z.to_nat len) prefix) in
  (exists index l, 0 <= index /\ ramfs_list prefix len index s = Some (Some l) /\ l.(l_directory) = true /\
     take (Z.to_nat l.(l_length)) (drop (Z.to_nat l.(l_start)) l.(l_name)) = ch) <->
  exists id z, 1 <= id <= kRamfsFiles /\ child_entry (abs s) dir id = Some (ch, false, z) /\
    forall j e, 1 <= j < id -> child_entry (abs s) dir j = Some e -> e.1.1 <> ch.
Proof.
  intros Hwf Hl dir.
  pose proof (once_listed (child_entry (abs s) dir) (Z.to_nat kRamfsFiles) 1 [] ch) as Ho.
  rewrite Z2Nat.id in Ho by (unfold kRamfsFiles; lia). fold (children (abs s) dir) in Ho. fold (listing (abs s) dir) in Ho.
  split.
  - intros (index & l & Hi & E & Hd & Hn). destruct (list_ok s prefix len index Hwf Hl Hi) as (r & E' & Hs). fold dir in Hs.
    rewrite E in E'. injection E' as <-. destruct (listing _ _ !! _) as [[[ch' leaf] z]|] eqn:El; [|done].
    destruct Hs as (_ & Hch & _ & Hdl). rewrite Hd in Hdl. destruct leaf; [done|]. assert (ch' = ch) as -> by congruence.
    destruct (proj1 Ho) as (_ & id & z' & Hb & H); [exists z; by eapply list_elem_of_lookup_2|]. exists id, z'. split; [lia|done].
  - intros (id & z & Hb & H). destruct (proj2 Ho) as [z' Hin]; [split; [by intros ?%elem_of_nil|]; exists id, z; split; [lia|done]|].
    apply list_elem_of_lookup in Hin as (k & Hk).
    destruct (list_ok s prefix len (Z.of_nat k) Hwf Hl ltac:(lia)) as (r & E & Hs). fold dir in Hs. rewrite Nat2Z.id, Hk in Hs.
    destruct r as [l|]; [|done]. destruct Hs as (_ & Hch & _ & Hdl). exists (Z.of_nat k), l. split; [lia|]. split; [exact E|]. by split.
Qed.

(** ** Concrete sessions *)

Definition blank_ramfs : ramfs := Ramfs [] (replicate (Z.to_nat kRamfsStorageMax) 0) 0 0 0 0.
Lemma blank_length : Z.of_nat (length blank_ramfs.(storage)) = kRamfsStorageMax.
Proof. cbn [storage blank_ramfs]. rewrite length_replicate. done. Qed.

Definition demo_ops : list fs_op := [create_file name_a_b; Write 1 (Some [1; 2; 3]) 3; Size 1].
Lemma demo_bounded : Forall op_bounded demo_ops.
Proof. repeat constructor; cbn; lia. Qed.

Lemma ramfs_refines_map_witness : Forall op_bounded demo_ops /\
  exists rs s', run_all demo_ops (ramfs_init blank_ramfs) = Some (rs, s') /\ spec_run ∅ demo_ops rs (abs s').
Proof.
  split; [exact demo_bounded|]. apply (ramfs_refines_map blank_ramfs demo_ops); [exact blank_length|exact demo_bounded].
Defined.

Definition one_file : ramfs :=
  match run_all [create_file name_a] (ramfs_init blank_ramfs) with Some (_, s) => s | None => blank_ramfs end.
Lemma one_file_wf : ramfs_wf one_file.
Proof.
  destruct (ramfs_init_wf blank_ramfs blank_length) as [Hwf _].
  destruct (run_all_ok [create_file name_a] _ Hwf) as (rs & s' & E & Hwf' & _); [repeat constructor; cbn; lia|].
  unfold one_file. by rewrite E.
Qed.
Lemma one_file_payload : files_of one_file !! 1 = Some (name_a, new_payload).
Proof. vm_compute. reflexivity. Qed.
Lemma one_file_room : can_store one_file 1 (Some [7]) 1.
Proof. unfold can_store. rewrite one_file_payload. split; [done|]. split; [done|]. right. by vm_compute. Qed.

Lemma ramfs_write_exact_witness :
  exists s', ramfs_write 1 (Some [7]) 1 one_file = Some (true, s') /\ s'.(storage_used) <= kRamfsStorageMax.
Proof.
  destruct (ramfs_write_exact one_file 1 (Some [7]) 1 one_file_wf) as (b & s' & E & Hb & _ & _ & Hle).
  - lia.
  - split; cbn; lia.
  - assert (b = true) as -> by (apply Hb; exact one_file_room). exists s'. by split.
Defined.

Lemma ramfs_list_exact_witness : exists r, ramfs_list [] 0 0 one_file = Some r /\
  shows (listing (abs one_file) [] !! 0%nat) r.
Proof.
  destruct (ramfs_list_exact one_file [] 0 0 one_file_wf) as [H _].
  - split; reflexivity.
  - lia.
  - exact H.
Defined.

(** "a/b" created first: the root shows the directory "a". *)
Definition nested : ramfs :=
  match run_all [create_file name_a_b; create_file name_a] (ramfs_init blank_ramfs) with Some (_, s) => s | None => blank_ramfs end.
Lemma nested_wf : ramfs_wf nested.
Proof.
  destruct (ramfs_init_wf blank_ramfs blank_length) as [Hwf _].
  destruct (run_all_ok [create_file name_a_b; create_file name_a] _ Hwf) as (rs & s' & E & Hwf' & _); [repeat constructor; cbn; lia|].
  unfold nested. by rewrite E.
Qed.

Lemma file_hides_directory_witness : exists index l, 0 <= index /\ ramfs_list [] 0 index nested = Some (Some l) /\
  l.(l_directory) = true /\ take (Z.to_nat l.(l_length)) (drop (Z.to_nat l.(l_start)) l.(l_name)) = name_a.
Proof.
  apply (file_hides_directory nested [] 0 name_a nested_wf); [split; reflexivity|].
  exists 1, 0. split; [unfold kRamfsFiles; lia|]. split; [vm_compute; reflexivity|]. intros j e Hj. lia.
Defined.
