(* ===== verification/Surface.v ===== *)
(** The shared pixel surfaces of [src/surface.c]: a table of eight objects
    suballocated first-fit from one pixel arena, reference counted by the
    capabilities that name them, with a damage rectangle each. *)

From S2P Require Import Prelude.

Definition SURFACE_LIMIT : Z := 8.
Definition SURFACE_MAX_WIDTH : Z := 640.
Definition SURFACE_MAX_HEIGHT : Z := 480.
Definition SURFACE_ARENA_BYTES : Z := 1048576.

(** ** Data *)

Record surface_object := Surf {
  owner_pid : Z; width : Z; height : Z; offset_pixels : Z; capacity_pixels : Z;
  references : Z;
  damage_x : Z; damage_y : Z; damage_width : Z; damage_height : Z;
  damage_pending : bool; active : bool
}.
Definition no_surface : surface_object := Surf 0 0 0 0 0 0 0 0 0 0 false false.

Definition with_references (n : Z) (o : surface_object) : surface_object :=
  Surf o.(owner_pid) o.(width) o.(height) o.(offset_pixels) o.(capacity_pixels) n
    o.(damage_x) o.(damage_y) o.(damage_width) o.(damage_height) o.(damage_pending) o.(active).
Definition with_damage (x y w h : Z) (pending : bool) (o : surface_object) : surface_object :=
  Surf o.(owner_pid) o.(width) o.(height) o.(offset_pixels) o.(capacity_pixels) o.(references)
    x y w h pending o.(active).

(** The file-scope state. [pixel_arena] is [None] before initialisation. *)
Record surfaces := Surfaces {
  objects : list surface_object;
  pixel_arena : option (list Z);
  write_count : Z; read_count : Z; share_count : Z; created_count : Z;
  reclaimed_count : Z; mapping_count : Z; damage_count : Z; damage_consumed_count : Z
}.

Definition set_objects (os : list surface_object) (s : surfaces) : surfaces :=
  Surfaces os s.(pixel_arena) s.(write_count) s.(read_count) s.(share_count) s.(created_count)
    s.(reclaimed_count) s.(mapping_count) s.(damage_count) s.(damage_consumed_count).
Definition set_arena (a : list Z) (s : surfaces) : surfaces :=
  Surfaces s.(objects) (Some a) s.(write_count) s.(read_count) s.(share_count) s.(created_count)
    s.(reclaimed_count) s.(mapping_count) s.(damage_count) s.(damage_consumed_count).
(** The increments of the statistics counters. *)
Definition count_up (wr rd sh cr rc mp dm dc : Z) (s : surfaces) : surfaces :=
  Surfaces s.(objects) s.(pixel_arena) (u64 (s.(write_count) + wr)) (u64 (s.(read_count) + rd))
    (u64 (s.(share_count) + sh)) (u64 (s.(created_count) + cr)) (u64 (s.(reclaimed_count) + rc))
    (u64 (s.(mapping_count) + mp)) (u64 (s.(damage_count) + dm)) (u64 (s.(damage_consumed_count) + dc)).

Definition update_object (id : Z) (f : surface_object -> surface_object) (s : surfaces)
  : option surfaces :=
  o ← s.(objects).[id - 1]; os ← s.(objects).[id - 1 <- f o]; Some (set_objects os s).

(** ** Operations *)

(** [surfaces_init]: [arena] is the region of [arena_bytes] bytes, as words. *)
Definition surfaces_init (arena : option (list Z)) (arena_bytes : Z) (s : surfaces)
  : option (bool * surfaces) :=
  match arena with
  | None => Some (false, s)
  | Some a =>
      if arena_bytes <? SURFACE_ARENA_BYTES then Some (false, s) else
      a ← fill a 0 0 (Z.to_nat (arena_bytes / 4));
      Some (true, Surfaces (replicate 8 no_surface) (Some (take (Z.to_nat (arena_bytes / 4)) a))
                    0 0 0 0 0 0 0 0)
  end.

Definition resolve (id : Z) (s : surfaces) : option (option surface_object) :=
  if (id =? 0) || (SURFACE_LIMIT <? id) then Some None else
  o ← s.(objects).[id - 1];
  Some (if o.(active) then Some o else None).

Definition round_capacity (pixels : Z) : Z := Z.land (pixels + 1023) (Z.lnot 1023).

(** The inner loop of the search: does [offset, offset + capacity) meet a live
    surface? *)
Definition overlaps (os : list surface_object) (offset capacity : Z) : bool :=
  existsb (fun o => o.(active) && (offset <? o.(offset_pixels) + o.(capacity_pixels))
                    && (o.(offset_pixels) <? offset + capacity)) os.

(** The first-fit scan in steps of 1024 pixels. *)
Fixpoint find_offset (fuel : nat) (os : list surface_object) (count capacity offset : Z)
  : option Z :=
  match fuel with
  | O => None
  | S fuel =>
      if (offset <=? count) && (capacity <=? count - offset) then
        if overlaps os offset capacity then find_offset fuel os count capacity (offset + 1024)
        else Some offset
      else None
  end.
Definition find_fuel (count : Z) : nat := Z.to_nat (count / 1024 + 2).

Definition surface_create (owner w h : Z) (s : surfaces) : option (option Z * surfaces) :=
  match s.(pixel_arena) with
  | None => Some (None, s)
  | Some arena =>
      if (owner =? 0) || (w =? 0) || (h =? 0) || (SURFACE_MAX_WIDTH <? w) || (SURFACE_MAX_HEIGHT <? h)
      then Some (None, s) else
      match list_find (fun o => o.(active) = false) s.(objects) with
      | None => Some (None, s)
      | Some (i, _) =>
          let count := Z.of_nat (length arena) in
          let capacity := round_capacity (w * h) in
          match find_offset (find_fuel count) s.(objects) count capacity 0 with
          | None => Some (None, s)
          | Some offset =>
              os ← s.(objects).[Z.of_nat i <-
                     Surf owner w h (u32 offset) (u32 capacity) 0 0 0 0 0 false true];
              Some (Some (Z.of_nat i + 1), count_up 0 0 0 1 0 0 0 0 (set_objects os s))
          end
      end
  end.

Definition surface_retain (id : Z) (s : surfaces) : option (bool * surfaces) :=
  r ← resolve id s;
  match r with
  | None => Some (false, s)
  | Some o =>
      if o.(references) =? U32_MAX then Some (false, s) else
      s ← update_object id (fun o => with_references (o.(references) + 1) o) s;
      Some (true, s)
  end.

Definition clear_object (id : Z) (o : surface_object) (s : surfaces) : option surfaces :=
  arena ← s.(pixel_arena);
  arena ← fill arena o.(offset_pixels) 0 (Z.to_nat o.(capacity_pixels));
  s ← update_object id (fun _ => no_surface) (set_arena arena s);
  Some (count_up 0 0 0 0 1 0 0 0 s).

Definition surface_release (id : Z) (s : surfaces) : option (bool * surfaces) :=
  r ← resolve id s;
  match r with
  | None => Some (false, s)
  | Some o =>
      if o.(references) =? 0 then Some (false, s) else
      let o := with_references (o.(references) - 1) o in
      s ← update_object id (fun _ => o) s;
      if o.(references) =? 0 then s ← clear_object id o s; Some (true, s)
      else Some (true, s)
  end.

Definition surface_discard (id : Z) (s : surfaces) : option (bool * surfaces) :=
  r ← resolve id s;
  match r with
  | None => Some (false, s)
  | Some o =>
      if negb (o.(references) =? 0) then Some (false, s) else
      s ← clear_object id o s; Some (true, s)
  end.

(** [pixels] is [None] for a null pointer. *)
Definition surface_write (id pixel_offset : Z) (pixels : option (list Z)) (pixel_count : Z)
    (s : surfaces) : option (bool * surfaces) :=
  r ← resolve id s;
  match r, pixels with
  | Some o, Some pixels =>
      let total := o.(width) * o.(height) in
      if (total <? pixel_offset) || (total - pixel_offset <? pixel_count) then Some (false, s) else
      arena ← s.(pixel_arena);
      arena ← copy_into arena (o.(offset_pixels) + pixel_offset) pixels 0 (Z.to_nat pixel_count);
      Some (true, count_up 1 0 0 0 0 0 0 0 (set_arena arena s))
  | _, _ => Some (false, s)
  end.

(** [surface_data]: the pixels a caller may read, with the dimensions. *)
Definition surface_data (id : Z) (s : surfaces) : option (option (list Z * Z * Z) * surfaces) :=
  r ← resolve id s;
  match r with
  | None => Some (None, s)
  | Some o =>
      arena ← s.(pixel_arena);
      let pixels := take (Z.to_nat (o.(width) * o.(height))) (drop (Z.to_nat o.(offset_pixels)) arena) in
      Some (Some (pixels, o.(width), o.(height)), count_up 0 1 0 0 0 0 0 0 s)
  end.

(** [surface_mapping_data]: the byte offset in the arena, and the pages. *)
Definition surface_mapping_data (id : Z) (s : surfaces) : option (option (Z * Z) * surfaces) :=
  r ← resolve id s;
  match r with
  | None => Some (None, s)
  | Some o =>
      Some (Some (o.(offset_pixels) * 4, (o.(capacity_pixels) * 4 + 4095) / 4096),
            count_up 0 0 0 0 0 1 0 0 s)
  end.

Definition surface_damage (id x y w h : Z) (s : surfaces) : option (bool * surfaces) :=
  r ← resolve id s;
  match r with
  | None => Some (false, s)
  | Some o =>
      if (w =? 0) || (h =? 0) || (o.(width) <=? x) || (o.(height) <=? y)
         || (o.(width) - x <? w) || (o.(height) - y <? h)
         || (65535 <? x) || (65535 <? y) || (65535 <? w) || (65535 <? h)
      then Some (false, s) else
      s ← update_object id (with_damage (u16 x) (u16 y) (u16 w) (u16 h) true) s;
      Some (true, count_up 0 0 0 0 0 0 1 0 s)
  end.

Definition surface_take_damage (id : Z) (s : surfaces) : option (option Z * surfaces) :=
  r ← resolve id s;
  match r with
  | None => Some (None, s)
  | Some o =>
      if negb o.(damage_pending) then Some (None, s) else
      let packed := Z.lor (Z.lor (Z.lor o.(damage_x) (Z.shiftl o.(damage_y) 16))
                             (Z.shiftl o.(damage_width) 32)) (Z.shiftl o.(damage_height) 48) in
      s ← update_object id (fun o => with_damage o.(damage_x) o.(damage_y) o.(damage_width)
                                       o.(damage_height) false o) s;
      Some (Some packed, count_up 0 0 0 0 0 0 0 1 s)
  end.

Definition surface_note_share (s : surfaces) : surfaces := count_up 0 0 1 0 0 0 0 0 s.
Definition surface_count (s : surfaces) : Z :=
  Z.of_nat (length (filter (fun o => o.(active) = true) s.(objects))).
