(* ===== verification/SurfaceSpec.v ===== *)
(** Correctness of the surface allocator: live surfaces never overlap nor leave
    the arena, unused pixels are always zero, so a new surface is blank, first
    fit is complete, and writing one surface never changes another. *)

From S2P Require Import Prelude Surface.

(** ** Invariant *)

Record obj_ok (count : Z) (o : surface_object) : Prop := {
  obj_width : 1 <= o.(width) <= 640;
  obj_height : 1 <= o.(height) <= 480;
  obj_capacity : o.(capacity_pixels) = round_capacity (o.(width) * o.(height));
  obj_offset : 0 <= o.(offset_pixels);
  obj_end : o.(offset_pixels) + o.(capacity_pixels) <= count;
  obj_refs : is_u32 o.(references);
  obj_damage : is_u16 o.(damage_x) /\ is_u16 o.(damage_y) /\
               is_u16 o.(damage_width) /\ is_u16 o.(damage_height);
}.

(** The pixels [o] owns. *)
Definition covers (o : surface_object) (p : Z) : Prop :=
  o.(offset_pixels) <= p < o.(offset_pixels) + o.(capacity_pixels).

(** [live s i o]: slot [i] holds the active object [o]. *)
Definition live (s : surfaces) (i : Z) (o : surface_object) : Prop :=
  s.(objects).[i] = Some o /\ o.(active) = true.

Record surf_wf (a : list Z) (s : surfaces) : Prop := {
  surf_arena : s.(pixel_arena) = Some a;
  surf_size : Z.of_nat (length a) < 4294967296;
  surf_slots : length s.(objects) = 8%nat;
  surf_live : forall i o, live s i o -> obj_ok (Z.of_nat (length a)) o;
  surf_free : forall i o, s.(objects).[i] = Some o -> o.(active) = false -> o = no_surface;
  surf_apart : forall i j o o' p, live s i o -> live s j o' -> i <> j ->
    covers o p -> ~ covers o' p;
  surf_clean : forall p v, a.[p] = Some v -> (forall i o, live s i o -> ~ covers o p) -> v = 0;
}.

(** The pixels of a live object. *)
Definition slice (a : list Z) (off n : Z) : list Z := take (Z.to_nat n) (drop (Z.to_nat off) a).
Definition pixels_of (a : list Z) (o : surface_object) : list Z :=
  slice a o.(offset_pixels) (o.(width) * o.(height)).

Lemma round_capacity_eq n : round_capacity n = (n + 1023) / 1024 * 1024.
Proof.
  unfold round_capacity. rewrite <- Z.ldiff_land.
  change (Z.ldiff (n + 1023) 1023) with (Z.ldiff (n + 1023) (Z.ones 10)).
  rewrite Z.ldiff_ones_r by lia. by rewrite Z.shiftl_mul_pow2, Z.shiftr_div_pow2 by lia.
Qed.

Lemma round_capacity_bounds n : 0 <= n -> n <= round_capacity n < n + 1024.
Proof. intros. rewrite round_capacity_eq. zlia. Qed.

Lemma obj_pixels count o : obj_ok count o ->
  1 <= o.(width) * o.(height) <= o.(capacity_pixels) /\ o.(capacity_pixels) <= 308223.
Proof.
  intros []. rewrite obj_capacity0.
  pose proof (round_capacity_bounds (o.(width) * o.(height)) ltac:(nia)). split; nia.
Qed.

Lemma live_slot s i o a : surf_wf a s -> live s i o -> 0 <= i < 8.
Proof. intros Hwf [H%aget_bound _]. rewrite (surf_slots _ _ Hwf) in H. lia. Qed.

(** Looking an id up. *)
Lemma resolve_ok a s id : surf_wf a s -> 0 <= id ->
  exists r, resolve id s = Some r /\
    match r with
    | Some o => live s (id - 1) o /\ 1 <= id <= 8
    | None => forall o, ~ live s (id - 1) o
    end.
Proof.
  intros Hwf Hid. unfold resolve, SURFACE_LIMIT.
  destruct ((id =? 0) || (8 <? id)) eqn:E.
  { exists None. split; [done|]. intros o Hl. pose proof (live_slot _ _ _ _ Hwf Hl).
    apply orb_true_iff in E as [E|E]; [apply Z.eqb_eq in E|apply Z.ltb_lt in E]; lia. }
  b2p. destruct (aget_in s.(objects) (id - 1)) as [o Ho]; [rewrite (surf_slots _ _ Hwf); lia|].
  rewrite Ho. cbn. destruct (active o) eqn:Ea; eexists; (split; [done|]).
  - split; [done|lia].
  - intros o' [Ho' Ha]. congruence.
Qed.

(** Rewriting the slot of a live object with one that owns the same pixels. *)
Definition same_region (o o' : surface_object) : Prop :=
  o'.(width) = o.(width) /\ o'.(height) = o.(height) /\
  o'.(offset_pixels) = o.(offset_pixels) /\ o'.(capacity_pixels) = o.(capacity_pixels) /\
  o'.(active) = o.(active).

Lemma update_object_eq s id f o :
  live s (id - 1) o ->
  update_object id f s = Some (set_objects (<[Z.to_nat (id - 1) := f o]> s.(objects)) s).
Proof.
  intros [Ho _]. unfold update_object. rewrite Ho. cbn [mbind option_bind].
  by rewrite aset_in by (by eapply aget_bound).
Qed.

Lemma live_update s k o' i o :
  0 <= k < Z.of_nat (length s.(objects)) ->
  live (set_objects (<[Z.to_nat k := o']> s.(objects)) s) i o <->
  if decide (i = k) then o = o' /\ o'.(active) = true else live s i o.
Proof.
  intros Hk. unfold live. cbn. rewrite aget_insert by done. case_decide; [|done].
  split; [intros [[= <-] ?]; done|intros [-> ?]; done].
Qed.

Lemma wf_same_region a s id o o' :
  surf_wf a s -> live s (id - 1) o -> same_region o o' -> is_u32 o'.(references) ->
  is_u16 o'.(damage_x) /\ is_u16 o'.(damage_y) /\ is_u16 o'.(damage_width) /\ is_u16 o'.(damage_height) ->
  surf_wf a (set_objects (<[Z.to_nat (id - 1) := o']> s.(objects)) s).
Proof.
  intros Hwf Hl (Ew & Eh & Eo & Ec & Ea) Hr Hd. pose proof Hl as [Ho Hact].
  pose proof (aget_bound _ _ _ Ho) as Hb. pose proof Hwf as [H1 Hsz H2 H3 H4 H5 H6].
  assert (Hcov : forall p, covers o' p <-> covers o p) by (intros; unfold covers; by rewrite Eo, Ec).
  assert (Hsame : forall i u, live (set_objects (<[Z.to_nat (id - 1) := o']> s.(objects)) s) i u ->
    exists u0, live s i u0 /\ forall p, covers u p <-> covers u0 p).
  { intros i u Hu. apply live_update in Hu; [|done]. case_decide as E; [|by exists u].
    destruct Hu as [-> _]. exists o. by rewrite E. }
  split; try done.
  - cbn. by rewrite length_insert.
  - intros i u Hu. apply live_update in Hu; [|done]. case_decide; [|by eapply H3].
    destruct Hu as [-> _]. destruct (H3 _ _ Hl). split; congruence || done.
  - intros i u Hu Hna. cbn in Hu. rewrite aget_insert in Hu by done. case_decide; [|by eapply H4].
    injection Hu as <-. congruence.
  - intros i j u u' p Hu Hu' Hij Hc. destruct (Hsame _ _ Hu) as (v & Hv & Hvc).
    destruct (Hsame _ _ Hu') as (v' & Hv' & Hvc'). rewrite Hvc'. apply Hvc in Hc.
    by eapply (H5 i j).
  - intros p v Hp Hout. apply (H6 p v Hp). intros i u Hu.
    destruct (decide (i = id - 1)) as [->|Hne].
    + assert (u = o) as -> by (destruct Hu, Hl; congruence). rewrite <- Hcov.
      apply (Hout (id - 1)). apply live_update; [done|]. rewrite decide_True by done. by rewrite Ea.
    + apply (Hout i u). apply live_update; [done|]. by rewrite decide_False.
Qed.

(** The counters do not matter. *)
Lemma wf_count a s b c d e f g h i : surf_wf a s -> surf_wf a (count_up b c d e f g h i s).
Proof. by intros []; split. Qed.
#[export] Hint Resolve wf_count : kernel.

(** ** Arena updates *)

(** [a'] agrees with [a] outside the pixels of [o]. *)
Definition agree_off (o : surface_object) (a a' : list Z) : Prop :=
  length a' = length a /\ forall p, ~ covers o p -> a'.[p] = a.[p].

Lemma slice_lookup a off n p :
  0 <= off -> slice a off n !! p =
    if decide (Z.of_nat p < n) then a.[off + Z.of_nat p] else None.
Proof.
  intros Ho. unfold slice. rewrite lookup_take, lookup_drop. unfold aget.
  rewrite (proj2 (Z.leb_le 0 (off + Z.of_nat p))) by lia.
  destruct (decide (Z.of_nat p < n)).
  - rewrite decide_True by lia. f_equal. lia.
  - by rewrite decide_False by lia.
Qed.

(** So every other surface keeps its pixels. *)
Lemma agree_pixels a a' s i j o o' :
  surf_wf a s -> live s i o -> live s j o' -> i <> j -> agree_off o a a' ->
  pixels_of a' o' = pixels_of a o'.
Proof.
  intros Hwf Hl Hl' Hij [_ Hag]. apply list_eq. intros p.
  pose proof (surf_live _ _ Hwf _ _ Hl') as Hok. pose proof (obj_pixels _ _ Hok) as [Hp _].
  unfold pixels_of. rewrite !slice_lookup by apply Hok. case_decide as E; [|done].
  apply Hag. intros Hc. eapply (surf_apart _ _ Hwf j i o' o); try done.
  unfold covers. destruct Hok. lia.
Qed.

(** Writing inside a live object keeps the invariant. *)
Lemma wf_write a a' s i o :
  surf_wf a s -> live s i o -> agree_off o a a' -> surf_wf a' (set_arena a' s).
Proof.
  intros Hwf Hl [Hlen Hag]. destruct Hwf as [H1 Hsz H2 H3 H4 H5 H6]. split; cbn; rewrite ?Hlen; try done.
  intros p v Hp Hout. apply (H6 p v); [|exact Hout]. rewrite <- Hag; [done|]. by apply (Hout i).
Qed.

(** Erasing a live object's pixels and freeing its slot. *)
Lemma wf_clear a a' s id o :
  surf_wf a s -> live s (id - 1) o -> agree_off o a a' ->
  (forall p, covers o p -> a'.[p] = Some 0) ->
  surf_wf a' (set_objects (<[Z.to_nat (id - 1) := no_surface]> s.(objects)) (set_arena a' s)).
Proof.
  intros Hwf Hl [Hlen Hag] Hz. pose proof Hl as [Ho Hact].
  pose proof (aget_bound _ _ _ Ho) as Hb. destruct Hwf as [H1 Hsz H2 H3 H4 H5 H6].
  set (s' := set_arena a' s).
  assert (Hlive : forall i u, live (set_objects (<[Z.to_nat (id - 1) := no_surface]> s'.(objects)) s') i u <->
    i <> id - 1 /\ live s i u).
  { intros i u. rewrite live_update by done. case_decide as E; [|by split; [|intros [_ ?]]].
    split; [by intros [_ ?]|by intros [? _]]. }
  split; cbn [pixel_arena objects set_arena set_objects]; rewrite ?Hlen; try done.
  - by rewrite length_insert.
  - intros i u Hu. apply Hlive in Hu as [_ Hu]. by eapply H3.
  - intros i u Hu Hna. cbn in Hu. rewrite aget_insert in Hu by done. case_decide; [congruence|].
    by eapply H4.
  - intros i j u u' p Hu Hu'. apply Hlive in Hu as [_ Hu]. apply Hlive in Hu' as [_ Hu'].
    by apply (H5 i j).
  - intros p v Hp Hout. destruct (decide (covers o p)) as [Hc|Hc].
    + rewrite (Hz p Hc) in Hp. congruence.
    + apply (H6 p v); [by rewrite <- Hag|]. intros i u Hu. destruct (decide (i = id - 1)) as [->|Hne].
      * assert (u = o) as -> by (destruct Hu, Hl; congruence). done.
      * apply (Hout i u), Hlive. done.
Qed.

(** ** The first-fit search *)

Definition in_slot (off cap p : Z) : Prop := off <= p < off + cap.

(** Some live surface has a pixel in [off, off + cap). *)
Definition taken (s : surfaces) (off cap : Z) : Prop :=
  exists i o p, live s i o /\ covers o p /\ in_slot off cap p.

Lemma overlaps_taken a s off cap :
  surf_wf a s -> 1 <= cap -> overlaps s.(objects) off cap = true <-> taken s off cap.
Proof.
  intros Hwf Hcap. unfold overlaps, taken. rewrite existsb_exists. split.
  - intros (o & Hin & H). apply list_elem_of_In, list_elem_of_lookup in Hin as [i Hi]. b2p.
    assert (Hl : live s (Z.of_nat i) o) by (split; [by rewrite aget_nat|done]).
    pose proof (obj_pixels _ _ (surf_live _ _ Hwf _ _ Hl)) as [Hp _].
    exists (Z.of_nat i), o, (Z.max off o.(offset_pixels)). split; [done|].
    unfold covers, in_slot. lia.
  - intros (i & o & p & [Ho Ha] & Hc & Hs). exists o.
    apply aget_Some in Ho as [_ Ho]. split.
    + apply list_elem_of_In. by eapply list_elem_of_lookup_2.
    + unfold covers, in_slot in *. rewrite Ha, (proj2 (Z.ltb_lt _ _)), (proj2 (Z.ltb_lt _ _)) by lia. done.
Qed.

Lemma find_offset_ok fuel os count cap off :
  off mod 1024 = 0 -> count < off + 1024 * Z.of_nat fuel ->
  match find_offset fuel os count cap off with
  | Some o => off <= o /\ o mod 1024 = 0 /\ o + cap <= count /\ overlaps os o cap = false
  | None => forall o, off <= o -> o mod 1024 = 0 -> o + cap <= count -> 0 <= cap ->
      overlaps os o cap = true
  end.
Proof.
  revert off. induction fuel as [|fuel IH]; intros off Hm Hf; cbn [find_offset]; [intros; lia|].
  destruct ((off <=? count) && (cap <=? count - off)) eqn:E.
  - b2p. destruct (overlaps os off cap) eqn:Eo; [|split_and!; done || lia].
    specialize (IH (off + 1024) ltac:(zlia) ltac:(lia)).
    destruct (find_offset fuel os count cap (off + 1024)) as [o|]; [destruct IH as (? & ? & ? & ?); split_and!; done || lia|].
    intros o Ho Hom Hend Hcap. destruct (decide (o = off)) as [->|]; [done|]. apply IH; zlia.
  - intros o Ho Hom Hend Hcap. apply andb_false_iff in E as [E|E]; b2p; lia.
Qed.

(** ** Creation *)

Definition valid_size (owner w h : Z) : Prop := owner <> 0 /\ 1 <= w <= 640 /\ 1 <= h <= 480.

Lemma list_find_inactive s :
  match list_find (fun o => o.(active) = false) s.(objects) with
  | Some (i, o) => s.(objects).[Z.of_nat i] = Some o /\ o.(active) = false
  | None => forall i o, s.(objects).[i] = Some o -> o.(active) = true
  end.
Proof.
  destruct (list_find _ _) as [[i o]|] eqn:E.
  - apply list_find_Some in E as (Hi & Ha & _). by rewrite aget_nat.
  - apply list_find_None in E. intros i o Ho. pose proof (aget_Forall _ _ _ _ E Ho) as H.
    cbn in H. by destruct (active o).
Qed.

(** Creation is first fit over a clean arena. *)
Lemma surface_create_ok a s owner w h :
  surf_wf a s -> 0 <= owner -> 0 <= w -> 0 <= h ->
  exists r s', surface_create owner w h s = Some (r, s') /\ surf_wf a s' /\
    match r with
    | Some id => exists o, live s' (id - 1) o /\ o.(owner_pid) = owner /\ o.(width) = w /\
        o.(height) = h /\ o.(references) = 0 /\ o.(offset_pixels) mod 1024 = 0 /\
        (exists o0, s.(objects).[id - 1] = Some o0 /\ o0.(active) = false) /\
        pixels_of a o = replicate (Z.to_nat (w * h)) 0 /\
        (forall p, covers o p -> forall i u, live s i u -> ~ covers u p) /\
        (forall i u, live s i u -> i <> id - 1 /\ live s' i u)
    | None => s' = s /\
        (~ valid_size owner w h \/ (forall i o, s.(objects).[i] = Some o -> live s i o) \/
         forall off, 0 <= off -> off mod 1024 = 0 ->
           off + round_capacity (w * h) <= Z.of_nat (length a) ->
           taken s off (round_capacity (w * h)))
    end.
Proof.
  intros Hwf Ho Hw Hh. unfold surface_create. rewrite (surf_arena _ _ Hwf).
  unfold SURFACE_MAX_WIDTH, SURFACE_MAX_HEIGHT.
  destruct (_ || _ || _ || _ || _) eqn:Ev.
  { exists None, s. do 2 (split; [done|]). split; [done|]. left. unfold valid_size.
    repeat (apply orb_true_iff in Ev as [Ev|Ev]);
      first [apply Z.eqb_eq in Ev|apply Z.ltb_lt in Ev]; lia. }
  b2p. pose proof (round_capacity_bounds (w * h) ltac:(nia)) as Hcap.
  pose proof (list_find_inactive s) as Hfind.
  destruct (list_find _ _) as [[i0 o0]|].
  2: { exists None, s. do 2 (split; [done|]). split; [done|]. right; left.
       intros i o Hi. split; [done|]. by eapply Hfind. }
  set (count := Z.of_nat (length a)). set (cap := round_capacity (w * h)) in *.
  pose proof (find_offset_ok (find_fuel count) s.(objects) count cap 0 ltac:(done)
    ltac:(unfold find_fuel; zlia)) as Hoff.
  destruct (find_offset _ _ _ _ _) as [off|].
  2: { exists None, s. do 2 (split; [done|]). split; [done|]. right; right.
       intros off Hpos Hm Hend. apply (overlaps_taken a); [done|nia|]. by apply Hoff; [..|nia]. }
  destruct Hoff as (Hoff0 & Hm & Hend & Hno). destruct Hfind as [Hslot Hfree].
  set (i := Z.of_nat i0) in *. pose proof (aget_bound _ _ _ Hslot) as Hb.
  pose proof (surf_size _ _ Hwf) as Hsz. fold count in Hsz.
  rewrite aset_in by done. cbn [mbind option_bind].
  assert (Hcap1 : 1 <= cap) by nia.
  rewrite !u32_small by (unfold is_u32; nia).
  set (o := Surf owner w h off cap _ _ _ _ _ _ _).
  set (s' := set_objects (<[Z.to_nat i := o]> s.(objects)) s).
  assert (Hcov : forall p, covers o p -> forall j u, live s j u -> ~ covers u p).
  { intros p Hp j u Hu Hc. assert (overlaps s.(objects) off cap = true); [|congruence].
    apply (overlaps_taken a); [done|lia|]. exists j, u, p. done. }
  assert (Hother : forall j u, live s j u -> j <> i /\ live s' j u).
  { intros j u Hu. assert (j <> i) by (intros ->; destruct Hu as [Hu ?]; congruence).
    split; [done|]. apply live_update; [done|]. by rewrite decide_False. }
  assert (Hlive : forall j u, live s' j u -> j = i /\ u = o \/ j <> i /\ live s j u).
  { intros j u Hu. apply live_update in Hu; [|done].
    case_decide; [left; by destruct Hu|by right]. }
  assert (Hcover_end : forall p, covers o p <-> off <= p < off + cap) by done.
  assert (Hwf' : surf_wf a s').
  { destruct Hwf as [W1 W2 W3 W4 W5 W6 W7]. split; try done.
    - cbn. by rewrite length_insert.
    - intros j u Hu. destruct (Hlive j u Hu) as [[-> ->]|[_ Hu']]; [|by eapply W4].
      split; cbn; unfold is_u16, is_u32; try lia.
    - intros j u Hu Hna. cbn in Hu. rewrite aget_insert in Hu by done.
      case_decide; [by injection Hu as <-|by eapply W5].
    - intros j k u u' p Hu Hu' Hjk Hc.
      destruct (Hlive _ _ Hu) as [[-> ->]|[Hj Hu1]], (Hlive _ _ Hu') as [[-> ->]|[Hk Hu1']].
      + done.
      + by eapply Hcov.
      + intros Hc'. by eapply (Hcov p).
      + by eapply (W6 j k).
    - intros p v Hp Hout. apply (W7 p v Hp). intros j u Hu. destruct (Hother j u Hu). by eapply Hout. }
  exists (Some (i + 1)), (count_up 0 0 0 1 0 0 0 0 s'). split; [done|]. split; [by apply wf_count|].
  exists o. replace (i + 1 - 1) with i by lia.
  assert (Hlo : live s' i o) by (apply live_update; [done|]; by rewrite decide_True).
  do 6 (split; [done|]). split; [by exists o0|]. split; [|done].
  apply list_eq. intros p. unfold pixels_of. rewrite slice_lookup by done. cbn.
  case_decide as E.
  - destruct (aget_in a (off + Z.of_nat p)) as [v Hv]; [fold count; lia|]. rewrite Hv. symmetry.
    assert (v = 0) as ->; [|apply lookup_replicate_2; lia].
    apply (surf_clean _ _ Hwf (off + Z.of_nat p) v Hv). intros j u Hu.
    apply (Hcov (off + Z.of_nat p)) with (j := j); [|done]. apply Hcover_end. lia.
  - symmetry. apply lookup_replicate_None. lia.
Qed.

(** ** Drawing *)

Lemma copy_agree a a' o d src n :
  0 <= d -> 0 <= n -> o.(offset_pixels) <= d -> d + n <= o.(offset_pixels) + o.(capacity_pixels) ->
  d + n <= Z.of_nat (length a) -> n <= Z.of_nat (length src) ->
  copy_into a d src 0 (Z.to_nat n) = Some a' -> agree_off o a a'.
Proof.
  intros Hd Hn Hlo Hhi Hl Hs Hc. split; [by eapply copy_into_length|].
  intros p Hp. unfold aget. destruct (Z.leb_spec 0 p); [|done].
  rewrite (copy_into_lookup (Z.to_nat n) a d src 0 a') by (done || lia).
  case_decide; [|done]. exfalso. apply Hp. unfold covers. lia.
Qed.

(** Writing replaces exactly the addressed pixels of one surface. *)
Lemma surface_write_ok a s id off src n :
  surf_wf a s -> 0 <= id -> 0 <= off -> 0 <= n -> n <= Z.of_nat (length src) ->
  exists b s', surface_write id off (Some src) n s = Some (b, s') /\
    (b = false -> s' = s /\ forall o, live s (id - 1) o -> o.(width) * o.(height) < off + n) /\
    (b = true -> exists a' o, surf_wf a' s' /\ live s (id - 1) o /\
      off + n <= o.(width) * o.(height) /\ s'.(objects) = s.(objects) /\
      pixels_of a' o = take (Z.to_nat off) (pixels_of a o) ++ take (Z.to_nat n) src ++
                         drop (Z.to_nat (off + n)) (pixels_of a o) /\
      forall j u, live s j u -> j <> id - 1 -> pixels_of a' u = pixels_of a u).
Proof.
  intros Hwf Hid Hoff Hn Hsrc. unfold surface_write.
  destruct (resolve_ok a s id Hwf Hid) as (r & -> & Hr). cbn [mbind option_bind].
  destruct r as [o|]; [destruct Hr as [Hl _]|].
  2: { exists false, s. split; [done|]. split; [|done]. intros _. split; [done|].
       intros o Hl. by destruct (Hr o). }
  pose proof (surf_live _ _ Hwf _ _ Hl) as Hok. pose proof (obj_pixels _ _ Hok) as [Hpx _].
  destruct ((o.(width) * o.(height) <? off) || (o.(width) * o.(height) - off <? n)) eqn:E.
  { exists false, s. split; [done|]. split; [|done]. intros _. split; [done|].
    intros o' Hl'. assert (o' = o) as -> by (destruct Hl, Hl'; congruence).
    apply orb_true_iff in E as [E|E]; apply Z.ltb_lt in E; lia. }
  b2p. rewrite (surf_arena _ _ Hwf). cbn [mbind option_bind]. destruct Hok.
  pose proof (copy_into_spec (Z.to_nat n) a (o.(offset_pixels) + off) src 0
    ltac:(lia) ltac:(lia) ltac:(lia) ltac:(lia)) as Hc.
  destruct (copy_into _ _ _ _ _) as [a'|] eqn:Hcp; [|discriminate]. cbn [mbind option_bind].
  assert (Hag : agree_off o a a') by (eapply copy_agree; [..|exact Hcp]; lia).
  eexists true, _. split; [done|]. split; [done|]. intros _. exists a', o.
  split; [apply wf_count; by eapply wf_write|]. split; [done|]. split; [lia|]. split; [done|].
  split; [|intros j u Hu Hj; by eapply (agree_pixels a a' s (id - 1) j o u)].
  assert (Hlen : length (pixels_of a o) = Z.to_nat (o.(width) * o.(height))).
  { unfold pixels_of, slice. rewrite length_take, length_drop. lia. }
  apply list_eq. intros p. pose proof (splice_lookup (pixels_of a o) (take (Z.to_nat n) src) (Z.to_nat off) p) as Hs.
  rewrite length_take_le in Hs by lia.
  replace (Z.to_nat (off + n)) with (Z.to_nat off + Z.to_nat n)%nat by lia.
  rewrite Hs by lia. unfold pixels_of. rewrite !slice_lookup by lia.
  destruct (decide (Z.of_nat p < o.(width) * o.(height))) as [Ep|Ep]; [|by rewrite decide_False by lia].
  unfold aget. rewrite (proj2 (Z.leb_le 0 (o.(offset_pixels) + Z.of_nat p))) by lia.
  rewrite (copy_into_lookup (Z.to_nat n) a (o.(offset_pixels) + off) src 0 a') by (done || lia).
  rewrite lookup_take.
  repeat case_decide; try (exfalso; lia); try done.
  unfold aget. rewrite (proj2 (Z.leb_le 0 _)) by lia. f_equal. lia.
Qed.

(** ** Reference counting and reclamation *)

Lemma clear_object_ok a s id o :
  surf_wf a s -> live s (id - 1) o ->
  exists a' s', clear_object id o s = Some s' /\ surf_wf a' s' /\
    s'.(objects) = <[Z.to_nat (id - 1) := no_surface]> s.(objects) /\ agree_off o a a' /\
    forall p, covers o p -> a'.[p] = Some 0.
Proof.
  intros Hwf Hl. unfold clear_object. rewrite (surf_arena _ _ Hwf). cbn [mbind option_bind].
  pose proof (surf_live _ _ Hwf _ _ Hl) as Hok. pose proof (obj_pixels _ _ Hok) as [Hp _].
  destruct Hok.
  pose proof (fill_spec (Z.to_nat o.(capacity_pixels)) a o.(offset_pixels) 0 ltac:(lia) ltac:(lia)) as Hf.
  destruct (fill _ _ _ _) as [a'|] eqn:Hfill; [|discriminate]. clear Hf. cbn [mbind option_bind].
  assert (Hlk : forall p, a'.[p] = if decide (covers o p) then Some 0 else a.[p]).
  { intros p. unfold aget. destruct (Z.leb_spec 0 p).
    - rewrite (fill_lookup (Z.to_nat o.(capacity_pixels)) a o.(offset_pixels) 0 a') by (done || lia).
      unfold covers. repeat case_decide; try done; exfalso; lia.
    - by rewrite decide_False by (unfold covers; lia). }
  assert (Hlen : length a' = length a) by by eapply fill_length.
  assert (Hag : agree_off o a a') by (split; [done|]; intros p Hp1; by rewrite Hlk, decide_False).
  assert (Hl' : live (set_arena a' s) (id - 1) o) by done.
  rewrite (update_object_eq _ _ _ o) by done. cbn [mbind option_bind].
  assert (Hz : forall p, covers o p -> a'.[p] = Some 0) by (intros; by rewrite Hlk, decide_True).
  exists a'. eexists. split; [done|]. split; [|done]. apply wf_count. by apply (wf_clear a a' s id o).
Qed.

(** The outcome of an operation on surface [id]: the others keep their slots and
    pixels. *)
Definition others_kept (id : Z) (a a' : list Z) (s s' : surfaces) : Prop :=
  forall j u, j <> id - 1 ->
    (live s' j u <-> live s j u) /\ (live s j u -> pixels_of a' u = pixels_of a u).

Lemma others_update s id o' a :
  live s (id - 1) o' \/ (exists o, live s (id - 1) o) ->
  forall v, others_kept id a a s (set_objects (<[Z.to_nat (id - 1) := v]> s.(objects)) s).
Proof.
  intros Hl v j u Hj. split; [|done].
  assert (Hb : 0 <= id - 1 < Z.of_nat (length s.(objects)))
    by (destruct Hl as [[Hl _]|[o [Hl _]]]; by eapply aget_bound).
  rewrite live_update by done. by rewrite decide_False.
Qed.

(** Releasing a reference frees the surface exactly when it was the last. *)
Lemma surface_release_ok a s id :
  surf_wf a s -> 0 <= id ->
  exists b s' a', surface_release id s = Some (b, s') /\ surf_wf a' s' /\
    others_kept id a a' s s' /\
    match s.(objects).[id - 1] with
    | Some o =>
        if o.(active) && negb (o.(references) =? 0) then
          b = true /\
          (if o.(references) =? 1
           then s'.(objects).[id - 1] = Some no_surface /\ forall p, covers o p -> a'.[p] = Some 0
           else s'.(objects).[id - 1] = Some (with_references (o.(references) - 1) o) /\ a' = a)
        else b = false /\ s' = s
    | None => b = false /\ s' = s
    end.
Proof.
  intros Hwf Hid. unfold surface_release.
  destruct (resolve_ok a s id Hwf Hid) as (r & -> & Hr). cbn [mbind option_bind].
  destruct r as [o|].
  2: { exists false, s, a. do 2 (split; [done|]). split; [done|].
       destruct s.(objects).[id - 1] as [o|] eqn:Eo; [|done].
       destruct (active o) eqn:Ea; [|done]. by destruct (Hr o). }
  destruct Hr as [Hl Hb]. pose proof Hl as [Ho Ha]. rewrite Ho, Ha. cbn [andb].
  pose proof (surf_live _ _ Hwf _ _ Hl) as Hok.
  destruct (Z.eqb_spec o.(references) 0) as [E|E]; cbn [negb].
  { exists false, s, a. by split_and!. }
  set (o' := with_references (o.(references) - 1) o).
  rewrite (update_object_eq _ _ _ o) by done. cbn [mbind option_bind].
  set (s1 := set_objects _ s). pose proof (aget_bound _ _ _ Ho) as Hbd.
  assert (Hwf1 : surf_wf a s1).
  { eapply wf_same_region; [done|exact Hl|done| |by destruct Hok].
    destruct Hok. unfold is_u32 in *. cbn. lia. }
  assert (Hl1 : live s1 (id - 1) o') by (apply live_update; [done|]; by rewrite decide_True).
  assert (Hk1 : others_kept id a a s s1) by (apply (others_update s id o); by left).
  change (references o') with (o.(references) - 1).
  destruct (Z.eqb_spec (o.(references) - 1) 0) as [E1|E1].
  - destruct (clear_object_ok a s1 id o' Hwf1 Hl1) as (a' & s2 & Heq & Hwf2 & Hobj & Hag & Hz).
    rewrite Heq. cbn [mbind option_bind]. exists true, s2, a'. split; [done|]. split; [done|].
    rewrite (proj2 (Z.eqb_eq o.(references) 1)) by lia. split.
    + intros j u Hj. destruct (Hk1 j u Hj) as [Hiff _]. unfold live. rewrite Hobj.
      rewrite aget_insert by (cbn; rewrite length_insert; done). rewrite decide_False by done.
      split; [exact Hiff|]. intros Hu. apply Hiff in Hu.
      by eapply (agree_pixels a a' s1 (id - 1) j o' u).
    + split; [done|]. split.
      * rewrite Hobj, aget_insert by (cbn; rewrite length_insert; done). by rewrite decide_True.
      * intros p Hp. by apply Hz.
  - exists true, s1, a. split; [done|]. split; [done|]. split; [done|].
    rewrite (proj2 (Z.eqb_neq o.(references) 1)) by lia. split; [done|]. split; [|done].
    cbn. rewrite aget_insert by done. by rewrite decide_True.
Qed.

(** ** Damage rectangles *)

(** Four 16-bit fields packed in a word. *)
Definition field16 (k packed : Z) : Z := Z.land (Z.shiftr packed (16 * k)) 65535.

Lemma pack16 a b c d :
  is_u16 a -> is_u16 b -> is_u16 c -> is_u16 d ->
  Z.lor (Z.lor (Z.lor a (Z.shiftl b 16)) (Z.shiftl c 32)) (Z.shiftl d 48) =
    a + b * 65536 + c * 4294967296 + d * 281474976710656.
Proof.
  unfold is_u16. intros Ha Hb Hc Hd. rewrite (Z.lor_comm a), (lor_shiftl_add b a 16) by lia.
  rewrite (Z.lor_comm _ (Z.shiftl c 32)), (lor_shiftl_add c _ 32) by lia.
  rewrite (Z.lor_comm _ (Z.shiftl d 48)), (lor_shiftl_add d _ 48) by lia. lia.
Qed.

Lemma field16_pack a b c d :
  is_u16 a -> is_u16 b -> is_u16 c -> is_u16 d ->
  let packed := a + b * 65536 + c * 4294967296 + d * 281474976710656 in
  field16 0 packed = a /\ field16 1 packed = b /\ field16 2 packed = c /\ field16 3 packed = d.
Proof.
  unfold is_u16, field16. intros Ha Hb Hc Hd. cbv zeta.
  change 65535 with (Z.ones 16). rewrite !Z.land_ones, !Z.shiftr_div_pow2 by lia.
  change (2 ^ (16 * 0)) with 1. change (2 ^ (16 * 1)) with 65536.
  change (2 ^ (16 * 2)) with 4294967296. change (2 ^ (16 * 3)) with 281474976710656.
  change (2 ^ 16) with 65536. split_and!; zlia.
Qed.

Lemma surface_damage_ok a s id x y w h :
  surf_wf a s -> 0 <= id -> 0 <= x -> 0 <= y -> 0 <= w -> 0 <= h ->
  exists b s', surface_damage id x y w h s = Some (b, s') /\ surf_wf a s' /\
    (b = true -> exists o, live s (id - 1) o /\ x + w <= o.(width) /\ y + h <= o.(height) /\
       is_u16 x /\ is_u16 y /\ is_u16 w /\ is_u16 h /\
       live s' (id - 1) (with_damage x y w h true o)).
Proof.
  intros Hwf Hid Hx Hy Hw Hh. unfold surface_damage.
  destruct (resolve_ok a s id Hwf Hid) as (r & -> & Hr). cbn [mbind option_bind].
  destruct r as [o|]; [destruct Hr as [Hl _]|by exists false, s].
  destruct (_ || _) eqn:E; [by exists false, s|]. b2p.
  rewrite !u16_small by (unfold is_u16; lia).
  rewrite (update_object_eq _ _ _ o) by done. cbn [mbind option_bind].
  pose proof (surf_live _ _ Hwf _ _ Hl) as Hok. eexists true, _. split; [done|]. split.
  - apply wf_count. eapply wf_same_region; [done|exact Hl|done|by destruct Hok|].
    cbn. unfold is_u16. lia.
  - intros _. exists o. unfold is_u16. split_and!; try done; try lia.
    apply (live_update s); [destruct Hl as [Hl _]; by eapply aget_bound|]. rewrite decide_True by done.
    split; [done|]. by destruct Hl.
Qed.

Lemma surface_take_damage_ok a s id :
  surf_wf a s -> 0 <= id ->
  exists r s', surface_take_damage id s = Some (r, s') /\ surf_wf a s' /\
    forall o, live s (id - 1) o -> o.(damage_pending) = true ->
      r = Some (o.(damage_x) + o.(damage_y) * 65536 + o.(damage_width) * 4294967296 +
                o.(damage_height) * 281474976710656) /\
      live s' (id - 1) (with_damage o.(damage_x) o.(damage_y) o.(damage_width) o.(damage_height) false o).
Proof.
  intros Hwf Hid. unfold surface_take_damage.
  destruct (resolve_ok a s id Hwf Hid) as (r & -> & Hr). cbn [mbind option_bind].
  destruct r as [o|]; [destruct Hr as [Hl _]|].
  2: { exists None, s. do 2 (split; [done|]). intros o Hl. by destruct (Hr o). }
  pose proof (surf_live _ _ Hwf _ _ Hl) as Hok.
  assert (Hun : forall o', live s (id - 1) o' -> o' = o) by (intros o' Hl'; destruct Hl, Hl'; congruence).
  destruct (damage_pending o) eqn:Ep; cbn [negb].
  2: { exists None, s. do 2 (split; [done|]). intros o' Hl' Hp. rewrite (Hun o' Hl') in Hp. congruence. }
  rewrite (update_object_eq _ _ _ o) by done. cbn [mbind option_bind].
  pose proof (obj_damage _ _ Hok) as (D1 & D2 & D3 & D4).
  eexists _, _. split; [done|]. split.
  - apply wf_count. eapply wf_same_region; [done|exact Hl|done|by destruct Hok|done].
  - intros o' Hl' _. rewrite (Hun o' Hl'). split; [by rewrite pack16|].
    apply (live_update s); [destruct Hl as [Hl _]; by eapply aget_bound|].
    rewrite decide_True by done. split; [done|]. by destruct Hl.
Qed.

(** A damage rectangle that lies inside its surface is handed over exactly
    once, bit for bit: the packed word the compositor takes unpacks to the
    rectangle reported, and a second take finds nothing. *)
Theorem damage_roundtrip a s id x y w h s1 :
  surf_wf a s -> 0 <= id -> 0 <= x -> 0 <= y -> 0 <= w -> 0 <= h ->
  surface_damage id x y w h s = Some (true, s1) ->
  exists packed s2 s3, surface_take_damage id s1 = Some (Some packed, s2) /\
    field16 0 packed = x /\ field16 1 packed = y /\ field16 2 packed = w /\ field16 3 packed = h /\
    surface_take_damage id s2 = Some (None, s3).
Proof.
  intros Hwf Hid Hx Hy Hw Hh Hd.
  destruct (surface_damage_ok a s id x y w h Hwf Hid Hx Hy Hw Hh) as (b & s1' & Heq & Hwf1 & Hres).
  rewrite Hd in Heq. injection Heq as <- <-.
  destruct (Hres eq_refl) as (o & Hl & _ & _ & Ux & Uy & Uw & Uh & Hl1).
  destruct (surface_take_damage_ok a s1 id Hwf1 Hid) as (r & s2 & Ht & Hwf2 & Htake).
  destruct (Htake _ Hl1 eq_refl) as [-> Hl2]. cbn in Ht, Hl2.
  destruct (field16_pack x y w h Ux Uy Uw Uh) as (F0 & F1 & F2 & F3).
  eexists _, s2, s2. split; [exact Ht|]. split_and!; try done.
  unfold surface_take_damage.
  destruct (resolve_ok a s2 id Hwf2 Hid) as (r & -> & Hr). cbn [mbind option_bind].
  destruct r as [o2|]; [|done]. destruct Hr as [[Ho2 _] _], Hl2 as [Ho _].
  rewrite Ho in Ho2. by injection Ho2 as <-.
Qed.

(** ** All operations *)

Lemma surface_retain_ok a s id :
  surf_wf a s -> 0 <= id ->
  exists b s', surface_retain id s = Some (b, s') /\ surf_wf a s' /\
    (b = true -> exists o, live s (id - 1) o /\ o.(references) < U32_MAX /\
       s'.(objects) = <[Z.to_nat (id - 1) := with_references (o.(references) + 1) o]> s.(objects)) /\
    (b = false -> s' = s).
Proof.
  intros Hwf Hid. unfold surface_retain.
  destruct (resolve_ok a s id Hwf Hid) as (r & -> & Hr). cbn [mbind option_bind].
  destruct r as [o|]; [destruct Hr as [Hl _]|by exists false, s].
  destruct (Z.eqb_spec o.(references) U32_MAX) as [E|E]; [by exists false, s|].
  rewrite (update_object_eq _ _ _ o) by done. cbn [mbind option_bind].
  pose proof (surf_live _ _ Hwf _ _ Hl) as Hok.
  assert (Hlt : o.(references) < U32_MAX).
  { pose proof (obj_refs _ _ Hok) as Hr. unfold is_u32, U32_MAX in *. lia. }
  eexists true, _. split; [done|]. split.
  - eapply wf_same_region; [done|exact Hl|done| |by destruct Hok].
    pose proof (obj_refs _ _ Hok) as Hr. unfold is_u32, U32_MAX in *. cbn. lia.
  - split; [|done]. intros _. by exists o.
Qed.

Inductive surface_op :=
| OpCreate (owner w h : Z) | OpRetain (id : Z) | OpRelease (id : Z) | OpDiscard (id : Z)
| OpWrite (id off : Z) (px : option (list Z)) (n : Z) | OpData (id : Z) | OpMap (id : Z)
| OpDamage (id x y w h : Z) | OpTake (id : Z) | OpShare.

Definition surface_run (op : surface_op) (s : surfaces) : option surfaces :=
  match op with
  | OpCreate o w h => snd <$> surface_create o w h s
  | OpRetain id => snd <$> surface_retain id s
  | OpRelease id => snd <$> surface_release id s
  | OpDiscard id => snd <$> surface_discard id s
  | OpWrite id off px n => snd <$> surface_write id off px n s
  | OpData id => snd <$> surface_data id s
  | OpMap id => snd <$> surface_mapping_data id s
  | OpDamage id x y w h => snd <$> surface_damage id x y w h s
  | OpTake id => snd <$> surface_take_damage id s
  | OpShare => Some (surface_note_share s)
  end.

(** The arguments are unsigned, and a source buffer holds the pixels announced. *)
Definition surface_op_ok (op : surface_op) : Prop :=
  match op with
  | OpCreate o w h => 0 <= o /\ 0 <= w /\ 0 <= h
  | OpRetain id | OpRelease id | OpDiscard id | OpData id | OpMap id | OpTake id => 0 <= id
  | OpWrite id off px n => 0 <= id /\ 0 <= off /\ 0 <= n /\
      match px with Some src => n <= Z.of_nat (length src) | None => True end
  | OpDamage id x y w h => 0 <= id /\ 0 <= x /\ 0 <= y /\ 0 <= w /\ 0 <= h
  | OpShare => True
  end.

Lemma surface_discard_ok a s id :
  surf_wf a s -> 0 <= id ->
  exists b s' a', surface_discard id s = Some (b, s') /\ surf_wf a' s'.
Proof.
  intros Hwf Hid. unfold surface_discard.
  destruct (resolve_ok a s id Hwf Hid) as (r & -> & Hr). cbn [mbind option_bind].
  destruct r as [o|]; [destruct Hr as [Hl _]|by exists false, s, a].
  destruct (negb _); [by exists false, s, a|].
  destruct (clear_object_ok a s id o Hwf Hl) as (a' & s' & -> & Hwf' & _).
  cbn [mbind option_bind]. by exists true, s', a'.
Qed.

(** One operation returns, without an access outside the object table or the arena,
    and keeps the invariant. *)
Lemma surface_run_ok a s op :
  surf_wf a s -> surface_op_ok op ->
  exists a' s', surface_run op s = Some s' /\ surf_wf a' s'.
Proof.
  intros Hwf Hok. destruct op; cbn [surface_run surface_op_ok] in *.
  - destruct Hok as (? & ? & ?).
    destruct (surface_create_ok a s owner w h) as (r & s' & -> & ? & _); eauto.
  - destruct (surface_retain_ok a s id Hwf Hok) as (r & s' & -> & ? & _). eauto.
  - destruct (surface_release_ok a s id Hwf Hok) as (r & s' & a' & -> & ? & _). eauto.
  - destruct (surface_discard_ok a s id Hwf Hok) as (r & s' & a' & -> & ?). eauto.
  - destruct Hok as (? & ? & ? & Hpx). destruct px as [src|].
    + destruct (surface_write_ok a s id off src n) as (b & s' & -> & Hf & Ht); try done.
      destruct b; [destruct (Ht eq_refl) as (a' & o & ? & _); eauto|].
      destruct (Hf eq_refl) as [-> _]. eauto.
    + unfold surface_write. destruct (resolve_ok a s id Hwf) as (r & -> & _); [done|].
      cbn [mbind option_bind]. destruct r; eauto.
  - unfold surface_data. destruct (resolve_ok a s id Hwf Hok) as (r & -> & _). cbn [mbind option_bind].
    rewrite (surf_arena _ _ Hwf). destruct r; cbn; eauto with kernel.
  - unfold surface_mapping_data. destruct (resolve_ok a s id Hwf Hok) as (r & -> & _).
    cbn [mbind option_bind]. destruct r; cbn; eauto with kernel.
  - destruct Hok as (? & ? & ? & ? & ?).
    destruct (surface_damage_ok a s id x y w h) as (b & s' & -> & ? & _); eauto.
  - destruct (surface_take_damage_ok a s id Hwf Hok) as (r & s' & -> & ? & _). eauto.
  - cbn. exists a. eauto with kernel.
Qed.

(** Which operations leave the reference counts alone. *)
Definition keeps_references (op : surface_op) : Prop :=
  match op with OpCreate _ _ _ | OpRetain _ | OpRelease _ => False | _ => True end.
Definition same_references (s s' : surfaces) : Prop :=
  forall i o', s'.(objects).[i] = Some o' -> exists o, s.(objects).[i] = Some o /\ o'.(references) = o.(references).

Lemma same_references_objects s s' : s'.(objects) = s.(objects) -> same_references s s'.
Proof. intros E i o'. rewrite E. by exists o'. Qed.
Lemma update_references id f s s' : update_object id f s = Some s' ->
  (forall o, s.(objects).[id - 1] = Some o -> (f o).(references) = o.(references)) -> same_references s s'.
Proof.
  unfold update_object. intros H Hf. destruct (s.(objects).[id - 1]) as [o|] eqn:Ho; [|done]. cbn [mbind option_bind] in H.
  rewrite aset_in in H by (by eapply aget_bound). injection H as <-. intros i o'. cbn. rewrite aget_insert by (by eapply aget_bound).
  case_decide; [|by exists o']. subst i. intros [= <-]. exists o. auto.
Qed.

Lemma surface_run_references op s s' : keeps_references op -> surface_run op s = Some s' -> same_references s s'.
Proof.
  intros Hk H. destruct op; cbn [surface_run keeps_references] in *; try done; [..|injection H as <-; by apply same_references_objects];
    apply fmap_Some in H as ([r s1] & H & ->); cbn [snd]; revert H.
  - unfold surface_discard. intros H. destruct (resolve id s) as [r0|] eqn:Er; [|done]. cbn [mbind option_bind] in H.
    destruct r0 as [o|]; [|injection H as _ <-; by apply same_references_objects].
    destruct (Z.eqb_spec o.(references) 0) as [E|]; cbn [negb] in H; [|injection H as _ <-; by apply same_references_objects].
    peel H. injection H as _ <-. unfold clear_object in Hv. peel Hv. injection Hv as <-.
    assert (same_references (set_arena v1 s) v2) as Hs; [|exact Hs]. apply (update_references _ _ _ _ Hv2).
    intros o0 Ho0. cbn in Ho0. unfold resolve in Er. destruct (_ || _); [done|]. rewrite Ho0 in Er. cbn in Er.
    destruct (active o0); [|done]. injection Er as ->. by rewrite E.
  - unfold surface_write. intros H. peel H. destruct v as [o|]; [destruct px as [px|]|]; try (injection H as _ <-; by apply same_references_objects).
    destruct (_ || _); [injection H as _ <-; by apply same_references_objects|]. peel H. injection H as _ <-. by apply same_references_objects.
  - unfold surface_data. intros H. peel H. destruct v as [o|]; [|injection H as _ <-; by apply same_references_objects].
    peel H. injection H as _ <-. by apply same_references_objects.
  - unfold surface_mapping_data. intros H. peel H. destruct v as [o|]; injection H as _ <-; by apply same_references_objects.
  - unfold surface_damage. intros H. peel H. destruct v as [o|]; [|injection H as _ <-; by apply same_references_objects].
    destruct (_ || _); [injection H as _ <-; by apply same_references_objects|]. peel H. injection H as _ <-. by apply (update_references _ _ _ _ Hv0).
  - unfold surface_take_damage. intros H. peel H. destruct v as [o|]; [|injection H as _ <-; by apply same_references_objects].
    destruct (negb _); [injection H as _ <-; by apply same_references_objects|]. peel H. injection H as _ <-. by apply (update_references _ _ _ _ Hv0).
Qed.

Fixpoint surface_runs (ops : list surface_op) (s : surfaces) : option surfaces :=
  match ops with [] => Some s | op :: ops => s ← surface_run op s; surface_runs ops s end.

(** C20. Every sequence of operations on the surfaces returns for all unsigned
    arguments, without an access outside the object table or the arena, and keeps
    the invariant: live surfaces lie inside the arena, share no pixel, and every
    pixel outside them is zero. *)
Theorem surfaces_safe a s ops :
  surf_wf a s -> Forall surface_op_ok ops ->
  exists a' s', surface_runs ops s = Some s' /\ surf_wf a' s'.
Proof.
  intros Hwf Hok. revert a s Hwf. induction Hok as [|op ops Hop _ IH]; intros a s Hwf; cbn [surface_runs]; [by exists a, s|].
  destruct (surface_run_ok a s op Hwf Hop) as (a1 & s1 & -> & Hwf1). cbn [mbind option_bind]. by apply (IH a1).
Qed.

(** ** What a client observes *)

(** The pixels and size [surface_data] shows of surface [id], if it exists. *)
Definition data_of (s : surfaces) (id : Z) : option (option (list Z * Z * Z)) :=
  fst <$> surface_data id s.

Lemma data_of_ok a s id :
  surf_wf a s -> 0 <= id ->
  (forall o, live s (id - 1) o -> data_of s id = Some (Some (pixels_of a o, o.(width), o.(height)))) /\
  ((forall o, ~ live s (id - 1) o) -> data_of s id = Some None) /\
  (forall d, data_of s id = Some (Some d) -> exists o, live s (id - 1) o).
Proof.
  intros Hwf Hid. unfold data_of, surface_data.
  destruct (resolve_ok a s id Hwf Hid) as (r & -> & Hr). cbn [mbind option_bind].
  rewrite (surf_arena _ _ Hwf). destruct r as [o|]; cbn.
  - destruct Hr as [Hl _]. split_and!.
    + intros o' Hl'. assert (o' = o) as -> by (destruct Hl, Hl'; congruence). done.
    + intros Hn. by destruct (Hn o).
    + intros d _. by exists o.
  - split_and!; [intros o Hl; by destruct (Hr o)|done|done].
Qed.

Lemma data_of_kept a a' s s' id k :
  surf_wf a s -> surf_wf a' s' -> 0 <= k -> k <> id -> others_kept id a a' s s' ->
  data_of s' k = data_of s k.
Proof.
  intros Hwf Hwf' Hk Hne Hkept.
  destruct (data_of_ok a s k Hwf Hk) as (D1 & D2 & _).
  destruct (data_of_ok a' s' k Hwf' Hk) as (D1' & D2' & _).
  destruct (resolve_ok a s k Hwf Hk) as (r & _ & Hr). destruct r as [o|].
  - destruct Hr as [Hl _]. rewrite (D1 o Hl).
    destruct (Hkept (k - 1) o ltac:(lia)) as [Hiff Hpx].
    rewrite (D1' o) by by apply Hiff. by rewrite Hpx.
  - rewrite D2 by done. apply D2'. intros o Hl. apply (Hr o).
    by apply (Hkept (k - 1) o ltac:(lia)).
Qed.

(** Creation is complete: it succeeds exactly when the size is within
    bounds, a slot is free, and some aligned place of the rounded-up size meets
    no live surface. *)
Theorem surface_create_first_fit a s owner w h :
  surf_wf a s -> 0 <= owner -> 0 <= w -> 0 <= h ->
  (exists id s', surface_create owner w h s = Some (Some id, s')) <->
  (valid_size owner w h /\ (exists i o, s.(objects).[i] = Some o /\ o.(active) = false) /\
   exists off, 0 <= off /\ off mod 1024 = 0 /\
     off + round_capacity (w * h) <= Z.of_nat (length a) /\ ~ taken s off (round_capacity (w * h))).
Proof.
  intros Hwf Ho Hw Hh.
  destruct (surface_create_ok a s owner w h Hwf Ho Hw Hh) as (r & s' & Heq & Hwf' & Hr).
  split.
  - intros (id & s'' & Heq'). rewrite Heq in Heq'. injection Heq' as -> <-.
    destruct Hr as (o & Hl & <- & <- & <- & _ & Hm & Hfree & _ & Hdis & _).
    pose proof (surf_live _ _ Hwf' _ _ Hl) as Hok. split_and!.
    + destruct (Z.eq_dec o.(owner_pid) 0) as [E|E]; [|by destruct Hok].
      exfalso. unfold surface_create in Heq. rewrite (surf_arena _ _ Hwf), E in Heq. cbn in Heq. congruence.
    + destruct Hfree as (o0 & ? & ?). by exists (id - 1), o0.
    + exists o.(offset_pixels). destruct Hok. rewrite <- obj_capacity0. split_and!; try done.
      intros (i & u & p & Hu & Hc & Hs). by apply (Hdis p Hs i u).
  - intros (Hv & (i & o & Hi & Hna) & off & H0 & Hm & Hend & Hnt).
    destruct r as [id|]; [by exists id, s'|]. exfalso.
    destruct Hr as [_ [Hr|[Hr|Hr]]]; [done| |by apply Hnt, Hr].
    destruct (Hr i o Hi). congruence.
Qed.

(** No information leaks through recycled memory: a client that creates a
    surface sees only zero pixels, whatever was drawn before, and creating it
    changes no existing surface. *)
Theorem surface_create_blank a s owner w h id s' :
  surf_wf a s -> 0 <= owner -> 0 <= w -> 0 <= h ->
  surface_create owner w h s = Some (Some id, s') ->
  data_of s' id = Some (Some (replicate (Z.to_nat (w * h)) 0, w, h)) /\
  forall k d, 0 <= k -> data_of s k = Some (Some d) -> k <> id /\ data_of s' k = Some (Some d).
Proof.
  intros Hwf Ho Hw Hh Hc.
  destruct (surface_create_ok a s owner w h Hwf Ho Hw Hh) as (r & s1 & Heq & Hwf' & Hr).
  rewrite Hc in Heq. injection Heq as <- <-.
  destruct Hr as (o & Hl & _ & Ew & Eh & _ & _ & _ & Hpx & _ & Hkeep).
  pose proof (live_slot _ _ _ _ Hwf' Hl) as Hb. split.
  - destruct (data_of_ok a s' id Hwf' ltac:(lia)) as (D & _). by rewrite (D o Hl), Hpx, Ew, Eh.
  - intros k d Hk Hd. destruct (data_of_ok a s k Hwf Hk) as (D & _ & Dl).
    destruct (Dl d Hd) as [u Hu]. destruct (Hkeep _ _ Hu) as [Hne Hu'].
    split; [lia|]. destruct (data_of_ok a s' k Hwf' Hk) as (D' & _).
    by rewrite (D' u Hu'), <- (D u Hu).
Qed.

(** Drawing is isolated: an accepted write replaces exactly the addressed
    pixels of its own surface, keeps its size, and leaves what every other
    surface shows untouched. *)
Theorem surface_write_isolated a s id off src n s' px w h :
  surf_wf a s -> 0 <= id -> 0 <= off -> 0 <= n -> n <= Z.of_nat (length src) ->
  surface_write id off (Some src) n s = Some (true, s') ->
  data_of s id = Some (Some (px, w, h)) ->
  off + n <= w * h /\
  data_of s' id = Some (Some (take (Z.to_nat off) px ++ take (Z.to_nat n) src ++
                               drop (Z.to_nat (off + n)) px, w, h)) /\
  forall k, 0 <= k -> k <> id -> data_of s' k = data_of s k.
Proof.
  intros Hwf Hid Hoff Hn Hsrc Hw Hd.
  destruct (surface_write_ok a s id off src n Hwf Hid Hoff Hn Hsrc) as (b & s1 & Heq & _ & Ht).
  rewrite Hw in Heq. injection Heq as <- <-.
  destruct (Ht eq_refl) as (a' & o & Hwf' & Hl & Hfit & Hobj & Hpx & Hoth).
  destruct (data_of_ok a s id Hwf Hid) as (D & _). rewrite (D o Hl) in Hd. injection Hd as <- <- <-.
  assert (Hl' : forall j u, live s' j u <-> live s j u) by (intros; unfold live; by rewrite Hobj).
  split; [done|]. split.
  - destruct (data_of_ok a' s' id Hwf' Hid) as (D' & _). rewrite (D' o) by by apply Hl'. by rewrite Hpx.
  - intros k Hk Hne. eapply (data_of_kept a a' s s' id); try done.
    intros j u Hj. split; [apply Hl'|]. intros Hu. by apply (Hoth j).
Qed.

(** Reference counting: a successful release of the last reference makes
    the surface disappear, of an earlier one leaves what it shows, and no other
    surface changes in either case. *)
Theorem surface_release_last a s id s' :
  surf_wf a s -> 0 <= id -> surface_release id s = Some (true, s') ->
  exists o, live s (id - 1) o /\
    data_of s' id = (if o.(references) =? 1 then Some None else data_of s id) /\
    forall k, 0 <= k -> k <> id -> data_of s' k = data_of s k.
Proof.
  intros Hwf Hid Hrel.
  destruct (surface_release_ok a s id Hwf Hid) as (b & s1 & a' & Heq & Hwf' & Hkept & Hcase).
  rewrite Hrel in Heq. injection Heq as <- <-.
  destruct (s.(objects).[id - 1]) as [o|] eqn:Eo; [|by destruct Hcase].
  destruct (active o && negb (references o =? 0)) eqn:Ea; [|by destruct Hcase].
  apply andb_true_iff in Ea as [Ea Er]. destruct Hcase as [_ Hcase]. exists o.
  assert (Hl : live s (id - 1) o) by done. split; [done|].
  destruct (data_of_ok a s id Hwf Hid) as (D & _), (data_of_ok a' s' id Hwf' Hid) as (D' & D2' & _).
  split; [|intros k Hk Hne; by eapply (data_of_kept a a' s s' id)].
  destruct (references o =? 1).
  - destruct Hcase as [Hslot _]. apply D2'. intros u [Hu Hact]. rewrite Hslot in Hu. by injection Hu as <-.
  - destruct Hcase as [Hslot ->]. rewrite (D o Hl). by rewrite (D' _ (conj Hslot Ea)).
Qed.

(** ** Initialisation and concrete runs *)

Definition fresh (n : nat) : surfaces :=
  Surfaces (replicate 8 no_surface) (Some (replicate n 0)) 0 0 0 0 0 0 0 0.

Lemma fresh_wf n : Z.of_nat n < 4294967296 -> surf_wf (replicate n 0) (fresh n).
Proof.
  intros Hn. assert (Hno : forall i o, ~ live (fresh n) i o).
  { intros i o [Ho Ha]. apply aget_Some in Ho as [_ Ho]. unfold fresh in Ho. cbn [objects] in Ho.
    apply lookup_replicate_1 in Ho as [-> _]. done. }
  split; try done.
  - by rewrite length_replicate.
  - intros i o H. by destruct (Hno i o).
  - intros i o [_ Ho]%aget_Some _. unfold fresh in Ho. cbn [objects] in Ho.
    by apply lookup_replicate_1 in Ho as [-> _].
  - intros i j o o' p H. by destruct (Hno i o).
  - intros p v [_ Hp]%aget_Some _. by apply lookup_replicate_1 in Hp as [-> _].
Qed.

Lemma surfaces_init_ok arena bytes s :
  SURFACE_ARENA_BYTES <= bytes < 17179869184 -> bytes / 4 <= Z.of_nat (length arena) ->
  surfaces_init (Some arena) bytes s = Some (true, fresh (Z.to_nat (bytes / 4))).
Proof.
  intros Hb Hl. unfold surfaces_init, SURFACE_ARENA_BYTES in *. rewrite (proj2 (Z.ltb_ge _ _)) by lia.
  assert (0 <= bytes / 4) by zlia. rewrite fill_spec by lia. cbn [mbind option_bind].
  change (take (Z.to_nat 0) arena) with (@nil Z). cbn [app].
  rewrite take_app_le by (rewrite length_replicate; lia).
  by rewrite take_ge by (rewrite length_replicate; lia).
Qed.

Definition demo : surfaces := fresh 2048.
Definition demo_wf : surf_wf (replicate 2048 0) demo := fresh_wf 2048 eq_refl.
Definition run_all (s : surfaces) (ops : list surface_op) : surfaces :=
  fold_left (fun s op => default s (surface_run op s)) ops s.
(** A 2 x 2 surface with one reference. *)
Definition one_surface : surfaces := run_all demo [OpCreate 3 2 2; OpRetain 1].

Lemma one_surface_wf : exists a, surf_wf a one_surface.
Proof.
  destruct (surface_create_ok _ demo 3 2 2 demo_wf) as (r & s & Hc & Hwf & _); [lia..|].
  destruct (surface_retain_ok _ s 1 Hwf ltac:(lia)) as (b & s' & Hr & Hwf' & _).
  exists (replicate 2048 0). replace one_surface with s'; [done|].
  unfold one_surface, run_all. cbn [fold_left surface_run]. rewrite Hc.
  cbn [fmap option_fmap option_map snd default from_option]. unfold id. by rewrite Hr.
Qed.

Lemma surface_create_first_fit_witness :
  exists id s', surface_create 3 640 3 demo = Some (Some id, s').
Proof.
  apply (surface_create_first_fit _ demo 3 640 3 demo_wf); [lia..|]. split; [unfold valid_size; lia|].
  split; [by exists 0, no_surface|]. exists 0. split; [lia|]. split; [done|].
  split; [vm_compute; discriminate|]. intros (i & o & p & [Ho Ha] & _).
  apply aget_Some in Ho as [_ Ho]. unfold demo, fresh in Ho. cbn [objects] in Ho.
  apply lookup_replicate_1 in Ho as [-> _]. discriminate Ha.
Defined.

Lemma surface_create_blank_witness :
  exists s', surface_create 3 2 2 demo = Some (Some 1, s') /\
    data_of s' 1 = Some (Some ([0; 0; 0; 0], 2, 2)).
Proof.
  assert (Hc : exists s', surface_create 3 2 2 demo = Some (Some 1, s')) by (eexists; vm_compute; reflexivity).
  destruct Hc as [s' Hc]. exists s'. split; [exact Hc|].
  exact (proj1 (surface_create_blank _ demo 3 2 2 1 s' demo_wf ltac:(lia) ltac:(lia) ltac:(lia) Hc)).
Defined.

Lemma surface_write_isolated_witness :
  exists s', surface_write 1 1 (Some [7; 8]) 2 one_surface = Some (true, s') /\
    data_of s' 1 = Some (Some ([0; 7; 8; 0], 2, 2)).
Proof.
  destruct one_surface_wf as [a Hwf].
  assert (Hw : exists s', surface_write 1 1 (Some [7; 8]) 2 one_surface = Some (true, s'))
    by (eexists; vm_compute; reflexivity).
  assert (Hd : data_of one_surface 1 = Some (Some ([0; 0; 0; 0], 2, 2))) by (vm_compute; reflexivity).
  destruct Hw as [s' Hw]. exists s'. split; [exact Hw|].
  exact (proj1 (proj2 (surface_write_isolated a one_surface 1 1 [7; 8] 2 s' [0; 0; 0; 0] 2 2 Hwf
    ltac:(lia) ltac:(lia) ltac:(lia) ltac:(cbn; lia) Hw Hd))).
Defined.

Lemma surface_release_last_witness :
  exists s', surface_release 1 one_surface = Some (true, s') /\ data_of s' 1 = Some None.
Proof.
  destruct one_surface_wf as [a Hwf].
  assert (Hrel : exists s', surface_release 1 one_surface = Some (true, s')) by (eexists; vm_compute; reflexivity).
  destruct Hrel as [s' Hrel]. exists s'. split; [exact Hrel|].
  destruct (surface_release_last a one_surface 1 s' Hwf ltac:(lia) Hrel) as (o & [Ho _] & Hd & _).
  rewrite Hd. vm_compute in Ho. injection Ho as <-. reflexivity.
Defined.

Lemma damage_roundtrip_witness :
  exists s1 packed s2, surface_damage 1 1 0 1 2 one_surface = Some (true, s1) /\
    surface_take_damage 1 s1 = Some (Some packed, s2) /\ field16 3 packed = 2.
Proof.
  destruct one_surface_wf as [a Hwf].
  assert (Hd : exists s', surface_damage 1 1 0 1 2 one_surface = Some (true, s')) by (eexists; vm_compute; reflexivity).
  destruct Hd as [s1 Hd].
  destruct (damage_roundtrip a one_surface 1 1 0 1 2 s1 Hwf ltac:(lia) ltac:(lia) ltac:(lia) ltac:(lia) ltac:(lia) Hd)
    as (packed & s2 & s3 & Ht & _ & _ & _ & F & _).
  by exists s1, packed, s2.
Defined.

Lemma surfaces_safe_witness :
  exists a' s', surface_runs [OpCreate 1 2 2; OpDamage 1 0 0 1 1; OpRelease 1] one_surface = Some s' /\ surf_wf a' s'.
Proof.
  destruct one_surface_wf as [a Hwf].
  apply (surfaces_safe a one_surface [OpCreate 1 2 2; OpDamage 1 0 0 1 1; OpRelease 1] Hwf).
  repeat constructor; cbn; lia.
Defined.
