(* ===== verification/Capability.v ===== *)
(** The capability tables of [src/capability.cpp] over the generation-checked
    slot table of [include/kernel/slot_table.h]: per-process handles that name a
    service, rights and an object, and hold a reference on the surface they
    name. *)

From S2P Require Import Prelude Surface.

(** ** kernel::slot_table<T, Capacity> *)

Record entry (T : Type) := Entry { open : bool; generation : Z; payload : T }.
Arguments Entry {T} _ _ _.
Arguments open {T} _.
Arguments generation {T} _.
Arguments payload {T} _.

Section slot_table.
Context {T : Type} (T0 : T).   (* [T()] *)
Implicit Type t : list (entry T).

Definition slot_table_new (capacity : nat) : list (entry T) :=
  replicate capacity (Entry false 1 T0).

(** The first free slot, with the payload the caller fills in. *)
Definition allocate (p : T) t : option (Z * Z * list (entry T)) :=
  match list_find (fun e => e.(open) = false) t with
  | None => None
  | Some (i, e) => Some (Z.of_nat i, e.(generation), <[i := Entry true e.(generation) p]> t)
  end.

Definition resolve_slot (slot gen : Z) t : option T :=
  e ← t.[slot];
  if negb e.(open) || negb (e.(generation) =? gen) then None else Some e.(payload).

Definition peek (slot : Z) t : option T :=
  e ← t.[slot]; if e.(open) then Some e.(payload) else None.

Definition is_open (slot : Z) t : bool :=
  match t.[slot] with Some e => e.(open) | None => false end.

Definition generation_of (slot : Z) t : Z :=
  match t.[slot] with Some e => e.(generation) | None => 0 end.

(** [++generation], skipping zero. *)
Definition next_generation (g : Z) : Z :=
  if u16 (g + 1) =? 0 then 1 else u16 (g + 1).

Definition release (slot : Z) t : option (T * list (entry T)) :=
  e ← t.[slot];
  if negb e.(open) then None else
  Some (e.(payload), <[Z.to_nat slot := Entry false (next_generation e.(generation)) T0]> t).

End slot_table.

(** ** Capabilities *)

Definition kProcessLimit : Z := 8.
Definition kSlotsPerProcess : Z := 8.

Definition CAPABILITY_SERVICE_CONSOLE : Z := 1.
Definition CAPABILITY_SERVICE_CLOCK : Z := 2.
Definition CAPABILITY_SERVICE_PROCESS : Z := 3.
Definition CAPABILITY_SERVICE_STORAGE : Z := 4.
Definition CAPABILITY_SERVICE_FILE : Z := 5.
Definition CAPABILITY_SERVICE_IPC : Z := 6.
Definition CAPABILITY_SERVICE_DISPLAY : Z := 7.
Definition CAPABILITY_SERVICE_INPUT : Z := 8.
Definition CAPABILITY_SERVICE_SURFACE : Z := 9.
Definition CAPABILITY_SERVICE_NETWORK : Z := 10.
Definition CAPABILITY_SERVICE_AUDIO : Z := 11.

Definition CAPABILITY_RIGHT_WRITE : Z := 1.
Definition CAPABILITY_RIGHT_QUERY : Z := 2.
Definition CAPABILITY_RIGHT_READ : Z := 4.
Definition CAPABILITY_RIGHT_OPEN : Z := 8.
Definition CAPABILITY_RIGHT_SEND : Z := 16.
Definition CAPABILITY_RIGHT_RECEIVE : Z := 32.

Definition CAPABILITY_SERVICE_BIT (service : Z) : Z := Z.shiftl 1 service.

Record capability_payload := Cap { service : Z; rights : Z; object_id : Z }.
#[export] Instance capability_payload_eq_dec : EqDecision capability_payload.
Proof. solve_decision. Defined.
Definition no_cap : capability_payload := Cap 0 0 0.

Notation cap_table := (list (entry capability_payload)).

Record caps := Caps {
  tables : list cap_table; opened_count : Z; closed_count : Z; denied_count : Z;
  assigned_services : list Z
}.

Definition set_tables (ts : list cap_table) (c : caps) : caps :=
  Caps ts c.(opened_count) c.(closed_count) c.(denied_count) c.(assigned_services).
Definition count_caps (o cl d : Z) (c : caps) : caps :=
  Caps c.(tables) (u64 (c.(opened_count) + o)) (u64 (c.(closed_count) + cl))
    (u64 (c.(denied_count) + d)) c.(assigned_services).
Definition deny (c : caps) : caps := count_caps 0 0 1 c.
Definition set_services (l : list Z) (c : caps) : caps :=
  Caps c.(tables) c.(opened_count) c.(closed_count) c.(denied_count) l.

Definition make_handle (pid slot gen : Z) : Z :=
  Z.lor (Z.lor (Z.shiftl gen 16) (Z.shiftl pid 8)) slot.

(** (pid, slot, generation) of a well-formed handle. *)
Definition decode_handle (handle : Z) : option (Z * Z * Z) :=
  if negb (Z.shiftr handle 32 =? 0) then None else
  let slot := Z.land handle 255 in
  let pid := Z.land (Z.shiftr handle 8) 255 in
  let gen := u16 (Z.shiftr handle 16) in
  if (pid <? kProcessLimit) && (slot <? kSlotsPerProcess) && negb (gen =? 0)
  then Some (pid, slot, gen) else None.

Definition service_rights (s : Z) : Z :=
  if s =? CAPABILITY_SERVICE_CONSOLE then CAPABILITY_RIGHT_WRITE else
  if (s =? CAPABILITY_SERVICE_CLOCK) || (s =? CAPABILITY_SERVICE_PROCESS)
  then CAPABILITY_RIGHT_QUERY else
  if s =? CAPABILITY_SERVICE_STORAGE then Z.lor CAPABILITY_RIGHT_OPEN CAPABILITY_RIGHT_QUERY else
  if s =? CAPABILITY_SERVICE_DISPLAY then Z.lor CAPABILITY_RIGHT_WRITE CAPABILITY_RIGHT_QUERY else
  if s =? CAPABILITY_SERVICE_INPUT then Z.lor CAPABILITY_RIGHT_READ CAPABILITY_RIGHT_QUERY else
  if s =? CAPABILITY_SERVICE_SURFACE then Z.lor CAPABILITY_RIGHT_OPEN CAPABILITY_RIGHT_QUERY else
  if s =? CAPABILITY_SERVICE_NETWORK then Z.lor CAPABILITY_RIGHT_READ CAPABILITY_RIGHT_QUERY else
  if s =? CAPABILITY_SERVICE_AUDIO then Z.lor CAPABILITY_RIGHT_WRITE CAPABILITY_RIGHT_QUERY else 0.

(** [None]: the table index is out of bounds; [U64_MAX]: no free slot. *)
Definition allocate_slot (pid svc rts obj : Z) (c : caps) : option (Z * caps) :=
  t ← c.(tables).[pid];
  match allocate (Cap svc rts obj) t with
  | None => Some (U64_MAX, deny c)
  | Some (slot, gen, t') =>
      ts ← c.(tables).[pid <- t'];
      Some (make_handle pid slot gen, count_caps 1 0 0 (set_tables ts c))
  end.

Definition capabilities_init : caps :=
  Caps (replicate 8 (slot_table_new no_cap 8)) 0 0 0 [0; U32_MAX; U32_MAX; 0; 0; 0; 0; 0].

Definition capability_assign_services (pid mask : Z) (c : caps) : option (bool * caps) :=
  if (pid =? 0) || (kProcessLimit <=? pid) then Some (false, c) else
  l ← c.(assigned_services).[pid <- mask];
  Some (true, set_services l c).

(** Is [svc] among the services assigned to [pid]? *)
Definition assigned (pid svc : Z) (c : caps) : option bool :=
  mask ← c.(assigned_services).[pid];
  Some (negb (Z.land mask (CAPABILITY_SERVICE_BIT svc) =? 0)).

Definition capability_open (pid svc : Z) (c : caps) : option (Z * caps) :=
  let rts := service_rights svc in
  if (pid =? 0) || (kProcessLimit <=? pid) || (rts =? 0) then Some (U64_MAX, deny c) else
  a ← assigned pid svc c;
  if negb a then Some (U64_MAX, deny c) else allocate_slot pid svc rts 0 c.

Definition capability_open_file (pid obj : Z) (c : caps) : option (Z * caps) :=
  if (pid =? 0) || (kProcessLimit <=? pid) || (obj =? 0) then Some (U64_MAX, deny c) else
  allocate_slot pid CAPABILITY_SERVICE_FILE
    (Z.lor (Z.lor CAPABILITY_RIGHT_READ CAPABILITY_RIGHT_WRITE) CAPABILITY_RIGHT_QUERY) obj c.

(** [(rights & ~allowed) != 0] *)
Definition exceeds (rts allowed : Z) : bool := negb (Z.ldiff rts allowed =? 0).

Definition capability_open_ipc (pid channel rts : Z) (c : caps) : option (Z * caps) :=
  let allowed := Z.lor (Z.lor CAPABILITY_RIGHT_SEND CAPABILITY_RIGHT_RECEIVE) CAPABILITY_RIGHT_QUERY in
  if (pid =? 0) || (kProcessLimit <=? pid) || (channel =? 0) || (rts =? 0) || exceeds rts allowed
  then Some (U64_MAX, deny c) else
  a ← assigned pid CAPABILITY_SERVICE_IPC c;
  if negb a then Some (U64_MAX, deny c) else
  allocate_slot pid CAPABILITY_SERVICE_IPC rts channel c.

(** A new handle on a surface, holding a reference. *)
Definition allocate_surface_slot (pid rts surface : Z) (c : caps) (s : surfaces)
  : option (Z * caps * surfaces) :=
  '(ok, s) ← surface_retain surface s;
  if negb ok then Some (U64_MAX, deny c, s) else
  '(handle, c) ← allocate_slot pid CAPABILITY_SERVICE_SURFACE rts surface c;
  if handle =? U64_MAX then
    '(_, s) ← surface_release surface s; Some (handle, c, s)
  else Some (handle, c, s).

Definition capability_open_surface (pid surface rts : Z) (c : caps) (s : surfaces)
  : option (Z * caps * surfaces) :=
  let allowed := Z.lor (Z.lor CAPABILITY_RIGHT_READ CAPABILITY_RIGHT_WRITE) CAPABILITY_RIGHT_QUERY in
  if (pid =? 0) || (kProcessLimit <=? pid) || (surface =? 0) || (rts =? 0) || exceeds rts allowed
  then Some (U64_MAX, deny c, s) else
  a ← assigned pid CAPABILITY_SERVICE_SURFACE c;
  if negb a then Some (U64_MAX, deny c, s) else allocate_surface_slot pid rts surface c s.

Definition capability_resolve_object (caller handle required : Z) (c : caps)
  : option (option (Z * Z) * caps) :=
  match decode_handle handle with
  | None => Some (None, deny c)
  | Some (owner, slot, gen) =>
      if negb (owner =? caller) then Some (None, deny c) else
      t ← c.(tables).[owner];
      match resolve_slot slot gen t with
      | None => Some (None, deny c)
      | Some g =>
          if negb (Z.land g.(rights) required =? required) then Some (None, deny c)
          else Some (Some (g.(service), g.(object_id)), c)
      end
  end.

Definition capability_resolve (caller handle required : Z) (c : caps) : option (option Z * caps) :=
  '(r, c) ← capability_resolve_object caller handle required c;
  Some (match r with Some (svc, _) => Some svc | None => None end, c).

Definition capability_grant (source source_handle target rts : Z) (c : caps) (s : surfaces)
  : option (Z * caps * surfaces) :=
  if (target =? 0) || (kProcessLimit <=? target) || (rts =? 0) then Some (U64_MAX, deny c, s) else
  '(r, c) ← capability_resolve_object source source_handle rts c;
  match r with
  | None => Some (U64_MAX, deny c, s)
  | Some (svc, obj) =>
      if negb (svc =? CAPABILITY_SERVICE_SURFACE)
         || exceeds rts (Z.lor CAPABILITY_RIGHT_READ CAPABILITY_RIGHT_QUERY)
      then Some (U64_MAX, deny c, s) else
      a ← assigned target svc c;
      if negb a then Some (U64_MAX, deny c, s) else allocate_surface_slot target rts obj c s
  end.

(** Freeing a slot, and the reference of a surface handle. *)
Definition close_slot (pid slot : Z) (c : caps) (s : surfaces) : option (bool * caps * surfaces) :=
  t ← c.(tables).[pid];
  match release no_cap slot t with
  | None => Some (false, c, s)
  | Some (released, t') =>
      ts ← c.(tables).[pid <- t'];
      let c := count_caps 0 1 0 (set_tables ts c) in
      if (released.(service) =? CAPABILITY_SERVICE_SURFACE) && negb (released.(object_id) =? 0)
      then '(_, s) ← surface_release released.(object_id) s; Some (true, c, s)
      else Some (true, c, s)
  end.

Definition capability_close (caller handle : Z) (c : caps) (s : surfaces)
  : option (bool * caps * surfaces) :=
  '(r, c) ← capability_resolve caller handle 0 c;
  match r with
  | None => Some (false, c, s)
  | Some _ => close_slot caller (Z.land handle 255) c s
  end.

Definition close_step (pid slot : Z) (cs : caps * surfaces) : option (caps * surfaces) :=
  let (c, s) := cs in
  t ← c.(tables).[pid];
  if negb (is_open slot t) then Some (c, s) else
  '(_, c, s) ← close_slot pid slot c s; Some (c, s).

Definition capabilities_close_all (pid : Z) (c : caps) (s : surfaces) : option (caps * surfaces) :=
  if (pid =? 0) || (kProcessLimit <=? pid) then Some (c, s) else
  '(c, s) ← for_up 8 0 (close_step pid) (c, s);
  l ← c.(assigned_services).[pid <- 0];
  Some (set_services l c, s).

Definition capabilities_live (c : caps) : Z :=
  foldr Z.add 0 (map (fun t => Z.of_nat (length (filter (fun e => e.(open) = true) t))) (drop 1 c.(tables))).
