(* ===== verification/CapabilitySpec.v ===== *)
(** Correctness of the capability tables: handles resolve exactly to the open
    slots of their owner, closed handles stay dead, grants never amplify rights,
    and every surface's reference count is the number of open handles on it. *)

From S2P Require Import Prelude Surface SurfaceSpec Capability.

(** ** Handles *)

Lemma make_handle_eq p s g : 0 <= p < 256 -> 0 <= s < 256 ->
  make_handle p s g = g * 65536 + p * 256 + s.
Proof.
  intros Hp Hs. unfold make_handle.
  rewrite (lor_shiftl_add g (Z.shiftl p 8) 16) by (rewrite ?Z.shiftl_mul_pow2; lia).
  rewrite Z.shiftl_mul_pow2 by lia.
  replace (g * 2 ^ 16 + p * 2 ^ 8) with (Z.shiftl (g * 256 + p) 8)
    by (rewrite Z.shiftl_mul_pow2; lia).
  rewrite lor_shiftl_8 by done. lia.
Qed.

(** Decoding is the inverse of packing, on exactly the well-formed handles. *)
Lemma decode_handle_spec h p s g : 0 <= h ->
  decode_handle h = Some (p, s, g) <->
  h = make_handle p s g /\ 0 <= p < 8 /\ 0 <= s < 8 /\ 1 <= g < 65536.
Proof.
  intros Hh. unfold decode_handle, kProcessLimit, kSlotsPerProcess.
  change 255 with (Z.ones 8). rewrite !Z.land_ones, !Z.shiftr_div_pow2 by lia.
  change (2 ^ 32) with 4294967296. change (2 ^ 8) with 256. change (2 ^ 16) with 65536. unfold u16.
  split.
  - destruct (Z.eqb_spec (h / 4294967296) 0); cbn [negb]; [|done].
    destruct (_ && _ && _) eqn:E; [|done]. b2p. intros [= <- <- <-].
    rewrite make_handle_eq by zlia. zlia.
  - intros (-> & Hp & Hs & Hg). rewrite make_handle_eq by lia.
    rewrite (proj2 (Z.eqb_eq _ 0)) by zlia. cbn [negb].
    replace ((g * 65536 + p * 256 + s) / 256 mod 256) with p by zlia.
    replace ((g * 65536 + p * 256 + s) mod 256) with s by zlia.
    replace ((g * 65536 + p * 256 + s) / 65536 mod 65536) with g by zlia.
    rewrite (proj2 (Z.ltb_lt p 8)), (proj2 (Z.ltb_lt s 8)), (proj2 (Z.eqb_neq g 0)) by lia. done.
Qed.

Lemma make_handle_inj p s g p' s' g' :
  0 <= p < 8 -> 0 <= s < 8 -> 0 <= p' < 8 -> 0 <= s' < 8 ->
  make_handle p s g = make_handle p' s' g' -> p = p' /\ s = s' /\ g = g'.
Proof. intros. rewrite !make_handle_eq in * by lia. lia. Qed.

(** ** The tables *)

Definition slot_at (c : caps) (pid slot : Z) : option (entry capability_payload) :=
  t ← c.(tables).[pid]; t.[slot].

Record caps_wf (c : caps) : Prop := {
  caps_tables : length c.(tables) = 8%nat;
  caps_slots : Forall (fun t => length t = 8%nat) c.(tables);
  caps_services : length c.(assigned_services) = 8%nat;
  caps_generations : forall p s e, slot_at c p s = Some e -> 1 <= e.(generation) < 65536;
}.

(** Process [pid] holds handle [h], which names the capability [g]. *)
Definition holds (c : caps) (pid h : Z) (g : capability_payload) : Prop :=
  exists slot gen, 0 <= pid < 8 /\ 0 <= slot < 8 /\ h = make_handle pid slot gen /\
    slot_at c pid slot = Some (Entry true gen g).

Lemma table_in c p : caps_wf c -> 0 <= p < 8 ->
  exists t, c.(tables).[p] = Some t /\ length t = 8%nat.
Proof.
  intros Hwf Hp. destruct (aget_in c.(tables) p) as [t Ht]; [rewrite (caps_tables _ Hwf); lia|].
  exists t. split; [done|]. by apply (aget_Forall _ _ _ _ (caps_slots _ Hwf) Ht).
Qed.

Lemma slot_in c p s : caps_wf c -> 0 <= p < 8 -> 0 <= s < 8 -> exists e, slot_at c p s = Some e.
Proof.
  intros Hwf Hp Hs. destruct (table_in c p Hwf Hp) as (t & Ht & Hl).
  unfold slot_at. rewrite Ht. cbn. apply aget_in. lia.
Qed.

Lemma slot_bounds c p s e : caps_wf c -> slot_at c p s = Some e -> 0 <= p < 8 /\ 0 <= s < 8.
Proof.
  intros Hwf H. unfold slot_at in H. destruct (c.(tables).[p]) as [t|] eqn:Ht; [|done]. cbn in H.
  pose proof (aget_Forall _ _ _ _ (caps_slots _ Hwf) Ht) as Hl. cbn in Hl.
  apply aget_bound in Ht, H. rewrite (caps_tables _ Hwf) in Ht. lia.
Qed.

(** Rewriting one slot. *)
Definition put_slot (c : caps) (p s : Z) (e : entry capability_payload) : caps :=
  match c.(tables).[p] with
  | Some t => set_tables (<[Z.to_nat p := <[Z.to_nat s := e]> t]> c.(tables)) c
  | None => c
  end.

Lemma slot_put c p s e q r :
  caps_wf c -> 0 <= p < 8 -> 0 <= s < 8 ->
  slot_at (put_slot c p s e) q r = if decide (q = p /\ r = s) then Some e else slot_at c q r.
Proof.
  intros Hwf Hp Hs. destruct (table_in c p Hwf Hp) as (t & Ht & Hl).
  unfold put_slot, slot_at. rewrite Ht. cbn [tables set_tables].
  rewrite aget_insert by (rewrite (caps_tables _ Hwf); lia).
  destruct (decide (q = p)) as [->|Hq]; cbn [mbind option_bind].
  - rewrite Ht. cbn [mbind option_bind]. rewrite aget_insert by lia. repeat case_decide; naive_solver.
  - by rewrite decide_False by naive_solver.
Qed.

Lemma put_wf c p s e :
  caps_wf c -> 0 <= p < 8 -> 0 <= s < 8 -> 1 <= e.(generation) < 65536 -> caps_wf (put_slot c p s e).
Proof.
  intros Hwf Hp Hs He. pose proof (slot_put c p s e) as Hput.
  destruct (table_in c p Hwf Hp) as (t & Ht & Hl). split.
  - unfold put_slot. rewrite Ht. cbn. rewrite length_insert. apply Hwf.
  - unfold put_slot. rewrite Ht. cbn. apply Forall_insert; [apply Hwf|by rewrite length_insert].
  - unfold put_slot. rewrite Ht. apply Hwf.
  - intros q r e'. rewrite Hput by done. case_decide; [congruence|]. by apply (caps_generations _ Hwf).
Qed.

Lemma count_wf c o cl d : caps_wf c -> caps_wf (count_caps o cl d c).
Proof. by intros []; split. Qed.
#[export] Hint Resolve count_wf : kernel.

(** The counters hold no slots. *)
Lemma slot_count c o cl d p s : slot_at (count_caps o cl d c) p s = slot_at c p s.
Proof. done. Qed.

Lemma holds_count c o cl d p h g : holds (count_caps o cl d c) p h g <-> holds c p h g.
Proof. done. Qed.

(** ** Resolution *)

Lemma resolve_object_ok c caller h req :
  caps_wf c -> 0 <= h ->
  exists r c', capability_resolve_object caller h req c = Some (r, c') /\
    match r with
    | Some (svc, obj) => c' = c /\ exists g, holds c caller h g /\
        Z.land g.(rights) req = req /\ svc = g.(service) /\ obj = g.(object_id)
    | None => c' = deny c /\ forall g, holds c caller h g -> Z.land g.(rights) req <> req
    end.
Proof.
  intros Hwf Hh. unfold capability_resolve_object.
  assert (Hgen : forall slot gen g, holds c caller h g -> decode_handle h = Some (caller, slot, gen) ->
    slot_at c caller slot = Some (Entry true gen g)).
  { intros slot gen g (s & ge & Hp & Hs & Eh & Hat) Hd.
    apply decode_handle_spec in Hd as (Eh' & _ & Hs' & _); [|done].
    rewrite Eh in Eh'. apply make_handle_inj in Eh' as (_ & -> & ->); done. }
  destruct (decode_handle h) as [[[owner slot] gen]|] eqn:Hd.
  2: { exists None, (deny c). split; [done|]. split; [done|].
       intros g (s & ge & Hp & Hs & Eh & Hat).
       assert (decode_handle h = Some (caller, s, ge)); [|congruence].
       apply decode_handle_spec; [done|]. split_and!; try done; try lia;
         apply (caps_generations _ Hwf) in Hat; cbn in Hat; lia. }
  pose proof (proj1 (decode_handle_spec h owner slot gen Hh) Hd) as (Eh & Hp & Hs & Hg).
  destruct (Z.eqb_spec owner caller) as [->|Hne]; cbn [negb].
  2: { exists None, (deny c). split; [done|]. split; [done|].
       intros g (s & ge & Hp' & Hs' & Eh' & _). rewrite Eh in Eh'.
       apply make_handle_inj in Eh' as (? & _); try done. }
  destruct (table_in c caller Hwf Hp) as (t & Ht & Hl). rewrite Ht. cbn [mbind option_bind].
  assert (Hat : slot_at c caller slot = t.[slot]) by (unfold slot_at; by rewrite Ht).
  unfold resolve_slot. rewrite <- Hat.
  destruct (slot_in c caller slot Hwf Hp Hs) as [e He]. rewrite He. cbn [mbind option_bind].
  destruct (negb (open e) || negb (generation e =? gen)) eqn:Eo.
  { exists None, (deny c). split; [done|]. split; [done|]. intros g Hh'.
    rewrite (Hgen slot gen g Hh' eq_refl) in He. injection He as <-. cbn in Eo.
    by rewrite Z.eqb_refl in Eo. }
  b2p. assert (Hhold : holds c caller h e.(payload)).
  { exists slot, gen. split_and!; try lia; try done. rewrite He. subst gen.
    destruct e as [o ge pa]. cbn in *. by subst o. }
  destruct (Z.eqb_spec (Z.land (rights (payload e)) req) req) as [E|E]; cbn [negb].
  - exists (Some (service (payload e), object_id (payload e))), c. split; [done|]. split; [done|]. by exists (payload e).
  - exists None, (deny c). split; [done|]. split; [done|]. intros g Hh'.
    rewrite (Hgen slot gen g Hh' eq_refl) in He. injection He as <-. done.
Qed.

(** ** Allocation and release of slots *)

Lemma put_slot_eq c p s e t :
  c.(tables).[p] = Some t ->
  put_slot c p s e = set_tables (<[Z.to_nat p := <[Z.to_nat s := e]> t]> c.(tables)) c.
Proof. intros Ht. unfold put_slot. by rewrite Ht. Qed.

Lemma make_handle_small p s g : 0 <= p < 8 -> 0 <= s < 8 -> 1 <= g < 65536 ->
  make_handle p s g <> U64_MAX.
Proof. intros. rewrite make_handle_eq by lia. unfold U64_MAX. lia. Qed.

Lemma allocate_slot_ok c pid svc rts obj :
  caps_wf c -> 0 <= pid < 8 ->
  exists h c', allocate_slot pid svc rts obj c = Some (h, c') /\
    ((h = U64_MAX /\ c' = deny c) \/
     (exists slot gen pl, 0 <= slot < 8 /\ 1 <= gen < 65536 /\
        slot_at c pid slot = Some (Entry false gen pl) /\ h = make_handle pid slot gen /\
        h <> U64_MAX /\
        c' = count_caps 1 0 0 (put_slot c pid slot (Entry true gen (Cap svc rts obj))))).
Proof.
  intros Hwf Hp. unfold allocate_slot. destruct (table_in c pid Hwf Hp) as (t & Ht & Hl).
  rewrite Ht. cbn [mbind option_bind]. unfold allocate.
  destruct (list_find _ t) as [[i [o g pl]]|] eqn:Ef.
  2: { exists U64_MAX, (deny c). split; [done|]. by left. }
  apply list_find_Some in Ef as (Hi & Ho & _). cbn in Ho. subst o.
  rewrite aset_in by (rewrite (caps_tables _ Hwf); lia). cbn [mbind option_bind generation].
  pose proof (lookup_lt_Some _ _ _ Hi) as Hil.
  assert (Hat : slot_at c pid (Z.of_nat i) = Some (Entry false g pl)).
  { unfold slot_at. rewrite Ht. cbn. by rewrite aget_nat. }
  pose proof (caps_generations _ Hwf _ _ _ Hat) as Hg. cbn in Hg.
  eexists _, _. split; [done|]. right. exists (Z.of_nat i), g, pl.
  split; [lia|]. split; [lia|]. split; [done|]. split; [done|].
  split; [apply make_handle_small; lia|]. rewrite (put_slot_eq _ _ _ _ t) by done. by rewrite Nat2Z.id.
Qed.

Lemma next_generation_range g : 1 <= g < 65536 -> 1 <= next_generation g < 65536.
Proof. intros. unfold next_generation, u16. destruct (Z.eqb_spec ((g + 1) mod 65536) 0); zlia. Qed.

(** The table after closing an open slot. *)
Definition closed_at (c : caps) (pid slot : Z) : caps :=
  match slot_at c pid slot with
  | Some e => count_caps 0 1 0 (put_slot c pid slot (Entry false (next_generation e.(generation)) no_cap))
  | None => c
  end.

Lemma closed_wf c pid slot : caps_wf c -> caps_wf (closed_at c pid slot).
Proof.
  intros Hwf. unfold closed_at. destruct (slot_at c pid slot) as [e|] eqn:He; [|done].
  destruct (slot_bounds _ _ _ _ Hwf He). apply count_wf, put_wf; try done.
  apply next_generation_range. by apply (caps_generations _ Hwf _ _ _ He).
Qed.

Lemma slot_closed c pid slot e q r :
  caps_wf c -> slot_at c pid slot = Some e ->
  slot_at (closed_at c pid slot) q r =
    if decide (q = pid /\ r = slot) then Some (Entry false (next_generation e.(generation)) no_cap)
    else slot_at c q r.
Proof.
  intros Hwf He. destruct (slot_bounds _ _ _ _ Hwf He). unfold closed_at. rewrite He.
  rewrite slot_count. by apply slot_put.
Qed.

Lemma release_eq c pid slot t e :
  c.(tables).[pid] = Some t -> slot_at c pid slot = Some e -> e.(open) = true ->
  release no_cap slot t =
    Some (e.(payload), <[Z.to_nat slot := Entry false (next_generation e.(generation)) no_cap]> t).
Proof.
  intros Ht He Ho. unfold release. unfold slot_at in He. rewrite Ht in He. cbn in He.
  rewrite He. cbn [mbind option_bind]. by rewrite Ho.
Qed.

(** Closing an open slot releases the surface it names, if any. *)
Lemma close_slot_eq c s pid slot e :
  caps_wf c -> slot_at c pid slot = Some e -> e.(open) = true ->
  close_slot pid slot c s =
    if (e.(payload).(service) =? CAPABILITY_SERVICE_SURFACE) && negb (e.(payload).(object_id) =? 0)
    then '(_, s') ← surface_release e.(payload).(object_id) s; Some (true, closed_at c pid slot, s')
    else Some (true, closed_at c pid slot, s).
Proof.
  intros Hwf He Ho. destruct (slot_bounds _ _ _ _ Hwf He) as [Hp Hs].
  destruct (table_in c pid Hwf Hp) as (t & Ht & _). unfold close_slot. rewrite Ht.
  cbn [mbind option_bind]. rewrite (release_eq c pid slot t e) by done.
  rewrite aset_in by (by eapply aget_bound). cbn [mbind option_bind].
  unfold closed_at. rewrite He, (put_slot_eq _ _ _ _ t) by done. done.
Qed.

(** ** Reference counts *)

(** The slot is an open handle on surface [id]. *)
Definition names (id : Z) (e : entry capability_payload) : Prop :=
  e.(open) = true /\ e.(payload).(service) = CAPABILITY_SERVICE_SURFACE /\
  e.(payload).(object_id) = id.
#[export] Instance names_dec id e : Decision (names id e).
Proof. unfold names. apply _. Defined.

Definition total {A} (f : A -> Z) (l : list A) : Z := foldr Z.add 0 (map f l).

Lemma total_insert {A} (f : A -> Z) (l : list A) i x y :
  l !! i = Some y -> total f (<[i := x]> l) = total f l + f x - f y.
Proof.
  unfold total. revert i. induction l as [|z l IH]; intros [|i] Hi; try done.
  - injection Hi as ->. change (<[0%nat := x]> (y :: l)) with (x :: l). cbn [map foldr]. lia.
  - change (<[S i := x]> (z :: l)) with (z :: <[i := x]> l). cbn [map foldr].
    rewrite (IH i Hi). lia.
Qed.

(** How many open handles name surface [id]. *)
Definition refs_to (id : Z) (c : caps) : Z := total (count (names id)) c.(tables).

Lemma refs_put id c p s e e' :
  caps_wf c -> slot_at c p s = Some e ->
  refs_to id (put_slot c p s e') =
    refs_to id c + (if decide (names id e') then 1 else 0) - (if decide (names id e) then 1 else 0).
Proof.
  intros Hwf He. destruct (slot_bounds _ _ _ _ Hwf He) as [Hp Hs].
  destruct (table_in c p Hwf Hp) as (t & Ht & _). rewrite (put_slot_eq _ _ _ _ t) by done.
  unfold slot_at in He. rewrite Ht in He. cbn in He. unfold refs_to. cbn [tables set_tables].
  apply aget_Some in Ht as [_ Ht], He as [_ He].
  rewrite (total_insert _ _ _ _ t) by done. rewrite (count_insert _ _ _ _ e) by done. lia.
Qed.

Lemma total_count_bound {A} (P : A -> Prop) `{!forall x, Decision (P x)} (l : list (list A)) k :
  Forall (fun t => length t = k) l -> 0 <= total (count P) l <= Z.of_nat (k * length l).
Proof.
  unfold total. induction 1 as [|t l Ht Hl IH]; cbn [map foldr length]; [lia|].
  pose proof (count_range P t) as Hc. rewrite Ht in Hc. lia.
Qed.

Lemma refs_bound id c : caps_wf c -> 0 <= refs_to id c <= 64.
Proof.
  intros Hwf. pose proof (total_count_bound (names id) c.(tables) 8 (caps_slots _ Hwf)) as H.
  rewrite (caps_tables _ Hwf) in H. exact H.
Qed.

Section linked.
(** References held by others than handles: the page mappings of a surface. *)
Context (pins : Z -> Z) (pins_nonneg : forall id, 0 <= pins id).

(** The tables and the surfaces agree: every surface is referenced once per open
    handle and once per pin, and handles name surfaces of the table. *)
Record linked (a : list Z) (c : caps) (s : surfaces) : Prop := {
  linked_caps : caps_wf c;
  linked_surf : surf_wf a s;
  linked_refs : forall id o, 1 <= id <= 8 -> s.(objects).[id - 1] = Some o ->
    o.(references) = refs_to id c + pins id;
  linked_ids : forall p r e, slot_at c p r = Some e -> e.(open) = true ->
    e.(payload).(service) = CAPABILITY_SERVICE_SURFACE -> 0 <= e.(payload).(object_id) <= 8;
}.

Lemma names_positive c p r e id :
  caps_wf c -> slot_at c p r = Some e -> names id e -> 1 <= refs_to id c.
Proof.
  intros Hwf He Hn.
  pose proof (refs_put id c p r e (Entry false e.(generation) no_cap) Hwf He) as H.
  rewrite decide_False in H by (by intros [? _]). rewrite decide_True in H by done.
  destruct (slot_bounds _ _ _ _ Hwf He).
  assert (caps_wf (put_slot c p r (Entry false e.(generation) no_cap))) as Hwf'.
  { apply put_wf; try done. by apply (caps_generations _ Hwf _ _ _ He). }
  pose proof (refs_bound id _ Hwf'). lia.
Qed.

(** So a named surface is live. *)
Lemma linked_live a c s p r e id :
  linked a c s -> slot_at c p r = Some e -> names id e -> id <> 0 ->
  exists o, live s (id - 1) o /\ o.(references) = refs_to id c + pins id /\ 1 <= refs_to id c.
Proof.
  intros Hl He Hn Hid. pose proof Hn as (Ho & Hs & Hob).
  pose proof (linked_ids _ _ _ Hl _ _ _ He Ho Hs) as Hb. rewrite Hob in Hb.
  pose proof (linked_surf _ _ _ Hl) as Hsw.
  destruct (aget_in s.(objects) (id - 1)) as [o Hob']; [rewrite (surf_slots _ _ Hsw); lia|].
  pose proof (linked_refs _ _ _ Hl id o ltac:(lia) Hob') as Hr.
  pose proof (names_positive c p r e id (linked_caps _ _ _ Hl) He Hn).
  exists o. split; [|done]. split; [done|].
  destruct (active o) eqn:Ea; [done|]. rewrite (surf_free _ _ Hsw _ _ Hob' Ea) in Hr. cbn in Hr.
  pose proof (pins_nonneg id). lia.
Qed.

(** ** The operations keep the tables and the surfaces linked *)

(** The reference count of surface [id] moved by [d], the others stayed. *)
Definition refs_moved (id d : Z) (s s' : surfaces) : Prop :=
  forall k o', 1 <= k <= 8 -> s'.(objects).[k - 1] = Some o' ->
    exists o, s.(objects).[k - 1] = Some o /\
      o'.(references) = o.(references) + (if decide (k = id) then d else 0).

Lemma retain_moves a s id :
  surf_wf a s -> 0 <= id ->
  exists b s', surface_retain id s = Some (b, s') /\ surf_wf a s' /\
    (b = false -> s' = s) /\ (b = true -> 1 <= id <= 8 /\ refs_moved id 1 s s' /\
      exists o, live s' (id - 1) o /\ 1 <= o.(references)).
Proof.
  intros Hwf Hid. destruct (surface_retain_ok a s id Hwf Hid) as (b & s' & Heq & Hwf' & Ht & Hf).
  exists b, s'. split; [done|]. split; [done|]. split; [done|]. intros Hb.
  destruct (Ht Hb) as (o & Hl & _ & Hobj). pose proof (live_slot _ _ _ _ Hwf Hl) as Hr.
  pose proof (obj_refs _ _ (surf_live _ _ Hwf _ _ Hl)) as Hro. unfold is_u32 in Hro.
  pose proof (surf_slots _ _ Hwf) as Hlen. destruct Hl as [Ho Ha].
  split; [lia|]. split.
  - intros k o' Hk Hk'. rewrite Hobj, aget_insert in Hk' by (rewrite Hlen; lia).
    destruct (decide (k = id)) as [->|Hne].
    + rewrite decide_True in Hk' by done. injection Hk' as <-. exists o. split; [done|]. cbn. lia.
    + rewrite decide_False in Hk' by lia. exists o'. split; [done|]. lia.
  - eexists. split; [split; [rewrite Hobj, aget_insert by (rewrite Hlen; lia); by rewrite decide_True|done]|].
    cbn. lia.
Qed.

Lemma release_moves a s id o :
  surf_wf a s -> live s (id - 1) o -> 1 <= o.(references) ->
  exists s' a', surface_release id s = Some (true, s') /\ surf_wf a' s' /\ refs_moved id (-1) s s'.
Proof.
  intros Hwf Hl Hr. pose proof (live_slot _ _ _ _ Hwf Hl) as Hb.
  destruct (surface_release_ok a s id Hwf ltac:(lia)) as (b & s' & a' & Heq & Hwf' & Hk & Hcase).
  destruct Hl as [Ho Ha]. rewrite Ho, Ha, (proj2 (Z.eqb_neq _ 0)) in Hcase by lia.
  cbn [andb negb] in Hcase. destruct Hcase as [-> Hcase]. exists s', a'.
  split; [done|]. split; [done|]. intros k o' Hkb Hk'.
  destruct (decide (k = id)) as [->|Hne].
  - exists o. split; [done|]. destruct (Z.eqb_spec o.(references) 1) as [E|E].
    + destruct Hcase as [Hs _]. rewrite Hs in Hk'. injection Hk' as <-. cbn. lia.
    + destruct Hcase as [Hs _]. rewrite Hs in Hk'. injection Hk' as <-. cbn. lia.
  - destruct (aget_in s.(objects) (k - 1)) as [u Hu]; [rewrite (surf_slots _ _ Hwf); lia|].
    exists u. split; [done|]. assert (u.(references) = o'.(references)); [|lia].
    destruct (active o') eqn:Ea'.
    + assert (Hl' : live s' (k - 1) o') by done. apply (Hk (k - 1) o' ltac:(lia)) in Hl' as [Hl' _]. congruence.
    + rewrite (surf_free _ _ Hwf' _ _ Hk' Ea'). destruct (active u) eqn:Eu.
      * assert (Hl' : live s (k - 1) u) by done. apply (Hk (k - 1) u ltac:(lia)) in Hl' as [Hl' Hact]. congruence.
      * by rewrite (surf_free _ _ Hwf _ _ Hu Eu).
Qed.

Lemma linked_count a c s o cl d : linked a c s -> linked a (count_caps o cl d c) s.
Proof. intros []. split; try done. by apply count_wf. Qed.

(** Rewriting a slot while a surface's count moves accordingly. *)
Lemma linked_put a a' c s s' p r e e' id :
  linked a c s -> surf_wf a' s' -> slot_at c p r = Some e -> 1 <= e'.(generation) < 65536 ->
  (e'.(open) = true -> e'.(payload).(service) = CAPABILITY_SERVICE_SURFACE ->
     0 <= e'.(payload).(object_id) <= 8) ->
  (forall k, 1 <= k <= 8 ->
     (if decide (names k e') then 1 else 0) - (if decide (names k e) then 1 else 0) =
     (if decide (k = id) then (if decide (names id e') then 1 else 0)
                              - (if decide (names id e) then 1 else 0) else 0)) ->
  refs_moved id ((if decide (names id e') then 1 else 0) - (if decide (names id e) then 1 else 0)) s s' ->
  linked a' (put_slot c p r e') s'.
Proof.
  intros [Hc Hs Hr Hi] Hs' He Hg Hids Hnames Hmv.
  destruct (slot_bounds _ _ _ _ Hc He) as [Hp Hrb]. split.
  - by apply put_wf.
  - done.
  - intros k o' Hk Ho'. destruct (Hmv k o' Hk Ho') as (o & Ho & ->).
    rewrite (Hr k o Hk Ho), (refs_put k c p r e e' Hc He). specialize (Hnames k Hk).
    repeat case_decide; lia.
  - intros q t x. rewrite (slot_put c p r e' q t Hc Hp Hrb). destruct (decide (q = p /\ t = r)) as [E|E].
    + intros [= <-]. exact Hids.
    + intros Hx. by apply (Hi q t).
Qed.

Lemma closed_not_names k g pl : ~ names k (Entry false g pl).
Proof. by intros [? _]. Qed.

(** A handle that names no surface. *)
Lemma allocate_plain_linked a c s pid svc rts obj :
  linked a c s -> 0 <= pid < 8 -> svc <> CAPABILITY_SERVICE_SURFACE \/ obj = 0 ->
  exists h c', allocate_slot pid svc rts obj c = Some (h, c') /\ linked a c' s.
Proof.
  intros Hl Hp Hplain. pose proof (linked_caps _ _ _ Hl) as Hc.
  destruct (allocate_slot_ok c pid svc rts obj Hc Hp)
    as (h & c' & Heq & [[-> ->]|(slot & gen & pl & Hsl & Hg & Hat & -> & _ & ->)]).
  { eexists _, _. split; [exact Heq|]. by apply linked_count. }
  eexists _, _. split; [exact Heq|]. apply linked_count.
  assert (Hn : forall k, 1 <= k <= 8 -> ~ names k (Entry true gen (Cap svc rts obj))).
  { intros k Hk (_ & Hs & Ho). cbn in *. destruct Hplain; [done|lia]. }
  assert (Hn0 : forall k g p, ~ names k (Entry false g p)) by (intros; apply closed_not_names).
  eapply (linked_put a a c s s pid slot _ _ 9); try done.
  - apply Hl.
  - cbn. intros _ Hs. destruct Hplain; [done|lia].
  - intros k Hk. rewrite (decide_False (P := names k _)) by by apply Hn.
    rewrite (decide_False (P := names k _)) by done. by rewrite decide_False by lia.
  - intros k o' Hk Hk'. exists o'. split; [done|]. rewrite (decide_False (P := k = 9)) by lia. lia.
Qed.

(** A handle that names a surface: it takes a reference, or fails. *)
Lemma allocate_surface_linked a c s pid rts id :
  linked a c s -> 0 <= pid < 8 -> 0 <= id ->
  exists h c' s' a', allocate_surface_slot pid rts id c s = Some (h, c', s') /\ linked a' c' s' /\
    (h <> U64_MAX -> holds c' pid h (Cap CAPABILITY_SERVICE_SURFACE rts id) /\
       forall q k g, holds c q k g -> holds c' q k g).
Proof.
  intros Hl Hp Hid. unfold allocate_surface_slot.
  pose proof (linked_surf _ _ _ Hl) as Hs. pose proof (linked_caps _ _ _ Hl) as Hc.
  destruct (retain_moves a s id Hs Hid) as (b & s1 & -> & Hs1 & Hf & Ht). cbn [mbind option_bind].
  destruct b; cbn [negb].
  2: { rewrite (Hf eq_refl). eexists _, _, _, a. split; [done|]. split; [by apply linked_count|done]. }
  destruct (Ht eq_refl) as (Hb & Hmv & o & Hlo & Hro).
  destruct (allocate_slot_ok c pid CAPABILITY_SERVICE_SURFACE rts id Hc Hp)
    as (h & c' & -> & [[-> ->]|(slot & gen & pl & Hsl & Hg & Hat & -> & Hnm & ->)]);
    cbn [mbind option_bind].
  - rewrite Z.eqb_refl. destruct (release_moves a s1 id o Hs1 Hlo Hro) as (s2 & a2 & -> & Hs2 & Hmv2).
    cbn [mbind option_bind]. eexists _, _, s2, a2. split; [done|]. split; [|done].
    destruct Hl as [_ _ Hr Hi]. split; try done; [by apply count_wf|].
    intros k o' Hk Ho'. destruct (Hmv2 k o' Hk Ho') as (o1 & Ho1 & ->).
    destruct (Hmv k o1 Hk Ho1) as (o0 & Ho0 & ->). rewrite (Hr k o0 Hk Ho0).
    change (refs_to k (deny c)) with (refs_to k c). case_decide; lia.
  - rewrite (proj2 (Z.eqb_neq _ _)) by done. eexists _, _, s1, a. split; [done|].
    set (e' := Entry true gen (Cap CAPABILITY_SERVICE_SURFACE rts id)).
    assert (Hn : forall k, names k e' <-> k = id) by (intros k; split; [by intros (_ & _ & <-)|by intros ->]).
    assert (Hn0 : forall k g p, ~ names k (Entry false g p)) by (intros; apply closed_not_names).
    split.
    + apply linked_count. eapply (linked_put a a c s s1 pid slot _ e' id); try done.
      * intros _ _. cbn. lia.
      * intros k Hk. rewrite (decide_False (P := names k (Entry false _ _))) by done.
        rewrite (decide_False (P := names id (Entry false _ _))) by done.
        destruct (decide (k = id)) as [->|Hne]; [done|].
        rewrite (decide_False (P := names k e')); [lia|]. rewrite Hn. lia.
      * rewrite (decide_False (P := names id (Entry false _ _))) by done.
        rewrite (decide_True (P := names id e')) by by apply Hn. exact Hmv.
    + intros _. split.
      * exists slot, gen. split; [lia|]. split; [lia|]. split; [done|]. rewrite slot_count.
        rewrite slot_put by done. by rewrite decide_True.
      * intros q k g (sl & ge & Hq & Hsl' & Ek & Hat'). exists sl, ge. split; [lia|]. split; [lia|].
        split; [done|]. rewrite slot_count, slot_put by done. rewrite decide_False; [done|].
        intros [-> ->]. congruence.
Qed.

(** Closing an open slot drops its reference. *)
Lemma close_slot_linked a c s pid slot e :
  linked a c s -> slot_at c pid slot = Some e -> e.(open) = true ->
  exists s' a', close_slot pid slot c s = Some (true, closed_at c pid slot, s') /\
    linked a' (closed_at c pid slot) s' /\
    (forall id, names id e -> id <> 0 -> surface_release id s = Some (true, s')).
Proof.
  intros Hl He Ho. pose proof (linked_caps _ _ _ Hl) as Hc.
  pose proof (caps_generations _ Hc _ _ _ He) as Hg. pose proof (next_generation_range _ Hg) as Hg'.
  set (e' := Entry false (next_generation e.(generation)) no_cap).
  assert (Hcl : closed_at c pid slot = count_caps 0 1 0 (put_slot c pid slot e')) by (unfold closed_at; by rewrite He).
  assert (Hn0 : forall k, ~ names k e') by (intros; apply closed_not_names).
  rewrite (close_slot_eq c s pid slot e Hc He Ho).
  destruct (_ && negb _) eqn:Es.
  - b2p. set (id := object_id (payload e)) in *.
    assert (Hn : names id e) by done.
    destruct (linked_live a c s pid slot e id Hl He Hn) as (o & Hlo & Hro & Hr1); [done|].
    destruct (release_moves a s id o (linked_surf _ _ _ Hl) Hlo) as (s1 & a1 & Hrel & Hs1 & Hmv);
      [pose proof (pins_nonneg id); lia|].
    rewrite Hrel. cbn [mbind option_bind]. exists s1, a1. split; [done|]. split.
    + rewrite Hcl. apply linked_count. eapply (linked_put a a1 c s s1 pid slot e e' id); try done.
      * intros k Hk. rewrite !(decide_False (P := names _ e')) by done.
        destruct (decide (k = id)) as [->|Hne]; [done|].
        rewrite (decide_False (P := names k e)); [lia|]. intros (_ & _ & E). apply Hne. by rewrite <- E.
      * rewrite (decide_False (P := names _ e')) by done. rewrite (decide_True (P := names id e)) by done. exact Hmv.
    + intros k (_ & _ & Ek) _. by rewrite <- Ek.
  - exists s, a. split; [done|].
    assert (Hn : forall k, 1 <= k <= 8 -> ~ names k e).
    { intros k Hk (_ & Hs & Hob). rewrite Hs, Hob in Es. cbn in Es.
      rewrite (proj2 (Z.eqb_neq k 0)) in Es by lia. done. }
    split.
    + rewrite Hcl. apply linked_count. eapply (linked_put a a c s s pid slot e e' 9); try done.
      * apply Hl.
      * intros k Hk. rewrite (decide_False (P := names k e')), (decide_False (P := names k e)) by (done || by apply Hn).
        by rewrite decide_False by lia.
      * intros k o' Hk Hk'. exists o'. split; [done|]. rewrite (decide_False (P := k = 9)) by lia. lia.
    + intros id (_ & Hs & Hob) Hne. rewrite Hs, Hob in Es. cbn in Es.
      by rewrite (proj2 (Z.eqb_neq id 0)) in Es by done.
Qed.

(** ** The system calls *)

Lemma assigned_ok c pid svc : caps_wf c -> 0 <= pid < 8 -> exists b, assigned pid svc c = Some b.
Proof.
  intros Hwf Hp. unfold assigned. destruct (aget_in c.(assigned_services) pid) as [m ->].
  { rewrite (caps_services _ Hwf). lia. } by eexists.
Qed.

Lemma set_services_linked a c s l :
  linked a c s -> length l = 8%nat -> linked a (set_services l c) s.
Proof. intros [[] ? ? ?] Hl. split; [split|..]; done. Qed.

Lemma capability_grant_ok a c s src h dst rts :
  linked a c s -> 0 <= h -> 0 <= dst ->
  exists r c' s' a', capability_grant src h dst rts c s = Some (r, c', s') /\ linked a' c' s' /\
    (r <> U64_MAX -> exists g, holds c src h g /\ Z.land g.(rights) rts = rts /\
       Z.ldiff rts (Z.lor CAPABILITY_RIGHT_READ CAPABILITY_RIGHT_QUERY) = 0 /\
       g.(service) = CAPABILITY_SERVICE_SURFACE /\
       holds c' dst r (Cap CAPABILITY_SERVICE_SURFACE rts g.(object_id)) /\
       (forall q k g, holds c q k g -> holds c' q k g)).
Proof.
  intros Hl Hh Hd. unfold capability_grant, kProcessLimit. pose proof (linked_caps _ _ _ Hl) as Hc.
  assert (Hno : forall c1, linked a c1 s -> exists r c' s' a', Some (U64_MAX, c1, s) = Some (r, c', s') /\
    linked a' c' s' /\ (r <> U64_MAX -> exists g, holds c src h g /\ Z.land g.(rights) rts = rts /\
       Z.ldiff rts (Z.lor CAPABILITY_RIGHT_READ CAPABILITY_RIGHT_QUERY) = 0 /\
       g.(service) = CAPABILITY_SERVICE_SURFACE /\
       holds c' dst r (Cap CAPABILITY_SERVICE_SURFACE rts g.(object_id)) /\
       (forall q k g, holds c q k g -> holds c' q k g))) by (intros; by eexists _, _, s, a).
  pose proof (linked_count a c s 0 0 1 Hl) as Hld. fold (deny c) in Hld.
  destruct (_ || _ || _) eqn:E; [by apply Hno|]. b2p.
  destruct (resolve_object_ok c src h rts Hc Hh) as (r & c1 & -> & Hr). cbn [mbind option_bind].
  destruct r as [[svc obj]|].
  2: { destruct Hr as [-> _]. apply Hno. by apply linked_count. }
  destruct Hr as (-> & g & Hg & Hrt & -> & ->).
  destruct (negb _ || exceeds _ _) eqn:Ex; [by apply Hno|]. b2p. unfold exceeds in *. b2p.
  destruct (assigned_ok c dst g.(service) Hc ltac:(lia)) as [b ->]. cbn [mbind option_bind].
  destruct b; cbn [negb]; [|by apply Hno].
  assert (Hid : 0 <= g.(object_id)).
  { destruct Hg as (sl & ge & _ & _ & _ & Hat).
    pose proof (linked_ids _ _ _ Hl _ _ _ Hat eq_refl) as H9. cbn in H9. by apply H9. }
  destruct (allocate_surface_linked a c s dst rts g.(object_id) Hl ltac:(lia) Hid)
    as (r & c' & s' & a' & Heq & Hl' & Hres).
  exists r, c', s', a'. split; [done|]. split; [done|]. intros Hne. exists g.
  destruct (Hres Hne). by split_and!.
Qed.

Lemma capability_close_ok a c s pid h :
  linked a c s -> 0 <= h ->
  exists b c' s' a', capability_close pid h c s = Some (b, c', s') /\ linked a' c' s' /\
    (b = true <-> exists g, holds c pid h g) /\
    (b = true -> exists slot gen g, h = make_handle pid slot gen /\ 0 <= pid < 8 /\
       slot_at c pid slot = Some (Entry true gen g) /\ c' = closed_at c pid slot /\
       (g.(service) = CAPABILITY_SERVICE_SURFACE -> g.(object_id) <> 0 ->
          surface_release g.(object_id) s = Some (true, s'))) /\
    (b = false -> c' = deny c).
Proof.
  intros Hl Hh. pose proof (linked_caps _ _ _ Hl) as Hc. unfold capability_close, capability_resolve.
  destruct (resolve_object_ok c pid h 0 Hc Hh) as (r & c1 & -> & Hr). cbn [mbind option_bind].
  destruct r as [[svc obj]|].
  2: { destruct Hr as [-> Hn]. eexists false, _, s, a. split; [done|]. split; [by apply linked_count|].
       split; [|done]. split; [done|]. intros [g Hg]. exfalso. apply (Hn g Hg). by rewrite Z.land_0_r. }
  destruct Hr as (-> & g & Hg & _). pose proof Hg as (slot & gen & Hp & Hs & Eh & Hat).
  assert (Hslot : Z.land h 255 = slot).
  { rewrite Eh, make_handle_eq by lia. change 255 with (Z.ones 8). rewrite Z.land_ones by lia.
    change (2 ^ 8) with 256. zlia. }
  rewrite Hslot.
  destruct (close_slot_linked a c s pid slot _ Hl Hat eq_refl) as (s' & a' & -> & Hl' & Hrel).
  eexists true, _, s', a'. split; [done|]. split; [done|]. split; [split; [by eauto|done]|].
  split; [|done]. intros _. exists slot, gen, g. split_and!; try done; try lia.
  intros Hsv Hob. apply (Hrel g.(object_id)); done.
Qed.

Lemma close_step_ok a c s pid slot :
  linked a c s -> 0 <= pid < 8 -> 0 <= slot < 8 ->
  exists c' s' a', close_step pid slot (c, s) = Some (c', s') /\ linked a' c' s' /\
    length c'.(assigned_services) = 8%nat /\
    (c' = closed_at c pid slot \/ c' = c).
Proof.
  intros Hl Hp Hs. pose proof (linked_caps _ _ _ Hl) as Hc. unfold close_step.
  destruct (table_in c pid Hc Hp) as (t & Ht & _). rewrite Ht. cbn [mbind option_bind].
  destruct (slot_in c pid slot Hc Hp Hs) as [e He].
  assert (Hopen : is_open slot t = e.(open)).
  { unfold is_open. unfold slot_at in He. rewrite Ht in He. cbn in He. by rewrite He. }
  rewrite Hopen. destruct (open e) eqn:Eo; cbn [negb].
  - destruct (close_slot_linked a c s pid slot e Hl He Eo) as (s' & a' & -> & Hl' & _).
    cbn [mbind option_bind]. eexists _, s', a'. split; [done|]. split; [done|].
    split; [apply Hl'|by left].
  - eexists _, s, a. split; [done|]. split; [done|]. split; [apply Hl|by right].
Qed.

Lemma capabilities_close_all_ok a c s pid :
  linked a c s -> 0 <= pid ->
  exists c' s' a', capabilities_close_all pid c s = Some (c', s') /\ linked a' c' s'.
Proof.
  intros Hl Hp. unfold capabilities_close_all, kProcessLimit.
  destruct ((pid =? 0) || (8 <=? pid)) eqn:E; [by exists c, s, a|]. b2p.
  destruct (for_up_inv (fun _ cs => exists a', linked a' cs.1 cs.2) 8 0 (close_step pid) (c, s))
    as ([c' s'] & -> & a' & Hl'); [by exists a| |].
  - intros slot [c1 s1] Hslot [a1 Hl1].
    destruct (close_step_ok a1 c1 s1 pid slot Hl1 ltac:(lia) ltac:(lia)) as (c2 & s2 & a2 & -> & Hl2 & _).
    exists (c2, s2). split; [done|]. by exists a2.
  - cbn [mbind option_bind fst snd] in *.
    pose proof (caps_services _ (linked_caps _ _ _ Hl')) as Hlen.
    rewrite aset_in by (rewrite Hlen; lia). cbn [mbind option_bind].
    eexists _, s', a'. split; [done|]. apply set_services_linked; [done|]. by rewrite length_insert.
Qed.

Inductive cap_op :=
| CapAssign (pid mask : Z) | CapOpen (pid svc : Z) | CapOpenFile (pid obj : Z)
| CapOpenIpc (pid channel rts : Z) | CapOpenSurface (pid surface rts : Z)
| CapGrant (src h dst rts : Z) | CapResolve (pid h rt : Z)
| CapClose (pid h : Z) | CapCloseAll (pid : Z).

Definition cap_run (op : cap_op) (c : caps) (s : surfaces) : option (caps * surfaces) :=
  match op with
  | CapAssign pid mask => '(_, c) ← capability_assign_services pid mask c; Some (c, s)
  | CapOpen pid svc => '(_, c) ← capability_open pid svc c; Some (c, s)
  | CapOpenFile pid obj => '(_, c) ← capability_open_file pid obj c; Some (c, s)
  | CapOpenIpc pid ch rts => '(_, c) ← capability_open_ipc pid ch rts c; Some (c, s)
  | CapOpenSurface pid id rts => '(_, c, s) ← capability_open_surface pid id rts c s; Some (c, s)
  | CapGrant src h dst rts => '(_, c, s) ← capability_grant src h dst rts c s; Some (c, s)
  | CapResolve pid h rt => '(_, c) ← capability_resolve pid h rt c; Some (c, s)
  | CapClose pid h => '(_, c, s) ← capability_close pid h c s; Some (c, s)
  | CapCloseAll pid => capabilities_close_all pid c s
  end.

(** The arguments are unsigned words. *)
Definition cap_op_ok (op : cap_op) : Prop :=
  match op with
  | CapAssign pid _ | CapOpen pid _ | CapOpenFile pid _ | CapOpenIpc pid _ _ | CapCloseAll pid => 0 <= pid
  | CapOpenSurface pid id _ => 0 <= pid /\ 0 <= id
  | CapGrant _ h dst _ => 0 <= h /\ 0 <= dst
  | CapResolve _ h _ | CapClose _ h => 0 <= h
  end.

Lemma cap_run_ok a c s op :
  linked a c s -> cap_op_ok op ->
  exists a' c' s', cap_run op c s = Some (c', s') /\ linked a' c' s'.
Proof.
  intros Hl Hok. pose proof (linked_caps _ _ _ Hl) as Hc.
  pose proof (linked_count a c s 0 0 1 Hl) as Hld. fold (deny c) in Hld.
  destruct op; cbn [cap_run cap_op_ok] in *.
  - unfold capability_assign_services, kProcessLimit. destruct (_ || _) eqn:E; [by exists a, c, s|]. b2p.
    pose proof (caps_services _ Hc) as Hlen. rewrite aset_in by (rewrite Hlen; lia).
    cbn [mbind option_bind]. eexists a, _, s. split; [done|]. apply set_services_linked; [done|].
    by rewrite length_insert.
  - unfold capability_open, kProcessLimit. destruct (_ || _ || _) eqn:E; [by exists a, (deny c), s|]. b2p.
    destruct (assigned_ok c pid svc Hc ltac:(lia)) as [b ->]. cbn [mbind option_bind].
    destruct b; cbn [negb]; [|by exists a, (deny c), s].
    destruct (allocate_plain_linked a c s pid svc (service_rights svc) 0 Hl ltac:(lia)) as (h & c' & -> & ?);
      [by right|]. by exists a, c', s.
  - unfold capability_open_file, kProcessLimit. destruct (_ || _ || _) eqn:E; [by exists a, (deny c), s|]. b2p.
    destruct (allocate_plain_linked a c s pid CAPABILITY_SERVICE_FILE 
      (Z.lor (Z.lor CAPABILITY_RIGHT_READ CAPABILITY_RIGHT_WRITE) CAPABILITY_RIGHT_QUERY) obj Hl ltac:(lia))
      as (h & c' & -> & ?); [by left|]. by exists a, c', s.
  - unfold capability_open_ipc, kProcessLimit. destruct (_ || _ || _ || _ || _) eqn:E; [by exists a, (deny c), s|]. b2p.
    destruct (assigned_ok c pid CAPABILITY_SERVICE_IPC Hc ltac:(lia)) as [b ->]. cbn [mbind option_bind].
    destruct b; cbn [negb]; [|by exists a, (deny c), s].
    destruct (allocate_plain_linked a c s pid CAPABILITY_SERVICE_IPC rts channel Hl ltac:(lia))
      as (h & c' & -> & ?); [by left|]. by exists a, c', s.
  - destruct Hok as [Hp Hid]. unfold capability_open_surface, kProcessLimit.
    destruct (_ || _ || _ || _ || _) eqn:E; [by exists a, (deny c), s|]. b2p.
    destruct (assigned_ok c pid CAPABILITY_SERVICE_SURFACE Hc ltac:(lia)) as [b ->]. cbn [mbind option_bind].
    destruct b; cbn [negb]; [|by exists a, (deny c), s].
    destruct (allocate_surface_linked a c s pid rts surface Hl ltac:(lia) Hid)
      as (h & c' & s' & a' & -> & ? & _). by exists a', c', s'.
  - destruct Hok as [Hh Hd].
    destruct (capability_grant_ok a c s src h dst rts Hl Hh Hd) as (r & c' & s' & a' & -> & ? & _).
    by exists a', c', s'.
  - unfold capability_resolve. destruct (resolve_object_ok c pid h rt Hc Hok) as (r & c1 & -> & Hr).
    cbn [mbind option_bind]. destruct r as [[svc obj]|]; destruct Hr as [-> _]; [by exists a, c, s|].
    by exists a, (deny c), s.
  - destruct (capability_close_ok a c s pid h Hl Hok) as (b & c' & s' & a' & -> & ? & _).
    by exists a', c', s'.
  - destruct (capabilities_close_all_ok a c s pid Hl Hok) as (c' & s' & a' & -> & ?). by exists a', c', s'.
Qed.

(** C16. Reference counting is exact: every capability system call returns, keeps
    the tables and the surface allocator well formed, and afterwards again every
    surface's reference count is the number of open handles that name it plus its
    page mappings; so no surface is freed while a handle names it, and none is
    leaked. *)
Theorem handles_count_references a c s op :
  linked a c s -> cap_op_ok op ->
  exists a' c' s', cap_run op c s = Some (c', s') /\ surf_wf a' s' /\ caps_wf c' /\
    forall id o, 1 <= id <= 8 -> s'.(objects).[id - 1] = Some o ->
      o.(references) = refs_to id c' + pins id.
Proof.
  intros Hl Hok. destruct (cap_run_ok a c s op Hl Hok) as (a' & c' & s' & Heq & [H1 H2 H3 H4]).
  by exists a', c', s'.
Qed.

(** Closing the last handle of an unmapped surface reclaims it at once: its
    slot is free and its pixels are erased. *)
Theorem last_handle_reclaims a c s pid h g c' s' :
  linked a c s -> 0 <= h -> holds c pid h g -> g.(service) = CAPABILITY_SERVICE_SURFACE ->
  g.(object_id) <> 0 -> refs_to g.(object_id) c = 1 -> pins g.(object_id) = 0 ->
  capability_close pid h c s = Some (true, c', s') ->
  s'.(objects).[g.(object_id) - 1] = Some no_surface /\ refs_to g.(object_id) c' = 0 /\
  exists a' o, surf_wf a' s' /\ live s (g.(object_id) - 1) o /\ forall p, covers o p -> a'.[p] = Some 0.
Proof.
  intros Hl Hh Hg Hsv Hob Hone Hpin Hclose. pose proof (linked_caps _ _ _ Hl) as Hc.
  destruct (capability_close_ok a c s pid h Hl Hh) as (b & c1 & s1 & a1 & Heq & Hl1 & _ & Ht & _).
  rewrite Hclose in Heq. injection Heq as <- <- <-.
  destruct (Ht eq_refl) as (slot & gen & g' & Eh & Hp & Hat & -> & Hrel).
  assert (g' = g) as ->.
  { destruct Hg as (sl & ge & _ & Hsl & Eh' & Hat'). rewrite Eh in Eh'.
    destruct (slot_bounds _ _ _ _ Hc Hat) as [_ Hs0].
    apply make_handle_inj in Eh' as (_ & -> & ->); try done; try lia. congruence. }
  assert (Hn : names g.(object_id) (Entry true gen g)) by done.
  destruct (linked_live a c s pid slot _ _ Hl Hat Hn Hob) as (o & Hlo & Hro & _).
  pose proof (live_slot _ _ _ _ (linked_surf _ _ _ Hl) Hlo) as Hb.
  destruct (surface_release_ok a s g.(object_id) (linked_surf _ _ _ Hl) ltac:(lia))
    as (b & s2 & a2 & Heq & Hwf2 & _ & Hcase).
  rewrite (Hrel Hsv Hob) in Heq. injection Heq as <- <-. destruct Hlo as [Ho Ha].
  rewrite Ho, Ha, Hro, Hone, Hpin in Hcase. cbn [andb negb] in Hcase.
  change (1 + 0 =? 0) with false in Hcase. change (1 + 0 =? 1) with true in Hcase.
  cbn [negb] in Hcase. destruct Hcase as (_ & Hslot & Hz). split; [done|]. split.
  - pose proof (linked_refs _ _ _ Hl1 g.(object_id) no_surface ltac:(lia) Hslot) as Hr.
    cbn in Hr. rewrite Hpin in Hr. lia.
  - exists a2, o. done.
Qed.

(** Grants attenuate: a granted handle belongs to the target process, names
    the very object of the source handle, and carries only rights the source
    holds, of which only reading and querying can be passed on; no existing
    handle of anybody changes. *)
Theorem grant_attenuates a c s src h dst rts r c' s' :
  linked a c s -> 0 <= h -> 0 <= dst ->
  capability_grant src h dst rts c s = Some (r, c', s') -> r <> U64_MAX ->
  exists g, holds c src h g /\ g.(service) = CAPABILITY_SERVICE_SURFACE /\
    holds c' dst r (Cap g.(service) rts g.(object_id)) /\
    Z.land g.(rights) rts = rts /\
    Z.ldiff rts (Z.lor CAPABILITY_RIGHT_READ CAPABILITY_RIGHT_QUERY) = 0 /\
    forall q k u, holds c q k u -> holds c' q k u.
Proof.
  intros Hl Hh Hd Hgr Hne.
  destruct (capability_grant_ok a c s src h dst rts Hl Hh Hd) as (r1 & c1 & s1 & a1 & Heq & _ & Hres).
  rewrite Hgr in Heq. injection Heq as <- <- <-.
  destruct (Hres Hne) as (g & Hg & Hr & Hx & Hsv & Hnew & Hkeep). exists g. rewrite Hsv. by split_and!.
Qed.

(** ** Generations *)

(** [k] steps of the generation counter of a slot. *)
Definition age (g k : Z) : Z := (g - 1 + k) mod 65535 + 1.

Lemma next_generation_age g k : 1 <= g < 65536 -> next_generation (age g k) = age g (k + 1).
Proof.
  intros Hg. unfold next_generation, age, u16.
  destruct (Z.eqb_spec (((g - 1 + k) mod 65535 + 1 + 1) mod 65536) 0); zlia.
Qed.

Lemma age_ne g k : 1 <= g < 65536 -> 1 <= k < 65535 -> age g k <> g.
Proof. unfold age. intros. zlia. Qed.

(** No operation moves a generation by more than one step. *)
Definition gen_step (c c' : caps) : Prop :=
  forall p r e, slot_at c p r = Some e -> exists e', slot_at c' p r = Some e' /\
    (e'.(generation) = e.(generation) \/ e'.(generation) = next_generation e.(generation)).

Lemma gen_step_refl c c' : (forall p r, slot_at c' p r = slot_at c p r) -> gen_step c c'.
Proof. intros H p r e He. exists e. rewrite H. auto. Qed.

Lemma allocate_slot_gen c pid svc rts obj h c' :
  caps_wf c -> 0 <= pid < 8 -> allocate_slot pid svc rts obj c = Some (h, c') -> gen_step c c'.
Proof.
  intros Hc Hp Heq.
  destruct (allocate_slot_ok c pid svc rts obj Hc Hp)
    as (h1 & c1 & Heq1 & [[-> ->]|(slot & gen & pl & Hsl & Hg & Hat & -> & _ & ->)]);
    rewrite Heq in Heq1; injection Heq1 as -> ->; [by apply gen_step_refl|].
  intros p r e He. rewrite slot_count, slot_put by done.
  destruct (decide (p = pid /\ r = slot)) as [[-> ->]|]; [|by eauto].
  rewrite Hat in He. injection He as <-. eexists. split; [done|]. by left.
Qed.

Lemma closed_gen c pid slot : caps_wf c -> gen_step c (closed_at c pid slot).
Proof.
  intros Hc. destruct (slot_at c pid slot) as [e0|] eqn:He0.
  - intros p r e He. rewrite (slot_closed c pid slot e0) by done.
    destruct (decide (p = pid /\ r = slot)) as [[-> ->]|]; [|by eauto].
    rewrite He0 in He. injection He as <-. eexists. split; [done|]. by right.
  - unfold closed_at. rewrite He0. by apply gen_step_refl.
Qed.

Lemma allocate_surface_gen c s pid rts id h c' s' :
  caps_wf c -> 0 <= pid < 8 -> allocate_surface_slot pid rts id c s = Some (h, c', s') -> gen_step c c'.
Proof.
  intros Hc Hp H. unfold allocate_surface_slot in H.
  destruct (surface_retain id s) as [[b s1]|]; [|done]. cbn [mbind option_bind] in H.
  destruct b; cbn [negb] in H; [|injection H as _ <- _; by apply gen_step_refl].
  destruct (allocate_slot _ _ _ _ _) as [[h1 c1]|] eqn:Ea; [|done]. cbn [mbind option_bind] in H.
  apply (allocate_slot_gen c pid _ _ _ h1 c1 Hc Hp) in Ea.
  destruct (h1 =? U64_MAX); [|by injection H as _ <- _].
  destruct (surface_release id s1) as [[b2 s2]|]; [|done]. by injection H as _ <- _.
Qed.

Lemma close_all_gen a c s pid c' s' :
  linked a c s -> 0 <= pid -> capabilities_close_all pid c s = Some (c', s') -> gen_step c c'.
Proof.
  intros Hl Hp. unfold capabilities_close_all, kProcessLimit.
  destruct ((pid =? 0) || (8 <=? pid)) eqn:E; [intros [= <- <-]; by apply gen_step_refl|]. b2p.
  destruct (for_up_inv (fun j cs => (exists a', linked a' cs.1 cs.2) /\ gen_step c cs.1 /\
      forall r, j <= r -> slot_at cs.1 pid r = slot_at c pid r) 8 0 (close_step pid) (c, s))
    as ([c1 s1] & -> & (a1 & Hl1) & Hgen & _).
  - cbn. split; [by exists a|]. split; [by apply gen_step_refl|done].
  - intros slot [c1 s1] Hslot ((a1 & Hl1) & Hgen & Hrest). cbn [fst snd] in *.
    destruct (close_step_ok a1 c1 s1 pid slot Hl1 ltac:(lia) ltac:(lia)) as (c2 & s2 & a2 & -> & Hl2 & _ & Hc2).
    exists (c2, s2). split; [done|]. cbn [fst snd]. split; [by exists a2|].
    destruct Hc2 as [->| ->]; [|split; [done|]; intros; apply Hrest; lia].
    pose proof (linked_caps _ _ _ Hl1) as Hc1.
    destruct (slot_in c1 pid slot Hc1 ltac:(lia) ltac:(lia)) as [e1 He1].
    assert (He0 : slot_at c pid slot = Some e1) by (rewrite <- Hrest; [done|lia]).
    split.
    + intros p r e He. rewrite (slot_closed c1 pid slot e1) by done.
      destruct (decide (p = pid /\ r = slot)) as [[-> ->]|]; [|by apply Hgen].
      rewrite He0 in He. injection He as <-. eexists. split; [done|]. by right.
    + intros r Hr. rewrite (slot_closed c1 pid slot e1) by done.
      rewrite decide_False by lia. apply Hrest. lia.
  - cbn [mbind option_bind fst snd] in *. destruct (aset _ _ _) as [l|]; [|done].
    intros [= <- <-]. exact Hgen.
Qed.

Lemma cap_run_gen a c s op c' s' :
  linked a c s -> cap_op_ok op -> cap_run op c s = Some (c', s') -> gen_step c c'.
Proof.
  intros Hl Hok H. pose proof (linked_caps _ _ _ Hl) as Hc.
  assert (Hrefl : gen_step c c) by by apply gen_step_refl.
  assert (Hden : gen_step c (deny c)) by by apply gen_step_refl.
  destruct op; cbn [cap_run cap_op_ok] in *; peel H.
  - unfold capability_assign_services, kProcessLimit in *. destruct v as [b v]. injection H as <- <-.
    destruct (_ || _); [by injection Hv as _ <-|]. peel Hv. injection Hv as _ <-. by apply gen_step_refl.
  - unfold capability_open, kProcessLimit in *. destruct v as [b v]. injection H as <- <-.
    destruct (_ || _ || _) eqn:E; [by injection Hv as _ <-|]. b2p. peel Hv.
    destruct (negb _); [by injection Hv as _ <-|]. eapply allocate_slot_gen; [done| |exact Hv]. lia.
  - unfold capability_open_file, kProcessLimit in *. destruct v as [b v]. injection H as <- <-.
    destruct (_ || _ || _) eqn:E; [by injection Hv as _ <-|]. b2p.
    eapply allocate_slot_gen; [done| |exact Hv]. lia.
  - unfold capability_open_ipc, kProcessLimit in *. destruct v as [b v]. injection H as <- <-.
    destruct (_ || _ || _ || _ || _) eqn:E; [by injection Hv as _ <-|]. b2p. peel Hv.
    destruct (negb _); [by injection Hv as _ <-|]. eapply allocate_slot_gen; [done| |exact Hv]. lia.
  - unfold capability_open_surface, kProcessLimit in *. destruct v as [[b v] s1]. injection H as <- <-.
    destruct (_ || _ || _ || _ || _) eqn:E; [by injection Hv as _ <- _|]. b2p. peel Hv.
    destruct (negb _); [by injection Hv as _ <- _|]. eapply allocate_surface_gen; [done| |exact Hv]. lia.
  - unfold capability_grant, kProcessLimit in *. destruct v as [[b v] s1]. injection H as <- <-.
    destruct (_ || _ || _) eqn:E; [by injection Hv as _ <- _|]. b2p.
    destruct (resolve_object_ok c src h rts Hc ltac:(lia)) as (r & c1 & Heq & Hr). rewrite Heq in Hv.
    cbn [mbind option_bind] in Hv. destruct r as [[svc obj]|].
    2: { destruct Hr as [-> _]. injection Hv as _ <- _. by apply gen_step_refl. }
    destruct Hr as [-> _]. destruct (_ || _); [by injection Hv as _ <- _|]. peel Hv.
    destruct (negb _); [by injection Hv as _ <- _|]. eapply allocate_surface_gen; [done| |exact Hv]. lia.
  - unfold capability_resolve in Hv. destruct v as [b v]. injection H as <- <-.
    destruct (resolve_object_ok c pid h rt Hc Hok) as (r & c1 & Heq & Hr). rewrite Heq in Hv.
    cbn [mbind option_bind] in Hv. injection Hv as _ <-.
    destruct r as [[svc obj]|]; by destruct Hr as [-> _].
  - destruct v as [[b v] s1]. injection H as <- <-.
    destruct (capability_close_ok a c s pid h Hl Hok) as (b1 & c1 & s2 & a1 & Heq & _ & _ & Ht & Hf).
    rewrite Hv in Heq. injection Heq as -> -> ->.
    destruct b1; [|by rewrite Hf].
    destruct (Ht eq_refl) as (slot & gen & g & _ & _ & _ & -> & _). by apply closed_gen.
  - by eapply close_all_gen.
Qed.

(** A run of system calls. *)
Fixpoint cap_runs (ops : list cap_op) (c : caps) (s : surfaces) : option (caps * surfaces) :=
  match ops with
  | [] => Some (c, s)
  | op :: ops => '(c, s) ← cap_run op c s; cap_runs ops c s
  end.

Lemma cap_runs_age ops : forall a c s pid slot gen k e c' s',
  linked a c s -> Forall cap_op_ok ops -> 1 <= gen < 65536 ->
  slot_at c pid slot = Some e -> e.(generation) = age gen k ->
  cap_runs ops c s = Some (c', s') ->
  exists e' k', slot_at c' pid slot = Some e' /\ e'.(generation) = age gen k' /\
    k <= k' <= k + Z.of_nat (length ops).
Proof.
  induction ops as [|op ops IH]; intros a c s pid slot gen k e c' s' Hl Hok Hg He Hage Hrun.
  { injection Hrun as <- <-. exists e, k. cbn. split_and!; try done; lia. }
  cbn [cap_runs] in Hrun. inversion_clear Hok as [|? ? Hop Hops].
  destruct (cap_run_ok a c s op Hl Hop) as (a1 & c1 & s1 & Heq & Hl1).
  pose proof (cap_run_gen a c s op c1 s1 Hl Hop Heq pid slot e He) as (e1 & He1 & Hstep).
  rewrite Heq in Hrun. cbn [mbind option_bind] in Hrun.
  destruct Hstep as [Hs|Hs].
  - destruct (IH a1 c1 s1 pid slot gen k e1 c' s') as (e' & k' & ? & ? & ?); try done; [congruence|].
    exists e', k'. cbn [length]. split_and!; try done; lia.
  - rewrite Hage, next_generation_age in Hs by done.
    destruct (IH a1 c1 s1 pid slot gen (k + 1) e1 c' s') as (e' & k' & ? & ? & ?); try done.
    exists e', k'. cbn [length]. split_and!; try done; lia.
Qed.

(** C22. A closed handle stays dead: after [capability_close] succeeds, no run of
    up to 65533 further system calls, whatever they are and however often its
    slot is reused, makes the handle resolve again for any process. *)
Theorem closed_handle_stays_dead a c s pid h c1 s1 ops c2 s2 :
  linked a c s -> 0 <= h -> capability_close pid h c s = Some (true, c1, s1) ->
  Forall cap_op_ok ops -> Z.of_nat (length ops) < 65534 -> cap_runs ops c1 s1 = Some (c2, s2) ->
  forall q g, ~ holds c2 q h g.
Proof.
  intros Hl Hh Hclose Hok Hlen Hrun q g (sl & ge & Hq & Hsl & Eh' & Hat2).
  pose proof (linked_caps _ _ _ Hl) as Hc.
  destruct (capability_close_ok a c s pid h Hl Hh) as (b & c1' & s1' & a1 & Heq & Hl1 & _ & Ht & _).
  rewrite Hclose in Heq. injection Heq as <- <- <-.
  destruct (Ht eq_refl) as (slot & gen & g' & Eh & Hp & Hat & -> & _).
  destruct (slot_bounds _ _ _ _ Hc Hat) as [_ Hs0].
  rewrite Eh in Eh'. apply make_handle_inj in Eh' as (<- & <- & <-); try done; try lia.
  pose proof (caps_generations _ Hc _ _ _ Hat) as Hg. cbn in Hg.
  assert (Hg1 : next_generation gen = age gen 1).
  { replace gen with (age gen 0) at 1 by (unfold age; zlia). by apply next_generation_age. }
  assert (He1 : slot_at (closed_at c pid slot) pid slot =
            Some (Entry false (next_generation gen) no_cap)).
  { rewrite (slot_closed c pid slot (Entry true gen g')) by done. by rewrite decide_True. }
  destruct (cap_runs_age ops a1 _ s1 pid slot gen 1 _ c2 s2 Hl1 Hok Hg He1 Hg1 Hrun)
    as (e' & k & He' & Hge & Hk).
  rewrite Hat2 in He'. injection He' as <-. cbn in Hge. symmetry in Hge. revert Hge.
  apply age_ne; [done|]. lia.
Qed.

End linked.

(** Resolution is exact: a handle resolves for a process, with given rights,
    exactly when it is the packed name of one of that process's open slots, of
    the slot's current generation, whose rights include those asked for; it then
    yields the slot's service and object. No other number resolves. *)
Theorem resolve_exact c caller h req svc obj :
  caps_wf c -> 0 <= h ->
  (exists c', capability_resolve_object caller h req c = Some (Some (svc, obj), c')) <->
  exists slot gen rts, h = make_handle caller slot gen /\ 0 <= caller < 8 /\ 0 <= slot < 8 /\
    slot_at c caller slot = Some (Entry true gen (Cap svc rts obj)) /\ Z.land rts req = req.
Proof.
  intros Hc Hh. destruct (resolve_object_ok c caller h req Hc Hh) as (r & c1 & -> & Hr). split.
  - intros (c' & [= -> ->]). destruct Hr as (_ & [sv rt ob] & (slot & gen & Hp & Hs & Eh & Hat) & Hrt & -> & ->).
    by exists slot, gen, rt.
  - intros (slot & gen & rts & Eh & Hp & Hs & Hat & Hrt).
    assert (Hg : holds c caller h (Cap svc rts obj)) by (by exists slot, gen).
    destruct r as [[sv ob]|]; [|by destruct Hr as [_ Hr]; destruct (Hr _ Hg)].
    destruct Hr as (-> & g & (slot' & gen' & _ & Hs' & Eh' & Hat') & _ & -> & ->).
    rewrite Eh in Eh'. apply make_handle_inj in Eh' as (_ & <- & <-); try done.
    rewrite Hat in Hat'. injection Hat' as <-. by exists c.
Qed.

(** ** Initialisation and concrete runs *)

Lemma capabilities_init_wf : caps_wf capabilities_init.
Proof.
  split; [done|by repeat constructor|done|].
  intros p s e He. unfold slot_at in He. destruct (capabilities_init.(tables).[p]) as [t|] eqn:Ht; [|done].
  cbn [mbind option_bind] in He. apply aget_Some in Ht as [_ Ht], He as [_ He].
  change capabilities_init.(tables) with (replicate 8 (slot_table_new no_cap 8)) in Ht.
  apply lookup_replicate_1 in Ht as [-> _]. unfold slot_table_new in He.
  apply lookup_replicate_1 in He as [-> _]. cbn. lia.
Qed.

Definition no_pins : Z -> Z := fun _ => 0.
Lemma no_pins_nonneg id : 0 <= no_pins id.
Proof. done. Qed.

Lemma initially_linked n : Z.of_nat n < 4294967296 ->
  linked no_pins (replicate n 0) capabilities_init (fresh n).
Proof.
  intros Hn. split; [apply capabilities_init_wf|by apply fresh_wf| |].
  - intros id o Hid [_ Ho]%aget_Some. unfold fresh in Ho. cbn [objects] in Ho.
    apply lookup_replicate_1 in Ho as [-> _]. reflexivity.
  - intros p r e He. pose proof (slot_bounds _ _ _ _ capabilities_init_wf He) as [Hp Hr].
    unfold slot_at in He. destruct (capabilities_init.(tables).[p]) as [t|] eqn:Ht; [|done].
    cbn [mbind option_bind] in He. apply aget_Some in Ht as [_ Ht], He as [_ He].
    change capabilities_init.(tables) with (replicate 8 (slot_table_new no_cap 8)) in Ht.
    apply lookup_replicate_1 in Ht as [-> _]. unfold slot_table_new in He.
    by apply lookup_replicate_1 in He as [-> _].
Qed.

(** Creating a surface keeps the link: no handle names it yet. *)
Lemma create_linked pins a c s owner w h r s' :
  (forall id, 0 <= pins id) -> linked pins a c s -> 0 <= owner -> 0 <= w -> 0 <= h ->
  surface_create owner w h s = Some (r, s') -> linked pins a c s'.
Proof.
  intros Hpins [H1 H2 H3 H4] Ho Hw Hh Hc.
  destruct (surface_create_ok a s owner w h H2 Ho Hw Hh) as (r1 & s1 & Heq & Hwf & Hr).
  rewrite Hc in Heq. injection Heq as <- <-. split; try done.
  destruct r as [id|]; [|by destruct Hr as [-> _]].
  destruct Hr as (o & Hl & _ & _ & _ & Hro & _ & (o0 & Hs0 & Ha0) & _ & _ & Hkeep).
  intros k u Hk Hu. pose proof (live_slot _ _ _ _ Hwf Hl) as Hb.
  destruct (aget_in s.(objects) (k - 1)) as [u0 Hu0]; [rewrite (surf_slots _ _ H2); lia|].
  rewrite <- (H3 k u0 Hk Hu0). destruct (decide (k = id)) as [->|Hne].
  - destruct Hl as [Hl _]. rewrite Hl in Hu. injection Hu as <-. rewrite Hs0 in Hu0. injection Hu0 as <-.
    by rewrite Hro, (surf_free _ _ H2 _ _ Hs0 Ha0).
  - destruct (active u0) eqn:Eu0.
    + destruct (Hkeep (k - 1) u0 (conj Hu0 Eu0)) as [_ [Hu' _]]. congruence.
    + rewrite (surf_free _ _ H2 _ _ Hu0 Eu0). destruct (active u) eqn:Eu; [|by rewrite (surf_free _ _ Hwf _ _ Hu Eu)].
      exfalso. unfold surface_create in Hc. rewrite (surf_arena _ _ H2) in Hc.
      destruct (_ || _ || _ || _ || _); [done|]. pose proof (list_find_inactive s) as Hfind.
      destruct (list_find _ _) as [[i x]|]; [|done]. destruct (find_offset _ _ _ _ _); [|done].
      destruct Hfind as [Hix _]. pose proof (aget_bound _ _ _ Hix) as Hib.
      rewrite aset_in in Hc by done. cbn [mbind option_bind] in Hc. injection Hc as Eid <-.
      cbn [objects count_up set_objects] in Hu. rewrite aget_insert in Hu by done.
      rewrite decide_False in Hu by lia. congruence.
Qed.

(** One process with a surface and a handle on it, shared with another. *)
Definition cap_demo_surf : surfaces := default demo (snd <$> surface_create 1 2 2 demo).
Definition cap_demo : caps * surfaces :=
  default (capabilities_init, demo) (cap_runs [CapOpenSurface 1 1 7] capabilities_init cap_demo_surf).
Definition demo_handle : Z := make_handle 1 0 1.

Lemma demo_created : surface_create 1 2 2 demo = Some (Some 1, cap_demo_surf).
Proof. vm_compute. reflexivity. Qed.

Lemma demo_linked : exists a, linked no_pins a cap_demo.1 cap_demo.2.
Proof.
  pose proof (create_linked no_pins _ capabilities_init demo 1 2 2 (Some 1) cap_demo_surf
    no_pins_nonneg (initially_linked 2048 eq_refl) ltac:(lia) ltac:(lia) ltac:(lia) demo_created) as Hl.
  destruct (cap_run_ok no_pins no_pins_nonneg _ capabilities_init cap_demo_surf (CapOpenSurface 1 1 7) Hl)
    as (a & c & s & Heq & Hl'); [cbn; lia|]. exists a.
  assert (cap_demo = (c, s)) as ->; [|exact Hl'].
  unfold cap_demo. cbn [cap_runs]. rewrite Heq. reflexivity.
Qed.

Lemma demo_holds : holds cap_demo.1 1 demo_handle (Cap 9 7 1).
Proof. exists 0, 1. split; [lia|]. split; [lia|]. split; [done|]. vm_compute. reflexivity. Qed.

Lemma handles_count_references_witness :
  exists a' c' s', cap_run (CapGrant 1 demo_handle 2 4) cap_demo.1 cap_demo.2 = Some (c', s') /\
    surf_wf a' s' /\ caps_wf c'.
Proof.
  destruct demo_linked as [a Hl].
  destruct (handles_count_references no_pins no_pins_nonneg a cap_demo.1 cap_demo.2
    (CapGrant 1 demo_handle 2 4) Hl) as (a' & c' & s' & H1 & H2 & H3 & _).
  - cbn. split; [vm_compute; discriminate|lia].
  - exists a', c', s'. split; [exact H1|]. split; [exact H2|exact H3].
Defined.

Lemma demo_closes :
  exists c' s', capability_close 1 demo_handle cap_demo.1 cap_demo.2 = Some (true, c', s').
Proof. eexists _, _. vm_compute. reflexivity. Qed.

Lemma last_handle_reclaims_witness :
  exists c' s', capability_close 1 demo_handle cap_demo.1 cap_demo.2 = Some (true, c', s') /\
    s'.(objects).[0] = Some no_surface.
Proof.
  destruct demo_linked as [a Hl]. destruct demo_closes as (c' & s' & Hc). exists c', s'.
  split; [exact Hc|].
  assert (Hone : refs_to 1 cap_demo.1 = 1) by (vm_compute; reflexivity).
  assert (Hpos : 0 <= demo_handle) by (vm_compute; discriminate).
  exact (proj1 (last_handle_reclaims no_pins no_pins_nonneg a cap_demo.1 cap_demo.2 1 demo_handle
    (Cap 9 7 1) c' s' Hl Hpos demo_holds eq_refl ltac:(discriminate) Hone eq_refl Hc)).
Defined.

Lemma grant_attenuates_witness :
  exists r c' s', capability_grant 1 demo_handle 2 4 cap_demo.1 cap_demo.2 = Some (r, c', s') /\
    r <> U64_MAX /\ holds c' 2 r (Cap 9 4 1).
Proof.
  destruct demo_linked as [a Hl].
  assert (Hg : exists r c' s', capability_grant 1 demo_handle 2 4 cap_demo.1 cap_demo.2 = Some (r, c', s') /\ r = make_handle 2 0 1)
    by (eexists _, _, _; split; [vm_compute; reflexivity|vm_compute; reflexivity]).
  destruct Hg as (r & c' & s' & Hg & Hr). exists r, c', s'. split; [exact Hg|].
  assert (Hne : r <> U64_MAX) by (subst r; vm_compute; discriminate). split; [exact Hne|].
  destruct (grant_attenuates no_pins a cap_demo.1 cap_demo.2 1 demo_handle 2 4 r c' s' Hl
    ltac:(vm_compute; discriminate) ltac:(lia) Hg Hne) as (g & Hsrc & _ & Hdst & _).
  assert (g = Cap 9 7 1) as ->; [|exact Hdst].
  destruct Hsrc as (sl & ge & _ & Hsl & Eh & Hat). unfold demo_handle in Eh.
  apply make_handle_inj in Eh as (_ & <- & <-); [|lia..]. vm_compute in Hat. by injection Hat as <-.
Defined.

Lemma closed_handle_stays_dead_witness :
  exists c1 s1 c2 s2, capability_close 1 demo_handle cap_demo.1 cap_demo.2 = Some (true, c1, s1) /\
    cap_runs [CapOpenFile 1 5] c1 s1 = Some (c2, s2) /\ forall q g, ~ holds c2 q demo_handle g.
Proof.
  destruct demo_linked as [a Hl].
  destruct demo_closes as (c1 & s1 & Hc).
  destruct (capability_close_ok no_pins no_pins_nonneg a cap_demo.1 cap_demo.2 1 demo_handle Hl
    ltac:(vm_compute; discriminate)) as (b & c1' & s1' & a1 & Heq & Hl1 & _).
  rewrite Hc in Heq. injection Heq as <- <- <-.
  destruct (cap_run_ok no_pins no_pins_nonneg a1 c1 s1 (CapOpenFile 1 5) Hl1 ltac:(cbn; lia))
    as (a2 & c2 & s2 & Hr & _).
  assert (Hrun : cap_runs [CapOpenFile 1 5] c1 s1 = Some (c2, s2)) by (cbn [cap_runs]; rewrite Hr; reflexivity).
  exists c1, s1, c2, s2.
  split; [exact Hc|]. split; [exact Hrun|].
  apply (closed_handle_stays_dead no_pins no_pins_nonneg a cap_demo.1 cap_demo.2 1 demo_handle c1 s1
    [CapOpenFile 1 5] c2 s2 Hl ltac:(vm_compute; discriminate) Hc); [|cbn; lia|exact Hrun].
  constructor; [cbn; lia|constructor].
Defined.

Lemma resolve_exact_witness :
  exists c', capability_resolve_object 1 demo_handle 4 cap_demo.1 = Some (Some (9, 1), c').
Proof.
  destruct demo_linked as [a Hl].
  apply (resolve_exact cap_demo.1 1 demo_handle 4 9 1 (linked_caps _ _ _ _ Hl) ltac:(vm_compute; discriminate)).
  exists 0, 1, 7. split; [done|]. split; [lia|]. split; [lia|]. split; [vm_compute; reflexivity|reflexivity].
Defined.
