(* ===== verification/Ring.v ===== *)
(** Ring buffers as abstract queues: the input queue and the IPC channels keep
    their messages in fixed arrays with wrapping indices; [ring_holds] relates
    such an array to the list of its messages, oldest first. *)

From S2P Require Import Prelude.

Section ring.
Context {A : Type}.
Implicit Types (buf : list A) (l : list A).

(** [buf], of size [n], holds [l] starting at index [r]. *)
Record ring_holds (n : Z) buf (r : Z) l : Prop := {
  ring_size : Z.of_nat (length buf) = n;
  ring_start : 0 <= r < n;
  ring_fits : Z.of_nat (length l) <= n;
  ring_cells : forall k x, l !! k = Some x -> buf.[(r + Z.of_nat k) mod n] = Some x;
}.

Lemma ring_empty n buf r : Z.of_nat (length buf) = n -> 0 <= r < n -> ring_holds n buf r [].
Proof. intros. split; try done; cbn; lia. Qed.

(** Storing at the write index appends. *)
Lemma ring_push n buf r l x :
  ring_holds n buf r l -> Z.of_nat (length l) < n ->
  ring_holds n (<[Z.to_nat ((r + Z.of_nat (length l)) mod n) := x]> buf) r (l ++ [x]).
Proof.
  intros [Hs Hr Hf Hc] Hl. split; try done.
  - by rewrite length_insert.
  - rewrite length_app. cbn. lia.
  - intros k y Hk.
    assert (0 <= (r + Z.of_nat (length l)) mod n < n) by (apply Z.mod_pos_bound; lia).
    rewrite aget_insert by lia. apply lookup_app_Some in Hk as [Hk|[Hge Hk]].
    + pose proof (lookup_lt_Some _ _ _ Hk) as Hlt. rewrite decide_False; [by apply Hc|].
      intros E. assert (Z.of_nat k = Z.of_nat (length l)); [|lia].
      pose proof (Z.div_mod (r + Z.of_nat k) n ltac:(lia)) as H1.
      pose proof (Z.div_mod (r + Z.of_nat (length l)) n ltac:(lia)) as H2. rewrite E in H1.
      set (d1 := (r + Z.of_nat k) / n) in *. set (d2 := (r + Z.of_nat (length l)) / n) in *.
      assert (n * (d1 - d2) = Z.of_nat k - Z.of_nat (length l)) by lia.
      assert (d1 - d2 = 0) by nia. nia.
    + destruct (k - length l)%nat as [|i] eqn:Ek; [|done]. injection Hk as <-.
      rewrite decide_True; [done|]. do 2 f_equal. lia.
Qed.

(** Reading at the read index takes the oldest. *)
Lemma ring_pop n buf r x l :
  ring_holds n buf r (x :: l) -> buf.[r] = Some x /\ ring_holds n buf ((r + 1) mod n) l.
Proof.
  intros [Hs Hr Hf Hc]. cbn [length] in Hf. split.
  - specialize (Hc 0%nat x eq_refl). by rewrite Z.add_0_r, Z.mod_small in Hc by lia.
  - split; try done; [apply Z.mod_pos_bound; lia|lia|].
    intros k y Hk. specialize (Hc (S k) y Hk). rewrite Zplus_mod_idemp_l.
    by replace (r + 1 + Z.of_nat k) with (r + Z.of_nat (S k)) by lia.
Qed.

(** Rewriting the newest message in place. *)
Lemma ring_set_last n buf r l x y :
  ring_holds n buf r (l ++ [x]) ->
  ring_holds n (<[Z.to_nat ((r + Z.of_nat (length l)) mod n) := y]> buf) r (l ++ [y]).
Proof.
  intros [Hs Hr Hf Hc]. rewrite length_app in Hf. cbn [length] in Hf.
  apply ring_push; [|lia]. split; try done; [lia|].
  intros k z Hk. apply Hc. by apply lookup_app_l_Some.
Qed.

Lemma ring_last n buf r l x :
  ring_holds n buf r (l ++ [x]) -> buf.[(r + Z.of_nat (length l)) mod n] = Some x.
Proof. intros [Hs Hr Hf Hc]. apply Hc. by rewrite lookup_app_r, Nat.sub_diag. Qed.

End ring.
