(* ===== verification/Input.v ===== *)
(** The input queue of [src/input.c]: a ring of 128 events with coalesced mouse
    motion, and one waiting process. Delivery to a waiter involves user memory
    and the scheduler, and is in [Kernel.v]. *)

From S2P Require Import Prelude.

Definition INPUT_QUEUE_CAPACITY : Z := 128.
Definition INPUT_KEY_DOWN : Z := 1.
Definition INPUT_MOUSE_MOVE : Z := 3.
Definition INPUT_MOUSE_SCROLL : Z := 6.

(** ** Data *)

Record input_event := Event {
  timestamp : Z; type : Z; code : Z; ev_x : Z; ev_y : Z; delta_x : Z; delta_y : Z;
  value : Z; modifiers : Z
}.
Definition no_event : input_event := Event 0 0 0 0 0 0 0 0 0.

Record input_waiter := IWaiter { iw_pid : Z; iw_address : Z; iw_active : bool }.

Record input_state := Input {
  queue : list input_event; read_index : Z; write_index : Z;
  dropped_events : Z; userspace_deliveries : Z; coalesced_events : Z;
  waiter : input_waiter
}.

Definition set_waiter (w : input_waiter) (s : input_state) : input_state :=
  Input s.(queue) s.(read_index) s.(write_index) s.(dropped_events) s.(userspace_deliveries)
    s.(coalesced_events) w.
Definition set_queue (q : list input_event) (r w : Z) (s : input_state) : input_state :=
  Input q r w s.(dropped_events) s.(userspace_deliveries) s.(coalesced_events) s.(waiter).
Definition count_input (d u c : Z) (s : input_state) : input_state :=
  Input s.(queue) s.(read_index) s.(write_index) (u64 (s.(dropped_events) + d))
    (u64 (s.(userspace_deliveries) + u)) (u64 (s.(coalesced_events) + c)) s.(waiter).

(** ** Operations *)

Definition input_init (s : input_state) : input_state :=
  Input s.(queue) 0 0 0 0 0 (IWaiter 0 0 false).

(** The end of [input_publish]: coalesce into the newest event, or append. *)
Definition input_enqueue (ev : input_event) (s : input_state) : option (bool * input_state) :=
  let append :=
    let next := (s.(write_index) + 1) mod INPUT_QUEUE_CAPACITY in
    if next =? s.(read_index) then Some (false, count_input 1 0 0 s) else
    q ← s.(queue).[s.(write_index) <- ev];
    Some (true, set_queue q s.(read_index) next s) in
  if (ev.(type) =? INPUT_MOUSE_MOVE) && negb (s.(read_index) =? s.(write_index)) then
    let previous := (s.(write_index) + INPUT_QUEUE_CAPACITY - 1) mod INPUT_QUEUE_CAPACITY in
    p ← s.(queue).[previous];
    if p.(type) =? INPUT_MOUSE_MOVE then
      q ← s.(queue).[previous <- ev];
      Some (true, count_input 0 0 1 (set_queue q s.(read_index) s.(write_index) s))
    else append
  else append.

Definition input_poll (s : input_state) : option (option input_event * input_state) :=
  if s.(read_index) =? s.(write_index) then Some (None, s) else
  ev ← s.(queue).[s.(read_index)];
  Some (Some ev, set_queue s.(queue) ((s.(read_index) + 1) mod INPUT_QUEUE_CAPACITY) s.(write_index) s).

Definition input_wait (pid address : Z) (s : input_state) : bool * input_state :=
  if (pid =? 0) || (address =? 0) || s.(waiter).(iw_active) then (false, s)
  else (true, set_waiter (IWaiter pid address true) s).

Definition input_cancel_wait (pid : Z) (s : input_state) : bool * input_state :=
  if negb s.(waiter).(iw_active) || negb (s.(waiter).(iw_pid) =? pid) then (false, s)
  else (true, set_waiter (IWaiter s.(waiter).(iw_pid) s.(waiter).(iw_address) false) s).

Definition input_discard_pending (s : input_state) : input_state :=
  set_queue s.(queue) s.(write_index) s.(write_index) s.

Definition input_pending (s : input_state) : Z :=
  let pending := s.(write_index) - s.(read_index) in
  if pending <? 0 then pending + INPUT_QUEUE_CAPACITY else pending.
