(* ===== verification/InputSpec.v ===== *)
(** The input ring implements a bounded queue with motion coalescing. *)

From S2P Require Import Prelude Ring Input.

(** ** The abstract queue *)

Definition is_move (ev : input_event) : bool := ev.(type) =? INPUT_MOUSE_MOVE.

(** Publishing: a motion event replaces a motion event that is the newest; any
    other event is appended while fewer than 127 are queued, else dropped. *)
Definition spec_publish (ev : input_event) (q : list input_event) : bool * list input_event :=
  match list.last q with
  | Some p => if is_move ev && is_move p then (true, removelast q ++ [ev])
              else if Z.of_nat (length q) <? 127 then (true, q ++ [ev]) else (false, q)
  | None => (true, [ev])
  end.

(** ** The simulation relation *)

Record input_rel (s : input_state) (q : list input_event) : Prop := {
  rel_ring : ring_holds 128 s.(queue) s.(read_index) q;
  rel_write : s.(write_index) = (s.(read_index) + Z.of_nat (length q)) mod 128;
  rel_room : Z.of_nat (length q) < 128;
}.

Lemma rel_pending s q : input_rel s q -> input_pending s = Z.of_nat (length q).
Proof.
  intros [[_ Hr _ _] Hw Hl]. unfold input_pending, INPUT_QUEUE_CAPACITY. rewrite Hw.
  destruct (Z.ltb_spec ((read_index s + Z.of_nat (length q)) mod 128 - read_index s) 0); zlia.
Qed.

Lemma rel_empty s q : input_rel s q -> (s.(read_index) =? s.(write_index)) = bool_decide (q = []).
Proof.
  intros [[_ Hr _ _] Hw Hl]. rewrite Hw. case_bool_decide as E.
  - subst q. cbn. apply Z.eqb_eq. zlia.
  - destruct q as [|x q]; [done|]. cbn [length] in *. apply Z.eqb_neq. zlia.
Qed.

Lemma append_ok s q ev :
  input_rel s q ->
  let next := (s.(write_index) + 1) mod INPUT_QUEUE_CAPACITY in
  exists s', (if next =? s.(read_index) then Some (false, count_input 1 0 0 s) else
     q' ← s.(queue).[s.(write_index) <- ev]; Some (true, set_queue q' s.(read_index) next s)) =
    Some (Z.of_nat (length q) <? 127, s') /\
    input_rel s' (if Z.of_nat (length q) <? 127 then q ++ [ev] else q).
Proof.
  intros [Hring Hw Hl] next. pose proof (ring_start _ _ _ _ Hring) as Hr.
  pose proof (ring_size _ _ _ _ Hring) as Hsz.
  assert (Hnext : next = (s.(read_index) + Z.of_nat (length q) + 1) mod 128)
    by (unfold next, INPUT_QUEUE_CAPACITY; rewrite Hw; zlia).
  destruct (Z.ltb_spec (Z.of_nat (length q)) 127) as [Hlt|Hge].
  - rewrite (proj2 (Z.eqb_neq next _)) by zlia.
    rewrite aset_in by (rewrite Hw, Hsz; zlia). cbn [mbind option_bind].
    eexists. split; [done|]. split; cbn.
    + rewrite Hw. apply ring_push; [done|lia].
    + rewrite Hnext, length_app. cbn. f_equal. lia.
    + rewrite length_app. cbn. lia.
  - rewrite (proj2 (Z.eqb_eq next _)) by zlia. eexists. split; [done|]. by split.
Qed.

Lemma enqueue_refines s q ev : input_rel s q ->
  exists s', input_enqueue ev s = Some ((spec_publish ev q).1, s') /\ input_rel s' (spec_publish ev q).2.
Proof.
  intros Hrel. pose proof Hrel as [Hring Hw Hl]. pose proof (ring_start _ _ _ _ Hring) as Hr.
  pose proof (ring_size _ _ _ _ Hring) as Hsz.
  pose proof (append_ok s q ev Hrel) as Happ. unfold input_enqueue, spec_publish.
  rewrite (rel_empty s q Hrel). fold (is_move ev).
  destruct q as [|x q _] using rev_ind.
  { rewrite bool_decide_true by done. rewrite andb_false_r. exact Happ. }
  rewrite bool_decide_false by (by destruct q). cbn [negb]. rewrite andb_true_r.
  rewrite list.last_snoc. destruct (is_move ev) eqn:Em; cbn [andb]; [|by destruct (_ <? 127)].
  assert (Hprev : (s.(write_index) + INPUT_QUEUE_CAPACITY - 1) mod INPUT_QUEUE_CAPACITY =
            (s.(read_index) + Z.of_nat (length q)) mod 128).
  { rewrite Hw, length_app. cbn [length]. unfold INPUT_QUEUE_CAPACITY. zlia. }
  rewrite Hprev, (ring_last _ _ _ _ _ Hring). cbn [mbind option_bind]. fold (is_move x).
  destruct (is_move x); [|by destruct (_ <? 127)].
  rewrite aset_in by (rewrite Hsz; zlia). cbn [mbind option_bind fst snd].
  eexists. split; [done|]. rewrite removelast_last. split; cbn.
  + eapply ring_set_last. exact Hring.
  + rewrite Hw, !length_app. done.
  + rewrite length_app in *. exact Hl.
Qed.

Lemma poll_refines s q : input_rel s q -> exists s', input_poll s = Some (list.head q, s') /\ input_rel s' (list.tail q).
Proof.
  intros Hrel. pose proof Hrel as [Hring Hw Hl]. pose proof (ring_start _ _ _ _ Hring) as Hr.
  unfold input_poll. rewrite (rel_empty s q Hrel). case_bool_decide as E.
  { subst q. by exists s. }
  destruct q as [|x q]; [done|]. destruct (ring_pop _ _ _ _ _ Hring) as [Hx Hring'].
  rewrite Hx. cbn [mbind option_bind]. eexists. split; [done|]. split; cbn in *; [done| |lia].
  rewrite Hw. unfold INPUT_QUEUE_CAPACITY. zlia.
Qed.

(** C32. The input queue is a faithful bounded FIFO with coalescing: publishing on
    the ring does exactly what [spec_publish] does on the list of pending events
    (one motion burst keeps only its newest position, and no button, key or
    scroll event is ever overwritten or reordered), polling takes the oldest
    event, and no index leaves the ring. *)
Theorem input_queue_refines s q :
  input_rel s q ->
  (forall ev, exists s', input_enqueue ev s = Some ((spec_publish ev q).1, s') /\
     input_rel s' (spec_publish ev q).2) /\
  (exists s', input_poll s = Some (list.head q, s') /\ input_rel s' (list.tail q)) /\
  input_rel (input_discard_pending s) [] /\
  input_pending s = Z.of_nat (length q).
Proof.
  intros Hrel. split; [intros ev; by apply enqueue_refines|]. split; [by apply poll_refines|].
  split; [|by apply rel_pending]. destruct Hrel as [Hring Hw Hl]. pose proof (ring_start _ _ _ _ Hring) as Hr.
  pose proof (ring_size _ _ _ _ Hring) as Hsz. assert (0 <= s.(write_index) < 128) by (rewrite Hw; zlia).
  split; cbn; [by apply ring_empty| |lia]. zlia.
Qed.

(** ** A concrete run *)

Definition motion (x : Z) : input_event := Event 0 INPUT_MOUSE_MOVE 0 x 0 0 0 0 0.
Definition click : input_event := Event 0 4 1 0 0 0 0 1 0.
Definition idle_input : input_state :=
  Input (replicate 128 no_event) 127 127 0 0 0 (IWaiter 0 0 false).

Lemma idle_input_rel : input_rel idle_input [].
Proof. split; cbn; [by apply ring_empty|done|lia]. Qed.

Lemma input_queue_refines_witness :
  exists s1 s2, input_enqueue (motion 5) idle_input = Some (true, s1) /\
    input_enqueue (motion 6) s1 = Some (true, s2) /\ input_rel s2 [motion 6].
Proof.
  destruct (proj1 (input_queue_refines idle_input [] idle_input_rel) (motion 5)) as (s1 & H1 & R1).
  destruct (proj1 (input_queue_refines s1 [motion 5] R1) (motion 6)) as (s2 & H2 & R2).
  exists s1, s2. split; [exact H1|]. split; [exact H2|exact R2].
Defined.
