(* ===== verification/LittleEndian.v ===== *)
(** Little-endian fields of packed structures read through a cast pointer, with
    every byte access checked. *)

From S2P Require Import Prelude.

(** An [n]-byte little-endian field at offset [i]. *)
Fixpoint read_le (n : nat) (a : list Z) (i : Z) : option Z :=
  match n with
  | O => Some 0
  | S n' => b ← a.[i]; r ← read_le n' a (i + 1); Some (b + 256 * r)
  end.
Definition read_u16 : list Z -> Z -> option Z := read_le 2.
Definition read_u32 : list Z -> Z -> option Z := read_le 4.
Definition read_u64 : list Z -> Z -> option Z := read_le 8.

(** The bytes of a little-endian field. *)
Fixpoint le_bytes (n : nat) (v : Z) : list Z :=
  match n with O => [] | S n' => v mod 256 :: le_bytes n' (v / 256) end.

Lemma pow256_S n : 256 ^ Z.of_nat (S n) = 256 * 256 ^ Z.of_nat n.
Proof. rewrite Nat2Z.inj_succ, Z.pow_succ_r by lia. done. Qed.

Lemma read_le_ok n a i :
  0 <= i -> i + Z.of_nat n <= Z.of_nat (length a) -> bytes_ok a ->
  exists v, read_le n a i = Some v /\ 0 <= v < 256 ^ Z.of_nat n.
Proof.
  intros Hi Hl Hb. revert i Hi Hl. induction n as [|n IH]; intros i Hi Hl; cbn [read_le].
  { exists 0. split; [done|]. cbn. lia. }
  destruct (aget_in a i) as [b Hg]; [lia|]. rewrite Hg. cbn [mbind option_bind].
  destruct (IH (i + 1)) as (v & -> & Hv); [lia..|]. cbn [mbind option_bind].
  eexists. split; [done|]. pose proof (aget_Forall _ _ _ _ Hb Hg) as Hbyte. cbn in Hbyte.
  unfold is_byte in Hbyte. rewrite pow256_S. lia.
Qed.

Lemma read_le_bytes n a i v :
  0 <= v < 256 ^ Z.of_nat n -> 0 <= i -> take n (drop (Z.to_nat i) a) = le_bytes n v ->
  read_le n a i = Some v.
Proof.
  revert i v. induction n as [|n IH]; intros i v Hv Hi Ht; cbn [read_le le_bytes] in *.
  { f_equal. cbn in Hv. lia. }
  destruct (drop (Z.to_nat i) a) as [|b r] eqn:Ed; [done|]. cbn [take] in Ht. injection Ht as Hb Hr.
  assert (a !! Z.to_nat i = Some b) as Hg.
  { rewrite <- (Nat.add_0_r (Z.to_nat i)), <- lookup_drop, Ed. done. }
  unfold aget. rewrite (proj2 (Z.leb_le 0 i)) by lia. rewrite Hg. cbn [mbind option_bind].
  rewrite (IH (i + 1) (v / 256)).
  - cbn [mbind option_bind]. subst b. f_equal. pose proof (Z.div_mod v 256). lia.
  - rewrite pow256_S in Hv. split; [apply Z.div_pos; lia|]. apply Z.div_lt_upper_bound; lia.
  - lia.
  - replace (Z.to_nat (i + 1)) with (S (Z.to_nat i)) by lia.
    rewrite (drop_S _ _ _ Hg) in Ed. by injection Ed as ->.
Qed.

Lemma le_bytes_length n v : length (le_bytes n v) = n.
Proof. revert v. induction n; intros v; cbn; auto. Qed.

Lemma le_bytes_ok n v : bytes_ok (le_bytes n v).
Proof.
  revert v. induction n as [|n IH]; intros v; cbn; constructor; [|apply IH].
  unfold is_byte. apply Z.mod_pos_bound. lia.
Qed.

Lemma read_u16_ok a i :
  0 <= i -> i + 2 <= Z.of_nat (length a) -> bytes_ok a -> exists v, read_u16 a i = Some v /\ is_u16 v.
Proof. intros. apply (read_le_ok 2); [lia|cbn; lia|done]. Qed.
Lemma read_u32_ok a i :
  0 <= i -> i + 4 <= Z.of_nat (length a) -> bytes_ok a -> exists v, read_u32 a i = Some v /\ is_u32 v.
Proof. intros. apply (read_le_ok 4); [lia|cbn; lia|done]. Qed.
Lemma read_u64_ok a i :
  0 <= i -> i + 8 <= Z.of_nat (length a) -> bytes_ok a -> exists v, read_u64 a i = Some v /\ is_u64 v.
Proof. intros. apply (read_le_ok 8); [lia|cbn; lia|done]. Qed.
