(* ===== verification/Elf64.v ===== *)
(** The executable loader of [src/elf64.c]: validation of a static x86-64 ELF
    image, loading into one contiguous buffer, and loading into scattered
    physical frames. An image is its bytes; its size is their number. The
    result of a check is [option (option _)]: the outer [None] is an access
    outside the image, the inner one a [return false]. *)

From stdpp Require Import gmap.
From S2P Require Import Prelude LittleEndian.

Definition ELFCLASS64 : Z := 2.
Definition ELFDATA2LSB : Z := 1.
Definition ET_EXEC : Z := 2.
Definition EM_X86_64 : Z := 62.
Definition PT_LOAD : Z := 1.
Definition PF_X : Z := 1.
Definition HEADER_BYTES : Z := 64.    (* sizeof(struct elf64_header) *)
Definition PROGRAM_BYTES : Z := 56.   (* sizeof(struct elf64_program_header) *)

(** ** Data *)

Record elf64_header := Header {
  ident : list Z; h_type : Z; machine : Z; version : Z; entry : Z; program_offset : Z;
  header_size : Z; program_entry_size : Z; program_count : Z
}.
Record elf64_program_header := Program {
  p_type : Z; p_flags : Z; p_offset : Z; virtual_address : Z; file_size : Z; memory_size : Z
}.
Record elf64_layout := Layout { virtual_base : Z; virtual_end : Z; entry_point : Z }.

(** The cast of the image to a header, field by field. *)
Definition read_header (image : list Z) : option elf64_header :=
  i0 ← image.[0]; i1 ← image.[1]; i2 ← image.[2]; i3 ← image.[3];
  i4 ← image.[4]; i5 ← image.[5]; i6 ← image.[6];
  ty ← read_u16 image 16; mc ← read_u16 image 18; ver ← read_u32 image 20;
  en ← read_u64 image 24; po ← read_u64 image 32;
  hs ← read_u16 image 52; pes ← read_u16 image 54; pc ← read_u16 image 56;
  Some (Header [i0; i1; i2; i3; i4; i5; i6] ty mc ver en po hs pes pc).

Definition read_program (image : list Z) (at_ : Z) : option elf64_program_header :=
  ty ← read_u32 image at_; fl ← read_u32 image (at_ + 4); off ← read_u64 image (at_ + 8);
  va ← read_u64 image (at_ + 16); fs ← read_u64 image (at_ + 32); ms ← read_u64 image (at_ + 40);
  Some (Program ty fl off va fs ms).

Definition range_fits (offset length total : Z) : bool :=
  (offset <=? total) && (length <=? total - offset).

(** The rejection test shared by the two loaders. *)
Definition bad_header (h : elf64_header) : bool :=
  negb (bool_decide (h.(ident) = [127; 69; 76; 70; ELFCLASS64; ELFDATA2LSB; 1]))
  || negb (h.(h_type) =? ET_EXEC) || negb (h.(machine) =? EM_X86_64) || negb (h.(version) =? 1)
  || negb (h.(header_size) =? HEADER_BYTES) || negb (h.(program_entry_size) =? PROGRAM_BYTES)
  || (h.(program_count) =? 0).

(** Program header [index]. *)
Definition program_at (image : list Z) (h : elf64_header) (index : Z) : option elf64_program_header :=
  read_program image (h.(program_offset) + index * PROGRAM_BYTES).

Definition executable (p : elf64_program_header) : bool := negb (Z.land p.(p_flags) PF_X =? 0).

(** ** elf64_executable_layout *)

(** One round: the running (base, end, executable_entry). *)
Definition layout_step (image : list Z) (h : elf64_header) (p : elf64_program_header)
    (st : Z * Z * bool) : option (Z * Z * bool) :=
  let '(base, end_, exec) := st in
  if negb (p.(p_type) =? PT_LOAD) then Some st else
  if (p.(memory_size) <? p.(file_size))
     || negb (range_fits p.(p_offset) p.(file_size) (Z.of_nat (length image)))
     || (U64_MAX - p.(memory_size) <? p.(virtual_address)) then None else
  let segment_end := p.(virtual_address) + p.(memory_size) in
  Some (if p.(virtual_address) <? base then p.(virtual_address) else base,
        if end_ <? segment_end then segment_end else end_,
        exec || (executable p && (p.(virtual_address) <=? h.(entry)) && (h.(entry) <? segment_end))).

Fixpoint layout_loop (n : nat) (index : Z) (image : list Z) (h : elf64_header) (st : Z * Z * bool)
  : option (option (Z * Z * bool)) :=
  match n with
  | O => Some (Some st)
  | S n' =>
      p ← program_at image h index;
      match layout_step image h p st with
      | None => Some None
      | Some st => layout_loop n' (index + 1) image h st
      end
  end.

Definition elf64_executable_layout (image : option (list Z)) : option (option elf64_layout) :=
  match image with
  | None => Some None
  | Some image =>
      let image_size := Z.of_nat (length image) in
      if image_size <? HEADER_BYTES then Some None else
      h ← read_header image;
      if bad_header h then Some None else
      if negb (range_fits h.(program_offset) (h.(program_count) * PROGRAM_BYTES) image_size)
      then Some None else
      r ← layout_loop (Z.to_nat h.(program_count)) 0 image h (U64_MAX, 0, false);
      match r with
      | None => Some None
      | Some (base, end_, exec) =>
          if (base =? U64_MAX) || (end_ <=? base) || negb exec then Some None
          else Some (Some (Layout base end_ h.(entry)))
      end
  end.

(** ** elf64_load_executable *)

Record elf64_target := Target { t_base : Z; t_memory : list Z }.

(** One program header: the memory and (loaded, executable_entry). *)
Definition load_segment (image : list Z) (h : elf64_header) (base : Z) (p : elf64_program_header)
    (memory : list Z) (flags : bool * bool) : option (option (list Z * (bool * bool))) :=
  if negb (p.(p_type) =? PT_LOAD) then Some (Some (memory, flags)) else
  if (p.(memory_size) <? p.(file_size))
     || negb (range_fits p.(p_offset) p.(file_size) (Z.of_nat (length image)))
     || (p.(virtual_address) <? base) then Some None else
  let destination := p.(virtual_address) - base in
  if negb (range_fits destination p.(memory_size) (Z.of_nat (length memory))) then Some None else
  memory ← copy_into memory destination image p.(p_offset) (Z.to_nat p.(file_size));
  Some (Some (memory, (true, flags.2 || (executable p && (p.(virtual_address) <=? h.(entry))
                                          && (h.(entry) <? u64 (p.(virtual_address) + p.(memory_size))))))).

Fixpoint load_loop (n : nat) (index : Z) (image : list Z) (h : elf64_header) (base : Z)
    (memory : list Z) (flags : bool * bool) : option (option (list Z * (bool * bool))) :=
  match n with
  | O => Some (Some (memory, flags))
  | S n' =>
      p ← program_at image h index;
      r ← load_segment image h base p memory flags;
      match r with
      | None => Some None
      | Some (memory, flags) => load_loop n' (index + 1) image h base memory flags
      end
  end.

(** The loaded memory and the entry point; the inner [None] is a failure. *)
Definition elf64_load_executable (image : option (list Z)) (target : option elf64_target)
  : option (option (list Z * Z)) :=
  match image, target with
  | Some img, Some t =>
      let memory_size := Z.of_nat (length t.(t_memory)) in
      let limit := u64 (t.(t_base) + memory_size) in
      l ← elf64_executable_layout (Some img);
      match l with
      | None => Some None
      | Some l =>
          if (l.(virtual_base) <? t.(t_base)) || (limit <? l.(virtual_end)) then Some None else
          h ← read_header img;
          if bad_header h
             || negb (range_fits h.(program_offset) (h.(program_count) * PROGRAM_BYTES)
                        (Z.of_nat (length img))) then Some None else
          memory ← fill t.(t_memory) 0 0 (length t.(t_memory));
          r ← load_loop (Z.to_nat h.(program_count)) 0 img h t.(t_base) memory (false, false);
          match r with
          | None => Some None
          | Some (memory, (loaded, exec)) =>
              if negb loaded || negb exec || (h.(entry) <? t.(t_base)) || (limit <=? h.(entry))
              then Some None else Some (Some (memory, h.(entry)))
          end
      end
  | _, _ => Some None
  end.

(** ** elf64_load_executable_pages *)

(** Physical memory by byte; storing outside it is a fault. *)
Definition store (address v : Z) (m : gmap Z Z) : option (gmap Z Z) :=
  _ ← m !! address; Some (<[address := v]> m).

Fixpoint zero_bytes (n : nat) (address : Z) (m : gmap Z Z) : option (gmap Z Z) :=
  match n with
  | O => Some m
  | S n' => m ← store address 0 m; zero_bytes n' (address + 1) m
  end.

(** The first loop: every frame is aligned and cleared. *)
Fixpoint clear_frames (frames : list Z) (m : gmap Z Z) : option (option (gmap Z Z)) :=
  match frames with
  | [] => Some (Some m)
  | f :: frames =>
      if (f =? 0) || negb (Z.land f 4095 =? 0) then Some None else
      m ← zero_bytes 4096 f m; clear_frames frames m
  end.

(** One byte of the virtual image: page [offset / 4096] of the frame list. *)
Definition store_paged (frames : list Z) (offset v : Z) (m : gmap Z Z) : option (gmap Z Z) :=
  f ← frames.[offset / 4096]; store (f + offset mod 4096) v m.

Fixpoint copy_paged (n : nat) (frames : list Z) (destination : Z) (image : list Z) (source : Z)
    (m : gmap Z Z) : option (gmap Z Z) :=
  match n with
  | O => Some m
  | S n' =>
      v ← image.[source]; m ← store_paged frames destination v m;
      copy_paged n' frames (destination + 1) image (source + 1) m
  end.

Fixpoint pages_loop (n : nat) (index : Z) (image : list Z) (h : elf64_header) (base : Z)
    (frames : list Z) (m : gmap Z Z) : option (gmap Z Z) :=
  match n with
  | O => Some m
  | S n' =>
      p ← program_at image h index;
      m ← (if negb (p.(p_type) =? PT_LOAD) then Some m else
           copy_paged (Z.to_nat p.(file_size)) frames (u64 (p.(virtual_address) - base)) image p.(p_offset) m);
      pages_loop n' (index + 1) image h base frames m
  end.

Definition elf64_load_executable_pages (image : option (list Z)) (base : Z) (frames : list Z)
    (m : gmap Z Z) : option (option (gmap Z Z * Z)) :=
  match image with
  | None => Some None
  | Some img =>
      let page_count := Z.of_nat (length frames) in
      let capacity := page_count * 4096 in
      if (page_count =? 0) || (U64_MAX / 4096 <? page_count) || (U64_MAX - capacity <? base)
      then Some None else
      l ← elf64_executable_layout (Some img);
      match l with
      | None => Some None
      | Some l =>
          if (l.(virtual_base) <? base) || (base + capacity <? l.(virtual_end)) then Some None else
          r ← clear_frames frames m;
          match r with
          | None => Some None
          | Some m =>
              h ← read_header img;
              m ← pages_loop (Z.to_nat h.(program_count)) 0 img h base frames m;
              Some (Some (m, l.(entry_point)))
          end
      end
  end.
