(* ===== verification/Elf64Spec.v ===== *)
(** Correctness of the ELF loader: it never reads outside the image nor writes
    outside its target, accepts exactly the well-formed executables, and builds
    the virtual image the program headers describe, in one buffer or scattered
    over physical frames alike. *)

From stdpp Require Import gmap.
From S2P Require Import Prelude LittleEndian Elf64.

(** ** Reading the tables *)

Lemma read_header_ok image :
  bytes_ok image -> 64 <= Z.of_nat (length image) ->
  exists h, read_header image = Some h /\ is_u16 h.(program_count) /\ is_u64 h.(program_offset) /\
    is_u64 h.(entry).
Proof.
  intros Hb Hl. unfold read_header.
  do 7 (match goal with |- context [image.[?i]] =>
    let v := fresh "v" in let H := fresh in destruct (aget_in image i) as [v H]; [lia|];
    rewrite H; cbn [mbind option_bind] end).
  repeat (match goal with
  | |- context [read_u16 image ?i] =>
      let H := fresh in let v := fresh in
      destruct (read_u16_ok image i ltac:(lia) ltac:(lia) Hb) as (v & -> & H); cbn [mbind option_bind]
  | |- context [read_u32 image ?i] =>
      let H := fresh in let v := fresh in
      destruct (read_u32_ok image i ltac:(lia) ltac:(lia) Hb) as (v & -> & H); cbn [mbind option_bind]
  | |- context [read_u64 image ?i] =>
      let H := fresh in let v := fresh in
      destruct (read_u64_ok image i ltac:(lia) ltac:(lia) Hb) as (v & -> & H); cbn [mbind option_bind]
  end).
  eexists. split; [done|]. done.
Qed.

(** What the bytes of a file must be for its header to be that of a static little-endian
    x86-64 executable, by the ELF-64 format: magic number, 64-bit class, least
    significant byte first, version 1; type 2 (executable), machine 62 (x86-64); a
    header of 64 and program headers of 56 bytes, at least one of them. *)
Record header_bytes (image : list Z) (h : elf64_header) : Prop := {
  hb_ident : take 7 image = [127; 69; 76; 70; 2; 1; 1];
  hb_type : read_u16 image 16 = Some 2;
  hb_machine : read_u16 image 18 = Some 62;
  hb_version : read_u32 image 20 = Some 1;
  hb_entry : read_u64 image 24 = Some h.(entry);
  hb_table : read_u64 image 32 = Some h.(program_offset);
  hb_size : read_u16 image 52 = Some 64;
  hb_entry_size : read_u16 image 54 = Some 56;
  hb_count : read_u16 image 56 = Some h.(program_count);
  hb_some : h.(program_count) <> 0
}.

Lemma take_seven {A} (l : list A) a b c d e f g :
  l.[0] = Some a -> l.[1] = Some b -> l.[2] = Some c -> l.[3] = Some d -> l.[4] = Some e -> l.[5] = Some f -> l.[6] = Some g ->
  take 7 l = [a; b; c; d; e; f; g].
Proof.
  destruct l as [|i0 [|i1 [|i2 [|i3 [|i4 [|i5 [|i6 l]]]]]]]; intros H0 H1 H2 H3 H4 H5 H6; try discriminate.
  change (Some i0 = Some a) in H0. change (Some i1 = Some b) in H1. change (Some i2 = Some c) in H2. change (Some i3 = Some d) in H3.
  change (Some i4 = Some e) in H4. change (Some i5 = Some f) in H5. change (Some i6 = Some g) in H6. by simplify_eq.
Qed.

(** The rejection test accepts exactly such headers. *)
Lemma bad_header_spec image h : read_header image = Some h -> bad_header h = false <-> header_bytes image h.
Proof.
  unfold read_header. intros H. peel H. injection H as <-.
  assert (Htake : take 7 image = [v; v0; v1; v2; v3; v4; v5]) by (by apply take_seven).
  unfold bad_header, ELFCLASS64, ELFDATA2LSB, ET_EXEC, EM_X86_64, HEADER_BYTES, PROGRAM_BYTES.
  cbn [ident h_type machine version header_size program_entry_size program_count]. split.
  - intros H. b2p. apply bool_decide_eq_true in H. split; cbn [entry program_offset program_count]; congruence.
  - intros [B1 B2 B3 B4 _ _ B7 B8 _ B10]. cbn [program_count] in B10.
    rewrite bool_decide_eq_true_2 by congruence. cbn [negb orb]. repeat (rewrite (proj2 (Z.eqb_eq _ _)) by congruence; cbn [negb orb]).
    by apply Z.eqb_neq.
Qed.

(** The program header at offset [i]: where the ELF-64 format puts each field. *)
Record program_bytes (image : list Z) (i : Z) (p : elf64_program_header) : Prop := {
  pb_type : read_u32 image i = Some p.(p_type);
  pb_flags : read_u32 image (i + 4) = Some p.(p_flags);
  pb_offset : read_u64 image (i + 8) = Some p.(p_offset);
  pb_address : read_u64 image (i + 16) = Some p.(virtual_address);
  pb_file : read_u64 image (i + 32) = Some p.(file_size);
  pb_memory : read_u64 image (i + 40) = Some p.(memory_size)
}.

Lemma read_program_spec image i p : read_program image i = Some p <-> program_bytes image i p.
Proof.
  unfold read_program. split.
  - intros H. peel H. injection H as <-. by split.
  - intros [H1 H2 H3 H4 H5 H6]. rewrite H1, H2, H3, H4, H5, H6. by destruct p.
Qed.

(** The fields of a program header are machine words. *)
Record program_ok (p : elf64_program_header) : Prop := {
  po_offset : is_u64 p.(p_offset);
  po_address : is_u64 p.(virtual_address);
  po_file : is_u64 p.(file_size);
  po_memory : is_u64 p.(memory_size);
}.

Lemma read_program_ok image i :
  bytes_ok image -> 0 <= i -> i + 56 <= Z.of_nat (length image) ->
  exists p, read_program image i = Some p /\ program_ok p.
Proof.
  intros Hb Hi Hl. unfold read_program.
  repeat (match goal with
  | |- context [read_u32 image ?i] =>
      let H := fresh in let v := fresh in
      destruct (read_u32_ok image i ltac:(lia) ltac:(lia) Hb) as (v & -> & H); cbn [mbind option_bind]
  | |- context [read_u64 image ?i] =>
      let H := fresh in let v := fresh in
      destruct (read_u64_ok image i ltac:(lia) ltac:(lia) Hb) as (v & -> & H); cbn [mbind option_bind]
  end).
  eexists. split; [done|]. by split.
Qed.

(** [ps] are the program headers from [index] on. *)
Definition programs (image : list Z) (h : elf64_header) (index : Z) (ps : list elf64_program_header) : Prop :=
  forall k p, ps !! k = Some p -> program_at image h (index + Z.of_nat k) = Some p.

Definition table_fits (image : list Z) (h : elf64_header) : Prop :=
  range_fits h.(program_offset) (h.(program_count) * PROGRAM_BYTES) (Z.of_nat (length image)) = true.

Lemma programs_exist image h n index :
  bytes_ok image -> 0 <= h.(program_offset) -> 0 <= index ->
  h.(program_offset) + (index + Z.of_nat n) * 56 <= Z.of_nat (length image) ->
  exists ps, length ps = n /\ programs image h index ps /\ Forall program_ok ps.
Proof.
  intros Hb Ho. revert index. induction n as [|n IH]; intros index Hi Hl.
  { exists []. split; [done|]. split; [by intros k p|constructor]. }
  destruct (read_program_ok image (h.(program_offset) + index * PROGRAM_BYTES) Hb) as (p & Hp & Hok);
    [unfold PROGRAM_BYTES; lia..|].
  destruct (IH (index + 1)) as (ps & Hlen & Hps & Hall); [lia..|].
  exists (p :: ps). split; [cbn; lia|]. split; [|by constructor].
  intros [|k] q Hq.
  - injection Hq as <-. unfold program_at. by rewrite Z.add_0_r.
  - specialize (Hps k q Hq). by replace (index + Z.of_nat (S k)) with (index + 1 + Z.of_nat k) by lia.
Qed.

Lemma programs_cons image h index p ps :
  programs image h index (p :: ps) ->
  program_at image h index = Some p /\ programs image h (index + 1) ps.
Proof.
  intros H. split; [specialize (H 0%nat p eq_refl); by rewrite Z.add_0_r in H|].
  intros k q Hq. specialize (H (S k) q Hq).
  by replace (index + 1 + Z.of_nat k) with (index + Z.of_nat (S k)) by lia.
Qed.

(** ** The layout, declaratively *)

Definition is_load (p : elf64_program_header) : bool := p.(p_type) =? 1.

(** A loadable segment that stays inside the file and the address space. *)
Definition segment_ok (size : Z) (p : elf64_program_header) : Prop :=
  is_load p = true ->
  p.(file_size) <= p.(memory_size) /\ p.(p_offset) + p.(file_size) <= size /\
  p.(virtual_address) + p.(memory_size) <= U64_MAX.

#[global] Instance segment_ok_dec size p : Decision (segment_ok size p).
Proof. unfold segment_ok. apply _. Defined.

(** Bit 0 of the flags is the permission to execute. *)
Definition holds_entry (en : Z) (p : elf64_program_header) : bool :=
  is_load p && Z.odd p.(p_flags) && (p.(virtual_address) <=? en) &&
  (en <? p.(virtual_address) + p.(memory_size)).
Lemma executable_odd p : executable p = Z.odd p.(p_flags).
Proof.
  unfold executable, PF_X. change 1 with (Z.ones 1). rewrite Z.land_ones by lia. change (2 ^ 1) with 2.
  rewrite Zmod_odd. by destruct (Z.odd _).
Qed.

Definition low_of (ps : list elf64_program_header) (b : Z) : Z :=
  foldr (fun p acc => if is_load p then Z.min p.(virtual_address) acc else acc) b ps.
Definition high_of (ps : list elf64_program_header) (e : Z) : Z :=
  foldr (fun p acc => if is_load p then Z.max (p.(virtual_address) + p.(memory_size)) acc else acc) e ps.

Lemma range_fits_spec a b t : range_fits a b t = true <-> a <= t /\ a + b <= t.
Proof.
  unfold range_fits. split; [intros H; b2p; lia|]. intros [].
  by rewrite (proj2 (Z.leb_le _ _)), (proj2 (Z.leb_le _ _)) by lia.
Qed.

Lemma layout_step_ok image h p b e x :
  program_ok p ->
  layout_step image h p (b, e, x) =
    if decide (segment_ok (Z.of_nat (length image)) p)
    then Some (low_of [p] b, high_of [p] e, x || holds_entry h.(entry) p) else None.
Proof.
  intros Hok. unfold layout_step, low_of, high_of, holds_entry. rewrite executable_odd. cbn [foldr]. change (p.(p_type) =? PT_LOAD) with (is_load p).
  destruct (is_load p) eqn:El; cbn [negb andb].
  2: { rewrite decide_True by (intros Hl; congruence). by rewrite orb_false_r. }
  destruct Hok. unfold is_u64, U64_MAX in *.
  destruct (_ || _ || _) eqn:Er.
  - rewrite decide_False; [done|]. intros Hs. destruct (Hs El) as (H1 & H2 & H3).
    assert (range_fits p.(p_offset) p.(file_size) (Z.of_nat (length image)) = true) as Hrf
      by (apply range_fits_spec; lia).
    rewrite Hrf in Er. unfold U64_MAX in H3. cbn [negb] in Er. rewrite orb_false_r in Er.
    apply orb_true_iff in Er as [Er|Er]; apply Z.ltb_lt in Er; lia.
  - b2p. rewrite decide_True by (intros _; unfold U64_MAX; apply range_fits_spec in H1; lia).
    f_equal. f_equal. f_equal.
    + destruct (Z.ltb_spec p.(virtual_address) b); lia.
    + destruct (Z.ltb_spec e (p.(virtual_address) + p.(memory_size))); lia.
Qed.

Lemma low_of_cons p ps b : low_of ps (low_of [p] b) = low_of (p :: ps) b.
Proof.
  unfold low_of. cbn [foldr]. induction ps as [|q ps IH]; cbn [foldr]; [done|]. rewrite IH.
  destruct (is_load q), (is_load p); lia.
Qed.

Lemma high_of_cons p ps e : high_of ps (high_of [p] e) = high_of (p :: ps) e.
Proof.
  unfold high_of. cbn [foldr]. induction ps as [|q ps IH]; cbn [foldr]; [done|]. rewrite IH.
  destruct (is_load q), (is_load p); lia.
Qed.

Lemma layout_loop_ok image h ps : forall index b e x,
  programs image h index ps -> Forall program_ok ps ->
  layout_loop (length ps) index image h (b, e, x) =
    Some (if decide (Forall (segment_ok (Z.of_nat (length image))) ps)
          then Some (low_of ps b, high_of ps e, x || existsb (holds_entry h.(entry)) ps) else None).
Proof.
  induction ps as [|p ps IH]; intros index b e x Hps Hok; cbn [length layout_loop].
  { rewrite decide_True by constructor. cbn. by rewrite orb_false_r. }
  apply programs_cons in Hps as [Hp Hps]. inversion_clear Hok as [|? ? Hpo Hpso].
  rewrite Hp. cbn [mbind option_bind]. rewrite layout_step_ok by done.
  destruct (decide (segment_ok (Z.of_nat (length image)) p)) as [Hseg|Hseg].
  - rewrite (IH (index + 1)) by done. f_equal.
    destruct (decide (Forall _ ps)) as [Hf|Hf].
    + rewrite decide_True by by constructor. cbn [existsb].
      by rewrite <- (low_of_cons p ps), <- (high_of_cons p ps), orb_assoc.
    + rewrite decide_False; [done|]. by inversion_clear 1.
  - rewrite decide_False; [done|]. by inversion_clear 1.
Qed.

(** What an executable image is: a header and a program table whose bytes are
    those the format asks for, the table inside the file, loadable segments
    inside the file and the address space, one executable segment that holds
    the entry point. None of it is the loader's own test. *)
Definition image_of (image : list Z) (h : elf64_header) (ps : list elf64_program_header) : Prop :=
  read_header image = Some h /\ header_bytes image h /\
  h.(program_offset) + h.(program_count) * 56 <= Z.of_nat (length image) /\
  Z.of_nat (length ps) = h.(program_count) /\
  (forall k p, ps !! k = Some p -> program_bytes image (h.(program_offset) + Z.of_nat k * 56) p) /\
  Forall program_ok ps /\ Forall (segment_ok (Z.of_nat (length image))) ps /\
  existsb (holds_entry h.(entry)) ps = true.

(** The same in the terms of the loader's own tests. *)
Lemma image_parts image h ps :
  image_of image h ps <->
  read_header image = Some h /\ bad_header h = false /\ table_fits image h /\
  Z.of_nat (length ps) = h.(program_count) /\ programs image h 0 ps /\
  Forall program_ok ps /\ Forall (segment_ok (Z.of_nat (length image))) ps /\
  existsb (holds_entry h.(entry)) ps = true.
Proof.
  assert (programs image h 0 ps <->
    forall k p, ps !! k = Some p -> program_bytes image (h.(program_offset) + Z.of_nat k * 56) p) as Hp.
  { unfold programs, program_at. split; intros H k p Hk; apply read_program_spec, (H k p Hk). }
  unfold image_of, table_fits. rewrite range_fits_spec, Hp. unfold PROGRAM_BYTES. split.
  - intros (Hh & Hb & Ht & Hl & Hr). rewrite (bad_header_spec _ _ Hh). repeat split_and; try done; try lia; by apply Hr.
  - intros (Hh & Hb & Ht & Hl & Hr). rewrite <- (bad_header_spec _ _ Hh). repeat split_and; try done; try lia; by apply Hr.
Qed.

(** ... and its layout: from the lowest to the highest loaded address. *)
Definition executable_image (image : list Z) (l : elf64_layout) : Prop :=
  HEADER_BYTES <= Z.of_nat (length image) /\
  exists h ps, image_of image h ps /\
    l = Layout (low_of ps U64_MAX) (high_of ps 0) h.(entry) /\ l.(virtual_base) < l.(virtual_end).

Lemma low_of_load ps b p : p ∈ ps -> is_load p = true -> low_of ps b <= p.(virtual_address).
Proof.
  induction ps as [|q ps IH]; intros Hp Hl; [by apply elem_of_nil in Hp|].
  cbn [low_of foldr]. fold (low_of ps b). apply elem_of_cons in Hp as [<-|Hp].
  - rewrite Hl. lia.
  - specialize (IH Hp Hl). destruct (is_load q); lia.
Qed.

Lemma high_of_load ps e p :
  p ∈ ps -> is_load p = true -> p.(virtual_address) + p.(memory_size) <= high_of ps e.
Proof.
  induction ps as [|q ps IH]; intros Hp Hl; [by apply elem_of_nil in Hp|].
  cbn [high_of foldr]. fold (high_of ps e). apply elem_of_cons in Hp as [<-|Hp].
  - rewrite Hl. lia.
  - specialize (IH Hp Hl). destruct (is_load q); lia.
Qed.

Lemma high_of_max size ps e :
  Forall (segment_ok size) ps -> e <= U64_MAX -> high_of ps e <= U64_MAX.
Proof.
  intros H He. induction H as [|p ps Hp _ IH]; cbn [high_of foldr]; [done|]. fold (high_of ps e).
  destruct (is_load p) eqn:El; [|done]. specialize (Hp El). lia.
Qed.

(** The table of a large enough file with a good header. *)
Lemma table_programs image h :
  bytes_ok image -> is_u16 h.(program_count) -> is_u64 h.(program_offset) -> table_fits image h ->
  exists ps, length ps = Z.to_nat h.(program_count) /\ programs image h 0 ps /\ Forall program_ok ps.
Proof.
  intros Hb Hc Ho Ht. apply range_fits_spec in Ht. unfold is_u16, is_u64, PROGRAM_BYTES in *.
  apply programs_exist; [done|lia..].
Qed.

Lemma programs_unique image h ps qs :
  programs image h 0 ps -> programs image h 0 qs -> length ps = length qs -> ps = qs.
Proof.
  intros Hp Hq Hl. apply list_eq. intros i.
  destruct (ps !! i) as [p|] eqn:Ep, (qs !! i) as [q|] eqn:Eq; [..|done].
  - apply Hp in Ep. apply Hq in Eq. congruence.
  - apply lookup_ge_None in Eq. apply lookup_lt_Some in Ep. lia.
  - apply lookup_ge_None in Ep. apply lookup_lt_Some in Eq. lia.
Qed.

Lemma image_of_unique image h ps h' ps' :
  image_of image h ps -> image_of image h' ps' -> h = h' /\ ps = ps'.
Proof.
  intros (Hh & _ & _ & Hc & Hp & _)%image_parts (Hh' & _ & _ & Hc' & Hp' & _)%image_parts.
  rewrite Hh in Hh'. injection Hh' as <-. split; [done|]. eapply programs_unique; [done..|]. lia.
Qed.

Lemma layout_ok image :
  bytes_ok image ->
  exists r, elf64_executable_layout (Some image) = Some r /\
    forall l, r = Some l <-> executable_image image l.
Proof.
  intros Hb. unfold elf64_executable_layout, executable_image.
  destruct (Z.ltb_spec (Z.of_nat (length image)) HEADER_BYTES) as [Hs|Hs].
  { exists None. split; [done|]. intros l. split; [done|]. lia. }
  destruct (read_header_ok image Hb ltac:(unfold HEADER_BYTES in Hs; lia)) as (h & Hh & Hc & Ho & He).
  rewrite Hh. cbn [mbind option_bind].
  assert ((bad_header h || negb (range_fits h.(program_offset)
    (h.(program_count) * PROGRAM_BYTES) (Z.of_nat (length image)))) = true ->
    exists r : option elf64_layout, Some None = Some r /\ forall l, r = Some l <-> executable_image image l) as Hbad.
  { intros Hbad. exists None. split; [done|]. intros l. split; [done|].
    intros (_ & h' & ps & (Hh' & Hb' & Ht' & _)%image_parts & _). rewrite Hh in Hh'. injection Hh' as <-.
    unfold table_fits in Ht'. by rewrite Hb', Ht' in Hbad. }
  destruct (bad_header h) eqn:Hbh; [by apply Hbad|].
  destruct (negb _) eqn:Ht; [by apply Hbad|]. apply negb_false_iff in Ht.
  destruct (table_programs image h Hb Hc Ho Ht) as (ps & Hlen & Hps & Hok).
  rewrite <- Hlen, (layout_loop_ok image h ps) by done. cbn [mbind option_bind].
  assert (forall h' ps', image_of image h' ps' -> h' = h /\ ps' = ps) as Huniq.
  { intros h' ps' (Hh' & _ & _ & Hc' & Hp' & _)%image_parts. rewrite Hh in Hh'. injection Hh' as <-.
    split; [done|]. eapply programs_unique; [done..|]. lia. }
  unfold is_u16 in Hc.
  destruct (decide (Forall _ ps)) as [Hf|Hf].
  2: { exists None. split; [done|]. intros l. split; [done|]. intros (_ & h' & ps' & Hi & _).
       destruct (Huniq _ _ Hi) as [-> ->]. by destruct Hi as (_ & _ & _ & _ & _ & _ & ? & _). }
  pose proof (high_of_max _ ps 0 Hf ltac:(done)) as Hmax. cbn [orb].
  destruct (_ || _ || _) eqn:Eb.
  - exists None. split; [done|]. intros l. split; [done|]. intros (_ & h' & ps' & Hi & -> & Hlt).
    destruct (Huniq _ _ Hi) as [-> ->]. destruct Hi as (_ & _ & _ & _ & _ & _ & _ & Hen).
    rewrite Hen in Eb. cbn in Hlt, Eb. rewrite orb_false_r in Eb.
    apply orb_true_iff in Eb as [Eb|Eb]; b2p; lia.
  - b2p. eexists. split; [done|]. intros l. split.
    + intros [= <-]. split; [done|]. exists h, ps. split; [|split; [done|cbn; lia]].
      apply image_parts. repeat split_and; try done; lia.
    + intros (_ & h' & ps' & Hi & -> & Hlt). by destruct (Huniq _ _ Hi) as [-> ->].
Qed.

(** ** The image in memory *)

(** The byte the program headers put at virtual address [v]: the last loadable
    segment whose file part covers it decides, [d] where none does. *)
Definition covers (p : elf64_program_header) (v : Z) : bool :=
  is_load p && (p.(virtual_address) <=? v) && (v <? p.(virtual_address) + p.(file_size)).
Definition segment_byte (image : list Z) (ps : list elf64_program_header) (v d : Z) : Z :=
  fold_left (fun d p => if covers p v
                        then default d image.[p.(p_offset) + (v - p.(virtual_address))] else d) ps d.

(** A segment inside the target window. *)
Definition in_window (base len : Z) (p : elf64_program_header) : Prop :=
  is_load p = true ->
  base <= p.(virtual_address) /\ p.(virtual_address) + p.(memory_size) <= base + len.

Lemma in_window_all ps base len :
  base <= low_of ps U64_MAX -> high_of ps 0 <= base + len -> Forall (in_window base len) ps.
Proof.
  intros Hl Hh. apply Forall_forall. intros p Hp%list_elem_of_In Hload.
  pose proof (low_of_load ps U64_MAX p Hp Hload). pose proof (high_of_load ps 0 p Hp Hload). lia.
Qed.

Lemma load_segment_ok image h base p memory x y :
  program_ok p -> 0 <= base -> segment_ok (Z.of_nat (length image)) p ->
  in_window base (Z.of_nat (length memory)) p ->
  exists memory', load_segment image h base p memory (x, y) =
      Some (Some (memory', (x || is_load p, y || holds_entry h.(entry) p))) /\
    length memory' = length memory /\
    forall a : nat, (a < length memory)%nat ->
      memory' !! a = (fun d => segment_byte image [p] (base + Z.of_nat a) d) <$> memory !! a.
Proof.
  intros Hok Hb Hs Hw. unfold load_segment, holds_entry, segment_byte, covers. rewrite executable_odd. cbn [fold_left].
  change (p.(p_type) =? PT_LOAD) with (is_load p). destruct (is_load p) eqn:El; cbn [negb andb].
  2: { rewrite !orb_false_r. exists memory. split; [done|]. split; [done|]. intros a _.
       by destruct (memory !! a). }
  destruct (Hs El) as (Hfm & Hoff & Hend). destruct (Hw El) as (Hlo & Hhi). destruct Hok. 
  unfold is_u64, U64_MAX in *.
  rewrite (proj2 (Z.ltb_ge _ _)), (proj2 (range_fits_spec _ _ _)), (proj2 (Z.ltb_ge _ _)) by lia.
  rewrite (proj2 (range_fits_spec _ _ _)) by lia. cbn [negb orb].
  destruct (copy_into memory (p.(virtual_address) - base) image p.(p_offset) (Z.to_nat p.(file_size)))
    as [m'|] eqn:Ec.
  2: { rewrite copy_into_spec in Ec by lia. done. }
  cbn [mbind option_bind snd]. rewrite (u64_small (_ + _)) by (unfold is_u64; lia).
  rewrite orb_true_r. exists m'. split; [done|].
  split; [by eapply copy_into_length|]. intros a Ha.
  rewrite (copy_into_lookup (Z.to_nat p.(file_size)) memory (p.(virtual_address) - base) image
             p.(p_offset) m' a) by (done || lia).
  destruct (lookup_lt_is_Some_2 memory a Ha) as [d Hd]. rewrite Hd. cbn.
  destruct (decide _) as [Hin|Hout].
  - rewrite (proj2 (Z.leb_le _ _)), (proj2 (Z.ltb_lt _ _)) by lia. cbn.
    replace (p.(p_offset) + (base + Z.of_nat a - p.(virtual_address)))
      with (p.(p_offset) + (Z.of_nat a - (p.(virtual_address) - base))) by lia.
    destruct (aget_in image (p.(p_offset) + (Z.of_nat a - (p.(virtual_address) - base)))) as [v ->]; [lia|done].
  - destruct (Z.leb_spec p.(virtual_address) (base + Z.of_nat a)); cbn [andb]; [|done].
    rewrite (proj2 (Z.ltb_ge _ _)) by lia. done.
Qed.

Lemma load_loop_ok image h base ps : forall index memory x y,
  programs image h index ps -> Forall program_ok ps -> 0 <= base ->
  Forall (segment_ok (Z.of_nat (length image))) ps ->
  Forall (in_window base (Z.of_nat (length memory))) ps ->
  exists memory', load_loop (length ps) index image h base memory (x, y) =
      Some (Some (memory', (x || existsb is_load ps, y || existsb (holds_entry h.(entry)) ps))) /\
    length memory' = length memory /\
    forall a : nat, (a < length memory)%nat ->
      memory' !! a = (fun d => segment_byte image ps (base + Z.of_nat a) d) <$> memory !! a.
Proof.
  induction ps as [|p ps IH]; intros index memory x y Hps Hok Hb Hseg Hw; cbn [length load_loop existsb].
  { rewrite !orb_false_r. exists memory. split; [done|]. split; [done|]. intros a _.
    by destruct (memory !! a). }
  apply programs_cons in Hps as [Hp Hps].
  inversion_clear Hok as [|? ? Ho Hos]. inversion_clear Hseg as [|? ? Hs Hss].
  inversion_clear Hw as [|? ? Hw1 Hws]. rewrite Hp. cbn [mbind option_bind].
  destruct (load_segment_ok image h base p memory x y Ho Hb Hs Hw1) as (m1 & -> & Hl1 & Hm1).
  cbn [mbind option_bind].
  destruct (IH (index + 1) m1 (x || is_load p) (y || holds_entry h.(entry) p)) as (m2 & -> & Hl2 & Hm2);
    [done..|by rewrite Hl1|].
  exists m2. rewrite <- !orb_assoc. split; [done|]. split; [congruence|]. intros a Ha.
  rewrite Hm2 by congruence. rewrite Hm1 by done. by destruct (memory !! a).
Qed.

Lemma existsb_load en ps : existsb (holds_entry en) ps = true -> existsb is_load ps = true.
Proof.
  intros (p & Hp & He)%existsb_exists. apply existsb_exists. exists p. split; [done|].
  unfold holds_entry in He. b2p. done.
Qed.

(** The entry point lies between the ends. *)
Lemma existsb_entry en ps :
  existsb (holds_entry en) ps = true -> low_of ps U64_MAX <= en < high_of ps 0.
Proof.
  intros (p & Hp%list_elem_of_In & He)%existsb_exists. unfold holds_entry in He. b2p.
  pose proof (low_of_load ps U64_MAX p Hp ltac:(done)).
  pose proof (high_of_load ps 0 p Hp ltac:(done)). lia.
Qed.

(** [n] bytes of the virtual image from address [base] on. *)
Definition virtual_memory (image : list Z) (ps : list elf64_program_header) (base : Z) (n : nat) : list Z :=
  (fun k : nat => segment_byte image ps (base + Z.of_nat k) 0) <$> seq 0 n.

Lemma virtual_memory_lookup image ps base n (k : nat) :
  (k < n)%nat -> virtual_memory image ps base n !! k = Some (segment_byte image ps (base + Z.of_nat k) 0).
Proof. intros Hk. unfold virtual_memory. by rewrite list_lookup_fmap, lookup_seq_lt. Qed.

(** The image [image] fits a window of [len] bytes from [base] on. *)
Definition fits_window (image : list Z) (h : elf64_header) (ps : list elf64_program_header) (base len : Z) : Prop :=
  HEADER_BYTES <= Z.of_nat (length image) /\ image_of image h ps /\
  base <= low_of ps U64_MAX /\ high_of ps 0 <= base + len.

Lemma fits_layout image h ps base len :
  fits_window image h ps base len ->
  executable_image image (Layout (low_of ps U64_MAX) (high_of ps 0) h.(entry)).
Proof.
  intros (Hs & Hi & _ & _). split; [done|]. exists h, ps. split; [done|]. split; [done|]. cbn.
  destruct Hi as (_ & _ & _ & _ & _ & _ & _ & He). pose proof (existsb_entry _ _ He). lia.
Qed.

Lemma load_ok image t :
  bytes_ok image -> 0 <= t.(t_base) -> t.(t_base) + Z.of_nat (length t.(t_memory)) <= U64_MAX ->
  exists r, elf64_load_executable (Some image) (Some t) = Some r /\
    forall memory en, r = Some (memory, en) <->
      exists h ps, fits_window image h ps t.(t_base) (Z.of_nat (length t.(t_memory))) /\
        en = h.(entry) /\ memory = virtual_memory image ps t.(t_base) (length t.(t_memory)).
Proof.
  intros Hb H0 Ht. unfold elf64_load_executable.
  rewrite u64_small by (unfold is_u64, U64_MAX in *; lia).
  destruct (layout_ok image Hb) as (r & -> & Hr). cbn [mbind option_bind].
  destruct r as [l|].
  2: { exists None. split; [done|]. intros memory en. split; [done|].
       intros (h & ps & Hw & _). apply fits_layout, Hr in Hw. done. }
  destruct (proj1 (Hr l) eq_refl) as (Hs & h & ps & Hi & -> & Hlt). cbn [virtual_base virtual_end] in *.
  assert (forall h' ps' w, fits_window image h' ps' t.(t_base) w -> h' = h /\ ps' = ps) as Huniq.
  { intros h' ps' w (_ & Hi' & _). eapply image_of_unique; done. }
  destruct (_ || _) eqn:Eout.
  { exists None. split; [done|]. intros memory en. split; [done|]. intros (h' & ps' & Hw & _).
    destruct (Huniq _ _ _ Hw) as [-> ->]. destruct Hw as (_ & _ & ? & ?).
    apply orb_true_iff in Eout as [E|E]; b2p; lia. }
  b2p. pose proof (proj1 (image_parts _ _ _) Hi) as (Hh & Hbh & Htf & Hc & Hps & Hok & Hseg & He). rewrite Hh. cbn [mbind option_bind]. rewrite Hbh, Htf. cbn [negb orb].
  destruct (succeeds_fill t.(t_memory) 0 0 (length t.(t_memory))) as (z & Hz & Hzl); [lia..|].
  rewrite Hz. cbn [mbind option_bind]. rewrite <- Hc, Nat2Z.id.
  destruct (load_loop_ok image h t.(t_base) ps 0 z false false) as (m & -> & Hml & Hm); [done..| |].
  { rewrite Hzl. by apply in_window_all. }
  cbn [mbind option_bind orb]. rewrite He, (existsb_load _ _ He). cbn [negb orb].
  pose proof (existsb_entry _ _ He) as Hen.
  rewrite (proj2 (Z.ltb_ge _ _)), (proj2 (Z.leb_gt _ _)) by lia. cbn [orb].
  assert (m = virtual_memory image ps t.(t_base) (length t.(t_memory))) as ->.
  { apply list_eq_same_length with (length t.(t_memory)).
    - unfold virtual_memory. by rewrite length_fmap, length_seq.
    - congruence.
    - intros k x y Hk Hx Hy. rewrite Hm in Hx by congruence. rewrite virtual_memory_lookup in Hy by done.
      rewrite (fill_lookup (length t.(t_memory)) t.(t_memory) 0 0 z k), decide_True in Hx by (done || lia).
      cbn in Hx. congruence. }
  eexists. split; [done|]. intros memory en. split.
  - intros [= <- <-]. exists h, ps. done.
  - intros (h' & ps' & Hw & -> & ->). by destruct (Huniq _ _ _ Hw) as [-> ->].
Qed.

(** ** Scattered frames *)

(** The physical address of offset [o] of the window the frames form. *)
Definition phys (frames : list Z) (o : Z) : option Z :=
  f ← frames.[o / 4096]; Some (f + o mod 4096).
Definition window (frames : list Z) : Z := Z.of_nat (length frames) * 4096.
Definition frame_ok (f : Z) : bool := negb (f =? 0) && (Z.land f 4095 =? 0).

Lemma frame_ok_aligned f : frame_ok f = true -> f mod 4096 = 0.
Proof.
  unfold frame_ok. intros H. b2p. change 4095 with (Z.ones 12) in *. by rewrite Z.land_ones in * by lia.
Qed.

Section frames.
Context (frames : list Z) (Hnodup : NoDup frames) (Hframes : Forall (fun f => frame_ok f = true) frames).

Lemma phys_total o : 0 <= o < window frames -> is_Some (phys frames o).
Proof.
  intros Ho. unfold phys, window in *.
  destruct (aget_in frames (o / 4096)) as [f ->]; [|by eexists].
  split; [apply Z.div_pos; lia|apply Z.div_lt_upper_bound; lia].
Qed.

Lemma phys_inj o o' a : phys frames o = Some a -> phys frames o' = Some a -> o = o'.
Proof.
  unfold phys. intros H H'. peel H. peel H'. injection H as <-. injection H' as E.
  pose proof (frame_ok_aligned _ (aget_Forall _ _ _ _ Hframes Hv)) as E1.
  pose proof (frame_ok_aligned _ (aget_Forall _ _ _ _ Hframes Hv0)) as E2.
  assert (v = v0) as <- by zlia.
  apply aget_Some in Hv as [? Hv]. apply aget_Some in Hv0 as [? Hv0].
  pose proof (NoDup_lookup _ _ _ _ Hnodup Hv Hv0). zlia.
Qed.

(** What the window holds, and that every byte of it is memory. *)
Definition view (m : gmap Z Z) (o : Z) : option Z := a ← phys frames o; m !! a.
Definition mapped (m : gmap Z Z) : Prop := forall o, 0 <= o < window frames -> is_Some (view m o).
(** [m'] differs from [m] at most inside the frames. *)
Definition same_outside (m m' : gmap Z Z) : Prop :=
  forall a, (forall o, 0 <= o < window frames -> phys frames o <> Some a) -> m' !! a = m !! a.

(** [m'] is [m] with the window changed by [f]. *)
Definition updates (f : Z -> Z -> Z) (m m' : gmap Z Z) : Prop :=
  (forall o, 0 <= o < window frames -> view m' o = f o <$> view m o) /\ same_outside m m'.

Lemma updates_mapped f m m' : updates f m m' -> mapped m -> mapped m'.
Proof. intros [H _] Hm o Ho. rewrite H by done. destruct (Hm o Ho) as [v ->]. by eexists. Qed.

Lemma updates_trans f g m m1 m2 :
  updates f m m1 -> updates g m1 m2 -> updates (fun o v => g o (f o v)) m m2.
Proof.
  intros [H1 H1'] [H2 H2']. split.
  - intros o Ho. rewrite H2, H1 by done. by destruct (view m o).
  - intros a Ha. by rewrite H2', H1' by done.
Qed.

Lemma updates_id m : updates (fun _ v => v) m m.
Proof. split; [|done]. intros o _. by destruct (view m o). Qed.

Lemma updates_ext f g m m' :
  (forall o v, 0 <= o < window frames -> f o v = g o v) -> updates f m m' -> updates g m m'.
Proof.
  intros Hfg [H1 H2]. split; [|done]. intros o Ho. rewrite H1 by done.
  destruct (view m o); cbn; [by rewrite Hfg|done].
Qed.

Lemma store_window m a o v :
  0 <= o < window frames -> phys frames o = Some a -> mapped m ->
  store a v m = Some (<[a := v]> m) /\
  updates (fun o' d => if o' =? o then v else d) m (<[a := v]> m).
Proof.
  intros Ho Ha Hm. unfold store. destruct (Hm o Ho) as [d Hd]. unfold view in Hd. rewrite Ha in Hd.
  cbn [mbind option_bind] in Hd. rewrite Hd. split; [done|]. split.
  - intros o' Ho'. unfold view. destruct (phys_total o' Ho') as [a' Ha']. rewrite Ha'. cbn [mbind option_bind].
    destruct (Z.eqb_spec o' o) as [->|Hne].
    + rewrite Ha in Ha'. injection Ha' as <-. rewrite lookup_insert_eq, Hd. done.
    + rewrite lookup_insert_ne; [by destruct (m !! a')|]. intros ->. apply Hne. by eapply phys_inj.
  - intros a' Hout. apply lookup_insert_ne. intros ->. by apply (Hout o Ho).
Qed.

Lemma store_paged_ok m o v :
  0 <= o < window frames -> mapped m ->
  exists m', store_paged frames o v m = Some m' /\ updates (fun o' d => if o' =? o then v else d) m m'.
Proof.
  intros Ho Hm. destruct (phys_total o Ho) as [a Ha]. destruct (store_window m a o v Ho Ha Hm) as [Hs Hu].
  exists (<[a := v]> m). split; [|done]. unfold store_paged. unfold phys in Ha. peel Ha. injection Ha as <-.
  exact Hs.
Qed.

Lemma copy_paged_ok n : forall destination image source m,
  0 <= source -> source + Z.of_nat n <= Z.of_nat (length image) ->
  0 <= destination -> destination + Z.of_nat n <= window frames -> mapped m ->
  exists m', copy_paged n frames destination image source m = Some m' /\
    updates (fun o d => if (destination <=? o) && (o <? destination + Z.of_nat n)
                        then default d image.[source + (o - destination)] else d) m m'.
Proof.
  induction n as [|n IH]; intros d image s m Hs Hsl Hd Hdl Hm; cbn [copy_paged].
  { exists m. split; [done|]. eapply updates_ext; [|apply updates_id]. intros o v _. cbn beta.
    destruct (Z.leb_spec d o); cbn [andb]; [|done]. by rewrite (proj2 (Z.ltb_ge _ _)) by lia. }
  destruct (aget_in image s) as [v Hv]; [lia|]. rewrite Hv. cbn [mbind option_bind].
  destruct (store_paged_ok m d v) as (m1 & -> & H1); [lia|done|]. cbn [mbind option_bind].
  destruct (IH (d + 1) image (s + 1) m1) as (m2 & -> & H2); [lia..|by eapply updates_mapped|].
  exists m2. split; [done|]. eapply updates_ext; [|by eapply updates_trans]. intros o x _. cbn beta.
  destruct (Z.eqb_spec o d) as [->|Hne].
  - rewrite (proj2 (Z.leb_gt (d + 1) d)) by lia. cbn [andb].
    rewrite (proj2 (Z.leb_le _ _)), (proj2 (Z.ltb_lt _ _)) by lia. cbn [andb].
    by rewrite Z.sub_diag, Z.add_0_r, Hv.
  - replace (s + 1 + (o - (d + 1))) with (s + (o - d)) by lia.
    destruct (Z.leb_spec (d + 1) o), (Z.leb_spec d o); try lia; cbn [andb]; [|done].
    by replace (d + 1 + Z.of_nat n) with (d + Z.of_nat (S n)) by lia.
Qed.

Lemma phys_page (i : nat) f k :
  frames !! i = Some f -> 0 <= k < 4096 -> phys frames (Z.of_nat i * 4096 + k) = Some (f + k).
Proof.
  intros Hf Hk. unfold phys. replace ((Z.of_nat i * 4096 + k) / 4096) with (Z.of_nat i) by zlia.
  rewrite aget_nat, Hf. cbn. do 2 f_equal. zlia.
Qed.

Lemma zero_bytes_ok n : forall (i : nat) f k m,
  frames !! i = Some f -> 0 <= k -> k + Z.of_nat n <= 4096 -> mapped m ->
  exists m', zero_bytes n (f + k) m = Some m' /\
    updates (fun o d => if (Z.of_nat i * 4096 + k <=? o) && (o <? Z.of_nat i * 4096 + k + Z.of_nat n)
                        then 0 else d) m m'.
Proof.
  induction n as [|n IH]; intros i f k m Hf Hk Hkn Hm; cbn [zero_bytes].
  { exists m. split; [done|]. eapply updates_ext; [|apply updates_id]. intros o v _. cbn beta.
    destruct (Z.leb_spec (Z.of_nat i * 4096 + k) o); cbn [andb]; [|done].
    by rewrite (proj2 (Z.ltb_ge _ _)) by lia. }
  destruct (store_window m (f + k) (Z.of_nat i * 4096 + k) 0) as [-> H1];
    [apply lookup_lt_Some in Hf; unfold window; lia|apply phys_page; [done|lia]|done|].
  cbn [mbind option_bind]. rewrite <- Z.add_assoc.
  destruct (IH i f (k + 1) (<[f + k := 0]> m)) as (m2 & -> & H2);
    [done|lia..|by eapply updates_mapped|].
  exists m2. split; [done|]. eapply updates_ext; [|by eapply updates_trans]. intros o x _. cbn beta.
  destruct (Z.eqb_spec o (Z.of_nat i * 4096 + k)) as [->|Hne].
  - rewrite (proj2 (Z.leb_gt (Z.of_nat i * 4096 + (k + 1)) _)) by lia. cbn [andb].
    by rewrite (proj2 (Z.leb_le _ _)), (proj2 (Z.ltb_lt _ _)) by lia.
  - destruct (Z.leb_spec (Z.of_nat i * 4096 + (k + 1)) o), (Z.leb_spec (Z.of_nat i * 4096 + k) o);
      try lia; cbn [andb]; [|done].
    by replace (Z.of_nat i * 4096 + (k + 1) + Z.of_nat n) with (Z.of_nat i * 4096 + k + Z.of_nat (S n)) by lia.
Qed.

Lemma clear_frames_ok suf : forall pre m,
  frames = pre ++ suf -> mapped m ->
  exists m', clear_frames suf m = Some (Some m') /\
    updates (fun o d => if Z.of_nat (length pre) * 4096 <=? o then 0 else d) m m'.
Proof.
  induction suf as [|f suf IH]; intros pre m E Hm; cbn [clear_frames].
  { rewrite app_nil_r in E. subst pre. exists m. split; [done|].
    eapply updates_ext; [|apply updates_id]. intros o v Ho. cbn beta. unfold window in Ho.
    by rewrite (proj2 (Z.leb_gt _ _)) by lia. }
  assert (frames !! length pre = Some f) as Hf by (rewrite E; apply list_lookup_middle; done).
  pose proof (Forall_lookup_1 _ _ _ _ Hframes Hf) as Hok. cbn beta in Hok.
  unfold frame_ok in Hok. b2p. rewrite (proj2 (Z.eqb_neq f 0)) by done.
  rewrite (proj2 (Z.eqb_eq _ _)) by done. cbn [negb orb].
  destruct (zero_bytes_ok 4096 (length pre) f 0 m) as (m1 & H1 & Hu1); [done|lia|lia|done|].
  rewrite Z.add_0_r in H1. rewrite H1. cbn [mbind option_bind].
  destruct (IH (pre ++ [f]) m1) as (m2 & -> & Hu2); [by rewrite <- app_assoc|by eapply updates_mapped|].
  exists m2. split; [done|]. eapply updates_ext; [|by eapply updates_trans]. intros o x _. cbn beta.
  rewrite length_app. cbn [length].
  destruct (Z.leb_spec (Z.of_nat (length pre + 1) * 4096) o),
    (Z.leb_spec (Z.of_nat (length pre) * 4096) o); try lia.
  - rewrite (proj2 (Z.leb_le _ _)), (proj2 (Z.ltb_lt _ _)) by lia. done.
  - rewrite (proj2 (Z.leb_gt _ _)) by lia. done.
Qed.

Lemma pages_loop_ok image h base ps : forall index m,
  programs image h index ps -> Forall program_ok ps -> 0 <= base ->
  Forall (segment_ok (Z.of_nat (length image))) ps -> Forall (in_window base (window frames)) ps ->
  mapped m ->
  exists m', pages_loop (length ps) index image h base frames m = Some m' /\
    updates (fun o d => segment_byte image ps (base + o) d) m m'.
Proof.
  induction ps as [|p ps IH]; intros index m Hps Hok Hb Hseg Hw Hm; cbn [length pages_loop].
  { exists m. split; [done|]. apply updates_id. }
  apply programs_cons in Hps as [Hp Hps].
  inversion_clear Hok as [|? ? Ho Hos]. inversion_clear Hseg as [|? ? Hs Hss].
  inversion_clear Hw as [|? ? Hw1 Hws]. rewrite Hp. cbn [mbind option_bind]. change (p.(p_type) =? PT_LOAD) with (is_load p).
  assert (exists m1, (if negb (is_load p) then Some m else
    copy_paged (Z.to_nat p.(file_size)) frames (u64 (p.(virtual_address) - base)) image p.(p_offset) m)
      = Some m1 /\ updates (fun o d => segment_byte image [p] (base + o) d) m m1) as (m1 & -> & H1).
  { unfold segment_byte, covers. cbn [fold_left]. destruct (is_load p) eqn:El; cbn [negb andb].
    2: { exists m. split; [done|]. apply updates_id. }
    destruct (Hs El) as (? & ? & ?). destruct (Hw1 El) as (? & ?). destruct Ho.
    unfold is_u64, U64_MAX in *. rewrite u64_small by (unfold is_u64; lia).
    destruct (copy_paged_ok (Z.to_nat p.(file_size)) (p.(virtual_address) - base) image p.(p_offset) m)
      as (m1 & -> & Hu); [lia..|done|].
    exists m1. split; [done|]. eapply updates_ext; [|done]. intros o d Hoo. cbn beta.
    replace (base + o - p.(virtual_address)) with (o - (p.(virtual_address) - base)) by lia.
    destruct (Z.leb_spec (p.(virtual_address) - base) o), (Z.leb_spec p.(virtual_address) (base + o));
      try lia; cbn [andb]; [|done].
    destruct (Z.ltb_spec o (p.(virtual_address) - base + Z.of_nat (Z.to_nat p.(file_size)))),
      (Z.ltb_spec (base + o) (p.(virtual_address) + p.(file_size))); try lia; done. }
  cbn [mbind option_bind].
  destruct (IH (index + 1) m1) as (m2 & -> & H2); [done..|by eapply updates_mapped|].
  exists m2. split; [done|]. eapply updates_ext; [|by eapply updates_trans]. done.
Qed.
End frames.

(** Every byte of every frame is memory. *)
Definition frames_mapped (frames : list Z) (m : gmap Z Z) : Prop :=
  Forall (fun f => forall k, 0 <= k < 4096 -> is_Some (m !! (f + k))) frames.

Lemma zero_bytes_dom n : forall a m,
  (forall k, 0 <= k < Z.of_nat n -> is_Some (m !! (a + k))) ->
  exists m', zero_bytes n a m = Some m' /\ forall b, is_Some (m !! b) -> is_Some (m' !! b).
Proof.
  induction n as [|n IH]; intros a m Hm; cbn [zero_bytes]; [by exists m|].
  unfold store. destruct (Hm 0) as [d Hd]; [lia|]. rewrite Z.add_0_r in Hd. rewrite Hd. cbn [mbind option_bind].
  assert (forall b, is_Some (m !! b) -> is_Some (<[a := 0]> m !! b)) as Hi.
  { intros b Hb. destruct (decide (a = b)) as [->|]; [rewrite lookup_insert_eq; by eexists|].
    by rewrite lookup_insert_ne. }
  destruct (IH (a + 1) (<[a := 0]> m)) as (m' & -> & Hd').
  { intros k Hk. apply Hi. rewrite <- Z.add_assoc. apply Hm. lia. }
  exists m'. auto.
Qed.

Lemma clear_frames_reject frames : forall m,
  frames_mapped frames m -> ~ Forall (fun f => frame_ok f = true) frames ->
  clear_frames frames m = Some None.
Proof.
  induction frames as [|f frames IH]; intros m Hm Hbad; cbn [clear_frames]; [by destruct Hbad|].
  inversion_clear Hm as [|? ? Hf Hfs].
  destruct ((f =? 0) || negb (Z.land f 4095 =? 0)) eqn:Ef; [done|].
  destruct (zero_bytes_dom 4096 f m) as (m' & -> & Hd); [done|]. cbn [mbind option_bind].
  apply IH.
  - unfold frames_mapped in *. apply Forall_forall. intros g Hg k Hk.
    apply Hd. by apply (proj1 (Forall_forall _ _) Hfs g Hg).
  - intros Hall. apply Hbad. constructor; [|done]. unfold frame_ok. b2p. by rewrite H0, (proj2 (Z.eqb_neq _ _)).
Qed.

Lemma mapped_frames frames m : frames_mapped frames m -> mapped frames m.
Proof.
  intros Hm o Ho. unfold view. destruct (phys_total frames o Ho) as [a Ha]. rewrite Ha. cbn [mbind option_bind].
  unfold phys in Ha. peel Ha. injection Ha as <-. apply (aget_Forall _ _ _ _ Hm Hv).
  apply Z.mod_pos_bound. lia.
Qed.

(** The paged loader's contract. *)
Definition paged_image (image : list Z) (base : Z) (frames : list Z) (m m' : gmap Z Z) (en : Z) : Prop :=
  exists h ps, fits_window image h ps base (window frames) /\ en = h.(entry) /\
    (forall o, 0 <= o < window frames -> view frames m' o = Some (segment_byte image ps (base + o) 0)) /\
    same_outside frames m m'.

Lemma load_pages_ok image base frames m :
  bytes_ok image -> 0 <= base -> NoDup frames -> frames_mapped frames m -> frames <> [] ->
  base + window frames <= U64_MAX ->
  exists r, elf64_load_executable_pages (Some image) base frames m = Some r /\
    (r = None <-> ~ (Forall (fun f => frame_ok f = true) frames /\
                     exists h ps, fits_window image h ps base (window frames))) /\
    forall m' en, r = Some (m', en) -> paged_image image base frames m m' en.
Proof.
  intros Hb H0 Hnd Hm Hne Hw. unfold elf64_load_executable_pages. fold (window frames).
  assert (0 < Z.of_nat (length frames)) by (destruct frames; [done|cbn; lia]).
  rewrite (proj2 (Z.eqb_neq _ 0)), (proj2 (Z.ltb_ge (U64_MAX / 4096) _)),
    (proj2 (Z.ltb_ge (U64_MAX - _) _)) by (unfold window, U64_MAX in *; zlia). cbn [orb].
  destruct (layout_ok image Hb) as (r & -> & Hr). cbn [mbind option_bind].
  destruct r as [l|].
  2: { exists None. split; [done|]. split; [|done]. split; [|done]. intros _ (_ & h & ps & Hf).
       by apply fits_layout, Hr in Hf. }
  destruct (proj1 (Hr l) eq_refl) as (Hs & h & ps & Hi & -> & _). cbn [virtual_base virtual_end entry_point] in *.
  destruct (_ || _) eqn:Eout.
  { exists None. split; [done|]. split; [|done]. split; [|done]. intros _ (_ & h' & ps' & _ & Hi' & ? & ?).
    destruct (image_of_unique _ _ _ _ _ Hi Hi') as [-> ->]. apply orb_true_iff in Eout as [E|E]; b2p; lia. }
  b2p. destruct (decide (Forall (fun f => frame_ok f = true) frames)) as [Hok|Hbad].
  2: { rewrite (clear_frames_reject frames m Hm Hbad). cbn [mbind option_bind].
       exists None. split; [done|]. split; [|done]. split; [|done]. by intros _ []. }
  pose proof (mapped_frames _ _ Hm) as Hmap.
  destruct (clear_frames_ok frames Hnd Hok frames [] m eq_refl Hmap) as (m1 & -> & Hu1). cbn [mbind option_bind].
  pose proof (proj1 (image_parts _ _ _) Hi) as (Hh & _ & _ & Hc & Hps & Hpo & Hseg & _). rewrite Hh. cbn [mbind option_bind].
  rewrite <- Hc, Nat2Z.id.
  destruct (pages_loop_ok frames Hnd Hok image h base ps 0 m1) as (m2 & -> & Hu2);
    [done..|by apply in_window_all|by eapply updates_mapped|].
  cbn [mbind option_bind]. eexists. split; [done|].
  assert (fits_window image h ps base (window frames)) as Hf by done.
  split; [split; [done|]; intros []; split; eauto|].
  intros m' en [= <- <-]. exists h, ps. split; [done|]. split; [done|].
  destruct (updates_trans _ _ _ _ _ _ Hu1 Hu2) as [Hin Hout]. split; [|done].
  intros o Ho. rewrite Hin by done. destruct (Hmap o Ho) as [d ->]. cbn [fmap option_fmap option_map length].
  change (Z.of_nat 0 * 4096) with 0.
  by rewrite (proj2 (Z.leb_le 0 o)) by lia.
Qed.

(** ** A small executable

    One page-aligned loadable segment of four file bytes and eight bytes of
    memory at 0x400000, entered at its start. *)
Definition sample_image : list Z :=
  [127; 69; 76; 70; 2; 1; 1; 0] ++ replicate 8 0 ++ le_bytes 2 2 ++ le_bytes 2 62 ++ le_bytes 4 1
  ++ le_bytes 8 4194304 ++ le_bytes 8 64 ++ le_bytes 8 0 ++ le_bytes 4 0 ++ le_bytes 2 64
  ++ le_bytes 2 56 ++ le_bytes 2 1 ++ replicate 6 0
  ++ le_bytes 4 1 ++ le_bytes 4 5 ++ le_bytes 8 120 ++ le_bytes 8 4194304 ++ le_bytes 8 4194304
  ++ le_bytes 8 4 ++ le_bytes 8 8 ++ le_bytes 8 4096 ++ [235; 254; 144; 195].
Definition sample_layout : elf64_layout := Layout 4194304 4194312 4194304.

Lemma sample_bytes : bytes_ok sample_image.
Proof. unfold bytes_ok, is_byte. repeat (constructor; [cbv; split; [discriminate|reflexivity]|]). constructor. Qed.

Lemma sample_layout_computed : elf64_executable_layout (Some sample_image) = Some (Some sample_layout).
Proof. vm_compute. reflexivity. Qed.

Definition sample_frame : gmap Z Z := list_to_map ((fun k => (4096 + k, 7)) <$> seqZ 0 4096).

Lemma sample_frame_mapped : frames_mapped [4096] sample_frame.
Proof.
  constructor; [|constructor]. intros k Hk. exists 7. apply elem_of_list_to_map_1.
  - rewrite <- list_fmap_compose. apply NoDup_fmap_2_strong; [|apply NoDup_seqZ].
    intros x y _ _. cbn. lia.
  - apply list_elem_of_fmap. exists k. split; [done|]. apply elem_of_seqZ. lia.
Qed.

(** ** Properties *)

(** C29. The validation of an executable is exact and never reads outside the
    image: for every byte string, the layout routine returns, it succeeds
    exactly when the bytes are those of a static x86-64 executable by the ELF-64
    format (magic number, class, byte order, version, type, machine and table
    entry size at their offsets, at least one program header, the table inside
    the file, every loadable segment inside the file and the address space, an
    executable segment that holds the entry point), and its result is the span
    of the loadable segments with the entry point. *)
Theorem elf_layout_exact image :
  bytes_ok image ->
  exists r, elf64_executable_layout (Some image) = Some r /\
    forall l, r = Some l <-> executable_image image l.
Proof. apply layout_ok. Qed.

Lemma elf_layout_exact_witness : executable_image sample_image sample_layout.
Proof.
  destruct (elf_layout_exact sample_image sample_bytes) as (r & Hr & Hl). apply Hl.
  pose proof sample_layout_computed as E. rewrite Hr in E. injection E as E. exact E.
Defined.

(** C18. Loading into a buffer is correct: it stays inside image and buffer,
    succeeds exactly when the executable is well formed and its segments lie
    inside the buffer's address window, and then every byte of the buffer is
    the byte the program headers put at its address (file contents, and zero
    elsewhere), whatever the buffer held before. *)
Theorem elf_load_correct image t :
  bytes_ok image -> 0 <= t.(t_base) -> t.(t_base) + Z.of_nat (length t.(t_memory)) <= U64_MAX ->
  exists r, elf64_load_executable (Some image) (Some t) = Some r /\
    forall memory en, r = Some (memory, en) <->
      exists h ps, fits_window image h ps t.(t_base) (Z.of_nat (length t.(t_memory))) /\
        en = h.(entry) /\ memory = virtual_memory image ps t.(t_base) (length t.(t_memory)).
Proof. apply load_ok. Qed.

Lemma sample_load_computed :
  elf64_load_executable (Some sample_image) (Some (Target 4194302 (replicate 12 9))) =
    Some (Some ([0; 0; 235; 254; 144; 195; 0; 0; 0; 0; 0; 0], 4194304)).
Proof. vm_compute. reflexivity. Qed.

Lemma elf_load_correct_witness : exists h ps,
  fits_window sample_image h ps 4194302 12 /\ 4194304 = h.(entry) /\
  [0; 0; 235; 254; 144; 195; 0; 0; 0; 0; 0; 0] = virtual_memory sample_image ps 4194302 12.
Proof.
  destruct (elf_load_correct sample_image (Target 4194302 (replicate 12 9)) sample_bytes) as (r & Hr & Hl);
    [cbn; lia|cbn; unfold U64_MAX; lia|].
  rewrite sample_load_computed in Hr. injection Hr as Hr.
  exact (proj1 (Hl _ _) (eq_sym Hr)).
Defined.

(** C25. The paged loader builds the same image over scattered frames: with
    distinct mapped frames it stays inside image and frames, rejects exactly
    unaligned frames and executables that do not fit, and otherwise every
    window offset reads as the program headers say while no byte outside the
    frames changes. *)
Theorem elf_load_pages_correct image base frames m :
  bytes_ok image -> 0 <= base -> NoDup frames -> frames_mapped frames m -> frames <> [] ->
  base + window frames <= U64_MAX ->
  exists r, elf64_load_executable_pages (Some image) base frames m = Some r /\
    (r = None <-> ~ (Forall (fun f => frame_ok f = true) frames /\
                     exists h ps, fits_window image h ps base (window frames))) /\
    forall m' en, r = Some (m', en) -> paged_image image base frames m m' en.
Proof. apply load_pages_ok. Qed.

Lemma sample_fits : exists h ps, fits_window sample_image h ps 4194304 4096.
Proof.
  destruct (layout_ok sample_image sample_bytes) as (r & Hr & Hl).
  rewrite sample_layout_computed in Hr. injection Hr as Hr.
  destruct (proj1 (Hl sample_layout) (eq_sym Hr)) as (Hs & h & ps & Hi & E & _).
  injection E as E1 E2 _. exists h, ps. split; [done|]. split; [done|]. rewrite <- E1, <- E2. lia.
Qed.

Lemma elf_load_pages_correct_witness : exists m' en,
  elf64_load_executable_pages (Some sample_image) 4194304 [4096] sample_frame = Some (Some (m', en)) /\
  paged_image sample_image 4194304 [4096] sample_frame m' en.
Proof.
  destruct (elf_load_pages_correct sample_image 4194304 [4096] sample_frame sample_bytes) as (r & Hr & Hn & Hl).
  - lia.
  - apply NoDup_singleton.
  - exact sample_frame_mapped.
  - discriminate.
  - unfold window, U64_MAX. cbn. lia.
  - destruct r as [[m' en]|]; [|destruct (proj1 Hn eq_refl); split; [repeat constructor|exact sample_fits]].
    exists m', en. split; [exact Hr|]. apply Hl. reflexivity.
Defined.
