(* ===== verification/Ipc.v ===== *)
(** The message channels of [src/ipc.c]: sixteen named channels, each a ring of
    32 messages of at most 64 bytes, one waiting receiver and one sender parked
    on a full ring. The operations here touch the channels alone; those that
    also deliver into user memory or wake processes are in [Kernel.v]. *)

From S2P Require Import Prelude.

Definition IPC_CHANNEL_LIMIT : Z := 16.
Definition IPC_QUEUE_DEPTH : Z := 32.
Definition IPC_NAME_MAX : Z := 24.
Definition IPC_MESSAGE_MAX : Z := 64.

(** ** Data *)

Record ipc_message := Message { m_sender : Z; m_length : Z; m_data : list Z }.
Record ipc_waiter := Waiter {
  w_pid : Z; w_address : Z; w_capacity : Z; w_active : bool; w_multiplex : bool
}.
Record ipc_send_waiter := SendWaiter { s_pid : Z; s_data : list Z; s_length : Z; s_active : bool }.
Record ipc_channel := Channel {
  id : Z; owner : Z; cname : list Z; name_length : Z; read : Z; write : Z; qcount : Z;
  messages : list ipc_message; waiter : ipc_waiter; sender : ipc_send_waiter; active : bool
}.

Definition no_message : ipc_message := Message 0 0 (replicate 64 0).
Definition no_waiter : ipc_waiter := Waiter 0 0 0 false false.
Definition no_sender : ipc_send_waiter := SendWaiter 0 (replicate 64 0) 0 false.
(** The compound literals of [ipc_init] and [ipc_create]: all other members zero. *)
Definition empty_channel (i : Z) : ipc_channel :=
  Channel i 0 (replicate 24 0) 0 0 0 0 (replicate 32 no_message) no_waiter no_sender false.

Record ipc_state := Ipc {
  channels : list ipc_channel; sent_count : Z; received_count : Z; dropped_count : Z
}.

Definition set_ring (r w n : Z) (ms : list ipc_message) (c : ipc_channel) : ipc_channel :=
  Channel c.(id) c.(owner) c.(cname) c.(name_length) r w n ms c.(waiter) c.(sender) c.(active).
Definition set_cwaiter (w : ipc_waiter) (c : ipc_channel) : ipc_channel :=
  Channel c.(id) c.(owner) c.(cname) c.(name_length) c.(read) c.(write) c.(qcount) c.(messages)
    w c.(sender) c.(active).
Definition set_sender (s : ipc_send_waiter) (c : ipc_channel) : ipc_channel :=
  Channel c.(id) c.(owner) c.(cname) c.(name_length) c.(read) c.(write) c.(qcount) c.(messages)
    c.(waiter) s c.(active).
Definition set_active (b : bool) (c : ipc_channel) : ipc_channel :=
  Channel c.(id) c.(owner) c.(cname) c.(name_length) c.(read) c.(write) c.(qcount) c.(messages)
    c.(waiter) c.(sender) b.
Definition stop_waiter (w : ipc_waiter) : ipc_waiter :=
  Waiter w.(w_pid) w.(w_address) w.(w_capacity) false w.(w_multiplex).
Definition stop_sender (s : ipc_send_waiter) : ipc_send_waiter :=
  SendWaiter s.(s_pid) s.(s_data) s.(s_length) false.

Definition set_channels (l : list ipc_channel) (s : ipc_state) : ipc_state :=
  Ipc l s.(sent_count) s.(received_count) s.(dropped_count).
Definition count_ipc (sn rc dr : Z) (s : ipc_state) : ipc_state :=
  Ipc s.(channels) (u64 (s.(sent_count) + sn)) (u64 (s.(received_count) + rc)) (u64 (s.(dropped_count) + dr)).
Definition set_channel (i : Z) (c : ipc_channel) (s : ipc_state) : option ipc_state :=
  l ← s.(channels).[i - 1 <- c]; Some (set_channels l s).

(** ** Lookup *)

(** [same_name]: the byte loop over [length_] characters. *)
Fixpoint same_bytes (n : nat) (i : Z) (a b : list Z) : option bool :=
  match n with
  | O => Some true
  | S n' => x ← a.[i]; y ← b.[i]; if x =? y then same_bytes n' (i + 1) a b else Some false
  end.
Definition same_name (c : ipc_channel) (nm : list Z) (length_ : Z) : option bool :=
  if negb (c.(name_length) =? length_) then Some false
  else same_bytes (Z.to_nat length_) 0 c.(cname) nm.

Definition by_id (i : Z) (s : ipc_state) : option (option ipc_channel) :=
  if (i =? 0) || (IPC_CHANNEL_LIMIT <? i) then Some None else
  c ← s.(channels).[i - 1]; Some (if c.(active) then Some c else None).

(** The first active channel with this name (its index). *)
Fixpoint find_name (l : list ipc_channel) (nm : list Z) (length_ : Z) : option (option ipc_channel) :=
  match l with
  | [] => Some None
  | c :: l =>
      if negb c.(active) then find_name l nm length_ else
      same ← same_name c nm length_;
      if negb same then find_name l nm length_ else Some (Some c)
  end.

Definition ipc_init (s : ipc_state) : ipc_state :=
  Ipc (empty_channel <$> seqZ 1 16) 0 0 0.

(** The channel record [ipc_create] stores in free slot [i]. *)
Definition new_channel (i owner_pid : Z) (nm : list Z) (length_ : Z) : option ipc_channel :=
  n ← copy_into (replicate 24 0) 0 nm 0 (Z.to_nat length_);
  Some (Channel i owner_pid n (u8 length_) 0 0 0 (replicate 32 no_message) no_waiter no_sender true).

(** ** The ring *)

(** The message is written into the slot at [write]. *)
Definition push_message (from : Z) (data : list Z) (length_ : Z) (c : ipc_channel) : option ipc_channel :=
  m ← c.(messages).[c.(write)];
  d ← copy_into m.(m_data) 0 data 0 (Z.to_nat length_);
  ms ← c.(messages).[c.(write) <- Message from (u8 length_) d];
  Some (set_ring c.(read) ((c.(write) + 1) mod IPC_QUEUE_DEPTH) (u8 (c.(qcount) + 1)) ms c).

(** The head message, and the channel without it. *)
Definition pop_message (c : ipc_channel) : option (ipc_message * ipc_channel) :=
  m ← c.(messages).[c.(read)];
  Some (m, set_ring ((c.(read) + 1) mod IPC_QUEUE_DEPTH) c.(write) (u8 (c.(qcount) - 1)) c.(messages) c).

Definition park (from : Z) (data : list Z) (length_ : Z) (c : ipc_channel) : option ipc_channel :=
  d ← copy_into c.(sender).(s_data) 0 data 0 (Z.to_nat length_);
  Some (set_sender (SendWaiter from d (u8 length_) true) c).

(** ** Cancelling *)

Fixpoint cancel_wait_in (p : Z) (l : list ipc_channel) : bool * list ipc_channel :=
  match l with
  | [] => (false, [])
  | c :: l =>
      if c.(active) && c.(waiter).(w_active) && (c.(waiter).(w_pid) =? p)
      then (true, set_cwaiter (stop_waiter c.(waiter)) c :: l)
      else let (b, l) := cancel_wait_in p l in (b, c :: l)
  end.
Definition ipc_cancel_wait (p : Z) (s : ipc_state) : bool * ipc_state :=
  let (b, l) := cancel_wait_in p s.(channels) in (b, set_channels l s).

Definition ipc_channel_count (s : ipc_state) : Z :=
  Z.of_nat (length (filter (fun c => c.(active) = true) s.(channels))).
