(* ===== verification/IpcSpec.v ===== *)
(** The channel as a bounded pipe: the abstraction of a channel to the messages
    sent and not yet received, and the effect of the ring operations on it. *)

From S2P Require Import Prelude Ring Ipc.

(** ** Well-formed channels *)

Definition message_ok (m : ipc_message) : Prop :=
  length m.(m_data) = 64%nat /\ 0 <= m.(m_length) <= 64.

(** [l] are the messages in the ring, oldest first. A sender is parked only on a
    full ring. *)
Record chan_wf (c : ipc_channel) (l : list ipc_message) : Prop := {
  cw_ring : ring_holds IPC_QUEUE_DEPTH c.(messages) c.(read) l;
  cw_count : c.(qcount) = Z.of_nat (length l);
  cw_write : c.(write) = (c.(read) + c.(qcount)) mod IPC_QUEUE_DEPTH;
  cw_messages : Forall message_ok c.(messages);
  cw_sender : length c.(sender).(s_data) = 64%nat /\ 0 <= c.(sender).(s_length) <= 64;
  cw_parked : c.(sender).(s_active) = true -> c.(qcount) = IPC_QUEUE_DEPTH;
}.

(** What a receiver will see of a message. *)
Definition msg_view (m : ipc_message) : Z * list Z :=
  (m.(m_sender), take (Z.to_nat m.(m_length)) m.(m_data)).
Definition parked_view (w : ipc_send_waiter) : list (Z * list Z) :=
  if w.(s_active) then [(w.(s_pid), take (Z.to_nat w.(s_length)) w.(s_data))] else [].

(** Channel [c] holds the backlog [q]: the ring, then the parked message. *)
Definition holds_backlog (c : ipc_channel) (q : list (Z * list Z)) : Prop :=
  exists l, chan_wf c l /\ q = (msg_view <$> l) ++ parked_view c.(sender).

(** Every channel is well formed and knows its id. *)
Record ipc_wf (s : ipc_state) : Prop := {
  iw_length : length s.(channels) = 16%nat;
  iw_id : forall i c, s.(channels).[i] = Some c -> c.(id) = i + 1;
  iw_channel : forall i c, s.(channels).[i] = Some c -> c.(active) = true -> exists q, holds_backlog c q;
  iw_pids : forall i c, s.(channels).[i] = Some c -> 0 <= c.(waiter).(w_pid) /\ 0 <= c.(sender).(s_pid);
  iw_names : forall i c, s.(channels).[i] = Some c -> length c.(cname) = 24%nat /\ 0 <= c.(owner) /\ (c.(active) = true -> 1 <= c.(owner));
}.

Lemma backlog_length c q : holds_backlog c q -> Z.of_nat (length q) <= 33.
Proof.
  intros (l & Hw & ->). rewrite length_app, length_fmap. pose proof (ring_fits _ _ _ _ (cw_ring _ _ Hw)).
  unfold IPC_QUEUE_DEPTH, parked_view in *. destruct (s_active _); cbn; lia.
Qed.

(** The message [data] of [n] bytes, as [pid] sends it. *)
Definition sent (pid : Z) (data : list Z) (n : Z) : Z * list Z := (pid, take (Z.to_nat n) data).

Lemma copy_message (dst src : list Z) n r :
  length dst = 64%nat -> 0 <= n <= 64 -> n <= Z.of_nat (length src) ->
  copy_into dst 0 src 0 (Z.to_nat n) = Some r ->
  length r = 64%nat /\ take (Z.to_nat n) r = take (Z.to_nat n) src.
Proof.
  intros Hd Hn Hs Hc. split; [rewrite <- Hd; by eapply copy_into_length|].
  rewrite copy_into_spec in Hc by lia. injection Hc as <-. cbn [Z.to_nat take drop app].
  change (Z.to_nat 0) with 0%nat. rewrite drop_0.
  rewrite take_app_le by (rewrite length_take; lia). by rewrite take_take, Nat.min_id.
Qed.

(** Storing a message in a ring that is not full. *)
Lemma push_message_ok pid data n c l :
  chan_wf c l -> c.(sender).(s_active) = false -> c.(qcount) < 32 ->
  0 <= n <= 64 -> n <= Z.of_nat (length data) ->
  exists c' m, push_message pid data n c = Some c' /\ chan_wf c' (l ++ [m]) /\
    msg_view m = sent pid data n /\ c'.(id) = c.(id) /\ c'.(sender) = c.(sender) /\
    c'.(waiter) = c.(waiter) /\ c'.(active) = c.(active) /\ c'.(owner) = c.(owner) /\ c'.(cname) = c.(cname).
Proof.
  intros [Hr Hc Hw Hm Hs Hp] Hnp Hlt Hn Hd. unfold push_message.
  pose proof (ring_size _ _ _ _ Hr) as Hsz. unfold IPC_QUEUE_DEPTH in *.
  assert (0 <= c.(write) < 32) as Hwr by (rewrite Hw; apply Z.mod_pos_bound; lia).
  destruct (aget_in c.(messages) c.(write)) as [m Hg]; [lia|]. rewrite Hg. cbn [mbind option_bind].
  destruct (aget_Forall _ _ _ _ Hm Hg) as [Hml _].
  destruct (copy_into m.(m_data) 0 data 0 (Z.to_nat n)) as [d|] eqn:Ed.
  2: { rewrite copy_into_spec in Ed by lia. done. }
  destruct (copy_message _ _ _ _ Hml Hn Hd Ed) as [Hdl Hdt].
  cbn [mbind option_bind]. rewrite aset_in by lia. cbn [mbind option_bind].
  rewrite (u8_small n) by (unfold is_byte; lia).
  exists (set_ring c.(read) ((c.(write) + 1) mod 32) (u8 (c.(qcount) + 1))
            (<[Z.to_nat c.(write) := Message pid n d]> c.(messages)) c), (Message pid n d).
  split; [done|]. rewrite (u8_small (_ + 1)) by (unfold is_byte; lia).
  split; [|unfold msg_view, sent; cbn; by rewrite Hdt].
  split; cbn [set_ring messages read write qcount sender].
  - unfold IPC_QUEUE_DEPTH. rewrite Hw, Hc. apply ring_push; [done|lia].
  - rewrite length_app. cbn. lia.
  - unfold IPC_QUEUE_DEPTH. rewrite Hw, Zplus_mod_idemp_l. f_equal. lia.
  - apply Forall_insert; [done|]. split; [done|cbn; lia].
  - done.
  - rewrite Hnp. done.
Qed.

(** Taking the oldest message off a ring that is not empty. *)
Lemma pop_message_ok c m l :
  chan_wf c (m :: l) ->
  exists c', pop_message c = Some (m, c') /\ message_ok m /\
    c' = set_ring ((c.(read) + 1) mod 32) c.(write) (Z.of_nat (length l)) c.(messages) c.
Proof.
  intros [Hr Hc Hw Hm Hs Hp]. unfold pop_message, IPC_QUEUE_DEPTH in *.
  destruct (ring_pop _ _ _ _ _ Hr) as [Hg _]. rewrite Hg. cbn [mbind option_bind].
  pose proof (ring_fits _ _ _ _ Hr) as Hf. cbn [length] in *.
  eexists. split; [done|]. split; [by eapply aget_Forall|].
  f_equal. rewrite u8_small by (unfold is_byte; lia). lia.
Qed.

(** What is left after a pop. While the popped channel still has its parked
    sender marked, only [chan_wf]'s last clause is missing. *)
Lemma popped_wf c m l :
  chan_wf c (m :: l) ->
  chan_wf (set_sender (stop_sender c.(sender))
    (set_ring ((c.(read) + 1) mod 32) c.(write) (Z.of_nat (length l)) c.(messages) c)) l.
Proof.
  intros [Hr Hc Hw Hm Hs Hp]. unfold IPC_QUEUE_DEPTH in *. destruct (ring_pop _ _ _ _ _ Hr) as [_ Hr'].
  split; cbn [set_ring set_sender stop_sender messages read write qcount sender s_data s_length s_active];
    unfold IPC_QUEUE_DEPTH; try done.
  rewrite Hw, Hc, Zplus_mod_idemp_l. f_equal. cbn [length]. lia.
Qed.

Lemma popped_quiet_wf c m l :
  chan_wf c (m :: l) -> c.(sender).(s_active) = false ->
  chan_wf (set_ring ((c.(read) + 1) mod 32) c.(write) (Z.of_nat (length l)) c.(messages) c) l.
Proof.
  intros Hw Hq. destruct (popped_wf c m l Hw) as [H1 H2 H3 H4 H5 H6]. split; try done.
  cbn [set_ring sender]. by rewrite Hq.
Qed.

(** Parking on a full ring. *)
Lemma park_ok pid data n c l :
  chan_wf c l -> c.(qcount) = 32 -> 0 <= n <= 64 -> n <= Z.of_nat (length data) ->
  exists c', park pid data n c = Some c' /\ chan_wf c' l /\ c'.(id) = c.(id) /\
    c'.(waiter) = c.(waiter) /\ c'.(active) = c.(active) /\ c'.(owner) = c.(owner) /\ c'.(cname) = c.(cname) /\
    c'.(sender).(s_pid) = pid /\ parked_view c'.(sender) = [sent pid data n].
Proof.
  intros [Hr Hc Hw Hm [Hs Hs'] Hp] Hf Hn Hd. unfold park.
  destruct (copy_into c.(sender).(s_data) 0 data 0 (Z.to_nat n)) as [d|] eqn:Ed.
  2: { rewrite copy_into_spec in Ed by lia. done. }
  destruct (copy_message _ _ _ _ Hs Hn Hd Ed) as [Hdl Hdt]. cbn [mbind option_bind].
  rewrite (u8_small n) by (unfold is_byte; lia). eexists. split; [done|].
  unfold parked_view, sent. cbn. rewrite Hdt. split; [|done]. by split.
Qed.

(** Changing the waiter alone keeps the backlog. *)
Lemma set_waiter_backlog w c q : holds_backlog c q -> holds_backlog (set_cwaiter w c) q.
Proof. intros (l & [] & ->). by exists l. Qed.

(** ** The table of channels *)

Lemma by_id_ok s i :
  ipc_wf s -> 0 <= i ->
  exists r, by_id i s = Some r /\
    forall c, r = Some c <-> (1 <= i <= 16 /\ s.(channels).[i - 1] = Some c /\ c.(active) = true).
Proof.
  intros Hwf Hi. unfold by_id, IPC_CHANNEL_LIMIT.
  destruct ((i =? 0) || (16 <? i)) eqn:E.
  { exists None. split; [done|]. intros c. split; [done|]. intros (? & _).
    apply orb_true_iff in E as [E|E]; b2p; lia. }
  b2p. destruct (aget_in s.(channels) (i - 1)) as [c Hc]; [rewrite (iw_length _ Hwf); lia|].
  rewrite Hc. cbn [mbind option_bind]. eexists. split; [done|]. intros c'. split.
  - destruct (active c) eqn:Ea; [|done]. intros [= <-]. split; [lia|done].
  - intros (_ & [= <-] & ->). done.
Qed.

Lemma set_channel_ok s i c :
  ipc_wf s -> 1 <= i <= 16 -> c.(id) = i -> (c.(active) = true -> exists q, holds_backlog c q) ->
  0 <= c.(waiter).(w_pid) -> 0 <= c.(sender).(s_pid) -> length c.(cname) = 24%nat /\ 0 <= c.(owner) /\ (c.(active) = true -> 1 <= c.(owner)) ->
  exists s', set_channel i c s = Some s' /\ ipc_wf s' /\
    s' = set_channels (<[Z.to_nat (i - 1) := c]> s.(channels)) s.
Proof.
  intros Hwf Hi Hid Hq Hwp Hsp Hn. unfold set_channel. pose proof (iw_length _ Hwf) as Hl.
  rewrite aset_in by lia. cbn [mbind option_bind]. eexists. split; [done|]. split; [|done].
  split; cbn [channels set_channels].
  - by rewrite length_insert.
  - intros j c'. rewrite aget_insert by lia. case_decide; [intros [= <-]; lia|]. by apply (iw_id _ Hwf).
  - intros j c'. rewrite aget_insert by lia. case_decide; [intros [= <-]; done|]. by apply (iw_channel _ Hwf).
  - intros j c'. rewrite aget_insert by lia. case_decide; [intros [= <-]; done|]. by apply (iw_pids _ Hwf).
  - intros j c'. rewrite aget_insert by lia. case_decide; [intros [= <-]; done|]. by apply (iw_names _ Hwf).
Qed.

Lemma count_ipc_wf a b d s : ipc_wf s -> ipc_wf (count_ipc a b d s).
Proof. by intros []; split. Qed.

Lemma cancel_wait_channels p l i c :
  (cancel_wait_in p l).2 !! i = Some c ->
  exists c0, l !! i = Some c0 /\ (c = c0 \/ c = set_cwaiter (stop_waiter c0.(waiter)) c0).
Proof.
  revert i. induction l as [|c0 l IH]; intros i; cbn [cancel_wait_in]; [done|].
  destruct (_ && _) eqn:E.
  - destruct i as [|i]; cbn; [intros [= <-]; eauto|eauto].
  - destruct (cancel_wait_in p l) as [b l'] eqn:El. cbn [snd] in *.
    destruct i as [|i]; cbn; [intros [= <-]; eauto|apply IH].
Qed.

Lemma cancel_wait_length p l : length (cancel_wait_in p l).2 = length l.
Proof.
  induction l as [|c l IH]; cbn [cancel_wait_in]; [done|]. destruct (_ && _); [done|].
  destruct (cancel_wait_in p l). cbn in *. by rewrite IH.
Qed.

Lemma ipc_cancel_wait_wf p s : ipc_wf s -> ipc_wf (ipc_cancel_wait p s).2.
Proof.
  intros Hwf. unfold ipc_cancel_wait. destruct (cancel_wait_in p s.(channels)) as [b l] eqn:E.
  assert (l = (cancel_wait_in p s.(channels)).2) as El by by rewrite E. cbn [snd].
  assert (forall i c, l.[i] = Some c -> exists c0, s.(channels).[i] = Some c0 /\
    (c = c0 \/ c = set_cwaiter (stop_waiter c0.(waiter)) c0)) as Hl.
  { intros i c [Hi Hc]%aget_Some. rewrite El in Hc. apply cancel_wait_channels in Hc as (c0 & H0 & H1).
    exists c0. split; [apply aget_Some; done|done]. }
  split; cbn [channels set_channels].
  - rewrite El, cancel_wait_length. apply Hwf.
  - intros i c Hc. destruct (Hl i c Hc) as (c0 & H0 & [->| ->]); apply (iw_id _ Hwf) in H0; done.
  - intros i c Hc. intros Ha. destruct (Hl i c Hc) as (c0 & H0 & [->| ->]);
      destruct (iw_channel _ Hwf _ _ H0 Ha) as [q Hq]; exists q; [done|by apply set_waiter_backlog].
  - intros i c Hc. destruct (Hl i c Hc) as (c0 & H0 & [->| ->]); by apply (iw_pids _ Hwf) in H0.
  - intros i c Hc. destruct (Hl i c Hc) as (c0 & H0 & [->| ->]); by apply (iw_names _ Hwf) in H0.
Qed.

(** ** Names *)

Lemma same_bytes_total n : forall i a b,
  0 <= i -> i + Z.of_nat n <= Z.of_nat (length a) -> i + Z.of_nat n <= Z.of_nat (length b) ->
  exists r, same_bytes n i a b = Some r.
Proof.
  induction n as [|n IH]; intros i a b Hi Ha Hb; cbn [same_bytes]; [eauto|].
  destruct (aget_in a i) as [x ->]; [lia|]. destruct (aget_in b i) as [y ->]; [lia|]. cbn [mbind option_bind].
  destruct (_ =? _); [|eauto]. apply IH; lia.
Qed.

Lemma find_name_ok nm n l :
  0 <= n < 24 -> n <= Z.of_nat (length nm) -> Forall (fun c => length c.(cname) = 24%nat) l ->
  exists r, find_name l nm n = Some r /\ (forall c, r = Some c -> c ∈ l /\ c.(active) = true).
Proof.
  intros Hn Hl. induction l as [|c l IH]; intros Hall; cbn [find_name]; [by exists None|].
  inversion_clear Hall as [|? ? Hc Hcs]. destruct (IH Hcs) as (r & Hr & Hin).
  assert (Hskip : exists r, find_name l nm n = Some r /\ (forall c0, r = Some c0 -> c0 ∈ c :: l /\ c0.(active) = true)).
  { exists r. split; [done|]. intros c0 H0. destruct (Hin c0 H0). split; [by right|done]. }
  destruct (active c) eqn:Ea; cbn [negb]; [|done]. unfold same_name.
  destruct (name_length c =? n) eqn:En; cbn [negb mbind option_bind]; [|done].
  destruct (same_bytes_total (Z.to_nat n) 0 c.(cname) nm) as [b ->]; [lia|rewrite Hc; lia|lia|].
  cbn [mbind option_bind]. destruct b; cbn [negb]; [|done]. exists (Some c). split; [done|].
  intros c0 [= <-]. split; [by left|done].
Qed.

Lemma ipc_names_all s : ipc_wf s -> Forall (fun c => length c.(cname) = 24%nat) s.(channels).
Proof. intros Hwf. apply Forall_aget. intros i c Hc. by apply (iw_names _ Hwf _ _ Hc). Qed.

(** A fresh channel is an empty pipe. *)
Lemma new_channel_ok i pid nm n :
  0 <= n < 24 -> n <= Z.of_nat (length nm) ->
  exists c, new_channel i pid nm n = Some c /\ holds_backlog c [] /\ c.(id) = i /\ c.(owner) = pid /\
    c.(active) = true /\ c.(waiter) = no_waiter /\ c.(sender) = no_sender /\ length c.(cname) = 24%nat.
Proof.
  intros Hn Hl. unfold new_channel.
  destruct (copy_into (replicate 24 0) 0 nm 0 (Z.to_nat n)) as [nm'|] eqn:E.
  2: { rewrite copy_into_spec in E by (rewrite ?length_replicate; lia). done. }
  apply copy_into_length in E. cbn [mbind option_bind]. eexists. split; [done|].
  split; [|repeat split; done]. exists []. split; [|done].
  split; cbn [messages read write qcount sender no_sender s_data s_length s_active].
  - apply ring_empty; [done|]. unfold IPC_QUEUE_DEPTH. lia.
  - done.
  - done.
  - apply Forall_replicate. split; [done|cbn; lia].
  - split; [done|lia].
  - done.
Qed.
