(* ===== verification/PhysicalMemory.v ===== *)
(** Physical memory by pages of 512 words, the processor's walk of the page tables
    that lie in it, and the bytes that addresses of an address space name.

    The kernel runs with CR0.WP clear and without SMAP, so its own accesses to user
    addresses need a translation and no rights. *)

From stdpp Require Import gmap.
From S2P Require Import Prelude.

Notation phys := (gmap Z (list Z)).

(** ** Words of physical pages *)

Definition word (pg : phys) (p i : Z) : option Z := ws ← pg !! p; ws.[i].
Definition is_page (pg : phys) (p : Z) : Prop := exists ws, pg !! p = Some ws /\ length ws = 512%nat.
Definition put_word (pg : phys) (p i v : Z) : phys :=
  match pg !! p with Some ws => <[p := <[Z.to_nat i := v]> ws]> pg | None => pg end.
Definition page_of (entry : Z) : Z := Z.ldiff entry 4095.

(** ** Translation by the processor *)

(** The four-level walk of x86-64 with 2 MiB pages: the physical address and the
    rights of the leaf and of every level above it (bit 1: write, bit 2: user);
    [None] is a page fault. *)
Definition PRESENT : Z := 1.
Definition HUGE : Z := 128.
Definition present (e : Z) : bool := negb (Z.land e PRESENT =? 0).
Definition index_at (level va : Z) : Z := Z.land (Z.shiftr va (12 + 9 * level)) 511.
Definition rights_of (e : Z) : Z := Z.land e 6.

Definition level_entry (pg : phys) (table level va : Z) : option Z :=
  e ← word pg table (index_at level va); if present e then Some e else None.
Definition translate (pg : phys) (cr3 va : Z) : option (Z * Z) :=
  e4 ← level_entry pg cr3 3 va;
  e3 ← level_entry pg (page_of e4) 2 va;
  e2 ← level_entry pg (page_of e3) 1 va;
  let r := Z.land (rights_of e4) (Z.land (rights_of e3) (rights_of e2)) in
  if negb (Z.land e2 HUGE =? 0) then Some (Z.ldiff e2 (Z.ones 21) + Z.land va (Z.ones 21), r) else
  e1 ← level_entry pg (page_of e2) 0 va;
  Some (page_of e1 + Z.land va (Z.ones 12), Z.land r (rights_of e1)).
Definition USER_WRITE : Z := 6.

(** ** Bytes *)

Definition byte_of (w k : Z) : Z := Z.land (Z.shiftr w (8 * k)) 255.
Definition with_byte (w k b : Z) : Z := Z.lor (Z.ldiff w (Z.shiftl 255 (8 * k))) (Z.shiftl (u8 b) (8 * k)).

Definition load_byte (pg : phys) (pa : Z) : option Z :=
  w ← word pg (page_of pa) (pa mod 4096 / 8); Some (byte_of w (pa mod 8)).
Definition store_byte (pg : phys) (pa b : Z) : option phys :=
  ws ← pg !! page_of pa; w ← ws.[pa mod 4096 / 8]; ws ← ws.[pa mod 4096 / 8 <- with_byte w (pa mod 8) b];
  Some (<[page_of pa := ws]> pg).

(** A byte through a user pointer, with [cr3] active. *)
Definition load_user (pg : phys) (cr3 va : Z) : option Z := '(pa, _) ← translate pg cr3 va; load_byte pg pa.
Definition store_user (pg : phys) (cr3 va b : Z) : option phys := '(pa, _) ← translate pg cr3 va; store_byte pg pa b.

(** [for (i = 0; i < n; ++i) destination[i] = chunk[i];] *)
Fixpoint write_chunk (space address : Z) (chunk : list Z) (pg : phys) : option phys :=
  match chunk with
  | [] => Some pg
  | v :: chunk => pg ← store_user pg space address v; write_chunk space (address + 1) chunk pg
  end.

(** The [n] bytes at a user address. *)
Definition read_chunk (space address n : Z) (pg : phys) : option (list Z) :=
  mapM (fun k => load_user pg space (address + k)) (seqZ 0 n).

(** ** What stores change *)

(** [pg'] is [pg] with some pages of [X] rewritten. *)
Definition touches (X : list Z) (pg pg' : phys) : Prop :=
  (forall p, p ∉ X -> pg' !! p = pg !! p) /\ (forall p, is_page pg p -> is_page pg' p).

Lemma touches_refl X pg : touches X pg pg.
Proof. done. Qed.
Lemma touches_trans X pg1 pg2 pg3 : touches X pg1 pg2 -> touches X pg2 pg3 -> touches X pg1 pg3.
Proof. intros [H1 H2] [H3 H4]. split; [|auto]. intros p Hp. by rewrite H3, H1. Qed.
Lemma touches_mono X Y pg pg' : touches X pg pg' -> X ⊆ Y -> touches Y pg pg'.
Proof. intros [H1 H2] Hs. split; [|done]. intros p Hp. apply H1. set_solver. Qed.
Lemma touches_page X pg pg' p : touches X pg pg' -> is_page pg p -> is_page pg' p.
Proof. intros [_ H]. apply H. Qed.
Lemma touches_word X pg pg' p i : touches X pg pg' -> p ∉ X -> word pg' p i = word pg p i.
Proof. intros [H _] Hp. unfold word. by rewrite H. Qed.

Lemma put_word_touches pg p i v : touches [p] pg (put_word pg p i v).
Proof.
  unfold put_word. destruct (pg !! p) as [ws|] eqn:E; [|apply touches_refl]. split.
  - intros q Hq. rewrite lookup_insert_ne; [done|]. set_solver.
  - intros q (ws' & Hq & Hl). destruct (decide (q = p)) as [->|Hne].
    + rewrite E in Hq. injection Hq as ->. exists (<[Z.to_nat i := v]> ws').
      by rewrite lookup_insert_eq, length_insert.
    + exists ws'. by rewrite lookup_insert_ne.
Qed.

Lemma put_word_same pg p i v : is_page pg p -> 0 <= i < 512 -> word (put_word pg p i v) p i = Some v.
Proof.
  intros (ws & Hp & Hl) Hi. unfold word, put_word. rewrite Hp, lookup_insert_eq. cbn [mbind option_bind].
  rewrite aget_insert by lia. by rewrite decide_True.
Qed.

Lemma put_word_other pg p i v q j : is_page pg p -> 0 <= i < 512 -> q <> p \/ j <> i ->
  word (put_word pg p i v) q j = word pg q j.
Proof.
  intros (ws & Hp & Hl) Hi Hd. unfold word, put_word. rewrite Hp. destruct (decide (q = p)) as [->|Hne].
  - rewrite lookup_insert_eq, Hp. cbn [mbind option_bind]. rewrite aget_insert by lia.
    rewrite decide_False; [done|]. naive_solver.
  - by rewrite lookup_insert_ne.
Qed.

Lemma word_total pg p i : is_page pg p -> 0 <= i < 512 -> is_Some (word pg p i).
Proof. intros (ws & Hp & Hl) Hi. unfold word. rewrite Hp. apply aget_in. lia. Qed.

(** ** Bytes of a word *)

Lemma byte_of_range w k : is_byte (byte_of w k).
Proof. unfold byte_of. change 255 with (Z.ones 8). rewrite Z.land_ones by lia. apply u8_range. Qed.

Lemma testbit_byte_of w k i : 0 <= k -> Z.testbit (byte_of w k) i = (i <? 8) && (0 <=? i) && Z.testbit w (i + 8 * k).
Proof.
  intros Hk. unfold byte_of. destruct (Z.leb_spec 0 i).
  - rewrite Z.land_spec, Z.shiftr_spec by done. change 255 with (Z.ones 8). rewrite Z.testbit_ones by lia.
    rewrite (proj2 (Z.leb_le 0 i)) by done. destruct (i <? 8); cbn [andb]; [by rewrite andb_true_r|by rewrite andb_false_r].
  - rewrite Z.testbit_neg_r by done. by rewrite andb_false_r.
Qed.

Lemma testbit_with_byte w k b i : 0 <= k -> 0 <= i ->
  Z.testbit (with_byte w k b) i = if decide (8 * k <= i < 8 * k + 8) then Z.testbit (u8 b) (i - 8 * k) else Z.testbit w i.
Proof.
  intros Hk Hi. unfold with_byte. rewrite Z.lor_spec, Z.ldiff_spec, !Z.shiftl_spec by done.
  change 255 with (Z.ones 8). case_decide.
  - rewrite Z.testbit_ones by lia. rewrite (proj2 (Z.leb_le 0 _)), (proj2 (Z.ltb_lt _ 8)) by lia. cbn [andb negb].
    by rewrite andb_false_r.
  - rewrite Z.testbit_ones by lia.
    assert (Z.testbit (u8 b) (i - 8 * k) = false) as ->.
    { destruct (Z.ltb_spec (i - 8 * k) 0); [by apply Z.testbit_neg_r|].
      unfold u8. change 256 with (2 ^ 8). apply Z.mod_pow2_bits_high. lia. }
    rewrite orb_false_r. destruct (Z.leb_spec 0 (i - 8 * k)), (Z.ltb_spec (i - 8 * k) 8); cbn [andb negb]; try lia; by rewrite andb_true_r.
Qed.

Lemma byte_with_same w k b : 0 <= k -> byte_of (with_byte w k b) k = u8 b.
Proof.
  intros Hk. apply Z.bits_inj'. intros i Hi. rewrite testbit_byte_of by done. rewrite (proj2 (Z.leb_le 0 i)) by done.
  destruct (Z.ltb_spec i 8); cbn [andb].
  - rewrite testbit_with_byte, decide_True by lia. f_equal. lia.
  - symmetry. unfold u8. change 256 with (2 ^ 8). apply Z.mod_pow2_bits_high. lia.
Qed.

Lemma byte_with_other w k j b : 0 <= k -> 0 <= j -> j <> k -> byte_of (with_byte w k b) j = byte_of w j.
Proof.
  intros Hk Hj Hne. apply Z.bits_inj'. intros i Hi. rewrite !testbit_byte_of by done.
  destruct (Z.ltb_spec i 8); cbn [andb]; [|done]. rewrite testbit_with_byte, decide_False by lia. done.
Qed.

(** ** Bytes of physical memory *)

Lemma page_of_eq pa : page_of pa = pa - pa mod 4096.
Proof.
  unfold page_of. change 4095 with (Z.ones 12). rewrite Z.ldiff_ones_r by lia.
  rewrite Z.shiftl_mul_pow2, Z.shiftr_div_pow2 by lia. change (2 ^ 12) with 4096. zlia.
Qed.
Lemma page_of_mod pa : page_of pa mod 4096 = 0.
Proof. rewrite page_of_eq. zlia. Qed.
Lemma page_of_add p k : p mod 4096 = 0 -> 0 <= k < 4096 -> page_of (p + k) = p.
Proof. intros Hp Hk. rewrite page_of_eq. zlia. Qed.

(** [pg'] is [pg] with the byte at [pa] replaced. *)
Record stored (pa b : Z) (pg pg' : phys) : Prop := {
  sd_pages : forall p, p <> page_of pa -> pg' !! p = pg !! p;
  sd_shape : forall p, is_page pg' p <-> is_page pg p;
  sd_byte : load_byte pg' pa = Some (u8 b);
  sd_other : forall x, x <> pa -> load_byte pg' x = load_byte pg x
}.

Lemma put_word_pages pg p i v q : is_page (put_word pg p i v) q <-> is_page pg q.
Proof.
  split; [|apply put_word_touches]. unfold put_word. destruct (pg !! p) as [ws|] eqn:E; [|done].
  intros (w & Hw & Hl). destruct (decide (q = p)) as [->|Hne].
  - rewrite lookup_insert_eq in Hw. injection Hw as <-. rewrite length_insert in Hl. by exists ws.
  - rewrite lookup_insert_ne in Hw by done. by exists w.
Qed.

Lemma store_byte_ok pg pa b : is_page pg (page_of pa) -> exists pg', store_byte pg pa b = Some pg' /\ stored pa b pg pg'.
Proof.
  intros (ws & Hp & Hl). assert (Hi : 0 <= pa mod 4096 / 8 < 512) by zlia. assert (Hk : 0 <= pa mod 8) by zlia.
  unfold store_byte. rewrite Hp. cbn [mbind option_bind].
  destruct (aget_in ws (pa mod 4096 / 8)) as [w Hw]; [lia|]. rewrite Hw. cbn [mbind option_bind].
  rewrite aset_in by lia. cbn [mbind option_bind]. eexists. split; [done|].
  set (w' := with_byte w (pa mod 8) b). set (ws' := <[Z.to_nat (pa mod 4096 / 8) := w']> ws).
  assert (E : <[page_of pa := ws']> pg = put_word pg (page_of pa) (pa mod 4096 / 8) w') by (unfold put_word; by rewrite Hp).
  assert (Hpage : is_page pg (page_of pa)) by by exists ws. rewrite E. split.
  - intros p Hne. apply put_word_touches. by intros ?%list_elem_of_singleton.
  - intros p. apply put_word_pages.
  - unfold load_byte. rewrite put_word_same by done. cbn [mbind option_bind]. unfold w'. by rewrite byte_with_same.
  - intros x Hx. unfold load_byte. destruct (decide (page_of x = page_of pa)) as [Ep|Ep].
    2: { rewrite put_word_other by (done || by left). done. }
    destruct (decide (x mod 4096 / 8 = pa mod 4096 / 8)) as [Ei|Ei].
    2: { rewrite put_word_other by (done || by right). done. }
    rewrite Ep, Ei, put_word_same by done. unfold word. rewrite Hp. cbn [mbind option_bind]. rewrite Hw. cbn [mbind option_bind].
    f_equal. unfold w'. apply byte_with_other; [done|zlia|]. rewrite !page_of_eq in Ep. zlia.
Qed.

Lemma load_byte_total pg pa : is_page pg (page_of pa) -> exists b, load_byte pg pa = Some b /\ is_byte b.
Proof.
  intros Hp. unfold load_byte. destruct (word_total pg (page_of pa) (pa mod 4096 / 8) Hp) as [w ->]; [zlia|].
  eexists. split; [done|]. apply byte_of_range.
Qed.

Lemma load_byte_same pg pg' pa : pg' !! page_of pa = pg !! page_of pa -> load_byte pg' pa = load_byte pg pa.
Proof. intros E. unfold load_byte, word. by rewrite E. Qed.

(** ** Entries of the tables *)

Lemma low_land a k c msk : 0 <= k -> 0 <= c < 2 ^ k -> 0 <= msk < 2 ^ k -> Z.land (a * 2 ^ k + c) msk = Z.land c msk.
Proof.
  intros Hk Hc Hm. assert (E : msk = Z.land (Z.ones k) msk).
  { rewrite Z.land_comm, Z.land_ones by done. symmetry. by apply Z.mod_small. }
  rewrite E, !Z.land_assoc, !Z.land_ones by done. f_equal. rewrite Z.add_comm, Z_mod_plus_full. done.
Qed.

(** A table entry: present, with its rights, and the table it names. *)
Lemma table_entry f fl : f mod 4096 = 0 -> 0 <= fl < 4096 ->
  present (f + fl) = present fl /\ rights_of (f + fl) = rights_of fl /\ Z.land (f + fl) HUGE = Z.land fl HUGE /\ page_of (f + fl) = f.
Proof.
  intros Hf Hl. unfold present, rights_of. replace (f + fl) with (f / 4096 * 2 ^ 12 + fl) at 1 2 3 by zlia.
  rewrite !low_land by (unfold PRESENT, HUGE; lia). split_and!; [done..|]. by apply page_of_add.
Qed.

Lemma index_eq level va : 0 <= level -> 0 <= va -> index_at level va = va / 2 ^ (12 + 9 * level) mod 512.
Proof. intros Hl Hv. unfold index_at. change 511 with (Z.ones 9). by rewrite Z.land_ones, Z.shiftr_div_pow2 by lia. Qed.

Lemma level_of pg t l va e : word pg t (index_at l va) = Some e ->
  level_entry pg t l va = if present e then Some e else None.
Proof. intros H. unfold level_entry. by rewrite H. Qed.

(** Below the first gigabyte, through the tables [t3], [t2] and [t1]. *)
Lemma walk_upper pg t4 t3 t2 t1 va :
  word pg t4 0 = Some (t3 + 7) -> word pg t3 0 = Some (t2 + 7) -> word pg t2 (va / 2 ^ 21) = Some (t1 + 7) ->
  t3 mod 4096 = 0 -> t2 mod 4096 = 0 -> t1 mod 4096 = 0 -> 0 <= va < 2 ^ 30 ->
  level_entry pg t4 3 va = Some (t3 + 7) /\ level_entry pg t3 2 va = Some (t2 + 7) /\
  level_entry pg t2 1 va = Some (t1 + 7) /\ index_at 0 va = va / 4096 mod 512.
Proof.
  intros H3 H2 H1 A3 A2 A1 Hva.
  assert (I3 : index_at 3 va = 0) by (rewrite index_eq, Z.div_small by (try change (2 ^ (12 + 9 * 3)) with (2 ^ 39); lia); done).
  assert (I2 : index_at 2 va = 0) by (rewrite index_eq, Z.div_small by (try change (2 ^ (12 + 9 * 2)) with (2 ^ 30); lia); done).
  assert (I1 : index_at 1 va = va / 2 ^ 21) by (rewrite index_eq by lia; apply Z.mod_small; zlia).
  rewrite <- I1 in H1. rewrite <- I3 in H3 at 1. rewrite <- I2 in H2 at 1.
  destruct (table_entry t3 7 A3 ltac:(lia)) as (P3 & _). destruct (table_entry t2 7 A2 ltac:(lia)) as (P2 & _).
  destruct (table_entry t1 7 A1 ltac:(lia)) as (P1 & _).
  rewrite (level_of _ _ _ _ _ H3), (level_of _ _ _ _ _ H2), (level_of _ _ _ _ _ H1), P3, P2, P1. by rewrite index_eq by lia.
Qed.

(** ... and the entry of a fourth: a page, or nothing. *)
Lemma walk_low pg t4 t3 t2 t1 f fl va :
  word pg t4 0 = Some (t3 + 7) -> word pg t3 0 = Some (t2 + 7) -> word pg t2 (va / 2 ^ 21) = Some (t1 + 7) ->
  word pg t1 (va / 4096 mod 512) = Some (f + fl) ->
  t3 mod 4096 = 0 -> t2 mod 4096 = 0 -> t1 mod 4096 = 0 -> f mod 4096 = 0 -> fl = 5 \/ fl = 7 -> 0 <= va < 2 ^ 30 ->
  level_entry pg t4 3 va = Some (t3 + 7) /\ level_entry pg t3 2 va = Some (t2 + 7) /\
  level_entry pg t2 1 va = Some (t1 + 7) /\ level_entry pg t1 0 va = Some (f + fl).
Proof.
  intros H3 H2 H1 H0 A3 A2 A1 A0 Hfl Hva. destruct (walk_upper pg t4 t3 t2 t1 va) as (L3 & L2 & L1 & I0); [done..|].
  do 3 (split; [done|]). rewrite <- I0 in H0. destruct (table_entry f fl A0 ltac:(lia)) as (P0 & _).
  rewrite (level_of _ _ _ _ _ H0), P0. by destruct Hfl as [-> | ->].
Qed.

Lemma walk_absent pg t4 t3 t2 t1 va :
  word pg t4 0 = Some (t3 + 7) -> word pg t3 0 = Some (t2 + 7) -> word pg t2 (va / 2 ^ 21) = Some (t1 + 7) ->
  word pg t1 (va / 4096 mod 512) = Some 0 ->
  t3 mod 4096 = 0 -> t2 mod 4096 = 0 -> t1 mod 4096 = 0 -> 0 <= va < 2 ^ 30 -> translate pg t4 va = None.
Proof.
  intros H3 H2 H1 H0 A3 A2 A1 Hva. destruct (walk_upper pg t4 t3 t2 t1 va) as (L3 & L2 & L1 & I0); [done..|].
  destruct (table_entry t3 7 A3 ltac:(lia)) as (_ & _ & _ & G3). destruct (table_entry t2 7 A2 ltac:(lia)) as (_ & _ & _ & G2).
  destruct (table_entry t1 7 A1 ltac:(lia)) as (_ & _ & B1 & G1). rewrite <- I0 in H0.
  unfold translate. rewrite L3. cbn [mbind option_bind]. rewrite G3, L2. cbn [mbind option_bind]. rewrite G2, L1. cbn [mbind option_bind].
  rewrite B1. change (Z.land 7 HUGE) with 0. cbn [negb Z.eqb]. rewrite G1, (level_of _ _ _ _ _ H0). done.
Qed.

Lemma translate_page pg t4 t3 t2 t1 f fl va :
  word pg t4 0 = Some (t3 + 7) -> word pg t3 0 = Some (t2 + 7) -> word pg t2 (va / 2 ^ 21) = Some (t1 + 7) ->
  word pg t1 (va / 4096 mod 512) = Some (f + fl) ->
  t3 mod 4096 = 0 -> t2 mod 4096 = 0 -> t1 mod 4096 = 0 -> f mod 4096 = 0 -> fl = 5 \/ fl = 7 -> 0 <= va < 2 ^ 30 ->
  translate pg t4 va = Some (f + va mod 4096, Z.land fl 6).
Proof.
  intros H3 H2 H1 H0 A3 A2 A1 A0 Hfl Hva. destruct (walk_low pg t4 t3 t2 t1 f fl va) as (L3 & L2 & L1 & L0); [done..|].
  destruct (table_entry t3 7 A3 ltac:(lia)) as (_ & R3 & _ & G3). destruct (table_entry t2 7 A2 ltac:(lia)) as (_ & R2 & _ & G2).
  destruct (table_entry t1 7 A1 ltac:(lia)) as (_ & R1 & B1 & G1). destruct (table_entry f fl A0 ltac:(lia)) as (_ & R0 & _ & G0).
  unfold translate. rewrite L3. cbn [mbind option_bind]. rewrite G3, L2. cbn [mbind option_bind].
  rewrite G2, L1. cbn [mbind option_bind]. rewrite B1. change (Z.land 7 HUGE) with 0. cbn [negb Z.eqb].
  rewrite G1, L0. cbn [mbind option_bind]. rewrite G0, R3, R2, R1, R0, Z.land_ones by lia. by destruct Hfl as [-> | ->].
Qed.

(** A huge leaf entry that maps its own address, as the boot code writes it. *)
Lemma translate_identity pg t4 t3 t2 va :
  word pg t4 0 = Some (t3 + 7) -> word pg t3 0 = Some (t2 + 7) -> word pg t2 (va / 2 ^ 21) = Some (va / 2 ^ 21 * 2097152 + 135) ->
  t3 mod 4096 = 0 -> t2 mod 4096 = 0 -> 0 <= va < 2 ^ 30 -> translate pg t4 va = Some (va, 6).
Proof.
  intros H3 H2 H1 A3 A2 Hva.
  assert (I3 : index_at 3 va = 0) by (rewrite index_eq, Z.div_small by (try change (2 ^ (12 + 9 * 3)) with (2 ^ 39); lia); done).
  assert (I2 : index_at 2 va = 0) by (rewrite index_eq, Z.div_small by (try change (2 ^ (12 + 9 * 2)) with (2 ^ 30); lia); done).
  assert (I1 : index_at 1 va = va / 2 ^ 21) by (rewrite index_eq by lia; apply Z.mod_small; zlia).
  rewrite <- I3 in H3 at 1. rewrite <- I2 in H2 at 1. rewrite <- I1 in H1 at 1.
  destruct (table_entry t3 7 A3 ltac:(lia)) as (P3 & R3 & _ & G3). destruct (table_entry t2 7 A2 ltac:(lia)) as (P2 & R2 & _ & G2).
  unfold translate. rewrite (level_of _ _ _ _ _ H3), P3. change (present 7) with true. cbn [mbind option_bind].
  rewrite G3, (level_of _ _ _ _ _ H2), P2. change (present 7) with true. cbn [mbind option_bind].
  rewrite G2, (level_of _ _ _ _ _ H1). change 2097152 with (2 ^ 21).
  unfold present, rights_of in *. rewrite low_land by (unfold PRESENT; lia). change (negb (Z.land 135 PRESENT =? 0)) with true.
  cbn [mbind option_bind]. rewrite !low_land by (unfold HUGE; lia). change (Z.land 135 HUGE) with 128.
  cbn [negb Z.eqb]. rewrite R3, R2. change (Z.land (Z.land 7 6) (Z.land (Z.land 7 6) (Z.land 135 6))) with 6.
  f_equal. f_equal. rewrite Z.ldiff_ones_r, Z.land_ones by lia. rewrite Z.shiftl_mul_pow2, Z.shiftr_div_pow2 by lia.
  rewrite Z.div_add_l by lia. change (135 / 2 ^ 21) with 0. change (2 ^ 21) with 2097152. zlia.
Qed.

(** ** Addresses outside the tables *)

(** The tables the walk visits. *)
Definition walk_tables (pg : phys) (cr3 va : Z) : list Z :=
  cr3 :: match level_entry pg cr3 3 va with
  | None => []
  | Some e4 => page_of e4 ::
      match level_entry pg (page_of e4) 2 va with
      | None => []
      | Some e3 => page_of e3 ::
          match level_entry pg (page_of e3) 1 va with
          | None => []
          | Some e2 => if negb (Z.land e2 HUGE =? 0) then [] else [page_of e2]
          end
      end
  end.

Lemma level_same pg pg' t level va : pg' !! t = pg !! t -> level_entry pg' t level va = level_entry pg t level va.
Proof. intros E. unfold level_entry, word. by rewrite E. Qed.

Lemma walk_same pg pg' cr3 va :
  (forall t, t ∈ walk_tables pg cr3 va -> pg' !! t = pg !! t) ->
  translate pg' cr3 va = translate pg cr3 va /\ walk_tables pg' cr3 va = walk_tables pg cr3 va.
Proof.
  unfold translate, walk_tables. intros H.
  rewrite (level_same pg pg' cr3) by (apply H; by left). destruct (level_entry pg cr3 3 va) as [e4|]; [|done].
  cbn [mbind option_bind]. rewrite (level_same pg pg' (page_of e4)) by (apply H; right; by left).
  destruct (level_entry pg (page_of e4) 2 va) as [e3|]; [|done]. cbn [mbind option_bind].
  rewrite (level_same pg pg' (page_of e3)) by (apply H; do 2 right; by left).
  destruct (level_entry pg (page_of e3) 1 va) as [e2|]; [|done]. cbn [mbind option_bind].
  destruct (negb (Z.land e2 HUGE =? 0)); [done|].
  rewrite (level_same pg pg' (page_of e2)) by (apply H; do 3 right; by left). done.
Qed.

(** [T] holds the pages of the page tables, and others that data never shares; [va]
    names the byte at [pa], outside [T]. *)
Record names (T : Z -> Prop) (pg : phys) (cr3 va pa : Z) : Prop := {
  nm_translate : exists r, translate pg cr3 va = Some (pa, r);
  nm_tables : Forall T (walk_tables pg cr3 va);
  nm_outside : ~ T (page_of pa);
  nm_page : is_page pg (page_of pa)
}.
Definition buffer (T : Z -> Prop) (pg : phys) (cr3 a n : Z) : Prop := forall k, 0 <= k < n -> exists pa, names T pg cr3 (a + k) pa.

(** An address of a page mapped through tables in [T] to a page outside. *)
Lemma names_low T pg t4 t3 t2 t1 f fl va :
  word pg t4 0 = Some (t3 + 7) -> word pg t3 0 = Some (t2 + 7) -> word pg t2 (va / 2 ^ 21) = Some (t1 + 7) ->
  word pg t1 (va / 4096 mod 512) = Some (f + fl) ->
  Forall (fun t => T t /\ t mod 4096 = 0) [t4; t3; t2; t1] -> ~ T f -> f mod 4096 = 0 -> is_page pg f -> fl = 5 \/ fl = 7 ->
  0 <= va < 2 ^ 30 -> names T pg t4 va (f + va mod 4096).
Proof.
  intros H3 H2 H1 H0 Ht Hf A0 Hp Hfl Hva. rewrite !list.Forall_cons in Ht. destruct Ht as ([T4 A4] & [T3 A3] & [T2 A2] & [T1 A1] & _).
  destruct (walk_low pg t4 t3 t2 t1 f fl va) as (L3 & L2 & L1 & L0); [done..|].
  destruct (table_entry t3 7 A3 ltac:(lia)) as (_ & _ & _ & G3). destruct (table_entry t2 7 A2 ltac:(lia)) as (_ & _ & _ & G2).
  destruct (table_entry t1 7 A1 ltac:(lia)) as (_ & _ & B1 & G1). destruct (table_entry f fl A0 ltac:(lia)) as (_ & _ & _ & G0).
  split.
  - eexists. unfold translate. rewrite L3. cbn [mbind option_bind]. rewrite G3, L2. cbn [mbind option_bind].
    rewrite G2, L1. cbn [mbind option_bind]. rewrite B1. change (Z.land 7 HUGE) with 0. cbn [negb Z.eqb].
    rewrite G1, L0. cbn [mbind option_bind]. rewrite G0. change (Z.ones 12) with (Z.ones 12). rewrite Z.land_ones by lia. done.
  - unfold walk_tables. rewrite L3, G3, L2, G2, L1, B1, G1. change (Z.land 7 HUGE) with 0. cbn [negb Z.eqb].
    repeat (constructor; [done|]). constructor.
  - by rewrite page_of_add by zlia.
  - by rewrite page_of_add by zlia.
Qed.

(** Memory after stores outside [T]. *)
Record same_tables (T : Z -> Prop) (pg pg' : phys) : Prop := {
  st_tables : forall p, T p -> pg' !! p = pg !! p;
  st_pages : forall p, is_page pg' p <-> is_page pg p
}.

#[export] Instance same_tables_equivalence T : Equivalence (same_tables T).
Proof.
  split.
  - done.
  - intros pg pg' [H1 H2]. split; [intros p Hp; by rewrite H1|intros p; by rewrite H2].
  - intros pg1 pg2 pg3 [H1 H2] [H3 H4]. split; [intros p Hp; by rewrite H3, H1|intros p; by rewrite H4, H2].
Qed.

Lemma names_same T pg pg' cr3 va pa : same_tables T pg pg' -> names T pg cr3 va pa -> names T pg' cr3 va pa.
Proof.
  intros [S1 S2] [(r & H1) H2 H3 H4]. destruct (walk_same pg pg' cr3 va) as [E1 E2].
  { intros t Ht. apply S1. rewrite list.Forall_forall in H2. by apply H2. }
  split; [exists r; by rewrite E1|by rewrite E2|done|by apply S2].
Qed.
#[export] Instance names_proper T : Proper (same_tables T ==> eq ==> eq ==> eq ==> iff) (names T).
Proof. intros pg pg' Hs c ? <- va ? <- pa ? <-. split; apply names_same; [done|by symmetry]. Qed.
#[export] Instance buffer_proper T : Proper (same_tables T ==> eq ==> eq ==> eq ==> iff) (buffer T).
Proof. intros pg pg' Hs c ? <- a ? <- n ? <-. unfold buffer. by setoid_rewrite Hs. Qed.

Lemma names_fun T pg cr3 va pa pa' : names T pg cr3 va pa -> names T pg cr3 va pa' -> pa = pa'.
Proof. intros [(r & H) _ _ _] [(r' & H') _ _ _]. congruence. Qed.
Lemma buffer_part T pg cr3 a n b k : buffer T pg cr3 a n -> 0 <= b -> b + k <= n -> buffer T pg cr3 (a + b) k.
Proof. intros H Hb Hk i Hi. rewrite <- Z.add_assoc. apply H. lia. Qed.

Lemma load_names T pg cr3 va pa : names T pg cr3 va pa -> load_user pg cr3 va = load_byte pg pa.
Proof. intros [(r & H) _ _ _]. unfold load_user. by rewrite H. Qed.

Lemma store_names T pg cr3 va pa b : names T pg cr3 va pa ->
  exists pg', store_user pg cr3 va b = Some pg' /\ same_tables T pg pg' /\ stored pa b pg pg'.
Proof.
  intros [(r & H) _ Ho Hp]. unfold store_user. rewrite H. cbn [mbind option_bind].
  destruct (store_byte_ok pg pa b Hp) as (pg' & -> & Hs). exists pg'. split; [done|]. split; [|done].
  split; [|apply Hs]. intros p HT. apply Hs. by intros ->.
Qed.

(** Memory after the bytes [l] were stored at [a]: nothing else changed, and where
    the addresses name distinct bytes they read back. *)
Record wrote (T : Z -> Prop) (cr3 a : Z) (l : list Z) (pg pg' : phys) : Prop := {
  wr_same : same_tables T pg pg';
  wr_other : forall x, (forall k, 0 <= k < Z.of_nat (length l) -> ~ names T pg cr3 (a + k) x) -> load_byte pg' x = load_byte pg x;
  wr_pages : forall p, (forall k x, 0 <= k < Z.of_nat (length l) -> names T pg cr3 (a + k) x -> page_of x <> p) -> pg' !! p = pg !! p;
  wr_read : (forall j k x, 0 <= j < Z.of_nat (length l) -> 0 <= k < Z.of_nat (length l) ->
      names T pg cr3 (a + j) x -> names T pg cr3 (a + k) x -> j = k) ->
    forall k v, l.[k] = Some v -> load_user pg' cr3 (a + k) = Some (u8 v)
}.

Lemma wrote_nil T cr3 a pg : wrote T cr3 a [] pg pg.
Proof. split; [done|done|done|]. intros _ k v Hk. apply aget_bound in Hk. cbn in Hk. lia. Qed.

Lemma aget_cons {A} (v : A) l k : (v :: l).[k] = if decide (k = 0) then Some v else l.[k - 1].
Proof.
  unfold aget. destruct (decide (k = 0)) as [->|]; [done|]. destruct (Z.leb_spec 0 k), (Z.leb_spec 0 (k - 1)); try lia; [|done].
  by replace (Z.to_nat k) with (S (Z.to_nat (k - 1))) by lia.
Qed.

Lemma wrote_cons T cr3 a v l pg pg1 pg' pa :
  names T pg cr3 a pa -> same_tables T pg pg1 -> stored pa v pg pg1 ->
  wrote T cr3 (a + 1) l pg1 pg' -> wrote T cr3 a (v :: l) pg pg'.
Proof.
  intros Hn Hs [S1 S2 S3 S4] [W1 W2 W3 W4]. rewrite <- (Z.add_0_r a) in Hn.
  assert (Hnext : forall k x, names T pg1 cr3 (a + 1 + k) x <-> names T pg cr3 (a + (k + 1)) x).
  { intros k x. rewrite <- Hs. by replace (a + (k + 1)) with (a + 1 + k) by lia. }
  split; cbn [length].
  - by etransitivity.
  - intros x Hx. rewrite W2; [apply S4|].
    + intros ->. by apply (Hx 0 ltac:(lia)).
    + intros k Hk Hnk%Hnext. by apply (Hx (k + 1) ltac:(lia)).
  - intros p Hp. rewrite W3.
    + apply S1. intros ->. by apply (Hp 0 pa ltac:(lia)).
    + intros k x Hk Hnk%Hnext. by apply (Hp (k + 1) x ltac:(lia)).
  - intros Hinj k w Hk. rewrite aget_cons in Hk. case_decide as E.
    + subst k. injection Hk as <-. rewrite (load_names T _ _ _ pa) by (rewrite <- W1, <- Hs; done).
      rewrite W2; [done|]. intros j Hj Hnj%Hnext. assert (0 = j + 1); [|lia]. by apply (Hinj 0 (j + 1) pa); [lia..| |].
    + replace (a + k) with (a + 1 + (k - 1)) by lia. apply W4; [|done]. intros i j x Hi Hj Hni%Hnext Hnj%Hnext.
      assert (i + 1 = j + 1); [|lia]. by apply (Hinj (i + 1) (j + 1) x); [lia..| |].
Qed.

Lemma write_chunk_ok T cr3 l : forall a pg, buffer T pg cr3 a (Z.of_nat (length l)) ->
  exists pg', write_chunk cr3 a l pg = Some pg' /\ wrote T cr3 a l pg pg'.
Proof.
  induction l as [|v l IH]; intros a pg Hb; cbn [write_chunk length] in *; [by exists pg; split; [|apply wrote_nil]|].
  destruct (Hb 0 ltac:(lia)) as [pa Hn]. rewrite Z.add_0_r in Hn.
  destruct (store_names T pg cr3 a pa v Hn) as (pg1 & -> & Hs & Hst). cbn [mbind option_bind].
  destruct (IH (a + 1) pg1) as (pg' & -> & Hw).
  { rewrite <- Hs. apply (buffer_part T pg cr3 a (Z.of_nat (S (length l))) 1); [done|lia..]. }
  exists pg'. split; [done|]. by eapply wrote_cons.
Qed.

Lemma write_chunk_app cr3 l1 : forall a l2 pg,
  write_chunk cr3 a (l1 ++ l2) pg = pg1 ← write_chunk cr3 a l1 pg; write_chunk cr3 (a + Z.of_nat (length l1)) l2 pg1.
Proof.
  induction l1 as [|v l IH]; intros a l2 pg; cbn [write_chunk app length]; [by rewrite Z.add_0_r|].
  destruct (store_user pg cr3 a v); [|done]. cbn [mbind option_bind]. rewrite IH. by replace (a + 1 + Z.of_nat (length l)) with (a + Z.of_nat (S (length l))) by lia.
Qed.

(** Reading a buffer. *)
Lemma read_chunk_ok T cr3 a n pg : buffer T pg cr3 a n -> 0 <= n ->
  exists l, read_chunk cr3 a n pg = Some l /\ Z.of_nat (length l) = n /\ bytes_ok l /\
    forall k, 0 <= k < n -> l.[k] = load_user pg cr3 (a + k).
Proof.
  intros Hb Hn. unfold read_chunk.
  destruct (mapM (fun k => load_user pg cr3 (a + k)) (seqZ 0 n)) as [l|] eqn:E.
  - pose proof E as E0. apply mapM_Some in E. pose proof (length_mapM _ _ _ E0) as El. rewrite length_seqZ in El.
    exists l. split; [done|]. split; [lia|].
    assert (Hk : forall k, 0 <= k < n -> l.[k] = load_user pg cr3 (a + k)).
    { intros k Hk. destruct (aget_in l k) as [b Hb']; [lia|]. rewrite Hb'. apply aget_Some in Hb' as [_ Hb'].
      destruct (Forall2_lookup_r _ _ _ _ _ E Hb') as (j & Hj & Hl). apply lookup_seqZ in Hj as [-> _].
      rewrite <- Hl. do 2 f_equal. lia. }
    split; [|done]. apply list.Forall_forall. intros b [i Hi]%list_elem_of_lookup.
    pose proof (lookup_lt_Some _ _ _ Hi) as Hlt. rewrite <- aget_nat in Hi. rewrite Hk in Hi by lia.
    destruct (Hb (Z.of_nat i) ltac:(lia)) as [pa Hpa]. rewrite (load_names _ _ _ _ _ Hpa) in Hi.
    destruct (load_byte_total pg pa (nm_page _ _ _ _ _ Hpa)) as (b' & Hb' & ?). congruence.
  - exfalso. apply mapM_None in E as (k & Hk & Hnone)%Exists_exists. apply list_elem_of_In, elem_of_seqZ in Hk.
    destruct (Hb k ltac:(lia)) as [pa Hpa]. rewrite (load_names _ _ _ _ _ Hpa) in Hnone.
    destruct (load_byte_total pg pa (nm_page _ _ _ _ _ Hpa)) as (b' & Hb' & ?). congruence.
Qed.

Lemma read_chunk_bytes cr3 a n pg l : read_chunk cr3 a n pg = Some l -> bytes_ok l.
Proof.
  intros H. apply list.Forall_forall. intros b Hb. apply mapM_Some in H. apply list_elem_of_lookup in Hb as (i & Hi).
  destruct (Forall2_lookup_r _ _ _ _ _ H Hi) as (k & _ & Hk). unfold load_user in Hk.
  destruct (translate pg cr3 (a + k)) as [[pa r]|]; [|done]. cbn [mbind option_bind] in Hk. unfold load_byte in Hk. peel Hk. injection Hk as <-.
  apply byte_of_range.
Qed.
Lemma read_chunk_length cr3 a n pg l : 0 <= n -> read_chunk cr3 a n pg = Some l -> Z.of_nat (length l) = n.
Proof. intros Hn H. apply length_mapM in H. rewrite length_seqZ in H. lia. Qed.

(** The condition, by evaluation, for a list of tables. *)
Definition names_checked (tables : list Z) (pg : phys) (cr3 va : Z) : bool :=
  match translate pg cr3 va with
  | Some (pa, _) =>
      bool_decide (Forall (fun t => t ∈ tables) (walk_tables pg cr3 va)) && negb (bool_decide (page_of pa ∈ tables))
      && match pg !! page_of pa with Some ws => (length ws =? 512)%nat | None => false end
  | None => false
  end.
Lemma buffer_checked tables pg cr3 a n :
  forallb (fun k => names_checked tables pg cr3 (a + k)) (seqZ 0 n) = true -> buffer (fun p => p ∈ tables) pg cr3 a n.
Proof.
  intros H k Hk. rewrite forallb_forall in H. specialize (H k). rewrite <- list_elem_of_In, elem_of_seqZ in H.
  specialize (H ltac:(lia)). unfold names_checked in H. destruct (translate pg cr3 (a + k)) as [[pa r]|] eqn:E; [|done].
  apply andb_true_iff in H as [[H1%bool_decide_eq_true H2]%andb_true_iff H3]. apply negb_true_iff, bool_decide_eq_false in H2.
  exists pa. split; [by exists r|done|done|]. destruct (pg !! page_of pa) as [ws|] eqn:Ep; [|done]. apply Nat.eqb_eq in H3. by exists ws.
Qed.
