(* ===== verification/UserMemory.v ===== *)
(** User memory, from [src/arch/x86_64/userspace.c] and the frame allocator of
    [mako/kernel_probe.mko]: frames recycled through a free list threaded
    through the frames themselves, the anonymous region, large executables,
    read-only surface mappings, the range checks of the system-call boundary,
    and copies into another address space.

    The kernel reaches physical memory through its identity map: a page is its
    address, and an access is to a word of one page. Memory at user addresses is
    what the page tables of the active address space make of it. *)

From stdpp Require Import gmap.
From S2P Require Import Prelude PhysicalMemory Surface.

Definition PROCESS_LIMIT : Z := 8.
Definition USERSPACE_CODE_PAGES : Z := 48.
Definition USERSPACE_HEAP_PAGES : Z := 5.
Definition USERSPACE_STACK_PAGES : Z := 128.
Definition USER_CODE : Z := 3145728.
Definition USER_CODE_SIZE : Z := USERSPACE_CODE_PAGES * 4096.
Definition USER_HEAP : Z := USER_CODE + USER_CODE_SIZE.
Definition USER_HEAP_SIZE : Z := USERSPACE_HEAP_PAGES * 4096.
Definition USER_STACK_PAGE : Z := USER_HEAP + USER_HEAP_SIZE.
Definition USER_STACK_SIZE : Z := USERSPACE_STACK_PAGES * 4096.
Definition USER_ADDRESS_END : Z := USER_STACK_PAGE + USER_STACK_SIZE.
Definition USER_ANON_BASE : Z := 268435456.
Definition USER_ANON_MAX_BYTES : Z := 24 * 1024 * 1024.
Definition USER_LARGE_CODE_BASE : Z := 536870912.
Definition USER_LARGE_CODE_MAX_PAGES : Z := 320.
Definition USER_SURFACE_MAP_BASE : Z := 402653184.
Definition USER_SURFACE_MAP_PAGES : Z := 300.
Definition USER_SURFACE_MAP_SLOTS : Z := 4.
Definition USER_SURFACE_MAP_SLOT_STRIDE : Z := 2097152.
Definition USER_SURFACE_MAP_REGION_SIZE : Z := USER_SURFACE_MAP_SLOTS * USER_SURFACE_MAP_SLOT_STRIDE.
Definition USER_SURFACE_MAP_SLOT_BASE (slot : Z) : Z :=
  USER_SURFACE_MAP_BASE + slot * USER_SURFACE_MAP_SLOT_STRIDE.

(** ** Data *)

Record userspace_memory := UserSpace {
  address_space : Z; page_directory : Z; page_table : Z; code_page_count : Z;
  code_frames : list Z; heap_frames : list Z; stack_frames : list Z
}.

Record user_memory := UserMemory {
  process_memory : list userspace_memory;
  process_memory_used : list bool;
  mapped_surface : list (list Z);
  anonymous_free_frames : Z;
  anonymous_page_count : list Z;
  anonymous_reserved_pages : list Z;
  large_code_frames : list (list Z);
  large_code_page_count : list Z;
  large_code_page_table : list Z;
  surface_map_page_table : list (list Z);
  next_frame : Z; region_end : Z;       (* the two words of the frame allocator *)
  pages : phys                          (* physical memory, by page *)
}.

Definition set_used (u : list bool) (m : user_memory) : user_memory :=
  UserMemory m.(process_memory) u m.(mapped_surface) m.(anonymous_free_frames)
    m.(anonymous_page_count) m.(anonymous_reserved_pages) m.(large_code_frames)
    m.(large_code_page_count) m.(large_code_page_table) m.(surface_map_page_table)
    m.(next_frame) m.(region_end) m.(pages).
Definition set_mapped (s : list (list Z)) (m : user_memory) : user_memory :=
  UserMemory m.(process_memory) m.(process_memory_used) s m.(anonymous_free_frames)
    m.(anonymous_page_count) m.(anonymous_reserved_pages) m.(large_code_frames)
    m.(large_code_page_count) m.(large_code_page_table) m.(surface_map_page_table)
    m.(next_frame) m.(region_end) m.(pages).
Definition set_pool (free next : Z) (pg : phys) (m : user_memory) : user_memory :=
  UserMemory m.(process_memory) m.(process_memory_used) m.(mapped_surface) free
    m.(anonymous_page_count) m.(anonymous_reserved_pages) m.(large_code_frames)
    m.(large_code_page_count) m.(large_code_page_table) m.(surface_map_page_table)
    next m.(region_end) pg.
Definition set_pages (pg : phys) (m : user_memory) : user_memory :=
  set_pool m.(anonymous_free_frames) m.(next_frame) pg m.
Definition set_anonymous (counts reserved : list Z) (m : user_memory) : user_memory :=
  UserMemory m.(process_memory) m.(process_memory_used) m.(mapped_surface) m.(anonymous_free_frames)
    counts reserved m.(large_code_frames)
    m.(large_code_page_count) m.(large_code_page_table) m.(surface_map_page_table)
    m.(next_frame) m.(region_end) m.(pages).
Definition set_large (frames : list (list Z)) (counts tables : list Z) (m : user_memory) : user_memory :=
  UserMemory m.(process_memory) m.(process_memory_used) m.(mapped_surface) m.(anonymous_free_frames)
    m.(anonymous_page_count) m.(anonymous_reserved_pages) frames counts tables
    m.(surface_map_page_table) m.(next_frame) m.(region_end) m.(pages).
Definition set_surface_tables (t : list (list Z)) (m : user_memory) : user_memory :=
  UserMemory m.(process_memory) m.(process_memory_used) m.(mapped_surface) m.(anonymous_free_frames)
    m.(anonymous_page_count) m.(anonymous_reserved_pages) m.(large_code_frames)
    m.(large_code_page_count) m.(large_code_page_table) t
    m.(next_frame) m.(region_end) m.(pages).
(** Writes of the per-process arrays. *)
Definition set_anonymous_count (pid n : Z) (m : user_memory) : option user_memory :=
  l ← m.(anonymous_page_count).[pid <- n]; Some (set_anonymous l m.(anonymous_reserved_pages) m).
Definition set_reserved (pid n : Z) (m : user_memory) : option user_memory :=
  l ← m.(anonymous_reserved_pages).[pid <- n]; Some (set_anonymous m.(anonymous_page_count) l m).
Definition set_large_count (pid n : Z) (m : user_memory) : option user_memory :=
  l ← m.(large_code_page_count).[pid <- n]; Some (set_large m.(large_code_frames) l m.(large_code_page_table) m).
Definition set_large_table (pid t : Z) (m : user_memory) : option user_memory :=
  l ← m.(large_code_page_table).[pid <- t]; Some (set_large m.(large_code_frames) m.(large_code_page_count) l m).
Definition set_large_frame (pid page f : Z) (m : user_memory) : option user_memory :=
  fs ← m.(large_code_frames).[pid]; fs ← fs.[page <- f];
  l ← m.(large_code_frames).[pid <- fs];
  Some (set_large l m.(large_code_page_count) m.(large_code_page_table) m).
Definition set_mapped_slot (pid slot id : Z) (m : user_memory) : option user_memory :=
  s ← m.(mapped_surface).[pid]; s ← s.[slot <- id];
  l ← m.(mapped_surface).[pid <- s]; Some (set_mapped l m).
Definition set_surface_table (pid slot t : Z) (m : user_memory) : option user_memory :=
  s ← m.(surface_map_page_table).[pid]; s ← s.[slot <- t];
  l ← m.(surface_map_page_table).[pid <- s]; Some (set_surface_tables l m).

(** ** Physical words *)

Definition load_word (page index : Z) (m : user_memory) : option Z :=
  ws ← m.(pages) !! page; ws.[index].
Definition store_word (page index v : Z) (m : user_memory) : option user_memory :=
  ws ← m.(pages) !! page; ws ← ws.[index <- v]; Some (set_pages (<[page := ws]> m.(pages)) m).
Definition directory_of (pid : Z) (m : user_memory) : option Z :=
  p ← m.(process_memory).[pid]; Some p.(page_directory).

(** ** Frames *)

(** The Mako bump allocator; 0 is failure. *)
Definition mako_frame_allocate (next region_end : Z) : Z * Z :=
  if next =? 0 then (0, next) else
  let following := u64 (next + 4096) in
  if following <? next then (0, next) else
  if region_end <? following then (0, next) else (next, following).

Definition anonymous_frame_take (m : user_memory) : option (Z * user_memory) :=
  '(frame, m) ← (if negb (m.(anonymous_free_frames) =? 0) then
                   link ← load_word m.(anonymous_free_frames) 0 m;
                   Some (m.(anonymous_free_frames), set_pool link m.(next_frame) m.(pages) m)
                 else
                   let '(f, next) := mako_frame_allocate m.(next_frame) m.(region_end) in
                   Some (f, set_pool m.(anonymous_free_frames) next m.(pages) m));
  if frame =? 0 then Some (0, m) else
  ws ← m.(pages) !! frame; ws ← fill ws 0 0 512;
  Some (frame, set_pages (<[frame := ws]> m.(pages)) m).

Definition anonymous_frame_release (frame : Z) (m : user_memory) : option user_memory :=
  if frame =? 0 then Some m else
  m ← store_word frame 0 m.(anonymous_free_frames) m;
  Some (set_pool frame m.(next_frame) m.(pages) m).

Definition bad_pid (pid : Z) : bool := (pid =? 0) || (PROCESS_LIMIT <=? pid).

(** ** Large executables *)

Definition large_frame_release (pid page : Z) (m : user_memory) : option user_memory :=
  fs ← m.(large_code_frames).[pid]; f ← fs.[page];
  m ← anonymous_frame_release f m; set_large_frame pid page 0 m.

Definition large_code_release (pid : Z) (m : user_memory) : option user_memory :=
  if bad_pid pid then Some m else
  dir ← directory_of pid m;
  m ← store_word dir (Z.shiftr USER_LARGE_CODE_BASE 21) 0 m;
  n ← m.(large_code_page_count).[pid];
  m ← for_up (Z.to_nat n) 0 (large_frame_release pid) m;
  m ← set_large_count pid 0 m;
  t ← m.(large_code_page_table).[pid];
  m ← anonymous_frame_release t m;
  set_large_table pid 0 m.

(** The frame loop of [large_code_load]: [None] inside when frames run out. *)
Fixpoint large_code_frames_take (n : nat) (page pid table : Z) (m : user_memory)
  : option (bool * user_memory) :=
  match n with
  | O => Some (true, m)
  | S n' =>
      '(frame, m) ← anonymous_frame_take m;
      if frame =? 0 then
        m ← set_large_count pid page m; m ← large_code_release pid m; Some (false, m)
      else
        m ← set_large_frame pid page frame m;
        m ← set_large_count pid (page + 1) m;
        m ← store_word table page (frame + 7) m;
        large_code_frames_take n' (page + 1) pid table m
  end.

(** ** The anonymous region *)

(** One page of [anonymous_release]. *)
Definition anonymous_page_release (table page : Z) (m : user_memory) : option user_memory :=
  e ← load_word table page m;
  m ← (if negb (Z.land e 1 =? 0) then anonymous_frame_release (page_of e) m else Some m);
  store_word table page 0 m.

(** One page table of [anonymous_release]. *)
Definition anonymous_table_release (pid dir table : Z) (m : user_memory) : option user_memory :=
  let index := Z.shiftr USER_ANON_BASE 21 + table in
  entry ← load_word dir index m;
  if (Z.land entry 1 =? 0) || negb (Z.land entry 128 =? 0) then Some m else
  count ← m.(anonymous_page_count).[pid];
  let left := count - table * 512 in
  m ← for_up (Z.to_nat (if 512 <? left then 512 else left)) 0 (anonymous_page_release (page_of entry)) m;
  m ← store_word dir index (index * 2097152 + 135) m;
  anonymous_frame_release (page_of entry) m.

Definition anonymous_release (pid : Z) (m : user_memory) : option user_memory :=
  if bad_pid pid then Some m else
  count ← m.(anonymous_page_count).[pid];
  if count =? 0 then set_reserved pid 0 m else
  dir ← directory_of pid m;
  m ← for_up (Z.to_nat ((count + 511) / 512)) 0 (anonymous_table_release pid dir) m;
  m ← set_anonymous_count pid 0 m;
  set_reserved pid 0 m.

(** The page table of a page, taken and entered at every 512th; 0 is failure. *)
Definition anonymous_page_table (dir page : Z) (m : user_memory) : option (Z * user_memory) :=
  let index := Z.shiftr USER_ANON_BASE 21 + page / 512 in
  if page mod 512 =? 0 then
    '(t, m) ← anonymous_frame_take m;
    if t =? 0 then Some (0, m) else
    m ← store_word dir index (t + 7) m; Some (t, m)
  else e ← load_word dir index m; Some (page_of e, m).

(** One page of [anonymous_commit_pages]. *)
Definition anonymous_commit_page (pid dir flags page : Z) (m : user_memory)
  : option (bool * user_memory) :=
  let index := Z.shiftr USER_ANON_BASE 21 + page / 512 in
  '(table, m) ← anonymous_page_table dir page m;
  if (page mod 512 =? 0) && (table =? 0) then Some (false, m) else
  '(frame, m) ← anonymous_frame_take m;
  if frame =? 0 then
    if page mod 512 =? 0 then
      e ← load_word dir index m;
      m ← anonymous_frame_release (page_of e) m;
      m ← store_word dir index (index * 2097152 + 135) m;
      Some (false, m)
    else Some (false, m)
  else
    m ← store_word table (page mod 512) (Z.lor frame flags) m;
    m ← set_anonymous_count pid (page + 1) m;
    Some (true, m).

Fixpoint anonymous_commit_from (n : nat) (page pid dir flags : Z) (m : user_memory)
  : option (bool * user_memory) :=
  match n with
  | O => Some (true, m)
  | S n' =>
      '(ok, m) ← anonymous_commit_page pid dir flags page m;
      if negb ok then Some (false, m) else anonymous_commit_from n' (page + 1) pid dir flags m
  end.

Definition anonymous_commit_pages (pid start_page end_page : Z) (writable : bool) (m : user_memory)
  : option (bool * user_memory) :=
  dir ← directory_of pid m;
  let flags := Z.lor 5 (if writable then 2 else 0) in
  anonymous_commit_from (Z.to_nat (end_page - start_page)) start_page pid dir flags m.

Definition anonymous_map (pid byte_count : Z) (m : user_memory) : option (Z * user_memory) :=
  if bad_pid pid || (byte_count =? 0) || (USER_ANON_MAX_BYTES <? byte_count) then Some (U64_MAX, m) else
  count ← m.(anonymous_page_count).[pid];
  reserved ← m.(anonymous_reserved_pages).[pid];
  if negb (count =? 0) || negb (reserved =? 0) || (U64_MAX - 4095 <? byte_count) then Some (U64_MAX, m) else
  '(ok, m) ← anonymous_commit_pages pid 0 ((byte_count + 4095) / 4096) true m;
  if negb ok then m ← anonymous_release pid m; Some (U64_MAX, m) else Some (USER_ANON_BASE, m).

Definition anonymous_reserve (pid byte_count : Z) (m : user_memory) : option (Z * user_memory) :=
  if bad_pid pid || (byte_count =? 0) || (USER_ANON_MAX_BYTES <? byte_count) then Some (U64_MAX, m) else
  count ← m.(anonymous_page_count).[pid];
  reserved ← m.(anonymous_reserved_pages).[pid];
  if negb (count =? 0) || negb (reserved =? 0) || (U64_MAX - 4095 <? byte_count) then Some (U64_MAX, m) else
  m ← set_reserved pid ((byte_count + 4095) / 4096) m;
  Some (USER_ANON_BASE, m).

Definition anonymous_commit (pid byte_count : Z) (writable : bool) (m : user_memory)
  : option (Z * user_memory) :=
  if bad_pid pid || (byte_count =? 0) then Some (U64_MAX, m) else
  reserved ← m.(anonymous_reserved_pages).[pid];
  if (reserved =? 0) || (U64_MAX - 4095 <? byte_count) then Some (U64_MAX, m) else
  let new_pages := (byte_count + 4095) / 4096 in
  start ← m.(anonymous_page_count).[pid];
  if u64 (reserved - start) <? new_pages then Some (U64_MAX, m) else
  '(ok, m) ← anonymous_commit_pages pid start (start + new_pages) writable m;
  Some (if negb ok then U64_MAX else USER_ANON_BASE + start * 4096, m).

(** ** Range checks of the system-call boundary *)

(** [address <= end && length <= end - address] above [base]. *)
Definition inside (base end_ address length : Z) : bool :=
  (base <=? address) && (address <=? end_) && (length <=? end_ - address).

Definition anonymous_range (pid address length : Z) (m : user_memory) : option bool :=
  if bad_pid pid then Some false else
  count ← m.(anonymous_page_count).[pid];
  Some (negb (count =? 0) && inside USER_ANON_BASE (USER_ANON_BASE + count * 4096) address length).

(** The heap and stack, code, and large-code tests shared by both checks;
    [pid] is the current process. *)
Definition user_write_range (pid address length : Z) (m : user_memory) : option bool :=
  a ← anonymous_range pid address length m;
  if (a : bool) then Some true else
  if inside USER_HEAP USER_ADDRESS_END address length then Some true else
  if bad_pid pid then Some false else
  used ← m.(process_memory_used).[pid];
  p ← m.(process_memory).[pid];
  if used && inside USER_CODE (USER_CODE + p.(code_page_count) * 4096) address length then Some true else
  large ← m.(large_code_page_count).[pid];
  Some (negb (large =? 0) &&
        inside USER_LARGE_CODE_BASE (USER_LARGE_CODE_BASE + large * 4096) address length).

Definition user_range (pid address length : Z) (m : user_memory) : option bool :=
  w ← user_write_range pid address length m;
  if (w : bool) then Some true else
  if bad_pid pid || negb (inside USER_SURFACE_MAP_BASE
                            (USER_SURFACE_MAP_BASE + USER_SURFACE_MAP_REGION_SIZE) address length)
  then Some false else
  let slot := (address - USER_SURFACE_MAP_BASE) / USER_SURFACE_MAP_SLOT_STRIDE in
  if negb (slot <? USER_SURFACE_MAP_SLOTS) then Some false else
  slots ← m.(mapped_surface).[pid];
  id ← slots.[slot];
  Some (negb (id =? 0) &&
        (length <=? USER_SURFACE_MAP_SLOT_BASE slot + USER_SURFACE_MAP_SLOT_STRIDE - address)).

(** ** Copies into a process *)

(** The chunk loop, with 64-byte chunks; [None]: [data] is too short. *)
Fixpoint copy_chunks (fuel : nat) (space address copied length_ : Z) (data : list Z) (pg : phys) : option phys :=
  if length_ <=? copied then Some pg else
  match fuel with
  | O => None
  | S fuel =>
      let left := length_ - copied in
      let amount := if 64 <? left then 64 else left in
      chunk ← copy_into (replicate 64 0) 0 data copied (Z.to_nat amount);
      pg ← write_chunk space (address + copied) (take (Z.to_nat amount) chunk) pg;
      copy_chunks fuel space address (copied + amount) length_ data pg
  end.

(** [current] is the running process; [data] is [None] for a null pointer. *)
Definition userspace_copy_to (current pid address : Z) (data : option (list Z)) (length_ : Z)
    (m : user_memory) : option (bool * user_memory) :=
  if bad_pid pid then Some (false, m) else
  used ← m.(process_memory_used).[pid];
  match data with
  | Some data =>
      if negb used then Some (false, m) else
      w ← user_write_range current address length_ m;
      if negb w then Some (false, m) else
      p ← m.(process_memory).[pid];
      pg ← copy_chunks (Z.to_nat (length_ / 64 + 1)) p.(address_space) address 0 length_ data m.(pages);
      Some (true, set_pages pg m)
  | None => Some (false, m)
  end.

(** ** Surface mappings *)

(** Entry [page] of a slot's table: read-only user pages, then nothing. *)
Fixpoint surface_ptes (n : nat) (page table physical page_count : Z) (present : bool)
    (m : user_memory) : option user_memory :=
  match n with
  | O => Some m
  | S n' =>
      m ← store_word table page
            (if present && (page <? page_count) then physical + page * 4096 + 5 else 0) m;
      surface_ptes n' (page + 1) table physical page_count present m
  end.

Definition edit_surface_ptes (pid slot physical page_count : Z) (present : bool) (m : user_memory)
  : option (bool * user_memory) :=
  slots ← m.(surface_map_page_table).[pid]; t ← slots.[slot];
  m ← (if t =? 0 then
         '(table, m) ← anonymous_frame_take m;
         if table =? 0 then Some m else
         m ← set_surface_table pid slot table m;
         dir ← directory_of pid m;
         store_word dir (Z.shiftr (USER_SURFACE_MAP_SLOT_BASE slot) 21) (table + 7) m
       else Some m);
  slots ← m.(surface_map_page_table).[pid]; table ← slots.[slot];
  if table =? 0 then Some (false, m) else
  m ← surface_ptes 300 0 table physical page_count present m;
  Some (true, m).

(** The slot scan of [map_surface_readonly]: the slot that already maps the
    object, or else the first free one. *)
Fixpoint find_slot (n : nat) (slot object_id : Z) (free : option Z) (slots : list Z)
  : option (option Z * option Z) :=
  match n with
  | O => Some (None, free)
  | S n' =>
      id ← slots.[slot];
      if id =? object_id then Some (Some slot, free) else
      find_slot n' (slot + 1) object_id
        (match free with None => if id =? 0 then Some slot else None | _ => free end) slots
  end.

(** [arena] is the physical address of the pixel arena. *)
Definition map_surface_readonly (arena pid object_id : Z) (m : user_memory) (s : surfaces)
  : option (option Z * user_memory * surfaces) :=
  if bad_pid pid then Some (None, m, s) else
  used ← m.(process_memory_used).[pid];
  if negb used then Some (None, m, s) else
  slots ← m.(mapped_surface).[pid];
  '(found, free) ← find_slot 4 0 object_id None slots;
  match found, free with
  | Some slot, _ => Some (Some (USER_SURFACE_MAP_SLOT_BASE slot), m, s)
  | None, None => Some (None, m, s)
  | None, Some slot =>
      '(d, s) ← surface_mapping_data object_id s;
      match d with
      | None => Some (None, m, s)
      | Some (offset, page_count) =>
          let physical := arena + offset in
          if (page_count =? 0) || (USER_SURFACE_MAP_PAGES <? page_count)
             || negb (Z.land physical 4095 =? 0) then Some (None, m, s) else
          '(ok, s) ← surface_retain object_id s;
          if negb ok then Some (None, m, s) else
          '(ok, m) ← edit_surface_ptes pid slot physical page_count true m;
          if negb ok then '(_, s) ← surface_release object_id s; Some (None, m, s) else
          m ← set_mapped_slot pid slot object_id m;
          Some (Some (USER_SURFACE_MAP_SLOT_BASE slot), m, s)
      end
  end.

(** Clearing one mapping of [pid]. *)
Definition unmap_slot (pid slot object_id : Z) (m : user_memory) (s : surfaces)
  : option (user_memory * surfaces) :=
  '(_, m) ← edit_surface_ptes pid slot 0 0 false m;
  m ← set_mapped_slot pid slot 0 m;
  '(_, s) ← surface_release object_id s;
  Some (m, s).

Fixpoint unmap_surface_from (n : nat) (slot pid object_id : Z) (m : user_memory) (s : surfaces)
  : option (bool * user_memory * surfaces) :=
  match n with
  | O => Some (false, m, s)
  | S n' =>
      slots ← m.(mapped_surface).[pid]; id ← slots.[slot];
      if negb (id =? object_id) then unmap_surface_from n' (slot + 1) pid object_id m s else
      '(m, s) ← unmap_slot pid slot object_id m s; Some (true, m, s)
  end.

Definition unmap_surface_id (pid object_id : Z) (m : user_memory) (s : surfaces)
  : option (bool * user_memory * surfaces) :=
  if bad_pid pid || (object_id =? 0) then Some (false, m, s) else
  unmap_surface_from 4 0 pid object_id m s.

(** The two loops of [unmap_surface], the teardown of a process. *)
Definition unmap_round (pid slot : Z) (ms : user_memory * surfaces) : option (user_memory * surfaces) :=
  let (m, s) := ms in
  slots ← m.(mapped_surface).[pid]; id ← slots.[slot];
  if id =? 0 then Some (m, s) else unmap_slot pid slot id m s.

Definition free_surface_table (pid slot : Z) (m : user_memory) : option user_memory :=
  slots ← m.(surface_map_page_table).[pid]; t ← slots.[slot];
  if t =? 0 then Some m else
  dir ← directory_of pid m;
  m ← store_word dir (Z.shiftr (USER_SURFACE_MAP_SLOT_BASE slot) 21) 0 m;
  m ← anonymous_frame_release t m;
  set_surface_table pid slot 0 m.

Definition unmap_surface (pid : Z) (m : user_memory) (s : surfaces) : option (user_memory * surfaces) :=
  if bad_pid pid then Some (m, s) else
  '(m, s) ← for_up 4 0 (unmap_round pid) (m, s);
  m ← for_up 4 0 (free_surface_table pid) m;
  Some (m, s).

(** The slot that maps an object. *)
Fixpoint mapped_slot (n : nat) (slot object_id : Z) (slots : list Z) : option (option Z) :=
  match n with
  | O => Some None
  | S n' =>
      id ← slots.[slot];
      if id =? object_id then Some (Some slot) else mapped_slot n' (slot + 1) object_id slots
  end.

(** The entry loop of [userspace_surface_mapping_readonly]. *)
Fixpoint entries_readonly (n : nat) (page table physical page_count : Z) (m : user_memory) : option bool :=
  match n with
  | O => Some true
  | S n' =>
      entry ← load_word table page m;
      let valid := if page <? page_count
                   then (Z.land entry 7 =? 5) && (page_of entry =? physical + page * 4096)
                   else entry =? 0 in
      if (valid : bool) then entries_readonly n' (page + 1) table physical page_count m else Some false
  end.

Definition userspace_surface_mapping_readonly (arena pid surface_id : Z) (m : user_memory) (s : surfaces)
  : option (bool * surfaces) :=
  if bad_pid pid || (surface_id =? 0) then Some (false, s) else
  slots ← m.(mapped_surface).[pid];
  found ← mapped_slot 4 0 surface_id slots;
  match found with
  | None => Some (false, s)
  | Some slot =>
      '(d, s) ← surface_mapping_data surface_id s;
      match d with
      | None => Some (false, s)
      | Some (offset, pages) =>
          if (pages =? 0) || (USER_SURFACE_MAP_PAGES <? pages) then Some (false, s) else
          tables ← m.(surface_map_page_table).[pid]; t ← tables.[slot];
          let physical := arena + offset in
          if (physical =? 0) || (t =? 0) then Some (false, s) else
          ok ← entries_readonly 300 0 t physical pages m;
          Some (ok, s)
      end
  end.
