(* ===== verification/UserMemorySpec.v ===== *)
(** Correctness of the copies into a process and of the range checks: what a
    copy writes, and which addresses the checks accept. *)

From stdpp Require Import gmap.
From S2P Require Import Prelude PhysicalMemory UserMemory.

(** The per-process arrays the checks read. *)
Record memory_arrays (m : user_memory) : Prop := {
  ma_process : length m.(process_memory) = 8%nat;
  ma_used : length m.(process_memory_used) = 8%nat;
  ma_anonymous : length m.(anonymous_page_count) = 8%nat;
  ma_large : length m.(large_code_page_count) = 8%nat;
}.

Lemma bad_pid_spec pid : 0 <= pid -> bad_pid pid = false <-> 1 <= pid < 8.
Proof.
  intros Hp. unfold bad_pid, PROCESS_LIMIT. split.
  - intros H. b2p. lia.
  - intros. by rewrite (proj2 (Z.eqb_neq _ 0)), (proj2 (Z.leb_gt 8 _)) by lia.
Qed.

Lemma write_range_total pid a n m :
  memory_arrays m -> 0 <= pid -> exists b, user_write_range pid a n m = Some b.
Proof.
  intros [H1 H2 H3 H4] Hp. unfold user_write_range, anonymous_range.
  destruct (bad_pid pid) eqn:Eb.
  { cbn [mbind option_bind]. destruct (inside _ _ _ _); eauto. }
  apply bad_pid_spec in Eb; [|done].
  destruct (aget_in m.(anonymous_page_count) pid) as [x ->]; [lia|].
  destruct (aget_in m.(process_memory_used) pid) as [u ->]; [lia|].
  destruct (aget_in m.(process_memory) pid) as [p ->]; [lia|].
  destruct (aget_in m.(large_code_page_count) pid) as [l ->]; [lia|].
  cbn [mbind option_bind]. repeat case_match; eauto.
Qed.

(** The chunked copy is one copy. *)
Lemma copy_chunks_flat fuel : forall space address copied n data pg,
  0 <= copied -> n <= Z.of_nat (length data) -> n - copied <= 64 * Z.of_nat fuel ->
  copy_chunks fuel space address copied n data pg =
    write_chunk space (address + copied) (take (Z.to_nat (n - copied)) (drop (Z.to_nat copied) data)) pg.
Proof.
  induction fuel as [|fuel IH]; intros space address copied n data pg Hc Hn Hf; cbn [copy_chunks].
  { rewrite (proj2 (Z.leb_le _ _)) by lia. by replace (Z.to_nat (n - copied)) with 0%nat by lia. }
  destruct (Z.leb_spec n copied) as [Hle|Hlt].
  { by replace (Z.to_nat (n - copied)) with 0%nat by lia. }
  set (amount := if 64 <? n - copied then 64 else n - copied).
  assert (1 <= amount <= 64 /\ amount <= n - copied /\ (amount = 64 \/ amount = n - copied)) as (H1 & H2 & H3)
    by (unfold amount; destruct (Z.ltb_spec 64 (n - copied)); lia).
  rewrite copy_into_spec by (rewrite ?length_replicate; lia). cbn [mbind option_bind].
  change (take (Z.to_nat 0) (replicate 64 0)) with (@nil Z). cbn [app].
  rewrite take_app_le by (rewrite length_take, length_drop; lia). rewrite take_take, Nat.min_id.
  replace (Z.to_nat (n - copied)) with (Z.to_nat amount + Z.to_nat (n - (copied + amount)))%nat by lia.
  rewrite <- take_take_drop, drop_drop, write_chunk_app, length_take, length_drop.
  destruct (write_chunk _ _ _ pg) as [pg1|]; [|done]. cbn [mbind option_bind].
  rewrite IH by lia. f_equal; [lia|]. do 2 f_equal; lia.
Qed.

(** ** What a copy leaves *)

(** The buffer of [pid] at [a] is mapped, with the tables in [T]. *)
Definition buffer_at (T : Z -> Prop) (m : user_memory) (pid a n : Z) : Prop :=
  forall p, m.(process_memory).[pid] = Some p -> buffer T m.(pages) p.(address_space) a n.

(** Only bytes outside [T] changed. *)
Definition data_moved (T : Z -> Prop) (m m' : user_memory) : Prop :=
  exists pg, m' = set_pages pg m /\ same_tables T m.(pages) pg.

Lemma set_pages_same m : set_pages m.(pages) m = m.
Proof. by destruct m. Qed.
Lemma data_moved_refl T m : data_moved T m m.
Proof. exists m.(pages). by rewrite set_pages_same. Qed.
Lemma data_moved_trans T m1 m2 m3 : data_moved T m1 m2 -> data_moved T m2 m3 -> data_moved T m1 m3.
Proof. intros (pg & -> & H1) (pg' & -> & H2). exists pg'. split; [done|]. by etransitivity. Qed.
Lemma moved_buffer T m m' pid a n : data_moved T m m' -> buffer_at T m pid a n -> buffer_at T m' pid a n.
Proof. intros (pg & -> & Hs) H p Hp. cbn. rewrite <- Hs. by apply H. Qed.
Lemma buffer_at_part T m pid a n k : buffer_at T m pid a n -> k <= n -> buffer_at T m pid a k.
Proof. intros H Hk p Hp. rewrite <- (Z.add_0_r a). apply (buffer_part _ _ _ _ n); [by apply H|lia..]. Qed.
(** The buffer a live process gave is mapped. *)
Definition buffer_ready (T : Z -> Prop) (m : user_memory) (pid a n : Z) : Prop :=
  1 <= pid < 8 -> m.(process_memory_used).[pid] = Some true -> buffer_at T m pid a n.
Lemma moved_ready T m m' pid a n : data_moved T m m' -> buffer_ready T m pid a n -> buffer_ready T m' pid a n.
Proof. intros Hm H Hp Hu. apply (moved_buffer T m); [done|]. apply H; [done|]. by destruct Hm as (pg & -> & _). Qed.
Lemma moved_arrays T m m' : data_moved T m m' -> memory_arrays m -> memory_arrays m'.
Proof. intros (pg & -> & _) []. by split. Qed.

(** The copy, as one update of the destination's memory. *)
Lemma copy_to_ok T current pid a data n m :
  memory_arrays m -> 0 <= pid -> 0 <= current -> 0 <= n <= Z.of_nat (length data) ->
  (1 <= pid < 8 -> m.(process_memory_used).[pid] = Some true -> user_write_range current a n m = Some true -> buffer_at T m pid a n) ->
  exists ok m', userspace_copy_to current pid a (Some data) n m = Some (ok, m') /\ data_moved T m m' /\
    (ok = false -> m' = m) /\
    (ok = true -> exists p pg, m.(process_memory).[pid] = Some p /\ 1 <= pid < 8 /\ m' = set_pages pg m /\
       wrote T p.(address_space) a (take (Z.to_nat n) data) m.(pages) pg) /\
    (ok = true <-> 1 <= pid < 8 /\ m.(process_memory_used).[pid] = Some true /\
       user_write_range current a n m = Some true).
Proof.
  intros Hm Hp Hc Hn Hbuf. unfold userspace_copy_to.
  assert (Hno : ~ (1 <= pid < 8 /\ m.(process_memory_used).[pid] = Some true /\ user_write_range current a n m = Some true) ->
    exists ok m', Some (false, m) = Some (ok, m') /\ data_moved T m m' /\ (ok = false -> m' = m) /\
    (ok = true -> exists p pg, m.(process_memory).[pid] = Some p /\ 1 <= pid < 8 /\ m' = set_pages pg m /\
       wrote T p.(address_space) a (take (Z.to_nat n) data) m.(pages) pg) /\
    (ok = true <-> 1 <= pid < 8 /\ m.(process_memory_used).[pid] = Some true /\ user_write_range current a n m = Some true)).
  { intros H. exists false, m. split; [done|]. split; [apply data_moved_refl|]. by split. }
  destruct (bad_pid pid) eqn:Eb.
  { apply Hno. intros (Hb & _). apply bad_pid_spec in Hb; [|done]. congruence. }
  apply bad_pid_spec in Eb; [|done]. pose proof Hm as [H1 H2 H3 H4].
  destruct (aget_in m.(process_memory_used) pid) as [u Hu]; [lia|]. rewrite Hu in *. cbn [mbind option_bind].
  destruct u; cbn [negb]; [|by apply Hno; intros (_ & [=] & _)].
  destruct (write_range_total current a n m Hm Hc) as [b Hb]. rewrite Hb in *. cbn [mbind option_bind].
  destruct b; cbn [negb]; [|by apply Hno; intros (_ & _ & [=])].
  destruct (aget_in m.(process_memory) pid) as [p Hpm]; [lia|]. rewrite Hpm. cbn [mbind option_bind].
  rewrite copy_chunks_flat by zlia. cbn [mbind option_bind]. rewrite Z.sub_0_r, Z.add_0_r.
  change (Z.to_nat 0) with 0%nat. rewrite drop_0.
  destruct (write_chunk_ok T p.(address_space) (take (Z.to_nat n) data) a m.(pages)) as (pg & -> & Hw).
  { rewrite length_take. replace (Z.of_nat _) with n by lia. by apply Hbuf. }
  cbn [mbind option_bind]. exists true, (set_pages pg m). split; [done|]. split; [exists pg; split; [done|apply Hw]|].
  split; [done|]. split; [|done]. intros _. by exists p, pg.
Qed.
