(* ===== verification/FramePool.v ===== *)
(** The frame allocator as a multiset of available frames: the effect of taking and releasing a frame on the pool (the
    free list followed by the frames the bump allocator has not reached). *)

From stdpp Require Import gmap.
From S2P Require Import Prelude PhysicalMemory UserMemory.

(** ** Words of physical pages *)

Lemma store_word_eq m p i v : is_page m.(pages) p -> 0 <= i < 512 ->
  store_word p i v m = Some (set_pages (put_word m.(pages) p i v) m).
Proof.
  intros (ws & Hp & Hl) Hi. unfold store_word, put_word. rewrite Hp. cbn [mbind option_bind].
  rewrite aset_in by lia. done.
Qed.

(** ** The pool *)

(** The free list: each frame's first word links to the next. *)
Fixpoint chain (pg : phys) (head : Z) (F : list Z) : Prop :=
  match F with
  | [] => head = 0
  | f :: F => head = f /\ exists link, word pg f 0 = Some link /\ chain pg link F
  end.

Definition bump (next end_ : Z) : list Z := (fun k => next + 4096 * k) <$> seqZ 0 ((end_ - next) / 4096).

Record pool (m : user_memory) (L : list Z) : Prop := {
  pool_frames : exists F, chain m.(pages) m.(anonymous_free_frames) F /\ L = F ++ bump m.(next_frame) m.(region_end);
  pool_next : 0 < m.(next_frame) < 18446744073709551616;
  pool_end : m.(region_end) < 18446744073709551616
}.

Definition frame_ok (pg : phys) (f : Z) : Prop := 0 < f /\ f mod 4096 = 0 /\ is_page pg f.

Lemma frame_ok_touches X pg pg' f : touches X pg pg' -> frame_ok pg f -> frame_ok pg' f.
Proof. intros Ht (H1 & H2 & H3). split_and!; [done..|]. by eapply touches_page. Qed.
Lemma frames_ok_touches X pg pg' l : touches X pg pg' -> Forall (frame_ok pg) l -> Forall (frame_ok pg') l.
Proof. intros Ht. apply Forall_impl. intros f. by apply (frame_ok_touches X). Qed.

Lemma chain_touches X pg pg' F : touches X pg pg' -> (forall f, f ∈ F -> f ∉ X) ->
  forall h, chain pg h F -> chain pg' h F.
Proof.
  intros Ht. induction F as [|f F IH]; intros Hd h; [done|]. cbn. intros (-> & link & Hl & Hc).
  split; [done|]. exists link. split; [by rewrite (touches_word _ _ _ _ _ Ht) by (apply Hd; left)|].
  apply IH; [|done]. intros g Hg. apply Hd. by right.
Qed.

Lemma bump_cons next end_ : next + 4096 <= end_ -> bump next end_ = next :: bump (next + 4096) end_.
Proof.
  intros H. unfold bump. rewrite seqZ_cons by zlia. cbn [fmap list_fmap]. f_equal; [lia|].
  apply list_eq. intros i. rewrite !list_lookup_fmap.
  destruct (decide (Z.of_nat i < (end_ - (next + 4096)) / 4096)) as [Hi|Hi].
  - rewrite !lookup_seqZ_lt by zlia. cbn. f_equal. lia.
  - rewrite !lookup_seqZ_ge by zlia. done.
Qed.
Lemma bump_nil next end_ : end_ < next + 4096 -> bump next end_ = [].
Proof. intros H. unfold bump. rewrite seqZ_nil by zlia. done. Qed.

Definition zero_page : list Z := replicate 512 0.

(** The result of taking a frame from a pool. *)
Definition taken (m : user_memory) (L : list Z) (r : Z * user_memory) : Prop :=
  match L with
  | [] => r = (0, m)
  | f :: L' => exists free next, r = (f, set_pool free next (<[f := zero_page]> m.(pages)) m) /\
                 pool r.2 L' /\ touches [f] m.(pages) r.2.(pages) /\
                 (forall j, 0 <= j < 512 -> word r.2.(pages) f j = Some 0)
  end.

Lemma page_zero pg f : is_page pg f -> exists ws, pg !! f = Some ws /\ fill ws 0 0 512 = Some (zero_page).
Proof.
  intros (ws & Hp & Hl). exists ws. split; [done|]. rewrite fill_spec by (rewrite ?Hl; lia).
  f_equal. change (Z.to_nat 0) with 0%nat. rewrite take_0, drop_ge by lia. by rewrite app_nil_r.
Qed.

Lemma zeroed_word pg f j : 0 <= j < 512 -> word (<[f := zero_page]> pg) f j = Some 0.
Proof.
  intros Hj. unfold word. rewrite lookup_insert_eq. cbn [mbind option_bind].
  apply aget_Some. split; [lia|]. apply lookup_replicate. lia.
Qed.

Lemma zeroed_touches pg f : touches [f] pg (<[f := zero_page]> pg).
Proof.
  split.
  - intros p Hp. rewrite lookup_insert_ne; [done|]. set_solver.
  - intros p (ws & Hp & Hl). destruct (decide (p = f)) as [->|].
    + exists (zero_page). by rewrite lookup_insert_eq.
    + exists ws. by rewrite lookup_insert_ne.
Qed.

Lemma take_ok m L : pool m L -> NoDup L -> Forall (frame_ok m.(pages)) L ->
  exists r, anonymous_frame_take m = Some r /\ taken m L r.
Proof.
  intros [(F & Hc & ->) Hn He] Hd Hf. unfold anonymous_frame_take. destruct F as [|f F]; cbn in Hc.
  - rewrite Hc, Z.eqb_refl. cbn [negb app] in *. unfold mako_frame_allocate.
    rewrite (proj2 (Z.eqb_neq _ 0)) by lia. destruct (decide (m.(next_frame) + 4096 <= m.(region_end))) as [Hle|Hgt].
    + rewrite bump_cons in * by done. rewrite u64_small by (unfold is_u64; lia).
      rewrite (proj2 (Z.ltb_ge _ _)) by lia. rewrite (proj2 (Z.ltb_ge _ _)) by lia.
      cbn [mbind option_bind]. rewrite (proj2 (Z.eqb_neq _ 0)) by lia.
      pose proof (Forall_inv Hf) as (H1 & H2 & H3). destruct (page_zero _ _ H3) as (ws & Hws & Hz).
      cbn [set_pool pages]. rewrite Hws. cbn [mbind option_bind]. rewrite Hz. cbn [mbind option_bind].
      eexists. split; [done|]. cbn. eexists _, _. split; [done|]. split_and!.
      * split; [|cbn; lia..]. by exists [].
      * apply zeroed_touches.
      * intros j Hj. by apply zeroed_word.
    + rewrite (bump_nil _ m.(region_end)) by lia. eexists. split; [|done].
      destruct (_ <? m.(next_frame)) eqn:E1; cbn [mbind option_bind]; [by destruct m; cbn in *; subst|].
      destruct (m.(region_end) <? u64 (m.(next_frame) + 4096)) eqn:E; [by destruct m; cbn in *; subst|].
      b2p. unfold u64 in *. zlia.
  - destruct Hc as (-> & link & Hl & Hc). cbn [app] in *.
    pose proof (Forall_inv Hf) as (H1 & H2 & H3). rewrite (proj2 (Z.eqb_neq _ 0)) by lia. cbn [negb].
    unfold load_word. fold (word m.(pages) f 0). rewrite Hl. cbn [mbind option_bind].
    rewrite (proj2 (Z.eqb_neq _ 0)) by lia. destruct (page_zero _ _ H3) as (ws & Hws & Hz).
    cbn [set_pool pages]. rewrite Hws. cbn [mbind option_bind]. rewrite Hz. cbn [mbind option_bind].
    eexists. split; [done|]. cbn. eexists _, _. split; [done|].
    apply NoDup_cons_1_1 in Hd. split_and!.
    + split; [|cbn; lia..]. exists F. split; [|done]. cbn [set_pool pages anonymous_free_frames]. eapply chain_touches; [apply zeroed_touches| |done].
      intros g Hg Hi%list_elem_of_singleton. apply Hd. subst. apply elem_of_app. by left.
    + apply zeroed_touches.
    + intros j Hj. by apply zeroed_word.
Qed.

Lemma release_frame_ok m L f : pool m L -> frame_ok m.(pages) f -> f ∉ L ->
  exists pg', anonymous_frame_release f m = Some (set_pool f m.(next_frame) pg' m) /\
    pool (set_pool f m.(next_frame) pg' m) (f :: L) /\ touches [f] m.(pages) pg'.
Proof.
  intros [(F & Hc & ->) Hn He] (H1 & H2 & H3) Hd. unfold anonymous_frame_release.
  rewrite (proj2 (Z.eqb_neq _ 0)) by lia. rewrite store_word_eq by (done || lia). cbn [mbind option_bind].
  eexists. split; [done|]. split; [|apply put_word_touches]. split; [|cbn; lia..].
  exists (f :: F). split; [|done]. cbn. split; [done|]. eexists. split; [by apply put_word_same|].
  eapply chain_touches; [apply put_word_touches| |done]. set_solver.
Qed.

Lemma pool_touches X m L free next pg :
  pool m L -> free = m.(anonymous_free_frames) -> next = m.(next_frame) -> touches X m.(pages) pg ->
  (forall f, f ∈ L -> f ∉ X) -> pool (set_pool free next pg m) L.
Proof.
  intros [(F & Hc & ->) Hn He] -> -> Ht Hx. split; [|cbn; lia..]. exists F. split; [|done]. cbn [set_pool pages anonymous_free_frames].
  eapply chain_touches; [done| |done]. set_solver.
Qed.

#[global] Opaque zero_page.
