(* ===== verification/Paging.v ===== *)
(** The page tables of a process as the boot code builds them
    ([src/mako/kernel_probe.mko]) and the memory each process slot gets
    ([allocate_process_memory] of [src/src/kernel.c]). *)

From stdpp Require Import gmap.
From S2P Require Import Prelude PhysicalMemory UserMemory FramePool.

(** ** Building the tables *)

Definition vptr_write_u64 (p i v : Z) (pg : phys) : option phys :=
  ws ← pg !! p; ws ← ws.[i <- v]; Some (<[p := ws]> pg).

Definition mako_clear_page (page : Z) (pg : phys) : option phys :=
  for_up 512 0 (fun index => vptr_write_u64 page index 0) pg.

(** One round of the leaf loop: both low tables. *)
Definition identity_leaf (pt0 pt1 index : Z) (pg : phys) : option phys :=
  pg ← vptr_write_u64 pt0 index (index * 4096 + 3) pg;
  vptr_write_u64 pt1 index (2097152 + index * 4096 + 3) pg.
Definition identity_huge (pd index : Z) (pg : phys) : option phys :=
  vptr_write_u64 pd index (index * 2097152 + 135) pg.

Definition mako_build_identity_4m (pml4 pdpt pd pt0 pt1 : Z) (pg : phys) : option (bool * phys) :=
  pg ← mako_clear_page pml4 pg;
  pg ← mako_clear_page pdpt pg;
  pg ← mako_clear_page pd pg;
  pg ← mako_clear_page pt0 pg;
  pg ← mako_clear_page pt1 pg;
  pg ← vptr_write_u64 pml4 0 (pdpt + 7) pg;
  pg ← vptr_write_u64 pdpt 0 (pd + 7) pg;
  pg ← vptr_write_u64 pd 0 (pt0 + 7) pg;
  pg ← vptr_write_u64 pd 1 (pt1 + 7) pg;
  pg ← for_up 512 0 (identity_leaf pt0 pt1) pg;
  pg ← for_up 510 2 (identity_huge pd) pg;
  Some (true, pg).

(** ** The memory of a process slot *)

(** The allocator: the next frame, the end of its region, and physical memory. *)
Record frame_allocator := FrameAllocator { fa_next : Z; fa_end : Z }.
Definition allocate_frame (a : frame_allocator) : Z * frame_allocator :=
  let '(f, n) := mako_frame_allocate a.(fa_next) a.(fa_end) in (f, FrameAllocator n a.(fa_end)).

(** [mako_frame_region_init] on an entry of the firmware's memory map. *)
Definition mako_frame_region_init (base length kind minimum : Z) : option frame_allocator :=
  if negb (kind =? 1) then None else
  let region_end := u64 (base + length) in
  if region_end <? base then None else
  let start := if base <? minimum then minimum else base in
  let aligned_input := u64 (start + 4095) in
  if aligned_input <? start then None else
  let start := aligned_input / 4096 * 4096 in
  let first_end := u64 (start + 4096) in
  if first_end <? start then None else
  if region_end <? first_end then None else
  Some (FrameAllocator start region_end).

(** [n] frames, whatever the allocator returns. *)
Fixpoint take_frames (n : nat) (a : frame_allocator) : list Z * frame_allocator :=
  match n with
  | O => ([], a)
  | S n => let '(f, a) := allocate_frame a in let '(fs, a) := take_frames n a in (f :: fs, a)
  end.
(** The loops that stop at the first failure. *)
Fixpoint take_all_frames (n : nat) (a : frame_allocator) : option (list Z) * frame_allocator :=
  match n with
  | O => (Some [], a)
  | S n =>
      let '(f, a) := allocate_frame a in
      if f =? 0 then (None, a) else
      let '(fs, a) := take_all_frames n a in (match fs with Some fs => Some (f :: fs) | None => None end, a)
  end.

(** Consecutive to [first] from [page] on. *)
Fixpoint stack_from (first page : Z) (l : list Z) : bool :=
  match l with [] => true | f :: l => (f =? first + page * 4096) && stack_from first (page + 1) l end.
Definition stack_ok (l : list Z) : bool :=
  match l with [] => false | f :: l => negb (f =? 0) && stack_from f 1 l end.

(** The framebuffer's gigabyte is the kernel's; [display] is its physical address, if
    there is one. *)
Definition share_display (display : option Z) (kernel_pdpt pdpt : Z) (pg : phys) : option phys :=
  match display with
  | None => Some pg
  | Some physical =>
      let index := Z.land (Z.shiftr physical 30) 511 in
      e ← word pg kernel_pdpt index; vptr_write_u64 pdpt index e pg
  end.

Definition allocate_process_memory (display : option Z) (kernel_pdpt code_page_count : Z)
    (a : frame_allocator) (pg : phys) : option (option userspace_memory * frame_allocator * phys) :=
  if (code_page_count =? 0) || (USERSPACE_CODE_PAGES <? code_page_count) then Some (None, a, pg) else
  let '(pml4, a) := allocate_frame a in
  let '(pdpt, a) := allocate_frame a in
  let '(pd, a) := allocate_frame a in
  let '(pt0, a) := allocate_frame a in
  let '(pt1, a) := allocate_frame a in
  let '(stack, a) := take_frames (Z.to_nat USERSPACE_STACK_PAGES) a in
  if (pml4 =? 0) || (pdpt =? 0) || (pd =? 0) || (pt0 =? 0) || (pt1 =? 0) || negb (stack_ok stack) then Some (None, a, pg) else
  '(_, pg) ← mako_build_identity_4m pml4 pdpt pd pt0 pt1 pg;
  pg ← share_display display kernel_pdpt pdpt pg;
  let '(code, a) := take_all_frames (Z.to_nat code_page_count) a in
  match code with
  | None => Some (None, a, pg)
  | Some code =>
      let '(heap, a) := take_all_frames (Z.to_nat USERSPACE_HEAP_PAGES) a in
      match heap with
      | None => Some (None, a, pg)
      | Some heap => Some (Some (UserSpace pml4 pd pt1 code_page_count code heap stack), a, pg)
      end
  end.

(** ** Device registers *)

(** The loop of [map_mmio_identity_2m]: huge, uncached pages. *)
Fixpoint map_huge (n : nat) (low : bool) (pd address : Z) (pg : phys) : option (bool * phys) :=
  match n with
  | O => Some (true, pg)
  | S n =>
      let index := Z.land (Z.shiftr address 21) 511 in
      if low && (index <? 2) then map_huge n low pd (address + 2097152) pg else
      e ← word pg pd index;
      if negb (Z.land e 1 =? 0) && negb (Z.ldiff e 2097151 =? address) then Some (false, pg) else
      pg ← vptr_write_u64 pd index (Z.lor address 147) pg;
      map_huge n low pd (address + 2097152) pg
  end.

Definition map_mmio_identity_2m (pdpt low_pd spare_pd physical length : Z) (pg : phys) : option (bool * phys) :=
  if (length =? 0) || (U64_MAX - length <? physical) then Some (false, pg) else
  let first := Z.ldiff physical 2097151 in
  let end_ := Z.ldiff (u64 (physical + length + 2097151)) 2097151 in
  if (end_ <=? first) || negb (Z.shiftr first 30 =? Z.shiftr (end_ - 1) 30) || negb (Z.shiftr first 39 =? 0)
  then Some (false, pg) else
  let index := Z.land (Z.shiftr first 30) 511 in
  let pages := Z.to_nat ((end_ - first) / 2097152) in
  if index =? 0 then map_huge pages true low_pd first pg else
  e ← word pg pdpt index;
  if negb (Z.land e 1 =? 0) then map_huge pages false (page_of e) first pg else
  pg ← mako_clear_page spare_pd pg;
  pg ← vptr_write_u64 pdpt index (Z.lor spare_pd 3) pg;
  map_huge pages false spare_pd first pg.

(** ** The slots of all processes *)

(** The code pages of the slot of process [index + 1], as [kernel_main] hands them
    out: two small ones, a large one, and four in between. *)
Definition slot_code_pages (index : Z) : Z :=
  let code_pages := 20 in
  let code_pages := if index <? 2 then 4 else code_pages in
  if index =? 2 then USERSPACE_CODE_PAGES else code_pages.

(** [n] slots from process [index] on; the inner [None] is [boot_fatal]. *)
Fixpoint allocate_processes (n : nat) (index : Z) (display : option Z) (kernel_pdpt : Z) (a : frame_allocator) (pg : phys)
  : option (option (list userspace_memory) * frame_allocator * phys) :=
  match n with
  | O => Some (Some [], a, pg)
  | S n =>
      '(p, a, pg) ← allocate_process_memory display kernel_pdpt (slot_code_pages index) a pg;
      match p with
      | None => Some (None, a, pg)
      | Some p =>
          '(ps, a, pg) ← allocate_processes n (index + 1) display kernel_pdpt a pg;
          Some (match ps with Some ps => Some (p :: ps) | None => None end, a, pg)
      end
  end.

(** What [userspace_init] resets, over the slots and the allocator it is given. The
    page tables of the surface mappings and the reservations start as zero. *)
Definition userspace_init_memory (processes : list userspace_memory) (a : frame_allocator) (pg : phys) : user_memory :=
  UserMemory (UserSpace 0 0 0 0 [] [] [] :: processes) (replicate 8 false) (replicate 8 (replicate 4 0)) 0
    (replicate 8 0) (replicate 8 0) (replicate 8 (replicate 320 0)) (replicate 8 0) (replicate 8 0)
    (replicate 8 (replicate 4 0)) a.(fa_next) a.(fa_end) pg.
