(* ===== verification/FrameOwnership.v ===== *)
(** Who owns which frame: the page tables of the anonymous region, the large
    executable and the surface mappings of each process, as ghost lists read off the
    directory and the tables; the invariant that these lists and the pool are
    disjoint. *)

From stdpp Require Import gmap.
From S2P Require Import Prelude UserMemory UserMemorySpec PhysicalMemory FramePool.

(** ** The anonymous region of one process *)

(** The entry the boot code leaves in a directory: a huge page on itself. *)
Definition identity_entry (index : Z) : Z := index * 2097152 + 135.
Definition ANON_INDEX : Z := 128.
Definition SURFACE_INDEX : Z := 192.
Definition LARGE_INDEX : Z := 256.

Section region.
Context (d : Z) (tables : list Z) (frames : list (Z * Z)).

(** The region from table [k] and page [n] on; the directory entries before [k] are
    identity entries again. *)
Record anon_from (pg : phys) (k n : Z) : Prop := {
  anon_dir : forall i t, k <= i -> tables.[i] = Some t -> word pg d (ANON_INDEX + i) = Some (t + 7);
  anon_pte : forall p f fl, n <= p -> frames.[p] = Some (f, fl) ->
    exists t, tables.[p / 512] = Some t /\ word pg t (p mod 512) = Some (f + fl) /\ (fl = 5 \/ fl = 7);
  anon_identity : forall i, 0 <= i < 64 -> i < k \/ Z.of_nat (length tables) <= i ->
    word pg d (ANON_INDEX + i) = Some (identity_entry (ANON_INDEX + i))
}.

(** The whole region, with the tables it needs or one more, as while a page is
    added. *)
Record anon_open (pg : phys) : Prop := {
  anon_maps : anon_from pg 0 0;
  anon_bound : (Z.of_nat (length frames) + 511) / 512 <= Z.of_nat (length tables) <= Z.of_nat (length frames) / 512 + 1;
  anon_size : Z.of_nat (length frames) <= 6144;
  anon_rest : forall i t j, tables.[i] = Some t -> 0 <= j < 512 -> Z.of_nat (length frames) <= i * 512 + j ->
    word pg t j = Some 0
}.
Definition anon (pg : phys) : Prop :=
  anon_open pg /\ Z.of_nat (length tables) = (Z.of_nat (length frames) + 511) / 512.

Lemma anon_from_touches X pg pg' k n :
  touches X pg pg' -> d ∉ X -> (forall t, t ∈ tables -> t ∉ X) -> anon_from pg k n -> anon_from pg' k n.
Proof.
  intros Ht Hd Hts [H1 H2 H3]. split.
  - intros i t Hi Hit. rewrite (touches_word _ _ _ _ _ Ht) by done. auto.
  - intros p f fl Hp Hf. destruct (H2 p f fl Hp Hf) as (t & Hi & Hw & Hfl). exists t.
    rewrite (touches_word _ _ _ _ _ Ht); [done|]. apply Hts. apply aget_Some in Hi as [_ Hi].
    by apply list_elem_of_lookup_2 in Hi.
  - intros i Hi Hk. rewrite (touches_word _ _ _ _ _ Ht) by done. auto.
Qed.

Lemma anon_open_touches X pg pg' :
  touches X pg pg' -> d ∉ X -> (forall t, t ∈ tables -> t ∉ X) -> anon_open pg -> anon_open pg'.
Proof.
  intros Ht Hd Hts [H1 H2 H3 H4]. split; [by eapply anon_from_touches|done..|].
  intros i t j Hi Hj Hl. rewrite (touches_word _ _ _ _ _ Ht); [eauto|]. apply Hts.
  apply aget_Some in Hi as [_ Hi]. by apply list_elem_of_lookup_2 in Hi.
Qed.

Lemma anon_touches X pg pg' :
  touches X pg pg' -> d ∉ X -> (forall t, t ∈ tables -> t ∉ X) -> anon pg -> anon pg'.
Proof. intros Ht Hd Hts [H1 H2]. split; [by eapply anon_open_touches|done]. Qed.

End region.

(** ** All that one process owns *)

Record own := Own {
  o_tables : list Z; o_frames : list (Z * Z);      (* anonymous: page tables, then (frame, flags) by page *)
  o_large : list Z;                                (* large executable: page table and frames *)
  o_surface : list Z                               (* the surface page tables, 0 for none *)
}.
Definition own_frames (o : own) : list Z :=
  o.(o_tables) ++ o.(o_frames).*1 ++ o.(o_large) ++ filter (fun t => t <> 0) o.(o_surface).
Definition no_frames : own := Own [] [] [] [0; 0; 0; 0].

(** The large executable of [pid]: table [t], [n] frames. *)
Record large_of (m : user_memory) (pid d : Z) (l : list Z) : Prop := {
  large_table : m.(large_code_page_table).[pid] = Some (match l with [] => 0 | t :: _ => t end);
  large_count : m.(large_code_page_count).[pid] = Some (Z.of_nat (length (tail l)));
  large_list : exists fs, m.(large_code_frames).[pid] = Some fs /\ length fs = 320%nat /\
    tail l = take (length (tail l)) fs;
  large_dir : match l with [] => True | t :: _ => word m.(pages) d LARGE_INDEX = Some (t + 7) end;
  large_pte : forall t i f, head l = Some t -> (tail l).[i] = Some f -> word m.(pages) t i = Some (f + 7)
}.

Record surface_tables_of (m : user_memory) (pid d : Z) (l : list Z) : Prop := {
  surface_tables : m.(surface_map_page_table).[pid] = Some l;
  surface_slots : length l = 4%nat;
  surface_dir : forall i t, l.[i] = Some t -> t <> 0 -> word m.(pages) d (SURFACE_INDEX + i) = Some (t + 7)
}.

Record owned (m : user_memory) (pid d : Z) (o : own) : Prop := {
  owned_count : m.(anonymous_page_count).[pid] = Some (Z.of_nat (length o.(o_frames)));
  owned_reserved : exists r, m.(anonymous_reserved_pages).[pid] = Some r /\ 0 <= r <= 6144 /\
    (r = 0 \/ Z.of_nat (length o.(o_frames)) <= r);
  owned_anon : anon d o.(o_tables) o.(o_frames) m.(pages);
  owned_large : large_of m pid d o.(o_large);
  owned_surface : surface_tables_of m pid d o.(o_surface);
  owned_mapped : exists ids, m.(mapped_surface).[pid] = Some ids /\ length ids = 4%nat
}.

(** ** Page-table entries *)

Lemma page_of_entry f fl : f mod 4096 = 0 -> 0 <= fl < 4096 -> page_of (f + fl) = f.
Proof.
  intros Hf Hl. unfold page_of. change 4095 with (Z.ones 12). rewrite Z.ldiff_ones_r by lia.
  rewrite Z.shiftl_mul_pow2, Z.shiftr_div_pow2 by lia. zlia.
Qed.

Lemma lor_flags f fl : f mod 4096 = 0 -> 0 <= fl < 4096 -> Z.lor f fl = f + fl.
Proof.
  intros Hf Hl. replace f with (Z.shiftl (f / 4096) 12) at 1 by (rewrite Z.shiftl_mul_pow2 by lia; zlia).
  rewrite lor_shiftl_add by lia. zlia.
Qed.

Lemma entry_bits f fl : f mod 4096 = 0 -> fl = 5 \/ fl = 7 -> Z.land (f + fl) 1 = 1 /\ Z.land (f + fl) 128 = 0.
Proof.
  intros Hf Hl. replace (f + fl) with (fl + (f / 4096) * 2 ^ 12) by zlia. split.
  - change 1 with (Z.ones 1) at 1. rewrite Z.land_ones by lia. destruct Hl; subst; zlia.
  - apply Z.bits_inj'. intros i Hi. rewrite Z.land_spec, Z.bits_0. change 128 with (2 ^ 7).
    rewrite Z.pow2_bits_eqb by lia. destruct (Z.eqb_spec 7 i) as [<-|]; [|apply andb_false_r].
    rewrite andb_true_r. rewrite <- (Z.mod_pow2_bits_low _ 12) by lia.
    rewrite Z.mod_add by lia. destruct Hl; by subst.
Qed.

(** ** Disjointness *)

(** [d] and the frames of [X] are distinct pages. *)
Definition apart (pg : phys) (d : Z) (X : list Z) : Prop := NoDup (d :: X) /\ Forall (frame_ok pg) X /\ is_page pg d.

Lemma apart_touches Y pg pg' d X : touches Y pg pg' -> apart pg d X -> apart pg' d X.
Proof.
  intros Ht (H1 & H2 & H3). split_and!; [done|by eapply frames_ok_touches|by eapply touches_page].
Qed.
Lemma apart_perm pg d X X' : X' ≡ₚ X -> apart pg d X -> apart pg d X'.
Proof. intros Hp (H1 & H2 & H3). split_and!; [by rewrite Hp|by rewrite Hp|done]. Qed.
Lemma apart_app pg d X Y : apart pg d (X ++ Y) -> apart pg d X /\ apart pg d Y /\ (forall x, x ∈ X -> x ∉ Y).
Proof.
  intros (H1 & H2 & H3). apply Forall_app in H2 as [H2 H2']. rewrite app_comm_cons in H1.
  apply list.NoDup_app in H1 as (H1 & H4 & H5). split; [done|]. split.
  - split_and!; [|done..]. apply list.NoDup_cons. split; [|done]. apply H4. left.
  - intros x Hx. apply H4. by right.
Qed.
Lemma apart_dir pg d X x : apart pg d X -> x ∈ X -> x <> d /\ frame_ok pg x.
Proof.
  intros (H1 & H2 & H3) Hx. split; [|by eapply list.Forall_forall].
  intros ->. apply list.NoDup_cons in H1 as [H1 _]. done.
Qed.

(** ** What the anonymous operations change *)

Definition anon_step (pid : Z) (c r : Z) (m m' : user_memory) : Prop :=
  exists free next pg,
    m' = set_anonymous (<[Z.to_nat pid := c]> m.(anonymous_page_count))
           (<[Z.to_nat pid := r]> m.(anonymous_reserved_pages)) (set_pool free next pg m).

Lemma anon_step_trans pid c r c' r' m m1 m2 : anon_step pid c r m m1 -> anon_step pid c' r' m1 m2 -> anon_step pid c' r' m m2.
Proof.
  intros (f & n & pg & ->) (f' & n' & pg' & ->). exists f', n', pg'. cbn.
  by rewrite !list_insert_insert_eq.
Qed.

Lemma anon_step_pool pid c r m free next pg :
  m.(anonymous_page_count).[pid] = Some c -> m.(anonymous_reserved_pages).[pid] = Some r ->
  anon_step pid c r m (set_pool free next pg m).
Proof.
  intros Hc Hr. apply aget_Some in Hc as [_ Hc], Hr as [_ Hr]. exists free, next, pg.
  rewrite !list_insert_id by done. by destruct m.
Qed.

Lemma anon_step_refl pid c r m :
  m.(anonymous_page_count).[pid] = Some c -> m.(anonymous_reserved_pages).[pid] = Some r -> anon_step pid c r m m.
Proof.
  intros Hc Hr. pose proof (anon_step_pool pid c r m m.(anonymous_free_frames) m.(next_frame) m.(pages) Hc Hr) as H.
  by destruct m.
Qed.

Lemma anon_step_cells pid c r m m' :
  anon_step pid c r m m' -> 0 <= pid < Z.of_nat (length m.(anonymous_page_count)) ->
  0 <= pid < Z.of_nat (length m.(anonymous_reserved_pages)) ->
  m'.(anonymous_page_count).[pid] = Some c /\ m'.(anonymous_reserved_pages).[pid] = Some r /\
  length m'.(anonymous_page_count) = length m.(anonymous_page_count) /\
  length m'.(anonymous_reserved_pages) = length m.(anonymous_reserved_pages) /\
  directory_of pid m' = directory_of pid m.
Proof.
  intros (f & n & pg & ->) Hc Hr. cbn. rewrite !aget_insert, !length_insert by done.
  rewrite !decide_True by done. by split_and!.
Qed.
