(* ===== verification/AddressSpace.v ===== *)
(** The address spaces of the process slots: the tables the boot code built for each,
    the frames of its code, heap and stack, and what they map once a program is
    loaded. *)

From stdpp Require Import gmap.
From S2P Require Import Prelude PhysicalMemory UserMemory UserMemorySpec FramePool FrameOwnership.

(** [t] is the second-level table, which no field of the slot names. *)
Definition slot_tables (p : userspace_memory) (t : Z) : list Z :=
  [p.(address_space); t; p.(page_directory); p.(page_table)].
Definition slot_frames (p : userspace_memory) : list Z := p.(code_frames) ++ p.(heap_frames) ++ p.(stack_frames).
Definition slot_pages (p : userspace_memory) (t : Z) : list Z := slot_tables p t ++ slot_frames p.

Record slot_shape (p : userspace_memory) : Prop := {
  sh_code : Z.of_nat (length p.(code_frames)) = p.(code_page_count);
  sh_count : 1 <= p.(code_page_count) <= 48;
  sh_heap : length p.(heap_frames) = 5%nat;
  sh_stack : length p.(stack_frames) = 128%nat
}.

(** The chain of tables down to the one of the second 2 MiB. *)
Record slot_mapped (pg : phys) (p : userspace_memory) (t : Z) : Prop := {
  sm_root : word pg p.(address_space) 0 = Some (t + 7);
  sm_second : word pg t 0 = Some (p.(page_directory) + 7);
  sm_directory : word pg p.(page_directory) 1 = Some (p.(page_table) + 7)
}.

(** The entries a loaded program has: code, heap and stack follow one another. *)
Definition CODE_INDEX : Z := 256.
Definition HEAP_INDEX : Z := 304.
Definition STACK_INDEX : Z := 309.
Definition entries_at (pg : phys) (table index : Z) (l : list Z) : Prop :=
  forall i f, l.[i] = Some f -> word pg table (index + i) = Some (f + 7).
Record slot_loaded (pg : phys) (p : userspace_memory) : Prop := {
  sl_code : entries_at pg p.(page_table) CODE_INDEX p.(code_frames);
  sl_heap : entries_at pg p.(page_table) HEAP_INDEX p.(heap_frames);
  sl_stack : entries_at pg p.(page_table) STACK_INDEX p.(stack_frames)
}.

Definition slots (m : user_memory) : list userspace_memory := drop 1 m.(process_memory).
Definition all_slot_pages (ts : list Z) (m : user_memory) : list Z := concat (zip_with slot_pages (slots m) ts).

(** [total]: the frames of the allocator. *)
Record spaces_by (ts total : list Z) (m : user_memory) : Prop := {
  sp_count : length ts = 7%nat;
  sp_slots : length (slots m) = 7%nat;
  sp_apart : NoDup (total ++ all_slot_pages ts m);
  sp_frames : Forall (frame_ok m.(pages)) (all_slot_pages ts m);
  sp_slot : forall i p t, slots m !! i = Some p -> ts !! i = Some t ->
    slot_shape p /\ slot_mapped m.(pages) p t /\
    (m.(process_memory_used) !! S i = Some true -> slot_loaded m.(pages) p)
}.
Definition spaces (total : list Z) (m : user_memory) : Prop := exists ts, spaces_by ts total m.

Lemma slot_lookup m pid p : 1 <= pid -> m.(process_memory).[pid] = Some p <-> slots m !! (Z.to_nat pid - 1)%nat = Some p.
Proof.
  intros Hp. unfold slots, aget. rewrite (proj2 (Z.leb_le 0 pid)) by lia. rewrite lookup_drop. by replace (1 + (Z.to_nat pid - 1))%nat with (Z.to_nat pid) by lia.
Qed.

Lemma slot_pages_in ts m i p t x :
  slots m !! i = Some p -> ts !! i = Some t -> x ∈ slot_pages p t -> x ∈ all_slot_pages ts m.
Proof.
  intros Hp Ht Hx. unfold all_slot_pages. apply list_elem_of_In, in_concat. exists (slot_pages p t).
  rewrite <- !list_elem_of_In. split; [|done]. apply list_elem_of_lookup. exists i.
  rewrite lookup_zip_with, Hp. cbn. by rewrite Ht.
Qed.

(** Pages of different slots, and of one slot, are distinct. *)
Lemma concat_split {A} (ls : list (list A)) i l : ls !! i = Some l ->
  exists R, concat ls ≡ₚ l ++ R /\ forall j l', j <> i -> ls !! j = Some l' -> forall x, x ∈ l' -> x ∈ R.
Proof.
  intros Hi. exists (concat (take i ls) ++ concat (drop (S i) ls)). split.
  - rewrite <- (take_drop_middle ls i l Hi) at 1. rewrite concat_app. cbn. solve_Permutation.
  - intros j l' Hne Hj x Hx. rewrite <- concat_app. apply list_elem_of_In, in_concat. exists l'. rewrite <- !list_elem_of_In.
    split; [|done]. apply elem_of_app. destruct (decide (j < i)%nat).
    + left. apply list_elem_of_lookup. exists j. by rewrite lookup_take_lt.
    + right. apply list_elem_of_lookup. exists (j - S i)%nat. rewrite lookup_drop. rewrite <- Hj. f_equal. lia.
Qed.

Lemma slot_pages_distinct ts total m i p t :
  spaces_by ts total m -> slots m !! i = Some p -> ts !! i = Some t ->
  NoDup (slot_pages p t) /\ (forall x, x ∈ slot_pages p t -> x ∉ total) /\
  forall j q u, j <> i -> slots m !! j = Some q -> ts !! j = Some u -> forall x, x ∈ slot_pages p t -> x ∉ slot_pages q u.
Proof.
  intros [_ _ Hn _ _] Hp Ht. apply list.NoDup_app in Hn as (_ & Hd & Hn).
  destruct (concat_split (zip_with slot_pages (slots m) ts) i (slot_pages p t)) as (R & Hperm & HR).
  { rewrite lookup_zip_with, Hp. cbn. by rewrite Ht. }
  unfold all_slot_pages in Hn. rewrite Hperm in Hn. apply list.NoDup_app in Hn as (H1 & H2 & _). split; [done|]. split.
  - intros x Hx Htot. apply (Hd x Htot). by apply (slot_pages_in ts m i p t).
  - intros j q u Hne Hq Hu x Hx Hx'. apply (H2 x Hx). apply (HR j (slot_pages q u) Hne); [|done].
    rewrite lookup_zip_with, Hq. cbn. by rewrite Hu.
Qed.

(** ** What keeps the address spaces *)

Lemma entries_touches X pg pg' t i l : touches X pg pg' -> t ∉ X -> entries_at pg t i l -> entries_at pg' t i l.
Proof. intros Ht Hx H k f Hk. rewrite (touches_word _ _ _ _ _ Ht) by done. by apply H. Qed.
Lemma loaded_touches X pg pg' p : touches X pg pg' -> p.(page_table) ∉ X -> slot_loaded pg p -> slot_loaded pg' p.
Proof. intros Ht Hx [H1 H2 H3]. split; by eapply entries_touches. Qed.

(** A change of frames of the allocator and of the upper entries of one directory. *)
Lemma spaces_touches total m m' d X :
  spaces total m -> m'.(process_memory) = m.(process_memory) ->
  (forall i, m'.(process_memory_used) !! i = Some true -> m.(process_memory_used) !! i = Some true) ->
  touches (d :: X) m.(pages) m'.(pages) -> (forall x, x ∈ X -> x ∈ total) -> d ∈ page_directory <$> slots m ->
  (forall i, i < 128 -> word m'.(pages) d i = word m.(pages) d i) ->
  spaces total m'.
Proof.
  intros (ts & Hs) Ep Hu Ht HX Hd Hw. exists ts. pose proof Hs as [S1 S2 S3 S4 S5].
  assert (Es : slots m' = slots m) by (unfold slots; by rewrite Ep).
  assert (Ea : all_slot_pages ts m' = all_slot_pages ts m) by (unfold all_slot_pages; by rewrite Es).
  split; rewrite ?Es, ?Ea; try done; [by eapply frames_ok_touches|].
  intros i p t Hp Hti. destruct (S5 i p t Hp Hti) as (Hsh & [M1 M2 M3] & Hl). split; [done|].
  destruct (slot_pages_distinct ts total m i p t Hs Hp Hti) as (Hn & Hout & Hoth).
  apply list_elem_of_fmap in Hd as (q & -> & Hq). apply list_elem_of_lookup in Hq as (j & Hj).
  destruct (lookup_lt_is_Some_2 ts j) as [u Hu']; [apply lookup_lt_Some in Hj; lia|].
  assert (Hne : forall x, x ∈ slot_tables p t -> x <> p.(page_directory) -> x ∉ q.(page_directory) :: X).
  { intros x Hx Hxd [->|Hin]%elem_of_cons.
    - destruct (decide (j = i)) as [->|Hji]; [congruence|].
      apply (Hoth j q u Hji Hj Hu' q.(page_directory)); apply elem_of_app; left; [done|]. do 2 right. by left.
    - apply (Hout x); [apply elem_of_app; by left|]. by apply HX. }
  assert (Htab : slot_tables p t = [p.(address_space); t; p.(page_directory); p.(page_table)]) by done.
  apply list.NoDup_app in Hn as (Hn & _ & _). rewrite Htab in *.
  rewrite !list.NoDup_cons, !elem_of_cons in Hn. destruct Hn as (N1 & N2 & N3 & _).
  split; [split|].
  - rewrite (touches_word _ _ _ _ _ Ht); [done|]. apply Hne; [by left|]. intros E. apply N1. rewrite E. tauto.
  - rewrite (touches_word _ _ _ _ _ Ht); [done|]. apply Hne; [right; by left|]. intros E. apply N2. rewrite E. tauto.
  - destruct (decide (p.(page_directory) = q.(page_directory))) as [E|E]; [rewrite E, Hw by lia; by rewrite <- E|].
    rewrite (touches_word _ _ _ _ _ Ht); [done|]. intros [?|Hin]%elem_of_cons; [done|].
    apply (Hout p.(page_directory)); [apply elem_of_app; left; do 2 right; by left|]. by apply HX.
  - intros Hused. apply (loaded_touches _ _ _ _ Ht); [|by apply Hl, Hu]. apply Hne; [do 3 right; by left|].
    intros E. apply N3. rewrite E. tauto.
Qed.

(** Stores of data. *)
Lemma spaces_data (T : Z -> Prop) total m pg :
  spaces total m -> same_tables T m.(pages) pg ->
  (forall ts i p t, spaces_by ts total m -> slots m !! i = Some p -> ts !! i = Some t -> Forall T (slot_tables p t)) ->
  spaces total (set_pages pg m).
Proof.
  intros (ts & Hs) [H1 H2] HT. exists ts. pose proof Hs as [S1 S2 S3 S4 S5]. split; try done.
  - revert S4. apply Forall_impl. intros x (? & ? & ?). split_and!; [done..|]. by apply H2.
  - intros i p t Hp Ht. destruct (S5 i p t Hp Ht) as (Hsh & [M1 M2 M3] & Hl). split; [done|].
    pose proof (HT ts i p t Hs Hp Ht) as Hall. unfold slot_tables in Hall. rewrite !list.Forall_cons in Hall. destruct Hall as (T1 & T2 & T3 & T4 & _).
    assert (Hw : forall x i, T x -> word pg x i = word m.(pages) x i) by (intros x k Hx; unfold word; by rewrite H1).
    split; [split; cbn; by rewrite Hw|]. intros Hu. destruct (Hl Hu) as [L1 L2 L3].
    split; intros k f Hk; cbn; rewrite Hw by done; [by apply L1|by apply L2|by apply L3].
Qed.
