(* ===== verification/AnonymousSpec.v ===== *)
(** The anonymous region: committing, mapping, reserving and releasing pages move
    frames between the pool and the region's tables, and nothing else. *)

From stdpp Require Import gmap.
From S2P Require Import Prelude UserMemory UserMemorySpec PhysicalMemory FramePool FrameOwnership.

(** ** Adding one page *)

(** Only one word of the pages of the region differs. *)
Definition one_word (d : Z) (T : list Z) (p i v : Z) (pg pg' : phys) : Prop :=
  word pg' p i = Some v /\
  forall q j, q = d \/ q ∈ T -> q <> p \/ j <> i -> word pg' q j = word pg q j.

Lemma extend_table d T F pg pg' t :
  anon d T F pg -> Z.of_nat (length F) mod 512 = 0 -> Z.of_nat (length F) < 6144 -> t ∉ T -> t <> d -> d ∉ T ->
  one_word d T d (ANON_INDEX + Z.of_nat (length T)) (t + 7) pg pg' ->
  (forall j, 0 <= j < 512 -> word pg' t j = Some 0) ->
  anon_open d (T ++ [t]) F pg'.
Proof.
  intros [[[Hdir Hpte Hid] _ Hs Hr] Hl] Hm Hn Ht Htd Hd [Hw Ho] Hz.
  assert (Hne : forall q j, q ∈ T -> word pg' q j = word pg q j).
  { intros q j Hq. apply Ho; [by right|]. left. intros ->. done. }
  assert (Hget : forall i q, (T ++ [t]).[i] = Some q -> T.[i] = Some q \/ i = Z.of_nat (length T) /\ q = t).
  { intros i q Hq. destruct (decide (i < Z.of_nat (length T))) as [Hi|Hi].
    - left. by rewrite aget_app_l in Hq.
    - right. pose proof (aget_bound _ _ _ Hq) as Hb. rewrite length_app in Hb. cbn in Hb.
      rewrite aget_app_r in Hq by lia. assert (i = Z.of_nat (length T)) as -> by lia.
      rewrite Z.sub_diag in Hq. by injection Hq. }
  split.
  - split.
    + intros i q Hi Hq. destruct (Hget _ _ Hq) as [Hq'|[-> ->]]; [|done].
      rewrite Ho; [by apply Hdir|by left|]. right. apply aget_bound in Hq'. lia.
    + intros p f fl Hp Hf. destruct (Hpte p f fl Hp Hf) as (q & Hq & Hwq & Hfl). exists q.
      split; [|split; [|done]].
      * rewrite aget_app_l; [done|]. apply aget_bound in Hq. lia.
      * rewrite Hne; [done|]. apply aget_Some in Hq as [_ Hq]. by apply list_elem_of_lookup_2 in Hq.
    + intros i Hi Hk. rewrite length_app in Hk. cbn in Hk. rewrite Ho; [apply Hid; lia|by left|]. right. lia.
  - rewrite length_app. cbn. zlia.
  - done.
  - intros i q j Hq Hj Hge. destruct (Hget _ _ Hq) as [Hq'|[-> ->]]; [|by apply Hz].
    rewrite Hne; [by eapply Hr|]. apply aget_Some in Hq' as [_ Hq']. by apply list_elem_of_lookup_2 in Hq'.
Qed.

Lemma extend_page d T F pg pg' t f fl :
  anon_open d T F pg -> T.[Z.of_nat (length F) / 512] = Some t -> Z.of_nat (length F) < 6144 ->
  fl = 5 \/ fl = 7 -> NoDup T -> d ∉ T ->
  one_word d T t (Z.of_nat (length F) mod 512) (f + fl) pg pg' ->
  anon d T (F ++ [(f, fl)]) pg'.
Proof.
  intros [[Hdir Hpte Hid] Hb Hs Hr] Ht Hn Hfl Hd Hdt [Hw Ho]. set (n := Z.of_nat (length F)) in *.
  pose proof (aget_bound _ _ _ Ht) as Hbt.
  assert (Htd : d <> t).
  { intros <-. apply Hdt. apply aget_Some in Ht as [_ Ht]. by apply list_elem_of_lookup_2 in Ht. }
  assert (Hother : forall i q j, T.[i] = Some q -> 0 <= j < 512 -> i * 512 + j <> n -> word pg' q j = word pg q j).
  { intros i q j Hq Hj Hne. apply Ho.
    - right. apply aget_Some in Hq as [_ Hq]. by apply list_elem_of_lookup_2 in Hq.
    - destruct (decide (q = t)) as [->|]; [right|by left]. intros ->.
      apply aget_Some in Hq as [? Hq], Ht as [? Ht]. pose proof (NoDup_lookup _ _ _ _ Hd Hq Ht). zlia. }
  assert (Hlen : Z.of_nat (length (F ++ [(f, fl)])) = n + 1) by (rewrite length_app; cbn; lia).
  split; [split|].
  - split.
    + intros i q Hi Hq. rewrite Ho; [by apply Hdir|by left|by left].
    + intros p g gl Hp Hg. destruct (decide (p < n)) as [Hlt|Hge].
      * rewrite aget_app_l in Hg by lia. destruct (Hpte p g gl Hp Hg) as (q & Hq & Hwq & Hgl). exists q.
        split; [done|]. split; [|done]. rewrite (Hother (p / 512)); [done|done|zlia|zlia].
      * pose proof (aget_bound _ _ _ Hg) as Hb2. rewrite aget_app_r in Hg by lia. assert (p = n) as -> by lia.
        unfold n in Hg. rewrite Z.sub_diag in Hg. injection Hg as <- <-. by exists t.
    + intros i Hi Hk. rewrite Ho; [auto|by left|by left].
  - rewrite Hlen. zlia.
  - rewrite Hlen. lia.
  - intros i q j Hq Hj Hge. rewrite Hlen in Hge. rewrite (Hother i); [|done..|lia]. eapply Hr; [done..|lia].
  - rewrite Hlen. zlia.
Qed.

(** Taking the last table away again. *)
Lemma drop_table d T F pg pg' :
  anon d T F pg -> d ∉ T -> Z.of_nat (length T) < 64 ->
  one_word d T d (ANON_INDEX + Z.of_nat (length T)) (identity_entry (ANON_INDEX + Z.of_nat (length T))) pg pg' ->
  anon d T F pg'.
Proof.
  intros [[[Hdir Hpte Hid] Hb Hs Hr] Hl] Hd Hn [Hw Ho].
  assert (Hne : forall i q j, T.[i] = Some q -> word pg' q j = word pg q j).
  { intros i q j Hq. apply aget_Some in Hq as [_ Hq]. apply list_elem_of_lookup_2 in Hq.
    apply Ho; [by right|]. left. intros ->. done. }
  split; [|done]. split; [split|done|done|].
  - intros i q Hi Hq. rewrite Ho; [by apply Hdir|by left|]. right. apply aget_bound in Hq. lia.
  - intros p f fl Hp Hf. destruct (Hpte p f fl Hp Hf) as (q & Hq & Hwq & Hfl). exists q.
    split; [done|]. by rewrite (Hne _ _ _ Hq).
  - intros i Hi Hk. destruct (decide (i = Z.of_nat (length T))) as [->|]; [done|].
    rewrite Ho; [by apply Hid|by left|]. right. lia.
  - intros i q j Hq Hj Hge. rewrite (Hne _ _ _ Hq). by eapply Hr.
Qed.

(** ** The state of one region and the pool *)

Record region (m : user_memory) (pid d r : Z) (L T : list Z) (F : list (Z * Z)) : Prop := {
  rg_dir : directory_of pid m = Some d;
  rg_count : m.(anonymous_page_count).[pid] = Some (Z.of_nat (length F));
  rg_reserved : m.(anonymous_reserved_pages).[pid] = Some r;
  rg_pool : pool m L;
  rg_anon : anon d T F m.(pages);
  rg_apart : apart m.(pages) d (L ++ T ++ F.*1)
}.

(** What an operation on the region of [pid] may change; [X] are the pages it may
    write, and of the directory [d] only the entries of the region. *)
Record moves (pid d : Z) (X : list Z) (c r : Z) (m m' : user_memory) : Prop := MkMoves {
  mv_step : anon_step pid c r m m';
  mv_touches : touches X m.(pages) m'.(pages);
  mv_dir : forall i, i < ANON_INDEX \/ SURFACE_INDEX <= i -> word m'.(pages) d i = word m.(pages) d i
}.

Lemma moves_trans pid d X Y c r c' r' m1 m2 m3 :
  moves pid d X c r m1 m2 -> moves pid d Y c' r' m2 m3 -> Y ⊆ X -> moves pid d X c' r' m1 m3.
Proof.
  intros [H1 H2 H5] [H3 H4 H6] Hs. split; [by eapply anon_step_trans| |].
  - eapply touches_trans; [done|]. by eapply touches_mono.
  - intros i Hi. by rewrite H6, H5.
Qed.

Lemma pool_anonymous m L c r : pool m L -> pool (set_anonymous c r m) L.
Proof. by intros []; split. Qed.

Lemma touches_apart X Y pg pg' d : touches X pg pg' -> apart pg d Y -> apart pg' d Y.
Proof. apply apart_touches. Qed.

Lemma elem_disjoint (X Y : list Z) x : NoDup (X ++ Y) -> x ∈ X -> x ∉ Y.
Proof. intros (_ & H & _)%list.NoDup_app Hx. by apply H. Qed.

(** Setting the page count. *)
Lemma set_count_eq pid n m :
  0 <= pid < Z.of_nat (length m.(anonymous_page_count)) ->
  set_anonymous_count pid n m =
    Some (set_anonymous (<[Z.to_nat pid := n]> m.(anonymous_page_count)) m.(anonymous_reserved_pages) m).
Proof. intros H. unfold set_anonymous_count. by rewrite aset_in. Qed.

(** Taking a frame for a region: failure leaves everything, success zeroes the
    head of the pool. *)
Lemma take_moves m pid d c r L :
  pool m L -> NoDup L -> d ∉ L -> Forall (frame_ok m.(pages)) L ->
  m.(anonymous_page_count).[pid] = Some c -> m.(anonymous_reserved_pages).[pid] = Some r ->
  (L = [] /\ anonymous_frame_take m = Some (0, m)) \/
  (exists f L' m', L = f :: L' /\ anonymous_frame_take m = Some (f, m') /\ frame_ok m.(pages) f /\
     pool m' L' /\ moves pid d [f] c r m m' /\
     (forall j, 0 <= j < 512 -> word m'.(pages) f j = Some 0)).
Proof.
  intros Hp Hn Hd Hf Hc Hr. destruct (take_ok m L Hp Hn Hf) as (r' & Ht & Hr').
  destruct L as [|f L']; cbn in Hr'; [left; by rewrite Ht, Hr'|right].
  destruct Hr' as (free & next & -> & Hp' & Htc & Hz).
  exists f, L', (set_pool free next (<[f := zero_page]> m.(pages)) m).
  split; [done|]. split; [done|]. split; [by apply Forall_inv in Hf|]. split; [done|]. split; [|done].
  split; [by apply anon_step_pool|done|]. intros i _. eapply touches_word; [done|].
  intros ->%list_elem_of_singleton. apply Hd. by left.
Qed.

Lemma moves_cells pid d X c r m m' :
  moves pid d X c r m m' -> 0 <= pid < Z.of_nat (length m.(anonymous_page_count)) ->
  0 <= pid < Z.of_nat (length m.(anonymous_reserved_pages)) ->
  m'.(anonymous_page_count).[pid] = Some c /\ m'.(anonymous_reserved_pages).[pid] = Some r /\
  directory_of pid m' = directory_of pid m.
Proof. intros [H _ _] Hc Hr. destruct (anon_step_cells _ _ _ _ _ H Hc Hr) as (? & ? & _ & _ & ?). done. Qed.

Lemma set_pages_pool pg' free next pg m : set_pages pg' (set_pool free next pg m) = set_pool free next pg' m.
Proof. done. Qed.

Lemma moves_pool pid d X c r m free next pg :
  m.(anonymous_page_count).[pid] = Some c -> m.(anonymous_reserved_pages).[pid] = Some r ->
  touches X m.(pages) pg -> d ∉ X -> moves pid d X c r m (set_pool free next pg m).
Proof.
  intros Hc Hr Ht Hd. split; [by apply anon_step_pool|done|]. intros i _. by eapply touches_word.
Qed.

(** The cells after a move, for a process whose cells exist. *)
Lemma region_cells m m' pid d r L T F X c r' :
  region m pid d r L T F -> moves pid d X c r' m m' ->
  m'.(anonymous_page_count).[pid] = Some c /\ m'.(anonymous_reserved_pages).[pid] = Some r' /\
  directory_of pid m' = Some d.
Proof.
  intros [H1 H2 H3 _ _ _] Hm. rewrite <- H1. eapply moves_cells; [done|by eapply aget_bound..].
Qed.

Lemma region_moves m m' pid d r r' L T F X L' T' F' :
  region m pid d r L T F -> moves pid d X (Z.of_nat (length F')) r' m m' ->
  pool m' L' -> anon d T' F' m'.(pages) -> L' ++ T' ++ F'.*1 ≡ₚ L ++ T ++ F.*1 ->
  region m' pid d r' L' T' F'.
Proof.
  intros [H1 H2 H3 H4 H5 H6] Hm Hp Ha Hperm.
  destruct (moves_cells _ _ _ _ _ _ _ Hm) as (Hc & Hr & Hd); [by eapply aget_bound|by eapply aget_bound|].
  split; [by rewrite Hd|done|done|done|done|].
  apply (apart_perm _ _ _ _ Hperm). eapply apart_touches; [apply Hm|done].
Qed.

(** The frames one more page needs: a table at every 512th. *)
Definition page_need (n : Z) : Z := if n mod 512 =? 0 then 2 else 1.

Record added (pid d r flags : Z) (L T : list Z) (F : list (Z * Z)) (m : user_memory)
    (ok : bool) (m' : user_memory) (L' T' : list Z) (F' : list (Z * Z)) : Prop := {
  ad_region : region m' pid d r L' T' F';
  ad_perm : L' ++ T' ++ F'.*1 ≡ₚ L ++ T ++ F.*1;
  ad_moves : moves pid d (d :: L ++ T) (Z.of_nat (length F')) r m m';
  ad_ok : ok = true <-> page_need (Z.of_nat (length F)) <= Z.of_nat (length L);
  ad_pages : if ok then exists f, F' = F ++ [(f, flags)] else F' = F /\ T' = T;
  ad_left : ok = true -> Z.of_nat (length L) = page_need (Z.of_nat (length F)) + Z.of_nat (length L')
}.

(** The store of the new entry, shared by both cases: [m1] has the table [t] of the
    page and the fresh frame [f]. *)
Lemma commit_store m m1 pid d r L T F L' T1 t f flags X :
  region m pid d r L T F -> flags = 5 \/ flags = 7 -> Z.of_nat (length F) < 6144 ->
  moves pid d X (Z.of_nat (length F)) r m m1 -> pool m1 L' -> anon_open d T1 F m1.(pages) ->
  T1.[Z.of_nat (length F) / 512] = Some t -> frame_ok m.(pages) f ->
  L' ++ T1 ++ (f :: F.*1) ≡ₚ L ++ T ++ F.*1 -> X ⊆ d :: L ++ T -> t ∈ L ++ T ->
  exists m', (m ← store_word t (Z.of_nat (length F) mod 512) (Z.lor f flags) m1;
              m ← set_anonymous_count pid (Z.of_nat (length F) + 1) m; Some (true, m)) = Some (true, m') /\
    region m' pid d r L' T1 (F ++ [(f, flags)]) /\
    L' ++ T1 ++ (F ++ [(f, flags)]).*1 ≡ₚ L ++ T ++ F.*1 /\
    moves pid d (d :: L ++ T) (Z.of_nat (length (F ++ [(f, flags)]))) r m m'.
Proof.
  intros Hrg Hfl Hn Hmv Hp Ha Ht Hf Hperm HX HtL. pose proof Hrg as [H1 H2 H3 H4 H5 H6].
  assert (Hperm' : L' ++ T1 ++ (F ++ [(f, flags)]).*1 ≡ₚ L ++ T ++ F.*1).
  { rewrite <- Hperm, fmap_app. cbn. solve_Permutation. }
  pose proof (apart_perm _ _ _ _ Hperm H6) as Hap. apply (apart_touches _ _ _ _ _ (mv_touches _ _ _ _ _ _ _ Hmv)) in Hap.
  assert (HtT : t ∈ T1) by (apply aget_Some in Ht as [_ Ht]; by apply list_elem_of_lookup_2 in Ht).
  destruct (apart_dir _ _ _ t Hap) as [Htd Htf].
  { apply elem_of_app. right. apply elem_of_app. by left. }
  assert (Hpage : is_page m1.(pages) t) by apply Htf.
  rewrite store_word_eq by (done || zlia). cbn [mbind option_bind].
  destruct (moves_cells _ _ _ _ _ _ _ Hmv) as (Hc & Hr & Hdir); [by eapply aget_bound|by eapply aget_bound|].
  rewrite set_count_eq by (by eapply aget_bound). cbn [mbind option_bind].
  rewrite lor_flags by (apply Hf || lia).
  destruct (apart_app _ _ _ _ Hap) as ((Hnd & _) & Hap2 & Hdis).
  destruct (apart_app _ _ _ _ Hap2) as ((HndT & _) & _ & _). apply list.NoDup_cons in HndT as [HdT HndT].
  eexists. split; [done|].
  assert (Hlen : Z.of_nat (length (F ++ [(f, flags)])) = Z.of_nat (length F) + 1) by (rewrite length_app; cbn; lia).
  assert (Hmv' : moves pid d (d :: L ++ T) (Z.of_nat (length (F ++ [(f, flags)]))) r m
    (set_anonymous (<[Z.to_nat pid := Z.of_nat (length F) + 1]> m1.(anonymous_page_count)) m1.(anonymous_reserved_pages)
       (set_pages (put_word m1.(pages) t (Z.of_nat (length F) mod 512) (f + flags)) m1))).
  { split.
    - eapply anon_step_trans; [apply Hmv|]. rewrite Hlen. eexists _, _, _. unfold set_pages. f_equal.
      apply aget_Some in Hr as [_ Hr]. by rewrite list_insert_id.
    - cbn. eapply touches_trans; [eapply touches_mono; [apply Hmv|done]|].
      eapply touches_mono; [apply put_word_touches|]. intros x ->%list_elem_of_singleton. by right.
    - intros i Hi. cbn. rewrite put_word_other; [by apply Hmv|done|zlia|left; congruence]. }
  split; [|done]. eapply region_moves; [done|done| | |done].
  - apply pool_anonymous. unfold set_pages. eapply pool_touches; [done..|apply put_word_touches|].
    intros g Hg ->%list_elem_of_singleton. eapply Hdis; [done|]. apply elem_of_app. by left.
  - cbn. eapply extend_page; [done..|]. split; [apply put_word_same; [done|zlia]|].
    intros q j _ Hne. by apply put_word_other; [|zlia|].
Qed.

(** The facts about the pool and the tables that [apart] holds. *)
Record parts (m : user_memory) (d : Z) (L T : list Z) : Prop := {
  pt_pool : NoDup L; pt_pool_ok : Forall (frame_ok m.(pages)) L; pt_pool_dir : d ∉ L;
  pt_tables : NoDup T; pt_tables_ok : Forall (frame_ok m.(pages)) T; pt_tables_dir : d ∉ T;
  pt_disjoint : forall x, x ∈ L -> x ∉ T; pt_dir : is_page m.(pages) d
}.

Lemma apart_parts m d L T Y : apart m.(pages) d (L ++ T ++ Y) -> parts m d L T.
Proof.
  intros H. destruct (apart_app _ _ _ _ H) as ((H1 & H2 & Hd) & H3 & H4).
  destruct (apart_app _ _ _ _ H3) as ((H5 & H6 & _) & _ & _).
  apply list.NoDup_cons in H1 as [??], H5 as [??]. split; try done.
  intros x Hx Hy. apply (H4 x Hx). apply elem_of_app. by left.
Qed.

(** The first half of adding a page: its table exists afterwards. *)
Record table_ready (pid d r : Z) (L T : list Z) (F : list (Z * Z)) (m m1 : user_memory) (t : Z) (L1 T1 : list Z) : Prop := {
  tr_moves : moves pid d (d :: L ++ T) (Z.of_nat (length F)) r m m1;
  tr_pool : pool m1 L1;
  tr_anon : anon_open d T1 F m1.(pages);
  tr_table : T1.[Z.of_nat (length F) / 512] = Some t;
  tr_perm : L1 ++ T1 ++ F.*1 ≡ₚ L ++ T ++ F.*1;
  tr_in : t ∈ L ++ T;
  tr_count : Z.of_nat (length L) + 1 = page_need (Z.of_nat (length F)) + Z.of_nat (length L1)
}.

Lemma old_table m pid d r L T F :
  region m pid d r L T F -> Z.of_nat (length F) mod 512 <> 0 -> Z.of_nat (length F) < 6144 ->
  exists t, word m.(pages) d (ANON_INDEX + Z.of_nat (length F) / 512) = Some (t + 7) /\
    frame_ok m.(pages) t /\ table_ready pid d r L T F m m t L T.
Proof.
  intros [H1 H2 H3 H4 [H5 Hlen] H6] Hm Hn. pose proof (apart_parts _ _ _ _ _ H6) as Hpt.
  destruct (aget_in T (Z.of_nat (length F) / 512)) as [t Ht]; [zlia|]. exists t.
  assert (HtT : t ∈ T) by (apply aget_Some in Ht as [_ Ht]; by apply list_elem_of_lookup_2 in Ht).
  split; [apply (anon_dir _ _ _ _ _ _ (anon_maps _ _ _ _ H5)); [zlia|done]|].
  split; [eapply list.Forall_forall; [apply (pt_tables_ok _ _ _ _ Hpt)|done]|]. split; try done.
  - split; [by apply anon_step_refl|apply touches_refl|done].
  - apply elem_of_app. by right.
  - unfold page_need. rewrite (proj2 (Z.eqb_neq _ 0)) by done. lia.
Qed.

Lemma new_table m pid d r L T F :
  region m pid d r L T F -> Z.of_nat (length F) mod 512 = 0 -> Z.of_nat (length F) < 6144 ->
  (L = [] /\ anonymous_frame_take m = Some (0, m)) \/
  (exists t m1, anonymous_frame_take m = Some (t, m1) /\ frame_ok m.(pages) t /\
    is_page m1.(pages) d /\ t ∉ T /\ t <> d /\ Z.of_nat (length T) = Z.of_nat (length F) / 512 /\
    let m2 := set_pages (put_word m1.(pages) d (ANON_INDEX + Z.of_nat (length F) / 512) (t + 7)) m1 in
    one_word d T d (ANON_INDEX + Z.of_nat (length T)) (t + 7) m.(pages) m2.(pages) /\
    exists L1, L = t :: L1 /\ table_ready pid d r L T F m m2 t L1 (T ++ [t])).
Proof.
  intros [H1 H2 H3 H4 H5 H6] Hm Hn. pose proof (apart_parts _ _ _ _ _ H6) as Hpt.
  pose proof (proj2 H5) as Hlen. assert (HlT : Z.of_nat (length T) = Z.of_nat (length F) / 512) by zlia.
  destruct (take_moves m pid d (Z.of_nat (length F)) r L) as [?|(t & L1 & m1 & -> & -> & Ht & Hp1 & Hmv1 & Hz1)];
    [done|apply Hpt|apply Hpt|apply Hpt|done|done|by left|]. right. exists t, m1.
  assert (HtT : t ∉ T) by (apply (pt_disjoint _ _ _ _ Hpt); left).
  assert (Htd : t <> d) by (intros ->; apply (pt_pool_dir _ _ _ _ Hpt); left).
  assert (Hd1 : is_page m1.(pages) d) by (eapply touches_page; [apply Hmv1|apply Hpt]).
  assert (Hi : 0 <= ANON_INDEX + Z.of_nat (length T) < 512) by (unfold ANON_INDEX; zlia).
  split_and!; [done..|]. rewrite <- HlT. cbv zeta. cbn [set_pages set_pool pages].
  set (pg2 := put_word m1.(pages) d (ANON_INDEX + Z.of_nat (length T)) (t + 7)).
  assert (Hw : one_word d T d (ANON_INDEX + Z.of_nat (length T)) (t + 7) m.(pages) pg2).
  { split; [by apply put_word_same|]. intros q j Hq Hne. unfold pg2. rewrite put_word_other by done.
    apply (touches_word [t]); [apply Hmv1|]. intros ->%list_elem_of_singleton. naive_solver. }
  split; [done|]. exists L1. split; [done|]. split.
  - split.
    + eapply anon_step_trans; [apply Hmv1|].
      destruct (moves_cells _ _ _ _ _ _ _ Hmv1) as (? & ? & ?); [by eapply aget_bound..|]. by apply anon_step_pool.
    + eapply touches_trans; [eapply touches_mono; [apply Hmv1|]|eapply touches_mono; [apply put_word_touches|]];
        intros x ->%list_elem_of_singleton; [right; by left|by left].
    + intros i Hi'. unfold pg2. cbn. rewrite put_word_other; [by apply Hmv1|done|done|right].
      unfold ANON_INDEX, SURFACE_INDEX in *. zlia.
  - eapply pool_touches; [done..|apply put_word_touches|]. intros g Hg ->%list_elem_of_singleton.
    apply (pt_pool_dir _ _ _ _ Hpt). by right.
  - cbn [set_pages set_pool pages]. eapply extend_table; [done..|apply Hpt|done|]. intros j Hj. unfold pg2. rewrite put_word_other by (done || by left).
    by apply Hz1.
  - rewrite aget_app_r by lia. by rewrite HlT, Z.sub_diag.
  - solve_Permutation.
  - by left.
  - unfold page_need. rewrite Hm. cbn. lia.
Qed.

(** Giving the fresh table back when no frame is left for the page. *)
Lemma undo_table m pid d r t T F m1 :
  region m pid d r [t] T F -> Z.of_nat (length F) mod 512 = 0 -> Z.of_nat (length F) < 6144 ->
  let i := ANON_INDEX + Z.of_nat (length T) in
  table_ready pid d r [t] T F m m1 t [] (T ++ [t]) -> t ∉ T -> t <> d -> is_page m1.(pages) d ->
  one_word d T d i (t + 7) m.(pages) m1.(pages) ->
  exists m', (e ← load_word d i m1; m ← anonymous_frame_release (page_of e) m1;
              m ← store_word d i (i * 2097152 + 135) m; Some (false, m)) = Some (false, m') /\
    added pid d r 0 [t] T F m false m' [t] T F.
Proof.
  intros Hrg Hm Hn i Htr HtT Htd Hd1 Hw. pose proof Hrg as [H1 H2 H3 H4 H5 H6].
  pose proof (proj2 H5) as Hlen. destruct Htr as [Hmv Hp Ha _ _ _ _].
  assert (Hi : 0 <= i < 512) by (unfold i, ANON_INDEX; zlia).
  assert (Htf : frame_ok m.(pages) t) by (apply (apart_dir _ _ _ _ H6); by left).
  assert (Htf1 : frame_ok m1.(pages) t) by (eapply frame_ok_touches; [apply Hmv|done]).
  change (load_word d i m1) with (word m1.(pages) d i). rewrite (proj1 Hw). cbn [mbind option_bind].
  rewrite page_of_entry by (apply Htf || lia).
  destruct (release_frame_ok m1 [] t Hp Htf1) as (pg & -> & Hp' & Htc); [by intros ?%elem_of_nil|].
  cbn [mbind option_bind].
  assert (Hdp : is_page pg d) by (by eapply touches_page). rewrite store_word_eq by done. cbn [mbind option_bind].
  eexists. split; [done|].
  assert (Hmv' : moves pid d (d :: [t] ++ T) (Z.of_nat (length F)) r m
    (set_pages (put_word pg d i (i * 2097152 + 135)) (set_pool t m1.(next_frame) pg m1))).
  { split.
    - eapply anon_step_trans; [apply Hmv|]. destruct (moves_cells _ _ _ _ _ _ _ Hmv) as (? & ? & ?); [by eapply aget_bound..|].
      by apply (anon_step_pool pid (Z.of_nat (length F)) r m1 t m1.(next_frame)).
    - cbn. eapply touches_trans; [apply Hmv|]. eapply touches_trans; [eapply touches_mono; [done|]|
        eapply touches_mono; [apply put_word_touches|]]; intros x ->%list_elem_of_singleton; [right; by left|by left].
    - intros j Hj. cbn. rewrite put_word_other; [|done|done|right; unfold i, ANON_INDEX, SURFACE_INDEX in *; zlia].
      rewrite (touches_word _ _ _ _ _ Htc) by (intros ->%list_elem_of_singleton; done). by apply Hmv. }
  assert (Hanon : anon d T F (put_word pg d i (i * 2097152 + 135))).
  { eapply drop_table; [done|by apply (apart_parts _ _ _ _ _ H6)|zlia|]. fold i.
    split; [by apply put_word_same|]. intros q j Hq Hne. rewrite put_word_other by done.
    rewrite (touches_word _ _ _ _ _ Htc) by (intros ->%list_elem_of_singleton; naive_solver).
    by apply Hw. }
  assert (Hpool : pool (set_pages (put_word pg d i (i * 2097152 + 135)) (set_pool t m1.(next_frame) pg m1)) [t]).
  { eapply pool_touches; [done..|apply put_word_touches|]. intros g ->%list_elem_of_singleton.
    by intros ->%list_elem_of_singleton. }
  split; [|done|done| |done|done].
  - by eapply region_moves.
  - unfold page_need. rewrite Hm. cbn. split; [done|lia].
Qed.

(** The page's table, taken or found. *)
Lemma page_table_ok m pid d r L T F :
  region m pid d r L T F -> Z.of_nat (length F) < 6144 ->
  (L = [] /\ Z.of_nat (length F) mod 512 = 0 /\ anonymous_page_table d (Z.of_nat (length F)) m = Some (0, m)) \/
  exists t m1 L1 T1, anonymous_page_table d (Z.of_nat (length F)) m = Some (t, m1) /\
    t <> 0 /\ table_ready pid d r L T F m m1 t L1 T1 /\
    (Z.of_nat (length F) mod 512 = 0 -> L = t :: L1 /\ T1 = T ++ [t] /\ t ∉ T /\ t <> d /\ is_page m1.(pages) d /\
       Z.of_nat (length T) = Z.of_nat (length F) / 512 /\
       one_word d T d (ANON_INDEX + Z.of_nat (length T)) (t + 7) m.(pages) m1.(pages)) /\
    (Z.of_nat (length F) mod 512 <> 0 -> m1 = m /\ L1 = L /\ T1 = T).
Proof.
  intros Hrg Hn. unfold anonymous_page_table. cbv zeta. change (Z.shiftr USER_ANON_BASE 21) with ANON_INDEX.
  destruct (Z.eqb_spec (Z.of_nat (length F) mod 512) 0) as [E|E].
  - destruct (new_table _ _ _ _ _ _ _ Hrg E Hn) as [[? ->]|(t & m1 & -> & Ht & Hd1 & HtT & Htd & HlT & Hw & L1 & -> & Htr)];
      [by left|right]. exists t. cbn [mbind option_bind]. rewrite (proj2 (Z.eqb_neq t 0)) by (destruct Ht; lia).
    rewrite store_word_eq by (done || (unfold ANON_INDEX; zlia)). cbn [mbind option_bind].
    eexists _, L1, (T ++ [t]). split; [done|]. split; [destruct Ht; lia|]. split; [done|]. split; [|done].
    intros _. split_and!; try done. eapply touches_page; [apply put_word_touches|done].
  - right. destruct (old_table _ _ _ _ _ _ _ Hrg E Hn) as (t & Hw & Ht & Htr). exists t, m, L, T.
    change (load_word d (ANON_INDEX + Z.of_nat (length F) / 512) m)
      with (word m.(pages) d (ANON_INDEX + Z.of_nat (length F) / 512)). rewrite Hw.
    cbn [mbind option_bind]. rewrite page_of_entry by (apply Ht || lia).
    split; [done|]. split; [destruct Ht; lia|]. done.
Qed.

(** One page of [anonymous_commit_pages]. *)
Lemma commit_page_ok m pid d r flags L T F :
  region m pid d r L T F -> flags = 5 \/ flags = 7 -> Z.of_nat (length F) < 6144 ->
  exists ok m' L' T' F',
    anonymous_commit_page pid d flags (Z.of_nat (length F)) m = Some (ok, m') /\
    added pid d r flags L T F m ok m' L' T' F'.
Proof.
  intros Hrg Hfl Hn. pose proof Hrg as [H1 H2 H3 H4 H5 H6]. unfold anonymous_commit_page. cbv zeta.
  change (Z.shiftr USER_ANON_BASE 21) with ANON_INDEX.
  pose proof (apart_parts _ _ _ _ _ H6) as Hpt.
  destruct (page_table_ok _ _ _ _ _ _ _ Hrg Hn)
    as [(-> & E & ->)|(t & m1 & L1 & T1 & -> & Ht0 & Htr & Hnew & Hold)].
  { cbn [mbind option_bind]. rewrite E, !Z.eqb_refl. cbn [andb].
    exists false, m, [], T, F. split; [done|]. split; [done|done| | |done|done].
    - split; [by apply anon_step_refl|apply touches_refl|done].
    - unfold page_need. rewrite E, Z.eqb_refl. cbn. split; [done|lia]. }
  cbn [mbind option_bind]. rewrite (proj2 (Z.eqb_neq t 0)) by done. rewrite andb_false_r.
  destruct Htr as [Hmv Hp Ha Htb Hpm Hin Hcnt] eqn:Htr'. clear Htr'.
  destruct (moves_cells _ _ _ _ _ _ _ Hmv) as (Hc & Hr & Hdir); [by eapply aget_bound..|].
  pose proof (apart_touches _ _ _ _ _ (mv_touches _ _ _ _ _ _ _ Hmv) (apart_perm _ _ _ _ Hpm H6)) as Hap1.
  pose proof (apart_parts _ _ _ _ _ Hap1) as Hpt1.
  destruct (take_moves m1 pid d _ r L1 Hp (pt_pool _ _ _ _ Hpt1) (pt_pool_dir _ _ _ _ Hpt1) (pt_pool_ok _ _ _ _ Hpt1) Hc Hr)
    as [[-> ->]|(f & L2 & m2 & -> & -> & Hf & Hp2 & Hmv2 & Hz)]; cbn [mbind option_bind].
  - rewrite Z.eqb_refl. destruct (Z.eqb_spec (Z.of_nat (length F) mod 512) 0) as [E|E].
    + destruct (Hnew E) as (-> & -> & HtT & Htd & Hd1 & HlT & Hw). rewrite <- HlT.
      destruct (undo_table m pid d r t T F m1 Hrg E Hn Htr HtT Htd Hd1 Hw) as (m' & -> & Hadd).
      exists false, m', [t], T, F. split; [done|]. destruct Hadd. by split.
    + destruct (Hold E) as (-> & <- & ->). exists false, m, [], T, F. split; [done|]. split; [done|done| | |done|done].
      * split; [by apply anon_step_refl|apply touches_refl|done].
      * unfold page_need. rewrite (proj2 (Z.eqb_neq _ 0)) by done. cbn. split; [done|lia].
  - rewrite (proj2 (Z.eqb_neq f 0)) by (destruct Hf; lia).
    assert (HfL : f ∈ L).
    { destruct (decide (Z.of_nat (length F) mod 512 = 0)) as [E|E].
      - destruct (Hnew E) as (-> & _). right. by left.
      - destruct (Hold E) as (_ & <- & _). by left. }
    assert (Hmv' : moves pid d (d :: L ++ T) (Z.of_nat (length F)) r m m2).
    { eapply moves_trans; [done..|]. intros x ->%list_elem_of_singleton. right. apply elem_of_app. by left. }
    assert (Ha2 : anon_open d T1 F m2.(pages)).
    { eapply anon_open_touches; [apply Hmv2| | |done].
      - intros ->%list_elem_of_singleton. apply (pt_pool_dir _ _ _ _ Hpt1). by left.
      - intros x Hx ->%list_elem_of_singleton. eapply (pt_disjoint _ _ _ _ Hpt1); [by left|done]. }
    assert (Hpm2 : L2 ++ T1 ++ (f :: F.*1) ≡ₚ L ++ T ++ F.*1) by (rewrite <- Hpm; solve_Permutation).
    assert (HfL' : frame_ok m.(pages) f) by (eapply list.Forall_forall; [apply (pt_pool_ok _ _ _ _ Hpt)|done]).
    destruct (commit_store m m2 pid d r L T F L2 T1 t f flags (d :: L ++ T)) as (m' & -> & Hrg' & Hpm' & Hmv'');
      [done..|].
    exists true, m', L2, T1, (F ++ [(f, flags)]). cbn in Hcnt. split; [done|]. split; [done|done|done| | |].
    + split; [lia|done].
    + by exists f.
    + intros _. lia.
Qed.

(** ** Ranges of pages *)

Definition tables_for (n : Z) : Z := (n + 511) / 512.
(** The frames that adding [k] pages to [n] takes. *)
Definition frames_for (n k : Z) : Z := k + (tables_for (n + k) - tables_for n).

Lemma page_need_for n k : 0 <= n -> 0 <= k -> frames_for n (k + 1) = page_need n + frames_for (n + 1) k.
Proof.
  intros Hn Hk. unfold frames_for, page_need, tables_for. replace (n + (k + 1)) with (n + 1 + k) by lia.
  destruct (Z.eqb_spec (n mod 512) 0); zlia.
Qed.

Lemma frames_for_nonneg n k : 0 <= n -> 0 <= k -> 0 <= frames_for n k.
Proof. intros. unfold frames_for, tables_for. zlia. Qed.

Record grown (pid d r flags k : Z) (L T : list Z) (F : list (Z * Z)) (m : user_memory)
    (ok : bool) (m' : user_memory) (L' T' : list Z) (F' : list (Z * Z)) : Prop := {
  gr_region : region m' pid d r L' T' F';
  gr_perm : L' ++ T' ++ F'.*1 ≡ₚ L ++ T ++ F.*1;
  gr_moves : moves pid d (d :: L ++ T) (Z.of_nat (length F')) r m m';
  gr_ok : ok = true <-> frames_for (Z.of_nat (length F)) k <= Z.of_nat (length L);
  gr_pages : exists new, F' = F ++ new /\ Forall (fun e => e.2 = flags) new /\
    Z.of_nat (length new) <= k /\ (ok = true -> Z.of_nat (length new) = k) /\
    frames_for (Z.of_nat (length F)) (Z.of_nat (length new)) <= Z.of_nat (length L) /\
    (ok = false -> Z.of_nat (length L) < frames_for (Z.of_nat (length F)) (Z.of_nat (length new) + 1))
}.

Lemma added_incl pid d r flags L T F m ok m' L' T' F' :
  added pid d r flags L T F m ok m' L' T' F' -> d :: L' ++ T' ⊆ d :: L ++ T.
Proof.
  intros [Hrg Hp _ _ Hpg _] x Hx. destruct (proj1 (elem_of_cons _ _ _) Hx) as [->|Hx']; [by left|right].
  assert (Hin : x ∈ L ++ T ++ F.*1).
  { rewrite <- Hp. apply elem_of_app in Hx' as [?|?]; apply elem_of_app; [by left|right].
    apply elem_of_app. by left. }
  rewrite app_assoc in Hin. apply elem_of_app in Hin as [?|HF]; [done|exfalso].
  destruct (rg_apart _ _ _ _ _ _ _ Hrg) as (Hn & _). apply list.NoDup_cons in Hn as [_ Hn].
  rewrite app_assoc in Hn. eapply elem_disjoint; [done..|].
  destruct ok; [destruct Hpg as [f ->]|by destruct Hpg as [-> _]].
  rewrite fmap_app. apply elem_of_app. by left.
Qed.

Lemma commit_from_ok pid d r flags k : flags = 5 \/ flags = 7 -> forall m L T F,
  region m pid d r L T F -> Z.of_nat (length F) + Z.of_nat k <= 6144 ->
  exists ok m' L' T' F',
    anonymous_commit_from k (Z.of_nat (length F)) pid d flags m = Some (ok, m') /\
    grown pid d r flags (Z.of_nat k) L T F m ok m' L' T' F'.
Proof.
  intros Hfl. induction k as [|k IH]; intros m L T F Hrg Hk; cbn [anonymous_commit_from].
  { exists true, m, L, T, F. split; [done|]. destruct Hrg. split; [done|done| | |].
    - split; [by apply anon_step_refl|apply touches_refl|done].
    - unfold frames_for, tables_for. split; [zlia|done].
    - exists []. rewrite app_nil_r. repeat split; cbn; try lia; [constructor|]. unfold frames_for, tables_for; zlia. }
  destruct (commit_page_ok m pid d r flags L T F Hrg Hfl) as (ok & m1 & L1 & T1 & F1 & -> & Had); [lia|].
  pose proof (added_incl _ _ _ _ _ _ _ _ _ _ _ _ _ Had) as Hincl.
  destruct Had as [Hrg1 Hp1 Hmv1 Hok1 Hpg1 Hleft]. cbn [mbind option_bind].
  pose proof (page_need_for (Z.of_nat (length F)) (Z.of_nat k) ltac:(lia) ltac:(lia)) as Hneed.
  pose proof (frames_for_nonneg (Z.of_nat (length F) + 1) (Z.of_nat k) ltac:(lia) ltac:(lia)) as Hnn.
  replace (Z.of_nat (S k)) with (Z.of_nat k + 1) by lia. destruct ok; cbn [negb].
  - destruct Hpg1 as [f ->]. rewrite length_app in *. cbn [length] in *.
    assert (Hlen : Z.of_nat (length (F ++ [(f, flags)])) = Z.of_nat (length F) + 1) by (rewrite length_app; cbn; lia).
    destruct (IH _ _ _ _ Hrg1) as (ok & m2 & L2 & T2 & F2 & Heq & [Hrg2 Hp2 Hmv2 Hok2 Hpg2]); [lia|].
    rewrite Hlen in Heq. rewrite Heq. exists ok, m2, L2, T2, F2. split; [done|]. specialize (Hleft eq_refl).
    split; [done|by rewrite Hp2| | |].
    + by eapply moves_trans.
    + rewrite Hok2, Hlen. lia.
    + destruct Hpg2 as (new & -> & Hf & Hl & Hle & Hr1 & Hr2). exists ((f, flags) :: new). rewrite <- app_assoc.
      split; [done|]. split; [by constructor|]. rewrite Hlen in Hr1, Hr2. cbn [length].
      pose proof (page_need_for (Z.of_nat (length F)) (Z.of_nat (length new)) ltac:(lia) ltac:(lia)) as Hn1.
      pose proof (page_need_for (Z.of_nat (length F)) (Z.of_nat (length new) + 1) ltac:(lia) ltac:(lia)) as Hn2.
      replace (Z.of_nat (S (length new))) with (Z.of_nat (length new) + 1) by lia.
      split; [lia|]. split; [intros ?; specialize (Hle ltac:(done)); lia|]. split; [lia|]. intros ?. specialize (Hr2 ltac:(done)). lia.
  - destruct Hpg1 as [-> ->]. exists false, m1, L1, T, F. split; [done|]. split; [done|done|done| |].
    + split; [done|]. rewrite Hneed. intros H. apply Hok1. lia.
    + exists []. rewrite app_nil_r. pose proof (page_need_for (Z.of_nat (length F)) 0 ltac:(lia) ltac:(lia)) as Hn1.
      assert (H0 : forall n, frames_for n 0 = 0) by (intros n; unfold frames_for; replace (n + 0) with n by lia; lia).
      rewrite H0 in Hn1. cbn [length]. change (Z.of_nat 0) with 0. rewrite H0. repeat split; try lia; try done.
Qed.

Lemma commit_pages_ok m pid d r L T F n writable :
  region m pid d r L T F -> 0 <= n -> Z.of_nat (length F) + n <= 6144 ->
  exists ok m' L' T' F',
    anonymous_commit_pages pid (Z.of_nat (length F)) (Z.of_nat (length F) + n) writable m = Some (ok, m') /\
    grown pid d r (if writable then 7 else 5) n L T F m ok m' L' T' F'.
Proof.
  intros Hrg Hn Hb. unfold anonymous_commit_pages. rewrite (rg_dir _ _ _ _ _ _ _ Hrg). cbn [mbind option_bind].
  replace (Z.to_nat (Z.of_nat (length F) + n - Z.of_nat (length F))) with (Z.to_nat n) by lia.
  replace (Z.lor 5 (if writable then 2 else 0)) with (if writable then 7 else 5) by (by destruct writable).
  destruct (commit_from_ok pid d r (if writable then 7 else 5) (Z.to_nat n)) with m L T F as (ok & m' & L' & T' & F' & -> & Hg);
    [destruct writable; lia|done|lia|].
  exists ok, m', L', T', F'. split; [done|]. by rewrite Z2Nat.id in Hg.
Qed.

(** ** Releasing the region *)

Section release.
Context (m : user_memory) (pid d r : Z) (L T : list Z) (F : list (Z * Z)).
Context (Hrg : region m pid d r L T F).

(** Tables before [k] and pages before [p] are back in the pool. *)
Record releasing (k p : Z) (m' : user_memory) : Prop := {
  rl_pool : exists L', pool m' L' /\ L' ++ drop (Z.to_nat k) T ++ drop (Z.to_nat p) F.*1 ≡ₚ L ++ T ++ F.*1;
  rl_from : anon_from d T F m'.(pages) k p;
  rl_moves : moves pid d (d :: L ++ T ++ F.*1) (Z.of_nat (length F)) r m m'
}.

Lemma releasing_apart k p m' L' :
  releasing k p m' -> L' ++ drop (Z.to_nat k) T ++ drop (Z.to_nat p) F.*1 ≡ₚ L ++ T ++ F.*1 ->
  apart m'.(pages) d (L' ++ drop (Z.to_nat k) T ++ drop (Z.to_nat p) F.*1).
Proof.
  intros [_ _ Hm] Hp. apply (apart_perm _ _ _ _ Hp). eapply apart_touches; [apply Hm|apply Hrg].
Qed.

Lemma tables_nodup : NoDup T.
Proof. apply (apart_parts _ _ _ _ _ (rg_apart _ _ _ _ _ _ _ Hrg)). Qed.

(** The pages left need only the tables left. *)
Lemma anon_from_frame k p p' pg pg' :
  0 <= k -> 512 * k <= p' -> p <= p' -> anon_from d T F pg k p ->
  (forall i, word pg' d i = word pg d i) ->
  (forall i t j, k <= i -> T.[i] = Some t -> 0 <= j < 512 -> p' <= 512 * i + j -> word pg' t j = word pg t j) ->
  anon_from d T F pg' k p'.
Proof.
  intros Hk Hp Hpp [H1 H2 H3] Hd Hw. split.
  - intros i t Hi Ht. rewrite Hd. auto.
  - intros q f fl Hq Hf. destruct (H2 q f fl) as (t & Ht & Hwt & Hfl); [lia|done|]. exists t. split; [done|].
    rewrite (Hw (q / 512)); [done|zlia|done|zlia|zlia].
  - intros i Hi Hik. rewrite Hd. auto.
Qed.

Lemma drop_cons_get {A} (l : list A) i x : l.[i] = Some x -> drop (Z.to_nat i) l = x :: drop (Z.to_nat (i + 1)) l.
Proof.
  intros [Hi Hx]%aget_Some. rewrite (drop_S _ _ _ Hx). f_equal. f_equal. lia.
Qed.

Lemma release_page_ok k t j m1 :
  releasing k (512 * k + j) m1 -> 0 <= k -> 0 <= j < 512 -> T.[k] = Some t -> 512 * k + j < Z.of_nat (length F) ->
  succeeds (anonymous_page_release t j m1) (releasing k (512 * k + (j + 1))).
Proof.
  intros Hr Hk Hj Ht Hp. pose proof Hr as [(L' & Hpl & Hpm) Hf Hmv].
  pose proof (releasing_apart _ _ _ _ Hr Hpm) as Hap.
  destruct (aget_in F (512 * k + j)) as [[f fl] Hfl]; [lia|].
  destruct (anon_pte _ _ _ _ _ _ Hf (512 * k + j) f fl) as (t' & Ht' & Hw & Hflags); [lia|done|].
  replace ((512 * k + j) / 512) with k in Ht' by zlia. rewrite Ht in Ht'. injection Ht' as <-.
  replace ((512 * k + j) mod 512) with j in Hw by zlia.
  assert (HfF : drop (Z.to_nat (512 * k + j)) F.*1 = f :: drop (Z.to_nat (512 * k + (j + 1))) F.*1).
  { rewrite (drop_cons_get _ _ f); [f_equal; f_equal; lia|]. apply aget_Some. apply aget_Some in Hfl as [? Hfl].
    split; [done|]. by rewrite list_lookup_fmap, Hfl. }
  rewrite HfF in Hap. rewrite HfF in Hpm. rewrite (drop_cons_get _ _ _ Ht) in Hap.
  destruct (apart_dir _ _ _ f Hap) as [Hfd Hfok].
  { apply elem_of_app. right. apply elem_of_app. right. by left. }
  destruct (apart_dir _ _ _ t Hap) as [Htd Htok].
  { apply elem_of_app. right. by left. }
  destruct (apart_app _ _ _ _ Hap) as ((HnL & _) & Hap2 & Hdis).
  assert (HfL : f ∉ L').
  { intros Hin. apply (Hdis f Hin). apply elem_of_app. right. by left. }
  assert (Htf : t <> f).
  { intros ->. destruct Hap2 as (Hn & _). apply list.NoDup_cons in Hn as [_ Hn]. cbn in Hn.
    apply list.NoDup_cons in Hn as [Hn _]. apply Hn. apply elem_of_app. right. by left. }
  unfold anonymous_page_release. change (load_word t j m1) with (word m1.(pages) t j). rewrite Hw.
  cbn [mbind option_bind]. destruct (entry_bits f fl) as [-> _]; [apply Hfok|done|]. cbn [Z.eqb negb].
  rewrite page_of_entry by (apply Hfok || lia).
  destruct (release_frame_ok m1 L' f Hpl Hfok HfL) as (pg & -> & Hpl2 & Htc). cbn [mbind option_bind].
  rewrite store_word_eq by (done || (eapply touches_page; [done|apply Htok])).
  eexists. split; [done|].
  assert (Hword : forall q i, q <> f -> q <> t \/ i <> j ->
    word (put_word pg t j 0) q i = word m1.(pages) q i).
  { intros q i Hq Hd. rewrite put_word_other; [|eapply touches_page; [done|apply Htok]|done|done].
    eapply touches_word; [done|]. by intros ->%list_elem_of_singleton. }
  split.
  - exists (f :: L'). split; [|rewrite <- Hpm; solve_Permutation].
    eapply pool_touches; [done..|apply put_word_touches|]. intros g Hg ->%list_elem_of_singleton.
    apply elem_of_cons in Hg as [?|Hg]; [done|]. apply (Hdis t Hg). by left.
  - cbn. apply (anon_from_frame k (512 * k + j) _ m1.(pages)); [done|lia|lia|done| |].
    + intros i. apply Hword; [done|by left].
    + intros i t' i' Hi Hti Hi' Hge. apply Hword.
      * intros ->. destruct Hap2 as (Hn & _). apply list.NoDup_cons in Hn as [_ Hn].
        rewrite <- (drop_cons_get _ _ _ Ht) in Hn.
        eapply elem_disjoint; [done| |by left]. apply aget_Some in Hti as [? Hti].
        apply list_elem_of_lookup. exists (Z.to_nat i - Z.to_nat k)%nat. rewrite lookup_drop.
        rewrite <- Hti. f_equal. lia.
      * destruct (decide (t' = t)) as [->|]; [right|by left]. intros ->.
        apply aget_Some in Hti as [? Hti], Ht as [? Ht]. pose proof (NoDup_lookup _ _ _ _ tables_nodup Hti Ht). lia.
  - eapply moves_trans; [done|rewrite set_pages_pool; apply (moves_pool _ _ [f; t])|].
    + by apply (region_cells _ _ _ _ _ _ _ _ _ _ _ Hrg Hmv).
    + by apply (region_cells _ _ _ _ _ _ _ _ _ _ _ Hrg Hmv).
    + eapply touches_trans; (eapply touches_mono; [done || apply put_word_touches|]); set_solver.
    + set_solver.
    + assert (Hin : forall x, x = f \/ x = t -> x ∈ L ++ T ++ F.*1).
      { intros x Hx. rewrite <- Hpm. rewrite (drop_cons_get _ _ _ Ht). set_solver. }
      intros x Hx. right. apply Hin. set_solver.
Qed.

Lemma release_pages_ok k t m1 :
  releasing k (512 * k) m1 -> 0 <= k -> T.[k] = Some t ->
  let n := Z.min 512 (Z.of_nat (length F) - 512 * k) in
  succeeds (for_up (Z.to_nat n) 0 (anonymous_page_release t) m1) (releasing k (512 * k + Z.max 0 n)).
Proof.
  intros Hr Hk Ht n. apply (succeeds_for_up (fun j => releasing k (512 * k + j))).
  - by rewrite Z.add_0_r.
  - intros j m2 Hj Hr2. apply release_page_ok; [done|done|lia|done|lia].
  - intros m2 Hr2. by replace (Z.max 0 n) with (0 + Z.of_nat (Z.to_nat n)) by lia.
Qed.

Lemma release_table_ok k m1 :
  releasing k (512 * k) m1 -> 0 <= k < Z.of_nat (length T) ->
  succeeds (anonymous_table_release pid d k m1)
    (releasing (k + 1) (Z.min (512 * (k + 1)) (Z.of_nat (length F)))).
Proof.
  intros Hr Hk. destruct (aget_in T k Hk) as [t Ht]. pose proof (proj2 (rg_anon _ _ _ _ _ _ _ Hrg)) as Hlen.
  pose proof (anon_size _ _ _ _ (proj1 (rg_anon _ _ _ _ _ _ _ Hrg))) as Hsz.
  assert (Hleft : 0 < Z.of_nat (length F) - 512 * k) by zlia.
  pose proof Hr as [(L0 & _ & Hpm0) Hf Hmv]. pose proof (releasing_apart _ _ _ _ Hr Hpm0) as Hap0.
  rewrite (drop_cons_get _ _ _ Ht) in Hap0.
  destruct (apart_dir _ _ _ t Hap0) as [Htd Htok]; [apply elem_of_app; right; by left|].
  unfold anonymous_table_release. change (Z.shiftr USER_ANON_BASE 21) with ANON_INDEX. cbv zeta.
  change (load_word d (ANON_INDEX + k) m1) with (word m1.(pages) d (ANON_INDEX + k)).
  rewrite (anon_dir _ _ _ _ _ _ Hf k t) by done. cbn [mbind option_bind].
  destruct (entry_bits t 7) as [-> ->]; [apply Htok|by right|]. cbn [Z.eqb negb orb].
  rewrite page_of_entry by (apply Htok || lia).
  destruct (region_cells _ _ _ _ _ _ _ _ _ _ _ Hrg Hmv) as (-> & _ & _). cbn [mbind option_bind].
  replace (if 512 <? Z.of_nat (length F) - k * 512 then 512 else Z.of_nat (length F) - k * 512)
    with (Z.min 512 (Z.of_nat (length F) - 512 * k)) by (destruct (Z.ltb_spec 512 (Z.of_nat (length F) - k * 512)); lia).
  eapply succeeds_bind; [apply release_pages_ok; [done|lia|done]|]. cbv beta. intros m2 Hr2.
  replace (512 * k + Z.max 0 (Z.min 512 (Z.of_nat (length F) - 512 * k)))
    with (Z.min (512 * (k + 1)) (Z.of_nat (length F))) in Hr2 by lia.
  set (p := Z.min (512 * (k + 1)) (Z.of_nat (length F))) in *.
  pose proof Hr2 as [(L2 & Hpl2 & Hpm2) Hf2 Hmv2]. pose proof (releasing_apart _ _ _ _ Hr2 Hpm2) as Hap.
  rewrite (drop_cons_get _ _ _ Ht) in Hap. rewrite (drop_cons_get _ _ _ Ht) in Hpm2.
  destruct (apart_app _ _ _ _ Hap) as ((HnL & _ & Hd) & Hap2 & Hdis).
  destruct (apart_dir _ _ _ t Hap) as [_ Htok2]; [apply elem_of_app; right; by left|].
  rewrite store_word_eq by (done || (unfold ANON_INDEX; zlia)). cbn [mbind option_bind].
  set (pg := put_word m2.(pages) d (ANON_INDEX + k) ((ANON_INDEX + k) * 2097152 + 135)).
  assert (Hpl3 : pool (set_pages pg m2) L2).
  { eapply pool_touches; [done..|apply put_word_touches|]. intros g Hg ->%list_elem_of_singleton.
    apply list.NoDup_cons in HnL as [HnL _]. done. }
  destruct (release_frame_ok (set_pages pg m2) L2 t Hpl3) as (pg' & -> & Hpl4 & Htc).
  { eapply frame_ok_touches; [apply put_word_touches|done]. }
  { intros Hin. apply (Hdis t Hin). by left. }
  eexists. split; [done|]. split.
  - exists (t :: L2). split; [done|]. rewrite <- Hpm2. solve_Permutation.
  - assert (Hi : 0 <= ANON_INDEX + k < 512) by (unfold ANON_INDEX; zlia). destruct Hf2 as [H1 H2 H3].
    assert (Hdw : forall i, i <> ANON_INDEX + k -> word pg' d i = word m2.(pages) d i).
    { intros i Hne. rewrite (touches_word _ _ _ _ _ Htc) by (by intros ->%list_elem_of_singleton).
      cbn. unfold pg. apply put_word_other; [done|done|by right]. }
    cbn. split.
    + intros i q Hik Hq. rewrite Hdw by lia. apply H1; [lia|done].
    + intros q f fl Hq Hfl. destruct (H2 q f fl Hq Hfl) as (t' & Ht' & Hw & Hflags). exists t'. split; [done|].
      split; [|done]. pose proof (aget_bound _ _ _ Hfl). assert (Hk1 : k + 1 <= q / 512) by zlia.
      assert (Hd' : t' ∈ drop (Z.to_nat (k + 1)) T).
      { apply aget_Some in Ht' as [? Ht']. apply list_elem_of_lookup. exists (Z.to_nat (q / 512) - Z.to_nat (k + 1))%nat.
        rewrite lookup_drop. rewrite <- Ht'. f_equal. lia. }
      assert (t' <> t /\ t' <> d) as [Hne1 Hne2].
      { split.
        - intros ->. destruct Hap2 as (Hn & _). apply list.NoDup_cons in Hn as [_ Hn]. cbn in Hn.
          apply list.NoDup_cons in Hn as [Hn _]. apply Hn. apply elem_of_app. by left.
        - apply (apart_dir _ _ _ _ Hap2). apply elem_of_app. left. by right. }
      rewrite (touches_word _ _ _ _ _ Htc) by (by intros ->%list_elem_of_singleton).
      cbn. unfold pg. rewrite put_word_other; [done|done|done|by left].
    + intros i Hi' Hik. destruct (decide (i = k)) as [->|].
      * rewrite (touches_word _ _ _ _ _ Htc) by (by intros ->%list_elem_of_singleton).
        cbn. unfold pg. rewrite put_word_same by done. done.
      * rewrite Hdw by lia. apply H3; [done|]. lia.
  - eapply moves_trans; [done| |].
    + change (set_pool t (next_frame (set_pages pg m2)) pg' (set_pages pg m2)) with (set_pool t (next_frame m2) pg' m2).
      destruct (region_cells _ _ _ _ _ _ _ _ _ _ _ Hrg Hmv2) as (? & ? & _).
      apply (MkMoves _ _ [d; t]); [by apply anon_step_pool| |].
      * apply (touches_trans _ _ pg).
        -- apply (touches_mono [d]); [apply put_word_touches|]. intros y ->%list_elem_of_singleton. by left.
        -- apply (touches_mono [t]); [done|]. intros y ->%list_elem_of_singleton. right. by left.
      * intros i Hi. cbn. rewrite (touches_word _ _ _ _ _ Htc) by (by intros ->%list_elem_of_singleton).
        cbn. unfold pg. apply put_word_other; [done|unfold ANON_INDEX; zlia|right].
        unfold ANON_INDEX, SURFACE_INDEX in *. zlia.
    + intros x Hx. apply elem_of_cons. assert (x = d \/ x = t) as [-> | ->] by set_solver; [by left|right].
      rewrite <- Hpm2. set_solver.
Qed.

End release.

Lemma set_reserved_eq pid n m :
  0 <= pid < Z.of_nat (length m.(anonymous_reserved_pages)) ->
  set_reserved pid n m =
    Some (set_anonymous m.(anonymous_page_count) (<[Z.to_nat pid := n]> m.(anonymous_reserved_pages)) m).
Proof. intros H. unfold set_reserved. by rewrite aset_in. Qed.

(** Rewriting the cells after a move. *)
Lemma moves_set pid d X c r c' r' m m' :
  moves pid d X c r m m' ->
  moves pid d X c' r' m (set_anonymous (<[Z.to_nat pid := c']> m'.(anonymous_page_count))
                         (<[Z.to_nat pid := r']> m'.(anonymous_reserved_pages)) m').
Proof.
  intros [(free & next & pg & ->) Ht Hd]. split; [|done|done]. exists free, next, pg. cbn. by rewrite !list_insert_insert_eq.
Qed.

Lemma region_empty m pid d r L T F :
  region m pid d r L T F -> F = [] -> T = [].
Proof. intros H ->. pose proof (proj2 (rg_anon _ _ _ _ _ _ _ H)) as Hl. cbn in Hl. by destruct T. Qed.

Lemma anon_nil d pg T F n :
  anon_from d T F pg (Z.of_nat (length T)) n -> anon d [] [] pg.
Proof.
  intros [_ _ H]. assert (Hn : forall A i (x : A), ([] : list A).[i] = Some x -> False).
  { intros A i x Hx. by apply aget_Some in Hx as [_ Hx]. }
  split; [|done]. split; [|cbn [length]; zlia|cbn [length]; lia|].
  - split; [by intros ?? _ ?%Hn|by intros ??? _ ?%Hn|]. intros i Hi _. apply H; [done|]. lia.
  - by intros ??? ?%Hn.
Qed.

(** [anonymous_release]: everything goes back to the pool. *)
Lemma anonymous_release_ok m pid d r L T F :
  region m pid d r L T F -> 1 <= pid < 8 ->
  exists m' L', anonymous_release pid m = Some m' /\ region m' pid d 0 L' [] [] /\
    L' ≡ₚ L ++ T ++ F.*1 /\ moves pid d (d :: L ++ T ++ F.*1) 0 0 m m'.
Proof.
  intros Hrg Hpid. pose proof Hrg as [H1 H2 H3 H4 H5 H6]. unfold anonymous_release.
  rewrite (proj2 (bad_pid_spec pid ltac:(lia))) by lia. rewrite H2. cbn [mbind option_bind].
  destruct (Z.eqb_spec (Z.of_nat (length F)) 0) as [E|E].
  - assert (F = []) as -> by (destruct F; [done|cbn in E; lia]). assert (T = []) as -> by (by eapply region_empty).
    rewrite set_reserved_eq by (by eapply aget_bound). eexists _, L. split; [done|].
    assert (Hmv : moves pid d (d :: L ++ [] ++ []) 0 0 m
      (set_anonymous m.(anonymous_page_count) (<[Z.to_nat pid := 0]> m.(anonymous_reserved_pages)) m)).
    { split; [|apply touches_refl|done]. exists m.(anonymous_free_frames), m.(next_frame), m.(pages).
      apply aget_Some in H2 as [_ H2]. cbn in H2. rewrite (list_insert_id m.(anonymous_page_count)) by done. by destruct m. }
    split; [|split; [by rewrite app_nil_r|done]].
    eapply region_moves; [done|done|by apply pool_anonymous|done|done].
  - rewrite H1. cbn [mbind option_bind].
    destruct (for_up_inv (fun k => releasing m pid d r L T F k (Z.min (512 * k) (Z.of_nat (length F))))
                (Z.to_nat ((Z.of_nat (length F) + 511) / 512)) 0 (anonymous_table_release pid d) m)
      as (m1 & -> & Hr).
    + split.
      * exists L. split; [done|]. rewrite Z.min_l by lia. done.
      * rewrite Z.min_l by lia. apply (anon_maps _ _ _ _ (proj1 H5)).
      * split; [by apply anon_step_refl|apply touches_refl|done].
    + intros k m1 Hk Hr. pose proof (proj2 H5) as Hlen. rewrite Z.min_l in Hr by zlia.
      apply (release_table_ok m pid d r L T F Hrg k m1 Hr). zlia.
    + cbn [mbind option_bind]. pose proof (proj2 H5) as Hlen.
      replace (0 + Z.of_nat (Z.to_nat ((Z.of_nat (length F) + 511) / 512))) with (Z.of_nat (length T)) in Hr by zlia.
      rewrite Z.min_r in Hr by zlia. pose proof Hr as [(L' & Hpl & Hpm) Hf Hmv].
      rewrite !drop_ge, !app_nil_r in Hpm by (rewrite ?length_fmap; lia).
      destruct (region_cells _ _ _ _ _ _ _ _ _ _ _ Hrg Hmv) as (Hc & Hr' & Hdir).
      rewrite set_count_eq by (by eapply aget_bound). cbn [mbind option_bind].
      rewrite set_reserved_eq by (by eapply aget_bound). eexists _, L'. split; [done|].
      pose proof (moves_set _ _ _ _ _ 0 0 _ _ Hmv) as Hmv'. split; [|done].
      eapply region_moves; [done|exact Hmv'|by do 2 apply pool_anonymous|by eapply anon_nil|by rewrite !app_nil_r].
Qed.

(** ** The calls *)

(** The reservation covers what is committed, or there is none. *)
Definition reservation_ok (r : Z) (F : list (Z * Z)) : Prop :=
  0 <= r <= 6144 /\ (r = 0 \/ Z.of_nat (length F) <= r).

(** An operation that keeps the frames of the region and the pool together. *)
Record exchange (pid d r : Z) (L T : list Z) (F : list (Z * Z)) (m m' : user_memory)
    (r' : Z) (L' T' : list Z) (F' : list (Z * Z)) : Prop := {
  ex_region : region m' pid d r' L' T' F';
  ex_reservation : reservation_ok r' F';
  ex_perm : L' ++ T' ++ F'.*1 ≡ₚ L ++ T ++ F.*1;
  ex_moves : moves pid d (d :: L ++ T ++ F.*1) (Z.of_nat (length F')) r' m m'
}.

Lemma exchange_refl pid d r L T F m :
  region m pid d r L T F -> reservation_ok r F -> exchange pid d r L T F m m r L T F.
Proof.
  intros H Hr. split; [done|done|done|]. destruct H. split; [by apply anon_step_refl|apply touches_refl|done].
Qed.

Lemma grown_exchange pid d r flags k L T F m ok m' L' T' F' :
  grown pid d r flags k L T F m ok m' L' T' F' -> reservation_ok r F' ->
  exchange pid d r L T F m m' r L' T' F'.
Proof.
  intros [H1 H2 H3 _ _] Hr. split; [done|done|done|]. destruct H3 as [H3 H4 H5]. split; [done| |done].
  eapply touches_mono; [done|]. set_solver.
Qed.

Definition pages_of (n : Z) : Z := (n + 4095) / 4096.

(** [anonymous_map] succeeds exactly on a fresh region with frames enough. *)
Definition map_fits (n r : Z) (L : list Z) (F : list (Z * Z)) : bool :=
  bool_decide (0 < n <= USER_ANON_MAX_BYTES /\ F = [] /\ r = 0 /\
               frames_for 0 (pages_of n) <= Z.of_nat (length L)).

Lemma exchange_trans pid d r L T F m m1 r1 L1 T1 F1 m2 r2 L2 T2 F2 :
  exchange pid d r L T F m m1 r1 L1 T1 F1 -> exchange pid d r1 L1 T1 F1 m1 m2 r2 L2 T2 F2 ->
  exchange pid d r L T F m m2 r2 L2 T2 F2.
Proof.
  intros [H1 H2 H3 H4] [H5 H6 H7 H8]. split; [done|done|by rewrite H7|].
  eapply moves_trans; [done..|]. intros x. rewrite !elem_of_cons. by rewrite H3.
Qed.

Lemma anonymous_map_ok m pid d r L T F n :
  region m pid d r L T F -> reservation_ok r F -> 1 <= pid < 8 -> is_u64 n ->
  exists m' r' L' T' F',
    anonymous_map pid n m = Some (if map_fits n r L F then USER_ANON_BASE else U64_MAX, m') /\
    exchange pid d r L T F m m' r' L' T' F' /\
    touches (d :: L ++ T) m.(pages) m'.(pages) /\
    (if map_fits n r L F then r' = 0 /\ Z.of_nat (length F') = pages_of n /\ Forall (fun e => e.2 = 7) F'
     else F' = F /\ r' = r).
Proof.
  intros Hrg Hres Hpid Hn. pose proof Hrg as [H1 H2 H3 H4 H5 H6]. unfold anonymous_map, is_u64 in *.
  rewrite (proj2 (bad_pid_spec pid ltac:(lia))) by lia. cbn [orb].
  destruct (Z.eqb_spec n 0) as [->|Hn0]; cbn [orb].
  { unfold map_fits. rewrite bool_decide_eq_false_2 by lia. eexists _, r, L, T, F. split; [done|].
    split; [by apply exchange_refl|split; [apply touches_refl|done]]. }
  destruct (Z.ltb_spec USER_ANON_MAX_BYTES n) as [Hbig|Hsmall].
  { unfold map_fits. rewrite bool_decide_eq_false_2 by lia. eexists _, r, L, T, F. split; [done|].
    split; [by apply exchange_refl|split; [apply touches_refl|done]]. }
  rewrite H2, H3. cbn [mbind option_bind].
  rewrite (proj2 (Z.ltb_ge _ n)) by (unfold U64_MAX, USER_ANON_MAX_BYTES in *; lia). rewrite orb_false_r.
  destruct (negb (Z.of_nat (length F) =? 0) || negb (r =? 0)) eqn:Ebusy.
  { unfold map_fits. rewrite bool_decide_eq_false_2.
    - eexists _, r, L, T, F. split; [done|]. split; [by apply exchange_refl|split; [apply touches_refl|done]].
    - intros (_ & -> & -> & _). done. }
  apply orb_false_iff in Ebusy as [Ef Er]. b2p. assert (F = []) as -> by (destruct F; [done|cbn in *; lia]).
  assert (T = []) as -> by (by eapply region_empty).
  assert (Hp : 0 <= pages_of n <= 6144) by (unfold pages_of, USER_ANON_MAX_BYTES in *; zlia).
  destruct (commit_pages_ok m pid d r L [] [] (pages_of n) true Hrg) as (ok & m1 & L1 & T1 & F1 & Heq & Hg);
    [lia|cbn [length]; lia|].
  change (Z.of_nat (length [])) with 0 in *. rewrite Z.add_0_l in Heq.
  change ((n + 4095) / 4096) with (pages_of n). rewrite Heq. cbn [mbind option_bind].
  pose proof Hg as [Hrg1 Hpm1 Hmv1 Hok1 (new & Hnew & Hfl & Hl & Hle & _)]. cbn [app] in Hnew. subst F1.
  change (Z.of_nat (length [])) with 0 in *.
  assert (Hfits : map_fits n r L [] = ok).
  { unfold map_fits. destruct ok.
    - apply bool_decide_eq_true_2. split; [lia|]. split; [done|]. split; [done|]. by apply Hok1.
    - apply bool_decide_eq_false_2. intros (_ & _ & _ & Hle'). by apply Hok1 in Hle'. }
  rewrite Hfits. destruct ok; cbn [negb].
  - eexists m1, r, L1, T1, new. split; [done|]. split; [|split; [apply Hmv1|by rewrite Hle by done]].
    eapply grown_exchange; [done|]. subst r. split; [lia|by left].
  - assert (Hex1 : exchange pid d r L [] [] m m1 r L1 T1 new).
    { eapply grown_exchange; [done|]. subst r. split; [lia|by left]. }
    destruct (anonymous_release_ok m1 pid d r L1 T1 new Hrg1 Hpid) as (m2 & L2 & -> & Hrg2 & Hpm2 & Hmv2).
    cbn [mbind option_bind]. exists m2, 0, L2, [], []. split; [done|].
    assert (Hex : exchange pid d r L [] [] m m2 0 L2 [] []).
    { eapply exchange_trans; [done|]. split; [done|split; [lia|by left]|by rewrite !app_nil_r|done]. }
    split; [exact Hex|]. split; [exact (mv_touches _ _ _ _ _ _ _ (ex_moves _ _ _ _ _ _ _ _ _ _ _ _ Hex))|done].
Qed.

Lemma anonymous_release_exchange m pid d r L T F :
  region m pid d r L T F -> 1 <= pid < 8 ->
  exists m' L', anonymous_release pid m = Some m' /\ exchange pid d r L T F m m' 0 L' [] [].
Proof.
  intros Hrg Hpid. destruct (anonymous_release_ok m pid d r L T F Hrg Hpid) as (m' & L' & -> & Hrg' & Hpm & Hmv).
  exists m', L'. split; [done|]. split; [done|split; [lia|by left]|by rewrite !app_nil_r|done].
Qed.

Definition reserve_fits (n r : Z) (F : list (Z * Z)) : bool :=
  bool_decide (0 < n <= USER_ANON_MAX_BYTES /\ F = [] /\ r = 0).

Lemma anonymous_reserve_ok m pid d r L T F n :
  region m pid d r L T F -> reservation_ok r F -> 1 <= pid < 8 -> is_u64 n ->
  exists m' r', anonymous_reserve pid n m = Some (if reserve_fits n r F then USER_ANON_BASE else U64_MAX, m') /\
    exchange pid d r L T F m m' r' L T F /\ r' = if reserve_fits n r F then pages_of n else r.
Proof.
  intros Hrg Hres Hpid Hn. pose proof Hrg as [H1 H2 H3 H4 H5 H6]. unfold anonymous_reserve, is_u64, reserve_fits in *.
  rewrite (proj2 (bad_pid_spec pid ltac:(lia))) by lia. cbn [orb].
  destruct (Z.eqb_spec n 0) as [->|Hn0]; cbn [orb].
  { rewrite bool_decide_eq_false_2 by lia. exists m, r. split; [done|]. split; [by apply exchange_refl|done]. }
  destruct (Z.ltb_spec USER_ANON_MAX_BYTES n) as [Hbig|Hsmall].
  { rewrite bool_decide_eq_false_2 by lia. exists m, r. split; [done|]. split; [by apply exchange_refl|done]. }
  rewrite H2, H3. cbn [mbind option_bind].
  rewrite (proj2 (Z.ltb_ge _ n)) by (unfold U64_MAX, USER_ANON_MAX_BYTES in *; lia). rewrite orb_false_r.
  destruct (negb (Z.of_nat (length F) =? 0) || negb (r =? 0)) eqn:Ebusy.
  { rewrite bool_decide_eq_false_2.
    - exists m, r. split; [done|]. split; [by apply exchange_refl|done].
    - intros (_ & -> & ->). done. }
  apply orb_false_iff in Ebusy as [Ef Er]. b2p. assert (F = []) as -> by (destruct F; [done|cbn in *; lia]).
  rewrite bool_decide_eq_true_2 by (split; [lia|done]).
  rewrite set_reserved_eq by (by eapply aget_bound). cbn [mbind option_bind].
  assert (Hp : 0 <= pages_of n <= 6144) by (unfold pages_of, USER_ANON_MAX_BYTES in *; zlia).
  eexists _, (pages_of n). split; [done|]. split; [|done].
  assert (Hmv : moves pid d (d :: L ++ T ++ []) 0 (pages_of n) m
    (set_anonymous m.(anonymous_page_count) (<[Z.to_nat pid := pages_of n]> m.(anonymous_reserved_pages)) m)).
  { split; [|apply touches_refl|done]. exists m.(anonymous_free_frames), m.(next_frame), m.(pages).
    apply aget_Some in H2 as [_ H2]. cbn in H2. rewrite (list_insert_id m.(anonymous_page_count)) by done. by destruct m. }
  split; [|split; [lia|right; cbn; lia]|done|done].
  eapply region_moves; [done|done|by apply pool_anonymous|done|done].
Qed.

(** [anonymous_commit] succeeds exactly within the reservation and the frames left;
    a request within the reservation keeps the pages that the frames left allow. *)
Definition commit_allowed (n r : Z) (F : list (Z * Z)) : bool :=
  bool_decide (0 < n <= U64_MAX - 4095 /\ r <> 0 /\ Z.of_nat (length F) + pages_of n <= r).
Definition commit_fits (n r : Z) (L : list Z) (F : list (Z * Z)) : bool :=
  commit_allowed n r F && (frames_for (Z.of_nat (length F)) (pages_of n) <=? Z.of_nat (length L)).

(** [j] pages are all that a request for [n] bytes commits. *)
Definition committed (n r : Z) (L : list Z) (F : list (Z * Z)) (j : Z) : Prop :=
  if commit_allowed n r F then
    0 <= j <= pages_of n /\ frames_for (Z.of_nat (length F)) j <= Z.of_nat (length L) /\
    (j < pages_of n -> Z.of_nat (length L) < frames_for (Z.of_nat (length F)) (j + 1))
  else j = 0.

Lemma anonymous_commit_ok m pid d r L T F n writable :
  region m pid d r L T F -> reservation_ok r F -> 1 <= pid < 8 -> is_u64 n ->
  exists m' L' T' new,
    anonymous_commit pid n writable m =
      Some (if commit_fits n r L F then USER_ANON_BASE + Z.of_nat (length F) * 4096 else U64_MAX, m') /\
    exchange pid d r L T F m m' r L' T' (F ++ new) /\ touches (d :: L ++ T) m.(pages) m'.(pages) /\
    Forall (fun e => e.2 = if writable then 7 else 5) new /\ committed n r L F (Z.of_nat (length new)).
Proof.
  intros Hrg Hres Hpid Hn. pose proof Hrg as [H1 H2 H3 H4 H5 H6].
  assert (Hno : commit_allowed n r F = false -> exists m' L' T' new, Some (U64_MAX, m) =
      Some (if commit_fits n r L F then USER_ANON_BASE + Z.of_nat (length F) * 4096 else U64_MAX, m') /\
    exchange pid d r L T F m m' r L' T' (F ++ new) /\ touches (d :: L ++ T) m.(pages) m'.(pages) /\
    Forall (fun e => e.2 = if writable then 7 else 5) new /\ committed n r L F (Z.of_nat (length new))).
  { intros E. exists m, L, T, []. unfold commit_fits, committed. rewrite E, app_nil_r. cbn [andb]. split; [done|].
    split; [by apply exchange_refl|]. split; [apply touches_refl|]. split; [constructor|done]. }
  unfold anonymous_commit, is_u64 in *. rewrite (proj2 (bad_pid_spec pid ltac:(lia))) by lia. cbn [orb].
  destruct (Z.eqb_spec n 0) as [->|Hn0]; [apply Hno; apply bool_decide_eq_false_2; lia|].
  rewrite H3. cbn [mbind option_bind].
  destruct (Z.eqb_spec r 0) as [->|Hr0]; cbn [orb]; [apply Hno; apply bool_decide_eq_false_2; naive_solver|].
  destruct (Z.ltb_spec (U64_MAX - 4095) n); [apply Hno; apply bool_decide_eq_false_2; lia|].
  rewrite H2. cbn [mbind option_bind]. destruct Hres as [Hr [?|Hle]]; [done|].
  rewrite u64_small by (unfold is_u64; lia). fold (pages_of n).
  destruct (Z.ltb_spec (r - Z.of_nat (length F)) (pages_of n)); [apply Hno; apply bool_decide_eq_false_2; lia|].
  assert (Hp : 0 <= pages_of n) by (unfold pages_of; zlia).
  assert (Ha : commit_allowed n r F = true) by (apply bool_decide_eq_true_2; lia).
  destruct (commit_pages_ok m pid d r L T F (pages_of n) writable Hrg Hp) as (ok & m1 & L1 & T1 & F1 & -> & Hg); [lia|].
  cbn [mbind option_bind]. pose proof Hg as [_ _ Hmv Hok (new & -> & Hfl & Hl & Hln & Hr1 & Hr2)].
  exists m1, L1, T1, new. unfold commit_fits, committed. rewrite Ha. cbn [andb]. split; [|split; [|split; [apply Hmv|split; [done|]]]].
  - destruct ok.
    + rewrite (proj2 (Z.leb_le _ _)); [done|by apply Hok].
    + rewrite (proj2 (Z.leb_gt _ _)); [done|]. apply Z.nle_gt. intros ?%Hok. done.
  - eapply grown_exchange; [done|]. split; [done|]. right. rewrite length_app. lia.
  - split; [lia|]. split; [done|]. intros Hlt. apply Hr2. destruct ok; [specialize (Hln eq_refl); lia|done].
Qed.
