(* ===== verification/FrameInvariant.v ===== *)
(** The invariant of physical memory: every frame of the pool's range is either
    available or owned by exactly one process in exactly one role. *)

From stdpp Require Import gmap.
From S2P Require Import Prelude Surface UserMemory UserMemorySpec PhysicalMemory FramePool FrameOwnership AnonymousSpec.

(** ** What an operation on process [pid] leaves alone *)

Record others_same (pid : Z) (m m' : user_memory) : Prop := {
  os_process : m'.(process_memory) = m.(process_memory);
  os_end : m'.(region_end) = m.(region_end);
  os_used : m'.(process_memory_used) = m.(process_memory_used);
  os_count : forall q, q <> pid -> m'.(anonymous_page_count).[q] = m.(anonymous_page_count).[q];
  os_reserved : forall q, q <> pid -> m'.(anonymous_reserved_pages).[q] = m.(anonymous_reserved_pages).[q];
  os_lcount : forall q, q <> pid -> m'.(large_code_page_count).[q] = m.(large_code_page_count).[q];
  os_ltable : forall q, q <> pid -> m'.(large_code_page_table).[q] = m.(large_code_page_table).[q];
  os_lframes : forall q, q <> pid -> m'.(large_code_frames).[q] = m.(large_code_frames).[q];
  os_surface : forall q, q <> pid -> m'.(surface_map_page_table).[q] = m.(surface_map_page_table).[q];
  os_mapped : forall q, q <> pid -> m'.(mapped_surface).[q] = m.(mapped_surface).[q]
}.

Lemma others_refl pid m : others_same pid m m.
Proof. by split. Qed.
Lemma others_trans pid m1 m2 m3 : others_same pid m1 m2 -> others_same pid m2 m3 -> others_same pid m1 m3.
Proof.
  intros H1 H2. destruct H1, H2. split; try congruence; intros q Hq;
    match goal with H : forall q, q <> pid -> (?f m3).[q] = _ |- (?f m3).[q] = _ => rewrite H by done end; auto.
Qed.
Lemma others_pool pid free next pg m : others_same pid m (set_pool free next pg m).
Proof. by split. Qed.

Lemma insert_other {A} (l : list A) pid x q : 0 <= pid -> q <> pid -> (<[Z.to_nat pid := x]> l).[q] = l.[q].
Proof.
  intros Hp Hq. unfold aget. destruct (Z.leb_spec 0 q); [|done]. rewrite list_lookup_insert_ne by lia. done.
Qed.

Lemma anon_step_others pid c r m m' : 0 <= pid -> anon_step pid c r m m' -> others_same pid m m'.
Proof. intros Hp (free & next & pg & ->). split; cbn; intros; by rewrite ?insert_other. Qed.

(** ** The large executable *)

Lemma set_large_cells pid m : 0 <= pid -> forall l1 l2 l3,
  others_same pid m (set_large (<[Z.to_nat pid := l1]> m.(large_code_frames)) (<[Z.to_nat pid := l2]> m.(large_code_page_count))
     (<[Z.to_nat pid := l3]> m.(large_code_page_table)) m).
Proof. intros Hp l1 l2 l3. split; cbn; intros; by rewrite ?insert_other. Qed.

(** The state of a large executable: the cells of [pid]. *)
Record large_cells (m : user_memory) (pid t n : Z) (fs : list Z) : Prop := {
  lc_table : m.(large_code_page_table).[pid] = Some t;
  lc_count : m.(large_code_page_count).[pid] = Some n;
  lc_frames : m.(large_code_frames).[pid] = Some fs;
  lc_length : length fs = 320%nat
}.

(** An operation on the large executable of [pid]. *)
Definition large_step (pid t n : Z) (fs : list Z) (m m' : user_memory) : Prop :=
  exists free next pg,
    m' = set_large (<[Z.to_nat pid := fs]> m.(large_code_frames)) (<[Z.to_nat pid := n]> m.(large_code_page_count))
           (<[Z.to_nat pid := t]> m.(large_code_page_table)) (set_pool free next pg m).

Lemma large_step_trans pid t n fs t' n' fs' m m1 m2 :
  large_step pid t n fs m m1 -> large_step pid t' n' fs' m1 m2 -> large_step pid t' n' fs' m m2.
Proof.
  intros (f & nx & pg & ->) (f' & nx' & pg' & ->). exists f', nx', pg'. cbn. by rewrite !list_insert_insert_eq.
Qed.

Lemma large_step_pool pid t n fs m free next pg :
  large_cells m pid t n fs -> large_step pid t n fs m (set_pool free next pg m).
Proof.
  intros [H1 H2 H3 _]. apply aget_Some in H1 as [_ H1], H2 as [_ H2], H3 as [_ H3]. exists free, next, pg.
  rewrite !list_insert_id by done. by destruct m.
Qed.

Lemma large_step_cells pid t n fs t' n' fs' m m' :
  large_cells m pid t n fs -> large_step pid t' n' fs' m m' -> length fs' = 320%nat -> large_cells m' pid t' n' fs'.
Proof.
  intros [H1 H2 H3 H4] (f & nx & pg & ->) Hl.
  split; cbn; [..|done]; rewrite aget_insert by (by eapply aget_bound); by rewrite decide_True.
Qed.

Lemma large_step_others pid t n fs m m' : 0 <= pid -> large_step pid t n fs m m' -> others_same pid m m'.
Proof. intros Hp (free & next & pg & ->). split; cbn; intros; by rewrite ?insert_other. Qed.

(** The setters as steps. *)
Lemma set_large_frame_step m pid t n fs page f :
  large_cells m pid t n fs -> 0 <= page < 320 ->
  exists m', set_large_frame pid page f m = Some m' /\ large_step pid t n (<[Z.to_nat page := f]> fs) m m' /\
    m'.(pages) = m.(pages) /\ forall L, pool m L -> pool m' L.
Proof.
  intros [H1 H2 H3 H4] Hp. unfold set_large_frame. rewrite H3. cbn [mbind option_bind].
  rewrite aset_in by lia. cbn [mbind option_bind]. rewrite aset_in by (by eapply aget_bound). cbn [mbind option_bind].
  eexists. split; [done|]. split; [|split; [done|by intros ? []; split]].
  apply aget_Some in H1 as [_ H1], H2 as [_ H2]. exists m.(anonymous_free_frames), m.(next_frame), m.(pages).
  rewrite (list_insert_id m.(large_code_page_count)), (list_insert_id m.(large_code_page_table)) by done. by destruct m.
Qed.

Lemma set_large_count_step m pid t n fs v :
  large_cells m pid t n fs ->
  exists m', set_large_count pid v m = Some m' /\ large_step pid t v fs m m' /\
    m'.(pages) = m.(pages) /\ forall L, pool m L -> pool m' L.
Proof.
  intros [H1 H2 H3 H4]. unfold set_large_count. rewrite aset_in by (by eapply aget_bound). cbn [mbind option_bind].
  eexists. split; [done|]. split; [|split; [done|by intros ? []; split]].
  apply aget_Some in H1 as [_ H1], H3 as [_ H3]. exists m.(anonymous_free_frames), m.(next_frame), m.(pages).
  rewrite (list_insert_id m.(large_code_frames)), (list_insert_id m.(large_code_page_table)) by done. by destruct m.
Qed.

Lemma set_large_table_step m pid t n fs v :
  large_cells m pid t n fs ->
  exists m', set_large_table pid v m = Some m' /\ large_step pid v n fs m m' /\
    m'.(pages) = m.(pages) /\ forall L, pool m L -> pool m' L.
Proof.
  intros [H1 H2 H3 H4]. unfold set_large_table. rewrite aset_in by (by eapply aget_bound). cbn [mbind option_bind].
  eexists. split; [done|]. split; [|split; [done|by intros ? []; split]].
  apply aget_Some in H2 as [_ H2], H3 as [_ H3]. exists m.(anonymous_free_frames), m.(next_frame), m.(pages).
  rewrite (list_insert_id m.(large_code_frames)), (list_insert_id m.(large_code_page_count)) by done. by destruct m.
Qed.

Lemma large_of_cells m pid d l : large_of m pid d l ->
  exists fs, large_cells m pid (match l with [] => 0 | t :: _ => t end) (Z.of_nat (length (tail l))) fs /\
    tail l = take (length (tail l)) fs.
Proof. intros [H1 H2 (fs & H3 & H4 & H5) _ _]. by exists fs. Qed.

(** The frames of the large executable go back to the pool one by one. *)
Record large_releasing (m : user_memory) (pid d t n : Z) (fs L fr : list Z) (j : Z) (m' : user_memory) : Prop := {
  lr_pool : exists L', pool m' L' /\ L' ++ drop (Z.to_nat j) fr ≡ₚ L ++ fr;
  lr_cells : exists fs', large_cells m' pid t n fs' /\ large_step pid t n fs' m m' /\
    forall i, j <= i -> fs'.[i] = fs.[i];
  lr_touches : touches (d :: fr) m.(pages) m'.(pages);
  lr_dir : forall i, i <> LARGE_INDEX -> word m'.(pages) d i = word m.(pages) d i
}.

Lemma large_frame_release_ok m pid d t n fs L fr j m1 :
  apart m.(pages) d (L ++ fr) -> fr = take (length fr) fs -> 0 <= j < Z.of_nat (length fr) -> length fs = 320%nat ->
  large_releasing m pid d t n fs L fr j m1 ->
  succeeds (large_frame_release pid j m1) (large_releasing m pid d t n fs L fr (j + 1)).
Proof.
  intros Hap Hfr Hj Hl [(L1 & Hpl & Hpm) (fs1 & Hc & Hst & Hfs) Ht Hdir].
  destruct (aget_in fr j Hj) as [f Hf]. assert (Hff : fs1.[j] = Some f).
  { rewrite Hfs by lia. apply aget_Some in Hf as [? Hf]. apply aget_Some. split; [done|].
    rewrite Hfr in Hf. apply lookup_take_Some in Hf. apply Hf. }
  pose proof (apart_touches _ _ _ _ _ Ht (apart_perm _ _ _ _ Hpm Hap)) as Hap1.
  rewrite (drop_cons_get _ _ _ Hf) in Hap1, Hpm.
  destruct (apart_dir _ _ _ f Hap1) as [Hfd Hfok]; [apply elem_of_app; right; by left|].
  assert (HfL : f ∉ L1).
  { destruct (apart_app _ _ _ _ Hap1) as (_ & _ & Hdis). intros Hin. apply (Hdis f Hin). by left. }
  unfold large_frame_release. rewrite (lc_frames _ _ _ _ _ Hc). cbn [mbind option_bind]. rewrite Hff. cbn [mbind option_bind].
  destruct (release_frame_ok m1 L1 f Hpl Hfok HfL) as (pg & -> & Hpl2 & Htc). cbn [mbind option_bind].
  pose proof (large_step_pool pid t n fs1 m1 f m1.(next_frame) pg Hc) as Hs1.
  pose proof (large_step_cells _ _ _ _ _ _ _ _ _ Hc Hs1 (lc_length _ _ _ _ _ Hc)) as Hc1.
  destruct (set_large_frame_step _ _ _ _ _ j 0 Hc1) as (m2 & -> & Hs2 & Hpg & Hpool).
  { pose proof (aget_bound _ _ _ Hff). rewrite (lc_length _ _ _ _ _ Hc) in *. lia. }
  eexists. split; [done|]. split.
  - exists (f :: L1). split; [by apply Hpool|]. rewrite <- Hpm. solve_Permutation.
  - exists (<[Z.to_nat j := 0]> fs1). split; [|split].
    + apply (large_step_cells _ _ _ _ _ _ _ _ _ Hc1 Hs2). rewrite length_insert. apply (lc_length _ _ _ _ _ Hc).
    + eapply large_step_trans; [exact Hst|]. eapply large_step_trans; [exact Hs1|exact Hs2].
    + intros i Hi. rewrite insert_other by lia. apply Hfs. lia.
  - rewrite Hpg. eapply touches_trans; [done|]. eapply touches_mono; [done|].
    intros x ->%list_elem_of_singleton. right. apply aget_Some in Hf as [_ Hf]. by apply list_elem_of_lookup_2 in Hf.
  - intros i Hi. rewrite Hpg. cbn. rewrite (touches_word _ _ _ _ _ Htc); [by apply Hdir|].
    by intros ->%list_elem_of_singleton.
Qed.

Definition table_of (l : list Z) : Z := match l with [] => 0 | t :: _ => t end.

(** Only the cells of [pid] need to describe [l]. *)
Lemma large_cells_release m pid d L l fs :
  1 <= pid < 8 -> directory_of pid m = Some d -> pool m L -> large_cells m pid (table_of l) (Z.of_nat (length (tail l))) fs ->
  tail l = take (length (tail l)) fs -> apart m.(pages) d (L ++ l) ->
  exists m' L' fs, large_code_release pid m = Some m' /\ pool m' L' /\ L' ≡ₚ L ++ l /\
    large_cells m' pid 0 0 fs /\ large_step pid 0 0 fs m m' /\ touches (d :: l) m.(pages) m'.(pages) /\
    forall i, i <> LARGE_INDEX -> word m'.(pages) d i = word m.(pages) d i.
Proof.
  intros Hpid Hd Hp Hc Htl Hap. unfold table_of in Hc.
  set (t := match l with [] => 0 | t :: _ => t end) in *. set (fr := tail l) in *.
  assert (Hdp : is_page m.(pages) d) by apply Hap.
  assert (Hfrap : apart m.(pages) d (L ++ fr)).
  { destruct l as [|t0 fr0]; [done|]. destruct (apart_app m.(pages) d [t0] (L ++ fr0)) as (_ & ? & _); [|done].
    eapply apart_perm; [|exact Hap]. apply (Permutation_middle L fr0 t0). }
  unfold large_code_release. rewrite (proj2 (bad_pid_spec pid ltac:(lia))) by lia. rewrite Hd. cbn [mbind option_bind].
  change (Z.shiftr USER_LARGE_CODE_BASE 21) with LARGE_INDEX.
  rewrite store_word_eq by (done || (unfold LARGE_INDEX; lia)). cbn [mbind option_bind].
  set (pg0 := put_word m.(pages) d LARGE_INDEX 0).
  change (large_code_page_count (set_pages pg0 m)) with (large_code_page_count m). rewrite (lc_count _ _ _ _ _ Hc). cbn [mbind option_bind].
  rewrite Nat2Z.id.
  destruct (for_up_inv (large_releasing m pid d t (Z.of_nat (length fr)) fs L fr) (length fr) 0 (large_frame_release pid) (set_pages pg0 m))
    as (m1 & -> & [(L1 & Hpl & Hpm) (fs1 & Hc1 & Hs1 & Hfs) Ht Hdir]).
  { split.
    - exists L. split; [|done]. eapply pool_touches; [done..|apply put_word_touches|].
      intros f Hf ->%list_elem_of_singleton. destruct (apart_dir _ _ _ d Hfrap); [apply elem_of_app; by left|done].
    - exists fs. split; [|split; [by apply large_step_pool|done]]. destruct Hc. by split.
    - eapply touches_mono; [apply put_word_touches|]. intros x ->%list_elem_of_singleton. by left.
    - intros i Hi. apply put_word_other; [done|unfold LARGE_INDEX; lia|by right]. }
  { intros j m1 Hj. apply large_frame_release_ok; [done|done|lia|apply Hc]. }
  cbn [mbind option_bind]. rewrite drop_ge, app_nil_r in Hpm by lia.
  destruct (set_large_count_step _ _ _ _ _ 0 Hc1) as (m2 & -> & Hs2 & Hpg2 & Hpool2). cbn [mbind option_bind].
  pose proof (large_step_cells _ _ _ _ _ _ _ _ _ Hc1 Hs2 (lc_length _ _ _ _ _ Hc1)) as Hc2.
  rewrite (lc_table _ _ _ _ _ Hc2). cbn [mbind option_bind].
  assert (Hrel : exists pg L2, anonymous_frame_release t m2 = Some (set_pool (if t =? 0 then m2.(anonymous_free_frames) else t) m2.(next_frame) pg m2) /\
    pool (set_pool (if t =? 0 then m2.(anonymous_free_frames) else t) m2.(next_frame) pg m2) L2 /\
    L2 ≡ₚ L ++ l /\ touches l m2.(pages) pg).
  { destruct l as [|t0 fr0]; subst t fr; cbn [tail] in *.
    - exists m2.(pages), L1. cbn. split; [unfold anonymous_frame_release; cbn; by destruct m2|].
      split; [|done]. apply Hpool2 in Hpl. by destruct m2.
    - assert (Hapt : apart m2.(pages) d ([t0] ++ L1)).
      { eapply apart_touches; [rewrite Hpg2; exact Ht|]. eapply apart_perm; [|exact Hap].
        rewrite Hpm. apply (Permutation_middle L fr0 t0). }
      destruct (apart_app _ _ _ _ Hapt) as (_ & _ & Hdis).
      destruct (apart_dir _ _ _ t0 Hapt) as [Htd Htok]; [by left|].
      rewrite (proj2 (Z.eqb_neq t0 0)) by (destruct Htok; lia).
      destruct (release_frame_ok m2 L1 t0 (Hpool2 _ Hpl) Htok) as (pg & -> & Hpl2 & Htc); [by apply Hdis; left|].
      exists pg, (t0 :: L1). split; [done|]. split; [done|]. split; [rewrite Hpm; apply (Permutation_middle L fr0 t0)|].
      eapply touches_mono; [done|]. intros x ->%list_elem_of_singleton. by left. }
  destruct Hrel as (pg & L2 & -> & Hpl3 & Hpm3 & Htc). cbn [mbind option_bind].
  pose proof (large_step_pool _ _ _ _ _ (if t =? 0 then m2.(anonymous_free_frames) else t) m2.(next_frame) pg Hc2) as Hs3.
  pose proof (large_step_cells _ _ _ _ _ _ _ _ _ Hc2 Hs3 (lc_length _ _ _ _ _ Hc2)) as Hc3.
  destruct (set_large_table_step _ _ _ _ _ 0 Hc3) as (m4 & -> & Hs4 & Hpg4 & Hpool4).
  exists m4, L2, fs1. split; [done|]. split; [by apply Hpool4|]. split; [done|]. split_and!.
  - apply (large_step_cells _ _ _ _ _ _ _ _ _ Hc3 Hs4). apply (lc_length _ _ _ _ _ Hc3).
  - eapply large_step_trans; [exact Hs1|]. eapply large_step_trans; [exact Hs2|].
    eapply large_step_trans; [exact Hs3|exact Hs4].
  - rewrite Hpg4. cbn. eapply touches_trans; [eapply touches_mono; [exact Ht|]|eapply touches_mono; [rewrite Hpg2 in Htc; exact Htc|]].
    + intros x. rewrite !elem_of_cons. intros [?|?]; [by left|right]. subst fr. destruct l; [done|by right].
    + intros x Hx. by right.
  - intros i Hi. rewrite Hpg4. cbn. rewrite (touches_word _ _ _ _ _ Htc).
    + rewrite Hpg2. by apply Hdir.
    + intros Hin. destruct (apart_dir _ _ _ d Hap); [apply elem_of_app; by right|done].
Qed.

Lemma large_code_release_ok m pid d L l :
  1 <= pid < 8 -> directory_of pid m = Some d -> pool m L -> large_of m pid d l -> apart m.(pages) d (L ++ l) ->
  exists m' L' fs, large_code_release pid m = Some m' /\ pool m' L' /\ L' ≡ₚ L ++ l /\
    large_cells m' pid 0 0 fs /\ large_step pid 0 0 fs m m' /\ touches (d :: l) m.(pages) m'.(pages) /\
    forall i, i <> LARGE_INDEX -> word m'.(pages) d i = word m.(pages) d i.
Proof.
  intros Hpid Hd Hp Hl Hap. destruct (large_of_cells _ _ _ _ Hl) as (fs & Hc & Htl). by eapply large_cells_release.
Qed.
