(* ===== verification/SurfaceMapSpec.v ===== *)
(** The page tables of surface mappings: editing a slot takes at most one frame from
    the pool, writes that slot's table exactly, and nothing else; tearing a process's
    tables down returns their frames. *)

From stdpp Require Import gmap.
From S2P Require Import Prelude Surface UserMemory UserMemorySpec PhysicalMemory FramePool FrameOwnership FrameInvariant.

Definition held (ts : list Z) : list Z := filter (fun t => t <> 0) ts.

(** The cells of [pid], and a step on them and the pool. *)
Record surface_cells (m : user_memory) (pid : Z) (ts ids : list Z) : Prop := {
  sc_tables : m.(surface_map_page_table).[pid] = Some ts;
  sc_tables_length : length ts = 4%nat;
  sc_ids : m.(mapped_surface).[pid] = Some ids;
  sc_ids_length : length ids = 4%nat
}.

Definition surface_step (pid : Z) (ts ids : list Z) (m m' : user_memory) : Prop :=
  exists free next pg,
    m' = set_mapped (<[Z.to_nat pid := ids]> m.(mapped_surface))
           (set_surface_tables (<[Z.to_nat pid := ts]> m.(surface_map_page_table)) (set_pool free next pg m)).

Lemma surface_step_trans pid ts ids ts' ids' m m1 m2 :
  surface_step pid ts ids m m1 -> surface_step pid ts' ids' m1 m2 -> surface_step pid ts' ids' m m2.
Proof.
  intros (f & n & pg & ->) (f' & n' & pg' & ->). exists f', n', pg'. cbn. by rewrite !list_insert_insert_eq.
Qed.

Lemma surface_step_pool pid ts ids m free next pg :
  surface_cells m pid ts ids -> surface_step pid ts ids m (set_pool free next pg m).
Proof.
  intros [H1 _ H2 _]. apply aget_Some in H1 as [_ H1], H2 as [_ H2]. exists free, next, pg.
  rewrite !list_insert_id by done. by destruct m.
Qed.

Lemma surface_step_cells pid ts ids ts' ids' m m' :
  surface_cells m pid ts ids -> surface_step pid ts' ids' m m' -> length ts' = 4%nat -> length ids' = 4%nat ->
  surface_cells m' pid ts' ids'.
Proof.
  intros [H1 _ H2 _] (f & n & pg & ->) Hl1 Hl2.
  split; cbn; try done; rewrite aget_insert by (by eapply aget_bound); by rewrite decide_True.
Qed.

Lemma surface_step_others pid ts ids m m' : 0 <= pid -> surface_step pid ts ids m m' -> others_same pid m m'.
Proof. intros Hp (free & next & pg & ->). split; cbn; intros; by rewrite ?insert_other. Qed.

Lemma set_surface_table_step m pid ts ids slot t :
  surface_cells m pid ts ids -> 0 <= slot < 4 ->
  exists m', set_surface_table pid slot t m = Some m' /\ surface_step pid (<[Z.to_nat slot := t]> ts) ids m m' /\
    m'.(pages) = m.(pages) /\ forall L, pool m L -> pool m' L.
Proof.
  intros [H1 L1 H2 L2] Hs. unfold set_surface_table. rewrite H1. cbn [mbind option_bind].
  rewrite aset_in by lia. cbn [mbind option_bind]. rewrite aset_in by (by eapply aget_bound). cbn [mbind option_bind].
  eexists. split; [done|]. split; [|split; [done|by intros ? []; split]].
  apply aget_Some in H2 as [_ H2]. exists m.(anonymous_free_frames), m.(next_frame), m.(pages).
  rewrite (list_insert_id m.(mapped_surface)) by done. by destruct m.
Qed.

Lemma set_mapped_slot_step m pid ts ids slot id :
  surface_cells m pid ts ids -> 0 <= slot < 4 ->
  exists m', set_mapped_slot pid slot id m = Some m' /\ surface_step pid ts (<[Z.to_nat slot := id]> ids) m m' /\
    m'.(pages) = m.(pages) /\ forall L, pool m L -> pool m' L.
Proof.
  intros [H1 L1 H2 L2] Hs. unfold set_mapped_slot. rewrite H2. cbn [mbind option_bind].
  rewrite aset_in by lia. cbn [mbind option_bind]. rewrite aset_in by (by eapply aget_bound). cbn [mbind option_bind].
  eexists. split; [done|]. split; [|split; [done|by intros ? []; split]].
  apply aget_Some in H1 as [_ H1]. exists m.(anonymous_free_frames), m.(next_frame), m.(pages).
  rewrite (list_insert_id m.(surface_map_page_table)) by done. by destruct m.
Qed.

(** ** The entries of one table *)

Definition surface_pte (physical count : Z) (present : bool) (page : Z) : Z :=
  if present && (page <? count) then physical + page * 4096 + 5 else 0.

Lemma surface_ptes_ok n : forall page table physical count present m L,
  is_page m.(pages) table -> 0 <= page -> page + Z.of_nat n <= 512 -> pool m L -> table ∉ L ->
  exists m', surface_ptes n page table physical count present m = Some m' /\
    pool m' L /\ (exists pg, m' = set_pages pg m) /\ touches [table] m.(pages) m'.(pages) /\
    forall i, 0 <= i < 512 -> word m'.(pages) table i =
      if decide (page <= i < page + Z.of_nat n) then Some (surface_pte physical count present i)
      else word m.(pages) table i.
Proof.
  induction n as [|n IH]; intros page table physical count present m L Ht Hp Hb Hpl Hd; cbn [surface_ptes].
  { exists m. split; [done|]. split; [done|]. split; [exists m.(pages); by destruct m|]. split; [apply touches_refl|].
    intros i Hi. by rewrite decide_False by lia. }
  rewrite store_word_eq by (done || lia). cbn [mbind option_bind].
  fold (surface_pte physical count present page). set (m1 := set_pages _ m).
  destruct (IH (page + 1) table physical count present m1 L) as (m' & -> & Hpl' & (pg & ->) & Htc & Hw); [|lia|lia| |done|].
  - eapply touches_page; [apply put_word_touches|done].
  - eapply pool_touches; [done..|apply put_word_touches|]. intros f Hf ->%list_elem_of_singleton. done.
  - eexists. split; [done|]. split; [done|]. split; [by exists pg|]. split.
    + eapply touches_trans; [apply put_word_touches|exact Htc].
    + intros i Hi. rewrite Hw by done. unfold m1. cbn [set_pages set_pool pages].
      destruct (decide (i = page)) as [->|Hne].
      * rewrite decide_False, decide_True by lia. by apply put_word_same; [|lia].
      * rewrite put_word_other by (done || lia || by right). repeat case_decide; (done || lia).
Qed.

Lemma held_put ts (i : nat) t x : ts !! i = Some x ->
  (if decide (x = 0) then [] else [x]) ++ held (<[i := t]> ts) ≡ₚ (if decide (t = 0) then [] else [t]) ++ held ts.
Proof.
  intros Hx. pose proof (lookup_lt_Some _ _ _ Hx) as Hl. rewrite insert_take_drop by done.
  pose proof (take_drop_middle ts i x Hx) as Hts. revert Hts. generalize (take i ts) (drop (S i) ts). intros a b <-. unfold held. rewrite !list.filter_app, !filter_cons.
  destruct (decide (x = 0)), (decide (t = 0)); repeat case_decide; try done; try lia; cbn; solve_Permutation.
Qed.

Lemma held_in ts slot t : ts.[slot] = Some t -> t <> 0 -> t ∈ held ts.
Proof.
  intros [_ Ht]%aget_Some H. apply list_elem_of_filter. split; [done|]. by apply list_elem_of_lookup_2 in Ht.
Qed.

Lemma held_distinct ts i j t : NoDup (held ts) -> ts.[i] = Some t -> ts.[j] = Some t -> t <> 0 -> i = j.
Proof.
  intros Hn Hi Hj H0. apply aget_Some in Hi as [Hi0 Hi], Hj as [Hj0 Hj].
  destruct (decide (i = j)) as [|Hne]; [done|exfalso].
  pose proof (held_put ts (Z.to_nat i) 0 t Hi) as Hp. rewrite decide_False in Hp by done.
  rewrite decide_True in Hp by done. cbn in Hp. rewrite <- Hp in Hn. apply list.NoDup_cons in Hn as [Hn _].
  apply Hn. apply (held_in _ j t); [|done]. apply aget_Some. split; [done|].
  rewrite list_lookup_insert_ne by lia. done.
Qed.

(** What rewriting the table of slot [slot] of [pid] may do. *)
Record slot_edit (pid d slot : Z) (L ts ids : list Z) (m m' : user_memory) (L' ts' : list Z) : Prop := {
  ed_cells : surface_cells m' pid ts' ids;
  ed_step : surface_step pid ts' ids m m';
  ed_pool : pool m' L';
  ed_perm : L' ++ held ts' ≡ₚ L ++ held ts;
  ed_touches : touches (d :: L ++ held ts) m.(pages) m'.(pages);
  ed_slot_only : forall t i, t ∉ L -> t <> d -> ts.[slot] <> Some t -> word m'.(pages) t i = word m.(pages) t i;
  ed_dir : forall i, i <> SURFACE_INDEX + slot -> word m'.(pages) d i = word m.(pages) d i;
  ed_tables : surface_tables_of m' pid d ts';
  ed_others : forall j, j <> slot -> ts'.[j] = ts.[j]
}.

(** What editing slot [slot] does. *)
Record edited (pid d slot : Z) (L ts ids : list Z) (m : user_memory) (ok : bool) (m' : user_memory) (L' ts' : list Z) : Prop := {
  ed_edit :> slot_edit pid d slot L ts ids m m' L' ts';
  ed_kept : ts.[slot] <> Some 0 -> ts' = ts /\ L' = L;
  ed_ok : ok = true <-> ts.[slot] <> Some 0 \/ L <> []
}.

(** The table of a slot: there, or taken now. *)
Lemma slot_table_ok m pid d slot L ts ids :
  1 <= pid < 8 -> 0 <= slot < 4 -> directory_of pid m = Some d -> pool m L -> surface_cells m pid ts ids ->
  surface_tables_of m pid d ts -> apart m.(pages) d (L ++ held ts) ->
  exists m' L' ts' t,
    (t ← ts.[slot];
     if t =? 0 then
       '(table, m) ← anonymous_frame_take m;
       if table =? 0 then Some m else
       m ← set_surface_table pid slot table m;
       dir ← directory_of pid m;
       store_word dir (Z.shiftr (USER_SURFACE_MAP_SLOT_BASE slot) 21) (table + 7) m
     else Some m) = Some m' /\
    ts'.[slot] = Some t /\ edited pid d slot L ts ids m (negb (t =? 0)) m' L' ts'.
Proof.
  intros Hpid Hs Hd Hp Hc Hst Hap. pose proof Hc as [H1 L1 H2 L2].
  destruct (aget_in ts slot) as [t Ht]; [lia|]. rewrite Ht. cbn [mbind option_bind].
  destruct (Z.eqb_spec t 0) as [->|Hne].
  2: { exists m, L, ts, t. split; [done|]. split; [done|]. rewrite (proj2 (Z.eqb_neq t 0)) by done.
       split; [|done|split; [left; naive_solver|done]]. split; try done.
       apply aget_Some in H1 as [_ H1], H2 as [_ H2].
       exists m.(anonymous_free_frames), m.(next_frame), m.(pages). rewrite !list_insert_id by done. by destruct m. }
  destruct (apart_app _ _ _ _ Hap) as ((Hn & Hf & Hdp) & _ & Hdis). apply list.NoDup_cons in Hn as [HdL Hn].
  destruct (take_ok m L Hp Hn Hf) as (r & -> & Hr). cbn [mbind option_bind].
  destruct L as [|t L']; cbn in Hr.
  { subst r. rewrite Z.eqb_refl. exists m, [], ts, 0. split; [done|]. split; [done|]. split; [|done|].
    - split; try done. apply aget_Some in H1 as [_ H1], H2 as [_ H2].
      exists m.(anonymous_free_frames), m.(next_frame), m.(pages). rewrite !list_insert_id by done. by destruct m.
    - split; [done|]. rewrite Ht. naive_solver. }
  destruct Hr as (free & next & -> & Hp1 & Htc & Hz). pose proof (Forall_inv Hf) as Htf.
  rewrite (proj2 (Z.eqb_neq t 0)) by (destruct Htf; lia).
  set (m1 := set_pool free next (<[t := zero_page]> m.(pages)) m) in *. cbn [fst snd] in *.
  assert (Hc1 : surface_cells m1 pid ts ids) by (by split).
  assert (Hs1 : surface_step pid ts ids m m1) by (by apply surface_step_pool).
  destruct (set_surface_table_step m1 pid ts ids slot t Hc1 Hs) as (m2 & -> & Hs2 & Hpg2 & Hpool2). cbn [mbind option_bind].
  pose proof (surface_step_others pid _ _ _ _ ltac:(lia) Hs1) as Ho1.
  pose proof (surface_step_others pid _ _ _ _ ltac:(lia) Hs2) as Ho2.
  assert (Hd2 : directory_of pid m2 = Some d).
  { unfold directory_of. by rewrite (os_process _ _ _ Ho2), (os_process _ _ _ Ho1). }
  rewrite Hd2. cbn [mbind option_bind].
  replace (Z.shiftr (USER_SURFACE_MAP_SLOT_BASE slot) 21) with (SURFACE_INDEX + slot).
  2: { assert (slot = 0 \/ slot = 1 \/ slot = 2 \/ slot = 3) as [-> | [-> | [-> | ->]]] by lia; done. }
  assert (Hi : 0 <= SURFACE_INDEX + slot < 512) by (unfold SURFACE_INDEX; lia).
  assert (Hdp2 : is_page m2.(pages) d) by (rewrite Hpg2; by eapply touches_page).
  rewrite store_word_eq by done.
  set (m3 := set_pages (put_word m2.(pages) d (SURFACE_INDEX + slot) (t + 7)) m2).
  assert (Htd : t <> d) by (intros ->; apply HdL; by left).
  assert (Hc2 : surface_cells m2 pid (<[Z.to_nat slot := t]> ts) ids).
  { eapply surface_step_cells; [exact Hc1|exact Hs2|by rewrite length_insert|done]. }
  exists m3, L', (<[Z.to_nat slot := t]> ts), t. split; [done|].
  split; [rewrite aget_insert by lia; by rewrite decide_True|].
  rewrite (proj2 (Z.eqb_neq t 0)) by (destruct Htf; lia).
  assert (Hdir3 : forall i, i <> SURFACE_INDEX + slot -> word m3.(pages) d i = word m.(pages) d i).
  { intros i Hne. unfold m3. cbn. rewrite put_word_other by (done || by right). rewrite Hpg2.
    eapply touches_word; [exact Htc|]. by intros ->%list_elem_of_singleton. }
  split; [split| |].
  - destruct Hc2. by split.
  - eapply surface_step_trans; [exact Hs1|]. eapply surface_step_trans; [exact Hs2|]. by apply surface_step_pool.
  - eapply pool_touches; [by apply Hpool2|done|done|apply put_word_touches|].
    intros f Hf' ->%list_elem_of_singleton. apply HdL. by right.
  - pose proof (held_put ts (Z.to_nat slot) t 0) as Hh. rewrite decide_True in Hh by done.
    rewrite decide_False in Hh by (destruct Htf; lia). cbn in Hh. rewrite Hh by (by apply aget_Some in Ht as [_ Ht]).
    solve_Permutation.
  - apply (touches_trans _ _ m2.(pages)).
    + rewrite Hpg2. eapply touches_mono; [exact Htc|]. intros x ->%list_elem_of_singleton. right. by left.
    + eapply touches_mono; [apply put_word_touches|]. intros x ->%list_elem_of_singleton. by left.
  - intros q i HqL Hqd _. unfold m3. cbn. rewrite put_word_other by (done || by left). rewrite Hpg2.
    eapply touches_word; [exact Htc|]. intros ->%list_elem_of_singleton. apply HqL. by left.
  - exact Hdir3.
  - split.
    + apply Hc2.
    + rewrite length_insert. done.
    + intros i q Hq Hq0. rewrite aget_insert in Hq by lia. case_decide as Eq.
      * injection Hq as <-. subst i. unfold m3. cbn. by apply put_word_same.
      * rewrite Hdir3 by lia. by apply (surface_dir _ _ _ _ Hst).
  - intros j Hj. apply insert_other; lia.
  - by rewrite Ht.
  - split; [intros _|done]. by right.
Qed.

Lemma held_slot ts t : t ∈ held ts -> exists j, ts.[j] = Some t.
Proof.
  intros [_ (j & Hj)%list_elem_of_lookup]%list_elem_of_filter. exists (Z.of_nat j). by rewrite aget_nat.
Qed.

(** The table written is the slot's own or came from the pool. *)
Lemma edited_source pid d slot L ts ids m ok m' L' ts' t :
  edited pid d slot L ts ids m ok m' L' ts' -> apart m.(pages) d (L ++ held ts) ->
  ts'.[slot] = Some t -> t <> 0 -> length ts = 4%nat -> 0 <= slot < 4 -> t ∈ L \/ ts.[slot] = Some t.
Proof.
  intros Hed Hap Ht H0 Hl Hs. destruct (aget_in ts slot) as [t0 Ht0]; [lia|]. destruct (decide (t0 = 0)) as [->|Hne].
  2: { right. destruct (ed_kept _ _ _ _ _ _ _ _ _ _ _ Hed) as [-> _]; [|done]. rewrite Ht0. naive_solver. }
  left. pose proof (held_in _ _ _ Ht H0) as Hin.
  assert (Hin' : t ∈ L ++ held ts).
  { rewrite <- (ed_perm _ _ _ _ _ _ _ _ _ _ Hed). apply elem_of_app. by right. }
  apply elem_of_app in Hin' as [?|Hh]; [done|exfalso]. destruct (held_slot _ _ Hh) as [j Hj].
  assert (Hjs : j <> slot) by (intros ->; congruence).
  pose proof (apart_perm _ _ _ _ (ed_perm _ _ _ _ _ _ _ _ _ _ Hed) Hap) as Hap'.
  destruct (apart_app _ _ _ _ Hap') as (_ & (Hn & _) & _). apply list.NoDup_cons in Hn as [_ Hn].
  apply Hjs. eapply held_distinct; [exact Hn| |exact Ht|done].
  by rewrite (ed_others _ _ _ _ _ _ _ _ _ _ Hed).
Qed.

Lemma edit_ptes_ok m pid d slot L ts ids physical count present :
  1 <= pid < 8 -> 0 <= slot < 4 -> directory_of pid m = Some d -> pool m L -> surface_cells m pid ts ids ->
  surface_tables_of m pid d ts -> apart m.(pages) d (L ++ held ts) ->
  exists ok m' L' ts', edit_surface_ptes pid slot physical count present m = Some (ok, m') /\
    edited pid d slot L ts ids m ok m' L' ts' /\
    (ok = true -> exists t, ts'.[slot] = Some t /\ t <> 0 /\
       forall i, 0 <= i < 300 -> word m'.(pages) t i = Some (surface_pte physical count present i)).
Proof.
  intros Hpid Hs Hd Hp Hc Hst Hap.
  destruct (slot_table_ok m pid d slot L ts ids Hpid Hs Hd Hp Hc Hst Hap) as (m1 & L1 & ts1 & t & Heq & Ht & Hed).
  unfold edit_surface_ptes. rewrite (sc_tables _ _ _ _ Hc). cbn [mbind option_bind].
  revert Heq. destruct (aget_in ts slot) as [t0 Ht0]; [rewrite (sc_tables_length _ _ _ _ Hc); lia|].
  rewrite Ht0. cbn [mbind option_bind]. intros ->. cbn [mbind option_bind].
  rewrite (sc_tables _ _ _ _ (ed_cells _ _ _ _ _ _ _ _ _ _ Hed)). cbn [mbind option_bind]. rewrite Ht. cbn [mbind option_bind].
  destruct (Z.eqb_spec t 0) as [->|Hne]; cbn [negb] in Hed.
  { exists false, m1, L1, ts1. split; [done|]. by split. }
  pose proof Hed as [[E1 E2 E3 E4 E5 E6 E7 E8 E9] E10 E11].
  pose proof (apart_touches _ _ _ _ _ E5 (apart_perm _ _ _ _ E4 Hap)) as Hap1.
  assert (Htin : t ∈ held ts1) by (by eapply held_in).
  destruct (apart_dir _ _ _ t Hap1) as [Htd Htf]; [apply elem_of_app; by right|].
  destruct (surface_ptes_ok 300 0 t physical count present m1 L1) as (m2 & -> & Hpl & (pg & ->) & Htc & Hw);
    [apply Htf|done|done|done| |].
  { destruct (apart_app _ _ _ _ Hap1) as (_ & _ & Hdis). intros Hin. by apply (Hdis t). }
  cbn [mbind option_bind]. exists true, (set_pages pg m1), L1, ts1. split; [done|]. split.
  - split; [|done|done]. split; try done.
    + destruct E1. by split.
    + eapply surface_step_trans; [exact E2|]. by apply surface_step_pool.
    + eapply touches_trans; [exact E5|]. eapply touches_mono; [exact Htc|]. intros x ->%list_elem_of_singleton.
      right. rewrite <- E4. apply elem_of_app. by right.
    + intros q i HqL Hqd Hqs. rewrite (touches_word _ _ _ _ _ Htc); [by apply E6|]. intros ->%list_elem_of_singleton.
      destruct (edited_source _ _ _ _ _ _ _ _ _ _ _ t Hed Hap Ht Hne (sc_tables_length _ _ _ _ Hc) Hs); done.
    + intros i Hi. rewrite (touches_word _ _ _ _ _ Htc); [by apply E7|]. by intros ->%list_elem_of_singleton.
    + destruct E8 as [S1 S2 S3]. split; [done|done|]. intros i q Hq Hq0.
      rewrite (touches_word _ _ _ _ _ Htc); [by apply S3|]. by intros ->%list_elem_of_singleton.
  - intros _. exists t. split; [done|]. split; [done|]. intros i Hi. rewrite Hw by lia.
    by rewrite decide_True by lia.
Qed.

(** Freeing the table of a slot. *)
Lemma free_table_ok m pid d slot L ts ids :
  1 <= pid < 8 -> 0 <= slot < 4 -> directory_of pid m = Some d -> pool m L -> surface_cells m pid ts ids ->
  surface_tables_of m pid d ts -> apart m.(pages) d (L ++ held ts) ->
  exists m' L', free_surface_table pid slot m = Some m' /\
    slot_edit pid d slot L ts ids m m' L' (<[Z.to_nat slot := 0]> ts).
Proof.
  intros Hpid Hs Hd Hp Hc Hst Hap. pose proof Hc as [H1 L1 H2 L2]. unfold free_surface_table.
  rewrite H1. cbn [mbind option_bind]. destruct (aget_in ts slot) as [t Ht]; [lia|]. rewrite Ht. cbn [mbind option_bind].
  destruct (Z.eqb_spec t 0) as [->|Hne].
  { exists m, L. split; [done|]. apply aget_Some in Ht as [_ Ht]. rewrite list_insert_id by done. split; try done.
    apply aget_Some in H1 as [_ H1], H2 as [_ H2].
    exists m.(anonymous_free_frames), m.(next_frame), m.(pages). rewrite !list_insert_id by done. by destruct m. }
  rewrite Hd. cbn [mbind option_bind].
  replace (Z.shiftr (USER_SURFACE_MAP_SLOT_BASE slot) 21) with (SURFACE_INDEX + slot).
  2: { assert (slot = 0 \/ slot = 1 \/ slot = 2 \/ slot = 3) as [-> | [-> | [-> | ->]]] by lia; done. }
  assert (Hi : 0 <= SURFACE_INDEX + slot < 512) by (unfold SURFACE_INDEX; lia).
  assert (Htin : t ∈ held ts) by (by eapply held_in).
  destruct (apart_app _ _ _ _ Hap) as ((Hn & _ & Hdp) & (HnH & _) & Hdis). apply list.NoDup_cons in Hn as [HdL _], HnH as [_ HnH].
  destruct (apart_dir _ _ _ t Hap) as [Htd Htf]; [apply elem_of_app; by right|].
  rewrite store_word_eq by done. cbn [mbind option_bind].
  set (pg := put_word m.(pages) d (SURFACE_INDEX + slot) 0).
  assert (Hp1 : pool (set_pages pg m) L).
  { eapply pool_touches; [done..|apply put_word_touches|]. intros f Hf ->%list_elem_of_singleton. done. }
  destruct (release_frame_ok (set_pages pg m) L t Hp1) as (pg' & -> & Hp2 & Htc).
  { eapply frame_ok_touches; [apply put_word_touches|done]. }
  { intros Hin. by apply (Hdis t). }
  cbn [mbind option_bind].
  change (set_pool t (next_frame (set_pages pg m)) pg' (set_pages pg m)) with (set_pool t (next_frame m) pg' m) in *.
  set (m2 := set_pool t (next_frame m) pg' m) in *.
  assert (Hc2 : surface_cells m2 pid ts ids) by (by split).
  destruct (set_surface_table_step m2 pid ts ids slot 0 Hc2 Hs) as (m3 & -> & Hs3 & Hpg3 & Hpool3).
  exists m3, (t :: L). split; [done|].
  assert (Hdir : forall i, i <> SURFACE_INDEX + slot -> word m3.(pages) d i = word m.(pages) d i).
  { intros i Hne'. rewrite Hpg3. cbn. rewrite (touches_word _ _ _ _ _ Htc) by (by intros ->%list_elem_of_singleton).
    cbn. unfold pg. by apply put_word_other; [|done|right]. }
  assert (Hc3 : surface_cells m3 pid (<[Z.to_nat slot := 0]> ts) ids).
  { eapply surface_step_cells; [exact Hc2|exact Hs3|by rewrite length_insert|done]. }
  split.
  - done.
  - eapply surface_step_trans; [by apply (surface_step_pool pid ts ids m t m.(next_frame) pg')|exact Hs3].
  - by apply Hpool3.
  - pose proof (held_put ts (Z.to_nat slot) 0 t) as Hh. rewrite decide_False, decide_True in Hh by done. cbn in Hh.
    rewrite <- Hh by (by apply aget_Some in Ht as [_ Ht]). solve_Permutation.
  - rewrite Hpg3. cbn. apply (touches_trans _ _ pg).
    + eapply touches_mono; [apply put_word_touches|]. intros x ->%list_elem_of_singleton. by left.
    + eapply touches_mono; [exact Htc|]. intros x ->%list_elem_of_singleton. right. apply elem_of_app. by right.
  - intros q i HqL Hqd Hqs. rewrite Hpg3. cbn. rewrite (touches_word _ _ _ _ _ Htc) by (intros ->%list_elem_of_singleton; done).
    cbn. unfold pg. by apply put_word_other; [|done|left].
  - exact Hdir.
  - split; [apply Hc3|by rewrite length_insert|]. intros i q Hq Hq0. rewrite aget_insert in Hq by lia.
    case_decide as Eq; [by injection Hq as <-|]. rewrite Hdir by lia. by apply (surface_dir _ _ _ _ Hst).
  - intros j Hj. apply insert_other; lia.
Qed.
