(* ===== verification/PagingSpec.v ===== *)
(** What the boot page tables map: the exact translation of every address of a
    fresh address space, and the memory of a process slot. *)

From stdpp Require Import gmap.
From S2P Require Import Prelude UserMemory UserMemorySpec PhysicalMemory FramePool FrameOwnership Paging.

(** ** Filling tables *)

Lemma vptr_write_eq p i v pg : is_page pg p -> 0 <= i < 512 -> vptr_write_u64 p i v pg = Some (put_word pg p i v).
Proof.
  intros (ws & Hp & Hl) Hi. unfold vptr_write_u64, put_word. rewrite Hp. cbn [mbind option_bind].
  by rewrite aset_in by lia.
Qed.

(** [pg'] is [pg] with entries [i, i + n) of table [p] set by [f]. *)
Record filled (p i n : Z) (f : Z -> Z) (pg pg' : phys) : Prop := {
  fl_touches : touches [p] pg pg';
  fl_in : forall j, i <= j < i + n -> word pg' p j = Some (f j);
  fl_out : forall j, ~ (i <= j < i + n) -> word pg' p j = word pg p j
}.

Lemma fill_table n : forall i p f pg, is_page pg p -> 0 <= i -> i + Z.of_nat n <= 512 ->
  exists pg', for_up n i (fun k => vptr_write_u64 p k (f k)) pg = Some pg' /\ filled p i (Z.of_nat n) f pg pg'.
Proof.
  intros i p f pg Hp Hi Hn.
  destruct (for_up_inv (fun j pg' => is_page pg' p /\ filled p i (j - i) f pg pg') n i
    (fun k => vptr_write_u64 p k (f k)) pg) as (pg' & E & _ & Hf).
  - split; [done|]. split; [apply touches_refl|intros; lia|done].
  - intros j pg1 Hj (Hp1 & [F1 F2 F3]). rewrite vptr_write_eq by (done || lia). eexists. split; [done|].
    pose proof (put_word_touches pg1 p j (f j)) as Ht. split; [by eapply touches_page|].
    split; [by eapply touches_trans| |].
    + intros k Hk. destruct (decide (k = j)) as [->|]; [rewrite put_word_same by (done || lia); done|].
      rewrite put_word_other by (done || lia || naive_solver). apply F2. lia.
    + intros k Hk. rewrite put_word_other by (done || lia || (right; lia)). apply F3. lia.
  - exists pg'. split; [done|]. by replace (Z.of_nat n) with (i + Z.of_nat n - i) by lia.
Qed.

Lemma clear_page_ok p pg : is_page pg p ->
  exists pg', mako_clear_page p pg = Some pg' /\ filled p 0 512 (fun _ => 0) pg pg'.
Proof. intros Hp. apply (fill_table 512 0 p (fun _ => 0) pg Hp); lia. Qed.

(** ** The identity tables *)

(** [high] are the entries of the second level above the first gigabyte. *)
Record identity_tables (high : Z -> Z) (pg : phys) (pml4 pdpt pd pt0 pt1 : Z) : Prop := {
  it_pml4 : forall i, 0 <= i < 512 -> word pg pml4 i = Some (if i =? 0 then pdpt + 7 else 0);
  it_pdpt : forall i, 0 <= i < 512 -> word pg pdpt i = Some (if i =? 0 then pd + 7 else high i);
  it_pd : forall i, 0 <= i < 512 ->
    word pg pd i = Some (if i =? 0 then pt0 + 7 else if i =? 1 then pt1 + 7 else identity_entry i);
  it_pt0 : forall i, 0 <= i < 512 -> word pg pt0 i = Some (i * 4096 + 3);
  it_pt1 : forall i, 0 <= i < 512 -> word pg pt1 i = Some (2097152 + i * 4096 + 3)
}.

(** Writing a table leaves the entries of every other. *)
Lemma filled_other p i n f pg pg' q j : filled p i n f pg pg' -> q <> p -> word pg' q j = word pg q j.
Proof. intros [H _ _] Hq. apply (touches_word [p]); [done|]. set_solver. Qed.
Lemma filled_page p i n f pg pg' q : filled p i n f pg pg' -> is_page pg q -> is_page pg' q.
Proof. intros [H _ _]. by apply (touches_page [p]). Qed.

Lemma leaf_loop_ok pt0 pt1 pg : is_page pg pt0 -> is_page pg pt1 -> pt0 <> pt1 ->
  exists pg', for_up 512 0 (identity_leaf pt0 pt1) pg = Some pg' /\ touches [pt0; pt1] pg pg' /\
    (forall i, 0 <= i < 512 -> word pg' pt0 i = Some (i * 4096 + 3) /\ word pg' pt1 i = Some (2097152 + i * 4096 + 3)).
Proof.
  intros H0 H1 Hne.
  destruct (for_up_inv (fun j pg' => touches [pt0; pt1] pg pg' /\
      forall i, 0 <= i < j -> word pg' pt0 i = Some (i * 4096 + 3) /\ word pg' pt1 i = Some (2097152 + i * 4096 + 3))
    512 0 (identity_leaf pt0 pt1) pg) as (pg' & E & Ht & Hw).
  - split; [apply touches_refl|intros; lia].
  - intros j pg1 Hj (Ht & Hw). unfold identity_leaf.
    pose proof (touches_page _ _ _ _ Ht H0) as Hp0. pose proof (touches_page _ _ _ _ Ht H1) as Hp1.
    rewrite vptr_write_eq by (done || lia). cbn [mbind option_bind].
    pose proof (put_word_touches pg1 pt0 j (j * 4096 + 3)) as T0. set (pg2 := put_word pg1 pt0 j _) in *.
    pose proof (touches_page _ _ _ _ T0 Hp1) as Hp1'. pose proof (touches_page _ _ _ _ T0 Hp0) as Hp0'.
    rewrite vptr_write_eq by (done || lia). pose proof (put_word_touches pg2 pt1 j (2097152 + j * 4096 + 3)) as T1.
    eexists. split; [done|]. split.
    + eapply touches_trans; [done|]. eapply touches_trans; (eapply touches_mono; [done|set_solver]).
    + intros i Hi. rewrite (touches_word [pt1] _ _ pt0) by (done || set_solver).
      destruct (decide (i = j)) as [->|].
      * rewrite put_word_same by (done || lia). split; [|done]. unfold pg2. by rewrite put_word_same by (done || lia).
      * rewrite put_word_other by (done || lia || naive_solver). unfold pg2.
        rewrite !put_word_other by (done || lia || naive_solver). apply Hw. lia.
  - exists pg'. split; [done|]. split; [done|]. intros i Hi. apply Hw. lia.
Qed.

Lemma set_entry_ok p i v pg : is_page pg p -> 0 <= i < 512 ->
  exists pg', vptr_write_u64 p i v pg = Some pg' /\ filled p i 1 (fun _ => v) pg pg'.
Proof.
  intros Hp Hi. rewrite vptr_write_eq by done. eexists. split; [done|]. split; [apply put_word_touches| |].
  - intros j Hj. assert (j = i) as -> by lia. by apply put_word_same.
  - intros j Hj. apply put_word_other; [done|done|]. right. lia.
Qed.

(** Reading an entry back through the writes that followed. *)
Ltac read_back :=
  repeat match goal with
  | H : filled ?p _ _ _ _ ?g |- word ?g ?q _ = _ =>
      first [rewrite (filled_other _ _ _ _ _ _ _ _ H) by done | rewrite (fl_in _ _ _ _ _ _ H) by lia
            | rewrite (fl_out _ _ _ _ _ _ H) by lia]
  | H : forall q j, q <> ?a -> q <> ?b -> word ?g q j = _ |- word ?g _ _ = _ => rewrite H by done
  end.

(** The clears, the four links, the leaves and the huge pages. *)
Lemma build_identity_ok pml4 pdpt pd pt0 pt1 pg :
  NoDup [pml4; pdpt; pd; pt0; pt1] -> Forall (is_page pg) [pml4; pdpt; pd; pt0; pt1] ->
  exists pg', mako_build_identity_4m pml4 pdpt pd pt0 pt1 pg = Some (true, pg') /\
    touches [pml4; pdpt; pd; pt0; pt1] pg pg' /\ identity_tables (fun _ => 0) pg' pml4 pdpt pd pt0 pt1.
Proof.
  intros Hn Hpg. rewrite !list.NoDup_cons, !elem_of_cons in Hn. set (X := [pml4; pdpt; pd; pt0; pt1]) in *.
  assert (pml4 <> pdpt /\ pml4 <> pd /\ pml4 <> pt0 /\ pml4 <> pt1 /\ pdpt <> pd /\ pdpt <> pt0 /\ pdpt <> pt1 /\
          pd <> pt0 /\ pd <> pt1 /\ pt0 <> pt1) as (N1 & N2 & N3 & N4 & N5 & N6 & N7 & N8 & N9 & N10)
    by (split_and!; intros ->; naive_solver).
  assert (E1 : pml4 ∈ X) by set_solver. assert (E2 : pdpt ∈ X) by set_solver. assert (E3 : pd ∈ X) by set_solver.
  assert (E4 : pt0 ∈ X) by set_solver. assert (E5 : pt1 ∈ X) by set_solver. clear Hn.
  assert (Hstep : forall (f : phys -> option phys) g p i n h, touches X pg g -> p ∈ X ->
    (is_page g p -> exists g', f g = Some g' /\ filled p i n h g g') ->
    exists g', f g = Some g' /\ filled p i n h g g' /\ touches X pg g').
  { intros f g p i n h Ht Hp Hf. destruct Hf as (g' & E & F).
    - eapply touches_page; [done|]. rewrite list.Forall_forall in Hpg. auto.
    - exists g'. split; [done|]. split; [done|]. destruct F as [F _ _]. eapply touches_trans; [done|].
      eapply touches_mono; [done|set_solver]. }
  unfold mako_build_identity_4m.
  destruct (Hstep _ _ _ _ _ _ (touches_refl X pg) E1 (clear_page_ok pml4 pg)) as (g1 & -> & C1 & T1). cbn [mbind option_bind].
  destruct (Hstep _ _ _ _ _ _ T1 E2 (clear_page_ok pdpt g1)) as (g2 & -> & C2 & T2). cbn [mbind option_bind].
  destruct (Hstep _ _ _ _ _ _ T2 E3 (clear_page_ok pd g2)) as (g3 & -> & C3 & T3). cbn [mbind option_bind].
  destruct (Hstep _ _ _ _ _ _ T3 E4 (clear_page_ok pt0 g3)) as (g4 & -> & C4 & T4). cbn [mbind option_bind].
  destruct (Hstep _ _ _ _ _ _ T4 E5 (clear_page_ok pt1 g4)) as (g5 & -> & C5 & T5). cbn [mbind option_bind].
  destruct (Hstep (vptr_write_u64 pml4 0 (pdpt + 7)) g5 pml4 0 1 _ T5 E1 (fun H => set_entry_ok pml4 0 _ g5 H ltac:(lia)))
    as (g6 & -> & S1 & T6). cbn [mbind option_bind].
  destruct (Hstep (vptr_write_u64 pdpt 0 (pd + 7)) g6 pdpt 0 1 _ T6 E2 (fun H => set_entry_ok pdpt 0 _ g6 H ltac:(lia)))
    as (g7 & -> & S2 & T7). cbn [mbind option_bind].
  destruct (Hstep (vptr_write_u64 pd 0 (pt0 + 7)) g7 pd 0 1 _ T7 E3 (fun H => set_entry_ok pd 0 _ g7 H ltac:(lia)))
    as (g8 & -> & S3 & T8). cbn [mbind option_bind].
  destruct (Hstep (vptr_write_u64 pd 1 (pt1 + 7)) g8 pd 1 1 _ T8 E3 (fun H => set_entry_ok pd 1 _ g8 H ltac:(lia)))
    as (g9 & -> & S4 & T9). cbn [mbind option_bind].
  destruct (leaf_loop_ok pt0 pt1 g9) as (g10 & -> & L1 & L2);
    [(eapply touches_page; [exact T9|]; rewrite list.Forall_forall in Hpg; auto)..|done|]. cbn [mbind option_bind].
  assert (T10 : touches X pg g10) by (eapply touches_trans; [done|]; eapply touches_mono; [done|set_solver]).
  assert (Hleaf : forall q j, q <> pt0 -> q <> pt1 -> word g10 q j = word g9 q j)
    by (intros q j Hq0 Hq1; apply (touches_word _ _ _ _ _ L1); set_solver).
  destruct (Hstep (for_up 510 2 (identity_huge pd)) g10 pd 2 510 identity_entry T10 E3) as (g11 & -> & H1 & T11).
  { intros Hp. apply (fill_table 510 2 pd identity_entry g10 Hp); lia. }
  cbn [mbind option_bind]. exists g11. split; [done|]. split; [done|].
  split; intros i Hi; (destruct (Z.eqb_spec i 0) as [->|]; [|destruct (Z.eqb_spec i 1) as [->|]]);
    read_back; try done; try (by apply L2).
Qed.

(** ** What a fresh address space translates *)

Section fresh.
Context (high : Z -> Z) (pg : phys) (pml4 pdpt pd pt0 pt1 : Z) (Hit : identity_tables high pg pml4 pdpt pd pt0 pt1).
Context (Hpdpt : pdpt mod 4096 = 0) (Hpd : pd mod 4096 = 0) (Hpt0 : pt0 mod 4096 = 0) (Hpt1 : pt1 mod 4096 = 0).

(** The upper levels send the first gigabyte to the directory. *)
Lemma to_directory va : 0 <= va < 2 ^ 30 ->
  translate pg pml4 va =
    (e2 ← level_entry pg pd 1 va;
     let r := Z.land 6 (Z.land 6 (rights_of e2)) in
     if negb (Z.land e2 HUGE =? 0) then Some (Z.ldiff e2 (Z.ones 21) + Z.land va (Z.ones 21), r) else
     e1 ← level_entry pg (page_of e2) 0 va;
     Some (page_of e1 + Z.land va (Z.ones 12), Z.land r (rights_of e1))).
Proof.
  intros Hva. unfold translate.
  assert (I3 : index_at 3 va = 0) by (rewrite index_eq by lia; rewrite Z.div_small by lia; done).
  assert (I2 : index_at 2 va = 0) by (rewrite index_eq by lia; rewrite Z.div_small by lia; done).
  rewrite (level_of pg pml4 3 va (pdpt + 7)) by (rewrite I3; by apply (it_pml4 _ _ _ _ _ _ _ Hit 0)).
  destruct (table_entry pdpt 7 Hpdpt ltac:(lia)) as (-> & R3 & _ & G3). change (present 7) with true. cbn [mbind option_bind].
  rewrite G3, (level_of pg pdpt 2 va (pd + 7)) by (rewrite I2; by apply (it_pdpt _ _ _ _ _ _ _ Hit 0)).
  destruct (table_entry pd 7 Hpd ltac:(lia)) as (-> & R2 & _ & G2). change (present 7) with true. cbn [mbind option_bind].
  rewrite G2, R3, R2. by change (rights_of 7) with 6.
Qed.

(** Every address is mapped to itself: the first 4 MiB for the kernel only, all the
    rest readable and writable from user code. *)
Lemma fresh_translation va : 0 <= va < 2 ^ 30 ->
  translate pg pml4 va = Some (va, if va <? 4194304 then 2 else USER_WRITE).
Proof.
  intros Hva. rewrite to_directory by done.
  assert (Hix : index_at 1 va = va / 2 ^ 21) by (rewrite index_eq by lia; apply Z.mod_small; zlia).
  assert (Hb : 0 <= va / 2 ^ 21 < 512) by zlia. assert (Hdv : 2097152 * (va / 2 ^ 21) <= va < 2097152 * (va / 2 ^ 21) + 2097152) by (change (2 ^ 21) with 2097152; zlia).
  pose proof (it_pd _ _ _ _ _ _ _ Hit _ Hb) as Hw. rewrite <- Hix in Hw. rewrite (level_of _ _ _ _ _ Hw). rewrite Hix in *.
  assert (Hleaf : forall pt base e, pt mod 4096 = 0 -> e = pt + 7 ->
    (forall i, 0 <= i < 512 -> word pg pt i = Some (base * 4096 + i * 4096 + 3)) -> va / 4096 = base + va / 4096 mod 512 -> va < 4194304 ->
    (e2 ← (if present e then Some e else None);
     let r := Z.land 6 (Z.land 6 (rights_of e2)) in
     if negb (Z.land e2 HUGE =? 0) then Some (Z.ldiff e2 (Z.ones 21) + Z.land va (Z.ones 21), r) else
     e1 ← level_entry pg (page_of e2) 0 va;
     Some (page_of e1 + Z.land va (Z.ones 12), Z.land r (rights_of e1))) = Some (va, if va <? 4194304 then 2 else USER_WRITE)).
  { intros pt base e Hal -> Hpt Hd Hlt. destruct (table_entry pt 7 Hal ltac:(lia)) as (-> & R & Hh & G).
    change (present 7) with true. cbn [mbind option_bind]. cbv zeta. rewrite Hh, G, R. change (Z.land 7 HUGE) with 0. cbn [negb Z.eqb].
    assert (H0 : index_at 0 va = va / 4096 mod 512) by (rewrite index_eq by lia; done).
    rewrite (level_of pg pt 0 va _ (eq_trans (f_equal (word pg pt) H0) (Hpt _ ltac:(apply Z.mod_pos_bound; lia)))).
    destruct (table_entry (base * 4096 + va / 4096 mod 512 * 4096) 3) as (-> & R1 & _ & G1); [zlia|lia|].
    change (present 3) with true. cbn [mbind option_bind]. rewrite G1, R1, (proj2 (Z.ltb_lt _ _) Hlt).
    rewrite Z.land_ones by lia. f_equal. f_equal. change (2 ^ 12) with 4096. zlia. }
  destruct (Z.eqb_spec (va / 2 ^ 21) 0) as [E0|N0]; [|destruct (Z.eqb_spec (va / 2 ^ 21) 1) as [E1|N1]].
  - apply (Hleaf pt0 0); [done|done|intros i Hi; rewrite (it_pt0 _ _ _ _ _ _ _ Hit i Hi); f_equal; lia|zlia|zlia].
  - apply (Hleaf pt1 512); [done|done|intros i Hi; rewrite (it_pt1 _ _ _ _ _ _ _ Hit i Hi); f_equal; lia|zlia|zlia].
  - unfold identity_entry. set (i := va / 2 ^ 21) in *. change 2097152 with (2 ^ 21).
    unfold present, rights_of. rewrite low_land by (unfold PRESENT; lia). change (negb (Z.land 135 PRESENT =? 0)) with true.
    cbn [mbind option_bind]. cbv zeta. rewrite !low_land by (unfold HUGE; lia). change (Z.land 135 HUGE) with 128.
    change (Z.land 6 (Z.land 6 (Z.land 135 6))) with 6. cbn [negb Z.eqb]. rewrite (proj2 (Z.ltb_ge _ _)) by (unfold i in *; zlia).
    f_equal. f_equal. rewrite Z.ldiff_ones_r, Z.land_ones by lia. rewrite Z.shiftl_mul_pow2, Z.shiftr_div_pow2 by lia.
    rewrite Z.div_add_l by lia. change (135 / 2 ^ 21) with 0. unfold i. zlia.
Qed.

(** Nothing above the first gigabyte is mapped. *)
Lemma fresh_unmapped va : (forall i, high i = 0) -> 2 ^ 30 <= va < 2 ^ 48 -> translate pg pml4 va = None.
Proof.
  intros Hz Hva. unfold translate.
  assert (I3 : index_at 3 va = va / 2 ^ 39 mod 512) by (rewrite index_eq by lia; done).
  assert (I2 : index_at 2 va = va / 2 ^ 30 mod 512) by (rewrite index_eq by lia; done).
  rewrite (level_of pg pml4 3 va _ (eq_trans (f_equal (word pg pml4) I3) (it_pml4 _ _ _ _ _ _ _ Hit _ ltac:(apply Z.mod_pos_bound; lia)))).
  destruct (Z.eqb_spec (va / 2 ^ 39 mod 512) 0) as [E3|N3]; [|done].
  destruct (table_entry pdpt 7 Hpdpt ltac:(lia)) as (-> & _ & _ & G3). change (present 7) with true. cbn [mbind option_bind].
  rewrite G3, (level_of pg pdpt 2 va _ (eq_trans (f_equal (word pg pdpt) I2) (it_pdpt _ _ _ _ _ _ _ Hit _ ltac:(apply Z.mod_pos_bound; lia)))).
  rewrite (proj2 (Z.eqb_neq _ 0)); [by rewrite Hz|].
  change (2 ^ 39) with 549755813888 in *. change (2 ^ 30) with 1073741824 in *. change (2 ^ 48) with 281474976710656 in *. zlia.
Qed.
End fresh.

(** ** The memory of a process slot *)

Definition avail (a : frame_allocator) : list Z := bump a.(fa_next) a.(fa_end).
Record allocator_ok (a : frame_allocator) : Prop := {
  ao_next : 0 < a.(fa_next); ao_aligned : a.(fa_next) mod 4096 = 0; ao_end : a.(fa_end) < 2 ^ 63;
  ao_order : a.(fa_next) <= a.(fa_end)
}.

(** [n] consecutive frames from [f] on. *)
Fixpoint run (f : Z) (n : nat) : list Z := match n with O => [] | S n => f :: run (f + 4096) n end.

Lemma run_app n : forall f k, run f (n + k) = run f n ++ run (f + 4096 * Z.of_nat n) k.
Proof.
  induction n as [|n IH]; intros f k; cbn [Nat.add run app]; [f_equal; lia|]. rewrite IH. do 3 f_equal. lia.
Qed.

Lemma run_length n : forall f, length (run f n) = n.
Proof. induction n; intros f; cbn; auto. Qed.

Lemma run_lookup n : forall f i, (i < n)%nat -> run f n !! i = Some (f + 4096 * Z.of_nat i).
Proof.
  induction n as [|n IH]; intros f i Hi; [lia|]. destruct i as [|i]; cbn [run lookup list_lookup]; [f_equal; lia|].
  rewrite IH by lia. f_equal. lia.
Qed.

Lemma run_in n : forall f x, x ∈ run f n <-> exists k, 0 <= k < Z.of_nat n /\ x = f + 4096 * k.
Proof.
  induction n as [|n IH]; intros f x; cbn [run].
  - split; [set_solver|]. intros (k & Hk & _). lia.
  - rewrite elem_of_cons, IH. split.
    + intros [->|(k & Hk & ->)]; [exists 0; lia|]. exists (k + 1). lia.
    + intros (k & Hk & ->). destruct (decide (k = 0)) as [->|]; [left; lia|right; exists (k - 1); lia].
Qed.

Lemma run_nodup n : forall f, NoDup (run f n).
Proof.
  induction n as [|n IH]; intros f; cbn [run]; [constructor|]. apply list.NoDup_cons. split; [|done].
  rewrite run_in. intros (k & Hk & E). lia.
Qed.

Lemma bump_run next end_ : bump next end_ = run next (Z.to_nat ((end_ - next) / 4096)).
Proof.
  unfold bump. apply list_eq. intros i. rewrite list_lookup_fmap.
  destruct (decide (i < Z.to_nat ((end_ - next) / 4096))%nat) as [Hlt|Hge].
  - rewrite run_lookup by done. rewrite lookup_seqZ_lt by lia. done.
  - rewrite lookup_seqZ_ge by lia. symmetry. apply lookup_ge_None_2. rewrite run_length. lia.
Qed.

(** Taking [n] frames that are there. *)
Definition advance (n : nat) (a : frame_allocator) : frame_allocator :=
  FrameAllocator (a.(fa_next) + 4096 * Z.of_nat n) a.(fa_end).
Definition has (n : nat) (a : frame_allocator) : Prop := allocator_ok a /\ 4096 * Z.of_nat n <= a.(fa_end) - a.(fa_next).

Lemma allocate_frame_eq a n : has (S n) a -> allocate_frame a = (a.(fa_next), advance 1 a) /\ has n (advance 1 a).
Proof.
  intros [[H1 H2 H3 H4] Hn]. unfold allocate_frame, mako_frame_allocate.
  rewrite (proj2 (Z.eqb_neq _ _)) by lia. rewrite u64_small by (unfold is_u64; lia).
  rewrite (proj2 (Z.ltb_ge _ _)), (proj2 (Z.ltb_ge _ _)) by lia. split; [done|].
  split; [split; cbn; try lia; zlia|cbn; lia].
Qed.

Lemma advance_add n k a : advance k (advance n a) = advance (n + k) a.
Proof. unfold advance. cbn. f_equal. lia. Qed.

Lemma take_frames_eq n k : forall a, has (n + k) a -> take_frames n a = (run a.(fa_next) n, advance n a) /\ has k (advance n a).
Proof.
  induction n as [|n IH]; intros a Ha.
  - split; [|by destruct a; unfold advance; cbn; rewrite Z.add_0_r]. cbn. f_equal. destruct a. unfold advance. cbn. f_equal. lia.
  - destruct (allocate_frame_eq a (n + k) Ha) as [E Ha1]. cbn [take_frames]. rewrite E.
    destruct (IH _ Ha1) as [-> H]. rewrite advance_add in *. done.
Qed.

Lemma take_all_eq n k : forall a, has (n + k) a -> take_all_frames n a = (Some (run a.(fa_next) n), advance n a) /\ has k (advance n a).
Proof.
  induction n as [|n IH]; intros a Ha.
  - split; [|by destruct a; unfold advance; cbn; rewrite Z.add_0_r]. cbn. f_equal. destruct a. unfold advance. cbn. f_equal. lia.
  - destruct (allocate_frame_eq a (n + k) Ha) as [E Ha1]. cbn [take_all_frames]. rewrite E.
    rewrite (proj2 (Z.eqb_neq _ _)) by (destruct Ha as [[? ? ? ?] ?]; lia).
    destruct (IH _ Ha1) as [-> H]. rewrite advance_add in *. done.
Qed.

Lemma stack_run f n : forall p, stack_from f p (run (f + p * 4096) n) = true.
Proof.
  induction n as [|n IH]; intros p; [done|]. cbn [run stack_from]. rewrite Z.eqb_refl. cbn.
  replace (f + p * 4096 + 4096) with (f + (p + 1) * 4096) by lia. apply IH.
Qed.

(** The slot at frame [f] with [n] code pages: five tables, the stack, the code and
    the heap, one after the other. *)
Definition slot_at_frame (f n : Z) : userspace_memory :=
  UserSpace f (f + 8192) (f + 16384) n (run (f + 133 * 4096) (Z.to_nat n)) (run (f + (133 + n) * 4096) 5) (run (f + 5 * 4096) 128).
Definition SLOT_FRAMES (n : Z) : nat := 138 + Z.to_nat n.

(** The framebuffer's gigabyte, shared with the kernel. *)
Definition display_ok (display : option Z) (kernel_pdpt f : Z) (pg : phys) : Prop :=
  match display with
  | None => True
  | Some physical => Z.land (Z.shiftr physical 30) 511 <> 0 /\ is_page pg kernel_pdpt /\ kernel_pdpt ∉ run f 5
  end.

Lemma five_tables f : run f 5 = [f; f + 4096; f + 8192; f + 12288; f + 16384].
Proof. cbn. by rewrite <- !Z.add_assoc. Qed.

Lemma display_copy display kernel_pdpt f pg :
  is_page pg (f + 4096) -> identity_tables (fun _ => 0) pg f (f + 4096) (f + 8192) (f + 12288) (f + 16384) ->
  display_ok display kernel_pdpt f pg ->
  exists pg' high, share_display display kernel_pdpt (f + 4096) pg = Some pg' /\ touches [f + 4096] pg pg' /\
    identity_tables high pg' f (f + 4096) (f + 8192) (f + 12288) (f + 16384).
Proof.
  intros Hp Hit Hd. unfold share_display. destruct display as [physical|]; [|exists pg, (fun _ => 0); split; [done|]; split; [apply touches_refl|done]].
  destruct Hd as (Hix & Hk & Hnk). cbv zeta. set (ix := Z.land _ 511) in *.
  assert (Hb : 0 <= ix < 512) by (unfold ix; change 511 with (Z.ones 9); rewrite Z.land_ones by lia; apply Z.mod_pos_bound; lia).
  destruct (word_total pg kernel_pdpt ix Hk Hb) as [e ->]. cbn [mbind option_bind].
  destruct (set_entry_ok (f + 4096) ix e pg Hp Hb) as (pg' & -> & F). exists pg', (fun i => if i =? ix then e else 0).
  split; [done|]. split; [apply F|]. destruct Hit as [I1 I2 I3 I4 I5].
  split; intros i Hi; try (rewrite (filled_other _ _ _ _ _ _ _ _ F) by lia; auto).
  destruct (Z.eqb_spec i ix) as [->|Hne].
  - rewrite (fl_in _ _ _ _ _ _ F) by lia. by rewrite (proj2 (Z.eqb_neq _ _)) by lia.
  - rewrite (fl_out _ _ _ _ _ _ F) by lia. auto.
Qed.

Lemma allocate_process_memory_ok display kernel_pdpt n k a pg :
  1 <= n <= 48 -> has (SLOT_FRAMES n + k) a -> Forall (is_page pg) (run a.(fa_next) 5) ->
  display_ok display kernel_pdpt a.(fa_next) pg ->
  let f := a.(fa_next) in
  exists pg' high, allocate_process_memory display kernel_pdpt n a pg =
      Some (Some (slot_at_frame f n), advance (SLOT_FRAMES n) a, pg') /\ has k (advance (SLOT_FRAMES n) a) /\
    touches (run f 5) pg pg' /\ identity_tables high pg' f (f + 4096) (f + 8192) (f + 12288) (f + 16384).
Proof.
  intros Hn Hh Hpg Hd f. unfold allocate_process_memory.
  rewrite (proj2 (Z.eqb_neq n 0)), (proj2 (Z.ltb_ge USERSPACE_CODE_PAGES n)) by (unfold USERSPACE_CODE_PAGES; lia). cbn [orb].
  unfold SLOT_FRAMES in Hh. replace (138 + Z.to_nat n + k)%nat with (S (S (S (S (S (128 + (Z.to_nat n + (5 + k)))))))) in Hh by lia.
  pose proof (ao_next _ (proj1 Hh)) as Hf0. fold f in Hf0.
  destruct (allocate_frame_eq _ _ Hh) as [-> H1]. destruct (allocate_frame_eq _ _ H1) as [-> H2].
  destruct (allocate_frame_eq _ _ H2) as [-> H3]. destruct (allocate_frame_eq _ _ H3) as [-> H4].
  destruct (allocate_frame_eq _ _ H4) as [-> H5]. destruct (take_frames_eq 128 _ _ H5) as [E H6].
  change (Z.to_nat USERSPACE_STACK_PAGES) with 128%nat. rewrite E. clear E H1 H2 H3 H4 H5.
  cbn [fa_next advance]. fold f. change (4096 * Z.of_nat 1) with 4096. rewrite <- !Z.add_assoc.
  change (4096 + (4096 + (4096 + (4096 + 4096)))) with (5 * 4096). change (4096 + (4096 + (4096 + 4096))) with 16384.
  change (4096 + (4096 + 4096)) with 12288. change (4096 + 4096) with 8192.
  rewrite !(proj2 (Z.eqb_neq _ 0)) by lia. cbn [orb].
  assert (Hst : stack_ok (run (f + 5 * 4096) 128) = true).
  { change 128%nat with (S 127). cbn [run stack_ok]. rewrite (proj2 (Z.eqb_neq _ 0)) by lia.
    pose proof (stack_run (f + 5 * 4096) 127 1) as Hs. rewrite Z.mul_1_l in Hs. exact Hs. }
  rewrite Hst. cbn [negb]. fold f in Hpg, Hd. rewrite five_tables in Hpg.
  assert (Hnd : NoDup [f; f + 4096; f + 8192; f + 12288; f + 16384]) by (rewrite <- five_tables; apply run_nodup).
  destruct (build_identity_ok _ _ _ _ _ pg Hnd Hpg) as (pg1 & -> & T1 & Hit). cbn [mbind option_bind].
  assert (Hin : f + 4096 ∈ [f; f + 4096; f + 8192; f + 12288; f + 16384]) by (rewrite !elem_of_cons; auto).
  assert (Hd1 : display_ok display kernel_pdpt f pg1).
  { destruct display; [|done]. destruct Hd as (? & ? & ?). split; [done|]. split; [by eapply touches_page|done]. }
  destruct (display_copy display kernel_pdpt f pg1) as (pg2 & high & -> & T2 & Hit2); [|done..|].
  { eapply touches_page; [done|]. rewrite list.Forall_forall in Hpg. by apply Hpg. }
  cbn [mbind option_bind]. destruct (take_all_eq (Z.to_nat n) _ _ H6) as [-> H7].
  destruct (take_all_eq 5 _ _ H7) as [E8 H8]. change (Z.to_nat USERSPACE_HEAP_PAGES) with 5%nat. rewrite E8.
  rewrite !advance_add in H8 |- *. exists pg2, high. split; [|split; [|split]].
  - unfold slot_at_frame, SLOT_FRAMES. cbn [fa_next advance]. fold f.
    replace (f + 4096 * Z.of_nat (1 + (1 + (1 + (1 + (1 + 128)))))) with (f + 133 * 4096) by lia.
    replace (f + 4096 * Z.of_nat (1 + (1 + (1 + (1 + (1 + 128)))) + Z.to_nat n)) with (f + (133 + n) * 4096) by lia.
    by replace (1 + (1 + (1 + (1 + (1 + 128)))) + Z.to_nat n + 5)%nat with (138 + Z.to_nat n)%nat by lia.
  - unfold SLOT_FRAMES. by replace (138 + Z.to_nat n)%nat with (1 + (1 + (1 + (1 + (1 + (128 + (Z.to_nat n + 5)))))))%nat by lia.
  - rewrite five_tables. eapply touches_trans; [done|]. eapply touches_mono; [done|]. by intros x ->%list_elem_of_singleton.
  - done.
Qed.
