(* ===== verification/MemoryInvariant.v ===== *)
(** The invariant of physical memory over all processes, and that every memory
    operation keeps it: a frame of the pool's range is available or owned by one
    process in one role, and none is lost. *)

From stdpp Require Import gmap.
From S2P Require Import Prelude Surface UserMemory UserMemorySpec PhysicalMemory FramePool FrameOwnership AddressSpace AnonymousSpec FrameInvariant SurfaceMapSpec.

Definition directories (m : user_memory) : list Z := page_directory <$> drop 1 m.(process_memory).
Definition all_owned (g : list own) : list Z := concat (own_frames <$> g).

Record frames_inv (total : list Z) (m : user_memory) (L : list Z) (g : list own) : Prop := {
  fi_arrays : memory_arrays m;
  fi_owners : length g = 8%nat;
  fi_kernel : g !! 0%nat = Some no_frames;
  fi_pool : pool m L;
  fi_owned : forall pid o, 1 <= pid -> g.[pid] = Some o ->
    exists d, directory_of pid m = Some d /\ owned m pid d o;
  fi_distinct : NoDup ((L ++ all_owned g) ++ directories m);
  fi_frames : Forall (frame_ok m.(pages)) (L ++ all_owned g);
  fi_dirs : Forall (is_page m.(pages)) (directories m);
  fi_total : L ++ all_owned g ≡ₚ total;
  fi_spaces : spaces total m
}.

(** ** One process in focus *)

Lemma all_owned_put g (i : nat) o : g !! i = Some o ->
  exists R, all_owned g ≡ₚ own_frames o ++ R /\ (forall o', all_owned (<[i := o']> g) ≡ₚ own_frames o' ++ R) /\
    forall j o2, j <> i -> g !! j = Some o2 -> forall x, x ∈ own_frames o2 -> x ∈ R.
Proof.
  intros Hi. pose proof (lookup_lt_Some _ _ _ Hi) as Hl.
  exists (all_owned (take i g) ++ all_owned (drop (S i) g)). unfold all_owned. split_and!.
  - rewrite <- (take_drop_middle g i o Hi) at 1. rewrite fmap_app, concat_app. cbn. solve_Permutation.
  - intros o'. rewrite insert_take_drop by done. rewrite fmap_app, concat_app. cbn. solve_Permutation.
  - intros j o2 Hne Hj x Hx. rewrite <- concat_app, <- fmap_app. apply list_elem_of_In, in_concat.
    exists (own_frames o2). rewrite <- !list_elem_of_In. split; [|done]. apply list_elem_of_fmap. exists o2. split; [done|].
    apply elem_of_app. destruct (decide (j < i)%nat) as [Hlt|Hge].
    + left. apply list_elem_of_lookup. exists j. by rewrite lookup_take_lt.
    + right. apply list_elem_of_lookup. exists (j - S i)%nat. rewrite lookup_drop. rewrite <- Hj. f_equal. lia.
Qed.

Lemma directory_in m pid d : 1 <= pid -> directory_of pid m = Some d -> d ∈ directories m.
Proof.
  intros Hp. unfold directory_of. destruct m.(process_memory).[pid] as [p|] eqn:E; [|done]. cbn [mbind option_bind].
  intros [= <-]. apply aget_Some in E as [_ E]. apply list_elem_of_fmap. exists p. split; [done|].
  apply list_elem_of_lookup. exists (Z.to_nat pid - 1)%nat. rewrite lookup_drop. rewrite <- E. f_equal. lia.
Qed.

Lemma directories_inj m p q d :
  NoDup (directories m) -> 1 <= p -> 1 <= q -> directory_of p m = Some d -> directory_of q m = Some d -> p = q.
Proof.
  intros Hn Hp Hq. unfold directory_of.
  destruct m.(process_memory).[p] as [x|] eqn:Ep; [|done]. destruct m.(process_memory).[q] as [y|] eqn:Eq; [|done].
  cbn [mbind option_bind]. intros [= <-] [= Hxy]. apply aget_Some in Ep as [_ Ep], Eq as [_ Eq].
  assert (Z.to_nat p - 1 = Z.to_nat q - 1)%nat; [|lia]. eapply NoDup_lookup; [exact Hn| |].
  - unfold directories. rewrite list_lookup_fmap, lookup_drop. replace (1 + (Z.to_nat p - 1))%nat with (Z.to_nat p) by lia.
    by rewrite Ep.
  - unfold directories. rewrite list_lookup_fmap, lookup_drop. replace (1 + (Z.to_nat q - 1))%nat with (Z.to_nat q) by lia.
    rewrite Eq. cbn. by rewrite Hxy.
Qed.

(** What a process owns depends on its cells and pages only. *)
Lemma owned_other m m' pid q d o X :
  others_same pid m m' -> q <> pid -> touches X m.(pages) m'.(pages) -> d ∉ X -> (forall x, x ∈ own_frames o -> x ∉ X) ->
  owned m q d o -> owned m' q d o.
Proof.
  intros [] Hq Ht Hd Hx [H1 (r & H2 & H3) H4 [L1 L2 (fs & L3 & L4 & L5) L6 L7] [S1 S2 S3] (ids & M1 & M2)].
  assert (Hsub : forall x, (x ∈ o.(o_tables) \/ x ∈ o.(o_large) \/ x ∈ held o.(o_surface)) -> x ∉ X).
  { intros x Hin. apply Hx. unfold own_frames. rewrite !elem_of_app. unfold held in Hin. tauto. }
  split.
  - by rewrite os_count.
  - exists r. by rewrite os_reserved.
  - eapply anon_touches; [done..| |done]. intros t Ht'. apply Hsub. by left.
  - split.
    + by rewrite os_ltable.
    + by rewrite os_lcount.
    + exists fs. by rewrite os_lframes.
    + destruct o.(o_large); [done|]. by rewrite (touches_word _ _ _ _ _ Ht).
    + intros t i f Hh Hf. rewrite (touches_word _ _ _ _ _ Ht); [by eapply L7|]. apply Hsub. right. left.
      destruct o.(o_large); [done|]. injection Hh as ->. by left.
  - split; [by rewrite os_surface|done|]. intros i t Hi H0. rewrite (touches_word _ _ _ _ _ Ht) by done. by apply S3.
  - exists ids. by rewrite os_mapped.
Qed.

(** Local facts about the process in focus. *)
Record focus (total : list Z) (m : user_memory) (L : list Z) (g : list own) (pid d : Z) (o : own) (R : list Z) : Prop := {
  fc_dir : directory_of pid m = Some d;
  fc_owned : owned m pid d o;
  fc_apart : apart m.(pages) d (L ++ own_frames o);
  fc_rest : all_owned g ≡ₚ own_frames o ++ R;
  fc_put : forall o', all_owned (<[Z.to_nat pid := o']> g) ≡ₚ own_frames o' ++ R;
  fc_others : forall j o2, j <> Z.to_nat pid -> g !! j = Some o2 -> forall x, x ∈ own_frames o2 -> x ∈ R
}.

Lemma frames_focus total m L g pid :
  frames_inv total m L g -> 1 <= pid < 8 -> exists d o R, g.[pid] = Some o /\ focus total m L g pid d o R.
Proof.
  intros Hi Hpid. destruct (aget_in g pid) as [o Ho]; [rewrite (fi_owners _ _ _ _ Hi); lia|].
  destruct (fi_owned _ _ _ _ Hi pid o ltac:(lia) Ho) as (d & Hd & Hown). pose proof Ho as Ho'.
  apply aget_Some in Ho' as [_ Ho']. destruct (all_owned_put g (Z.to_nat pid) o Ho') as (R & H1 & H2 & H3).
  exists d, o, R. split; [done|]. split; try done.
  pose proof (fi_distinct _ _ _ _ Hi) as Hn. pose proof (fi_frames _ _ _ _ Hi) as Hf. rewrite H1 in Hn, Hf.
  rewrite app_assoc in Hf. apply Forall_app in Hf as [Hf _].
  apply list.NoDup_app in Hn as (Hn & Hd1 & _). rewrite app_assoc in Hn, Hd1.
  apply list.NoDup_app in Hn as (Hn & _ & _). split_and!; [|done|].
  - apply list.NoDup_cons. split; [|done]. intros Hin. apply (Hd1 d).
    + apply elem_of_app. by left.
    + apply (directory_in _ pid); [lia|done].
  - pose proof (fi_dirs _ _ _ _ Hi) as Hds. rewrite list.Forall_forall in Hds. apply Hds.
    apply (directory_in _ pid); [lia|done].
Qed.

(** An operation on one process that exchanges frames with the pool keeps the
    invariant. *)
Lemma frames_update total m L g pid d o R m' L' o' :
  frames_inv total m L g -> 1 <= pid < 8 -> g.[pid] = Some o -> focus total m L g pid d o R ->
  others_same pid m m' -> memory_arrays m' -> touches (d :: L ++ own_frames o) m.(pages) m'.(pages) ->
  pool m' L' -> owned m' pid d o' -> L' ++ own_frames o' ≡ₚ L ++ own_frames o ->
  (forall i, i < 128 -> word m'.(pages) d i = word m.(pages) d i) ->
  frames_inv total m' L' (<[Z.to_nat pid := o']> g).
Proof.
  intros [H1 H2 H3 H4 H5 H6 H7 H8 H9 H10] Hpid Ho [F1 F2 F3 F4 F5 F6] Hos Hma Ht Hp Hown Hpm Hlow.
  assert (Hall : L' ++ all_owned (<[Z.to_nat pid := o']> g) ≡ₚ L ++ all_owned g).
  { rewrite F5, F4, !app_assoc, Hpm. done. }
  assert (Hdirs : directories m' = directories m) by (unfold directories; by rewrite (os_process _ _ _ Hos)).
  assert (Hdir : forall q, directory_of q m' = directory_of q m).
  { intros q. unfold directory_of. by rewrite (os_process _ _ _ Hos). }
  assert (Hd : d ∈ directories m) by (apply (directory_in _ pid); [lia|done]).
  assert (Hno : forall x, x ∈ R -> x ∉ d :: L ++ own_frames o).
  { intros x Hx. rewrite F4 in H6. pose proof H6 as H6'. apply list.NoDup_app in H6 as (Hn & Hdis & _).
    rewrite app_assoc in Hn, Hdis. apply list.NoDup_app in Hn as (_ & Hdis2 & _).
    intros [->|Hin]%elem_of_cons; [|by apply (Hdis2 x)].
    apply (Hdis d); [apply elem_of_app; by right|done]. }
  split; try done.
  - by rewrite length_insert.
  - rewrite list_lookup_insert_ne by lia. done.
  - intros q o2 Hq Hget. rewrite aget_insert in Hget by (by eapply aget_bound). rewrite Hdir.
    case_decide as E; [subst q; injection Hget as <-; by exists d|].
    destruct (H5 q o2 Hq Hget) as (d2 & Hd2 & Hown2). exists d2. split; [done|].
    eapply owned_other; [done|by intros ->|exact Ht| | |exact Hown2].
    + intros [->|Hin]%elem_of_cons.
      * apply E. apply (directories_inj m q pid d); [|exact Hq|lia|exact Hd2|exact F1]. by apply list.NoDup_app in H6 as (_ & _ & ?).
      * apply list.NoDup_app in H6 as (_ & Hdis & _). apply (Hdis d2).
        -- rewrite F4, app_assoc. apply elem_of_app. by left.
        -- by apply (directory_in _ q).
    + intros x Hx. apply Hno. apply aget_Some in Hget as [_ Hget]. by apply (F6 (Z.to_nat q) o2 ltac:(lia) Hget).
  - by rewrite Hall, Hdirs.
  - rewrite Hall. by eapply frames_ok_touches.
  - rewrite Hdirs. revert H8. apply Forall_impl. intros x. by apply (touches_page _ _ _ _ Ht).
  - by rewrite Hall.
  - eapply spaces_touches; [exact H10|apply Hos|by rewrite (os_used _ _ _ Hos)|exact Ht| |exact Hd|exact Hlow].
    intros x Hx. rewrite <- H9, F4. revert Hx. rewrite !elem_of_app. tauto.
Qed.

(** ** The anonymous calls *)

Lemma focus_region total m L g pid d o R :
  frames_inv total m L g -> focus total m L g pid d o R ->
  exists r, region m pid d r L o.(o_tables) o.(o_frames) /\ reservation_ok r o.(o_frames).
Proof.
  intros Hi [F1 F2 F3 F4 F5 F6]. destruct F2 as [H1 (r & H2 & H3) H4 H5 H6 H7]. exists r. split; [|done].
  split; try done; [apply Hi|]. unfold own_frames in F3. rewrite !app_assoc in F3. do 2 apply apart_app in F3 as (F3 & _ & _).
  by rewrite app_assoc.
Qed.

Lemma anon_step_arrays pid c r m m' : memory_arrays m -> anon_step pid c r m m' -> memory_arrays m'.
Proof. intros [] (free & next & pg & ->). by split; cbn; rewrite ?length_insert. Qed.

Lemma exchange_inv total m L g pid d o R r m' r' L' T' F' :
  frames_inv total m L g -> 1 <= pid < 8 -> g.[pid] = Some o -> focus total m L g pid d o R ->
  exchange pid d r L o.(o_tables) o.(o_frames) m m' r' L' T' F' ->
  frames_inv total m' L' (<[Z.to_nat pid := Own T' F' o.(o_large) o.(o_surface)]> g).
Proof.
  intros Hi Hpid Ho Hf [E1 E2 E3 [V1 V2 V3]]. pose proof Hf as [F1 F2 F3 F4 F5 F6].
  pose proof (anon_step_others pid _ _ _ _ ltac:(lia) V1) as Hos.
  assert (Hout : forall x, x ∈ o.(o_large) ++ held o.(o_surface) -> x ∉ d :: L ++ o.(o_tables) ++ o.(o_frames).*1).
  { intros x Hx. unfold own_frames in F3. fold (held o.(o_surface)) in F3.
    replace (L ++ o.(o_tables) ++ o.(o_frames).*1 ++ o.(o_large) ++ held o.(o_surface))
      with ((L ++ o.(o_tables) ++ o.(o_frames).*1) ++ o.(o_large) ++ held o.(o_surface)) in F3 by by rewrite !app_assoc.
    destruct (apart_app _ _ _ _ F3) as (_ & F3' & Hdis). destruct (apart_dir _ _ _ x F3' Hx) as [Hxd _].
    intros [->|Hin]%elem_of_cons; [done|]. by apply (Hdis x). }
  destruct F2 as [H1 H2 H4 [L1 L2 (fs & L3 & L4 & L5) L6 L7] [S1 S2 S3] (ids & M1 & M2)].
  eapply frames_update; [done..| | | | | |].
  - eapply anon_step_arrays; [apply Hi|done].
  - eapply touches_mono; [exact V2|]. intros x. unfold own_frames. rewrite !elem_of_cons, !elem_of_app. tauto.
  - apply E1.
  - destruct E1 as [R1 R2 R3 R4 R5 R6]. destruct V1 as (free & next & pg & ->). split.
    + exact R2.
    + by exists r'.
    + exact R5.
    + split; [exact L1|exact L2|by exists fs| |].
      * cbn [o_large]. destruct o.(o_large); [done|]. rewrite V3 by by right. done.
      * intros t i f Hh Hfr. rewrite (touches_word _ _ _ _ _ V2); [by eapply L7|]. apply Hout. apply elem_of_app. left.
        cbn [o_large] in Hh. destruct o.(o_large); [done|]. injection Hh as ->. by left.
    + split; [exact S1|exact S2|]. intros i t Hi' H0. rewrite V3; [by apply S3|]. right.
      apply aget_bound in Hi'. cbn in Hi'. unfold SURFACE_INDEX. lia.
    + by exists ids.
  - unfold own_frames. cbn. rewrite !app_assoc. rewrite <- (app_assoc _ T'), E3. by rewrite !app_assoc.
  - intros i Hi'. apply V3. by left.
Qed.

(** ** The large executable *)

Lemma large_step_arrays pid t n fs m m' : memory_arrays m -> large_step pid t n fs m m' -> memory_arrays m'.
Proof. intros [] (free & next & pg & ->). by split; cbn; rewrite ?length_insert. Qed.

Lemma focus_split total m L g pid d o R :
  focus total m L g pid d o R ->
  (forall x, x ∈ o.(o_tables) ++ o.(o_frames).*1 ++ held o.(o_surface) -> x ∉ d :: L ++ o.(o_large)) /\
  (forall x, x ∈ o.(o_tables) ++ o.(o_frames).*1 ++ o.(o_large) -> x ∉ d :: L ++ held o.(o_surface)) /\
  apart m.(pages) d (L ++ o.(o_large)) /\ apart m.(pages) d (L ++ held o.(o_surface)).
Proof.
  intros [_ _ Ha _ _ _]. unfold own_frames in Ha. fold (held o.(o_surface)) in Ha.
  assert (H : forall X Y, X ++ Y ≡ₚ L ++ o.(o_tables) ++ o.(o_frames).*1 ++ o.(o_large) ++ held o.(o_surface) ->
    apart m.(pages) d X /\ forall x, x ∈ Y -> x ∉ d :: X).
  { intros X Y Hp. destruct (apart_app _ _ _ _ (apart_perm _ _ _ _ Hp Ha)) as (H1 & H2 & H3). split; [done|].
    intros x Hx [->|Hin]%elem_of_cons; [|by apply (H3 x)]. by destruct (apart_dir _ _ _ d H2 Hx). }
  destruct (H (L ++ o.(o_large)) (o.(o_tables) ++ o.(o_frames).*1 ++ held o.(o_surface))) as [? ?]; [solve_Permutation|].
  destruct (H (L ++ held o.(o_surface)) (o.(o_tables) ++ o.(o_frames).*1 ++ o.(o_large))) as [? ?]; [solve_Permutation|].
  done.
Qed.

(** An operation that exchanges the frames of the large executable with the pool. *)
Lemma large_exchange_inv total m L g pid d o R m' L' l t n fs :
  frames_inv total m L g -> 1 <= pid < 8 -> g.[pid] = Some o -> focus total m L g pid d o R ->
  large_step pid t n fs m m' -> large_of m' pid d l -> pool m' L' -> L' ++ l ≡ₚ L ++ o.(o_large) ->
  touches (d :: L ++ o.(o_large)) m.(pages) m'.(pages) -> (forall i, i <> LARGE_INDEX -> word m'.(pages) d i = word m.(pages) d i) ->
  frames_inv total m' L' (<[Z.to_nat pid := Own o.(o_tables) o.(o_frames) l o.(o_surface)]> g).
Proof.
  intros Hi Hpid Ho Hf Hst Hlo Hp Hpm Ht Hdir. pose proof Hf as [F1 F2 F3 F4 F5 F6].
  destruct (focus_split _ _ _ _ _ _ _ _ Hf) as (Hout & _ & Hap & _).
  destruct F2 as [H1 (r & H2 & H3) H4 H5 [S1 S2 S3] (ids & M1 & M2)].
  pose proof (large_step_arrays _ _ _ _ _ _ (fi_arrays _ _ _ _ Hi) Hst) as Hma.
  pose proof (large_step_others pid _ _ _ _ _ ltac:(lia) Hst) as Hos.
  eapply frames_update; [done..| | | | |].
  - eapply touches_mono; [exact Ht|]. intros x. unfold own_frames. rewrite !elem_of_cons, !elem_of_app. tauto.
  - done.
  - destruct Hst as (free & next & pg & ->). split.
    + exact H1.
    + by exists r.
    + destruct H4 as [[[A1 A2 A3] A4 A5 A6] A7]. split; [|done].
      assert (Htab : forall t i, t ∈ o.(o_tables) -> word pg t i = word m.(pages) t i).
      { intros t' i Hin. apply (touches_word _ _ _ _ _ Ht). intros Hx. apply (Hout t'); [apply elem_of_app; by left|done]. }
      assert (Hin : forall i t, o.(o_tables).[i] = Some t -> t ∈ o.(o_tables)).
      { intros i t' [_ Hit]%aget_Some. by apply list_elem_of_lookup_2 in Hit. }
      split; [split|done|done|].
      * intros i t' Hi' Hti. rewrite Hdir; [by apply A1|]. apply aget_bound in Hti. cbn in Hti. unfold ANON_INDEX, LARGE_INDEX. zlia.
      * intros p f fl Hp' Hfr. destruct (A2 p f fl Hp' Hfr) as (t' & ? & ? & ?). exists t'. cbn. rewrite Htab by eauto. done.
      * intros i Hi' Hk. rewrite Hdir by (unfold ANON_INDEX, LARGE_INDEX; lia). auto.
      * intros i t' j Hti Hj Hge. cbn. rewrite Htab by eauto. eauto.
    + exact Hlo.
    + split; [exact S1|exact S2|]. intros i t' Hi' H0. rewrite Hdir; [by apply S3|].
      apply aget_bound in Hi'. cbn in Hi'. unfold SURFACE_INDEX, LARGE_INDEX. lia.
    + by exists ids.
  - assert (Hcomm : forall M X Y K V : list Z, M ++ X ++ Y ++ K ++ V ≡ₚ (M ++ K) ++ X ++ Y ++ V) by (intros; solve_Permutation).
    unfold own_frames. cbn [o_tables o_frames o_large o_surface]. rewrite !Hcomm, Hpm. done.
  - intros i Hi'. apply Hdir. unfold LARGE_INDEX. lia.
Qed.

Lemma large_release_inv total m L g pid d o R :
  frames_inv total m L g -> 1 <= pid < 8 -> g.[pid] = Some o -> focus total m L g pid d o R ->
  exists m' L', large_code_release pid m = Some m' /\ L' ≡ₚ L ++ o.(o_large) /\
    others_same pid m m' /\ m'.(mapped_surface) = m.(mapped_surface) /\
    frames_inv total m' L' (<[Z.to_nat pid := Own o.(o_tables) o.(o_frames) [] o.(o_surface)]> g).
Proof.
  intros Hi Hpid Ho Hf. pose proof Hf as [F1 F2 F3 F4 F5 F6]. destruct (focus_split _ _ _ _ _ _ _ _ Hf) as (_ & _ & Hap & _).
  destruct (large_code_release_ok m pid d L o.(o_large) Hpid F1 (fi_pool _ _ _ _ Hi) (owned_large _ _ _ _ F2) Hap)
    as (m' & L' & fs & -> & Hp & Hpm & [C1 C2 C3 C4] & Hst & Ht & Hdir).
  exists m', L'. split; [done|]. split; [done|]. split; [by apply (large_step_others pid _ _ _ _ _ ltac:(lia) Hst)|].
  split; [by destruct Hst as (f & n & pg & ->)|]. eapply large_exchange_inv; [done..| |done|by rewrite app_nil_r| |done].
  - split; [exact C1|exact C2|by exists fs|done|done].
  - eapply touches_mono; [exact Ht|]. intros x. rewrite !elem_of_cons, elem_of_app. tauto.
Qed.

(** ** Surface mappings *)

Lemma surface_step_arrays pid ts ids m m' : memory_arrays m -> surface_step pid ts ids m m' -> memory_arrays m'.
Proof. intros [] (free & next & pg & ->). by split; cbn; rewrite ?length_insert. Qed.

Lemma owned_surface_cells m pid d o : owned m pid d o ->
  exists ids, surface_cells m pid o.(o_surface) ids.
Proof. intros [_ _ _ _ [S1 S2 _] (ids & M1 & M2)]. by exists ids. Qed.

Lemma edited_inv total m L g pid d o R slot ids m' L' ts' :
  frames_inv total m L g -> 1 <= pid < 8 -> 0 <= slot < 4 -> g.[pid] = Some o -> focus total m L g pid d o R ->
  slot_edit pid d slot L o.(o_surface) ids m m' L' ts' ->
  frames_inv total m' L' (<[Z.to_nat pid := Own o.(o_tables) o.(o_frames) o.(o_large) ts']> g).
Proof.
  intros Hi Hpid Hs Ho Hf [E1 E2 E3 E4 E5 E6 E7 E8 E9]. pose proof Hf as [F1 F2 F3 F4 F5 F6].
  destruct (focus_split _ _ _ _ _ _ _ _ Hf) as (_ & Hout & _ & Hap).
  destruct F2 as [H1 (r & H2 & H3) H4 [L1 L2 (fs & L3 & L4 & L5) L6 L7] _ _].
  pose proof (surface_step_others pid _ _ _ _ ltac:(lia) E2) as Hos.
  pose proof (surface_step_arrays _ _ _ _ _ (fi_arrays _ _ _ _ Hi) E2) as Hma.
  assert (Hw : forall x i, x ∈ o.(o_tables) ++ o.(o_frames).*1 ++ o.(o_large) -> word m'.(pages) x i = word m.(pages) x i).
  { intros x i Hx. apply (touches_word _ _ _ _ _ E5). by apply Hout. }
  eapply frames_update; [done..| | | | |].
  - eapply touches_mono; [exact E5|]. intros x. unfold own_frames, held. rewrite !elem_of_cons, !elem_of_app. tauto.
  - done.
  - destruct E2 as (free & next & pg & ->). split.
    + exact H1.
    + by exists r.
    + destruct H4 as [[[A1 A2 A3] A4 A5 A6] A7]. split; [|done].
      assert (Hin : forall i t j, o.(o_tables).[i] = Some t -> word pg t j = word m.(pages) t j).
      { intros i t j [_ Hit]%aget_Some. apply Hw. apply list_elem_of_lookup_2 in Hit. apply elem_of_app. by left. }
      split; [split|done|done|].
      * intros i t Hi' Hti. rewrite E7; [by apply A1|]. apply aget_bound in Hti. cbn in Hti.
        unfold ANON_INDEX, SURFACE_INDEX. zlia.
      * intros p f fl Hp' Hfr. destruct (A2 p f fl Hp' Hfr) as (t & ? & ? & ?). exists t. cbn. by erewrite Hin.
      * intros i Hi' Hk. rewrite E7 by (unfold ANON_INDEX, SURFACE_INDEX; lia). auto.
      * intros i t j Hti Hj Hge. cbn. erewrite Hin by done. eauto.
    + split; [exact L1|exact L2|by exists fs| |].
      * cbn [o_large]. destruct o.(o_large); [done|]. rewrite E7; [done|]. unfold LARGE_INDEX, SURFACE_INDEX. lia.
      * intros t i f Hh Hfr. rewrite Hw; [by eapply L7|]. cbn [o_large] in Hh. rewrite !elem_of_app. right. right.
        destruct o.(o_large); [done|]. injection Hh as ->. by left.
    + exact E8.
    + destruct E1 as [_ _ M1 M2]. by exists ids.
  - unfold own_frames. cbn. fold (held ts') (held o.(o_surface)).
    rewrite (Permutation_app_comm L'), <- !app_assoc. rewrite (Permutation_app_comm (held ts')), E4. solve_Permutation.
  - intros i Hi'. apply E7. unfold SURFACE_INDEX. lia.
Qed.

(** Recording a mapping changes nothing else. *)
Lemma mapped_inv total m L g pid ts ids m' :
  frames_inv total m L g -> 1 <= pid < 8 -> (forall o, g.[pid] = Some o -> o.(o_surface) = ts) ->
  surface_step pid ts ids m m' -> length ids = 4%nat -> m'.(pages) = m.(pages) -> (forall L, pool m L -> pool m' L) ->
  frames_inv total m' L g.
Proof.
  intros Hi Hpid Hts Hst Hl Hpg Hpool. destruct (frames_focus _ _ _ _ pid Hi Hpid) as (d & o & R & Ho & Hf).
  pose proof (Hts o Ho) as <-. pose proof Hf as [F1 F2 F3 F4 F5 F6].
  assert (Hg : <[Z.to_nat pid := o]> g = g) by (apply list_insert_id; by apply aget_Some in Ho as [_ Ho]).
  rewrite <- Hg. destruct F2 as [H1 (r & H2 & H3) H4 [L1 L2 L3 L6 L7] [S1 S2 S3] (ids0 & M1 & M2)].
  eapply frames_update; [done..| | | | | | |].
  - apply (surface_step_others pid _ _ _ _ ltac:(lia) Hst).
  - eapply surface_step_arrays; [apply Hi|exact Hst].
  - rewrite Hpg. apply touches_refl.
  - apply Hpool, Hi.
  - destruct Hst as (free & next & pg & ->). cbn in Hpg. subst pg. split.
    + exact H1.
    + by exists r.
    + exact H4.
    + by split.
    + split; [|done|done]. cbn. rewrite aget_insert by (by eapply aget_bound). by rewrite decide_True.
    + exists ids. split; [|done]. cbn. rewrite aget_insert by (by eapply aget_bound). by rewrite decide_True.
  - done.
  - intros i _. by rewrite Hpg.
Qed.
