(* ===== verification/SurfaceMapping.v ===== *)
(** Surface mappings and reference counts: mapping a surface takes a reference and a
    slot, unmapping returns them, and a process's teardown returns all of its
    frames and references. *)

From stdpp Require Import gmap.
From S2P Require Import Prelude Surface SurfaceSpec Capability CapabilitySpec UserMemory UserMemorySpec.
From S2P Require Import PhysicalMemory FramePool FrameOwnership AnonymousSpec FrameInvariant SurfaceMapSpec MemoryInvariant.

(** The references that mappings hold on surface [id]. *)
Definition pins_of (m : user_memory) (id : Z) : Z := total (count (fun x => x = id)) m.(mapped_surface).

Lemma pins_of_nonneg m id : 0 <= pins_of m id.
Proof.
  unfold pins_of, total. induction m.(mapped_surface) as [|l ls IH]; cbn [map foldr]; [lia|].
  pose proof (count_range (fun x => x = id) l). lia.
Qed.

(** Physical memory, the capability tables and the surfaces agree. *)
Record mem_ok (frames a : list Z) (c : caps) (s : surfaces) (m : user_memory) (L : list Z) (g : list own) : Prop := {
  mo_frames : frames_inv frames m L g;
  mo_linked : linked (pins_of m) a c s;
  mo_ids : Forall (Forall (fun id => 0 <= id <= 8)) m.(mapped_surface)
}.

Lemma linked_ext pins pins' a c s :
  (forall id, 1 <= id <= 8 -> pins' id = pins id) -> linked pins a c s -> linked pins' a c s.
Proof. intros H []. split; try done. intros id o Hid Ho. rewrite H by done. auto. Qed.

Lemma linked_moved pins pins' a a' c s s' id d :
  linked pins a c s -> surf_wf a' s' -> refs_moved id d s s' ->
  (forall k, 1 <= k <= 8 -> pins' k = pins k + if decide (k = id) then d else 0) ->
  linked pins' a' c s'.
Proof.
  intros [H1 H2 H3 H4] Hw Hm Hp. split; try done. intros k o Hk Ho. rewrite Hp by done.
  destruct (Hm k o Hk Ho) as (o0 & Ho0 & ->). rewrite (H3 k o0 Hk Ho0). lia.
Qed.

(** A mapped surface is live. *)
Lemma pinned_live pins a c s id :
  linked pins a c s -> 1 <= id <= 8 -> 1 <= pins id ->
  exists o, live s (id - 1) o /\ 1 <= o.(references).
Proof.
  intros [H1 H2 H3 H4] Hid Hp. destruct (aget_in s.(objects) (id - 1)) as [o Ho]; [rewrite (surf_slots _ _ H2); lia|].
  pose proof (H3 id o Hid Ho) as Hr. pose proof (refs_bound id c H1). exists o. split; [|lia]. split; [done|].
  destruct (active o) eqn:E; [done|]. rewrite (surf_free _ _ H2 _ _ Ho E) in Hr. cbn in Hr. lia.
Qed.

Lemma release_pinned pins pins' a c s id :
  linked pins a c s -> 1 <= id <= 8 -> 1 <= pins id ->
  (forall k, 1 <= k <= 8 -> pins' k = pins k + if decide (k = id) then -1 else 0) ->
  exists s' a', surface_release id s = Some (true, s') /\ linked pins' a' c s'.
Proof.
  intros Hl Hid Hp Hp'. destruct (pinned_live _ _ _ _ _ Hl Hid Hp) as (o & Hlo & Hr).
  destruct (release_moves a s id o (linked_surf _ _ _ _ Hl) Hlo Hr) as (s' & a' & -> & Hw & Hm).
  exists s', a'. split; [done|]. by eapply linked_moved.
Qed.

Lemma pins_put m m' pid ids slot id old k :
  m.(mapped_surface).[pid] = Some ids -> ids.[slot] = Some old ->
  m'.(mapped_surface) = <[Z.to_nat pid := <[Z.to_nat slot := id]> ids]> m.(mapped_surface) ->
  pins_of m' k = pins_of m k + (if decide (id = k) then 1 else 0) - (if decide (old = k) then 1 else 0).
Proof.
  intros [_ Hi]%aget_Some [_ Ho]%aget_Some E. unfold pins_of. rewrite E.
  rewrite (total_insert _ _ _ _ ids) by done. rewrite (count_insert _ _ _ _ old) by done. lia.
Qed.

Lemma pins_step pid ts ids m m' : surface_step pid ts ids m m' -> m.(mapped_surface).[pid] = Some ids ->
  m'.(mapped_surface) = m.(mapped_surface).
Proof.
  intros (free & next & pg & ->) [_ H]%aget_Some. cbn. by rewrite list_insert_id.
Qed.

(** ** Mapping *)

Lemma find_slot_ok n slot id free slots :
  0 <= slot -> slot + Z.of_nat n <= Z.of_nat (length slots) ->
  exists found free', find_slot n slot id free slots = Some (found, free') /\
    (forall k, found = Some k -> slot <= k < slot + Z.of_nat n /\ slots.[k] = Some id) /\
    (found = None -> forall k, slot <= k < slot + Z.of_nat n -> slots.[k] <> Some id) /\
    (forall k, free' = Some k -> free = Some k \/ slot <= k < slot + Z.of_nat n /\ slots.[k] = Some 0).
Proof.
  revert slot free. induction n as [|n IH]; intros slot free Hs Hn; cbn [find_slot].
  { exists None, free. split; [done|]. split; [done|]. split; [|naive_solver]. intros _ k Hk. lia. }
  destruct (aget_in slots slot) as [x Hx]; [lia|]. rewrite Hx. cbn [mbind option_bind].
  destruct (Z.eqb_spec x id) as [->|Hne].
  { exists (Some slot), free. split; [done|]. split; [|naive_solver]. intros k [= <-]. split; [lia|done]. }
  destruct (IH (slot + 1) (match free with None => if x =? 0 then Some slot else None | _ => free end))
    as (found & free' & -> & H1 & H2 & H3); [lia|lia|].
  exists found, free'. split; [done|]. split; [|split].
  - intros k Hk. destruct (H1 k Hk). split; [lia|done].
  - intros Hf k Hk. destruct (decide (k = slot)) as [->|]; [rewrite Hx; congruence|]. apply H2; [done|lia].
  - intros k Hk. destruct (H3 k Hk) as [Hfr|[Hb Hz]]; [|right; split; [lia|done]].
    destruct free as [f|]; [by left|]. destruct (Z.eqb_spec x 0) as [->|]; [|done]. injection Hfr as <-. right.
    split; [lia|done].
Qed.

(** The first free slot is taken, unless the object is already mapped. *)
Lemma find_slot_free n slot id free slots k :
  0 <= slot -> slot + Z.of_nat n <= Z.of_nat (length slots) -> slot <= k < slot + Z.of_nat n -> slots.[k] = Some 0 ->
  find_slot n slot id free slots <> Some (None, None).
Proof.
  revert slot free. induction n as [|n IH]; intros slot free Hs Hn Hk H0; [lia|]. cbn [find_slot].
  destruct (aget_in slots slot) as [x Hx]; [lia|]. rewrite Hx. cbn [mbind option_bind]. destruct (x =? id); [done|].
  destruct (decide (k = slot)) as [->|Hne]; [|by apply IH; lia || done]. rewrite Hx in H0. injection H0 as ->. cbn [Z.eqb].
  assert (Hf : forall n s f l, find_slot n s id (Some f) l <> Some (None, None)).
  { clear. induction n as [|n IH]; intros s f l; cbn [find_slot]; [done|]. destruct (l.[s]) as [x|]; [|done]. cbn [mbind option_bind].
    by destruct (x =? id). }
  destruct free; apply Hf.
Qed.

Lemma linked_count_up pins a c s b1 b2 b3 b4 b5 b6 b7 b8 :
  linked pins a c s -> linked pins a c (count_up b1 b2 b3 b4 b5 b6 b7 b8 s).
Proof. intros []. split; try done. by apply wf_count. Qed.

Lemma mapping_data_ok pins a c s id :
  linked pins a c s -> 0 <= id ->
  exists d s', surface_mapping_data id s = Some (d, s') /\ linked pins a c s' /\ s'.(objects) = s.(objects) /\
    forall off n, d = Some (off, n) -> exists o, live s (id - 1) o /\ off = o.(offset_pixels) * 4 /\
      n = (o.(capacity_pixels) * 4 + 4095) / 4096.
Proof.
  intros Hl Hid. unfold surface_mapping_data. destruct (resolve_ok a s id (linked_surf _ _ _ _ Hl) Hid) as (r & -> & Hr).
  cbn [mbind option_bind]. destruct r as [o|].
  - destruct Hr as [Hlo _]. eexists _, _. split; [done|]. split; [by apply linked_count_up|]. split; [done|].
    intros off n [= <- <-]. by exists o.
  - by exists None, s.
Qed.

Lemma ids_row m pid ids : Forall (Forall (fun id => 0 <= id <= 8)) m.(mapped_surface) ->
  m.(mapped_surface).[pid] = Some ids -> Forall (fun id => 0 <= id <= 8) ids.
Proof. intros H Hi. by apply (aget_Forall _ _ _ _ H Hi). Qed.

(** Recording or clearing the surface of a slot. *)
Lemma put_mapping frames a c s m L g pid ts ids slot old id pins :
  frames_inv frames m L g -> Forall (Forall (fun id => 0 <= id <= 8)) m.(mapped_surface) ->
  1 <= pid < 8 -> 0 <= slot < 4 -> (forall o, g.[pid] = Some o -> o.(o_surface) = ts) ->
  surface_cells m pid ts ids -> ids.[slot] = Some old -> 0 <= id <= 8 -> linked pins a c s ->
  (forall k, 1 <= k <= 8 -> pins k = pins_of m k + (if decide (id = k) then 1 else 0) - (if decide (old = k) then 1 else 0)) ->
  exists m', set_mapped_slot pid slot id m = Some m' /\ mem_ok frames a c s m' L g /\
    surface_step pid ts (<[Z.to_nat slot := id]> ids) m m' /\ m'.(pages) = m.(pages).
Proof.
  intros Hi Hids Hpid Hs Hts Hc Hold Hid Hl Hp.
  destruct (set_mapped_slot_step m pid ts ids slot id Hc Hs) as (m' & -> & Hst & Hpg & Hpool).
  exists m'. split; [done|]. split; [|done].
  assert (Hmap : m'.(mapped_surface) = <[Z.to_nat pid := <[Z.to_nat slot := id]> ids]> m.(mapped_surface)).
  { destruct Hst as (f & n & pg & ->). done. }
  split.
  - eapply mapped_inv; [done..| |done|done]. rewrite length_insert. apply Hc.
  - eapply linked_ext; [|exact Hl]. intros k Hk. rewrite (Hp k Hk).
    by apply (pins_put m m' pid ids slot id old k (sc_ids _ _ _ _ Hc) Hold).
  - rewrite Hmap. apply Forall_insert; [done|]. apply Forall_insert; [|done]. eapply ids_row; [done|apply Hc].
Qed.

(** What mapping promises to the other parts of the kernel. *)
Record mapped_result (pid id : Z) (r : option Z) (m m' : user_memory) : Prop := {
  mr_others : others_same pid m m';
  mr_slot : forall address, r = Some address -> exists slot ids, 0 <= slot < 4 /\
    address = USER_SURFACE_MAP_SLOT_BASE slot /\ m'.(mapped_surface).[pid] = Some ids /\ ids.[slot] = Some id
}.

Lemma map_surface_ok frames a c s m L g arena pid id :
  mem_ok frames a c s m L g -> 1 <= pid < 8 -> 1 <= id ->
  exists r m' s' a' L' g', map_surface_readonly arena pid id m s = Some (r, m', s') /\
    mem_ok frames a' c s' m' L' g' /\ mapped_result pid id r m m'.
Proof.
  intros [Hi Hl Hids] Hpid Hid. unfold map_surface_readonly.
  rewrite (proj2 (bad_pid_spec pid ltac:(lia))) by lia.
  destruct (fi_arrays _ _ _ _ Hi) as [M1 M2 M3 M4].
  destruct (aget_in m.(process_memory_used) pid) as [u ->]; [lia|]. cbn [mbind option_bind].
  assert (Hno : forall s', linked (pins_of m) a c s' -> exists r m' s'' a' L' g', Some (None, m, s') = Some (r, m', s'') /\
    mem_ok frames a' c s'' m' L' g' /\ mapped_result pid id r m m').
  { intros s' Hl'. exists None, m, s', a, L, g. split; [done|]. split; [by split|]. split; [apply others_refl|done]. }
  destruct u; cbn [negb]; [|by apply Hno].
  destruct (frames_focus _ _ _ _ pid Hi Hpid) as (d & o & R & Ho & Hf). pose proof Hf as [F1 F2 F3 F4 F5 F6].
  destruct (owned_surface_cells _ _ _ _ F2) as (ids & Hc). pose proof Hc as [C1 C2 C3 C4]. rewrite C3. cbn [mbind option_bind].
  destruct (find_slot_ok 4 0 id None ids)  as (found & free & -> & S1 & S2 & S3); [lia|rewrite C4; lia|].
  cbn [mbind option_bind]. destruct found as [slot|].
  { destruct (S1 slot eq_refl) as [Hb Hs]. exists (Some (USER_SURFACE_MAP_SLOT_BASE slot)), m, s, a, L, g. split; [done|]. split; [by split|].
    split; [apply others_refl|]. intros ad [= <-]. exists slot, ids. split; [lia|]. done. }
  destruct free as [slot|]; [|by apply Hno]. destruct (S3 slot eq_refl) as [[=]|[Hb Hz]].
  destruct (mapping_data_ok _ _ _ _ id Hl ltac:(lia)) as (data & s1 & -> & Hl1 & _ & Hdata). cbn [mbind option_bind].
  destruct data as [[off n]|]; [|by apply Hno].
  destruct ((n =? 0) || (USER_SURFACE_MAP_PAGES <? n) || negb (Z.land (arena + off) 4095 =? 0)); [by apply Hno|].
  destruct (retain_moves a s1 id (linked_surf _ _ _ _ Hl1) ltac:(lia)) as (b & s2 & -> & Hw2 & Hf2 & Ht2). cbn [mbind option_bind].
  destruct b; cbn [negb]; [|rewrite (Hf2 eq_refl); by apply Hno]. destruct (Ht2 eq_refl) as (Hidb & Hmv & _). clear Hf2 Ht2.
  set (pins1 := fun k => pins_of m k + if decide (k = id) then 1 else 0).
  assert (Hl2 : linked pins1 a c s2) by (by eapply linked_moved).
  destruct (focus_split _ _ _ _ _ _ _ _ Hf) as (_ & _ & _ & Hap).
  destruct (edit_ptes_ok m pid d slot L o.(o_surface) ids (arena + off) n true Hpid ltac:(lia) F1
    (fi_pool _ _ _ _ Hi) Hc (owned_surface _ _ _ _ F2) Hap) as (ok & m1 & L1 & ts1 & -> & Hed & _).
  cbn [mbind option_bind]. assert (Hslot : 0 <= slot < 4) by lia.
  pose proof (edited_inv _ _ _ _ _ _ _ _ _ _ _ _ _ Hi Hpid Hslot Ho Hf Hed) as Hi1.
  pose proof (ed_step _ _ _ _ _ _ _ _ _ _ Hed) as Hst1.
  pose proof (pins_step _ _ _ _ _ Hst1 C3) as Hms.
  pose proof (surface_step_others pid _ _ _ _ ltac:(lia) Hst1) as Hos1.
  assert (Hpins : forall k, pins_of m1 k = pins_of m k) by (intros k; unfold pins_of; by rewrite Hms).
  destruct ok; cbn [negb].
  - destruct (put_mapping frames a c s2 m1 L1 _ pid ts1 ids slot 0 id pins1 Hi1 ltac:(by rewrite Hms) Hpid ltac:(lia)) as (m2 & -> & Hok & Hst2 & _).
    + intros o2 Ho2. rewrite aget_insert, decide_True in Ho2 by (done || by eapply aget_bound). by injection Ho2 as <-.
    + apply Hed.
    + done.
    + lia.
    + done.
    + intros k Hk. unfold pins1. rewrite Hpins. rewrite (decide_False (P := 0 = k)) by lia.
      destruct (decide (k = id)), (decide (id = k)); try done; lia.
    + cbn [mbind option_bind]. eexists _, m2, s2, a, L1, _. split; [done|]. split; [exact Hok|]. split.
      * eapply others_trans; [exact Hos1|]. apply (surface_step_others pid _ _ _ _ ltac:(lia) Hst2).
      * intros ad [= <-]. exists slot, (<[Z.to_nat slot := id]> ids). split; [lia|]. split; [done|].
        assert (Hc2 : surface_cells m2 pid ts1 (<[Z.to_nat slot := id]> ids)).
        { eapply surface_step_cells; [apply Hed|exact Hst2|apply Hed|by rewrite length_insert]. }
        split; [apply Hc2|]. rewrite aget_insert by lia. by rewrite decide_True.
  - destruct (release_pinned pins1 (pins_of m) a c s2 id Hl2) as (s3 & a3 & -> & Hl3).
    + done.
    + unfold pins1. rewrite decide_True by done. pose proof (pins_of_nonneg m id). lia.
    + intros k Hk. unfold pins1. case_decide; lia.
    + cbn [mbind option_bind]. eexists None, m1, s3, a3, L1, _. split; [done|]. split; [|split; [exact Hos1|done]].
      split; [exact Hi1| |by rewrite Hms]. eapply linked_ext; [|exact Hl3]. intros k Hk. apply Hpins.
Qed.

(** ** Unmapping *)

(** A step of memory and surfaces on behalf of [pid] that leaves the row [ids]. *)
Record unmapping (frames : list Z) (c : caps) (pid : Z) (ids : list Z) (m m' : user_memory) (s' : surfaces) : Prop := {
  um_ok : exists a' L' g', mem_ok frames a' c s' m' L' g';
  um_others : others_same pid m m';
  um_row : m'.(mapped_surface).[pid] = Some ids
}.

Lemma mapped_row m pid frames L g : frames_inv frames m L g -> 1 <= pid < 8 ->
  exists ids, m.(mapped_surface).[pid] = Some ids /\ length ids = 4%nat.
Proof.
  intros Hi Hpid. destruct (frames_focus _ _ _ _ pid Hi Hpid) as (d & o & R & Ho & Hf).
  apply (owned_mapped _ _ _ _ (fc_owned _ _ _ _ _ _ _ _ Hf)).
Qed.

Lemma unmap_slot_ok frames a c s m L g pid ids slot id :
  mem_ok frames a c s m L g -> 1 <= pid < 8 -> 0 <= slot < 4 -> m.(mapped_surface).[pid] = Some ids ->
  ids.[slot] = Some id -> id <> 0 ->
  exists m' s', unmap_slot pid slot id m s = Some (m', s') /\
    unmapping frames c pid (<[Z.to_nat slot := 0]> ids) m m' s'.
Proof.
  intros [Hi Hl Hids] Hpid Hs Hrow Hid H0. unfold unmap_slot.
  destruct (frames_focus _ _ _ _ pid Hi Hpid) as (d & o & R & Ho & Hf). pose proof Hf as [F1 F2 F3 F4 F5 F6].
  destruct (owned_surface_cells _ _ _ _ F2) as (ids' & Hc). assert (ids' = ids) as -> by (destruct Hc; congruence).
  destruct (focus_split _ _ _ _ _ _ _ _ Hf) as (_ & _ & _ & Hap).
  destruct (edit_ptes_ok m pid d slot L o.(o_surface) ids 0 0 false Hpid Hs F1
    (fi_pool _ _ _ _ Hi) Hc (owned_surface _ _ _ _ F2) Hap) as (ok & m1 & L1 & ts1 & -> & Hed & _).
  cbn [mbind option_bind]. pose proof (edited_inv _ _ _ _ _ _ _ _ _ _ _ _ _ Hi Hpid Hs Ho Hf Hed) as Hi1.
  pose proof (ed_step _ _ _ _ _ _ _ _ _ _ Hed) as Hst1. pose proof (pins_step _ _ _ _ _ Hst1 Hrow) as Hms.
  assert (Hpins : forall k, pins_of m1 k = pins_of m k) by (intros k; unfold pins_of; by rewrite Hms).
  pose proof (aget_Forall _ _ _ _ (ids_row _ _ _ Hids Hrow) Hid) as Hidb. cbn in Hidb.
  set (pins1 := fun k => pins_of m k + if decide (k = id) then -1 else 0).
  assert (Hpin : 1 <= pins_of m id).
  { pose proof (pins_put m (set_mapped (<[Z.to_nat pid := <[Z.to_nat slot := 0]> ids]> m.(mapped_surface)) m) pid ids slot 0 id id Hrow Hid eq_refl) as Hp.
    rewrite decide_False in Hp by congruence. rewrite decide_True in Hp by done.
    pose proof (pins_of_nonneg (set_mapped (<[Z.to_nat pid := <[Z.to_nat slot := 0]> ids]> m.(mapped_surface)) m) id). lia. }
  destruct (release_pinned (pins_of m) pins1 a c s id Hl) as (s1 & a1 & Hrel & Hl1); [lia|done|done|].
  destruct (put_mapping frames a1 c s1 m1 L1 _ pid ts1 ids slot id 0 pins1 Hi1) as (m2 & -> & Hok & Hst2 & _).
  - by rewrite Hms.
  - done.
  - done.
  - intros o2 Ho2. rewrite aget_insert, decide_True in Ho2 by (done || by eapply aget_bound). by injection Ho2 as <-.
  - apply Hed.
  - done.
  - lia.
  - done.
  - intros k Hk. unfold pins1. rewrite Hpins, (decide_False (P := 0 = k)) by lia.
    destruct (decide (k = id)), (decide (id = k)); try done; lia.
  - cbn [mbind option_bind]. rewrite Hrel. cbn [mbind option_bind]. exists m2, s1. split; [done|]. split.
    + by eexists a1, _, _.
    + eapply others_trans; [apply (surface_step_others pid _ _ _ _ ltac:(lia) Hst1)|].
      apply (surface_step_others pid _ _ _ _ ltac:(lia) Hst2).
    + assert (Hc2 : surface_cells m2 pid ts1 (<[Z.to_nat slot := 0]> ids)).
      { eapply surface_step_cells; [apply Hed|exact Hst2|apply Hed|rewrite length_insert; apply Hc]. }
      apply Hc2.
Qed.

(** The unmap call: true exactly when the surface was mapped. *)
Lemma unmap_surface_from_ok frames a c s m L g pid id n : forall slot ids,
  mem_ok frames a c s m L g -> 1 <= pid < 8 -> 1 <= id -> 0 <= slot -> slot + Z.of_nat n = 4 ->
  m.(mapped_surface).[pid] = Some ids -> length ids = 4%nat ->
  exists b m' s' ids', unmap_surface_from n slot pid id m s = Some (b, m', s') /\
    unmapping frames c pid ids' m m' s' /\
    (b = true -> exists k, slot <= k < 4 /\ ids.[k] = Some id /\ ids' = <[Z.to_nat k := 0]> ids) /\
    (b = false -> ids' = ids /\ forall k, slot <= k < 4 -> ids.[k] <> Some id).
Proof.
  induction n as [|n IH]; intros slot ids Hm Hpid Hid Hs Hn Hrow Hl; cbn [unmap_surface_from].
  { exists false, m, s, ids. split; [done|]. split; [split; [by exists a, L, g|apply others_refl|done]|].
    split; [done|]. intros _. split; [done|]. intros k Hk. lia. }
  rewrite Hrow. cbn [mbind option_bind]. destruct (aget_in ids slot) as [x Hx]; [lia|]. rewrite Hx. cbn [mbind option_bind].
  destruct (Z.eqb_spec x id) as [->|Hne]; cbn [negb].
  - destruct (unmap_slot_ok frames a c s m L g pid ids slot id Hm Hpid ltac:(lia) Hrow Hx ltac:(lia)) as (m' & s' & -> & Hu).
    cbn [mbind option_bind]. exists true, m', s', (<[Z.to_nat slot := 0]> ids). split; [done|]. split; [done|].
    split; [|done]. intros _. exists slot. split; [lia|done].
  - destruct (IH (slot + 1) ids Hm Hpid Hid ltac:(lia) ltac:(lia) Hrow Hl) as (b & m' & s' & ids' & -> & Hu & Ht & Hf).
    exists b, m', s', ids'. split; [done|]. split; [done|]. split.
    + intros Hb. destruct (Ht Hb) as (k & Hk & ?). exists k. split; [lia|done].
    + intros Hb. destruct (Hf Hb) as [-> Hno]. split; [done|]. intros k Hk.
      destruct (decide (k = slot)) as [->|]; [rewrite Hx; congruence|]. apply Hno. lia.
Qed.

(** ** Teardown *)

Lemma unmap_round_ok frames c pid j m0 m s ids ids0 :
  unmapping frames c pid ids m0 m s -> 1 <= pid < 8 -> 0 <= j < 4 -> length ids = 4%nat ->
  (forall k, 0 <= k < j -> ids.[k] = Some 0) -> (forall k, j <= k -> ids.[k] = ids0.[k]) ->
  exists m' s' ids', unmap_round pid j (m, s) = Some (m', s') /\ unmapping frames c pid ids' m0 m' s' /\
    length ids' = 4%nat /\ (forall k, 0 <= k < j + 1 -> ids'.[k] = Some 0) /\ (forall k, j + 1 <= k -> ids'.[k] = ids0.[k]).
Proof.
  intros [(a & L & g & Hm) Hos Hrow] Hpid Hj Hl Hz Hk. unfold unmap_round. rewrite Hrow. cbn [mbind option_bind].
  destruct (aget_in ids j) as [x Hx]; [lia|]. rewrite Hx. cbn [mbind option_bind].
  destruct (Z.eqb_spec x 0) as [->|Hne].
  - exists m, s, ids. split; [done|]. split; [split; [by exists a, L, g|done|done]|]. split; [done|].
    split; [|intros k ?; apply Hk; lia]. intros k Hk'. destruct (decide (k = j)) as [->|]; [done|]. apply Hz. lia.
  - destruct (unmap_slot_ok frames a c s m L g pid ids j x Hm Hpid Hj Hrow Hx Hne) as (m' & s' & -> & [U1 U2 U3]).
    exists m', s', (<[Z.to_nat j := 0]> ids). split; [done|].
    split; [split; [done|by eapply others_trans|done]|]. rewrite length_insert. split; [done|]. split.
    + intros k Hk'. rewrite aget_insert by lia. case_decide; [done|]. apply Hz. lia.
    + intros k Hk'. rewrite insert_other by lia. apply Hk. lia.
Qed.

(** The tables of slots before [j] are back in the pool. *)
Record tables_freed (frames a : list Z) (c : caps) (s : surfaces) (pid : Z) (ids : list Z) (m0 : user_memory) (j : Z) (m : user_memory) : Prop := {
  tf_ok : exists L g, mem_ok frames a c s m L g /\ forall o, g.[pid] = Some o -> forall k, 0 <= k < j -> o.(o_surface).[k] = Some 0;
  tf_others : others_same pid m0 m;
  tf_row : m.(mapped_surface).[pid] = Some ids
}.

Lemma free_table_inv frames a c s pid ids m0 j m :
  tables_freed frames a c s pid ids m0 j m -> 1 <= pid < 8 -> 0 <= j < 4 ->
  succeeds (free_surface_table pid j m) (tables_freed frames a c s pid ids m0 (j + 1)).
Proof.
  intros [(L & g & [Hi Hl Hids] & Hz) Hos Hrow] Hpid Hj.
  destruct (frames_focus _ _ _ _ pid Hi Hpid) as (d & o & R & Ho & Hf). pose proof Hf as [F1 F2 F3 F4 F5 F6].
  destruct (owned_surface_cells _ _ _ _ F2) as (ids' & Hc). assert (ids' = ids) as -> by (destruct Hc; congruence).
  destruct (focus_split _ _ _ _ _ _ _ _ Hf) as (_ & _ & _ & Hap).
  destruct (free_table_ok m pid d j L o.(o_surface) ids Hpid Hj F1
    (fi_pool _ _ _ _ Hi) Hc (owned_surface _ _ _ _ F2) Hap) as (m1 & L1 & -> & Hed).
  pose proof (edited_inv _ _ _ _ _ _ _ _ _ _ _ _ _ Hi Hpid Hj Ho Hf Hed) as Hi1.
  pose proof (ed_step _ _ _ _ _ _ _ _ _ _ Hed) as Hst1. pose proof (pins_step _ _ _ _ _ Hst1 Hrow) as Hms.
  eexists. split; [done|]. split.
  - eexists L1, _. split.
    + split; [exact Hi1| |by rewrite Hms]. eapply linked_ext; [|exact Hl]. intros k _. unfold pins_of. by rewrite Hms.
    + intros o2 Ho2. rewrite aget_insert, decide_True in Ho2 by (done || by eapply aget_bound). injection Ho2 as <-.
      intros k Hk. cbn. rewrite aget_insert by (rewrite (surface_slots _ _ _ _ (owned_surface _ _ _ _ F2)); lia).
      case_decide; [done|]. apply (Hz o Ho). lia.
  - eapply others_trans; [exact Hos|]. apply (surface_step_others pid _ _ _ _ ltac:(lia) Hst1).
  - by rewrite Hms.
Qed.

Lemma unmap_surface_ok frames a c s m L g pid :
  mem_ok frames a c s m L g -> 1 <= pid < 8 ->
  exists m' s' a' L' g', unmap_surface pid m s = Some (m', s') /\ mem_ok frames a' c s' m' L' g' /\
    others_same pid m m' /\ m'.(mapped_surface).[pid] = Some [0; 0; 0; 0] /\
    forall o, g'.[pid] = Some o -> o.(o_surface) = [0; 0; 0; 0].
Proof.
  intros Hm Hpid. destruct (mapped_row m pid frames L g (mo_frames _ _ _ _ _ _ _ Hm) Hpid) as (ids & Hrow & Hl).
  unfold unmap_surface. rewrite (proj2 (bad_pid_spec pid ltac:(lia))) by lia.
  assert (Hall : forall l : list Z, length l = 4%nat -> (forall k, 0 <= k < 4 -> l.[k] = Some 0) -> l = [0; 0; 0; 0]).
  { intros l Hl4 Hz. assert (Hn : forall i, (i < 4)%nat -> l !! i = Some 0) by (intros; rewrite <- aget_nat; apply Hz; lia).
    pose proof (Hn 0%nat ltac:(lia)). pose proof (Hn 1%nat ltac:(lia)). pose proof (Hn 2%nat ltac:(lia)).
    pose proof (Hn 3%nat ltac:(lia)). destruct l as [|? [|? [|? [|? [|]]]]]; try done. cbn in *. congruence. }
  destruct (for_up_inv (fun j ms => exists ids', unmapping frames c pid ids' m ms.1 ms.2 /\ length ids' = 4%nat /\
      (forall k, 0 <= k < j -> ids'.[k] = Some 0) /\ (forall k, j <= k -> ids'.[k] = ids.[k])) 4 0 (unmap_round pid) (m, s))
    as ([m1 s1] & -> & (ids1 & Hu & Hl1 & Hz & _)).
  - exists ids. split; [split; [by exists a, L, g|apply others_refl|done]|]. split; [done|]. split; [intros; lia|done].
  - intros j [m1 s1] Hj (ids1 & Hu & Hl1 & Hz & Hk). cbn in Hu.
    destruct (unmap_round_ok frames c pid j m m1 s1 ids1 ids Hu Hpid ltac:(lia) Hl1 Hz Hk) as (m2 & s2 & ids2 & -> & Hr).
    exists (m2, s2). split; [done|]. by exists ids2.
  - cbn [mbind option_bind]. cbn in Hu. destruct Hu as [(a1 & L1 & g1 & Hm1) Hos Hrow1].
    rewrite (Hall ids1 Hl1) in Hrow1 by (intros; apply Hz; lia).
    destruct (for_up_inv (tables_freed frames a1 c s1 pid [0; 0; 0; 0] m) 4 0 (free_surface_table pid) m1)
      as (m2 & -> & [(L2 & g2 & Hm2 & Hz2) Hos2 Hrow2]).
    + split; [|done|done]. exists L1, g1. split; [done|]. intros o _ k Hk. lia.
    + intros j m2 Hj Ht. apply free_table_inv; [done|done|lia].
    + cbn [mbind option_bind]. exists m2, s1, a1, L2, g2. split; [done|]. split; [done|]. split; [done|]. split; [done|].
      intros o Ho. apply Hall; [|by apply (Hz2 o Ho)].
      destruct (fi_owned _ _ _ _ (mo_frames _ _ _ _ _ _ _ Hm2) pid o ltac:(lia) Ho) as (d & _ & Hown).
      apply (owned_surface _ _ _ _ Hown).
Qed.

(** ** The anonymous and large regions under the joint invariant *)

(** A step that leaves every mapping row. *)
Lemma mem_ok_step frames a c s m L g m' L' g' :
  mem_ok frames a c s m L g -> frames_inv frames m' L' g' -> m'.(mapped_surface) = m.(mapped_surface) ->
  mem_ok frames a c s m' L' g'.
Proof.
  intros [_ Hl Hids] Hi E. split; [done| |by rewrite E]. eapply linked_ext; [|exact Hl]. intros k _. unfold pins_of. by rewrite E.
Qed.

Record anon_effect (pid : Z) (m m' : user_memory) : Prop := {
  ae_others : others_same pid m m';
  ae_mapped : m'.(mapped_surface) = m.(mapped_surface)
}.

Lemma exchange_mem frames a c s m L g pid d o R r m' r' L' T' F' :
  mem_ok frames a c s m L g -> 1 <= pid < 8 -> g.[pid] = Some o -> focus frames m L g pid d o R ->
  exchange pid d r L o.(o_tables) o.(o_frames) m m' r' L' T' F' ->
  mem_ok frames a c s m' L' (<[Z.to_nat pid := Own T' F' o.(o_large) o.(o_surface)]> g) /\ anon_effect pid m m'.
Proof.
  intros Hm Hpid Ho Hf Hex. pose proof (exchange_inv _ _ _ _ _ _ _ _ _ _ _ _ _ _ (mo_frames _ _ _ _ _ _ _ Hm) Hpid Ho Hf Hex) as Hi.
  destruct Hex as [_ _ _ [V1 _ _]].
  assert (E : m'.(mapped_surface) = m.(mapped_surface)) by (destruct V1 as (f & n & pg & ->); done).
  split; [by eapply mem_ok_step|]. split; [apply (anon_step_others pid _ _ _ _ ltac:(lia) V1)|done].
Qed.

(** All the memory of a dying process goes back. *)
Lemma release_memory_ok frames a c s m L g pid :
  mem_ok frames a c s m L g -> 1 <= pid < 8 ->
  exists m1 s' m2 m3 a' L' g',
    unmap_surface pid m s = Some (m1, s') /\ anonymous_release pid m1 = Some m2 /\ large_code_release pid m2 = Some m3 /\
    mem_ok frames a' c s' m3 L' g' /\ g'.[pid] = Some no_frames /\ others_same pid m m3.
Proof.
  intros Hm Hpid.
  destruct (unmap_surface_ok frames a c s m L g pid Hm Hpid) as (m1 & s' & a1 & L1 & g1 & -> & Hm1 & Hos1 & _ & Hsf).
  destruct (frames_focus _ _ _ _ pid (mo_frames _ _ _ _ _ _ _ Hm1) Hpid) as (d & o & R & Ho & Hf).
  destruct (focus_region _ _ _ _ _ _ _ _ (mo_frames _ _ _ _ _ _ _ Hm1) Hf) as (r & Hrg & Hres).
  destruct (anonymous_release_exchange m1 pid d r L1 _ _ Hrg Hpid) as (m2 & L2 & Hrel & Hex).
  destruct (exchange_mem frames a1 c s' m1 L1 g1 pid d o R r m2 0 L2 [] [] Hm1 Hpid Ho Hf Hex) as [Hm2 [Hos2 _]].
  set (o2 := Own [] [] o.(o_large) o.(o_surface)) in *. set (g2 := <[Z.to_nat pid := o2]> g1) in *.
  assert (Ho2 : g2.[pid] = Some o2).
  { unfold g2. rewrite aget_insert by (by eapply aget_bound). by rewrite decide_True. }
  destruct (frames_focus _ _ _ _ pid (mo_frames _ _ _ _ _ _ _ Hm2) Hpid) as (d2 & o2' & R2 & Ho2' & Hf2).
  assert (o2' = o2) as -> by congruence.
  destruct (large_release_inv _ _ _ _ _ _ _ _ (mo_frames _ _ _ _ _ _ _ Hm2) Hpid Ho2 Hf2) as (m3 & L3 & Hlr & _ & Hos3 & Hms & Hi3).
  exists m1, s', m2, m3, a1, L3, (<[Z.to_nat pid := Own [] [] [] o.(o_surface)]> g2).
  split; [done|]. split; [done|]. split; [done|]. split; [by eapply mem_ok_step|]. split.
  - rewrite aget_insert by (by eapply aget_bound). by rewrite decide_True, (Hsf o Ho).
  - eapply others_trans; [exact Hos1|]. by eapply others_trans.
Qed.
