(* ===== verification/UserAccess.v ===== *)
(** What the range checks of the system-call boundary promise: an accepted buffer is
    mapped in the caller's address space, every byte of it lies in a frame that
    holds data of that process, and distinct addresses name distinct bytes; and that
    storing data keeps the invariant of physical memory. *)

From stdpp Require Import gmap.
From S2P Require Import Prelude Surface SurfaceSpec Capability CapabilitySpec PhysicalMemory UserMemory UserMemorySpec.
From S2P Require Import FramePool FrameOwnership AddressSpace AnonymousSpec FrameInvariant SurfaceMapSpec MemoryInvariant SurfaceMapping.

(** ** Tables and data *)

Definition own_tables (o : own) : list Z := o.(o_tables) ++ take 1 o.(o_large) ++ held o.(o_surface).
Definition own_data (o : own) : list Z := o.(o_frames).*1 ++ tail o.(o_large).

(** The frames that hold data of processes. *)
Definition data_frames (m : user_memory) (g : list own) : list Z := concat (slot_frames <$> slots m) ++ concat (own_data <$> g).
Definition not_data (m : user_memory) (g : list own) (p : Z) : Prop := p ∉ data_frames m g.

Lemma own_split o : own_frames o ≡ₚ own_tables o ++ own_data o.
Proof.
  unfold own_frames, own_tables, own_data. fold (held o.(o_surface)).
  assert (E : o.(o_large) ≡ₚ take 1 o.(o_large) ++ tail o.(o_large)) by (destruct o.(o_large); done).
  rewrite E at 1. solve_Permutation.
Qed.

Lemma concat_fmap_app {A B} (f h k : A -> list B) l : (forall x, f x ≡ₚ h x ++ k x) ->
  concat (f <$> l) ≡ₚ concat (h <$> l) ++ concat (k <$> l).
Proof.
  intros H. induction l as [|x l IH]; [done|]. cbn [fmap list_fmap concat]. cbn [fmap list_fmap] in IH. rewrite H, IH. solve_Permutation.
Qed.

Lemma all_owned_split g : all_owned g ≡ₚ concat (own_tables <$> g) ++ concat (own_data <$> g).
Proof. apply concat_fmap_app, own_split. Qed.

Lemma concat_in {A B} (f : A -> list B) l x y : x ∈ l -> y ∈ f x -> y ∈ concat (f <$> l).
Proof.
  intros Hx Hy. apply list_elem_of_In, in_concat. exists (f x). rewrite <- !list_elem_of_In. split; [|done].
  apply list_elem_of_fmap. by exists x.
Qed.

Lemma slot_pages_split ts m : length ts = length (slots m) ->
  all_slot_pages ts m ≡ₚ concat (zip_with slot_tables (slots m) ts) ++ concat (slot_frames <$> slots m).
Proof.
  unfold all_slot_pages. generalize (slots m). intros l. revert ts.
  induction l as [|p l IH]; intros [|t ts] Hl; try done. cbn [zip_with concat fmap list_fmap].
  cbn [fmap list_fmap] in IH. rewrite IH by (cbn in Hl; lia). unfold slot_pages. solve_Permutation.
Qed.

Section invariant.
Context (total : list Z) (m : user_memory) (L : list Z) (g : list own) (Hi : frames_inv total m L g).

Lemma data_distinct : NoDup (L ++ concat (own_tables <$> g) ++ concat (own_data <$> g)).
Proof. rewrite <- all_owned_split. pose proof (fi_distinct _ _ _ _ Hi) as H. by apply list.NoDup_app in H as (? & _ & _). Qed.

Lemma slot_frames_outside x : x ∈ concat (slot_frames <$> slots m) -> x ∉ L ++ all_owned g.
Proof.
  intros Hx. rewrite (fi_total _ _ _ _ Hi). destruct (fi_spaces _ _ _ _ Hi) as (ts & [S1 S2 S3 S4 S5]).
  intros Ht. apply list.NoDup_app in S3 as (_ & S3 & _). apply (S3 x Ht). rewrite slot_pages_split by lia. apply elem_of_app. by right.
Qed.

Lemma pool_not_data x : x ∈ L -> not_data m g x.
Proof.
  intros Hx [H|H]%elem_of_app; [apply (slot_frames_outside x H), elem_of_app; by left|].
  pose proof data_distinct as Hd. apply list.NoDup_app in Hd as (_ & Hd & _). apply (Hd x Hx), elem_of_app. by right.
Qed.
Lemma table_not_data o x : o ∈ g -> x ∈ own_tables o -> not_data m g x.
Proof.
  intros Ho Hx [H|H]%elem_of_app.
  - apply (slot_frames_outside x H), elem_of_app. right. apply (concat_in own_frames g o); [done|].
    rewrite own_split. apply elem_of_app. by left.
  - pose proof data_distinct as Hd. apply list.NoDup_app in Hd as (_ & _ & Hd). apply list.NoDup_app in Hd as (_ & Hd & _).
    apply (Hd x); [|done]. by apply (concat_in own_tables g o).
Qed.
Lemma slot_table_not_data ts i p t x :
  spaces_by ts total m -> slots m !! i = Some p -> ts !! i = Some t -> x ∈ slot_tables p t -> not_data m g x.
Proof.
  intros Hs Hp Ht Hx. pose proof Hs as [S1 S2 S3 S4 S5].
  assert (Hin : x ∈ concat (zip_with slot_tables (slots m) ts)).
  { apply list_elem_of_In, in_concat. exists (slot_tables p t). rewrite <- !list_elem_of_In. split; [|done].
    apply list_elem_of_lookup. exists i. rewrite lookup_zip_with, Hp. cbn. by rewrite Ht. }
  rewrite slot_pages_split in S3 by lia. apply list.NoDup_app in S3 as (_ & H1 & S3). apply list.NoDup_app in S3 as (_ & H2 & _).
  intros [H|H]%elem_of_app; [by apply (H2 x)|]. apply (H1 x); [|apply elem_of_app; by left].
  rewrite <- (fi_total _ _ _ _ Hi), all_owned_split, !elem_of_app. tauto.
Qed.

Lemma in_owners pid o : g.[pid] = Some o -> o ∈ g.
Proof. intros [_ H]%aget_Some. by apply list_elem_of_lookup_2 in H. Qed.

Lemma directory_not_data d : d ∈ directories m -> not_data m g d.
Proof.
  intros (p & -> & Hp)%list_elem_of_fmap. apply list_elem_of_lookup in Hp as (i & Hp).
  destruct (fi_spaces _ _ _ _ Hi) as (ts & Hs). pose proof Hs as [S1 S2 S3 S4 S5].
  destruct (lookup_lt_is_Some_2 ts i) as [t Ht]; [apply lookup_lt_Some in Hp; unfold slots in *; lia|].
  apply (slot_table_not_data ts i p t); [done..|]. do 2 right. by left.
Qed.

(** ** Storing data *)

Lemma frames_data pg : same_tables (not_data m g) m.(pages) pg -> frames_inv total (set_pages pg m) L g.
Proof.
  intros Hs. pose proof Hi as [[A1 A2 A3 A4] H2 H3 H4 H5 H6 H7 H8 H9 H10].
  assert (Ht : touches (data_frames m g) m.(pages) pg).
  { split; [intros p Hp; by apply Hs|intros p; apply Hs]. }
  assert (Hw : forall x i, not_data m g x -> word pg x i = word m.(pages) x i).
  { intros x i Hx. by apply (touches_word _ _ _ _ _ Ht). }
  split; try done; try (by split).
  - eapply pool_touches; [done..|exact Ht|]. intros f Hf. by apply pool_not_data.
  - intros pid o Hp Ho. destruct (H5 pid o Hp Ho) as (d & Hd & [O1 O2 O3 [L1 L2 L3 L4 L5] [S1 S2 S3] O6]).
    exists d. split; [done|]. pose proof (in_owners pid o Ho) as Hin.
    assert (Hdn : not_data m g d) by (by apply directory_not_data, (directory_in m pid)).
    assert (Htab : forall t, t ∈ own_tables o -> not_data m g t) by (intros t; by apply table_not_data).
    split; [done|done| | |..|done].
    + eapply anon_touches; [exact Ht|done| |exact O3]. intros t Hin'. apply Htab. apply elem_of_app. by left.
    + split; [done|done|done| |].
      * destruct o.(o_large); [done|]. cbn. by rewrite Hw.
      * intros t i f Hh Hf. cbn. rewrite Hw; [by eapply L5|]. apply Htab. unfold own_tables. rewrite !elem_of_app.
        right. left. destruct o.(o_large); [done|]. injection Hh as ->. by left.
    + split; [done|done|]. intros i t Hit H0. cbn. rewrite Hw by done. by apply S3.
  - by eapply frames_ok_touches.
  - revert H8. apply Forall_impl. intros p. by apply (touches_page _ _ _ _ Ht).
  - apply (spaces_data (not_data m g)); [done|done|]. intros ts i p t Hts Hp Hti. apply list.Forall_forall.
    intros x. by apply (slot_table_not_data ts i p t).
Qed.

(** ** Accepted buffers *)

Context (pid : Z) (p : userspace_memory) (Hpid : 1 <= pid < 8) (Hp : m.(process_memory).[pid] = Some p).

Lemma space_chain : exists t, word m.(pages) p.(address_space) 0 = Some (t + 7) /\ word m.(pages) t 0 = Some (p.(page_directory) + 7) /\
  word m.(pages) p.(page_directory) 1 = Some (p.(page_table) + 7) /\ slot_shape p /\
  (m.(process_memory_used).[pid] = Some true -> slot_loaded m.(pages) p) /\
  Forall (fun x => not_data m g x /\ x mod 4096 = 0) (slot_tables p t).
Proof.
  destruct (fi_spaces _ _ _ _ Hi) as (ts & Hs). pose proof Hs as [S1 S2 S3 S4 S5].
  apply slot_lookup in Hp; [|lia]. destruct (lookup_lt_is_Some_2 ts (Z.to_nat pid - 1)) as [t Ht]; [apply lookup_lt_Some in Hp; lia|].
  destruct (S5 _ _ _ Hp Ht) as (Hsh & [M1 M2 M3] & Hl). exists t. do 4 (split; [done|]). split.
  - intros [_ Hu]%aget_Some. apply Hl. rewrite <- Hu. f_equal. lia.
  - apply list.Forall_forall. intros x Hx. split; [by apply (slot_table_not_data ts (Z.to_nat pid - 1) p t)|].
    rewrite list.Forall_forall in S4. apply (S4 x). apply (slot_pages_in ts m (Z.to_nat pid - 1) p t); [done..|].
    apply elem_of_app. by left.
Qed.

Lemma slot_frame f : f ∈ slot_frames p -> ~ not_data m g f /\ f mod 4096 = 0 /\ is_page m.(pages) f.
Proof.
  intros Hf. destruct (fi_spaces _ _ _ _ Hi) as (ts & Hs). pose proof Hs as [S1 S2 S3 S4 S5].
  apply slot_lookup in Hp; [|lia]. destruct (lookup_lt_is_Some_2 ts (Z.to_nat pid - 1)) as [t Ht]; [apply lookup_lt_Some in Hp; lia|].
  split.
  - intros Hn. apply Hn. apply elem_of_app. left. apply (concat_in slot_frames _ p); [|done]. by apply list_elem_of_lookup_2 in Hp.
  - rewrite list.Forall_forall in S4. apply (S4 f). apply (slot_pages_in ts m (Z.to_nat pid - 1) p t); [done..|].
    apply elem_of_app. by right.
Qed.

(** The byte at [va] of a page of the slot. *)
Lemma slot_names index l va f :
  m.(process_memory_used).[pid] = Some true -> entries_at m.(pages) p.(page_table) index l ->
  (forall f, f ∈ l -> f ∈ slot_frames p) -> 0 <= index -> index + Z.of_nat (length l) <= 512 ->
  l.[(va - 2097152) / 4096 - index] = Some f -> names (not_data m g) m.(pages) p.(address_space) va (f + va mod 4096).
Proof.
  intros Hu He Hl Hx Hlen Hf. destruct space_chain as (t & W1 & W2 & W3 & _ & _ & Hall).
  pose proof (aget_bound _ _ _ Hf) as Hb. pose proof (He _ _ Hf) as Hw.
  destruct (slot_frame f) as (F1 & F2 & F3).
  { apply Hl. apply aget_Some in Hf as [_ Hf]. by apply list_elem_of_lookup_2 in Hf. }
  assert (Hva : 2097152 <= va < 4194304) by zlia.
  apply (names_low _ _ p.(address_space) t p.(page_directory) p.(page_table) f 7); try done; [| |by right|lia].
  - by replace (va / 2 ^ 21) with 1 by zlia.
  - rewrite <- Hw. f_equal. zlia.
Qed.

(** The byte at [va] of a frame the process owns. *)
Lemma owned_names o t f fl va :
  g.[pid] = Some o -> t ∈ own_tables o -> f ∈ own_data o -> fl = 5 \/ fl = 7 -> 0 <= va < 2 ^ 30 ->
  word m.(pages) p.(page_directory) (va / 2 ^ 21) = Some (t + 7) -> word m.(pages) t (va / 4096 mod 512) = Some (f + fl) ->
  names (not_data m g) m.(pages) p.(address_space) va (f + va mod 4096).
Proof.
  intros Ho Ht Hf Hfl Hva W1' W0. destruct space_chain as (t3 & W1 & W2 & _ & _ & _ & Hall).
  pose proof (in_owners pid o Ho) as Hin. pose proof (fi_frames _ _ _ _ Hi) as Hfr. rewrite list.Forall_forall in Hfr.
  assert (Hok : forall x, x ∈ own_frames o -> frame_ok m.(pages) x).
  { intros x Hx. apply Hfr. apply elem_of_app. right. by apply (concat_in own_frames g o). }
  destruct (Hok f) as (_ & F2 & F3); [rewrite own_split; apply elem_of_app; by right|].
  destruct (Hok t) as (_ & T2 & _); [rewrite own_split; apply elem_of_app; by left|].
  apply (names_low _ _ p.(address_space) t3 p.(page_directory) t f fl); try done.
  - unfold slot_tables in Hall. rewrite !list.Forall_cons in *. destruct Hall as (A1 & A2 & A3 & _).
    do 3 (split; [done|]). split; [|done]. split; [by apply (table_not_data o)|done].
  - intros Hn. apply Hn. apply elem_of_app. right. by apply (concat_in own_data g o).
Qed.

(** The frame a user address of the process lies in. *)
Definition user_page (o : own) (va : Z) : option Z :=
  if USER_ANON_BASE <=? va then
    if USER_LARGE_CODE_BASE <=? va then (tail o.(o_large)).[(va - USER_LARGE_CODE_BASE) / 4096]
    else fst <$> o.(o_frames).[(va - USER_ANON_BASE) / 4096]
  else if USER_STACK_PAGE <=? va then p.(stack_frames).[(va - USER_STACK_PAGE) / 4096]
  else if USER_HEAP <=? va then p.(heap_frames).[(va - USER_HEAP) / 4096]
  else p.(code_frames).[(va - USER_CODE) / 4096].

Lemma user_page_in o va f : user_page o va = Some f -> f ∈ slot_frames p ++ own_data o.
Proof.
  assert (Hin : forall (l : list Z) i, l.[i] = Some f -> f ∈ l) by (intros l i [_ H]%aget_Some; by apply list_elem_of_lookup_2 in H).
  unfold user_page, slot_frames, own_data. rewrite !elem_of_app. destruct (USER_ANON_BASE <=? va).
  - destruct (_ <=? va); [intros H%Hin; tauto|]. intros H. destruct (o.(o_frames).[_]) as [[x fl]|] eqn:E; [|done].
    injection H as <-. right. left. apply list_elem_of_fmap. exists (x, fl). split; [done|].
    apply aget_Some in E as [_ E]. by apply list_elem_of_lookup_2 in E.
  - destruct (_ <=? va); [intros H%Hin; tauto|]. destruct (_ <=? va); intros H%Hin; tauto.
Qed.

Lemma large_length o : g.[pid] = Some o -> (length (tail o.(o_large)) <= 320)%nat.
Proof.
  intros Ho. destruct (fi_owned _ _ _ _ Hi pid o ltac:(lia) Ho) as (d & _ & Hown).
  destruct (owned_large _ _ _ _ Hown) as [_ _ (fs & _ & Hl & E) _ _]. rewrite E, length_take. lia.
Qed.

Lemma user_page_names o va f :
  g.[pid] = Some o -> m.(process_memory_used).[pid] = Some true -> 0 <= va -> user_page o va = Some f ->
  names (not_data m g) m.(pages) p.(address_space) va (f + va mod 4096).
Proof.
  intros Ho Hu Hva. destruct (fi_owned _ _ _ _ Hi pid o ltac:(lia) Ho) as (d & Hd & Hown).
  unfold directory_of in Hd. rewrite Hp in Hd. cbn [mbind option_bind] in Hd. injection Hd as <-.
  destruct space_chain as (_ & _ & _ & _ & [C1 C2 C3 C4] & Hld & _). destruct (Hld Hu) as [E1 E2 E3].
  pose proof (large_length o Ho) as Hlen.
  unfold user_page, slot_frames. change USER_ANON_BASE with 268435456. change USER_LARGE_CODE_BASE with 536870912.
  change USER_STACK_PAGE with 3362816. change USER_HEAP with 3342336. change USER_CODE with 3145728.
  destruct (Z.leb_spec 268435456 va); [destruct (Z.leb_spec 536870912 va)|destruct (Z.leb_spec 3362816 va); [|destruct (Z.leb_spec 3342336 va)]].
  - intros Hf. pose proof (aget_bound _ _ _ Hf) as Hb. destruct (owned_large _ _ _ _ Hown) as [_ _ _ L4 L5].
    destruct o.(o_large) as [|t fr] eqn:El; [by apply aget_bound in Hf; cbn in Hf; lia|]. cbn [tail] in *.
    apply (owned_names o t f 7); [done| | |by right|zlia| |].
    + unfold own_tables. rewrite El, !elem_of_app. right. left. by left.
    + unfold own_data. rewrite El. apply elem_of_app. right. apply aget_Some in Hf as [_ Hf]. by apply list_elem_of_lookup_2 in Hf.
    + rewrite <- L4. f_equal. unfold LARGE_INDEX. zlia.
    + rewrite <- (L5 t _ f eq_refl Hf). f_equal. zlia.
  - intros Hf. destruct (o.(o_frames).[(va - 268435456) / 4096]) as [[x fl]|] eqn:E; [|done]. injection Hf as <-. cbn [fst].
    destruct (owned_anon _ _ _ _ Hown) as [[[A1 A2 A3] A4 A5 A6] A7]. pose proof (aget_bound _ _ _ E) as Hb.
    destruct (A2 _ x fl (proj1 Hb) E) as (t & Ht & Hw & Hfl). pose proof (aget_bound _ _ _ Ht) as Htb.
    apply (owned_names o t x fl); [done| | |done|zlia| |].
    + unfold own_tables. apply elem_of_app. left. apply aget_Some in Ht as [_ Ht]. by apply list_elem_of_lookup_2 in Ht.
    + unfold own_data. apply elem_of_app. left. apply list_elem_of_fmap. exists (x, fl). split; [done|].
      apply aget_Some in E as [_ E]. by apply list_elem_of_lookup_2 in E.
    + rewrite <- (A1 _ t (proj1 Htb) Ht). f_equal. unfold ANON_INDEX. zlia.
    + rewrite <- Hw. f_equal. zlia.
  - intros Hf. apply (slot_names STACK_INDEX p.(stack_frames)); [done|done|intros x Hx; unfold slot_frames; rewrite !elem_of_app; tauto|done|unfold STACK_INDEX; lia|].
    rewrite <- Hf. f_equal. unfold STACK_INDEX. zlia.
  - intros Hf. apply (slot_names HEAP_INDEX p.(heap_frames)); [done|done|intros x Hx; unfold slot_frames; rewrite !elem_of_app; tauto|done|unfold HEAP_INDEX; lia|].
    rewrite <- Hf. f_equal. unfold HEAP_INDEX. zlia.
  - intros Hf. apply (slot_names CODE_INDEX p.(code_frames)); [done|done|intros x Hx; unfold slot_frames; rewrite !elem_of_app; tauto|done|unfold CODE_INDEX; lia|].
    rewrite <- Hf. f_equal. unfold CODE_INDEX. zlia.
Qed.

(** Distinct pages of the address space are distinct frames. *)
Lemma user_frames_distinct o : g.[pid] = Some o -> NoDup (slot_frames p ++ own_data o).
Proof.
  intros Ho. apply list.NoDup_app. split_and!.
  - destruct (fi_spaces _ _ _ _ Hi) as (ts & Hs). pose proof Hs as [S1 S2 _ _ _]. apply slot_lookup in Hp; [|lia].
    destruct (lookup_lt_is_Some_2 ts (Z.to_nat pid - 1)) as [t Ht]; [apply lookup_lt_Some in Hp; lia|].
    destruct (slot_pages_distinct ts total m _ p t Hs Hp Ht) as (H & _). by apply list.NoDup_app in H as (_ & _ & ?).
  - intros x Hx Hd. apply (slot_frames_outside x).
    + apply (concat_in slot_frames _ p); [|done]. apply slot_lookup in Hp; [|lia]. by apply list_elem_of_lookup_2 in Hp.
    + apply elem_of_app. right. apply (concat_in own_frames g o); [by apply (in_owners pid)|]. rewrite own_split. apply elem_of_app. by right.
  - pose proof data_distinct as H. apply list.NoDup_app in H as (_ & _ & H). apply list.NoDup_app in H as (_ & _ & H).
    destruct (concat_split (own_data <$> g) (Z.to_nat pid) (own_data o)) as (R & Hperm & _).
    { rewrite list_lookup_fmap. apply aget_Some in Ho as [_ Ho]. by rewrite Ho. }
    rewrite Hperm in H. by apply list.NoDup_app in H as (? & _ & _).
Qed.

Definition page_position (o : own) (va : Z) : Z :=
  if USER_ANON_BASE <=? va then
    if USER_LARGE_CODE_BASE <=? va then p.(code_page_count) + 133 + Z.of_nat (length o.(o_frames)) + (va - USER_LARGE_CODE_BASE) / 4096
    else p.(code_page_count) + 133 + (va - USER_ANON_BASE) / 4096
  else if USER_STACK_PAGE <=? va then p.(code_page_count) + 5 + (va - USER_STACK_PAGE) / 4096
  else if USER_HEAP <=? va then p.(code_page_count) + (va - USER_HEAP) / 4096
  else (va - USER_CODE) / 4096.

Lemma page_position_lookup o va f :
  user_page o va = Some f -> (slot_frames p ++ own_data o).[page_position o va] = Some f /\
  (forall va' f', user_page o va' = Some f' -> page_position o va' = page_position o va -> va' / 4096 = va / 4096).
Proof.
  destruct space_chain as (_ & _ & _ & _ & [C1 C2 C3 C4] & _ & _).
  unfold user_page, page_position, slot_frames, own_data. change USER_ANON_BASE with 268435456. change USER_LARGE_CODE_BASE with 536870912.
  change USER_STACK_PAGE with 3362816. change USER_HEAP with 3342336. change USER_CODE with 3145728. intros Hf.
  assert (Hidx : forall (l1 l l2 : list Z) i n, Z.of_nat (length l1) = n -> l.[i] = Some f -> (l1 ++ l ++ l2).[n + i] = Some f).
  { intros l1 l l2 i n <- H. pose proof (aget_bound _ _ _ H). rewrite aget_app_r by lia.
    replace (Z.of_nat (length l1) + i - Z.of_nat (length l1)) with i by lia. by rewrite aget_app_l by lia. }
  assert (Hfst : forall i x, (fst <$> o.(o_frames).[i]) = Some x -> o.(o_frames).*1.[i] = Some x /\ i < Z.of_nat (length o.(o_frames))).
  { intros i x H. destruct (o.(o_frames).[i]) as [e|] eqn:E; [|done]. injection H as <-. pose proof (aget_bound _ _ _ E).
    split; [|lia]. apply aget_Some in E as [E0 E]. apply aget_Some. split; [done|]. by rewrite list_lookup_fmap, E. }
  split.
  - destruct (Z.leb_spec 268435456 va); [destruct (Z.leb_spec 536870912 va)|destruct (Z.leb_spec 3362816 va); [|destruct (Z.leb_spec 3342336 va)]].
    + rewrite <- (app_nil_r (tail _)), !app_assoc, <- app_assoc. apply Hidx; [|done]. rewrite !length_app, length_fmap. lia.
    + apply Hfst in Hf as [Hf _]. apply Hidx; [|done]. rewrite !length_app. lia.
    + rewrite <- !app_assoc, (app_assoc p.(code_frames)). apply Hidx; [|done]. rewrite !length_app. lia.
    + rewrite <- !app_assoc. apply Hidx; [lia|done].
    + rewrite <- !app_assoc. change (p.(code_frames) ++ ?l) with ([] ++ p.(code_frames) ++ l). rewrite <- (Z.add_0_l (_ / 4096)). by apply Hidx.
  - intros va' f' Hf'.
    assert (Hpos : forall v x, (if 268435456 <=? v then if 536870912 <=? v then (tail o.(o_large)).[(v - 536870912) / 4096]
        else fst <$> o.(o_frames).[(v - 268435456) / 4096]
      else if 3362816 <=? v then p.(stack_frames).[(v - 3362816) / 4096] else if 3342336 <=? v then p.(heap_frames).[(v - 3342336) / 4096]
      else p.(code_frames).[(v - 3145728) / 4096]) = Some x ->
      (268435456 <= v < 536870912 -> (v - 268435456) / 4096 < Z.of_nat (length o.(o_frames))) /\
      (3362816 <= v < 268435456 -> (v - 3362816) / 4096 < 128) /\ (3342336 <= v < 3362816 -> (v - 3342336) / 4096 < 5) /\
      (v < 3342336 -> 0 <= (v - 3145728) / 4096 < p.(code_page_count))).
    { intros v x. destruct (Z.leb_spec 268435456 v); [destruct (Z.leb_spec 536870912 v)|destruct (Z.leb_spec 3362816 v); [|destruct (Z.leb_spec 3342336 v)]];
        intros Hx; try (apply Hfst in Hx as [_ Hx]; lia); apply aget_bound in Hx; lia. }
    destruct (Hpos _ _ Hf) as (B1 & B2 & B3 & B4). destruct (Hpos _ _ Hf') as (B1' & B2' & B3' & B4'). clear Hf Hf' Hidx Hfst Hpos.
    assert (S1 : forall v, (v - 536870912) / 4096 = v / 4096 - 131072) by (intros; zlia).
    assert (S2 : forall v, (v - 268435456) / 4096 = v / 4096 - 65536) by (intros; zlia).
    assert (S3 : forall v, (v - 3362816) / 4096 = v / 4096 - 821) by (intros; zlia).
    assert (S4 : forall v, (v - 3342336) / 4096 = v / 4096 - 816) by (intros; zlia).
    assert (S5 : forall v, (v - 3145728) / 4096 = v / 4096 - 768) by (intros; zlia).
    rewrite !S1, !S2, !S3, !S4, !S5 in *. clear S1 S2 S3 S4 S5.
    pose proof (Z.div_mod va 4096 ltac:(lia)). pose proof (Z.mod_pos_bound va 4096 ltac:(lia)).
    pose proof (Z.div_mod va' 4096 ltac:(lia)). pose proof (Z.mod_pos_bound va' 4096 ltac:(lia)).
    set (q := va / 4096) in *. set (q' := va' / 4096) in *. clearbody q q'.
    destruct (Z.leb_spec 268435456 va); [destruct (Z.leb_spec 536870912 va)|destruct (Z.leb_spec 3362816 va); [|destruct (Z.leb_spec 3342336 va)]];
      (destruct (Z.leb_spec 268435456 va'); [destruct (Z.leb_spec 536870912 va')|destruct (Z.leb_spec 3362816 va'); [|destruct (Z.leb_spec 3342336 va')]]); lia.
Qed.

Lemma user_page_inj o va va' f :
  g.[pid] = Some o -> user_page o va = Some f -> user_page o va' = Some f -> va / 4096 = va' / 4096.
Proof.
  intros Ho Hf Hf'. destruct (page_position_lookup o va f Hf) as [H1 Hpos]. destruct (page_position_lookup o va' f Hf') as [H2 _].
  symmetry. apply (Hpos va' f Hf'). apply aget_Some in H1 as [G1 H1], H2 as [G2 H2].
  pose proof (NoDup_lookup _ _ _ _ (user_frames_distinct o Ho) H1 H2). lia.
Qed.

(** The write check accepts exactly buffers of such addresses. *)
Lemma range_pages o a n :
  g.[pid] = Some o -> m.(process_memory_used).[pid] = Some true -> user_write_range pid a n m = Some true ->
  forall k, 0 <= k < n -> 0 <= a + k /\ is_Some (user_page o (a + k)).
Proof.
  intros Ho Hu Hr k Hk. destruct (fi_owned _ _ _ _ Hi pid o ltac:(lia) Ho) as (d & _ & Hown).
  destruct space_chain as (_ & _ & _ & _ & [C1 C2 C3 C4] & _ & _).
  destruct (fi_arrays _ _ _ _ Hi) as [_ _ _ _]. destruct (owned_large _ _ _ _ Hown) as [_ Hlc _ _ _].
  revert Hr. unfold user_write_range, anonymous_range. rewrite (proj2 (bad_pid_spec pid ltac:(lia))) by lia.
  rewrite (owned_count _ _ _ _ Hown), Hu, Hp, Hlc. cbn [mbind option_bind]. unfold inside, user_page.
  change USER_ANON_BASE with 268435456. change USER_LARGE_CODE_BASE with 536870912. change USER_ADDRESS_END with 3887104.
  change USER_STACK_PAGE with 3362816. change USER_HEAP with 3342336. change USER_CODE with 3145728.
  assert (Hsize : Z.of_nat (length o.(o_frames)) <= 6144) by apply (owned_anon _ _ _ _ Hown).
  destruct (_ && _) eqn:E1; [|clear E1; destruct (_ && _) eqn:E2; [|clear E2; destruct (true && _) eqn:E3;
    [|clear E3; intros [= E4]]]]; [intros _; b2p..|b2p].
  - split; [lia|]. rewrite (proj2 (Z.leb_le 268435456 _)), (proj2 (Z.leb_gt 536870912 _)) by zlia.
    destruct (aget_in o.(o_frames) ((a + k - 268435456) / 4096)) as [x ->]; [zlia|]. by exists x.1.
  - split; [lia|]. rewrite (proj2 (Z.leb_gt 268435456 _)) by lia. destruct (Z.leb_spec 3362816 (a + k)).
    + apply aget_in. zlia.
    + rewrite (proj2 (Z.leb_le 3342336 _)) by lia. apply aget_in. zlia.
  - split; [lia|]. rewrite (proj2 (Z.leb_gt 268435456 _)), (proj2 (Z.leb_gt 3362816 _)), (proj2 (Z.leb_gt 3342336 _)) by lia.
    apply aget_in. zlia.
  - pose proof (large_length o Ho). split; [lia|]. rewrite (proj2 (Z.leb_le 268435456 _)), (proj2 (Z.leb_le 536870912 _)) by lia.
    apply aget_in. zlia.
Qed.

Lemma range_buffer o a n :
  g.[pid] = Some o -> m.(process_memory_used).[pid] = Some true -> user_write_range pid a n m = Some true ->
  buffer_at (not_data m g) m pid a n.
Proof.
  intros Ho Hu Hr q Hq k Hk. assert (q = p) as -> by congruence.
  destruct (range_pages o a n Ho Hu Hr k Hk) as (Hpos & f & Hf). eexists. by apply (user_page_names o).
Qed.
End invariant.
