(* ===== verification/MemoryTheorems.v ===== *)
(** The memory calls of all processes together: whatever they ask for, in whatever
    order, every call returns, physical memory stays partitioned between the pool
    and the processes, and the page tables never let two processes reach one
    frame. *)

From stdpp Require Import gmap.
From S2P Require Import Prelude Surface SurfaceSpec Capability CapabilitySpec UserMemory UserMemorySpec.
From S2P Require Import PhysicalMemory FramePool FrameOwnership AnonymousSpec FrameInvariant SurfaceMapSpec MemoryInvariant SurfaceMapping.

(** ** The calls *)

Inductive memory_op :=
| MemMap (n : Z) | MemReserve (n : Z) | MemCommit (n : Z) (writable : bool) | MemRelease
| MemMapSurface (arena id : Z) | MemUnmapSurface (id : Z) | MemTeardown.

Definition memory_op_ok (op : memory_op) : Prop :=
  match op with
  | MemMap n | MemReserve n | MemCommit n _ => is_u64 n
  | MemMapSurface _ id | MemUnmapSurface id => 1 <= id
  | MemRelease | MemTeardown => True
  end.

(** The value returned, the memory and the surfaces after a call of [pid]. *)
Definition memory_run (op : memory_op) (pid : Z) (m : user_memory) (s : surfaces) : option (Z * user_memory * surfaces) :=
  match op with
  | MemMap n => '(v, m) ← anonymous_map pid n m; Some (v, m, s)
  | MemReserve n => '(v, m) ← anonymous_reserve pid n m; Some (v, m, s)
  | MemCommit n w => '(v, m) ← anonymous_commit pid n w m; Some (v, m, s)
  | MemRelease => m ← anonymous_release pid m; Some (0, m, s)
  | MemMapSurface arena id =>
      '(a, m, s) ← map_surface_readonly arena pid id m s; Some (match a with Some a => a | None => U64_MAX end, m, s)
  | MemUnmapSurface id => '(ok, m, s) ← unmap_surface_id pid id m s; Some (if (ok : bool) then 0 else U64_MAX, m, s)
  | MemTeardown =>
      '(m, s) ← unmap_surface pid m s; m ← anonymous_release pid m; m ← large_code_release pid m; Some (0, m, s)
  end.

Section calls.
Context (frames : list Z) (c : caps).

(** A call on the anonymous region. *)
Lemma anonymous_call a s m L g pid (f : user_memory -> option (Z * user_memory)) :
  mem_ok frames a c s m L g -> 1 <= pid < 8 ->
  (forall d r o, region m pid d r L o.(o_tables) o.(o_frames) -> reservation_ok r o.(o_frames) ->
     exists v m' r' L' T' F', f m = Some (v, m') /\ exchange pid d r L o.(o_tables) o.(o_frames) m m' r' L' T' F') ->
  exists v m' L' g', f m = Some (v, m') /\ mem_ok frames a c s m' L' g' /\ others_same pid m m'.
Proof.
  intros Hm Hpid Hf. destruct (frames_focus _ _ _ _ pid (mo_frames _ _ _ _ _ _ _ Hm) Hpid) as (d & o & R & Ho & Hfo).
  destruct (focus_region _ _ _ _ _ _ _ _ (mo_frames _ _ _ _ _ _ _ Hm) Hfo) as (r & Hrg & Hres).
  destruct (Hf d r o Hrg Hres) as (v & m' & r' & L' & T' & F' & E & Hex).
  destruct (exchange_mem frames a c s m L g pid d o R r m' r' L' T' F' Hm Hpid Ho Hfo Hex) as [Hm' [Hos _]].
  eexists v, m', L', _. split; [done|]. by split.
Qed.

Lemma memory_call_ok a s m L g pid op :
  mem_ok frames a c s m L g -> 1 <= pid < 8 -> memory_op_ok op ->
  exists v m' s' a' L' g', memory_run op pid m s = Some (v, m', s') /\ mem_ok frames a' c s' m' L' g' /\ others_same pid m m'.
Proof.
  intros Hm Hpid Hok. destruct op; cbn [memory_run memory_op_ok] in *.
  - destruct (anonymous_call a s m L g pid (anonymous_map pid n) Hm Hpid) as (v & m' & L' & g' & -> & Hm' & Hos).
    { intros d r o Hrg Hres. destruct (anonymous_map_ok m pid d r L _ _ n Hrg Hres Hpid Hok) as (m' & r' & L' & T' & F' & E & Hex & _).
      by eexists _, m', r', L', T', F'. }
    by exists v, m', s, a, L', g'.
  - destruct (anonymous_call a s m L g pid (anonymous_reserve pid n) Hm Hpid) as (v & m' & L' & g' & -> & Hm' & Hos).
    { intros d r o Hrg Hres. destruct (anonymous_reserve_ok m pid d r L _ _ n Hrg Hres Hpid Hok) as (m' & r' & E & Hex & _).
      by eexists _, m', r', _, _, _. }
    by exists v, m', s, a, L', g'.
  - destruct (anonymous_call a s m L g pid (anonymous_commit pid n writable) Hm Hpid) as (v & m' & L' & g' & -> & Hm' & Hos).
    { intros d r o Hrg Hres. destruct (anonymous_commit_ok m pid d r L _ _ n writable Hrg Hres Hpid Hok) as (m' & L' & T' & new & E & Hex & _).
      by eexists _, m', r, L', T', (o.(o_frames) ++ new). }
    by exists v, m', s, a, L', g'.
  - destruct (anonymous_call a s m L g pid (fun m => m' ← anonymous_release pid m; Some (0, m')) Hm Hpid) as (v & m' & L' & g' & E & Hm' & Hos).
    { intros d r o Hrg Hres. destruct (anonymous_release_exchange m pid d r L _ _ Hrg Hpid) as (m' & L' & -> & Hex).
      by eexists _, m', _, L', _, _. }
    peel E. injection E as <- <-. by exists 0, v0, s, a, L', g'.
  - destruct (map_surface_ok frames a c s m L g arena pid id Hm Hpid Hok) as (r & m' & s' & a' & L' & g' & -> & Hm' & [Hos _]).
    by eexists _, m', s', a', L', g'.
  - unfold unmap_surface_id. rewrite (proj2 (bad_pid_spec pid ltac:(lia))), (proj2 (Z.eqb_neq id 0)) by lia. cbn [orb].
    destruct (mapped_row m pid frames L g (mo_frames _ _ _ _ _ _ _ Hm) Hpid) as (ids & Hrow & Hlen).
    destruct (unmap_surface_from_ok frames a c s m L g pid id 4 0 ids Hm Hpid Hok ltac:(lia) ltac:(lia) Hrow Hlen)
      as (b & m' & s' & ids' & -> & [(a' & L' & g' & Hm') Hos _] & _).
    by eexists _, m', s', a', L', g'.
  - destruct (release_memory_ok frames a c s m L g pid Hm Hpid) as (m1 & s' & m2 & m3 & a' & L' & g' & -> & E2 & E3 & Hm' & _ & Hos).
    cbn [mbind option_bind]. rewrite E2. cbn [mbind option_bind]. rewrite E3. by exists 0, m3, s', a', L', g'.
Qed.

Fixpoint memory_runs (ops : list (Z * memory_op)) (m : user_memory) (s : surfaces) : option (user_memory * surfaces) :=
  match ops with
  | [] => Some (m, s)
  | (pid, op) :: ops => '(_, m, s) ← memory_run op pid m s; memory_runs ops m s
  end.
Definition ops_ok (ops : list (Z * memory_op)) : Prop := Forall (fun po => 1 <= po.1 < 8 /\ memory_op_ok po.2) ops.

Lemma memory_runs_ok ops : forall a s m L g,
  mem_ok frames a c s m L g -> ops_ok ops ->
  exists m' s' a' L' g', memory_runs ops m s = Some (m', s') /\ mem_ok frames a' c s' m' L' g' /\
    m'.(process_memory) = m.(process_memory).
Proof.
  induction ops as [|[pid op] ops IH]; intros a s m L g Hm Hok; cbn [memory_runs]; [by exists m, s, a, L, g|].
  inversion_clear Hok as [|? ? [Hpid Hop] Hrest]. cbn in Hpid, Hop.
  destruct (memory_call_ok a s m L g pid op Hm Hpid Hop) as (v & m1 & s1 & a1 & L1 & g1 & -> & Hm1 & Hos).
  cbn [mbind option_bind]. destruct (IH a1 s1 m1 L1 g1 Hm1 Hrest) as (m' & s' & a' & L' & g' & E & Hm' & Ep).
  exists m', s', a', L', g'. split; [done|]. split; [done|]. rewrite Ep. apply Hos.
Qed.
End calls.
