(* ===== verification/BootMemory.v ===== *)
(** The memory the boot code hands to the process slots satisfies the invariant of
    physical memory, and what it lets user code reach. *)

From stdpp Require Import gmap.
From S2P Require Import Prelude Surface SurfaceSpec Capability CapabilitySpec UserMemory UserMemorySpec.
From S2P Require Import PhysicalMemory FramePool Paging FrameOwnership AddressSpace AnonymousSpec FrameInvariant SurfaceMapSpec PagingSpec MemoryInvariant SurfaceMapping UserAccess MemoryTheorems.

(** ** All slots *)

Lemma tables_touches X high pg pg' pml4 pdpt pd pt0 pt1 :
  touches X pg pg' -> (forall x, x ∈ [pml4; pdpt; pd; pt0; pt1] -> x ∉ X) ->
  identity_tables high pg pml4 pdpt pd pt0 pt1 -> identity_tables high pg' pml4 pdpt pd pt0 pt1.
Proof.
  intros Ht Hx [I1 I2 I3 I4 I5].
  split; intros i Hi; rewrite (touches_word _ _ _ _ _ Ht) by (apply Hx; rewrite !elem_of_cons; tauto); auto.
Qed.

(** The slot built at [f], as it is in memory. *)
Definition slot_built (pg : phys) (f n : Z) : Prop :=
  exists high, identity_tables high pg f (f + 4096) (f + 8192) (f + 12288) (f + 16384).

Fixpoint slots_from (n : nat) (index f : Z) : list (Z * Z) :=
  match n with
  | O => []
  | S n => (f, slot_code_pages index) :: slots_from n (index + 1) (f + 4096 * Z.of_nat (SLOT_FRAMES (slot_code_pages index)))
  end.
Fixpoint slots_size (n : nat) (index : Z) : nat :=
  match n with O => O | S n => SLOT_FRAMES (slot_code_pages index) + slots_size n (index + 1) end.

Lemma code_pages_range index : 1 <= slot_code_pages index <= 48.
Proof. unfold slot_code_pages, USERSPACE_CODE_PAGES. repeat case_match; lia. Qed.

Lemma slot_tables_size n : (5 <= SLOT_FRAMES n)%nat.
Proof. unfold SLOT_FRAMES. lia. Qed.

(** Where the slots lie. *)
Lemma slots_bounds n : forall index f s, s ∈ slots_from n index f ->
  f <= s.1 /\ s.1 + 4096 * Z.of_nat (SLOT_FRAMES s.2) <= f + 4096 * Z.of_nat (slots_size n index) /\ (4096 | s.1 - f).
Proof.
  induction n as [|n IH]; intros index f s; cbn [slots_from slots_size]; [set_solver|].
  rewrite elem_of_cons. intros [->|Hs]; cbn [fst snd].
  - split; [lia|]. split; [lia|]. rewrite Z.sub_diag. apply Z.divide_0_r.
  - apply IH in Hs as (H1 & H2 & q & H3). split; [lia|]. split; [lia|].
    exists (q + Z.of_nat (SLOT_FRAMES (slot_code_pages index))). lia.
Qed.

Definition shares (display : option Z) (kernel_pdpt f : Z) (pg : phys) : Prop :=
  match display with
  | None => True
  | Some physical => Z.land (Z.shiftr physical 30) 511 <> 0 /\ is_page pg kernel_pdpt /\ kernel_pdpt < f
  end.

Lemma allocate_processes_ok display kernel_pdpt n : forall index k a pg,
  has (slots_size n index + k) a -> Forall (is_page pg) (run a.(fa_next) (slots_size n index)) ->
  shares display kernel_pdpt a.(fa_next) pg ->
  exists pg', allocate_processes n index display kernel_pdpt a pg =
      Some (Some ((fun s => slot_at_frame s.1 s.2) <$> slots_from n index a.(fa_next)), advance (slots_size n index) a, pg') /\
    has k (advance (slots_size n index) a) /\ touches (run a.(fa_next) (slots_size n index)) pg pg' /\
    forall s, s ∈ slots_from n index a.(fa_next) -> slot_built pg' s.1 s.2.
Proof.
  induction n as [|n IH]; intros index k a pg Hh Hpg Hsh; cbn [allocate_processes slots_from slots_size].
  { exists pg. rewrite (ltac:(destruct a; unfold advance; cbn; f_equal; lia) : advance 0 a = a). split; [done|].
    split; [done|]. split; [apply touches_refl|set_solver]. }
  cbn [slots_size] in Hh, Hpg. set (c := slot_code_pages index) in *. pose proof (code_pages_range index) as Hc.
  rewrite run_app in Hpg. apply Forall_app in Hpg as [Hpg1 Hpg2]. rewrite <- Nat.add_assoc in Hh.
  destruct (allocate_process_memory_ok display kernel_pdpt c (slots_size n (index + 1) + k) a pg Hc Hh) as (pg1 & high & -> & Hh1 & T1 & Hit).
  - replace (SLOT_FRAMES c) with (5 + (SLOT_FRAMES c - 5))%nat in Hpg1 by (pose proof (slot_tables_size c); lia).
    rewrite run_app in Hpg1. by apply Forall_app in Hpg1 as [? _].
  - destruct display; [|done]. destruct Hsh as (H1 & H2 & H3). split; [done|]. split; [done|]. rewrite run_in.
    intros (j & Hj & ->). lia.
  - cbn [mbind option_bind]. set (f := a.(fa_next)) in *.
    assert (Hdis : forall x y j, x ∈ run f (SLOT_FRAMES c) -> y ∈ run (f + 4096 * Z.of_nat (SLOT_FRAMES c)) j -> x <> y).
    { intros x y j (i & Hi & ->)%run_in (i' & Hi' & ->)%run_in. lia. }
    assert (Hsub : forall x, x ∈ run f 5 -> x ∈ run f (SLOT_FRAMES c)).
    { intros x (i & Hi & ->)%run_in. apply run_in. exists i. split; [|done]. pose proof (slot_tables_size c). lia. }
    destruct (IH (index + 1) k (advance (SLOT_FRAMES c) a) pg1 Hh1) as (pg2 & -> & Hh2 & T2 & Hs).
    + revert Hpg2. apply Forall_impl. intros x. by apply (touches_page _ _ _ _ T1).
    + destruct display; [|done]. destruct Hsh as (H1 & H2 & H3). split; [done|]. split; [by eapply touches_page|]. cbn. lia.
    + cbn [mbind option_bind]. cbn [advance fa_next] in *. fold f in T2, Hs. fold f. rewrite advance_add in *. exists pg2.
      split; [done|]. split; [done|]. split.
      * rewrite run_app. eapply touches_trans; (eapply touches_mono; [done|]).
        -- intros x Hx. apply elem_of_app. left. auto.
        -- intros x Hx. apply elem_of_app. by right.
      * intros s. rewrite elem_of_cons. intros [->|Hin]; [|by apply Hs]. exists high. cbn [fst snd].
        eapply tables_touches; [exact T2| |exact Hit]. intros x Hx Hx2. rewrite <- five_tables in Hx.
        by apply (Hdis x x _ (Hsub x Hx) Hx2).
Qed.

(** ** The initial invariant *)

(** Slots with directories of their own, apart from the frames that are left. *)
Record slots_ready (ps : list userspace_memory) (a : frame_allocator) (pg : phys) : Prop := {
  sr_count : length ps = 7%nat;
  sr_apart : NoDup (avail a ++ (page_directory <$> ps));
  sr_dirs : Forall (is_page pg) (page_directory <$> ps);
  sr_identity : forall p i, p ∈ ps -> 2 <= i < 512 -> word pg p.(page_directory) i = Some (identity_entry i);
  sr_allocator : allocator_ok a;
  sr_frames : Forall (is_page pg) (avail a);
  sr_spaces : spaces (avail a) (userspace_init_memory ps a pg)
}.

Lemma aget_replicate {A} n (x : A) i : 0 <= i < Z.of_nat n -> (replicate n x).[i] = Some x.
Proof. intros Hi. apply aget_Some. split; [lia|]. apply lookup_replicate_2. lia. Qed.

Lemma fresh_owned ps a pg pid p :
  slots_ready ps a pg -> 1 <= pid < 8 -> ps.[pid - 1] = Some p ->
  owned (userspace_init_memory ps a pg) pid p.(page_directory) no_frames.
Proof.
  intros Hr Hpid Hp. assert (Hin : p ∈ ps) by (apply aget_Some in Hp as [_ Hp]; by apply list_elem_of_lookup_2 in Hp).
  split; cbn [userspace_init_memory anonymous_page_count anonymous_reserved_pages mapped_surface].
  - rewrite aget_replicate by lia. done.
  - exists 0. rewrite aget_replicate by lia. split; [done|]. split; [lia|by left].
  - split; [|done]. split; [|cbn; zlia|cbn; lia|].
    + split.
      * intros i t _ Ht. by apply aget_Some in Ht as [_ Ht].
      * intros q f fl _ Hf. by apply aget_Some in Hf as [_ Hf].
      * intros i Hi _. apply (sr_identity _ _ _ Hr); [done|]. unfold ANON_INDEX. lia.
    + intros i t j Ht. by apply aget_Some in Ht as [_ Ht].
  - split; cbn [userspace_init_memory large_code_page_table large_code_page_count large_code_frames o_large no_frames];
      [by rewrite aget_replicate by lia|by rewrite aget_replicate by lia| |done|by intros t i f [=]].
    exists (replicate 320 0). rewrite aget_replicate by lia. done.
  - split; cbn [userspace_init_memory surface_map_page_table o_surface no_frames]; [by rewrite aget_replicate by lia|done|]. intros i t Hi H0.
    apply aget_Some in Hi as [_ Hi]. by apply (lookup_replicate_1 4 0) in Hi as [-> _].
  - exists (replicate 4 0). by rewrite aget_replicate by lia.
Qed.

Lemma no_owner : all_owned (replicate 8 no_frames) = [].
Proof. done. Qed.

Lemma fresh_frames ps a pg :
  slots_ready ps a pg -> frames_inv (avail a) (userspace_init_memory ps a pg) (avail a) (replicate 8 no_frames).
Proof.
  intros Hr. pose proof Hr as [R1 R2 R3 R4 [A1 A2 A3 A4] R6 R7]. split; try done.
  - split; cbn; rewrite ?R1; done.
  - split; cbn; [|lia|lia]. by exists [].
  - intros pid o Hp Ho. pose proof Ho as Hb. apply aget_bound in Hb. rewrite length_replicate in Hb.
    rewrite aget_replicate in Ho by lia. injection Ho as <-. destruct (aget_in ps (pid - 1)) as [p Hps]; [lia|].
    exists p.(page_directory). split; [|apply fresh_owned; [done|lia|done]].
    unfold directory_of. cbn [process_memory userspace_init_memory]. apply aget_Some in Hps as [_ Hps].
    assert ((UserSpace 0 0 0 0 [] [] [] :: ps).[pid] = Some p) as ->; [|done].
    apply aget_Some. split; [lia|]. rewrite lookup_cons_ne_0 by lia. rewrite <- Hps. f_equal. lia.
  - rewrite no_owner, app_nil_r. exact R2.
  - rewrite no_owner, app_nil_r. rewrite list.Forall_forall in *. intros x Hx. split; [|split; [|by apply R6]];
      unfold avail in Hx; rewrite bump_run in Hx; apply run_in in Hx as (k & Hk & ->); [lia|zlia].
  - by rewrite no_owner, app_nil_r.
Qed.

Lemma fresh_mem ps a pg n :
  slots_ready ps a pg -> Z.of_nat n < 4294967296 ->
  mem_ok (avail a) (replicate n 0) capabilities_init (fresh n) (userspace_init_memory ps a pg) (avail a) (replicate 8 no_frames).
Proof.
  intros Hr Hn. split; [by apply fresh_frames| |].
  - eapply linked_ext; [|exact (initially_linked n Hn)]. intros k Hk. unfold no_pins, pins_of. cbn [mapped_surface userspace_init_memory].
    cbn. unfold count, filter. cbn. by rewrite !decide_False by lia.
  - cbn. repeat constructor; lia.
Qed.

(** The directories of distinct slots differ, and none is an available frame. *)
Lemma slots_directories n : forall index f, NoDup ((fun s : Z * Z => s.1 + 8192) <$> slots_from n index f).
Proof.
  induction n as [|n IH]; intros index f; cbn [slots_from fmap list_fmap]; [constructor|]. apply list.NoDup_cons. split; [|apply IH].
  cbn [fst]. intros (s & E & Hs)%list_elem_of_fmap. apply slots_bounds in Hs as (H1 & _ & _).
  pose proof (slot_tables_size (slot_code_pages index)). lia.
Qed.

(** The pages of the slots are the frames they were allocated from. *)
Lemma slot_pages_run f n : 0 <= n ->
  slot_pages (slot_at_frame f n) (f + 4096) ++ [f + 12288] ≡ₚ run f (SLOT_FRAMES n).
Proof.
  intros Hn. unfold SLOT_FRAMES. replace (138 + Z.to_nat n)%nat with (5 + (128 + (Z.to_nat n + 5)))%nat by lia.
  rewrite !run_app, five_tables. unfold slot_pages, slot_tables, slot_frames, slot_at_frame. cbn [address_space page_directory page_table code_frames heap_frames stack_frames].
  replace (f + 4096 * Z.of_nat 5) with (f + 5 * 4096) by lia. replace (f + 5 * 4096 + 4096 * Z.of_nat 128) with (f + 133 * 4096) by lia.
  replace (f + 133 * 4096 + 4096 * Z.of_nat (Z.to_nat n)) with (f + (133 + n) * 4096) by lia.
  generalize (run (f + 5 * 4096) 128), (run (f + 133 * 4096) (Z.to_nat n)), (run (f + (133 + n) * 4096) 5). intros stack code heap. solve_Permutation.
Qed.

Definition pages_of_slot (s : Z * Z) : list Z := slot_pages (slot_at_frame s.1 s.2) (s.1 + 4096).
Lemma slots_pages_run n : forall index f,
  concat (pages_of_slot <$> slots_from n index f) ++ ((fun s : Z * Z => s.1 + 12288) <$> slots_from n index f) ≡ₚ run f (slots_size n index).
Proof.
  induction n as [|n IH]; intros index f; [done|]. cbn [slots_from slots_size fmap list_fmap concat].
  rewrite run_app, <- IH, <- slot_pages_run by (pose proof (code_pages_range index); lia). unfold pages_of_slot at 1. cbn [fst snd].
  generalize (slot_pages (slot_at_frame f (slot_code_pages index)) (f + 4096)), (f + 12288).
  match goal with |- context [slots_from n ?i ?k] => generalize (slots_from n i k) end. intros l ps x.
  rewrite <- !app_assoc. apply Permutation_app_head. cbn [app]. symmetry. apply Permutation_middle.
Qed.

Lemma zip_with_fmaps {A B C D} (f : A -> B -> C) (h : D -> A) (k : D -> B) l :
  zip_with f (h <$> l) (k <$> l) = (fun x => f (h x) (k x)) <$> l.
Proof. induction l as [|x l IH]; [done|]. cbn. by rewrite IH. Qed.

Lemma boot_spaces a pg :
  has (slots_size 7 0) a -> Forall (is_page pg) (avail a) ->
  (forall s, s ∈ slots_from 7 0 a.(fa_next) -> slot_built pg s.1 s.2) ->
  spaces (avail (advance (slots_size 7 0) a))
    (userspace_init_memory ((fun s => slot_at_frame s.1 s.2) <$> slots_from 7 0 a.(fa_next)) (advance (slots_size 7 0) a) pg).
Proof.
  intros [[A1 A2 A3 A4] Hn] Hpg Hb. pose proof (slots_pages_run 7 0 a.(fa_next)) as Hrun.
  set (k := slots_size 7 0) in *. set (f := a.(fa_next)) in *.
  assert (Hav : avail a = run f k ++ avail (advance k a)).
  { unfold avail. rewrite !bump_run. cbn [advance fa_next fa_end]. fold f. rewrite <- run_app. f_equal. zlia. }
  assert (Hall : NoDup (avail a)) by (unfold avail; rewrite bump_run; apply run_nodup).
  rewrite Hav in Hall, Hpg. apply Forall_app in Hpg as [Hpg _]. apply list.NoDup_app in Hall as (Hnd & Hdis & Hav').
  set (l := slots_from 7 0 f) in *. exists ((fun s : Z * Z => s.1 + 4096) <$> l).
  assert (Eall : forall m, slots m = (fun s : Z * Z => slot_at_frame s.1 s.2) <$> l ->
    all_slot_pages ((fun s : Z * Z => s.1 + 4096) <$> l) m = concat (pages_of_slot <$> l)).
  { intros m Em. unfold all_slot_pages. by rewrite Em, zip_with_fmaps. }
  assert (Hsub : forall x, x ∈ concat (pages_of_slot <$> l) -> x ∈ run f k) by (intros x Hx; rewrite <- Hrun; apply elem_of_app; by left).
  rewrite <- Hrun in Hnd. apply list.NoDup_app in Hnd as (Hnd & _ & _). split.
  - by rewrite length_fmap.
  - change (length ((fun s : Z * Z => slot_at_frame s.1 s.2) <$> l) = 7%nat). by rewrite length_fmap.
  - rewrite Eall by done. apply list.NoDup_app. split; [done|]. split; [|done]. intros x Hx Hp. by apply (Hdis x (Hsub x Hp)).
  - rewrite Eall by done. apply list.Forall_forall. intros x Hx%Hsub. cbn [pages userspace_init_memory].
    rewrite list.Forall_forall in Hpg. pose proof (Hpg x Hx). apply run_in in Hx as (i & Hi & ->). clearbody k. split; [lia|]. split; [zlia|done].
  - intros i p t Hp Ht. change (((fun s : Z * Z => slot_at_frame s.1 s.2) <$> l) !! i = Some p) in Hp. rewrite list_lookup_fmap in Hp. rewrite list_lookup_fmap in Ht.
    destruct (l !! i) as [s|] eqn:Es; [|done]. injection Hp as <-. injection Ht as <-.
    apply list_elem_of_lookup_2 in Es. destruct (Hb s Es) as [high [I1 I2 I3 I4 I5]].
    pose proof (slots_bounds 7 0 f s Es) as _. cbn [pages process_memory_used userspace_init_memory].
    assert (Hc : 1 <= s.2 <= 48).
    { clear -Es. unfold l in Es. revert Es. generalize 7%nat 0 f. intros n. induction n as [|n IH]; intros ix f0; cbn [slots_from]; [set_solver|].
      rewrite elem_of_cons. intros [->|H]; [apply code_pages_range|by eapply IH]. }
    split; [|split].
    + split; cbn [slot_at_frame code_frames code_page_count heap_frames stack_frames]; rewrite ?run_length; try done; lia.
    + split; cbn [slot_at_frame address_space page_directory page_table]; [by rewrite I1|by rewrite I2|by rewrite I3].
    + intros H. change (replicate 8 false !! S i = Some true) in H. by apply lookup_replicate_1 in H as [? _].
Qed.

Lemma boot_slots_ready a pg :
  has (slots_size 7 0) a -> Forall (is_page pg) (avail a) ->
  (forall s, s ∈ slots_from 7 0 a.(fa_next) -> slot_built pg s.1 s.2) ->
  slots_ready ((fun s => slot_at_frame s.1 s.2) <$> slots_from 7 0 a.(fa_next)) (advance (slots_size 7 0) a) pg.
Proof.
  intros Ha Hpg Hb. pose proof (boot_spaces a pg Ha Hpg Hb) as Hsp. destruct Ha as [[A1 A2 A3 A4] Hn].
  set (k := slots_size 7 0) in *. set (f := a.(fa_next)) in *.
  assert (Hav : avail a = run f k ++ avail (advance k a)).
  { unfold avail. rewrite !bump_run. cbn [advance fa_next fa_end]. fold f. rewrite <- run_app. f_equal. zlia. }
  rewrite Hav in Hpg. apply Forall_app in Hpg as [Hpg1 Hpg2].
  assert (Hdir : forall x, x ∈ page_directory <$> ((fun s => slot_at_frame s.1 s.2) <$> slots_from 7 0 f) ->
    exists s, s ∈ slots_from 7 0 f /\ x = s.1 + 8192).
  { intros x (p & -> & (s & -> & Hs)%list_elem_of_fmap)%list_elem_of_fmap. by exists s. }
  assert (Hrun : forall s, s ∈ slots_from 7 0 f -> s.1 + 8192 ∈ run f k).
  { intros s Hs. apply slots_bounds in Hs as (H1 & H2 & q & H3). apply run_in. exists (q + 2). split; [|lia].
    pose proof (slot_tables_size s.2). fold k in H2. lia. }
  split.
  - done.
  - apply list.NoDup_app. split; [unfold avail; rewrite bump_run; apply run_nodup|]. split.
    + intros x Hx (s & Hs & ->)%Hdir. apply Hrun in Hs. unfold avail in Hx. rewrite bump_run in Hx.
      apply run_in in Hx as (i & Hi & E). apply run_in in Hs as (j & Hj & E'). cbn [advance fa_next] in E. fold f in E. lia.
    + rewrite <- list_fmap_compose. apply (slots_directories 7 0 f).
  - rewrite list.Forall_forall. intros x (s & Hs & ->)%Hdir. rewrite list.Forall_forall in Hpg1. apply Hpg1. by apply Hrun.
  - intros p i (s & -> & Hs)%list_elem_of_fmap Hi. cbn [slot_at_frame page_directory].
    destruct (Hb s Hs) as [high Hit]. rewrite (it_pd _ _ _ _ _ _ _ Hit) by lia.
    by rewrite (proj2 (Z.eqb_neq i 0)), (proj2 (Z.eqb_neq i 1)) by lia.
  - clearbody k. split; cbn [advance fa_next fa_end]; fold f; try lia. zlia.
  - done.
  - exact Hsp.
Qed.

(** ** Boot *)

(** What the boot code needs: frames for the slots, present in memory. *)
Record boot_ok (display : option Z) (kernel_pdpt : Z) (a : frame_allocator) (pg : phys) : Prop := {
  bo_frames : has (slots_size 7 0) a;
  bo_pages : Forall (is_page pg) (avail a);
  bo_shares : shares display kernel_pdpt a.(fa_next) pg
}.

Lemma boot_processes_ok display kernel_pdpt a pg :
  boot_ok display kernel_pdpt a pg ->
  exists ps pg', allocate_processes 7 0 display kernel_pdpt a pg = Some (Some ps, advance (slots_size 7 0) a, pg') /\
    ps = (fun s => slot_at_frame s.1 s.2) <$> slots_from 7 0 a.(fa_next) /\
    slots_ready ps (advance (slots_size 7 0) a) pg' /\
    forall s, s ∈ slots_from 7 0 a.(fa_next) -> slot_built pg' s.1 s.2.
Proof.
  intros [Hh Hpg Hsh].
  assert (Hsub : Forall (is_page pg) (run a.(fa_next) (slots_size 7 0))).
  { rewrite list.Forall_forall in *. intros x (k & Hk & ->)%run_in. apply Hpg. unfold avail. rewrite bump_run.
    apply run_in. exists k. split; [|done]. destruct Hh as [[? ? ? ?] ?]. set (n := slots_size 7 0) in *. clearbody n. zlia. }
  rewrite <- (Nat.add_0_r (slots_size 7 0)) in Hh.
  destruct (allocate_processes_ok display kernel_pdpt 7 0 0 a pg Hh Hsub Hsh) as (pg' & -> & _ & T & Hb).
  rewrite Nat.add_0_r in Hh. eexists _, pg'. split; [done|]. split; [done|]. split; [|done].
  apply boot_slots_ready; [done| |done]. revert Hpg. apply Forall_impl. intros x. by apply (touches_page _ _ _ _ T).
Qed.

(** ** What user code reaches *)

Lemma slot_aligned a s : allocator_ok a -> s ∈ slots_from 7 0 a.(fa_next) -> s.1 mod 4096 = 0.
Proof.
  intros [_ Ha _ _] Hs. apply slots_bounds in Hs as (_ & _ & q & E). zlia.
Qed.

(** C6. Every address space the boot code builds lets user code read and write all
    physical memory from 4 MiB to 1 GiB at its own address: the huge entries of
    [mako_build_identity_4m] carry the user bit. Only the first 4 MiB are kept for the
    kernel. So a process can rewrite every page directory, its own and the others'. *)
Theorem user_code_reaches_physical_memory display kernel_pdpt a pg :
  boot_ok display kernel_pdpt a pg ->
  exists ps a' pg', allocate_processes 7 0 display kernel_pdpt a pg = Some (Some ps, a', pg') /\ length ps = 7%nat /\
    forall p, p ∈ ps ->
      (forall va, 0 <= va < 4194304 -> translate pg' p.(address_space) va = Some (va, 2)) /\
      (forall va, 4194304 <= va < 1073741824 -> translate pg' p.(address_space) va = Some (va, USER_WRITE)) /\
      (forall q, q ∈ ps -> 4194304 <= q.(page_directory) < 1073741824 ->
         translate pg' p.(address_space) q.(page_directory) = Some (q.(page_directory), USER_WRITE)).
Proof.
  intros Hb. pose proof (proj1 (bo_frames _ _ _ _ Hb)) as Ha.
  destruct (boot_processes_ok display kernel_pdpt a pg Hb) as (ps & pg' & E & Eps & Hr & Hsb).
  exists ps, (advance (slots_size 7 0) a), pg'. split; [done|]. split; [apply Hr|]. rewrite Eps.
  intros p (s & -> & Hs)%list_elem_of_fmap. cbn [slot_at_frame address_space].
  destruct (Hsb s Hs) as [high Hit]. pose proof (slot_aligned a s Ha Hs) as Hal.
  assert (Hall : forall va, 0 <= va < 2 ^ 30 -> translate pg' s.1 va = Some (va, if va <? 4194304 then 2 else USER_WRITE)).
  { intros va Hva. eapply fresh_translation; [exact Hit|zlia..|done]. }
  split; [|split].
  - intros va Hva. rewrite Hall, (proj2 (Z.ltb_lt _ _)) by lia. done.
  - intros va Hva. rewrite Hall, (proj2 (Z.ltb_ge _ _)) by lia. done.
  - intros q Hq Hd. rewrite Hall, (proj2 (Z.ltb_ge _ _)) by lia. done.
Qed.

(** ** A concrete boot *)

(** Zeroed memory. *)
Definition blank_memory (l : list Z) : phys := foldr (fun p pg => <[p := replicate 512 0]> pg) ∅ l.
Lemma blank_page l p : p ∈ l -> is_page (blank_memory l) p.
Proof.
  intros Hp. exists (replicate 512 0). split; [|by rewrite length_replicate]. induction l as [|q l IH]; [by apply elem_of_nil in Hp|].
  cbn [blank_memory foldr]. destruct (decide (p = q)) as [->|Hne]; [by rewrite lookup_insert_eq|].
  rewrite lookup_insert_ne by done. apply IH. by apply elem_of_cons in Hp as [?|?].
Qed.

Definition ram : frame_allocator := FrameAllocator 8388608 (8388608 + 4096 * 1200).
Definition ram_pages : phys := blank_memory (avail ram).
Lemma ram_boots : boot_ok None 0 ram ram_pages.
Proof.
  split; [split; [split; vm_compute; congruence|]|rewrite list.Forall_forall; intros x; apply blank_page|done].
  assert (E : slots_size 7 0 = 1102%nat) by (vm_compute; reflexivity). rewrite E. cbn [ram fa_end fa_next]. lia.
Qed.

Lemma user_code_reaches_physical_memory_witness : exists ps a' pg' p,
  allocate_processes 7 0 None 0 ram ram_pages = Some (Some ps, a', pg') /\ p ∈ ps /\
  translate pg' p.(address_space) 16777216 = Some (16777216, 6).
Proof.
  destruct (user_code_reaches_physical_memory None 0 ram ram_pages ram_boots) as (ps & a' & pg' & E & Hl & H).
  destruct ps as [|p ps]; [done|]. exists (p :: ps), a', pg', p. split; [exact E|]. split; [by left|].
  exact (proj1 (proj2 (H p ltac:(by left))) 16777216 ltac:(lia)).
Defined.

(** ** The anonymous window *)

(** What an address between [USER_ANON_BASE] and [USER_SURFACE_MAP_BASE] translates to,
    in the space of a process whose region has the pages [F] (frame and flags): its
    pages to their frames, the rest of the last page table to nothing, and all beyond
    to itself, through the huge entries of the boot code. *)
Definition window (F : list (Z * Z)) (va : Z) : option (Z * Z) :=
  let i := (va - USER_ANON_BASE) / 4096 in
  match F.[i] with
  | Some (f, fl) => Some (f + va mod 4096, Z.land fl USER_WRITE)
  | None => if i / 512 <? tables_for (Z.of_nat (length F)) then None else Some (va, USER_WRITE)
  end.

Section window.
Context (total : list Z) (m : user_memory) (L : list Z) (g : list own) (Hi : frames_inv total m L g).

Lemma owned_frame_in pid o i f fl : g.[pid] = Some o -> o.(o_frames).[i] = Some (f, fl) -> f ∈ own_frames o /\ f ∈ all_owned g.
Proof.
  intros Hg Hf. assert (Hin : f ∈ own_frames o).
  { unfold own_frames. apply elem_of_app. right. apply elem_of_app. left. apply list_elem_of_fmap. exists (f, fl).
    split; [done|]. apply aget_Some in Hf as [_ Hf]. by apply list_elem_of_lookup_2 in Hf. }
  split; [done|]. apply (concat_in own_frames g o); [by eapply in_owners|done].
Qed.

Lemma window_translation pid p o va :
  1 <= pid < 8 -> m.(process_memory).[pid] = Some p -> g.[pid] = Some o -> USER_ANON_BASE <= va < USER_SURFACE_MAP_BASE ->
  translate m.(pages) p.(address_space) va = window o.(o_frames) va.
Proof.
  intros Hpid Hp Ho Hva. unfold USER_ANON_BASE, USER_SURFACE_MAP_BASE in Hva.
  destruct (space_chain total m L g Hi pid p Hpid Hp) as (t3 & W1 & W2 & _ & _ & _ & Hall).
  unfold slot_tables in Hall. rewrite !list.Forall_cons in Hall. destruct Hall as (_ & [_ A3] & [_ A2] & _).
  destruct (fi_owned _ _ _ _ Hi pid o ltac:(lia) Ho) as (d & Hd & [_ _ [[[D P I] _ _ R] Hlen] _ _ _]).
  assert (d = p.(page_directory)) as -> by (unfold directory_of in Hd; rewrite Hp in Hd; by injection Hd as <-).
  set (T := o.(o_tables)) in *. set (F := o.(o_frames)) in *. set (d := p.(page_directory)) in *.
  pose proof (fi_frames _ _ _ _ Hi) as Hfr. rewrite list.Forall_forall in Hfr.
  assert (Hal : forall x, x ∈ own_frames o -> x mod 4096 = 0).
  { intros x Hx. destruct (Hfr x) as (_ & ? & _); [|done]. apply elem_of_app. right. by apply (concat_in own_frames g o); [by eapply in_owners|]. }
  unfold window. set (i := (va - USER_ANON_BASE) / 4096). unfold USER_ANON_BASE in i.
  assert (Hdir : va / 2 ^ 21 = ANON_INDEX + i / 512) by (change (2 ^ 21) with 2097152; unfold ANON_INDEX, i; zlia).
  assert (Hlow : va / 4096 mod 512 = i mod 512) by (unfold i; zlia).
  assert (Hi0 : 0 <= i < 64 * 512) by (unfold i; zlia).
  assert (HtT : forall t, T.[i / 512] = Some t -> t mod 4096 = 0).
  { intros t [_ Ht]%aget_Some. apply Hal. unfold own_frames. apply elem_of_app. left. by apply list_elem_of_lookup_2 in Ht. }
  destruct F.[i] as [[f fl]|] eqn:Ef.
  - destruct (P i f fl ltac:(lia) Ef) as (t & Ht & Hw & Hfl).
    rewrite (translate_page _ _ t3 d t f fl va); try done; try lia; try (by eapply HtT).
    + rewrite Hdir. by apply D; [zlia|].
    + by rewrite Hlow.
    + apply Hal. by apply (owned_frame_in pid o i f fl).
  - assert (HF : Z.of_nat (length F) <= i) by (destruct (decide (i < Z.of_nat (length F))); [destruct (aget_in F i) as [? ?]; [lia|congruence]|lia]).
    unfold tables_for. rewrite <- Hlen. destruct (Z.ltb_spec (i / 512) (Z.of_nat (length T))).
    + destruct (aget_in T (i / 512)) as [t Ht]; [zlia|].
      apply (walk_absent _ _ t3 d t); try done; try lia; try (by eapply HtT).
      * rewrite Hdir. by apply D; [zlia|].
      * rewrite Hlow. apply (R (i / 512)); [done|zlia|zlia].
    + apply (translate_identity _ _ t3 d); try done; try lia. rewrite Hdir. apply I; zlia.
Qed.

End window.

(** The frame in which the processor finds page [i] of the anonymous region of [pid]. *)
Definition region_page (m : user_memory) (pid i : Z) : option Z :=
  count ← m.(anonymous_page_count).[pid]; p ← m.(process_memory).[pid];
  if (0 <=? i) && (i <? count) then fst <$> translate m.(pages) p.(address_space) (USER_ANON_BASE + 4096 * i) else None.

(** The pages of the anonymous regions: all mapped, no two in one frame, and none in
    an available frame, a page directory, or the code, heap or stack of a process. *)
Record isolated (m : user_memory) (L : list Z) : Prop := {
  is_mapped : forall p count i, 1 <= p < 8 -> m.(anonymous_page_count).[p] = Some count -> 0 <= i < count -> is_Some (region_page m p i);
  is_own : forall p q i j f, 1 <= p < 8 -> 1 <= q < 8 -> region_page m p i = Some f -> region_page m q j = Some f -> p = q /\ i = j;
  is_apart : forall p i f, 1 <= p < 8 -> region_page m p i = Some f -> f ∉ L /\ f ∉ directories m /\ f ∉ concat (slot_frames <$> slots m)
}.

Lemma region_page_frame total m L g pid o :
  frames_inv total m L g -> 1 <= pid < 8 -> g.[pid] = Some o ->
  m.(anonymous_page_count).[pid] = Some (Z.of_nat (length o.(o_frames))) /\
  forall i, region_page m pid i = fst <$> o.(o_frames).[i].
Proof.
  intros Hi Hpid Ho. destruct (fi_owned _ _ _ _ Hi pid o ltac:(lia) Ho) as (d & Hd & Hown).
  pose proof (owned_count _ _ _ _ Hown) as Hc. split; [done|]. intros i. unfold region_page. rewrite Hc. cbn [mbind option_bind].
  unfold directory_of in Hd. destruct (m.(process_memory).[pid]) as [p|] eqn:Ep; [|done]. cbn [mbind option_bind].
  destruct (decide (0 <= i < Z.of_nat (length o.(o_frames)))) as [Hb|Hb].
  - destruct Hown as [_ _ [[_ _ Hs _] _] _ _ _].
    rewrite (proj2 (Z.leb_le _ _)), (proj2 (Z.ltb_lt _ _)) by lia. cbn [andb].
    rewrite (window_translation total m L g Hi pid p o) by (done || (unfold USER_ANON_BASE, USER_SURFACE_MAP_BASE; lia)).
    unfold window. replace ((USER_ANON_BASE + 4096 * i - USER_ANON_BASE) / 4096) with i by (unfold USER_ANON_BASE; zlia).
    destruct (aget_in o.(o_frames) i Hb) as [[f fl] ->]. cbn. f_equal. unfold USER_ANON_BASE. zlia.
  - assert ((0 <=? i) && (i <? Z.of_nat (length o.(o_frames))) = false) as ->.
    { apply andb_false_iff. destruct (Z.leb_spec 0 i); [right; apply Z.ltb_ge; lia|by left]. }
    destruct (o.(o_frames).[i]) as [e|] eqn:E; [|done]. by apply aget_bound in E.
Qed.

Lemma frames_isolated frames m L g : frames_inv frames m L g -> isolated m L.
Proof.
  intros Hi.
  assert (Hown : forall p, 1 <= p < 8 -> exists o, g.[p] = Some o) by (intros p Hp; apply aget_in; rewrite (fi_owners _ _ _ _ Hi); lia).
  assert (Hleaf : forall p i f, 1 <= p < 8 -> region_page m p i = Some f ->
    exists o fl, g.[p] = Some o /\ o.(o_frames).[i] = Some (f, fl)).
  { intros p i f Hp Hf. destruct (Hown p Hp) as [o Ho]. destruct (region_page_frame _ _ _ _ p o Hi Hp Ho) as [_ E].
    rewrite E in Hf. destruct (o.(o_frames).[i]) as [[f' fl]|] eqn:Ef; [|done]. injection Hf as <-. by exists o, fl. }
  pose proof (fi_distinct _ _ _ _ Hi) as Hn. apply list.NoDup_app in Hn as (Hn & Hnd & _).
  apply list.NoDup_app in Hn as (_ & HnL & HnO). split.
  - intros p count i Hp Hc Hb. destruct (Hown p Hp) as [o Ho]. destruct (region_page_frame _ _ _ _ p o Hi Hp Ho) as [Hc' ->].
    assert (count = Z.of_nat (length o.(o_frames))) as -> by congruence.
    destruct (aget_in o.(o_frames) i Hb) as [e ->]. by eexists.
  - intros p q i j f Hp Hq Hf Hf'.
    destruct (Hleaf p i f Hp Hf) as (o & fl & Ho & Hfo). destruct (Hleaf q j f Hq Hf') as (o' & fl' & Ho' & Hfo').
    destruct (decide (p = q)) as [->|Hpq].
    + split; [done|]. assert (o' = o) as -> by congruence.
      destruct (frames_focus _ _ _ _ q Hi Hq) as (d & o2 & R & Ho2 & [_ _ (F3 & _ & _) _ _ _]). assert (o2 = o) as -> by congruence.
      apply list.NoDup_cons in F3 as [_ F3]. apply list.NoDup_app in F3 as (_ & _ & F3). unfold own_frames in F3.
      apply list.NoDup_app in F3 as (_ & _ & F3). apply list.NoDup_app in F3 as (F3 & _ & _).
      apply aget_Some in Hfo as [Hi0 Hfo], Hfo' as [Hj0 Hfo'].
      assert (Z.to_nat i = Z.to_nat j); [|lia]. eapply NoDup_lookup; [exact F3|rewrite list_lookup_fmap, Hfo; done|].
      by rewrite list_lookup_fmap, Hfo'.
    + exfalso. destruct (frames_focus _ _ _ _ p Hi Hp) as (d & o2 & R & Ho2 & [_ _ _ F4 _ F6]). assert (o2 = o) as -> by congruence.
      destruct (owned_frame_in g _ _ _ _ _ Ho Hfo) as [Hin _]. destruct (owned_frame_in g _ _ _ _ _ Ho' Hfo') as [Hin' _].
      pose proof Ho' as Hg'. apply aget_Some in Hg' as [_ Hg'].
      assert (HR : f ∈ R) by (apply (F6 (Z.to_nat q) o'); [lia|done..]).
      rewrite F4 in HnO. apply list.NoDup_app in HnO as (_ & Hd & _). by apply (Hd f).
  - intros p i f Hp Hf. destruct (Hleaf p i f Hp Hf) as (o & fl & Ho & Hfo).
    destruct (owned_frame_in g _ _ _ _ _ Ho Hfo) as [_ Hin]. split_and!.
    + intros HL. by apply (HnL f).
    + apply Hnd. apply elem_of_app. by right.
    + intros Hs. apply (slot_frames_outside _ _ _ _ Hi f Hs). apply elem_of_app. by right.
Qed.


Definition demo_ops : list (Z * memory_op) :=
  [(1, MemMap 20000); (2, MemReserve 40960); (2, MemCommit 8192 false); (1, MemMapSurface 0 1); (1, MemRelease); (2, MemTeardown)].
Lemma demo_ops_ok : ops_ok demo_ops.
Proof. unfold ops_ok, demo_ops. repeat (constructor; [cbn; unfold is_u64; lia|]). constructor. Qed.

