(* ===== verification/AnonymousTheorems.v ===== *)
(** When the calls on anonymous memory succeed, and what the page tables map
    afterwards, stated over the joint invariant. *)

From stdpp Require Import gmap.
From S2P Require Import Prelude Surface SurfaceSpec Capability CapabilitySpec UserMemory UserMemorySpec.
From S2P Require Import PhysicalMemory FramePool Paging FrameOwnership AnonymousSpec FrameInvariant SurfaceMapSpec PagingSpec MemoryInvariant SurfaceMapping MemoryTheorems BootMemory.

(** As many frames are available after an exchange that keeps the size of the
    region. *)
Lemma exchange_count pid d r L T F m m' r' L' T' F' :
  region m pid d r L T F -> exchange pid d r L T F m m' r' L' T' F' -> length F' = length F -> length L' = length L.
Proof.
  intros Hrg Hex Hl. pose proof (Permutation_length (ex_perm _ _ _ _ _ _ _ _ _ _ _ _ Hex)) as Hp.
  rewrite !length_app, !length_fmap in Hp.
  pose proof (proj2 (rg_anon _ _ _ _ _ _ _ Hrg)) as H1. pose proof (proj2 (rg_anon _ _ _ _ _ _ _ (ex_region _ _ _ _ _ _ _ _ _ _ _ _ Hex))) as H2.
  rewrite Hl in H2. lia.
Qed.

(** What an operation on the region of [pid] changes: nothing of the other processes;
    of memory only frames that were available, the region's page tables [T], and the
    entries of the window in the directory; and in the window the process now has the
    pages [F], each in a frame of its own. *)
Record region_changed (pid : Z) (p : userspace_memory) (L T : list Z) (F : list (Z * Z)) (m m' : user_memory) : Prop := {
  rc_others : others_same pid m m';
  rc_pages : touches (p.(page_directory) :: L ++ T) m.(pages) m'.(pages);
  rc_directory : forall i, i < ANON_INDEX \/ SURFACE_INDEX <= i -> word m'.(pages) p.(page_directory) i = word m.(pages) p.(page_directory) i;
  rc_distinct : NoDup F.*1;
  rc_window : forall va, USER_ANON_BASE <= va < USER_SURFACE_MAP_BASE -> translate m'.(pages) p.(address_space) va = window F va
}.

Section calls.
Context (frames a : list Z) (c : caps) (s : surfaces) (m : user_memory) (L : list Z) (g : list own) (pid : Z) (p : userspace_memory) (o : own) (r : Z).
Context (Hm : mem_ok frames a c s m L g) (Hpid : 1 <= pid < 8) (Hp : m.(process_memory).[pid] = Some p) (Ho : g.[pid] = Some o)
  (Hr : m.(anonymous_reserved_pages).[pid] = Some r).

(** The state of the region that the calls start from. *)
Lemma region_now : region m pid p.(page_directory) r L o.(o_tables) o.(o_frames) /\ reservation_ok r o.(o_frames).
Proof using Hm Hpid Hp Ho Hr.
  pose proof (mo_frames _ _ _ _ _ _ _ Hm) as Hi. destruct (frames_focus _ _ _ _ pid Hi Hpid) as (d & o' & R & Ho' & Hf).
  assert (o' = o) as -> by congruence. destruct (focus_region _ _ _ _ _ _ _ _ Hi Hf) as (r0 & Hrg & Hres).
  assert (r0 = r) as -> by (pose proof (rg_reserved _ _ _ _ _ _ _ Hrg); congruence).
  pose proof (rg_dir _ _ _ _ _ _ _ Hrg) as Hd. unfold directory_of in Hd. rewrite Hp in Hd. injection Hd as <-. done.
Qed.

Lemma exchange_changed r' L' T' F' m' :
  exchange pid p.(page_directory) r L o.(o_tables) o.(o_frames) m m' r' L' T' F' ->
  touches (p.(page_directory) :: L ++ o.(o_tables)) m.(pages) m'.(pages) ->
  mem_ok frames a c s m' L' (<[Z.to_nat pid := Own T' F' o.(o_large) o.(o_surface)]> g) /\
  region_changed pid p L o.(o_tables) F' m m'.
Proof using Hm Hpid Hp Ho.
  intros Hex Ht. destruct (frames_focus _ _ _ _ pid (mo_frames _ _ _ _ _ _ _ Hm) Hpid) as (d & o' & R & Ho' & Hf).
  assert (o' = o) as -> by congruence. assert (d = p.(page_directory)) as ->.
  { pose proof (fc_dir _ _ _ _ _ _ _ _ Hf) as Hd. unfold directory_of in Hd. rewrite Hp in Hd. by injection Hd. }
  destruct (exchange_mem frames a c s m L g pid _ o R r m' r' L' T' F' Hm Hpid Ho Hf Hex) as [Hm' [Hos _]].
  split; [done|]. split; [done|done|apply (ex_moves _ _ _ _ _ _ _ _ _ _ _ _ Hex)| |].
  - destruct (rg_apart _ _ _ _ _ _ _ (ex_region _ _ _ _ _ _ _ _ _ _ _ _ Hex)) as (Hn & _).
    apply list.NoDup_cons in Hn as [_ Hn]. apply list.NoDup_app in Hn as (_ & _ & Hn). by apply list.NoDup_app in Hn as (_ & _ & Hn).
  - intros va. apply (window_translation _ _ _ _ (mo_frames _ _ _ _ _ _ _ Hm') pid p (Own T' F' o.(o_large) o.(o_surface))); [done| |].
    + by rewrite (os_process _ _ _ Hos).
    + rewrite aget_insert by (by eapply aget_bound). by rewrite decide_True.
Qed.

(** C7. [anonymous_map] is exact: a process gets the region it asks for exactly when
    the size is between one byte and 24 MiB, it has neither a region nor a reservation,
    and the frames left suffice for its pages and their tables. Then each page of the
    region translates to a frame of its own with the right to write, the rest of its
    last page table to nothing, and the addresses beyond to themselves through the huge
    entries of the boot code, as before; otherwise the call fails, the region is what
    it was and as many frames are available as before. Nothing of another process
    changes, and no page is written but the directory and frames that were available. *)
Theorem anonymous_map_exact n (Hn : is_u64 n) :
  let ok := map_fits n r L o.(o_frames) in
  exists m' L' T' F', anonymous_map pid n m = Some (if ok then USER_ANON_BASE else U64_MAX, m') /\
    mem_ok frames a c s m' L' (<[Z.to_nat pid := Own T' F' o.(o_large) o.(o_surface)]> g) /\
    region_changed pid p L o.(o_tables) F' m m' /\
    if ok then Z.of_nat (length F') = pages_of n /\ Forall (fun e => e.2 = 7) F'
    else F' = o.(o_frames) /\ length L' = length L.
Proof using Hm Hpid Hp Ho Hr.
  intros ok. destruct region_now as [Hrg Hres].
  destruct (anonymous_map_ok m pid _ r L _ _ n Hrg Hres Hpid Hn) as (m' & r' & L' & T' & F' & E & Hex & Ht & Hout). fold ok in E, Hout.
  destruct (exchange_changed _ _ _ _ _ Hex Ht) as [Hm' Hc]. exists m', L', T', F'. do 3 (split; [done|]). destruct ok; [naive_solver|].
  destruct Hout as [-> _]. split; [done|]. by eapply exchange_count.
Qed.

(** C8. [anonymous_commit] is exact: within a reservation, the next pages are committed
    exactly when they fit in it and the frames left suffice, at the address where the
    region ended. The new pages follow the old ones, which keep their frames and
    rights, each in a frame of its own and with the write bit exactly when it was asked
    for. A call that asks for too much commits nothing; one that runs out of frames
    keeps as many pages as the frames allowed, exactly. *)
Theorem anonymous_commit_exact n writable (Hn : is_u64 n) :
  let k := Z.of_nat (length o.(o_frames)) in
  exists m' L' T' new,
    anonymous_commit pid n writable m = Some (if commit_fits n r L o.(o_frames) then USER_ANON_BASE + k * 4096 else U64_MAX, m') /\
    mem_ok frames a c s m' L' (<[Z.to_nat pid := Own T' (o.(o_frames) ++ new) o.(o_large) o.(o_surface)]> g) /\
    region_changed pid p L o.(o_tables) (o.(o_frames) ++ new) m m' /\
    Forall (fun e => e.2 = if writable then 7 else 5) new /\
    if commit_fits n r L o.(o_frames) then Z.of_nat (length new) = pages_of n
    else committed n r L o.(o_frames) (Z.of_nat (length new)).
Proof using Hm Hpid Hp Ho Hr.
  intros k. destruct region_now as [Hrg Hres].
  destruct (anonymous_commit_ok m pid _ r L _ _ n writable Hrg Hres Hpid Hn) as (m' & L' & T' & new & E & Hex & Ht & Hfl & Hc).
  destruct (exchange_changed _ _ _ _ _ Hex Ht) as [Hm' Hch]. exists m', L', T', new. do 4 (split; [done|]).
  destruct (commit_fits _ _ _ _) eqn:Ef; [|done]. unfold commit_fits, committed in *. apply andb_true_iff in Ef as [Ea Ef%Z.leb_le].
  rewrite Ea in Hc. destruct Hc as (Hb & _ & Hmax). destruct (decide (Z.of_nat (length new) < pages_of n)) as [Hlt|]; [exfalso|lia].
  specialize (Hmax Hlt). assert (Hmono : frames_for (Z.of_nat (length o.(o_frames))) (Z.of_nat (length new) + 1) <= frames_for (Z.of_nat (length o.(o_frames))) (pages_of n)).
  { unfold frames_for, tables_for. zlia. }
  lia.
Qed.
End calls.

(** Boot on the memory of the other witnesses. *)
Lemma ram_memory : exists ps pg',
  allocate_processes 7 0 None 0 ram ram_pages = Some (Some ps, advance (slots_size 7 0) ram, pg') /\
  mem_ok (avail (advance (slots_size 7 0) ram)) (replicate 0 0) capabilities_init (fresh 0)
    (userspace_init_memory ps (advance (slots_size 7 0) ram) pg') (avail (advance (slots_size 7 0) ram)) (replicate 8 no_frames).
Proof.
  destruct (boot_processes_ok None 0 ram ram_pages ram_boots) as (ps & pg' & E & _ & Hr & _).
  exists ps, pg'. split; [exact E|]. by apply fresh_mem.
Qed.

(** Process 1 of that memory. *)
Lemma process_one frames a c s m L g : mem_ok frames a c s m L g -> exists p, m.(process_memory).[1] = Some p.
Proof. intros Hm. apply aget_in. rewrite (ma_process _ (fi_arrays _ _ _ _ (mo_frames _ _ _ _ _ _ _ Hm))). lia. Qed.

Lemma anonymous_map_exact_witness : exists ps a' pg' p m' F,
  allocate_processes 7 0 None 0 ram ram_pages = Some (Some ps, a', pg') /\
  anonymous_map 1 20000 (userspace_init_memory ps a' pg') = Some (USER_ANON_BASE, m') /\ length F = 5%nat /\
  translate m'.(pages) p.(address_space) (USER_ANON_BASE + 4097) = window F (USER_ANON_BASE + 4097).
Proof.
  destruct ram_memory as (ps & pg' & E & Hm). destruct (process_one _ _ _ _ _ _ _ Hm) as [p Hp].
  destruct (anonymous_map_exact _ _ _ _ _ _ _ 1 p no_frames 0 Hm ltac:(lia) Hp eq_refl eq_refl 20000) as (m' & L' & T' & F & E' & _ & Hc & Hl);
    [unfold is_u64; lia|].
  assert (map_fits 20000 0 (avail (advance (slots_size 7 0) ram)) no_frames.(o_frames) = true) as Hf by (vm_compute; reflexivity).
  rewrite Hf in E', Hl. exists ps, (advance (slots_size 7 0) ram), pg', p, m', F. split; [exact E|]. split; [exact E'|]. split.
  - destruct Hl as [Hl _]. change (pages_of 20000) with 5 in Hl. lia.
  - apply (rc_window _ _ _ _ _ _ _ Hc). unfold USER_ANON_BASE, USER_SURFACE_MAP_BASE. lia.
Defined.

Lemma anonymous_commit_exact_witness : exists ps a' pg' m1 m2,
  allocate_processes 7 0 None 0 ram ram_pages = Some (Some ps, a', pg') /\
  anonymous_reserve 1 40960 (userspace_init_memory ps a' pg') = Some (USER_ANON_BASE, m1) /\
  anonymous_commit 1 8192 false m1 = Some (USER_ANON_BASE, m2).
Proof.
  destruct ram_memory as (ps & pg' & E & Hm). destruct (process_one _ _ _ _ _ _ _ Hm) as [p Hp].
  destruct (region_now _ _ _ _ _ _ _ 1 p no_frames 0 Hm ltac:(lia) Hp eq_refl eq_refl) as [Hrg Hres].
  destruct (anonymous_reserve_ok _ 1 _ 0 _ _ _ 40960 Hrg Hres ltac:(lia)) as (m1 & r & E1 & Hex & ->); [unfold is_u64; lia|].
  destruct (exchange_changed _ _ _ _ _ _ _ 1 p no_frames 0 Hm ltac:(lia) Hp eq_refl _ _ _ _ _ Hex) as [Hm1 Hc1].
  { pose proof (ex_moves _ _ _ _ _ _ _ _ _ _ _ _ Hex) as [_ Ht _]. revert Ht. cbn [no_frames o_tables o_frames fmap list_fmap]. by rewrite !app_nil_r. }
  assert (Hp1 : m1.(process_memory).[1] = Some p) by (rewrite (os_process _ _ _ (rc_others _ _ _ _ _ _ _ Hc1)); exact Hp).
  pose proof (rg_reserved _ _ _ _ _ _ _ (ex_region _ _ _ _ _ _ _ _ _ _ _ _ Hex)) as Hr1.
  destruct (anonymous_commit_exact _ _ _ _ _ _ _ 1 p no_frames _ Hm1 ltac:(lia) Hp1 eq_refl Hr1 8192 false) as (m2 & L2 & T2 & new & E2 & _);
    [unfold is_u64; lia|].
  assert (commit_fits 8192 (pages_of 40960) (avail (advance (slots_size 7 0) ram)) no_frames.(o_frames) = true) as Hf by (vm_compute; reflexivity).
  rewrite Hf in E2. assert (reserve_fits 40960 0 no_frames.(o_frames) = true) as Hf1 by (vm_compute; reflexivity). rewrite Hf1 in E1.
  exists ps, (advance (slots_size 7 0) ram), pg', m1, m2. exact (conj E (conj E1 E2)).
Defined.
