(* ===== verification/Kernel.v ===== *)
(** Where the components meet: the operations of [src/ipc.c] and [src/input.c]
    that resolve capabilities, copy into the memory of waiting processes and
    wake them, the release of a process, and the IPC system calls of
    [src/arch/x86_64/userspace.c]. The joint state is the scheduler and the
    record of the other subsystems. *)

From stdpp Require Import gmap.
From S2P Require Import Prelude LittleEndian Surface Capability Input Ipc PhysicalMemory UserMemory Scheduler.

Record subsystems := Subsystems {
  w_caps : caps; w_surfaces : surfaces; w_ipc : ipc_state; w_input : input_state;
  w_memory : user_memory
}.
Definition set_caps (c : caps) (w : subsystems) : subsystems :=
  Subsystems c w.(w_surfaces) w.(w_ipc) w.(w_input) w.(w_memory).
Definition set_surfaces (s : surfaces) (w : subsystems) : subsystems :=
  Subsystems w.(w_caps) s w.(w_ipc) w.(w_input) w.(w_memory).
Definition set_ipc (i : ipc_state) (w : subsystems) : subsystems :=
  Subsystems w.(w_caps) w.(w_surfaces) i w.(w_input) w.(w_memory).
Definition set_input (i : input_state) (w : subsystems) : subsystems :=
  Subsystems w.(w_caps) w.(w_surfaces) w.(w_ipc) i w.(w_memory).
Definition set_memory (m : user_memory) (w : subsystems) : subsystems :=
  Subsystems w.(w_caps) w.(w_surfaces) w.(w_ipc) w.(w_input) m.

Definition w_ipc_cancel (p : Z) (w : subsystems) : subsystems :=
  set_ipc (ipc_cancel_wait p w.(w_ipc)).2 w.
Definition w_input_cancel (p : Z) (w : subsystems) : subsystems :=
  set_input (input_cancel_wait p w.(w_input)).2 w.
Definition w_drop (w : subsystems) : subsystems := set_ipc (count_ipc 0 0 1 w.(w_ipc)) w.
Definition put_channel (c : ipc_channel) (w : subsystems) : option subsystems :=
  i ← set_channel c.(Ipc.id) c w.(w_ipc); Some (set_ipc i w).

(** ** Channels *)

Definition resolve_channel (pid handle right : Z) (w : subsystems)
  : option (option ipc_channel * subsystems) :=
  '(r, c) ← capability_resolve_object pid handle right w.(w_caps);
  let w := set_caps c w in
  match r with
  | None => Some (None, w)
  | Some (svc, obj) =>
      if negb (svc =? CAPABILITY_SERVICE_IPC) then Some (None, w) else
      c ← by_id obj w.(w_ipc); Some (c, w)
  end.

Definition bad_name (pid length_ : Z) : bool :=
  (pid =? 0) || (length_ =? 0) || (IPC_NAME_MAX <=? length_).

Definition ipc_create (owner_pid : Z) (nm : option (list Z)) (length_ : Z) (w : subsystems)
  : option (Z * subsystems) :=
  match nm with
  | None => Some (U64_MAX, w)
  | Some nm =>
      if bad_name owner_pid length_ then Some (U64_MAX, w) else
      same ← find_name w.(w_ipc).(channels) nm length_;
      match same with
      | Some _ => Some (U64_MAX, w)
      | None =>
          match list_find (fun c => c.(Ipc.active) = false) w.(w_ipc).(channels) with
          | None => Some (U64_MAX, w)
          | Some (i, _) =>
              c ← new_channel (Z.of_nat i + 1) owner_pid nm length_;
              w ← put_channel c w;
              '(handle, cp) ← capability_open_ipc owner_pid c.(Ipc.id)
                (Z.lor (Z.lor CAPABILITY_RIGHT_SEND CAPABILITY_RIGHT_RECEIVE) CAPABILITY_RIGHT_QUERY)
                w.(w_caps);
              let w := set_caps cp w in
              if handle =? U64_MAX then
                w ← put_channel (set_active false c) w; Some (handle, w)
              else Some (handle, w)
          end
      end
  end.

Definition ipc_connect (pid : Z) (nm : option (list Z)) (length_ : Z) (w : subsystems)
  : option (Z * subsystems) :=
  match nm with
  | None => Some (U64_MAX, w)
  | Some nm =>
      if bad_name pid length_ then Some (U64_MAX, w) else
      same ← find_name w.(w_ipc).(channels) nm length_;
      match same with
      | None => Some (U64_MAX, w)
      | Some c =>
          '(handle, cp) ← capability_open_ipc pid c.(Ipc.id)
            (Z.lor CAPABILITY_RIGHT_SEND CAPABILITY_RIGHT_QUERY) w.(w_caps);
          Some (handle, set_caps cp w)
      end
  end.

(** ** Sending *)

(** Delivery to the process waiting on channel [c]. *)
Definition deliver (c : ipc_channel) (pid : Z) (data : list Z) (length_ : Z) (s : sched) (w : subsystems)
  : option (Z * sched * subsystems) :=
  let wt := c.(Ipc.waiter) in
  w ← put_channel (set_cwaiter (stop_waiter wt) c) w;
  let w := if wt.(w_multiplex) then w_input_cancel wt.(w_pid) w else w in
  let result := if wt.(w_multiplex) then 1 else length_ in
  let detail := if wt.(w_multiplex) then length_ else pid in
  if wt.(w_capacity) <? length_ then Some (0, s, w_drop w) else
  '(ok, m) ← userspace_copy_to s.(current_pid) wt.(w_pid) wt.(w_address) (Some data) length_ w.(w_memory);
  let w := set_memory m w in
  if negb ok then Some (0, s, w_drop w) else
  '(ok, s) ← scheduler_wake wt.(w_pid) result detail s;
  if negb ok then Some (0, s, w_drop w) else
  Some (1, s, set_ipc (count_ipc 1 1 0 w.(w_ipc)) w).

(** 1: delivered, 0: failed or dropped, 2: parked. *)
Definition ipc_send_impl (pid handle : Z) (data : option (list Z)) (length_ : Z) (block : bool)
    (s : sched) (w : subsystems) : option (Z * sched * subsystems) :=
  '(c, w) ← resolve_channel pid handle CAPABILITY_RIGHT_SEND w;
  match c, data with
  | Some c, Some data =>
      if (length_ =? 0) || (IPC_MESSAGE_MAX <? length_) then Some (0, s, w) else
      if c.(Ipc.waiter).(w_active) then deliver c pid data length_ s w else
      if c.(qcount) =? IPC_QUEUE_DEPTH then
        if negb block || c.(sender).(s_active) then Some (0, s, w_drop w) else
        c ← park pid data length_ c; w ← put_channel c w; Some (2, s, w)
      else
        c ← push_message pid data length_ c; w ← put_channel c w;
        Some (1, s, set_ipc (count_ipc 1 0 0 w.(w_ipc)) w)
  | _, _ => Some (0, s, w)
  end.

Definition ipc_send (pid handle : Z) (data : option (list Z)) (length_ : Z) (s : sched) (w : subsystems)
  : option (bool * sched * subsystems) :=
  '(r, s, w) ← ipc_send_impl pid handle data length_ false s w; Some (r =? 1, s, w).
Definition ipc_send_block (pid handle : Z) (data : option (list Z)) (length_ : Z)
    (s : sched) (w : subsystems) : option (Z * sched * subsystems) :=
  ipc_send_impl pid handle data length_ true s w.

(** ** Receiving *)

(** A parked message moves into the slot just freed, and its sender wakes. *)
Definition hand_over (c : ipc_channel) (s : sched) : option (ipc_channel * sched) :=
  let parked := c.(sender) in
  if negb parked.(s_active) then Some (c, s) else
  c ← push_message parked.(s_pid) parked.(s_data) parked.(s_length)
        (set_sender (stop_sender parked) c);
  '(_, s) ← scheduler_wake parked.(s_pid) parked.(s_length) 0 s;
  Some (c, s).

(** [out] is the caller's buffer; the result is the length, the sender and the
    buffer. *)
Definition ipc_receive (pid handle : Z) (out : option (list Z)) (capacity : Z) (s : sched) (w : subsystems)
  : option (option (Z * Z * list Z) * sched * subsystems) :=
  '(c, w) ← resolve_channel pid handle CAPABILITY_RIGHT_RECEIVE w;
  match c, out with
  | Some c, Some out =>
      if c.(qcount) =? 0 then Some (None, s, w) else
      '(m, c) ← pop_message c;
      if capacity <? m.(m_length) then Some (None, s, w) else
      out ← copy_into out 0 m.(m_data) 0 (Z.to_nat m.(m_length));
      '(c, s) ← hand_over c s;
      w ← put_channel c w;
      Some (Some (m.(m_length), m.(m_sender), out), s,
            set_ipc (count_ipc 0 1 0 w.(w_ipc)) w)
  | _, _ => Some (None, s, w)
  end.

Definition ipc_wait_with (multiplex : bool) (pid handle address capacity : Z) (w : subsystems)
  : option (bool * subsystems) :=
  '(c, w) ← resolve_channel pid handle CAPABILITY_RIGHT_RECEIVE w;
  match c with
  | None => Some (false, w)
  | Some c =>
      if c.(Ipc.waiter).(w_active) || (capacity =? 0) || (IPC_MESSAGE_MAX <? capacity)
      then Some (false, w) else
      w ← put_channel (set_cwaiter (Waiter pid address capacity true multiplex) c) w; Some (true, w)
  end.
Definition ipc_wait := ipc_wait_with false.
Definition ipc_wait_select := ipc_wait_with true.

Definition ipc_channel_owner (pid handle : Z) (w : subsystems) : option (option Z * subsystems) :=
  '(c, w) ← resolve_channel pid handle CAPABILITY_RIGHT_QUERY w;
  match c with
  | None => Some (None, w)
  | Some c => Some (if c.(owner) =? 0 then None else Some c.(owner), w)
  end.

(** ** Process death *)

(** The waiter and the parked sender of a channel whose owner died are woken with
    failure. *)
Definition fail_waiter (wt : ipc_waiter) (s : sched) (w : subsystems) : option (sched * subsystems) :=
  if negb wt.(w_active) then Some (s, w) else
  let w := if wt.(w_multiplex) then w_input_cancel wt.(w_pid) w else w in
  '(_, s) ← scheduler_wake wt.(w_pid) U64_MAX 0 s; Some (s, w).
Definition fail_sender (c : ipc_channel) (s : sched) : option (ipc_channel * sched) :=
  if negb c.(sender).(s_active) then Some (c, s) else
  '(_, s) ← scheduler_wake c.(sender).(s_pid) U64_MAX 0 s;
  Some (set_sender (stop_sender c.(sender)) c, s).

(** Closing the channel. *)
Definition close_channel (c : ipc_channel) (s : sched) (w : subsystems)
  : option (ipc_channel * sched * subsystems) :=
  '(s, w) ← fail_waiter c.(Ipc.waiter) s w;
  '(c, s) ← fail_sender c s;
  let c := set_ring c.(read) c.(write) 0 c.(messages) (set_active false c) in
  Some (set_cwaiter (stop_waiter c.(Ipc.waiter)) c, s, w).

(** One round of [ipc_process_cleanup]. *)
Definition cleanup_channel (pid i : Z) (sw : sched * subsystems) : option (sched * subsystems) :=
  let (s, w) := sw in
  c ← w.(w_ipc).(channels).[i];
  if negb c.(Ipc.active) then Some (s, w) else
  let c := if c.(Ipc.waiter).(w_active) && (c.(Ipc.waiter).(w_pid) =? pid)
           then set_cwaiter (stop_waiter c.(Ipc.waiter)) c else c in
  let c := if c.(sender).(s_active) && (c.(sender).(s_pid) =? pid)
           then set_sender (stop_sender c.(sender)) c else c in
  '(c, s, w) ← (if c.(owner) =? pid then close_channel c s w else Some (c, s, w));
  l ← w.(w_ipc).(channels).[i <- c];
  Some (s, set_ipc (set_channels l w.(w_ipc)) w).

Definition ipc_process_cleanup (pid : Z) (s : sched) (w : subsystems) : option (sched * subsystems) :=
  for_up 16 0 (cleanup_channel pid) (s, w_input_cancel pid w).

Definition w_close_all (pid : Z) (w : subsystems) : option subsystems :=
  '(c, sf) ← capabilities_close_all pid w.(w_caps) w.(w_surfaces);
  Some (set_surfaces sf (set_caps c w)).

Definition userspace_release_process (pid : Z) (s : sched) (w : subsystems) : option (sched * subsystems) :=
  if bad_pid pid then Some (s, w) else
  '(s, w) ← ipc_process_cleanup pid s w;
  w ← w_close_all pid w;
  '(m, sf) ← unmap_surface pid w.(w_memory) w.(w_surfaces);
  m ← anonymous_release pid m;
  m ← large_code_release pid m;
  u ← m.(process_memory_used).[pid <- false];
  Some (s, set_surfaces sf (set_memory (set_used u m) w)).

#[export] Instance kernel_services : TaskServices subsystems := {
  ipc_cancel := w_ipc_cancel;
  input_cancel := w_input_cancel;
  release_process := userspace_release_process;
}.

(** ** Input delivery *)

(** The 40 bytes of [struct input_event]; [padding] is its tail padding. *)
Definition event_bytes (padding : list Z) (ev : input_event) : list Z :=
  le_bytes 8 ev.(timestamp) ++ le_bytes 2 ev.(type) ++ le_bytes 2 ev.(code) ++ le_bytes 4 ev.(ev_x) ++ le_bytes 4 ev.(ev_y)
  ++ le_bytes 4 ev.(delta_x) ++ le_bytes 4 ev.(delta_y) ++ le_bytes 4 ev.(value) ++ le_bytes 4 ev.(modifiers) ++ padding.
Definition EVENT_BYTES : Z := 40.

Definition input_publish (padding : list Z) (event : option input_event) (s : sched) (w : subsystems)
  : option (bool * sched * subsystems) :=
  match event with
  | None => Some (false, s, w)
  | Some ev =>
      if (ev.(type) <? INPUT_KEY_DOWN) || (INPUT_MOUSE_SCROLL <? ev.(type)) then Some (false, s, w) else
      let wt := w.(w_input).(Input.waiter) in
      '(delivered, s, w) ← (
        if wt.(iw_active) then
          let w := set_input (set_waiter (IWaiter wt.(iw_pid) wt.(iw_address) false) w.(w_input)) w in
          let w := w_ipc_cancel wt.(iw_pid) w in
          '(ok, m) ← userspace_copy_to s.(current_pid) wt.(iw_pid) wt.(iw_address)
                       (Some (event_bytes padding ev)) EVENT_BYTES w.(w_memory);
          let w := set_memory m w in
          if negb ok then Some (false, s, w) else
          '(ok, s) ← scheduler_wake wt.(iw_pid) 2 EVENT_BYTES s;
          if negb ok then Some (false, s, w)
          else Some (true, s, set_input (count_input 0 1 0 w.(w_input)) w)
        else Some (false, s, w));
      if (delivered : bool) then Some (true, s, w) else
      '(r, i) ← input_enqueue ev w.(w_input);
      Some (r, s, set_input i w)
  end.

(** ** System calls *)

(** The bytes a user pointer reads with [space] in CR3; [None] is a page fault. *)
Definition read_user (space address length_ : Z) (m : user_memory) : option (list Z) :=
  read_chunk space address length_ m.(pages).

(** [frame->rax = v; return frame_address;] *)
Definition sys_return (frame v : Z) (s : sched) (w : subsystems) : option (Z * sched * subsystems) :=
  s ← write_frame frame (set_rax v) s; Some (frame, s, w).

(** 14 and 15: create or connect. *)
Definition sys_ipc_open (create : bool) (frame : Z) (s : sched) (w : subsystems)
  : option (Z * sched * subsystems) :=
  f ← s.(frames) !! frame;
  ok ← user_range s.(current_pid) f.(rdi) f.(rsi) w.(w_memory);
  if negb ok || (f.(rsi) =? 0) || (IPC_NAME_MAX <=? f.(rsi)) then sys_return frame U64_MAX s w else
  nm ← read_user s.(cr3) f.(rdi) f.(rsi) w.(w_memory);
  '(h, w) ← (if create then ipc_create s.(current_pid) (Some nm) f.(rsi) w
             else ipc_connect s.(current_pid) (Some nm) f.(rsi) w);
  sys_return frame h s w.

(** 16: send, blocking the sender on a full queue. *)
Definition sys_ipc_send (frame : Z) (s : sched) (w : subsystems) : option (Z * sched * subsystems) :=
  f ← s.(frames) !! frame;
  ok ← user_range s.(current_pid) f.(rsi) f.(rdx) w.(w_memory);
  if negb ok || (f.(rdx) =? 0) || (IPC_MESSAGE_MAX <? f.(rdx)) then sys_return frame U64_MAX s w else
  data ← read_user s.(cr3) f.(rsi) f.(rdx) w.(w_memory);
  '(sent, s, w) ← ipc_send_block s.(current_pid) f.(rdi) (Some data) f.(rdx) s w;
  if sent =? 1 then sys_return frame f.(rdx) s w else
  if negb (sent =? 2) then sys_return frame U64_MAX s w else
  '(f, s) ← scheduler_block_current frame s; Some (f, s, w).

(** 17: receive, waiting for a message unless [r10] says not to. *)
Definition sys_ipc_receive (frame : Z) (s : sched) (w : subsystems) : option (Z * sched * subsystems) :=
  f ← s.(frames) !! frame;
  ok ← user_write_range s.(current_pid) f.(rsi) f.(rdx) w.(w_memory);
  if negb ok || (f.(rdx) =? 0) || (IPC_MESSAGE_MAX <? f.(rdx)) then sys_return frame U64_MAX s w else
  '(r, s, w) ← ipc_receive s.(current_pid) f.(rdi) (Some (replicate 64 0)) f.(rdx) s w;
  match r with
  | Some (length_, from, message) =>
      '(ok, m) ← userspace_copy_to s.(current_pid) s.(current_pid) f.(rsi) (Some message) length_ w.(w_memory);
      let w := set_memory m w in
      if negb ok then sys_return frame U64_MAX s w else
      s ← write_frame frame (set_result length_ from) s; Some (frame, s, w)
  | None =>
      if negb (f.(r10) =? 0) then sys_return frame U64_MAX s w else
      '(ok, w) ← ipc_wait s.(current_pid) f.(rdi) f.(rsi) f.(rdx) w;
      if negb ok then sys_return frame U64_MAX s w else
      '(f, s) ← scheduler_block_current frame s; Some (f, s, w)
  end.

(** 2: exit. *)
Definition sys_exit (frame : Z) (s : sched) (w : subsystems) : option (Z * sched * subsystems) :=
  f ← s.(frames) !! frame;
  '(s, w) ← ipc_process_cleanup s.(current_pid) s w;
  w ← w_close_all s.(current_pid) w;
  scheduler_on_exit f.(rdi) s w.

(** 13: terminate. *)
Definition sys_terminate (frame : Z) (s : sched) (w : subsystems) : option (Z * sched * subsystems) :=
  f ← s.(frames) !! frame;
  let target := u32 f.(rdi) in
  '(s, w) ← ipc_process_cleanup target s w;
  w ← w_close_all target w;
  '(ok, s, w) ← scheduler_terminate target f.(rsi) s w;
  sys_return frame (if negb ok then U64_MAX else 0) s w.
