(* ===== verification/Spawn.v ===== *)
(** Loading programs into process slots (src/src/arch/x86_64/userspace.c): the
    frames of a slot, large executables, and the first two processes. Large executables
    are written with the kernel's address space active, slots with the caller's. *)

From stdpp Require Import gmap.
From S2P Require Import Prelude LittleEndian Capability Elf64 PhysicalMemory UserMemory Paging Scheduler Kernel.

(** ** Frames by bytes *)

Definition page_bytes (ws : list Z) : list Z := w ← ws; byte_of w <$> seqZ 0 8.
(** The word of eight little-endian bytes, and the first [n] words of a byte list. *)
Definition word_of : list Z -> Z := foldr (fun b r => b + 256 * r) 0.
Fixpoint page_words (n : nat) (bytes : list Z) : list Z :=
  match n with O => [] | S n => word_of (take 8 bytes) :: page_words n (drop 8 bytes) end.

Definition read_frames (fs : list Z) (pg : phys) : option (list Z) :=
  mjoin <$> mapM (fun f => page_bytes <$> pg !! f) fs.
Fixpoint write_frames (fs : list Z) (bytes : list Z) (pg : phys) : option phys :=
  match fs with
  | [] => Some pg
  | f :: fs => _ ← pg !! f; write_frames fs (drop 4096 bytes) (<[f := page_words 512 (take 4096 bytes)]> pg)
  end.
Fixpoint clear_pages (fs : list Z) (pg : phys) : option phys :=
  match fs with
  | [] => Some pg
  | f :: fs => ws ← pg !! f; ws ← fill ws 0 0 512; clear_pages fs (<[f := ws]> pg)
  end.

(** [n] frames in one run, and the addresses of the bytes of some frames. *)
Definition region (first n : Z) : list Z := (fun i => first + 4096 * i) <$> seqZ 0 n.
Definition byte_addresses (fs : list Z) : list Z := f ← fs; Z.add f <$> seqZ 0 4096.

(** ** Large executables *)

(** [elf64_load_executable_pages] over physical memory. *)
Definition load_pages (image : list Z) (base : Z) (fs : list Z) (pg : phys) : option (option (phys * Z)) :=
  bytes ← read_frames fs pg;
  r ← elf64_load_executable_pages (Some image) base fs (list_to_map (zip (byte_addresses fs) bytes));
  match r with
  | None => Some None
  | Some (loaded, entry) =>
      bytes ← mapM (fun a => loaded !! a) (byte_addresses fs);
      pg ← write_frames fs bytes pg;
      Some (Some (pg, entry))
  end.

(** The entry point, unless it fails. *)
Definition large_code_load (pid : Z) (image : list Z) (layout : elf64_layout) (m : user_memory)
  : option (option Z * user_memory) :=
  if bad_pid pid || negb (layout.(virtual_base) =? USER_LARGE_CODE_BASE)
     || (layout.(virtual_end) <=? USER_LARGE_CODE_BASE) then Some (None, m) else
  let byte_count := layout.(virtual_end) - USER_LARGE_CODE_BASE in
  if USER_LARGE_CODE_MAX_PAGES * 4096 <? byte_count then Some (None, m) else
  let pages := Z.to_nat (u64 (byte_count + 4095) / 4096) in
  '(table, m) ← anonymous_frame_take m;
  if table =? 0 then Some (None, m) else
  m ← set_large_table pid table m;
  '(ok, m) ← large_code_frames_take pages 0 pid table m;
  if negb ok then Some (None, m) else
  fs ← m.(large_code_frames).[pid];
  r ← load_pages image USER_LARGE_CODE_BASE (take pages fs) m.(UserMemory.pages);
  match r with
  | None => m ← large_code_release pid m; Some (None, m)
  | Some (pg, entry) =>
      let m := set_pages pg m in
      dir ← directory_of pid m;
      m ← store_word dir (Z.shiftr USER_LARGE_CODE_BASE 21) (table + 7) m;
      Some (Some entry, m)
  end.

(** ** Loading a process *)

Fixpoint contiguous_from (n : nat) (i : Z) (fs : list Z) : option bool :=
  match n with
  | O => Some true
  | S n => f ← fs.[i]; f0 ← fs.[i - 1];
           if negb (f =? u64 (f0 + 4096)) then Some false else contiguous_from n (i + 1) fs
  end.
Definition frames_contiguous (fs : list Z) (count : Z) : option bool := contiguous_from (Z.to_nat (count - 1)) 1 fs.

(** The small executables: the code frames as one block. *)
Definition small_code_load (p : userspace_memory) (image : list Z) (m : user_memory) : option (option Z * user_memory) :=
  first ← p.(code_frames).[0];
  let fs := region first p.(code_page_count) in
  bytes ← read_frames fs m.(UserMemory.pages);
  r ← elf64_load_executable (Some image) (Some (Target USER_CODE bytes));
  match r with
  | None => Some (None, m)
  | Some (bytes, entry) => pg ← write_frames fs bytes m.(UserMemory.pages); Some (Some entry, set_pages pg m)
  end.

Definition load_code (pid : Z) (p : userspace_memory) (image : list Z) (layout : elf64_layout) (m : user_memory)
  : option (option Z * user_memory) :=
  if layout.(virtual_base) =? USER_LARGE_CODE_BASE then large_code_load pid image layout m else small_code_load p image m.

(** [for (i = 0; i < n; ++i) pt1[index + i] = frames[i] + 7u;] *)
Fixpoint map_frames (n : nat) (i table index : Z) (fs : list Z) (m : user_memory) : option user_memory :=
  match n with
  | O => Some m
  | S n => f ← fs.[i]; m ← store_word table (index + i) (f + 7) m; map_frames n (i + 1) table index fs m
  end.
Definition map_slot (p : userspace_memory) (m : user_memory) : option user_memory :=
  m ← map_frames (Z.to_nat p.(code_page_count)) 0 p.(page_table) ((USER_CODE - 2097152) / 4096) p.(code_frames) m;
  m ← map_frames (Z.to_nat USERSPACE_HEAP_PAGES) 0 p.(page_table) ((USER_HEAP - 2097152) / 4096) p.(heap_frames) m;
  map_frames (Z.to_nat USERSPACE_STACK_PAGES) 0 p.(page_table) ((USER_STACK_PAGE - 2097152) / 4096) p.(stack_frames) m.

Definition clear_slot (p : userspace_memory) (m : user_memory) : option user_memory :=
  stack ← mapM (fun i => p.(stack_frames).[i]) (seqZ 0 USERSPACE_STACK_PAGES);
  pg ← clear_pages stack m.(UserMemory.pages);
  heap ← p.(heap_frames).[0];
  pg ← clear_pages (region heap USERSPACE_HEAP_PAGES) pg;
  Some (set_pages pg m).

Definition good_slot (p : userspace_memory) : option bool :=
  if (p.(code_page_count) =? 0) || (USERSPACE_CODE_PAGES <? p.(code_page_count)) then Some false else
  code ← frames_contiguous p.(code_frames) p.(code_page_count);
  if negb code then Some false else frames_contiguous p.(heap_frames) USERSPACE_HEAP_PAGES.

(** The end of [load_process]: map the slot and create the task. *)
Definition start_process (expected_pid parent_pid : Z) (name : list Z) (p : userspace_memory) (entry service_mask : Z)
    (s : sched) (w : subsystems) : option (bool * sched * subsystems) :=
  m ← map_slot p w.(w_memory);
  let w := set_memory m w in
  '(pid, s) ← scheduler_create_user parent_pid name entry (USER_STACK_PAGE + USER_STACK_SIZE - 16) p.(UserMemory.address_space) s;
  '(ok, c) ← (if negb (pid =? expected_pid) then Some (false, w.(w_caps))
              else capability_assign_services pid service_mask w.(w_caps));
  let w := set_caps c w in
  if negb ok then m ← large_code_release expected_pid w.(w_memory); Some (false, s, set_memory m w) else
  u ← w.(w_memory).(process_memory_used).[pid <- true];
  Some (true, s, set_memory (set_used u w.(w_memory)) w).

(** The slot is written at the physical addresses of its frames and of its page table with
    the address space of the running task active. The kernel's own space maps the first
    GiB to itself; that of a process replaces parts of [2 MiB, 4 MiB) and of the region
    from [USER_ANON_BASE] on, where a write would reach the process's own memory. *)
Definition at_own_address (s : sched) (f : Z) : bool := (s.(current_pid) =? 0) || ((4194304 <=? f) && (f <? USER_ANON_BASE)).
Definition slot_places (p : userspace_memory) : list Z := p.(page_table) :: p.(code_frames) ++ p.(heap_frames) ++ p.(stack_frames).

(** [None] where a write misses its frame. *)
Definition load_process (expected_pid parent_pid : Z) (name : list Z) (p : userspace_memory) (image : list Z) (service_mask : Z)
    (s : sched) (w : subsystems) : option (bool * sched * subsystems) :=
  ok ← good_slot p;
  if negb ok then Some (false, s, w) else
  if negb (forallb (at_own_address s) (slot_places p)) then None else
  m ← clear_slot p w.(w_memory);
  let w := set_memory m w in
  layout ← elf64_executable_layout (Some image);
  match layout with
  | None => Some (false, s, w)
  | Some layout =>
      '(entry, m) ← load_code expected_pid p image layout w.(w_memory);
      let w := set_memory m w in
      match entry with
      | None => Some (false, s, w)
      | Some entry => start_process expected_pid parent_pid name p entry service_mask s w
      end
  end.

(** ** The first two processes *)

Definition bootstrap_services : Z :=
  foldr Z.lor 0 (CAPABILITY_SERVICE_BIT <$> [CAPABILITY_SERVICE_CONSOLE; CAPABILITY_SERVICE_CLOCK; CAPABILITY_SERVICE_PROCESS;
    CAPABILITY_SERVICE_STORAGE; CAPABILITY_SERVICE_IPC]).
Definition name_init : list Z := [105; 110; 105; 116; 0].
Definition name_worker : list Z := [119; 111; 114; 107; 101; 114; 0].

(** [image] is the embedded user program; the result says whether user space is initialized. *)
Definition userspace_init (processes : list userspace_memory) (a : frame_allocator) (image : list Z) (s : sched) (w : subsystems)
  : option (bool * sched * subsystems) :=
  let w := set_memory (userspace_init_memory processes a w.(w_memory).(UserMemory.pages)) w in
  p1 ← w.(w_memory).(process_memory).[1];
  '(ok, s, w) ← load_process 1 0 name_init p1 image bootstrap_services s w;
  if negb ok then Some (false, s, w) else
  p2 ← w.(w_memory).(process_memory).[2];
  load_process 2 0 name_worker p2 image bootstrap_services s w.
