(* ===== verification/FrameBytes.v ===== *)
(** What the byte view of frames promises: writing bytes to frames stores exactly
    them, and the paged loader over physical memory stores the image. *)

From stdpp Require Import gmap.
From S2P Require Import Prelude LittleEndian Elf64 Elf64Spec PhysicalMemory UserMemory FramePool Spawn.

(** ** Bytes and words *)

Lemma word_of_range l : bytes_ok l -> 0 <= word_of l.
Proof. induction 1 as [|b l Hb Hl IH]; cbn; unfold is_byte in *; lia. Qed.

Lemma byte_of_eq w k : 0 <= k -> byte_of w k = (w / 2 ^ (8 * k)) mod 256.
Proof. intros Hk. unfold byte_of. rewrite Z.shiftr_div_pow2 by lia. change 255 with (Z.ones 8). by rewrite Z.land_ones by lia. Qed.

Lemma byte_of_word l : forall k : nat, bytes_ok l -> byte_of (word_of l) (Z.of_nat k) = default 0 (l !! k).
Proof.
  induction l as [|b l IH]; intros k Hl.
  { by rewrite byte_of_eq, Z.div_0_l, lookup_nil by lia. }
  apply list.Forall_cons in Hl as [Hb Hl]. unfold is_byte in Hb. rewrite byte_of_eq by lia. cbn [word_of foldr].
  fold (word_of l). destruct k as [|k]; [cbn [lookup list_lookup default]; change (2 ^ _) with 1; rewrite Z.div_1_r; cbn; zlia|].
  rewrite lookup_cons_ne_0 by done. cbn [pred]. rewrite <- IH, byte_of_eq by (done || lia). f_equal.
  replace (8 * Z.of_nat (S k)) with (8 + 8 * Z.of_nat k) by lia. rewrite Z.pow_add_r by lia. change (2 ^ 8) with 256.
  rewrite <- Z.div_div by lia. f_equal. zlia.
Qed.

Lemma page_bytes_length ws : length (page_bytes ws) = (8 * length ws)%nat.
Proof. unfold page_bytes. induction ws as [|w ws IH]; [done|]. cbn [mbind list_bind]. rewrite length_app, IH, length_fmap, length_seqZ. cbn [length]. lia. Qed.
Lemma page_bytes_ok ws : bytes_ok (page_bytes ws).
Proof.
  apply list.Forall_forall. intros b (w & (k & -> & _)%list_elem_of_fmap & _)%list_elem_of_bind. apply byte_of_range.
Qed.

Lemma page_words_length n : forall l, length (page_words n l) = n.
Proof. induction n; intros l; cbn; auto. Qed.
Lemma page_words_lookup n : forall l i, (i < n)%nat -> page_words n l !! i = Some (word_of (take 8 (drop (8 * i) l))).
Proof.
  induction n as [|n IH]; intros l i Hi; [lia|]. cbn [page_words]. destruct i as [|i]; [done|].
  rewrite lookup_cons_ne_0 by done. cbn [pred]. rewrite IH by lia. rewrite drop_drop. do 4 f_equal. lia.
Qed.

Lemma stored_byte pg f bytes k b :
  pg !! f = Some (page_words 512 bytes) -> f mod 4096 = 0 -> bytes_ok bytes -> 0 <= k < 4096 -> bytes.[k] = Some b ->
  load_byte pg (f + k) = Some b.
Proof.
  intros Hf Ha Hb Hk Hg. unfold load_byte, word. rewrite page_of_add by done. rewrite Hf. cbn [mbind option_bind].
  apply aget_Some in Hg as [_ Hg].
  assert (E : (page_words 512 bytes).[(f + k) mod 4096 / 8] = Some (word_of (take 8 (drop (8 * Z.to_nat (k / 8)) bytes)))).
  { apply aget_Some. split; [zlia|]. replace ((f + k) mod 4096 / 8) with (k / 8) by zlia. apply page_words_lookup. zlia. }
  rewrite E. cbn [mbind option_bind]. f_equal. replace ((f + k) mod 8) with (Z.of_nat (Z.to_nat (k mod 8))) by zlia.
  rewrite byte_of_word by (by apply Forall_take, Forall_drop).
  rewrite lookup_take_lt by zlia. rewrite lookup_drop. replace (8 * Z.to_nat (k / 8) + Z.to_nat (k mod 8))%nat with (Z.to_nat k) by zlia.
  by rewrite Hg.
Qed.

(** ** Frames *)

Lemma page_lookup pg f : is_page pg f -> is_Some (pg !! f).
Proof. intros (ws & -> & _). by eexists. Qed.

Lemma read_frames_ok fs pg : Forall (is_page pg) fs ->
  exists bytes, read_frames fs pg = Some bytes /\ length bytes = (4096 * length fs)%nat /\ bytes_ok bytes.
Proof.
  unfold read_frames. induction 1 as [|f fs (ws & Hf & Hl) Hfs (bytes & IH & L & B)].
  { exists []. split; [done|]. split; [cbn [length]; lia|constructor]. }
  cbn [mapM]. rewrite Hf. cbn [fmap option_fmap option_map mbind option_bind] in *.
  destruct (mapM _ fs) as [bs|] eqn:E; [|done]. injection IH as <-. exists (page_bytes ws ++ mjoin bs). split; [done|]. split.
  - rewrite length_app, page_bytes_length, Hl, L. cbn [length]. lia.
  - apply Forall_app. split; [apply page_bytes_ok|exact B].
Qed.

Definition frames_hold (pg : phys) (fs : list Z) (b : Z -> Z) : Prop :=
  forall i f k, fs.[i] = Some f -> 0 <= k < 4096 -> load_byte pg (f + k) = Some (b (4096 * i + k)).

Lemma touches_insert pg f ws : length ws = 512%nat -> touches [f] pg (<[f := ws]> pg).
Proof.
  intros Hl. split.
  - intros p Hp. rewrite lookup_insert_ne; [done|]. set_solver.
  - intros p (ws' & Hp & Hl'). destruct (decide (p = f)) as [->|]; [exists ws; by rewrite lookup_insert_eq|].
    exists ws'. by rewrite lookup_insert_ne.
Qed.
Lemma touches_cons f fs pg1 pg2 pg3 : touches [f] pg1 pg2 -> touches fs pg2 pg3 -> touches (f :: fs) pg1 pg3.
Proof.
  intros H1 H2. eapply touches_trans; [eapply touches_mono; [exact H1|]|eapply touches_mono; [exact H2|]].
  - intros x ->%list_elem_of_singleton. by left.
  - intros x Hx. by right.
Qed.
Lemma load_frame_same pg pg' f k : pg' !! f = pg !! f -> f mod 4096 = 0 -> 0 <= k < 4096 -> load_byte pg' (f + k) = load_byte pg (f + k).
Proof. intros E Ha Hk. unfold load_byte, word. by rewrite page_of_add, E. Qed.

Lemma write_frames_ok fs : forall bytes pg,
  Forall (is_page pg) fs -> NoDup fs -> Forall (fun f => f mod 4096 = 0) fs -> length bytes = (4096 * length fs)%nat -> bytes_ok bytes ->
  exists pg', write_frames fs bytes pg = Some pg' /\ touches fs pg pg' /\
    forall i f k, fs.[i] = Some f -> 0 <= k < 4096 -> load_byte pg' (f + k) = bytes.[4096 * i + k].
Proof.
  induction fs as [|f fs IH]; intros bytes pg Hp Hn Ha Hl Hb; cbn [write_frames].
  { exists pg. split; [done|]. split; [apply touches_refl|]. intros i f k [_ H]%aget_Some. by rewrite lookup_nil in H. }
  apply list.Forall_cons in Hp as [Hf Hp], Ha as [Hfa Ha]. apply list.NoDup_cons in Hn as [Hnf Hn].
  destruct (page_lookup _ _ Hf) as [ws ->]. cbn [mbind option_bind]. cbn [length] in Hl.
  pose proof (touches_insert pg f (page_words 512 (take 4096 bytes)) (page_words_length _ _)) as Ht0.
  destruct (IH (drop 4096 bytes) (<[f := page_words 512 (take 4096 bytes)]> pg)) as (pg' & -> & Ht & Hc); [|done..| |by apply Forall_drop|].
  { revert Hp. apply Forall_impl. intros p. by apply (touches_page _ _ _ _ Ht0). }
  { rewrite length_drop. lia. }
  exists pg'. split; [done|]. split.
  - exact (touches_cons _ _ _ _ _ Ht0 Ht).
  - intros i g k Hg Hk. pose proof (aget_bound _ _ _ Hg) as Hi. apply aget_Some in Hg as [_ Hg]. destruct (decide (i = 0)) as [->|Hne].
    + injection Hg as <-. rewrite (load_frame_same (<[f := page_words 512 (take 4096 bytes)]> pg)); [|exact (proj1 Ht f Hnf)|exact Hfa|exact Hk].
      destruct (aget_in bytes (4096 * 0 + k)) as [b Hbk]; [lia|]. rewrite Hbk.
      refine (stored_byte _ f (take 4096 bytes) k b (lookup_insert_eq _ _ _) Hfa _ Hk _); [by apply Forall_take|].
      apply aget_Some in Hbk as [_ Hbk]. apply aget_Some. split; [lia|]. rewrite lookup_take_lt by lia. by rewrite Z.mul_0_r, Z.add_0_l in Hbk.
    + rewrite lookup_cons_ne_0 in Hg by lia. rewrite (Hc (i - 1) g k); [| |done].
      * unfold aget. repeat rewrite (proj2 (Z.leb_le 0 _)) by lia. rewrite lookup_drop. f_equal. lia.
      * apply aget_Some. split; [lia|]. rewrite <- Hg. f_equal. lia.
Qed.

Lemma zero_page_byte pg f k : pg !! f = Some zero_page -> f mod 4096 = 0 -> 0 <= k < 4096 -> load_byte pg (f + k) = Some 0.
Proof.
  intros Hf Ha Hk. unfold load_byte. rewrite page_of_add by done.
  assert (E : word pg f ((f + k) mod 4096 / 8) = Some 0).
  { rewrite <- (zeroed_word pg f ((f + k) mod 4096 / 8)) by zlia. unfold word. by rewrite lookup_insert_eq, Hf. }
  rewrite E. cbn [mbind option_bind]. f_equal. rewrite byte_of_eq by zlia. by rewrite Z.div_0_l by zlia.
Qed.

Lemma clear_pages_ok fs : forall pg, Forall (is_page pg) fs -> Forall (fun f => f mod 4096 = 0) fs ->
  exists pg', clear_pages fs pg = Some pg' /\ touches fs pg pg' /\
    forall f k, f ∈ fs -> 0 <= k < 4096 -> load_byte pg' (f + k) = Some 0.
Proof.
  intros pg Hp Ha. assert (exists pg', clear_pages fs pg = Some pg' /\ touches fs pg pg' /\ forall f, f ∈ fs -> pg' !! f = Some zero_page) as (pg' & E & Ht & Hz).
  { clear Ha. revert pg Hp. induction fs as [|f fs IH]; intros pg Hp; cbn [clear_pages].
    { exists pg. split; [done|]. split; [apply touches_refl|]. by intros f Hf%elem_of_nil. }
    apply list.Forall_cons in Hp as [Hf Hp]. destruct (page_zero _ _ Hf) as (ws & -> & Ez). cbn [mbind option_bind]. rewrite Ez. cbn [mbind option_bind].
    pose proof (zeroed_touches pg f) as Ht0.
    destruct (IH (<[f := zero_page]> pg)) as (pg' & -> & Ht & Hz).
    { revert Hp. apply Forall_impl. intros p. by apply (touches_page _ _ _ _ Ht0). }
    exists pg'. split; [done|]. split.
    - exact (touches_cons _ _ _ _ _ Ht0 Ht).
    - intros g [->|Hg]%elem_of_cons; [|by apply Hz]. destruct (decide (f ∈ fs)) as [Hin|Hout]; [by apply Hz|].
      rewrite (proj1 Ht f Hout). by rewrite lookup_insert_eq. }
  exists pg'. split; [done|]. split; [done|]. intros f k Hf Hk. apply zero_page_byte; [by apply Hz| |done].
  rewrite list.Forall_forall in Ha. by apply Ha.
Qed.

(** ** The image in frames *)

Definition image_byte (image : list Z) (ps : list elf64_program_header) (v : Z) : Z := segment_byte image ps v 0.
Lemma image_byte_range image ps v : bytes_ok image -> is_byte (image_byte image ps v).
Proof.
  intros Hb. unfold image_byte, segment_byte. assert (H0 : is_byte 0) by (unfold is_byte; lia). revert H0. generalize 0. clear -Hb.
  induction ps as [|p ps IH]; intros d Hd; [done|]. cbn [fold_left]. apply IH. destruct (covers p v); [|done].
  destruct (image.[_]) as [b|] eqn:E; [|done]. exact (aget_Forall _ _ _ _ Hb E).
Qed.

Lemma byte_addresses_lookup fs i f k : fs.[i] = Some f -> 0 <= k < 4096 -> (byte_addresses fs).[4096 * i + k] = Some (f + k).
Proof.
  unfold byte_addresses. revert i. induction fs as [|g fs IH]; intros i Hi Hk; [by apply aget_Some in Hi as [_ Hi]|].
  cbn [mbind list_bind]. pose proof (aget_bound _ _ _ Hi) as Hb. pose proof Hi as Hi'. apply aget_Some in Hi' as [_ Hi'].
  assert (Hl : length (Z.add g <$> seqZ 0 4096) = 4096%nat) by (rewrite length_fmap, length_seqZ; lia).
  destruct (decide (i = 0)) as [->|Hne].
  - injection Hi' as ->. rewrite aget_app_l by lia. apply aget_Some. split; [lia|]. rewrite list_lookup_fmap, lookup_seqZ_lt by lia.
    cbn. f_equal. lia.
  - rewrite aget_app_r by lia. rewrite Hl. replace (4096 * i + k - Z.of_nat 4096) with (4096 * (i - 1) + k) by lia.
    apply IH; [|done]. rewrite lookup_cons_ne_0 in Hi' by lia. apply aget_Some. split; [lia|]. rewrite <- Hi'. f_equal. lia.
Qed.
Lemma byte_addresses_length fs : length (byte_addresses fs) = (4096 * length fs)%nat.
Proof.
  unfold byte_addresses. induction fs as [|f fs IH]; [cbn [length mbind list_bind]; lia|]. cbn [mbind list_bind length].
  rewrite length_app, IH, length_fmap, length_seqZ. lia.
Qed.

Lemma mapped_bytes fs bytes : NoDup (byte_addresses fs) -> length bytes = (4096 * length fs)%nat ->
  frames_mapped fs (list_to_map (zip (byte_addresses fs) bytes)).
Proof.
  intros Hn Hl. apply list.Forall_forall. intros f Hf k Hk. apply list_elem_of_lookup in Hf as (i & Hi).
  destruct (_ !! (f + k)) as [b|] eqn:E; [by eexists|exfalso]. apply not_elem_of_list_to_map_2 in E. apply E.
  rewrite fst_zip by (rewrite byte_addresses_length; lia).
  assert (Hg : (byte_addresses fs).[4096 * Z.of_nat i + k] = Some (f + k)).
  { apply byte_addresses_lookup; [|done]. apply aget_Some. split; [lia|]. by rewrite Nat2Z.id. }
  apply aget_Some in Hg as [_ Hg]. by apply list_elem_of_lookup_2 in Hg.
Qed.

Lemma aligned_disjoint f g j k : f mod 4096 = 0 -> g mod 4096 = 0 -> 0 <= j < 4096 -> 0 <= k < 4096 -> f + j = g + k -> f = g /\ j = k.
Proof. zlia. Qed.

Lemma byte_addresses_inj fs a b x : NoDup fs -> Forall (fun f => f mod 4096 = 0) fs ->
  (byte_addresses fs).[a] = Some x -> (byte_addresses fs).[b] = Some x -> a = b.
Proof.
  intros Hn Ha H1 H2. pose proof (aget_bound _ _ _ H1) as B1. pose proof (aget_bound _ _ _ H2) as B2. rewrite byte_addresses_length in B1, B2.
  destruct (aget_in fs (a / 4096)) as [f Hf]; [zlia|]. destruct (aget_in fs (b / 4096)) as [g Hg]; [zlia|].
  pose proof (byte_addresses_lookup fs _ f (a mod 4096) Hf ltac:(zlia)) as E1. pose proof (byte_addresses_lookup fs _ g (b mod 4096) Hg ltac:(zlia)) as E2.
  replace (4096 * (a / 4096) + a mod 4096) with a in E1 by zlia. replace (4096 * (b / 4096) + b mod 4096) with b in E2 by zlia.
  rewrite H1 in E1. rewrite H2 in E2. injection E1 as E1. injection E2 as E2.
  pose proof (aget_Forall _ _ _ _ Ha Hf) as Af. pose proof (aget_Forall _ _ _ _ Ha Hg) as Ag. cbn in Af, Ag.
  destruct (aligned_disjoint f g (a mod 4096) (b mod 4096)) as [-> Ej]; [zlia..|].
  apply aget_Some in Hf as [? Hf], Hg as [? Hg]. pose proof (NoDup_lookup _ _ _ _ Hn Hf Hg). zlia.
Qed.
Lemma byte_addresses_distinct fs : NoDup fs -> Forall (fun f => f mod 4096 = 0) fs -> NoDup (byte_addresses fs).
Proof.
  intros Hn Ha. apply NoDup_alt. intros i j x Hi Hj.
  assert (Z.of_nat i = Z.of_nat j); [|lia]. apply (byte_addresses_inj fs _ _ x Hn Ha); (apply aget_Some; split; [lia|by rewrite Nat2Z.id]).
Qed.

Lemma frame_ok_spec pg f : FramePool.frame_ok pg f -> Elf64Spec.frame_ok f = true.
Proof.
  intros (H1 & H2 & _). unfold Elf64Spec.frame_ok. rewrite (proj2 (Z.eqb_neq _ 0)) by lia. cbn [negb andb].
  apply Z.eqb_eq. change 4095 with (Z.ones 12). rewrite Z.land_ones by lia. exact H2.
Qed.

(** The bytes a lookup of all addresses collects. *)
Lemma collect_bytes fs (m : gmap Z Z) (b : Z -> Z) : (forall o, 0 <= o < window fs -> view fs m o = Some (b o)) ->
  exists bytes, mapM (fun a => m !! a) (byte_addresses fs) = Some bytes /\ length bytes = (4096 * length fs)%nat /\
    forall o, 0 <= o < window fs -> bytes.[o] = Some (b o).
Proof.
  intros Hv. assert (Hall : forall i a, byte_addresses fs !! i = Some a -> m !! a = Some (b (Z.of_nat i))).
  { intros i a Hi. pose proof (lookup_lt_Some _ _ _ Hi) as Hb. rewrite byte_addresses_length in Hb.
    rewrite <- (Hv (Z.of_nat i)) by (unfold window; lia). unfold view, Elf64Spec.phys.
    destruct (aget_in fs (Z.of_nat i / 4096)) as [f Hf]; [zlia|]. rewrite Hf. cbn [mbind option_bind]. f_equal.
    pose proof (byte_addresses_lookup fs _ f (Z.of_nat i mod 4096) Hf ltac:(zlia)) as E.
    replace (4096 * (Z.of_nat i / 4096) + Z.of_nat i mod 4096) with (Z.of_nat i) in E by zlia.
    apply aget_Some in E as [_ E]. rewrite Nat2Z.id in E. congruence. }
  assert (exists bytes, mapM (fun a => m !! a) (byte_addresses fs) = Some bytes) as [bytes E].
  { destruct (mapM _ _) as [bs|] eqn:E; [by eexists|exfalso]. apply mapM_None, Exists_exists in E as (a & Ha & E).
    apply list_elem_of_In, list_elem_of_lookup in Ha as (i & Ha). by rewrite (Hall i a Ha) in E. }
  exists bytes. split; [done|]. apply mapM_Some in E as E'. pose proof (Forall2_length E') as El. rewrite byte_addresses_length in El.
  split; [done|]. intros o Ho. unfold window in Ho. destruct (aget_in bytes o) as [x Hx]; [lia|]. rewrite Hx. f_equal.
  apply aget_Some in Hx as [_ Hx]. destruct (Forall2_lookup_r _ _ _ _ _ E' Hx) as (a & Ha & Hm).
  rewrite (Hall _ a Ha) in Hm. injection Hm as <-. f_equal. lia.
Qed.

Lemma load_frames_ok image base fs pg :
  bytes_ok image -> 0 <= base -> fs <> [] -> NoDup fs -> Forall (FramePool.frame_ok pg) fs -> base + window fs <= U64_MAX ->
  exists r, load_pages image base fs pg = Some r /\
    (r = None <-> ~ exists h ps, fits_window image h ps base (window fs)) /\
    forall pg' en, r = Some (pg', en) -> touches fs pg pg' /\
      exists h ps, fits_window image h ps base (window fs) /\ en = h.(entry) /\ frames_hold pg' fs (fun o => image_byte image ps (base + o)).
Proof.
  intros Hb H0 Hne Hn Hok Hw. unfold load_pages.
  assert (Hp : Forall (is_page pg) fs) by (revert Hok; apply Forall_impl; intros f Hf; apply Hf).
  assert (Ha : Forall (fun f => f mod 4096 = 0) fs) by (revert Hok; apply Forall_impl; intros f Hf; apply Hf).
  assert (Hfo : Forall (fun f => Elf64Spec.frame_ok f = true) fs) by (revert Hok; apply Forall_impl; intros f; apply frame_ok_spec).
  destruct (read_frames_ok fs pg Hp) as (bytes & -> & Hl & _). cbn [mbind option_bind].
  destruct (Elf64Spec.load_pages_ok image base fs (list_to_map (zip (byte_addresses fs) bytes))) as (r & -> & Hr & Hs);
    [done|done|done|by apply mapped_bytes; [apply byte_addresses_distinct|]|done|done|].
  cbn [mbind option_bind]. destruct r as [[loaded en]|].
  2: { exists None. split; [done|]. split; [|done]. split; [|done]. intros _ (h & ps & Hf). apply (proj1 Hr eq_refl). split; [done|]. by exists h, ps. }
  destruct (Hs loaded en eq_refl) as (h & ps & Hf & -> & Hv & _).
  destruct (collect_bytes fs loaded (fun o => image_byte image ps (base + o)) Hv) as (bs & -> & Hbl & Hbs). cbn [mbind option_bind].
  assert (Hbo : bytes_ok bs).
  { apply list.Forall_forall. intros x Hx. apply list_elem_of_lookup in Hx as (i & Hi).
    pose proof (lookup_lt_Some _ _ _ Hi) as Hlt.
    assert (Hg : bs.[Z.of_nat i] = Some x) by (apply aget_Some; split; [lia|by rewrite Nat2Z.id]).
    rewrite Hbs in Hg by (unfold window; lia). injection Hg as <-. by apply image_byte_range. }
  destruct (write_frames_ok fs bs pg Hp Hn Ha Hbl Hbo) as (pg' & -> & Ht & Hc). cbn [mbind option_bind].
  eexists. split; [done|]. split.
  - split; [done|]. intros H. exfalso. apply H. eauto.
  - intros pg2 en [= <- <-]. split; [done|]. exists h, ps. split; [done|]. split; [done|]. intros i f k Hi Hk. pose proof (aget_bound _ _ _ Hi).
    rewrite (Hc i f k Hi Hk). apply Hbs. unfold window. lia.
Qed.
