(* ===== verification/SpawnSpec.v ===== *)
(** What loading a program does to physical memory: the frames of the slot hold the
    program, a cleared heap and a cleared stack, the slot's page table maps them, and
    the invariant of physical memory is kept. *)

From stdpp Require Import gmap.
From S2P Require Import Prelude LittleEndian Elf64 Elf64Spec PhysicalMemory UserMemory UserMemorySpec FramePool FrameOwnership AddressSpace AnonymousSpec.
From S2P Require Import FrameInvariant SurfaceMapSpec MemoryInvariant SurfaceMapping UserAccess Scheduler Kernel Spawn FrameBytes.

(** ** Runs of frames *)

Lemma contiguous_from_ok fs n : forall i, 1 <= i -> i + Z.of_nat n <= Z.of_nat (length fs) ->
  exists b, contiguous_from n i fs = Some b /\
    (b = true -> forall j f f0, i <= j < i + Z.of_nat n -> fs.[j] = Some f -> fs.[j - 1] = Some f0 -> f = u64 (f0 + 4096)).
Proof.
  induction n as [|n IH]; intros i Hi Hn; cbn [contiguous_from]; [exists true; split; [done|lia]|].
  destruct (aget_in fs i) as [f Hf]; [lia|]. destruct (aget_in fs (i - 1)) as [f0 Hf0]; [lia|]. rewrite Hf, Hf0. cbn [mbind option_bind].
  destruct (Z.eqb_spec f (u64 (f0 + 4096))) as [E|]; cbn [negb]; [|by exists false].
  destruct (IH (i + 1)) as (b & -> & Hb); [lia|lia|]. exists b. split; [done|]. intros -> j g g0 Hj Hg Hg0.
  destruct (decide (j = i)) as [->|]; [congruence|]. apply (Hb eq_refl j); [lia|done..].
Qed.

(** The frames of a slot are nonzero 64-bit addresses of pages. *)
Definition page_addresses (fs : list Z) : Prop := Forall (fun f => 0 < f /\ is_u64 f /\ f mod 4096 = 0) fs.

Lemma region_contiguous fs : page_addresses fs -> (1 <= length fs)%nat ->
  (forall j f f0, 1 <= j < Z.of_nat (length fs) -> fs.[j] = Some f -> fs.[j - 1] = Some f0 -> f = u64 (f0 + 4096)) ->
  exists first, fs.[0] = Some first /\ region first (Z.of_nat (length fs)) = fs.
Proof.
  intros Ha Hl Hc. destruct (aget_in fs 0) as [first H0]; [lia|]. exists first. split; [done|].
  assert (H : forall (k : nat) f, fs !! k = Some f -> f = first + 4096 * Z.of_nat k).
  { intros k. induction k as [|k IH]; intros f Hf.
    - apply aget_Some in H0 as [_ H0]. change (Z.to_nat 0) with 0%nat in H0. rewrite Hf in H0. injection H0 as ->. lia.
    - pose proof (lookup_lt_Some _ _ _ Hf) as Hlt. destruct (lookup_lt_is_Some_2 fs k) as [f0 Hf0]; [lia|].
      pose proof (IH f0 Hf0) as E0. assert (f = u64 (f0 + 4096)) as E.
      { apply (Hc (Z.of_nat (S k))); [lia|apply aget_Some; split; [lia|by rewrite Nat2Z.id]|].
        apply aget_Some. split; [lia|]. replace (Z.to_nat (Z.of_nat (S k) - 1)) with k by lia. done. }
      unfold page_addresses in Ha. pose proof (Forall_lookup_1 _ _ _ _ Ha Hf) as (P1 & P2 & P3). pose proof (Forall_lookup_1 _ _ _ _ Ha Hf0) as (Q1 & Q2 & Q3).
      unfold u64, is_u64 in *. zlia. }
  apply list_eq_same_length with (length fs); [done|unfold region; rewrite length_fmap, length_seqZ; lia|].
  intros k x y Hk Hx Hy. unfold region in Hx. rewrite list_lookup_fmap, lookup_seqZ_lt in Hx by lia. injection Hx as <-. rewrite (H k y Hy). lia.
Qed.

Lemma frames_contiguous_ok fs n : page_addresses fs -> Z.of_nat (length fs) = n -> 1 <= n ->
  exists b, frames_contiguous fs n = Some b /\ (b = true -> exists first, fs.[0] = Some first /\ region first n = fs).
Proof.
  intros Ha <- Hn. unfold frames_contiguous. destruct (contiguous_from_ok fs (Z.to_nat (Z.of_nat (length fs) - 1)) 1) as (b & -> & Hb); [lia|lia|].
  exists b. split; [done|]. intros ->. apply region_contiguous; [done|lia|]. intros j f f0 Hj. apply Hb; [done|lia].
Qed.

(** ** Stores inside the frames of a slot *)

Definition slot_addresses (p : userspace_memory) : Prop := page_addresses (slot_frames p).

(** Every address space maps these addresses to themselves. *)
Definition slot_low (p : userspace_memory) : Prop := Forall (fun f => 4194304 <= f < USER_ANON_BASE) (slot_places p).
Definition reachable (s : sched) (p : userspace_memory) : Prop := forallb (at_own_address s) (slot_places p) = true.
Lemma low_reachable s p : slot_low p -> reachable s p.
Proof.
  unfold slot_low, reachable. rewrite list.Forall_forall. intros H. apply forallb_forall. intros f Hf%list_elem_of_In.
  specialize (H f Hf). unfold at_own_address. rewrite (proj2 (Z.leb_le _ _)), (proj2 (Z.ltb_lt _ _)) by lia. apply orb_true_r.
Qed.
Lemma kernel_reachable s p : s.(current_pid) = 0 -> reachable s p.
Proof. intros E. apply forallb_forall. intros f _. unfold at_own_address. by rewrite E. Qed.

Lemma touches_data (T : Z -> Prop) X pg pg' : touches X pg pg' -> (forall x, x ∈ X -> ~ T x /\ is_page pg x) -> same_tables T pg pg'.
Proof.
  intros [H1 H2] HX. split.
  - intros p Hp. apply H1. intros Hin. by apply (HX p).
  - intros p. split; [|apply H2]. destruct (decide (p ∈ X)) as [Hin|Hout]; [intros _; by apply HX|].
    intros (ws & Hw & Hl). exists ws. rewrite <- Hw. by rewrite H1.
Qed.

(** A slot without a running program. *)
Section slot.
Context (total : list Z) (m : user_memory) (L : list Z) (g : list own) (pid : Z) (p : userspace_memory).
Context (Hi : frames_inv total m L g) (Hpid : 1 <= pid < 8) (Hp : m.(process_memory).[pid] = Some p) (Ha : slot_addresses p).

Notation good := (slot_frame total m L g Hi pid p Hpid Hp).

Lemma slot_same X pg : touches X m.(pages) pg -> (forall x, x ∈ X -> x ∈ slot_frames p) -> same_tables (not_data m g) m.(pages) pg.
Proof. intros Ht HX. eapply touches_data; [exact Ht|]. intros x Hx. destruct (good x (HX x Hx)) as (H1 & _ & H3). by split. Qed.

Lemma slot_parts : (forall x, x ∈ p.(code_frames) \/ x ∈ p.(heap_frames) \/ x ∈ p.(stack_frames) -> x ∈ slot_frames p).
Proof. intros x. unfold slot_frames. rewrite !elem_of_app. tauto. Qed.

Lemma part_ok fs : (forall x, x ∈ fs -> x ∈ slot_frames p) -> Forall (is_page m.(pages)) fs /\ Forall (fun f => f mod 4096 = 0) fs.
Proof. intros H. split; apply list.Forall_forall; intros x Hx; by apply good, H. Qed.
Lemma part_addresses fs : (forall x, x ∈ fs -> x ∈ slot_frames p) -> page_addresses fs.
Proof. intros H. unfold slot_addresses, page_addresses in *. rewrite list.Forall_forall in *. intros x Hx. by apply Ha, H. Qed.

Lemma slot_frames_distinct : NoDup (slot_frames p).
Proof.
  destruct (fi_spaces _ _ _ _ Hi) as (ts & Hs). pose proof Hs as [S1 S2 _ _ _]. pose proof Hp as Hl. apply slot_lookup in Hl; [|lia].
  destruct (lookup_lt_is_Some_2 ts (Z.to_nat pid - 1)) as [t Ht]; [apply lookup_lt_Some in Hl; lia|].
  destruct (slot_pages_distinct ts total m _ p t Hs Hl Ht) as (H & _). by apply list.NoDup_app in H as (_ & _ & ?).
Qed.

Lemma slot_shaped : slot_shape p.
Proof. destruct (space_chain total m L g Hi pid p Hpid Hp) as (t & _ & _ & _ & H & _). exact H. Qed.

Record slot_runs : Prop := {
  sr_code : exists first, p.(code_frames).[0] = Some first /\ region first p.(code_page_count) = p.(code_frames);
  sr_heap : exists first, p.(heap_frames).[0] = Some first /\ region first USERSPACE_HEAP_PAGES = p.(heap_frames)
}.

Lemma good_slot_ok : exists b, good_slot p = Some b /\ (b = true -> slot_runs).
Proof.
  destruct slot_shaped as [C1 C2 C3 C4]. unfold good_slot. rewrite (proj2 (Z.eqb_neq _ 0)), (proj2 (Z.ltb_ge USERSPACE_CODE_PAGES _)) by (unfold USERSPACE_CODE_PAGES; lia).
  cbn [orb]. destruct (frames_contiguous_ok p.(code_frames) p.(code_page_count)) as (b1 & -> & H1); [apply part_addresses; intros x Hx; apply slot_parts; tauto|done|lia|].
  cbn [mbind option_bind]. destruct b1; cbn [negb]; [|by exists false].
  destruct (frames_contiguous_ok p.(heap_frames) USERSPACE_HEAP_PAGES) as (b2 & -> & H2); [apply part_addresses; intros x Hx; apply slot_parts; tauto|by rewrite C3|unfold USERSPACE_HEAP_PAGES; lia|].
  exists b2. split; [done|]. intros ->. split; auto.
Qed.

Lemma list_all (l : list Z) n : Z.of_nat (length l) = n -> mapM (fun i => l.[i]) (seqZ 0 n) = Some l.
Proof.
  intros <-. apply mapM_Some. apply Forall2_same_length_lookup. split; [rewrite length_seqZ; lia|].
  intros i x y Hx Hy. apply lookup_seqZ in Hx as [-> _]. apply aget_Some. split; [lia|]. rewrite <- Hy. f_equal. lia.
Qed.

Lemma clear_slot_ok : slot_runs -> exists pg, clear_slot p m = Some (set_pages pg m) /\ touches (p.(stack_frames) ++ p.(heap_frames)) m.(pages) pg /\
  forall f k, f ∈ p.(stack_frames) ++ p.(heap_frames) -> 0 <= k < 4096 -> load_byte pg (f + k) = Some 0.
Proof.
  intros [_ (hp & Hh & Hr)]. destruct slot_shaped as [C1 C2 C3 C4]. unfold clear_slot. rewrite list_all by (rewrite C4; done). cbn [mbind option_bind].
  destruct (part_ok p.(stack_frames)) as [P1 P2]; [intros x Hx; apply slot_parts; tauto|].
  destruct (part_ok p.(heap_frames)) as [Q1 Q2]; [intros x Hx; apply slot_parts; tauto|].
  destruct (clear_pages_ok p.(stack_frames) m.(pages) P1 P2) as (pg1 & -> & T1 & Z1). cbn [mbind option_bind]. rewrite Hh. cbn [mbind option_bind].
  rewrite Hr. destruct (clear_pages_ok p.(heap_frames) pg1) as (pg2 & -> & T2 & Z2); [|done|].
  { revert Q1. apply Forall_impl. intros x. by apply (touches_page _ _ _ _ T1). }
  cbn [mbind option_bind]. exists pg2. split; [done|]. split.
  - eapply touches_trans; [eapply touches_mono; [exact T1|]|eapply touches_mono; [exact T2|]]; intros x Hx; apply elem_of_app; tauto.
  - intros f k Hf Hk. destruct (decide (f ∈ p.(heap_frames))) as [Hin|Hout]; [by apply Z2|].
    assert (Hs : f ∈ p.(stack_frames)) by (apply elem_of_app in Hf; tauto). rewrite <- (Z1 f k Hs Hk).
    apply load_frame_same; [by apply T2| |done]. rewrite list.Forall_forall in P2. by apply P2.
Qed.

Lemma small_code_ok image : slot_runs -> bytes_ok image ->
  exists r m', small_code_load p image m = Some (r, m') /\
    (r = None -> m' = m) /\
    (r = None <-> ~ exists h ps, fits_window image h ps USER_CODE (p.(code_page_count) * 4096)) /\
    forall en, r = Some en -> exists pg h ps, m' = set_pages pg m /\ touches p.(code_frames) m.(pages) pg /\
      fits_window image h ps USER_CODE (p.(code_page_count) * 4096) /\ en = h.(entry) /\
      frames_hold pg p.(code_frames) (fun o => image_byte image ps (USER_CODE + o)).
Proof.
  intros [(first & H0 & Hr) _] Hb. destruct slot_shaped as [C1 C2 C3 C4]. unfold small_code_load. rewrite H0. cbn [mbind option_bind]. rewrite Hr.
  destruct (part_ok p.(code_frames)) as [P1 P2]; [intros x Hx; apply slot_parts; tauto|].
  destruct (read_frames_ok p.(code_frames) m.(pages) P1) as (bytes & -> & Hl & Hbo). cbn [mbind option_bind].
  assert (El : Z.of_nat (length bytes) = p.(code_page_count) * 4096) by lia.
  destruct (load_ok image (Target USER_CODE bytes) Hb) as (r & -> & Hrs); cbn [t_base t_memory] in *; [done|rewrite El; unfold USER_CODE, U64_MAX; lia|].
  cbn [mbind option_bind]. rewrite El in Hrs. destruct r as [[mem en]|].
  2: { exists None, m. split; [done|]. split; [done|]. split; [|done]. split; [|done]. intros _ (h & ps & Hf).
       assert (None = Some (virtual_memory image ps USER_CODE (length bytes), h.(entry))) as [=]. apply Hrs. by exists h, ps. }
  destruct (proj1 (Hrs mem en) eq_refl) as (h & ps & Hf & -> & ->).
  assert (Hlook : forall o, 0 <= o < p.(code_page_count) * 4096 ->
    (virtual_memory image ps USER_CODE (length bytes)).[o] = Some (image_byte image ps (USER_CODE + o))).
  { intros o Ho. apply aget_Some. split; [lia|]. rewrite virtual_memory_lookup by lia. unfold image_byte. do 2 f_equal. lia. }
  assert (Hvl : length (virtual_memory image ps USER_CODE (length bytes)) = length bytes) by (unfold virtual_memory; by rewrite length_fmap, length_seq).
  destruct (write_frames_ok p.(code_frames) (virtual_memory image ps USER_CODE (length bytes)) m.(pages)) as (pg & -> & Ht & Hc); [done| |done|by rewrite Hvl| |].
  { pose proof slot_frames_distinct as Hn. unfold slot_frames in Hn. by apply list.NoDup_app in Hn as (? & _). }
  { apply list.Forall_forall. intros x Hx. apply list_elem_of_fmap in Hx as (k & -> & _). by apply image_byte_range. }
  cbn [mbind option_bind]. exists (Some h.(entry)), (set_pages pg m). split; [done|]. split; [done|]. split.
  - split; [done|]. intros H. exfalso. apply H. by exists h, ps.
  - intros en [= <-]. exists pg, h, ps. split; [done|]. split; [done|]. split; [done|]. split; [done|].
    intros i f k Hf' Hk. pose proof (aget_bound _ _ _ Hf'). rewrite (Hc i f k Hf' Hk). apply Hlook. lia.
Qed.
End slot.

(** ** The page table of a slot *)

Lemma map_frames_ok n : forall i table index fs m, is_page m.(pages) table -> 0 <= i -> 0 <= index -> i + Z.of_nat n = Z.of_nat (length fs) ->
  index + Z.of_nat (length fs) <= 512 ->
  exists pg, map_frames n i table index fs m = Some (set_pages pg m) /\ touches [table] m.(pages) pg /\
    (forall j f, i <= j -> fs.[j] = Some f -> word pg table (index + j) = Some (f + 7)) /\
    forall k, ~ (index + i <= k < index + Z.of_nat (length fs)) -> word pg table k = word m.(pages) table k.
Proof.
  induction n as [|n IH]; intros i table index fs m Ht Hi Hx Hn Hb; cbn [map_frames].
  { exists m.(pages). split; [by destruct m|]. split; [apply touches_refl|]. split; [|done]. intros j f Hj Hf. apply aget_bound in Hf. lia. }
  destruct (aget_in fs i) as [f Hf]; [lia|]. rewrite Hf. cbn [mbind option_bind]. rewrite store_word_eq by (done || lia). cbn [mbind option_bind].
  pose proof (put_word_touches m.(pages) table (index + i) (f + 7)) as T0.
  destruct (IH (i + 1) table index fs (set_pages (put_word m.(pages) table (index + i) (f + 7)) m)) as (pg & -> & T & H1 & H2);
    [by apply (touches_page _ _ _ _ T0)|lia..|].
  exists pg. split; [by destruct m|]. split; [by eapply touches_trans|]. split.
  - intros j h Hj Hh. destruct (decide (j = i)) as [->|]; [|apply H1; [lia|done]]. rewrite H2 by lia.
    cbn [pages set_pages]. rewrite Hf in Hh. injection Hh as <-. by apply put_word_same; [|lia].
  - intros k Hk. rewrite H2 by lia. cbn [pages set_pages]. apply put_word_other; [done|lia|right; lia].
Qed.

Lemma map_slot_ok p m : slot_shape p -> is_page m.(pages) p.(page_table) ->
  exists pg, map_slot p m = Some (set_pages pg m) /\ touches [p.(page_table)] m.(pages) pg /\ slot_loaded pg p.
Proof.
  intros [C1 C2 C3 C4] Ht. unfold map_slot.
  change ((USER_CODE - 2097152) / 4096) with 256. change ((USER_HEAP - 2097152) / 4096) with 304. change ((USER_STACK_PAGE - 2097152) / 4096) with 309.
  destruct (map_frames_ok (Z.to_nat p.(code_page_count)) 0 p.(page_table) 256 p.(code_frames) m Ht) as (pg1 & -> & T1 & A1 & B1); [lia..|].
  cbn [mbind option_bind]. pose proof (touches_page _ _ _ _ T1 Ht) as Ht1.
  destruct (map_frames_ok (Z.to_nat USERSPACE_HEAP_PAGES) 0 p.(page_table) 304 p.(heap_frames) (set_pages pg1 m) Ht1) as (pg2 & -> & T2 & A2 & B2);
    [lia|lia|rewrite C3; done|lia|].
  cbn [mbind option_bind]. pose proof (touches_page _ _ _ _ T2 Ht1) as Ht2.
  destruct (map_frames_ok (Z.to_nat USERSPACE_STACK_PAGES) 0 p.(page_table) 309 p.(stack_frames) (set_pages pg2 (set_pages pg1 m)) Ht2) as (pg3 & -> & T3 & A3 & B3);
    [lia|lia|rewrite C4; done|lia|].
  cbn [pages set_pages] in *. exists pg3. split; [by destruct m|]. split; [eapply touches_trans; [exact T1|]; by eapply touches_trans|].
  split; intros i f Hf; pose proof (aget_bound _ _ _ Hf); unfold CODE_INDEX, HEAP_INDEX, STACK_INDEX.
  - rewrite B3, B2 by lia. apply A1; [lia|done].
  - rewrite B3 by lia. apply A2; [lia|done].
  - apply A3; [lia|done].
Qed.

(** Writing pages the processes neither own nor have as a directory. *)
Lemma frames_apart total m L g X pg :
  frames_inv total m L g -> touches X m.(pages) pg -> (forall x, x ∈ X -> x ∉ L ++ all_owned g /\ x ∉ directories m) ->
  spaces total (set_pages pg m) -> frames_inv total (set_pages pg m) L g.
Proof.
  intros Hi Ht HX Hsp. pose proof Hi as [[A1 A2 A3 A4] H2 H3 H4 H5 H6 H7 H8 H9 H10].
  split; try done; try (by split).
  - eapply pool_touches; [done..|exact Ht|]. intros f Hf Hx. apply HX in Hx as [Hx _]. apply Hx, elem_of_app. by left.
  - intros q o Hq Ho. destruct (H5 q o Hq Ho) as (d & Hd & Hown). exists d. split; [done|].
    eapply (owned_other m (set_pages pg m) 0); [by split|lia|exact Ht| | |exact Hown].
    + intros Hx. apply HX in Hx as [_ Hx]. apply Hx. by apply (directory_in m q).
    + intros x Hx Hx'. apply HX in Hx' as [Hx' _]. apply Hx', elem_of_app. right. apply (concat_in own_frames g o); [by eapply in_owners|done].
  - by eapply frames_ok_touches.
  - revert H8. apply Forall_impl. intros x. by apply (touches_page _ _ _ _ Ht).
Qed.

(** Mapping an idle slot. *)
Lemma frames_map_slot total m L g pid p pg :
  frames_inv total m L g -> 1 <= pid < 8 -> m.(process_memory).[pid] = Some p ->
  touches [p.(page_table)] m.(pages) pg -> slot_loaded pg p -> frames_inv total (set_pages pg m) L g.
Proof.
  intros Hi Hpid Hp Ht Hl. destruct (fi_spaces _ _ _ _ Hi) as (ts & Hs). pose proof Hs as [S1 S2 S3 S4 S5].
  pose proof Hp as Hsl. apply slot_lookup in Hsl; [|lia]. set (i := (Z.to_nat pid - 1)%nat) in *.
  destruct (lookup_lt_is_Some_2 ts i) as [t Hti]; [apply lookup_lt_Some in Hsl; lia|].
  destruct (slot_pages_distinct ts total m i p t Hs Hsl Hti) as (Hn & Hout & Hoth).
  assert (Hin : p.(page_table) ∈ slot_pages p t) by (apply elem_of_app; left; do 3 right; by left).
  eapply frames_apart; [done|exact Ht| |].
  - intros x ->%list_elem_of_singleton. split; [rewrite (fi_total _ _ _ _ Hi); by apply Hout|].
    intros (q & E & Hq)%list_elem_of_fmap. apply list_elem_of_lookup in Hq as (j & Hj). change (slots m !! j = Some q) in Hj.
    destruct (lookup_lt_is_Some_2 ts j) as [u Hu]; [apply lookup_lt_Some in Hj; lia|]. destruct (decide (j = i)) as [->|Hji].
    + rewrite Hsl in Hj. injection Hj as <-. apply list.NoDup_app in Hn as (Hn & _ & _). unfold slot_tables in Hn.
      rewrite !list.NoDup_cons, !elem_of_cons in Hn. rewrite E in Hn. tauto.
    + apply (Hoth j q u Hji Hj Hu _ Hin). rewrite E. apply elem_of_app; left; do 2 right; by left.
  - exists ts. split; try done; [by eapply frames_ok_touches|]. intros j q u Hj Hu. change (slots m !! j = Some q) in Hj. destruct (S5 j q u Hj Hu) as (Hsh & [M1 M2 M3] & Hlq).
    split; [done|]. destruct (decide (j = i)) as [->|Hji].
    + rewrite Hsl in Hj. injection Hj as <-. rewrite Hti in Hu. injection Hu as <-.
      apply list.NoDup_app in Hn as (Hn & _ & _). unfold slot_tables in Hn. rewrite !list.NoDup_cons, !elem_of_cons in Hn.
      split; [|done]. split; cbn; (rewrite (touches_word _ _ _ _ _ Ht); [done|intros E%list_elem_of_singleton; rewrite E in Hn; tauto]).
    + assert (Hne : forall x, x ∈ slot_pages q u -> x ∉ [p.(page_table)]).
      { intros x Hx ->%list_elem_of_singleton. by apply (Hoth j q u Hji Hj Hu _ Hin). }
      assert (Htab : forall x, x ∈ slot_tables q u -> x ∉ [p.(page_table)]) by (intros x Hx; apply Hne, elem_of_app; by left).
      split; [split; cbn; (rewrite (touches_word _ _ _ _ _ Ht); [done|apply Htab])|].
      * by left.
      * right; by left.
      * do 2 right; by left.
      * intros Hus. apply (loaded_touches _ _ _ _ Ht); [apply Htab; do 3 right; by left|by apply Hlq].
Qed.

(** The slot is in use from now on. *)
Lemma frames_occupy total m L g pid p :
  frames_inv total m L g -> 1 <= pid < 8 -> m.(process_memory).[pid] = Some p -> slot_loaded m.(pages) p ->
  frames_inv total (set_used (<[Z.to_nat pid := true]> m.(process_memory_used)) m) L g.
Proof.
  intros [[A1 A2 A3 A4] H2 H3 H4 H5 H6 H7 H8 H9 (ts & [S1 S2 S3 S4 S5])] Hpid Hp Hl. apply slot_lookup in Hp; [|lia].
  split; try done; try (by split); [by split; cbn; rewrite ?length_insert|by destruct H4 as [(F & HF) ? ?]; split; [exists F|..]| |].
  - intros q o Hq Ho. destruct (H5 q o Hq Ho) as (d & Hd & [O1 O2 O3 [L1 L2 L3 L4 L5] [Q1 Q2 Q3] O6]). exists d. split; [done|]. by split.
  - exists ts. split; try done. intros i q t Hq Ht. destruct (S5 i q t Hq Ht) as (G1 & G2 & G3). split; [done|]. split; [done|].
    cbn [process_memory_used set_used]. change (slots (set_used _ m)) with (slots m) in Hq. intros Hu.
    destruct (decide (S i = Z.to_nat pid)) as [E|Hne].
    + rewrite <- E in Hp. cbn [Nat.sub] in Hp. rewrite Nat.sub_0_r, Hq in Hp. by injection Hp as ->.
    + rewrite list_lookup_insert_ne in Hu by done. by apply G3.
Qed.
