(* ===== verification/LargeCodeSpec.v ===== *)
(** Loading a large executable: the page table and the frames come from the pool, the
    frames hold the image, and a failure gives everything back. *)

From stdpp Require Import gmap.
From S2P Require Import Prelude LittleEndian Elf64 Elf64Spec PhysicalMemory UserMemory UserMemorySpec FramePool FrameOwnership AnonymousSpec.
From S2P Require Import FrameInvariant MemoryInvariant Spawn FrameBytes.

Section load.
Context (m0 : user_memory) (pid d : Z) (L0 : list Z) (Hpid : 1 <= pid < 8) (Hd : directory_of pid m0 = Some d).
Context (Hap : apart m0.(pages) d L0).

(** Table [t] and the frames [fr] have been taken. *)
Record loading (t : Z) (L fr : list Z) (m : user_memory) : Prop := {
  ll_pool : pool m L;
  ll_perm : L ++ t :: fr ≡ₚ L0;
  ll_cells : exists fs, large_cells m pid t (Z.of_nat (length fr)) fs /\ fr = take (length fr) fs /\
    large_step pid t (Z.of_nat (length fr)) fs m0 m;
  ll_touches : touches L0 m0.(pages) m.(pages);
  ll_ptes : forall i f, fr.[i] = Some f -> word m.(pages) t i = Some (f + 7)
}.

(** Everything has been given back. *)
Record undone (m : user_memory) : Prop := {
  un_pool : exists L, pool m L /\ L ≡ₚ L0;
  un_cells : exists fs, large_cells m pid 0 0 fs /\ large_step pid 0 0 fs m0 m;
  un_touches : touches (d :: L0) m0.(pages) m.(pages);
  un_dir : forall i, i <> LARGE_INDEX -> word m.(pages) d i = word m0.(pages) d i
}.

Lemma step_directory t n fs m : large_step pid t n fs m0 m -> directory_of pid m = Some d.
Proof. intros (f & nx & pg & ->). exact Hd. Qed.

Lemma outside_dir m : touches L0 m0.(pages) m.(pages) -> forall i, word m.(pages) d i = word m0.(pages) d i.
Proof.
  intros Ht i. apply (touches_word _ _ _ _ _ Ht). intros Hin. by destruct (apart_dir _ _ _ _ Hap Hin).
Qed.

Lemma undo t L fr m n : pool m L -> L ++ t :: fr ≡ₚ L0 ->
  (exists fs, large_cells m pid t n fs /\ fr = take (length fr) fs /\ large_step pid t n fs m0 m) -> n = Z.of_nat (length fr) ->
  touches L0 m0.(pages) m.(pages) -> succeeds (large_code_release pid m) undone.
Proof.
  intros Hp Hpm (fs & Hc & Hf & Hs) -> Ht.
  destruct (large_cells_release m pid d L (t :: fr) fs Hpid (step_directory _ _ _ _ Hs) Hp) as (m' & L' & fs' & -> & Hp' & Hpm' & Hc' & Hs' & Ht' & Hd');
    [exact Hc|exact Hf|apply (apart_perm _ _ _ _ Hpm); by eapply apart_touches|].
  exists m'. split; [done|]. split.
  - exists L'. split; [done|]. by rewrite Hpm'.
  - exists fs'. split; [done|]. by eapply large_step_trans.
  - eapply touches_trans; [eapply touches_mono; [exact Ht|]|eapply touches_mono; [exact Ht'|]].
    + intros x Hx. by right.
    + intros x [->|Hx]%elem_of_cons; [by left|right]. rewrite <- Hpm. apply elem_of_app. by right.
  - intros i Hi. rewrite Hd' by done. by apply outside_dir.
Qed.

(** One frame more. *)
Lemma loading_step t L1 f fr m m1 free next :
  loading t (f :: L1) fr m -> Z.of_nat (length fr) < 320 ->
  m1 = set_pool free next (<[f := zero_page]> m.(pages)) m -> pool m1 L1 -> touches [f] m.(pages) m1.(pages) ->
  exists m2 m3 m4, set_large_frame pid (Z.of_nat (length fr)) f m1 = Some m2 /\ set_large_count pid (Z.of_nat (length fr) + 1) m2 = Some m3 /\
    store_word t (Z.of_nat (length fr)) (f + 7) m3 = Some m4 /\ loading t L1 (fr ++ [f]) m4.
Proof.
  intros [Hp Hpm (fs & Hc & Hf & Hs) Ht Hw] Hn E Hp1 Ht1. pose proof (apart_perm _ _ _ _ Hpm (apart_touches _ _ _ _ _ Ht Hap)) as Hap1.
  destruct (apart_app _ _ _ _ Hap1) as ((Hnd1 & _) & (Hnd2 & _) & Hdis). apply list.NoDup_cons in Hnd1 as [_ Hnd1], Hnd2 as [_ Hnd2].
  assert (Hft : f <> t) by (intros ->; apply (Hdis t); by left).
  assert (HtL : t ∉ L1) by (intros Hin; apply (Hdis t); [by right|by left]).
  pose proof (large_step_pool pid t _ fs m free next (<[f := zero_page]> m.(pages)) Hc) as S1. rewrite <- E in S1.
  pose proof (large_step_cells _ _ _ _ _ _ _ _ _ Hc S1 (lc_length _ _ _ _ _ Hc)) as C1.
  destruct (set_large_frame_step _ _ _ _ _ (Z.of_nat (length fr)) f C1) as (m2 & E2 & S2 & P2 & Q2); [lia|].
  pose proof (large_step_cells _ _ _ _ _ _ _ _ _ C1 S2 ltac:(rewrite length_insert; apply C1)) as C2.
  destruct (set_large_count_step _ _ _ _ _ (Z.of_nat (length fr) + 1) C2) as (m3 & E3 & S3 & P3 & Q3).
  pose proof (large_step_cells _ _ _ _ _ _ _ _ _ C2 S3 (lc_length _ _ _ _ _ C2)) as C3.
  assert (Hpt : is_page m3.(pages) t).
  { rewrite P3, P2. apply (touches_page _ _ _ _ Ht1). destruct (apart_dir _ _ _ t Hap1) as [_ (_ & _ & H)]; [apply elem_of_app; right; by left|done]. }
  exists m2, m3, (set_pages (put_word m3.(pages) t (Z.of_nat (length fr)) (f + 7)) m3). split; [done|]. split; [done|].
  split; [by rewrite store_word_eq by (done || lia)|]. pose proof (put_word_touches m3.(pages) t (Z.of_nat (length fr)) (f + 7)) as Tp.
  split; cbn [pages set_pages set_pool].
  - eapply pool_touches; [apply Q3, Q2, Hp1|done|done|exact Tp|]. intros x Hx ->%list_elem_of_singleton. done.
  - rewrite <- Hpm. solve_Permutation.
  - rewrite length_app. cbn [length]. replace (Z.of_nat (length fr + 1)) with (Z.of_nat (length fr) + 1) by lia.
    exists (<[Z.to_nat (Z.of_nat (length fr)) := f]> fs). rewrite Nat2Z.id in *. split; [by destruct C3|]. split.
    + rewrite Nat.add_1_r. rewrite (take_S_r _ _ f); [|apply list_lookup_insert_eq; rewrite (lc_length _ _ _ _ _ Hc); lia].
      f_equal. rewrite take_insert_ge by lia. done.
    + eapply large_step_trans; [exact Hs|]. eapply large_step_trans; [exact S1|]. eapply large_step_trans; [exact S2|].
      eapply large_step_trans; [exact S3|]. apply large_step_pool. exact C3.
  - eapply touches_trans; [exact Ht|]. eapply touches_trans; [eapply touches_mono; [exact Ht1|]|rewrite <- P2, <- P3; eapply touches_mono; [exact Tp|]];
      intros x ->%list_elem_of_singleton; rewrite <- Hpm, elem_of_app; [left; by left|right; by left].
  - intros i g Hg. destruct (decide (i = Z.of_nat (length fr))) as [->|Hne].
    + rewrite put_word_same by (done || lia). f_equal. f_equal. apply aget_Some in Hg as [_ Hg]. rewrite Nat2Z.id in Hg.
      rewrite lookup_app_r in Hg by lia. rewrite Nat.sub_diag in Hg. by injection Hg.
    + pose proof (aget_bound _ _ _ Hg) as Hb. rewrite length_app in Hb. cbn [length] in Hb.
      rewrite put_word_other by (done || lia || by right). rewrite P3, P2, (touches_word _ _ _ _ _ Ht1) by (by intros ->%list_elem_of_singleton).
      apply Hw. rewrite aget_app_l in Hg by lia. done.
Qed.

Lemma large_frames_ok n : forall t L fr m, loading t L fr m -> Z.of_nat (length fr) + Z.of_nat n <= 320 ->
  exists b m', large_code_frames_take n (Z.of_nat (length fr)) pid t m = Some (b, m') /\
    if b : bool then exists L' fr', loading t L' fr' m' /\ length fr' = (length fr + n)%nat
    else undone m' /\ (length L0 < 1 + length fr + n)%nat.
Proof.
  induction n as [|n IH]; intros t L fr m Hl Hn; cbn [large_code_frames_take].
  { exists true, m. split; [done|]. exists L, fr. split; [done|]. lia. }
  pose proof Hl as [Hp Hpm (fs & Hc & Hf & Hs) Ht Hw]. pose proof (apart_perm _ _ _ _ Hpm (apart_touches _ _ _ _ _ Ht Hap)) as Hap1.
  destruct (apart_app _ _ _ _ Hap1) as ((Hnd1 & Hfo & _) & _). apply list.NoDup_cons in Hnd1 as [_ Hnd1].
  destruct (take_ok m L Hp Hnd1 Hfo) as (r & -> & Hr). destruct L as [|f L1]; cbn [taken] in Hr.
  - subst r. cbn [mbind option_bind]. rewrite Z.eqb_refl.
    destruct (set_large_count_step _ _ _ _ _ (Z.of_nat (length fr)) Hc) as (m1 & -> & S1 & P1 & Q1). cbn [mbind option_bind].
    destruct (undo t [] fr m1 (Z.of_nat (length fr))) as (m2 & -> & Hu); [by apply Q1|done| |done|by rewrite P1|].
    + exists fs. split; [apply (large_step_cells _ _ _ _ _ _ _ _ _ Hc S1 (lc_length _ _ _ _ _ Hc))|]. split; [done|by eapply large_step_trans].
    + cbn [mbind option_bind]. exists false, m2. split; [done|]. split; [done|]. rewrite <- Hpm. cbn [app length]. lia.
  - destruct Hr as (free & next & -> & Hp1 & Ht1 & _). cbn [mbind option_bind snd] in *.
    apply list.Forall_cons in Hfo as [(Hf0 & _) _]. rewrite (proj2 (Z.eqb_neq f 0)) by lia.
    destruct (loading_step t L1 f fr m (set_pool free next (<[f := zero_page]> m.(pages)) m) free next Hl) as (m2 & m3 & m4 & -> & E3 & E4 & Hl4); [lia|done|done|done|].
    cbn [mbind option_bind]. rewrite E3. cbn [mbind option_bind]. rewrite E4. cbn [mbind option_bind].
    destruct (IH t L1 (fr ++ [f]) m4 Hl4) as (b & m' & E & Hb); [rewrite length_app; cbn [length]; lia|].
    rewrite length_app in E. cbn [length] in E. replace (Z.of_nat (length fr + 1)) with (Z.of_nat (length fr) + 1) in E by lia.
    exists b, m'. split; [exact E|]. rewrite length_app in Hb. cbn [length] in Hb. destruct b; [|destruct Hb; split; [done|lia]].
    destruct Hb as (L' & fr' & H1 & H2). exists L', fr'. split; [done|].
    lia.
Qed.

(** ** The whole load *)

Record large_loaded (image : list Z) (en t : Z) (fr : list Z) (m : user_memory) : Prop := {
  lo_pool : exists L, pool m L /\ L ++ t :: fr ≡ₚ L0;
  lo_large : large_of m pid d (t :: fr);
  lo_step : exists fs, large_step pid t (Z.of_nat (length fr)) fs m0 m;
  lo_touches : touches (d :: L0) m0.(pages) m.(pages);
  lo_dir : forall i, i <> LARGE_INDEX -> word m.(pages) d i = word m0.(pages) d i;
  lo_image : exists h ps, fits_window image h ps USER_LARGE_CODE_BASE (window fr) /\ en = h.(entry) /\
    frames_hold m.(pages) fr (fun o => image_byte image ps (USER_LARGE_CODE_BASE + o))
}.

Lemma undone_refl fs : pool m0 L0 -> large_cells m0 pid 0 0 fs -> undone m0.
Proof.
  intros Hp Hc. split; [by exists L0| |apply touches_refl|done]. exists fs. split; [done|].
  pose proof (large_step_pool pid 0 0 fs m0 m0.(anonymous_free_frames) m0.(next_frame) m0.(pages) Hc) as H. by destruct m0.
Qed.

Definition large_pages (l : elf64_layout) : Z := (l.(virtual_end) - USER_LARGE_CODE_BASE + 4095) / 4096.

Lemma loading_finish image t L fr m h ps :
  loading t L fr m -> (1 <= length fr <= 320)%nat -> bytes_ok image -> fits_window image h ps USER_LARGE_CODE_BASE (window fr) ->
  exists pg en m', load_pages image USER_LARGE_CODE_BASE fr m.(pages) = Some (Some (pg, en)) /\
    store_word d LARGE_INDEX (t + 7) (set_pages pg m) = Some m' /\ large_loaded image en t fr m'.
Proof using Hpid Hd Hap.
  intros [Hp Hpm (fs & Hc & Hf & Hs) Ht Hw] Hn Hb Hfit. pose proof (apart_perm _ _ _ _ Hpm (apart_touches _ _ _ _ _ Ht Hap)) as Hap1.
  destruct (apart_app _ _ _ _ Hap1) as (_ & Hap2 & Hdis). destruct (apart_app _ _ [t] fr Hap2) as (_ & (Hnd & Hfo & Hdp) & Hdis2).
  apply list.NoDup_cons in Hnd as [Hdf Hnd].
  assert (Htf : t ∉ fr) by (apply Hdis2; by left).
  destruct (load_frames_ok image USER_LARGE_CODE_BASE fr m.(pages)) as (r & -> & Hr & Hl); [done|done|destruct fr; [cbn in Hn; lia|done]|done|done| |].
  { unfold USER_LARGE_CODE_BASE, window, U64_MAX. lia. }
  destruct r as [[pg en]|]; [|exfalso; apply (proj1 Hr eq_refl); by exists h, ps].
  destruct (Hl pg en eq_refl) as (Hpt & Him). pose proof (touches_page _ _ _ _ Hpt Hdp) as Hdp'.
  exists pg, en, (set_pages (put_word pg d LARGE_INDEX (t + 7)) m). split; [done|].
  split; [by rewrite store_word_eq by (done || (unfold LARGE_INDEX; lia)); destruct m|].
  pose proof (put_word_touches pg d LARGE_INDEX (t + 7)) as Tp.
  assert (Hword : forall x i, x <> d -> x ∉ fr -> word (put_word pg d LARGE_INDEX (t + 7)) x i = word m.(pages) x i).
  { intros x i Hx Hxf. rewrite (touches_word _ _ _ _ _ Tp) by (by intros ->%list_elem_of_singleton). by apply (touches_word _ _ _ _ _ Hpt). }
  assert (Htd : t <> d) by (apply (apart_dir _ _ _ t Hap2); by left).
  split; cbn [pages set_pages set_pool].
  - exists L. split; [|done]. eapply (pool_touches (d :: fr)); [exact Hp|done|done| |].
    + eapply touches_trans; [eapply touches_mono; [exact Hpt|]|eapply touches_mono; [exact Tp|]].
      * intros x Hx. by right.
      * intros x ->%list_elem_of_singleton. by left.
    + intros x Hx [->|Hin]%elem_of_cons; [|by apply (Hdis x Hx); right].
      destruct (apart_dir _ _ _ d Hap1); [apply elem_of_app; by left|done].
  - destruct Hc as [C1 C2 C3 C4]. split; [done|done|by exists fs| |].
    + apply put_word_same; [done|unfold LARGE_INDEX; lia].
    + intros t' i f [= <-] Hfi. cbn [tail] in Hfi. cbn. rewrite Hword by done. by apply Hw.
  - exists fs. eapply large_step_trans; [exact Hs|]. apply large_step_pool. done.
  - eapply touches_trans; [eapply touches_mono; [exact Ht|]|eapply touches_trans; [eapply touches_mono; [exact Hpt|]|eapply touches_mono; [exact Tp|]]].
    + intros x Hx. by right.
    + intros x Hx. right. rewrite <- Hpm. apply elem_of_app. right. by right.
    + intros x ->%list_elem_of_singleton. by left.
  - intros i Hi. rewrite put_word_other by (done || (unfold LARGE_INDEX in *; lia) || by right). rewrite (touches_word _ _ _ _ _ Hpt) by done.
    by apply outside_dir.
  - destruct Him as (h' & ps' & H1 & H2 & H3). exists h', ps'. split; [done|]. split; [done|]. intros i f k Hfi Hk.
    rewrite (load_frame_same pg); [by apply H3| | |done].
    + apply Tp. intros ->%list_elem_of_singleton. apply Hdf. apply aget_Some in Hfi as [_ Hfi]. by apply list_elem_of_lookup_2 in Hfi.
    + pose proof (aget_Forall _ _ _ _ Hfo Hfi) as Hx. apply Hx.
Qed.

Lemma large_code_load_ok image l fs0 :
  pool m0 L0 -> large_cells m0 pid 0 0 fs0 -> bytes_ok image -> executable_image image l -> l.(virtual_base) = USER_LARGE_CODE_BASE ->
  exists r m', large_code_load pid image l m0 = Some (r, m') /\
    (r = None <-> 320 < large_pages l \/ Z.of_nat (length L0) < 1 + large_pages l) /\
    match r with None => undone m' | Some en => exists t fr, large_loaded image en t fr m' /\ Z.of_nat (length fr) = large_pages l end.
Proof using Hpid Hd Hap.
  intros Hp Hc Hb (Hsz & h & ps & Him & -> & Hlt) Hbase. cbn [virtual_base virtual_end] in *. set (base := low_of ps U64_MAX) in *. set (top := high_of ps 0) in *.
  unfold large_code_load. rewrite (proj2 (bad_pid_spec pid ltac:(lia))) by lia. cbn [virtual_base virtual_end].
  fold base top. rewrite Hbase, Z.eqb_refl, (proj2 (Z.leb_gt top _)) by lia. cbn [negb orb]. unfold large_pages. cbn [virtual_end]. fold top.
  change (USER_LARGE_CODE_MAX_PAGES * 4096) with (320 * 4096). set (n := top - USER_LARGE_CODE_BASE) in *.
  destruct (Z.ltb_spec (320 * 4096) n) as [Hbig|Hsmall].
  { exists None, m0. split; [done|]. split; [split; [intros _; left; zlia|done]|]. by eapply undone_refl. }
  rewrite u64_small by (unfold is_u64; lia). pose proof Hap as (Hnd & Hfo & Hdp). apply list.NoDup_cons in Hnd as [_ Hnd].
  destruct (take_ok m0 L0 Hp Hnd Hfo) as (r & -> & Hr). remember L0 as L0' eqn:EL in Hr. destruct L0' as [|t L1]; cbn [taken] in Hr.
  { subst r. cbn [mbind option_bind]. rewrite Z.eqb_refl. exists None, m0. split; [done|]. split; [|by eapply undone_refl].
    split; [|done]. intros _. right. rewrite <- EL. cbn [length]. zlia. }
  destruct Hr as (free & next & -> & Hp1 & Ht1 & _). cbn [mbind option_bind snd] in *.
  rewrite <- EL in Hfo. pose proof (Forall_inv Hfo) as (Ht0 & _). rewrite (proj2 (Z.eqb_neq t 0)) by lia.
  set (m1 := set_pool free next _ m0) in *. pose proof (large_step_pool pid 0 0 fs0 m0 free next (<[t := zero_page]> m0.(pages)) Hc) as S1. fold m1 in S1.
  pose proof (large_step_cells _ _ _ _ _ _ _ _ _ Hc S1 (lc_length _ _ _ _ _ Hc)) as C1.
  destruct (set_large_table_step _ _ _ _ _ t C1) as (m2 & -> & S2 & P2 & Q2). cbn [mbind option_bind].
  pose proof (large_step_cells _ _ _ _ _ _ _ _ _ C1 S2 (lc_length _ _ _ _ _ C1)) as C2.
  destruct (large_frames_ok (Z.to_nat ((n + 4095) / 4096)) t L1 [] m2) as (b & m3 & E & Hfr).
  { split; [by apply Q2|rewrite <- EL; solve_Permutation| | |by intros i f [_ H]%aget_Some].
    - exists fs0. split; [exact C2|]. split; [done|]. eapply large_step_trans; [exact S1|exact S2].
    - rewrite P2. eapply touches_mono; [exact Ht1|]. intros x ->%list_elem_of_singleton. rewrite <- EL. by left. }
  { cbn [length]. zlia. }
  change (Z.of_nat (length [])) with 0 in E. rewrite E. cbn [mbind option_bind length] in *. destruct b; cbn [negb].
  2: { destruct Hfr as [Hu Hlen]. exists None, m3. split; [done|]. split; [|done]. split; [|done]. intros _. right. zlia. }
  destruct Hfr as (L & fr & Hl & Hlen). pose proof Hl as [_ Hpm (fs & Hc3 & Hf & Hs3) _ _]. rewrite (lc_frames _ _ _ _ _ Hc3). cbn [mbind option_bind].
  cbn [Nat.add] in Hlen. rewrite <- Hlen. rewrite <- Hf.
  destruct (loading_finish image t L fr m3 h ps Hl) as (pg & en & m4 & E1 & E2 & Hld); [zlia|done| |].
  { split; [done|]. split; [done|]. fold base top. rewrite Hbase. split; [done|]. unfold window. zlia. }
  rewrite E1. cbn [mbind option_bind]. change (directory_of pid (set_pages pg m3)) with (directory_of pid m3).
  rewrite (step_directory _ _ _ _ Hs3). cbn [mbind option_bind]. change (Z.shiftr USER_LARGE_CODE_BASE 21) with LARGE_INDEX. rewrite E2. cbn [mbind option_bind].
  exists (Some en), m4. split; [done|]. split; [|exists t, fr; split; [done|zlia]]. split; [done|].
  assert (Hlen0 : length L0 = S (length L + length fr)) by (rewrite <- Hpm, length_app; cbn [length]; lia). intros [?|?]; zlia.
Qed.
End load.

(** ** The invariant of physical memory *)

Lemma large_of_empty m pid d : large_of m pid d [] -> exists fs, large_cells m pid 0 0 fs.
Proof. intros [H1 H2 (fs & H3 & H4 & _) _ _]. by exists fs. Qed.

(** The program the frames of a large executable hold. *)
Definition large_image (image : list Z) (en : Z) (fr : list Z) (pg : phys) : Prop :=
  exists h ps, fits_window image h ps USER_LARGE_CODE_BASE (window fr) /\ en = h.(entry) /\
    frames_hold pg fr (fun o => image_byte image ps (USER_LARGE_CODE_BASE + o)).

Record large_result (total L : list Z) (d : Z) (image : list Z) (l : elf64_layout) (pid : Z) (m : user_memory) (g : list own) (o : own) (r : option Z) (m' : user_memory) : Prop := {
  lr_others : others_same pid m m';
  lr_mapped : m'.(mapped_surface) = m.(mapped_surface);
  lr_kept : match r with
    | None => exists L', frames_inv total m' L' g
    | Some en => exists t fr L', frames_inv total m' L' (<[Z.to_nat pid := Own o.(o_tables) o.(o_frames) (t :: fr) o.(o_surface)]> g) /\
        large_image image en fr m'.(pages) /\ Z.of_nat (length fr) = large_pages l
    end;
  lr_pages : forall x, x ∉ d :: L -> m'.(pages) !! x = m.(pages) !! x
}.

Lemma large_load_inv total m L g pid d o R image l :
  frames_inv total m L g -> 1 <= pid < 8 -> g.[pid] = Some o -> focus total m L g pid d o R -> o.(o_large) = [] ->
  bytes_ok image -> executable_image image l -> l.(virtual_base) = USER_LARGE_CODE_BASE ->
  exists r m', large_code_load pid image l m = Some (r, m') /\
    (r = None <-> 320 < large_pages l \/ Z.of_nat (length L) < 1 + large_pages l) /\ large_result total L d image l pid m g o r m'.
Proof.
  intros Hi Hpid Ho Hf El Hb Him Hbase. pose proof Hf as [F1 F2 F3 F4 F5 F6]. destruct (focus_split _ _ _ _ _ _ _ _ Hf) as (_ & _ & Hap & _).
  rewrite El, app_nil_r in Hap. pose proof (owned_large _ _ _ _ F2) as Hlo. rewrite El in Hlo. destruct (large_of_empty _ _ _ Hlo) as [fs0 Hc0].
  destruct (large_code_load_ok m pid d L Hpid F1 Hap image l fs0 (fi_pool _ _ _ _ Hi) Hc0 Hb Him Hbase) as (r & m' & E & Hr & Hres).
  exists r, m'. split; [done|]. split; [done|].
  destruct r as [en|].
  - destruct Hres as (t & fr & [(L' & Hp & Hpm) H2 (fs & Hst) H4 H5 H6] & Hlen). split.
    + apply (large_step_others pid _ _ _ _ _ ltac:(lia) Hst).
    + by destruct Hst as (f & n & pg & ->).
    + exists t, fr, L'. split; [|by split]. eapply large_exchange_inv; [done..|by rewrite El, app_nil_r|by rewrite El, app_nil_r|done].
    + intros x Hx. by apply H4.
  - destruct Hres as [(L' & Hp & Hpm) (fs & [C1 C2 C3 C4] & Hst) H3 H4]. split.
    + apply (large_step_others pid _ _ _ _ _ ltac:(lia) Hst).
    + by destruct Hst as (f & n & pg & ->).
    + exists L'. pose proof (large_exchange_inv total m L g pid d o R m' L' [] 0 0 fs Hi Hpid Ho Hf Hst) as H.
      assert (E2 : Own o.(o_tables) o.(o_frames) [] o.(o_surface) = o) by (destruct o; cbn in *; by subst). rewrite E2 in H.
      rewrite list_insert_id in H by (by apply aget_Some in Ho as [_ Ho]). apply H; [|done|by rewrite El, !app_nil_r|by rewrite El, app_nil_r|done].
      split; [exact C1|exact C2|by exists fs|done|done].
    + intros x Hx. by apply H3.
Qed.
