(* ===== verification/KernelSpec.v ===== *)
(** Correctness of the kernel's message passing: channels are bounded FIFO
    pipes end to end, a waiting receiver gets the message in its own memory, and
    only a channel's creator can receive from it. *)

From stdpp Require Import gmap.
From S2P Require Import Prelude Ring Surface Capability CapabilitySpec Input Ipc IpcSpec.
From S2P Require Import PhysicalMemory UserMemory UserMemorySpec Scheduler SchedulerSpec Kernel.

(** ** Invariant *)

(** IPC handles name channels; one with the right to receive belongs to the
    owner of a live channel. *)
Definition ipc_linked (c : caps) (i : ipc_state) : Prop :=
  forall p h g, holds c p h g -> g.(service) = CAPABILITY_SERVICE_IPC ->
    1 <= g.(object_id) <= 16 /\
    (Z.land g.(rights) CAPABILITY_RIGHT_RECEIVE = CAPABILITY_RIGHT_RECEIVE ->
     exists ch, i.(channels).[g.(object_id) - 1] = Some ch /\ ch.(Ipc.active) = true /\ ch.(owner) = p).

Record subsystems_wf (w : subsystems) : Prop := {
  sw_caps : caps_wf w.(w_caps);
  sw_ipc : ipc_wf w.(w_ipc);
  sw_linked : ipc_linked w.(w_caps) w.(w_ipc);
  sw_memory : memory_arrays w.(w_memory);
  sw_input : 0 <= w.(w_input).(Input.waiter).(iw_pid);
}.

(** The active channel [i] holds the backlog [q]. *)
Definition pipe (w : subsystems) (i : Z) (q : list (Z * list Z)) : Prop :=
  exists c, w.(w_ipc).(channels).[i - 1] = Some c /\ c.(Ipc.active) = true /\ holds_backlog c q.

(** Every other channel is as it was. *)
Definition same_elsewhere (w w' : subsystems) (i : Z) : Prop :=
  forall j, j <> i - 1 -> w'.(w_ipc).(channels).[j] = w.(w_ipc).(channels).[j].

(** The only changes are to the channels and the denial counter. *)
Definition only_ipc (w w' : subsystems) : Prop :=
  (w'.(w_caps) = w.(w_caps) \/ w'.(w_caps) = deny w.(w_caps)) /\ w'.(w_surfaces) = w.(w_surfaces) /\
  w'.(w_input) = w.(w_input) /\ w'.(w_memory) = w.(w_memory).

Lemma deny_linked c i : ipc_linked c i -> ipc_linked (deny c) i.
Proof. intros H p h g Hh. apply (H p h g). unfold deny in Hh. by rewrite holds_count in Hh. Qed.

(** What a handle of [pid] gives access to with a right. *)
Definition can (w : subsystems) (pid h right i : Z) (c : ipc_channel) : Prop :=
  exists g, holds w.(w_caps) pid h g /\ Z.land g.(rights) right = right /\
    g.(service) = CAPABILITY_SERVICE_IPC /\ g.(object_id) = i /\ 1 <= i <= 16 /\
    w.(w_ipc).(channels).[i - 1] = Some c /\ c.(Ipc.active) = true.

Lemma holds_unique c p h g g' : holds c p h g -> holds c p h g' -> g = g'.
Proof.
  intros (s & ge & Hp & Hs & -> & H) (s' & ge' & _ & Hs' & E & H').
  apply make_handle_inj in E as (_ & <- & <-); [|done..]. rewrite H in H'. by injection H'.
Qed.

Lemma can_unique w pid h r r' i i' c c' : can w pid h r i c -> can w pid h r' i' c' -> i = i' /\ c = c'.
Proof.
  intros (g & Hh & _ & _ & <- & _ & Hc & _) (g' & Hh' & _ & _ & <- & _ & Hc' & _).
  rewrite (holds_unique _ _ _ _ _ Hh Hh') in *. split; [done|]. congruence.
Qed.

(** Resolution finds exactly the channel the handle gives access to. *)
Lemma resolve_channel_ok w pid h right :
  subsystems_wf w -> 0 <= h ->
  exists r w', resolve_channel pid h right w = Some (r, w') /\ subsystems_wf w' /\
    w'.(w_ipc) = w.(w_ipc) /\ only_ipc w w' /\
    (forall c, r = Some c <-> exists i, can w pid h right i c) /\
    (r <> None -> w' = w).
Proof.
  intros [Hc Hi Hl Hm Hin] Hh. unfold resolve_channel.
  destruct (resolve_object_ok w.(w_caps) pid h right Hc Hh) as (r & c' & -> & Hr). cbn [mbind option_bind].
  assert (Hw : forall c', c' = w.(w_caps) \/ c' = deny w.(w_caps) ->
    subsystems_wf (set_caps c' w) /\ only_ipc w (set_caps c' w)).
  { intros c0 [-> | ->]; (split; [split; cbn; auto using count_wf, deny_linked|split; cbn; auto]). by apply count_wf. }
  destruct r as [[svc obj]|].
  2: { destruct Hr as [-> Hno]. eexists None, _. split; [done|]. split; [apply Hw; auto|].
       split; [done|]. split; [apply Hw; auto|]. split; [|done]. intros c0. split; [done|].
       intros (i & g & Hg & Hrt & _). by destruct (Hno g Hg). }
  destruct Hr as (-> & g & Hg & Hrt & -> & ->).
  assert (Ew : set_caps w.(w_caps) w = w) by by destruct w. rewrite Ew.
  destruct (Z.eqb_spec g.(service) CAPABILITY_SERVICE_IPC) as [Hs|Hs]; cbn [negb].
  - destruct (Hl pid h g Hg Hs) as [Hb _].
    destruct (by_id_ok w.(w_ipc) g.(object_id) Hi ltac:(lia)) as (r & -> & Hr). cbn [mbind option_bind].
    eexists r, _. split; [done|]. split; [by split|]. split; [done|]. split; [split; auto|].
    split; [|done]. intros c. rewrite Hr. split.
    + intros (_ & Hch & Ha). exists g.(object_id), g. done.
    + intros (i & g' & Hg' & _ & _ & <- & Hb' & Hch & Ha). rewrite (holds_unique _ _ _ _ _ Hg Hg'). done.
  - eexists None, _. split; [done|]. split; [by split|]. split; [done|]. split; [split; auto|].
    split; [|done]. intros c. split; [done|].
    intros (i & g' & Hg' & _ & Hs' & _). by rewrite <- (holds_unique _ _ _ _ _ Hg Hg') in Hs'.
Qed.

(** Storing a channel back. *)
Lemma put_channel_ok w i c0 c q :
  subsystems_wf w -> 1 <= i <= 16 -> w.(w_ipc).(channels).[i - 1] = Some c0 ->
  c.(Ipc.id) = c0.(Ipc.id) -> c.(owner) = c0.(owner) -> c.(Ipc.active) = c0.(Ipc.active) ->
  c.(cname) = c0.(cname) -> holds_backlog c q -> 0 <= c.(Ipc.waiter).(w_pid) -> 0 <= c.(sender).(s_pid) ->
  exists w', put_channel c w = Some w' /\ subsystems_wf w' /\ only_ipc w w' /\ same_elsewhere w w' i /\
    w'.(w_ipc).(channels).[i - 1] = Some c /\ w'.(w_caps) = w.(w_caps) /\
    w' = set_ipc (set_channels (<[Z.to_nat (i - 1) := c]> w.(w_ipc).(channels)) w.(w_ipc)) w.
Proof.
  intros [Hc Hi Hl Hm Hin] Hb Hc0 Eid Eow Eac Ecn Hq Hwp Hsp. unfold put_channel.
  pose proof (iw_id _ Hi _ _ Hc0) as Hid0.
  destruct (set_channel_ok w.(w_ipc) i c Hi Hb) as (s' & Hs & Hwf & ->);
    [lia|by eauto|done..|rewrite Ecn, Eow, Eac; by apply (iw_names _ Hi _ _ Hc0)|].
  replace c.(Ipc.id) with i by lia. rewrite Hs. cbn [mbind option_bind].
  eexists. split; [done|].
  assert (Hins : forall j, (<[Z.to_nat (i - 1) := c]> w.(w_ipc).(channels)).[j] =
    if decide (j = i - 1) then Some c else w.(w_ipc).(channels).[j]).
  { intros j. apply aget_insert. by eapply aget_bound. }
  split; [|split; [split; cbn; auto|split; [|split; [|split; [done|done]]]]].
  - split; cbn; try done. intros p h g Hg Hsv. destruct (Hl p h g Hg Hsv) as [Hb' Hr]. split; [done|].
    intros Hrt. destruct (Hr Hrt) as (ch & Hch & Ha & Ho). rewrite Hins.
    destruct (decide (object_id g - 1 = i - 1)) as [E|]; [|eauto]. exists c. rewrite E in Hch.
    rewrite Hc0 in Hch. injection Hch as <-. split; [done|]. split; congruence.
  - intros j Hj. cbn. rewrite Hins. by rewrite decide_False.
  - cbn. rewrite Hins. by rewrite decide_True.
Qed.

Lemma count_ipc_sub a b d w : subsystems_wf w -> subsystems_wf (set_ipc (count_ipc a b d w.(w_ipc)) w).
Proof. intros []; split; cbn; auto using count_ipc_wf. Qed.

(** ** The pipe *)

(** Every process that waits on a channel gave a buffer (process, address, capacity)
    with [P]. *)
Definition waiting (P : Z -> Z -> Z -> Prop) (w : subsystems) : Prop :=
  forall i c, w.(w_ipc).(channels).[i] = Some c -> c.(Ipc.active) = true -> c.(Ipc.waiter).(w_active) = true ->
    P c.(Ipc.waiter).(w_pid) c.(Ipc.waiter).(w_address) c.(Ipc.waiter).(w_capacity).
(** Nobody started to wait. *)
Definition waits_kept (w w' : subsystems) : Prop := forall P, waiting P w -> waiting P w'.

(** No process waits on a channel. *)
Definition quiet (w : subsystems) : Prop :=
  forall i c, w.(w_ipc).(channels).[i] = Some c -> c.(Ipc.active) = true -> c.(Ipc.waiter).(w_active) = false.

Lemma waits_quiet w w' : waits_kept w w' -> quiet w -> quiet w'.
Proof.
  intros Hk Hq. assert (waiting (fun _ _ _ => False) w) as H%Hk.
  { intros i c Hc Ha Hw. specialize (Hq i c Hc Ha). congruence. }
  intros i c Hc Ha. specialize (H i c Hc Ha). destruct (w_active _); [by destruct (H eq_refl)|done].
Qed.
Lemma waits_same w w' : w'.(w_ipc).(channels) = w.(w_ipc).(channels) -> waits_kept w w'.
Proof. intros E P H i c. rewrite E. apply H. Qed.
Lemma waits_refl w : waits_kept w w.
Proof. by intros P. Qed.
#[export] Hint Resolve waits_refl : core.
Lemma waits_trans w1 w2 w3 : waits_kept w1 w2 -> waits_kept w2 w3 -> waits_kept w1 w3.
Proof. intros H1 H2 P H. by apply H2, H1. Qed.
Lemma waits_put w w' i c c' :
  same_elsewhere w w' i -> w.(w_ipc).(channels).[i - 1] = Some c -> w'.(w_ipc).(channels).[i - 1] = Some c' ->
  (c'.(Ipc.active) = true -> c'.(Ipc.waiter).(w_active) = true -> c.(Ipc.active) = true /\ c'.(Ipc.waiter) = c.(Ipc.waiter)) ->
  waits_kept w w'.
Proof.
  intros Hs Hc Hc' Hw P H j cj Hj Ha Hwa. destruct (decide (j = i - 1)) as [->|Hne].
  - rewrite Hc' in Hj. injection Hj as <-. destruct (Hw Ha Hwa) as [Ha0 E]. rewrite E in Hwa |- *. by apply (H (i - 1)).
  - rewrite Hs in Hj by done. by apply (H j).
Qed.

(** The channel a handle of [pid] reaches with a right. *)
Definition target (pid h right : Z) (w : subsystems) : option Z :=
  match resolve_channel pid h right w with Some (Some c, _) => Some c.(Ipc.id) | _ => None end.

Lemma target_can w pid h right i :
  subsystems_wf w -> 0 <= h ->
  target pid h right w = Some i <-> exists c, can w pid h right i c.
Proof.
  intros Hw Hh. unfold target.
  destruct (resolve_channel_ok w pid h right Hw Hh) as (r & w1 & -> & _ & _ & _ & Hr & _).
  destruct r as [c|].
  - destruct (proj1 (Hr c) eq_refl) as (j & Hj). pose proof Hj as (g & _ & _ & _ & _ & _ & Hc & _).
    apply (iw_id _ (sw_ipc _ Hw)) in Hc. replace (Ipc.id c) with j by lia. split.
    + intros [= <-]. eauto.
    + intros (c' & Hc'). by destruct (can_unique _ _ _ _ _ _ _ _ _ Hj Hc') as [-> _].
  - split; [done|]. intros (c & Hc). discriminate (proj2 (Hr c) (ex_intro _ i Hc)).
Qed.

Lemma holds_backlog_unique c q q' : holds_backlog c q -> holds_backlog c q' -> q = q'.
Proof.
  intros (l & Hl & ->) (l' & Hl' & ->). do 2 f_equal. apply list_eq. intros k.
  pose proof (cw_count _ _ Hl) as E. rewrite (cw_count _ _ Hl') in E.
  destruct (l !! k) as [x|] eqn:Ex.
  - apply (ring_cells _ _ _ _ (cw_ring _ _ Hl)) in Ex as Hx.
    destruct (lookup_lt_is_Some_2 l' k) as [y Hy]; [apply lookup_lt_Some in Ex; lia|].
    apply (ring_cells _ _ _ _ (cw_ring _ _ Hl')) in Hy as Hy'. congruence.
  - apply lookup_ge_None in Ex. symmetry. apply lookup_ge_None. lia.
Qed.

Lemma pipe_same w w' i q :
  pipe w i q -> w'.(w_ipc).(channels) = w.(w_ipc).(channels) -> pipe w' i q.
Proof. intros (c & Hc & Ha & Hq) E. exists c. by rewrite E. Qed.

(** What a send does to the pipe it reaches, and to every other. *)
Lemma send_pipe w s pid h data n :
  subsystems_wf w -> (forall i c, can w pid h CAPABILITY_RIGHT_SEND i c -> c.(Ipc.waiter).(w_active) = false) ->
  0 <= h -> 0 <= pid -> n <= Z.of_nat (length data) -> 0 <= n ->
  exists r w', ipc_send_block pid h (Some data) n s w = Some (r, s, w') /\
    subsystems_wf w' /\ waits_kept w w' /\ w'.(w_memory) = w.(w_memory) /\
    (forall i q, pipe w i q ->
       pipe w' i (if negb (r =? 0) && bool_decide (target pid h CAPABILITY_RIGHT_SEND w = Some i)
                  then q ++ [sent pid data n] else q)) /\
    (forall i q, target pid h CAPABILITY_RIGHT_SEND w = Some i -> pipe w i q -> 1 <= n <= 64 ->
       (r = 1 <-> Z.of_nat (length q) < 32) /\ (r = 2 <-> Z.of_nat (length q) = 32) /\
       (r = 0 <-> Z.of_nat (length q) = 33)).
Proof.
  intros Hw Hnw Hh Hp Hn H0. unfold ipc_send_block, ipc_send_impl.
  pose proof (target_can w pid h CAPABILITY_RIGHT_SEND) as Htc.
  destruct (resolve_channel_ok w pid h CAPABILITY_RIGHT_SEND Hw Hh) as (r & w1 & -> & Hw1 & Ei & (_ & _ & _ & Em) & Hr & Hsame).
  cbn [mbind option_bind]. destruct r as [c|].
  2: { eexists 0, w1. split; [done|]. split; [done|]. split; [apply waits_same; by rewrite Ei|]. split; [done|]. split.
       - intros i q Hpi. cbn [negb andb Z.eqb]. by eapply pipe_same; [|rewrite Ei].
       - intros i q Ht _ _. apply Htc in Ht as (c & Hc); [|done..]. discriminate (proj2 (Hr c) (ex_intro _ i Hc)). }
  destruct (proj1 (Hr c) eq_refl) as (i0 & Hcan). rewrite (Hsame ltac:(done)). clear w1 Hw1 Ei Em Hsame.
  assert (Ht0 : target pid h CAPABILITY_RIGHT_SEND w = Some i0) by (apply Htc; eauto).
  pose proof Hcan as (_ & _ & _ & _ & _ & Hb & Hc & Ha). rewrite Ht0.
  destruct (iw_channel _ (sw_ipc _ Hw) _ _ Hc Ha) as [q Hq].
  destruct (iw_pids _ (sw_ipc _ Hw) _ _ Hc) as [Hwp Hsp].
  assert (Huq : forall q', pipe w i0 q' -> q' = q).
  { intros q' (c' & Hc' & _ & Hq'). rewrite Hc in Hc'. injection Hc' as <-. by eapply holds_backlog_unique. }
  destruct ((n =? 0) || (IPC_MESSAGE_MAX <? n)) eqn:En.
  { eexists 0, w. split; [done|]. split; [done|]. split; [done|]. split; [done|]. split; [done|]. intros i q' _ _ Hn'.
    unfold IPC_MESSAGE_MAX in En. apply orb_true_iff in En as [En|En]; b2p; lia. }
  unfold IPC_MESSAGE_MAX in En. b2p.
  rewrite (Hnw _ _ Hcan). destruct Hq as (l & Hwf & Eq). pose proof (cw_count _ _ Hwf) as Hcount.
  pose proof (ring_fits _ _ _ _ (cw_ring _ _ Hwf)) as Hfit. unfold IPC_QUEUE_DEPTH in *.
  assert (Hlen : length q = (length l + length (parked_view c.(sender)))%nat)
    by (rewrite Eq, length_app, length_fmap; done).
  assert (Hpark : sender c = sender c /\ (c.(sender).(s_active) = true -> c.(qcount) = 32))
    by (split; [done|apply (cw_parked _ _ Hwf)]). destruct Hpark as [_ Hpark].
  unfold parked_view in Hlen, Eq.
  destruct (Z.eqb_spec c.(qcount) 32) as [Hfull|Hroom].
  - destruct (c.(sender).(s_active)) eqn:Es; cbn [negb orb] in *.
    + eexists 0, (w_drop w). split; [done|]. split; [by apply count_ipc_sub|]. split; [by apply waits_same|].
      split; [done|]. split; [done|]. intros i q' [= <-] Hq' _. apply Huq in Hq' as ->. cbn in Hlen. lia.
    + destruct (park_ok pid data n c l Hwf Hfull ltac:(lia) Hn) as (c' & -> & Hwf' & Hid & Hwt & Hac & How & Hcn & Hspid & Hpk).
      cbn [mbind option_bind].
      destruct (put_channel_ok w i0 c c' (q ++ [sent pid data n])) as (w' & -> & Hw' & (_ & _ & _ & Em) & Hels & Hc' & _ & _);
        try done.
      { exists l. split; [done|]. rewrite Hpk, Eq. by rewrite app_nil_r. }
      { by rewrite Hwt. }
      { lia. }
      cbn [mbind option_bind]. eexists 2, w'. split; [done|]. split; [done|].
      split; [by apply (waits_put w w' i0 c c')|]. split; [done|]. cbn [negb Z.eqb andb]. split.
      * intros i q' Hq'. case_bool_decide as E.
        -- injection E as <-. apply Huq in Hq' as ->. exists c'. split; [done|]. split; [congruence|].
           exists l. split; [done|]. rewrite Hpk, Eq. by rewrite app_nil_r.
        -- destruct Hq' as (c2 & Hc2 & Ha2 & Hq2). exists c2. rewrite Hels; [done|]. intros E'. apply E. f_equal. lia.
      * intros i q' [= <-] Hq' _. apply Huq in Hq' as ->. cbn in Hlen. lia.
  - destruct (c.(sender).(s_active)) eqn:Es; [by specialize (Hpark eq_refl)|].
    destruct (push_message_ok pid data n c l Hwf Es ltac:(lia) ltac:(lia) Hn)
      as (c' & m & -> & Hwf' & Hm & Hid & Hse & Hwt & Hac & How & Hcn).
    cbn [mbind option_bind].
    assert (Hbl : holds_backlog c' (q ++ [sent pid data n])).
    { exists (l ++ [m]). split; [done|]. unfold parked_view. rewrite Hse, Es, Eq, !app_nil_r, fmap_app. cbn. by rewrite Hm. }
    destruct (put_channel_ok w i0 c c' (q ++ [sent pid data n])) as (w' & -> & Hw' & (_ & _ & _ & Em) & Hels & Hc' & _ & _);
      try done; try congruence.
    cbn [mbind option_bind]. eexists 1, _. split; [done|]. split; [by apply count_ipc_sub|].
    split; [by apply (waits_trans _ w'), waits_same; [apply (waits_put w w' i0 c c')|]|]. split; [done|].
    cbn [negb Z.eqb andb]. split.
    + intros i q' Hq'. case_bool_decide as E.
      * injection E as <-. apply Huq in Hq' as ->. exists c'. split; [done|]. split; [congruence|done].
      * destruct Hq' as (c2 & Hc2 & Ha2 & Hq2). exists c2. cbn. rewrite Hels; [done|]. intros E'. apply E. f_equal. lia.
    + intros i q' [= <-] Hq' _. apply Huq in Hq' as ->. cbn in Hlen. lia.
Qed.

(** Refilling the ring from the parked sender after a pop. *)
Lemma ipc_hand_over_ok c m l s :
  chan_wf c (m :: l) -> sched_core s -> 0 <= c.(sender).(s_pid) ->
  let c1 := set_ring ((c.(read) + 1) mod 32) c.(write) (Z.of_nat (length l)) c.(messages) c in
  exists c' s', hand_over c1 s = Some (c', s') /\
    holds_backlog c' ((msg_view <$> l) ++ parked_view c.(sender)) /\
    c'.(Ipc.id) = c.(Ipc.id) /\ c'.(Ipc.waiter) = c.(Ipc.waiter) /\ c'.(Ipc.active) = c.(Ipc.active) /\
    c'.(owner) = c.(owner) /\ c'.(cname) = c.(cname) /\ c'.(sender).(s_pid) = c.(sender).(s_pid) /\ woken s s' /\
    (if c.(sender).(s_active)
     then exists b, scheduler_wake c.(sender).(s_pid) c.(sender).(s_length) 0 s = Some (b, s') else s' = s).
Proof.
  intros Hwf Hs Hp c1. unfold hand_over, parked_view. change (sender c1) with c.(sender).
  destruct (c.(sender).(s_active)) eqn:Es; cbn [negb].
  - pose proof (cw_sender _ _ Hwf) as [Hsl Hsn]. pose proof (cw_parked _ _ Hwf Es) as Hfull.
    pose proof (cw_count _ _ Hwf) as Hcount. unfold IPC_QUEUE_DEPTH in *. cbn [length] in *.
    destruct (push_message_ok c.(sender).(s_pid) c.(sender).(s_data) c.(sender).(s_length)
      (set_sender (stop_sender c.(sender)) c1) l)
      as (c' & x & -> & Hwf' & Hx & Hid & Hse & Hwt & Hac & How & Hcn);
      [exact (popped_wf c m l Hwf)|done|cbn; lia|lia|lia|].
    cbn [mbind option_bind].
    destruct (scheduler_wake_woken s c.(sender).(s_pid) c.(sender).(s_length) 0 Hs Hp) as (b & s' & -> & Hwk).
    cbn [mbind option_bind]. exists c', s'. split; [done|]. split; [|rewrite Hse; by eauto 10].
    exists (l ++ [x]). split; [done|]. unfold parked_view. rewrite Hse. cbn [s_active stop_sender set_sender sender].
    by rewrite fmap_app, app_nil_r; cbn; rewrite Hx.
  - exists c1, s. split; [done|]. split; [|eauto 10 using woken_refl].
    exists l. split; [by apply (popped_quiet_wf c m l)|]. unfold parked_view.
    change (sender c1) with c.(sender). by rewrite Es.
Qed.

(** What a receive does to the pipe it reaches, and to every other. *)
Lemma receive_pipe w s pid h out cap :
  subsystems_wf w -> sched_core s -> 0 <= h -> length out = 64%nat ->
  exists r s' w', ipc_receive pid h (Some out) cap s w = Some (r, s', w') /\
    subsystems_wf w' /\ waits_kept w w' /\ woken s s' /\
    (forall i q, pipe w i q ->
       pipe w' i (if bool_decide (r <> None /\ target pid h CAPABILITY_RIGHT_RECEIVE w = Some i)
                  then tail q else q)) /\
    (forall i q, target pid h CAPABILITY_RIGHT_RECEIVE w = Some i -> pipe w i q ->
       match r with
       | None => match q with [] => True | (_, m) :: _ => cap < Z.of_nat (length m) end
       | Some (n, from, out') => head q = Some (from, take (Z.to_nat n) out') /\ 0 <= n <= cap /\
           (Z.of_nat (length q) = 33 -> exists p m b, q !! 32%nat = Some (p, m) /\
              scheduler_wake p (Z.of_nat (length m)) 0 s = Some (b, s'))
       end).
Proof.
  intros Hw Hs Hh Hout. unfold ipc_receive.
  pose proof (target_can w pid h CAPABILITY_RIGHT_RECEIVE) as Htc.
  destruct (resolve_channel_ok w pid h CAPABILITY_RIGHT_RECEIVE Hw Hh) as (r & w1 & -> & Hw1 & Ei & _ & Hr & Hsame).
  cbn [mbind option_bind]. destruct r as [c|].
  2: { eexists None, s, w1. split; [done|]. split; [done|]. split; [apply waits_same; by rewrite Ei|].
       split; [apply woken_refl|]. split.
       - intros i q Hpi. rewrite bool_decide_eq_false_2 by naive_solver. by eapply pipe_same; [|rewrite Ei].
       - intros i q Ht _. apply Htc in Ht as (c & Hc); [|done..]. discriminate (proj2 (Hr c) (ex_intro _ i Hc)). }
  destruct (proj1 (Hr c) eq_refl) as (i0 & Hcan). rewrite (Hsame ltac:(done)). clear w1 Hw1 Ei Hsame.
  assert (Ht0 : target pid h CAPABILITY_RIGHT_RECEIVE w = Some i0) by (apply Htc; eauto).
  pose proof Hcan as (_ & _ & _ & _ & _ & Hb & Hc & Ha). rewrite Ht0.
  destruct (iw_channel _ (sw_ipc _ Hw) _ _ Hc Ha) as [q Hq].
  destruct (iw_pids _ (sw_ipc _ Hw) _ _ Hc) as [Hwp Hsp].
  assert (Huq : forall q', pipe w i0 q' -> q' = q).
  { intros q' (c' & Hc' & _ & Hq'). rewrite Hc in Hc'. injection Hc' as <-. by eapply holds_backlog_unique. }
  destruct Hq as (l & Hwf & Eq). pose proof (cw_count _ _ Hwf) as Hcount.
  assert (Hkeep : match q with [] => True | (_, m) :: _ => cap < Z.of_nat (length m) end ->
    exists r s' w', Some (None, s, w) = Some (r, s', w') /\
    subsystems_wf w' /\ waits_kept w w' /\ woken s s' /\
    (forall i q, pipe w i q -> pipe w' i (if bool_decide (r <> None /\ Some i0 = Some i) then tail q else q)) /\
    (forall i q, Some i0 = Some i -> pipe w i q ->
       match r : option (Z * Z * list Z) with
       | None => match q with [] => True | (_, m) :: _ => cap < Z.of_nat (length m) end
       | Some (n, from, out') => head q = Some (from, take (Z.to_nat n) out') /\ 0 <= n <= cap /\
           (Z.of_nat (length q) = 33 -> exists p m b, q !! 32%nat = Some (p, m) /\
              scheduler_wake p (Z.of_nat (length m)) 0 s = Some (b, s'))
       end)).
  { intros Hk. eexists None, s, w. split; [done|]. split; [done|]. split; [done|]. split; [apply woken_refl|].
    split; [|intros i q' [= <-] Hq'; by rewrite (Huq _ Hq')].
    intros i q' Hq'. by rewrite bool_decide_eq_false_2 by naive_solver. }
  destruct (Z.eqb_spec c.(qcount) 0) as [Hz|Hz].
  { apply Hkeep. destruct l as [|m l]; [|cbn in Hcount; lia]. rewrite Eq. unfold parked_view.
    destruct (c.(sender).(s_active)) eqn:Es; [|done]. pose proof (cw_parked _ _ Hwf Es).
    unfold IPC_QUEUE_DEPTH in *. lia. }
  destruct l as [|m l]; [done|].
  destruct (pop_message_ok c m l Hwf) as (c1 & -> & [Hmd Hmn] & ->). cbn [mbind option_bind].
  assert (Hmv : msg_view m = (m.(m_sender), take (Z.to_nat m.(m_length)) m.(m_data))) by done.
  destruct (Z.ltb_spec cap m.(m_length)) as [Hlt|Hge].
  { apply Hkeep. rewrite Eq. cbn [fmap list_fmap app]. rewrite Hmv, length_take. lia. }
  clear Hkeep. destruct (copy_into out 0 m.(m_data) 0 (Z.to_nat m.(m_length))) as [out'|] eqn:Eo.
  2: { rewrite copy_into_spec in Eo by lia. done. }
  destruct (copy_message out m.(m_data) m.(m_length) out' Hout Hmn ltac:(lia) Eo) as [_ Hot]. cbn [mbind option_bind].
  destruct (ipc_hand_over_ok c m l s Hwf Hs Hsp)
    as (c' & s' & -> & Hbl & Hid & Hwt & Hac & How & Hcn & Hspid & Hwk & Hwake). cbn [mbind option_bind].
  destruct (put_channel_ok w i0 c c' _ Hw Hb Hc Hid How Hac Hcn Hbl) as (w' & -> & Hw' & _ & Hels & Hc' & _ & _);
    [congruence|congruence|].
  cbn [mbind option_bind]. eexists _, s', _. split; [done|]. split; [by apply count_ipc_sub|].
  split; [by apply (waits_trans _ w'), waits_same; [apply (waits_put w w' i0 c c')|]|].
  split; [done|]. split.
  - intros i q' Hq'. case_bool_decide as E.
    + destruct E as [_ [= <-]]. apply Huq in Hq' as ->. rewrite Eq. exists c'. split; [done|].
      split; [congruence|done].
    + destruct Hq' as (c2 & Hc2 & Ha2 & Hq2). exists c2. cbn. rewrite Hels; [done|].
      intros E'. apply E. split; [done|]. f_equal. lia.
  - intros i q' [= <-] Hq'. apply Huq in Hq' as ->. rewrite Eq. cbn [fmap list_fmap app head].
    split; [by rewrite Hmv, Hot|]. split; [lia|]. intros Hlen. unfold parked_view in *.
    pose proof (ring_fits _ _ _ _ (cw_ring _ _ Hwf)) as Hfit. unfold IPC_QUEUE_DEPTH in Hfit.
    destruct (c.(sender).(s_active)) eqn:Es; cbn [length app] in *;
      rewrite ?length_app, ?length_fmap in Hlen; cbn [length] in *; [|lia].
    destruct Hwake as [b Hb']. eexists _, _, b.
    split; [apply list_lookup_middle; cbn; rewrite length_fmap; lia|].
    rewrite length_take. pose proof (cw_sender _ _ Hwf) as [Hsl Hsn].
    replace (Z.of_nat (Z.to_nat (s_length (sender c)) `min` length (s_data (sender c))))
      with (s_length (sender c)) by lia. done.
Qed.

(** ** Runs of sends and receives *)

Inductive pipe_event :=
| PSend (pid h : Z) (data : list Z) | PReceive (pid h cap : Z).
Definition pipe_event_ok (ev : pipe_event) : Prop :=
  match ev with PSend pid h _ => 0 <= pid /\ 0 <= h | PReceive pid h _ => 0 <= h end.

(** The messages channel [i] accepted and gave out during a run. *)
Fixpoint pipe_run (i : Z) (evs : list pipe_event) (s : sched) (w : subsystems)
  : option (list (Z * list Z) * list (Z * list Z) * sched * subsystems) :=
  match evs with
  | [] => Some ([], [], s, w)
  | PSend pid h data :: evs =>
      '(r, s, w1) ← ipc_send_block pid h (Some data) (Z.of_nat (length data)) s w;
      let accepted := if negb (r =? 0) && bool_decide (target pid h CAPABILITY_RIGHT_SEND w = Some i)
                      then [(pid, data)] else [] in
      '(a, g, s, w1) ← pipe_run i evs s w1; Some (accepted ++ a, g, s, w1)
  | PReceive pid h cap :: evs =>
      '(r, s, w1) ← ipc_receive pid h (Some (replicate 64 0)) cap s w;
      let got := match r with
                 | Some (n, from, out) =>
                     if bool_decide (target pid h CAPABILITY_RIGHT_RECEIVE w = Some i)
                     then [(from, take (Z.to_nat n) out)] else []
                 | None => []
                 end in
      '(a, g, s, w1) ← pipe_run i evs s w1; Some (a, got ++ g, s, w1)
  end.

Lemma pipe_run_ok i evs : forall s w q,
  subsystems_wf w -> quiet w -> sched_core s -> Forall pipe_event_ok evs -> pipe w i q ->
  exists a g s' w' q', pipe_run i evs s w = Some (a, g, s', w') /\ pipe w' i q' /\ q ++ a = g ++ q'.
Proof.
  induction evs as [|ev evs IH]; intros s w q Hw Hqu Hs Hev Hp; cbn [pipe_run].
  { exists [], [], s, w, q. split; [done|]. split; [done|]. by rewrite app_nil_r. }
  inversion_clear Hev as [|? ? He Hes]. destruct ev as [pid h data|pid h cap]; cbn [pipe_event_ok] in He.
  - destruct (send_pipe w s pid h data (Z.of_nat (length data)) Hw) as (r & w1 & -> & Hw1 & Hqu1 & _ & Hp1 & _);
      [intros j c (g & _ & _ & _ & _ & _ & Hc & Ha); by eapply Hqu|lia..|].
    cbn [mbind option_bind]. apply waits_quiet in Hqu1; [|done].
    specialize (Hp1 i q Hp). unfold sent in Hp1. rewrite Nat2Z.id, firstn_all in Hp1.
    destruct (IH s w1 _ Hw1 Hqu1 Hs Hes Hp1) as (a & g & s' & w' & q' & -> & Hp' & Eq).
    cbn [mbind option_bind]. eexists _, g, s', w', q'. split; [done|]. split; [done|]. rewrite <- Eq.
    destruct (_ && _); [by rewrite <- app_assoc|done].
  - destruct (receive_pipe w s pid h (replicate 64 0) cap Hw Hs He eq_refl)
      as (r & s1 & w1 & -> & Hw1 & Hqu1 & Hwk & Hp1 & Hhd). cbn [mbind option_bind]. apply waits_quiet in Hqu1; [|done].
    specialize (Hp1 i q Hp).
    destruct (IH s1 w1 _ Hw1 Hqu1 (woken_preserves _ _ Hs Hwk) Hes Hp1) as (a & g & s' & w' & q' & -> & Hp' & Eq).
    cbn [mbind option_bind]. eexists a, _, s', w', q'. split; [done|]. split; [done|].
    destruct r as [[[n from] out]|].
    + destruct (bool_decide (target _ _ _ _ = _)) eqn:Et.
      * apply bool_decide_eq_true in Et. rewrite bool_decide_eq_true_2 in Eq by done.
        specialize (Hhd i q Et Hp) as (Hh & _ & _). destruct q as [|x q]; [done|]. injection Hh as ->.
        cbn [app list.tail] in *. by rewrite Eq.
      * apply bool_decide_eq_false in Et. by rewrite bool_decide_eq_false_2 in Eq by naive_solver.
    + by rewrite bool_decide_eq_false_2 in Eq by naive_solver.
Qed.

(** ** Delivery to a waiting receiver *)

Lemma deliver_ok T w s pid i c q data n :
  subsystems_wf w -> sched_core s -> 0 <= pid -> 1 <= i <= 16 ->
  w.(w_ipc).(channels).[i - 1] = Some c -> c.(Ipc.active) = true -> holds_backlog c q ->
  0 <= n <= Z.of_nat (length data) ->
  let wt := c.(Ipc.waiter) in
  buffer_ready T w.(w_memory) wt.(w_pid) wt.(w_address) wt.(w_capacity) ->
  exists r s' w', deliver c pid data n s w = Some (r, s', w') /\ subsystems_wf w' /\ woken s s' /\
    data_moved T w.(w_memory) w'.(w_memory) /\ waits_kept w w' /\ pipe w' i q /\ same_elsewhere w w' i /\
    (exists c', w'.(w_ipc).(channels).[i - 1] = Some c' /\ c'.(Ipc.waiter).(w_active) = false) /\
    (r = 0 \/ r = 1) /\
    (wt.(w_capacity) < n -> r = 0 /\ s' = s /\ w'.(w_memory) = w.(w_memory)) /\
    (r = 1 <-> n <= wt.(w_capacity) /\ (exists m, userspace_copy_to s.(current_pid) wt.(w_pid) wt.(w_address)
                   (Some data) n w.(w_memory) = Some (true, m) /\ w'.(w_memory) = m) /\
               scheduler_wake wt.(w_pid) (if wt.(w_multiplex) then 1 else n)
                 (if wt.(w_multiplex) then n else pid) s = Some (true, s')).
Proof.
  intros Hw Hs Hp Hb Hc Ha Hq Hn wt Hbuf. unfold deliver. fold wt.
  destruct (iw_pids _ (sw_ipc _ Hw) _ _ Hc) as [Hwp Hsp].
  destruct (put_channel_ok w i c (set_cwaiter (stop_waiter wt) c) q Hw Hb Hc eq_refl eq_refl eq_refl eq_refl
    (set_waiter_backlog _ _ _ Hq) Hwp Hsp) as (w1 & -> & Hw1 & (_ & _ & Ein & Em) & Hels & Hc1 & _ & _).
  cbn [mbind option_bind].
  set (w2 := if wt.(w_multiplex) then w_input_cancel wt.(w_pid) w1 else w1).
  assert (subsystems_wf w2 /\ w2.(w_ipc) = w1.(w_ipc) /\ w2.(w_memory) = w.(w_memory)) as (Hw2 & Ei2 & Em2).
  { unfold w2. destruct (w_multiplex _); [|done]. split; [|done]. destruct Hw1 as [? ? ? ? Hi1]. split; try done.
    cbn. unfold input_cancel_wait. destruct (_ || _); [done|]. cbn. exact Hi1. }
  assert (Hfin : forall a b d m, memory_arrays m -> subsystems_wf (set_ipc (count_ipc a b d w2.(w_ipc)) (set_memory m w2))).
  { intros a b d m Hm. destruct Hw2. split; cbn; auto using count_ipc_wf. }
  assert (Hchan : forall a b d w', w'.(w_ipc) = count_ipc a b d w2.(w_ipc) -> waits_kept w w' /\ pipe w' i q /\ same_elsewhere w w' i /\
    (exists c', w'.(w_ipc).(channels).[i - 1] = Some c' /\ c'.(Ipc.waiter).(w_active) = false)).
  { intros a b d w' E. assert (channels (w_ipc w') = channels (w_ipc w1)) as E' by (rewrite E, <- Ei2; done).
    split; [apply (waits_put w w' i c (set_cwaiter (stop_waiter wt) c)); try done; [intros j Hj; rewrite E'; by apply Hels|by rewrite E']|].
    unfold pipe, same_elsewhere. rewrite E'. split; [|split; [done|eauto]].
    eexists. split; [exact Hc1|]. split; [done|]. by apply set_waiter_backlog. }
  assert (Hself : subsystems_wf (w_drop w2)) by by apply count_ipc_sub.
  destruct (Z.ltb_spec wt.(w_capacity) n) as [Hlt|Hge].
  { eexists 0, s, _. split; [done|]. split; [done|]. split; [apply woken_refl|].
    split; [cbn; rewrite Em2; apply data_moved_refl|].
    destruct (Hchan 0 0 1 (w_drop w2) eq_refl) as (? & ? & ? & ?). do 4 (split; [done|]). split; [auto|].
    split; [done|]. split; [done|]. intros (? & _). lia. }
  pose proof (copy_to_ok T s.(current_pid) wt.(w_pid) wt.(w_address) data n w2.(w_memory) (sw_memory _ Hw2) Hwp
    ltac:(pose proof (core_cur _ Hs); lia) Hn) as (ok & m & Hcp & Hmv & Hbad & _ & _).
  { rewrite Em2. intros H1 H2 _. apply (buffer_at_part _ _ _ _ wt.(w_capacity)); [by apply Hbuf|lia]. }
  pose proof (moved_arrays _ _ _ Hmv (sw_memory _ Hw2)) as Hm.
  rewrite Hcp. cbn [mbind option_bind]. rewrite Em2 in *. destruct ok; cbn [negb].
  2: { eexists 0, s, _. split; [done|]. split; [by apply Hfin|]. split; [apply woken_refl|]. split; [exact Hmv|].
       destruct (Hchan 0 0 1 (w_drop (set_memory m w2)) eq_refl) as (? & ? & ? & ?). do 4 (split; [done|]). split; [auto|].
       split; [lia|]. split; [done|]. intros (_ & (m' & Hm' & _) & _). congruence. }
  destruct (scheduler_wake_woken s wt.(w_pid) (if wt.(w_multiplex) then 1 else n)
    (if wt.(w_multiplex) then n else pid) Hs Hwp) as (b & s' & Hwake & Hwk).
  rewrite Hwake. cbn [mbind option_bind]. destruct b; cbn [negb].
  - eexists 1, s', _. split; [done|]. split; [by apply Hfin|]. split; [done|]. split; [exact Hmv|].
    destruct (Hchan 1 1 0 (set_ipc (count_ipc 1 1 0 (w_ipc (set_memory m w2))) (set_memory m w2)) eq_refl) as (? & ? & ? & ?).
    do 4 (split; [done|]). split; [auto|]. split; [lia|]. split; [|done]. intros _. eauto.
  - eexists 0, s', _. split; [done|]. split; [by apply Hfin|]. split; [done|]. split; [exact Hmv|].
    destruct (Hchan 0 0 1 (w_drop (set_memory m w2)) eq_refl) as (? & ? & ? & ?). do 4 (split; [done|]). split; [auto|].
    split; [lia|]. split; [done|]. intros (_ & _ & E). congruence.
Qed.

(** ** Opening channels *)

(** One more handle, or a denial. *)
Lemma open_ipc_ok c pid ch rts :
  caps_wf c -> 0 <= pid ->
  exists h c', capability_open_ipc pid ch rts c = Some (h, c') /\ caps_wf c' /\
    ((h = U64_MAX /\ c' = deny c) \/
     (h <> U64_MAX /\ 0 <= h /\ holds c' pid h (Cap CAPABILITY_SERVICE_IPC rts ch) /\
      (forall p x g, holds c p x g -> holds c' p x g) /\
      forall p x g, holds c' p x g -> holds c p x g \/ (p = pid /\ x = h /\ g = Cap CAPABILITY_SERVICE_IPC rts ch))).
Proof.
  intros Hwf Hp. assert (caps_wf (deny c)) by by apply count_wf. unfold capability_open_ipc, kProcessLimit.
  destruct (_ || _ || _ || _ || _) eqn:E; [by exists U64_MAX, (deny c); auto|]. b2p.
  destruct (assigned_ok c pid CAPABILITY_SERVICE_IPC Hwf ltac:(lia)) as [b ->]. cbn [mbind option_bind].
  destruct b; cbn [negb]; [|by exists U64_MAX, (deny c); auto].
  destruct (allocate_slot_ok c pid CAPABILITY_SERVICE_IPC rts ch Hwf ltac:(lia))
    as (h & c' & -> & [[-> ->]|(slot & gen & pl & Hs & Hg & Hat & Eh & Hne & ->)]);
    [by exists U64_MAX, (deny c); auto|].
  eexists h, _. split; [done|].
  split; [apply count_wf, put_wf; cbn; try done; lia|]. right. split; [done|].
  split; [rewrite Eh, make_handle_eq by lia; lia|].
  assert (Hput : forall q r, slot_at (put_slot c pid slot (Entry true gen (Cap CAPABILITY_SERVICE_IPC rts ch))) q r =
    if decide (q = pid /\ r = slot) then Some (Entry true gen (Cap CAPABILITY_SERVICE_IPC rts ch)) else slot_at c q r)
    by (intros; apply slot_put; try done; lia).
  setoid_rewrite holds_count. split; [|split].
  - exists slot, gen. rewrite Hput, decide_True by done. split; [lia|]. auto.
  - intros p x g (s & ge & Hp' & Hs' & Ex & Hx). exists s, ge. split; [done|]. split; [done|]. split; [done|].
    rewrite Hput, decide_False; [done|]. intros [-> ->]. congruence.
  - intros p x g (s & ge & Hp' & Hs' & Ex & Hx). rewrite Hput in Hx.
    destruct (decide (p = pid /\ s = slot)) as [[-> ->]|]; [right; injection Hx as <- <-; by rewrite Ex, Eh|].
    left. by exists s, ge.
Qed.

Lemma rights_full : Z.land (Z.lor (Z.lor CAPABILITY_RIGHT_SEND CAPABILITY_RIGHT_RECEIVE) CAPABILITY_RIGHT_QUERY)
  CAPABILITY_RIGHT_RECEIVE = CAPABILITY_RIGHT_RECEIVE.
Proof. done. Qed.

Lemma rights_client : Z.land (Z.lor CAPABILITY_RIGHT_SEND CAPABILITY_RIGHT_QUERY) CAPABILITY_RIGHT_RECEIVE
  <> CAPABILITY_RIGHT_RECEIVE.
Proof. done. Qed.

(** Activating a free slot of the channel table. *)
Lemma install_channel_ok w i c c0 :
  subsystems_wf w -> 1 <= i <= 16 -> w.(w_ipc).(channels).[i - 1] = Some c0 -> c0.(Ipc.active) = false ->
  c.(Ipc.id) = i -> holds_backlog c [] -> c.(Ipc.waiter) = no_waiter -> c.(sender) = no_sender ->
  length c.(cname) = 24%nat /\ 0 <= c.(owner) /\ (c.(Ipc.active) = true -> 1 <= c.(owner)) ->
  exists w', put_channel c w = Some w' /\ subsystems_wf w' /\
    w'.(w_ipc).(channels).[i - 1] = Some c /\ same_elsewhere w w' i /\
    w' = set_ipc w'.(w_ipc) w.
Proof.
  intros [Hc Hi Hl Hm Hin] Hb Hc0 Ha0 Hid Hq Hw Hs Hn. unfold put_channel.
  destruct (set_channel_ok w.(w_ipc) i c Hi Hb Hid) as (s' & E & Hwf & ->);
    [by eauto|by rewrite Hw|by rewrite Hs|done|].
  rewrite Hid, E. cbn [mbind option_bind]. eexists. split; [done|].
  assert (Hins : forall j, (<[Z.to_nat (i - 1) := c]> w.(w_ipc).(channels)).[j] =
    if decide (j = i - 1) then Some c else w.(w_ipc).(channels).[j]).
  { intros j. apply aget_insert. by eapply aget_bound. }
  split; [|split; [|split; [|done]]].
  - split; cbn; try done. intros p h g Hg Hsv. destruct (Hl p h g Hg Hsv) as [Hb' Hr]. split; [done|].
    intros Hrt. destruct (Hr Hrt) as (ch & Hch & Ha & Ho). rewrite Hins.
    destruct (decide (object_id g - 1 = i - 1)) as [E'|]; [rewrite E' in Hch; congruence|eauto].
  - cbn. rewrite Hins. by rewrite decide_True.
  - intros j Hj. cbn. rewrite Hins. by rewrite decide_False.
Qed.

(** The channel a creator gets is fresh, and it alone may receive from it. *)
Lemma create_ok w pid nm n :
  subsystems_wf w -> 0 <= pid -> 0 <= n <= Z.of_nat (length nm) ->
  exists h w', ipc_create pid (Some nm) n w = Some (h, w') /\ subsystems_wf w' /\
    w'.(w_memory) = w.(w_memory) /\ w'.(w_surfaces) = w.(w_surfaces) /\ w'.(w_input) = w.(w_input) /\
    waits_kept w w' /\
    (h <> U64_MAX -> exists i c, w.(w_ipc).(channels).[i - 1] <> None /\
       can w' pid h CAPABILITY_RIGHT_SEND i c /\ can w' pid h CAPABILITY_RIGHT_RECEIVE i c /\
       c.(owner) = pid /\ pipe w' i []).
Proof.
  intros Hw Hp Hn. unfold ipc_create.
  assert (Hno : exists h w', Some (U64_MAX, w) = Some (h, w') /\ subsystems_wf w' /\
    w'.(w_memory) = w.(w_memory) /\ w'.(w_surfaces) = w.(w_surfaces) /\ w'.(w_input) = w.(w_input) /\
    waits_kept w w' /\
    (h <> U64_MAX -> exists i c, w.(w_ipc).(channels).[i - 1] <> None /\
       can w' pid h CAPABILITY_RIGHT_SEND i c /\ can w' pid h CAPABILITY_RIGHT_RECEIVE i c /\
       c.(owner) = pid /\ pipe w' i [])) by (exists U64_MAX, w; split_and!; done).
  destruct (bad_name pid n) eqn:En; [done|]. unfold bad_name, IPC_NAME_MAX in En. b2p.
  destruct (find_name_ok nm n w.(w_ipc).(channels) ltac:(lia) ltac:(lia) (ipc_names_all _ (sw_ipc _ Hw)))
    as (same & -> & _). cbn [mbind option_bind].
  destruct same; [done|].
  destruct (list_find _ w.(w_ipc).(channels)) as [[i c0]|] eqn:Ef; [|done]. clear Hno.
  apply list_find_Some in Ef as (Hi0 & Ha0 & _).
  pose proof (iw_length _ (sw_ipc _ Hw)) as Hlen. pose proof (lookup_lt_Some _ _ _ Hi0) as Hil.
  destruct (new_channel_ok (Z.of_nat i + 1) pid nm n ltac:(lia) ltac:(lia))
    as (c & -> & Hq & Hid & How & Hac & Hwt & Hse & Hcn). cbn [mbind option_bind].
  assert (Hc0 : w.(w_ipc).(channels).[Z.of_nat i + 1 - 1] = Some c0)
    by (replace (Z.of_nat i + 1 - 1) with (Z.of_nat i) by lia; by rewrite aget_nat).
  destruct (install_channel_ok w (Z.of_nat i + 1) c c0 Hw) as (w1 & -> & Hw1 & Hc1 & Hels & E1); try done; [lia|rewrite How; split_and!; [done|lia|intros _; lia]|].
  cbn [mbind option_bind]. rewrite Hid.
  destruct (open_ipc_ok w1.(w_caps) pid (Z.of_nat i + 1)
    (Z.lor (Z.lor CAPABILITY_RIGHT_SEND CAPABILITY_RIGHT_RECEIVE) CAPABILITY_RIGHT_QUERY) (sw_caps _ Hw1) Hp)
    as (h & cp & -> & Hcp & Hcase). cbn [mbind option_bind].
  assert (Hqw : waits_kept w w1) by (apply (waits_put w w1 (Z.of_nat i + 1) c0 c); [done..|by rewrite Hwt]).
  assert (Em : w1.(w_memory) = w.(w_memory) /\ w1.(w_surfaces) = w.(w_surfaces) /\ w1.(w_input) = w.(w_input))
    by by rewrite E1. destruct Em as (Em & Es & Ein).
  destruct Hcase as [[-> ->]|(Hne & Hh0 & Hh & Hold & Hnew)].
  - rewrite Z.eqb_refl.
    assert (Hw1' : subsystems_wf (set_caps (deny (w_caps w1)) w1)).
    { destruct Hw1. split; cbn; auto using deny_linked, count_wf. }
    unfold put_channel. cbn [Ipc.id set_active]. rewrite Hid.
    destruct (set_channel_ok (w_ipc (set_caps (deny (w_caps w1)) w1)) (Z.of_nat i + 1) (set_active false c))
      as (s' & -> & Hwf & Es'); [apply Hw1'|lia|done|done|cbn; by rewrite Hwt|cbn; by rewrite Hse|cbn; by rewrite How|].
    cbn [mbind option_bind]. eexists _, _. split; [done|].
    assert (Hins : forall j, s'.(channels).[j] =
      if decide (j = Z.of_nat i) then Some (set_active false c) else w1.(w_ipc).(channels).[j]).
    { intros j. rewrite Es'. cbn. replace (Z.of_nat i + 1 - 1) with (Z.of_nat i) by lia. apply aget_insert.
      rewrite (iw_length _ (sw_ipc _ Hw1)). lia. }
    split; [|split; [done|split; [done|split; [done|split; [|done]]]]].
    + destruct Hw1'. split; cbn; try done. intros p x g Hg Hsv.
      destruct (sw_linked _ Hw p x g) as [Hb Hr].
      { rewrite E1 in Hg. cbn in Hg. unfold deny in Hg. by rewrite holds_count in Hg. }
      { done. }
      split; [done|]. intros Hrt. destruct (Hr Hrt) as (ch & Hch & Ha & Ho). rewrite Hins.
      destruct (decide (object_id g - 1 = Z.of_nat i)) as [E'|E'].
      * rewrite E', aget_nat in Hch. congruence.
      * exists ch. rewrite Hels by lia. done.
    + intros P HP%Hqw j cj Hj Haj. cbn in Hj. rewrite Hins in Hj.
      destruct (decide (j = Z.of_nat i)); [by injection Hj as <-|]. by apply (HP j).
  - rewrite (proj2 (Z.eqb_neq h U64_MAX)) by done. eexists _, _. split; [done|].
    assert (Hcan : forall rt, Z.land (Z.lor (Z.lor CAPABILITY_RIGHT_SEND CAPABILITY_RIGHT_RECEIVE) CAPABILITY_RIGHT_QUERY) rt = rt ->
      can (set_caps cp w1) pid h rt (Z.of_nat i + 1) c).
    { intros rt Hrt. eexists. split; [exact Hh|]. split; [exact Hrt|]. split; [done|]. split; [done|]. split; [lia|]. done. }
    split; [|split; [done|split; [done|split; [done|split; [exact Hqw|]]]]].
    + destruct Hw1 as [? ? Hl1 ? ?]. split; cbn; try done. intros p x g Hg Hsv.
      destruct (Hnew p x g Hg) as [Hg'|(-> & -> & ->)]; [by apply (Hl1 p x g)|]. cbn. split; [lia|].
      intros _. by exists c.
    + intros _. exists (Z.of_nat i + 1), c. split; [congruence|]. split; [by apply Hcan|]. split; [by apply Hcan|].
      split; [done|]. by exists c.
Qed.

(** A client that connects may only send and query. *)
Lemma connect_ok w pid nm n :
  subsystems_wf w -> 0 <= pid -> 0 <= n <= Z.of_nat (length nm) ->
  exists h w', ipc_connect pid (Some nm) n w = Some (h, w') /\ subsystems_wf w' /\
    w'.(w_ipc) = w.(w_ipc) /\ w'.(w_memory) = w.(w_memory) /\
    (h <> U64_MAX -> exists i c, can w' pid h CAPABILITY_RIGHT_SEND i c /\
       forall j c', ~ can w' pid h CAPABILITY_RIGHT_RECEIVE j c').
Proof.
  intros Hw Hp Hn. unfold ipc_connect.
  destruct (bad_name pid n) eqn:En; [by exists U64_MAX, w|]. unfold bad_name, IPC_NAME_MAX in En. b2p.
  destruct (find_name_ok nm n w.(w_ipc).(channels) ltac:(lia) ltac:(lia) (ipc_names_all _ (sw_ipc _ Hw)))
    as (same & -> & Hin). cbn [mbind option_bind].
  destruct same as [c|]; [|by exists U64_MAX, w]. destruct (Hin c eq_refl) as [Hel Ha].
  apply list_elem_of_lookup in Hel as [k Hk]. rewrite <- aget_nat in Hk.
  pose proof (iw_id _ (sw_ipc _ Hw) _ _ Hk) as Hid. pose proof (aget_bound _ _ _ Hk) as Hkb.
  rewrite (iw_length _ (sw_ipc _ Hw)) in Hkb.
  destruct (open_ipc_ok w.(w_caps) pid c.(Ipc.id) (Z.lor CAPABILITY_RIGHT_SEND CAPABILITY_RIGHT_QUERY) (sw_caps _ Hw) Hp)
    as (h & cp & -> & Hcp & Hcase). cbn [mbind option_bind]. eexists h, _. split; [done|].
  destruct Hw as [? Hi Hl ? ?].
  destruct Hcase as [[-> ->]|(Hne & Hh0 & Hh & Hold & Hnew)].
  - split; [split; cbn; auto using deny_linked|done].
  - split; [|split; [done|split; [done|]]].
    + split; cbn; try done. intros p x g Hg Hsv. destruct (Hnew p x g Hg) as [Hg'|(-> & -> & ->)]; [by apply (Hl p x g)|].
      cbn [object_id rights]. split; [lia|]. intros Hrt. by apply rights_client in Hrt.
    + intros _. exists c.(Ipc.id), c. split.
      * eexists. split; [exact Hh|]. split; [done|]. split; [done|]. split; [done|]. split; [lia|].
        cbn. split; [|done]. by replace (Ipc.id c - 1) with (Z.of_nat k) by lia.
      * intros j c' (g & Hg & Hrt & _). rewrite (holds_unique _ _ _ _ _ Hg Hh) in Hrt. by apply rights_client in Hrt.
Qed.
