(* ===== verification/ProcessExit.v ===== *)
(** Process death: what the IPC cleanup leaves behind, and that the whole exit
    path restores the invariant that a channel is received from by its owner
    alone. *)

From stdpp Require Import gmap.
From S2P Require Import Prelude Ring Surface SurfaceSpec Capability CapabilitySpec Input Ipc IpcSpec.
From S2P Require Import PhysicalMemory UserMemory UserMemorySpec Scheduler SchedulerSpec Kernel KernelSpec.

(** ** Cleanup of the channels *)

(** No task sleeps in slot [p]. *)
Definition awake (s : sched) (p : Z) : Prop :=
  forall t, s.(tasks).[p] = Some t -> t.(state) <> BLOCKED.

Lemma awake_woken s s' p : woken s s' -> awake s p -> awake s' p.
Proof.
  intros Hw Ha t' Ht'. pose proof (aget_bound _ _ _ Ht') as Hb. rewrite (woken_len _ _ Hw) in Hb.
  destruct (aget_in s.(tasks) p Hb) as [t Ht]. rewrite (woken_running _ _ _ _ Hw Ht (Ha t Ht)) in Ht'.
  injection Ht' as <-. by apply Ha.
Qed.

(** A wake-up ends every sleep. *)
Lemma wake_awake s p r d :
  sched_core s -> 0 <= p ->
  exists b s', scheduler_wake p r d s = Some (b, s') /\ woken s s' /\ awake s' p.
Proof.
  intros Hs Hp. destruct (scheduler_wake_woken s p r d Hs Hp) as (b & s' & E & Hw).
  exists b, s'. split; [done|]. split; [done|]. intros t' Ht'. revert E.
  unfold scheduler_wake, SCHEDULER_PROCESS_LIMIT.
  destruct ((p =? 0) || (8 <=? p)) eqn:Ep.
  - intros [= _ <-]. apply orb_true_iff in Ep as [Ep|Ep]; b2p.
    + subst p. pose proof (ok_idle _ _ _ _ (core_tasks _ Hs _ _ Ht') eq_refl). intuition congruence.
    + apply aget_bound in Ht'. rewrite (core_len _ Hs) in Ht'. lia.
  - b2p. destruct (task_in s p Hs ltac:(lia)) as [t Ht]. rewrite Ht. cbn [mbind option_bind].
    destruct (decide (t.(state) = BLOCKED)) as [Hb|Hb]; [|intros [= _ <-]; congruence].
    destruct (wake_step s p t (set_result r d) Hs Ht Hb) as (g & Hg & Heq & _).
    rewrite (write_frame_eq _ _ _ g) in * by done. cbn [mbind option_bind] in *. rewrite Heq.
    cbn [mbind option_bind]. intros [= _ <-]. cbn in Ht'. rewrite aget_insert in Ht' by (by eapply aget_bound).
    rewrite decide_True in Ht' by done. by injection Ht' as <-.
Qed.

(** The invariant while the handles of the dying process [p] are still open. *)
Record dying_wf (p : Z) (w : subsystems) : Prop := {
  dw_caps : caps_wf w.(w_caps);
  dw_ipc : ipc_wf w.(w_ipc);
  dw_memory : memory_arrays w.(w_memory);
  dw_input : 0 <= w.(w_input).(Input.waiter).(iw_pid);
  dw_linked : forall q h g, holds w.(w_caps) q h g -> g.(service) = CAPABILITY_SERVICE_IPC ->
    1 <= g.(object_id) <= 16 /\
    (q <> p -> Z.land g.(rights) CAPABILITY_RIGHT_RECEIVE = CAPABILITY_RIGHT_RECEIVE ->
     exists ch, w.(w_ipc).(channels).[g.(object_id) - 1] = Some ch /\ ch.(Ipc.active) = true /\ ch.(owner) = q);
}.

Lemma subsystems_dying p w : subsystems_wf w -> dying_wf p w.
Proof.
  intros []. split; try done. intros q h g Hg Hs. destruct (sw_linked q h g Hg Hs). split; auto.
Qed.

Lemma input_cancel_pid p i : (input_cancel_wait p i).2.(Input.waiter).(iw_pid) = i.(Input.waiter).(iw_pid).
Proof. unfold input_cancel_wait. by destruct (_ || _). Qed.

(** [w'] is [w], up to a cancelled input wait. *)
Definition input_moved (w w' : subsystems) : Prop :=
  w'.(w_caps) = w.(w_caps) /\ w'.(w_surfaces) = w.(w_surfaces) /\ w'.(w_ipc) = w.(w_ipc) /\
  w'.(w_memory) = w.(w_memory) /\ w'.(w_input).(Input.waiter).(iw_pid) = w.(w_input).(Input.waiter).(iw_pid).

Lemma input_moved_refl w : input_moved w w.
Proof. done. Qed.
Lemma input_moved_cancel p w : input_moved w (w_input_cancel p w).
Proof. repeat split. apply input_cancel_pid. Qed.
Lemma input_moved_dying p w w' : input_moved w w' -> dying_wf p w -> dying_wf p w'.
Proof. intros (E1 & E2 & E3 & E4 & E5) []. split; rewrite ?E1, ?E3, ?E4, ?E5; done. Qed.

(** The sleepers of a channel. *)
Definition sleepers_awake (c : ipc_channel) (s : sched) : Prop :=
  (c.(Ipc.waiter).(w_active) = true -> awake s c.(Ipc.waiter).(w_pid)) /\
  (c.(sender).(s_active) = true -> awake s c.(sender).(s_pid)).

(** A channel that is out of use. *)
Definition closed_channel (c0 c : ipc_channel) : Prop :=
  c.(Ipc.active) = false /\ c.(Ipc.waiter).(w_active) = false /\ c.(sender).(s_active) = false /\
  c.(Ipc.id) = c0.(Ipc.id) /\ c.(cname) = c0.(cname) /\
  c.(Ipc.waiter).(w_pid) = c0.(Ipc.waiter).(w_pid) /\ c.(sender).(s_pid) = c0.(sender).(s_pid) /\ c.(owner) = c0.(owner).

Lemma close_channel_ok c s w :
  sched_core s -> 0 <= c.(Ipc.waiter).(w_pid) -> 0 <= c.(sender).(s_pid) ->
  exists c' s' w', close_channel c s w = Some (c', s', w') /\ woken s s' /\ input_moved w w' /\
    closed_channel c c' /\ sleepers_awake c s'.
Proof.
  intros Hs Hwp Hsp. unfold close_channel.
  assert (exists s1 w1, fail_waiter c.(Ipc.waiter) s w = Some (s1, w1) /\ woken s s1 /\ input_moved w w1 /\
             (c.(Ipc.waiter).(w_active) = true -> awake s1 c.(Ipc.waiter).(w_pid)))
    as (s1 & w1 & -> & Hw1 & Hm1 & Ha1).
  { unfold fail_waiter. destruct (w_active (Ipc.waiter c)); cbn [negb].
    2: { exists s, w. split_and!; [done|apply woken_refl|apply input_moved_refl|done]. }
    destruct (wake_awake s c.(Ipc.waiter).(w_pid) U64_MAX 0 Hs Hwp) as (b & s1 & -> & Hw & Ha).
    cbn [mbind option_bind]. eexists s1, _. split; [done|]. split; [done|]. split; [|done].
    destruct (w_multiplex _); [apply input_moved_cancel|apply input_moved_refl]. }
  cbn [mbind option_bind]. pose proof (woken_preserves _ _ Hs Hw1) as Hs1. unfold sleepers_awake, fail_sender.
  destruct (s_active (sender c)) eqn:Es; cbn [negb].
  - destruct (wake_awake s1 c.(sender).(s_pid) U64_MAX 0 Hs1 Hsp) as (b & s2 & -> & Hw2 & Ha2).
    cbn [mbind option_bind]. eexists _, s2, w1. split; [done|]. split; [by eapply woken_trans|].
    split; [done|]. split; [done|]. split; [|done]. intros Hact. eapply awake_woken; [done|auto].
  - cbn [mbind option_bind]. eexists _, s1, w1. split; [done|]. split; [done|]. split; [done|].
    split; [by repeat split|]. split; [auto|done].
Qed.

(** A live channel without the waits of [p]. *)
Definition without_pid (p : Z) (c : ipc_channel) : ipc_channel :=
  let c := if c.(Ipc.waiter).(w_active) && (c.(Ipc.waiter).(w_pid) =? p)
           then set_cwaiter (stop_waiter c.(Ipc.waiter)) c else c in
  if c.(sender).(s_active) && (c.(sender).(s_pid) =? p) then set_sender (stop_sender c.(sender)) c else c.

Lemma without_pid_fields p c :
  (without_pid p c).(Ipc.id) = c.(Ipc.id) /\ (without_pid p c).(owner) = c.(owner) /\
  (without_pid p c).(Ipc.active) = c.(Ipc.active) /\ (without_pid p c).(cname) = c.(cname) /\
  (without_pid p c).(Ipc.waiter).(w_pid) = c.(Ipc.waiter).(w_pid) /\
  (without_pid p c).(sender).(s_pid) = c.(sender).(s_pid) /\
  (without_pid p c).(Ipc.waiter).(w_active) = c.(Ipc.waiter).(w_active) && negb (c.(Ipc.waiter).(w_pid) =? p) /\
  (without_pid p c).(sender).(s_active) = c.(sender).(s_active) && negb (c.(sender).(s_pid) =? p).
Proof.
  unfold without_pid. destruct c as [? ? ? ? ? ? ? ? [wp ? ? wa ?] [sp ? ? sa] ?]; cbn.
  destruct wa, (wp =? p); cbn; destruct sa, (sp =? p); cbn; done.
Qed.

Lemma stop_sender_backlog c q : holds_backlog c q -> exists q', holds_backlog (set_sender (stop_sender c.(sender)) c) q'.
Proof. intros (l & [] & ->). eexists _, l. split; [by split|done]. Qed.

Lemma without_pid_backlog p c q : holds_backlog c q -> exists q', holds_backlog (without_pid p c) q'.
Proof.
  intros Hq. unfold without_pid.
  destruct (_ && (w_pid _ =? p)); [apply (set_waiter_backlog (stop_waiter (Ipc.waiter c))) in Hq|];
    (destruct (_ && _); [by eapply stop_sender_backlog|eauto]).
Qed.

(** One round of the cleanup. *)
Definition cleaned (p : Z) (s : sched) (c0 c : ipc_channel) : Prop :=
  if negb c0.(Ipc.active) then c = c0
  else if decide (c0.(owner) = p) then closed_channel c0 c /\ sleepers_awake (without_pid p c0) s
  else c = without_pid p c0.

Lemma cleaned_waiter p s c0 c : cleaned p s c0 c -> c.(Ipc.active) = true -> c.(Ipc.waiter).(w_active) = true ->
  c0.(Ipc.active) = true /\ c.(Ipc.waiter) = c0.(Ipc.waiter) /\ c.(Ipc.waiter).(w_pid) <> p.
Proof.
  unfold cleaned. destruct (Ipc.active c0) eqn:E0; cbn [negb]; [|intros ->; congruence]. destruct (decide _).
  - intros [(Hna & _) _]. congruence.
  - intros -> _. unfold without_pid in *. destruct c0 as [? ? ? ? ? ? ? ? [wp ? ? wa ?] [sp ? ? sa] ?]; cbn in *.
    destruct wa, (Z.eqb_spec wp p); cbn in *; destruct sa, (sp =? p); cbn in *; done.
Qed.

Lemma cleaned_woken p s s' c0 c : woken s s' -> cleaned p s c0 c -> cleaned p s' c0 c.
Proof.
  intros Hw. unfold cleaned. destruct (negb _); [done|]. destruct (decide _); [|done].
  intros [H1 [H2 H3]]. split; [done|]. split; intros; eapply awake_woken; eauto.
Qed.

(** Replacing a live channel of the dying process by a closed one, or any channel
    by itself without the process. *)
Lemma dying_replace p w i c0 c :
  dying_wf p w -> w.(w_ipc).(channels).[i] = Some c0 ->
  c.(Ipc.id) = c0.(Ipc.id) -> c.(cname) = c0.(cname) -> c.(owner) = c0.(owner) -> (c.(Ipc.active) = true -> c0.(Ipc.active) = true) ->
  c.(Ipc.waiter).(w_pid) = c0.(Ipc.waiter).(w_pid) -> c.(sender).(s_pid) = c0.(sender).(s_pid) ->
  (c.(Ipc.active) = true -> exists q, holds_backlog c q) ->
  (c0.(Ipc.active) = true -> c0.(owner) <> p -> c.(Ipc.active) = true /\ c.(owner) = c0.(owner)) ->
  dying_wf p (set_ipc (set_channels (<[Z.to_nat i := c]> w.(w_ipc).(channels)) w.(w_ipc)) w).
Proof.
  intros [Hcp Hi Hm Hin Hl] Hc0 Eid Ecn Eow Eac Ew Es Hq Hkeep. pose proof (aget_bound _ _ _ Hc0) as Hb.
  assert (Hins : forall j, (<[Z.to_nat i := c]> w.(w_ipc).(channels)).[j] =
    if decide (j = i) then Some c else w.(w_ipc).(channels).[j]) by (intros; by apply aget_insert).
  split; cbn; try done.
  - split; cbn.
    + rewrite length_insert. apply Hi.
    + intros j c'. rewrite Hins. case_decide; [intros [= <-]; subst; by rewrite Eid; apply (iw_id _ Hi)|apply (iw_id _ Hi)].
    + intros j c'. rewrite Hins. case_decide; [intros [= <-]; done|apply (iw_channel _ Hi)].
    + intros j c'. rewrite Hins. case_decide; [intros [= <-]; rewrite Ew, Es; by eapply (iw_pids _ Hi)|apply (iw_pids _ Hi)].
    + intros j c'. rewrite Hins. case_decide; [intros [= <-]; rewrite Ecn, Eow; destruct (iw_names _ Hi _ _ Hc0) as (? & ? & ?); auto|apply (iw_names _ Hi)].
  - intros q h g Hg Hsv. destruct (Hl q h g Hg Hsv) as [Hr Hrt]. split; [done|]. intros Hne Hrv.
    destruct (Hrt Hne Hrv) as (ch & Hch & Ha & Ho). rewrite Hins.
    destruct (decide (object_id g - 1 = i)) as [E|]; [|eauto]. rewrite E in Hch. rewrite Hc0 in Hch. injection Hch as <-.
    exists c. destruct Hkeep as [Hk1 Hk2]; [done|congruence|]. split; [done|]. split; [done|]. congruence.
Qed.

Lemma cleanup_channel_ok p i s w :
  dying_wf p w -> sched_core s -> 0 <= i < 16 ->
  exists s' w', cleanup_channel p i (s, w) = Some (s', w') /\ dying_wf p w' /\ woken s s' /\
    w'.(w_caps) = w.(w_caps) /\ w'.(w_surfaces) = w.(w_surfaces) /\ w'.(w_memory) = w.(w_memory) /\
    forall j c0, w.(w_ipc).(channels).[j] = Some c0 ->
      exists c, w'.(w_ipc).(channels).[j] = Some c /\ (if decide (j = i) then cleaned p s' c0 c else c = c0).
Proof.
  intros Hd Hs Hi. unfold cleanup_channel. pose proof (dw_ipc _ _ Hd) as Hwf.
  destruct (aget_in w.(w_ipc).(channels) i) as [c0 Hc0]; [rewrite (iw_length _ Hwf); lia|].
  rewrite Hc0. cbn [mbind option_bind].
  destruct (Ipc.active c0) eqn:Ea; cbn [negb].
  2: { exists s, w. split; [done|]. split; [done|]. split; [apply woken_refl|]. do 3 (split; [done|]).
       intros j c Hj. exists c. split; [done|]. case_decide; [|done]. subst. rewrite Hc0 in Hj. injection Hj as <-.
       unfold cleaned. by rewrite Ea. }
  fold (without_pid p c0).
  pose proof (without_pid_fields p c0) as (F1 & F2 & F3 & F4 & F5 & F6 & F7 & F8).
  destruct (iw_pids _ Hwf _ _ Hc0) as [Hwp Hsp]. rewrite <- F5 in Hwp. rewrite <- F6 in Hsp.
  pose proof (aget_bound _ _ _ Hc0) as Hb. set (cw := without_pid p c0) in *. rewrite F2.
  destruct (Z.eqb_spec c0.(owner) p) as [Ho|Ho].
  - destruct (close_channel_ok cw s w Hs Hwp Hsp) as (c' & s' & w' & -> & Hwk & Hmv & Hcl & Hsl).
    cbn [mbind option_bind]. pose proof Hmv as (E1 & E2 & E3 & E4 & E5). rewrite E3, aset_in by lia.
    cbn [mbind option_bind]. rewrite <- E3. eexists s', _. split; [done|].
    pose proof Hcl as (Hna & Hnw & Hns & G1 & G2 & G3 & G4 & G5).
    split; [|split; [done|split; [done|split; [done|split; [done|]]]]].
    + apply (dying_replace p w' i c0); try congruence. eapply input_moved_dying; [exact Hmv|done].
    + intros j c Hj. rewrite E3 in Hj. cbn. rewrite E3, aget_insert by lia. destruct (decide (j = i)) as [->|]; [|by exists c].
      rewrite Hc0 in Hj. injection Hj as <-. exists c'. split; [done|]. unfold cleaned. rewrite Ea, decide_True by done.
      cbn [negb]. split; [|done]. repeat split; congruence.
  - cbn [mbind option_bind]. rewrite aset_in by lia. cbn [mbind option_bind]. eexists s, _. split; [done|].
    destruct (iw_channel _ Hwf _ _ Hc0 Ea) as [q Hq].
    split; [|split; [apply woken_refl|split; [done|split; [done|split; [done|]]]]].
    + apply (dying_replace p w i c0); try congruence; [|intros _ _; split; congruence].
      intros _. by eapply without_pid_backlog.
    + intros j c Hj. cbn. rewrite aget_insert by lia. destruct (decide (j = i)) as [->|]; [|by exists c].
      rewrite Hc0 in Hj. injection Hj as <-. exists cw. split; [done|]. unfold cleaned. by rewrite Ea, decide_False.
Qed.

(** The whole cleanup. *)
Lemma cleanup_ok p s w :
  dying_wf p w -> sched_core s ->
  exists s' w', ipc_process_cleanup p s w = Some (s', w') /\ dying_wf p w' /\ woken s s' /\
    w'.(w_caps) = w.(w_caps) /\ w'.(w_surfaces) = w.(w_surfaces) /\ w'.(w_memory) = w.(w_memory) /\
    forall j c0, w.(w_ipc).(channels).[j] = Some c0 ->
      exists c, w'.(w_ipc).(channels).[j] = Some c /\ cleaned p s' c0 c.
Proof.
  intros Hd Hs. unfold ipc_process_cleanup.
  set (P := fun i (sw : sched * subsystems) =>
    dying_wf p sw.2 /\ woken s sw.1 /\ sw.2.(w_caps) = w.(w_caps) /\ sw.2.(w_surfaces) = w.(w_surfaces) /\
    sw.2.(w_memory) = w.(w_memory) /\
    forall j c0, w.(w_ipc).(channels).[j] = Some c0 ->
      exists c, sw.2.(w_ipc).(channels).[j] = Some c /\ (if decide (j < i) then cleaned p sw.1 c0 c else c = c0)).
  destruct (for_up_inv P 16 0 (cleanup_channel p) (s, w_input_cancel p w)) as ([s' w'] & -> & HP).
  - split; [cbn; eapply input_moved_dying; [apply input_moved_cancel|done]|].
    split; [apply woken_refl|]. do 3 (split; [done|]). intros j c0 Hj. exists c0. split; [done|].
    rewrite decide_False; [done|]. apply aget_bound in Hj. lia.
  - intros i [s1 w1] Hi (Hd1 & Hw1 & E1 & E2 & E3 & Hc1). cbn [fst snd] in *.
    destruct (cleanup_channel_ok p i s1 w1 Hd1 (woken_preserves _ _ Hs Hw1) ltac:(lia))
      as (s2 & w2 & -> & Hd2 & Hw2 & F1 & F2 & F3 & Hc2).
    exists (s2, w2). split; [done|]. split; [done|]. split; [by eapply woken_trans|].
    cbn [fst snd]. do 3 (split; [congruence|]). intros j c0 Hj.
    destruct (Hc1 j c0 Hj) as (c1 & Hj1 & Hcl1). destruct (Hc2 j c1 Hj1) as (c2 & Hj2 & Hcl2).
    exists c2. split; [done|]. destruct (decide (j = i)) as [->|Hne].
    + rewrite decide_True by lia. rewrite decide_False in Hcl1 by lia. by subst.
    + subst c2. destruct (decide (j < i)).
      * rewrite decide_True by lia. by eapply cleaned_woken.
      * by rewrite decide_False by lia.
  - destruct HP as (H1 & H2 & H3 & H4 & H5 & H6). exists s', w'. split; [done|].
    cbn [fst snd] in *. do 5 (split; [done|]). intros j c0 Hj. destruct (H6 j c0 Hj) as (c & Hc & Hcl).
    exists c. split; [done|]. rewrite decide_True in Hcl; [done|]. apply aget_bound in Hj.
    rewrite (iw_length _ (dw_ipc _ _ Hd)) in Hj. lia.
Qed.

(** ** Closing every handle *)

Section exit.
Context (pins : Z -> Z) (pins_nonneg : forall id, 0 <= pins id).

Lemma close_step_shut a c s pid slot :
  linked pins a c s -> 0 <= pid < 8 -> 0 <= slot < 8 ->
  exists c' s' a', close_step pid slot (c, s) = Some (c', s') /\ linked pins a' c' s' /\
    forall q r e', slot_at c' q r = Some e' ->
      if decide (q = pid /\ r = slot) then e'.(open) = false else slot_at c q r = Some e'.
Proof.
  intros Hl Hp Hs. pose proof (linked_caps _ _ _ _ Hl) as Hc. unfold close_step.
  destruct (table_in c pid Hc Hp) as (t & Ht & _). rewrite Ht. cbn [mbind option_bind].
  destruct (slot_in c pid slot Hc Hp Hs) as [e He].
  assert (Hopen : is_open slot t = e.(open)).
  { unfold is_open. unfold slot_at in He. rewrite Ht in He. cbn in He. by rewrite He. }
  rewrite Hopen. destruct (open e) eqn:Eo; cbn [negb].
  - destruct (close_slot_linked pins pins_nonneg a c s pid slot e Hl He Eo) as (s' & a' & -> & Hl' & _).
    cbn [mbind option_bind]. eexists _, s', a'. split; [done|]. split; [done|].
    intros q r e'. rewrite (slot_closed c pid slot e) by done. case_decide; [by intros [= <-]|done].
  - exists c, s, a. split; [done|]. split; [done|]. intros q r e' H.
    destruct (decide (q = pid /\ r = slot)) as [[-> ->]|]; [congruence|done].
Qed.

(** Afterwards the process holds nothing, and nobody else lost anything. *)
Lemma close_all_shut a c s pid :
  linked pins a c s -> 0 <= pid < 8 -> pid <> 0 ->
  exists c' s' a', capabilities_close_all pid c s = Some (c', s') /\ linked pins a' c' s' /\
    forall q h g, holds c' q h g -> q <> pid /\ holds c q h g.
Proof.
  intros Hl Hp Hp0. unfold capabilities_close_all, kProcessLimit.
  rewrite (proj2 (Z.eqb_neq pid 0)), (proj2 (Z.leb_gt 8 pid)) by lia. cbn [orb].
  set (P := fun j (cs : caps * surfaces) => exists a', linked pins a' cs.1 cs.2 /\
    forall q r e', slot_at cs.1 q r = Some e' ->
      if decide (q = pid /\ r < j) then e'.(open) = false else slot_at c q r = Some e').
  destruct (for_up_inv P 8 0 (close_step pid) (c, s)) as ([c' s'] & -> & a' & Hl' & Hsl).
  - exists a. split; [done|]. intros q r e' H. cbn in *. rewrite decide_False; [done|]. intros [_ Hr].
    destruct (slot_bounds c q r e' (linked_caps _ _ _ _ Hl) H). lia.
  - intros j [c1 s1] Hj (a1 & Hl1 & H1). cbn [fst snd] in *.
    destruct (close_step_shut a1 c1 s1 pid j Hl1 Hp ltac:(lia)) as (c2 & s2 & a2 & -> & Hl2 & H2).
    exists (c2, s2). split; [done|]. exists a2. split; [done|]. cbn [fst]. intros q r e' H.
    specialize (H2 q r e' H). destruct (decide (q = pid /\ r = j)) as [[-> ->]|Hne].
    + rewrite decide_True by lia. done.
    + specialize (H1 q r e' H2). destruct (decide (q = pid /\ r < j)) as [[-> Hr]|Hge].
      * rewrite decide_True by lia. done.
      * rewrite decide_False; [done|]. intros [-> Hr]. apply Hge. split; [done|]. assert (r <> j); [|lia].
        intros ->. by apply Hne.
  - cbn [mbind option_bind fst snd] in *. pose proof (caps_services _ (linked_caps _ _ _ _ Hl')) as Hlen.
    rewrite aset_in by (rewrite Hlen; lia). cbn [mbind option_bind]. eexists _, s', a'. split; [done|].
    split; [apply set_services_linked; [done|by rewrite length_insert]|].
    intros q h g (slot & gen & Hq & Hs & Eh & Hat). change (slot_at c' q slot = Some (Entry true gen g)) in Hat.
    specialize (Hsl q slot _ Hat). destruct (decide (q = pid /\ slot < 0 + Z.of_nat 8)) as [|Hne]; [done|].
    split; [intros ->; apply Hne; split; [done|lia]|]. by exists slot, gen.
Qed.

(** A dying process without handles leaves a well-formed kernel. *)
Lemma dying_done p c w :
  dying_wf p w -> caps_wf c ->
  (forall q h g, holds c q h g -> q <> p /\ holds w.(w_caps) q h g) ->
  forall sf, subsystems_wf (set_surfaces sf (set_caps c w)).
Proof.
  intros [Hcp Hi Hm Hin Hl] Hc Hh sf. split; cbn; try done. intros q h g Hg Hs.
  destruct (Hh q h g Hg) as [Hne Hg']. destruct (Hl q h g Hg' Hs) as [Hb Hr]. split; auto.
Qed.

(** The waits left after the cleanup. *)
Lemma cleaned_waits p s' w w1 : ipc_wf w.(w_ipc) -> ipc_wf w1.(w_ipc) ->
  (forall j c0, w.(w_ipc).(channels).[j] = Some c0 -> exists c, w1.(w_ipc).(channels).[j] = Some c /\ cleaned p s' c0 c) ->
  forall P, waiting P w -> waiting (fun q a n => P q a n /\ q <> p) w1.
Proof.
  intros Hi Hi1 Hcl P HP j c Hj Ha Hwa. destruct (aget_in w.(w_ipc).(channels) j) as [c0 Hc0].
  { rewrite (iw_length _ Hi), <- (iw_length _ Hi1). by eapply aget_bound. }
  destruct (Hcl j c0 Hc0) as (cx & Hcx & Hclean). assert (cx = c) as -> by congruence.
  destruct (cleaned_waiter _ _ _ _ Hclean Ha Hwa) as (Ha0 & E0 & Hne). split; [|done]. rewrite E0 in Hwa |- *. by apply (HP j).
Qed.

(** The IPC and capability half of every process death. *)
Lemma process_exit_ok a p s w :
  subsystems_wf w -> linked pins a w.(w_caps) w.(w_surfaces) -> sched_core s -> 1 <= p < 8 ->
  exists s' w1 w' a', ipc_process_cleanup p s w = Some (s', w1) /\ w_close_all p w1 = Some w' /\
    subsystems_wf w' /\ linked pins a' w'.(w_caps) w'.(w_surfaces) /\ woken s s' /\
    w'.(w_memory) = w.(w_memory) /\ waits_kept w w' /\ waiting (fun q _ _ => q <> p) w' /\
    (forall h g, ~ holds w'.(w_caps) p h g) /\
    forall j c0, w.(w_ipc).(channels).[j] = Some c0 ->
      exists c, w'.(w_ipc).(channels).[j] = Some c /\ cleaned p s' c0 c.
Proof.
  intros Hw Hl Hs Hp.
  destruct (cleanup_ok p s w (subsystems_dying p w Hw) Hs) as (s' & w1 & E & Hd & Hwk & E1 & E2 & E3 & Hcl).
  rewrite <- E1, <- E2 in Hl.
  destruct (close_all_shut a w1.(w_caps) w1.(w_surfaces) p Hl ltac:(lia) ltac:(lia)) as (c' & sf' & a' & Ec & Hl' & Hh).
  exists s', w1, (set_surfaces sf' (set_caps c' w1)), a'. split; [done|].
  unfold w_close_all. rewrite Ec. split; [done|].
  split; [apply (dying_done p); [done|by eapply linked_caps|done]|].
  split; [done|]. split; [done|]. split; [done|].
  pose proof (cleaned_waits p s' w w1 (sw_ipc _ Hw) (dw_ipc _ _ Hd) Hcl) as Hwt.
  split; [|split; [|split; [|done]]].
  - intros P HP j c Hj Ha Hwa. by apply (Hwt P HP j c).
  - intros j c Hj Ha Hwa. by apply (Hwt (fun _ _ _ => True) ltac:(done) j c).
  - intros h g Hg. by destruct (Hh p h g Hg).
Qed.

(** The same for a number that is no user process. *)
Lemma stray_exit_ok p s w :
  subsystems_wf w -> sched_core s -> 0 <= p -> ~ 1 <= p < 8 ->
  exists s' w1 w', ipc_process_cleanup p s w = Some (s', w1) /\ w_close_all p w1 = Some w' /\
    subsystems_wf w' /\ w'.(w_caps) = w.(w_caps) /\ w'.(w_surfaces) = w.(w_surfaces) /\ woken s s' /\
    w'.(w_memory) = w.(w_memory) /\ waits_kept w w'.
Proof.
  intros Hw Hs Hp Hno. destruct (cleanup_ok p s w (subsystems_dying p w Hw) Hs) as (s' & w1 & E & Hd & Hwk & E1 & E2 & E3 & Hcl).
  exists s', w1, w1. split; [done|]. split.
  { unfold w_close_all, capabilities_close_all, kProcessLimit. destruct (_ || _) eqn:Eb; [by destruct w1|].
    apply orb_false_iff in Eb as [E0%Z.eqb_neq E8%Z.leb_gt]. lia. }
  split; [|split_and!; try done].
  - destruct Hd as [D1 D2 D3 D4 D5]. split; try done. intros q h g Hg Hsv. destruct (D5 q h g Hg Hsv) as [Hb Hr]. split; [done|].
    intros Hrt. rewrite E1 in Hg. destruct (sw_linked _ Hw q h g Hg Hsv) as [_ Hl]. destruct (Hl Hrt) as (c0 & Hc0 & Ha & Ho).
    apply Hr; [|done]. pose proof (iw_names _ (sw_ipc _ Hw) _ _ Hc0) as (_ & _ & H1). specialize (H1 Ha).
    destruct Hg as (sl & ge & ? & _). lia.
  - intros P HP j c Hj Ha Hwa. by apply (cleaned_waits p s' w w1 (sw_ipc _ Hw) (dw_ipc _ _ Hd) Hcl P HP j c).
Qed.
End exit.

(** ** Runs of IPC operations *)

(** Message passing leaves surfaces alone and at most counts a denial. *)
Definition caps_kept (w w' : subsystems) : Prop :=
  w'.(w_surfaces) = w.(w_surfaces) /\ (w'.(w_caps) = w.(w_caps) \/ w'.(w_caps) = deny w.(w_caps)).

Lemma resolve_kept pid h right w r w' :
  subsystems_wf w -> 0 <= h -> resolve_channel pid h right w = Some (r, w') -> caps_kept w w'.
Proof.
  intros Hw Hh E. destruct (resolve_channel_ok w pid h right Hw Hh) as (r1 & w1 & E1 & _ & _ & (Hc & Hs & _) & _).
  rewrite E in E1. injection E1 as <- <-. done.
Qed.

Lemma put_kept c w w' : put_channel c w = Some w' -> caps_kept w w'.
Proof. unfold put_channel. intros H. peel H. injection H as <-. by split; [|left]. Qed.

(** Two changes of the joint state of which the second is to the channels, the
    input queue or user memory. *)
Lemma caps_kept_eq w w1 w2 :
  caps_kept w w1 -> w2.(w_surfaces) = w1.(w_surfaces) -> w2.(w_caps) = w1.(w_caps) -> caps_kept w w2.
Proof. intros [H1 H2] E1 E2. split; congruence. Qed.

Lemma put_eq c w w' : put_channel c w = Some w' -> w'.(w_surfaces) = w.(w_surfaces) /\ w'.(w_caps) = w.(w_caps).
Proof. unfold put_channel. intros H. peel H. by injection H as <-. Qed.

Lemma send_kept pid h data n b s w r s' w' :
  subsystems_wf w -> 0 <= h -> ipc_send_impl pid h data n b s w = Some (r, s', w') -> caps_kept w w'.
Proof.
  intros Hw Hh. unfold ipc_send_impl.
  destruct (resolve_channel pid h _ w) as [[c w1]|] eqn:Er; cbn [mbind option_bind]; [|done].
  apply resolve_kept in Er; [|done..].
  destruct c as [c|]; [|by intros [= _ _ <-]]. destruct data as [data|]; [|by intros [= _ _ <-]].
  destruct (_ || _); [by intros [= _ _ <-]|]. destruct (w_active _).
  - unfold deliver. intros H. peel H. apply put_eq in Hv as [E1 E2].
    destruct (w_multiplex _); (destruct (_ <? _); [injection H as _ _ <-; by eapply caps_kept_eq|]);
      peel H; destruct v0 as [ok m]; (destruct ok; cbn [negb] in H; [|injection H as _ _ <-; by eapply caps_kept_eq]);
      peel H; destruct v0 as [ok sx]; (destruct ok; cbn [negb] in H; injection H as _ _ <-; by eapply caps_kept_eq).
  - destruct (_ =? _).
    + destruct (_ || _); [by intros [= _ _ <-]|]. intros H. peel H. injection H as _ _ <-.
      apply put_eq in Hv0 as [E1 E2]. by eapply caps_kept_eq.
    + intros H. peel H. injection H as _ _ <-. apply put_eq in Hv0 as [E1 E2]. by eapply caps_kept_eq.
Qed.

Lemma receive_kept pid h out cap s w r s' w' :
  subsystems_wf w -> 0 <= h -> ipc_receive pid h out cap s w = Some (r, s', w') -> caps_kept w w'.
Proof.
  intros Hw Hh. unfold ipc_receive.
  destruct (resolve_channel pid h _ w) as [[c w1]|] eqn:Er; cbn [mbind option_bind]; [|done].
  apply resolve_kept in Er; [|done..].
  destruct c as [c|]; [|by intros [= _ _ <-]]. destruct out as [out|]; [|by intros [= _ _ <-]].
  destruct (_ =? _); [by intros [= _ _ <-]|]. intros H. peel H. destruct v as [m c1].
  destruct (_ <? _); [by injection H as _ _ <-|]. peel H. destruct v0 as [c2 s2]. peel H.
  injection H as _ _ <-. apply put_eq in Hv2 as [E1 E2]. by eapply caps_kept_eq.
Qed.

(** What leaves user memory and the input queue alone. *)
Definition rest_same (w w' : subsystems) : Prop := w'.(w_memory) = w.(w_memory) /\ w'.(w_input) = w.(w_input).
Lemma rest_trans w1 w2 w3 : rest_same w1 w2 -> rest_same w2 w3 -> rest_same w1 w3.
Proof. intros [E1 E2] [F1 F2]. split; congruence. Qed.

Lemma put_rest c w w' : put_channel c w = Some w' -> rest_same w w'.
Proof. unfold put_channel. intros H. peel H. by injection H as <-. Qed.

Lemma resolve_rest pid h right w r w' : resolve_channel pid h right w = Some (r, w') -> rest_same w w'.
Proof.
  unfold resolve_channel. intros H. peel H. destruct v as [[[svc obj]|] c]; [|by injection H as _ <-].
  destruct (negb _); [by injection H as _ <-|]. peel H. by injection H as _ <-.
Qed.

Lemma receive_rest pid h out cap s w r s' w' :
  ipc_receive pid h out cap s w = Some (r, s', w') -> rest_same w w'.
Proof.
  unfold ipc_receive. intros H. peel H. destruct v as [c w1]. apply resolve_rest in Hv. eapply rest_trans; [exact Hv|]. clear Hv.
  destruct c as [c|]; [|by injection H as _ _ <-]. destruct out as [out|]; [|by injection H as _ _ <-].
  destruct (_ =? _); [by injection H as _ _ <-|]. peel H. destruct v as [m c1].
  destruct (_ <? _); [by injection H as _ _ <-|]. peel H. destruct v0 as [c2 s2]. peel H.
  injection H as _ _ <-. by apply put_rest in Hv2.
Qed.

Lemma create_rest pid nm n w h w' : ipc_create pid nm n w = Some (h, w') -> rest_same w w'.
Proof.
  unfold ipc_create. destruct nm as [nm|]; [|by intros [= _ <-]]. destruct (bad_name _ _); [by intros [= _ <-]|].
  intros H. peel H. destruct v; [by injection H as _ <-|]. destruct (list_find _ _) as [[i c0]|]; [|by injection H as _ <-].
  peel H. destruct v1 as [hh cp]. apply put_rest in Hv1. destruct (_ =? _); [|by injection H as _ <-].
  peel H. injection H as _ <-. eapply rest_trans; [exact Hv1|]. by eapply put_rest in Hv3.
Qed.

Lemma connect_rest pid nm n w h w' : ipc_connect pid nm n w = Some (h, w') -> rest_same w w'.
Proof.
  unfold ipc_connect. destruct nm as [nm|]; [|by intros [= _ <-]]. destruct (bad_name _ _); [by intros [= _ <-]|].
  intros H. peel H. destruct v; [|by injection H as _ <-]. peel H. destruct v as [hh cp]. by injection H as _ <-.
Qed.

Lemma wait_rest mux pid h a cap w b w' : ipc_wait_with mux pid h a cap w = Some (b, w') -> rest_same w w'.
Proof.
  unfold ipc_wait_with. intros H. peel H. destruct v as [c w1]. apply resolve_rest in Hv. eapply rest_trans; [exact Hv|]. clear Hv.
  destruct c as [c|]; [|by injection H as _ <-]. destruct (_ || _ || _); [by injection H as _ <-|]. peel H.
  injection H as _ <-. by apply put_rest in Hv.
Qed.

(** Nobody started to wait for input, and no event came or went. *)
Definition without_waiter (i : input_state) : input_state := set_waiter (IWaiter 0 0 false) i.
Definition input_kept (w w' : subsystems) : Prop :=
  (w'.(w_input).(Input.waiter).(iw_active) = true -> w'.(w_input).(Input.waiter) = w.(w_input).(Input.waiter)) /\
  without_waiter w'.(w_input) = without_waiter w.(w_input).
Lemma input_kept_same w w' : w'.(w_input) = w.(w_input) -> input_kept w w'.
Proof. by intros E; unfold input_kept; rewrite E. Qed.
Lemma input_kept_trans w1 w2 w3 : input_kept w1 w2 -> input_kept w2 w3 -> input_kept w1 w3.
Proof. intros [H1 E1] [H2 E2]. split; [|congruence]. intros Ha. specialize (H2 Ha). rewrite H2 in Ha |- *. auto. Qed.
Lemma input_kept_cancel p w : input_kept w (w_input_cancel p w).
Proof. unfold input_kept. cbn. unfold input_cancel_wait. by destruct (_ || _). Qed.
Lemma input_cancelled p w : (w_input_cancel p w).(w_input).(Input.waiter).(iw_active) = true ->
  (w_input_cancel p w).(w_input).(Input.waiter).(iw_pid) <> p.
Proof.
  cbn. unfold input_cancel_wait. destruct (w_input w) as [q r wi d u co [wp wa act]]. cbn [Input.waiter iw_active iw_pid].
  destruct act; cbn [negb orb]; [|done]. by destruct (Z.eqb_spec wp p).
Qed.

Lemma send_input pid h data n b s w r s' w' : ipc_send_impl pid h data n b s w = Some (r, s', w') -> input_kept w w'.
Proof.
  unfold ipc_send_impl. intros H. peel H. destruct v as [c w1]. apply resolve_rest in Hv as [_ E1].
  apply (input_kept_trans _ w1); [by apply input_kept_same|]. clear E1.
  destruct c as [c|]; [|by injection H as _ _ <-]. destruct data as [data|]; [|by injection H as _ _ <-].
  destruct (_ || _); [by injection H as _ _ <-|]. destruct (w_active _).
  - unfold deliver in H. peel H. apply put_rest in Hv as [_ E2]. apply (input_kept_trans _ v); [by apply input_kept_same|]. clear E2.
    set (w2 := if w_multiplex _ then _ else _) in H. apply (input_kept_trans _ w2).
    { unfold w2. destruct (w_multiplex _); [apply input_kept_cancel|done]. }
    clearbody w2. destruct (_ <? _); [by injection H as _ _ <-|]. peel H. destruct v0 as [ok m].
    destruct ok; cbn [negb] in H; [|by injection H as _ _ <-]. peel H. destruct v0 as [ok sx].
    destruct ok; cbn [negb] in H; by injection H as _ _ <-.
  - destruct (_ =? _); [destruct (_ || _); [by injection H as _ _ <-|]|];
      (peel H; apply put_rest in Hv0 as [_ E2]; injection H as _ _ <-; by apply input_kept_same).
Qed.

Lemma fail_waiter_input wt s w s' w' : fail_waiter wt s w = Some (s', w') -> input_kept w w'.
Proof.
  unfold fail_waiter. destruct (negb _); [by intros [= _ <-]|]. intros H. peel H. destruct v as [b s1]. injection H as _ <-.
  destruct (w_multiplex _); [apply input_kept_cancel|done].
Qed.
Lemma cleanup_channel_input p i s w s' w' : cleanup_channel p i (s, w) = Some (s', w') -> input_kept w w'.
Proof.
  unfold cleanup_channel. intros H. peel H. destruct (negb _); [by injection H as _ <-|].
  fold (without_pid p v) in H. set (cw := without_pid p v) in H. clearbody cw.
  peel H. destruct v0 as [[c1 s1] w1]. peel H. injection H as _ <-.
  destruct (owner cw =? p); [|injection Hv0 as _ _ <-; by apply input_kept_same].
  unfold close_channel in Hv0. peel Hv0. destruct v1 as [s2 w2]. peel Hv0. destruct v1 as [c2 s3].
  injection Hv0 as _ _ <-. apply (input_kept_trans _ w2); [by eapply fail_waiter_input|by apply input_kept_same].
Qed.
Lemma cleanup_input p s w s' w' : ipc_process_cleanup p s w = Some (s', w') ->
  input_kept w w' /\ (w'.(w_input).(Input.waiter).(iw_active) = true -> w'.(w_input).(Input.waiter).(iw_pid) <> p).
Proof.
  unfold ipc_process_cleanup. intros H.
  assert (input_kept (w_input_cancel p w) w') as Hk.
  { revert H. generalize (w_input_cancel p w) s. clear. change (16%nat) with (16%nat). generalize 16%nat 0. intros n. induction n as [|n IH]; intros i w s H; cbn [for_up] in H.
    - by injection H as _ <-.
    - peel H. destruct v as [s1 w1]. eapply input_kept_trans; [by eapply cleanup_channel_input|]. by eapply IH. }
  split; [eapply input_kept_trans; [apply input_kept_cancel|done]|].
  intros Ha. pose proof (proj1 Hk Ha) as E. rewrite E in Ha |- *. by apply input_cancelled.
Qed.

Lemma close_all_input p w w' : w_close_all p w = Some w' -> w'.(w_input) = w.(w_input).
Proof. unfold w_close_all. intros H. peel H. destruct v. by injection H as <-. Qed.

(** A waiter registers; the backlog stays. *)
Lemma wait_ok w pid h a cap mux :
  subsystems_wf w -> 0 <= h -> 0 <= pid ->
  exists b w', ipc_wait_with mux pid h a cap w = Some (b, w') /\ subsystems_wf w' /\ caps_kept w w' /\
    rest_same w w' /\ forall P, P pid a cap -> waiting P w -> waiting P w'.
Proof.
  intros Hw Hh Hp.
  assert (exists b w', ipc_wait_with mux pid h a cap w = Some (b, w') /\ subsystems_wf w' /\ caps_kept w w' /\
    forall P, P pid a cap -> waiting P w -> waiting P w') as (b & w' & E & ? & ? & ?);
    [|exists b, w'; split_and!; try done; by eapply wait_rest].
  unfold ipc_wait_with.
  destruct (resolve_channel_ok w pid h CAPABILITY_RIGHT_RECEIVE Hw Hh)
    as (r & w1 & E & Hw1 & Ei & (Hc & Hs & _) & Hr & Hsame).
  rewrite E. cbn [mbind option_bind]. destruct r as [c|]; [|exists false, w1; split_and!; try done; intros P _; apply waits_same; by rewrite Ei].
  rewrite (Hsame ltac:(done)) in *. destruct (_ || _ || _); [by exists false, w|].
  destruct (proj1 (Hr c) eq_refl) as (i & g & _ & _ & _ & _ & Hb & Hci & Ha).
  destruct (iw_channel _ (sw_ipc _ Hw) _ _ Hci Ha) as [q Hq].
  destruct (iw_pids _ (sw_ipc _ Hw) _ _ Hci) as [Hwp Hsp].
  destruct (put_channel_ok w i c (set_cwaiter (Waiter pid a cap true mux) c) q Hw Hb Hci eq_refl eq_refl eq_refl eq_refl
    (set_waiter_backlog _ _ _ Hq) Hp Hsp) as (w' & Ew & Hw' & (_ & Es & _) & Hels & Hci' & Ec & _).
  rewrite Ew. cbn [mbind option_bind]. exists true, w'. split; [done|]. split; [done|]. split; [by split; [|left]|].
  intros P HP Hall j cj Hj Haj Ha'. destruct (decide (j = i - 1)) as [->|Hne].
  - rewrite Hci' in Hj. by injection Hj as <-.
  - rewrite Hels in Hj by done. by apply (Hall j).
Qed.

Lemma cancel_sub_wf p w : subsystems_wf w -> subsystems_wf (w_ipc_cancel p w) .
Proof.
  intros [Hc Hi Hl Hm Hin]. split; cbn; try done; [by apply ipc_cancel_wait_wf|].
  intros q h g Hg Hs. destruct (Hl q h g Hg Hs) as [Hb Hr]. split; [done|]. intros Hrt.
  destruct (Hr Hrt) as (ch & Hch & Ha & Ho).
  assert (exists c', (ipc_cancel_wait p w.(w_ipc)).2.(channels).[g.(object_id) - 1] = Some c') as [c' Hc'].
  { apply aget_in. unfold ipc_cancel_wait. pose proof (cancel_wait_length p w.(w_ipc).(channels)) as Hlen.
    destruct (cancel_wait_in _ _) eqn:E. cbn in *. rewrite Hlen. by eapply aget_bound. }
  exists c'. split; [done|]. unfold ipc_cancel_wait in Hc'.
  destruct (cancel_wait_in p w.(w_ipc).(channels)) as [b l] eqn:E. cbn [snd channels set_channels] in Hc'.
  apply aget_Some in Hc' as [Hpos Hc']. replace l with (cancel_wait_in p w.(w_ipc).(channels)).2 in Hc' by by rewrite E.
  apply cancel_wait_channels in Hc' as (c0 & H0 & Hcase).
  apply aget_Some in Hch as [_ Hch]. rewrite Hch in H0. injection H0 as <-. by destruct Hcase as [->| ->].
Qed.

Lemma cancel_waits p w : waits_kept w (w_ipc_cancel p w).
Proof.
  intros P HP i c Hc Ha Hwa. cbn in Hc. unfold ipc_cancel_wait in Hc. destruct (cancel_wait_in p w.(w_ipc).(channels)) as [b l] eqn:E.
  cbn [snd channels set_channels] in Hc. apply aget_Some in Hc as [Hpos Hc].
  replace l with (cancel_wait_in p w.(w_ipc).(channels)).2 in Hc by by rewrite E.
  apply cancel_wait_channels in Hc as (c0 & H0 & Hcase).
  assert (Hc0 : w.(w_ipc).(channels).[i] = Some c0) by (by apply aget_Some).
  destruct Hcase as [-> | ->]; [by apply (HP i)|done].
Qed.

(** Any send keeps the invariant. *)
Lemma send_ok T w s pid h data n :
  subsystems_wf w -> waiting (buffer_ready T w.(w_memory)) w -> sched_core s -> 0 <= h -> 0 <= pid ->
  0 <= n <= Z.of_nat (length data) ->
  exists r s' w', ipc_send_block pid h (Some data) n s w = Some (r, s', w') /\ subsystems_wf w' /\
    woken s s' /\ caps_kept w w' /\ data_moved T w.(w_memory) w'.(w_memory) /\ waits_kept w w'.
Proof.
  intros Hw Hrec Hs Hh Hp Hn.
  assert (exists r s' w', ipc_send_block pid h (Some data) n s w = Some (r, s', w') /\ subsystems_wf w' /\ woken s s' /\
    data_moved T w.(w_memory) w'.(w_memory) /\ waits_kept w w')
    as (r & s' & w' & E & Hw' & Hwk & Hm & Hk); [|exists r, s', w'; eauto 10 using send_kept].
  destruct (resolve_channel_ok w pid h CAPABILITY_RIGHT_SEND Hw Hh) as (rc & w1 & Er & _ & _ & _ & Hr & Hsame).
  destruct rc as [c|]; [destruct (w_active (Ipc.waiter c)) eqn:Ea|].
  - unfold ipc_send_block, ipc_send_impl. rewrite Er. cbn [mbind option_bind]. rewrite (Hsame ltac:(done)).
    destruct ((n =? 0) || (IPC_MESSAGE_MAX <? n)); [exists 0, s, w; eauto 10 using woken_refl, data_moved_refl|]. rewrite Ea.
    destruct (proj1 (Hr c) eq_refl) as (i & g & _ & _ & _ & _ & Hb & Hci & Hac).
    destruct (iw_channel _ (sw_ipc _ Hw) _ _ Hci Hac) as [q Hq].
    destruct (deliver_ok T w s pid i c q data n Hw Hs Hp Hb Hci Hac Hq Hn (Hrec _ _ Hci Hac Ea)) as (r & s' & w' & -> & ? & ? & ? & ? & _).
    by exists r, s', w'.
  - destruct (send_pipe w s pid h data n Hw) as (r & w' & -> & ? & ? & Em & _); [|lia..|exists r, s, w'; rewrite Em; eauto 10 using woken_refl, data_moved_refl].
    intros i c' Hc'. assert (Some c = Some c') as [= <-] by (apply Hr; eauto). done.
  - destruct (send_pipe w s pid h data n Hw) as (r & w' & -> & ? & ? & Em & _); [|lia..|exists r, s, w'; rewrite Em; eauto 10 using woken_refl, data_moved_refl].
    intros i c' Hc'. discriminate (proj2 (Hr c') (ex_intro _ i Hc')).
Qed.

Inductive kernel_op :=
| KCreate (pid : Z) (nm : list Z) | KConnect (pid : Z) (nm : list Z)
| KSend (pid h : Z) (data : list Z) | KReceive (pid h cap : Z)
| KWait (pid h address cap : Z) (multiplex : bool) | KCancel (pid : Z) | KExit (pid : Z).

Definition kernel_op_ok (op : kernel_op) : Prop :=
  match op with
  | KCreate pid _ | KConnect pid _ | KCancel pid => 0 <= pid
  | KSend pid h _ | KWait pid h _ _ _ => 0 <= pid /\ 0 <= h
  | KReceive _ h _ => 0 <= h
  | KExit pid => 0 <= pid
  end.

(** The buffers of the waits an operation starts. *)
Definition op_waits (P : Z -> Z -> Z -> Prop) (op : kernel_op) : Prop :=
  match op with KWait pid _ a cap _ => P pid a cap | _ => True end.

Definition kernel_run (op : kernel_op) (s : sched) (w : subsystems) : option (sched * subsystems) :=
  match op with
  | KCreate pid nm => '(_, w) ← ipc_create pid (Some nm) (Z.of_nat (length nm)) w; Some (s, w)
  | KConnect pid nm => '(_, w) ← ipc_connect pid (Some nm) (Z.of_nat (length nm)) w; Some (s, w)
  | KSend pid h data => '(_, s, w) ← ipc_send_block pid h (Some data) (Z.of_nat (length data)) s w; Some (s, w)
  | KReceive pid h cap => '(_, s, w) ← ipc_receive pid h (Some (replicate 64 0)) cap s w; Some (s, w)
  | KWait pid h a cap mux => '(_, w) ← ipc_wait_with mux pid h a cap w; Some (s, w)
  | KCancel pid => Some (s, w_ipc_cancel pid w)
  | KExit pid => '(s, w) ← ipc_process_cleanup pid s w; w ← w_close_all pid w; Some (s, w)
  end.

Fixpoint kernel_runs (ops : list kernel_op) (s : sched) (w : subsystems) : option (sched * subsystems) :=
  match ops with
  | [] => Some (s, w)
  | op :: ops => '(s, w) ← kernel_run op s w; kernel_runs ops s w
  end.

Section runs.
Context (T : Z -> Prop) (pins : Z -> Z) (pins_nonneg : forall id, 0 <= pins id).

(** The invariant of the joint state; [T] holds the pages of the page tables. *)
Record kernel_wf (a : list Z) (s : sched) (w : subsystems) : Prop := {
  kw_subsystems : subsystems_wf w;
  kw_linked : linked pins a w.(w_caps) w.(w_surfaces);
  kw_sched : sched_core s;
  kw_waiting : waiting (buffer_ready T w.(w_memory)) w;
}.

Lemma kept_linked a w w' :
  linked pins a w.(w_caps) w.(w_surfaces) -> caps_kept w w' -> linked pins a w'.(w_caps) w'.(w_surfaces).
Proof. intros Hl [-> [-> | ->]]; [done|]. by apply linked_count. Qed.

(** Opening an IPC handle keeps the reference counts. *)
Lemma open_ipc_linked a c s pid ch rts h c' :
  linked pins a c s -> 0 <= pid -> capability_open_ipc pid ch rts c = Some (h, c') -> linked pins a c' s.
Proof.
  intros Hl Hp. unfold capability_open_ipc, kProcessLimit. pose proof (linked_count pins a c s 0 0 1 Hl) as Hd.
  destruct (_ || _ || _ || _ || _) eqn:E; [by intros [= _ <-]|]. b2p.
  destruct (assigned_ok c pid CAPABILITY_SERVICE_IPC (linked_caps _ _ _ _ Hl) ltac:(lia)) as [b ->].
  cbn [mbind option_bind]. destruct b; cbn [negb]; [|by intros [= _ <-]].
  destruct (allocate_plain_linked pins a c s pid CAPABILITY_SERVICE_IPC rts ch Hl ltac:(lia)) as (h' & c1 & -> & Hl1);
    [by left|]. by intros [= _ <-].
Qed.

Lemma create_linked_ipc a w pid nm n h w' :
  linked pins a w.(w_caps) w.(w_surfaces) -> 0 <= pid -> ipc_create pid nm n w = Some (h, w') ->
  linked pins a w'.(w_caps) w'.(w_surfaces).
Proof.
  intros Hl Hp. unfold ipc_create. destruct nm as [nm|]; [|by intros [= _ <-]].
  destruct (bad_name _ _); [by intros [= _ <-]|]. intros H. peel H. destruct v; [by injection H as _ <-|].
  destruct (list_find _ _) as [[i c0]|]; [|by injection H as _ <-]. peel H. destruct v1 as [hh cp].
  apply put_eq in Hv1 as [E1 E2]. rewrite <- E1, <- E2 in Hl. apply (open_ipc_linked a _ v0.(w_surfaces)) in Hv2; [|done..].
  destruct (_ =? _); [|by injection H as _ <-]. peel H. match goal with P : put_channel _ _ = Some _ |- _ => apply put_eq in P as [E3 E4] end. injection H as _ <-.
  by rewrite E3, E4.
Qed.

Lemma connect_linked a w pid nm n h w' :
  linked pins a w.(w_caps) w.(w_surfaces) -> 0 <= pid -> ipc_connect pid nm n w = Some (h, w') ->
  linked pins a w'.(w_caps) w'.(w_surfaces).
Proof.
  intros Hl Hp. unfold ipc_connect. destruct nm as [nm|]; [|by intros [= _ <-]].
  destruct (bad_name _ _); [by intros [= _ <-]|]. intros H. peel H. destruct v; [|by injection H as _ <-].
  peel H. destruct v as [hh cp]. injection H as _ <-. by eapply open_ipc_linked.
Qed.

(** What every operation leaves. *)
Record run_result (op : kernel_op) (w w' : subsystems) : Prop := {
  rr_memory : data_moved T w.(w_memory) w'.(w_memory);
  rr_input : input_kept w w';
  rr_waits : forall P, op_waits P op -> waiting P w -> waiting P w'
}.

Lemma kernel_wf_step a op s s' w w' :
  kernel_wf a s w -> op_waits (buffer_ready T w.(w_memory)) op -> subsystems_wf w' -> sched_core s' ->
  (exists a', linked pins a' w'.(w_caps) w'.(w_surfaces)) -> run_result op w w' ->
  exists a', kernel_wf a' s' w' /\ run_result op w w'.
Proof.
  intros [_ _ _ Hr] Hop Hw Hs [a' Hl] Hres. exists a'. split; [|done]. split; [done..|].
  destruct Hres as [Hm _ Hk]. intros i c Hc Ha Hwa. apply (moved_ready T w.(w_memory)); [done|]. by apply (Hk _ Hop Hr i c).
Qed.
Lemma same_result op w w' : rest_same w w' -> waits_kept w w' -> run_result op w w'.
Proof. intros [E1 E2] Hk. split; [rewrite E1; apply data_moved_refl|by apply input_kept_same|]. intros P _. apply Hk. Qed.

(** Every operation returns and keeps the invariant. *)
Lemma kernel_run_ok a s w op :
  kernel_wf a s w -> kernel_op_ok op -> op_waits (buffer_ready T w.(w_memory)) op ->
  exists a' s' w', kernel_run op s w = Some (s', w') /\ kernel_wf a' s' w' /\ woken s s' /\ run_result op w w'.
Proof.
  intros Hk Hok Hop. pose proof Hk as [Hw Hl Hs Hr].
  assert (exists s' w', kernel_run op s w = Some (s', w') /\ subsystems_wf w' /\ woken s s' /\
    (exists a', linked pins a' w'.(w_caps) w'.(w_surfaces)) /\ run_result op w w') as (s' & w' & E & H1 & H2 & H3 & H4).
  2: { destruct (kernel_wf_step a op s s' w w' Hk Hop H1 (woken_preserves _ _ Hs H2) H3 H4) as (a' & ? & ?). by exists a', s', w'. }
  destruct op; cbn [kernel_run kernel_op_ok op_waits] in *.
  - destruct (create_ok w pid nm (Z.of_nat (length nm)) Hw Hok ltac:(lia)) as (h & w' & E & ? & _ & _ & _ & ? & _).
    pose proof (create_rest _ _ _ _ _ _ E) as Em. rewrite E. exists s, w'. split_and!; try done; [apply woken_refl|exists a; by eapply create_linked_ipc|by apply same_result].
  - destruct (connect_ok w pid nm (Z.of_nat (length nm)) Hw Hok ltac:(lia)) as (h & w' & E & ? & Ei & _).
    pose proof (connect_rest _ _ _ _ _ _ E) as Em. rewrite E. exists s, w'. split_and!; try done; [apply woken_refl|exists a; by eapply connect_linked|].
    apply same_result; [done|]. apply waits_same. by rewrite Ei.
  - destruct (send_ok T w s pid h data (Z.of_nat (length data)) Hw Hr Hs ltac:(lia) ltac:(lia) ltac:(lia))
      as (r & s' & w' & E & ? & ? & ? & ? & Hkept).
    unfold ipc_send_block in E. pose proof (send_input pid h (Some data) _ true s w r s' w' E) as Hin. fold (ipc_send_block pid h (Some data) (Z.of_nat (length data)) s w) in E. rewrite E. exists s', w'. split_and!; try done; [exists a; by eapply kept_linked|].
    split; [done|done|]. intros P _. apply Hkept.
  - destruct (receive_pipe w s pid h (replicate 64 0) cap Hw Hs Hok eq_refl) as (r & s' & w' & E & ? & ? & ? & _).
    pose proof (receive_rest _ _ _ _ _ _ _ _ _ E) as Em. rewrite E. exists s', w'.
    split_and!; try done; [exists a; eapply kept_linked; [done|by eapply receive_kept]|by apply same_result].
  - destruct (wait_ok w pid h address cap multiplex Hw ltac:(lia) ltac:(lia)) as (b & w' & E & ? & ? & Em & Hwait).
    rewrite E. exists s, w'. split_and!; try done; [apply woken_refl|exists a; by eapply kept_linked|].
    split; [rewrite (proj1 Em); apply data_moved_refl|by apply input_kept_same, Em|done].
  - exists s, (w_ipc_cancel pid w). split_and!; try done; [by apply cancel_sub_wf|apply woken_refl|by exists a|].
    apply same_result; [by split|apply cancel_waits].
  - assert (exists s' w1 w' a', ipc_process_cleanup pid s w = Some (s', w1) /\ w_close_all pid w1 = Some w' /\ subsystems_wf w' /\
      linked pins a' w'.(w_caps) w'.(w_surfaces) /\ woken s s' /\ w'.(w_memory) = w.(w_memory) /\ waits_kept w w')
      as (s' & w1 & w' & a' & E1 & E2 & ? & ? & ? & Em & Hk2).
    { assert (1 <= pid < 8 \/ ~ 1 <= pid < 8) as [Hb|Hb] by lia.
      - destruct (process_exit_ok pins pins_nonneg a pid s w Hw Hl Hs Hb) as (s' & w1 & w' & a' & ? & ? & ? & ? & ? & ? & ? & _). by exists s', w1, w', a'.
      - destruct (stray_exit_ok pid s w Hw Hs Hok Hb) as (s' & w1 & w' & ? & ? & ? & Ec & Es & ? & ? & ?). exists s', w1, w', a. by rewrite Ec, Es. }
    apply cleanup_input in E1 as Hin. assert (w'.(w_input) = w1.(w_input)) as Ein by (by eapply close_all_input).
    rewrite E1. cbn [mbind option_bind]. rewrite E2. exists s', w'.
    split_and!; try done; [by exists a'|].
    split; [rewrite Em; apply data_moved_refl|unfold input_kept; rewrite Ein; apply Hin|].
    intros P _. apply Hk2.
Qed.

Lemma kernel_runs_ok ops : forall a s w,
  kernel_wf a s w -> Forall kernel_op_ok ops -> Forall (op_waits (buffer_ready T w.(w_memory))) ops ->
  exists a' s' w', kernel_runs ops s w = Some (s', w') /\ kernel_wf a' s' w' /\ data_moved T w.(w_memory) w'.(w_memory).
Proof.
  induction ops as [|op ops IH]; intros a s w Hk Hok Hop; cbn [kernel_runs]; [by exists a, s, w; eauto using data_moved_refl|].
  inversion_clear Hok. inversion_clear Hop. destruct (kernel_run_ok a s w op Hk) as (a1 & s1 & w1 & -> & Hk1 & _ & [Hm1 _ _]); [done..|].
  cbn [mbind option_bind]. destruct (IH a1 s1 w1 Hk1) as (a' & s' & w' & E & Hk' & Hm'); [done| |].
  - match goal with H : Forall (op_waits _) ops |- _ => revert H end. apply Forall_impl.
    intros [] Hx; try exact Hx. cbn [op_waits] in *. by apply (moved_ready T w.(w_memory)).
  - exists a', s', w'. split; [done|]. split; [done|]. by eapply data_moved_trans.
Qed.
End runs.
