(* ===== verification/NewHandles.v ===== *)
(** Which calls open a handle on an object of which service: a channel only by
    creating it or connecting to it, a file only by opening it. *)

From S2P Require Import Prelude Surface SurfaceSpec Capability CapabilitySpec Ipc Kernel KernelSpec.

(** Every handle of [c'] is one of [c] or satisfies [Q]. *)
Definition opened (Q : capability_payload -> Prop) (c c' : caps) : Prop :=
  forall p h g, holds c' p h g -> holds c p h g \/ Q g.
Definition nothing : capability_payload -> Prop := fun _ => False.

Lemma opened_refl Q c : opened Q c c.
Proof. intros p h g Hg. by left. Qed.
Lemma opened_trans Q c1 c2 c3 : opened Q c1 c2 -> opened Q c2 c3 -> opened Q c1 c3.
Proof. intros H1 H2 p h g Hg. destruct (H2 p h g Hg); [auto|by right]. Qed.
Lemma opened_weaken (Q R : capability_payload -> Prop) c c' : (forall g, Q g -> R g) -> opened Q c c' -> opened R c c'.
Proof. intros H Ho p h g Hg. destruct (Ho p h g Hg); auto. Qed.
Lemma opened_deny Q c : opened Q c (deny c).
Proof. intros p h g Hg. by left. Qed.
Lemma opened_moved Q c c' : c' = c \/ c' = deny c -> opened Q c c'.
Proof. intros [-> | ->]; [apply opened_refl|apply opened_deny]. Qed.
#[local] Hint Resolve opened_refl opened_deny : core.

Definition not_ipc (g : capability_payload) : Prop := g.(service) <> CAPABILITY_SERVICE_IPC.
Lemma opened_linked c c' i : opened not_ipc c c' -> ipc_linked c i -> ipc_linked c' i.
Proof. intros Hn Hl p h g Hg Hs. destruct (Hn p h g Hg); [by apply (Hl p h g)|done]. Qed.

Lemma allocate_opens c pid svc rts obj h c' :
  caps_wf c -> 0 <= pid < 8 -> allocate_slot pid svc rts obj c = Some (h, c') ->
  opened (eq (Cap svc rts obj)) c c' /\ caps_wf c'.
Proof.
  intros Hc Hp E. destruct (allocate_slot_ok c pid svc rts obj Hc Hp) as (h0 & c0 & E0 & Hcase).
  rewrite E in E0. injection E0 as <- <-. destruct Hcase as [[_ ->]|(slot & gen & pl & Hsl & Hg & Hat & _ & _ & ->)].
  { split; [apply opened_deny|by apply count_wf]. }
  split; [|by apply count_wf, put_wf]. intros p k g (s2 & g2 & Hp2 & Hs2 & Ek & Hat2).
  rewrite slot_count, slot_put in Hat2 by done. destruct (decide _); [injection Hat2 as _ <-; by right|]. left. by exists s2, g2.
Qed.

Lemma close_opens Q c s pid slot b c' s' : caps_wf c -> close_slot pid slot c s = Some (b, c', s') -> opened Q c c' /\ caps_wf c'.
Proof.
  intros Hc E. destruct (slot_at c pid slot) as [e|] eqn:He.
  2: { unfold close_slot in E. unfold slot_at in He. peel E. cbn in He. unfold release in E. rewrite He in E.
       cbn in E. injection E as _ <- _. by split. }
  destruct (slot_bounds _ _ _ _ Hc He) as [Hp Hs]. destruct (open e) eqn:Ho.
  - rewrite (close_slot_eq c s pid slot e Hc He Ho) in E.
    assert (c' = closed_at c pid slot) as ->.
    { destruct (_ && _); [peel E; by destruct v; injection E|by injection E]. }
    split; [|by apply closed_wf]. intros p h g (s2 & g2 & Hp2 & Hs2 & Eh & Hat). rewrite (slot_closed c pid slot e) in Hat by done.
    destruct (decide _); [done|]. left. by exists s2, g2.
  - unfold close_slot in E. unfold slot_at in He. peel E. cbn in He. unfold release in E. rewrite He in E.
    cbn in E. rewrite Ho in E. injection E as _ <- _. by split.
Qed.

Lemma resolve_caps c pid h right r c' : capability_resolve_object pid h right c = Some (r, c') -> c' = c \/ c' = deny c.
Proof.
  unfold capability_resolve_object. destruct (decode_handle h) as [[[o sl] g]|]; [|intros [= _ <-]; by right].
  destruct (negb _); [intros [= _ <-]; by right|]. intros H. peel H.
  destruct (resolve_slot _ _ _); [|injection H as _ <-; by right].
  destruct (negb _); injection H as _ <-; [by right|by left].
Qed.
Lemma moved_wf c c' : caps_wf c -> c' = c \/ c' = deny c -> caps_wf c'.
Proof. intros Hc [-> | ->]; [done|by apply count_wf]. Qed.

Lemma surface_slot_opens c s pid rts id h c' s' :
  caps_wf c -> 0 <= pid < 8 -> allocate_surface_slot pid rts id c s = Some (h, c', s') ->
  opened (fun g => g = Cap CAPABILITY_SERVICE_SURFACE rts id /\ id <> 0) c c'.
Proof.
  intros Hc Hp. unfold allocate_surface_slot. intros H. peel H. destruct v as [ok s1].
  destruct ok; cbn [negb] in H; [|injection H as _ <- _; apply opened_deny]. peel H. destruct v as [hh c1].
  apply allocate_opens in Hv0 as [Hn _]; [|done..].
  assert (id <> 0) as Hid by (intros ->; unfold surface_retain, resolve in Hv; cbn in Hv; by injection Hv).
  apply (opened_weaken _ (fun g => g = Cap CAPABILITY_SERVICE_SURFACE rts id /\ id <> 0)) in Hn; [|intros g Hg; split; [by symmetry|exact Hid]].
  destruct (_ =? _); [peel H; destruct v|]; by injection H as _ <- _.
Qed.

(** What a call may open. *)
Definition opens (op : cap_op) (g : capability_payload) : Prop :=
  match op with
  | CapOpen _ svc => g = Cap svc (service_rights svc) 0 /\ service_rights svc <> 0
  | CapOpenFile _ obj => g = Cap CAPABILITY_SERVICE_FILE (Z.lor (Z.lor CAPABILITY_RIGHT_READ CAPABILITY_RIGHT_WRITE) CAPABILITY_RIGHT_QUERY) obj
  | CapOpenIpc _ ch rts => g = Cap CAPABILITY_SERVICE_IPC rts ch
  | CapOpenSurface _ id rts => g = Cap CAPABILITY_SERVICE_SURFACE rts id /\ id <> 0
  | CapGrant _ _ _ rts => exists id, g = Cap CAPABILITY_SERVICE_SURFACE rts id /\ id <> 0
  | _ => False
  end.

Lemma close_step_opens Q pid slot c s c' s' : caps_wf c -> close_step pid slot (c, s) = Some (c', s') -> opened Q c c' /\ caps_wf c'.
Proof.
  intros Hc. unfold close_step. intros H. peel H. destruct (negb _); [injection H as <- _; by split|]. peel H.
  destruct v0 as [[b c1] s1]. injection H as <- _. by eapply close_opens.
Qed.

Lemma close_all_opens Q pid c s c' s' : caps_wf c -> capabilities_close_all pid c s = Some (c', s') -> opened Q c c'.
Proof.
  intros Hc. unfold capabilities_close_all. destruct (_ || _); [intros [= <- _]; apply opened_refl|]. intros H. peel H. destruct v as [c1 s1]. peel H. injection H as <- _.
  assert (Hx : forall n i c s c1 s1, caps_wf c -> for_up n i (close_step pid) (c, s) = Some (c1, s1) -> opened Q c c1).
  { clear. induction n as [|n IH]; intros i c s c1 s1 Hc H; cbn [for_up] in H; [injection H as <- _; apply opened_refl|]. peel H. destruct v as [c2 s2].
    apply (close_step_opens Q) in Hv as [H1 H2]; [|done]. eapply opened_trans; [exact H1|by eapply IH]. }
  intros p h g Hg. exact (Hx _ _ _ _ _ _ Hc Hv p h g Hg).
Qed.

(** Every handle after a call was there before or is the one the call opens. *)
Lemma cap_run_opens op c s c' s' :
  caps_wf c -> cap_op_ok op -> cap_run op c s = Some (c', s') -> opened (opens op) c c'.
Proof.
  intros Hc Hok. destruct op; cbn [cap_run cap_op_ok] in *; intros H; [peel H..|].
  - destruct v as [b c1]. injection H as <- _. unfold capability_assign_services in Hv.
    destruct (_ || _); [by injection Hv as _ <-|]. peel Hv. injection Hv as _ <-. intros p h g Hg. by left.
  - destruct v as [h c1]. injection H as <- _. revert Hv. unfold capability_open, kProcessLimit.
    destruct (_ || _ || _) eqn:E; [by intros [= _ <-]|]. b2p. intros X. peel X. destruct v; cbn [negb] in X; [|by injection X as _ <-].
    apply allocate_opens in X as [X _]; [|done|lia]. eapply opened_weaken; [|exact X]. by intros g <-.
  - destruct v as [h c1]. injection H as <- _. revert Hv. unfold capability_open_file, kProcessLimit.
    destruct (_ || _ || _) eqn:E; [by intros [= _ <-]|]. b2p. intros X. apply allocate_opens in X as [X _]; [|done|lia].
    eapply opened_weaken; [|exact X]. by intros g <-.
  - destruct v as [h c1]. injection H as <- _. revert Hv. unfold capability_open_ipc, kProcessLimit.
    destruct (_ || _ || _ || _ || _) eqn:E; [by intros [= _ <-]|]. b2p. intros X. peel X. destruct v; cbn [negb] in X; [|by injection X as _ <-].
    apply allocate_opens in X as [X _]; [|done|lia]. eapply opened_weaken; [|exact X]. by intros g <-.
  - destruct v as [[h c1] s1]. injection H as <- _. revert Hv. unfold capability_open_surface, kProcessLimit.
    destruct (_ || _ || _ || _ || _) eqn:E; [by intros [= _ <- _]|]. b2p. intros X. peel X.
    destruct v; cbn [negb] in X; [|by injection X as _ <- _]. by apply surface_slot_opens in X; [|done|lia].
  - destruct v as [[h1 c1] s1]. injection H as <- _. revert Hv. unfold capability_grant, kProcessLimit.
    destruct (_ || _ || _) eqn:E; [by intros [= _ <- _]|]. b2p. intros X. peel X. destruct v as [r c2].
    apply resolve_caps in Hv. eapply opened_trans; [by apply opened_moved|]. pose proof (moved_wf _ _ Hc Hv) as Hc2.
    destruct r as [[svc obj]|]; [|by injection X as _ <- _].
    destruct (_ || _); [by injection X as _ <- _|]. peel X. destruct v; cbn [negb] in X; [|by injection X as _ <- _].
    apply surface_slot_opens in X; [|done|lia]. eapply opened_weaken; [|exact X]. intros g Hg. by exists obj.
  - destruct v as [r c1]. injection H as <- _. unfold capability_resolve in Hv. peel Hv. destruct v as [r1 c2].
    injection Hv as _ <-. apply resolve_caps in Hv0. by apply opened_moved.
  - destruct v as [[b c1] s1]. injection H as <- _. revert Hv. unfold capability_close, capability_resolve. intros H. peel H.
    destruct v as [r c2]. peel Hv. destruct v as [r1 c3]. injection Hv as <- <-. apply resolve_caps in Hv0.
    eapply opened_trans; [by apply opened_moved|]. pose proof (moved_wf _ _ Hc Hv0) as Hc2.
    destruct r1 as [[]|]; [|by injection H as _ <- _]. by eapply close_opens in H as [H _].
  - by eapply close_all_opens.
Qed.

(** The capability calls a process can make, and the assignment of services. *)
Definition plain_cap_op (op : cap_op) : Prop :=
  match op with CapOpenIpc _ _ _ | CapCloseAll _ => False | _ => True end.
Lemma plain_opens op g : plain_cap_op op -> opens op g -> not_ipc g.
Proof.
  destruct op; cbn; try done; unfold not_ipc.
  - intros _ [-> H]. cbn. by intros ->.
  - by intros _ ->.
  - by intros _ [-> _].
  - by intros _ (x & -> & _).
Qed.
