(* ===== verification/KernelMemory.v ===== *)
(** The joint invariant of the kernel's subsystems: message passing, capabilities,
    surfaces and physical memory at once. Every capability call, message and
    memory call keeps it, and the release of a process returns all it held; so the
    subsystems implement the interface the scheduler's invariant is proved
    against. *)

From stdpp Require Import gmap.
From S2P Require Import Prelude Surface SurfaceSpec Capability CapabilitySpec Input InputSpec Ipc IpcSpec UserMemory UserMemorySpec.
From S2P Require Import PhysicalMemory FramePool FrameOwnership AnonymousSpec FrameInvariant SurfaceMapSpec MemoryInvariant SurfaceMapping UserAccess.
From S2P Require Import Scheduler SchedulerSpec Kernel KernelSpec ProcessExit NewHandles.

(** ** The joint invariant *)

(** The buffer a process gave passed the check of its own memory. *)
Definition accepted (m : user_memory) (pid a n : Z) : Prop :=
  1 <= pid < 8 -> m.(process_memory_used).[pid] = Some true -> user_write_range pid a n m = Some true.

(** [P] holds of the buffers of all waiting processes. *)
Definition all_waiting (P : Z -> Z -> Z -> Prop) (w : subsystems) : Prop :=
  waiting P w /\ (w.(w_input).(Input.waiter).(iw_active) = true ->
    P w.(w_input).(Input.waiter).(iw_pid) w.(w_input).(Input.waiter).(iw_address) EVENT_BYTES).
Definition not_waiting (pid : Z) (w : subsystems) : Prop := all_waiting (fun q _ _ => q <> pid) w.

(** [frames] are the frames of the allocator's region. *)
Record kernel_ok (frames : list Z) (w : subsystems) : Prop := {
  ko_subsystems : subsystems_wf w;
  ko_memory : exists a L g, mem_ok frames a w.(w_caps) w.(w_surfaces) w.(w_memory) L g;
  ko_waiting : all_waiting (accepted w.(w_memory)) w;
  ko_input : exists q, input_rel w.(w_input) q
}.

Lemma all_waiting_impl (P Q : Z -> Z -> Z -> Prop) w :
  (forall pid a n, P pid a n -> Q pid a n) -> all_waiting P w -> all_waiting Q w.
Proof. intros H [H1 H2]. split; [intros i c Hc Ha Hw; by apply H, (H1 i)|]. auto. Qed.
Lemma all_waiting_kept P w w' : waits_kept w w' -> input_kept w w' -> all_waiting P w -> all_waiting P w'.
Proof.
  intros Hk [Hi _] [H1 H2]. split; [by apply Hk|]. intros Ha. pose proof (Hi Ha) as E. rewrite E in Ha |- *. auto.
Qed.

Lemma events_kept w w' : input_kept w w' -> (exists q, input_rel w.(w_input) q) -> exists q, input_rel w'.(w_input) q.
Proof.
  intros [_ E] (q & [H1 H2 H3]). exists q. destruct (w_input w), (w_input w'). injection E as -> -> -> -> -> ->. by split.
Qed.

Lemma accepted_ready frames m L g pid a n :
  frames_inv frames m L g -> accepted m pid a n -> buffer_ready (not_data m g) m pid a n.
Proof.
  intros Hi Ha Hp Hu. destruct (aget_in m.(process_memory) pid) as [p Hpm]; [rewrite (ma_process _ (fi_arrays _ _ _ _ Hi)); lia|].
  destruct (aget_in g pid) as [o Ho]; [rewrite (fi_owners _ _ _ _ Hi); lia|].
  apply (range_buffer frames m L g Hi pid p Hp Hpm o); auto.
Qed.
Lemma moved_accepted T m m' pid a n : data_moved T m m' -> accepted m pid a n -> accepted m' pid a n.
Proof. by intros (pg & -> & _). Qed.

Lemma kernel_ok_wf frames w s : kernel_ok frames w -> sched_core s ->
  exists a L g, mem_ok frames a w.(w_caps) w.(w_surfaces) w.(w_memory) L g /\
    kernel_wf (not_data w.(w_memory) g) (pins_of w.(w_memory)) a s w.
Proof.
  intros [Hw (a & L & g & Hm) [Hwt _] _] Hs. exists a, L, g. split; [done|]. split; [done|apply Hm|done|].
  intros i c Hc Ha Hwa. eapply accepted_ready; [apply Hm|]. by apply (Hwt i).
Qed.

Lemma pins_nonneg_of m : forall id, 0 <= pins_of m id.
Proof. intros id. apply pins_of_nonneg. Qed.

Lemma mem_moved frames a c s m m' L g : data_moved (not_data m g) m m' -> mem_ok frames a c s m L g -> mem_ok frames a c s m' L g.
Proof.
  intros (pg & -> & Hs) [H1 H2 H3]. split; [by apply frames_data|done|done].
Qed.
Lemma mem_linked frames a a' c c' s s' m L g :
  mem_ok frames a c s m L g -> linked (pins_of m) a' c' s' -> mem_ok frames a' c' s' m L g.
Proof. intros [H1 _ H3] H. by split. Qed.

(** The slots are as they were, and the free ones hold no large executable they did not hold. *)
Definition homes_kept (m m' : user_memory) : Prop :=
  m'.(process_memory_used) = m.(process_memory_used) /\ m'.(process_memory) = m.(process_memory) /\
  forall q, m.(process_memory_used).[q] = Some false -> m'.(large_code_page_table).[q] = m.(large_code_page_table).[q].

Lemma homes_refl m : homes_kept m m.
Proof. done. Qed.
Lemma homes_trans m1 m2 m3 : homes_kept m1 m2 -> homes_kept m2 m3 -> homes_kept m1 m3.
Proof.
  intros (U1 & P1 & L1) (U2 & P2 & L2). split; [congruence|]. split; [congruence|]. intros q Hq. rewrite L2 by congruence. by apply L1.
Qed.
Lemma homes_moved T m m' : data_moved T m m' -> homes_kept m m'.
Proof. by intros (pg & -> & _). Qed.
Lemma homes_others pid m m' : m.(process_memory_used).[pid] = Some true -> others_same pid m m' -> homes_kept m m'.
Proof. intros Hu []. split; [done|]. split; [done|]. intros q Hq. apply os_ltable. intros ->. congruence. Qed.

(** *** Messages *)

(** Every message call returns and keeps the joint invariant, when the buffer of a
    wait has passed the check. *)
Lemma message_ok frames op s w :
  kernel_ok frames w -> sched_core s -> kernel_op_ok op -> op_waits (accepted w.(w_memory)) op ->
  exists s' w', kernel_run op s w = Some (s', w') /\ kernel_ok frames w' /\ woken s s' /\ homes_kept w.(w_memory) w'.(w_memory).
Proof.
  intros Hk Hs Hok Hop. destruct (kernel_ok_wf frames w s Hk Hs) as (a & L & g & Hm & Hkw).
  destruct (kernel_run_ok _ _ (pins_nonneg_of _) a s w op Hkw Hok) as (a' & s' & w' & E & [H1 H2 H3 _] & Hwk & [Hmv Hin Hwt]).
  { destruct op; try exact Hop. by eapply accepted_ready; [apply Hm|]. }
  exists s', w'. split; [done|]. split; [|split; [done|by eapply homes_moved]]. split; [done| | |by eapply events_kept, Hk].
  - exists a', L, g. apply (mem_moved _ _ _ _ w.(w_memory)); [done|]. by eapply mem_linked.
  - destruct (ko_waiting _ _ Hk) as [W1 W2]. apply (all_waiting_impl (accepted w.(w_memory))); [intros q x n; by apply (moved_accepted _ _ _ q x n Hmv)|].
    split; [by apply Hwt|]. intros Ha. pose proof (proj1 Hin Ha) as E1. rewrite E1 in Ha |- *. auto.
Qed.

(** *** Capabilities and surfaces *)

Lemma capability_ok frames op w :
  kernel_ok frames w -> cap_op_ok op -> plain_cap_op op ->
  exists c s, cap_run op w.(w_caps) w.(w_surfaces) = Some (c, s) /\ kernel_ok frames (set_surfaces s (set_caps c w)).
Proof.
  intros [[W1 W2 W3 W4 W5] (a & L & g & Hm) Hwt Hev] Hok Hp.
  destruct (cap_run_ok _ (pins_nonneg_of _) a _ _ op (mo_linked _ _ _ _ _ _ _ Hm) Hok) as (a' & c & s & E & Hl).
  exists c, s. split; [done|]. split; [|exists a', L, g; by eapply mem_linked|exact Hwt|exact Hev].
  split; cbn; try done; [by eapply linked_caps|]. eapply opened_linked; [|done].
  eapply opened_weaken; [|by eapply cap_run_opens]. intros g0. by apply plain_opens.
Qed.

Lemma linked_same_references pins a a' c s s' :
  linked pins a c s -> surf_wf a' s' -> same_references s s' -> linked pins a' c s'.
Proof.
  intros [H1 H2 H3 H4] Hw Hs. split; try done. intros id o' Hid Ho'. destruct (Hs _ _ Ho') as (o & Ho & ->). by apply H3.
Qed.

(** The surface operations that open and close no handle. *)
Lemma surface_ok frames op w :
  kernel_ok frames w -> surface_op_ok op -> match op with OpRetain _ | OpRelease _ => False | _ => True end ->
  exists s, surface_run op w.(w_surfaces) = Some s /\ kernel_ok frames (set_surfaces s w).
Proof.
  intros [[W1 W2 W3 W4 W5] (a & L & g & Hm) Hwt Hev] Hok Hp. pose proof (mo_linked _ _ _ _ _ _ _ Hm) as Hl.
  destruct (surface_run_ok a _ op (linked_surf _ _ _ _ Hl) Hok) as (a' & s & E & Hw).
  assert (exists a2, linked (pins_of w.(w_memory)) a2 w.(w_caps) s) as (a2 & Hl2).
  { assert (keeps_references op -> exists a2, linked (pins_of w.(w_memory)) a2 w.(w_caps) s) as Hkeep.
    { intros Hk. exists a'. eapply linked_same_references; [exact Hl|exact Hw|]. by apply (surface_run_references op). }
    destruct op; try done; try by apply Hkeep.
    exists a. cbn [surface_run surface_op_ok] in *. apply fmap_Some in E as ([r s1] & E & ->). destruct Hok as (H1 & H2 & H3).
    by apply (create_linked _ _ _ _ _ _ _ _ _ (pins_nonneg_of _) Hl H1 H2 H3 E). }
  exists s. split; [done|]. split; [by split|by exists a2, L, g; eapply mem_linked|exact Hwt|exact Hev].
Qed.

(** *** Input *)

(** New contents of the input queue, with the waiter as it was or registered with a
    buffer that passed the check. *)
Lemma input_ok frames i w :
  kernel_ok frames w -> (exists q, input_rel i q) -> 0 <= i.(Input.waiter).(iw_pid) ->
  (i.(Input.waiter).(iw_active) = true -> accepted w.(w_memory) i.(Input.waiter).(iw_pid) i.(Input.waiter).(iw_address) EVENT_BYTES) ->
  kernel_ok frames (set_input i w).
Proof.
  intros [[W1 W2 W3 W4 W5] Hm [Hwt _] _] Hq Hp Ha. split; [by split|done|by split|done].
Qed.
Lemma waiter_accepted frames w : kernel_ok frames w -> w.(w_input).(Input.waiter).(iw_active) = true ->
  accepted w.(w_memory) w.(w_input).(Input.waiter).(iw_pid) w.(w_input).(Input.waiter).(iw_address) EVENT_BYTES.
Proof. intros Hk. apply (ko_waiting _ _ Hk). Qed.

(** *** Physical memory *)

Lemma range_others pid q a n m m' : others_same pid m m' -> q <> pid -> user_write_range q a n m' = user_write_range q a n m.
Proof.
  intros [O1 O2 O3 O4 O5 O6 O7 O8 O9 O10] Hq. unfold user_write_range, anonymous_range. by rewrite O1, O3, O4, O6.
Qed.

Lemma memory_ok frames w a m s L g pid :
  kernel_ok frames w -> not_waiting pid w -> mem_ok frames a w.(w_caps) s m L g -> others_same pid w.(w_memory) m ->
  kernel_ok frames (set_surfaces s (set_memory m w)).
Proof.
  intros [[W1 W2 W3 W4 W5] _ Hwt Hev] Hn Hm Hos. split; [|by exists a, L, g| |exact Hev].
  - split; cbn; try done. apply Hm.
  - assert (Hr : forall q a n, q <> pid -> accepted w.(w_memory) q a n -> accepted m q a n).
    { intros q x n Hq Ha Hp Hu. rewrite (range_others pid q x n w.(w_memory)) by done. apply Ha; [done|]. by rewrite <- (os_used _ _ _ Hos). }
    destruct Hwt as [H1 H2], Hn as [N1 N2]. split.
    + intros i c Hc Ha Hwa. apply Hr; [by apply (N1 i)|by apply (H1 i)].
    + intros Ha. apply Hr; auto.
Qed.

(** Storing data in pages of the processes. *)
Lemma data_ok frames w u ar L g : kernel_ok frames w -> mem_ok frames ar w.(w_caps) w.(w_surfaces) w.(w_memory) L g ->
  data_moved (not_data w.(w_memory) g) w.(w_memory) u -> kernel_ok frames (set_memory u w).
Proof.
  intros [[W1 W2 W3 W4 W5] _ [H1 H2] Hev] Hm Hd. split; [| | |exact Hev].
  - split; try done. by eapply moved_arrays.
  - exists ar, L, g. by eapply mem_moved.
  - split; cbn; [intros i c Hc Ha Hw|intros Ha]; eapply moved_accepted; eauto.
Qed.

(** *** The death of a process *)

Lemma set_used_ok frames a c s m L g u :
  mem_ok frames a c s m L g -> length u = 8%nat -> (forall i : nat, u !! i = Some true -> m.(process_memory_used) !! i = Some true) ->
  mem_ok frames a c s (set_used u m) L g.
Proof.
  intros [[[A1 A2 A3 A4] H2 H3 H4 H5 H6 H7 H8 H9 (ts & [S1 S2 S3 S4 S5])] Hl Hi] Hu Hsub. split; [|done|done].
  split; try done; try (by split); [by destruct H4 as [(F & HF) ? ?]; split; [exists F|..]| |].
  - intros q o Hp Ho. destruct (H5 q o Hp Ho) as (d & Hd & [O1 O2 O3 [L1 L2 L3 L4 L5] [Q1 Q2 Q3] O6]).
    exists d. split; [done|]. by split.
  - exists ts. split; try done. intros i p t Hp Ht. destruct (S5 i p t Hp Ht) as (G1 & G2 & G3).
    split; [done|]. split; [done|]. intros Hx. by apply G3, Hsub.
Qed.

Lemma range_used q a n u m : u.[q] = m.(process_memory_used).[q] -> user_write_range q a n (set_used u m) = user_write_range q a n m.
Proof. intros E. unfold user_write_range. cbn [process_memory_used set_used]. by rewrite E. Qed.

(** The whole release: it returns, wakes who waited on the dead process's channels,
    keeps the invariant, and leaves the process without a handle or a frame. *)
Lemma release_process_ok frames pid s w :
  kernel_ok frames w -> sched_core s -> 1 <= pid < 8 ->
  exists s' w', userspace_release_process pid s w = Some (s', w') /\ woken s s' /\ kernel_ok frames w' /\
    (forall h g, ~ holds w'.(w_caps) pid h g) /\
    (exists a L g, mem_ok frames a w'.(w_caps) w'.(w_surfaces) w'.(w_memory) L g /\ g.[pid] = Some no_frames) /\
    not_waiting pid w' /\
    exists m, others_same pid w.(w_memory) m /\
      w'.(w_memory) = set_used (<[Z.to_nat pid := false]> w.(w_memory).(process_memory_used)) m.
Proof.
  intros Hk Hs Hpid. pose proof Hk as [Hw (a & L & g & Hm) Hwt Hev]. unfold userspace_release_process.
  rewrite (proj2 (bad_pid_spec pid ltac:(lia))) by lia.
  destruct (process_exit_ok _ (pins_nonneg_of _) a pid s w Hw (mo_linked _ _ _ _ _ _ _ Hm) Hs Hpid)
    as (s1 & w1 & w2 & a1 & E1 & E2 & Hw2 & Hl2 & Hwk & Em & Hwk2 & Hnw & Hno & _).
  destruct (cleanup_input _ _ _ _ _ E1) as [Hik Hin]. pose proof (close_all_input _ _ _ E2) as Ein.
  assert (Hik2 : input_kept w w2) by (unfold input_kept; by rewrite Ein).
  assert (Hk2 : kernel_ok frames w2).
  { split; [done| |rewrite Em; by apply (all_waiting_kept _ w)|by apply (events_kept w)].
    exists a1, L, g. rewrite Em. by eapply mem_linked. }
  assert (Hn2 : not_waiting pid w2) by (split; [done|rewrite Ein; exact Hin]).
  rewrite E1. cbn [mbind option_bind]. rewrite E2. cbn [mbind option_bind]. rewrite <- Em in Hl2, Hm.
  pose proof (mem_linked _ _ a1 _ w2.(w_caps) _ w2.(w_surfaces) _ _ _ Hm Hl2) as Hm2.
  destruct (release_memory_ok frames a1 _ _ _ L g pid Hm2 Hpid) as (m1 & sf & m2 & m3 & a3 & L3 & g3 & -> & Ea & El & Hm3 & Hg3 & Hos).
  cbn [mbind option_bind]. rewrite Ea. cbn [mbind option_bind]. rewrite El. cbn [mbind option_bind].
  destruct (fi_arrays _ _ _ _ (mo_frames _ _ _ _ _ _ _ Hm3)) as [A1 A2 A3 A4].
  rewrite aset_in by lia. cbn [mbind option_bind]. set (u := <[Z.to_nat pid := false]> _).
  assert (Hsub : forall i : nat, u !! i = Some true -> m3.(process_memory_used) !! i = Some true).
  { intros i. unfold u. rewrite list_lookup_insert. case_decide; [done|]. done. }
  pose proof (set_used_ok _ _ _ _ _ _ _ u Hm3 ltac:(unfold u; by rewrite length_insert) Hsub) as Hm4.
  pose proof (memory_ok _ _ _ _ _ _ _ pid Hk2 Hn2 Hm3 Hos) as [H3 _ Hw3 Hev3].
  eexists s1, _. split; [done|]. split; [done|]. split; [|split; [done|split; [|split; [exact Hn2|]]]].
  - split; [destruct H3; split; try done; apply Hm4|by exists a3, L3, g3| |exact Hev3].
    change (all_waiting (accepted m3) (set_surfaces sf (set_memory (set_used u m3) w2))) in Hw3. revert Hw3. apply all_waiting_impl.
    intros q x n Ha Hq Hu. assert (m3.(process_memory_used).[q] = Some true) as Hu3.
    { apply aget_Some in Hu as [? Hu]. apply aget_Some. split; [done|]. by apply Hsub. }
    cbn [w_memory set_surfaces set_memory]. rewrite range_used by (by rewrite Hu3). by apply Ha.
  - by exists a3, L3, g3.
  - exists m3. rewrite <- Em. split; [done|]. unfold u. by rewrite (os_used _ _ _ Hos).
Qed.

(** The subsystems are what the scheduler's theorems assume of them. *)
#[export] Instance kernel_services_ok frames : TaskServicesOk subsystems (kernel_ok frames).
Proof.
  split.
  - intros p w [Hw Hm Hwt Hev]. split; [by apply cancel_sub_wf|done| |exact Hev].
    apply (all_waiting_kept _ w); [apply cancel_waits|by apply input_kept_same|done].
  - intros p w [[W1 W2 W3 W4 W5] Hm Hwt Hev]. split; [|done| |by apply (events_kept w); [apply input_kept_cancel|]].
    + split; try done. cbn [input_cancel kernel_services].
      change (0 <= (input_cancel_wait p w.(w_input)).2.(Input.waiter).(iw_pid)). by rewrite input_cancel_pid.
    + apply (all_waiting_kept _ w); [by apply waits_same|apply input_kept_cancel|done].
  - intros p s w Hs Hk Hp. destruct (release_process_ok frames p s w Hk Hs Hp) as (s' & w' & E & Hwk & Hk' & _).
    by exists s', w'.
Qed.
