(* ===== verification/WaitRoles.v ===== *)
(** Who waits for what: every registered wait (a receiver, a selecting receiver, a
    parked sender, the input listener) belongs to a process that sleeps, and a
    process is registered for one thing at a time. A wake-up therefore never
    leaves a stale registration behind, and the process that runs has none. *)

From stdpp Require Import gmap.
From S2P Require Import Prelude Input Ipc IpcSpec.
From S2P Require Import Surface Capability PhysicalMemory UserMemory UserMemorySpec Scheduler SchedulerSpec Kernel KernelSpec ProcessExit KernelMemory.

Inductive wait_kind := Receives (i : Z) | Selects (i : Z) | Parks (i : Z) | Listens.

(** The waits a channel holds. *)
Definition held_by (i : Z) (c : ipc_channel) (q : Z) (k : wait_kind) : Prop :=
  c.(Ipc.active) = true /\
  ((c.(Ipc.waiter).(w_active) = true /\ q = c.(Ipc.waiter).(w_pid) /\
      k = if c.(Ipc.waiter).(w_multiplex) then Selects i else Receives i) \/
   (c.(sender).(s_active) = true /\ q = c.(sender).(s_pid) /\ k = Parks i)).
Definition listens (w : subsystems) (q : Z) (k : wait_kind) : Prop :=
  w.(w_input).(Input.waiter).(iw_active) = true /\ q = w.(w_input).(Input.waiter).(iw_pid) /\ k = Listens.
Definition registered (w : subsystems) (q : Z) (k : wait_kind) : Prop :=
  (exists i c, w.(w_ipc).(channels).[i] = Some c /\ held_by i c q k) \/ listens w q k.

(** Only a select registers twice: on its channel and for input. *)
Definition compatible (k k' : wait_kind) : Prop :=
  match k, k' with Selects _, Listens | Listens, Selects _ => True | _, _ => k = k' end.

(** What a sleeper's slot looks like; no timer wakes a parked sender. *)
Definition dozes (t : task) (k : wait_kind) : Prop :=
  t.(state) = EXITED \/
  (t.(state) = BLOCKED /\ t.(waiting_for) = SCHEDULER_WAIT_NONE /\
   match k with Parks _ => t.(timed_wait) = false | _ => True end).
Definition dozing (s : sched) (q : Z) (k : wait_kind) : Prop := exists t, s.(tasks).[q] = Some t /\ dozes t k.

Definition one_wait (w : subsystems) : Prop := forall q k k', registered w q k -> registered w q k' -> compatible k k'.

(** All processes outside [X] sleep as their registrations say. *)
Record roles_but (X : Z -> Prop) (s : sched) (w : subsystems) : Prop := {
  ro_doze : forall q k, registered w q k -> X q \/ dozing s q k;
  ro_pair : one_wait w
}.
Notation roles := (roles_but (fun _ => False)).

(** A live task runs in the address space of its slot, which is in use. *)
Definition tenant (m : user_memory) (q : Z) (t : task) : Prop :=
  1 <= q -> t.(state) <> UNUSED ->
  m.(process_memory_used).[q] = Some true /\ exists p, m.(process_memory).[q] = Some p /\ t.(Scheduler.address_space) = p.(UserMemory.address_space).
Definition space_ok (s : sched) : Prop := forall t, s.(tasks).[s.(current_pid)] = Some t -> t.(state) <> UNUSED -> s.(cr3) = t.(Scheduler.address_space).

(** A task keeps its parent, and lives on in its address space. *)
Record same_lease (t t' : task) : Prop := {
  sl_parent : t'.(parent_pid) = t.(parent_pid);
  sl_live : t'.(state) = UNUSED <-> t.(state) = UNUSED;
  sl_space : t'.(state) <> UNUSED -> t'.(Scheduler.address_space) = t.(Scheduler.address_space)
}.
Lemma lease_refl t : same_lease t t.
Proof. by split. Qed.
Lemma lease_trans t1 t2 t3 : same_lease t1 t2 -> same_lease t2 t3 -> same_lease t1 t3.
Proof. intros [P1 L1 S1] [P2 L2 S2]. split; [congruence|tauto|]. intros Hu. rewrite S2 by done. apply S1. tauto. Qed.
(** A change of state between live states. *)
Lemma lease_state t t' : t'.(parent_pid) = t.(parent_pid) -> t'.(Scheduler.address_space) = t.(Scheduler.address_space) ->
  t.(state) <> UNUSED -> t'.(state) <> UNUSED -> same_lease t t'.
Proof. by split. Qed.

(** What a step of the scheduler carries over: the sleepers outside [X], the tasks
    with their parents and address spaces, and the address space in CR3. *)
Record carried (X : Z -> Prop) (s s' : sched) : Prop := {
  ca_doze : forall q k, dozing s q k -> X q \/ dozing s' q k;
  ca_lease : forall q t', s'.(tasks).[q] = Some t' -> exists t, s.(tasks).[q] = Some t /\ same_lease t t';
  ca_length : length s'.(tasks) = length s.(tasks);
  ca_space : space_ok s -> space_ok s';
  ca_init : s'.(initialized) = s.(initialized)
}.
Notation nobody := (fun _ : Z => False).

Lemma carried_forward X s s' q t : carried X s s' -> s.(tasks).[q] = Some t -> exists t', s'.(tasks).[q] = Some t' /\ same_lease t t'.
Proof.
  intros Hc Ht. destruct (aget_in s'.(tasks) q) as [t' Ht']; [rewrite (ca_length _ _ _ Hc); by eapply aget_bound|].
  destruct (ca_lease _ _ _ Hc q t' Ht') as (t0 & Ht0 & Hl). rewrite Ht in Ht0. injection Ht0 as <-. by exists t'.
Qed.
#[export] Hint Resolve lease_refl : kernel.

Lemma carried_refl X s : carried X s s.
Proof. split; eauto using lease_refl. Qed.
Lemma carried_trans X s1 s2 s3 : carried X s1 s2 -> carried X s2 s3 -> carried X s1 s3.
Proof.
  intros [D1 L1 N1 C1 I1] [D2 L2 N2 C2 I2]. split; [| |congruence|auto|congruence].
  - intros q k Hq. destruct (D1 q k Hq) as [|Hq']; [by left|]. by apply D2.
  - intros q t' Ht'. destruct (L2 q t' Ht') as (t & Ht & Hl). destruct (L1 q t Ht) as (t0 & Ht0 & Hl0). exists t0.
    split; [done|]. by eapply lease_trans.
Qed.
Lemma carried_weaken (X Y : Z -> Prop) s s' : (forall q, X q -> Y q) -> carried X s s' -> carried Y s s'.
Proof. intros H [D L N C I]. split; try done. intros q k Hq. destruct (D q k Hq); auto. Qed.
Lemma carried_nobody X s s' : carried nobody s s' -> carried X s s'.
Proof. by apply carried_weaken. Qed.

Lemma roles_weaken (X Y : Z -> Prop) s w : (forall q, X q -> Y q) -> roles_but X s w -> roles_but Y s w.
Proof. intros H [D P]. split; [|done]. intros q k Hq. destruct (D q k Hq); auto. Qed.

(** The registrations may only shrink; those that remain sleep on. *)
Lemma roles_step X Y s s' w w' :
  roles_but X s w -> carried Y s s' -> (forall q k, registered w' q k -> registered w q k /\ ~ Y q) -> roles_but X s' w'.
Proof.
  intros [D P] [C _ _ _ _] H. split.
  - intros q k Hq. destruct (H q k Hq) as [Hq' Hy]. destruct (D q k Hq') as [|Hd]; [by left|].
    destruct (C q k Hd); [done|by right].
  - intros q k k' Hk Hk'. apply (P q); [by apply H|by apply H].
Qed.
Lemma roles_carried X s s' w : roles_but X s w -> carried nobody s s' -> roles_but X s' w.
Proof. intros Hr Hc. eapply roles_step; [done|done|]. auto. Qed.
Lemma roles_less X s w w' : roles_but X s w -> (forall q k, registered w' q k -> registered w q k) -> roles_but X s w'.
Proof. intros Hr H. eapply roles_step; [done|apply (carried_refl nobody)|]. auto. Qed.

Lemma registered_same w w' q k : w'.(w_ipc).(channels) = w.(w_ipc).(channels) ->
  w'.(w_input).(Input.waiter) = w.(w_input).(Input.waiter) -> registered w' q k -> registered w q k.
Proof. intros E1 E2. unfold registered, listens. by rewrite E1, E2. Qed.

(** Nobody registered means nobody waits. *)
Lemma roles_not_waiting pid w : (forall k, ~ registered w pid k) -> not_waiting pid w.
Proof.
  intros H. split.
  - intros i c Hc Ha Hwa E. apply (H (if c.(Ipc.waiter).(w_multiplex) then Selects i else Receives i)).
    left. exists i, c. split; [done|]. split; [done|]. left. by rewrite E.
  - intros Ha E. apply (H Listens). by right.
Qed.

(** The running process is registered nowhere. *)
Lemma awake_unregistered s w q t : roles s w -> s.(tasks).[q] = Some t -> t.(state) <> BLOCKED -> t.(state) <> EXITED ->
  forall k, ~ registered w q k.
Proof.
  intros Hr Ht Hb He k Hk. destruct (ro_doze _ _ _ Hr q k Hk) as [[]|(t' & Ht' & Hd)]. rewrite Ht in Ht'.
  injection Ht' as <-. by destruct Hd as [?|[? _]].
Qed.

(** ** The scheduler's steps *)

Lemma update_inv p f s s' : update_task p f s = Some s' ->
  exists t, s.(tasks).[p] = Some t /\ s' = set_tasks (<[Z.to_nat p := f t]> s.(tasks)) s.
Proof.
  intros H. destruct (s.(tasks).[p]) as [t|] eqn:Ht; [|by unfold update_task in H; rewrite Ht in H].
  rewrite (update_task_eq _ _ _ t) in H by done. exists t. by injection H as <-.
Qed.

Lemma carried_update X p f s s' :
  update_task p f s = Some s' ->
  (forall t, s.(tasks).[p] = Some t ->
     (X p \/ forall k, dozes t k -> dozes (f t) k) /\ same_lease t (f t)) ->
  carried X s s'.
Proof.
  intros (v & Hv & ->)%update_inv Hf. destruct (Hf _ Hv) as (Hd & Hu). pose proof (aget_bound _ _ _ Hv) as Hb.
  split; [| |by cbn; rewrite length_insert| |done]; cbn.
  - intros q k (t & Ht & Hk). destruct (decide (q = p)) as [->|Hne].
    + destruct Hd as [|Hd]; [by left|]. right. eexists. cbn. rewrite aget_insert by done. rewrite decide_True by done.
      split; [done|]. rewrite Hv in Ht. injection Ht as <-. by apply Hd.
    + right. exists t. cbn. rewrite aget_insert by done. by rewrite decide_False.
  - intros q t'. rewrite aget_insert by done. case_decide; [|intros Ht'; exists t'; split; [done|apply lease_refl]].
    subst q. intros [= <-]. by exists v.
  - intros Hc t'. cbn. rewrite aget_insert by done. case_decide; [|by apply Hc].
    intros [= <-] Hs. destruct Hu as [_ Hl Ha]. rewrite Ha by done. apply Hc; [congruence|tauto].
Qed.

Lemma carried_frames X s fs : carried X s (set_frames fs s).
Proof. split; eauto using lease_refl. Qed.
Lemma carried_write X a f s s' : write_frame a f s = Some s' -> carried X s s'.
Proof. unfold write_frame. intros H. peel H. injection H as <-. apply carried_frames. Qed.
Lemma carried_fpu X a b s s' : switch_fpu a b s = Some s' -> carried X s s' /\ s'.(tasks) = s.(tasks).
Proof.
  unfold switch_fpu. destruct (_ =? _); [intros [= <-]; split; [apply carried_refl|done]|].
  intros H. peel H. injection H as <-. split; [|done]. split; eauto using lease_refl.
Qed.
Lemma carried_running X p t top s : s.(tasks).[p] = Some t -> carried X s (set_running p t.(Scheduler.address_space) top s).
Proof. intros Ht. split; eauto using lease_refl. intros _ t'. cbn. by rewrite Ht; intros [= <-]. Qed.
Lemma carried_users X b s : carried X s (set_users b s).
Proof. split; eauto using lease_refl. Qed.
Lemma carried_ticks X n s : carried X s (set_ticks n s).
Proof. split; eauto using lease_refl. Qed.

(** Giving the processor to a task that does not sleep. *)
Lemma carried_dispatch X p s f s' : dispatch p s = Some (f, s') ->
  (forall t, s.(tasks).[p] = Some t -> t.(state) = READY) -> carried X s s' /\ space_ok s'.
Proof.
  unfold dispatch. intros H Hr. peel H. injection H as _ <-. apply (carried_fpu X) in Hv as [Hc Et].
  assert (H1 : carried X v v0).
  { apply (carried_update _ _ _ _ _ Hv0). intros t Ht. rewrite Et in Ht. pose proof (Hr _ Ht) as E. split; [|by apply lease_state; rewrite ?E].
    right. intros k [?|[? _]]; congruence. }
  pose proof (carried_running X p v1 v1.(kernel_stack_top) v0 Hv1) as H2.
  split; [by eapply carried_trans; [|eapply carried_trans]|]. intros t. cbn. by rewrite Hv1; intros [= <-].
Qed.
(** The idle task never sleeps. *)
Definition idle_up (s : sched) : Prop := forall t, s.(tasks).[0] = Some t -> t.(state) = RUNNING \/ t.(state) = READY.
Lemma core_idle s : sched_core s -> idle_up s.
Proof. intros Hc t Ht. by apply (ok_idle _ _ _ _ (core_tasks _ Hc _ _ Ht)). Qed.

Lemma carried_idle X s f s' : idle_up s -> return_idle s = Some (f, s') -> carried X s s' /\ space_ok s'.
Proof.
  unfold return_idle. intros Hc H. peel H. injection H as _ <-. apply (carried_fpu X) in Hv as [H1 Et].
  assert (H2 : carried X (set_users false v) v0).
  { apply (carried_update _ _ _ _ _ Hv0). intros t Ht. cbn in Ht. rewrite Et in Ht.
    pose proof (Hc _ Ht) as Hi. split.
    - right. intros k [?|[? _]]; intuition congruence.
    - apply lease_state; [done|done|intuition congruence|done]. }
  pose proof (carried_running X 0 v1 v0.(rsp0) v0 Hv1) as H3. split.
  - eapply carried_trans; [exact H1|]. eapply carried_trans; [apply carried_users|]. by eapply carried_trans.
  - intros t. cbn [set_running tasks current_pid cr3]. by rewrite Hv1; intros [= <-].
Qed.

Lemma next_ready_inv a s n : next_ready a s = Some n -> n <> 0 -> forall t, s.(tasks).[n] = Some t -> t.(state) = READY.
Proof.
  unfold next_ready. generalize 1. generalize 7%nat. intros m. induction m as [|m IH]; intros r; cbn [next_ready_from].
  - intros [= <-]. done.
  - intros H Hn. peel H. destruct (decide _) as [Hs|Hs]; [|by eapply IH].
    injection H as <-. intros t Ht. rewrite Hv in Ht. by injection Ht as <-.
Qed.

Lemma frame_dozes f t k : dozes t k -> dozes (with_frame f t) k.
Proof. done. Qed.

Lemma idle_update p f s s' : update_task p f s = Some s' -> idle_up s ->
  (forall t, t.(state) = RUNNING \/ t.(state) = READY -> (f t).(state) = RUNNING \/ (f t).(state) = READY) \/ p <> 0 -> idle_up s'.
Proof.
  intros (v & Hv & ->)%update_inv Hi Hf. pose proof (aget_bound _ _ _ Hv) as Hb. intros t. cbn [set_tasks tasks]. rewrite aget_insert by done. case_decide as Hp; [|apply Hi].
  subst p. intros [= <-]. destruct Hf as [Hf|]; [|done]. by apply Hf, Hi.
Qed.

Lemma carried_reschedule X frame s f s' : idle_up s -> reschedule frame s = Some (f, s') -> carried X s s'.
Proof.
  unfold reschedule. intros Hc H. peel H.
  assert (H1 : carried X s v).
  { apply (carried_update _ _ _ _ _ Hv). intros t Ht. cbv zeta. destruct (decide _) as [E|E]; cbn in E |- *; split_and!; try done.
    - right. intros k [?|[? _]]; congruence.
    - by apply lease_state; rewrite ?E.
    - right. intros k. apply frame_dozes. }
  eapply carried_trans; [exact H1|]. destruct (v0 =? 0) eqn:En; cbn [negb] in H.
  - peel H. destruct (decide _) as [E|E].
    + peel H. injection H as _ <-. apply (carried_update _ _ _ _ _ Hv2). intros t Ht. rewrite Hv1 in Ht.
      injection Ht as <-. split; [|by apply lease_state; rewrite ?E]. right. intros k [?|[? _]]; congruence.
    + apply (carried_idle X) in H as [Hi _]; [exact Hi|]. apply (idle_update _ _ _ _ Hv Hc). left. intros t Ht. cbv zeta.
      destruct (decide _); [by right|done].
  - b2p. apply (carried_dispatch X) in H as [Hd _]; [exact Hd|]. by eapply next_ready_inv.
Qed.

Lemma carried_wake p r d s b s' : scheduler_wake p r d s = Some (b, s') -> carried (fun q => q = p) s s'.
Proof.
  unfold scheduler_wake. destruct (_ || _); [intros [= _ <-]; apply carried_refl|]. intros H. peel H.
  destruct (decide _) as [E|]; [|injection H as _ <-; apply carried_refl]. peel H. injection H as _ <-.
  eapply carried_trans; [by eapply carried_write|]. unfold write_frame in Hv0. peel Hv0. injection Hv0 as <-.
  apply (carried_update _ _ _ _ _ Hv1). intros t Ht. split; [by left|].
  cbn [set_frames tasks] in Ht. rewrite Hv in Ht. injection Ht as <-. by apply lease_state; rewrite ?E.
Qed.

Lemma carried_yield X frame s f s' : sched_core s -> scheduler_on_yield frame s = Some (f, s') -> carried X s s'.
Proof.
  unfold scheduler_on_yield. intros Hc. destruct (_ || _ || _); [intros [= _ <-]; apply carried_refl|]. intros H. peel H.
  eapply carried_trans; [apply (carried_update _ _ _ _ _ Hv); intros t _; split; [by right|done]|].
  eapply carried_reschedule; [|done]. apply (idle_update _ _ _ _ Hv); [by apply core_idle|by left].
Qed.

(** Going to sleep: the caller now waits without a child to wait for. *)
Definition falls_asleep (s s' : sched) (P : wait_kind -> Prop) : Prop :=
  carried nobody s s' /\ forall k, P k -> dozing s' s.(current_pid) k.

Lemma sleep_reschedule s frame f s' (g : task -> task) (P : wait_kind -> Prop) :
  sched_wf s -> 1 <= s.(current_pid) ->
  (s1 ← update_task s.(current_pid) g s; reschedule frame s1) = Some (f, s') ->
  (forall t, (g t).(parent_pid) = t.(parent_pid) /\ (g t).(Scheduler.address_space) = t.(Scheduler.address_space) /\ (g t).(state) <> UNUSED) ->
  (forall t k, t.(state) = RUNNING -> t.(timed_wait) = false -> P k -> dozes (g t) k) ->
  falls_asleep s s' P.
Proof.
  intros Hwf Hcur H Hsp Hd. peel H. pose proof (update_inv _ _ _ _ Hv) as (t & Ht & E).
  pose proof (running_user _ _ Hwf Ht) as Hr. pose proof (core_tasks _ (wf_core _ Hwf) _ _ Ht) as Hok.
  assert (Htm : t.(timed_wait) = false).
  { destruct (t.(timed_wait)) eqn:Et; [|done]. destruct (ok_timed _ _ _ _ Hok Et) as [?|[? _]]; congruence. }
  assert (H2 : carried nobody v s').
  { eapply carried_reschedule; [|done]. apply (idle_update _ _ _ _ Hv); [by apply core_idle, Hwf|right; lia]. }
  split.
  - eapply carried_trans; [|exact H2]. apply (carried_update _ _ _ _ _ Hv). intros u Hu. rewrite Ht in Hu. injection Hu as <-.
    split; [|destruct (Hsp t) as (? & ? & ?); apply lease_state; congruence]. right. intros k [?|[? _]]; congruence.
  - intros k Hk. destruct (ca_doze _ _ _ H2 s.(current_pid) k) as [[]|]; [|done]. exists (g t). rewrite E. cbn [set_tasks tasks].
    rewrite aget_insert by (by eapply aget_bound). rewrite decide_True by done. split; [done|]. by apply Hd.
Qed.

Definition untimed (k : wait_kind) : Prop := match k with Parks _ => False | _ => True end.

Lemma block_asleep frame s f s' : sched_wf s -> s.(initialized) = true -> 1 <= s.(current_pid) ->
  scheduler_block_current frame s = Some (f, s') -> falls_asleep s s' (fun _ => True).
Proof.
  intros Hwf Hi Hc. unfold scheduler_block_current. rewrite Hi, (wf_users _ Hwf), (proj2 (Z.eqb_neq _ 0)) by lia.
  intros H. refine (sleep_reschedule s frame f s' _ _ Hwf Hc H _ _); [done|]. intros t k _ Htm _. right. cbn. split; [done|]. split; [done|]. by destruct k.
Qed.
Lemma block_timeout_asleep frame delay r s f s' : sched_wf s -> s.(initialized) = true -> 1 <= s.(current_pid) ->
  scheduler_block_current_timeout frame delay r s = Some (f, s') -> falls_asleep s s' untimed.
Proof.
  intros Hwf Hi Hc. unfold scheduler_block_current_timeout. rewrite Hi, (wf_users _ Hwf), (proj2 (Z.eqb_neq _ 0)) by lia.
  destruct (delay =? 0); cbn [negb orb].
  - intros H. apply block_asleep in H as [H1 H2]; [|done..]. split; [done|]. auto.
  - intros H. refine (sleep_reschedule s frame f s' _ _ Hwf Hc H _ _); [done|]. intros t k _ _ Hk. right. cbn. split; [done|]. split; [done|]. by destruct k.
Qed.

(** ** Registrations under updates *)

Definition index (k : wait_kind) : option Z :=
  match k with Receives i | Selects i | Parks i => Some i | Listens => None end.
Lemma held_index i c q k : held_by i c q k -> index k = Some i.
Proof. intros [_ [(_ & _ & ->)|(_ & _ & ->)]]; [|done]. by destruct (w_multiplex _). Qed.
Lemma compatible_index k k' i j : compatible k k' -> index k = Some i -> index k' = Some j -> i = j.
Proof. destruct k, k'; cbn; congruence. Qed.

(** The registrations when the channel at [i] is [c]. *)
Lemma registered_put w w' i c q k :
  (0 <= i < Z.of_nat (length w.(w_ipc).(channels))) ->
  w'.(w_ipc).(channels) = <[Z.to_nat i := c]> w.(w_ipc).(channels) -> w'.(w_input).(Input.waiter) = w.(w_input).(Input.waiter) ->
  registered w' q k ->
  held_by i c q k \/ (registered w q k /\ index k <> Some i).
Proof.
  intros Hb E1 E2 [(j & cj & Hj & Hh)|Hl].
  - rewrite E1, aget_insert in Hj by done. destruct (decide (j = i)) as [->|Hne]; [injection Hj as <-; by left|].
    right. split; [left; by exists j, cj|]. rewrite (held_index _ _ _ _ Hh). congruence.
  - right. split; [right; unfold listens in *; by rewrite <- E2|]. destruct Hl as (_ & _ & ->). done.
Qed.

Lemma registered_set w x i c q k : 0 <= i < Z.of_nat (length w.(w_ipc).(channels)) ->
  registered (set_ipc (set_channels (<[Z.to_nat i := c]> w.(w_ipc).(channels)) x) w) q k ->
  held_by i c q k \/ (registered w q k /\ index k <> Some i).
Proof. intros Hb. by apply registered_put. Qed.

Lemma put_inv c w w' : put_channel c w = Some w' ->
  0 <= c.(Ipc.id) - 1 < Z.of_nat (length w.(w_ipc).(channels)) /\
  w' = set_ipc (set_channels (<[Z.to_nat (c.(Ipc.id) - 1) := c]> w.(w_ipc).(channels)) w.(w_ipc)) w.
Proof.
  unfold put_channel, set_channel. intros H. peel H. injection H as <-. peel Hv. injection Hv as <-.
  by apply aset_Some in Hv0 as [Hb ->].
Qed.

Lemma registered_channel c w w' q k : put_channel c w = Some w' -> registered w' q k ->
  held_by (c.(Ipc.id) - 1) c q k \/ (registered w q k /\ index k <> Some (c.(Ipc.id) - 1)).
Proof. intros [Hb ->]%put_inv. by apply registered_put. Qed.

Lemma resolve_inv pid h right w r w' : subsystems_wf w -> 0 <= h -> resolve_channel pid h right w = Some (r, w') ->
  w'.(w_ipc) = w.(w_ipc) /\ w'.(w_input) = w.(w_input) /\
  forall c, r = Some c -> w.(w_ipc).(channels).[c.(Ipc.id) - 1] = Some c /\ c.(Ipc.active) = true.
Proof.
  intros Hw Hh E. destruct (resolve_channel_ok w pid h right Hw Hh) as (r0 & w0 & E0 & _ & Ei & _ & Hr & _).
  rewrite E in E0. injection E0 as <- <-. split; [done|]. split; [by apply resolve_rest in E as [_ ?]|].
  intros c ->. destruct (proj1 (Hr c) eq_refl) as (i & g & _ & _ & _ & _ & _ & Hc & Ha).
  pose proof (iw_id _ (sw_ipc _ Hw) _ _ Hc) as Ei'. replace (Ipc.id c - 1) with (i - 1) by lia. done.
Qed.

Lemma input_cancel_registered p w q k : registered (w_input_cancel p w) q k -> registered w q k /\ ~ (q = p /\ k = Listens).
Proof.
  intros [(j & cj & Hj & Hh)|Hl].
  - split; [left; by exists j, cj|]. intros [_ ->]. by apply held_index in Hh.
  - pose proof Hl as (Ha & -> & ->). pose proof (input_cancelled p w Ha) as Hne. pose proof (proj1 (input_kept_cancel p w) Ha) as E.
    split; [right; by rewrite E in *|by intros [? _]].
Qed.

Lemma cancel_in p l : forall j c', (cancel_wait_in p l).2 !! j = Some c' ->
  exists c, l !! j = Some c /\ (c' = c \/ (c' = set_cwaiter (stop_waiter c.(Ipc.waiter)) c /\
    c.(Ipc.active) = true /\ c.(Ipc.waiter).(w_active) = true /\ c.(Ipc.waiter).(w_pid) = p)).
Proof.
  induction l as [|c l IH]; intros j c'; cbn [cancel_wait_in]; [done|].
  destruct (_ && _ && _) eqn:E; cbn [snd].
  - apply andb_true_iff in E as [[Ea Ew]%andb_true_iff Ep]. apply Z.eqb_eq in Ep. destruct j as [|j]; cbn; [intros [= <-]; exists c; eauto 10|intros Hj; exists c'; auto].
  - destruct (cancel_wait_in p l) as [b l'] eqn:El. cbn [snd] in *. destruct j as [|j]; cbn; [intros [= <-]; exists c; auto|apply IH].
Qed.

(** When [p] waits on some channel, a wait of it is cancelled. *)
Lemma cancel_in_hit p l j c : l !! j = Some c -> c.(Ipc.active) = true -> c.(Ipc.waiter).(w_active) = true -> c.(Ipc.waiter).(w_pid) = p ->
  exists i c0, l !! i = Some c0 /\ c0.(Ipc.active) = true /\ c0.(Ipc.waiter).(w_active) = true /\ c0.(Ipc.waiter).(w_pid) = p /\
    (cancel_wait_in p l).2 !! i = Some (set_cwaiter (stop_waiter c0.(Ipc.waiter)) c0).
Proof.
  revert j. induction l as [|c0 l IH]; intros j Hj Ha Hw Hp; cbn [cancel_wait_in]; [done|].
  destruct (_ && _ && _) eqn:E; cbn [snd].
  - b2p. by exists 0%nat, c0.
  - destruct j as [|j]; cbn in Hj; [injection Hj as ->; rewrite Ha, Hw, Hp, Z.eqb_refl in E; done|].
    destruct (IH j Hj Ha Hw Hp) as (i & c1 & H1 & H2 & H3 & H4 & H5).
    destruct (cancel_wait_in p l) as [b l']. by exists (S i), c1.
Qed.

Definition receives (k : wait_kind) : Prop := match k with Receives _ | Selects _ => True | _ => False end.

Lemma ipc_cancel_registered p w q k : one_wait w -> registered (w_ipc_cancel p w) q k ->
  registered w q k /\ ~ (q = p /\ receives k).
Proof.
  intros Hr Hk.
  assert (Hch : forall j c', (w_ipc_cancel p w).(w_ipc).(channels).[j] = Some c' -> 0 <= j /\ (cancel_wait_in p w.(w_ipc).(channels)).2 !! Z.to_nat j = Some c').
  { intros j c'. cbn. unfold ipc_cancel_wait. destruct (cancel_wait_in _ _) as [b l]. cbn. by rewrite aget_Some. }
  assert (Hw : registered w q k).
  { destruct Hk as [(j & cj & Hj & Hh)|Hl]; [|by right]. apply Hch in Hj as [Hp Hj].
    apply cancel_in in Hj as (c & Hc & Hcase). left. exists j, c. split; [by apply aget_Some|].
    destruct Hcase as [->|[-> (Ha & _)]]; [done|]. destruct Hh as [_ [(? & _)|Hs]]; [done|]. split; [done|by right]. }
  split; [done|]. intros [-> Hrk]. destruct Hk as [(j & cj & Hj & Hh)|(_ & _ & ->)]; [|done]. apply Hch in Hj as [Hpos Hj].
  pose proof Hh as [Hac [(Hwa & Hwp & Ek)|(_ & _ & ->)]]; [|done].
  apply cancel_in in Hj as Hj0. destruct Hj0 as (c & Hc & Hcase).
  destruct Hcase as [->|[-> _]]; [|done].
  destruct (cancel_in_hit p w.(w_ipc).(channels) _ _ Hc Hac Hwa (eq_sym Hwp)) as (i & c0 & H1 & H2 & H3 & H4 & H5).
  assert (Hreg0 : registered w p (if c0.(Ipc.waiter).(w_multiplex) then Selects (Z.of_nat i) else Receives (Z.of_nat i))).
  { left. exists (Z.of_nat i), c0. split; [apply aget_Some; split; [lia|by rewrite Nat2Z.id]|]. split; [done|]. by left. }
  pose proof (Hr _ _ _ Hreg0 Hw) as Hc2.
  assert (Z.of_nat i = j) as <-. { apply (compatible_index _ _ _ _ Hc2); [|by eapply held_index]. destruct (w_multiplex (Ipc.waiter c0)); reflexivity. }
  rewrite Nat2Z.id in Hj. rewrite H5 in Hj. injection Hj as E. rewrite <- E in Hwa. done.
Qed.

(** ** The message operations *)

Notation anybody := (fun _ : Z => True).
(** An operation that may wake processes, each together with its registrations. *)
Definition awaited (s : sched) (w : subsystems) (s' : sched) (w' : subsystems) : Prop := roles s' w' /\ carried anybody s s'.

Lemma awaited_same s w w' : roles s w -> (forall q k, registered w' q k -> registered w q k) -> awaited s w s w'.
Proof. intros Hr H. split; [by eapply roles_less|apply carried_refl]. Qed.
Lemma awaited_trans s1 w1 s2 w2 s3 w3 : carried anybody s1 s2 -> awaited s2 w2 s3 w3 -> awaited s1 w1 s3 w3.
Proof. intros H [Hr Hc]. split; [done|by eapply carried_trans]. Qed.

(** A wake-up of [p], when no wait of it is left. *)
Lemma awaited_wake p s s' w w' : roles s w -> carried (fun q => q = p) s s' ->
  (forall q k, registered w' q k -> registered w q k /\ q <> p) -> awaited s w s' w'.
Proof. intros Hr Hc H. split; [by eapply roles_step|by eapply carried_weaken]. Qed.

Lemma registered_counts a b c w q k : registered (set_ipc (count_ipc a b c w.(w_ipc)) w) q k -> registered w q k.
Proof. by apply registered_same. Qed.
Lemma registered_drop w q k : registered (w_drop w) q k -> registered w q k.
Proof. by apply registered_same. Qed.
Lemma registered_memory m w q k : registered (set_memory m w) q k -> registered w q k.
Proof. by apply registered_same. Qed.

(** The registration of the receiver on [c]. *)
Definition receiver_kind (i : Z) (c : ipc_channel) : wait_kind := if c.(Ipc.waiter).(w_multiplex) then Selects i else Receives i.

(** Once the receiver's wait on channel [i] is over (and its wait for input, if it
    selected), it is registered nowhere. *)
Lemma receiver_gone w i c w1 q k :
  one_wait w -> w.(w_ipc).(channels).[i] = Some c -> c.(Ipc.active) = true -> c.(Ipc.waiter).(w_active) = true ->
  w1.(w_ipc).(channels) = <[Z.to_nat i := set_cwaiter (stop_waiter c.(Ipc.waiter)) c]> w.(w_ipc).(channels) ->
  w1.(w_input).(Input.waiter) = w.(w_input).(Input.waiter) ->
  registered (if c.(Ipc.waiter).(w_multiplex) then w_input_cancel c.(Ipc.waiter).(w_pid) w1 else w1) q k ->
  registered w q k /\ q <> c.(Ipc.waiter).(w_pid).
Proof.
  intros Hp Hc Ha Hw E1 E2 Hq. set (p := c.(Ipc.waiter).(w_pid)) in *.
  assert (Hk : registered w p (receiver_kind i c)) by (left; exists i, c; split; [done|]; split; [done|by left]).
  assert (Hq1 : registered w1 q k /\ (c.(Ipc.waiter).(w_multiplex) = true -> ~ (q = p /\ k = Listens))).
  { destruct (w_multiplex _); [apply input_cancel_registered in Hq as [? ?]; by split|by split]. }
  destruct Hq1 as [Hq1 Hn]. apply (registered_put w _ i _ _ _ ltac:(by eapply aget_bound) E1 E2) in Hq1.
  assert (Hq0 : registered w q k).
  { destruct Hq1 as [[_ [(? & _)|Hs]]|[? _]]; [done| |done]. left. exists i, c. split; [done|]. split; [done|by right]. }
  split; [done|]. intros ->. pose proof (Hp _ _ _ Hk Hq0) as Hcomp. unfold receiver_kind in Hcomp.
  destruct Hq1 as [[_ [(? & _)|(_ & _ & ->)]]|[_ Hi]]; [done|by destruct (w_multiplex _)|].
  destruct (w_multiplex (Ipc.waiter c)), k; cbn in Hcomp, Hi; try congruence; by destruct Hn.
Qed.

Lemma deliver_awaited c pid data n s w r s' w' :
  roles s w -> w.(w_ipc).(channels).[c.(Ipc.id) - 1] = Some c -> c.(Ipc.active) = true -> c.(Ipc.waiter).(w_active) = true ->
  deliver c pid data n s w = Some (r, s', w') -> awaited s w s' w'.
Proof.
  intros Hr Hc Ha Hw. unfold deliver. intros H. peel H. apply put_inv in Hv as [_ Ev].
  set (w2 := if w_multiplex _ then _ else _) in H.
  assert (Hgone : forall q k, registered w2 q k -> registered w q k /\ q <> c.(Ipc.waiter).(w_pid)).
  { intros q k. apply (receiver_gone w (c.(Ipc.id) - 1)); [apply Hr|done..|by rewrite Ev|by rewrite Ev]. }
  clearbody w2. destruct (_ <? _).
  { injection H as _ <- <-. apply awaited_same; [done|]. intros q k Hq%registered_drop. by apply Hgone. }
  peel H. destruct v0 as [ok m]. destruct ok; cbn [negb] in H.
  2: { injection H as _ <- <-. apply awaited_same; [done|]. intros q k Hq%registered_drop%registered_memory. by apply Hgone. }
  peel H. destruct v0 as [ok s1]. apply carried_wake in Hv0.
  destruct ok; cbn [negb] in H; injection H as _ <- <-; (eapply awaited_wake; [done..|]);
    intros q k Hq; apply Hgone; exact Hq.
Qed.

Lemma send_awaited pid h data n b s w r s' w' :
  roles s w -> subsystems_wf w -> 0 <= h -> ipc_send_impl pid h data n b s w = Some (r, s', w') ->
  (r <> 2 -> awaited s w s' w') /\
  (r = 2 -> s' = s /\ exists i, forall q k, registered w' q k -> registered w q k \/ (q = pid /\ k = Parks i)).
Proof.
  intros Hr Hw Hh. unfold ipc_send_impl. intros H. peel H. destruct v as [c w1].
  destruct (resolve_inv _ _ _ _ _ _ Hw Hh Hv) as (E1 & E2 & Hc). clear Hv.
  assert (Hr1 : forall q k, registered w1 q k -> registered w q k) by (intros q k; apply registered_same; by rewrite ?E1, ?E2).
  assert (Hsame : forall w2, (forall q k, registered w2 q k -> registered w1 q k) -> awaited s w s w2)
    by (intros w2 H2; apply awaited_same; [done|]; auto).
  destruct c as [c|]; [|injection H as <- <- <-; split; [intros _; by apply Hsame|done]].
  destruct data as [data|]; [|injection H as <- <- <-; split; [intros _; by apply Hsame|done]].
  destruct (_ || _); [injection H as <- <- <-; split; [intros _; by apply Hsame|done]|].
  destruct (Hc c eq_refl) as [Hci Ha]. rewrite <- E1 in Hci.
  destruct (w_active (Ipc.waiter c)) eqn:Ea.
  { assert (r <> 2) as Hne.
    { unfold deliver in H. peel H. destruct (_ <? _); [by injection H as <- _ _|]. peel H. destruct v0 as [ok m].
      destruct ok; cbn [negb] in H; [|by injection H as <- _ _]. peel H. destruct v0 as [ok s1].
      by destruct ok; cbn [negb] in H; injection H as <- _ _. }
    split; [intros _|done]. apply (awaited_trans s w s w1); [apply carried_refl|]. eapply deliver_awaited; try done. by eapply roles_less. }
  destruct (_ =? _) eqn:Eq.
  - destruct (_ || _) eqn:Eb; [injection H as <- <- <-; split; [intros _; apply Hsame; apply registered_drop|done]|].
    peel H. injection H as <- <- <-. split; [done|]. intros _. split; [done|]. exists (c.(Ipc.id) - 1). intros q k Hq.
    apply (registered_channel _ _ _ _ _ Hv0) in Hq. unfold park in Hv. peel Hv. injection Hv as <-.
    destruct Hq as [[_ [Hq|(_ & -> & ->)]]|[Hq _]]; [|by right|left; auto].
    left. apply Hr1. left. exists (c.(Ipc.id) - 1), c. split; [done|]. split; [done|by left].
  - peel H. injection H as <- <- <-. split; [intros _|done]. apply Hsame. intros q k Hq%registered_counts.
    apply (registered_channel _ _ _ _ _ Hv0) in Hq. unfold push_message in Hv. peel Hv. injection Hv as <-.
    destruct Hq as [Hq|[Hq _]]; [|done]. left. exists (c.(Ipc.id) - 1), c. split; [done|]. exact Hq.
Qed.

(** Two waits of one process on different channels: a select and its listening. *)
Lemma other_wait w p i k k' : one_wait w -> registered w p k -> index k = Some i -> registered w p k' -> index k' <> Some i ->
  k = Selects i /\ k' = Listens.
Proof.
  intros Hp Hk Hi Hk' Hi'. pose proof (Hp _ _ _ Hk Hk') as Hc. destruct k, k'; cbn in *; try congruence; try done.
  by injection Hi as ->.
Qed.

Lemma sender_kind w i c : w.(w_ipc).(channels).[i] = Some c -> c.(Ipc.active) = true -> c.(sender).(s_active) = true ->
  registered w c.(sender).(s_pid) (Parks i).
Proof. intros Hc Ha Hs. left. exists i, c. split; [done|]. split; [done|by right]. Qed.

Lemma push_fields from data n c c' : push_message from data n c = Some c' ->
  c'.(Ipc.id) = c.(Ipc.id) /\ c'.(Ipc.active) = c.(Ipc.active) /\ c'.(Ipc.waiter) = c.(Ipc.waiter) /\ c'.(sender) = c.(sender).
Proof. unfold push_message. intros H. peel H. by injection H as <-. Qed.

Lemma hand_over_inv c s c' s' : hand_over c s = Some (c', s') ->
  c'.(Ipc.id) = c.(Ipc.id) /\ c'.(Ipc.active) = c.(Ipc.active) /\ c'.(Ipc.waiter) = c.(Ipc.waiter) /\
  if c.(sender).(s_active) then c'.(sender).(s_active) = false /\ carried (fun q => q = c.(sender).(s_pid)) s s'
  else s' = s /\ c'.(sender) = c.(sender).
Proof.
  unfold hand_over. destruct (s_active (sender c)); cbn [negb]; [|by intros [= <- <-]].
  intros H. peel H. destruct v0 as [b s1]. injection H as <- <-. apply push_fields in Hv as (-> & -> & -> & ->).
  by apply carried_wake in Hv0.
Qed.

Lemma receive_awaited pid h out cap s w r s' w' :
  roles s w -> subsystems_wf w -> 0 <= h -> ipc_receive pid h out cap s w = Some (r, s', w') -> awaited s w s' w'.
Proof.
  intros Hr Hw Hh. unfold ipc_receive. intros H. peel H. destruct v as [c w1].
  destruct (resolve_inv _ _ _ _ _ _ Hw Hh Hv) as (E1 & E2 & Hc). clear Hv.
  assert (Hr1 : forall q k, registered w1 q k -> registered w q k) by (intros q k; apply registered_same; by rewrite ?E1, ?E2).
  assert (Hsame : awaited s w s w1) by (by apply awaited_same).
  destruct c as [c|]; [|by injection H as _ <- <-]. destruct out as [out|]; [|by injection H as _ <- <-].
  destruct (_ =? 0); [by injection H as _ <- <-|]. peel H. destruct v as [m c1]. destruct (cap <? _); [by injection H as _ <- <-|].
  peel H. destruct v0 as [c2 s2]. peel H. injection H as _ <- <-. destruct (Hc c eq_refl) as [Hci Ha]. rewrite <- E1 in Hci.
  unfold pop_message in Hv. peel Hv. injection Hv as _ <-. set (c1 := set_ring _ _ _ _ c) in *.
  assert (F1 : c1.(Ipc.id) = c.(Ipc.id) /\ c1.(Ipc.active) = c.(Ipc.active) /\ c1.(Ipc.waiter) = c.(Ipc.waiter) /\ c1.(sender) = c.(sender)) by done.
  clearbody c1. destruct F1 as (G1 & G2 & G3 & G4). apply hand_over_inv in Hv1 as (K1 & K2 & K3 & K4).
  rewrite G1 in K1. rewrite G3 in K3. rewrite G4 in K4. set (i := c.(Ipc.id) - 1) in *.
  assert (Hreg : forall q k, registered (set_ipc (count_ipc 0 1 0 v0.(w_ipc)) v0) q k -> registered w q k /\
            ((index k <> Some i \/ k = receiver_kind i c) \/ c.(sender).(s_active) = false)).
  { intros q k Hq%registered_counts. apply (registered_channel _ _ _ _ _ Hv2) in Hq. rewrite K1 in Hq. fold i in Hq.
    destruct Hq as [[_ [(Hx & -> & ->)|(Hx & -> & ->)]]|[Hq Hi]].
    - rewrite K3 in Hx |- *. split; [|by left; right]. apply Hr1. left. exists i, c. split; [done|]. split; [done|by left].
    - destruct (s_active (sender c)) eqn:Es; [destruct K4; congruence|]. destruct K4 as [_ K4]. rewrite K4 in Hx. congruence.
    - split; [by apply Hr1|by left; left]. }
  destruct (s_active (sender c)) eqn:Es.
  - destruct K4 as [_ K4]. apply (awaited_wake c.(sender).(s_pid)); [done..|]. intros q k Hq. destruct (Hreg q k Hq) as [Hq1 [Hi|]]; [|done].
    split; [done|]. intros ->. pose proof (Hr1 _ _ (sender_kind _ _ _ Hci Ha Es)) as Hp. destruct Hi as [Hi|Hk].
    + by destruct (other_wait _ _ _ _ _ (ro_pair _ _ _ Hr) Hp eq_refl Hq1 Hi).
    + pose proof (ro_pair _ _ _ Hr _ _ _ Hp Hq1) as Hcm. rewrite Hk in Hcm. unfold receiver_kind in Hcm. by destruct (w_multiplex _).
  - destruct K4 as [-> _]. apply awaited_same; [done|]. intros q k Hq. by apply Hreg.
Qed.

(** A process that starts to wait is registered for that alone. *)
Lemma wait_registers mux pid h a cap w b w' :
  subsystems_wf w -> 0 <= h -> ipc_wait_with mux pid h a cap w = Some (b, w') ->
  exists i, forall q k, registered w' q k -> registered w q k \/ (b = true /\ q = pid /\ k = if mux then Selects i else Receives i).
Proof.
  intros Hw Hh. unfold ipc_wait_with. intros H. peel H. destruct v as [c w1].
  destruct (resolve_inv _ _ _ _ _ _ Hw Hh Hv) as (E1 & E2 & Hc). clear Hv.
  assert (Hr1 : forall q k, registered w1 q k -> registered w q k) by (intros q k; apply registered_same; by rewrite ?E1, ?E2).
  destruct c as [c|]; [|injection H as <- <-; exists 0; auto].
  destruct (_ || _ || _); [injection H as <- <-; exists 0; auto|]. peel H. injection H as <- <-.
  destruct (Hc c eq_refl) as [Hci Ha]. rewrite <- E1 in Hci. exists (c.(Ipc.id) - 1). intros q k Hq.
  apply (registered_channel _ _ _ _ _ Hv) in Hq. cbn in Hq.
  destruct Hq as [[_ [(_ & -> & ->)|Hs]]|[Hq _]]; [by right| |left; auto].
  left. apply Hr1. left. exists (c.(Ipc.id) - 1), c. split; [done|]. split; [done|by right].
Qed.

Lemma create_registers pid nm n w h w' : ipc_create pid nm n w = Some (h, w') -> forall q k, registered w' q k -> registered w q k.
Proof.
  unfold ipc_create. destruct nm as [nm|]; [|by intros [= _ <-]]. destruct (bad_name _ _); [by intros [= _ <-]|].
  intros H. peel H. destruct v; [by injection H as _ <-|]. destruct (list_find _ _) as [[i c0]|]; [|by injection H as _ <-].
  peel H. destruct v1 as [hh cp]. unfold new_channel in Hv0. peel Hv0. injection Hv0 as <-. set (c := Channel _ _ _ _ _ _ _ _ _ _ _) in *.
  assert (H1 : forall q k, registered v0 q k -> registered w q k).
  { intros q k Hq. apply (registered_channel _ _ _ _ _ Hv1) in Hq. destruct Hq as [[_ [(? & _)|(? & _)]]|[? _]]; done. }
  destruct (_ =? _); [|injection H as _ <-; intros q k Hq; by apply H1].
  peel H. injection H as _ <-. intros q k Hq.
  match goal with Hx : put_channel (set_active false c) _ = _ |- _ => apply (registered_channel _ _ _ _ _ Hx) in Hq end.
  destruct Hq as [[? _]|[Hq _]]; [done|]. by apply H1.
Qed.
Lemma connect_registers pid nm n w h w' : ipc_connect pid nm n w = Some (h, w') -> forall q k, registered w' q k -> registered w q k.
Proof.
  unfold ipc_connect. destruct nm as [nm|]; [|by intros [= _ <-]]. destruct (bad_name _ _); [by intros [= _ <-]|].
  intros H. peel H. destruct v; [|by injection H as _ <-]. peel H. destruct v as [hh cp]. by injection H as _ <-.
Qed.

(** ** Process death *)

Lemma for_up_partial {S : Type} (P : Z -> S -> Prop) n i f (s s' : S) :
  (forall j t t', i <= j < i + Z.of_nat n -> P j t -> f j t = Some t' -> P (j + 1) t') ->
  P i s -> for_up n i f s = Some s' -> P (i + Z.of_nat n) s'.
Proof.
  revert i s. induction n as [|n IH]; intros i s Hf Hs H; cbn [for_up] in H.
  { injection H as <-. by rewrite Z.add_0_r. }
  peel H. replace (i + Z.of_nat (Datatypes.S n)) with (i + 1 + Z.of_nat n) by lia. apply (IH (i + 1) v); [|by apply (Hf i s); [lia|..]|done].
  intros j t t' Hj. apply Hf. lia.
Qed.

(** Closing wakes at most the receiver and the parked sender. *)
Definition channel_sleepers (c : ipc_channel) (q : Z) : Prop :=
  (c.(Ipc.waiter).(w_active) = true /\ q = c.(Ipc.waiter).(w_pid)) \/ (c.(sender).(s_active) = true /\ q = c.(sender).(s_pid)).

Lemma close_inv c s w c' s' w' : close_channel c s w = Some (c', s', w') ->
  carried (channel_sleepers c) s s' /\ c'.(Ipc.active) = false /\ w'.(w_ipc) = w.(w_ipc) /\
  w' = (if c.(Ipc.waiter).(w_active) && c.(Ipc.waiter).(w_multiplex) then w_input_cancel c.(Ipc.waiter).(w_pid) w else w).
Proof.
  unfold close_channel. intros H. peel H. destruct v as [s1 w1]. peel H. destruct v as [c1 s2]. injection H as <- <- <-.
  assert (H1 : carried (channel_sleepers c) s s1 /\ w1 = if c.(Ipc.waiter).(w_active) && c.(Ipc.waiter).(w_multiplex) then w_input_cancel c.(Ipc.waiter).(w_pid) w else w).
  { unfold fail_waiter in Hv. destruct (w_active _) eqn:Ea; cbn [negb andb] in Hv |- *; [|injection Hv as <- <-; split; [apply carried_refl|done]].
    peel Hv. destruct v as [b s3]. injection Hv as <- <-. split; [|done]. apply carried_wake in Hv1.
    eapply carried_weaken; [|exact Hv1]. intros q ->. by left. }
  destruct H1 as [H1 E1]. split; [|split; [done|split; [rewrite E1; by destruct (_ && _)|done]]].
  eapply carried_trans; [exact H1|]. unfold fail_sender in Hv0. destruct (s_active _) eqn:Es; cbn [negb] in Hv0; [|injection Hv0 as _ <-; apply carried_refl].
  peel Hv0. destruct v as [b s3]. injection Hv0 as _ <-. apply carried_wake in Hv1.
  eapply carried_weaken; [|exact Hv1]. intros q ->. by right.
Qed.

Lemma without_held p i c q k : held_by i (without_pid p c) q k -> held_by i c q k /\ q <> p.
Proof.
  unfold held_by, without_pid. destruct c as [? ? ? ? ? ? ? ? [wp ? ? wa ?] [sp ? ? sa] ?]; cbn.
  destruct wa, (Z.eqb_spec wp p); cbn; destruct sa, (Z.eqb_spec sp p); cbn; naive_solver.
Qed.

Lemma cleanup_channel_awaited p i s w s' w' : roles s w -> cleanup_channel p i (s, w) = Some (s', w') ->
  awaited s w s' w' /\ (forall q k, registered w' q k -> registered w q k /\ (q = p -> index k <> Some i)).
Proof.
  intros Hr. unfold cleanup_channel. intros H. peel H. pose proof (aget_bound _ _ _ Hv) as Hb.
  destruct (Ipc.active v) eqn:Ea; cbn [negb] in H.
  2: { injection H as <- <-. split; [by apply awaited_same|]. intros q k Hq. split; [done|]. intros -> Hi.
       destruct Hq as [(j & c & Hj & Hh)|(_ & _ & ->)]; [|done]. rewrite (held_index _ _ _ _ Hh) in Hi. injection Hi as ->.
       rewrite Hv in Hj. injection Hj as <-. destruct Hh as [? _]. congruence. }
  fold (without_pid p v) in H. destruct (without_pid_fields p v) as (F1 & F2 & F3 & F4 & F5 & F6 & F7 & F8).
  set (cw := without_pid p v) in *. peel H. destruct v0 as [[c' s1] w1]. peel H. injection H as <- <-.
  assert (Hkeep : forall q k, held_by i cw q k -> registered w q k /\ q <> p).
  { intros q k [Hq Hne]%without_held. split; [left; by exists i, v|done]. }
  destruct (owner cw =? p).
  - apply close_inv in Hv0 as (Hc & Hna & Ei & Ew).
    rewrite Ei in Hv1. apply aset_Some in Hv1 as [_ ->].
    assert (Hreg : forall q k, registered (set_ipc (set_channels (<[Z.to_nat i:=c']> w.(w_ipc).(channels)) w1.(w_ipc)) w1) q k ->
              (registered w q k /\ index k <> Some i) /\ (cw.(Ipc.waiter).(w_active) && cw.(Ipc.waiter).(w_multiplex) = true -> ~ (q = cw.(Ipc.waiter).(w_pid) /\ k = Listens))).
    { intros q k Hq. rewrite <- Ei in Hb, Hq. apply (registered_set w1 _ i c' _ _ Hb) in Hq.
      destruct Hq as [[? _]|[Hq Hi]]; [congruence|]. rewrite Ew in Hq. destruct (_ && _) eqn:Em.
      - apply input_cancel_registered in Hq as [? ?]. by split.
      - by split. }
    split.
    + split; [|by eapply carried_weaken]. eapply roles_step; [done|exact Hc|]. intros q k Hq. destruct (Hreg q k Hq) as [[Hq1 Hi] Hn].
      split; [done|]. intros [[Hwa ->]|[Hsa ->]].
      * assert (Hk : held_by i cw cw.(Ipc.waiter).(w_pid) (receiver_kind i cw)) by (split; [by rewrite F3|by left]).
        destruct (other_wait w _ i _ _ (ro_pair _ _ _ Hr) (proj1 (Hkeep _ _ Hk)) (held_index _ _ _ _ Hk) Hq1 Hi) as [Es El].
        unfold receiver_kind in Es. destruct (w_multiplex _) eqn:Em; [|done]. rewrite Hwa in Hn. by destruct Hn.
      * assert (Hk : held_by i cw cw.(sender).(s_pid) (Parks i)) by (split; [by rewrite F3|by right]).
        by destruct (other_wait w _ i _ _ (ro_pair _ _ _ Hr) (proj1 (Hkeep _ _ Hk)) eq_refl Hq1 Hi) as [Es El].
    + intros q k Hq. destruct (Hreg q k Hq) as [[Hq1 Hi] _]. by split.
  - injection Hv0 as <- <- <-. apply aset_Some in Hv1 as [_ ->].
    assert (Hreg : forall q k, registered (set_ipc (set_channels (<[Z.to_nat i:=cw]> w.(w_ipc).(channels)) w.(w_ipc)) w) q k ->
              registered w q k /\ (q = p -> index k <> Some i)).
    { intros q k Hq. apply (registered_set w _ i cw _ _ Hb) in Hq.
      destruct Hq as [Hq|[? ?]]; [|done]. destruct (Hkeep _ _ Hq) as [? ?]. split; [done|]. by intros ->. }
    split; [|done]. apply awaited_same; [done|]. intros q k Hq. by apply Hreg.
Qed.

(** After the cleanup the dying process is registered nowhere. *)
Lemma cleanup_awaited p s w s' w' : roles s w -> length w.(w_ipc).(channels) = 16%nat -> ipc_process_cleanup p s w = Some (s', w') ->
  awaited s w s' w' /\ (forall q k, registered w' q k -> registered w q k /\ q <> p).
Proof.
  intros Hr Hlen. unfold ipc_process_cleanup. intros H.
  pose proof (for_up_partial (fun j sw => awaited s w sw.1 sw.2 /\ length sw.2.(w_ipc).(channels) = 16%nat /\
    forall q k, registered sw.2 q k -> registered w q k /\ (q = p -> k <> Listens /\ forall i, index k = Some i -> j <= i))
    16 0 (cleanup_channel p) (s, w_input_cancel p w) (s', w')) as HP. cbn beta in HP.
  destruct HP as (Ha & Hl & Hreg); [| |done|].
  - intros j [s1 w1] [s2 w2] Hj ([Hr1 Hc1] & Hl1 & Hreg1) Hstep. cbn [fst snd] in *.
    destruct (cleanup_channel_awaited p j s1 w1 s2 w2 Hr1 Hstep) as [Ha2 Hreg2]. split; [by eapply awaited_trans|]. split.
    + unfold cleanup_channel in Hstep. peel Hstep. destruct (negb _); [by injection Hstep as _ <-|]. fold (without_pid p v) in Hstep.
      peel Hstep. destruct v0 as [[c3 s3] w3]. peel Hstep. injection Hstep as _ <-. cbn. rewrite (aset_length _ _ _ _ Hv1).
      destruct (_ =? p); [apply close_inv in Hv0 as (_ & _ & -> & _)|injection Hv0 as _ _ <-]; done.
    + intros q k Hq. destruct (Hreg2 q k Hq) as [Hq1 Hi]. destruct (Hreg1 q k Hq1) as [Hq0 Hj0]. split; [done|]. intros ->.
      destruct (Hj0 eq_refl) as [Hnl Hle]. split; [done|]. intros i Ei. specialize (Hle i Ei). specialize (Hi eq_refl). rewrite Ei in Hi.
      assert (i <> j) by congruence. lia.
  - split; [apply awaited_same; [done|]; intros q k Hq; by destruct (input_cancel_registered _ _ _ _ Hq)|]. split; [done|].
    intros q k Hq. apply input_cancel_registered in Hq as [Hq Hn]. split; [done|]. intros ->. split; [naive_solver|].
    intros i Ei. cbn [snd] in *. destruct Hq as [(j & c & Hj & Hh)|(_ & _ & ->)]; [|done]. rewrite (held_index _ _ _ _ Hh) in Ei.
    injection Ei as ->. apply aget_bound in Hj. lia.
  - split; [done|]. intros q k Hq. cbn [snd fst] in *. destruct (Hreg q k Hq) as [Hq0 Hp]. split; [done|]. intros ->.
    destruct (Hp eq_refl) as [Hnl Hle]. destruct Hq as [(j & c & Hj & Hh)|(_ & _ & ->)]; [|done].
    specialize (Hle j (held_index _ _ _ _ Hh)). apply aget_bound in Hj. lia.
Qed.

(** The release of a process touches the registrations through the cleanup alone. *)
Lemma release_awaited p s w s' w' : roles s w -> length w.(w_ipc).(channels) = 16%nat -> 1 <= p < 8 ->
  userspace_release_process p s w = Some (s', w') ->
  awaited s w s' w' /\ (forall q k, registered w' q k -> registered w q k /\ q <> p).
Proof.
  intros Hr Hlen Hp. unfold userspace_release_process. rewrite (proj2 (bad_pid_spec p ltac:(lia))) by lia.
  intros H. peel H. destruct v as [s1 w1]. destruct (cleanup_awaited p s w s1 w1 Hr Hlen Hv) as [[Hr1 Hc1] Hreg]. clear Hv.
  peel H. destruct v0 as [m sf]. peel H. injection H as <- Ew.
  assert (Hsub : forall q k, registered w' q k -> registered w1 q k).
  { intros q k. rewrite <- Ew. apply registered_same; unfold w_close_all in Hv; peel Hv;
      match type of Hv with (let (_, _) := ?x in _) = _ => destruct x end; by injection Hv as <-. }
  split; [split; [by eapply roles_less|done]|]. intros q k Hq. by apply Hreg, Hsub.
Qed.

(** ** Input and timeouts *)

Lemma cancel_both p w q k : one_wait w -> registered (w_input_cancel p (w_ipc_cancel p w)) q k ->
  registered w q k /\ (q = p -> exists i, k = Parks i).
Proof.
  intros Hp Hq. apply input_cancel_registered in Hq as [Hq Hn]. apply (ipc_cancel_registered p w) in Hq as [Hq Hnr]; [|done].
  split; [done|]. intros ->. destruct k; [destruct Hnr; by split..|by exists i|by destruct Hn].
Qed.

Lemma enqueue_waiter ev i b i' : input_enqueue ev i = Some (b, i') -> i'.(Input.waiter) = i.(Input.waiter).
Proof.
  assert (Happ : forall i0, (let next := (i0.(write_index) + 1) mod INPUT_QUEUE_CAPACITY in
      if next =? i0.(read_index) then Some (false, count_input 1 0 0 i0)
      else q ← i0.(queue).[i0.(write_index) <- ev]; Some (true, set_queue q i0.(read_index) next i0)) = Some (b, i') ->
      i'.(Input.waiter) = i0.(Input.waiter)).
  { intros i0. cbv zeta. destruct (_ =? _); [by intros [= _ <-]|]. intros H. peel H. by injection H as _ <-. }
  unfold input_enqueue. destruct (_ && _); [|apply Happ]. intros H. peel H. destruct (_ =? _); [|by apply Happ]. peel H. by injection H as _ <-.
Qed.
Lemma poll_waiter i ev i' : input_poll i = Some (ev, i') -> i'.(Input.waiter) = i.(Input.waiter).
Proof. unfold input_poll. destruct (_ =? _); [by intros [= _ <-]|]. intros H. peel H. by injection H as _ <-. Qed.

Lemma publish_awaited padding ev s w b s' w' : roles s w -> input_publish padding ev s w = Some (b, s', w') -> awaited s w s' w'.
Proof.
  intros Hr. unfold input_publish. destruct ev as [ev|]; [|intros [= _ <- <-]; by apply awaited_same].
  destruct (_ || _); [intros [= _ <- <-]; by apply awaited_same|]. intros H. peel H. destruct v as [[dlv s1] w1].
  assert (H1 : awaited s w s1 w1).
  { clear H. destruct (iw_active _) eqn:Ea; [|injection Hv as _ <- <-; by apply awaited_same].
    set (p := w.(w_input).(Input.waiter).(iw_pid)) in *. set (w2 := w_ipc_cancel p _) in Hv.
    assert (Hgone : forall q k, registered w2 q k -> registered w q k /\ q <> p).
    { assert (Hl : registered w p Listens) by (by right). set (w3 := set_input _ w) in w2.
      assert (Hw3 : forall q k, registered w3 q k -> registered w q k /\ k <> Listens).
      { intros q k [(j & c & Hj & Hh)|(Hx & _)]; [|done]. split; [left; by exists j, c|]. intros ->. by apply held_index in Hh. }
      assert (Hone : one_wait w3) by (intros q k k' Hk Hk'; apply (ro_pair _ _ _ Hr q); by apply Hw3).
      intros q k Hq. apply (ipc_cancel_registered p w3 q k Hone) in Hq as [Hq Hnr]. destruct (Hw3 q k Hq) as [Hq0 Hnl].
      split; [done|]. intros ->. pose proof (ro_pair _ _ _ Hr _ _ _ Hl Hq0) as Hcm. destruct k; cbn in Hcm; try done. by destruct Hnr. }
    clearbody w2. peel Hv. destruct v as [ok m]. destruct ok; cbn [negb] in Hv.
    2: { injection Hv as _ <- <-. apply awaited_same; [done|]. intros q k Hq. apply Hgone. exact Hq. }
    peel Hv. destruct v as [ok s2]. match goal with Hx : scheduler_wake _ _ _ _ = _ |- _ => apply carried_wake in Hx end.
    destruct ok; cbn [negb] in Hv; injection Hv as _ <- <-; (eapply awaited_wake; [done..|]); intros q k Hq; apply Hgone; exact Hq. }
  destruct dlv; [by injection H as _ <- <-|]. peel H. destruct v as [r i]. injection H as _ <- <-.
  destruct H1 as [H1 H2]. split; [|done]. apply (roles_less _ _ w1); [done|]. intros q k. apply registered_same; [done|].
  by eapply enqueue_waiter.
Qed.

(** ** The handlers that reach the subsystems *)

Lemma expire_awaited p s w s' w' : roles s w -> expire_wait p (s, w) = Some (s', w') -> awaited s w s' w'.
Proof.
  intros Hr. unfold expire_wait. intros H. peel H. destruct (_ || _ || _) eqn:E; [injection H as <- <-; by apply awaited_same|].
  peel H. injection H as <- <-. apply orb_false_iff in E as [[Eb Et]%orb_false_iff _]. apply negb_false_iff in Eb, Et. apply bool_decide_eq_true in Eb.
  assert (Hc : carried (fun q => q = p) s v1).
  { eapply carried_trans; [by eapply carried_write|]. unfold write_frame in Hv0. peel Hv0. injection Hv0 as <-.
    apply (carried_update _ _ _ _ _ Hv1). intros t Ht. split; [by left|]. cbn [set_frames tasks] in Ht.
    rewrite Hv in Ht. injection Ht as <-. by apply lease_state; rewrite ?Eb. }
  eapply awaited_wake; [done|exact Hc|]. intros q k Hq. apply cancel_both in Hq as [Hq Hp]; [|apply Hr].
  split; [done|]. intros ->. destruct (Hp eq_refl) as (i & ->). destruct (ro_doze _ _ _ Hr _ _ Hq) as [[]|(t & Ht & Hd)].
  rewrite Hv in Ht. injection Ht as <-. destruct Hd as [?|(_ & _ & ?)]; congruence.
Qed.

(** A step that may also recycle the slots of ended processes that have a parent. *)
Record aged (s s' : sched) : Prop := {
  ag_lease : forall q t', s'.(tasks).[q] = Some t' -> t'.(state) <> UNUSED -> exists t, s.(tasks).[q] = Some t /\ same_lease t t';
  ag_orphan : forall q t, s.(tasks).[q] = Some t -> t.(parent_pid) = 0 -> exists t', s'.(tasks).[q] = Some t' /\ same_lease t t';
  ag_space : space_ok s -> space_ok s';
  ag_init : s'.(initialized) = s.(initialized)
}.
Lemma carried_aged X s s' : carried X s s' -> aged s s'.
Proof. intros H. pose proof H as [D L N C I]. split; [auto|intros q t Ht _; by eapply carried_forward|done..]. Qed.
Lemma aged_trans s1 s2 s3 : aged s1 s2 -> aged s2 s3 -> aged s1 s3.
Proof.
  intros [L1 O1 C1 I1] [L2 O2 C2 I2]. split; [| |auto|congruence].
  - intros q t' Ht' Hu. destruct (L2 q t' Ht' Hu) as (t & Ht & Hl). destruct (L1 q t Ht) as (t0 & Ht0 & Hl0).
    { intros E. apply Hu. by apply (sl_live _ _ Hl). }
    exists t0. split; [done|]. by eapply lease_trans.
  - intros q t Ht Hp. destruct (O1 q t Ht Hp) as (t1 & Ht1 & Hl1). destruct (O2 q t1 Ht1) as (t2 & Ht2 & Hl2); [by rewrite (sl_parent _ _ Hl1)|].
    exists t2. split; [done|]. by eapply lease_trans.
Qed.

Definition retired (s : sched) (w : subsystems) (s' : sched) (w' : subsystems) : Prop := roles s' w' /\ aged s s'.
Lemma awaited_retired s w s' w' : awaited s w s' w' -> retired s w s' w'.
Proof. intros [Hr Hc]. split; [done|by eapply carried_aged]. Qed.
Lemma retired_same s w w' : roles s w -> (forall q k, registered w' q k -> registered w q k) -> retired s w s w'.
Proof. intros Hr H. by apply awaited_retired, awaited_same. Qed.
Lemma retired_trans s1 w1 s2 w2 s3 w3 : carried anybody s1 s2 -> retired s2 w2 s3 w3 -> retired s1 w1 s3 w3.
Proof. intros H [Hr Hc]. split; [done|]. eapply aged_trans; [by eapply carried_aged|done]. Qed.

(** A slot is recycled once nothing is registered for it. *)
Lemma recycle_retired p s w s1 w1 s' t : awaited s w s1 w1 -> (forall q k, registered w1 q k -> q <> p) ->
  s.(tasks).[p] = Some t -> t.(parent_pid) <> 0 ->
  update_task p (fun _ => empty_task p) s1 = Some s' -> retired s w s' w1.
Proof.
  intros [Hr Hc] Hn Ht Hpar Hu. pose proof Hc as [D L N C I]. destruct (update_inv _ _ _ _ Hu) as (t1 & Ht1 & E).
  pose proof (aget_bound _ _ _ Ht1) as Hb.
  assert (Hget : forall q, s'.(tasks).[q] = if decide (p = q) then Some (empty_task p) else s1.(tasks).[q]).
  { intros q. rewrite E. cbn [set_tasks tasks]. rewrite aget_insert by done. repeat case_decide; congruence. }
  split.
  - split; [|apply Hr]. intros q k Hq. destruct (ro_doze _ _ _ Hr q k Hq) as [[]|(u & Hu' & Hd)]. right. exists u. split; [|done].
    rewrite Hget, decide_False; [done|]. intros <-. by apply (Hn p k).
  - split.
    + intros q t' Ht'. rewrite Hget in Ht'. case_decide; [by injection Ht' as <-|]. intros _. by apply L.
    + intros q u Hq Hp. destruct (carried_forward _ _ _ _ _ Hc Hq) as (u' & Hu' & Hl). exists u'. split; [|done].
      rewrite Hget, decide_False; [done|]. intros <-. congruence.
    + intros Hs u. rewrite E. cbn [set_tasks tasks current_pid cr3]. rewrite aget_insert by done. case_decide; [by intros [= <-]|]. by apply (C Hs).
    + by rewrite E.
Qed.

Section services.
Context (frames : list Z).

Lemma ko_length w : kernel_ok frames w -> length w.(w_ipc).(channels) = 16%nat.
Proof. intros Hk. apply (sw_ipc _ (ko_subsystems _ _ Hk)). Qed.

Lemma wake_parent_retired child s w s' w' : kernel_ok frames w -> roles s w -> 1 <= child < 8 ->
  wake_waiting_parent child s w = Some (s', w') -> retired s w s' w'.
Proof.
  intros Hk Hr Hb. unfold wake_waiting_parent. intros H. peel H. destruct (_ || _) eqn:Ep; [injection H as <- <-; by apply retired_same|].
  apply orb_false_iff in Ep as [Ep _]. apply Z.eqb_neq in Ep.
  peel H. destruct (_ || _ || _) eqn:E; [injection H as <- <-; by apply retired_same|].
  apply orb_false_iff in E as [[Eb Et]%orb_false_iff _]. apply negb_false_iff, bool_decide_eq_true in Eb. apply Z.eqb_neq in Et.
  peel H. destruct v3 as [s3 w3]. peel H. injection H as <- <-.
  assert (Hc : carried nobody s v2).
  { eapply carried_trans; [by eapply carried_write|]. unfold write_frame in Hv1. peel Hv1. injection Hv1 as <-.
    apply (carried_update _ _ _ _ _ Hv2). intros t Ht. cbn [set_frames tasks] in Ht. rewrite Hv0 in Ht. injection Ht as <-.
    split; [right|by apply lease_state; rewrite ?Eb]. intros k [?|(_ & ? & _)]; congruence. }
  destruct (release_awaited child v2 w s3 w3 ltac:(by eapply roles_carried) (ko_length _ Hk) Hb Hv3) as [Ha Hreg].
  assert (H3 : awaited s w s3 w3) by (by eapply awaited_trans; [eapply carried_nobody|]).
  eapply recycle_retired; [exact H3| |exact Hv|exact Ep|done]. intros q k Hq. by apply (Hreg q k).
Qed.

Lemma reap_retired parent child s w r s' w' : kernel_ok frames w -> roles s w -> 0 <= child -> parent <> 0 ->
  scheduler_reap parent child s w = Some (r, s', w') -> retired s w s' w'.
Proof.
  intros Hk Hr Hb Hpar. unfold scheduler_reap, SCHEDULER_PROCESS_LIMIT. destruct (_ || _) eqn:Eb; [intros [= _ <- <-]; by apply retired_same|].
  apply orb_false_iff in Eb as [Ez El]. apply Z.eqb_neq in Ez. apply Z.leb_gt in El. intros H. peel H.
  destruct (_ || _) eqn:Es; [injection H as _ <- <-; by apply retired_same|]. apply orb_false_iff in Es as [Es _]. apply negb_false_iff, Z.eqb_eq in Es.
  peel H. destruct v0 as [s3 w3]. peel H. injection H as _ <- <-.
  destruct (release_awaited child s w s3 w3 Hr (ko_length _ Hk) ltac:(lia) Hv0) as [Ha Hreg].
  eapply recycle_retired; [exact Ha| |exact Hv|by rewrite Es|done]. intros q k Hq. by apply (Hreg q k).
Qed.
End services.
