(* ===== verification/SystemInvariant.v ===== *)
(** The invariant of the scheduler and the subsystems together, and that every
    handler of the scheduler, including those that kill and recycle processes,
    returns and keeps it. *)

From stdpp Require Import gmap.
From S2P Require Import Prelude Surface SurfaceSpec Capability CapabilitySpec Input Ipc IpcSpec PhysicalMemory UserMemory UserMemorySpec.
From S2P Require Import FrameOwnership FrameInvariant MemoryInvariant SurfaceMapping Scheduler SchedulerSpec Kernel Spawn SpawnSpec KernelSpec ProcessExit NewHandles KernelMemory WaitRoles.

Definition leases (s : sched) (m : user_memory) : Prop := forall q t, s.(tasks).[q] = Some t -> tenant m q t.

(** A program can be loaded into every slot from every address space, and after the first
    two, which are never free, no slot is larger than an earlier one. *)
Definition homes_fit (l : list userspace_memory) : Prop :=
  (forall q p, 1 <= q -> l.[q] = Some p -> slot_addresses p /\ good_slot p = Some true /\ slot_low p) /\
  (forall q q' p p', 3 <= q -> q <= q' -> l.[q] = Some p -> l.[q'] = Some p' -> p'.(code_page_count) <= p.(code_page_count)).

Definition vacant (s : sched) (m : user_memory) : Prop := forall q t, s.(tasks).[q] = Some t -> 1 <= q -> t.(state) = UNUSED ->
  m.(process_memory_used).[q] = Some false /\ m.(large_code_page_table).[q] = Some 0.

(** Tasks and slots agree: live tasks have their slots, other slots are free and hold no
    large executable; the first two processes have no parent and are never reaped. *)
Record tenants (s : sched) (m : user_memory) : Prop := {
  tn_leases : leases s m;
  tn_vacant : vacant s m;
  tn_founders : forall q, q = 1 \/ q = 2 -> exists t, s.(tasks).[q] = Some t /\ t.(parent_pid) = 0 /\ t.(state) <> UNUSED;
  tn_homes : homes_fit m.(process_memory)
}.

(** A file handle names a file (ids are unsigned), and the handle on the surface
    service itself, which names no surface, does not allow reading. *)
Definition sound (g : capability_payload) : Prop :=
  (g.(service) = CAPABILITY_SERVICE_FILE -> 0 <= g.(object_id)) /\
  (g.(service) = CAPABILITY_SERVICE_SURFACE -> g.(object_id) = 0 -> Z.land g.(rights) CAPABILITY_RIGHT_READ = 0).
Definition all_sound (c : caps) : Prop := forall p h g, holds c p h g -> sound g.
Lemma sound_kept c c' : all_sound c -> opened sound c c' -> all_sound c'.
Proof. intros H Hn p h g Hh. destruct (Hn p h g Hh); [by apply (H p h)|done]. Qed.

(** The calls that open handles open sound ones. *)
Lemma opens_sound op g : match op with CapOpenFile _ obj => 0 <= obj | _ => True end -> opens op g -> sound g.
Proof.
  unfold sound. destruct op; cbn; try done.
  - intros _ [-> Hr]. cbn. split; [by intros ->|]. intros ->. done.
  - intros Ho ->. by split.
  - by intros _ ->.
  - by intros _ [-> Hi].
  - by intros _ (x & -> & Hi).
Qed.

Lemma cleanup_caps p s w s' w' : ipc_process_cleanup p s w = Some (s', w') -> w'.(w_caps) = w.(w_caps).
Proof.
  unfold ipc_process_cleanup. intros H.
  apply (for_up_partial (fun _ sw => sw.2.(w_caps) = w.(w_caps))) in H; [exact H| |done].
  intros j [s1 w1] [s2 w2] _ Hc Hx. cbn [snd] in *. unfold cleanup_channel in Hx. peel Hx. destruct (negb _); [by injection Hx as _ <-|].
  fold (without_pid p v) in Hx. peel Hx. destruct v0 as [[c3 s3] w3]. peel Hx. injection Hx as _ <-. cbn.
  destruct (_ =? p); [|by injection Hv0 as _ _ <-]. apply close_inv in Hv0 as (_ & _ & _ & ->). by destruct (_ && _).
Qed.
Lemma close_all_files p w w' : caps_wf w.(w_caps) -> w_close_all p w = Some w' -> opened sound w.(w_caps) w'.(w_caps).
Proof.
  intros Hc. unfold w_close_all. intros H. peel H. destruct v as [c s]. injection H as <-.
  by eapply close_all_opens.
Qed.
Lemma release_files p s w s' w' : caps_wf w.(w_caps) -> userspace_release_process p s w = Some (s', w') -> opened sound w.(w_caps) w'.(w_caps).
Proof.
  intros Hc. unfold userspace_release_process. destruct (bad_pid p); [intros [= _ <-]; apply opened_refl|]. intros H. peel H.
  destruct v as [s1 w1]. peel H. destruct v0 as [m sf]. peel H. injection H as _ <-. apply cleanup_caps in Hv. rewrite <- Hv in *.
  by apply close_all_files in Hv0.
Qed.

(** The invariant; [T] says how tasks and slots correspond. *)
Record core_with (T : sched -> user_memory -> Prop) (frames : list Z) (s : sched) (w : subsystems) : Prop := {
  co_sched : sched_wf s;
  co_init : s.(initialized) = true;
  co_kernel : kernel_ok frames w;
  co_roles : roles s w;
  co_space : space_ok s;
  co_tenants : T s w.(w_memory);
  co_sound : all_sound w.(w_caps)
}.
Arguments co_sched {T}. Arguments co_init {T}. Arguments co_kernel {T}. Arguments co_roles {T}.
Arguments co_space {T}. Arguments co_tenants {T}. Arguments co_sound {T}.
(** While the system starts up, and when it runs. *)
Notation core_base := (core_with leases).
Notation core_ok := (core_with tenants).
Lemma core_ok_base frames s w : core_ok frames s w -> core_base frames s w.
Proof. intros [H1 H2 H3 H4 H5 H6 H7]. by split; try apply H6. Qed.

Definition founders (s : sched) : Prop := forall q, q = 1 \/ q = 2 -> exists t, s.(tasks).[q] = Some t /\ t.(parent_pid) = 0 /\ t.(state) <> UNUSED.
Lemma core_settled frames s w : core_base frames s w -> vacant s w.(w_memory) -> founders s -> homes_fit w.(w_memory).(process_memory) -> core_ok frames s w.
Proof. intros [H1 H2 H3 H4 H5 H6 H7] Hv Hf Hh. by split. Qed.

Lemma leases_step X s s' m m' : leases s m -> carried X s s' -> homes_kept m m' -> leases s' m'.
Proof.
  intros Ht Hc (E1 & E2 & _) q t' Hq Hq1 Hu. destruct (ca_lease _ _ _ Hc q t' Hq) as (t & Hqt & [L1 L2 L3]).
  rewrite E1, E2, L3 by done. apply Ht; [done|done|]. tauto.
Qed.
Lemma tenants_step X s s' m m' : tenants s m -> carried X s s' -> homes_kept m m' -> tenants s' m'.
Proof.
  intros [T1 T2 T3 T4] Hc Hh. pose proof Hh as (E1 & E2 & E3). split.
  - by eapply leases_step.
  - intros q t' Hq Hq1 Hu. destruct (ca_lease _ _ _ Hc q t' Hq) as (t & Hqt & Hl). destruct (T2 q t Hqt Hq1) as [V1 V2]; [by apply (sl_live _ _ Hl)|].
    rewrite E1, E3 by done. done.
  - intros q Hq. destruct (T3 q Hq) as (t & Ht & Hp & Hu). destruct (carried_forward _ _ _ _ _ Hc Ht) as (t' & Ht' & [L1 L2 L3]).
    exists t'. split; [done|]. split; [congruence|tauto].
  - by rewrite E2.
Qed.

Section invariant.
Context (frames : list Z).

(** A step that keeps the slots. *)
Lemma core_step s w s' w' : core_ok frames s w -> sched_wf s' -> kernel_ok frames w' -> awaited s w s' w' ->
  homes_kept w.(w_memory) w'.(w_memory) -> opened sound w.(w_caps) w'.(w_caps) -> core_ok frames s' w'.
Proof.
  intros [H1 H2 H3 H4 H5 H6 H7] Hs Hk [Hr Hc] Hh Hn. split; try done.
  - by rewrite (ca_init _ _ _ Hc).
  - by apply (ca_space _ _ _ Hc).
  - by eapply tenants_step.
  - by eapply sound_kept.
Qed.

Lemma core_carried s w s' : core_ok frames s w -> sched_wf s' -> carried nobody s s' -> core_ok frames s' w.
Proof.
  intros Hc Hs Hca. eapply core_step; [done..|apply Hc| |apply homes_refl|apply opened_refl]. split; [eapply roles_carried; [apply Hc|done]|by apply carried_nobody].
Qed.

(** ** The caller *)

Record caller_ok (s : sched) (w : subsystems) (t : task) (p : userspace_memory) : Prop := {
  cl_task : s.(tasks).[s.(current_pid)] = Some t;
  cl_running : t.(state) = RUNNING;
  cl_used : w.(w_memory).(process_memory_used).[s.(current_pid)] = Some true;
  cl_slot : w.(w_memory).(process_memory).[s.(current_pid)] = Some p;
  cl_space : s.(cr3) = p.(UserMemory.address_space);
  cl_free : forall k, ~ registered w s.(current_pid) k
}.

Lemma core_caller s w : core_ok frames s w -> 1 <= s.(current_pid) -> exists t p, caller_ok s w t p.
Proof.
  intros [Hs Hi Hk Hr Hsp Ht _] Hcur. destruct (wf_running _ Hs) as (t & Hct & Hrun).
  destruct (tn_leases _ _ Ht _ _ Hct Hcur) as (Hu & p & Hp & Ha); [congruence|]. exists t, p. split; try done.
  - rewrite <- Ha. apply Hsp; [done|congruence].
  - eapply awake_unregistered; [done..|congruence|congruence].
Qed.

Lemma core_users s w : core_ok frames s w -> 1 <= s.(current_pid) -> s.(users_running) = true /\ 1 <= s.(current_pid) < 8.
Proof.
  intros Hc Hcur. rewrite (wf_users _ (co_sched _ _ _ Hc)). pose proof (core_cur _ (wf_core _ (co_sched _ _ _ Hc))).
  split; [|lia]. by rewrite (proj2 (Z.eqb_neq _ 0)) by lia.
Qed.

(** ** Yielding and blocking *)

Lemma write_core s w a f : core_ok frames s w -> is_Some (s.(Scheduler.frames) !! a) ->
  exists s', write_frame a f s = Some s' /\ core_ok frames s' w /\ s'.(current_pid) = s.(current_pid) /\
    s'.(tasks) = s.(tasks) /\ is_Some (s'.(Scheduler.frames) !! a).
Proof.
  intros Hc Ha. destruct (write_frame_wf s a f (co_sched _ _ _ Hc) Ha) as (s' & E & Hs & _). exists s'. split; [done|].
  split; [|unfold write_frame in E; peel E; injection E as <-; split; [done|split; [done|]]].
  - eapply core_carried; [done..|by eapply carried_write].
  - cbn. rewrite lookup_insert, decide_True by done. done.
Qed.

Lemma yield_core s w frame : core_ok frames s w -> is_Some (s.(Scheduler.frames) !! frame) ->
  exists f s', scheduler_on_yield frame s = Some (f, s') /\ core_ok frames s' w.
Proof.
  intros Hc Hf. destruct (scheduler_on_yield_ok s frame (co_sched _ _ _ Hc) Hf) as (f & s' & E & Hs & _). exists f, s'. split; [done|].
  eapply core_carried; [done..|]. eapply carried_yield; [apply (co_sched _ _ _ Hc)|done].
Qed.

(** The caller sleeps on the wait it has just registered ([w]). *)
Lemma core_asleep s w w' s' (P : wait_kind -> Prop) :
  core_ok frames s w -> kernel_ok frames w' -> homes_kept w.(w_memory) w'.(w_memory) -> opened sound w.(w_caps) w'.(w_caps) -> 1 <= s.(current_pid) ->
  one_wait w' -> (forall q k, registered w' q k -> registered w q k \/ (q = s.(current_pid) /\ P k)) ->
  sched_wf s' -> falls_asleep s s' P -> core_ok frames s' w'.
Proof.
  intros [Hs Hi Hk Hr Hsp Ht Hfi] Hk' Hh Hn Hcur Ho Hreg Hs' [Hca Hd]. split; try done.
  - by rewrite (ca_init _ _ _ Hca).
  - split; [|done]. intros q k Hq. right. destruct (Hreg q k Hq) as [Hq0|[-> HP]]; [|by apply Hd].
    destruct (ro_doze _ _ _ Hr q k Hq0) as [[]|Hz]. by destruct (ca_doze _ _ _ Hca q k Hz).
  - by apply (ca_space _ _ _ Hca).
  - by eapply tenants_step.
  - by eapply sound_kept.
Qed.

(** Adding one wait of a process without any keeps the pairing. *)
Lemma one_wait_add w w' pid (P : wait_kind -> Prop) :
  one_wait w -> (forall k, ~ registered w pid k) -> (forall k k', P k -> P k' -> compatible k k') ->
  (forall q k, registered w' q k -> registered w q k \/ (q = pid /\ P k)) -> one_wait w'.
Proof.
  intros Ho Hn HP Hreg q k k' Hk Hk'. destruct (Hreg q k Hk) as [H1|[-> H1]], (Hreg _ k' Hk') as [H2|[E2 H2]].
  - by apply (Ho q).
  - subst q. by apply Hn in H1.
  - by apply Hn in H2.
  - by apply HP.
Qed.

(** ** Children *)

Lemma recycle_tenants s m s1 s' m' m1 p t : tenants s m -> carried anybody s s1 -> others_same p m m1 ->
  m' = set_used (<[Z.to_nat p := false]> m.(process_memory_used)) m1 -> 1 <= p < Z.of_nat (length m.(process_memory_used)) ->
  m1.(large_code_page_table).[p] = Some 0 -> s.(tasks).[p] = Some t -> t.(parent_pid) <> 0 ->
  update_task p (fun _ => empty_task p) s1 = Some s' -> tenants s' m'.
Proof.
  intros [T1 T2 T3 T4] Hc Hos -> Hp Hz Ht0 Hpar (t1 & Ht1 & ->)%update_inv. pose proof (aget_bound _ _ _ Ht1) as Hb.
  split; cbn [set_tasks tasks set_used process_memory_used process_memory large_code_page_table]; rewrite ?(os_process _ _ _ Hos).
  - intros q t' Hq Hq1 Hu. cbn [set_tasks tasks] in Hq. rewrite aget_insert in Hq by done. case_decide as E; [by injection Hq as <-|].
    destruct (ca_lease _ _ _ Hc q t' Hq) as (t2 & Hqt & [L1 L2 L3]). destruct (T1 q t2 Hqt Hq1) as [H1 H2]; [tauto|].
    cbn [set_used process_memory_used process_memory]. rewrite insert_other, L3, (os_process _ _ _ Hos) by (done || lia). done.
  - intros q t' Hq Hq1 Hu. cbn [set_tasks tasks set_used process_memory_used large_code_page_table] in Hq |- *. rewrite aget_insert in Hq by done. rewrite aget_insert by lia. case_decide as E; [by subst q|].
    destruct (ca_lease _ _ _ Hc q t' Hq) as (t2 & Hqt & Hl). rewrite (os_ltable _ _ _ Hos) by done. apply (T2 q t2 Hqt Hq1). by apply (sl_live _ _ Hl).
  - intros q Hq. destruct (T3 q Hq) as (t2 & Ht2 & Hp2 & Hu2). destruct (carried_forward _ _ _ _ _ Hc Ht2) as (t' & Ht' & [L1 L2 L3]).
    exists t'. rewrite aget_insert by done. rewrite decide_False by (intros ->; congruence). split; [done|]. split; [congruence|tauto].
  - done.
Qed.

Lemma released_large m L g p : frames_inv frames m L g -> 1 <= p < 8 -> g.[p] = Some no_frames -> m.(large_code_page_table).[p] = Some 0.
Proof.
  intros Hi Hp Hg. destruct (fi_owned _ _ _ _ Hi p _ ltac:(lia) Hg) as (d & _ & Hown). exact (large_table _ _ _ _ (owned_large _ _ _ _ Hown)).
Qed.

(** Releasing a process and recycling its slot. *)
Lemma recycle_ok s w p s1 w1 s' t : sched_core s -> kernel_ok frames w -> roles s w -> tenants s w.(w_memory) -> 1 <= p < 8 ->
  s.(tasks).[p] = Some t -> t.(parent_pid) <> 0 ->
  userspace_release_process p s w = Some (s1, w1) -> update_task p (fun _ => empty_task p) s1 = Some s' ->
  retired s w s' w1 /\ tenants s' w1.(w_memory) /\ opened sound w.(w_caps) w1.(w_caps).
Proof.
  intros Hs Hk Hr Ht Hp Htp Hpar E Hu. destruct (release_awaited p s w s1 w1 Hr (ko_length _ _ Hk) Hp E) as [Ha Hreg].
  split; [eapply recycle_retired; [exact Ha| |exact Htp|exact Hpar|done]; intros q k Hq; by apply (Hreg q k)|].
  split; [|by eapply release_files; [apply (ko_subsystems _ _ Hk)|]].
  destruct (release_process_ok frames p s w Hk Hs Hp) as (s2 & w2 & E2 & _ & _ & _ & (a & L & g & Hm & Hg) & _ & m & Hos & Em).
  rewrite E in E2. injection E2 as <- <-. eapply recycle_tenants; [exact Ht|apply Ha|exact Hos|exact Em| | |exact Htp|exact Hpar|exact Hu].
  - rewrite (ma_used _ (sw_memory _ (ko_subsystems _ _ Hk))). lia.
  - pose proof (released_large _ _ _ _ (mo_frames _ _ _ _ _ _ _ Hm) Hp Hg) as Hz. by rewrite Em in Hz.
Qed.

Lemma wake_parent_ok child s w s' w' : sched_core s -> kernel_ok frames w -> roles s w -> tenants s w.(w_memory) -> 1 <= child < 8 ->
  wake_waiting_parent child s w = Some (s', w') -> retired s w s' w' /\ tenants s' w'.(w_memory) /\ opened sound w.(w_caps) w'.(w_caps).
Proof.
  intros Hs Hk Hr Ht Hb H. split; [by eapply wake_parent_retired|]. revert H. unfold wake_waiting_parent. intros H. peel H.
  destruct (_ || _) eqn:Ep; [injection H as <- <-; split; [done|apply opened_refl]|]. apply orb_false_iff in Ep as [Ep _]. apply Z.eqb_neq in Ep. peel H.
  destruct (_ || _ || _) eqn:E; [injection H as <- <-; split; [done|apply opened_refl]|].
  apply orb_false_iff in E as [[Eb Et]%orb_false_iff _]. apply negb_false_iff, bool_decide_eq_true in Eb. apply Z.eqb_neq in Et.
  peel H. destruct v3 as [s3 w3]. peel H. injection H as <- <-.
  pose proof Hv1 as Hw1. unfold write_frame in Hw1. peel Hw1. injection Hw1 as <-. set (s1 := set_frames _ s) in *.
  assert (Hc : carried nobody s v2).
  { eapply carried_trans; [by eapply carried_write|]. apply (carried_update _ _ _ _ _ Hv2). intros t Htk. cbn [s1 set_frames tasks] in Htk.
    rewrite Hv0 in Htk. injection Htk as <-. split; [right|by apply lease_state; rewrite ?Eb]. intros k [?|(_ & ? & _)]; congruence. }
  assert (Hc2 : sched_core v2).
  { destruct (update_inv _ _ _ _ Hv2) as (t & Htk & ->). cbn [s1 set_frames tasks] in Htk. rewrite Hv0 in Htk. injection Htk as <-.
    assert (Hs1 : sched_core s1) by (apply core_frames_grow; [done|]; intros; by apply frames_insert_grow).
    apply (core_update s1 _ v0); [done..|]. pose proof (core_tasks _ Hs1 _ _ Hv0) as [K1 K2 K3 K4 K5 K6].
    split; try done; try (by right). intros Hx. destruct (K4 Hx) as [?|[? ?]]; congruence. }
  destruct (carried_forward _ _ _ _ _ Hc Hv) as (vc & Hvc & Hlc).
  eapply (recycle_ok v2 w child s3 w3 _ vc); try done; [by eapply roles_carried| |by rewrite (sl_parent _ _ Hlc)].
  eapply tenants_step; [exact Ht|exact Hc|apply homes_refl].
Qed.

Lemma reap_core s w parent child : core_ok frames s w -> 0 <= child -> parent <> 0 ->
  exists r s' w', scheduler_reap parent child s w = Some (r, s', w') /\ core_ok frames s' w' /\ same_core s s' /\
    (forall a, is_Some (s.(Scheduler.frames) !! a) -> is_Some (s'.(Scheduler.frames) !! a)).
Proof.
  intros Hc Hch Hpar. pose proof Hc as [H1 H2 H3 H4 H5 H6 H7].
  destruct (scheduler_reap_ok s w parent child H1 H3 Hch) as (r & s' & w' & E & Hs & Hk & Hsame & Hgrow & _).
  exists r, s', w'. split; [done|]. split; [|done].
  assert (Hx : retired s w s' w' /\ tenants s' w'.(w_memory) /\ opened sound w.(w_caps) w'.(w_caps)).
  { revert E. unfold scheduler_reap, SCHEDULER_PROCESS_LIMIT. destruct (_ || _) eqn:Eb; [intros [= _ <- <-]; split; [by apply retired_same|split; [done|apply opened_refl]]|].
    apply orb_false_iff in Eb as [Ez El]. apply Z.eqb_neq in Ez. apply Z.leb_gt in El. intros E. peel E.
    destruct (_ || _) eqn:Es; [injection E as _ <- <-; split; [by apply retired_same|split; [done|apply opened_refl]]|]. peel E. destruct v0 as [s3 w3]. peel E. injection E as _ <- <-.
    apply orb_false_iff in Es as [Es _]. apply negb_false_iff, Z.eqb_eq in Es.
    eapply (recycle_ok s w child s3 w3 _ v); try done; [apply H1|lia|by rewrite Es]. }
  destruct Hx as ([Hr' Hca] & Ht' & Hn'). split; try done; [by rewrite (ag_init _ _ Hca)|by apply (ag_space _ _ Hca)|by eapply sound_kept].
Qed.

Lemma reap_exited_core s w parent : core_ok frames s w -> parent <> 0 ->
  exists c code s' w', scheduler_reap_exited parent s w = Some (c, code, s', w') /\ core_ok frames s' w' /\ same_core s s' /\
    (forall a, is_Some (s.(Scheduler.frames) !! a) -> is_Some (s'.(Scheduler.frames) !! a)).
Proof.
  intros Hc Hpar. unfold scheduler_reap_exited.
  assert (forall n child, 0 <= child -> child + Z.of_nat n <= 8 ->
    exists c code s' w', reap_exited_from n child parent s w = Some (c, code, s', w') /\ core_ok frames s' w' /\ same_core s s' /\
    (forall a, is_Some (s.(Scheduler.frames) !! a) -> is_Some (s'.(Scheduler.frames) !! a))) as Hgen; [|apply (Hgen 7%nat 1); lia].
  induction n as [|n IH]; intros child Hch Hle; cbn [reap_exited_from]; [by exists 0, 0, s, w|].
  destruct (task_in s child (wf_core _ (co_sched _ _ _ Hc)) ltac:(lia)) as [t Ht]. rewrite Ht. cbn [mbind option_bind].
  destruct (_ && _) eqn:E; [|apply IH; lia]. apply andb_true_iff in E as [E1 E2].
  destruct (reap_core s w parent child Hc Hch Hpar) as (r & s' & w' & Hr & Hc' & Hsm & Hg). pose proof Hr as Hr2. rewrite Hr. cbn [mbind option_bind].
  destruct r as [code|]; [by exists child, code, s', w'|].
  unfold scheduler_reap in Hr2. destruct (_ || _); [injection Hr2 as <- <-; apply IH; lia|]. rewrite Ht in Hr2. cbn [mbind option_bind] in Hr2.
  rewrite E1, E2 in Hr2. cbn [negb orb] in Hr2. peel Hr2. destruct v. by peel Hr2.
Qed.

(** A task that ends leaves its slot to its parent. *)
Lemma exit_update p code s v t : sched_core s -> 1 <= p -> update_task p (with_exit code) s = Some v -> s.(tasks).[p] = Some t ->
  t.(state) <> UNUSED -> sched_core v /\ carried nobody s v /\ v.(tasks).[p] = Some (with_exit code t).
Proof.
  intros Hs Hp Hv Ht Hu. destruct (update_inv _ _ _ _ Hv) as (t' & Ht' & E). rewrite Ht in Ht'. injection Ht' as <-.
  split; [rewrite E; apply (core_update _ _ t); [done..|]; apply exit_ok; [by apply (core_tasks _ Hs)|lia]|].
  split; [|rewrite E; by eapply (updated s _ t)]. apply (carried_update _ _ _ _ _ Hv). intros u Hu'. rewrite Ht in Hu'. injection Hu' as <-.
  split; [right; by left|by apply lease_state].
Qed.

Lemma end_task_ok p code s w v s' w' t : sched_core s -> kernel_ok frames w -> roles s w -> tenants s w.(w_memory) -> 1 <= p < 8 ->
  s.(tasks).[p] = Some t -> t.(state) <> UNUSED ->
  update_task p (with_exit code) s = Some v -> wake_waiting_parent p v w = Some (s', w') ->
  retired s w s' w' /\ (tenants s' w'.(w_memory) /\ opened sound w.(w_caps) w'.(w_caps)) /\ idle_up s'.
Proof.
  intros Hs Hk Hr Ht Hp Htk Hu Hv Hw. destruct (exit_update p code s v t Hs ltac:(lia) Hv Htk Hu) as (Hsv & Hcv & Htv).
  destruct (wake_parent_ok p v w s' w' Hsv Hk ltac:(by eapply roles_carried) ltac:(eapply tenants_step; [exact Ht|exact Hcv|apply homes_refl]) Hp Hw) as [Ha Ht'].
  destruct (wake_waiting_parent_ok v w p (with_exit code t) Hsv Hk Hp Htv eq_refl) as (s2 & w2 & E2 & _ & Hset).
  rewrite Hw in E2. injection E2 as <- <-. split; [eapply retired_trans; [by eapply carried_nobody|done]|]. split; [done|].
  apply core_idle, (settled_core _ _ _ Hset).
Qed.

Lemma exit_core s w code : core_ok frames s w -> 1 <= s.(current_pid) ->
  exists f s' w', scheduler_on_exit code s w = Some (f, s', w') /\ core_ok frames s' w'.
Proof.
  intros Hc Hcur. pose proof Hc as [H1 H2 H3 H4 H5 H6 H7]. destruct (core_users s w Hc Hcur) as [Hus Hb].
  destruct (scheduler_on_exit_ok s w code H1 H3) as (f & s' & w' & E & Hs & Hk & _). exists f, s', w'. split; [done|].
  unfold scheduler_on_exit in E. rewrite H2, Hus, (proj2 (Z.eqb_neq _ 0)) in E by lia. cbn [negb orb] in E.
  peel E. destruct v0 as [s2 w2]. peel E. destruct v1 as [f2 s3]. injection E as <- <- <-.
  destruct (wf_running _ H1) as (t & Ht & Hr).
  assert (v.(current_pid) = s.(current_pid)) as Ecur by (by destruct (update_inv _ _ _ _ Hv) as (? & _ & ->)). rewrite Ecur in Hv0.
  destruct (end_task_ok _ _ _ _ _ _ _ _ (wf_core _ H1) H3 H4 H6 Hb Ht ltac:(congruence) Hv Hv0) as ([Hr2 Hc2] & [Ht2 Hn2] & Hi2).
  assert (H : carried nobody s2 s3).
  { destruct (negb (v0 =? 0)) eqn:En.
    - apply (carried_dispatch nobody) in Hv2 as [? _]; [done|]. apply (next_ready_inv _ _ _ Hv1). by apply negb_true_iff, Z.eqb_neq in En.
    - by apply (carried_idle nobody) in Hv2 as [? _]. }
  pose proof (aged_trans _ _ _ Hc2 (carried_aged _ _ _ H)) as Hall.
  split; try done; [by rewrite (ag_init _ _ Hall)|by eapply roles_carried|by apply (ag_space _ _ Hall)| |by eapply sound_kept].
  eapply tenants_step; [exact Ht2|exact H|apply homes_refl].
Qed.

Lemma terminate_core s w p code : core_ok frames s w -> 0 <= p ->
  exists b s' w', scheduler_terminate p code s w = Some (b, s', w') /\ core_ok frames s' w' /\ same_core s s' /\
    (forall a, is_Some (s.(Scheduler.frames) !! a) -> is_Some (s'.(Scheduler.frames) !! a)).
Proof.
  intros Hc Hp. pose proof Hc as [H1 H2 H3 H4 H5 H6 H7].
  destruct (scheduler_terminate_ok s w p code H1 H3 Hp) as (b & s' & w' & E & Hs & Hk & Hsm & Hg). exists b, s', w'. split; [done|]. split; [|done].
  unfold scheduler_terminate, SCHEDULER_PROCESS_LIMIT in E. destruct (_ || _ || _) eqn:Eb; [by injection E as _ <- <-|].
  apply orb_false_iff in Eb as [[Ez El]%orb_false_iff _]. apply Z.eqb_neq in Ez. apply Z.leb_gt in El.
  peel E. destruct (_ || _) eqn:Es; [by injection E as _ <- <-|]. peel E. destruct v1 as [s2 w2]. injection E as _ <- <-.
  apply orb_false_iff in Es as [Es _]. apply bool_decide_eq_false in Es.
  destruct (end_task_ok p _ _ _ _ _ _ _ (wf_core _ H1) H3 H4 H6 ltac:(lia) Hv Es Hv0 Hv1) as ([Hr2 Hc2] & [Ht2 Hn2] & _).
  split; try done; [by rewrite (ag_init _ _ Hc2)|by apply (ag_space _ _ Hc2)|by eapply sound_kept].
Qed.

Lemma wait_core s w frame child : core_ok frames s w -> 1 <= s.(current_pid) -> 0 <= child -> is_Some (s.(Scheduler.frames) !! frame) ->
  exists f s' w', scheduler_on_wait frame child s w = Some (f, s', w') /\ core_ok frames s' w'.
Proof.
  intros Hc Hcur Hch Hf. pose proof Hc as [H1 H2 H3 H4 H5 H6 H7]. destruct (core_users s w Hc Hcur) as [Hus Hb].
  destruct (scheduler_on_wait_ok s w frame child H1 H3 Hus Hch Hf) as (f & s' & w' & E & Hs & Hk & _). exists f, s', w'. split; [done|].
  unfold scheduler_on_wait in E.
  destruct (reap_core s w s.(current_pid) child Hc Hch ltac:(lia)) as (r & s1 & w1 & Er & Hc1 & Hsm & _). rewrite Er in E. cbn [mbind option_bind] in E.
  destruct r as [status|].
  { peel E. injection E as _ <- <-. eapply core_carried; [done..|by eapply carried_write]. }
  destruct (_ <=? child); [peel E; injection E as _ <- <-; eapply core_carried; [done..|by eapply carried_write]|].
  peel E. destruct (_ || _); [peel E; injection E as _ <- <-; eapply core_carried; [done..|by eapply carried_write]|].
  peel E. destruct v1 as [f2 s3]. injection E as _ <- <-.
  destruct (wf_running _ (co_sched _ _ _ Hc1)) as (t & Ht & Hr).
  eapply core_carried; [done..|]. eapply carried_trans; [|eapply carried_reschedule; [|done]].
  - apply (carried_update _ _ _ _ _ Hv0). intros u Hu. rewrite Ht in Hu. injection Hu as <-. split; [|by apply lease_state; rewrite ?Hr].
    right. intros k [?|[? _]]; congruence.
  - apply (idle_update _ _ _ _ Hv0); [apply core_idle, (co_sched _ _ _ Hc1)|]. right.
    destruct Hsm as (Ecur & _). rewrite Ecur. lia.
Qed.

(** ** The timer *)

Lemma carried_counters X p a b c d s s' : update_task p (fun t => with_counters (a t) (b t) (c t) (d t) t) s = Some s' -> carried X s s'.
Proof. intros H. apply (carried_update _ _ _ _ _ H). intros t _. split; [by right|by split]. Qed.
Lemma idle_counters p a b c d s s' : update_task p (fun t => with_counters (a t) (b t) (c t) (d t) t) s = Some s' -> idle_up s -> idle_up s'.
Proof. intros H Hi. apply (idle_update _ _ _ _ H Hi). by left. Qed.

Lemma cancel_memory p w : (input_cancel p (ipc_cancel p w)).(w_memory) = w.(w_memory).
Proof. done. Qed.

Lemma expire_all_awaited s w s' w' : roles s w -> for_up 7 1 expire_wait (s, w) = Some (s', w') ->
  awaited s w s' w' /\ w'.(w_memory) = w.(w_memory) /\ w'.(w_caps) = w.(w_caps).
Proof.
  intros Hr H. pose proof (for_up_partial (fun _ sw => awaited s w sw.1 sw.2 /\ sw.2.(w_memory) = w.(w_memory) /\ sw.2.(w_caps) = w.(w_caps)) 7 1 expire_wait (s, w) (s', w')) as HP.
  apply HP; [|split; [by apply awaited_same|done]|done]. intros j [s1 w1] [s2 w2] _ ([Hr1 Hc1] & Em & Ec) Hx. cbn [fst snd] in *.
  pose proof (expire_awaited j s1 w1 s2 w2 Hr1 Hx) as Ha. split; [by eapply awaited_trans|].
  unfold expire_wait in Hx. peel Hx. destruct (_ || _ || _); [by injection Hx as _ <-|]. peel Hx. injection Hx as _ <-. by rewrite cancel_memory.
Qed.

Lemma tick_core s w frame : core_ok frames s w -> (s.(users_running) = true -> is_Some (s.(Scheduler.frames) !! frame)) ->
  exists f s' w', scheduler_on_timer_tick frame s w = Some (f, s', w') /\ core_ok frames s' w'.
Proof.
  intros Hc Hf. pose proof Hc as [H1 H2 H3 H4 H5 H6 H7].
  destruct (timer_tick_ok s w frame H1 H3 H2 Hf) as (f & s1 & s' & w' & E & _ & _ & Hre & Hk). exists f, s', w'. split; [done|].
  pose proof (re_wf _ _ Hre) as Hs. clear Hre. unfold scheduler_on_timer_tick in E. rewrite H2 in E. cbn [negb] in E. set (s0 := set_ticks _ s) in E.
  assert (Hr0 : roles s0 w) by (eapply roles_carried; [done|apply carried_ticks]).
  peel E. destruct v as [s2 w2]. destruct (expire_all_awaited s0 w s2 w2 Hr0 Hv) as ([Hr2 Hc2] & Em & Ec).
  destruct (expire_all_ok s0 w (ticks_core _ _ (wf_core _ H1)) H3) as (s2' & w2' & E2 & Hex & _). rewrite Hv in E2. injection E2 as <- <-.
  assert (Hi2 : idle_up s2) by (apply core_idle; eapply woken_preserves; [apply ticks_core, H1|apply Hex]).
  assert (Hfin : carried nobody s2 s' /\ w' = w2).
  { peel E. pose proof (carried_counters nobody _ _ _ _ _ _ _ Hv0) as K1. pose proof (idle_counters _ _ _ _ _ _ _ Hv0 Hi2) as I1.
    destruct (_ || _); [by injection E as _ <- <-|]. peel E. pose proof (carried_counters nobody _ _ _ _ _ _ _ Hv1) as K2.
    pose proof (idle_counters _ _ _ _ _ _ _ Hv1 I1) as I2. pose proof (carried_trans _ _ _ _ K1 K2) as K3.
    destruct (_ <? _); [by injection E as _ <- <-|]. peel E. destruct v3 as [f3 s3]. injection E as _ <- <-. split; [|done].
    pose proof (carried_counters nobody _ _ _ _ _ _ _ Hv3) as K4. pose proof (idle_counters _ _ _ _ _ _ _ Hv3 I2) as I4.
    eapply carried_trans; [exact K3|]. eapply carried_trans; [exact K4|]. by eapply carried_reschedule. }
  destruct Hfin as [Hfin ->]. eapply (core_step s w); try done; [|by rewrite Em|rewrite Ec; apply opened_refl].
  split; [by eapply roles_carried|]. eapply carried_trans; [apply carried_ticks|]. eapply carried_trans; [exact Hc2|by apply carried_nobody].
Qed.
End invariant.
