(* ===== verification/KernelTheorems.v ===== *)
(** The properties of message passing and process death, with concrete runs: a
    server and a client on one channel. *)

From stdpp Require Import gmap.
From S2P Require Import Prelude Surface SurfaceSpec Capability CapabilitySpec Input Ipc IpcSpec.
From S2P Require Import PhysicalMemory UserMemory UserMemorySpec Scheduler SchedulerSpec Kernel KernelSpec ProcessExit.

(** ** Concrete states *)

(** Seven slots, of which the first two are in use, each with one page of heap. *)
Definition demo_slot (p : Z) : userspace_memory :=
  UserSpace (p * 4096) (1048576 + p * 4096) (1114112 + p * 4096) 4 [] [2097152 + p * 4096] [].
Definition entry_page (i e : Z) : list Z := <[Z.to_nat i := e]> (replicate 512 0).
Definition demo_pages : phys :=
  foldr (fun p pg =>
    <[p * 4096 := entry_page 0 (65536 + p * 4096 + 7)]> (<[65536 + p * 4096 := entry_page 0 (1048576 + p * 4096 + 7)]>
      (<[1048576 + p * 4096 := entry_page 1 (1114112 + p * 4096 + 7)]>
        (<[1114112 + p * 4096 := entry_page 304 (2097152 + p * 4096 + 7)]> (<[2097152 + p * 4096 := replicate 512 0]> pg))))) ∅ [1; 2].
Definition demo_tables : list Z := [1; 2] ≫= (fun p => [p * 4096; 65536 + p * 4096; 1048576 + p * 4096; 1114112 + p * 4096]).
Definition in_tables (p : Z) : Prop := p ∈ demo_tables.
Definition demo_memory : user_memory :=
  UserMemory (UserSpace 0 0 0 0 [] [] [] :: map demo_slot (seqZ 1 7))
    [false; true; true; false; false; false; false; false]
    (replicate 8 (replicate 4 0)) 0 (replicate 8 0) (replicate 8 0)
    (replicate 8 []) (replicate 8 0) (replicate 8 0) (replicate 8 (replicate 4 0)) 0 0 demo_pages.

(** The heap pages are mapped through the tables. *)
Lemma demo_buffer pid a n : 1 <= pid <= 2 ->
  forallb (fun k => names_checked demo_tables demo_pages (pid * 4096) (a + k)) (seqZ 0 n) = true -> buffer_ready in_tables demo_memory pid a n.
Proof.
  intros Hp H _ _ p Hpm. assert (p = demo_slot pid) as ->.
  { assert (pid = 1 \/ pid = 2) as [-> | ->] by lia; by injection Hpm. }
  by apply buffer_checked.
Qed.

Definition no_input : input_state := Input [] 0 0 0 0 0 (IWaiter 0 0 false).
Definition no_channels : ipc_state := ipc_init (Ipc [] 0 0 0).
Definition demo_subsystems : subsystems := Subsystems capabilities_init demo no_channels no_input demo_memory.

Lemma no_channels_wf : ipc_wf no_channels.
Proof.
  assert (H : forall i c, no_channels.(channels).[i] = Some c -> c = empty_channel (i + 1) /\ 0 <= i).
  { intros i c [Hi Hc]%aget_Some. unfold no_channels, ipc_init in Hc. cbn [channels] in Hc.
    rewrite list_lookup_fmap in Hc. destruct (seqZ 1 16 !! Z.to_nat i) as [x|] eqn:Ex; [|done].
    apply lookup_seqZ in Ex as [-> _]. injection Hc as <-. split; [|done]. f_equal. lia. }
  split.
  - reflexivity.
  - intros i c Hc. by destruct (H i c Hc) as [-> _].
  - intros i c Hc. by destruct (H i c Hc) as [-> _].
  - intros i c Hc. by destruct (H i c Hc) as [-> _].
  - intros i c Hc. by destruct (H i c Hc) as [-> _].
Qed.

Lemma nothing_held p h g : ~ holds capabilities_init p h g.
Proof.
  intros (slot & gen & Hp & Hs & _ & He). unfold slot_at in He.
  destruct (capabilities_init.(tables).[p]) as [t|] eqn:Ht; [|done].
  cbn [mbind option_bind] in He. apply aget_Some in Ht as [_ Ht], He as [_ He].
  change capabilities_init.(tables) with (replicate 8 (slot_table_new no_cap 8)) in Ht.
  apply lookup_replicate_1 in Ht as [-> _]. unfold slot_table_new in He.
  by apply lookup_replicate_1 in He as [[=] _].
Qed.

Lemma nobody_waits P : waiting P demo_subsystems.
Proof.
  intros i c [_ Hc]%aget_Some _ Ha.
  assert (Forall (fun c => c.(Ipc.waiter).(w_active) = false) no_channels.(channels)) as H.
  { apply (bool_decide_unpack _). vm_compute. exact I. }
  pose proof (Forall_lookup_1 _ _ _ _ H Hc) as H1. cbn in H1. congruence.
Qed.

Lemma demo_kernel_wf s : sched_core s -> kernel_wf in_tables no_pins (replicate 2048 0) s demo_subsystems.
Proof.
  intros Hs. split; [|exact (initially_linked 2048 eq_refl)|done|apply nobody_waits].
  split; cbn [w_caps w_ipc w_memory w_input demo_subsystems].
  - apply capabilities_init_wf.
  - apply no_channels_wf.
  - intros p h g Hg. by apply nothing_held in Hg.
  - by split.
  - done.
Qed.

(** Process 1 created a channel and process 2 connected to it. *)
Definition channel_ops : list kernel_op := [KCreate 1 [115; 114; 118]; KConnect 2 [115; 114; 118]].
Definition run_state (ops : list kernel_op) (s : sched) (w : subsystems) : sched * subsystems :=
  default (s, w) (kernel_runs ops s w).
Definition connected : subsystems := (run_state channel_ops one_asleep demo_subsystems).2.
Definition server_handle : Z := make_handle 1 0 1.
Definition client_handle : Z := make_handle 2 0 1.

Lemma run_state_ok ops s w a :
  kernel_wf in_tables no_pins a s w -> Forall kernel_op_ok ops -> Forall (op_waits (buffer_ready in_tables w.(w_memory))) ops ->
  exists a', kernel_wf in_tables no_pins a' (run_state ops s w).1 (run_state ops s w).2.
Proof.
  intros Hk Hok Hop. destruct (kernel_runs_ok in_tables no_pins no_pins_nonneg ops a s w Hk Hok Hop) as (a' & s' & w' & E & H & _).
  exists a'. unfold run_state. by rewrite E.
Qed.

Lemma connected_sched : (run_state channel_ops one_asleep demo_subsystems).1 = one_asleep.
Proof. vm_compute. reflexivity. Qed.

Lemma connected_wf : exists a, kernel_wf in_tables no_pins a one_asleep connected.
Proof.
  destruct (run_state_ok channel_ops one_asleep demo_subsystems _ (demo_kernel_wf _ (wf_core _ one_asleep_wf))) as [a H].
  - unfold channel_ops. do 2 (constructor; [cbn; lia|]). constructor.
  - unfold channel_ops. do 2 (constructor; [exact I|]). constructor.
  - exists a. rewrite connected_sched in H. exact H.
Qed.

(** Process 1 waits for a message at the start of its heap. *)
Definition waiting_ops : list kernel_op := [KWait 1 server_handle USER_HEAP 64 false].
Definition server_waits : subsystems := (run_state waiting_ops one_asleep connected).2.

Lemma connected_memory : connected.(w_memory) = demo_memory.
Proof. vm_compute. reflexivity. Qed.
Lemma heap_ready n : forallb (fun k => names_checked demo_tables demo_pages 4096 (USER_HEAP + k)) (seqZ 0 n) = true ->
  buffer_ready in_tables connected.(w_memory) 1 USER_HEAP n.
Proof. intros H. rewrite connected_memory. by apply demo_buffer. Qed.

Lemma server_waits_wf : exists a, kernel_wf in_tables no_pins a one_asleep server_waits.
Proof.
  destruct connected_wf as [a Ha].
  destruct (run_state_ok waiting_ops one_asleep connected a Ha) as [a' H]; [unfold waiting_ops; constructor; [cbn; unfold server_handle; rewrite make_handle_eq; lia|constructor]| |].
  { unfold waiting_ops. constructor; [|constructor]. apply heap_ready. vm_compute. reflexivity. }
  exists a'. assert ((run_state waiting_ops one_asleep connected).1 = one_asleep) as E by (vm_compute; reflexivity).
  rewrite E in H. exact H.
Qed.

(** ** Message passing *)

Lemma client_targets : target 2 client_handle CAPABILITY_RIGHT_SEND connected = Some 1.
Proof. vm_compute. reflexivity. Qed.

Lemma connected_quiet : quiet connected.
Proof.
  intros i c [_ Hc]%aget_Some _.
  assert (Forall (fun c => c.(Ipc.waiter).(w_active) = false) connected.(w_ipc).(channels)) as H.
  { apply (bool_decide_unpack _). vm_compute. exact I. }
  by apply (Forall_lookup_1 _ _ _ _ H Hc).
Qed.

Lemma connected_channel : exists c,
  connected.(w_ipc).(channels).[1 - 1] = Some c /\ c.(Ipc.active) = true /\ c.(qcount) = 0 /\
  c.(sender).(s_active) = false.
Proof. eexists. vm_compute. done. Qed.

Lemma connected_pipe : pipe connected 1 [].
Proof.
  destruct connected_wf as [a [Hw _ _ _]]. destruct connected_channel as (c & Hc & Ha & Hn & Hs).
  destruct (iw_channel _ (sw_ipc _ Hw) _ _ Hc Ha) as [q Hq]. exists c. split; [done|]. split; [done|].
  destruct Hq as (l & Hl & Eq). exists l. split; [done|]. rewrite (cw_count _ _ Hl) in Hn.
  destruct l as [|m l]; [|cbn in Hn; lia]. unfold parked_view. by rewrite Hs.
Qed.

(** C17. Channels are reliable FIFO pipes: over any run of sends and receives by any
    processes through any handles, with no receiver blocked, every operation
    returns, and what the channel held followed by the messages it accepted is
    what was received from it followed by what it holds; nothing is lost,
    reordered, duplicated or mixed between channels, and at most 33 messages are
    in flight (32 queued, one parked). *)
Theorem ipc_fifo w s i evs q :
  subsystems_wf w -> quiet w -> sched_core s -> Forall pipe_event_ok evs -> pipe w i q ->
  exists accepted received s' w' q', pipe_run i evs s w = Some (accepted, received, s', w') /\
    pipe w' i q' /\ Z.of_nat (length q') <= 33 /\ q ++ accepted = received ++ q'.
Proof.
  intros Hw Hqu Hs Hev Hp. destruct (pipe_run_ok i evs s w q Hw Hqu Hs Hev Hp)
    as (a & g & s' & w' & q' & E & Hp' & Eq).
  exists a, g, s', w', q'. split; [done|]. split; [done|]. split; [|done].
  destruct Hp' as (c & _ & _ & Hb). by eapply backlog_length.
Qed.

Definition demo_traffic : list pipe_event :=
  [PSend 2 client_handle [1; 2]; PSend 2 client_handle [3]; PReceive 1 server_handle 64].

Lemma ipc_fifo_witness : exists s' w',
  pipe_run 1 demo_traffic one_asleep connected = Some ([(2, [1; 2]); (2, [3])], [(2, [1; 2])], s', w') /\
  pipe w' 1 [(2, [3])].
Proof.
  destruct connected_wf as [a [Hw _ Hs _]].
  destruct (ipc_fifo connected one_asleep 1 demo_traffic [] Hw connected_quiet Hs) as (x & y & s' & w' & q' & E & Hp & _ & Eq).
  - unfold demo_traffic. repeat (constructor; [cbn; unfold client_handle, server_handle; rewrite !make_handle_eq; lia|]). constructor.
  - exact connected_pipe.
  - assert ((fun r => (r.1.1.1, r.1.1.2)) <$> pipe_run 1 demo_traffic one_asleep connected =
      Some ([(2, [1; 2]); (2, [3])], [(2, [1; 2])])) as Hr by (vm_compute; reflexivity).
    rewrite E in Hr. cbn in Hr. injection Hr as -> ->. cbn in Eq. injection Eq as <-.
    exists s', w'. split; [exact E|exact Hp].
Defined.

(** C31. Back-pressure is exact: a message of 1 to 64 bytes to a channel on which no
    receiver waits is queued while fewer than 32 are in flight, parks its sender on the
    33rd, and is refused only when a sender is parked already; accepted messages join
    the end of that channel, and memory and the scheduler stay as they are. Receivers
    may wait on other channels. *)
Theorem ipc_backpressure w s pid h data i q :
  subsystems_wf w -> 0 <= h -> 0 <= pid -> 1 <= Z.of_nat (length data) <= 64 ->
  target pid h CAPABILITY_RIGHT_SEND w = Some i -> pipe w i q ->
  (forall c, w.(w_ipc).(channels).[i - 1] = Some c -> c.(Ipc.active) = true -> c.(Ipc.waiter).(w_active) = false) ->
  exists r w', ipc_send_block pid h (Some data) (Z.of_nat (length data)) s w = Some (r, s, w') /\
    (r = 1 <-> Z.of_nat (length q) < 32) /\ (r = 2 <-> Z.of_nat (length q) = 32) /\
    (r = 0 <-> Z.of_nat (length q) = 33) /\
    pipe w' i (if r =? 0 then q else q ++ [(pid, data)]) /\ w'.(w_memory) = w.(w_memory).
Proof.
  intros Hw Hh Hp Hn Ht Hpi Hqu.
  destruct (send_pipe w s pid h data (Z.of_nat (length data)) Hw) as (r & w' & E & _ & _ & Em & Hpipe & Hr); [|lia..|].
  - intros j c Hc. assert (j = i) as ->.
    { assert (target pid h CAPABILITY_RIGHT_SEND w = Some j) as Hj by (apply target_can; [done|done|by exists c]). congruence. }
    destruct Hc as (g & _ & _ & _ & _ & _ & Hc & Ha). by apply Hqu.
  - destruct (Hr i q Ht Hpi Hn) as (H1 & H2 & H3). specialize (Hpipe i q Hpi).
    rewrite bool_decide_eq_true_2, andb_true_r in Hpipe by done.
    unfold sent in Hpipe. rewrite Nat2Z.id, firstn_all in Hpipe.
    exists r, w'. split; [done|]. do 3 (split; [done|]). split; [|done]. by destruct (r =? 0).
Qed.

Lemma ipc_backpressure_witness : exists w',
  ipc_send_block 2 client_handle (Some [7; 8]) 2 one_asleep connected = Some (1, one_asleep, w') /\
  pipe w' 1 [(2, [7; 8])].
Proof.
  destruct connected_wf as [a [Hw _ Hs _]].
  destruct (ipc_backpressure connected one_asleep 2 client_handle [7; 8] 1 [] Hw)
    as (r & w' & E & H1 & _ & _ & Hp & _).
  - unfold client_handle. rewrite make_handle_eq by lia. lia.
  - lia.
  - cbn. lia.
  - exact client_targets.
  - exact connected_pipe.
  - intros c. exact (connected_quiet _ c).
  - assert (r = 1) as -> by (apply H1; cbn; lia). exists w'. split; [exact E|exact Hp].
Defined.

(** ** Delivery to a sleeping receiver *)

Lemma send_to_waiter w s pid h i c data n :
  subsystems_wf w -> 0 <= h -> can w pid h CAPABILITY_RIGHT_SEND i c -> c.(Ipc.waiter).(w_active) = true ->
  1 <= n <= 64 ->
  ipc_send_block pid h (Some data) n s w = deliver c pid data n s w.
Proof.
  intros Hw Hh Hc Ha Hn. unfold ipc_send_block, ipc_send_impl.
  destruct (resolve_channel_ok w pid h CAPABILITY_RIGHT_SEND Hw Hh) as (r & w1 & -> & _ & _ & _ & Hr & Hsame).
  assert (r = Some c) as -> by (apply Hr; eauto). rewrite (Hsame ltac:(done)). cbn [mbind option_bind].
  unfold IPC_MESSAGE_MAX. rewrite (proj2 (Z.eqb_neq n 0)), (proj2 (Z.ltb_ge 64 n)) by lia. cbn [orb]. by rewrite Ha.
Qed.

(** A blocked process can be woken. *)
Lemma wake_blocked s p t r d :
  sched_core s -> 1 <= p < 8 -> s.(tasks).[p] = Some t -> t.(state) = BLOCKED ->
  exists s', scheduler_wake p r d s = Some (true, s').
Proof.
  intros Hs Hp Ht Hb. unfold scheduler_wake, SCHEDULER_PROCESS_LIMIT.
  rewrite (proj2 (Z.eqb_neq p 0)), (proj2 (Z.leb_gt 8 p)) by lia. cbn [orb]. rewrite Ht. cbn [mbind option_bind].
  rewrite decide_True by done.
  destruct (wake_step s p t (set_result r d) Hs Ht Hb) as (g & Hg & Heq & _).
  rewrite (write_frame_eq _ _ _ g) in * by done. cbn [mbind option_bind] in *. rewrite Heq. cbn [mbind option_bind].
  by eexists.
Qed.

(** Distinct addresses of a buffer name distinct bytes. *)
Definition distinct_bytes (T : Z -> Prop) (pg : phys) (space a n : Z) : Prop :=
  forall j k x, 0 <= j < n -> 0 <= k < n -> names T pg space (a + j) x -> names T pg space (a + k) x -> j = k.

(** C30. A receiver blocked in a receive (a select is woken with a one instead) gets the
    message itself: a send that fits its buffer stores the message bytes where the
    receiver's page tables put the receiver's addresses, so that the receiver reads
    back the message, changes no other byte of physical memory, wakes the receiver with
    the length and the sender's pid, ends its wait, and leaves the queue alone. This
    holds when the receiver's addresses name distinct bytes and when its buffer passes
    the range check of the copy, which the kernel makes with the address rules of the
    sender: a buffer in memory that only the receiver has mapped fails it. *)
Theorem waiting_receiver_gets_message T w s pid h i c q data t p :
  let wt := c.(Ipc.waiter) in let n := Z.of_nat (length data) in
  subsystems_wf w -> waiting (buffer_ready T w.(w_memory)) w -> sched_core s -> 0 <= pid -> 0 <= h ->
  can w pid h CAPABILITY_RIGHT_SEND i c -> holds_backlog c q -> wt.(w_active) = true -> wt.(w_multiplex) = false ->
  1 <= n <= 64 -> n <= wt.(w_capacity) -> 1 <= wt.(w_pid) < 8 -> w.(w_memory).(process_memory_used).[wt.(w_pid)] = Some true ->
  user_write_range s.(current_pid) wt.(w_address) n w.(w_memory) = Some true ->
  w.(w_memory).(process_memory).[wt.(w_pid)] = Some p ->
  distinct_bytes T w.(w_memory).(pages) p.(UserMemory.address_space) wt.(w_address) n ->
  s.(tasks).[wt.(w_pid)] = Some t -> t.(state) = BLOCKED ->
  exists s' w' pg, ipc_send_block pid h (Some data) n s w = Some (1, s', w') /\
    scheduler_wake wt.(w_pid) n pid s = Some (true, s') /\ w'.(w_memory) = set_pages pg w.(w_memory) /\
    (forall k v, data.[k] = Some v -> load_user pg p.(UserMemory.address_space) (wt.(w_address) + k) = Some (u8 v)) /\
    (forall x, (forall k, 0 <= k < n -> ~ names T w.(w_memory).(pages) p.(UserMemory.address_space) (wt.(w_address) + k) x) ->
       load_byte pg x = load_byte w.(w_memory).(pages) x) /\
    pipe w' i q /\ exists c', w'.(w_ipc).(channels).[i - 1] = Some c' /\ c'.(Ipc.waiter).(w_active) = false.
Proof.
  intros wt n Hw Hrec Hs Hp Hh Hcan Hq Ha Hmx Hn Hcap Hwp Hused Hrange Hpm Hdist Ht Hb.
  rewrite (send_to_waiter w s pid h i c) by done.
  pose proof Hcan as (_ & _ & _ & _ & _ & Hbi & Hci & Hac). pose proof (Hrec _ _ Hci Hac Ha) as Hready.
  destruct (deliver_ok T w s pid i c q data n Hw Hs Hp Hbi Hci Hac Hq ltac:(lia) Hready)
    as (r & s' & w' & E & _ & _ & _ & _ & Hpi & _ & Hoff & _).
  destruct (copy_to_ok T s.(current_pid) wt.(w_pid) wt.(w_address) data n w.(w_memory) (sw_memory _ Hw) ltac:(lia)
    ltac:(pose proof (core_cur _ Hs); lia) ltac:(lia)) as (ok & m & Hcp & _ & _ & Hm & Hok).
  { intros H1 H2 _. apply (buffer_at_part _ _ _ _ wt.(w_capacity)); [by apply Hready|lia]. }
  assert (ok = true) as -> by by apply Hok. destruct (Hm eq_refl) as (p' & pg & Hpm' & _ & -> & Hwr).
  assert (p' = p) as -> by congruence. unfold n in Hwr at 1. rewrite Nat2Z.id, firstn_all in Hwr.
  destruct (wake_blocked s _ t n pid Hs Hwp Ht Hb) as [s1 Hwk].
  unfold deliver in E. fold wt in E. assert (r = 1 /\ s' = s1 /\ w'.(w_memory) = set_pages pg w.(w_memory)) as (-> & -> & Ew).
  { destruct (put_channel _ w) as [w1|] eqn:Ep; [|done]. cbn [mbind option_bind] in E. rewrite Hmx in E.
    rewrite (proj2 (Z.ltb_ge _ _)) in E by lia.
    assert (w1.(w_memory) = w.(w_memory)) as Em1 by (unfold put_channel in Ep; peel Ep; by injection Ep as <-).
    rewrite Em1, Hcp in E. cbn [mbind option_bind negb] in E. rewrite Hwk in E. cbn [mbind option_bind negb] in E.
    by injection E as <- <- <-. }
  exists s1, w', pg. split; [exact E|]. split; [done|]. split; [done|]. destruct Hwr as [_ Ho _ Hrd].
  split; [by apply Hrd|]. split; [done|]. by split.
Qed.

(** The state of the waiting server, computed. *)
Lemma server_waits_channel : exists c,
  server_waits.(w_ipc).(channels).[1 - 1] = Some c /\ c.(Ipc.active) = true /\ c.(qcount) = 0 /\
  c.(sender).(s_active) = false /\ c.(Ipc.waiter) = Waiter 1 USER_HEAP 64 true false /\ c.(owner) = 1.
Proof. eexists. vm_compute. done. Qed.

Lemma server_waits_handle :
  slot_at server_waits.(w_caps) 2 0 = Some (Entry true 1 (Cap CAPABILITY_SERVICE_IPC 18 1)).
Proof. vm_compute. reflexivity. Qed.

Lemma server_waits_memory :
  server_waits.(w_memory).(process_memory_used).[1] = Some true /\
  user_write_range one_asleep.(current_pid) USER_HEAP 2 server_waits.(w_memory) = Some true.
Proof. vm_compute. done. Qed.

Lemma server_asleep : exists t, one_asleep.(tasks).[1] = Some t /\ t.(state) = BLOCKED.
Proof. eexists. vm_compute. done. Qed.

Lemma empty_backlog c i w :
  subsystems_wf w -> w.(w_ipc).(channels).[i] = Some c -> c.(Ipc.active) = true -> c.(qcount) = 0 ->
  c.(sender).(s_active) = false -> holds_backlog c [].
Proof.
  intros Hw Hc Ha Hn Hs. destruct (iw_channel _ (sw_ipc _ Hw) _ _ Hc Ha) as [q (l & Hl & Eq)].
  exists l. split; [done|]. rewrite (cw_count _ _ Hl) in Hn.
  destruct l as [|m l]; [|cbn in Hn; lia]. unfold parked_view. by rewrite Hs.
Qed.

Lemma client_can : exists c, can server_waits 2 client_handle CAPABILITY_RIGHT_SEND 1 c /\
  holds_backlog c [] /\ c.(Ipc.waiter) = Waiter 1 USER_HEAP 64 true false.
Proof.
  destruct server_waits_wf as [a [Hw _ _ _]]. destruct server_waits_channel as (c & Hc & Ha & Hn & Hs & Hwt & _).
  exists c. split; [|split; [by eapply empty_backlog|done]].
  exists (Cap CAPABILITY_SERVICE_IPC 18 1). split; [|split; [done|split; [done|split; [done|split; [lia|done]]]]].
  exists 0, 1. split; [lia|]. split; [lia|]. split; [done|]. exact server_waits_handle.
Qed.

Lemma client_handle_pos : 0 <= client_handle.
Proof. unfold client_handle. rewrite make_handle_eq by lia. lia. Qed.

Lemma server_waits_state : server_waits.(w_memory) = demo_memory.
Proof. vm_compute. reflexivity. Qed.

Lemma heap_distinct : distinct_bytes in_tables demo_pages 4096 USER_HEAP 2.
Proof.
  intros j k x Hj Hk [(r & H1) _ _ _] [(r' & H2) _ _ _].
  assert (forall i, 0 <= i < 2 -> translate demo_pages 4096 (USER_HEAP + i) = Some (2101248 + i, 6)) as H.
  { intros i Hi. assert (i = 0 \/ i = 1) as [-> | ->] by lia; vm_compute; reflexivity. }
  rewrite H in H1, H2 by lia. assert (2101248 + j = 2101248 + k) by congruence. lia.
Qed.

Lemma waiting_receiver_gets_message_witness : exists s' w' pg,
  ipc_send_block 2 client_handle (Some [7; 8]) 2 one_asleep server_waits = Some (1, s', w') /\
  w'.(w_memory).(pages) = pg /\ load_user pg 4096 (USER_HEAP + 1) = Some 8.
Proof.
  destruct server_waits_wf as [a [Hw _ Hs Hrec]]. destruct client_can as (c & Hcan & Hq & Hwt).
  destruct server_waits_memory as [Hu Hr]. destruct server_asleep as (t & Ht & Hb).
  destruct (waiting_receiver_gets_message in_tables server_waits one_asleep 2 client_handle 1 c [] [7; 8] t (demo_slot 1))
    as (s' & w' & pg & E & _ & Em & Hread & _); rewrite ?Hwt; cbn [w_pid w_address w_capacity w_active w_multiplex length].
  - exact Hw.
  - exact Hrec.
  - exact Hs.
  - lia.
  - exact client_handle_pos.
  - exact Hcan.
  - exact Hq.
  - reflexivity.
  - reflexivity.
  - lia.
  - lia.
  - lia.
  - exact Hu.
  - exact Hr.
  - rewrite server_waits_state. reflexivity.
  - rewrite server_waits_state. exact heap_distinct.
  - exact Ht.
  - exact Hb.
  - exists s', w', pg. split; [exact E|]. rewrite Em. split; [reflexivity|].
    rewrite Hwt in Hread. exact (Hread 1 8 eq_refl).
Defined.

(** C35. A message that does not fit the waiting receiver's buffer strands it: the
    send fails, the receiver's registration is gone, and yet nobody wakes it. *)
Theorem oversized_message_strands_receiver T w s pid h i c data :
  subsystems_wf w -> waiting (buffer_ready T w.(w_memory)) w -> sched_core s -> 0 <= pid -> 0 <= h ->
  can w pid h CAPABILITY_RIGHT_SEND i c -> c.(Ipc.waiter).(w_active) = true ->
  1 <= Z.of_nat (length data) <= 64 -> c.(Ipc.waiter).(w_capacity) < Z.of_nat (length data) ->
  exists w' c', ipc_send_block pid h (Some data) (Z.of_nat (length data)) s w = Some (0, s, w') /\
    w'.(w_memory) = w.(w_memory) /\
    w'.(w_ipc).(channels).[i - 1] = Some c' /\ c'.(Ipc.waiter).(w_active) = false.
Proof.
  intros Hw Hrec Hs Hp Hh Hcan Ha Hn Hcap. rewrite (send_to_waiter w s pid h i c) by done.
  destruct Hcan as (_ & _ & _ & _ & _ & Hb & Hc & Hac).
  destruct (iw_channel _ (sw_ipc _ Hw) _ _ Hc Hac) as [q Hq].
  destruct (deliver_ok T w s pid i c q data (Z.of_nat (length data)) Hw Hs Hp Hb Hc Hac Hq ltac:(lia) (Hrec _ _ Hc Hac Ha))
    as (r & s' & w' & E & _ & _ & _ & _ & _ & _ & (c' & Hc' & Hna) & _ & Hlost & _).
  destruct (Hlost Hcap) as (-> & -> & Em). by exists w', c'.
Qed.

(** The server waits with a buffer of one byte. *)
Definition small_ops : list kernel_op := [KWait 1 server_handle USER_HEAP 1 false].
Definition server_small : subsystems := (run_state small_ops one_asleep connected).2.

Lemma server_small_wf : exists a, kernel_wf in_tables no_pins a one_asleep server_small.
Proof.
  destruct connected_wf as [a Ha].
  destruct (run_state_ok small_ops one_asleep connected a Ha) as [a' H];
    [unfold small_ops; constructor; [cbn; unfold server_handle; rewrite make_handle_eq; lia|constructor]| |].
  { unfold small_ops. constructor; [|constructor]. apply heap_ready. vm_compute. reflexivity. }
  exists a'. assert ((run_state small_ops one_asleep connected).1 = one_asleep) as E by (vm_compute; reflexivity).
  rewrite E in H. exact H.
Qed.

Lemma server_small_channel : exists c,
  server_small.(w_ipc).(channels).[1 - 1] = Some c /\ c.(Ipc.active) = true /\
  c.(Ipc.waiter) = Waiter 1 USER_HEAP 1 true false.
Proof. eexists. vm_compute. done. Qed.

Lemma server_small_handle :
  slot_at server_small.(w_caps) 2 0 = Some (Entry true 1 (Cap CAPABILITY_SERVICE_IPC 18 1)).
Proof. vm_compute. reflexivity. Qed.

Lemma oversized_message_strands_receiver_witness : exists w' c',
  ipc_send_block 2 client_handle (Some [7; 8]) 2 one_asleep server_small = Some (0, one_asleep, w') /\
  w'.(w_ipc).(channels).[0] = Some c' /\ c'.(Ipc.waiter).(w_active) = false.
Proof.
  destruct server_small_wf as [a [Hw _ Hs Hrec]]. destruct server_small_channel as (c & Hc & Ha & Hwt).
  destruct (oversized_message_strands_receiver in_tables server_small one_asleep 2 client_handle 1 c [7; 8] Hw Hrec Hs)
    as (w' & c' & E & _ & Hc' & Hna); rewrite ?Hwt; cbn [w_capacity w_active length].
  - lia.
  - exact client_handle_pos.
  - exists (Cap CAPABILITY_SERVICE_IPC 18 1).
    split; [exists 0, 1; split; [lia|]; split; [lia|]; split; [reflexivity|exact server_small_handle]|].
    split; [reflexivity|]. split; [reflexivity|]. split; [reflexivity|]. split; [lia|]. split; [exact Hc|exact Ha].
  - reflexivity.
  - lia.
  - lia.
  - exists w', c'. split; [exact E|]. split; [exact Hc'|exact Hna].
Defined.

(** ** Who may receive, and what a death leaves *)

(** C12. Only a channel's creator receives from it: after any sequence of channel
    creations, connections, sends, receives, waits, cancellations and process
    exits, every operation has returned, and a handle with the right to receive
    resolves only for the owner of the live channel it names. *)
Theorem only_owner_receives T ops a s w pins :
  (forall id, 0 <= pins id) -> kernel_wf T pins a s w -> Forall kernel_op_ok ops ->
  Forall (op_waits (buffer_ready T w.(w_memory))) ops ->
  exists a' s' w', kernel_runs ops s w = Some (s', w') /\ kernel_wf T pins a' s' w' /\
    forall pid h i c, can w' pid h CAPABILITY_RIGHT_RECEIVE i c -> c.(owner) = pid.
Proof.
  intros Hpins Hk Hok Hop. destruct (kernel_runs_ok T pins Hpins ops a s w Hk Hok Hop) as (a' & s' & w' & E & Hk' & _).
  exists a', s', w'. split; [done|]. split; [done|]. intros pid h i c (g & Hg & Hr & Hs & <- & _ & Hc & _).
  destruct (sw_linked _ (kw_subsystems _ _ _ _ _ Hk') pid h g Hg Hs) as [_ Hown].
  destruct (Hown Hr) as (ch & Hch & _ & Ho). congruence.
Qed.

Definition demo_life : list kernel_op :=
  [KCreate 1 [115; 114; 118]; KConnect 2 [115; 114; 118]; KSend 2 client_handle [5]; KExit 2;
   KReceive 1 server_handle 64].

Lemma only_owner_receives_witness : exists a' s' w',
  kernel_runs demo_life one_asleep demo_subsystems = Some (s', w') /\ kernel_wf in_tables no_pins a' s' w'.
Proof.
  destruct (only_owner_receives in_tables demo_life _ one_asleep demo_subsystems no_pins no_pins_nonneg
    (demo_kernel_wf _ (wf_core _ one_asleep_wf))) as (a' & s' & w' & E & H & _).
  - unfold demo_life.
    repeat (constructor; [cbn; unfold client_handle, server_handle; rewrite ?make_handle_eq by lia; lia|]). constructor.
  - unfold demo_life. repeat (constructor; [exact I|]). constructor.
  - exists a', s', w'. split; [exact E|exact H].
Defined.

(** C23. Process death releases every IPC resource: the cleanup and the closing of
    the handles return; afterwards the process holds no handle, each channel it
    owned is closed with every process that slept on it woken, its own waits and
    parked messages are gone from the channels of others, and those are
    otherwise as they were. *)
Theorem exit_releases_ipc T pins a p s w :
  (forall id, 0 <= pins id) -> kernel_wf T pins a s w -> 1 <= p < 8 ->
  exists s' w1 w', ipc_process_cleanup p s w = Some (s', w1) /\ w_close_all p w1 = Some w' /\
    woken s s' /\ (forall h g, ~ holds w'.(w_caps) p h g) /\
    forall j c0, w.(w_ipc).(channels).[j] = Some c0 -> c0.(Ipc.active) = true ->
      exists c, w'.(w_ipc).(channels).[j] = Some c /\
        if decide (c0.(owner) = p)
        then c.(Ipc.active) = false /\ c.(Ipc.waiter).(w_active) = false /\ c.(sender).(s_active) = false /\
             (c0.(Ipc.waiter).(w_active) = true -> c0.(Ipc.waiter).(w_pid) <> p ->
              awake s' c0.(Ipc.waiter).(w_pid)) /\
             (c0.(sender).(s_active) = true -> c0.(sender).(s_pid) <> p -> awake s' c0.(sender).(s_pid))
        else c = without_pid p c0.
Proof.
  intros Hpins [Hw Hl Hs _] Hp.
  destruct (process_exit_ok pins Hpins a p s w Hw Hl Hs Hp) as (s' & w1 & w' & a' & E1 & E2 & _ & _ & Hwk & _ & _ & _ & Hno & Hcl).
  exists s', w1, w'. split; [done|]. split; [done|]. split; [done|]. split; [done|].
  intros j c0 Hj Ha. destruct (Hcl j c0 Hj) as (c & Hc & Hclean). exists c. split; [done|].
  unfold cleaned in Hclean. rewrite Ha in Hclean. cbn [negb] in Hclean.
  destruct (decide (owner c0 = p)); [|done]. destruct Hclean as [(H1 & H2 & H3 & _) [S1 S2]].
  pose proof (without_pid_fields p c0) as (_ & _ & _ & _ & F5 & F6 & F7 & F8).
  rewrite F5, F7 in S1. rewrite F6, F8 in S2. split_and!; try done.
  - intros H H'. apply S1. by rewrite H, (proj2 (Z.eqb_neq _ _)).
  - intros H H'. apply S2. by rewrite H, (proj2 (Z.eqb_neq _ _)).
Qed.

Lemma exit_releases_ipc_witness : exists s' w1 w',
  ipc_process_cleanup 1 one_asleep server_waits = Some (s', w1) /\ w_close_all 1 w1 = Some w' /\
  forall h g, ~ holds w'.(w_caps) 1 h g.
Proof.
  destruct server_waits_wf as [a Ha].
  destruct (exit_releases_ipc in_tables no_pins a 1 one_asleep server_waits no_pins_nonneg Ha) as (s' & w1 & w' & E1 & E2 & _ & Hno & _);
    [lia|]. exists s', w1, w'. split; [exact E1|]. split; [exact E2|exact Hno].
Defined.

(** C36. Terminating oneself half succeeds: the call reports failure and the
    process keeps running, but all its handles are closed, the channels it owned are
    closed with nobody left waiting or parked on them, and its own waits and parked
    messages are gone from the others. *)
Theorem terminate_self_strips T pins a s w frame f :
  (forall id, 0 <= pins id) -> kernel_wf T pins a s w -> s.(current_pid) <> 0 ->
  s.(frames) !! frame = Some f -> u32 f.(rdi) = s.(current_pid) ->
  exists s' w', sys_terminate frame s w = Some (frame, s', w') /\
    s'.(current_pid) = s.(current_pid) /\
    (exists f', s'.(frames) !! frame = Some f' /\ f'.(rax) = U64_MAX) /\
    (forall t, s.(tasks).[s.(current_pid)] = Some t -> t.(state) = RUNNING ->
               s'.(tasks).[s.(current_pid)] = Some t) /\
    (forall h g, ~ holds w'.(w_caps) s.(current_pid) h g) /\
    forall j c0, w.(w_ipc).(channels).[j] = Some c0 -> c0.(Ipc.active) = true ->
      exists c, w'.(w_ipc).(channels).[j] = Some c /\
        if decide (c0.(owner) = s.(current_pid))
        then c.(Ipc.active) = false /\ c.(Ipc.waiter).(w_active) = false /\ c.(sender).(s_active) = false
        else c = without_pid s.(current_pid) c0.
Proof.
  intros Hpins [Hw Hl Hs _] Hne Hf Ht. pose proof (core_cur _ Hs) as Hcur. unfold sys_terminate. rewrite Hf.
  cbn [mbind option_bind]. rewrite Ht.
  destruct (process_exit_ok pins Hpins a s.(current_pid) s w Hw Hl Hs ltac:(lia))
    as (s1 & w1 & w' & a' & -> & E2 & _ & _ & Hwk & _ & _ & _ & Hno & Hcl).
  cbn [mbind option_bind]. rewrite E2. cbn [mbind option_bind].
  pose proof (woken_core _ _ Hwk) as (Ecur & _). unfold scheduler_terminate, SCHEDULER_PROCESS_LIMIT.
  rewrite (proj2 (Z.eqb_neq _ 0)), (proj2 (Z.leb_gt 8 _)) by lia. rewrite Ecur, Z.eqb_refl. cbn [orb mbind option_bind negb].
  unfold sys_return. destruct (woken_frames _ _ Hwk frame) as [f' Hf']; [by eexists|].
  rewrite (write_frame_eq _ _ _ f') by done. cbn [mbind option_bind].
  eexists _, w'. split; [done|]. split; [done|]. split.
  - exists (set_rax U64_MAX f'). split; [apply lookup_insert_eq|done].
  - split; [|split; [done|]].
    + intros t Htk Hr. cbn. eapply woken_running; [done|done|by rewrite Hr].
    + intros j c0 Hj Ha. destruct (Hcl j c0 Hj) as (c & Hc & Hclean). exists c. split; [done|].
      unfold cleaned in Hclean. rewrite Ha in Hclean. cbn [negb] in Hclean.
      destruct (decide (owner c0 = s.(current_pid))); [|done]. destruct Hclean as [(H1 & H2 & H3 & _) _]. done.
Qed.

(** Process 1 runs and asks for its own termination. *)
Definition asking_frame : interrupt_frame := Frame 0 0 0 0 0 0 0 0 0 1 0 0 0 0 13 0 0 0 0 0.
Definition asking : sched := set_frames (<[user_frame 1 := asking_frame]> two_users.(frames)) two_users.

Lemma asking_core : sched_core asking.
Proof.
  destruct (wf_core _ two_users_wf) as [H1 H2 H3 H4]. split; [exact H1|exact H2|exact H3|].
  intros i t Hi. apply (task_ok_frames _ two_users.(frames)); [|by apply H4].
  intros x Hx. unfold asking. cbn [frames set_frames]. destruct (decide (user_frame 1 = x)) as [<-|Hne].
  - rewrite lookup_insert_eq. by eexists.
  - by rewrite lookup_insert_ne.
Qed.

Lemma terminate_self_strips_witness : exists s' w',
  sys_terminate (user_frame 1) asking demo_subsystems = Some (user_frame 1, s', w') /\
  s'.(current_pid) = 1 /\ forall h g, ~ holds w'.(w_caps) 1 h g.
Proof.
  assert (asking.(current_pid) = 1) as Ecur by (vm_compute; reflexivity).
  destruct (terminate_self_strips in_tables no_pins _ asking demo_subsystems (user_frame 1) asking_frame no_pins_nonneg
    (demo_kernel_wf _ asking_core)) as (s' & w' & E & Hcur & _ & _ & Hno & _).
  - rewrite Ecur. discriminate.
  - unfold asking. cbn [frames set_frames]. apply lookup_insert_eq.
  - rewrite Ecur. reflexivity.
  - exists s', w'. split; [exact E|]. rewrite Ecur in Hcur, Hno. split; [exact Hcur|exact Hno].
Defined.
