(* ===== verification/Syscalls.v ===== *)
(** The system-call dispatcher of [src/arch/x86_64/userspace.c] over the modelled
    subsystems: capabilities, files, processes, surfaces, anonymous memory and
    console text. The IPC calls, exit and terminate are in Kernel. Calls that reach
    the display, audio and network drivers are not part of the table below. *)

From Stdlib Require Import String Ascii.
From stdpp Require Import gmap.
From S2P Require Import Prelude LittleEndian BoundedTable Ramfs Surface Capability Input Ipc PhysicalMemory UserMemory Scheduler Kernel.

(** What the compositor reported last, and how often. *)
Record compositor := Compositor {
  compositor_window_count : Z; compositor_focused_window : Z; compositor_report_count : Z
}.

(** [serial] and [terminal] are the bytes written so far, newest last. *)
Record machine := Machine {
  m_sub : subsystems; m_fs : ramfs; storage_bounce : list Z; display_owner_pid : Z;
  serial : list Z; terminal : list Z; m_compositor : compositor
}.
Definition set_sub (w : subsystems) (m : machine) : machine :=
  Machine w m.(m_fs) m.(storage_bounce) m.(display_owner_pid) m.(serial) m.(terminal) m.(m_compositor).
Definition set_fs (f : ramfs) (m : machine) : machine :=
  Machine m.(m_sub) f m.(storage_bounce) m.(display_owner_pid) m.(serial) m.(terminal) m.(m_compositor).
Definition set_bounce (b : list Z) (m : machine) : machine :=
  Machine m.(m_sub) m.(m_fs) b m.(display_owner_pid) m.(serial) m.(terminal) m.(m_compositor).
Definition emit (text : list Z) (mirror : bool) (m : machine) : machine :=
  Machine m.(m_sub) m.(m_fs) m.(storage_bounce) m.(display_owner_pid) (m.(serial) ++ text)
    (if mirror then m.(terminal) ++ text else m.(terminal)) m.(m_compositor).
Definition set_mcaps (c : caps) (m : machine) : machine := set_sub (set_caps c m.(m_sub)) m.
Definition set_user (u : user_memory) (m : machine) : machine := set_sub (set_memory u m.(m_sub)) m.

(** What the calls read from drivers and from the boot: the physical address of the
    pixel arena, the padding the compiler left in an input event, the timer's tick
    counter, the framebuffer's size when there is one, three facts fixed at boot,
    and the registers of the CMOS clock. *)
Record environment := Environment {
  arena : Z; padding : list Z; timer_ticks : Z; framebuffer : option (Z * Z);
  boot_test_mode : Z; battery_present : bool; demonwm_mode : bool; cmos : Z -> Z
}.

Notation call := (Z -> sched -> machine -> option (Z * sched * machine)).
Definition STORAGE_BOUNCE_BYTES : Z := 4096.

(** [frame->rax = v; return frame_address;] *)
Definition ret (frame v : Z) (s : sched) (m : machine) : option (Z * sched * machine) :=
  s ← write_frame frame (set_rax v) s; Some (frame, s, m).
Definition bool_status (b : bool) : Z := if b then 0 else U64_MAX.

(** Capability checks: the service, or the service and the object. *)
Definition check_service (pid handle right : Z) (m : machine) : option (option Z * machine) :=
  '(r, c) ← capability_resolve pid handle right m.(m_sub).(w_caps); Some (r, set_mcaps c m).
Definition check_object (pid handle right : Z) (m : machine) : option (option (Z * Z) * machine) :=
  '(r, c) ← capability_resolve_object pid handle right m.(m_sub).(w_caps); Some (r, set_mcaps c m).
(** The object, when the handle is for [service]. *)
Definition object_of (service : Z) (r : option (Z * Z)) : option Z :=
  match r with Some (svc, obj) => if svc =? service then Some obj else None | None => None end.
Definition is_service (service : Z) (r : option Z) : bool :=
  match r with Some svc => svc =? service | None => false end.

Definition readable (s : sched) (address length : Z) (m : machine) : option bool :=
  user_range s.(current_pid) address length m.(m_sub).(w_memory).
Definition writable (s : sched) (address length : Z) (m : machine) : option bool :=
  user_write_range s.(current_pid) address length m.(m_sub).(w_memory).
Definition fetch (s : sched) (address length : Z) (m : machine) : option (list Z) :=
  read_user s.(cr3) address length m.(m_sub).(w_memory).

(** ** Console text *)

Definition write_user_text (address length : Z) (s : sched) (m : machine) : option (Z * machine) :=
  ok ← readable s address length m;
  if negb ok then Some (U64_MAX, m) else
  text ← fetch s address length m;
  let suppress := negb (m.(display_owner_pid) =? 0) && (m.(display_owner_pid) =? s.(current_pid)) in
  Some (length, emit text (negb suppress) m).

(** 0: write text. *)
Definition sys_text (frame : Z) (s : sched) (m : machine) : option (Z * sched * machine) :=
  f ← s.(frames) !! frame; '(v, m) ← write_user_text f.(rdi) f.(rsi) s m; ret frame v s m.

(** ** Files *)

(** The chunk loop of [copy_ramfs_to_user]; [space] is the caller's CR3. *)
Fixpoint copy_file_chunks (fuel : nat) (space object_id file_offset destination capacity copied : Z) (m : machine)
  : option (bool * Z * machine) :=
  if negb (copied <? capacity) then Some (true, copied, m) else
  match fuel with
  | O => None
  | S fuel =>
      if U64_MAX - file_offset <? copied then Some (false, copied, m) else
      let left := u64 (capacity - copied) in
      let chunk := if STORAGE_BOUNCE_BYTES <? left then STORAGE_BOUNCE_BYTES else left in
      '(r, fs) ← ramfs_read_range object_id (file_offset + copied) (Some m.(storage_bounce)) chunk m.(m_fs);
      match r with
      | None => Some (false, copied, set_fs fs m)
      | Some (bounce, received) =>
          let m := set_bounce bounce (set_fs fs m) in
          let u := m.(m_sub).(w_memory) in
          pg ← write_chunk space (destination + copied) (take (Z.to_nat received) bounce) u.(pages);
          let m := set_user (set_pages pg u) m in
          let copied := copied + received in
          if received <? chunk then Some (true, copied, m)
          else copy_file_chunks fuel space object_id file_offset destination capacity copied m
      end
  end.
Definition copy_ramfs_to_user (space object_id file_offset destination capacity : Z) (m : machine)
  : option (bool * Z * machine) :=
  copy_file_chunks (Z.to_nat (capacity / STORAGE_BOUNCE_BYTES + 1)) space object_id file_offset destination capacity 0 m.

(** 6: write to the console or a file. *)
Definition sys_write (frame : Z) (s : sched) (m : machine) : option (Z * sched * machine) :=
  f ← s.(frames) !! frame;
  '(r, m) ← check_object s.(current_pid) f.(rdi) CAPABILITY_RIGHT_WRITE m;
  match r with
  | None => ret frame U64_MAX s m
  | Some (svc, obj) =>
      if svc =? CAPABILITY_SERVICE_CONSOLE then '(v, m) ← write_user_text f.(rsi) f.(rdx) s m; ret frame v s m else
      if negb (svc =? CAPABILITY_SERVICE_FILE) then ret frame U64_MAX s m else
      ok ← readable s f.(rsi) f.(rdx) m;
      if negb ok then ret frame U64_MAX s m else
      data ← fetch s f.(rsi) f.(rdx) m;
      '(ok, fs) ← ramfs_write obj (Some data) f.(rdx) m.(m_fs);
      ret frame (if negb ok then U64_MAX else f.(rdx)) s (set_fs fs m)
  end.

(** 9: open or create a file. *)
Definition sys_open (frame : Z) (s : sched) (m : machine) : option (Z * sched * machine) :=
  f ← s.(frames) !! frame;
  '(r, m) ← check_service s.(current_pid) f.(rdi) CAPABILITY_RIGHT_OPEN m;
  if negb (is_service CAPABILITY_SERVICE_STORAGE r) then ret frame U64_MAX s m else
  ok ← readable s f.(rsi) f.(rdx) m;
  if negb ok then ret frame U64_MAX s m else
  name ← fetch s f.(rsi) f.(rdx) m;
  '(id, fs) ← ramfs_open (Some name) f.(rdx) (negb (f.(r10) =? 0)) m.(m_fs);
  let m := set_fs fs m in
  match id with
  | None => ret frame U64_MAX s m
  | Some id =>
      '(handle, c) ← capability_open_file s.(current_pid) id m.(m_sub).(w_caps);
      ret frame handle s (set_mcaps c m)
  end.

(** 10: read a file; [ranged] starts at [r10] instead. *)
Definition sys_read (ranged : bool) (frame : Z) (s : sched) (m : machine) : option (Z * sched * machine) :=
  f ← s.(frames) !! frame;
  '(r, m) ← check_object s.(current_pid) f.(rdi) CAPABILITY_RIGHT_READ m;
  match object_of CAPABILITY_SERVICE_FILE r with
  | None => ret frame U64_MAX s m
  | Some obj =>
      ok ← writable s f.(rsi) f.(rdx) m;
      if negb ok then ret frame U64_MAX s m else
      '(ok, length, m) ← copy_ramfs_to_user s.(cr3) obj (if ranged then f.(r10) else 0) f.(rsi) f.(rdx) m;
      ret frame (if negb ok then U64_MAX else length) s m
  end.

(** 42: read a file from an offset. *)
Definition sys_read_range : call := sys_read true.

(** 43: delete a file. *)
Definition sys_delete (frame : Z) (s : sched) (m : machine) : option (Z * sched * machine) :=
  f ← s.(frames) !! frame;
  '(r, m) ← check_service s.(current_pid) f.(rdi) CAPABILITY_RIGHT_OPEN m;
  if negb (is_service CAPABILITY_SERVICE_STORAGE r) then ret frame U64_MAX s m else
  ok ← readable s f.(rsi) f.(rdx) m;
  if negb ok then ret frame U64_MAX s m else
  name ← fetch s f.(rsi) f.(rdx) m;
  '(ok, fs) ← ramfs_delete (Some name) f.(rdx) m.(m_fs);
  ret frame (bool_status ok) s (set_fs fs m).

(** 44: rename a file. *)
Definition sys_rename (frame : Z) (s : sched) (m : machine) : option (Z * sched * machine) :=
  f ← s.(frames) !! frame;
  '(r, m) ← check_service s.(current_pid) f.(rdi) CAPABILITY_RIGHT_OPEN m;
  if negb (is_service CAPABILITY_SERVICE_STORAGE r) then ret frame U64_MAX s m else
  ok ← readable s f.(rsi) f.(rdx) m;
  if negb ok then ret frame U64_MAX s m else
  ok ← readable s f.(r10) f.(r8) m;
  if negb ok then ret frame U64_MAX s m else
  old ← fetch s f.(rsi) f.(rdx) m;
  new ← fetch s f.(r10) f.(r8) m;
  '(ok, fs) ← ramfs_rename (Some old) f.(rdx) (Some new) f.(r8) m.(m_fs);
  ret frame (bool_status ok) s (set_fs fs m).

(** [struct demon_dir_entry] (src/include/demon/dirent.h): 60 bytes of name, two words,
    four bytes of padding that are not initialised, the size. *)
Definition dir_entry_bytes (padding : list Z) (l : listed) : option (list Z) :=
  let copy_length := if l.(l_length) <? 60 then l.(l_length) else 59 in
  name ← copy_into (replicate 60 0) 0 l.(l_name) l.(l_start) (Z.to_nat copy_length);
  Some (name ++ le_bytes 4 copy_length ++ le_bytes 4 (if l.(l_directory) then 1 else 0) ++ padding ++ le_bytes 8 l.(l_size)).
Definition DIR_ENTRY_BYTES : Z := 80.

(** 39: the [r10]th entry of a directory. *)
Definition sys_list (padding : list Z) (frame : Z) (s : sched) (m : machine) : option (Z * sched * machine) :=
  f ← s.(frames) !! frame;
  '(r, m) ← check_service s.(current_pid) f.(rdi) CAPABILITY_RIGHT_OPEN m;
  if negb (is_service CAPABILITY_SERVICE_STORAGE r) then ret frame U64_MAX s m else
  ok ← readable s f.(rsi) f.(rdx) m;
  if negb ok then ret frame U64_MAX s m else
  ok ← writable s f.(r8) DIR_ENTRY_BYTES m;
  if negb ok then ret frame U64_MAX s m else
  prefix ← fetch s f.(rsi) f.(rdx) m;
  l ← ramfs_list prefix f.(rdx) f.(r10) m.(m_fs);
  match l with
  | None => ret frame 0 s m
  | Some l =>
      entry ← dir_entry_bytes padding l;
      '(ok, u) ← userspace_copy_to s.(current_pid) s.(current_pid) f.(r8) (Some entry) DIR_ENTRY_BYTES m.(m_sub).(w_memory);
      ret frame (if negb ok then U64_MAX else 1) s (set_user u m)
  end.

(** ** Capabilities *)

(** 5: open a service. *)
Definition sys_capability_open (frame : Z) (s : sched) (m : machine) : option (Z * sched * machine) :=
  f ← s.(frames) !! frame;
  '(handle, c) ← capability_open s.(current_pid) (u32 f.(rdi)) m.(m_sub).(w_caps);
  ret frame handle s (set_mcaps c m).

(** 8: close a handle. *)
Definition sys_capability_close (frame : Z) (s : sched) (m : machine) : option (Z * sched * machine) :=
  f ← s.(frames) !! frame;
  '(ok, c, sf) ← capability_close s.(current_pid) f.(rdi) m.(m_sub).(w_caps) m.(m_sub).(w_surfaces);
  ret frame (bool_status ok) s (set_sub (set_surfaces sf (set_caps c m.(m_sub))) m).

(** ** Surfaces *)

(** Words of a user buffer, and their bytes. *)
Fixpoint words_of (n : nat) (l : list Z) : list Z :=
  match n with
  | O => []
  | S n => foldr (fun b acc => b + 256 * acc) 0 (take 4 l) :: words_of n (drop 4 l)
  end.
Definition word_bytes (l : list Z) : list Z := l ≫= le_bytes 4.

Definition set_msurfaces (sf : surfaces) (m : machine) : machine := set_sub (set_surfaces sf m.(m_sub)) m.

(** 22: create a surface. *)
Definition sys_surface_create (frame : Z) (s : sched) (m : machine) : option (Z * sched * machine) :=
  f ← s.(frames) !! frame;
  '(r, m) ← check_service s.(current_pid) f.(rdi) CAPABILITY_RIGHT_OPEN m;
  if negb (is_service CAPABILITY_SERVICE_SURFACE r) then ret frame U64_MAX s m else
  '(id, sf) ← surface_create s.(current_pid) (u32 f.(rsi)) (u32 f.(rdx)) m.(m_sub).(w_surfaces);
  match id with
  | None => ret frame U64_MAX s (set_msurfaces sf m)
  | Some id =>
      '(handle, c, sf) ← capability_open_surface s.(current_pid) id
         (Z.lor (Z.lor CAPABILITY_RIGHT_READ CAPABILITY_RIGHT_WRITE) CAPABILITY_RIGHT_QUERY) m.(m_sub).(w_caps) sf;
      '(_, sf) ← (if handle =? U64_MAX then surface_discard id sf else Some (true, sf));
      ret frame handle s (set_sub (set_surfaces sf (set_caps c m.(m_sub))) m)
  end.

Definition MAX_PIXELS : Z := SURFACE_MAX_WIDTH * SURFACE_MAX_HEIGHT.

(** [(n != 0 && bytes / sizeof(uint32_t) != n)] for [bytes = n * 4]. *)
Definition overflows (n : Z) : bool := negb (n =? 0) && negb (u64 (n * 4) / 4 =? n).

(** 23: write pixels. *)
Definition sys_surface_write (frame : Z) (s : sched) (m : machine) : option (Z * sched * machine) :=
  f ← s.(frames) !! frame;
  let bytes := u64 (f.(rdx) * 4) in
  if (MAX_PIXELS <? f.(rdx)) || overflows f.(rdx) then ret frame U64_MAX s m else
  '(r, m) ← check_object s.(current_pid) f.(rdi) CAPABILITY_RIGHT_WRITE m;
  match object_of CAPABILITY_SERVICE_SURFACE r with
  | None => ret frame U64_MAX s m
  | Some id =>
      ok ← readable s f.(rsi) bytes m;
      if negb ok then ret frame U64_MAX s m else
      data ← fetch s f.(rsi) bytes m;
      '(ok, sf) ← surface_write id f.(r10) (Some (words_of (Z.to_nat f.(rdx)) data)) f.(rdx) m.(m_sub).(w_surfaces);
      ret frame (if negb ok then U64_MAX else f.(rdx)) s (set_msurfaces sf m)
  end.

(** 24: grant a surface to the owner of a channel. *)
Definition sys_surface_share (frame : Z) (s : sched) (m : machine) : option (Z * sched * machine) :=
  f ← s.(frames) !! frame;
  '(t, w) ← ipc_channel_owner s.(current_pid) f.(rsi) m.(m_sub);
  let m := set_sub w m in
  match t with
  | None => ret frame U64_MAX s m
  | Some target =>
      '(handle, c, sf) ← capability_grant s.(current_pid) f.(rdi) target
         (Z.lor CAPABILITY_RIGHT_READ CAPABILITY_RIGHT_QUERY) m.(m_sub).(w_caps) m.(m_sub).(w_surfaces);
      let sf := if handle =? U64_MAX then sf else surface_note_share sf in
      ret frame handle s (set_sub (set_surfaces sf (set_caps c m.(m_sub))) m)
  end.

(** 25: read a surface's pixels. *)
Definition sys_surface_read (frame : Z) (s : sched) (m : machine) : option (Z * sched * machine) :=
  f ← s.(frames) !! frame;
  if (MAX_PIXELS <? f.(rdx)) || overflows f.(rdx) then ret frame U64_MAX s m else
  '(r, m) ← check_object s.(current_pid) f.(rdi) CAPABILITY_RIGHT_READ m;
  match object_of CAPABILITY_SERVICE_SURFACE r with
  | None => ret frame U64_MAX s m
  | Some id =>
      '(d, sf) ← surface_data id m.(m_sub).(w_surfaces);
      let m := set_msurfaces sf m in
      match d with
      | None => ret frame U64_MAX s m
      | Some (pixels, w, h) =>
          if f.(rdx) <? w * h then ret frame U64_MAX s m else
          ok ← writable s f.(rsi) (w * h * 4) m;
          if negb ok then ret frame U64_MAX s m else
          '(ok, u) ← userspace_copy_to s.(current_pid) s.(current_pid) f.(rsi) (Some (word_bytes pixels)) (w * h * 4)
                       m.(m_sub).(w_memory);
          ret frame (if negb ok then U64_MAX else w * h) s (set_user u m)
      end
  end.

(** 27: map a surface read-only; [arena] is the arena's physical address. *)
Definition sys_surface_map (arena frame : Z) (s : sched) (m : machine) : option (Z * sched * machine) :=
  f ← s.(frames) !! frame;
  '(r, m) ← check_object s.(current_pid) f.(rdi) CAPABILITY_RIGHT_READ m;
  match object_of CAPABILITY_SERVICE_SURFACE r with
  | None => ret frame U64_MAX s m
  | Some id =>
      '(a, u, sf) ← map_surface_readonly arena s.(current_pid) id m.(m_sub).(w_memory) m.(m_sub).(w_surfaces);
      ret frame (match a with Some a => a | None => U64_MAX end) s
        (set_sub (set_surfaces sf (set_memory u m.(m_sub))) m)
  end.

(** 28: mark a rectangle damaged. *)
Definition sys_surface_damage (frame : Z) (s : sched) (m : machine) : option (Z * sched * machine) :=
  f ← s.(frames) !! frame;
  '(r, m) ← check_object s.(current_pid) f.(rdi) CAPABILITY_RIGHT_WRITE m;
  match object_of CAPABILITY_SERVICE_SURFACE r with
  | None => ret frame U64_MAX s m
  | Some id =>
      '(ok, sf) ← surface_damage id (u32 f.(rsi)) (u32 f.(rdx)) (u32 f.(r10)) (u32 f.(r8)) m.(m_sub).(w_surfaces);
      ret frame (bool_status ok) s (set_msurfaces sf m)
  end.

(** 29: take the damage. *)
Definition sys_surface_take_damage (frame : Z) (s : sched) (m : machine) : option (Z * sched * machine) :=
  f ← s.(frames) !! frame;
  '(r, m) ← check_object s.(current_pid) f.(rdi) CAPABILITY_RIGHT_QUERY m;
  match object_of CAPABILITY_SERVICE_SURFACE r with
  | None => ret frame U64_MAX s m
  | Some id =>
      '(d, sf) ← surface_take_damage id m.(m_sub).(w_surfaces);
      ret frame (match d with Some d => d | None => U64_MAX end) s (set_msurfaces sf m)
  end.

(** 30: unmap a surface. *)
Definition sys_surface_unmap (frame : Z) (s : sched) (m : machine) : option (Z * sched * machine) :=
  f ← s.(frames) !! frame;
  '(r, m) ← check_object s.(current_pid) f.(rdi) CAPABILITY_RIGHT_READ m;
  match object_of CAPABILITY_SERVICE_SURFACE r with
  | None => ret frame U64_MAX s m
  | Some id =>
      '(ok, u, sf) ← unmap_surface_id s.(current_pid) id m.(m_sub).(w_memory) m.(m_sub).(w_surfaces);
      ret frame (bool_status ok) s (set_sub (set_surfaces sf (set_memory u m.(m_sub))) m)
  end.

(** ** Input, memory and processes *)

(** 20: poll for an input event; [padding] is the tail padding of the struct. *)
Definition sys_input_poll (padding : list Z) (frame : Z) (s : sched) (m : machine) : option (Z * sched * machine) :=
  f ← s.(frames) !! frame;
  '(r, m) ← check_service s.(current_pid) f.(rdi) CAPABILITY_RIGHT_READ m;
  if negb (is_service CAPABILITY_SERVICE_INPUT r) then ret frame U64_MAX s m else
  ok ← writable s f.(rsi) EVENT_BYTES m;
  if negb ok then ret frame U64_MAX s m else
  '(ev, i) ← input_poll m.(m_sub).(w_input);
  let m := set_sub (set_input i m.(m_sub)) m in
  match ev with
  | None => ret frame 1 s m
  | Some ev =>
      '(ok, u) ← userspace_copy_to s.(current_pid) s.(current_pid) f.(rsi) (Some (event_bytes padding ev)) EVENT_BYTES
                   m.(m_sub).(w_memory);
      ret frame (bool_status ok) s (set_user u m)
  end.

(** 40, 46 and 47: the anonymous region. *)
Definition sys_anonymous (op : Z -> Z -> user_memory -> option (Z * user_memory)) (frame : Z) (s : sched) (m : machine)
  : option (Z * sched * machine) :=
  f ← s.(frames) !! frame;
  '(v, u) ← op s.(current_pid) f.(rdi) m.(m_sub).(w_memory);
  ret frame v s (set_user u m).
Definition sys_anonymous_map : Z -> sched -> machine -> option (Z * sched * machine) := sys_anonymous anonymous_map.
Definition sys_anonymous_reserve : Z -> sched -> machine -> option (Z * sched * machine) := sys_anonymous anonymous_reserve.
Definition sys_anonymous_commit (frame : Z) (s : sched) (m : machine) : option (Z * sched * machine) :=
  f ← s.(frames) !! frame;
  sys_anonymous (fun pid n => anonymous_commit pid n (negb (f.(rsi) =? 0))) frame s m.

(** 41: release the anonymous region. *)
Definition sys_anonymous_release (frame : Z) (s : sched) (m : machine) : option (Z * sched * machine) :=
  f ← s.(frames) !! frame;
  let pid := s.(current_pid) in let u := m.(m_sub).(w_memory) in
  if negb (f.(rdi) =? USER_ANON_BASE) || (pid =? 0) then ret frame U64_MAX s m else
  count ← u.(anonymous_page_count).[pid]; reserved ← u.(anonymous_reserved_pages).[pid];
  if (count =? 0) && (reserved =? 0) then ret frame U64_MAX s m else
  u ← anonymous_release pid u;
  ret frame 0 s (set_user u m).

(** 26: select: a message, an input event, or sleep until either or the timeout. *)
Definition sys_select (padding : list Z) (frame : Z) (s : sched) (m : machine) : option (Z * sched * machine) :=
  f ← s.(frames) !! frame;
  let pid := s.(current_pid) in
  '(r, m) ← check_service pid f.(rsi) CAPABILITY_RIGHT_READ m;
  if negb (is_service CAPABILITY_SERVICE_INPUT r) then ret frame U64_MAX s m else
  ok ← writable s f.(rdx) IPC_MESSAGE_MAX m;
  if negb ok then ret frame U64_MAX s m else
  ok ← writable s f.(r10) EVENT_BYTES m;
  if negb ok then ret frame U64_MAX s m else
  '(r, s, w) ← ipc_receive pid f.(rdi) (Some (replicate 64 0)) IPC_MESSAGE_MAX s m.(m_sub);
  let m := set_sub w m in
  match r with
  | Some (length, _, message) =>
      '(ok, u) ← userspace_copy_to pid pid f.(rdx) (Some message) length m.(m_sub).(w_memory);
      s ← write_frame frame (set_result (if negb ok then U64_MAX else 1) length) s;
      Some (frame, s, set_user u m)
  | None =>
      '(ev, i) ← input_poll m.(m_sub).(w_input);
      let m := set_sub (set_input i m.(m_sub)) m in
      match ev with
      | Some ev =>
          '(ok, u) ← userspace_copy_to pid pid f.(r10) (Some (event_bytes padding ev)) EVENT_BYTES m.(m_sub).(w_memory);
          s ← write_frame frame (set_result (if negb ok then U64_MAX else 2) EVENT_BYTES) s;
          Some (frame, s, set_user u m)
      | None =>
          '(waits, w) ← ipc_wait_select pid f.(rdi) f.(rdx) IPC_MESSAGE_MAX m.(m_sub);
          let (both, i) := if (waits : bool) then input_wait pid f.(r10) w.(w_input) else (false, w.(w_input)) in
          let w := set_input i w in
          if negb both then ret frame U64_MAX s (set_sub (w_ipc_cancel pid w) m) else
          '(fr, s) ← (if negb (f.(r8) =? 0) then scheduler_block_current_timeout frame f.(r8) 3 s
                      else scheduler_block_current frame s);
          Some (fr, s, set_sub w m)
      end
  end.

(** ** Queries *)

Definition DISPLAY_TRANSFER_MAX_PIXELS : Z := 4096.
(** The five words of [struct display_user_info]. *)
Definition display_describe (fb : option (Z * Z)) : option (list Z) :=
  '(w, h) ← fb; Some [w; h; w; 1; DISPLAY_TRANSFER_MAX_PIXELS].

(** 7: ask about what a handle names. *)
Definition sys_query (ticks : Z) (fb : option (Z * Z)) (frame : Z) (s : sched) (m : machine) : option (Z * sched * machine) :=
  f ← s.(frames) !! frame;
  '(r, m) ← check_service s.(current_pid) f.(rdi) CAPABILITY_RIGHT_QUERY m;
  match r with
  | None => ret frame U64_MAX s m
  | Some service =>
      if service =? CAPABILITY_SERVICE_CLOCK then ret frame (if f.(rsi) =? 0 then ticks else U64_MAX) s m else
      if service =? CAPABILITY_SERVICE_PROCESS then ret frame (if f.(rsi) =? 0 then s.(current_pid) else U64_MAX) s m else
      if service =? CAPABILITY_SERVICE_FILE then
        '(r, m) ← check_object s.(current_pid) f.(rdi) CAPABILITY_RIGHT_QUERY m;
        match r with
        | None => ret frame U64_MAX s m
        | Some (_, id) =>
            if negb (f.(rsi) =? 0) then ret frame U64_MAX s m else
            size ← ramfs_size id m.(m_fs);
            ret frame (match size with Some n => n | None => U64_MAX end) s m
        end
      else if service =? CAPABILITY_SERVICE_DISPLAY then
        match display_describe fb with
        | None => ret frame U64_MAX s m
        | Some info =>
            ret frame (if (0 <=? f.(rsi)) && (f.(rsi) <? 5) then nth (Z.to_nat f.(rsi)) info 0
                       else if f.(rsi) =? 5 then Z.lor (nth 0 info 0) (u64 (Z.shiftl (nth 1 info 0) 32)) else U64_MAX) s m
        end
      else if service =? CAPABILITY_SERVICE_SURFACE then
        '(r, m) ← check_object s.(current_pid) f.(rdi) CAPABILITY_RIGHT_QUERY m;
        match r with
        | None => ret frame U64_MAX s m
        | Some (_, id) =>
            '(d, sf) ← surface_data id m.(m_sub).(w_surfaces);
            let m := set_msurfaces sf m in
            match d with
            | None => ret frame U64_MAX s m
            | Some (_, w, h) =>
                ret frame (if f.(rsi) =? 0 then w else if f.(rsi) =? 1 then h else if f.(rsi) =? 2 then w * h else U64_MAX) s m
            end
        end
      else ret frame U64_MAX s m
  end.

(** What call 18 says on the serial line when a check fails, in the order of the checks. *)
Definition display_denials : list string :=
  ["display: capability denied"; "display: wrong service"; "display: invalid destination"; "display: unavailable"; "display: copy failed"]%string.
Definition text_bytes (t : string) : list Z := (fun a => Z.of_N (Ascii.N_of_ascii a)) <$> String.list_ascii_of_string t.
Definition report_denial (n : nat) (m : machine) : machine := emit (text_bytes (nth n display_denials EmptyString) ++ [10]) false m.

(** 18: describe the display. *)
Definition sys_display_info (fb : option (Z * Z)) (frame : Z) (s : sched) (m : machine) : option (Z * sched * machine) :=
  f ← s.(frames) !! frame;
  '(r, m) ← check_service s.(current_pid) f.(rdi) CAPABILITY_RIGHT_QUERY m;
  match r with None => ret frame U64_MAX s (report_denial 0 m) | Some service =>
  if negb (service =? CAPABILITY_SERVICE_DISPLAY) then ret frame U64_MAX s (report_denial 1 m) else
  ok ← writable s f.(rsi) 40 m;
  if negb ok then ret frame U64_MAX s (report_denial 2 m) else
  match display_describe fb with None => ret frame U64_MAX s (report_denial 3 m) | Some info =>
  '(ok, u) ← userspace_copy_to s.(current_pid) s.(current_pid) f.(rsi) (Some (info ≫= le_bytes 8)) 40 m.(m_sub).(w_memory);
  let m := set_user u m in
  if negb ok then ret frame U64_MAX s (report_denial 4 m) else
  ret frame (Z.lor (nth 0 info 0) (u64 (Z.shiftl (nth 1 info 0) 32))) s m
  end end.

(** 21: the display's size in one number. *)
Definition sys_display_size (fb : option (Z * Z)) (frame : Z) (s : sched) (m : machine) : option (Z * sched * machine) :=
  f ← s.(frames) !! frame;
  '(r, m) ← check_service s.(current_pid) f.(rdi) CAPABILITY_RIGHT_QUERY m;
  if negb (is_service CAPABILITY_SERVICE_DISPLAY r) then ret frame U64_MAX s m else
  match display_describe fb with
  | None => ret frame U64_MAX s m
  | Some info => ret frame (u64 (nth 0 info 0 * 1000 + nth 1 info 0)) s m
  end.

Definition display_compositor_report (windows focused : Z) (c : compositor) : compositor :=
  Compositor windows focused (u64 (c.(compositor_report_count) + 1)).
(** 31: the compositor reports its windows. *)
Definition sys_compositor_report (frame : Z) (s : sched) (m : machine) : option (Z * sched * machine) :=
  f ← s.(frames) !! frame;
  '(r, m) ← check_service s.(current_pid) f.(rdi) CAPABILITY_RIGHT_WRITE m;
  if negb (is_service CAPABILITY_SERVICE_DISPLAY r) then ret frame U64_MAX s m else
  ret frame 0 s (Machine m.(m_sub) m.(m_fs) m.(storage_bounce) m.(display_owner_pid) m.(serial) m.(terminal)
                   (display_compositor_report f.(rsi) f.(rdx) m.(m_compositor))).

(** 3, 34, 37 and 38: the tick counter and facts about the machine, for everybody. *)
Definition sys_constant (v frame : Z) (s : sched) (m : machine) : option (Z * sched * machine) := ret frame v s m.
Definition flag (b : bool) : Z := if b then 1 else 0.

(** 48: the hour and the minute of the CMOS clock, in binary or in BCD; waiting for its
    update to end has no effect on the state. *)
Definition rtc_cmos_read (cmos : Z -> Z) (reg : Z) : Z := u8 (cmos reg).
Definition rtc_bcd_to_binary (value : Z) : Z := u8 (Z.shiftr value 4 * 10 + Z.land value 15).
Definition real_time_of_day (cmos : Z -> Z) : Z :=
  let minute := rtc_cmos_read cmos 2 in
  let hour := Z.land (rtc_cmos_read cmos 4) 127 in
  let bcd := Z.land (rtc_cmos_read cmos 11) 4 =? 0 in
  let minute := if bcd then rtc_bcd_to_binary minute else minute in
  let hour := if bcd then rtc_bcd_to_binary hour else hour in
  Z.lor (Z.shiftl hour 8) minute.

(** 12: wait for a child. *)
Definition sys_wait (frame : Z) (s : sched) (m : machine) : option (Z * sched * machine) :=
  f ← s.(frames) !! frame;
  '(fr, s, w) ← scheduler_on_wait frame (u32 f.(rdi)) s m.(m_sub);
  Some (fr, s, set_sub w m).

(** 51: reap an exited child without waiting. *)
Definition sys_reap (frame : Z) (s : sched) (m : machine) : option (Z * sched * machine) :=
  '(child, status, s, w) ← scheduler_reap_exited s.(current_pid) s m.(m_sub);
  s ← write_frame frame (set_result (if child =? 0 then U64_MAX else child) status) s;
  Some (frame, s, set_sub w m).

(** 1 and 4: yield, the caller's pid. *)
Definition sys_yield (frame : Z) (s : sched) (m : machine) : option (Z * sched * machine) :=
  s ← write_frame frame (set_rax 0) s; '(fr, s) ← scheduler_on_yield frame s; Some (fr, s, m).
Definition sys_pid (frame : Z) (s : sched) (m : machine) : option (Z * sched * machine) := ret frame s.(current_pid) s m.

(** ** The table *)

Definition lift (f : Z -> sched -> subsystems -> option (Z * sched * subsystems)) (frame : Z) (s : sched) (m : machine)
  : option (Z * sched * machine) :=
  '(fr, s, w) ← f frame s m.(m_sub); Some (fr, s, set_sub w m).

(** 2: exit, giving up the display. *)
Definition sys_exit_process (frame : Z) (s : sched) (m : machine) : option (Z * sched * machine) :=
  let m := if m.(display_owner_pid) =? s.(current_pid)
           then Machine m.(m_sub) m.(m_fs) m.(storage_bounce) 0 m.(serial) m.(terminal) m.(m_compositor) else m in
  lift sys_exit frame s m.

(** The handlers, by call number, of the calls modelled. *)
Definition calls (e : environment) : list (Z * call) :=
  [(0, sys_text); (1, sys_yield); (2, sys_exit_process); (3, sys_constant e.(timer_ticks)); (4, sys_pid);
   (5, sys_capability_open); (6, sys_write); (7, sys_query e.(timer_ticks) e.(framebuffer)); (8, sys_capability_close); (9, sys_open);
   (10, sys_read false); (12, sys_wait); (13, lift sys_terminate); (14, lift (sys_ipc_open true));
   (15, lift (sys_ipc_open false)); (16, lift sys_ipc_send); (17, lift sys_ipc_receive);
   (18, sys_display_info e.(framebuffer)); (20, sys_input_poll e.(padding)); (21, sys_display_size e.(framebuffer));
   (22, sys_surface_create); (23, sys_surface_write); (24, sys_surface_share); (25, sys_surface_read);
   (26, sys_select e.(padding)); (27, sys_surface_map e.(arena)); (28, sys_surface_damage); (29, sys_surface_take_damage);
   (30, sys_surface_unmap); (31, sys_compositor_report); (34, sys_constant e.(boot_test_mode));
   (37, sys_constant (flag e.(battery_present))); (38, sys_constant (flag e.(demonwm_mode)));
   (39, sys_list e.(padding)); (40, sys_anonymous_map); (41, sys_anonymous_release); (42, sys_read_range);
   (43, sys_delete); (44, sys_rename); (46, sys_anonymous_reserve); (47, sys_anonymous_commit);
   (48, sys_constant (real_time_of_day e.(cmos)));
   (51, sys_reap)].
Definition handler (e : environment) (number : Z) : option call :=
  snd <$> List.find (fun c => c.1 =? number) (calls e).
(** [syscall_dispatch]: the number is in [rax]. The outer option is [None] for a call that is
    not modelled. *)
Definition syscall_dispatch (e : environment) (frame : Z) (s : sched) (m : machine)
  : option (option (Z * sched * machine)) :=
  match s.(frames) !! frame with
  | Some f => match handler e f.(rax) with Some h => Some (h frame s m) | None => None end
  | None => Some None
  end.
