(* ===== verification/SpawnCalls.v ===== *)
(** Spawning a file (src/src/arch/x86_64/userspace.c): the search for a slot and the
    system calls 11 and 50, and with them the whole table of calls modelled. *)

From stdpp Require Import gmap.
From S2P Require Import Prelude Ramfs UserMemory Scheduler Kernel Syscalls Spawn.

(** ** Spawning a file *)

(** The [n] bytes from [base] on. *)
Definition slice (data : list Z) (base n : Z) : option (list Z) := mapM (fun i => data.[base + i]) (seqZ 0 n).

(** The candidates from [candidate] on; 0 when none takes the program. *)
Fixpoint spawn_from (n : nat) (candidate parent_pid : Z) (name image : list Z) (service_mask : Z) (s : sched) (w : subsystems)
  : option (Z * sched * subsystems) :=
  match n with
  | O => Some (0, s, w)
  | S n =>
      used ← w.(w_memory).(process_memory_used).[candidate];
      if (used : bool) then spawn_from n (candidate + 1) parent_pid name image service_mask s w else
      p ← w.(w_memory).(process_memory).[candidate];
      '(ok, s, w) ← load_process candidate parent_pid name p image service_mask s w;
      if (ok : bool) then Some (candidate, s, w) else spawn_from n (candidate + 1) parent_pid name image service_mask s w
  end.

(** [initialized] is the flag [userspace_init] leaves. *)
Definition userspace_spawn_path (initialized : bool) (parent_pid : Z) (path : option (list Z)) (path_length : Z) (name : list Z)
    (service_mask : Z) (s : sched) (m : machine) : option (Z * sched * machine) :=
  match path with
  | None => Some (0, s, m)
  | Some path =>
      if negb initialized || (path_length =? 0) then Some (0, s, m) else
      '(id, fs) ← ramfs_open (Some path) path_length false m.(m_fs);
      let m := set_fs fs m in
      match id with
      | None => Some (0, s, m)
      | Some id =>
          view ← ramfs_view id m.(m_fs);
          match view with
          | None => Some (0, s, m)
          | Some (data, base, size) =>
              image ← slice data base size;
              '(pid, s, w) ← spawn_from 7 1 parent_pid name image service_mask s m.(m_sub);
              Some (pid, s, set_sub w m)
          end
      end
  end.

Definition name_spawned : list Z := [115; 112; 97; 119; 110; 101; 100; 0].
Definition name_game : list Z := [103; 97; 109; 101; 0].

(** 11: spawn a program. *)
Definition sys_spawn (initialized : bool) (frame : Z) (s : sched) (m : machine) : option (Z * sched * machine) :=
  f ← s.(frames) !! frame;
  ok ← readable s f.(rdi) f.(rsi) m;
  if negb ok || (f.(rsi) =? 0) || (127 <? f.(rsi)) then ret frame U64_MAX s m else
  path ← fetch s f.(rdi) f.(rsi) m;
  '(pid, s, m) ← userspace_spawn_path initialized s.(current_pid) (Some path) f.(rsi) name_spawned (u32 f.(rdx)) s m;
  ret frame (if pid =? 0 then U64_MAX else pid) s m.

(** 50: spawn a program and wait for it. *)
Definition sys_launch (initialized : bool) (frame : Z) (s : sched) (m : machine) : option (Z * sched * machine) :=
  f ← s.(frames) !! frame;
  ok ← readable s f.(rdi) f.(rsi) m;
  if negb ok || (f.(rsi) =? 0) || (127 <? f.(rsi)) then ret frame U64_MAX s m else
  let caller := s.(current_pid) in
  let m := set_sub (w_input_cancel caller (w_ipc_cancel caller m.(m_sub))) m in
  path ← fetch s f.(rdi) f.(rsi) m;
  '(pid, s, m) ← userspace_spawn_path initialized caller (Some path) f.(rsi) name_game (u32 f.(rdx)) s m;
  if pid =? 0 then ret frame U64_MAX s m else
  '(fr, s, w) ← scheduler_on_wait frame pid s m.(m_sub);
  Some (fr, s, set_sub w m).

(** The calls that run the display, network and audio drivers: submitting pixels, moving
    the cursor, drawing an effect, reading the last HTTP response, fetching a page, and
    playing samples. They are not modelled. *)
Definition driver_calls : list Z := [19; 32; 33; 35; 36; 45].

(** [syscall_dispatch]: the handler of every other number; a number without a call
    fails. *)
Definition system_call (initialized : bool) (e : environment) (number : Z) : option call :=
  if number =? 11 then Some (sys_spawn initialized) else
  if number =? 50 then Some (sys_launch initialized) else
  if bool_decide (number ∈ driver_calls) then None else
  match handler e number with Some h => Some h | None => Some (sys_constant U64_MAX) end.
