(* ===== verification/SyscallsSpec.v ===== *)
(** Correctness of the file system calls: reads return exactly the file's bytes
    whatever the chunking, the file system changes only through a live
    capability, and what a deleted file's handle still reaches. *)

From stdpp Require Import gmap.
From S2P Require Import NewHandles.
From S2P Require Import Prelude BoundedTable BoundedTableSpec Ramfs RamfsNames RamfsSpec RamfsTheorems.
From S2P Require Import Surface Capability CapabilitySpec Input Ipc PhysicalMemory UserMemory UserMemorySpec Scheduler SchedulerSpec Kernel KernelTheorems Syscalls.

Record machine_wf (m : machine) : Prop := {
  mw_caps : caps_wf m.(m_sub).(w_caps);
  mw_memory : memory_arrays m.(m_sub).(w_memory);
  mw_fs : ramfs_wf m.(m_fs);
  mw_bounce : Z.of_nat (length m.(storage_bounce)) = STORAGE_BOUNCE_BYTES;
}.
Definition files (m : machine) : filesystem := abs m.(m_fs).

(** ** Reading in chunks *)

(** The machine after [bytes] were stored at [a] in address space [space]. *)
Definition delivered (space a : Z) (bytes : list Z) (m m' : machine) : Prop :=
  let u := m.(m_sub).(w_memory) in
  exists pg, write_chunk space a bytes u.(pages) = Some pg /\ m'.(m_sub) = set_memory (set_pages pg u) m.(m_sub) /\
  files m' = files m /\ ramfs_wf m'.(m_fs) /\ Z.of_nat (length m'.(storage_bounce)) = STORAGE_BOUNCE_BYTES.

Lemma set_memory_same u w : u = w.(w_memory) -> set_memory u w = w.
Proof. intros ->. by destruct w. Qed.

Lemma delivered_nil space a m : machine_wf m -> delivered space a [] m m.
Proof.
  intros Hwf. destruct Hwf. exists m.(m_sub).(w_memory).(pages). by rewrite set_pages_same, set_memory_same.
Qed.
Lemma delivered_app space a l1 l2 m m1 m2 :
  delivered space a l1 m m1 -> delivered space (a + Z.of_nat (length l1)) l2 m1 m2 -> delivered space a (l1 ++ l2) m m2.
Proof.
  intros (pg1 & W1 & E1 & F1 & _) (pg2 & W2 & E2 & F2 & Wf2 & B2). exists pg2. rewrite E1 in W2, E2. cbn in W2.
  rewrite write_chunk_app, W1. cbn [mbind option_bind]. split; [done|]. split; [by rewrite E2|]. by rewrite F2, F1.
Qed.
Lemma delivered_wf space a l m m' : machine_wf m -> delivered space a l m m' -> machine_wf m'.
Proof. intros [H1 H2 H3 H4] (pg & _ & E & _ & W & B). split; [by rewrite E|rewrite E; by destruct H2|done|done]. Qed.

Section reading.
Context (T : Z -> Prop) (space id off dst cap : Z) (n c : list Z) (Hid : 0 <= id) (Hoff : 0 <= off) (Hcap : is_u64 cap).
Context (Hmax : off < 18446744073709551616 /\ Z.of_nat (length c) < 18446744073709551616).

(** One chunk from offset [off + copied]. *)
Lemma read_file_chunk copied k m : machine_wf m -> files m !! id = Some (n, c) -> 0 <= copied -> 0 <= k <= STORAGE_BOUNCE_BYTES ->
  off + copied <= Z.of_nat (length c) ->
  exists bounce fs, ramfs_read_range id (off + copied) (Some m.(storage_bounce)) k m.(m_fs) =
      Some (Some (bounce, Z.min k (Z.of_nat (length c) - (off + copied))), fs) /\
    let r := Z.min k (Z.of_nat (length c) - (off + copied)) in
    take (Z.to_nat r) bounce = contents (drop (Z.to_nat (off + copied)) c) r /\
    Z.of_nat (length bounce) = STORAGE_BOUNCE_BYTES /\ ramfs_wf fs /\ abs fs = abs m.(m_fs).
Proof.
  intros Hwf Hf Hc Hk Hle. pose proof (mw_bounce _ Hwf) as Hb.
  destruct (ramfs_read_range_ok m.(m_fs) id (off + copied) (Some m.(storage_bounce)) k (mw_fs _ Hwf) Hid ltac:(lia)) as (r & fs & -> & Hwf' & Hs).
  { split; [lia|]. lia. }
  cbn [spec_step] in Hs. destruct Hs as [Habs Hs]. unfold files in Hf. rewrite Hf in Hs.
  rewrite (proj2 (Z.ltb_ge _ _)) in Hs by lia. subst r. eexists _, fs. split; [done|].
  set (r := Z.min k (Z.of_nat (length c) - (off + copied))).
  assert (Hlr : length (contents (drop (Z.to_nat (off + copied)) c) r) = Z.to_nat r)
    by (unfold contents; rewrite length_take, length_drop; lia).
  split; [by rewrite take_app_length'|]. split; [rewrite length_app, length_drop, Hlr; lia|done].
Qed.

Lemma copy_chunks_ok fuel : forall copied m, machine_wf m -> files m !! id = Some (n, c) ->
  0 <= copied <= cap -> off + copied <= Z.of_nat (length c) -> cap - copied <= 4096 * Z.of_nat fuel ->
  buffer T m.(m_sub).(w_memory).(pages) space (dst + copied) (cap - copied) ->
  let k := Z.min cap (Z.of_nat (length c) - off) in
  exists m', copy_file_chunks fuel space id off dst cap copied m = Some (true, k, m') /\
    delivered space (dst + copied) (contents (drop (Z.to_nat (off + copied)) c) (k - copied)) m m'.
Proof.
  induction fuel as [|fuel IH]; intros copied m Hwf Hf Hc Hle Hfuel Hbuf k; cbn [copy_file_chunks].
  { rewrite (proj2 (Z.ltb_ge copied cap)) by lia. cbn [negb]. exists m. replace k with copied by lia. split; [done|].
    rewrite Z.sub_diag. by apply delivered_nil. }
  destruct (Z.ltb_spec copied cap) as [Hlt|Hge]; cbn [negb].
  2: { exists m. replace k with copied by lia. split; [done|]. rewrite Z.sub_diag. by apply delivered_nil. }
  rewrite (proj2 (Z.ltb_ge (U64_MAX - off) copied)) by (unfold U64_MAX, is_u64 in *; lia).
  rewrite u64_small by (unfold is_u64 in *; lia).
  set (chunk := if STORAGE_BOUNCE_BYTES <? cap - copied then STORAGE_BOUNCE_BYTES else cap - copied).
  assert (Hch : 1 <= chunk <= STORAGE_BOUNCE_BYTES /\ chunk <= cap - copied /\ (chunk = STORAGE_BOUNCE_BYTES \/ chunk = cap - copied))
    by (unfold chunk, STORAGE_BOUNCE_BYTES; destruct (Z.ltb_spec 4096 (cap - copied)); lia).
  destruct (read_file_chunk copied chunk m Hwf Hf) as (bounce & fs & -> & Hbytes & Hbl & Hfw & Habs); [lia|lia|lia|].
  cbn [mbind option_bind]. set (r := Z.min chunk (Z.of_nat (length c) - (off + copied))) in *.
  assert (Hlr : Z.of_nat (length (contents (drop (Z.to_nat (off + copied)) c) r)) = r).
  { apply contents_length. rewrite length_drop. lia. }
  destruct (write_chunk_ok T space (contents (drop (Z.to_nat (off + copied)) c) r) (dst + copied) m.(m_sub).(w_memory).(pages))
    as (pg & Hwr & [Hsame _ _ _]).
  { rewrite Hlr. rewrite <- (Z.add_0_r (dst + copied)). apply (buffer_part _ _ _ _ (cap - copied)); [done|lia..]. }
  rewrite Hbytes. cbn [m_sub set_bounce set_fs]. rewrite Hwr. cbn [mbind option_bind]. set (m1 := set_user _ _).
  assert (Hd1 : delivered space (dst + copied) (contents (drop (Z.to_nat (off + copied)) c) r) m m1) by (by exists pg).
  destruct (Z.ltb_spec r chunk) as [Hsh|Hfull].
  - exists m1. assert (k = copied + r) as -> by lia. split; [done|]. replace (copied + r - copied) with r by lia. done.
  - assert (r = chunk) as Er by lia.
    destruct (IH (copied + r) m1) as (m' & -> & Hd2).
    + by apply (delivered_wf _ _ _ _ _ Hwf Hd1).
    + destruct Hd1 as (? & _ & _ & -> & _). done.
    + lia.
    + lia.
    + unfold STORAGE_BOUNCE_BYTES in *. lia.
    + change m1.(m_sub).(w_memory).(pages) with pg. rewrite <- Hsame. replace (dst + (copied + r)) with (dst + copied + r) by lia.
      apply (buffer_part _ _ _ _ (cap - copied)); [done|lia..].
    + exists m'. split; [done|].
      assert (contents (drop (Z.to_nat (off + copied)) c) (k - copied) =
        contents (drop (Z.to_nat (off + copied)) c) r ++ contents (drop (Z.to_nat (off + (copied + r))) c) (k - (copied + r))) as ->.
      { unfold contents. replace (Z.to_nat (off + (copied + r))) with (Z.to_nat (off + copied) + Z.to_nat r)%nat by lia.
        rewrite <- drop_drop, take_take_drop. f_equal. lia. }
      apply (delivered_app _ _ _ _ _ m1); [done|]. rewrite Hlr. by replace (dst + copied + r) with (dst + (copied + r)) by lia.
Qed.

(** Past the end nothing is copied. *)
Lemma copy_past_end m : machine_wf m -> files m !! id = Some (n, c) -> 0 < cap -> Z.of_nat (length c) < off ->
  exists m', copy_ramfs_to_user space id off dst cap m = Some (false, 0, m') /\ delivered space dst [] m m'.
Proof.
  intros Hwf Hf Hpos Hgt. unfold copy_ramfs_to_user. rewrite Z2Nat.inj_add by (try apply Z.div_pos; unfold STORAGE_BOUNCE_BYTES, is_u64 in *; lia).
  rewrite Nat.add_1_r. cbn [copy_file_chunks]. rewrite (proj2 (Z.ltb_lt 0 cap)) by lia. cbn [negb].
  rewrite (proj2 (Z.ltb_ge (U64_MAX - off) 0)) by (unfold U64_MAX, is_u64 in *; lia). rewrite Z.sub_0_r, !Z.add_0_r, u64_small by done.
  set (chunk := if STORAGE_BOUNCE_BYTES <? cap then STORAGE_BOUNCE_BYTES else cap).
  pose proof (mw_bounce _ Hwf) as Hb.
  destruct (ramfs_read_range_ok m.(m_fs) id off (Some m.(storage_bounce)) chunk (mw_fs _ Hwf) Hid Hoff) as (r & fs & -> & Hwf' & Habs & Hs).
  { unfold chunk. split; destruct (Z.ltb_spec STORAGE_BOUNCE_BYTES cap); unfold STORAGE_BOUNCE_BYTES in *; lia. }
  unfold files in Hf. rewrite Hf in Hs. rewrite (proj2 (Z.ltb_lt _ off)) in Hs by done. subst r. cbn [mbind option_bind].
  exists (set_fs fs m). split; [done|]. exists m.(m_sub).(w_memory).(pages). split; [done|].
  split; [cbn; by rewrite set_pages_same, set_memory_same|]. split; [exact Habs|]. by split.
Qed.
End reading.

Lemma file_length m id n c : machine_wf m -> files m !! id = Some (n, c) ->
  1 <= id /\ Z.of_nat (length c) < 18446744073709551616.
Proof.
  intros Hwf Hf. pose proof (mw_fs _ Hwf) as Hw. unfold files in Hf. rewrite abs_lookup in Hf.
  destruct (files_of m.(m_fs) !! id) as [[n' p]|] eqn:E; [|done]. injection Hf as -> <-.
  pose proof (content_bound _ _ _ _ _ (rw_table _ Hw) E). split; [lia|].
  pose proof (rw_payloads _ Hw id _ E) as Hp. cbn [snd] in Hp. rewrite file_bytes_length by done.
  destruct Hp as [H0 Hp]. pose proof (rw_used _ Hw) as Hu. unfold kRamfsStorageMax in Hu. destruct (external_data p); lia.
Qed.

(** The handle [h] gives [pid] the rights [right] on an object of [svc]. *)
Definition authorised (m : machine) (pid h right svc obj : Z) : Prop :=
  exists g, holds m.(m_sub).(w_caps) pid h g /\ Z.land g.(rights) right = right /\ g.(service) = svc /\ g.(object_id) = obj.

Lemma machine_eta_caps m : set_mcaps m.(m_sub).(w_caps) m = m.
Proof. by destruct m as [[]]. Qed.

Lemma holds_fun c p h g g' : holds c p h g -> holds c p h g' -> g = g'.
Proof.
  intros (s & ge & Hp & Hs & Eh & Ha) (s' & ge' & _ & Hs' & Eh' & Ha'). rewrite Eh in Eh'.
  apply make_handle_inj in Eh' as (_ & <- & <-); try done. rewrite Ha in Ha'. by injection Ha'.
Qed.

Lemma check_object_ok m pid h right : machine_wf m -> 0 <= h -> exists r m', check_object pid h right m = Some (r, m') /\
  (forall svc obj, r = Some (svc, obj) <-> authorised m pid h right svc obj) /\ (r <> None -> m' = m) /\
  machine_wf m' /\ files m' = files m /\ m'.(m_fs) = m.(m_fs).
Proof.
  intros Hwf Hh. pose proof Hwf as [Hc Hm Hf Hb]. unfold check_object.
  destruct (resolve_object_ok m.(m_sub).(w_caps) pid h right Hc Hh) as (r & c' & -> & Hr). cbn [mbind option_bind].
  eexists r, _. split; [done|]. destruct r as [[svc obj]|].
  - destruct Hr as (-> & g & Hg & Hrt & -> & ->). rewrite machine_eta_caps. split; [|by split_and!].
    intros svc obj. split; [intros [= <- <-]; by exists g|]. intros (g' & Hg' & _ & <- & <-). by rewrite (holds_fun _ _ _ _ _ Hg Hg').
  - destruct Hr as [-> Hno]. split; [|split; [done|]].
    + intros svc obj. split; [done|]. intros (g & Hg & Hrt & _). by apply Hno in Hg.
    + split; [|done]. split; try done. cbn. by apply count_wf.
Qed.

(** ** Which calls touch the file system *)

Definition keeps (fs : ramfs) (x : option (Z * sched * machine)) : Prop :=
  forall fr s m, x = Some (fr, s, m) -> m.(m_fs) = fs.

Lemma keeps_bind {A} fs (x : option A) k : (forall a, x = Some a -> keeps fs (k a)) -> keeps fs (x ≫= k).
Proof. intros H fr s m E. destruct x as [a|]; [|done]. by apply (H a eq_refl fr s). Qed.
Lemma keeps_some fs fr s m : m.(m_fs) = fs -> keeps fs (Some (fr, s, m)).
Proof. by intros <- ? ? ? [= <- <- <-]. Qed.
Lemma keeps_ret fs fr v s m : m.(m_fs) = fs -> keeps fs (ret fr v s m).
Proof. intros H. apply keeps_bind. intros s' _. by apply keeps_some. Qed.
Lemma check_service_fs pid h right m r m' : check_service pid h right m = Some (r, m') -> m'.(m_fs) = m.(m_fs).
Proof. unfold check_service. destruct (capability_resolve _ _ _ _) as [[? ?]|]; [|done]. by intros [= <- <-]. Qed.
Lemma check_object_fs pid h right m r m' : check_object pid h right m = Some (r, m') -> m'.(m_fs) = m.(m_fs).
Proof. unfold check_object. destruct (capability_resolve_object _ _ _ _) as [[? ?]|]; [|done]. by intros [= <- <-]. Qed.
Lemma write_user_text_fs a n s m v m' : write_user_text a n s m = Some (v, m') -> m'.(m_fs) = m.(m_fs).
Proof.
  unfold write_user_text. intros H. peel H. destruct v0; cbn [negb] in H; [|by injection H as <- <-].
  peel H. by injection H as <- <-.
Qed.

(** Walk a handler, rewriting the capability checks' states. *)
Ltac keeps_step :=
  match goal with
  | |- keeps _ (mbind _ _) => apply keeps_bind; let a := fresh "a" in let E := fresh "E" in intros a E; try destruct a as [[[? ?] ?] ?]; try destruct a as [[? ?] ?]; try destruct a as [? ?]
  | |- keeps _ (ret _ _ _ _) => apply keeps_ret
  | |- keeps _ (Some _) => apply keeps_some
  | |- keeps _ (if ?b then _ else _) => destruct b
  | |- keeps _ (match ?x with _ => _ end) => destruct x
  | |- keeps _ (let _ := _ in _) => cbv zeta
  | |- keeps _ None => intros ? ? ? [=]
  end.
Ltac fs_done :=
  repeat match goal with
  | H : check_service _ _ _ _ = Some _ |- _ => apply check_service_fs in H
  | H : check_object _ _ _ _ = Some _ |- _ => apply check_object_fs in H
  | H : write_user_text _ _ _ _ = Some _ |- _ => apply write_user_text_fs in H
  end; cbn [m_fs set_sub set_mcaps set_user set_msurfaces emit]; first [reflexivity | assumption | congruence].
Ltac keeps_tac := repeat keeps_step; fs_done.

Lemma lift_keeps g frame s m : keeps m.(m_fs) (lift g frame s m).
Proof. unfold lift. keeps_tac. Qed.

Lemma sys_text_keeps frame s m : keeps m.(m_fs) (sys_text frame s m).
Proof. unfold sys_text. keeps_tac. Qed.
Lemma sys_yield_keeps frame s m : keeps m.(m_fs) (sys_yield frame s m).
Proof. unfold sys_yield. keeps_tac. Qed.
Lemma sys_pid_keeps frame s m : keeps m.(m_fs) (sys_pid frame s m).
Proof. unfold sys_pid. keeps_tac. Qed.
Lemma sys_exit_process_keeps frame s m : keeps m.(m_fs) (sys_exit_process frame s m).
Proof. unfold sys_exit_process. cbv zeta. destruct (display_owner_pid m =? current_pid s); unfold lift; keeps_tac. Qed.
Lemma sys_capability_open_keeps frame s m : keeps m.(m_fs) (sys_capability_open frame s m).
Proof. unfold sys_capability_open. keeps_tac. Qed.
Lemma sys_capability_close_keeps frame s m : keeps m.(m_fs) (sys_capability_close frame s m).
Proof. unfold sys_capability_close. keeps_tac. Qed.
Lemma sys_wait_keeps frame s m : keeps m.(m_fs) (sys_wait frame s m).
Proof. unfold sys_wait. keeps_tac. Qed.
Lemma sys_surface_create_keeps frame s m : keeps m.(m_fs) (sys_surface_create frame s m).
Proof. unfold sys_surface_create. keeps_tac. Qed.
Lemma sys_surface_write_keeps frame s m : keeps m.(m_fs) (sys_surface_write frame s m).
Proof. unfold sys_surface_write. keeps_tac. Qed.
Lemma sys_surface_share_keeps frame s m : keeps m.(m_fs) (sys_surface_share frame s m).
Proof. unfold sys_surface_share. keeps_tac. Qed.
Lemma sys_surface_read_keeps frame s m : keeps m.(m_fs) (sys_surface_read frame s m).
Proof. unfold sys_surface_read. keeps_tac. Qed.
Lemma sys_surface_damage_keeps frame s m : keeps m.(m_fs) (sys_surface_damage frame s m).
Proof. unfold sys_surface_damage. keeps_tac. Qed.
Lemma sys_surface_take_damage_keeps frame s m : keeps m.(m_fs) (sys_surface_take_damage frame s m).
Proof. unfold sys_surface_take_damage. keeps_tac. Qed.
Lemma sys_surface_unmap_keeps frame s m : keeps m.(m_fs) (sys_surface_unmap frame s m).
Proof. unfold sys_surface_unmap. keeps_tac. Qed.
Lemma sys_list_keeps padding frame s m : keeps m.(m_fs) (sys_list padding frame s m).
Proof. unfold sys_list. keeps_tac. Qed.
Lemma sys_anonymous_map_keeps frame s m : keeps m.(m_fs) (sys_anonymous_map frame s m).
Proof. unfold sys_anonymous_map, sys_anonymous. keeps_tac. Qed.
Lemma sys_anonymous_reserve_keeps frame s m : keeps m.(m_fs) (sys_anonymous_reserve frame s m).
Proof. unfold sys_anonymous_reserve, sys_anonymous. keeps_tac. Qed.
Lemma sys_anonymous_commit_keeps frame s m : keeps m.(m_fs) (sys_anonymous_commit frame s m).
Proof. unfold sys_anonymous_commit, sys_anonymous. keeps_tac. Qed.
Lemma sys_anonymous_release_keeps frame s m : keeps m.(m_fs) (sys_anonymous_release frame s m).
Proof. unfold sys_anonymous_release. keeps_tac. Qed.
Lemma sys_reap_keeps frame s m : keeps m.(m_fs) (sys_reap frame s m).
Proof. unfold sys_reap. keeps_tac. Qed.
Lemma sys_surface_map_keeps arena frame s m : keeps m.(m_fs) (sys_surface_map arena frame s m).
Proof. unfold sys_surface_map. keeps_tac. Qed.
Lemma sys_select_keeps padding frame s m : keeps m.(m_fs) (sys_select padding frame s m).
Proof. unfold sys_select. cbv zeta. keeps_tac. Qed.
Lemma sys_query_keeps ticks fb frame s m : keeps m.(m_fs) (sys_query ticks fb frame s m).
Proof. unfold sys_query. keeps_tac. Qed.
Lemma sys_display_info_keeps fb frame s m : keeps m.(m_fs) (sys_display_info fb frame s m).
Proof. unfold sys_display_info. keeps_tac. Qed.
Lemma sys_display_size_keeps fb frame s m : keeps m.(m_fs) (sys_display_size fb frame s m).
Proof. unfold sys_display_size. keeps_tac. Qed.
Lemma sys_compositor_report_keeps frame s m : keeps m.(m_fs) (sys_compositor_report frame s m).
Proof. unfold sys_compositor_report. keeps_tac. Qed.
Lemma sys_constant_keeps v frame s m : keeps m.(m_fs) (sys_constant v frame s m).
Proof. unfold sys_constant. keeps_tac. Qed.
Lemma sys_input_poll_keeps padding frame s m : keeps m.(m_fs) (sys_input_poll padding frame s m).
Proof. unfold sys_input_poll. keeps_tac. Qed.

Create HintDb keeps discriminated.
#[local] Hint Resolve lift_keeps sys_text_keeps sys_yield_keeps sys_pid_keeps sys_exit_process_keeps sys_capability_open_keeps sys_capability_close_keeps sys_wait_keeps sys_surface_create_keeps sys_surface_write_keeps sys_surface_share_keeps sys_surface_read_keeps sys_surface_damage_keeps sys_surface_take_damage_keeps sys_surface_unmap_keeps sys_list_keeps sys_anonymous_map_keeps sys_anonymous_reserve_keeps sys_anonymous_commit_keeps sys_anonymous_release_keeps sys_reap_keeps sys_surface_map_keeps sys_input_poll_keeps sys_select_keeps sys_query_keeps sys_display_info_keeps sys_display_size_keeps sys_compositor_report_keeps sys_constant_keeps : keeps.

(** The numbers of the calls that can change files. *)
Definition file_calls : list Z := [6; 9; 10; 42; 43; 44].

Lemma handler_in e number h : handler e number = Some h -> In (number, h) (calls e).
Proof.
  unfold handler. destruct (List.find _ _) as [[n h']|] eqn:E; [|done]. intros [= <-].
  apply List.find_some in E as [Hin En]. cbn [fst] in En. apply Z.eqb_eq in En. by subst n.
Qed.

Lemma handler_keeps e number h frame s m :
  handler e number = Some h -> number ∉ file_calls -> keeps m.(m_fs) (h frame s m).
Proof.
  intros Hh%handler_in Hn. unfold calls in Hh. cbn [In] in Hh.
  repeat (destruct Hh as [[= <- <-]|Hh]; [first [by eauto with keeps | exfalso; apply Hn; unfold file_calls; set_solver]|]).
  done.
Qed.

(** ** The calls that can *)

Lemma fetch_ok s a n m data : 0 <= n -> fetch s a n m = Some data -> buffer_ok (Some data) n.
Proof.
  intros Hn H. split; [done|]. unfold fetch, read_user in H. apply length_mapM in H. rewrite length_seqZ in H. lia.
Qed.

Lemma check_service_ok m pid h right svc r m' : machine_wf m -> 0 <= h -> check_service pid h right m = Some (r, m') ->
  m'.(m_fs) = m.(m_fs) /\ (forall s a n, fetch s a n m' = fetch s a n m) /\
  (is_service svc r = true -> exists obj, authorised m pid h right svc obj).
Proof.
  intros Hwf Hh. unfold check_service, capability_resolve.
  destruct (resolve_object_ok m.(m_sub).(w_caps) pid h right (mw_caps _ Hwf) Hh) as (x & c' & -> & Hr).
  cbn [mbind option_bind]. intros [= <- <-]. split; [done|]. split; [done|].
  destruct x as [[sv obj]|]; [|done]. destruct Hr as (_ & g & Hg & Hrt & -> & ->). cbn. intros E. exists g.(object_id), g.
  split_and!; try done. lia.
Qed.

(** What a call may do to the files. *)
Definition files_kept (m : machine) (x : option (Z * sched * machine)) (P : filesystem -> Prop) : Prop :=
  forall fr s m', x = Some (fr, s, m') -> ramfs_wf m'.(m_fs) /\ (files m' = files m \/ P (files m')).

Lemma kept_bind {A} m (x : option A) k P : (forall a, x = Some a -> files_kept m (k a) P) -> files_kept m (x ≫= k) P.
Proof. intros H fr s m' E. destruct x as [a|]; [|done]. by apply (H a eq_refl fr s). Qed.
Lemma kept_same m fr v s m1 P : ramfs_wf m.(m_fs) -> m1.(m_fs) = m.(m_fs) -> files_kept m (ret fr v s m1) P.
Proof. intros Hwf E. apply kept_bind. intros s' _ ? ? ? [= <- <- <-]. unfold files. rewrite E. by split; [|left]. Qed.
Lemma kept_ret m fr v s m1 P : ramfs_wf m1.(m_fs) -> (files m1 = files m \/ P (files m1)) -> files_kept m (ret fr v s m1) P.
Proof. intros Hwf E. apply kept_bind. intros s' _ ? ? ? [= <- <- <-]. by split. Qed.

Lemma copy_keeps_files fuel : forall space id off dst cap copied m b k m',
  0 <= id -> 0 <= off -> is_u64 cap -> 0 <= copied -> ramfs_wf m.(m_fs) -> Z.of_nat (length m.(storage_bounce)) = STORAGE_BOUNCE_BYTES ->
  copy_file_chunks fuel space id off dst cap copied m = Some (b, k, m') -> ramfs_wf m'.(m_fs) /\ files m' = files m.
Proof.
  induction fuel as [|fuel IH]; intros space id off dst cap copied m b k m' Hid Hoff Hcap Hc Hwf Hb; cbn [copy_file_chunks].
  { destruct (negb _); [by intros [= _ _ <-]|done]. }
  destruct (copied <? cap) eqn:El; cbn [negb]; [|by intros [= _ _ <-]]. b2p. destruct (_ <? copied); [by intros [= _ _ <-]|].
  rewrite u64_small by (unfold is_u64 in *; lia).
  set (chunk := if STORAGE_BOUNCE_BYTES <? cap - copied then STORAGE_BOUNCE_BYTES else cap - copied).
  assert (0 <= chunk <= STORAGE_BOUNCE_BYTES) as Hch by (unfold chunk, STORAGE_BOUNCE_BYTES; destruct (Z.ltb_spec 4096 (cap - copied)); lia).
  destruct (ramfs_read_range_ok m.(m_fs) id (off + copied) (Some m.(storage_bounce)) chunk Hwf Hid ltac:(lia)) as (r & fs & -> & Hwf' & Habs & Hs).
  { split; lia. }
  cbn [mbind option_bind]. destruct r as [[bounce received]|]; [|intros [= _ _ <-]; by split].
  destruct (write_chunk _ _ _ _) as [pg|]; [|done]. cbn [mbind option_bind].
  destruct (_ <? chunk); [intros [= _ _ <-]; by split|]. intros E.
  assert (Z.of_nat (length bounce) = STORAGE_BOUNCE_BYTES /\ 0 <= received) as [Hbl Hrec].
  { destruct (abs (m_fs m) !! id) as [[n c]|]; [|done]. destruct (Z.ltb_spec (Z.of_nat (length c)) (off + copied)); [done|].
    injection Hs as -> ->. rewrite length_app, length_drop. unfold contents. rewrite length_take, length_drop. lia. }
  apply IH in E; [|done|done|done|lia|done|done]. destruct E as [E1 E2]. split; [done|]. rewrite E2. exact Habs.
Qed.

Definition regs_ok (f : interrupt_frame) : Prop := is_u64 f.(rdi) /\ is_u64 f.(rdx) /\ is_u64 f.(r10) /\ is_u64 f.(r8).

Section file_calls.
Context (s : sched) (frame : Z) (f : interrupt_frame) (m : machine).
Context (Hwf : machine_wf m) (Hf : s.(frames) !! frame = Some f) (Hregs : regs_ok f).

Lemma kept_denied v m1 P : m1.(m_fs) = m.(m_fs) -> files_kept m (ret frame v s m1) P.
Proof. apply kept_same, Hwf. Qed.

(** What the four calls that change files do to them, from the bytes the caller's
    memory holds at the registers. *)
Definition path_at (address length : Z) (n : list Z) : Prop :=
  exists b, fetch s address length m = Some b /\ path (Some b) length = Some n.
Definition storage_held : Prop :=
  exists obj, authorised m s.(current_pid) f.(rdi) CAPABILITY_RIGHT_OPEN CAPABILITY_SERVICE_STORAGE obj.

(** The file of the handle gets the bytes of the buffer. *)
Definition write_effect (fs : filesystem) : Prop :=
  exists obj b n c, authorised m s.(current_pid) f.(rdi) CAPABILITY_RIGHT_WRITE CAPABILITY_SERVICE_FILE obj /\
    fetch s f.(rsi) f.(rdx) m = Some b /\ files m !! obj = Some (n, c) /\ fs = <[obj := (n, contents b f.(rdx))]> (files m).
(** A new empty file with the name of the buffer, in the first free slot. *)
Definition create_effect (fs : filesystem) : Prop :=
  storage_held /\ f.(r10) <> 0 /\ exists id n, path_at f.(rsi) f.(rdx) n /\ absent (files m) n /\
    1 <= id <= kRamfsFiles /\ files m !! id = None /\ (forall j, 1 <= j < id -> is_Some (files m !! j)) /\ fs = <[id := (n, [])]> (files m).
(** The file of that name is gone. *)
Definition delete_effect (fs : filesystem) : Prop :=
  storage_held /\ exists id n c, path_at f.(rsi) f.(rdx) n /\ files m !! id = Some (n, c) /\ fs = delete id (files m).
(** One file has the other name, which no file had, and its old contents. *)
Definition rename_effect (fs : filesystem) : Prop :=
  storage_held /\ exists id o n c, path_at f.(rsi) f.(rdx) o /\ path_at f.(r10) f.(r8) n /\ absent (files m) n /\
    files m !! id = Some (o, c) /\ fs = <[id := (n, c)]> (files m).

Lemma sys_write_kept : files_kept m (sys_write frame s m) write_effect.
Proof.
  unfold sys_write. rewrite Hf. cbn [mbind option_bind]. destruct Hregs as (H1 & H2 & _). unfold is_u64 in *.
  destruct (check_object_ok m s.(current_pid) f.(rdi) CAPABILITY_RIGHT_WRITE Hwf) as (r & m1 & -> & Hr & Hsame & _ & _ & Hfs); [lia|].
  cbn [mbind option_bind]. destruct r as [[svc obj]|]; [|by apply kept_denied]. rewrite (Hsame ltac:(done)).
  destruct (svc =? CAPABILITY_SERVICE_CONSOLE).
  { apply kept_bind. intros [v m2] E. apply write_user_text_fs in E. by apply kept_denied. }
  destruct (Z.eqb_spec svc CAPABILITY_SERVICE_FILE) as [->|]; cbn [negb]; [|by apply kept_denied].
  apply kept_bind. intros ok _. destruct ok; cbn [negb]; [|by apply kept_denied].
  apply kept_bind. intros data Hdf. pose proof (fetch_ok _ _ _ _ _ (proj1 H2) Hdf) as Hd.
  assert (Hau : authorised m s.(current_pid) f.(rdi) CAPABILITY_RIGHT_WRITE CAPABILITY_SERVICE_FILE obj) by (by apply Hr).
  destruct (decide (0 <= obj)) as [Hobj|Hneg].
  - destruct (ramfs_write_ok m.(m_fs) obj (Some data) f.(rdx) (mw_fs _ Hwf) Hobj Hd) as (b & fs & -> & Hwf' & Hw & _).
    cbn [mbind option_bind]. apply kept_ret; [done|]. unfold files. cbn [m_fs set_fs]. unfold write_spec in Hw.
    destruct b; [|by left]. right. destruct Hw as (d & n & c & [= <-] & Hn & _ & E). by exists obj, data, n, c.
  - unfold ramfs_write, store, payload_of, payload_for, slot. rewrite (proj2 (Z.eqb_neq obj 0)), (proj2 (Z.ltb_ge kRamfsFiles obj)) by (unfold kRamfsFiles; lia).
    cbn [orb]. unfold aget. rewrite (proj2 (Z.leb_gt 0 (obj - 1))) by lia. done.
Qed.

Lemma sys_read_kept ranged P : files_kept m (sys_read ranged frame s m) P.
Proof.
  unfold sys_read. rewrite Hf. cbn [mbind option_bind]. destruct Hregs as (H1 & H2 & H3 & _). unfold is_u64 in *.
  destruct (check_object_ok m s.(current_pid) f.(rdi) CAPABILITY_RIGHT_READ Hwf) as (r & m1 & -> & Hr & Hsame & Hwf1 & _ & Hfs); [lia|].
  cbn [mbind option_bind]. destruct (object_of CAPABILITY_SERVICE_FILE r) as [obj|] eqn:Eo; [|by apply kept_denied].
  apply kept_bind. intros ok _. destruct ok; cbn [negb]; [|by apply kept_denied].
  apply kept_bind. intros [[ok len] m2] E. destruct (decide (0 <= obj)) as [Hobj|Hneg].
  - apply copy_keeps_files in E; [|done|by destruct ranged; lia|unfold is_u64; lia|lia|by apply mw_fs|by apply mw_bounce].
    destruct E as [E1 E2]. apply kept_ret; [done|]. left. rewrite E2. unfold files. by rewrite Hfs.
  - unfold copy_ramfs_to_user in E. destruct (Z.to_nat _); cbn [copy_file_chunks] in E.
    { destruct (negb _); [injection E as <- <- <-; by apply kept_denied|done]. }
    destruct (negb _); [injection E as <- <- <-; by apply kept_denied|].
    destruct (_ <? 0); [injection E as <- <- <-; by apply kept_denied|].
    unfold ramfs_read_range, payload_of, payload_for, slot in E.
    rewrite (proj2 (Z.eqb_neq obj 0)), (proj2 (Z.ltb_ge kRamfsFiles obj)) in E by (unfold kRamfsFiles; lia).
    cbn [orb] in E. unfold aget in E. rewrite (proj2 (Z.leb_gt 0 (obj - 1))) in E by lia. done.
Qed.

Ltac storage_call :=
  rewrite Hf; cbn [mbind option_bind]; apply kept_bind; intros [r m1] E; destruct Hregs as ([? _] & [? _] & [? _] & [? _]);
  destruct (check_service_ok m _ f.(rdi) _ CAPABILITY_SERVICE_STORAGE _ _ Hwf ltac:(done) E) as (Hfs & Hbo & Hau);
  destruct (is_service CAPABILITY_SERVICE_STORAGE r); cbn [negb]; [specialize (Hau eq_refl)|by apply kept_denied];
  repeat (apply kept_bind; intros ok ?; destruct ok; cbn [negb]; [|by apply kept_denied]).

Lemma sys_open_kept : files_kept m (sys_open frame s m) create_effect.
Proof.
  unfold sys_open. storage_call. apply kept_bind. intros name Hn. rewrite Hbo in Hn. rewrite Hfs.
  destruct (ramfs_open_ok m.(m_fs) (Some name) f.(rdx) (negb (f.(r10) =? 0)) (mw_fs _ Hwf)) as (id & fs & -> & Hwf' & Ho);
    [by eapply fetch_ok|]. cbn [mbind option_bind].
  assert (Heff : abs fs = files m \/ create_effect (abs fs)).
  { unfold open_spec in Ho. destruct (path (Some name) f.(rdx)) as [n|] eqn:Ep; [|left; by destruct Ho].
    destruct id as [id|]; [|left; by destruct Ho]. destruct Ho as [[_ Ee]|(Hc & Ha & Hb & Hfree & Hmin & Ee)]; [by left|right].
    split; [done|]. split; [b2p; lia|]. exists id, n. split; [by exists name|]. done. }
  destruct id as [id|]; [|by apply kept_ret]. apply kept_bind. intros [h c] _. by apply kept_ret.
Qed.

Lemma sys_delete_kept : files_kept m (sys_delete frame s m) delete_effect.
Proof.
  unfold sys_delete. storage_call. apply kept_bind. intros name Hn. rewrite Hbo in Hn. rewrite Hfs.
  destruct (ramfs_delete_ok m.(m_fs) (Some name) f.(rdx) (mw_fs _ Hwf)) as (b & fs & -> & Hwf' & Ho); [by eapply fetch_ok|].
  cbn [mbind option_bind]. apply kept_ret; [done|]. cbn [spec_step] in Ho. unfold files. cbn [m_fs set_fs].
  destruct (path (Some name) f.(rdx)) as [n|] eqn:Ep; [|left; by destruct Ho]. destruct b; [|left; by destruct Ho].
  destruct Ho as (id & [c Hid] & Ee). right. split; [done|]. exists id, n, c. split; [by exists name|done].
Qed.

Lemma sys_rename_kept : files_kept m (sys_rename frame s m) rename_effect.
Proof.
  unfold sys_rename. storage_call. apply kept_bind. intros old Ho. apply kept_bind. intros new Hn. rewrite Hbo in Ho, Hn. rewrite Hfs.
  destruct (ramfs_rename_ok m.(m_fs) (Some old) f.(rdx) (Some new) f.(r8) (mw_fs _ Hwf)) as (b & fs & -> & Hwf' & Hr);
    [by eapply fetch_ok..|].
  cbn [mbind option_bind]. apply kept_ret; [done|]. cbn [spec_step] in Hr. unfold files. cbn [m_fs set_fs].
  destruct (path (Some old) f.(rdx)) as [o|] eqn:Ep; [|left; by destruct Hr].
  destruct (path (Some new) f.(r8)) as [n|] eqn:Ep'; [|left; by destruct Hr]. destruct b; [|left; by destruct Hr].
  destruct Hr as (id & c & Hid & Ha & Ee). right. split; [done|]. exists id, o, n, c. split; [by exists old|]. split; [by exists new|done].
Qed.
End file_calls.

(** ** Properties *)

(** C15. The file system changes only through a call made with the capability for
    it, and then exactly as that call says. Of all the calls in the table, only these
    change a file: writing through a handle on it, which gives that file the bytes of
    the caller's buffer; and with a storage handle, opening a name that no file has,
    which adds one empty file; deleting, which removes the file of that name; and
    renaming, which gives one file a name that no file had. No call breaks the
    file system. *)
Theorem file_authority e number h frame s m f fr s' m' :
  machine_wf m -> s.(frames) !! frame = Some f -> regs_ok f ->
  handler e number = Some h -> h frame s m = Some (fr, s', m') ->
  ramfs_wf m'.(m_fs) /\
  (files m' = files m \/
   (number = 6 /\ write_effect s f m (files m')) \/
   (number = 9 /\ create_effect s f m (files m')) \/
   (number = 43 /\ delete_effect s f m (files m')) \/
   (number = 44 /\ rename_effect s f m (files m'))).
Proof.
  intros Hwf Hf Hregs Hh Hrun. destruct (decide (number ∈ file_calls)) as [Hin|Hout].
  2: { pose proof (handler_keeps _ _ _ frame s m Hh Hout _ _ _ Hrun) as E. unfold files. rewrite E. split; [apply Hwf|by left]. }
  apply handler_in in Hh. unfold calls in Hh. cbn [In] in Hh.
  repeat (destruct Hh as [[= <- <-]|Hh];
    [try unfold sys_read_range in Hrun; first [exfalso; revert Hin; unfold file_calls; set_solver
           |destruct (sys_write_kept s frame f m Hwf Hf Hregs _ _ _ Hrun) as [? ?]; tauto
           |destruct (sys_read_kept s frame f m Hwf Hf Hregs _ (fun _ => False) _ _ _ Hrun) as [? ?]; tauto
           |destruct (sys_open_kept s frame f m Hwf Hf Hregs _ _ _ Hrun) as [? ?]; tauto
           |destruct (sys_delete_kept s frame f m Hwf Hf Hregs _ _ _ Hrun) as [? ?]; tauto
           |destruct (sys_rename_kept s frame f m Hwf Hf Hregs _ _ _ Hrun) as [? ?]; tauto]|]).
  done.
Qed.

(** C24. A read, from the start or from an offset, through a handle with the right to read delivers exactly the
    bytes of the file from the offset on, as many as fit, where the caller's page
    tables put the buffer, and changes no other byte of physical memory, whatever
    the number of 4096-byte chunks; beyond the end of the file it fails without
    touching memory. The file system is unchanged. *)
Theorem sys_read_exact T (ranged : bool) frame s m f obj n c :
  let off := if ranged then f.(r10) else 0 in
  machine_wf m -> s.(frames) !! frame = Some f -> 0 <= f.(rdi) -> is_u64 off -> is_u64 f.(rdx) ->
  authorised m s.(current_pid) f.(rdi) CAPABILITY_RIGHT_READ CAPABILITY_SERVICE_FILE obj ->
  files m !! obj = Some (n, c) -> writable s f.(rsi) f.(rdx) m = Some true ->
  buffer T m.(m_sub).(w_memory).(pages) s.(cr3) f.(rsi) f.(rdx) ->
  exists v bytes m', sys_read ranged frame s m = Some (frame, set_frames (<[frame := set_rax v f]> s.(frames)) s, m') /\
    files m' = files m /\ (exists pg, m'.(m_sub).(w_memory) = set_pages pg m.(m_sub).(w_memory) /\
      wrote T s.(cr3) f.(rsi) bytes m.(m_sub).(w_memory).(pages) pg) /\
    if (0 <? f.(rdx)) && (Z.of_nat (length c) <? off) then v = U64_MAX /\ bytes = []
    else bytes = contents (drop (Z.to_nat off) c) f.(rdx) /\ v = Z.of_nat (length bytes).
Proof.
  intros off Hwf Hfr Hh Hoff Hcap Hau Hf Hw Hbuf.
  enough (exists v bytes m', sys_read ranged frame s m = Some (frame, set_frames (<[frame := set_rax v f]> s.(frames)) s, m') /\
    delivered s.(cr3) f.(rsi) bytes m m' /\ Z.of_nat (length bytes) <= f.(rdx) /\
    if (0 <? f.(rdx)) && (Z.of_nat (length c) <? off) then v = U64_MAX /\ bytes = []
    else bytes = contents (drop (Z.to_nat off) c) f.(rdx) /\ v = Z.of_nat (length bytes)) as (v & bytes & m' & E & Hd & Hlen & Hres).
  { exists v, bytes, m'. split; [done|]. destruct Hd as (pg & Hwr & Em & Hfs & _). split; [done|]. split; [|done].
    exists pg. rewrite Em. split; [done|].
    destruct (write_chunk_ok T s.(cr3) bytes f.(rsi) m.(m_sub).(w_memory).(pages)) as (pg' & Hwr' & ?); [|congruence].
    rewrite <- (Z.add_0_r f.(rsi)). apply (buffer_part _ _ _ _ f.(rdx)); [done|lia..]. }
  destruct (file_length m obj n c Hwf Hf) as [Hid Hlc].
  unfold sys_read. fold off. rewrite Hfr. cbn [mbind option_bind].
  destruct (check_object_ok m s.(current_pid) f.(rdi) CAPABILITY_RIGHT_READ Hwf Hh) as (r & m1 & -> & Hr & Hsame & _).
  apply Hr in Hau. subst r. rewrite (Hsame ltac:(done)). cbn [mbind option_bind object_of]. rewrite Z.eqb_refl, Hw.
  cbn [mbind option_bind negb]. fold off. destruct ((0 <? f.(rdx)) && (Z.of_nat (length c) <? off)) eqn:E.
  - b2p. destruct (copy_past_end s.(cr3) obj off f.(rsi) f.(rdx) n c) with (m := m) as (m' & -> & Hd); try done; [lia|unfold is_u64 in *; lia|unfold is_u64 in *; lia|].
    cbn [mbind option_bind negb]. unfold ret. rewrite (write_frame_eq _ _ _ f Hfr). cbn [mbind option_bind].
    eexists _, [], m'. split; [done|]. split; [done|]. split; [cbn; lia|done].
  - assert (Hend : off <= Z.of_nat (length c) \/ f.(rdx) = 0).
    { apply andb_false_iff in E as [E|E]; b2p; unfold is_u64 in *; lia. }
    destruct (decide (f.(rdx) = 0)) as [E0|E0].
    { rewrite E0. unfold copy_ramfs_to_user. cbn [copy_file_chunks]. change (Z.to_nat (0 / STORAGE_BOUNCE_BYTES + 1)) with 1%nat.
      cbn [copy_file_chunks Z.ltb Z.compare negb mbind option_bind]. unfold ret. rewrite (write_frame_eq _ _ _ f Hfr). cbn [mbind option_bind].
      eexists _, [], m. split; [done|]. split; [by apply delivered_nil|]. split; [done|]. by split. }
    destruct (copy_chunks_ok T s.(cr3) obj off f.(rsi) f.(rdx) n c) with (copied := 0) (m := m)
      (fuel := Z.to_nat (f.(rdx) / STORAGE_BOUNCE_BYTES + 1)) as (m' & Ec & Hd); try done; try (unfold is_u64, STORAGE_BOUNCE_BYTES in *; zlia); [by rewrite Z.add_0_r, Z.sub_0_r|].
    unfold copy_ramfs_to_user. rewrite Ec. cbn [mbind option_bind negb]. unfold ret.
    rewrite (write_frame_eq _ _ _ f Hfr). cbn [mbind option_bind]. rewrite Z.add_0_r, Z.sub_0_r, Z.add_0_r in Hd.
    set (k := Z.min f.(rdx) (Z.of_nat (length c) - off)) in *.
    assert (Hk : contents (drop (Z.to_nat off) c) k = contents (drop (Z.to_nat off) c) f.(rdx)).
    { unfold contents. destruct (decide (f.(rdx) <= Z.of_nat (length c) - off)); [do 2 f_equal; lia|].
      rewrite !take_ge by (rewrite length_drop; unfold is_u64 in *; lia). done. }
    assert (Hlk : Z.of_nat (length (contents (drop (Z.to_nat off) c) k)) = k).
    { apply contents_length. rewrite length_drop. unfold is_u64 in *. lia. }
    rewrite Hk in Hd, Hlk. eexists _, _, m'. split; [done|]. split; [exact Hd|]. split; [unfold is_u64 in *; lia|]. by split.
Qed.

(** ** A handle that outlives its file *)

(** Handles survive the calls on names. *)
Definition handles_kept (c c' : caps) : Prop := forall p h g, holds c p h g -> holds c' p h g.
Record holds_on (m m' : machine) : Prop := {
  ho_wf : caps_wf m'.(m_sub).(w_caps);
  ho_kept : handles_kept m.(m_sub).(w_caps) m'.(m_sub).(w_caps);
  ho_memory : m'.(m_sub).(w_memory) = m.(m_sub).(w_memory);
  ho_bounce : m'.(storage_bounce) = m.(storage_bounce)
}.
Definition keeps_handles (m : machine) (x : option (Z * sched * machine)) : Prop :=
  forall fr s m', x = Some (fr, s, m') -> holds_on m m'.

Lemma held_bind {A} m (x : option A) k : (forall a, x = Some a -> keeps_handles m (k a)) -> keeps_handles m (x ≫= k).
Proof. intros H fr s m' E. destruct x as [a|]; [|done]. by apply (H a eq_refl fr s). Qed.
Lemma held_ret m fr v s m1 : holds_on m m1 -> keeps_handles m (ret fr v s m1).
Proof. intros H. apply held_bind. intros s' _ ? ? ? [= <- <- <-]. done. Qed.

Lemma open_file_keeps c pid obj h c' : caps_wf c -> 0 <= pid -> capability_open_file pid obj c = Some (h, c') ->
  caps_wf c' /\ handles_kept c c'.
Proof.
  intros Hc Hp. unfold capability_open_file, kProcessLimit. destruct (_ || _) eqn:Eb; [intros [= _ <-]; split; [by apply count_wf|by intros p k g Hg]|].
  b2p. intros E. assert (Hb : 0 <= pid < 8) by lia. split; [exact (proj2 (allocate_opens _ _ _ _ _ _ _ Hc Hb E))|].
  destruct (allocate_slot_ok c pid CAPABILITY_SERVICE_FILE (Z.lor (Z.lor CAPABILITY_RIGHT_READ CAPABILITY_RIGHT_WRITE) CAPABILITY_RIGHT_QUERY) obj Hc Hb) as (h0 & c0 & E0 & Hcase).
  rewrite E in E0. injection E0 as <- <-. destruct Hcase as [[_ ->]|(slot & gen & pl & Hsl & Hg & Hat & _ & _ & ->)]; [by intros p k g Hg|].
  intros p k g (s2 & g2 & Hp2 & Hs2 & Ek & Hat2). exists s2, g2. do 3 (split; [done|]).
  rewrite slot_count, slot_put by (done || lia). destruct (decide _) as [[-> ->]|]; [congruence|done].
Qed.

Lemma check_service_keeps m pid h right r m' : caps_wf m.(m_sub).(w_caps) -> check_service pid h right m = Some (r, m') ->
  holds_on m m'.
Proof.
  intros Hc E. unfold check_service in E. peel E. destruct v as [x c]. injection E as <- <-. unfold capability_resolve in Hv. peel Hv.
  destruct v as [y c1]. injection Hv as _ <-. apply resolve_caps in Hv0.
  split; [by eapply moved_wf| |done|done]. by destruct Hv0 as [-> | ->]; intros p k g Hg.
Qed.

Ltac storage_keeps Hc :=
  apply held_bind; intros ? _; apply held_bind; intros [? ?] E; apply check_service_keeps in E as Hon; [|exact Hc];
  destruct (is_service _ _); cbn [negb]; [|by apply held_ret];
  repeat (apply held_bind; intros [] _; cbn [negb]; [|by apply held_ret]).

Lemma sys_delete_keeps frame s m : caps_wf m.(m_sub).(w_caps) -> keeps_handles m (sys_delete frame s m).
Proof.
  intros Hc. unfold sys_delete. storage_keeps Hc. apply held_bind. intros name _. apply held_bind. intros [ok fs] _. apply held_ret. by destruct Hon.
Qed.
Lemma sys_open_keeps frame s m : caps_wf m.(m_sub).(w_caps) -> 0 <= s.(current_pid) -> keeps_handles m (sys_open frame s m).
Proof.
  intros Hc Hp. unfold sys_open. storage_keeps Hc. apply held_bind. intros name _. apply held_bind. intros [[id|] fs] _; [|apply held_ret; by destruct Hon].
  apply held_bind. intros [h c] Eo. destruct Hon as [H1 H2 H3 H4]. apply open_file_keeps in Eo as [H5 H6]; [|done|done]. apply held_ret.
  split; [done| |done|done]. intros p k g Hg. cbn. auto.
Qed.

(** One file has a name. *)
Lemma names_unique m i j n c c' : machine_wf m -> files m !! i = Some (n, c) -> files m !! j = Some (n, c') -> i = j.
Proof.
  intros Hwf Hi Hj. apply (tw_unique _ _ _ (rw_table _ (mw_fs _ Hwf)) i j n); apply abs_named; by eexists.
Qed.

(** C38. A file handle outlives its file. Take any handle on a file, where no lower
    slot of the file table is free. When the file is deleted, by whoever may, and then
    some process creates a file, of whatever name, the old handle keeps its rights and
    is now a handle on the new file, which its holder never opened. *)
Theorem stale_handle_reads_new_file m pid h right obj n c frd sd fd r1 sd' md fro so fo r2 so' mo :
  machine_wf m -> authorised m pid h right CAPABILITY_SERVICE_FILE obj -> files m !! obj = Some (n, c) ->
  (forall j, 1 <= j < obj -> is_Some (files m !! j)) ->
  sd.(frames) !! frd = Some fd -> regs_ok fd -> path_at sd m fd.(rsi) fd.(rdx) n ->
  sys_delete frd sd m = Some (r1, sd', md) -> files md <> files m ->
  so.(frames) !! fro = Some fo -> regs_ok fo -> 0 <= so.(current_pid) ->
  sys_open fro so md = Some (r2, so', mo) -> files mo <> files md ->
  authorised mo pid h right CAPABILITY_SERVICE_FILE obj /\
  exists n', path_at so md fo.(rsi) fo.(rdx) n' /\ files mo = <[obj := (n', [])]> (delete obj (files m)).
Proof.
  intros Hwf (g & Hg & Hr & Hsv & Hobj) Hf Hlow Hfd Hrd Hn Ed Hd Hfo Hro Hpo Eo Ho.
  destruct (sys_delete_keeps _ _ _ (mw_caps _ Hwf) _ _ _ Ed) as [Hc1 Hk1 Em Eb].
  destruct (sys_open_keeps _ _ _ Hc1 Hpo _ _ _ Eo) as [_ Hk2 _ _].
  destruct (sys_delete_kept sd frd fd m Hwf Hfd Hrd _ _ _ Ed) as [Hfs [?|(_ & id & n0 & c0 & (b & Hb & Hp) & Hid & E)]]; [done|].
  assert (Hwfd : machine_wf md).
  { destruct Hwf as [_ Hm _ Hbn]. split; [done|by rewrite Em|done|by rewrite Eb]. }
  destruct (sys_open_kept so fro fo md Hwfd Hfo Hro _ _ _ Eo) as [_ [?|(_ & _ & id2 & n' & Hn' & _ & Hb2 & Hfree & Hmin & E2)]]; [done|].
  assert (n0 = n) as -> by (destruct Hn as (b' & Hb' & Hp'); congruence).
  assert (id = obj) as -> by exact (names_unique m id obj n c0 c Hwf Hid Hf). split; [exists g; split; [exact (Hk2 _ _ _ (Hk1 _ _ _ Hg))|done]|]. exists n'. split; [done|].
  assert (id2 = obj) as ->; [|by rewrite E2, E].
  rewrite E in Hfree, Hmin. destruct (Z.lt_trichotomy id2 obj) as [Hlt|[|Hgt]]; [|done|].
  - rewrite lookup_delete_ne in Hfree by lia. destruct (Hlow id2) as [? ?]; [lia|congruence].
  - destruct (Hmin obj) as [v Hv]; [|by rewrite lookup_delete_eq in Hv]. destruct (file_length m obj n c Hwf Hf) as [? _]. lia.
Qed.
(** Process [pid] makes the call [number]; its address space is [pid * 4096]. *)
Definition caller (pid : Z) (f : interrupt_frame) : sched :=
  Sched [] pid 0 true true 0 [] [] [] (pid * 4096) 0 {[1 := f]} 0.
Definition call_frame (number a1 a2 a3 a4 : Z) : interrupt_frame :=
  Frame 0 0 0 0 0 a4 0 0 0 a1 a2 a3 0 0 number 0 0 0 0 0.
Definition demo_environment : environment := Environment 0 [] 0 None 0 false false (fun _ => 0).

(** "a" at the heap of two processes, "b" and a secret behind it at the heap of the
    second. *)
Definition demo_user : user_memory :=
  set_pages (default demo_pages (pg ← write_chunk 8192 USER_HEAP [97; 98; 42] demo_pages; write_chunk 4096 USER_HEAP [97] pg)) demo_memory.

(** Process 1 holds a handle on the file "a", which has id 1 and no contents. *)
Definition file_cap : capability_payload :=
  Cap CAPABILITY_SERVICE_FILE (Z.lor (Z.lor CAPABILITY_RIGHT_READ CAPABILITY_RIGHT_WRITE) CAPABILITY_RIGHT_QUERY) 1.
Definition file_handle : Z := make_handle 1 0 1.
Definition reader : machine :=
  Machine (set_memory demo_user (set_caps (put_slot capabilities_init 1 0 (Entry true 1 file_cap)) demo_subsystems))
    one_file (replicate 4096 0) 0 [] [] (Compositor 0 0 0).

Lemma reader_wf : machine_wf reader.
Proof.
  split; cbn [m_sub m_fs reader w_caps w_memory set_memory set_caps storage_bounce].
  - apply put_wf; [apply capabilities_init_wf|cbn; lia..].
  - by split.
  - exact one_file_wf.
  - by rewrite length_replicate.
Qed.
Lemma reader_holds right : Z.land file_cap.(rights) right = right -> authorised reader 1 file_handle right CAPABILITY_SERVICE_FILE 1.
Proof.
  intros Hr. exists file_cap. split; [|done]. exists 0, 1. split; [lia|]. split; [lia|]. split; [done|]. vm_compute. reflexivity.
Qed.
Lemma file_handle_range : is_u64 file_handle.
Proof. split; [vm_compute; discriminate|vm_compute; reflexivity]. Qed.
Lemma reader_file : files reader !! 1 = Some (name_a, []).
Proof. unfold files. rewrite abs_lookup. change (m_fs reader) with one_file. rewrite one_file_payload. reflexivity. Qed.

Definition read_frame : interrupt_frame := call_frame 10 file_handle USER_HEAP 8 0.

Lemma sys_read_exact_witness : exists m' s', sys_read false 1 (caller 1 read_frame) reader = Some (1, s', m') /\ files m' = files reader.
Proof.
  destruct (sys_read_exact in_tables false 1 (caller 1 read_frame) reader read_frame 1 name_a []) as (v & bytes & m' & E & Hd & _).
  - exact reader_wf.
  - reflexivity.
  - exact (proj1 file_handle_range).
  - split; [vm_compute; discriminate|vm_compute; reflexivity].
  - split; [vm_compute; discriminate|vm_compute; reflexivity].
  - apply reader_holds. reflexivity.
  - exact reader_file.
  - vm_compute. reflexivity.
  - apply buffer_checked. vm_compute. reflexivity.
  - eexists m', _. split; [exact E|]. exact Hd.
Defined.

Definition write_frame_regs : interrupt_frame := call_frame 6 file_handle USER_HEAP 1 0.
Lemma write_regs : regs_ok write_frame_regs.
Proof. split; [exact file_handle_range|]. unfold is_u64; split_and!; vm_compute; (discriminate || reflexivity). Qed.
Lemma write_runs : is_Some (sys_write 1 (caller 1 write_frame_regs) reader).
Proof. apply (bool_decide_unpack _). vm_compute. exact I. Qed.

Lemma file_authority_witness : exists fr s' m', sys_write 1 (caller 1 write_frame_regs) reader = Some (fr, s', m') /\ ramfs_wf m'.(m_fs).
Proof.
  destruct (sys_write 1 (caller 1 write_frame_regs) reader) as [[[fr s'] m']|] eqn:E.
  - destruct (file_authority demo_environment 6 sys_write 1 (caller 1 write_frame_regs) reader write_frame_regs fr s' m') as [Hw _].
    + exact reader_wf.
    + reflexivity.
    + exact write_regs.
    + reflexivity.
    + exact E.
    + exists fr, s', m'. split; [reflexivity|exact Hw].
  - destruct write_runs as [x Hx]. congruence.
Defined.

(** The same with a storage handle of process 2, which deletes "a" and creates "b". *)
Definition storage_handle : Z := make_handle 2 0 1.
Definition sharing : machine :=
  set_mcaps (put_slot reader.(m_sub).(w_caps) 2 0 (Entry true 1 (Cap CAPABILITY_SERVICE_STORAGE CAPABILITY_RIGHT_OPEN 0))) reader.
Definition delete_a : interrupt_frame := call_frame 43 storage_handle USER_HEAP 1 0.
Definition create_b : interrupt_frame := call_frame 9 storage_handle (USER_HEAP + 1) 1 1.
Lemma sharing_runs :
  match sys_delete 1 (caller 2 delete_a) sharing with
  | Some (_, _, md) => bool_decide (files md !! 1 = None) &&
      match sys_open 1 (caller 2 create_b) md with Some (_, _, mo) => bool_decide (files mo !! 1 <> None) | None => false end
  | None => false
  end = true.
Proof. vm_compute. reflexivity. Qed.

Lemma sharing_wf : machine_wf sharing.
Proof.
  pose proof reader_wf as [W1 W2 W3 W4]. split; [|exact W2|exact W3|exact W4]. apply put_wf; [exact W1|cbn; lia..].
Qed.
Lemma sharing_holds : authorised sharing 1 file_handle CAPABILITY_RIGHT_WRITE CAPABILITY_SERVICE_FILE 1.
Proof.
  exists file_cap. split; [|split; [reflexivity|split; reflexivity]].
  exists 0, 1. split; [lia|]. split; [lia|]. split; [reflexivity|]. vm_compute. reflexivity.
Qed.
Lemma delete_regs : regs_ok delete_a /\ regs_ok create_b.
Proof. unfold regs_ok, is_u64. split_and!; vm_compute; (discriminate || reflexivity). Qed.
Lemma delete_path : path_at (caller 2 delete_a) sharing delete_a.(rsi) delete_a.(rdx) name_a.
Proof. exists [97]. split; vm_compute; reflexivity. Qed.

Lemma stale_handle_reads_new_file_witness : exists r1 s1 md r2 s2 mo,
  sys_delete 1 (caller 2 delete_a) sharing = Some (r1, s1, md) /\ sys_open 1 (caller 2 create_b) md = Some (r2, s2, mo) /\
  authorised mo 1 file_handle CAPABILITY_RIGHT_WRITE CAPABILITY_SERVICE_FILE 1.
Proof.
  pose proof sharing_runs as H. destruct (sys_delete 1 (caller 2 delete_a) sharing) as [[[r1 s1] md]|] eqn:Ed; [|done].
  destruct (sys_open 1 (caller 2 create_b) md) as [[[r2 s2] mo]|] eqn:Eo; [|by rewrite andb_false_r in H].
  apply andb_true_iff in H as [H1%bool_decide_eq_true H2%bool_decide_eq_true].
  assert (Hf : files sharing !! 1 = Some (name_a, [])) by exact reader_file.
  destruct (stale_handle_reads_new_file sharing 1 file_handle CAPABILITY_RIGHT_WRITE 1 name_a [] 1 (caller 2 delete_a) delete_a r1 s1 md
    1 (caller 2 create_b) create_b r2 s2 mo) as [Ha _].
  - exact sharing_wf.
  - exact sharing_holds.
  - exact Hf.
  - intros j Hj. lia.
  - reflexivity.
  - exact (proj1 delete_regs).
  - exact delete_path.
  - exact Ed.
  - intros E. rewrite E, Hf in H1. discriminate.
  - reflexivity.
  - exact (proj2 delete_regs).
  - cbn. lia.
  - exact Eo.
  - intros E. apply H2. by rewrite E.
  - exists r1, s1, md, r2, s2, mo. split; [reflexivity|]. split; [exact Eo|exact Ha].
Defined.
