(* ===== verification/CallRules.v ===== *)
(** Rules for reasoning about a system call made by a running process: what each
    step of a handler (a capability check, a range check, a read or write of the
    caller's memory, a call into a subsystem) keeps, and when it can fail. *)

From stdpp Require Import gmap.
From S2P Require Import Prelude LittleEndian BoundedTable BoundedTableSpec Ramfs RamfsSpec RamfsTheorems Surface SurfaceSpec Capability CapabilitySpec.
From S2P Require Import Input InputSpec Ipc IpcSpec PhysicalMemory UserMemory UserMemorySpec FrameOwnership FrameInvariant MemoryInvariant SurfaceMapping UserAccess MemoryTheorems.
From S2P Require Import Scheduler SchedulerSpec Kernel KernelSpec ProcessExit NewHandles KernelMemory WaitRoles SystemInvariant Syscalls SyscallsSpec.

(** Files hold bytes. *)
Definition files_bytes (m : filesystem) : Prop := map_Forall (fun _ v => bytes_ok v.2) m.
Lemma files_bytes_open m n create r m' : files_bytes m -> open_spec m n create r m' -> files_bytes m'.
Proof.
  intros H. destruct n as [n|]; [|by intros [_ ->]]. destruct r as [id|]; [|by intros [-> _]].
  intros [[_ ->]|(_ & _ & _ & _ & _ & ->)]; [done|]. apply map_Forall_insert_2; [constructor|done].
Qed.
Lemma files_bytes_write m id d len b m' : files_bytes m -> bytes_ok d -> write_spec m id (Some d) len b m' -> files_bytes m'.
Proof.
  intros H Hd. unfold write_spec. destruct b; [|by intros ->]. intros (d' & n & c & [= <-] & _ & _ & ->).
  apply map_Forall_insert_2; [|done]. by apply Forall_take.
Qed.
Lemma files_bytes_delete m name len b m' : files_bytes m -> spec_step m (Delete name len) (RBool b) m' -> files_bytes m'.
Proof.
  intros H. cbn. destruct (path name len); [|by intros [_ ->]]. destruct b; [|by intros [_ ->]].
  intros (id & _ & ->). by apply map_Forall_delete.
Qed.
Lemma files_bytes_rename m o ol n nl b m' : files_bytes m -> spec_step m (Rename o ol n nl) (RBool b) m' -> files_bytes m'.
Proof.
  intros H. cbn. destruct (path o ol), (path n nl); try (by intros [_ ->]). destruct b; [|by intros [_ ->]].
  intros (id & c & Hc & _ & ->). apply map_Forall_insert_2; [|done]. exact (H id _ Hc).
Qed.
Lemma files_bytes_read m id off data cap r m' : files_bytes m -> spec_step m (ReadRange id off data cap) (RData r) m' -> files_bytes m'.
Proof. by intros H [-> _]. Qed.

(** [frames] are the frames of the allocator's region. *)
Record system_ok (frames : list Z) (s : sched) (m : machine) : Prop := {
  so_core : core_ok frames s m.(m_sub);
  so_files : ramfs_wf m.(m_fs);
  so_bounce : Z.of_nat (length m.(storage_bounce)) = STORAGE_BOUNCE_BYTES;
  so_bytes : files_bytes (abs m.(m_fs))
}.

(** The pointers a handler reads through come from [rdi], [rsi] and [r10]. *)
Definition in_surfaces (a : Z) : Prop := USER_SURFACE_MAP_BASE <= a <= USER_SURFACE_MAP_BASE + USER_SURFACE_MAP_REGION_SIZE.
Definition surface_pointer (f : interrupt_frame) : Prop := in_surfaces f.(rdi) \/ in_surfaces f.(rsi) \/ in_surfaces f.(r10).
(** The argument registers hold 64-bit words. *)
Record words_ok (f : interrupt_frame) : Prop := {
  wd_rdi : is_u64 f.(rdi); wd_rsi : is_u64 f.(rsi); wd_rdx : is_u64 f.(rdx); wd_r10 : is_u64 f.(r10); wd_r8 : is_u64 f.(r8)
}.

Section handlers.
Context (frames : list Z) (frame : Z) (f : interrupt_frame).

(** A running process is inside a call with its registers saved at [frame]. *)
Record ready (s : sched) (m : machine) : Prop := {
  rd_ok : system_ok frames s m;
  rd_caller : 1 <= s.(current_pid);
  rd_frame : is_Some (s.(Scheduler.frames) !! frame)
}.

(** The outcome of a call. *)
Definition safe (x : option (Z * sched * machine)) : Prop :=
  match x with Some (_, s, m) => system_ok frames s m | None => surface_pointer f end.

Lemma safe_bind {A} (x : option A) P k : succeeds x P -> (forall a, P a -> safe (k a)) -> safe (x ≫= k).
Proof. intros (a & -> & Ha) H. cbn. auto. Qed.
Lemma safe_some fr s m : system_ok frames s m -> safe (Some (fr, s, m)).
Proof. done. Qed.

Lemma safe_ret v s m : ready s m -> safe (ret frame v s m).
Proof.
  intros [[Hc H2 H3 H6] Hcur Hf]. unfold ret. destruct (write_core frames s m.(m_sub) frame (set_rax v) Hc Hf) as (s' & -> & Hc' & _). by split.
Qed.
Lemma safe_result a d s m : ready s m -> safe (s' ← write_frame frame (set_result a d) s; Some (frame, s', m)).
Proof.
  intros [[Hc H2 H3 H6] Hcur Hf]. destruct (write_core frames s m.(m_sub) frame (set_result a d) Hc Hf) as (s' & -> & Hc' & _). by split.
Qed.

(** ** State changes that keep the caller ready *)

Lemma ready_core s m w : ready s m -> core_ok frames s w -> ready s (set_sub w m).
Proof. intros [[_ H2 H3 H6] Hcur Hf] Hc. by split. Qed.

(** The channels and the listener are untouched, and the slots stay. *)
Lemma ready_sub s m w : ready s m -> kernel_ok frames w -> w.(w_ipc).(channels) = m.(m_sub).(w_ipc).(channels) ->
  w.(w_input).(Input.waiter) = m.(m_sub).(w_input).(Input.waiter) -> homes_kept m.(m_sub).(w_memory) w.(w_memory) ->
  opened sound m.(m_sub).(w_caps) w.(w_caps) -> ready s (set_sub w m).
Proof.
  intros Hr Hk E1 E2 Hh Ho. apply ready_core; [done|]. pose proof (so_core _ _ _ (rd_ok _ _ Hr)) as Hc.
  eapply core_step; [exact Hc|apply Hc|done| |done|done]. apply awaited_same; [apply Hc|]. intros q k. by apply registered_same.
Qed.

Lemma ready_fs s m fs : ready s m -> ramfs_wf fs -> files_bytes (abs fs) -> ready s (set_fs fs m).
Proof. intros [[H1 H2 H3 H6] Hcur Hf] Hw Hb. by split. Qed.
Lemma ready_bytes s m : ready s m -> files_bytes (abs m.(m_fs)).
Proof. intros Hr. apply (rd_ok _ _ Hr). Qed.
Lemma ready_emit s m t b : ready s m -> ready s (emit t b m).
Proof. intros [[H1 H2 H3 H6] Hcur Hf]. by split. Qed.

Lemma ready_kernel s m : ready s m -> kernel_ok frames m.(m_sub).
Proof. intros Hr. apply (so_core _ _ _ (rd_ok _ _ Hr)). Qed.
Lemma ready_pid s m : ready s m -> 1 <= s.(current_pid) < 8.
Proof. intros Hr. apply (core_users frames s m.(m_sub)); apply Hr. Qed.
Lemma ready_caller s m : ready s m -> exists t p, caller_ok s m.(m_sub) t p.
Proof. intros Hr. apply (core_caller frames); apply Hr. Qed.
Lemma ready_free s m : ready s m -> not_waiting s.(current_pid) m.(m_sub).
Proof. intros Hr. destruct (ready_caller s m Hr) as (t & p & Hcl). apply roles_not_waiting, Hcl. Qed.
Lemma ready_machine s m : ready s m -> machine_wf m.
Proof.
  intros Hr. destruct (rd_ok _ _ Hr) as [Hc H2 H3 H6]. destruct (ko_subsystems _ _ (ready_kernel _ _ Hr)). by split.
Qed.
Lemma ready_caps s m : ready s m -> caps_wf m.(m_sub).(w_caps).
Proof. intros Hr. apply (ready_machine _ _ Hr). Qed.

(** *** Capabilities *)

Lemma ready_cap op s m : ready s m -> cap_op_ok op -> plain_cap_op op -> match op with CapOpenFile _ obj => 0 <= obj | _ => True end ->
  exists c sf, cap_run op m.(m_sub).(w_caps) m.(m_sub).(w_surfaces) = Some (c, sf) /\
    ready s (set_sub (set_surfaces sf (set_caps c m.(m_sub))) m).
Proof.
  intros Hr Hok Hp Hf. destruct (capability_ok frames op m.(m_sub) (ready_kernel _ _ Hr) Hok Hp) as (c & sf & E & Hk).
  exists c, sf. split; [done|]. apply ready_sub; try done. cbn.
  eapply opened_weaken; [|by eapply cap_run_opens; [apply (ready_caps _ _ Hr)| |]]. intros g. by apply opens_sound.
Qed.

(** What a successful check tells of the object. *)
Definition names_object (right : Z) (svc obj : Z) : Prop :=
  (svc = CAPABILITY_SERVICE_FILE -> 0 <= obj) /\
  (svc = CAPABILITY_SERVICE_SURFACE -> 0 <= obj <= 8 /\ (right = CAPABILITY_RIGHT_READ -> 1 <= obj)).

Lemma check_object_ready pid h right s m : ready s m -> 0 <= h ->
  succeeds (check_object pid h right m) (fun '(r, m') => ready s m' /\ forall svc obj, r = Some (svc, obj) -> names_object right svc obj).
Proof.
  intros Hr Hh. unfold check_object. destruct (resolve_object_ok m.(m_sub).(w_caps) pid h right (ready_caps _ _ Hr) Hh) as (r & c & E & Hres).
  destruct (ready_cap (CapResolve pid h right) s m Hr Hh I I) as (c' & sf & E' & Hr'). cbn [cap_run] in E'. unfold capability_resolve in E'.
  rewrite E in E' |- *. cbn [mbind option_bind] in *. injection E' as <- <-. eexists. split; [done|]. cbn beta iota. split.
  - destruct (m_sub m) eqn:Es. unfold set_mcaps. by rewrite Es in *.
  - intros svc obj ->. destruct Hres as (_ & g & Hg & Hrt & -> & ->). pose proof (co_sound _ _ _ (so_core _ _ _ (rd_ok _ _ Hr)) _ _ _ Hg) as [S1 S2].
    split; [done|]. intros Hs. destruct (ko_memory _ _ (ready_kernel _ _ Hr)) as (a & L & gg & Hm).
    destruct Hg as (sl & ge & _ & _ & _ & Hat). pose proof (linked_ids _ _ _ _ (mo_linked _ _ _ _ _ _ _ Hm) _ _ _ Hat eq_refl Hs) as Hb.
    cbn in Hb. split; [done|]. intros ->. destruct (decide (g.(object_id) = 0)) as [E0|]; [|lia]. rewrite (S2 Hs E0) in Hrt. done.
Qed.
Lemma check_service_ready pid h right s m : ready s m -> 0 <= h -> succeeds (check_service pid h right m) (fun '(_, m') => ready s m').
Proof.
  intros Hr Hh. destruct (check_object_ready pid h right s m Hr Hh) as ([r m'] & E & Hr' & _).
  unfold check_service, capability_resolve. unfold check_object in E. destruct (capability_resolve_object _ _ _ _) as [[r0 c]|]; [|done].
  cbn [mbind option_bind] in *. injection E as _ <-. eexists. by split.
Qed.

(** *** The caller's memory *)

Lemma ready_memory s m : ready s m -> exists a L g, mem_ok frames a m.(m_sub).(w_caps) m.(m_sub).(w_surfaces) m.(m_sub).(w_memory) L g.
Proof. intros Hr. apply (ko_memory _ _ (ready_kernel _ _ Hr)). Qed.

(** The user slots are registered in arrays of the right size. *)
Lemma range_total pid a n w : kernel_ok frames w -> 1 <= pid < 8 ->
  succeeds (user_range pid a n w.(w_memory)) (fun b => b = true -> user_write_range pid a n w.(w_memory) = Some true \/ in_surfaces a).
Proof.
  intros Hk Hp. destruct (ko_memory _ _ Hk) as (ar & L & g & Hm). pose proof (mo_frames _ _ _ _ _ _ _ Hm) as Hi.
  destruct (mapped_row _ pid _ _ _ Hi Hp) as (ids & Hrow & Hlen). unfold user_range.
  destruct (write_range_total pid a n w.(w_memory) (fi_arrays _ _ _ _ Hi) ltac:(lia)) as [b Hb]. rewrite Hb. cbn [mbind option_bind].
  destruct b; [exists true; by split; [|left]|]. unfold succeeds. destruct (_ || _) eqn:E; [exists false; by split|].
  apply orb_false_iff in E as [_ Ein]. apply negb_false_iff in Ein. unfold inside in Ein.
  assert (in_surfaces a) as Ha by (unfold in_surfaces; clear -Ein; b2p; lia). unfold in_surfaces in Ha.
  destruct (negb _) eqn:Es; [exists false; by split|]. apply negb_false_iff, Z.ltb_lt in Es.
  destruct (aget_in ids ((a - USER_SURFACE_MAP_BASE) / USER_SURFACE_MAP_SLOT_STRIDE)) as [id Hid].
  { unfold USER_SURFACE_MAP_SLOTS in Es. rewrite Hlen. split; [apply Z.div_pos; [lia|reflexivity]|exact Es]. }
  rewrite Hrow. cbn [mbind option_bind]. rewrite Hid. cbn [mbind option_bind]. eexists. split; [done|]. by right.
Qed.

Definition granted (s : sched) (a n : Z) (m : machine) : Prop :=
  user_write_range s.(current_pid) a n m.(m_sub).(w_memory) = Some true \/ in_surfaces a.

Lemma safe_readable a n s m k : ready s m -> (granted s a n m -> safe (k true)) -> safe (k false) -> safe (readable s a n m ≫= k).
Proof.
  intros Hr H1 H2. destruct (range_total s.(current_pid) a n m.(m_sub) (ready_kernel _ _ Hr) (ready_pid _ _ Hr)) as (b & E & Hb).
  unfold readable. rewrite E. cbn [mbind option_bind]. destruct b; [|done]. by apply H1, Hb.
Qed.
Lemma safe_writable a n s m k : ready s m ->
  (user_write_range s.(current_pid) a n m.(m_sub).(w_memory) = Some true -> safe (k true)) -> safe (k false) -> safe (writable s a n m ≫= k).
Proof.
  intros Hr H1 H2. unfold writable. pose proof (ready_pid _ _ Hr).
  destruct (write_range_total s.(current_pid) a n m.(m_sub).(w_memory) (mw_memory _ (ready_machine _ _ Hr)) ltac:(lia)) as [b Hb].
  rewrite Hb. cbn [mbind option_bind]. destruct b; auto.
Qed.

(** An accepted buffer is mapped in the address space the CPU uses. *)
Lemma ready_buffer s m a n : ready s m -> user_write_range s.(current_pid) a n m.(m_sub).(w_memory) = Some true ->
  exists ar L g, mem_ok frames ar m.(m_sub).(w_caps) m.(m_sub).(w_surfaces) m.(m_sub).(w_memory) L g /\
    buffer (not_data m.(m_sub).(w_memory) g) m.(m_sub).(w_memory).(pages) s.(cr3) a n.
Proof.
  intros Hr Hw. destruct (ready_memory s m Hr) as (ar & L & g & Hm). exists ar, L, g. split; [done|].
  destruct (ready_caller s m Hr) as (t & p & Hcl). rewrite (cl_space _ _ _ _ Hcl).
  assert (accepted m.(m_sub).(w_memory) s.(current_pid) a n) as Ha by (intros _ _; exact Hw).
  apply (accepted_ready _ _ _ _ _ _ _ (mo_frames _ _ _ _ _ _ _ Hm) Ha (ready_pid _ _ Hr)); apply Hcl.
Qed.

Lemma read_total s m a n : ready s m -> 0 <= n -> granted s a n m -> ~ in_surfaces a ->
  exists l, fetch s a n m = Some l /\ Z.of_nat (length l) = n.
Proof.
  intros Hr Hn [Hw|]; [|done]. intros _. destruct (ready_buffer s m a n Hr Hw) as (ar & L & g & _ & Hb).
  destruct (read_chunk_ok _ _ _ _ _ Hb Hn) as (l & E & Hl & _). by exists l.
Qed.
Lemma safe_fetch_bytes a n s m k : ready s m -> 0 <= n -> granted s a n m -> (in_surfaces a -> surface_pointer f) ->
  (forall l, Z.of_nat (length l) = n -> bytes_ok l -> safe (k l)) -> safe (fetch s a n m ≫= k).
Proof.
  intros Hr Hn Hg Hs Hk. assert (in_surfaces a \/ ~ in_surfaces a) as [Ha|Ha] by (unfold in_surfaces; lia).
  - destruct (fetch s a n m) as [l|] eqn:E; [|by apply Hs]. apply Hk; [by apply read_chunk_length in E|by apply read_chunk_bytes in E].
  - destruct (read_total s m a n Hr Hn Hg Ha) as (l & E & Hl). rewrite E. apply Hk; [done|by apply read_chunk_bytes in E].
Qed.
Lemma safe_fetch a n s m k : ready s m -> 0 <= n -> granted s a n m -> (in_surfaces a -> surface_pointer f) ->
  (forall l, Z.of_nat (length l) = n -> safe (k l)) -> safe (fetch s a n m ≫= k).
Proof. intros Hr Hn Hg Hs Hk. apply safe_fetch_bytes; auto. Qed.

(** Storing data in pages of the processes. *)
Lemma ready_data s m u ar L g : ready s m -> mem_ok frames ar m.(m_sub).(w_caps) m.(m_sub).(w_surfaces) m.(m_sub).(w_memory) L g ->
  data_moved (not_data m.(m_sub).(w_memory) g) m.(m_sub).(w_memory) u -> ready s (set_user u m).
Proof.
  intros Hr Hm Hd. apply ready_sub; [done| |done|done|by eapply homes_moved|apply opened_refl].
  by eapply data_ok; [apply (ready_kernel _ _ Hr)| |].
Qed.

(** Copying a result to the caller; the check is made again. *)
Lemma safe_copy_to a data n s m k : ready s m -> 0 <= n <= Z.of_nat (length data) ->
  (forall ok u, ready s (set_user u m) -> safe (k (ok, u))) ->
  safe (userspace_copy_to s.(current_pid) s.(current_pid) a (Some data) n m.(m_sub).(w_memory) ≫= k).
Proof.
  intros Hr Hn Hk. pose proof (ready_pid _ _ Hr) as Hp. destruct (ready_memory s m Hr) as (ar & L & g & Hm).
  destruct (copy_to_ok (not_data m.(m_sub).(w_memory) g) s.(current_pid) s.(current_pid) a data n m.(m_sub).(w_memory)
    (mw_memory _ (ready_machine _ _ Hr)) ltac:(lia) ltac:(lia) Hn) as (ok & u & -> & Hd & _).
  { intros _ Hu Hw. apply (accepted_ready frames _ L g); [apply Hm|by intros _ _|done|done]. }
  cbn [mbind option_bind]. apply Hk. by eapply ready_data.
Qed.

Lemma write_ready s m base n o l : ready s m -> user_write_range s.(current_pid) base n m.(m_sub).(w_memory) = Some true ->
  0 <= o -> o + Z.of_nat (length l) <= n ->
  exists pg, write_chunk s.(cr3) (base + o) l m.(m_sub).(w_memory).(pages) = Some pg /\
    ready s (set_user (set_pages pg m.(m_sub).(w_memory)) m).
Proof.
  intros Hr Hw Ho Hl. destruct (ready_buffer s m base n Hr Hw) as (ar & L & g & Hm & Hb).
  destruct (write_chunk_ok _ s.(cr3) l (base + o) m.(m_sub).(w_memory).(pages) (buffer_part _ _ _ _ _ _ _ Hb Ho Hl)) as (pg & E & [Hs _ _ _]).
  exists pg. split; [done|]. eapply ready_data; [done|done|]. by exists pg.
Qed.

(** *** The calls on the other components *)

Lemma safe_check_object pid h right s m k : ready s m -> 0 <= h ->
  (forall r m', ready s m' -> (forall svc obj, r = Some (svc, obj) -> names_object right svc obj) -> safe (k (r, m'))) ->
  safe (check_object pid h right m ≫= k).
Proof. intros Hr Hh Hk. eapply safe_bind; [by apply (check_object_ready pid h right s m)|]. intros [r m'] [H1 H2]. by apply Hk. Qed.
Lemma safe_check_service pid h right s m k : ready s m -> 0 <= h ->
  (forall r m', ready s m' -> safe (k (r, m'))) -> safe (check_service pid h right m ≫= k).
Proof. intros Hr Hh Hk. eapply safe_bind; [by apply (check_service_ready pid h right s m)|]. intros [r m'] H1. by apply Hk. Qed.

(** Capability calls that touch the surfaces, and those that do not. *)
Lemma safe_caps {A} op (x : option (A * caps * surfaces)) s m k : ready s m ->
  cap_op_ok op -> plain_cap_op op -> match op with CapOpenFile _ obj => 0 <= obj | _ => True end ->
  cap_run op m.(m_sub).(w_caps) m.(m_sub).(w_surfaces) = ('(_, c, sf) ← x; Some (c, sf)) ->
  (forall a c sf, ready s (set_sub (set_surfaces sf (set_caps c m.(m_sub))) m) -> safe (k (a, c, sf))) -> safe (x ≫= k).
Proof.
  intros Hr Hok Hp Hf E Hk. destruct (ready_cap op s m Hr Hok Hp Hf) as (c & sf & E' & Hr'). rewrite E in E'.
  destruct x as [[[a c1] sf1]|]; [|done]. injection E' as -> ->. by apply Hk.
Qed.
Lemma safe_caps_only {A} op (x : option (A * caps)) s m k : ready s m ->
  cap_op_ok op -> plain_cap_op op -> match op with CapOpenFile _ obj => 0 <= obj | _ => True end ->
  cap_run op m.(m_sub).(w_caps) m.(m_sub).(w_surfaces) = ('(_, c) ← x; Some (c, m.(m_sub).(w_surfaces))) ->
  (forall a c, ready s (set_mcaps c m) -> safe (k (a, c))) -> safe (x ≫= k).
Proof.
  intros Hr Hok Hp Hf E Hk. destruct (ready_cap op s m Hr Hok Hp Hf) as (c & sf & E' & Hr'). rewrite E in E'.
  destruct x as [[a c1]|]; [|done]. injection E' as -> <-. apply Hk.
  destruct m as [w ? ? ? ? ? ?], w. exact Hr'.
Qed.

Lemma safe_surface {A} op (x : option (A * surfaces)) s m k : ready s m ->
  surface_op_ok op -> match op with OpRetain _ | OpRelease _ => False | _ => True end ->
  surface_run op m.(m_sub).(w_surfaces) = snd <$> x ->
  (forall a sf, x = Some (a, sf) -> ready s (set_msurfaces sf m) -> safe (k (a, sf))) -> safe (x ≫= k).
Proof.
  intros Hr Hok Hp E Hk. destruct (surface_ok frames op m.(m_sub) (ready_kernel _ _ Hr) Hok Hp) as (sf & E' & Hok').
  rewrite E in E'. destruct x as [[a sf1]|]; [|done]. injection E' as ->. apply Hk; [done|].
  by apply ready_sub; [| | | |apply homes_refl|apply opened_refl].
Qed.

(** The owner of the channel a handle names. *)
Lemma safe_owner pid h s m k : ready s m -> 0 <= h ->
  (forall t w, ready s (set_sub w m) -> (forall x, t = Some x -> 0 <= x) -> safe (k (t, w))) ->
  safe (ipc_channel_owner pid h m.(m_sub) ≫= k).
Proof.
  intros Hr Hh Hk. unfold ipc_channel_owner. pose proof (ko_subsystems _ _ (ready_kernel _ _ Hr)) as Hw.
  destruct (resolve_channel_ok m.(m_sub) pid h CAPABILITY_RIGHT_QUERY Hw Hh) as (r & w & E & _ & _ & _ & Hch & Hsame).
  rewrite E. cbn [mbind option_bind].
  assert (ready s (set_sub w m)) as Hr'.
  { destruct (ready_cap (CapResolve pid h CAPABILITY_RIGHT_QUERY) s m Hr Hh I I) as (c & sf & E' & Hr'). cbn [cap_run] in E'.
    unfold capability_resolve in E'. unfold resolve_channel in E. destruct (capability_resolve_object _ _ _ _) as [[r0 c0]|]; [|done].
    cbn [mbind option_bind] in *. injection E' as <- <-.
    assert (w = set_caps c0 m.(m_sub)) as ->; [|destruct m as [[] ? ? ? ? ? ?]; exact Hr'].
    destruct r0 as [[svc obj]|]; [|by injection E as _ <-]. destruct (negb _); [by injection E as _ <-|]. peel E. by injection E as _ <-. }
  destruct r as [c|]; [|by apply Hk]. apply Hk; [done|]. intros x Hx. destruct (proj1 (Hch c) eq_refl) as (i & g & _ & _ & _ & _ & _ & Hc & _).
  destruct (_ =? 0); [done|]. injection Hx as <-. apply (iw_names _ (sw_ipc _ Hw) _ _ Hc).
Qed.

(** What a surface's data look like. *)
Lemma surface_pixels id s m px w h sf : ready s m -> 0 <= id -> surface_data id m.(m_sub).(w_surfaces) = Some (Some (px, w, h), sf) ->
  0 <= w * h /\ Z.of_nat (length px) = w * h.
Proof.
  intros Hr Hid E. destruct (ready_memory s m Hr) as (a & L & g & Hm). pose proof (linked_surf _ _ _ _ (mo_linked _ _ _ _ _ _ _ Hm)) as Hs.
  destruct (data_of_ok a _ id Hs Hid) as (D1 & _ & D3). unfold data_of in *. rewrite E in *. cbn in *.
  destruct (D3 _ eq_refl) as (o & Ho). pose proof (D1 o Ho) as Eq. injection Eq as -> -> ->.
  pose proof (surf_live _ _ Hs _ _ Ho) as Hok. pose proof (obj_pixels _ _ Hok) as [Hp _]. split; [lia|].
  unfold pixels_of, slice. rewrite length_take, length_drop. destruct Hok. lia.
Qed.

Lemma ready_memory_call op s m : ready s m -> memory_op_ok op ->
  exists v u sf, memory_run op s.(current_pid) m.(m_sub).(w_memory) m.(m_sub).(w_surfaces) = Some (v, u, sf) /\
    ready s (set_sub (set_surfaces sf (set_memory u m.(m_sub))) m).
Proof.
  intros Hr Hok. destruct (ready_memory s m Hr) as (a & L & g & Hm).
  destruct (memory_call_ok frames _ a _ _ L g s.(current_pid) op Hm (ready_pid _ _ Hr) Hok) as (v & u & sf & a' & L' & g' & -> & Hm' & Hos).
  exists v, u, sf. split; [done|]. destruct (ready_caller s m Hr) as (t & p & Hcl).
  apply ready_sub; [done| |done|done|exact (homes_others _ _ _ (cl_used _ _ _ _ Hcl) Hos)|apply opened_refl].
  by apply (memory_ok frames _ a' _ _ L' g' s.(current_pid) (ready_kernel _ _ Hr) (ready_free _ _ Hr)).
Qed.
Lemma safe_memory op (x : option (Z * user_memory)) s m k : ready s m -> memory_op_ok op ->
  memory_run op s.(current_pid) m.(m_sub).(w_memory) m.(m_sub).(w_surfaces) = ('(v, u) ← x; Some (v, u, m.(m_sub).(w_surfaces))) ->
  (forall v u, ready s (set_user u m) -> safe (k (v, u))) -> safe (x ≫= k).
Proof.
  intros Hr Hok E Hk. destruct (ready_memory_call op s m Hr Hok) as (v & u & sf & E' & Hr'). rewrite E in E'.
  destruct x as [[v1 u1]|]; [|done]. injection E' as -> -> <-. apply Hk. destruct m as [w ? ? ? ? ? ?], w. exact Hr'.
Qed.
Lemma safe_mapping {A} op (x : option (A * user_memory * surfaces)) (h : A -> Z) s m k : ready s m -> memory_op_ok op ->
  memory_run op s.(current_pid) m.(m_sub).(w_memory) m.(m_sub).(w_surfaces) = ('(v, u, sf) ← x; Some (h v, u, sf)) ->
  (forall v u sf, ready s (set_sub (set_surfaces sf (set_memory u m.(m_sub))) m) -> safe (k (v, u, sf))) -> safe (x ≫= k).
Proof.
  intros Hr Hok E Hk. destruct (ready_memory_call op s m Hr Hok) as (v & u & sf & E' & Hr'). rewrite E in E'.
  destruct x as [[[v1 u1] sf1]|]; [|done]. injection E' as _ -> ->. by apply Hk.
Qed.

(** *** Messages *)

Lemma ready_message s m s' w' : ready s m -> kernel_ok frames w' -> woken s s' -> homes_kept m.(m_sub).(w_memory) w'.(w_memory) ->
  opened sound m.(m_sub).(w_caps) w'.(w_caps) -> awaited s m.(m_sub) s' w' -> ready s' (set_sub w' m).
Proof.
  intros [[Hc H2 H3 H6] Hcur Hf] Hk Hwk Hh Ho Ha. pose proof (woken_core _ _ Hwk) as (Ecur & _). split; [split; [|done..]|by rewrite Ecur|by apply (woken_frames _ _ Hwk)].
  eapply core_step; [exact Hc|by eapply woken_wf; [apply Hc|]|done|done|done|done].
Qed.
Lemma ready_sched s m : ready s m -> sched_core s.
Proof. intros Hr. apply (wf_core _ (co_sched _ _ _ (so_core _ _ _ (rd_ok _ _ Hr)))). Qed.

(** Opening a channel. *)
Definition open_channel (create : bool) (pid : Z) (nm : list Z) (n : Z) (w : subsystems) : option (Z * subsystems) :=
  if create then ipc_create pid (Some nm) n w else ipc_connect pid (Some nm) n w.

Lemma open_ipc_sound c pid ch rts h c' : caps_wf c -> 0 <= pid -> capability_open_ipc pid ch rts c = Some (h, c') -> opened sound c c'.
Proof.
  intros Hc Hp E. eapply opened_weaken; [|eapply (cap_run_opens (CapOpenIpc pid ch rts) c (Surfaces (replicate 8 no_surface) None 0 0 0 0 0 0 0 0)); [done|done|]].
  - intros g. by apply opens_sound.
  - cbn [cap_run]. rewrite E. done.
Qed.
Lemma open_channel_sound create pid nm n w h w' : caps_wf w.(w_caps) -> 0 <= pid -> open_channel create pid nm n w = Some (h, w') ->
  opened sound w.(w_caps) w'.(w_caps).
Proof.
  intros Hc Hp. unfold open_channel. destruct create.
  - unfold ipc_create. destruct (bad_name _ _); [intros [= _ <-]; apply opened_refl|]. intros H. peel H.
    destruct v; [injection H as _ <-; apply opened_refl|]. destruct (list_find _ _) as [[i c0]|]; [|injection H as _ <-; apply opened_refl].
    peel H. destruct v1 as [hh cp]. apply put_eq in Hv1 as [_ Ec]. rewrite Ec in Hv2. apply open_ipc_sound in Hv2; [|done..].
    destruct (_ =? _); [|by injection H as _ <-]. peel H. injection H as _ <-.
    match goal with Hx : put_channel (set_active false _) _ = _ |- _ => apply put_eq in Hx as [_ Ex]; by rewrite Ex end.
  - unfold ipc_connect. destruct (bad_name _ _); [intros [= _ <-]; apply opened_refl|]. intros H. peel H.
    destruct v; [|injection H as _ <-; apply opened_refl]. peel H. destruct v as [hh cp]. injection H as _ <-. by eapply open_ipc_sound.
Qed.

Lemma safe_open create nm s m k : ready s m ->
  (forall h w, ready s (set_sub w m) -> safe (k (h, w))) -> safe (open_channel create s.(current_pid) nm (Z.of_nat (length nm)) m.(m_sub) ≫= k).
Proof.
  intros Hr Hk. pose proof (ready_pid _ _ Hr) as Hp. pose proof (ready_kernel _ _ Hr) as Hko.
  assert (exists h w', open_channel create s.(current_pid) nm (Z.of_nat (length nm)) m.(m_sub) = Some (h, w') /\ kernel_ok frames w' /\
    homes_kept m.(m_sub).(w_memory) w'.(w_memory) /\ forall q k, registered w' q k -> registered m.(m_sub) q k) as (h & w' & E & Hk' & Hh & Hreg).
  { unfold open_channel. destruct create.
    - destruct (message_ok frames (KCreate s.(current_pid) nm) s m.(m_sub) Hko (ready_sched _ _ Hr) ltac:(cbn; lia) I) as (s1 & w' & E & Hk' & _ & Hh).
      cbn [kernel_run] in E. destruct (ipc_create _ _ _ _) as [[h w]|] eqn:E2; [|done]. injection E as _ ->. exists h, w'. split_and!; try done.
      by eapply create_registers.
    - destruct (message_ok frames (KConnect s.(current_pid) nm) s m.(m_sub) Hko (ready_sched _ _ Hr) ltac:(cbn; lia) I) as (s1 & w' & E & Hk' & _ & Hh).
      cbn [kernel_run] in E. destruct (ipc_connect _ _ _ _) as [[h w]|] eqn:E2; [|done]. injection E as _ ->. exists h, w'. split_and!; try done.
      by eapply connect_registers. }
  rewrite E. cbn [mbind option_bind]. apply Hk. apply (ready_message s m s); [done|done|apply woken_refl|done| |].
  - eapply open_channel_sound; [apply (ready_caps _ _ Hr)| |done]. lia.
  - apply awaited_same; [apply (so_core _ _ _ (rd_ok _ _ Hr))|done].
Qed.

Lemma kept_opened w w' : caps_kept w w' -> opened sound w.(w_caps) w'.(w_caps).
Proof. intros [_ H]. by apply opened_moved. Qed.

(** Receiving; a received message is no longer than its buffer. *)
Lemma pop_length w pid h cap s r s' w' n from msg : subsystems_wf w -> 0 <= h ->
  ipc_receive pid h (Some (replicate 64 0)) cap s w = Some (r, s', w') -> r = Some (n, from, msg) -> 0 <= n <= Z.of_nat (length msg).
Proof.
  intros Hw Hh E ->. unfold ipc_receive in E. peel E. destruct v as [c w1]. destruct (resolve_inv _ _ _ _ _ _ Hw Hh Hv) as (_ & _ & Hc).
  destruct c as [c|]; [|done]. destruct (Hc c eq_refl) as [Hci Ha]. destruct (iw_channel _ (sw_ipc _ Hw) _ _ Hci Ha) as (q & l & Hwf & _).
  destruct (_ =? 0); [done|]. peel E. destruct v as [m c1]. unfold pop_message in Hv0. peel Hv0. injection Hv0 as <- _.
  pose proof (aget_Forall _ _ _ _ (cw_messages _ _ Hwf) Hv1) as [Hl Hn]. cbn beta iota in E. destruct (_ <? _); [done|].
  peel E. peel E. destruct v1 as [c2 s2]. peel E. injection E as <- _ <- _ _. match goal with Hx : copy_into _ _ _ _ _ = _ |- _ => apply copy_into_length in Hx; rewrite length_replicate in Hx end. lia.
Qed.

(** A message is delivered where the receiver asked, or nothing happens to its memory. *)
Lemma safe_receive h cap s m k : ready s m -> 0 <= h ->
  (forall s' w, ready s' (set_sub w m) -> w.(w_memory) = m.(m_sub).(w_memory) -> s'.(current_pid) = s.(current_pid) -> s'.(cr3) = s.(cr3) -> safe (k (None, s', w))) ->
  (forall n from msg s' w, ready s' (set_sub w m) -> s'.(current_pid) = s.(current_pid) -> 0 <= n <= Z.of_nat (length msg) -> safe (k (Some (n, from, msg), s', w))) ->
  safe (ipc_receive s.(current_pid) h (Some (replicate 64 0)) cap s m.(m_sub) ≫= k).
Proof.
  intros Hr Hh K1 K2. pose proof (ready_kernel _ _ Hr) as Hko. pose proof (ko_subsystems _ _ Hko) as Hw.
  destruct (message_ok frames (KReceive s.(current_pid) h cap) s m.(m_sub) Hko (ready_sched _ _ Hr) Hh I) as (s' & w' & E & Hk' & Hwk & Hhm).
  cbn [kernel_run] in E. destruct (ipc_receive _ _ _ _ _ _) as [[[r s1] w1]|] eqn:Er; [|done]. injection E as -> ->. cbn [mbind option_bind].
  assert (ready s' (set_sub w' m)) as Hr'.
  { apply (ready_message s m s' w' Hr Hk' Hwk Hhm); [by eapply kept_opened, receive_kept|]. eapply receive_awaited; [|done..].
    apply (so_core _ _ _ (rd_ok _ _ Hr)). }
  pose proof (woken_core _ _ Hwk) as (Ecur & _ & _ & _ & _ & _ & Ecr & _). destruct r as [[[n from] msg]|].
  - apply K2; [done|done|]. by eapply pop_length.
  - apply K1; [done| |done|congruence]. apply (receive_rest _ _ _ _ _ _ _ _ _ Er).
Qed.

(** Polling the input queue. *)
Lemma safe_poll s m k : ready s m -> (forall ev i, ready s (set_sub (set_input i m.(m_sub)) m) -> safe (k (ev, i))) ->
  safe (input_poll m.(m_sub).(w_input) ≫= k).
Proof.
  intros Hr Hk. pose proof (ready_kernel _ _ Hr) as Hko. destruct (ko_input _ _ Hko) as (q & Hq).
  destruct (poll_refines _ _ Hq) as (i & E & Hq'). rewrite E. cbn [mbind option_bind]. apply Hk. pose proof (poll_waiter _ _ _ E) as Ew.
  apply ready_sub; [done| |done|exact Ew|done|apply opened_refl].
  apply input_ok; [done|by eexists|rewrite Ew; apply (ko_subsystems _ _ Hko)|rewrite Ew; by apply (waiter_accepted frames)].
Qed.

(** Going to sleep on the waits just registered. *)
Lemma safe_sleep s m w' (P : wait_kind -> Prop) blk : ready s m -> kernel_ok frames w' -> homes_kept m.(m_sub).(w_memory) w'.(w_memory) ->
  opened sound m.(m_sub).(w_caps) w'.(w_caps) ->
  (forall q k, registered w' q k -> registered m.(m_sub) q k \/ (q = s.(current_pid) /\ P k)) ->
  (forall k k', P k -> P k' -> compatible k k') ->
  succeeds blk (fun '(_, s') => sched_wf s' /\ falls_asleep s s' P) ->
  safe ('(fr, s) ← blk; Some (fr, s, set_sub w' m)).
Proof.
  intros Hr Hk Hh Ho Hreg HP (x & -> & Hx). destruct x as [fr s']. destruct Hx as [Hs Hf]. cbn.
  pose proof (rd_ok _ _ Hr) as [Hc H2 H3 H6]. destruct (ready_caller s m Hr) as (t & p & Hcl). split; [|done..].
  eapply (core_asleep frames s m.(m_sub) w' s' P); try done; [apply Hr|]. eapply one_wait_add; [apply Hc|apply Hcl|exact HP|exact Hreg].
Qed.
Lemma block_succeeds s m (P : wait_kind -> Prop) : ready s m ->
  succeeds (scheduler_block_current frame s) (fun '(_, s') => sched_wf s' /\ falls_asleep s s' P).
Proof.
  intros [[Hc _ _] Hcur Hf]. destruct (scheduler_block_current_ok s frame (co_sched _ _ _ Hc) Hf) as (fr & s' & E & Hs & _).
  exists (fr, s'). split; [done|]. split; [done|]. destruct (block_asleep _ _ _ _ (co_sched _ _ _ Hc) (co_init _ _ _ Hc) Hcur E) as [H1 H2].
  split; [done|]. intros k _. by apply H2.
Qed.
Lemma block_timeout_succeeds s m delay r (P : wait_kind -> Prop) : ready s m -> (forall k, P k -> untimed k) ->
  succeeds (scheduler_block_current_timeout frame delay r s) (fun '(_, s') => sched_wf s' /\ falls_asleep s s' P).
Proof.
  intros [[Hc _ _] Hcur Hf] HP. destruct (scheduler_block_current_timeout_ok s frame delay r (co_sched _ _ _ Hc) Hf) as (fr & s' & E & Hs & _).
  exists (fr, s'). split; [done|]. split; [done|]. destruct (block_timeout_asleep _ _ _ _ _ _ (co_sched _ _ _ Hc) (co_init _ _ _ Hc) Hcur E) as [H1 H2].
  split; [done|]. intros k Hk. by apply H2, HP.
Qed.

(** Registering a wait with an accepted buffer: it succeeds and is the caller's only
    new registration, or nothing is registered. *)
Lemma wait_call mux h a cap s m : ready s m -> 0 <= h -> user_write_range s.(current_pid) a cap m.(m_sub).(w_memory) = Some true ->
  exists b w' i, ipc_wait_with mux s.(current_pid) h a cap m.(m_sub) = Some (b, w') /\ kernel_ok frames w' /\
    w'.(w_memory) = m.(m_sub).(w_memory) /\ w'.(w_input) = m.(m_sub).(w_input) /\ opened sound m.(m_sub).(w_caps) w'.(w_caps) /\
    (b = false -> ready s (set_sub w' m)) /\
    forall q k, registered w' q k -> registered m.(m_sub) q k \/ (b = true /\ q = s.(current_pid) /\ k = if mux then Selects i else Receives i).
Proof.
  intros Hr Hh Hacc. pose proof (ready_kernel _ _ Hr) as Hko. pose proof (ko_subsystems _ _ Hko) as Hw. pose proof (ready_pid _ _ Hr) as Hp.
  destruct (message_ok frames (KWait s.(current_pid) h a cap mux) s m.(m_sub) Hko (ready_sched _ _ Hr)) as (s1 & w1 & E & Hk' & _ & Hhm);
    [split; lia|intros _ _; exact Hacc|].
  cbn [kernel_run] in E. destruct (wait_ok m.(m_sub) s.(current_pid) h a cap mux Hw Hh ltac:(lia)) as (b & w' & E2 & _ & Hck & [Em Ei] & _).
  rewrite E2 in E |- *. injection E as _ <-. destruct (wait_registers _ _ _ _ _ _ _ _ Hw Hh E2) as (i & Hreg).
  exists b, w', i. do 4 (split; [done|]). split; [by apply kept_opened|]. split; [|done]. intros ->.
  apply (ready_message s m s); [done|done|apply woken_refl|done|by apply kept_opened|]. apply awaited_same; [apply (so_core _ _ _ (rd_ok _ _ Hr))|].
  intros q k Hq. by destruct (Hreg q k Hq) as [?|(? & _)].
Qed.
End handlers.
