(* ===== verification/SystemSafety.v ===== *)
(** Every system call keeps the invariant of the whole kernel: the call returns to
    some task with every subsystem intact, or the kernel takes a page fault on a
    pointer into the region where surfaces are mapped, and never for another
    reason. *)

From stdpp Require Import gmap.
From S2P Require Import Prelude LittleEndian BoundedTable BoundedTableSpec Ramfs RamfsSpec RamfsTheorems Surface SurfaceSpec Capability CapabilitySpec.
From S2P Require Import Input InputSpec Ipc IpcSpec PhysicalMemory UserMemory UserMemorySpec FrameOwnership AnonymousSpec FrameInvariant MemoryInvariant SurfaceMapping UserAccess MemoryTheorems.
From S2P Require Import Scheduler SchedulerSpec Kernel KernelSpec ProcessExit NewHandles KernelMemory WaitRoles SystemInvariant Syscalls SyscallsSpec CallRules.

Section handlers.
Context (frames : list Z) (frame : Z) (f : interrupt_frame) (Hwords : words_ok f).
Notation ready := (ready frames frame).
Notation safe := (safe frames f).

(** A handler entered with the registers [f]. *)
Definition safe_handler (h : call) : Prop :=
  forall s m, ready s m -> s.(Scheduler.frames) !! frame = Some f -> safe (h frame s m).

Lemma rdi_word : is_u64 f.(rdi). Proof. apply Hwords. Qed.
Lemma rsi_word : is_u64 f.(rsi). Proof. apply Hwords. Qed.
Lemma rdx_word : is_u64 f.(rdx). Proof. apply Hwords. Qed.
Lemma r10_word : is_u64 f.(r10). Proof. apply Hwords. Qed.
Lemma r8_word : is_u64 f.(r8). Proof. apply Hwords. Qed.

Ltac words := pose proof rdi_word; pose proof rsi_word; pose proof rdx_word; pose proof r10_word; pose proof r8_word; unfold is_u64 in *.
Ltac size := clear -Hwords; words; lia.

(** Enter a handler, and walk over the steps that every handler shares. *)
Ltac enter h := intros s m Hr Hf; unfold h; rewrite Hf; cbn [mbind option_bind].
Ltac step :=
  match goal with
  | |- CallRules.safe _ _ (ret _ _ _ _) => apply safe_ret; [assumption..]
  | |- CallRules.safe _ _ (mbind _ (check_object _ _ _ _)) =>
      let r := fresh "r" in let m := fresh "m" in let H := fresh "Hr" in let N := fresh "Hn" in
      eapply safe_check_object; [eassumption|size|]; intros r m H N
  | |- CallRules.safe _ _ (mbind _ (check_service _ _ _ _)) =>
      let r := fresh "r" in let m := fresh "m" in let H := fresh "Hr" in
      eapply safe_check_service; [eassumption|size|]; intros r m H
  | |- CallRules.safe _ _ (mbind _ (readable _ _ _ _)) =>
      let g := fresh "Hg" in eapply safe_readable; [eassumption|intros g|]; cbn [negb]
  | |- CallRules.safe _ _ (mbind _ (writable _ _ _ _)) =>
      let g := fresh "Hw" in eapply safe_writable; [eassumption|intros g|]; cbn [negb]
  | |- CallRules.safe _ _ (if negb (is_service ?v ?r) then _ else _) => destruct (is_service v r); cbn [negb]
  | |- CallRules.safe _ _ (mbind _ (userspace_copy_to _ _ _ _ _ _)) =>
      let ok := fresh "ok" in let u := fresh "u" in let H := fresh "Hr" in
      eapply safe_copy_to; [eassumption| |intros ok u H]
  end.
Ltac surfaces_case := unfold surface_pointer; auto.
Ltac fetch_step := eapply safe_fetch; [eassumption|size|eassumption|surfaces_case|].
Ltac steps := repeat step.

(** ** Console and files *)

Lemma text_safe a n s m k : (a = f.(rdi) \/ a = f.(rsi)) -> 0 <= n -> ready s m ->
  (forall v m', ready s m' -> safe (k (v, m'))) -> safe (write_user_text a n s m ≫= k).
Proof.
  intros Ha Hn Hr Hk. unfold write_user_text. rewrite option_bind_assoc. eapply safe_readable; [done|intros Hg|]; cbn [compose negb].
  - rewrite option_bind_assoc. eapply safe_fetch; [done|done|done| |].
    + unfold surface_pointer. destruct Ha as [-> | ->]; auto.
    + intros l _. cbn. apply Hk. by apply ready_emit.
  - cbn. by apply Hk.
Qed.

Lemma sys_text_safe : safe_handler sys_text.
Proof. enter sys_text. apply text_safe; [auto|size|done|]. intros. steps. Qed.

Lemma ready_files s m : ready s m -> ramfs_wf m.(m_fs).
Proof. intros Hr. apply (ready_machine _ _ _ _ Hr). Qed.

Lemma sys_write_safe : safe_handler sys_write.
Proof.
  enter sys_write. steps. destruct r as [[svc obj]|]; [|steps].
  destruct (svc =? CAPABILITY_SERVICE_CONSOLE); [apply text_safe; [auto|size|done|]; intros; steps|].
  destruct (Z.eqb_spec svc CAPABILITY_SERVICE_FILE) as [->|]; cbn [negb]; [|steps]. destruct (Hn _ _ eq_refl) as [Hobj _].
  step; [|steps]. eapply safe_fetch_bytes; [eassumption|size|eassumption|surfaces_case|]. intros l Hl Hlb.
  destruct (ramfs_write_ok (m_fs m0) obj (Some l) f.(rdx) (ready_files _ _ Hr0) (Hobj eq_refl)) as (b & fs & -> & Hfs & Hw & _); [split; [size|lia]|].
  cbn [mbind option_bind]. apply safe_ret. apply ready_fs; [done..|]. by eapply files_bytes_write; [eapply ready_bytes| |].
Qed.

Lemma open_id fs n create id m' : ramfs_wf fs -> open_spec (abs fs) n create (Some id) m' -> 0 <= id.
Proof.
  intros Hwf. destruct n as [n|]; [|by intros [? _]]. intros [[(c & Hc) _]|(_ & _ & ? & _)]; [|lia].
  rewrite abs_lookup in Hc. destruct (files_of fs !! id) as [v|] eqn:E; [|done].
  pose proof (content_bound _ _ _ _ _ (rw_table _ Hwf) E). lia.
Qed.

Lemma sys_open_safe : safe_handler sys_open.
Proof.
  enter sys_open. steps. fetch_step. intros l Hl.
  destruct (ramfs_open_ok (m_fs m0) (Some l) f.(rdx) (negb (f.(r10) =? 0)) (ready_files _ _ Hr0)) as (id & fs & -> & Hfs & Ho); [split; [size|lia]|].
  cbn [mbind option_bind]. pose proof (ready_fs _ _ _ _ fs Hr0 Hfs (files_bytes_open _ _ _ _ _ (ready_bytes _ _ _ _ Hr0) Ho)) as Hr1. destruct id as [id|]; [|steps].
  eapply (safe_caps_only frames frame f (CapOpenFile s.(current_pid) id)); [exact Hr1| |done| |reflexivity|intros; steps].
  - cbn. pose proof (ready_pid _ _ _ _ Hr). lia.
  - cbn. exact (open_id _ _ _ _ _ (ready_files _ _ Hr0) Ho).
Qed.

Lemma bounce_ready s m b fs : ready s m -> ramfs_wf fs -> Z.of_nat (length b) = STORAGE_BOUNCE_BYTES -> files_bytes (abs fs) -> ready s (set_bounce b (set_fs fs m)).
Proof. intros [[H1 H2 H3 H6] H4 H5] Hw Hb Hby. by split. Qed.

Lemma copy_ready fuel : forall s m id off dst cap copied, ready s m -> 0 <= id -> 0 <= off -> is_u64 cap -> 0 <= copied <= cap ->
  user_write_range s.(current_pid) dst cap m.(m_sub).(w_memory) = Some true -> cap - copied <= 4096 * Z.of_nat fuel ->
  exists b k m', copy_file_chunks fuel s.(cr3) id off dst cap copied m = Some (b, k, m') /\ ready s m'.
Proof.
  induction fuel as [|fuel IH]; intros s m id off dst cap copied Hr Hid Hoff Hcap Hc Hw Hfuel; cbn [copy_file_chunks].
  { rewrite (proj2 (Z.ltb_ge copied cap)) by lia. by eexists _, _, m. }
  destruct (Z.ltb_spec copied cap) as [Hlt|]; cbn [negb]; [|by eexists _, _, m]. destruct (_ <? copied); [by eexists _, _, m|].
  rewrite u64_small by (unfold is_u64 in *; lia).
  set (chunk := if STORAGE_BOUNCE_BYTES <? cap - copied then STORAGE_BOUNCE_BYTES else cap - copied).
  assert (1 <= chunk <= STORAGE_BOUNCE_BYTES /\ chunk <= cap - copied /\ (chunk = STORAGE_BOUNCE_BYTES \/ chunk = cap - copied)) as Hch
    by (unfold chunk, STORAGE_BOUNCE_BYTES; destruct (Z.ltb_spec 4096 (cap - copied)); lia).
  pose proof (so_bounce _ _ _ (rd_ok _ _ _ _ Hr)) as Hb.
  destruct (ramfs_read_range_ok m.(m_fs) id (off + copied) (Some m.(storage_bounce)) chunk (ready_files _ _ Hr) Hid ltac:(lia)) as (r & fs & -> & Hfs & Es & Hs); [split; lia|].
  assert (files_bytes (abs fs)) as Hby by (rewrite Es; exact (ready_bytes _ _ _ _ Hr)).
  cbn [mbind option_bind]. destruct r as [[bounce got]|]; [|eexists _, _, _; split; [done|by apply ready_fs]].
  assert (Z.of_nat (length bounce) = STORAGE_BOUNCE_BYTES /\ 0 <= got <= chunk) as [Hbl Hg].
  { destruct (abs (m_fs m) !! id) as [[n c]|]; [|done]. destruct (Z.ltb_spec (Z.of_nat (length c)) (off + copied)); [done|].
    injection Hs as -> ->. rewrite length_app, length_drop. unfold contents. rewrite length_take, length_drop. lia. }
  destruct (write_ready frames frame s (set_bounce bounce (set_fs fs m)) dst cap copied (take (Z.to_nat got) bounce)) as (pg & E & Hr');
    [by apply bounce_ready|done|lia|rewrite length_take; lia|].
  cbn [m_sub set_bounce set_fs] in E |- *. rewrite E. cbn [mbind option_bind]. destruct (Z.ltb_spec got chunk); [eexists _, _, _; split; [done|exact Hr']|].
  apply IH; try done; [lia|]. unfold STORAGE_BOUNCE_BYTES in *. lia.
Qed.

Lemma sys_read_safe ranged : safe_handler (sys_read ranged).
Proof.
  enter sys_read. steps. destruct r as [[svc obj]|]; cbn [object_of]; [|steps].
  destruct (Z.eqb_spec svc CAPABILITY_SERVICE_FILE) as [->|]; [|steps]. destruct (Hn _ _ eq_refl) as [Hobj _]. step; [|steps].
  unfold copy_ramfs_to_user.
  destruct (copy_ready (Z.to_nat (f.(rdx) / STORAGE_BOUNCE_BYTES + 1)) s m0 obj (if ranged then f.(r10) else 0) f.(rsi) f.(rdx) 0) as (b & k & m' & -> & Hr');
    [done|by apply Hobj|words; destruct ranged; lia|apply rdx_word|words; lia|done|words; unfold STORAGE_BOUNCE_BYTES; zlia|].
  cbn [mbind option_bind]. steps.
Qed.

Lemma sys_delete_safe : safe_handler sys_delete.
Proof.
  enter sys_delete. steps. fetch_step. intros l Hl.
  destruct (ramfs_delete_ok (m_fs m0) (Some l) f.(rdx) (ready_files _ _ Hr0)) as (b & fs & -> & Hfs & Hs); [split; [size|lia]|].
  cbn [mbind option_bind]. apply safe_ret. apply ready_fs; [done..|]. by eapply files_bytes_delete; [eapply ready_bytes|].
Qed.

Lemma sys_rename_safe : safe_handler sys_rename.
Proof.
  enter sys_rename. steps. fetch_step. intros l Hl. fetch_step. intros l2 Hl2.
  destruct (ramfs_rename_ok (m_fs m0) (Some l) f.(rdx) (Some l2) f.(r8) (ready_files _ _ Hr0)) as (b & fs & -> & Hfs & Hs); [split; [size|lia]..|].
  cbn [mbind option_bind]. apply safe_ret. apply ready_fs; [done..|]. by eapply files_bytes_rename; [eapply ready_bytes|].
Qed.

Lemma entry_bytes padding l : length padding = 4%nat -> 0 <= l.(l_start) -> 0 <= l.(l_length) -> l.(l_start) + l.(l_length) <= Z.of_nat (length l.(l_name)) ->
  exists e, dir_entry_bytes padding l = Some e /\ Z.of_nat (length e) = DIR_ENTRY_BYTES.
Proof.
  intros Hpad H1 H2 H3. unfold dir_entry_bytes. set (k := if _ <? 60 then _ else _). assert (0 <= k <= 59 /\ k <= l.(l_length)) as Hk by (unfold k; destruct (Z.ltb_spec l.(l_length) 60); lia).
  destruct (copy_into (replicate 60 0) 0 l.(l_name) l.(l_start) (Z.to_nat k)) as [nm|] eqn:E; [|rewrite copy_into_spec in E; [done|rewrite ?length_replicate; lia..]].
  cbn [mbind option_bind]. eexists. split; [done|]. apply copy_into_length in E. rewrite !length_app, E, length_replicate, !le_bytes_length, Hpad. done.
Qed.

Lemma sys_list_safe padding : length padding = 4%nat -> safe_handler (sys_list padding).
Proof.
  intros Hpad. enter sys_list. steps. fetch_step. intros l Hl.
  destruct (list_ok (m_fs m0) l f.(rdx) f.(r10) (ready_files _ _ Hr0)) as (ls & -> & Hs); [split; [size|lia]|size|].
  cbn [mbind option_bind]. destruct ls as [e|]; [|steps]. destruct (listing _ _ !! _) as [[[ch leaf] z]|]; [|done]. cbn [shows] in Hs.
  destruct Hs as [(B1 & B2 & B3) _]. destruct (entry_bytes padding e Hpad B1 B2 B3) as (bs & -> & Hbs). cbn [mbind option_bind].
  step; [unfold DIR_ENTRY_BYTES in *; lia|]. steps.
Qed.

(** ** Capabilities and memory *)

Lemma pid_pos s m : ready s m -> 0 <= s.(current_pid).
Proof. intros Hr. pose proof (ready_pid _ _ _ _ Hr). lia. Qed.

Lemma sys_capability_open_safe : safe_handler sys_capability_open.
Proof.
  enter sys_capability_open. eapply (safe_caps_only frames frame f (CapOpen s.(current_pid) (u32 f.(rdi)))); [exact Hr|by eapply pid_pos|done|done|reflexivity|].
  intros. steps.
Qed.
Lemma sys_capability_close_safe : safe_handler sys_capability_close.
Proof.
  enter sys_capability_close. eapply (safe_caps frames frame f (CapClose s.(current_pid) f.(rdi))); [exact Hr|cbn; size|done|done|reflexivity|].
  intros. steps.
Qed.

Lemma u32_pos x : 0 <= u32 x.
Proof. apply u32_range. Qed.
Lemma words_of_length n l : length (words_of n l) = n.
Proof. revert l. induction n as [|n IH]; intros l; [done|]. cbn. by rewrite IH. Qed.
Lemma word_bytes_length l : length (word_bytes l) = (4 * length l)%nat.
Proof. unfold word_bytes. induction l as [|x l IH]; [done|]. cbn [mbind list_bind length]. rewrite length_app, le_bytes_length, IH. lia. Qed.

(** Which surface an object capability names. *)
Lemma named_surface right r id : (forall svc obj, r = Some (svc, obj) -> names_object right svc obj) ->
  object_of CAPABILITY_SERVICE_SURFACE r = Some id -> 0 <= id /\ (right = CAPABILITY_RIGHT_READ -> 1 <= id).
Proof.
  intros H. destruct r as [[svc obj]|]; [|done]. cbn [object_of]. destruct (Z.eqb_spec svc CAPABILITY_SERVICE_SURFACE) as [->|]; [|done].
  intros [= <-]. destruct (H _ _ eq_refl) as [_ Hs]. destruct (Hs eq_refl) as [? ?]. split; [lia|done].
Qed.
Ltac surface_object :=
  match goal with
  | N : forall svc obj, ?r = Some _ -> names_object _ _ _ |- CallRules.safe _ _ (match object_of CAPABILITY_SERVICE_SURFACE ?r with _ => _ end) =>
      let id := fresh "id" in let E := fresh "E" in let H := fresh "Hid" in let H1 := fresh "Hpos" in
      destruct (object_of CAPABILITY_SERVICE_SURFACE r) as [id|] eqn:E; [destruct (named_surface _ _ _ N E) as [H H1]|steps]
  end.

Lemma sys_surface_create_safe : safe_handler sys_surface_create.
Proof.
  enter sys_surface_create. steps. pose proof (pid_pos _ _ Hr) as Hp.
  eapply (safe_surface frames frame f (OpCreate s.(current_pid) (u32 f.(rsi)) (u32 f.(rdx)))); [exact Hr0| |done|reflexivity|].
  { split_and!; [done|apply u32_pos..]. }
  intros id sf E Hr1. destruct id as [id|]; [|steps].
  assert (0 <= id) as Hid.
  { destruct (ready_memory _ _ _ _ Hr0) as (a & L & g & Hm). pose proof (linked_surf _ _ _ _ (mo_linked _ _ _ _ _ _ _ Hm)) as Hs.
    destruct (surface_create_ok a _ s.(current_pid) (u32 f.(rsi)) (u32 f.(rdx)) Hs Hp (u32_pos _) (u32_pos _)) as (r1 & s1 & E1 & _ & H1).
    rewrite E in E1. injection E1 as <- <-. destruct H1 as (o & [Ho _] & _). apply aget_bound in Ho. lia. }
  eapply (safe_caps frames frame f (CapOpenSurface s.(current_pid) id _)); [exact Hr1|done|done|done|reflexivity|].
  intros h c sf' Hr2. destruct (h =? U64_MAX).
  - eapply (safe_surface frames frame f (OpDiscard id)); [exact Hr2|done|done|reflexivity|]. intros b sf2 _ Hr3. apply safe_ret. exact Hr3.
  - cbn [mbind option_bind]. apply safe_ret. exact Hr2.
Qed.

Lemma pixel_count n : (MAX_PIXELS <? n) || overflows n = false -> 0 <= n -> u64 (n * 4) = n * 4.
Proof.
  intros [H _]%orb_false_iff Hn. apply Z.ltb_ge in H. unfold MAX_PIXELS, SURFACE_MAX_WIDTH, SURFACE_MAX_HEIGHT in H.
  apply u64_small. unfold is_u64. lia.
Qed.

Lemma sys_surface_write_safe : safe_handler sys_surface_write.
Proof.
  enter sys_surface_write. cbv zeta. destruct (_ || _) eqn:Eb; [steps|]. pose proof (pixel_count _ Eb ltac:(size)) as Ebytes.
  steps. surface_object. step; [|steps]. eapply safe_fetch; [done|rewrite Ebytes; size|done|surfaces_case|]. intros l Hl.
  eapply (safe_surface frames frame f (OpWrite id f.(r10) (Some (words_of (Z.to_nat f.(rdx)) l)) f.(rdx))); [exact Hr0| |done|reflexivity|].
  { split_and!; [done|size|size|]. rewrite words_of_length. size. }
  intros b sf _ Hr1. steps.
Qed.

Lemma sys_surface_share_safe : safe_handler sys_surface_share.
Proof.
  enter sys_surface_share. eapply safe_owner; [done|size|]. intros t w Hr1 Ht. destruct t as [x|]; [|steps].
  eapply (safe_caps frames frame f (CapGrant s.(current_pid) f.(rdi) x _)); [exact Hr1| |done|done|reflexivity|].
  { split; [size|by apply Ht]. }
  intros h c sf Hr2. destruct (h =? U64_MAX); [apply safe_ret; exact Hr2|].
  destruct (surface_ok frames OpShare _ (ready_kernel _ _ _ _ Hr2) I I) as (sf' & E & Hk). injection E as <-.
  apply safe_ret. eapply (ready_sub frames frame s _ _ Hr2); [exact Hk|done|done|done|apply opened_refl].
Qed.

Lemma sys_surface_read_safe : safe_handler sys_surface_read.
Proof.
  enter sys_surface_read. cbv zeta. destruct (_ || _) eqn:Eb; [steps|]. steps. surface_object.
  eapply (safe_surface frames frame f (OpData id)); [exact Hr0|done|done|reflexivity|].
  intros d sf Ed Hr1. destruct d as [[[px w] h]|]; [|steps]. destruct (surface_pixels _ _ _ _ _ _ _ _ _ Hr0 Hid Ed) as [Hw Hpx].
  destruct (f.(rdx) <? w * h); [steps|]. step; [|steps]. step; [rewrite word_bytes_length; lia|]. steps.
Qed.

Lemma sys_surface_map_safe arena : safe_handler (sys_surface_map arena).
Proof.
  enter sys_surface_map. steps. surface_object.
  eapply (safe_mapping frames frame f (MemMapSurface arena id)); [exact Hr0|by apply Hpos|reflexivity|]. intros. steps.
Qed.
Lemma sys_surface_unmap_safe : safe_handler sys_surface_unmap.
Proof.
  enter sys_surface_unmap. steps. surface_object.
  eapply (safe_mapping frames frame f (MemUnmapSurface id)); [exact Hr0|by apply Hpos|reflexivity|]. intros. steps.
Qed.
Lemma sys_surface_damage_safe : safe_handler sys_surface_damage.
Proof.
  enter sys_surface_damage. steps. surface_object.
  eapply (safe_surface frames frame f (OpDamage id (u32 f.(rsi)) (u32 f.(rdx)) (u32 f.(r10)) (u32 f.(r8)))); [exact Hr0| |done|reflexivity|].
  { split_and!; [done|apply u32_pos..]. }
  intros. steps.
Qed.
Lemma sys_surface_take_damage_safe : safe_handler sys_surface_take_damage.
Proof.
  enter sys_surface_take_damage. steps. surface_object.
  eapply (safe_surface frames frame f (OpTake id)); [exact Hr0|done|done|reflexivity|]. intros. steps.
Qed.

(** ** Anonymous memory *)

Lemma sys_anonymous_safe op (mop : Z -> memory_op) : (forall x, is_u64 x -> memory_op_ok (mop x)) ->
  (forall x pid u sf, memory_run (mop x) pid u sf = ('(v, u) ← op pid x u; Some (v, u, sf))) -> safe_handler (sys_anonymous op).
Proof.
  intros Hok He. enter sys_anonymous. eapply (safe_memory frames frame f (mop f.(rdi))); [exact Hr|apply Hok, rdi_word|apply He|].
  intros. steps.
Qed.
Lemma sys_anonymous_map_safe : safe_handler sys_anonymous_map.
Proof. by apply (sys_anonymous_safe _ MemMap). Qed.
Lemma sys_anonymous_reserve_safe : safe_handler sys_anonymous_reserve.
Proof. by apply (sys_anonymous_safe _ MemReserve). Qed.
Lemma sys_anonymous_commit_safe : safe_handler sys_anonymous_commit.
Proof.
  intros s m Hr Hf. unfold sys_anonymous_commit. rewrite Hf. cbn [mbind option_bind].
  by apply (sys_anonymous_safe _ (fun n => MemCommit n (negb (f.(rsi) =? 0)))).
Qed.
Lemma sys_anonymous_release_safe : safe_handler sys_anonymous_release.
Proof.
  enter sys_anonymous_release. cbv zeta. destruct (_ || _); [steps|]. pose proof (ready_pid _ _ _ _ Hr) as Hp.
  destruct (mw_memory _ (ready_machine _ _ _ _ Hr)) as [A1 A2 A3 A4].
  destruct (aget_in (anonymous_page_count (w_memory (m_sub m))) s.(current_pid)) as [x ->]; [lia|]. cbn [mbind option_bind].
  destruct (ready_memory _ _ _ _ Hr) as (a & L & g & Hm).
  destruct (frames_focus _ _ _ _ s.(current_pid) (mo_frames _ _ _ _ _ _ _ Hm) Hp) as (d & o & R & Ho & Hfo).
  destruct (focus_region _ _ _ _ _ _ _ _ (mo_frames _ _ _ _ _ _ _ Hm) Hfo) as (r & Hrg & _).
  rewrite (rg_reserved _ _ _ _ _ _ _ Hrg). cbn [mbind option_bind]. destruct (_ && _); [steps|].
  destruct (ready_memory_call _ _ MemRelease s m Hr I) as (v & u & sf & E & Hr'). cbn [memory_run] in E.
  destruct (anonymous_release _ _) as [u1|]; [|done]. injection E as _ <- <-. cbn [mbind option_bind]. apply safe_ret.
  destruct m as [w ? ? ? ? ? ?], w. exact Hr'.
Qed.

(** ** Queries *)

Lemma service_object right pid h s m svc m' : ready s m -> 0 <= h -> check_service pid h right m = Some (Some svc, m') ->
  ready s m' /\ exists obj, check_object pid h right m' = Some (Some (svc, obj), m') /\ names_object right svc obj.
Proof.
  intros Hr Hh E. destruct (check_object_ready _ _ pid h right s m Hr Hh) as ([r m1] & E1 & Hr1 & Hn).
  unfold check_service, capability_resolve in E. unfold check_object in E1 |- *.
  destruct (resolve_object_ok m.(m_sub).(w_caps) pid h right (ready_caps _ _ _ _ Hr) Hh) as (r0 & c & Ec & Hc).
  rewrite Ec in E, E1. cbn [mbind option_bind] in E, E1. injection E as E <-. injection E1 as <- <-. destruct r0 as [[sv obj]|]; [|done].
  injection E as ->. destruct Hc as [-> _]. rewrite machine_eta_caps in *. split; [done|]. exists obj. rewrite Ec. cbn [mbind option_bind].
  rewrite machine_eta_caps. split; [done|]. by apply Hn.
Qed.

Lemma sys_query_safe ticks fb : safe_handler (sys_query ticks fb).
Proof.
  enter sys_query. assert (0 <= f.(rdi)) as Hh by size.
  destruct (check_service_ready _ _ s.(current_pid) f.(rdi) CAPABILITY_RIGHT_QUERY s m Hr Hh) as ([r m1] & E & Hr1). rewrite E. cbn [mbind option_bind].
  destruct r as [svc|]; [|steps]. destruct (service_object _ _ _ _ _ _ _ Hr Hh E) as (_ & obj & Eo & Hn).
  destruct (_ =? _); [steps|]. destruct (_ =? _); [steps|]. destruct (Z.eqb_spec svc CAPABILITY_SERVICE_FILE) as [->|].
  { rewrite Eo. cbn [mbind option_bind]. destruct Hn as [Hobj _]. destruct (negb _); [steps|]. unfold ramfs_size.
    rewrite (payload_of_ok _ _ (ready_files _ _ Hr1) (Hobj eq_refl)). cbn [mbind option_bind]. steps. }
  destruct (svc =? CAPABILITY_SERVICE_DISPLAY); [destruct (display_describe fb); steps|].
  destruct (Z.eqb_spec svc CAPABILITY_SERVICE_SURFACE) as [->|]; [|steps]. rewrite Eo. cbn [mbind option_bind]. destruct Hn as [_ Hs].
  eapply (safe_surface frames frame f (OpData obj)); [exact Hr1|by apply Hs|done|reflexivity|].
  intros d sf _ Hr2. destruct d as [[[px w] h]|]; steps.
Qed.

Lemma describe_length fb info : display_describe fb = Some info -> length (info ≫= le_bytes 8) = 40%nat.
Proof. unfold display_describe. intros H. peel H. destruct v. injection H as <-. reflexivity. Qed.

Lemma sys_display_info_safe fb : safe_handler (sys_display_info fb).
Proof.
  enter sys_display_info. steps. destruct r as [svc|]; [|apply safe_ret; by apply ready_emit].
  destruct (negb _); [apply safe_ret; by apply ready_emit|]. step; [|apply safe_ret; by apply ready_emit].
  destruct (display_describe fb) as [info|] eqn:Ed; [|apply safe_ret; by apply ready_emit].
  step; [rewrite (describe_length _ _ Ed); lia|]. destruct ok; cbn [negb]; [steps|]. apply safe_ret. by apply ready_emit.
Qed.

Lemma sys_display_size_safe fb : safe_handler (sys_display_size fb).
Proof. enter sys_display_size. steps. destruct (display_describe fb); steps. Qed.

Lemma sys_compositor_report_safe : safe_handler sys_compositor_report.
Proof. enter sys_compositor_report. steps. apply safe_ret. destruct Hr0 as [[H1 H2 H3 H6] H4 H5]. by split. Qed.

Lemma sys_constant_safe v : safe_handler (sys_constant v).
Proof. intros s m Hr Hf. unfold sys_constant. steps. Qed.
Lemma sys_pid_safe : safe_handler sys_pid.
Proof. intros s m Hr Hf. unfold sys_pid. steps. Qed.

(** ** Input *)

Section padded.
Context (padding : list Z) (Hpad : length padding = 4%nat).

Lemma event_length ev : Z.of_nat (length (event_bytes padding ev)) = EVENT_BYTES.
Proof. unfold event_bytes. rewrite !length_app, !le_bytes_length, Hpad. done. Qed.

Lemma sys_input_poll_safe : safe_handler (sys_input_poll padding).
Proof.
  enter sys_input_poll. steps. eapply safe_poll; [done|]. intros ev i Hr1. destruct ev as [ev|]; [|steps].
  step; [rewrite event_length; unfold EVENT_BYTES; lia|]. steps.
Qed.

(** Dropping a wait that was just registered leaves the caller without any. *)
Lemma cancel_ready s m w' i : ready s m -> kernel_ok frames w' -> w'.(w_memory) = m.(m_sub).(w_memory) ->
  opened sound m.(m_sub).(w_caps) w'.(w_caps) ->
  (forall q k, registered w' q k -> registered m.(m_sub) q k \/ (q = s.(current_pid) /\ k = Selects i)) ->
  ready s (set_sub (w_ipc_cancel s.(current_pid) w') m).
Proof.
  intros Hr Hk Em Ho Hreg. destruct (ready_caller _ _ s m Hr) as (t & p & Hcl). pose proof (ready_pid _ _ _ _ Hr) as Hp.
  assert (one_wait w') as Hone.
  { eapply (one_wait_add m.(m_sub) w' s.(current_pid) (fun k => k = Selects i)); [apply (so_core _ _ _ (rd_ok _ _ _ _ Hr))|apply Hcl| |exact Hreg]. by intros k k' -> ->. }
  destruct (message_ok frames (KCancel s.(current_pid)) s w' Hk (ready_sched _ _ _ _ Hr) ltac:(cbn; lia) I) as (s1 & w1 & E & Hk1 & _).
  injection E as <- <-. apply (ready_message frames frame s m s); [done|done|apply woken_refl| |done|].
  - cbn. rewrite Em. apply homes_refl.
  - apply awaited_same; [apply (so_core _ _ _ (rd_ok _ _ _ _ Hr))|]. intros q k Hq. apply ipc_cancel_registered in Hq as [Hq Hn]; [|done].
    destruct (Hreg q k Hq) as [?|[-> ->]]; [done|]. exfalso. apply Hn. by split.
Qed.

Lemma sys_select_safe : safe_handler (sys_select padding).
Proof.
  enter sys_select. cbv zeta. steps. eapply safe_receive; [exact Hr0|size| |].
  2: { intros n from msg s' w Hr1 Ecur Hn. rewrite <- Ecur. step; [done|]. by apply safe_result. }
  intros s' w Hr1 Em Ecur _. cbn beta iota. eapply (safe_poll frames frame f s' (set_sub w m0)); [exact Hr1|]. intros ev i Hr2. rewrite <- Ecur in *.
  destruct ev as [ev|].
  { step; [rewrite event_length; unfold EVENT_BYTES; lia|]. by apply safe_result. }
  set (m2 := set_sub (set_input i (m_sub (set_sub w m0))) (set_sub w m0)) in *.
  assert (w_memory (m_sub m2) = w_memory (m_sub m0)) as Em2 by exact Em.
  destruct (wait_call frames frame true f.(rdi) f.(rdx) IPC_MESSAGE_MAX s' m2 Hr2 ltac:(size)) as (b & w' & j & E & Hk & Emm & Ein & Ho & Hb & Hreg); [by rewrite Em2|].
  unfold ipc_wait_select. rewrite E. cbn [mbind option_bind].
  assert (set_input w'.(w_input) w' = w') as Eta by (by destruct w').
  assert (safe (ret frame U64_MAX s' (set_sub (w_ipc_cancel s'.(current_pid) (set_input w'.(w_input) w')) m2))) as Hno.
  { rewrite Eta. apply safe_ret. eapply (cancel_ready s' m2 w' j); try done. intros q k Hq. destruct (Hreg q k Hq) as [?|(_ & ? & ?)]; auto. }
  destruct b; cbn beta iota; [|exact Hno]. unfold input_wait. destruct (_ || _) eqn:Ewait; cbn [negb]; [exact Hno|].
  set (wt := IWaiter s'.(current_pid) f.(r10) true). pose proof (ready_pid _ _ _ _ Hr2) as Hp.
  assert (kernel_ok frames (set_input (Input.set_waiter wt w'.(w_input)) w')) as Hk2.
  { apply input_ok; [done| |cbn; lia|intros _ _ _; cbn; by rewrite Emm, Em2]. destruct (ko_input _ _ Hk) as (q & [Q1 Q2 Q3]). by exists q. }
  eapply (safe_sleep frames frame f s' m2 _ (fun k => k = Selects j \/ k = Listens)); [exact Hr2|exact Hk2| |exact Ho| | |].
  - cbn. rewrite Emm. apply homes_refl.
  - intros q k [Hq|Hq].
    + assert (registered w' q k) as Hq' by (left; exact Hq). destruct (Hreg q k Hq') as [?|(_ & ? & ->)]; auto.
    + destruct Hq as (_ & -> & ->). right. split; [done|auto].
  - by intros k k' [-> | ->] [-> | ->].
  - destruct (negb _); [eapply block_timeout_succeeds; [exact Hr2|by intros k [-> | ->]]|by eapply block_succeeds].
Qed.
End padded.

(** ** Processes *)

Lemma with_core s m w : ready s m -> forall s' , core_ok frames s' w -> system_ok frames s' (set_sub w m).
Proof. intros [[H1 H2 H3 H6] _ _] s' Hc. by split. Qed.

Lemma sys_yield_safe : safe_handler sys_yield.
Proof.
  intros s m Hr Hf. unfold sys_yield. destruct Hr as [[Hc H2 H3 H6] Hcur Hfr].
  destruct (write_core frames s _ frame (set_rax 0) Hc Hfr) as (s1 & -> & Hc1 & _ & _ & Hfr1). cbn [mbind option_bind].
  destruct (yield_core frames s1 _ frame Hc1 Hfr1) as (fr & s2 & -> & Hc2). by split.
Qed.
Lemma sys_wait_safe : safe_handler sys_wait.
Proof.
  enter sys_wait. destruct (wait_core frames s m.(m_sub) frame (u32 f.(rdi)) (so_core _ _ _ (rd_ok _ _ _ _ Hr)) (rd_caller _ _ _ _ Hr) (u32_pos _)) as (fr & s' & w' & -> & Hc); [apply Hr|].
  by eapply with_core.
Qed.
Lemma sys_reap_safe : safe_handler sys_reap.
Proof.
  intros s m Hr Hf. unfold sys_reap.
  destruct (reap_exited_core frames s m.(m_sub) s.(current_pid) (so_core _ _ _ (rd_ok _ _ _ _ Hr)) ltac:(pose proof (rd_caller _ _ _ _ Hr); lia)) as (c & code & s' & w' & -> & Hc & _ & Hg).
  cbn [mbind option_bind]. destruct (write_core frames s' w' frame (set_result (if c =? 0 then U64_MAX else c) code) Hc) as (s2 & -> & Hc2 & _); [apply Hg, Hr|].
  by eapply with_core.
Qed.

(** Closing channels and handles. *)
Lemma cleanup_ready p s m : ready s m -> 0 <= p ->
  exists s1 w1 w2, ipc_process_cleanup p s m.(m_sub) = Some (s1, w1) /\ w_close_all p w1 = Some w2 /\ ready s1 (set_sub w2 m) /\
    s1.(current_pid) = s.(current_pid).
Proof.
  intros Hr Hp. pose proof (ready_kernel _ _ _ _ Hr) as Hko. pose proof (so_core _ _ _ (rd_ok _ _ _ _ Hr)) as Hc.
  destruct (message_ok frames (KExit p) s m.(m_sub) Hko (ready_sched _ _ _ _ Hr) Hp I) as (s' & w' & E & Hk & Hwk & Hh).
  cbn [kernel_run] in E. peel E. destruct v as [s1 w1]. peel E. injection E as -> ->.
  destruct (cleanup_awaited p s m.(m_sub) s' w1 (co_roles _ _ _ Hc) (ko_length _ _ Hko) Hv) as [Ha Hreg]. pose proof (cleanup_caps _ _ _ _ _ Hv) as Ec.
  exists s', w1, w'. split; [done|]. split; [done|]. split; [|apply (woken_core _ _ Hwk)]. apply (ready_message frames frame s m s' w' Hr Hk Hwk Hh).
  - rewrite <- Ec. eapply close_all_files; [|done]. rewrite Ec. apply (ready_caps _ _ _ _ Hr).
  - destruct Ha as [H1 H2]. split; [|done]. eapply roles_less; [exact H1|]. intros q k. unfold w_close_all in Hv0. peel Hv0. destruct v as [c sf]. injection Hv0 as <-.
    by apply registered_same.
Qed.

Lemma sys_exit_safe : safe_handler (lift sys_exit).
Proof.
  intros s m Hr Hf. unfold lift, sys_exit. rewrite Hf. cbn [mbind option_bind].
  destruct (cleanup_ready s.(current_pid) s m Hr (pid_pos _ _ Hr)) as (s1 & w1 & w2 & -> & E & Hr1 & Ecur). cbn [mbind option_bind]. rewrite Ecur, E. cbn [mbind option_bind].
  destruct (exit_core frames s1 w2 f.(rdi) (so_core _ _ _ (rd_ok _ _ _ _ Hr1)) (rd_caller _ _ _ _ Hr1)) as (fr & s' & w' & -> & Hc).
  by eapply with_core.
Qed.
Lemma sys_exit_process_safe : safe_handler sys_exit_process.
Proof.
  intros s m Hr Hf. unfold sys_exit_process. cbv zeta. destruct (_ =? _); [|by apply sys_exit_safe].
  apply sys_exit_safe; [|done]. destruct Hr as [[H1 H2 H3 H6] H4 H5]. by split.
Qed.

(** ** Messages *)

(** The rest of a handler over the subsystems alone. *)
Definition finish (m : machine) (x : option (Z * sched * subsystems)) : option (Z * sched * machine) :=
  '(fr, s, w) ← x; Some (fr, s, set_sub w m).
Lemma finish_bind {A} m (x : option A) k : finish m (x ≫= k) = x ≫= (fun a => finish m (k a)).
Proof. by destruct x. Qed.
Lemma finish_return v s w m : ready s (set_sub w m) -> safe (finish m (sys_return frame v s w)).
Proof.
  intros Hr. unfold finish, sys_return. destruct (write_core frames s w frame (set_rax v) (so_core _ _ _ (rd_ok _ _ _ _ Hr)) (rd_frame _ _ _ _ Hr)) as (s' & -> & Hc & _).
  by apply (with_core _ _ w Hr).
Qed.
Lemma ready_eta s m : ready s m -> ready s (set_sub m.(m_sub) m).
Proof. by destruct m. Qed.
Ltac final := rewrite ?finish_bind; first [apply finish_return; first [eassumption|by apply ready_eta]].

Lemma sys_terminate_safe : safe_handler (lift sys_terminate).
Proof.
  intros s m Hr Hf. change (safe (finish m (sys_terminate frame s m.(m_sub)))). unfold sys_terminate. rewrite Hf. cbn [mbind option_bind].
  destruct (cleanup_ready (u32 f.(rdi)) s m Hr (u32_pos _)) as (s1 & w1 & w2 & -> & E & Hr1 & _). cbn [mbind option_bind]. rewrite E. cbn [mbind option_bind].
  destruct (terminate_core frames s1 w2 (u32 f.(rdi)) f.(rsi) (so_core _ _ _ (rd_ok _ _ _ _ Hr1)) (u32_pos _)) as (b & s' & w' & -> & Hc & Hsm & Hg).
  apply finish_return. destruct Hr1 as [[H1 H2 H3 H6] H4 H5]. split; [by split|by rewrite (proj1 Hsm)|by apply Hg].
Qed.

(** The caller sleeps in the subsystems [w]. *)
Lemma finish_sleep m w (x : option (Z * sched)) :
  x ≫= (fun a => finish m (let '(fr, s) := a in Some (fr, s, w))) = ('(fr, s) ← x; Some (fr, s, set_sub w m)).
Proof. by destruct x as [[]|]. Qed.

Lemma sys_ipc_open_safe create : safe_handler (lift (sys_ipc_open create)).
Proof.
  intros s m Hr Hf. change (safe (finish m (sys_ipc_open create frame s m.(m_sub)))). unfold sys_ipc_open. rewrite Hf. cbn [mbind option_bind].
  rewrite finish_bind. eapply (safe_readable frames frame f f.(rdi) f.(rsi) s m); [done|intros Hg|]; cbn [negb orb]; [|final].
  destruct (_ || _); [final|]. rewrite finish_bind. eapply (safe_fetch frames frame f f.(rdi) f.(rsi) s m); [done|size|exact Hg|surfaces_case|].
  intros l Hl. rewrite finish_bind. rewrite <- Hl. eapply (safe_open frames frame f create l s m); [done|]. intros h w Hr1. final.
Qed.

Lemma sys_ipc_send_safe : safe_handler (lift sys_ipc_send).
Proof.
  intros s m Hr Hf. change (safe (finish m (sys_ipc_send frame s m.(m_sub)))). unfold sys_ipc_send. rewrite Hf. cbn [mbind option_bind].
  rewrite finish_bind. eapply (safe_readable frames frame f f.(rsi) f.(rdx) s m); [done|intros Hg|]; cbn [negb orb]; [|final].
  destruct (_ || _); [final|]. rewrite finish_bind. eapply (safe_fetch frames frame f f.(rsi) f.(rdx) s m); [done|size|exact Hg|surfaces_case|].
  intros l Hl. pose proof (ready_pid _ _ _ _ Hr) as Hp. pose proof (ready_kernel _ _ _ _ Hr) as Hko. pose proof (ko_subsystems _ _ Hko) as Hw.
  assert (0 <= f.(rdi)) as Hh by size.
  destruct (message_ok frames (KSend s.(current_pid) f.(rdi) l) s m.(m_sub) Hko (ready_sched _ _ _ _ Hr)) as (s' & w' & E & Hk & Hwk & Hhm); [split; [lia|done]|done|].
  cbn [kernel_run] in E. rewrite Hl in E. destruct (ipc_send_block _ _ _ _ _ _) as [[[r s1] w1]|] eqn:Es; [|done]. injection E as -> ->. cbn [mbind option_bind].
  unfold ipc_send_block in Es. destruct (send_awaited _ _ _ _ _ _ _ _ _ _ (co_roles _ _ _ (so_core _ _ _ (rd_ok _ _ _ _ Hr))) Hw Hh Es) as [Ha Hb].
  pose proof (kept_opened _ _ (send_kept _ _ _ _ _ _ _ _ _ _ Hw Hh Es)) as Ho.
  destruct (Z.eq_dec r 2) as [->|Hne].
  - cbn [Z.eqb Pos.eqb negb]. destruct (Hb eq_refl) as (-> & i & Hreg).
    cbn [negb]. rewrite finish_bind. rewrite finish_sleep.
    eapply (safe_sleep frames frame f s m w' (fun k => k = Parks i) _ Hr Hk Hhm Ho); [|by intros k k' -> ->|by eapply block_succeeds].
    intros q k Hq. by apply Hreg.
  - assert (ready s' (set_sub w' m)) as Hr1 by (apply (ready_message frames frame s m s' w' Hr Hk Hwk Hhm Ho); by apply Ha).
    destruct (r =? 1); [final|]. rewrite (proj2 (Z.eqb_neq r 2)) by done. final.
Qed.

Lemma sys_ipc_receive_safe : safe_handler (lift sys_ipc_receive).
Proof.
  intros s m Hr Hf. change (safe (finish m (sys_ipc_receive frame s m.(m_sub)))). unfold sys_ipc_receive. rewrite Hf. cbn [mbind option_bind].
  rewrite finish_bind. eapply (safe_writable frames frame f f.(rsi) f.(rdx) s m); [done|intros Hg|]; cbn [negb orb]; [|final].
  destruct (_ || _); [final|]. rewrite finish_bind. eapply safe_receive; [exact Hr|size| |].
  - intros s' w Hr1 Em Ecur _. destruct (negb _); [final|]. rewrite finish_bind. unfold ipc_wait.
    destruct (wait_call frames frame false f.(rdi) f.(rsi) f.(rdx) s' (set_sub w m) Hr1 ltac:(size)) as (b & w' & j & E & Hk & Emm & _ & Ho & Hb & Hreg);
      [cbn; by rewrite Em, Ecur|].
    cbn [m_sub set_sub] in E. rewrite E. cbn [mbind option_bind]. destruct b; cbn [negb]; [|apply finish_return, (Hb eq_refl)].
    rewrite finish_bind, finish_sleep. eapply (safe_sleep frames frame f s' (set_sub w m) w' (fun k => k = Receives j) _ Hr1 Hk); [|exact Ho| |by intros k k' -> ->|by eapply block_succeeds].
    + rewrite Emm. apply homes_refl.
    + intros q k Hq. destruct (Hreg q k Hq) as [?|(_ & ? & ?)]; auto.
  - intros n from msg s' w Hr1 Ecur Hn. cbn beta iota. rewrite finish_bind.
    eapply (safe_copy_to frames frame f f.(rsi) msg n s' (set_sub w m)); [exact Hr1|done|]. intros ok u Hr2. destruct ok; cbn [negb]; [|apply finish_return; exact Hr2].
    rewrite finish_bind. exact (safe_result _ _ _ n from s' (set_user u (set_sub w m)) Hr2).
Qed.

(** ** Every call *)


Lemma handler_safe e number h : length e.(padding) = 4%nat -> handler e number = Some h -> safe_handler h.
Proof.
  intros Hpad Hh%handler_in. unfold calls in Hh. cbn [In] in Hh.
  repeat (destruct Hh as [[= <- <-]|Hh]; [by eauto using sys_text_safe, sys_yield_safe, sys_exit_process_safe, sys_constant_safe, sys_pid_safe,
    sys_capability_open_safe, sys_write_safe, sys_query_safe, sys_capability_close_safe, sys_open_safe, sys_read_safe, sys_wait_safe,
    sys_terminate_safe, sys_ipc_open_safe, sys_ipc_send_safe, sys_ipc_receive_safe, sys_display_info_safe, sys_input_poll_safe, sys_display_size_safe,
    sys_surface_create_safe, sys_surface_write_safe, sys_surface_share_safe, sys_surface_read_safe, sys_select_safe, sys_surface_map_safe,
    sys_surface_damage_safe, sys_surface_take_damage_safe, sys_surface_unmap_safe, sys_compositor_report_safe, sys_list_safe, sys_anonymous_map_safe,
    sys_anonymous_release_safe, sys_delete_safe, sys_rename_safe, sys_anonymous_reserve_safe, sys_anonymous_commit_safe, sys_reap_safe|]).
  done.
Qed.
End handlers.
