(* ===== verification/SpawnTheorems.v ===== *)
(** A loaded program in its process: the new process finds its image, a cleared heap
    and a cleared stack at their user addresses, and the scheduler starts it there. *)

From stdpp Require Import gmap.
From S2P Require Import Prelude LittleEndian Surface SurfaceSpec Capability CapabilitySpec Input InputSpec Ipc IpcSpec Elf64 Elf64Spec PhysicalMemory UserMemory UserMemorySpec FramePool FrameOwnership AddressSpace AnonymousSpec.
From S2P Require Import FrameInvariant SurfaceMapSpec MemoryInvariant SurfaceMapping UserAccess Scheduler SchedulerSpec Kernel KernelSpec ProcessExit NewHandles KernelMemory WaitRoles SystemInvariant Spawn FrameBytes SpawnSpec LargeCodeSpec.

(** ** Physical memory *)

(** A slot nothing runs in. *)
Record idle_slot (m : user_memory) (pid : Z) (p : userspace_memory) : Prop := {
  is_pid : 1 <= pid < 8;
  is_slot : m.(process_memory).[pid] = Some p;
  is_addresses : slot_addresses p;
  is_free : m.(process_memory_used).[pid] = Some false;
  is_small : m.(large_code_page_table).[pid] = Some 0
}.

(** What of a program the frames hold: [n] bytes of image from [base] in [fs]. *)
Definition image_in (image : list Z) (en base : Z) (fs : list Z) (pg : phys) : Prop :=
  exists h ps, fits_window image h ps base (window fs) /\ en = h.(entry) /\ frames_hold pg fs (fun o => image_byte image ps (base + o)).

(** The frames of the program, and where it is linked. *)
Definition code_of (p : userspace_memory) (o : own) (base : Z) (fs : list Z) : Prop :=
  (base = USER_LARGE_CODE_BASE /\ fs = tail o.(o_large) /\ o.(o_large) <> []) \/ (base = USER_CODE /\ fs = p.(code_frames)).

Definition cleared (p : userspace_memory) (pg : phys) : Prop :=
  forall f k, f ∈ p.(stack_frames) ++ p.(heap_frames) -> 0 <= k < 4096 -> load_byte pg (f + k) = Some 0.

Lemma frames_hold_same pg pg' fs b : (forall f, f ∈ fs -> pg' !! f = pg !! f /\ f mod 4096 = 0) -> frames_hold pg fs b -> frames_hold pg' fs b.
Proof.
  intros H Hh i f k Hf Hk. assert (Hin : f ∈ fs) by (apply aget_Some in Hf as [_ Hf]; by apply list_elem_of_lookup_2 in Hf).
  destruct (H f Hin) as [E Ha]. rewrite (load_frame_same pg) by done. by apply Hh.
Qed.
Lemma image_in_same image en base pg pg' fs : (forall f, f ∈ fs -> pg' !! f = pg !! f /\ f mod 4096 = 0) -> image_in image en base fs pg -> image_in image en base fs pg'.
Proof. intros H (h & ps & H1 & H2 & H3). exists h, ps. split; [done|]. split; [done|]. by eapply frames_hold_same. Qed.
Lemma cleared_same p pg pg' : (forall f, f ∈ p.(stack_frames) ++ p.(heap_frames) -> pg' !! f = pg !! f /\ f mod 4096 = 0) -> cleared p pg -> cleared p pg'.
Proof. intros H Hc f k Hf Hk. destruct (H f Hf) as [E Ha]. rewrite (load_frame_same pg) by done. by apply Hc. Qed.

Section frames.
Context (frames : list Z).

(** The program [image] is in the memory of slot [pid]. *)
Record placed (image : list Z) (en pid : Z) (p : userspace_memory) (m : user_memory) : Prop := {
  pl_memory : exists L g o base fs, frames_inv frames m L g /\ g.[pid] = Some o /\ code_of p o base fs /\ image_in image en base fs m.(pages);
  pl_clear : cleared p m.(pages)
}.

(** The frames of a slot are apart from the pool's and from every directory. *)
Lemma slot_frame_apart m L g pid p f : frames_inv frames m L g -> 1 <= pid < 8 -> m.(process_memory).[pid] = Some p ->
  f ∈ slot_frames p -> f ∉ frames /\ f ∉ directories m /\ f mod 4096 = 0 /\ f <> p.(page_table).
Proof.
  intros Hi Hpid Hp Hf. destruct (slot_frame frames m L g Hi pid p Hpid Hp f Hf) as (H1 & H2 & _).
  destruct (fi_spaces _ _ _ _ Hi) as (ts & Hs). pose proof Hp as Hsl. apply slot_lookup in Hsl; [|lia]. pose proof Hs as [S1 S2 _ _ _].
  destruct (lookup_lt_is_Some_2 ts (Z.to_nat pid - 1)) as [t Ht]; [apply lookup_lt_Some in Hsl; lia|].
  destruct (slot_pages_distinct ts frames m _ p t Hs Hsl Ht) as (Hn & Hout & _). split; [apply Hout, elem_of_app; by right|].
  split; [intros Hd; by apply H1, (directory_not_data frames m L g Hi)|]. split; [done|]. intros ->.
  apply list.NoDup_app in Hn as (_ & Hn & _). apply (Hn p.(page_table)); [do 3 right; by left|done].
Qed.

Lemma idle_large m L g pid p o : frames_inv frames m L g -> idle_slot m pid p -> g.[pid] = Some o -> o.(o_large) = [].
Proof.
  intros Hi [H1 H2 _ _ H5] Ho. destruct (fi_owned _ _ _ _ Hi pid o ltac:(lia) Ho) as (d & _ & Hown).
  pose proof (large_table _ _ _ _ (owned_large _ _ _ _ Hown)) as E. rewrite H5 in E. destruct o.(o_large) as [|t fr] eqn:El; [done|exfalso].
  injection E as <-. pose proof (fi_frames _ _ _ _ Hi) as Hf. rewrite list.Forall_forall in Hf. destruct (Hf 0) as (H & _); [|lia].
  apply elem_of_app. right. apply (concat_in own_frames g o); [by eapply in_owners|]. unfold own_frames. rewrite El, !elem_of_app. right. right. left. by left.
Qed.

(** The pages that belong to the slot: its directory, its page table and its frames. *)
Definition slot_reach (p : userspace_memory) : list Z := p.(page_directory) :: p.(page_table) :: slot_frames p.

Lemma clear_ok m L g pid p : frames_inv frames m L g -> idle_slot m pid p -> slot_runs p ->
  exists pg, clear_slot p m = Some (set_pages pg m) /\ frames_inv frames (set_pages pg m) L g /\ cleared p pg /\
    forall x, x ∉ slot_reach p ++ L -> pg !! x = m.(pages) !! x.
Proof.
  intros Hi [H1 H2 H3 _ _] Hr. destruct (clear_slot_ok frames m L g pid p Hi H1 H2 Hr) as (pg & E & Ht & Hc).
  exists pg. split; [done|]. split; [|split; [done|]].
  2: { intros x Hx. apply Ht. intros Hin. apply Hx, elem_of_app. left. do 2 right. apply elem_of_app in Hin. unfold slot_frames. rewrite !elem_of_app. tauto. }
  apply frames_data; [done|]. eapply (slot_same frames m L g pid p Hi H1 H2); [exact Ht|].
  intros x Hx. apply (slot_parts pid p H1). apply elem_of_app in Hx. tauto.
Qed.

Definition code_fits (m : user_memory) (L : list Z) (p : userspace_memory) (l : elf64_layout) : Prop :=
  if l.(virtual_base) =? USER_LARGE_CODE_BASE then large_pages l <= 320 /\ 1 + large_pages l <= Z.of_nat (length L)
  else USER_CODE <= l.(virtual_base) /\ l.(virtual_end) <= USER_CODE + p.(code_page_count) * 4096.

#[export] Instance code_fits_dec m L p l : Decision (code_fits m L p l).
Proof. unfold code_fits. destruct (_ =? _); apply _. Defined.

Lemma code_ok m L g pid p image l : frames_inv frames m L g -> idle_slot m pid p -> slot_runs p -> cleared p m.(pages) ->
  bytes_ok image -> executable_image image l ->
  exists r m', load_code pid p image l m = Some (r, m') /\ others_same pid m m' /\ m'.(mapped_surface) = m.(mapped_surface) /\
    (forall x, x ∉ slot_reach p ++ L -> m'.(pages) !! x = m.(pages) !! x) /\
    (r = None <-> ~ code_fits m L p l) /\
    match r with
    | None => exists L', frames_inv frames m' L' g
    | Some en => placed image en pid p m' /\ l.(entry_point) = en
    end.
Proof.
  intros Hi Hidle Hr Hc Hb Him. pose proof Hidle as [H1 H2 H3 H4 H5]. unfold load_code, code_fits. pose proof Him as (Hsz & h0 & ps0 & Him0 & El & Hlt).
  destruct (Z.eqb_spec l.(virtual_base) USER_LARGE_CODE_BASE) as [Hbase|Hbase].
  - destruct (frames_focus _ _ _ _ pid Hi H1) as (d & o & R & Ho & Hf). pose proof (idle_large m L g pid p o Hi Hidle Ho) as Elo.
    destruct (large_load_inv frames m L g pid d o R image l Hi H1 Ho Hf Elo Hb Him Hbase) as (r & m' & E & Hrn & [R1 R2 R3 R4]).
    pose proof (fc_dir _ _ _ _ _ _ _ _ Hf) as Hdir. assert (Ed : d = p.(page_directory)).
    { unfold directory_of in Hdir. rewrite H2 in Hdir. by injection Hdir. }
    exists r, m'. split; [done|]. split; [done|]. split; [done|]. split; [|split; [rewrite Hrn; lia|]].
    { intros x Hx. apply R4. rewrite Ed. intros [-> | Hin]%elem_of_cons; apply Hx, elem_of_app; [left; by left|by right]. }
    destruct r as [en|]; [|done].
    destruct R3 as (t & fr & L' & Hi' & Himg & Hlen). split.
    + split.
      * exists L', (<[Z.to_nat pid := Own o.(o_tables) o.(o_frames) (t :: fr) o.(o_surface)]> g), (Own o.(o_tables) o.(o_frames) (t :: fr) o.(o_surface)), USER_LARGE_CODE_BASE, fr. split; [exact Hi'|].
        split; [rewrite aget_insert by (by eapply aget_bound); by rewrite decide_True|]. split; [left; by split_and!|exact Himg].
      * eapply cleared_same; [|exact Hc]. intros f Hin. destruct (slot_frame_apart m L g pid p f Hi H1 H2) as (A1 & A2 & A3 & _).
        { apply (slot_parts pid p H1). apply elem_of_app in Hin. tauto. }
        split; [|done]. apply R4. intros [-> | HL]%elem_of_cons; [by apply A2, (directory_in _ pid); [lia|]|].
        apply A1. rewrite <- (fi_total _ _ _ _ Hi). apply elem_of_app. by left.
    + destruct Himg as (h & ps & (_ & Him' & _) & -> & _). destruct (image_of_unique _ _ _ _ _ Him0 Him') as [-> ->]. by rewrite El.
  - destruct (small_code_ok frames m L g pid p Hi H1 H2 image Hr Hb) as (r & m' & E & Hn & Hrn & Hres).
    exists r, m'. split; [done|]. destruct (slot_shaped frames m L g pid p Hi H1 H2) as [C1 C2 C3 C4].
    assert (Hfit : r = None <-> ~ (USER_CODE <= l.(virtual_base) /\ l.(virtual_end) <= USER_CODE + p.(code_page_count) * 4096)).
    { rewrite Hrn. split; intros H Hx; apply H.
      - exists h0, ps0. rewrite El in Hx. cbn in Hx. split; [done|]. by split.
      - destruct Hx as (h & ps & _ & Him' & Hx). destruct (image_of_unique _ _ _ _ _ Him0 Him') as [-> ->]. by rewrite El. }
    destruct r as [en|]; [|rewrite (Hn eq_refl) in *; split; [apply others_refl|]; split; [done|]; split; [done|]; split; [exact Hfit|by exists L]].
    destruct (Hres en eq_refl) as (pg & h & ps & -> & Ht & Hf & -> & Hh). split; [by split|]. split; [done|]. split; [|split; [exact Hfit|]; split].
    { intros x Hx. cbn [pages set_pages set_pool]. apply Ht. intros Hin. apply Hx, elem_of_app. left. do 2 right. apply elem_of_app. by left. }
    + destruct (aget_in g pid) as [o Ho]; [rewrite (fi_owners _ _ _ _ Hi); lia|]. split; cbn [pages set_pages set_pool].
      * exists L, g, o, USER_CODE, p.(code_frames). split.
        -- apply frames_data; [done|]. eapply (slot_same frames m L g pid p Hi H1 H2); [exact Ht|]. intros x Hx. apply (slot_parts pid p H1). tauto.
        -- split; [done|]. split; [by right|]. exists h, ps. split; [|done]. unfold window. by rewrite C1.
      * eapply cleared_same; [|exact Hc]. intros f Hin. destruct (slot_frame_apart m L g pid p f Hi H1 H2) as (_ & _ & A3 & _).
        { apply (slot_parts pid p H1). apply elem_of_app in Hin. tauto. }
        split; [|done]. apply Ht. intros Hcf. pose proof (slot_frames_distinct frames m L g pid p Hi H1 H2) as Hnd. unfold slot_frames in Hnd.
        apply list.NoDup_app in Hnd as (_ & Hnd & _). apply (Hnd f Hcf). apply elem_of_app in Hin. apply elem_of_app. tauto.
    + destruct Hf as (_ & Him' & _). destruct (image_of_unique _ _ _ _ _ Him0 Him') as [-> ->]. by rewrite El.
Qed.

Lemma frames_slot_page m L g pid p x : frames_inv frames m L g -> 1 <= pid < 8 -> m.(process_memory).[pid] = Some p ->
  x = p.(page_table) \/ x = p.(UserMemory.address_space) -> frame_ok m.(pages) x.
Proof.
  intros Hi Hpid Hp Hx. destruct (fi_spaces _ _ _ _ Hi) as (ts & [S1 S2 S3 S4 S5]). apply slot_lookup in Hp; [|lia].
  destruct (lookup_lt_is_Some_2 ts (Z.to_nat pid - 1)) as [t Ht]; [apply lookup_lt_Some in Hp; lia|].
  rewrite list.Forall_forall in S4. apply S4. apply (slot_pages_in ts m (Z.to_nat pid - 1) p t); [done..|]. apply elem_of_app. left.
  destruct Hx as [-> | ->]; [do 3 right; by left|by left].
Qed.

Lemma map_ok m pid p image en : 1 <= pid < 8 -> m.(process_memory).[pid] = Some p -> placed image en pid p m ->
  exists pg, map_slot p m = Some (set_pages pg m) /\ slot_loaded pg p /\ placed image en pid p (set_pages pg m) /\
    forall x, x <> p.(page_table) -> pg !! x = m.(pages) !! x.
Proof.
  intros H1 H2 [(L & g & o & base & fs & Hi & Ho & Hcode & Himg) Hcl].
  destruct (map_slot_ok p m (slot_shaped frames m L g pid p Hi H1 H2)) as (pg & E & Ht & Hl).
  { apply (frames_slot_page m L g pid p); [done..|by left]. }
  exists pg. split; [done|]. split; [done|]. split; [|intros x Hx; apply Ht; by intros ->%list_elem_of_singleton].
  assert (Hsame : forall f, f ∈ slot_frames p -> pg !! f = m.(pages) !! f /\ f mod 4096 = 0).
  { intros f Hf. destruct (slot_frame_apart m L g pid p f Hi H1 H2 Hf) as (_ & _ & A3 & A4). split; [|done]. apply Ht. by intros ->%list_elem_of_singleton. }
  split; cbn [pages set_pages set_pool].
  - exists L, g, o, base, fs. split; [by eapply frames_map_slot|]. split; [done|]. split; [done|]. eapply image_in_same; [|exact Himg]. intros f Hf.
    destruct Hcode as [(_ & Efs & Hne)|(_ & Efs)]; rewrite Efs in Hf.
    + pose proof (fi_frames _ _ _ _ Hi) as Hfr. rewrite list.Forall_forall in Hfr.
      assert (Hin : f ∈ all_owned g).
      { apply (concat_in own_frames g o); [by eapply in_owners|]. unfold own_frames. rewrite !elem_of_app. right. right. left.
        destruct o.(o_large); [done|]. by right. }
      destruct (Hfr f) as (_ & Hm & _); [apply elem_of_app; by right|]. split; [|done]. apply Ht. intros E2%list_elem_of_singleton. subst f.
      destruct (fi_spaces _ _ _ _ Hi) as (ts & Hs). pose proof H2 as Hsl. apply slot_lookup in Hsl; [|lia]. pose proof Hs as [S1 S2 _ _ _].
      destruct (lookup_lt_is_Some_2 ts (Z.to_nat pid - 1)) as [t Hti]; [apply lookup_lt_Some in Hsl; lia|].
      destruct (slot_pages_distinct ts frames m _ p t Hs Hsl Hti) as (_ & Hout & _). apply (Hout p.(page_table)).
      * apply elem_of_app; left; do 3 right; by left.
      * rewrite <- (fi_total _ _ _ _ Hi). apply elem_of_app. by right.
    + apply Hsame, (slot_parts pid p H1). tauto.
  - eapply cleared_same; [|exact Hcl]. intros f Hf. apply Hsame, (slot_parts pid p H1). apply elem_of_app in Hf. tauto.
Qed.

(** ** What the process sees *)

(** In address space [space]: the image where it is linked, then zeros up to the end of the stack. *)
Definition program_visible (image : list Z) (en space : Z) (pg : phys) : Prop :=
  exists h ps base n, fits_window image h ps base n /\ en = h.(entry) /\
    (forall va, base <= va < base + n -> load_user pg space va = Some (image_byte image ps va)) /\
    (forall va, USER_HEAP <= va < USER_ADDRESS_END -> load_user pg space va = Some 0).

Lemma names_load T pg space va pa b : names T pg space va pa -> load_byte pg pa = Some b -> load_user pg space va = Some b.
Proof. intros [(r & E) _ _ _] Hb. unfold load_user. by rewrite E. Qed.

Lemma placed_visible image en pid p m : 1 <= pid < 8 -> m.(process_memory).[pid] = Some p -> m.(process_memory_used).[pid] = Some true ->
  placed image en pid p m -> program_visible image en p.(UserMemory.address_space) m.(pages).
Proof.
  intros H1 H2 Hu [(L & g & o & base & fs & Hi & Ho & Hcode & (h & ps & Hf & -> & Hh)) Hcl]. exists h, ps, base, (window fs).
  split; [done|]. split; [done|]. destruct (slot_shaped frames m L g pid p Hi H1 H2) as [C1 C2 C3 C4].
  pose proof (user_page_names frames m L g Hi pid p H1 H2 o) as Hn. split.
  - intros va Hva. unfold window in Hva. destruct (aget_in fs ((va - base) / 4096)) as [f Hfs]; [zlia|].
    assert (Hb : base mod 4096 = 0) by (destruct Hcode as [(-> & _)|(-> & _)]; done).
    eapply names_load; [apply (Hn va f Ho Hu)|].
    + destruct Hcode as [(-> & _)|(-> & _)]; unfold USER_LARGE_CODE_BASE, USER_CODE in *; lia.
    + unfold user_page. destruct Hcode as [(-> & -> & _)|(-> & ->)].
      * by rewrite (proj2 (Z.leb_le USER_ANON_BASE va)), (proj2 (Z.leb_le USER_LARGE_CODE_BASE va)) by (unfold USER_ANON_BASE, USER_LARGE_CODE_BASE in *; lia).
      * change USER_CODE with 3145728 in Hva. change USER_ANON_BASE with 268435456. change USER_STACK_PAGE with 3362816. change USER_HEAP with 3342336.
        by rewrite (proj2 (Z.leb_gt 268435456 va)), (proj2 (Z.leb_gt 3362816 va)), (proj2 (Z.leb_gt 3342336 va)) by lia.
    + rewrite (Hh ((va - base) / 4096) f (va mod 4096) Hfs) by zlia. do 2 f_equal. zlia.
  - intros va Hva. change USER_HEAP with 3342336 in Hva. change USER_ADDRESS_END with 3887104 in Hva.
    assert (exists f, user_page p o va = Some f /\ f ∈ p.(stack_frames) ++ p.(heap_frames)) as (f & Hup & Hin).
    { unfold user_page. change USER_ANON_BASE with 268435456. change USER_STACK_PAGE with 3362816. change USER_HEAP with 3342336.
      rewrite (proj2 (Z.leb_gt 268435456 va)) by lia. destruct (Z.leb_spec 3362816 va).
      - destruct (aget_in p.(stack_frames) ((va - 3362816) / 4096)) as [f Hf']; [zlia|]. exists f. split; [done|]. apply aget_Some in Hf' as [_ Hf'].
        apply elem_of_app. left. by apply list_elem_of_lookup_2 in Hf'.
      - rewrite (proj2 (Z.leb_le 3342336 va)) by lia. destruct (aget_in p.(heap_frames) ((va - 3342336) / 4096)) as [f Hf']; [zlia|].
        exists f. split; [done|]. apply aget_Some in Hf' as [_ Hf']. apply elem_of_app. right. by apply list_elem_of_lookup_2 in Hf'. }
    eapply names_load; [by apply (Hn va f Ho Hu); [lia|]|]. apply Hcl; [done|zlia].
Qed.
End frames.

(** ** The scheduler *)

(** [pid] is the slot the scheduler gives the next process. *)
Definition first_free (s : sched) (pid : Z) : Prop :=
  exists i t, list_find (fun t => t.(state) = UNUSED) (drop 1 s.(tasks)) = Some (i, t) /\ pid = 1 + Z.of_nat i.

Definition stack_top (s : sched) (pid : Z) : Z := s.(kernel_stacks) + pid * KERNEL_STACK_SIZE.
Definition start_frame (pid entry stack : Z) : interrupt_frame := Frame 0 0 0 0 0 0 0 0 0 pid 0 0 0 0 0 entry 35 514 stack 27.
Definition new_task (s : sched) (pid parent : Z) (nm : list Z) (space : Z) : task :=
  Task pid parent nm READY 0 0 0 0 0 (stack_top s pid - FRAME_BYTES) (stack_top s pid) space SCHEDULER_WAIT_NONE 0 0 false.

Record created (s s' : sched) (pid parent entry stack space : Z) : Prop := {
  cr_task : exists nm, s'.(tasks) = <[Z.to_nat pid := new_task s pid parent nm space]> s.(tasks);
  cr_frame : s'.(Scheduler.frames) = <[stack_top s pid - FRAME_BYTES := start_frame pid entry stack]> s.(Scheduler.frames);
  cr_current : s'.(current_pid) = s.(current_pid);
  cr_cr3 : s'.(cr3) = s.(cr3);
  cr_initialized : s'.(initialized) = s.(initialized);
  cr_stacks : s'.(kernel_stacks) = s.(kernel_stacks);
  cr_wf : sched_wf s'
}.

Lemma first_free_unused s pid : first_free s pid -> exists t, s.(tasks).[pid] = Some t /\ t.(state) = UNUSED.
Proof.
  intros (i & t & (Hi & Hu & _)%list_find_Some & ->). exists t. split; [|done]. rewrite lookup_drop in Hi. apply aget_Some. split; [lia|].
  rewrite <- Hi. f_equal. lia.
Qed.

Lemma put_task s p t t' : s.(tasks).[p] = Some t -> (set_tasks (<[Z.to_nat p := t']> s.(tasks)) s).(tasks).[p] = Some t'.
Proof. intros Ht. cbn. rewrite aget_insert by (by eapply aget_bound). by rewrite decide_True. Qed.

Lemma create_user_exact s pid parent nm entry stack space :
  sched_wf s -> s.(initialized) = true -> 0 <= parent < 8 -> readable_name nm -> entry <> 0 -> stack <> 0 -> space <> 0 -> first_free s pid ->
  exists s', scheduler_create_user parent nm entry stack space s = Some (pid, s') /\ created s s' pid parent entry stack space.
Proof.
  intros Hwf Hi Hpar Hnm He Hst Hsp Hfree. pose proof (first_free_unused _ _ Hfree) as (t0 & Ht0 & _).
  destruct (scheduler_create_user_ok s parent nm entry stack space Hwf ltac:(lia) Hnm) as (q & s' & E & Hwf' & _).
  destruct Hfree as (i & t & Hfind & ->). revert E. unfold scheduler_create_user. rewrite Hi, Hfind.
  rewrite (proj2 (Z.eqb_neq entry 0)), (proj2 (Z.eqb_neq stack 0)), (proj2 (Z.eqb_neq space 0)), (proj2 (Z.leb_gt SCHEDULER_PROCESS_LIMIT parent)) by (done || (unfold SCHEDULER_PROCESS_LIMIT; lia)).
  cbn [negb orb]. destruct (copy_name_ok nm Hnm) as (out & -> & _). cbn [mbind option_bind]. set (p := 1 + Z.of_nat i) in *.
  rewrite (update_task_eq p _ s t0) by done. cbn [mbind option_bind].
  set (t1 := Task p _ _ _ _ _ _ _ _ _ _ _ _ _ _ _). set (s1 := set_tasks _ s). assert (Ht1 : s1.(tasks).[p] = Some t1) by exact (put_task s p t0 t1 Ht0).
  unfold prepare_frame. set (s2 := set_frames _ s1). rewrite (update_task_eq p _ s2 t1) by done. cbn [mbind option_bind].
  set (t3 := Task _ _ _ _ _ _ _ _ _ _ _ _ _ _ _ _). set (s3 := set_tasks _ s2). assert (Ht3 : s3.(tasks).[p] = Some t3) by exact (put_task s2 p t1 t3 Ht1).
  rewrite (update_task_eq p _ s3 t3) by done. cbn [mbind option_bind]. set (s4 := set_tasks _ s3).
  destruct (s4.(fpu_state).[p <- s4.(fpu_template)]) as [areas|]; [|done]. cbn [mbind option_bind]. intros [= <- <-].
  eexists. split; [done|]. split; try done. exists out. cbn. by rewrite !list_insert_insert_eq.
Qed.

(** ** All subsystems *)

Section subsystems.
Context (frames : list Z).

Lemma unused_not_waiting s w pid t : core_base frames s w -> s.(tasks).[pid] = Some t -> t.(state) = UNUSED -> not_waiting pid w.
Proof.
  intros Hc Ht Hu. assert (Hno : forall k, ~ registered w pid k).
  { intros k Hk. destruct (ro_doze _ _ _ (co_roles _ _ _ Hc) pid k Hk) as [[]|(t' & Ht' & Hz)]. rewrite Ht in Ht'. injection Ht' as <-.
    destruct Hz as [E|[E _]]; congruence. }
  split.
  - intros i c Hc' Ha Hw E. apply (Hno (if c.(Ipc.waiter).(w_multiplex) then Selects i else Receives i)). left. exists i, c. split; [done|].
    split; [done|]. left. by rewrite E.
  - intros Ha E. apply (Hno Listens). right. by rewrite <- E.
Qed.

(** New contents of the slots, with the processes as they are. *)
Lemma core_memory s w m : core_base frames s w -> kernel_ok frames (set_memory m w) -> m.(process_memory_used) = w.(w_memory).(process_memory_used) ->
  m.(process_memory) = w.(w_memory).(process_memory) -> core_base frames s (set_memory m w).
Proof.
  intros [H1 H2 H3 [R1 R2] H5 H6 H7] Hk E1 E2. split; try done. intros q t Ht Hq Hu. cbn [w_memory set_memory]. rewrite E1, E2. by apply H6.
Qed.

Lemma idle_memory s w m pid t L g : core_base frames s w -> s.(tasks).[pid] = Some t -> t.(state) = UNUSED ->
  others_same pid w.(w_memory) m -> m.(mapped_surface) = w.(w_memory).(mapped_surface) -> frames_inv frames m L g -> core_base frames s (set_memory m w).
Proof.
  intros Hc Ht Hu Hos Hms Hi. apply core_memory; [done| |apply Hos..].
  destruct (ko_memory _ _ (co_kernel _ _ _ Hc)) as (a & L0 & g0 & Hm).
  pose proof (memory_ok frames w a m w.(w_surfaces) L g pid (co_kernel _ _ _ Hc) (unused_not_waiting _ _ _ _ Hc Ht Hu)) as H.
  assert (E : set_surfaces w.(w_surfaces) (set_memory m w) = set_memory m w) by (by destruct w). rewrite E in H. apply H; [|done].
  eapply mem_ok_step; [exact Hm|exact Hi|exact Hms].
Qed.

(** The slot is in use: nobody waits in it yet, so every buffer stays accepted. *)
Lemma occupy_kernel w pid p L g : kernel_ok frames w -> not_waiting pid w -> 1 <= pid < 8 -> w.(w_memory).(process_memory).[pid] = Some p ->
  frames_inv frames w.(w_memory) L g -> slot_loaded w.(w_memory).(pages) p ->
  kernel_ok frames (set_memory (set_used (<[Z.to_nat pid := true]> w.(w_memory).(process_memory_used)) w.(w_memory)) w).
Proof.
  intros [[W1 W2 W3 W4 W5] (a & L0 & g0 & Hm) Hwt Hev] Hn Hpid Hp Hi Hl. pose proof (frames_occupy _ _ _ _ _ _ Hi Hpid Hp Hl) as Hi'.
  split; [split; try done; apply Hi'|exists a, L, g; split; [exact Hi'| |apply Hm]| |exact Hev].
  - eapply linked_ext; [|apply Hm]. done.
  - assert (Hr : forall q x n, q <> pid -> accepted w.(w_memory) q x n ->
      accepted (set_used (<[Z.to_nat pid := true]> w.(w_memory).(process_memory_used)) w.(w_memory)) q x n).
    { intros q x n Hq Ha Hb Hu. cbn [process_memory_used set_used] in Hu. rewrite range_used by (apply insert_other; [lia|done]). apply Ha; [done|].
      by rewrite insert_other in Hu by (lia || done). }
    destruct Hwt as [H1 H2], Hn as [N1 N2]. split.
    + intros i c Hc Ha Hwa. apply Hr; [by apply (N1 i)|by apply (H1 i)].
    + intros Ha. apply Hr; auto.
Qed.

(** A new process joins. *)
Lemma created_core s w s' w' pid p parent entry stack : core_base frames s w -> first_free s pid -> 1 <= pid < 8 ->
  created s s' pid parent entry stack p.(UserMemory.address_space) -> kernel_ok frames w' -> w'.(w_ipc) = w.(w_ipc) -> w'.(w_input) = w.(w_input) ->
  w'.(w_memory).(process_memory) = w.(w_memory).(process_memory) ->
  w'.(w_memory).(process_memory_used) = <[Z.to_nat pid := true]> w.(w_memory).(process_memory_used) ->
  w.(w_memory).(process_memory).[pid] = Some p -> opened sound w.(w_caps) w'.(w_caps) -> core_base frames s' w'.
Proof.
  intros [H1 H2 H3 H4 H5 H6 H7] Hfree Hpid [(nm & Ets) Hfr Ecur Ecr Ein _ Hwf] Hk Ei En Em Eu Hp Hop.
  destruct (first_free_unused _ _ Hfree) as (t0 & Ht0 & Hu0). pose proof (aget_bound _ _ _ Ht0) as Hb.
  assert (Hget : forall q, s'.(tasks).[q] = if decide (pid = q) then Some (new_task s pid parent nm p.(UserMemory.address_space)) else s.(tasks).[q]).
  { intros q. rewrite Ets, aget_insert by done. repeat case_decide; congruence. }
  assert (Hcur : s.(current_pid) <> pid).
  { intros E. destruct (wf_running _ H1) as (t & Ht & Hr). rewrite E, Ht0 in Ht. injection Ht as <-. congruence. }
  assert (Hreg : forall q k, registered w' q k -> registered w q k) by (intros q k; unfold registered, listens; by rewrite Ei, En).
  split; [done|by rewrite Ein|done| | | |by eapply sound_kept].
  - split; [|intros q k k' Hq Hq'; by apply (ro_pair _ _ _ H4 q); apply Hreg].
    intros q k Hq. apply Hreg in Hq. destruct (ro_doze _ _ _ H4 q k Hq) as [[]|(t & Ht & Hz)]. right. exists t. split; [|done].
    rewrite Hget. case_decide as E; [|done]. subst q. rewrite Ht0 in Ht. injection Ht as <-. destruct Hz as [Hz|[Hz _]]; congruence.
  - intros t Ht Hu. rewrite Ecur, Hget, decide_False in Ht by done. rewrite Ecr. by apply H5.
  - intros q t Ht Hq Hu. rewrite Hget in Ht. rewrite Em, Eu, aget_insert by (by rewrite (ma_used _ (sw_memory _ (ko_subsystems _ _ H3))); lia).
    case_decide as E; [subst q; injection Ht as <-|].
    + rewrite decide_True by done. split; [done|]. by exists p.
    + rewrite decide_False by done. by apply H6.
Qed.

Definition STACK_START : Z := USER_STACK_PAGE + USER_STACK_SIZE - 16.

(** The process [pid] has been started with the program [image]. *)
Record loaded_process (s s' : sched) (w w' : subsystems) (pid : Z) (p : userspace_memory) (parent : Z) (image : list Z) (mask : Z) : Prop := {
  lp_task : exists en, created s s' pid parent en STACK_START p.(UserMemory.address_space) /\
    program_visible image en p.(UserMemory.address_space) w'.(w_memory).(pages);
  lp_services : w'.(w_caps).(assigned_services).[pid] = Some mask;
  lp_caps : w'.(w_caps) = set_services (<[Z.to_nat pid := mask]> w.(w_caps).(assigned_services)) w.(w_caps);
  lp_used : w'.(w_memory).(process_memory_used) = <[Z.to_nat pid := true]> w.(w_memory).(process_memory_used)
}.
(** A failed attempt: only the contents of idle memory have changed ([attempt] says which
    pages those are). *)
Record not_loaded (s s' : sched) (w w' : subsystems) (pid : Z) (p : userspace_memory) : Prop := {
  nl_sched : s' = s;
  nl_rest : w' = set_memory w'.(w_memory) w;
  nl_idle : idle_slot w'.(w_memory) pid p;
  nl_others : others_same pid w.(w_memory) w'.(w_memory);
  nl_mapped : w'.(w_memory).(mapped_surface) = w.(w_memory).(mapped_surface)
}.

Lemma assign_ok w pid mask : kernel_ok frames w -> 1 <= pid < 8 ->
  exists c, capability_assign_services pid mask w.(w_caps) = Some (true, c) /\ kernel_ok frames (set_caps c w) /\
    c.(assigned_services).[pid] = Some mask /\ c = set_services (<[Z.to_nat pid := mask]> w.(w_caps).(assigned_services)) w.(w_caps) /\ opened sound w.(w_caps) c.
Proof.
  intros Hk Hpid. destruct (capability_ok frames (CapAssign pid mask) w Hk ltac:(cbn; lia) I) as (c & s & E & Hk').
  cbn [cap_run] in E. unfold capability_assign_services in E |- *. rewrite (proj2 (Z.eqb_neq pid 0)), (proj2 (Z.leb_gt kProcessLimit pid)) in E |- * by (unfold kProcessLimit; lia).
  cbn [orb] in E |- *. destruct (w.(w_caps).(assigned_services).[pid <- mask]) as [l|] eqn:El; [|done]. cbn [mbind option_bind] in *. injection E as <- <-.
  exists (set_services l w.(w_caps)). split; [done|]. assert (Ew : set_surfaces w.(w_surfaces) (set_caps (set_services l w.(w_caps)) w) = set_caps (set_services l w.(w_caps)) w) by (by destruct w).
  rewrite Ew in Hk'. split; [done|]. unfold aset in El. destruct (_ && _) eqn:Eb; [|done]. injection El as <-.
  split; [|split; [done|intros q h g Hh; by left]]. cbn. b2p. rewrite aget_insert by lia. by rewrite decide_True.
Qed.

Lemma placed_entry image en pid p m : placed frames image en pid p m -> en <> 0.
Proof.
  intros [(L & g & o & base & fs & _ & _ & Hcode & (h & ps & (_ & Him & Hlo & _) & -> & _)) _].
  destruct Him as (_ & _ & _ & _ & _ & _ & _ & He). pose proof (existsb_entry _ _ He).
  destruct Hcode as [(-> & _)|(-> & _)]; unfold USER_LARGE_CODE_BASE, USER_CODE in *; lia.
Qed.

Lemma start_process_ok s w pid p parent nm image en mask :
  core_base frames s w -> 1 <= pid < 8 -> w.(w_memory).(process_memory).[pid] = Some p -> first_free s pid -> 0 <= parent < 8 -> readable_name nm ->
  placed frames image en pid p w.(w_memory) ->
  exists s' w', start_process pid parent nm p en mask s w = Some (true, s', w') /\ core_base frames s' w' /\
    loaded_process s s' w w' pid p parent image mask /\ w'.(w_memory).(process_memory) = w.(w_memory).(process_memory) /\
    w'.(w_memory).(large_code_page_table) = w.(w_memory).(large_code_page_table) /\
    forall x, x <> p.(page_table) -> w'.(w_memory).(pages) !! x = w.(w_memory).(pages) !! x.
Proof.
  intros Hc Hpid Hp Hfree Hpar Hnm Hpl. destruct (first_free_unused _ _ Hfree) as (t & Ht & Hu). unfold start_process.
  destruct (map_ok frames _ pid p image en Hpid Hp Hpl) as (pg & -> & Hl & Hpl' & Hpt). cbn [mbind option_bind].
  set (m1 := set_pages pg w.(w_memory)) in *. pose proof (pl_memory _ _ _ _ _ _ Hpl') as (L & g & o & base & fs & Hi & Ho & Hcode & Himg).
  assert (Hc1 : core_base frames s (set_memory m1 w)) by (by eapply (idle_memory s w m1 pid t L g)).
  destruct (create_user_exact s pid parent nm en STACK_START p.(UserMemory.address_space)) as (s' & E & Hcr); [apply Hc|apply Hc|done|done| |done| |done|].
  { by eapply placed_entry. }
  { destruct (frames_slot_page frames m1 L g pid p p.(UserMemory.address_space) Hi Hpid Hp) as (H0 & _); [by right|lia]. }
  unfold STACK_START in E. rewrite E. cbn [mbind option_bind]. rewrite Z.eqb_refl. cbn [negb w_caps set_memory].
  destruct (assign_ok (set_memory m1 w) pid mask (co_kernel _ _ _ Hc1) Hpid) as (c & Ec & Hk & Has & Hcap & Hop). cbn [w_caps set_memory] in Ec. rewrite Ec.
  cbn [mbind option_bind w_memory set_caps set_memory]. pose proof (fi_arrays _ _ _ _ Hi) as [A1 A2 A3 A4]. rewrite aset_in by lia. cbn [mbind option_bind].
  set (u := <[Z.to_nat pid := true]> m1.(process_memory_used)). set (w2 := set_caps c (set_memory m1 w)) in *.
  pose proof (occupy_kernel w2 pid p L g Hk (unused_not_waiting s w pid t Hc Ht Hu) Hpid Hp Hi Hl) as Hk2.
  exists s', (set_memory (set_used u m1) w2). split; [done|]. split; [|split; [|done]].
  - eapply (created_core s w s' _ pid p parent en STACK_START Hc Hfree Hpid Hcr Hk2); try done.
  - split; [|exact Has|exact Hcap|done]. exists en. split; [exact Hcr|].
    apply (placed_visible frames image en pid p (set_used u m1) Hpid Hp).
    + cbn. unfold u. rewrite aget_insert by lia. by rewrite decide_True.
    + destruct Hpl' as [_ Hcl]. split; [|exact Hcl]. exists L, g, o, base, fs. split; [|done]. by eapply frames_occupy.
Qed.

(** What any attempt leaves of the other slots, and of physical memory: every page but
    those of the slot and the available frames [L]. *)
Record attempt (L : list Z) (p : userspace_memory) (pid : Z) (w w' : subsystems) : Prop := {
  at_homes : w'.(w_memory).(process_memory) = w.(w_memory).(process_memory);
  at_others : forall q, q <> pid -> w'.(w_memory).(large_code_page_table).[q] = w.(w_memory).(large_code_page_table).[q];
  at_pages : forall x, x ∉ slot_reach p ++ L -> w'.(w_memory).(pages) !! x = w.(w_memory).(pages) !! x
}.

(** The image can be placed in the slot. *)
Definition acceptable (m : user_memory) (L : list Z) (p : userspace_memory) (image : list Z) : Prop :=
  good_slot p = Some true /\ exists l, executable_image image l /\ code_fits m L p l.

Section load.
Context (s : sched) (w : subsystems) (pid : Z) (p : userspace_memory) (parent : Z) (nm image : list Z) (mask : Z) (L : list Z) (g : list own) (t : task).
Context (Hc : core_base frames s w) (Hidle : idle_slot w.(w_memory) pid p) (Hb : bytes_ok image) (Hi : frames_inv frames w.(w_memory) L g).
Context (Ht : s.(tasks).[pid] = Some t) (Hu : t.(state) = UNUSED) (Hreach : reachable s p).

(** What [load_process] has done when it creates the task: the program is in place. *)
Lemma load_process_places l : good_slot p = Some true -> executable_image image l -> code_fits w.(w_memory) L p l ->
  exists m, load_process pid parent nm p image mask s w = start_process pid parent nm p l.(entry_point) mask s (set_memory m w) /\
    placed frames image l.(entry_point) pid p m /\ others_same pid w.(w_memory) m /\ core_base frames s (set_memory m w) /\
    forall x, x ∉ slot_reach p ++ L -> m.(pages) !! x = w.(w_memory).(pages) !! x.
Proof.
  intros Hgood Him Hfit. pose proof Hidle as [H1 H2 H3 H4 H5].
  unfold load_process. destruct (good_slot_ok frames _ L g pid p Hi H1 H2 H3) as (ok & Eok & Hok). rewrite Eok in Hgood. injection Hgood as ->.
  rewrite Eok. cbn [mbind option_bind negb]. rewrite Hreach. cbn [negb]. destruct (clear_ok frames _ L g pid p Hi Hidle (Hok eq_refl)) as (pg & -> & Hi1 & Hcl & Hcp). cbn [mbind option_bind].
  set (m1 := set_pages pg w.(w_memory)) in *. assert (Hidle1 : idle_slot m1 pid p) by by split.
  assert (Hc1 : core_base frames s (set_memory m1 w)) by (by eapply (idle_memory s w m1 pid t L g)).
  destruct (layout_ok image Hb) as (layout & -> & Hlay). cbn [mbind option_bind]. pose proof (proj2 (Hlay l) Him) as ->.
  destruct (code_ok frames m1 L g pid p image l Hi1 Hidle1 (Hok eq_refl) Hcl Hb Him) as (r & m2 & E & Hos & Hms & Hpg & Hrn & Hres).
  cbn [w_memory set_memory]. rewrite E. cbn [mbind option_bind]. change (set_memory m2 (set_memory m1 w)) with (set_memory m2 w).
  destruct r as [en|]; [|exfalso; by apply (proj1 Hrn eq_refl)]. destruct Hres as [Hpl ->]. exists m2. split; [done|]. split; [done|]. split; [|split].
  - eapply others_trans; [|exact Hos]. by split.
  - pose proof (pl_memory _ _ _ _ _ _ Hpl) as (L2 & g2 & o2 & base & fs & Hi2 & _).
    exact (idle_memory s _ m2 pid t L2 g2 Hc1 Ht Hu Hos Hms Hi2).
  - intros x Hx. rewrite Hpg by done. by apply Hcp.
Qed.

(** A refusal: the slot is idle again, and the pool has as many frames as before. *)
Record refused (s' : sched) (w' : subsystems) : Prop := {
  rf_core : core_base frames s' w';
  rf_state : not_loaded s s' w w' pid p;
  rf_attempt : attempt L p pid w w';
  rf_pool : exists L' g', frames_inv frames w'.(w_memory) L' g' /\ length L' = length L
}.

Lemma same_pool m L' : frames_inv frames m L' g -> length L' = length L.
Proof.
  intros Hi'. pose proof (fi_total _ _ _ _ Hi) as E1. pose proof (fi_total _ _ _ _ Hi') as E2. rewrite <- E2 in E1.
  apply Permutation_length in E1. rewrite !length_app in E1. lia.
Qed.

Lemma load_process_fails : ~ acceptable w.(w_memory) L p image ->
  exists w', load_process pid parent nm p image mask s w = Some (false, s, w') /\ refused s w'.
Proof.
  intros Hno. pose proof Hidle as [H1 H2 H3 H4 H5]. unfold load_process.
  destruct (good_slot_ok frames _ L g pid p Hi H1 H2 H3) as (ok & Eok & Hok). rewrite Eok. cbn [mbind option_bind].
  destruct ok; cbn [negb].
  2: { exists w. split; [done|]. split; [done|split; [done|by destruct w|done|apply others_refl|done]|done|by exists L, g]. }
  rewrite Hreach. cbn [negb].
  destruct (clear_ok frames _ L g pid p Hi Hidle (Hok eq_refl)) as (pg & -> & Hi1 & Hcl & Hcp). cbn [mbind option_bind].
  set (m1 := set_pages pg w.(w_memory)) in *.
  assert (Hc1 : core_base frames s (set_memory m1 w)) by (by eapply (idle_memory s w m1 pid t L g)).
  assert (Hidle1 : idle_slot m1 pid p) by by split.
  destruct (layout_ok image Hb) as (layout & -> & Hlay). cbn [mbind option_bind]. destruct layout as [l|].
  2: { exists (set_memory m1 w). split; [done|]. split; [done|split; [done..| |done]; by split|by split|by exists L, g]. }
  pose proof (proj1 (Hlay l) eq_refl) as Him.
  destruct (code_ok frames m1 L g pid p image l Hi1 Hidle1 (Hok eq_refl) Hcl Hb Him) as (r & m2 & E & Hos & Hms & Hpg & Hrn & Hres).
  cbn [w_memory set_memory]. rewrite E. cbn [mbind option_bind]. change (set_memory m2 (set_memory m1 w)) with (set_memory m2 w).
  destruct r as [en|].
  { exfalso. apply Hno. split; [done|]. exists l. split; [done|]. destruct (decide (code_fits m1 L p l)) as [|Hn]; [done|]. by apply Hrn in Hn. }
  destruct Hres as (L' & Hi2). exists (set_memory m2 w). split; [done|].
  destruct (aget_in g pid) as [o Ho]; [rewrite (fi_owners _ _ _ _ Hi); lia|]. pose proof (idle_large frames _ _ _ _ _ _ Hi Hidle Ho) as El.
  destruct (fi_owned _ _ _ _ Hi2 pid o ltac:(lia) Ho) as (d & _ & Hown). pose proof (large_table _ _ _ _ (owned_large _ _ _ _ Hown)) as Et. rewrite El in Et.
  split.
  - exact (idle_memory s _ m2 pid t L' g Hc1 Ht Hu Hos Hms Hi2).
  - assert (Hos' : others_same pid w.(w_memory) m2) by (eapply others_trans; [|exact Hos]; by split).
    split; [done|done| |exact Hos'|exact Hms]. split; cbn [w_memory set_memory]; [done|by rewrite (os_process _ _ _ Hos)|done|by rewrite (os_used _ _ _ Hos)|done].
  - split; cbn [w_memory set_memory]; [apply Hos..|]. intros x Hx. rewrite Hpg by done. by apply Hcp.
  - exists L', g. split; [exact Hi2|by apply (same_pool m2)].
Qed.
End load.

(** Loading a program into the slot of the next process: all of the program is there
    and the process starts at its entry point, or nothing but idle memory changed. *)
Lemma load_process_ok s w pid p parent nm image mask L g :
  core_base frames s w -> idle_slot w.(w_memory) pid p -> reachable s p -> first_free s pid -> 0 <= parent < 8 -> readable_name nm -> bytes_ok image ->
  frames_inv frames w.(w_memory) L g ->
  exists b s' w', load_process pid parent nm p image mask s w = Some (b, s', w') /\ core_base frames s' w' /\
    (b = true <-> acceptable w.(w_memory) L p image) /\ attempt L p pid w w' /\
    if b then loaded_process s s' w w' pid p parent image mask else refused s w pid p L s' w'.
Proof.
  intros Hc Hidle Hreach Hfree Hpar Hnm Hb Hi. destruct (first_free_unused _ _ Hfree) as (t & Ht & Hu).
  destruct (layout_ok image Hb) as (layout & El & Hlay).
  assert (Hdec : (exists l, good_slot p = Some true /\ executable_image image l /\ code_fits w.(w_memory) L p l) \/ ~ acceptable w.(w_memory) L p image).
  { destruct layout as [l|]; [|right; intros (_ & l & Hl & _); by apply Hlay in Hl]. pose proof (proj1 (Hlay l) eq_refl) as Him.
    destruct (decide (code_fits w.(w_memory) L p l)) as [Hf|Hn]; [destruct (decide (good_slot p = Some true)) as [Hg|Hg]|].
    - left. by exists l.
    - right. by intros [? _].
    - right. intros (_ & l' & Hl' & Hf). apply Hlay in Hl'. by injection Hl' as <-. }
  destruct Hdec as [(l & Hgood & Him & Hfit)|Hno].
  - destruct (load_process_places s w pid p parent nm image mask L g t Hc Hidle Hb Hi Ht Hu Hreach l Hgood Him Hfit) as (m & E & Hpl & Hos & Hc2 & Hpg).
    assert (Hp2 : m.(process_memory).[pid] = Some p) by (rewrite (os_process _ _ _ Hos); apply Hidle).
    destruct (start_process_ok s (set_memory m w) pid p parent nm image _ mask Hc2 (is_pid _ _ _ Hidle) Hp2 Hfree Hpar Hnm Hpl)
      as (s' & w' & Es & Hc' & [(en' & T1 & T2) T3 T3' T4] & T5 & T6 & T7).
    exists true, s', w'. split; [by rewrite E|]. split; [done|]. split; [split; [intros _|done]; split; [done|by exists l]|]. split.
    + split; [by rewrite T5; apply Hos|intros q Hq; rewrite T6; by apply Hos|]. intros x Hx. rewrite T7; [by apply Hpg|].
      intros ->. apply Hx, elem_of_app. left. right. by left.
    + split; [by exists en'|done|exact T3'|]. rewrite T4. cbn [w_memory set_memory]. by rewrite (os_used _ _ _ Hos).
  - destruct (load_process_fails s w pid p parent nm image mask L g t Hc Hidle Hb Hi Ht Hu Hreach Hno) as (w' & E & Hrf).
    exists false, s, w'. split; [done|]. split; [apply Hrf|]. split; [done|]. split; [apply Hrf|done].
Qed.
End subsystems.
