(* ===== verification/SpawnSafety.v ===== *)
(** Spawning in the running system: every attempt takes the first free slot or none,
    and the calls that spawn keep the invariant of the whole kernel. *)

From stdpp Require Import gmap.
From S2P Require Import Prelude LittleEndian BoundedTable BoundedTableSpec Ramfs RamfsSpec RamfsTheorems Surface SurfaceSpec Capability CapabilitySpec Elf64 Elf64Spec.
From S2P Require Import Input InputSpec Ipc IpcSpec PhysicalMemory UserMemory UserMemorySpec FrameOwnership AnonymousSpec FrameInvariant MemoryInvariant SurfaceMapping UserAccess MemoryTheorems.
From S2P Require Import Scheduler SchedulerSpec Kernel KernelSpec ProcessExit NewHandles KernelMemory WaitRoles SystemInvariant Syscalls SyscallsSpec CallRules SystemSafety.
From S2P Require Import Spawn SpawnCalls FrameBytes SpawnSpec LargeCodeSpec SpawnTheorems.

(** ** Slots *)

Section slots.
Context (frames : list Z).

(** A free slot is after those of the first two processes, and its task is unused. *)
Record open_slot (s : sched) (m : user_memory) (c : Z) (p : userspace_memory) (t : task) : Prop := {
  op_founders : 3 <= c < 8;
  op_task : s.(tasks).[c] = Some t;
  op_unused : t.(state) = UNUSED;
  op_idle : idle_slot m c p;
  op_good : good_slot p = Some true;
  op_reach : reachable s p
}.

Lemma core_arrays s w : core_ok frames s w -> memory_arrays w.(w_memory).
Proof. intros Hc. apply (sw_memory _ (ko_subsystems _ _ (co_kernel _ _ _ Hc))). Qed.

Lemma free_unused s w c t : core_ok frames s w -> 1 <= c -> w.(w_memory).(process_memory_used).[c] = Some false -> s.(tasks).[c] = Some t -> t.(state) = UNUSED.
Proof.
  intros Hc Hb Hu Ht. destruct (decide (t.(state) = UNUSED)) as [|Hn]; [done|].
  destruct (tn_leases _ _ (co_tenants _ _ _ Hc) c t Ht Hb Hn) as [Hu' _]. congruence.
Qed.

Lemma free_slot s w c : core_ok frames s w -> 1 <= c < 8 -> w.(w_memory).(process_memory_used).[c] = Some false ->
  exists p t, open_slot s w.(w_memory) c p t.
Proof.
  intros Hc Hb Hu. destruct (task_in s c (wf_core _ (co_sched _ _ _ Hc)) ltac:(lia)) as [t Ht].
  pose proof (free_unused s w c t Hc ltac:(lia) Hu Ht) as Hun. pose proof (co_tenants _ _ _ Hc) as [T1 T2 T3 T4].
  destruct (aget_in w.(w_memory).(process_memory) c) as [p Hp]; [rewrite (ma_process _ (core_arrays s w Hc)); lia|].
  destruct (T2 c t Ht ltac:(lia) Hun) as [_ Hl]. destruct (proj1 T4 c p ltac:(lia) Hp) as (Ha & Hg & Hlo). exists p, t. split; [|done|done|by split|done|by apply low_reachable].
  destruct (decide (3 <= c)) as [|Hlt]; [lia|]. destruct (T3 c ltac:(lia)) as (t' & Ht' & _ & Hne). congruence.
Qed.

(** The first slot that is free is the one the scheduler hands out. *)
Lemma next_free s w c t : core_ok frames s w -> 1 <= c < 8 -> s.(tasks).[c] = Some t -> t.(state) = UNUSED ->
  (forall q, 1 <= q < c -> w.(w_memory).(process_memory_used).[q] = Some true) -> first_free s c.
Proof.
  intros Hc Hb Ht Hu Hused. exists (Z.to_nat (c - 1)), t. split; [|lia]. apply list_find_Some. split; [|split; [done|]].
  - rewrite lookup_drop. apply aget_Some in Ht as [_ Ht]. rewrite <- Ht. f_equal. lia.
  - intros j y Hj Hlt Hy. rewrite lookup_drop in Hj. assert (s.(tasks).[1 + Z.of_nat j] = Some y) as Hq.
    { apply aget_Some. split; [lia|]. rewrite <- Hj. f_equal. lia. }
    destruct (tn_vacant _ _ (co_tenants _ _ _ Hc) _ _ Hq ltac:(lia) Hy) as [Hf _]. rewrite Hused in Hf by lia. done.
Qed.

(** A process that joins takes its slot. *)
Lemma loaded_vacant L s s' w w' pid p parent image mask : vacant s w.(w_memory) -> 1 <= pid < 8 ->
  loaded_process s s' w w' pid p parent image mask -> attempt L p pid w w' -> pid < Z.of_nat (length s.(tasks)) -> vacant s' w'.(w_memory).
Proof.
  intros Hv Hpid [(en & [(nm & Ets) _ _ _ _ _ _] & _) _ _ Eu] [_ Hl _] Hlen q t Hq Hq1 Hu. rewrite Ets, aget_insert in Hq by lia.
  case_decide as E; [by injection Hq as <-|]. rewrite Eu, Hl by done. rewrite insert_other by lia. by apply (Hv q t).
Qed.

Lemma loaded_core L s s' w w' pid p parent image mask : core_ok frames s w -> 3 <= pid < 8 -> core_base frames s' w' ->
  loaded_process s s' w w' pid p parent image mask -> attempt L p pid w w' -> core_ok frames s' w'.
Proof.
  intros Hc Hpid Hb Hl Hat. pose proof (co_tenants _ _ _ Hc) as [T1 T2 T3 T4]. pose proof (core_len _ (wf_core _ (co_sched _ _ _ Hc))) as Hlen.
  apply core_settled; [done| | |].
  - eapply loaded_vacant; [exact T2| |exact Hl|exact Hat|]; lia.
  - destruct Hl as [(en & [(nm & Ets) _ _ _ _ _ _] & _) _ _ _]. intros q Hq. destruct (T3 q Hq) as (t & Ht). exists t. by rewrite Ets, insert_other by lia.
  - by rewrite (at_homes _ _ _ _ _ Hat).
Qed.

Lemma refused_core s w w' pid p L : core_ok frames s w -> w.(w_memory).(large_code_page_table).[pid] = Some 0 -> refused frames s w pid p L s w' -> core_ok frames s w'.
Proof.
  intros Hc Hz [Hb [_ _ Hidle [_ _ Hu _ _ _ _ _ _ _] _] [Hh Ho _] _]. pose proof (co_tenants _ _ _ Hc) as [T1 T2 T3 T4]. apply core_settled; [done| |done|by rewrite Hh].
  intros q t Ht Hq Hun. destruct (T2 q t Ht Hq Hun) as [V1 V2]. rewrite Hu. split; [done|].
  destruct (decide (q = pid)) as [->|Hne]; [apply Hidle|by rewrite Ho].
Qed.

(** A program that does not fit a free slot fits no later one. *)
Lemma later_smaller m m' L L' p p' image : good_slot p = Some true -> p'.(code_page_count) <= p.(code_page_count) -> length L' = length L ->
  acceptable m' L' p' image -> acceptable m L p image.
Proof.
  intros Hg Hle El (_ & l & Him & Hf). split; [done|]. exists l. split; [done|]. unfold code_fits in *. rewrite El in Hf. destruct (_ =? _); [done|]. lia.
Qed.

(** ** The search for a slot *)

(** Nothing but the contents of the free slots has changed. *)
Record untouched (w w' : subsystems) : Prop := {
  ut_rest : w' = set_memory w'.(w_memory) w;
  ut_homes : w'.(w_memory).(process_memory) = w.(w_memory).(process_memory);
  ut_used : w'.(w_memory).(process_memory_used) = w.(w_memory).(process_memory_used)
}.
Lemma untouched_refl w : untouched w w. Proof. split; [by destruct w|done..]. Qed.
Lemma untouched_trans w1 w2 w3 : untouched w1 w2 -> untouched w2 w3 -> untouched w1 w3.
Proof. intros [A1 A2 A3] [B1 B2 B3]. split; [|congruence..]. rewrite B1, A1. by destruct w1. Qed.
Lemma refused_untouched s s' w w' pid p L : refused frames s w pid p L s' w' -> untouched w w'.
Proof. intros [_ [_ Hr _ [_ _ Hu _ _ _ _ _ _ _] _] [Hh _ _] _]. by split. Qed.

Context (parent : Z) (nm image : list Z) (mask : Z) (s : sched).
Context (Hparent : 0 <= parent < 8) (Hname : readable_name nm) (Hbytes : bytes_ok image).

(** None of the slots from [c] on takes the program. *)
Lemma spawn_rest n : forall c w L g, core_ok frames s w -> 1 <= c -> c + Z.of_nat n <= 8 -> frames_inv frames w.(w_memory) L g ->
  (forall q p, c <= q -> w.(w_memory).(process_memory).[q] = Some p -> w.(w_memory).(process_memory_used).[q] = Some false -> ~ acceptable w.(w_memory) L p image) ->
  exists w', spawn_from n c parent nm image mask s w = Some (0, s, w') /\ core_ok frames s w' /\ untouched w w'.
Proof.
  induction n as [|n IH]; intros c w L g Hc H1 H8 Hi Hno; cbn [spawn_from]; [exists w; split; [done|]; split; [done|apply untouched_refl]|].
  destruct (aget_in w.(w_memory).(process_memory_used) c) as [u Hu]; [rewrite (ma_used _ (core_arrays s w Hc)); lia|].
  rewrite Hu. cbn [mbind option_bind]. destruct u; [apply (IH (c + 1) w L g); try lia; try done; intros q p Hq; apply Hno; lia|].
  destruct (free_slot s w c Hc ltac:(lia) Hu) as (p & t & [O1 O2 O3 O4 O5 O6]). rewrite (is_slot _ _ _ O4). cbn [mbind option_bind].
  destruct (load_process_fails frames s w c p parent nm image mask L g t (core_ok_base _ _ _ Hc) O4 Hbytes Hi O2 O3 O6) as (w1 & E & Hrf).
  { apply (Hno c p); [lia|apply O4|done]. }
  rewrite E. cbn [mbind option_bind]. pose proof (refused_core s w w1 c p L Hc (is_small _ _ _ O4) Hrf) as Hc1.
  pose proof (refused_untouched _ _ _ _ _ _ _ Hrf) as Hut. destruct (rf_pool _ _ _ _ _ _ _ _ Hrf) as (L' & g' & Hi' & HL).
  destruct (IH (c + 1) w1 L' g' Hc1 ltac:(lia) ltac:(lia) Hi') as (w2 & E2 & Hc2 & Hut2).
  - intros q p' Hq Hp' Hf Hacc. rewrite (ut_homes _ _ Hut) in Hp'. rewrite (ut_used _ _ Hut) in Hf. apply (Hno q p' ltac:(lia) Hp' Hf).
    destruct Hacc as (G & l & Hl & Hfit). split; [done|]. exists l. split; [done|]. unfold code_fits in *. by rewrite HL in Hfit.
  - exists w2. split; [done|]. split; [done|]. by eapply untouched_trans.
Qed.

(** What spawning does: [pid] is the first free slot and runs the program, or [pid] is 0
    and nothing has changed. *)
Definition spawned (w : subsystems) (pid : Z) (s' : sched) (w' : subsystems) : Prop :=
  if pid =? 0 then s' = s /\ untouched w w'
  else 3 <= pid < 8 /\ exists p, w.(w_memory).(process_memory).[pid] = Some p /\ w.(w_memory).(process_memory_used).[pid] = Some false /\
    loaded_process s s' w w' pid p parent image mask.
(** A free slot, the frame pool and the image make it possible. *)
Definition spawnable (w : subsystems) (L : list Z) : Prop :=
  exists q p, 1 <= q /\ w.(w_memory).(process_memory_used).[q] = Some false /\ w.(w_memory).(process_memory).[q] = Some p /\ acceptable w.(w_memory) L p image.

Lemma spawn_search n : forall c w L g, core_ok frames s w -> 1 <= c -> c + Z.of_nat n = 8 -> frames_inv frames w.(w_memory) L g ->
  (forall q, 1 <= q < c -> w.(w_memory).(process_memory_used).[q] = Some true) ->
  exists pid s' w', spawn_from n c parent nm image mask s w = Some (pid, s', w') /\ core_ok frames s' w' /\ spawned w pid s' w' /\
    (pid <> 0 <-> spawnable w L) /\ (pid <> 0 -> forall q, 1 <= q < pid -> w.(w_memory).(process_memory_used).[q] = Some true).
Proof.
  induction n as [|n IH]; intros c w L g Hc H1 H8 Hi Hbusy; cbn [spawn_from].
  - exists 0, s, w. split; [done|]. split; [done|]. split; [by split; [|apply untouched_refl]|]. split; [|done]. split; [done|].
    intros (q & p & Hq & Hf & _). pose proof (aget_bound _ _ _ Hf) as Hb. rewrite (ma_used _ (core_arrays s w Hc)) in Hb. rewrite Hbusy in Hf by lia. done.
  - destruct (aget_in w.(w_memory).(process_memory_used) c) as [u Hu]; [rewrite (ma_used _ (core_arrays s w Hc)); lia|].
    rewrite Hu. cbn [mbind option_bind]. destruct u.
    { apply (IH (c + 1) w L g); try lia; try done. intros q Hq. destruct (decide (q = c)) as [->|]; [done|]. apply Hbusy. lia. }
    destruct (free_slot s w c Hc ltac:(lia) Hu) as (p & t & [O1 O2 O3 O4 O5 O6]). rewrite (is_slot _ _ _ O4). cbn [mbind option_bind].
    pose proof (next_free s w c t Hc ltac:(lia) O2 O3 Hbusy) as Hfree.
    destruct (load_process_ok frames s w c p parent nm image mask L g (core_ok_base _ _ _ Hc) O4 O6 Hfree Hparent Hname Hbytes Hi)
      as (b & s' & w' & E & Hb & Hyes & Hat & Hres). rewrite E. cbn [mbind option_bind]. destruct b.
    + exists c, s', w'. split; [done|]. split; [by eapply loaded_core|]. unfold spawned. rewrite (proj2 (Z.eqb_neq c 0)) by lia.
      split; [split; [done|]; exists p; split; [apply O4|by split]|]. split; [|by intros _]. split; [|lia]. intros _. exists c, p.
      split; [lia|]. split; [done|]. split; [apply O4|by apply Hyes].
    + pose proof (nl_sched _ _ _ _ _ _ (rf_state _ _ _ _ _ _ _ _ Hres)) as ->. assert (Hno : ~ acceptable w.(w_memory) L p image) by (intros Ha; by apply Hyes in Ha).
      pose proof (refused_core s w w' c p L Hc (is_small _ _ _ O4) Hres) as Hc'. pose proof (refused_untouched _ _ _ _ _ _ _ Hres) as Hut.
      assert (Hlater : forall w0 L0 q p', length L0 = length L -> c <= q -> w.(w_memory).(process_memory).[q] = Some p' -> ~ acceptable w0 L0 p' image).
      { intros w0 L0 q p' HL Hq Hp' Hacc. apply Hno. apply (later_smaller _ w0 _ L0 _ p'); [done| |done|done].
        apply (proj2 (tn_homes _ _ (co_tenants _ _ _ Hc)) c q p p'); [lia|done|apply O4|done]. }
      destruct (rf_pool _ _ _ _ _ _ _ _ Hres) as (L' & g' & Hi' & HL).
      destruct (spawn_rest n (c + 1) w' L' g' Hc' ltac:(lia) ltac:(lia) Hi') as (w2 & E2 & Hc2 & Hut2).
      { intros q p' Hq Hp' _. rewrite (ut_homes _ _ Hut) in Hp'. apply (Hlater _ _ q); [done|lia|done]. }
      exists 0, s, w2. split; [done|]. split; [done|]. split; [split; [done|by eapply untouched_trans]|]. split; [|done]. split; [done|].
      intros (q & p' & Hq & Hf & Hp' & Ha). exfalso. apply (Hlater w.(w_memory) L q p'); try done.
      destruct (decide (c <= q)); [done|]. rewrite Hbusy in Hf by lia. done.
Qed.
End slots.

(** ** The calls *)

Lemma slice_ok data b n : 0 <= b -> 0 <= n -> b + n <= Z.of_nat (length data) -> slice data b n = Some (take (Z.to_nat n) (drop (Z.to_nat b) data)).
Proof.
  intros Hb Hn Hl. unfold slice. apply mapM_Some. apply Forall2_same_length_lookup. split; [rewrite length_seqZ, length_take, length_drop; lia|].
  intros i x y Hx Hy. apply lookup_seqZ in Hx as [-> Hi]. rewrite lookup_take_Some, lookup_drop in Hy. destruct Hy as [Hy _].
  apply aget_Some. split; [lia|]. rewrite <- Hy. f_equal. lia.
Qed.

(** A file's view is its contents, and they are bytes. *)
Lemma view_ok fs id : ramfs_wf fs -> files_bytes (abs fs) -> 0 <= id ->
  exists v, ramfs_view id fs = Some v /\
    match v with
    | None => abs fs !! id = None
    | Some (data, b, n) => exists image nm, slice data b n = Some image /\ bytes_ok image /\ abs fs !! id = Some (nm, image)
    end.
Proof.
  intros Hwf Hby Hid. unfold ramfs_view. rewrite payload_of_ok by done. cbn [mbind option_bind]. eexists. split; [done|].
  destruct (files_of fs !! id) as [[n p]|] eqn:E; cbn [fmap option_fmap option_map snd]; [|by rewrite abs_lookup, E].
  pose proof (rw_payloads _ Hwf _ _ E) as Hp. pose proof (source_bytes fs p 0 p.(f_length) Hwf Hp ltac:(lia) (proj1 Hp) ltac:(lia)) as Hs.
  assert (Habs : abs fs !! id = Some (n, file_bytes fs p)) by (by rewrite abs_lookup, E).
  assert (Hsl : let '(data, b) := source_of fs p in slice data b p.(f_length) = Some (file_bytes fs p)).
  { unfold file_bytes. destruct (source_of fs p) as [data b]. destruct Hs as (H1 & H2 & _). apply slice_ok; [done|apply Hp|lia]. }
  destruct (source_of fs p) as [data b]. exists (file_bytes fs p), n. split; [done|]. split; [exact (Hby _ _ Habs)|done].
Qed.

(** The file a path names. *)
Definition program_at (fs : ramfs) (l : list Z) (n : Z) (image : list Z) : Prop :=
  n <> 0 /\ exists nm id, path (Some l) n = Some nm /\ abs fs !! id = Some (nm, image).

Lemma named_once fs i j n v w : ramfs_wf fs -> abs fs !! i = Some (n, v) -> abs fs !! j = Some (n, w) -> v = w.
Proof.
  intros Hwf Hi Hj. assert (i = j) as ->; [|congruence].
  apply (tw_unique _ _ _ (rw_table _ Hwf) i j n); apply abs_named; by eexists.
Qed.

Lemma name_spawned_ok : readable_name name_spawned. Proof. left. vm_compute. set_solver. Qed.
Lemma name_game_ok : readable_name name_game. Proof. left. vm_compute. set_solver. Qed.

Section calls.
Context (frames : list Z).

(** The outcome of spawning the program at a path: [pid] is the first free slot and runs
    the program, or it is 0 and only the contents of free slots have changed. *)
Definition path_spawned (parent : Z) (l : list Z) (n mask : Z) (s : sched) (m : machine) (pid : Z) (s' : sched) (w' : subsystems) : Prop :=
  if pid =? 0 then s' = s /\ untouched m.(m_sub) w'
  else exists image p, program_at m.(m_fs) l n image /\ 3 <= pid < 8 /\ m.(m_sub).(w_memory).(process_memory).[pid] = Some p /\
    (forall q, 1 <= q <= pid -> m.(m_sub).(w_memory).(process_memory_used).[q] = Some (bool_decide (q < pid))) /\
    loaded_process s s' m.(m_sub) w' pid p parent image mask.

Lemma spawn_path_exact parent l n nm mask s m L g : system_ok frames s m -> 0 <= parent < 8 -> readable_name nm -> Z.of_nat (length l) = n ->
  frames_inv frames m.(m_sub).(w_memory) L g ->
  exists pid s' m', userspace_spawn_path true parent (Some l) n nm mask s m = Some (pid, s', m') /\ system_ok frames s' m' /\
    abs m'.(m_fs) = abs m.(m_fs) /\ path_spawned parent l n mask s m pid s' m'.(m_sub) /\
    (pid <> 0 <-> exists image, program_at m.(m_fs) l n image /\ spawnable image m.(m_sub) L).
Proof.
  intros [Hc Hf Hbo Hby] Hpar Hn Hl Hi. unfold userspace_spawn_path. cbn [negb orb].
  assert (Hno : path_spawned parent l n mask s m 0 s m.(m_sub)) by (split; [done|apply untouched_refl]).
  destruct (Z.eqb_spec n 0) as [->|Hn0]; [exists 0, s, m; do 4 (split; [done|]); split; [done|by intros (? & [? _] & _)]|].
  destruct (ramfs_open_ok m.(m_fs) (Some l) n false Hf) as (id & fs & -> & Hwf & Ho); [split; lia|]. cbn [mbind option_bind].
  assert (Hab : abs fs = abs m.(m_fs)).
  { unfold open_spec, opened in Ho. destruct (path (Some l) n); [|by apply Ho]. destruct id; [|by apply Ho]. by destruct Ho as [[_ ?]|[? _]]. }
  assert (Hby' : files_bytes (abs fs)) by by rewrite Hab.
  destruct id as [id|].
  2: { exists 0, s, (set_fs fs m). do 4 (split; [done|]). split; [done|]. intros (image & (_ & nm0 & id & Hp & Hid) & _). exfalso.
       unfold open_spec, opened in Ho. rewrite Hp in Ho. destruct Ho as (_ & Ha & _). apply (Ha id). by eexists. }
  destruct (view_ok fs id Hwf Hby' (open_id _ _ _ _ _ Hf Ho)) as (v & E & Hv). cbn [m_fs m_sub set_fs]. rewrite E. cbn [mbind option_bind].
  assert (exists nm0, path (Some l) n = Some nm0 /\ exists c, abs m.(m_fs) !! id = Some (nm0, c)) as (nm0 & Hp & c & Hid).
  { unfold open_spec, opened in Ho. destruct (path (Some l) n) as [nm0|]; [|by destruct Ho]. exists nm0. split; [done|].
    by destruct Ho as [[? _]|[? _]]. }
  rewrite Hab, Hid in Hv. destruct v as [[[data b] sz]|]; [|done]. destruct Hv as (image & nm' & -> & Hb & [= <- <-]). cbn [mbind option_bind].
  assert (Hat : program_at m.(m_fs) l n c) by (split; [done|]; by exists nm0, id).
  destruct (spawn_search frames parent nm c mask s Hpar Hn Hb 7 1 m.(m_sub) L g Hc ltac:(lia) ltac:(lia) Hi ltac:(lia)) as (pid & s' & w' & -> & Hc' & Hsp & Hyes & Hfst).
  cbn [mbind option_bind]. exists pid, s', (set_sub w' (set_fs fs m)). split; [done|]. split; [by split|]. split; [exact Hab|]. split; [|].
  - unfold path_spawned. unfold spawned in Hsp. cbn [m_sub set_sub]. destruct (Z.eqb_spec pid 0) as [->|Hne]; [done|].
    destruct Hsp as (Hpid & p & Hp1 & Hp2 & Hld). exists c, p. do 3 (split; [done|]). split; [|done]. intros q Hq.
    destruct (decide (q = pid)) as [->|]; [by rewrite bool_decide_false by lia|]. rewrite bool_decide_true by lia. apply Hfst; [done|lia].
  - rewrite Hyes. split; [intros Hs; by exists c|]. intros (image' & (_ & nm1 & id1 & Hp1 & Hid1) & Hs).
    rewrite Hp in Hp1. injection Hp1 as <-. by rewrite <- (named_once _ _ _ _ _ _ Hf Hid1 Hid).
Qed.

Context (frame : Z) (f : interrupt_frame) (Hwords : words_ok f).
Notation ready := (CallRules.ready frames frame).
Notation safe := (CallRules.safe frames f).

Lemma spawn_path_ok l n nm mask s m : ready s m -> readable_name nm -> Z.of_nat (length l) = n ->
  exists pid s' m', userspace_spawn_path true s.(current_pid) (Some l) n nm mask s m = Some (pid, s', m') /\ ready s' m' /\ 0 <= pid.
Proof.
  intros Hr Hn Hl. destruct (ready_memory _ _ s m Hr) as (ar & L & g & Hm). pose proof (ready_pid _ _ _ _ Hr) as Hp.
  destruct (spawn_path_exact s.(current_pid) l n nm mask s m L g (rd_ok _ _ _ _ Hr) ltac:(lia) Hn Hl (mo_frames _ _ _ _ _ _ _ Hm))
    as (pid & s' & m' & E & Hok & _ & Hsp & _).
  exists pid, s', m'. split; [done|]. unfold path_spawned in Hsp. destruct Hr as [_ Hcur Hf]. destruct (Z.eqb_spec pid 0) as [->|Hne].
  - destruct Hsp as [-> _]. split; [by split|lia].
  - destruct Hsp as (image & p & _ & Hpid & _ & _ & [(en & [_ Hfr Ecur _ _ _ _] & _) _ _ _]). split; [|lia]. split; [done|by rewrite Ecur|].
    rewrite Hfr. by apply frames_insert_grow.
Qed.

Lemma sys_spawn_safe : safe_handler frames frame f (sys_spawn true).
Proof.
  intros s m Hr Hf. unfold sys_spawn. rewrite Hf. cbn [mbind option_bind]. pose proof (wd_rsi _ Hwords) as Hw.
  eapply safe_readable; [done|intros Hg|]; cbn [negb orb]; [|by apply safe_ret]. destruct (_ || _); [by apply safe_ret|].
  eapply safe_fetch; [done|apply Hw|done|by left|]. intros l Hl.
  destruct (spawn_path_ok l f.(rsi) name_spawned (u32 f.(rdx)) s m Hr name_spawned_ok Hl) as (pid & s' & m' & -> & Hr' & _).
  cbn [mbind option_bind]. by apply safe_ret.
Qed.

(** The launching process drops its waits. *)
Lemma cancel_all_ready s m : ready s m -> ready s (set_sub (w_input_cancel s.(current_pid) (w_ipc_cancel s.(current_pid) m.(m_sub))) m).
Proof.
  intros Hr. pose proof (ready_kernel _ _ _ _ Hr) as Hk. pose proof (ready_pid _ _ _ _ Hr) as Hp.
  apply (ready_message frames frame s m s); [done| |apply woken_refl|apply homes_refl|apply opened_refl|].
  - exact (input_cancel_ok (W := subsystems) s.(current_pid) _ (ipc_cancel_ok s.(current_pid) _ Hk)).
  - pose proof (co_roles _ _ _ (so_core _ _ _ (rd_ok _ _ _ _ Hr))) as Hro. apply awaited_same; [done|]. intros q k Hq.
    apply input_cancel_registered in Hq as [Hq _]. by apply ipc_cancel_registered in Hq as [Hq _]; [|apply Hro].
Qed.

Lemma sys_launch_safe : safe_handler frames frame f (sys_launch true).
Proof.
  intros s m Hr Hf. unfold sys_launch. rewrite Hf. cbn [mbind option_bind]. pose proof (wd_rsi _ Hwords) as Hw.
  eapply safe_readable; [done|intros Hg|]; cbn [negb orb]; [|by apply safe_ret]. destruct (_ || _); [by apply safe_ret|].
  cbv zeta. pose proof (cancel_all_ready s m Hr) as Hr1. set (m1 := set_sub _ m) in *.
  eapply safe_fetch; [exact Hr1|apply Hw|exact Hg|by left|]. intros l Hl.
  destruct (spawn_path_ok l f.(rsi) name_game (u32 f.(rdx)) s m1 Hr1 name_game_ok Hl) as (pid & s' & m' & -> & Hr' & Hpid).
  cbn [mbind option_bind]. destruct (pid =? 0); [by apply safe_ret|].
  destruct (wait_core frames s' m'.(m_sub) frame pid (so_core _ _ _ (rd_ok _ _ _ _ Hr')) (rd_caller _ _ _ _ Hr') Hpid (rd_frame _ _ _ _ Hr')) as (fr & s2 & w2 & -> & Hc).
  cbn [mbind option_bind]. eapply safe_some, with_core; [exact Hr'|exact Hc].
Qed.

(** Every modelled call, the spawning ones included. *)
Lemma system_call_safe e number h : length e.(padding) = 4%nat -> system_call true e number = Some h -> safe_handler frames frame f h.
Proof.
  intros Hpad. unfold system_call. destruct (_ =? 11); [intros [= <-]; apply sys_spawn_safe|].
  destruct (_ =? 50); [intros [= <-]; apply sys_launch_safe|]. destruct (bool_decide _); [done|].
  destruct (handler e number) as [h'|] eqn:E; intros [= <-]; [by eapply handler_safe|]. by apply sys_constant_safe.
Qed.
End calls.
