(* ===== verification/SystemRun.v ===== *)
(** The running system: processes making system calls and storing in their memory, the
    timer, input devices and the scheduler's start, in any order. Every subsystem keeps
    its invariant; the run is followed until a process stores outside its memory or calls
    a driver, and the kernel stops only by a page fault on a pointer into the region
    where surfaces are mapped. *)

From stdpp Require Import gmap.
From S2P Require Import Prelude LittleEndian BoundedTable Ramfs RamfsSpec Surface SurfaceSpec Capability CapabilitySpec.
From S2P Require Import Input InputSpec Ipc IpcSpec PhysicalMemory UserMemory UserMemorySpec FrameOwnership FrameInvariant MemoryInvariant SurfaceMapping UserAccess.
From S2P Require Import Scheduler SchedulerSpec Kernel KernelSpec ProcessExit NewHandles KernelMemory WaitRoles SystemInvariant Syscalls SyscallsSpec CallRules SystemSafety Spawn SpawnCalls SpawnTheorems SpawnSafety.

(** ** Events *)

(** A process traps with the registers [f], or stores the bytes [l] at [a]; the timer
    interrupts it or the idle loop; a device publishes an event; the idle loop gives the
    CPU to the processes. *)
Inductive event :=
| Trap (f : interrupt_frame) | Store (a : Z) (l : list Z) | Timer (f : interrupt_frame) | Device (ev : input_event) | Start.

(** Entering the kernel pushes the registers on the process's kernel stack. *)
Definition trap_address (s : sched) : Z := s.(rsp0) - FRAME_BYTES.
Definition pushed (f : interrupt_frame) (s : sched) : sched := set_frames (<[trap_address s := f]> s.(Scheduler.frames)) s.
Definition in_user (s : sched) : bool := negb (s.(current_pid) =? 0).

(** The run goes on; the kernel faults in a call; it enters a driver; a process stores
    where it may not; the model has no next state. *)
Inductive outcome :=
| Runs (s : sched) (m : machine) | Faults (f : interrupt_frame) | Drives (f : interrupt_frame)
| Escapes (s : sched) (m : machine) (a : Z) (l : list Z) | Stuck.

Definition on_sub {A} (m : machine) (x : option (A * sched * subsystems)) : outcome :=
  match x with Some (_, s, w) => Runs s (set_sub w m) | None => Stuck end.

(** Bytes stored by user code: the walk must grant user code the write. *)
Fixpoint user_store (cr3 a : Z) (l : list Z) (pg : phys) : option phys :=
  match l with
  | [] => Some pg
  | v :: l =>
      '(pa, r) ← translate pg cr3 a;
      if negb (Z.land r USER_WRITE =? USER_WRITE) then None else
      pg ← store_byte pg pa v; user_store cr3 (a + 1) l pg
  end.
(** A store in the code, heap, stack and anonymous memory of the running process. *)
Definition process_store (a : Z) (l : list Z) (s : sched) (m : machine) : option machine :=
  ok ← user_write_range s.(current_pid) a (Z.of_nat (length l)) m.(m_sub).(w_memory);
  if negb ok then None else
  pg ← user_store s.(cr3) a l m.(m_sub).(w_memory).(UserMemory.pages);
  Some (set_user (set_pages pg m.(m_sub).(w_memory)) m).

(** What an event does in the environment [e]; no process traps or stores while none
    runs. *)
Definition system_step (e : environment) (ev : event) (s : sched) (m : machine) : outcome :=
  match ev with
  | Trap f =>
      if negb (in_user s) then Runs s m else
      match system_call true e f.(rax) with
      | Some h => match h (trap_address s) (pushed f s) m with Some (_, s, m) => Runs s m | None => Faults f end
      | None => Drives f
      end
  | Store a l =>
      if negb (in_user s) then Runs s m else
      match process_store a l s m with Some m => Runs s m | None => Escapes s m a l end
  | Timer f => on_sub m (if in_user s then scheduler_on_timer_tick (trap_address s) (pushed f s) m.(m_sub)
                         else scheduler_on_timer_tick 0 s m.(m_sub))
  | Device ev => on_sub m (input_publish e.(padding) (Some ev) s m.(m_sub))
  | Start => match scheduler_start_users s with Some (_, s) => Runs s m | None => Stuck end
  end.

Fixpoint system_run (evs : list (environment * event)) (s : sched) (m : machine) : outcome :=
  match evs with
  | [] => Runs s m
  | (e, ev) :: evs => match system_step e ev s m with Runs s m => system_run evs s m | o => o end
  end.

(** Registers hold 64-bit words, and the compiler pads the structures it copies to user
    code with four bytes. *)
Definition event_ok (x : environment * event) : Prop :=
  length x.1.(padding) = 4%nat /\ match x.2 with Trap f => words_ok f | _ => True end.

Section run.
Context (frames : list Z).

(** What a run of the events [evs] can end in. *)
Definition fine (evs : list event) (o : outcome) : Prop :=
  match o with
  | Runs s m => system_ok frames s m
  | Faults f => Trap f ∈ evs /\ surface_pointer f
  | Drives f => Trap f ∈ evs /\ f.(rax) ∈ driver_calls
  | Escapes s m a l => Store a l ∈ evs /\ system_ok frames s m /\ process_store a l s m = None
  | Stuck => False
  end.

(** ** The devices *)

Section device.
Context (e : environment) (Hpad : length e.(padding) = 4%nat).

Lemma rel_fields i i' q : queue i' = queue i -> read_index i' = read_index i -> write_index i' = write_index i -> input_rel i q -> input_rel i' q.
Proof. intros E1 E2 E3 [H1 H2 H3]. split; [by rewrite E1, E2|by rewrite E3, E2|done]. Qed.

(** The event goes to the waiting process. *)
Definition deliver_event (ev : input_event) (s : sched) (w : subsystems) : option (bool * sched * subsystems) :=
  let wt := w.(w_input).(Input.waiter) in
  let w := set_input (Input.set_waiter (IWaiter wt.(iw_pid) wt.(iw_address) false) w.(w_input)) w in
  let w := w_ipc_cancel wt.(iw_pid) w in
  '(ok, m) ← userspace_copy_to s.(current_pid) wt.(iw_pid) wt.(iw_address) (Some (event_bytes e.(padding) ev)) EVENT_BYTES w.(w_memory);
  let w := set_memory m w in
  if negb ok then Some (false, s, w) else
  '(ok, s) ← scheduler_wake wt.(iw_pid) 2 EVENT_BYTES s;
  if negb ok then Some (false, s, w) else Some (true, s, set_input (count_input 0 1 0 w.(w_input)) w).

Lemma deliver_event_ok ev s w : kernel_ok frames w -> sched_wf s -> w.(w_input).(Input.waiter).(iw_active) = true ->
  exists b s' w', deliver_event ev s w = Some (b, s', w') /\ kernel_ok frames w' /\ woken s s' /\
    homes_kept w.(w_memory) w'.(w_memory) /\ w'.(w_caps) = w.(w_caps).
Proof.
  intros Hk Hs Ha. pose proof (waiter_accepted _ _ Hk Ha) as Hacc. pose proof (sw_input _ (ko_subsystems _ _ Hk)) as Hp.
  unfold deliver_event. set (wt := w.(w_input).(Input.waiter)) in *. set (w1 := set_input _ w).
  assert (kernel_ok frames w1) as Hk1.
  { apply input_ok; [done| |done|done]. destruct (ko_input _ _ Hk) as [q Hq]. exists q. by eapply rel_fields; [..|exact Hq]. }
  destruct (message_ok frames (KCancel wt.(iw_pid)) s w1 Hk1 (wf_core _ Hs) Hp I) as (s2 & w2 & E & Hk2 & _). injection E as <- <-.
  set (w2 := w_ipc_cancel _ w1) in *. change (w_memory w) with (w_memory w2) in Hacc |- *. change (w_caps w) with (w_caps w2).
  destruct (ko_memory _ _ Hk2) as (ar & L & g & Hm). pose proof (core_cur _ (wf_core _ Hs)) as Hcur.
  destruct (copy_to_ok (not_data w2.(w_memory) g) s.(current_pid) wt.(iw_pid) wt.(iw_address) (event_bytes e.(padding) ev) EVENT_BYTES w2.(w_memory)
    (sw_memory _ (ko_subsystems _ _ Hk2)) Hp ltac:(lia)) as (ok & u & -> & Hd & _).
  { rewrite (event_length _ Hpad). unfold EVENT_BYTES. lia. }
  { intros Hb Hu _. apply (accepted_ready frames _ L g); [apply Hm|done..]. }
  cbn [mbind option_bind]. pose proof (data_ok _ _ _ _ _ _ Hk2 Hm Hd) as Hk3. pose proof (homes_moved _ _ _ Hd) as Hh. clearbody w2.
  destruct ok; cbn [negb]; [|eexists _, _, _; split_and!; try done; apply woken_refl].
  destruct (scheduler_wake_woken s wt.(iw_pid) 2 EVENT_BYTES (wf_core _ Hs) Hp) as (b & s' & -> & Hw). cbn [mbind option_bind].
  destruct b; cbn [negb]; (eexists _, _, _; split; [done|]; split; [|done]); [|done].
  apply input_ok; [done| |apply (ko_subsystems _ _ Hk3)|by apply (waiter_accepted frames)].
  destruct (ko_input _ _ Hk3) as [q Hq]. exists q. by eapply rel_fields; [..|exact Hq].
Qed.

Lemma publish_core ev s w : core_ok frames s w ->
  exists b s' w', input_publish e.(padding) (Some ev) s w = Some (b, s', w') /\ core_ok frames s' w'.
Proof.
  intros Hc. pose proof Hc as [H1 H2 H3 H4 H5 H6 H7].
  assert (exists b s' w', input_publish e.(padding) (Some ev) s w = Some (b, s', w') /\ kernel_ok frames w' /\ woken s s' /\
    homes_kept w.(w_memory) w'.(w_memory) /\ w'.(w_caps) = w.(w_caps)) as (b & s' & w' & E & Hk & Hwk & Hh & Ec).
  { unfold input_publish. destruct (_ || _); [by exists false, s, w; split_and!; try done; apply woken_refl|].
    assert (exists b s' w', (if w.(w_input).(Input.waiter).(iw_active) then deliver_event ev s w else Some (false, s, w)) = Some (b, s', w') /\
      kernel_ok frames w' /\ woken s s' /\ homes_kept w.(w_memory) w'.(w_memory) /\ w'.(w_caps) = w.(w_caps)) as (b & s' & w' & E & Hk & Hwk & Hh & Ec).
    { destruct (iw_active _) eqn:Ea; [by apply deliver_event_ok|]. exists false, s, w. split_and!; try done. apply woken_refl. }
    unfold deliver_event in E. cbv zeta in E |- *. rewrite E. cbn [mbind option_bind]. destruct b; [by exists true, s', w'|].
    destruct (ko_input _ _ Hk) as [q Hq]. destruct (enqueue_refines _ _ ev Hq) as (i & Ei & Hq'). rewrite Ei. cbn [mbind option_bind].
    pose proof (enqueue_waiter _ _ _ _ Ei) as Ew. eexists _, s', _. split; [done|]. split; [|done].
    apply input_ok; [done|by eexists|rewrite Ew; apply (ko_subsystems _ _ Hk)|rewrite Ew; by apply (waiter_accepted frames)]. }
  exists b, s', w'. split; [done|]. eapply core_step; [exact Hc|by eapply woken_wf|done|by eapply publish_awaited|done|].
  rewrite Ec. apply opened_refl.
Qed.

End device.

(** ** Steps *)

Lemma pushed_core f s w : core_ok frames s w -> core_ok frames (pushed f s) w.
Proof.
  intros Hc. eapply core_carried; [exact Hc| |apply carried_frames]. destruct (co_sched _ _ _ Hc) as [W1 W2 W3].
  split; [|done|done]. apply core_frames_grow; [done|]. intros a. apply frames_insert_grow.
Qed.
Lemma pushed_frame f s : (pushed f s).(Scheduler.frames) !! trap_address s = Some f.
Proof. apply lookup_insert_eq. Qed.

Lemma in_user_caller s : sched_wf s -> in_user s = true -> 1 <= s.(current_pid).
Proof. intros Hs H. unfold in_user in H. apply negb_true_iff, Z.eqb_neq in H. pose proof (core_cur _ (wf_core _ Hs)). lia. Qed.

Lemma start_core s w : core_ok frames s w -> exists f s', scheduler_start_users s = Some (f, s') /\ core_ok frames s' w.
Proof.
  intros Hc. destruct (scheduler_start_users_ok s (co_sched _ _ _ Hc)) as (f & s' & E & Hs & _). exists f, s'. split; [done|].
  eapply core_carried; [exact Hc|exact Hs|]. unfold scheduler_start_users in E. destruct (_ || _); [injection E as _ <-; apply carried_refl|].
  peel E. destruct (_ =? 0) eqn:Ez; [injection E as _ <-; apply carried_refl|]. peel E. apply Z.eqb_neq in Ez.
  destruct (update_inv _ _ _ _ Hv0) as (t0 & Ht0 & Es). pose proof (core_idle _ (wf_core _ (co_sched _ _ _ Hc)) _ Ht0) as Hi.
  eapply carried_trans; [|eapply carried_trans; [apply carried_users|apply (carried_dispatch nobody _ _ _ _ E)]].
  - apply (carried_update _ _ _ _ _ Hv0). intros t Ht. rewrite Ht0 in Ht. injection Ht as <-. split; [|apply lease_state; [done|done|by destruct Hi as [-> | ->]|done]].
    right. intros k [?|[? _]]; destruct Hi; congruence.
  - intros t. cbn [set_users tasks]. rewrite Es. cbn [set_tasks tasks]. rewrite aget_insert by (by eapply aget_bound).
    rewrite decide_False by done. by apply (next_ready_inv _ _ _ Hv).
Qed.

(** *** Stores of user code *)

Lemma user_store_write cr3 l : forall a pg pg', user_store cr3 a l pg = Some pg' -> write_chunk cr3 a l pg = Some pg'.
Proof.
  induction l as [|v l IH]; intros a pg pg' H; cbn [user_store write_chunk] in *; [done|]. unfold store_user.
  destruct (translate pg cr3 a) as [[pa r]|]; [|done]. cbn [mbind option_bind] in *. destruct (negb _); [done|].
  destruct (store_byte pg pa v) as [pg1|]; [|done]. by apply IH.
Qed.

Lemma process_store_ok a l s m m' : system_ok frames s m -> in_user s = true -> process_store a l s m = Some m' -> system_ok frames s m'.
Proof.
  intros [Hc H2 H3 H6] Hu H. pose proof (co_kernel _ _ _ Hc) as Hk. pose proof (in_user_caller s (co_sched _ _ _ Hc) Hu) as Hcur.
  destruct (core_caller frames s m.(m_sub) Hc Hcur) as (t & p & Hcl). destruct (core_users frames s m.(m_sub) Hc Hcur) as [_ Hb].
  unfold process_store in H. destruct (user_write_range _ _ _ _) as [ok|] eqn:Hw; [|done]. cbn [mbind option_bind] in H. destruct ok; [|done]. cbn [negb] in H.
  destruct (user_store _ _ _ _) as [pg|] eqn:Es; [|done]. injection H as <-. apply user_store_write in Es.
  destruct (ko_memory _ _ Hk) as (ar & L & g & Hm).
  assert (buffer (not_data m.(m_sub).(w_memory) g) m.(m_sub).(w_memory).(UserMemory.pages) s.(cr3) a (Z.of_nat (length l))) as Hbuf.
  { rewrite (cl_space _ _ _ _ Hcl). assert (accepted m.(m_sub).(w_memory) s.(current_pid) a (Z.of_nat (length l))) as Ha by (intros _ _; exact Hw).
    apply (accepted_ready _ _ _ _ _ _ _ (mo_frames _ _ _ _ _ _ _ Hm) Ha Hb); apply Hcl. }
  destruct (write_chunk_ok _ _ _ _ _ Hbuf) as (pg' & E & [Hd _ _ _]). rewrite Es in E. injection E as <-.
  assert (data_moved (not_data m.(m_sub).(w_memory) g) m.(m_sub).(w_memory) (set_pages pg m.(m_sub).(w_memory))) as Hmv by by exists pg.
  split; [|done..]. eapply core_step; [exact Hc|apply Hc|by eapply data_ok| |by eapply homes_moved|apply opened_refl].
  apply awaited_same; [apply Hc|done].
Qed.

Lemma step_fine e ev s m : system_ok frames s m -> event_ok (e, ev) -> fine [ev] (system_step e ev s m).
Proof.
  intros Hok [Hpad Hev]. cbn [fst snd] in *. pose proof Hok as [Hc H2 H3 H6]. pose proof (co_sched _ _ _ Hc) as Hs. destruct ev as [f|a l|f|ev|]; cbn [system_step] in *.
  - destruct (in_user s) eqn:Eu; [|done]. cbn [negb]. destruct (system_call true e f.(rax)) as [h|] eqn:Eh.
    + pose proof (system_call_safe frames (trap_address s) f Hev e _ h Hpad Eh (pushed f s) m) as Hsafe.
      assert (ready frames (trap_address s) (pushed f s) m) as Hr.
      { split; [split; [by apply pushed_core|done..]|exact (in_user_caller s Hs Eu)|rewrite pushed_frame; by eexists]. }
      specialize (Hsafe Hr (pushed_frame f s)). revert Hsafe. destruct (h _ _ _) as [[[fr s'] m']|]; intros Hsafe; [exact Hsafe|].
      split; [by left|exact Hsafe].
    + split; [by left|]. unfold system_call in Eh. destruct (_ =? 11); [done|]. destruct (_ =? 50); [done|].
      destruct (bool_decide _) eqn:Ed; [by apply bool_decide_eq_true in Ed|]. by destruct (handler e f.(rax)).
  - destruct (in_user s) eqn:Eu; [|done]. cbn [negb]. destruct (process_store a l s m) as [m'|] eqn:Es; [|split; [by left|done]].
    by eapply process_store_ok.
  - destruct (in_user s) eqn:Eu.
    + destruct (tick_core frames (pushed f s) m.(m_sub) (trap_address s)) as (fr & s' & w' & -> & Hc'); [by apply pushed_core|rewrite pushed_frame; by eexists|]. by split.
    + destruct (tick_core frames s m.(m_sub) 0 Hc) as (fr & s' & w' & -> & Hc'); [|by split].
      rewrite (wf_users _ Hs). unfold in_user in Eu. by rewrite Eu.
  - destruct (publish_core e Hpad ev s m.(m_sub) Hc) as (b & s' & w' & -> & Hc'). by split.
  - destruct (start_core s m.(m_sub) Hc) as (f & s' & -> & Hc'). by split.
Qed.

Lemma fine_mono evs evs' o : evs ⊆ evs' -> fine evs o -> fine evs' o.
Proof. intros H. destruct o; cbn; try done; intros [Hin Hx]; (split; [by apply H|done]). Qed.

Lemma run_fine evs : forall s m, system_ok frames s m -> Forall event_ok evs -> fine evs.*2 (system_run evs s m).
Proof.
  induction evs as [|[e ev] evs IH]; intros s m Hok Hev; cbn [system_run]; [done|]. apply list.Forall_cons in Hev as [Hev Hevs].
  pose proof (step_fine e ev s m Hok Hev) as Hstep. change ((e, ev) :: evs).*2 with (ev :: evs.*2).
  apply (fine_mono [ev] (ev :: evs.*2)) in Hstep; [|set_solver].
  destruct (system_step e ev s m) as [s' m'| | | |]; [|done..]. eapply fine_mono; [|by apply IH]. set_solver.
Qed.
End run.
