(* ===== verification/SystemBoot.v ===== *)
(** The system right after boot, before its first process. *)

From stdpp Require Import gmap.
From S2P Require Import Prelude LittleEndian Ramfs RamfsSpec RamfsTheorems Surface SurfaceSpec Capability CapabilitySpec Input InputSpec Ipc IpcSpec.
From S2P Require Import PhysicalMemory UserMemory UserMemorySpec FramePool Paging FrameOwnership FrameInvariant PagingSpec MemoryInvariant SurfaceMapping MemoryTheorems BootMemory.
From S2P Require Import Scheduler SchedulerSpec Kernel KernelSpec KernelMemory WaitRoles SystemInvariant KernelTheorems Syscalls SyscallsSpec CallRules SystemSafety SystemRun.

(** ** The booted system *)

Definition empty_queue : input_state := input_init (Input (replicate 128 no_event) 0 0 0 0 0 (IWaiter 0 0 false)).
(** The subsystems as their [_init] functions leave them; [n] pixels of surfaces. *)
Definition booted_machine (n : nat) (ps : list userspace_memory) (a : frame_allocator) (pg : phys) (fs : ramfs) : machine :=
  Machine (Subsystems capabilities_init (fresh n) no_channels empty_queue (userspace_init_memory ps a pg))
    (ramfs_init fs) (replicate (Z.to_nat STORAGE_BOUNCE_BYTES) 0) 0 [] [] (Compositor 0 0 0).

Lemma nobody_registered n ps a pg q k : ~ registered (Subsystems capabilities_init (fresh n) no_channels empty_queue (userspace_init_memory ps a pg)) q k.
Proof.
  intros [(i & c & Hc & Ha & _)|(Ha & _)]; [|done]. cbn [w_ipc] in Hc.
  assert (Forall (fun c => c.(Ipc.active) = false) no_channels.(channels)) as H by (apply (bool_decide_unpack _); vm_compute; exact I).
  apply aget_Some in Hc as [_ Hc]. pose proof (Forall_lookup_1 _ _ _ _ H Hc) as H1. cbn in H1. congruence.
Qed.

Lemma empty_queue_rel : exists q, input_rel empty_queue q.
Proof. exists []. split; [split|..]; done. Qed.

Lemma booted_kernel n ps a pg fs : slots_ready ps a pg -> Z.of_nat n < 4294967296 ->
  kernel_ok (avail a) (booted_machine n ps a pg fs).(m_sub).
Proof.
  intros Hr Hn. pose proof (fresh_mem ps a pg n Hr Hn) as Hm. split.
  - split; cbn [w_caps w_ipc w_memory w_input m_sub booted_machine]; [apply capabilities_init_wf|apply no_channels_wf| |apply Hm|done].
    intros p h g Hg. by apply nothing_held in Hg.
  - by eexists _, _, _.
  - split; [|done]. intros i c Hc Ha Hw. exfalso.
    apply (nobody_registered n ps a pg c.(Ipc.waiter).(w_pid) (if c.(Ipc.waiter).(w_multiplex) then Selects i else Receives i)).
    left. exists i, c. split; [exact Hc|]. split; [exact Ha|]. by left.
  - apply empty_queue_rel.
Qed.

Lemma init_idle space s0 s : scheduler_init space s0 = Some s ->
  s.(initialized) = true /\ s.(cr3) = s0.(cr3) /\ s.(current_pid) = 0 /\
  forall q t, s.(tasks).[q] = Some t -> 1 <= q -> t.(state) = UNUSED.
Proof.
  unfold scheduler_init. set (nm := copy_name _ _ _ _). vm_compute in nm. subst nm. cbn [mbind option_bind]. intros [= <-].
  split_and!; [done..|]. intros q t Ht Hq. cbn [tasks] in Ht. apply aget_Some in Ht as [_ Ht].
  rewrite lookup_cons_ne_0 in Ht by lia. match type of Ht with ?l0 !! _ = _ => set (l := l0) in Ht end.
  assert (Forall (fun t => t.(state) = UNUSED) l) as H by (repeat constructor). by apply (Forall_lookup_1 _ _ _ _ H) in Ht.
Qed.

(** Tasks and slots correspond as they do while the system starts. *)
Lemma booted_base n ps a pg fs space s0 s :
  slots_ready ps a pg -> Z.of_nat n < 4294967296 ->
  scheduler_init space s0 = Some s -> s0.(cr3) = space -> core_base (avail a) s (booted_machine n ps a pg fs).(m_sub).
Proof.
  intros Hr Hn Hs Hcr. destruct (init_idle _ _ _ Hs) as (Hi & Ecr & Ecur & Hu).
  split; [|done|by apply booted_kernel| | | |].
  - destruct (scheduler_init_wf space s0) as (s1 & E & H). rewrite Hs in E. by injection E as <-.
  - split; [intros q k Hq|intros q k k' Hq]; by apply nobody_registered in Hq.
  - intros t Ht _. rewrite Ecr. unfold scheduler_init in Hs. peel Hs. injection Hs as <-. cbn [tasks current_pid] in Ht. by injection Ht as <-.
  - intros q t Ht Hq Hne. by apply Hu in Ht.
  - intros p h g Hg. by apply nothing_held in Hg.
Qed.

(** Once tasks and slots agree, the whole system does. *)
Lemma booted_system n ps a pg fs s w :
  Z.of_nat (length fs.(storage)) = kRamfsStorageMax -> core_ok (avail a) s w -> system_ok (avail a) s (set_sub w (booted_machine n ps a pg fs)).
Proof.
  intros Hfs Hc. split; [done|by apply ramfs_init_wf| |].
  - cbn [storage_bounce booted_machine set_sub]. by rewrite length_replicate.
  - cbn [m_fs booted_machine set_sub]. intros id v Hv. destruct (ramfs_init_wf _ Hfs) as [_ E]. by rewrite E, lookup_empty in Hv.
Qed.
