(* ===== verification/SpawnBoot.v ===== *)
(** The processes after boot: [userspace_init] starts the first two, and what spawning
    promises. *)

From stdpp Require Import gmap.
From S2P Require Import Prelude LittleEndian Ramfs RamfsSpec RamfsTheorems Surface SurfaceSpec Capability CapabilitySpec Input InputSpec Ipc IpcSpec Elf64 Elf64Spec.
From S2P Require Import PhysicalMemory UserMemory UserMemorySpec FramePool Paging FrameOwnership AddressSpace FrameInvariant PagingSpec MemoryInvariant SurfaceMapping UserAccess MemoryTheorems BootMemory.
From S2P Require Import Scheduler SchedulerSpec Kernel KernelSpec NewHandles KernelMemory WaitRoles SystemInvariant KernelTheorems Syscalls SyscallsSpec CallRules SystemSafety SystemBoot.
From S2P Require Import Spawn FrameBytes SpawnSpec LargeCodeSpec SpawnTheorems SpawnSafety.

(** ** The slots of the boot code *)

Lemma run_get f n i : 0 <= i < Z.of_nat n -> (run f n).[i] = Some (f + 4096 * i).
Proof.
  revert f i. induction n as [|n IH]; intros f i Hi; [lia|]. cbn [run]. apply aget_Some. split; [lia|].
  destruct (decide (i = 0)) as [->|Hne]; [by rewrite Z.mul_0_r, Z.add_0_r|]. rewrite lookup_cons_ne_0 by lia.
  specialize (IH (f + 4096) (i - 1) ltac:(lia)). apply aget_Some in IH as [_ IH]. replace (pred (Z.to_nat i)) with (Z.to_nat (i - 1)) by lia.
  rewrite IH. f_equal. lia.
Qed.

Lemma run_contiguous f n : 0 <= f -> f + 4096 * Z.of_nat n < 2 ^ 64 -> (1 <= n)%nat -> frames_contiguous (run f n) (Z.of_nat n) = Some true.
Proof.
  intros H0 Hf Hn. unfold frames_contiguous.
  assert (H : forall k i, 1 <= i -> i + Z.of_nat k <= Z.of_nat n -> contiguous_from k i (run f n) = Some true).
  { induction k as [|k IH]; intros i Hi Hk; cbn [contiguous_from]; [done|]. rewrite !run_get by lia. cbn [mbind option_bind].
    rewrite u64_small by (unfold is_u64; lia). rewrite (proj2 (Z.eqb_eq (f + 4096 * i) _)) by lia. cbn [negb]. apply IH; lia. }
  apply H; lia.
Qed.

Lemma run_addresses f n : 0 < f -> f mod 4096 = 0 -> f + 4096 * Z.of_nat n < 2 ^ 64 -> page_addresses (run f n).
Proof. intros H0 Ha Hf. apply list.Forall_forall. intros x (k & Hk & ->)%run_in. unfold is_u64. split; [lia|]. split; [lia|zlia]. Qed.

(** A slot as the boot code fills it in. *)
Definition boot_slot (p : userspace_memory) (n : Z) : Prop :=
  exists f, p = slot_at_frame f n /\ 0 < f /\ f mod 4096 = 0 /\ f + 4096 * Z.of_nat (SLOT_FRAMES n) < 2 ^ 64 /\ 1 <= n <= 48.

Lemma boot_slot_good p n : boot_slot p n -> good_slot p = Some true /\ slot_addresses p /\ p.(code_page_count) = n.
Proof.
  intros (f & -> & H0 & Ha & Hf & Hn). unfold SLOT_FRAMES in Hf. split; [|split; [|done]].
  - unfold good_slot. cbn [slot_at_frame code_page_count code_frames heap_frames].
    rewrite (proj2 (Z.eqb_neq n 0)), (proj2 (Z.ltb_ge USERSPACE_CODE_PAGES n)) by (unfold USERSPACE_CODE_PAGES; lia). cbn [orb].
    pose proof (run_contiguous (f + 133 * 4096) (Z.to_nat n)) as Hc. rewrite Z2Nat.id in Hc by lia. rewrite Hc by lia.
    cbn [mbind option_bind negb]. apply (run_contiguous _ 5); lia.
  - unfold slot_addresses, slot_frames. cbn [slot_at_frame code_frames heap_frames stack_frames].
    unfold page_addresses. rewrite !Forall_app. split; [|split]; apply run_addresses; (lia || zlia).
Qed.

(** The pages a slot is written through lie in its run of frames. *)
Lemma slot_places_range f n : 0 <= n -> Forall (fun x => f <= x < f + 4096 * Z.of_nat (SLOT_FRAMES n)) (slot_places (slot_at_frame f n)).
Proof.
  intros Hn. unfold SLOT_FRAMES, slot_places. cbn [slot_at_frame page_table code_frames heap_frames stack_frames].
  apply list.Forall_cons. split; [lia|]. rewrite !Forall_app. split_and!; apply list.Forall_forall; intros x (k & Hk & ->)%run_in; lia.
Qed.

Lemma slots_from_get n : forall index f i s, slots_from n index f !! i = Some s -> s.2 = slot_code_pages (index + Z.of_nat i).
Proof.
  induction n as [|n IH]; intros index f i s; cbn [slots_from]; [done|]. destruct i as [|i].
  - intros [= <-]. cbn. f_equal. lia.
  - cbn. intros H. apply IH in H. rewrite H. f_equal. lia.
Qed.

Lemma boot_slots a pid : has (slots_size 7 0) a -> 1 <= pid < 8 ->
  exists p, ((fun s => slot_at_frame s.1 s.2) <$> slots_from 7 0 a.(fa_next)).[pid - 1] = Some p /\ boot_slot p (slot_code_pages (pid - 1)) /\
    Forall (fun x => a.(fa_next) <= x < a.(fa_next) + 4096 * Z.of_nat (slots_size 7 0)) (slot_places p).
Proof.
  intros [[A1 A2 A3 A4] Hh] Hpid. set (l := slots_from 7 0 a.(fa_next)). destruct (aget_in ((fun s => slot_at_frame s.1 s.2) <$> l) (pid - 1)) as [p Hp].
  { rewrite length_fmap. change (length l) with 7%nat. lia. }
  exists p. split; [exact Hp|]. apply aget_Some in Hp as [_ Hp]. rewrite list_lookup_fmap in Hp. apply fmap_Some in Hp as (s & Hs & ->).
  pose proof (slots_from_get _ _ _ _ _ Hs) as E. rewrite Z.add_0_l, Z2Nat.id in E by lia. 
  apply list_elem_of_lookup_2 in Hs. apply slots_bounds in Hs as (B1 & B2 & q & B3). rewrite E in B2 |- *. pose proof (code_pages_range (pid - 1)).
  set (k := slots_size 7 0) in *. clearbody k. split.
  - exists s.1. split; [done|]. split; [lia|]. split; [zlia|]. split; lia.
  - pose proof (slot_places_range s.1 (slot_code_pages (pid - 1)) ltac:(lia)) as Hr. rewrite list.Forall_forall in Hr.
    apply list.Forall_forall. intros x Hx. specialize (Hr x Hx). lia.
Qed.

Lemma boot_idle ps a pg pid p n : ps.[pid - 1] = Some p -> 1 <= pid < 8 -> boot_slot p n -> idle_slot (userspace_init_memory ps a pg) pid p.
Proof.
  intros Hp Hpid Hb. split; [done| |by apply (boot_slot_good p n)| |]; cbn [process_memory process_memory_used large_code_page_table userspace_init_memory].
  - apply aget_Some in Hp as [_ Hp]. apply aget_Some. split; [lia|]. rewrite lookup_cons_ne_0 by lia. rewrite <- Hp. f_equal. lia.
  - by rewrite aget_replicate by lia.
  - by rewrite aget_replicate by lia.
Qed.

(** ** The first two processes *)

Lemma first_free_next s s' pid parent entry stack space : s.(initialized) = true ->
  (forall q t, s.(tasks).[q] = Some t -> pid <= q -> t.(state) = UNUSED) -> 1 <= pid -> pid < 7 -> length s.(tasks) = 8%nat ->
  first_free s pid -> created s s' pid parent entry stack space ->
  first_free s' (pid + 1) /\ forall q t, s'.(tasks).[q] = Some t -> pid + 1 <= q -> t.(state) = UNUSED.
Proof.
  intros Hi Hu Hp Hp7 Hlen (i & t0 & Hfind & Ei) [(nm & Ets) _ _ _ _ _ _].
  assert (Hget : forall q t, s'.(tasks).[q] = Some t -> pid + 1 <= q -> t.(state) = UNUSED).
  { intros q t Ht Hq. rewrite Ets, aget_insert in Ht by lia. rewrite decide_False in Ht by lia. by eapply (Hu q); [|lia]. }
  split; [|exact Hget]. apply list_find_Some in Hfind as (H1 & H2 & H3).
  destruct (aget_in s'.(tasks) (pid + 1)) as [t1 Ht1]; [rewrite Ets, length_insert; lia|].
  exists (S i), t1. split; [|lia]. pose proof (Hget _ _ Ht1 ltac:(lia)) as Hu1. apply list_find_Some. split; [|split; [done|]].
  - rewrite lookup_drop. apply aget_Some in Ht1 as [_ Ht1]. rewrite <- Ht1. f_equal. lia.
  - intros j t Hj Hlt Hst. rewrite lookup_drop, Ets in Hj. destruct (decide (j = i)) as [->|Hne].
    + replace (Z.to_nat pid) with (1 + i)%nat in Hj by lia. rewrite list_lookup_insert_eq in Hj by lia. by injection Hj as <-.
    + rewrite list_lookup_insert_ne in Hj by lia. rewrite <- lookup_drop in Hj. by apply (H3 j t Hj ltac:(lia)).
Qed.

Lemma init_first_free space s0 s : scheduler_init space s0 = Some s -> first_free s 1 /\ length s.(tasks) = 8%nat.
Proof.
  intros Hs. destruct (init_idle _ _ _ Hs) as (_ & _ & _ & Hu). unfold scheduler_init in Hs. peel Hs. injection Hs as <-. split; [|done].
  by exists 0%nat, (with_waiting SCHEDULER_WAIT_NONE (empty_task 1)).
Qed.

(** [pid] is about to run: its first frame enters user mode at [en] with an empty stack. *)
Definition starts_at (s : sched) (pid en : Z) : Prop :=
  exists t, s.(tasks).[pid] = Some t /\ t.(state) = READY /\ s.(Scheduler.frames) !! t.(saved_frame) = Some (start_frame pid en STACK_START).

Lemma created_starts s s' pid parent en space : 0 <= pid < Z.of_nat (length s.(tasks)) -> created s s' pid parent en STACK_START space -> starts_at s' pid en.
Proof.
  intros Hp [(nm & Ets) Hfr _ _ _ Hks _]. exists (new_task s pid parent nm space). split; [rewrite Ets, aget_insert by done; by rewrite decide_True|].
  split; [done|]. rewrite Hfr. cbn [new_task saved_frame]. by rewrite lookup_insert_eq.
Qed.
Lemma starts_later s s' pid en q parent en' space : starts_at s pid en -> q <> pid -> 0 <= pid -> 0 <= q < Z.of_nat (length s.(tasks)) ->
  (exists t, s.(tasks).[pid] = Some t /\ t.(saved_frame) = stack_top s pid - FRAME_BYTES) ->
  created s s' q parent en' STACK_START space -> starts_at s' pid en.
Proof.
  intros (t & Ht & Hr & Hf) Hne H0 Hq (t' & Ht' & Es) [(nm & Ets) Hfr _ _ _ Hks _]. rewrite Ht in Ht'. injection Ht' as <-. exists t.
  split; [rewrite Ets, insert_other by lia; done|]. split; [done|]. rewrite Hfr, lookup_insert_ne; [done|]. rewrite Es.
  unfold stack_top, KERNEL_STACK_SIZE. lia.
Qed.

(** The program fits the smallest slots, four pages. *)
Definition fits_small (l : elf64_layout) : Prop := USER_CODE <= l.(virtual_base) /\ l.(virtual_end) <= USER_CODE + 16384.
Lemma small_fits m L p n l : boot_slot p n -> 4 <= n -> l.(virtual_base) < l.(virtual_end) -> fits_small l -> code_fits m L p l.
Proof.
  intros Hb Hn Hlt [H1 H2]. destruct (boot_slot_good _ _ Hb) as (_ & _ & E). unfold code_fits. rewrite (proj2 (Z.eqb_neq _ _)); [rewrite E; lia|].
  unfold USER_LARGE_CODE_BASE, USER_CODE in *. lia.
Qed.
Lemma image_length_lt image l : executable_image image l -> l.(virtual_base) < l.(virtual_end).
Proof. intros (_ & h & ps & _ & _ & H). exact H. Qed.


(** The slots lie where every address space maps physical memory to itself. *)
Definition low_slots (a : frame_allocator) : Prop :=
  4194304 <= a.(fa_next) /\ a.(fa_next) + 4096 * Z.of_nat (slots_size 7 0) <= USER_ANON_BASE.

(** The slots the boot code makes: a program can be loaded into each, and from the third on they do not grow. *)
Lemma boot_homes p0 a : has (slots_size 7 0) a -> low_slots a -> homes_fit (p0 :: ((fun s => slot_at_frame s.1 s.2) <$> slots_from 7 0 a.(fa_next))).
Proof.
  intros Ha [Hl1 Hl2]. set (l := (fun s => slot_at_frame s.1 s.2) <$> _).
  assert (Hget : forall q p, 1 <= q -> (p0 :: l).[q] = Some p -> boot_slot p (slot_code_pages (q - 1)) /\ slot_low p /\ q < 8).
  { intros q p Hq Hp. pose proof (aget_bound _ _ _ Hp) as Hb. change (length (p0 :: l)) with 8%nat in Hb.
    destruct (boot_slots a q Ha ltac:(lia)) as (p' & Hp' & Hb' & Hr'). assert (p' = p) as ->;
      [|split; [done|]; split; [|lia]; rewrite list.Forall_forall in Hr'; apply list.Forall_forall; intros x Hx; specialize (Hr' x Hx); lia].
    apply aget_Some in Hp as [_ Hp], Hp' as [_ Hp']. rewrite lookup_cons_ne_0 in Hp by lia. replace (pred (Z.to_nat q)) with (Z.to_nat (q - 1)) in Hp by lia.
    fold l in Hp'. congruence. }
  split.
  - intros q p Hq Hp. destruct (Hget q p Hq Hp) as (Hb & Hlo & _). destruct (boot_slot_good _ _ Hb) as (? & ? & _). done.
  - intros q q' p p' Hq Hqq Hp Hp'. destruct (Hget q p ltac:(lia) Hp) as (Hb & _ & Hq8), (Hget q' p' ltac:(lia) Hp') as (Hb' & _ & _).
    destruct (boot_slot_good _ _ Hb) as (_ & _ & ->), (boot_slot_good _ _ Hb') as (_ & _ & ->). unfold slot_code_pages, USERSPACE_CODE_PAGES. cbv zeta.
    destruct (Z.eqb_spec (q' - 1) 2), (Z.ltb_spec (q' - 1) 2), (Z.eqb_spec (q - 1) 2), (Z.ltb_spec (q - 1) 2); lia.
Qed.

Lemma boot_vacant ps a pg s space s0 : scheduler_init space s0 = Some s -> vacant s (userspace_init_memory ps a pg).
Proof.
  intros Hs q t Ht Hq _. destruct (init_first_free _ _ _ Hs) as [_ Hlen]. apply aget_bound in Ht.
  cbn [process_memory_used large_code_page_table userspace_init_memory]. rewrite !aget_replicate by lia. done.
Qed.

(** One of the first two programs is loaded. *)
Lemma load_founder frames s w pid p nm image l : core_base frames s w -> vacant s w.(w_memory) -> first_free s pid -> pid = 1 \/ pid = 2 ->
  w.(w_memory).(process_memory).[pid] = Some p -> boot_slot p (slot_code_pages (pid - 1)) -> length s.(tasks) = 8%nat -> readable_name nm ->
  bytes_ok image -> executable_image image l -> fits_small l -> s.(current_pid) = 0 ->
  exists s' w', load_process pid 0 nm p image bootstrap_services s w = Some (true, s', w') /\ core_base frames s' w' /\ vacant s' w'.(w_memory) /\
    loaded_process s s' w w' pid p 0 image bootstrap_services /\ w'.(w_memory).(process_memory) = w.(w_memory).(process_memory).
Proof.
  intros Hc Hv Hfree Hpid Hp Hb Hlen Hnm Hby Him Hfit Hcur. destruct (first_free_unused _ _ Hfree) as (t & Ht & Hu).
  destruct (Hv pid t Ht ltac:(lia) Hu) as [V1 V2]. destruct (boot_slot_good _ _ Hb) as (G1 & G2 & G3).
  assert (Hidle : idle_slot w.(w_memory) pid p) by (split; [lia|done..]).
  destruct (ko_memory _ _ (co_kernel _ _ _ Hc)) as (ar & L & g & Hm).
  destruct (load_process_ok frames s w pid p 0 nm image bootstrap_services L g Hc Hidle (kernel_reachable s p Hcur) Hfree ltac:(lia) Hnm Hby (mo_frames _ _ _ _ _ _ _ Hm))
    as (b & s1 & w1 & E & Hc1 & Hyes & Hat & Hres).
  assert (b = true) as ->.
  { apply Hyes. split; [done|]. exists l. split; [done|]. eapply small_fits; [exact Hb| |by eapply image_length_lt|done].
    destruct Hpid as [-> | ->]; vm_compute; discriminate. }
  exists s1, w1. split; [exact E|]. split; [done|]. split; [eapply loaded_vacant; [exact Hv| |exact Hres|exact Hat|]; lia|]. split; [done|apply Hat].
Qed.

(** The program's entry point is the image's. *)
Lemma visible_entry image en space pg l : executable_image image l -> program_visible image en space pg -> en = l.(entry_point).
Proof.
  intros (_ & h & ps & Him & -> & _) (h1 & ps1 & ? & ? & (_ & Hi1 & _) & -> & _). by destruct (image_of_unique _ _ _ _ _ Him Hi1) as [-> _].
Qed.

Lemma userspace_init_ok display kernel_pdpt a pg n fs space s0 s image l :
  boot_ok display kernel_pdpt a pg -> low_slots a -> Z.of_nat n < 4294967296 -> Z.of_nat (length fs.(storage)) = kRamfsStorageMax ->
  scheduler_init space s0 = Some s -> s0.(cr3) = space -> bytes_ok image -> executable_image image l -> fits_small l ->
  exists ps a' pg' s' w', allocate_processes 7 0 display kernel_pdpt a pg = Some (Some ps, a', pg') /\
    userspace_init ps a' image s (booted_machine n ps a' pg' fs).(m_sub) = Some (true, s', w') /\
    system_ok (avail a') s' (set_sub w' (booted_machine n ps a' pg' fs)) /\
    (forall pid, pid = 1 \/ pid = 2 -> starts_at s' pid l.(entry_point) /\ w'.(w_caps).(assigned_services).[pid] = Some bootstrap_services) /\
    forall pid, 3 <= pid < 8 -> w'.(w_memory).(process_memory_used).[pid] = Some false /\
      exists p, w'.(w_memory).(process_memory).[pid] = Some p /\ boot_slot p (slot_code_pages (pid - 1)).
Proof.
  intros Hboot Hlow Hn Hfs Hs Hcr Hb Him Hfit. destruct (boot_processes_ok display kernel_pdpt a pg Hboot) as (ps & pg' & E & Eps & Hr & _).
  set (a' := advance (slots_size 7 0) a) in *. pose proof (booted_base n ps a' pg' fs space s0 s Hr Hn Hs Hcr) as Hbase.
  set (m0 := booted_machine n ps a' pg' fs) in *. destruct (init_idle _ _ _ Hs) as (Hi & _ & Hcur & Hu). destruct (init_first_free _ _ _ Hs) as [Hfree Hlen].
  destruct (boot_slots a 1 (bo_frames _ _ _ _ Hboot) ltac:(lia)) as (p1 & Hp1 & Hb1 & _). destruct (boot_slots a 2 (bo_frames _ _ _ _ Hboot) ltac:(lia)) as (p2 & Hp2 & Hb2 & _).
  rewrite <- Eps in Hp1, Hp2.
  pose proof (is_slot _ _ _ (boot_idle ps a' pg' 1 p1 _ Hp1 ltac:(lia) Hb1)) as Hm1. pose proof (is_slot _ _ _ (boot_idle ps a' pg' 2 p2 _ Hp2 ltac:(lia) Hb2)) as Hm2.
  exists ps, a', pg'. fold m0. unfold userspace_init. cbv zeta.
  change (set_memory (userspace_init_memory ps a' (w_memory (m_sub m0)).(UserMemory.pages)) m0.(m_sub)) with m0.(m_sub).
  change (userspace_init_memory ps a' pg') with (w_memory (m_sub m0)) in Hm1, Hm2. rewrite Hm1. cbn [mbind option_bind].
  destruct (load_founder _ s m0.(m_sub) 1 p1 name_init image l Hbase (boot_vacant ps a' pg' s space s0 Hs) Hfree ltac:(by left) Hm1 Hb1 Hlen
    ltac:(left; vm_compute; set_solver) Hb Him Hfit Hcur) as (s1 & w1 & -> & Hc1 & Hvac1 & [(en1 & Hcr1 & Hv1) Hsv1 Hcp1 Hus1] & Hpm).
  cbn [mbind option_bind negb]. rewrite Hpm, Hm2. cbn [mbind option_bind].
  destruct (first_free_next s s1 1 _ _ _ _ Hi ltac:(intros q t Ht Hq; by eapply Hu) ltac:(lia) ltac:(lia) Hlen Hfree Hcr1) as [Hfree2 _].
  assert (Hlen1 : length s1.(tasks) = 8%nat) by (destruct Hcr1 as [(nm & ->) _ _ _ _ _ _]; by rewrite length_insert).
  destruct (load_founder _ s1 w1 2 p2 name_worker image l Hc1 Hvac1 Hfree2 ltac:(by right) ltac:(by rewrite Hpm) Hb2 Hlen1
    ltac:(left; vm_compute; set_solver) Hb Him Hfit ltac:(by rewrite (cr_current _ _ _ _ _ _ _ Hcr1))) as (s2 & w2 & E2 & Hc2 & Hvac2 & [(en2 & Hcr2 & Hv2) Hsv2 Hcp2 Hus2] & Hpm2).
  pose proof (visible_entry _ _ _ _ _ Him Hv1) as ->. pose proof (visible_entry _ _ _ _ _ Him Hv2) as ->.
  exists s2, w2. split; [done|]. split; [exact E2|]. split; [|split].
  - apply booted_system; [done|]. apply core_settled; [exact Hc2|exact Hvac2| |].
    + destruct Hcr1 as [(nm1 & Ets1) _ _ _ _ _ _], Hcr2 as [(nm2 & Ets2) _ _ _ _ _ _]. intros q [-> | ->].
      * rewrite Ets2, insert_other, Ets1, aget_insert by lia. rewrite decide_True by done. by eexists.
      * rewrite Ets2, aget_insert by lia. rewrite decide_True by done. by eexists.
    + rewrite Hpm2, Hpm. cbn [m0 booted_machine m_sub w_memory userspace_init_memory process_memory]. rewrite Eps. apply boot_homes; [apply Hboot|done].
  - intros pid [-> | ->].
    + split; [|rewrite Hcp2; cbn [assigned_services set_services]; rewrite insert_other by lia; done]. eapply (starts_later s1 s2 1 _ 2); [|lia|lia|lia| |exact Hcr2].
      * eapply created_starts; [|exact Hcr1]. lia.
      * destruct Hcr1 as [(nm & Ets) _ _ _ _ Hks _]. exists (new_task s 1 0 nm p1.(UserMemory.address_space)). rewrite Ets, aget_insert by lia. split; [by rewrite decide_True|].
        cbn [new_task saved_frame]. unfold stack_top. by rewrite Hks.
    + split; [|done]. eapply created_starts; [|exact Hcr2]. lia.
  - intros pid Hpid. split.
    + rewrite Hus2, insert_other, Hus1, insert_other by lia. cbn [m0 booted_machine m_sub w_memory userspace_init_memory process_memory_used].
      by rewrite aget_replicate by lia.
    + destruct (boot_slots a pid (bo_frames _ _ _ _ Hboot) ltac:(lia)) as (p & Hp & Hb' & _). rewrite <- Eps in Hp. exists p. split; [|done].
      rewrite Hpm2, Hpm. exact (is_slot _ _ _ (boot_idle ps a' pg' pid p _ Hp ltac:(lia) Hb')).
Qed.

Lemma ram_low : low_slots ram.
Proof. split; vm_compute; discriminate. Qed.

(** ** A program *)

(** An executable of four instructions' bytes that takes [n] bytes at [USER_CODE]. *)
Definition tiny_program (n : Z) : list Z :=
  [127; 69; 76; 70; 2; 1; 1; 0] ++ replicate 8 0 ++ le_bytes 2 2 ++ le_bytes 2 62 ++ le_bytes 4 1
  ++ le_bytes 8 USER_CODE ++ le_bytes 8 64 ++ le_bytes 8 0 ++ le_bytes 4 0 ++ le_bytes 2 64
  ++ le_bytes 2 56 ++ le_bytes 2 1 ++ replicate 6 0
  ++ le_bytes 4 1 ++ le_bytes 4 5 ++ le_bytes 8 120 ++ le_bytes 8 USER_CODE ++ le_bytes 8 USER_CODE
  ++ le_bytes 8 4 ++ le_bytes 8 n ++ le_bytes 8 4096 ++ [235; 254; 144; 195].

Lemma program_bytes n : bytes_ok (tiny_program n).
Proof.
  unfold bytes_ok, tiny_program. rewrite !Forall_app. split_and!; try apply le_bytes_ok; apply (bool_decide_unpack _); vm_compute; exact I.
Qed.
Lemma program_image n l : elf64_executable_layout (Some (tiny_program n)) = Some (Some l) -> executable_image (tiny_program n) l.
Proof. intros E. destruct (layout_ok _ (program_bytes n)) as (r & Hr & Hl). rewrite E in Hr. injection Hr as <-. by apply Hl. Qed.

Definition compact_layout : elf64_layout := Layout USER_CODE (USER_CODE + 8) USER_CODE.
Lemma compact_image : executable_image (tiny_program 8) compact_layout.
Proof. apply program_image. vm_compute. reflexivity. Qed.
Lemma compact_fits : fits_small compact_layout.
Proof. split; vm_compute; discriminate. Qed.
(** Five pages: too large for the first two slots. *)
Definition roomy_layout : elf64_layout := Layout USER_CODE (USER_CODE + 20000) USER_CODE.
Lemma roomy_image : executable_image (tiny_program 20000) roomy_layout.
Proof. apply program_image. vm_compute. reflexivity. Qed.

(** The machine [ram_boots] describes, before any process. *)
Record ready (ps : list userspace_memory) (pg : phys) (s : sched) : Prop := {
  rd_boot : allocate_processes 7 0 None 0 ram ram_pages = Some (Some ps, advance (slots_size 7 0) ram, pg);
  rd_init : scheduler_init 0 boot = Some s;
  rd_core : core_base (avail (advance (slots_size 7 0) ram)) s (booted_machine 2048 ps (advance (slots_size 7 0) ram) pg blank_ramfs).(m_sub);
  rd_memory : exists L g, frames_inv (avail (advance (slots_size 7 0) ram)) (userspace_init_memory ps (advance (slots_size 7 0) ram) pg) L g /\
    Z.of_nat (length L) = 98;
  rd_slots : forall pid, 1 <= pid < 8 -> exists p, ps.[pid - 1] = Some p /\ boot_slot p (slot_code_pages (pid - 1)) /\
    idle_slot (userspace_init_memory ps (advance (slots_size 7 0) ram) pg) pid p;
  rd_free : first_free s 1;
  rd_unused : forall q t, s.(tasks).[q] = Some t -> 1 <= q -> t.(state) = UNUSED;
  rd_kernel : s.(current_pid) = 0
}.

Lemma machine_ready : exists ps pg s, ready ps pg s.
Proof.
  destruct (boot_processes_ok None 0 ram ram_pages ram_boots) as (ps & pg & E & Eps & Hr & _).
  destruct (scheduler_init_wf 0 boot) as (s & Es & _). exists ps, pg, s.
  set (a := advance (slots_size 7 0) ram) in *. pose proof (fresh_mem ps a pg 2048 Hr eq_refl) as Hm.
  split; [exact E|exact Es| | | |by eapply init_first_free| |by apply (init_idle _ _ _ Es)].
  - apply (booted_base 2048 ps a pg blank_ramfs 0 boot s Hr eq_refl Es eq_refl).
  - eexists _, _. split; [exact (mo_frames _ _ _ _ _ _ _ Hm)|]. subst a. vm_compute. reflexivity.
  - intros pid Hp. destruct (boot_slots ram pid (bo_frames _ _ _ _ ram_boots) Hp) as (p & Hg & Hb & _). rewrite <- Eps in Hg. exists p.
    split; [done|]. split; [done|]. by eapply boot_idle.
  - apply (init_idle _ _ _ Es).
Qed.

(** ** Properties *)

(** C11. The first two processes: on a machine with enough memory for the seven slots
    between 4 MiB and the anonymous window, where every address space maps it to itself,
    and an embedded program that fits four pages, starting user space succeeds, the
    system invariant holds, and init and worker are ready to enter user mode at the program's entry
    point with an empty stack and exactly the bootstrap services. *)
Theorem boot_starts_init display kernel_pdpt a pg n fs space s0 s image l :
  boot_ok display kernel_pdpt a pg -> low_slots a -> Z.of_nat n < 4294967296 -> Z.of_nat (length fs.(storage)) = kRamfsStorageMax ->
  scheduler_init space s0 = Some s -> s0.(cr3) = space -> bytes_ok image -> executable_image image l -> fits_small l ->
  exists ps a' pg' s' w', allocate_processes 7 0 display kernel_pdpt a pg = Some (Some ps, a', pg') /\
    userspace_init ps a' image s (booted_machine n ps a' pg' fs).(m_sub) = Some (true, s', w') /\
    system_ok (avail a') s' (set_sub w' (booted_machine n ps a' pg' fs)) /\
    forall pid, pid = 1 \/ pid = 2 -> starts_at s' pid l.(entry_point) /\ w'.(w_caps).(assigned_services).[pid] = Some bootstrap_services.
Proof.
  intros H1 Hl H2 H3 H4 H5 H6 H7 H8.
  destruct (userspace_init_ok display kernel_pdpt a pg n fs space s0 s image l H1 Hl H2 H3 H4 H5 H6 H7 H8) as (ps & a' & pg' & s' & w' & E & Ei & Hok & Hst & _).
  by exists ps, a', pg', s', w'.
Qed.

Lemma boot_starts_init_witness : exists s ps a' pg' s' w', scheduler_init 0 boot = Some s /\
  userspace_init ps a' (tiny_program 8) s (booted_machine 2048 ps a' pg' blank_ramfs).(m_sub) = Some (true, s', w') /\ starts_at s' 2 USER_CODE.
Proof.
  destruct (scheduler_init_wf 0 boot) as (s & Es & _).
  destruct (boot_starts_init None 0 ram ram_pages 2048 blank_ramfs 0 boot s (tiny_program 8) compact_layout ram_boots ram_low eq_refl blank_length Es eq_refl
    (program_bytes 8) compact_image compact_fits) as (ps & a' & pg' & s' & w' & _ & E & _ & H).
  exists s, ps, a', pg', s', w'. split; [exact Es|]. split; [exact E|]. apply (H 2). by right.
Defined.



(** When the slot that takes the program is not the one the scheduler hands out
    next, loading fails but leaves a process behind: the task of the other pid is ready
    at the program's entry point in the address space of the slot tried, while no slot
    is marked as used and no service is assigned. *)
Theorem skipped_slot_leaves_task frames s w pid d p t parent nm image mask L g l :
  core_base frames s w -> idle_slot w.(w_memory) d p -> reachable s p -> first_free s pid -> pid <> d -> s.(tasks).[d] = Some t -> t.(state) = UNUSED ->
  0 <= parent < 8 -> readable_name nm -> bytes_ok image -> frames_inv frames w.(w_memory) L g ->
  good_slot p = Some true -> executable_image image l -> code_fits w.(w_memory) L p l ->
  exists s' w', load_process d parent nm p image mask s w = Some (false, s', w') /\
    created s s' pid parent l.(entry_point) STACK_START p.(UserMemory.address_space) /\
    w'.(w_memory).(process_memory_used) = w.(w_memory).(process_memory_used) /\ w'.(w_caps) = w.(w_caps).
Proof.
  intros Hc Hidle Hreach Hfree Hne Ht Hu Hpar Hnm Hb Hi Hgood Him Hfit. pose proof Hidle as [H1 H2 H3 H4 H5].
  destruct (load_process_places frames s w d p parent nm image mask L g t Hc Hidle Hb Hi Ht Hu Hreach l Hgood Him Hfit) as (m & -> & Hpl & Hos & Hcm & _).
  unfold start_process. assert (Hp : m.(process_memory).[d] = Some p) by (by rewrite (os_process _ _ _ Hos)).
  destruct (map_ok frames m d p image _ H1 Hp Hpl) as (pg & E & _ & Hpl' & _). cbn [w_memory set_memory]. rewrite E. cbn [mbind option_bind].
  pose proof (pl_memory _ _ _ _ _ _ Hpl') as (L1 & g1 & o & base & fs & Hi' & Ho & _).
  destruct (create_user_exact s pid parent nm l.(entry_point) STACK_START p.(UserMemory.address_space)) as (s' & Es & Hcr); [apply Hc|apply Hc|done|done| |done| |done|].
  { by eapply placed_entry. }
  { destruct (frames_slot_page frames _ L1 g1 d p p.(UserMemory.address_space) Hi' H1 Hp) as (H0 & _); [by right|lia]. }
  unfold STACK_START in Es. rewrite Es. cbn [mbind option_bind]. rewrite (proj2 (Z.eqb_neq pid d)) by done. cbn [negb mbind option_bind].
  cbn [w_memory set_memory set_caps w_caps].
  destruct (frames_focus _ _ _ _ d Hi' H1) as (d' & o' & R & Ho' & Hf).
  destruct (large_release_inv frames _ L1 g1 d d' o' R Hi' H1 Ho' Hf) as (m' & L' & Er & _ & Hos' & _ & _). rewrite Er. cbn [mbind option_bind].
  eexists s', _. split; [done|]. split; [exact Hcr|]. split; [|done]. cbn [w_memory set_memory]. by rewrite (os_used _ _ _ Hos'), <- (os_used _ _ _ Hos).
Qed.

Lemma skipped_slot_leaves_task_witness : exists ps pg s p s' w', ready ps pg s /\
  load_process 3 0 name_init p (tiny_program 20000) 3 s (booted_machine 2048 ps (advance (slots_size 7 0) ram) pg blank_ramfs).(m_sub) = Some (false, s', w') /\
  created s s' 1 0 USER_CODE STACK_START p.(UserMemory.address_space).
Proof.
  destruct machine_ready as (ps & pg & s & Hr). destruct (rd_slots _ _ _ Hr 3 ltac:(lia)) as (p & Hp & Hb & Hid).
  destruct (rd_memory _ _ _ Hr) as (L & g & Hi & _). destruct (boot_slot_good _ _ Hb) as (Hgood & _ & E).
  destruct (aget_in s.(tasks) 3) as [t Ht]; [destruct (init_first_free _ _ _ (rd_init _ _ _ Hr)) as [_ ->]; lia|].
  destruct (skipped_slot_leaves_task _ s _ 1 3 p t 0 name_init (tiny_program 20000) 3 L g roomy_layout (rd_core _ _ _ Hr) Hid (kernel_reachable s p (rd_kernel _ _ _ Hr)) (rd_free _ _ _ Hr)
    ltac:(lia) Ht (rd_unused _ _ _ Hr 3 t Ht ltac:(lia)) ltac:(lia) ltac:(left; vm_compute; set_solver) (program_bytes 20000) Hi Hgood roomy_image) as (s' & w' & Hl & Hcr & _).
  - unfold code_fits. rewrite E. vm_compute. split; discriminate.
  - exists ps, pg, s, p, s', w'. split; [exact Hr|]. split; [exact Hl|exact Hcr].
Defined.
