(* ===== verification/SystemLive.v ===== *)
(** The running system: processes that spawn others, run, exit and are reaped, and
    what spawning does there. *)

From stdpp Require Import gmap.
From S2P Require Import Prelude LittleEndian BoundedTable BoundedTableSpec Ramfs RamfsNames RamfsSpec RamfsTheorems Surface SurfaceSpec Capability CapabilitySpec Input InputSpec Ipc IpcSpec Elf64 Elf64Spec.
From S2P Require Import PhysicalMemory UserMemory UserMemorySpec FramePool Paging FrameOwnership FrameInvariant PagingSpec MemoryInvariant SurfaceMapping UserAccess MemoryTheorems BootMemory.
From S2P Require Import Scheduler SchedulerSpec Kernel KernelSpec NewHandles KernelMemory WaitRoles SystemInvariant KernelTheorems Syscalls SyscallsSpec CallRules SystemSafety SystemRun SystemBoot.
From S2P Require Import Spawn SpawnCalls FrameBytes SpawnSpec LargeCodeSpec SpawnTheorems SpawnSafety SpawnBoot.

(** ** A machine with a program on its file system *)

Definition program_path : list Z := [112].
(** The files after boot, with a program under the name p. *)
Definition with_program (st : list Z) : option (bool * ramfs) :=
  ramfs_seed_reference (Some program_path) 1 (Some (tiny_program 8)) (Z.of_nat (length (tiny_program 8))) (ramfs_init (Ramfs [] st 0 0 0 0)).

Lemma program_seeded st : Z.of_nat (length st) = kRamfsStorageMax -> exists fs, with_program st = Some (true, fs) /\ ramfs_wf fs /\
  files_bytes (abs fs) /\ program_at fs program_path 1 (tiny_program 8).
Proof.
  intros Hst. destruct (ramfs_init_wf (Ramfs [] st 0 0 0 0) Hst) as [Hwf E0].
  destruct (ramfs_seed_reference_ok (ramfs_init (Ramfs [] st 0 0 0 0)) (Some program_path) 1 (Some (tiny_program 8)) (Z.of_nat (length (tiny_program 8))) Hwf)
    as (b & fs & E & Hwf' & Hs); [by split|split; lia|by vm_compute|]. unfold with_program. rewrite E.
  assert (b = true) as ->.
  { assert (fst <$> with_program st = Some true) as H by (vm_compute; reflexivity). unfold with_program in H. rewrite E in H. by injection H. }
  exists fs. split; [done|]. split; [done|]. destruct Hs as [[? _]|(r & m1 & Ho & d & n & c & id & -> & [= <-] & Hm & Hab)]; [done|].
  assert (Hc : contents (tiny_program 8) (Z.of_nat (length (tiny_program 8))) = tiny_program 8) by (unfold contents; by rewrite Nat2Z.id, firstn_all).
  rewrite Hc, E0 in *. assert (Hn : exists nm, path (Some program_path) 1 = Some nm /\ named m1 id nm).
  { destruct (path (Some program_path) 1) as [nm|]; [|by destruct Ho]. exists nm. split; [done|].
    destruct Ho as [[? ->]|(_ & _ & _ & _ & _ & ->)]; [done|]. exists []. apply lookup_insert_eq. }
  destruct Hn as (nm & Hp & c' & Hc'). rewrite Hm in Hc'. injection Hc' as <- <-. rewrite Hab. split.
  - apply map_Forall_insert_2; [exact (program_bytes 8)|]. eapply files_bytes_open; [|exact Ho]. apply map_Forall_empty.
  - split; [done|]. exists n, id. split; [done|]. rewrite Hab. apply lookup_insert_eq.
Qed.

(** User space has started on the machine [ram_boots] describes; [w] are its subsystems. *)
Record live (s : sched) (w : subsystems) (fs : ramfs) : Prop := {
  lv_system : forall m : machine, Z.of_nat (length m.(storage_bounce)) = STORAGE_BOUNCE_BYTES -> m.(m_sub) = w -> m.(m_fs) = fs ->
    system_ok (avail (advance (slots_size 7 0) ram)) s m;
  lv_program : program_at fs program_path 1 (tiny_program 8);
  lv_free : w.(w_memory).(process_memory_used).[3] = Some false;
  lv_slot : exists p, w.(w_memory).(process_memory).[3] = Some p /\ boot_slot p (slot_code_pages 2)
}.
Definition live_machine (w : subsystems) (fs : ramfs) : machine :=
  Machine w fs (replicate (Z.to_nat STORAGE_BOUNCE_BYTES) 0) 0 [] [] (Compositor 0 0 0).

Lemma machine_lives : exists s w fs, live s w fs.
Proof.
  destruct (scheduler_init_wf 0 boot) as (s0 & Es & _).
  destruct (userspace_init_ok None 0 ram ram_pages 2048 blank_ramfs 0 boot s0 (tiny_program 8) compact_layout ram_boots ram_low eq_refl blank_length Es eq_refl
    (program_bytes 8) compact_image compact_fits) as (ps & a' & pg' & s & w & Ea & _ & Hok & _ & Hslots).
  destruct (program_seeded blank_ramfs.(storage) blank_length) as (fs & _ & Hwf & Hby & Hat). exists s, w, fs.
  destruct (boot_processes_ok None 0 ram ram_pages ram_boots) as (ps2 & pg2 & E & _). rewrite Ea in E. injection E as _ -> _.
  split; [|done|apply (Hslots 3); lia|exact (proj2 (Hslots 3 ltac:(lia)))].
  intros m Hb Ew Ef. destruct Hok as [Hc _ _ _]. split; [by rewrite Ew|by rewrite Ef|done|by rewrite Ef].
Qed.

Lemma live_ok s w fs : live s w fs -> system_ok (avail (advance (slots_size 7 0) ram)) s (live_machine w fs).
Proof. intros Hl. apply (lv_system _ _ _ Hl); [|done|done]. cbn [storage_bounce live_machine]. by rewrite length_replicate. Qed.

(** ** Properties *)


Definition quiet : environment := Environment 0 [0; 0; 0; 0] 0 None 0 false false (fun _ => 0).
(** A process stores a path, spawns and launches the program there and exits, as the timer
    strikes and a key arrives. *)
Definition live_events : list (environment * event) := (fun ev => (quiet, ev)) <$>
  [Start; Trap (call_frame 4 0 0 0 0); Store USER_HEAP program_path; Trap (call_frame 11 USER_HEAP 1 0 0); Timer (call_frame 0 0 0 0 0);
   Device no_event; Trap (call_frame 50 USER_HEAP 1 0 0); Trap (call_frame 2 0 0 0 0); Trap (call_frame 99 0 0 0 0)].
Lemma live_events_ok : Forall event_ok live_events.
Proof. repeat constructor; try done; vm_compute; intros H; discriminate H. Qed.



