(* ===== verification/SurfaceTail.v ===== *)
(** The end of a surface mapping: the range check of the system-call boundary accepts
    addresses of a mapping's slot that no page backs. *)

From stdpp Require Import gmap.
From S2P Require Import Prelude Surface SurfaceSpec Capability CapabilitySpec PhysicalMemory UserMemory UserMemorySpec FramePool Paging FrameOwnership AddressSpace.
From S2P Require Import FrameInvariant PagingSpec SurfaceMapSpec MemoryInvariant SurfaceMapping UserAccess MemoryTheorems BootMemory SpawnSpec SpawnTheorems SpawnBoot.

Section slot.
Context (frames : list Z).

(** An address of the slot, beyond the mapped pages. *)
Definition in_tail (slot n va : Z) : Prop := USER_SURFACE_MAP_SLOT_BASE slot + 4096 * n <= va < USER_SURFACE_MAP_SLOT_BASE slot + 4096 * 300.

Lemma slot_base slot : 0 <= slot < 4 -> USER_SURFACE_MAP_SLOT_BASE slot = 402653184 + 2097152 * slot.
Proof. intros H. unfold USER_SURFACE_MAP_SLOT_BASE, USER_SURFACE_MAP_BASE, USER_SURFACE_MAP_SLOT_STRIDE. lia. Qed.

Lemma tail_accepted m L g pid p ids slot id n va :
  frames_inv frames m L g -> 1 <= pid < 8 -> m.(process_memory).[pid] = Some p -> m.(mapped_surface).[pid] = Some ids ->
  ids.[slot] = Some id -> id <> 0 -> 0 <= slot < 4 -> 0 <= n -> in_tail slot n va -> user_range pid va 1 m = Some true.
Proof.
  intros Hi Hpid Hp Hids Hid H0 Hs Hn Hva. unfold in_tail in Hva. rewrite slot_base in Hva by done.
  unfold user_range. destruct (write_range_total pid va 1 m) as ([] & ->); [apply Hi|lia|done|].
  cbn [mbind option_bind]. rewrite (proj2 (bad_pid_spec pid ltac:(lia))) by lia. cbn [orb].
  assert (inside USER_SURFACE_MAP_BASE (USER_SURFACE_MAP_BASE + USER_SURFACE_MAP_REGION_SIZE) va 1 = true) as ->.
  { unfold inside, USER_SURFACE_MAP_REGION_SIZE, USER_SURFACE_MAP_BASE, USER_SURFACE_MAP_SLOTS, USER_SURFACE_MAP_SLOT_STRIDE. lia. }
  cbn [negb]. replace ((va - USER_SURFACE_MAP_BASE) / USER_SURFACE_MAP_SLOT_STRIDE) with slot by (unfold USER_SURFACE_MAP_BASE, USER_SURFACE_MAP_SLOT_STRIDE; zlia).
  rewrite (proj2 (Z.ltb_lt slot USER_SURFACE_MAP_SLOTS)) by (unfold USER_SURFACE_MAP_SLOTS; lia). cbn [negb]. rewrite Hids. cbn [mbind option_bind].
  rewrite Hid. cbn [mbind option_bind]. rewrite (proj2 (Z.eqb_neq id 0)) by done. cbn [negb andb]. f_equal. apply Z.leb_le.
  rewrite slot_base by done. unfold USER_SURFACE_MAP_SLOT_STRIDE. lia.
Qed.

Lemma tail_absent m L g pid p t slot n va :
  frames_inv frames m L g -> 1 <= pid < 8 -> m.(process_memory).[pid] = Some p ->
  word m.(pages) p.(page_directory) (SURFACE_INDEX + slot) = Some (t + 7) -> t mod 4096 = 0 ->
  (forall i, n <= i < 300 -> word m.(pages) t i = Some 0) ->
  0 <= slot < 4 -> 0 <= n -> in_tail slot n va -> load_user m.(pages) p.(UserMemory.address_space) va = None.
Proof.
  intros Hi Hpid Hp Hd Ht Hw Hs Hn Hva. unfold in_tail in Hva. rewrite slot_base in Hva by done.
  destruct (space_chain frames m L g Hi pid p Hpid Hp) as (t3 & W1 & W2 & _ & _ & _ & Hall).
  unfold slot_tables in Hall. rewrite !list.Forall_cons in Hall. destruct Hall as ((_ & A1) & (_ & A2) & (_ & A3) & _).
  unfold load_user. rewrite (walk_absent m.(pages) p.(UserMemory.address_space) t3 p.(page_directory) t va); try done.
  - rewrite <- Hd. f_equal. unfold SURFACE_INDEX. zlia.
  - apply Hw. zlia.
  - lia.
Qed.

(** A surface object the process can map next, [n] pages of it. *)
Record mappable (arena pid id n : Z) (m : user_memory) (L : list Z) (s : surfaces) : Prop := {
  mp_used : m.(process_memory_used).[pid] = Some true;
  mp_slot : exists ids k, m.(mapped_surface).[pid] = Some ids /\ id ∉ ids /\ ids.[k] = Some 0;
  mp_frame : L <> [];
  mp_object : exists o, live s (id - 1) o /\ o.(references) < U32_MAX /\ n = (o.(capacity_pixels) * 4 + 4095) / 4096 /\
    (arena + o.(offset_pixels) * 4) mod 4096 = 0
}.

Lemma mapping_data_live a s id o : surf_wf a s -> 1 <= id -> live s (id - 1) o ->
  exists s', surface_mapping_data id s = Some (Some (o.(offset_pixels) * 4, (o.(capacity_pixels) * 4 + 4095) / 4096), s') /\
    surf_wf a s' /\ s'.(objects) = s.(objects).
Proof.
  intros Hs Hid Hl. unfold surface_mapping_data. destruct (resolve_ok a s id Hs ltac:(lia)) as (r & -> & Hr). cbn [mbind option_bind].
  destruct r as [o'|]; [|by apply Hr in Hl]. destruct Hr as [[Ho _] _]. destruct Hl as [Ho' _]. rewrite Ho in Ho'. injection Ho' as ->.
  eexists. split; [done|]. split; [by apply wf_count|done].
Qed.
Lemma retain_live a s id o : surf_wf a s -> 1 <= id -> live s (id - 1) o -> o.(references) < U32_MAX ->
  exists s', surface_retain id s = Some (true, s').
Proof.
  intros Hs Hid Hl Hr. unfold surface_retain. destruct (resolve_ok a s id Hs ltac:(lia)) as (r & -> & H). cbn [mbind option_bind].
  destruct r as [o'|]; [|by apply H in Hl]. destruct H as [[Ho Ha] _], Hl as [Ho' _]. rewrite Ho in Ho'. injection Ho' as ->.
  rewrite (proj2 (Z.eqb_neq _ _)) by lia. rewrite (update_object_eq _ _ _ o) by (by split). by eexists.
Qed.

(** Mapping it succeeds, with exactly [n] pages in the slot's table. *)
Lemma map_surface_pages a c s m L g arena pid p id n :
  mem_ok frames a c s m L g -> 1 <= pid < 8 -> 1 <= id -> m.(process_memory).[pid] = Some p -> mappable arena pid id n m L s -> 1 <= n <= 300 ->
  exists slot m' s' L' g' ids t, map_surface_readonly arena pid id m s = Some (Some (USER_SURFACE_MAP_SLOT_BASE slot), m', s') /\
    frames_inv frames m' L' g' /\ m'.(process_memory).[pid] = Some p /\ 0 <= slot < 4 /\
    m'.(mapped_surface).[pid] = Some ids /\ ids.[slot] = Some id /\
    word m'.(pages) p.(page_directory) (SURFACE_INDEX + slot) = Some (t + 7) /\ t mod 4096 = 0 /\
    forall i, n <= i < 300 -> word m'.(pages) t i = Some 0.
Proof.
  intros Hm Hpid Hid Hp [Hu (ids & k & Hids & Hno & H0) HL (o & Hlive & Href & En & Hal)] Hn.
  pose proof Hm as [Hi Hl Hrow]. pose proof (linked_surf _ _ _ _ Hl) as Hsw.
  destruct (map_surface_ok frames a c s m L g arena pid id Hm Hpid Hid) as (r & m' & s' & a' & L' & g' & E & Hm' & [Hos Hsl]).
  assert (exists slot t, r = Some (USER_SURFACE_MAP_SLOT_BASE slot) /\ 0 <= slot < 4 /\
    word m'.(pages) p.(page_directory) (SURFACE_INDEX + slot) = Some (t + 7) /\ t mod 4096 = 0 /\
    forall i, n <= i < 300 -> word m'.(pages) t i = Some 0) as (slot & t & -> & Hb & W & At & Hz).
  2: { destruct (Hsl _ eq_refl) as (slot' & ids' & Hb' & Es & Hr & Hx). rewrite !slot_base in Es by done. assert (slot' = slot) as -> by lia.
       exists slot, m', s', L', g', ids', t. split; [exact E|]. split; [apply Hm'|]. split; [by rewrite (os_process _ _ _ Hos)|]. done. }
  revert E. unfold map_surface_readonly. rewrite (proj2 (bad_pid_spec pid ltac:(lia))), Hu by lia. cbn [mbind option_bind negb].
  rewrite Hids. cbn [mbind option_bind].
  destruct (mapped_row m pid frames L g Hi Hpid) as (ids' & Hids' & Hlen). rewrite Hids in Hids'. injection Hids' as <-.
  destruct (find_slot_ok 4 0 id None ids) as (found & free & Ef & S1 & S2 & S3); [lia|lia|]. rewrite Ef. cbn [mbind option_bind].
  destruct found as [slot|].
  { destruct (S1 slot eq_refl) as [_ Hs]. exfalso. apply Hno. apply aget_Some in Hs as [_ Hs]. by apply list_elem_of_lookup_2 in Hs. }
  pose proof (aget_bound _ _ _ H0) as Hkb. destruct free as [slot|].
  2: { exfalso. apply (find_slot_free 4 0 id None ids k); [lia..|done|done]. }
  destruct (S3 slot eq_refl) as [[=]|[Hb Hz]]. destruct (mapping_data_live a s id o Hsw Hid Hlive) as (s1 & -> & Hsw1 & Eo). cbn [mbind option_bind].
  rewrite <- En, (proj2 (Z.eqb_neq n 0)), (proj2 (Z.ltb_ge USER_SURFACE_MAP_PAGES n)) by (unfold USER_SURFACE_MAP_PAGES; lia).
  change 4095 with (Z.ones 12). rewrite Z.land_ones by lia. change (2 ^ 12) with 4096. rewrite Hal. cbn [Z.eqb negb orb].
  assert (Hs1 : live s1 (id - 1) o) by (by unfold live; rewrite Eo).
  destruct (retain_live a s1 id o Hsw1 Hid Hs1 Href) as (s2 & ->). cbn [mbind option_bind negb].
  destruct (frames_focus _ _ _ _ pid Hi Hpid) as (d & ow & R & Ho & Hf). pose proof Hf as [F1 F2 F3 F4 F5 F6].
  assert (d = p.(page_directory)) as -> by (unfold directory_of in F1; rewrite Hp in F1; by injection F1).
  destruct (owned_surface_cells _ _ _ _ F2) as (ids' & Hc). assert (ids' = ids) as -> by (destruct Hc; congruence).
  destruct (focus_split _ _ _ _ _ _ _ _ Hf) as (_ & _ & _ & Hap).
  destruct (edit_ptes_ok m pid _ slot L ow.(o_surface) ids (arena + o.(offset_pixels) * 4) n true Hpid ltac:(lia) F1
    (fi_pool _ _ _ _ Hi) Hc (owned_surface _ _ _ _ F2) Hap) as (ok & m1 & L1 & ts1 & -> & Hed & Hw).
  cbn [mbind option_bind]. assert (ok = true) as -> by (apply Hed; by right). cbn [negb].
  destruct (Hw eq_refl) as (t & Ht & Hne & Hptes).
  pose proof (apart_touches _ _ _ _ _ (ed_touches _ _ _ _ _ _ _ _ _ _ Hed) (apart_perm _ _ _ _ (ed_perm _ _ _ _ _ _ _ _ _ _ Hed) Hap)) as Hap1.
  destruct (apart_dir _ _ _ t Hap1) as [_ (_ & Hta & _)]; [apply elem_of_app; right; by eapply held_in|].
  destruct (set_mapped_slot_step m1 pid ts1 ids slot id (ed_cells _ _ _ _ _ _ _ _ _ _ Hed) ltac:(lia)) as (m2 & -> & _ & Epg & _).
  cbn [mbind option_bind]. intros [= <- <- <-]. exists slot, t. split; [done|]. split; [lia|]. rewrite Epg.
  split; [by apply (surface_dir _ _ _ _ (ed_tables _ _ _ _ _ _ _ _ _ _ Hed))|]. split; [done|].
  intros i Hi'. rewrite Hptes by lia. unfold surface_pte. by rewrite (proj2 (Z.ltb_ge i n)) by lia.
Qed.
End slot.

(** ** Property *)

(** C37. A system call can be made to crash the kernel with the end of a surface mapping:
    after a process maps a surface of fewer than 300 pages (the largest one is 300), the
    range check accepts every address between the surface's last page and the 300th page
    of the slot, and reading that address in the process's address space faults. *)
Theorem surface_tail_faults frames a c s m L g arena pid p id n :
  mem_ok frames a c s m L g -> 1 <= pid < 8 -> 1 <= id -> m.(process_memory).[pid] = Some p -> mappable arena pid id n m L s -> 1 <= n < 300 ->
  exists slot m' s', map_surface_readonly arena pid id m s = Some (Some (USER_SURFACE_MAP_SLOT_BASE slot), m', s') /\
    forall va, in_tail slot n va -> user_range pid va 1 m' = Some true /\ load_user m'.(pages) p.(UserMemory.address_space) va = None.
Proof.
  intros Hm Hpid Hid Hp Hmp Hn. destruct (map_surface_pages frames a c s m L g arena pid p id n Hm Hpid Hid Hp Hmp ltac:(lia))
    as (slot & m' & s' & L' & g' & ids & t & E & Hi & Hp' & Hs & Hids & Hx & W & At & Hz).
  exists slot, m', s'. split; [exact E|]. intros va Hva.
  split; [by apply (tail_accepted frames m' L' g' pid p ids slot id n va); (done || lia)|].
  by apply (tail_absent frames m' L' g' pid p t slot n va); (done || lia).
Qed.

(** The first process of the booted machine, its slot mapped and in use, and one surface. *)
Definition in_use (pid : Z) (pg : phys) (m : user_memory) : user_memory := set_used (<[Z.to_nat pid := true]> m.(process_memory_used)) (set_pages pg m).
Lemma process_in_use : exists ps pg s p pg', ready ps pg s /\ ps.[0] = Some p /\ exists a L g,
  mem_ok (avail (advance (slots_size 7 0) ram)) a capabilities_init cap_demo_surf (in_use 1 pg' (userspace_init_memory ps (advance (slots_size 7 0) ram) pg)) L g /\ L <> [].
Proof.
  destruct machine_ready as (ps & pg & s & Hr). destruct (rd_slots _ _ _ Hr 1 ltac:(lia)) as (p & Hp & Hb & [I1 I2 I3 I4 I5]).
  destruct (rd_memory _ _ _ Hr) as (L & g & Hi & HL). set (m := userspace_init_memory ps (advance (slots_size 7 0) ram) pg) in *.
  destruct (map_slot_ok p m (slot_shaped (avail (advance (slots_size 7 0) ram)) m L g 1 p Hi I1 I2)) as (pg' & _ & Ht & Hl).
  { apply (frames_slot_page (avail (advance (slots_size 7 0) ram)) m L g 1 p); [done..|by left]. }
  exists ps, pg, s, p, pg'. split; [exact Hr|]. split; [exact Hp|].
  pose proof (create_linked no_pins _ capabilities_init demo 1 2 2 (Some 1) cap_demo_surf
    no_pins_nonneg (initially_linked 2048 eq_refl) ltac:(lia) ltac:(lia) ltac:(lia) demo_created) as Hk.
  eexists _, L, g. split; [|intros E; rewrite E in HL; cbn in HL; lia]. split.
  - apply (frames_occupy (avail (advance (slots_size 7 0) ram)) (set_pages pg' m) L g 1 p); [by eapply frames_map_slot|done..].
  - eapply linked_ext; [|exact Hk]. intros k Hk'. unfold no_pins, pins_of. subst m. cbn. unfold count, filter. cbn. by rewrite !decide_False by lia.
  - cbn. repeat constructor; lia.
Qed.

Lemma surface_tail_faults_witness : exists p m slot m' s', map_surface_readonly 8388608 1 1 m cap_demo_surf = Some (Some (USER_SURFACE_MAP_SLOT_BASE slot), m', s') /\
  user_range 1 (USER_SURFACE_MAP_SLOT_BASE slot + 4096) 1 m' = Some true /\
  load_user m'.(pages) p.(UserMemory.address_space) (USER_SURFACE_MAP_SLOT_BASE slot + 4096) = None.
Proof.
  destruct process_in_use as (ps & pg & s & p & pg' & Hr & Hp & a & L & g & Hm & HL).
  set (m := in_use 1 pg' _) in *. assert (Hpm : m.(process_memory).[1] = Some p) by exact Hp.
  destruct (surface_tail_faults (avail (advance (slots_size 7 0) ram)) a capabilities_init cap_demo_surf m L g 8388608 1 p 1 1 Hm ltac:(lia) ltac:(lia) Hpm) as (slot & m' & s' & E & H); [|lia|].
  - split; [done| |exact HL|].
    + exists [0; 0; 0; 0], 0. split; [done|]. split; [|done]. apply (bool_decide_unpack _). vm_compute. exact I.
    + exists (default no_surface (cap_demo_surf.(objects).[0])). split; [split; [vm_compute; reflexivity|vm_compute; reflexivity]|].
      split; [vm_compute; reflexivity|]. split; vm_compute; reflexivity.
  - exists p, m, slot, m', s'. split; [exact E|]. apply (H (USER_SURFACE_MAP_SLOT_BASE slot + 4096)). unfold in_tail. lia.
Defined.
